(* ===== verification/_CoqProject ===== *)
-Q . S2P
Prelude.v
Tables.v
PyStr.v
Json.v
Digest.v
Time.v
Sorting.v
Base64.v
PyDict.v
Admission.v
WalletTypes.v
KernelDb.v
Events.v
Lifecycle.v
Actions.v
PayloadCodec.v
ModelDb.v
ModelResources.v
ModelLedger.v
Snapshots.v
Identity.v
SnapshotDelta.v
SnapshotArchive.v
SnapshotCompact.v
SnapshotRun.v
SnapshotSystem.v
SnapshotContinuity.v
SnapshotProgress.v
KernelSystem.v
KernelChain.v
KernelLife.v
KernelActions.v
KernelLedger.v
KernelRecovery.v
KernelWitness.v
ModelSystem.v
ModelEffects.v
ModelFacts.v
ModelBudget.v
ModelRuns.v
ModelWitness.v
SnapshotWitness.v
RegistryTypes.v
WalletTransfer.v
WalletDb.v
WalletEconomy.v
RegistryDb.v
RegistryStore.v
RegistryHistory.v
RegistryIntegrity.v
RegistryHealth.v
WalletOrders.v
WalletSubmissions.v
WalletExecution.v
WalletEngine.v
WalletIntegrity.v
WalletEffects.v
RegistryFrame.v
WalletSteps.v
WalletSystem.v
WalletLedger.v
WalletRecords.v
WalletVerify.v
WalletExecInv.v
WalletPolicy.v
WalletSafety.v
WalletOps.v
WalletSettlement.v
WalletData.v
WalletBalances.v
RegistryInv.v
RegistrySteps.v
RegistryUnique.v
RegistryVerify.v
RegistryPages.v
RegistryObservations.v
RegistryBreakdown.v
WalletScenario.v
RegistryScenario.v
WalletWitness.v
