(* ===== verification/Prelude.v ===== *)
(** * A verification of Noyra's wallet, runtime kernel and model ledger

    Noyra is a long-running agent runtime in Python over one SQLite
    database.  This library models, definition by definition, five of its
    subsystems and proves what makes them correct:

    - the _wallet economy_ ([src/src/noyra/wallet/economy.py], [execution.py]):
      bounties, submissions, payment orders under a payment policy, a
      double-entry ledger, and the engine that signs and broadcasts the
      payments through an external signer;
    - the _wallet registry_ ([src/src/noyra/wallet/store.py], [types.py]): the
      registered networks, assets and addresses with their revisions, the
      observed balances, their history in pages and their health;
    - the _runtime kernel_ ([src/src/noyra/core/]): the hash-chained event
      store, the lifecycle of a subject, the action ledger, and the admission
      gate that fences operations on pause, drain and migration;
    - the _state snapshots_ ([src/src/noyra/core/snapshots.py], [identity.py],
      [SubjectKernel.checkpoint] of [runtime.py]): the identity of a subject,
      the snapshots its checkpoints and deep sleeps take, and the compaction
      that moves old ones into compressed archives;
    - the _model ledger_ ([src/src/noyra/model/ledger.py]): the calls to model
      providers and their attempts, the daily budgets they are authorized
      under, recovery, the decisions of an operator about calls whose outcome
      is unknown, and the compression of old payloads.

    ** How the parts interact

    Every component works on the one database, inside
    [Database.transaction].  The lifecycle manager and, inside their own
    transactions, all other components append to the event store; the event
    store records training provenance for each event.  The action ledger
    reads the lifecycle state before it prepares an action and draws on the
    evidence counters.  The registry holds what the economy refers to: a
    payment order names a registered asset and the execution engine reads
    networks, addresses and the newest observed balance.  A checkpoint saves
    a snapshot, moves the pointer of the identity and appends an event in one
    transaction.  The model ledger reads the lifecycle state and the resource
    groups before it authorizes an attempt, draws on the evidence counters,
    and appends the decisions of an operator to the audit records.  The
    wallet's decision to accept a submission creates the
    payment order in the same transaction; its execution engine first
    commits a signing record, then calls the signer, and records the outcome
    in a second transaction, so that a crash in between is recovered as
    unknown.  The admission gate stands in front of all of them: an
    operation begins with a lease and commits only while the lease is
    current.

    ** Conventions

    A program that touches the database is a function of type [M D A]
    ([Prelude]): from a [world] (the tables, and how often the clock and the
    random source were read) to a result or an exception and a new world.
    [transaction] restores the tables on an exception.  Exceptions are values
    of [exn], one constructor per Python class.  A table is the list of its
    rows in rowid order ([Tables]); a query is a boolean condition, [ORDER BY]
    a stable sort.  Constraints and triggers of the schema are explicit
    checks before the write.  Integers are [Z]; the bounds SQLite and the
    code put on them are explicit tests.  What the code reads from outside
    (clocks, [uuid4], the signer, archived payloads, the process lock) is an
    argument: the classes [Digest], [Env], [Signer], [Host], [GateConfig],
    [HostNames] (the [idna] and [ipaddress] packages), [Zlib], [Process],
    [Deflate] ([zlib.compress] and [zlib.decompressobj]), [Endpoints] (the URL
    check of the settings model), [Calendar] (a date some days ago).  The
    theorems hold for every instance of them; a theorem that needs more of
    one says so.
    [SoundEnv] is what the registry asks of its environment: the clock
    prints a time with its zone, and [uuid4] gives 32 digits.  The theorems
    on archives and on runs of the model ledger assume that decompression
    undoes compression.  [Database.transaction] also enters the commit scope
    of the current lease and checks the private inputs of the current prompt:
    these can only make it raise before anything is written, which is a
    failed transaction here; the model ledger, where the check decides
    whether an outcome can still be recorded, has it as [guarded].

    ** Files

    Shared: [Prelude] (results, the store monad, [invert_ok], [solve_silent],
    the hint database [noyra]); [Tables]; [PyStr] (Python strings, [int()]);
    [Json] ([core/types.py]: [canonical_json], [strict_json_loads]);
    [Digest] ([content_hash], and SHA-256 itself for the witnesses); [Time]
    (ISO timestamps); [Sorting] (sorted lists, uniqueness of a sort);
    [Base64] (UTF-8 and the URL-safe alphabet, with their round trips);
    [PyDict] (dictionaries, Python's [==] on JSON values).  [PyStr] also has
    [validate_subject_id] of [core/identity.py].

    Kernel:
    - [Admission]: [RuntimeAdmissionGate] of [core/admission.py], method by
      method; [runtime_step] is a process at work: threads, the reentrant
      lock of the gate, the leases, the entered scopes, and threads asleep
      until a migration fence has drained.
    - [KernelDb]: the tables, hashes and statements the kernel uses.
    - [Events]: [EventStore] of [core/events.py] with [TrainingStore.record_event]
      of [core/storage.py] and [assert_event_sources_available].
    - [Lifecycle]: [LifecycleManager] and [_migration_epoch_guard].
    - [Actions]: [ActionLedger] and [core/evidence_capacity.py].
    - [KernelSystem]: these operations as one transition system, together
      with what other components may do to the same tables ([env_change]);
      frame lemmas.  [kreachable] starts from any database of the time
      before the chain ([legacy]), the empty one included.
    - [KernelChain], [KernelLife], [KernelActions], [KernelLedger],
      [KernelRecovery]: the theorems; [KernelWitness]: one concrete run, and
      the theorems applied to it.

    Snapshots:
    - [Snapshots]: the tables of identities, snapshots and archives beside
      the kernel's, with the foreign keys to a snapshot ([in_kernel] runs a
      program of the kernel in the same transaction), and [SnapshotStore];
      [Identity]: [IdentityStore], and the checkpoint, ownership and
      continuity methods of [SubjectKernel].  The callback of a compaction is a program that runs at each of the
      places where the code calls it: it stands for the other writers.
    - [SnapshotDelta], [SnapshotArchive], [SnapshotCompact], [SnapshotRun],
      [SnapshotProgress]: orders and cutoff, differences,
      what an archive gives back, safety, termination and completeness of a
      compaction.
    - [SnapshotSystem]: creating a subject, checkpoints, deep sleeps,
      renaming and compaction as one transition system, in which any of
      these may run between the transactions of a compaction ([step], [steps]);
      [SnapshotContinuity]: what holds of every reachable state.
    - [SnapshotWitness]: concrete runs and the theorems applied to them.

    Model ledger:
    - [PayloadCodec]: [core/payload_codec.py]; [ModelDb]: the tables beside
      the kernel's, and [core/private_sources.py]; [ModelResources]:
      [core/resource_policy.py], the readers of groups and keys of
      [CognitiveResourceStore] ([model/resources.py]), the records of
      [model/types.py] and the readers of calls and attempts.
    - [ModelLedger]: [ModelLedger], method by method.
    - [ModelSystem]: its operations, the erasure of private content and the
      writes of other components as one transition system ([mreachable]);
      [ModelEffects]: the seven changes a transaction of the ledger can make
      ([effect], [op_effect]); [ModelFacts]: what holds of every reachable
      ledger; [ModelBudget], [ModelRuns]: the theorems; [ModelWitness]: one
      call through a crash, an operator's retry and its success, and the
      theorems applied to it.

    Wallet:
    - [WalletTypes] ([economy_types.py], [wallet/types.py]), [WalletTransfer]
      (the EVM transfer of [execution.py]), [WalletDb] (tables, constraints,
      triggers, state hashes).
    - [WalletEconomy] (bounties), [WalletOrders] (orders, policy, ledger),
      [WalletSubmissions] (submissions, decisions, policy updates),
      [WalletIntegrity] ([ledger_balances], [verify_integrity]): together
      [WalletEconomyStore].
    - [WalletExecution], [WalletEngine]: [WalletPaymentExecutionEngine].
    - [WalletEffects], [WalletSteps]: what each operation does to the
      tables, and each operation as a sequence of transactions;
      [WalletSystem]: the transition system, crashes included.
    - [RegistryTypes] (inputs and validators of [wallet/types.py], with
      [urlsplit]), [RegistryDb] (tables, triggers, hashes, row readers),
      [RegistryStore] (register, revoke, observe, list), [RegistryHistory]
      (pages and cursors), [RegistryIntegrity] (the registry part of
      [verify_integrity]), [RegistryHealth] (health, breakdowns, summary):
      together [WalletStore].
    - [RegistryFrame], [RegistryInv], [RegistrySteps]: what each operation
      keeps of the registry, and the commands of the wallet and the registry,
      and foreign writes, as one transition system ([registry_reachable]).
    - [RegistryUnique], [RegistryVerify], [RegistryPages],
      [RegistryObservations], [RegistryBreakdown]: the theorems;
      [RegistryScenario]: concrete runs.
    - [WalletLedger], [WalletRecords], [WalletVerify], [WalletExecInv],
      [WalletPolicy], [WalletSafety], [WalletOps], [WalletSettlement],
      [WalletData], [WalletBalances]: the theorems; [WalletScenario],
      [WalletWitness]: one payment from the empty database to its
      settlement and beyond, and the theorems applied to it.

    ** What the theorems show

    Ledger and orders.  Every journal stands for one order and has one debit
    and one credit of its amount, and no entry is without a journal (C1); the wallet refines an abstract payment machine in
    which each status change posts its journal (C2; [order_journals_agree]);
    the books balance (C27) and the reserved balance is exactly what open
    orders have set aside ([reserved_is_set_aside]); closed orders stay closed
    ([closed_orders_final]) and the audit trail only grows
    ([history_append_only]); settlement happens at most once
    ([settled_at_most_once]).

    Bounties and submissions.  Slots are respected (C4) and orders correspond
    to accepted submissions ([orders_match_accepted]); submitting and creating
    are idempotent ([submit_idempotent], [create_idempotent]); an expired bounty refuses
    ([expired_bounty_refuses]); only an operator decides, and a failed
    operation leaves no trace ([operator_required],
    [failure_leaves_no_trace]); a policy update is a compare-and-swap
    ([policy_compare_and_swap]).

    Registry.  Every stored row reads back as it was written
    ([registry_rows_readable]); assets,
    addresses and observations stand on networks of their own subject, active
    ones on active networks, without duplicates (C16); the registry check
    passes in every reachable state and its counts are exact (C3).  A page
    cursor is accepted exactly when it encodes a valid cursor
    ([cursor_roundtrip]), and
    following the cursors visits every observation once and stops (C19).  The
    one-pass health equals its definition pair by pair (C24), and the
    breakdown by network or source adds up to it
    ([breakdown_partitions_health]).  The theorems on reading ask for
    networks whose URL re-validates to itself ([network_stable]); one that
    does not can never be read, revoked or checked again (C20), and its
    witness shows that the program accepts and stores such a URL.

    Payments.  An execution pays the right recipient the right amount (C8),
    with numbered attempts ([attempts_numbered]), unique nonces (C15), under a
    policy checked at reservation (C12) and again before the signer is called,
    which happens only then (C13), or not at
    all ([stopped_policy_refuses]);
    it is confirmed only by a valid receipt (C23); the transfer data encode
    the intent faithfully ([transfer_faithful]); recovery leaves nothing signing (C11).

    Verification code.  [verify_integrity] accepts exactly the consistent
    databases (C6) and every reachable one passes both checks (C7, C10); the
    tables of the code and the triggers agree ([transitions_agree]); canonical
    JSON is faithful (C30).  C31 exhibits a revoked payment that is debited twice.

    Gate.  A fenced lease stays fenced (C32), a drained fence is quiet
    ([drained_fence_is_quiet]), and what is committed is current whatever
    other threads do (C34); a thread that itself quarantines the runtime from
    inside its scope, which the reentrant lock permits, makes its own lease
    stale ([own_quarantine_stales]).

    Kernel.  The event chain of a reachable database verifies (C35) and is
    tamper evident up to a digest collision (C36); the lifecycle state is
    the end of a recorded sequence of permitted changes (C37); the action
    ledger passes its verification (C38), starts nothing twice (C39), and
    its recovery always completes (C40).

    Snapshots.  A difference between two states replays to the second
    exactly when no value changed between two that [==] takes for equal (C9).
    Compaction loses no snapshot whatever runs between its transactions (C5;
    [snapshots_kept] for the whole system): a removed row can be restored from
    an archive, and the retained number of newer ones is stored.  With a row
    budget it ends whatever its callback does ([compact_terminates]), left
    alone it does all of its work (C18), and a subject whose oldest snapshot
    is a deep-sleep checkpoint is not compacted, with or without a callback
    (C21).  In every reachable state
    [verify_continuity] and [verify_archives] pass (C17), and [latest] gives
    back what the last checkpoint saved ([checkpoint_latest]).  The states are taken from a
    class of values on which [==] is equality of texts ([distinguishes]):
    values without booleans are one ([no_bool_distinguishes]); C9 shows that
    some such condition is necessary, and [flag_lost] is a run without it.

    Model ledger.  While the limits of a resource group stay as they are, no
    sequence of operations takes a day's attempts, tokens or cost beyond an
    enforced limit, except for what providers report beyond the reservation
    (C14).  A call whose outcome is unknown stays unknown until an operator's
    decision about it is recorded (C22); recovery always returns and leaves
    no attempt or call of the subject open, a call becomes unknown exactly if
    it may have reached the provider, and no other row changes (C25).  Finished attempts and
    calls never change again and audit records are only appended (C26); an
    idempotency key names one request for good (C28); everything the ledger
    wrote can be read, with attempts numbered without gaps (C29);
    compressing old payloads is invisible to readers (C33).

    ** Bounds and fuel

    The JSON reader recurses on fuel [2 * length + 1]; [loads_canonical]
    shows that this is enough for every text the code writes.  SHA-256 pads
    and splits its input with fuel equal to the length of the input.
    [walk_pages] follows cursors for a given number of pages; C19 shows that
    [page_count], the number of rows divided by the page size and rounded up,
    is enough.  [compact] runs its loop with fuel: [compact_terminates] shows that
    [8 * n + 9] iterations are enough for a row budget [n], C18 that one more
    than the number of snapshots is enough without a budget when nobody
    interferes (without either bound the loop of the code can run for ever).
    All other recursion is structural, on lists of rows.

    ** Not modelled

    Characters above 255 and floating-point numbers: texts are lists of code
    points below 256, and [strict_json_loads] here raises on a float and on
    an escape above U+00FF, which the code's reader accepts; so the theorems
    are about databases without them (the code's [canonical_json] rejects
    only infinite floats and NaN).  The byte encodings other than UTF-8 that [json.loads] detects.  The recursion limit of Python on deeply nested
    JSON.  The last step of [WalletStore.verify_integrity], which calls the
    acquisition ledger.  Read-only listings ([EventStore.list],
    [causal_anomalies], [behavior_logs], the economy's list methods); the
    listings of the registry are definitions without a theorem.
    Threads other than those at the admission gate: a transaction is atomic.
    Balances recorded by the acquisition ledger ([wallet/acquisition.py])
    through [_record_balance_snapshot_connection] are not a step of the
    registry.  A signer that itself calls [authorize] again before it sends is
    one of the signers the theorems quantify over, with that second check
    inside its answer.  Files, locks, network clients, key storage and cryptography.
    The rest of the program (cognition, model gateways and providers, the
    routing between resource groups, interaction, HTTP
    service, archive and export, migration between hosts), which reaches the
    modelled tables only through the modelled operations or as [env_change],
    [model_env] and the wallet's [step_other] allow.

    Next, in this order: the acquisition ledger ([wallet/acquisition.py]),
    which records balances through the registry under leases; the reward
    workflow; the waiting cognitive tasks ([core/cognitive_waits.py]); migration epochs, to connect
    the admission gate with [_migration_epoch_guard]. *)

From Stdlib Require Export ssreflect ZArith Lia.
From stdpp Require Export base tactics numbers strings option list.

#[export] Set Warnings "-rewrite-rw,-clear-no-such-hyp".

(** ** Exceptions and results *)

(** The Python exceptions the modelled code raises: the built-in ones, then
    [src/src/noyra/core/errors.py], then [SqliteError] for
    [sqlite3.IntegrityError] (a violated constraint or a trigger that
    aborts), then those of the wallet's execution engine, its dispatch gate
    and the admission controller, those of the snapshot store
    ([_CompactionConflict], [zlib.error]), and those of
    [src/src/noyra/model/errors.py] with [InvitationWithdrawnError] and
    [PayloadLimitError]. *)
Inductive exn :=
| ValueError (msg : string)
| TypeError (msg : string)
| KeyError (msg : string)
| PermissionError (msg : string)
| RuntimeError (msg : string)
| OverflowError (msg : string)
| NotFoundError (msg : string)
| InvalidTransitionError (msg : string)
| DuplicateActionError (msg : string)
| EventConflictError (msg : string)
| IntegrityError (msg : string)
| SqliteError (msg : string)
| WalletExecutionError (msg : string)
| WalletRPCError (reason_code : string)
| WalletSignerError (reason_code : string)
| WalletBroadcastUnknownError (tx_hash : option string)
| WalletDispatchDenied (msg : string)
| OperationInvalidated (msg : string)
| RuntimeOwnershipError (msg : string)
| IdentityConflictError (msg : string)
| CompactionConflict
| ZlibError (msg : string)
| PayloadLimitError (msg : string)
| InvitationWithdrawnError (msg : string)
| BudgetExhaustedError (msg : string)
| ModelCallConflictError (msg : string)
| ModelCallStateError (msg : string)
| ModelAuthorizationError (msg : string)
| ModelLifecycleBlockedError (lifecycle : string)
| UnknownRetryResolutionEvidenceRequired (msg : string).

#[global] Instance exn_eq_dec : EqDecision exn.
Proof. solve_decision. Defined.

Inductive result (A : Type) :=
| Ok (a : A)
| Raise (e : exn).
Arguments Ok {_} _.
Arguments Raise {_} _.

#[global] Instance result_ret : MRet result := λ A a, Ok a.
#[global] Instance result_bind : MBind result := λ A B k r,
  match r with Ok a => k a | Raise e => Raise e end.

Definition is_ok {A} (r : result A) : bool :=
  match r with Ok _ => true | Raise _ => false end.

Definition of_option {A} (e : exn) (o : option A) : result A :=
  match o with Some a => Ok a | None => Raise e end.

(** ** The store monad *)

(** One process's view of the store: the tables [db], and how often the
    clock and the random source have been read.  The two counters only
    ever grow, also across a rollback: a rolled back transaction restores
    the tables, not the time. *)
Record world (D : Type) := World { db : D; tick : nat; fresh : nat }.
Arguments World {_} _ _ _.
Arguments db {_} _.
Arguments tick {_} _.
Arguments fresh {_} _.

Definition M (D A : Type) : Type := world D → result A * world D.

#[global] Instance M_ret D : MRet (M D) := λ A a w, (Ok a, w).
#[global] Instance M_bind D : MBind (M D) := λ A B k m w,
  match m w with
  | (Ok a, w') => k a w'
  | (Raise e, w') => (Raise e, w')
  end.

Section ops.
Context {D A : Type}.

Definition raise (e : exn) : M D A := λ w, (Raise e, w).
Definition lift (r : result A) : M D A := λ w, (r, w).
(** A query: a function of the tables. *)
Definition gets (f : D → A) : M D A := λ w, (Ok (f (db w)), w).
(** [Database.transaction]: the tables are restored on any exception. *)
Definition transaction (m : M D A) : M D A := λ w,
  match m w with
  | (Ok a, w') => (Ok a, w')
  | (Raise e, w') => (Raise e, World (db w) (tick w') (fresh w'))
  end.
(** [Database.read_transaction] around code that only reads. *)
Definition read_transaction (m : M D A) : M D A := transaction m.
(** [except <class> as error: raise <class'> ... from error]. *)
Definition rethrow (h : exn → exn) (m : M D A) : M D A := λ w,
  match m w with
  | (Ok a, w') => (Ok a, w')
  | (Raise e, w') => (Raise (h e), w')
  end.
(** [try: m except ...: h]; [h e] is [None] for an exception the handlers
    do not catch. *)
Definition catch (m : M D A) (h : exn → option (M D A)) : M D A := λ w,
  match m w with
  | (Ok a, w') => (Ok a, w')
  | (Raise e, w') =>
      match h e with Some m' => m' w' | None => (Raise e, w') end
  end.
End ops.

Definition modify {D} (f : D → D) : M D unit := λ w,
  (Ok tt, World (f (db w)) (tick w) (fresh w)).

(** [if b: raise e]. *)
Definition raise_if {D} (b : bool) (e : exn) : M D unit :=
  if b then raise e else mret tt.

(** [for x in l: f x]. *)
Fixpoint for_each {D A} (f : A → M D unit) (l : list A) : M D unit :=
  match l with
  | [] => mret tt
  | x :: l' => f x ;; for_each f l'
  end.

(** Reading the [n]-th value of a source (a clock, a random generator). *)
Definition read_clock {D A} (src : nat → A) : M D A := λ w,
  (Ok (src (tick w)), World (db w) (S (tick w)) (fresh w)).
Definition read_fresh {D A} (src : nat → A) : M D A := λ w,
  (Ok (src (fresh w)), World (db w) (tick w) (S (fresh w))).

(** A program on a part of the tables. *)
Definition within {D E A} (get : D → E) (set : E → D → D) (m : M E A) : M D A := λ w,
  match m (World (get (db w)) (tick w) (fresh w)) with
  | (r, w') => (r, World (set (db w') (db w)) (tick w') (fresh w'))
  end.

Declare Scope noyra_scope.
Delimit Scope noyra_scope with noyra.
Notation "x == y" := (bool_decide (x = y)) (at level 70, no associativity) : noyra_scope.
Notation "x =/= y" := (negb (bool_decide (x = y))) (at level 70, no associativity) : noyra_scope.
#[global] Open Scope noyra_scope.

(** ** Running programs: inversion and transactions *)

(** [ok m w a w'] : [m] returns [a] and leaves [w']. *)
Definition ok {D A} (m : M D A) (w : world D) (a : A) (w' : world D) : Prop :=
  m w = (Ok a, w').

Section run.
Context {D : Type}.

Lemma ok_bind {A B} (m : M D A) (k : A → M D B) w b w'' :
  ok (m ≫= k) w b w'' ↔ ∃ a w', ok m w a w' ∧ ok (k a) w' b w''.
Proof.
  unfold ok, mbind, M_bind. destruct (m w) as [[a|e] w'] eqn:E; split.
  - intros H. by exists a, w'.
  - intros (a' & w1 & [= <- <-] & H). exact H.
  - intros H. simplify_eq.
  - intros (a' & w1 & ? & _). simplify_eq.
Qed.
Lemma ok_ret {A} (a b : A) (w w' : world D) : ok (mret a) w b w' ↔ a = b ∧ w = w'.
Proof. unfold ok, mret, M_ret. naive_solver. Qed.
Lemma ok_raise {A} e (b : A) (w w' : world D) : ¬ ok (raise e) w b w'.
Proof. by unfold ok, raise. Qed.
Lemma ok_lift {A} (r : result A) b (w w' : world D) :
  ok (lift r) w b w' ↔ r = Ok b ∧ w = w'.
Proof. unfold ok, lift. naive_solver. Qed.
Lemma ok_gets {A} (f : D → A) b (w w' : world D) :
  ok (gets f) w b w' ↔ f (db w) = b ∧ w = w'.
Proof. unfold ok, gets. naive_solver. Qed.
Lemma ok_modify (f : D → D) u (w w' : world D) :
  ok (modify f) w u w' ↔ w' = World (f (db w)) (tick w) (fresh w).
Proof. unfold ok, modify. destruct u. naive_solver. Qed.
Lemma ok_raise_if b e u (w w' : world D) : ok (raise_if b e) w u w' ↔ b = false ∧ w = w'.
Proof. unfold ok, raise_if, raise, mret, M_ret. destruct b, u; naive_solver. Qed.
Lemma ok_transaction {A} (m : M D A) w a w' : ok (transaction m) w a w' → ok m w a w'.
Proof. unfold ok, transaction. destruct (m w) as [[]?]; naive_solver. Qed.
Lemma transaction_ok {A} (m : M D A) w a w' : ok m w a w' → ok (transaction m) w a w'.
Proof. unfold ok, transaction. intros E. by rewrite E. Qed.
Lemma ok_read_transaction {A} (m : M D A) w a w' :
  ok (read_transaction m) w a w' → ok m w a w'.
Proof. apply ok_transaction. Qed.
Lemma ok_rethrow {A} h (m : M D A) w a w' : ok (rethrow h m) w a w' → ok m w a w'.
Proof. unfold ok, rethrow. destruct (m w) as [[]?]; naive_solver. Qed.
Lemma ok_read_clock {A} (src : nat → A) b (w w' : world D) :
  ok (read_clock src) w b w' ↔ b = src (tick w) ∧ w' = World (db w) (S (tick w)) (fresh w).
Proof. unfold ok, read_clock. naive_solver. Qed.
Lemma ok_read_fresh {A} (src : nat → A) b (w w' : world D) :
  ok (read_fresh src) w b w' ↔ b = src (fresh w) ∧ w' = World (db w) (tick w) (S (fresh w)).
Proof. unfold ok, read_fresh. naive_solver. Qed.
Lemma ok_for_each {A} (f : A → M D unit) l u w w' :
  ok (for_each f l) w u w' ↔
  match l with
  | [] => w = w'
  | x :: l' => ∃ w1, ok (f x) w tt w1 ∧ ok (for_each f l') w1 tt w'
  end.
Proof.
  destruct u, l as [|x l]; simpl; [rewrite ok_ret; naive_solver|].
  rewrite ok_bind. split; [intros ([] & ?); naive_solver|naive_solver].
Qed.

(** A failed transaction leaves every table as it was. *)
Lemma transaction_rollback {A} (m : M D A) w e w' :
  transaction m w = (Raise e, w') → db w' = db w.
Proof. unfold transaction. destruct (m w) as [[]?]; naive_solver. Qed.

(** [keeps I m] : [m], if it returns, takes tables satisfying [I] to
    tables satisfying [I]. *)
Definition keeps {A} (I : D → Prop) (m : M D A) : Prop :=
  ∀ w a w', ok m w a w' → I (db w) → I (db w').
(** [preserves I m] : the same whether [m] returns or raises. *)
Definition preserves {A} (I : D → Prop) (m : M D A) : Prop :=
  ∀ w, I (db w) → I (db (m w).2).
(** [pure m] : [m], if it returns, leaves the tables alone. *)
Definition pure {A} (m : M D A) : Prop := ∀ w a w', ok m w a w' → db w' = db w.

Lemma preserves_transaction {A} I (m : M D A) : keeps I m → preserves I (transaction m).
Proof.
  intros H w HI. unfold transaction. destruct (m w) as [[a|e] w'] eqn:E; simpl; [|done].
  eapply H; eauto.
Qed.
Lemma preserves_bind {A B} I (m : M D A) (k : A → M D B) :
  preserves I m → (∀ a, preserves I (k a)) → preserves I (m ≫= k).
Proof.
  intros Hm Hk w HI. unfold mbind, M_bind. specialize (Hm w HI).
  destruct (m w) as [[a|e] w']; simpl in *; [by apply Hk|done].
Qed.
Lemma preserves_bind_ok {A B} I (m : M D A) (k : A → M D B) :
  preserves I m → (∀ w a w', ok m w a w' → preserves I (k a)) → preserves I (m ≫= k).
Proof.
  intros Hm Hk w HI. unfold mbind, M_bind. specialize (Hm w HI).
  destruct (m w) as [[a|e] w'] eqn:E; simpl in *; [by eapply Hk|done].
Qed.
Lemma preserves_catch {A} I (m : M D A) h :
  preserves I m → (∀ e m', h e = Some m' → preserves I m') → preserves I (catch m h).
Proof.
  intros Hm Hh w HI. unfold catch. specialize (Hm w HI).
  destruct (m w) as [[a|e] w']; simpl in *; [done|].
  destruct (h e) eqn:E; [by eapply Hh|done].
Qed.
Lemma preserves_for_each {A} I (f : A → M D unit) l :
  (∀ x, preserves I (f x)) → preserves I (for_each f l).
Proof.
  intros Hf. induction l as [|x l IH]; simpl; [by intros w|].
  by apply preserves_bind.
Qed.
Lemma keeps_bind {A B} I (m : M D A) (k : A → M D B) :
  keeps I m → (∀ a, keeps I (k a)) → keeps I (m ≫= k).
Proof. intros Hm Hk w b w'' (a & w' & H1 & H2)%ok_bind HI. eapply Hk; eauto. Qed.
Lemma keeps_pure {A} I (m : M D A) : pure m → keeps I m.
Proof. by intros H w a w' ->%H ?. Qed.
Lemma keeps_transaction {A} I (m : M D A) : keeps I m → keeps I (transaction m).
Proof. intros H w a w' ?%ok_transaction ?. eapply H; eauto. Qed.
Lemma keeps_modify I f : (∀ d, I d → I (f d)) → keeps I (modify f).
Proof. by intros H w u w' ->%ok_modify ?%H. Qed.
Lemma keeps_for_each {A} I (f : A → M D unit) l :
  (∀ x, keeps I (f x)) → keeps I (for_each f l).
Proof.
  intros Hf. induction l as [|x l IH]; intros w u w' H%ok_for_each HI; [by subst|].
  destruct H as (w1 & H1 & H2). eapply IH; eauto. eapply Hf; eauto.
Qed.

Lemma pure_bind {A B} (m : M D A) (k : A → M D B) :
  pure m → (∀ a, pure (k a)) → pure (m ≫= k).
Proof. intros Hm Hk w b w'' (a & w' & ?%Hm & ->%Hk)%ok_bind. done. Qed.
Lemma pure_ret {A} (a : A) : pure (mret a).
Proof. by intros w b w' [_ <-]%ok_ret. Qed.
Lemma pure_raise {A} e : pure (A:=A) (raise e).
Proof. by intros w b w' ?%ok_raise. Qed.
Lemma pure_lift {A} (r : result A) : pure (lift r).
Proof. by intros w b w' [_ <-]%ok_lift. Qed.
Lemma pure_gets {A} (f : D → A) : pure (gets f).
Proof. by intros w b w' [_ <-]%ok_gets. Qed.
Lemma pure_raise_if b e : pure (raise_if b e).
Proof. by intros w u w' [_ <-]%ok_raise_if. Qed.
Lemma pure_read_clock {A} (src : nat → A) : pure (read_clock src).
Proof. by intros w b w' [_ ->]%ok_read_clock. Qed.
Lemma pure_read_fresh {A} (src : nat → A) : pure (read_fresh src).
Proof. by intros w b w' [_ ->]%ok_read_fresh. Qed.
Lemma pure_rethrow {A} h (m : M D A) : pure m → pure (rethrow h m).
Proof. intros Hm w a w' ?%ok_rethrow. eapply Hm; eauto. Qed.
Lemma pure_transaction {A} (m : M D A) : pure m → pure (transaction m).
Proof. intros Hm w a w' ?%ok_transaction. eapply Hm; eauto. Qed.

(** [silent m] : [m] leaves the tables alone, whether it returns or raises. *)
Definition silent {A} (m : M D A) : Prop := ∀ w, db (m w).2 = db w.
Lemma preserves_silent {A} I (m : M D A) : silent m → preserves I m.
Proof. intros H w HI. by rewrite H. Qed.
Lemma silent_bind {A B} (m : M D A) (k : A → M D B) :
  silent m → (∀ a, silent (k a)) → silent (m ≫= k).
Proof.
  intros Hm Hk w. unfold mbind, M_bind. specialize (Hm w).
  destruct (m w) as [[a|e] w']; simpl in *; [by rewrite Hk|done].
Qed.
Lemma silent_ret {A} (a : A) : silent (mret a).
Proof. done. Qed.
Lemma silent_raise {A} e : silent (A:=A) (raise e).
Proof. done. Qed.
Lemma silent_lift {A} (r : result A) : silent (lift r).
Proof. done. Qed.
Lemma silent_gets {A} (f : D → A) : silent (gets f).
Proof. done. Qed.
Lemma silent_raise_if b e : silent (raise_if b e).
Proof. by destruct b. Qed.
Lemma silent_read_clock {A} (src : nat → A) : silent (read_clock src).
Proof. done. Qed.
Lemma silent_read_fresh {A} (src : nat → A) : silent (read_fresh src).
Proof. done. Qed.
Lemma silent_transaction {A} (m : M D A) : pure m → silent (transaction m).
Proof.
  intros Hm w. unfold transaction. destruct (m w) as [[a|e] w'] eqn:E; [|done].
  by apply Hm in E.
Qed.
Lemma silent_rethrow {A} h (m : M D A) : silent m → silent (rethrow h m).
Proof.
  intros Hm w. unfold rethrow. specialize (Hm w). by destruct (m w) as [[a|e] w'].
Qed.
Lemma silent_catch {A} (m : M D A) h :
  silent m → (∀ e m', h e = Some m' → silent m') → silent (catch m h).
Proof.
  intros Hm Hh w. unfold catch. specialize (Hm w).
  destruct (m w) as [[a|e] w']; simpl in *; [done|].
  destruct (h e) eqn:E; [by rewrite (Hh _ _ E)|done].
Qed.
Lemma silent_pure {A} (m : M D A) : silent m → pure m.
Proof. intros H w a w' E. specialize (H w). unfold ok in E. by rewrite E in H. Qed.
Lemma pure_catch {A} (m : M D A) h :
  silent m → (∀ e m', h e = Some m' → silent m') → pure (catch m h).
Proof. intros. by apply silent_pure, silent_catch. Qed.
End run.

Create HintDb noyra.
#[export] Hint Resolve silent_ret silent_raise silent_lift silent_gets silent_raise_if
  silent_read_clock silent_read_fresh silent_transaction silent_rethrow : noyra.
#[export] Hint Resolve pure_ret pure_raise pure_lift pure_gets pure_raise_if
  pure_read_clock pure_read_fresh pure_rethrow pure_transaction : noyra.
#[export] Hint Resolve keeps_pure : noyra.

(** [invert_ok] splits every hypothesis [ok prog w a w'] into the runs of
    the statements of [prog], case analysing the conditions it meets. *)
Ltac invert_ok_step :=
  match goal with
  | H : ok (mbind _ _) _ _ _ |- _ => apply ok_bind in H as (? & ? & ? & H)
  | H : ok (mret _) _ _ _ |- _ => apply ok_ret in H as [? ?]; subst
  | H : ok (raise _) _ _ _ |- _ => by apply ok_raise in H
  | H : ok (lift _) _ _ _ |- _ => apply ok_lift in H as [H ?]; subst
  | H : ok (gets _) _ _ _ |- _ => apply ok_gets in H as [H ?]; subst
  | H : ok (modify _) _ _ _ |- _ => apply ok_modify in H; subst
  | H : ok (raise_if _ _) _ _ _ |- _ => apply ok_raise_if in H as [H ?]; subst
  | H : ok (transaction _) _ _ _ |- _ => apply ok_transaction in H
  | H : ok (read_transaction _) _ _ _ |- _ => apply ok_read_transaction in H
  | H : ok (rethrow _ _) _ _ _ |- _ => apply ok_rethrow in H
  | H : ok (read_clock _) _ _ _ |- _ => apply ok_read_clock in H as [? ?]; subst
  | H : ok (read_fresh _) _ _ _ |- _ => apply ok_read_fresh in H as [? ?]; subst
  | H : ok (if ?b then _ else _) _ _ _ |- _ => destruct b eqn:?
  | H : ok (match ?o with _ => _ end) _ _ _ |- _ => destruct o eqn:?
  end.
Ltac invert_ok := repeat (invert_ok_step; simpl in * ).

(** [in_list] proves membership in a literal list. *)
Ltac in_list := apply list_elem_of_In; simpl; tauto.

(** [case_in H] : one goal per element of the literal list in [H : x ∈ l]. *)
Ltac case_in H :=
  repeat match type of H with
         | _ ∈ _ :: _ => apply elem_of_cons in H as [H|H]
         | _ ∈ [] => by apply not_elem_of_nil in H
         end.

(** [solve_silent] closes [silent prog] by the structure of [prog]. *)
Ltac solve_silent :=
  repeat first
    [ progress (eauto with noyra nocore)
    | apply silent_bind; [|intros ?]
    | match goal with
      | |- silent (if ?b then _ else _) => destruct b
      | |- silent (match ?o with _ => _ end) => destruct o
      end ].

(** [solve_pure] closes [pure prog] by the structure of [prog]. *)
Ltac solve_pure :=
  repeat first
    [ progress (eauto with noyra nocore)
    | apply pure_bind; [|intros ?]
    | match goal with
      | |- pure (if ?b then _ else _) => destruct b
      | |- pure (match ?o with _ => _ end) => destruct o
      end ].
