(* ===== verification/Tables.v ===== *)
(** * SQL tables as lists of rows

    A table is the list of its rows in [rowid] order.  A query is a
    boolean [WHERE] clause; an update rewrites the rows it selects.  The
    lemmas are the ones every component needs: what an update does to a
    look-up, to a count and to a sum, given that the primary key is unique. *)

From S2P Require Import Prelude.

(** Python integers outside 64 bits cannot be bound to a statement. *)
Definition bind_int {D} (z : Z) : M D unit :=
  raise_if ((z <? - 2 ^ 63) || (2 ^ 63 - 1 <? z))%Z
    (OverflowError "Python int too large to convert to SQLite INTEGER").

Lemma here {A} (x : A) l : x ∈ x :: l.
Proof. by apply elem_of_cons; left. Qed.
Lemma there {A} (x y : A) l : x ∈ l → x ∈ y :: l.
Proof. by intros; apply elem_of_cons; right. Qed.

Section table.
Context {R : Type}.
Implicit Types (p q : R → bool) (f : R → R) (t : list R).

(** [SELECT * FROM t WHERE p] and its [fetchone()]. *)
Definition select p t : list R := List.filter p t.
Definition fetchone p t : option R := List.find p t.
(** [SELECT count( * ) FROM t WHERE p]. *)
Definition count_where p t : Z := Z.of_nat (length (select p t)).
Definition exists_where p t : bool := existsb p t.
(** [UPDATE t SET ... WHERE p]. *)
Definition update_where p f t : list R := map (λ r, if p r then f r else r) t.
(** [INSERT INTO t]. *)
Definition append_row (r : R) t : list R := t ++ [r].
(** [for row in t: total += g(row)]. *)
Definition sum_by (g : R → Z) t : Z := foldr (λ r acc, (g r + acc)%Z) 0%Z t.

Lemma fetchone_Some p t r : fetchone p t = Some r → r ∈ t ∧ p r = true.
Proof. intros [H ?]%find_some. by rewrite list_elem_of_In. Qed.
Lemma fetchone_None p t : fetchone p t = None → ∀ r, r ∈ t → p r = false.
Proof. intros H r ?%list_elem_of_In. eapply find_none; eauto. Qed.
Lemma fetchone_is_Some p t r : r ∈ t → p r = true → is_Some (fetchone p t).
Proof.
  intros Hr Hp. destruct (fetchone p t) eqn:E; [eauto|].
  by rewrite (fetchone_None _ _ E r Hr) in Hp.
Qed.
Lemma elem_of_select p t r : r ∈ select p t ↔ r ∈ t ∧ p r = true.
Proof. unfold select. by rewrite !list_elem_of_In filter_In. Qed.
Lemma exists_where_true p t : exists_where p t = true ↔ ∃ r, r ∈ t ∧ p r = true.
Proof.
  unfold exists_where. rewrite existsb_exists.
  by setoid_rewrite list_elem_of_In.
Qed.
Lemma exists_where_false p t : exists_where p t = false ↔ ∀ r, r ∈ t → p r = false.
Proof.
  split.
  - intros H r Hr. destruct (p r) eqn:E; [|done].
    assert (exists_where p t = true) as E' by (apply exists_where_true; eauto).
    by rewrite E' in H.
  - intros H. destruct (exists_where p t) eqn:E; [|done].
    apply exists_where_true in E as (r & Hr & E). by rewrite (H r Hr) in E.
Qed.
Lemma elem_of_update p f t r :
  r ∈ update_where p f t ↔ ∃ r0, r0 ∈ t ∧ r = (if p r0 then f r0 else r0).
Proof. unfold update_where. rewrite list_elem_of_fmap. naive_solver. Qed.
Lemma elem_of_append r r0 t : r ∈ append_row r0 t ↔ r ∈ t ∨ r = r0.
Proof. unfold append_row. by rewrite elem_of_app list_elem_of_singleton. Qed.
Lemma Forall_update (P : R → Prop) p f t :
  Forall P t → (∀ r, r ∈ t → p r = true → P r → P (f r)) → Forall P (update_where p f t).
Proof.
  rewrite !Forall_forall. intros H Hf r (r0 & Hr0 & ->)%elem_of_update.
  destruct (p r0) eqn:E; eauto.
Qed.
Lemma Forall_append (P : R → Prop) r t : Forall P t → P r → Forall P (append_row r t).
Proof. intros. apply Forall_app; eauto. Qed.

Lemma map_update {B} (k : R → B) p f t :
  (∀ r, p r = true → k (f r) = k r) → map k (update_where p f t) = map k t.
Proof.
  intros H. unfold update_where. rewrite map_map. apply map_ext. intros r.
  destruct (p r) eqn:E; auto.
Qed.
Lemma map_append {B} (k : R → B) r t : map k (append_row r t) = map k t ++ [k r].
Proof. unfold append_row. by rewrite map_app. Qed.

Lemma select_append p r t :
  select p (append_row r t) = select p t ++ (if p r then [r] else []).
Proof. unfold select, append_row. rewrite List.filter_app. simpl. by destruct (p r). Qed.
Lemma select_app p t1 t2 : select p (t1 ++ t2) = select p t1 ++ select p t2.
Proof. apply List.filter_app. Qed.
Lemma count_append p r t :
  count_where p (append_row r t) = (count_where p t + (if p r then 1 else 0))%Z.
Proof.
  unfold count_where. rewrite select_append length_app.
  destruct (p r); simpl; lia.
Qed.
Lemma select_ext p q t : (∀ r, r ∈ t → p r = q r) → select p t = select q t.
Proof. intros H. apply filter_ext_in. intros r ?. by apply H, list_elem_of_In. Qed.
Lemma select_none p t : (∀ r, r ∈ t → p r = false) → select p t = [].
Proof.
  induction t as [|r t IH]; intros H; [done|]. unfold select. simpl.
  rewrite (H r (here _ _)). apply IH. intros; by apply H, there.
Qed.
Lemma select_update_false p q f t :
  (∀ r, r ∈ t → p r = true → q r = false ∧ q (f r) = false) →
  select q (update_where p f t) = select q t.
Proof.
  induction t as [|r t IH]; intros H; [done|].
  unfold select, update_where in *. simpl. rewrite IH; [intros; apply H; [by apply there|done]|].
  destruct (p r) eqn:E; [|done].
  destruct (H r (here _ _) E) as [-> ->]. done.
Qed.

Lemma sum_by_append g r t : sum_by g (append_row r t) = (sum_by g t + g r)%Z.
Proof.
  unfold append_row, sum_by. induction t as [|r' t IH]; simpl; lia.
Qed.
Lemma sum_by_app g t1 t2 : sum_by g (t1 ++ t2) = (sum_by g t1 + sum_by g t2)%Z.
Proof. induction t1 as [|r t1 IH]; simpl; [done|]. unfold sum_by in *. simpl. lia. Qed.
Lemma sum_by_ext g h t : (∀ r, r ∈ t → g r = h r) → sum_by g t = sum_by h t.
Proof.
  induction t as [|r t IH]; intros H; [done|]. unfold sum_by in *. simpl.
  rewrite (H r (here _ _)).
  rewrite IH; [|done]. intros; by apply H, there.
Qed.
Lemma sum_by_nonneg g t : (∀ r, r ∈ t → (0 <= g r)%Z) → (0 <= sum_by g t)%Z.
Proof.
  induction t as [|r t IH]; intros H; unfold sum_by in *; simpl; [lia|].
  pose proof (H r (here _ _)).
  specialize (IH ltac:(intros; by apply H, there)). lia.
Qed.

(** Rows addressed by a unique key. *)
Section key.
Context {K : Type} `{!EqDecision K} (k : R → K).

Lemma key_unique t r1 r2 :
  NoDup (map k t) → r1 ∈ t → r2 ∈ t → k r1 = k r2 → r1 = r2.
Proof.
  induction t as [|r t IH]; [by intros _ ?%not_elem_of_nil|]. simpl.
  rewrite NoDup_cons !elem_of_cons. intros [Hn Hd] [->|H1] [->|H2] E; auto.
  - destruct Hn. rewrite E. by apply list_elem_of_fmap_2.
  - destruct Hn. rewrite -E. by apply list_elem_of_fmap_2.
Qed.
Lemma fetchone_key t r :
  NoDup (map k t) → r ∈ t → fetchone (λ x, k x == k r) t = Some r.
Proof.
  intros Hd Hr. destruct (fetchone _ t) as [r'|] eqn:E.
  - apply fetchone_Some in E as [? ?%bool_decide_eq_true]. f_equal.
    eapply key_unique; eauto.
  - eapply fetchone_None in E; [|done]. by rewrite bool_decide_eq_false in E.
Qed.
Lemma NoDup_append r t :
  NoDup (map k t) → fetchone (λ x, k x == k r) t = None → NoDup (map k (append_row r t)).
Proof.
  intros Hd HN. rewrite map_append. apply NoDup_app. split; [done|]. split.
  - intros x (r' & -> & Hr')%list_elem_of_fmap ?%list_elem_of_singleton.
    eapply fetchone_None in HN; [|done]. by rewrite bool_decide_eq_false in HN.
  - apply NoDup_singleton.
Qed.

Lemma NoDup_map_snoc t r : NoDup (map k t) → k r ∉ map k t → NoDup (map k (t ++ [r])).
Proof.
  intros Hd Hn. rewrite map_app. apply NoDup_app. split; [done|]. split; [|apply NoDup_singleton].
  by intros x Hx ->%list_elem_of_singleton.
Qed.
Lemma NoDup_select p t : NoDup (map k t) → NoDup (map k (select p t)).
Proof.
  unfold select. induction t as [|x t IH]; simpl; intros Hk; [constructor|].
  apply NoDup_cons in Hk as [Hx Hk]. destruct (p x); [|by apply IH]. simpl.
  constructor; [|by apply IH]. intros (y & E & Hy%elem_of_select)%list_elem_of_fmap.
  apply Hx. rewrite E. by apply list_elem_of_fmap_2, Hy.
Qed.
Lemma sum_by_update_key g f t r :
  NoDup (map k t) → r ∈ t →
  sum_by g (update_where (λ x, k x == k r) f t) = (sum_by g t - g r + g (f r))%Z.
Proof.
  induction t as [|x t IH]; [by intros _ ?%not_elem_of_nil|]. simpl.
  rewrite NoDup_cons elem_of_cons. intros [Hn Hd] Hr. unfold sum_by, update_where in *. simpl.
  case_bool_decide as E.
  - assert (x = r) as ->.
    { destruct Hr as [->|Hr]; [done|]. destruct Hn. rewrite E. by apply list_elem_of_fmap_2. }
    enough (map (λ x, if k x == k r then f x else x) t = t) as -> by lia.
    rewrite -{2}(map_id t). apply map_ext_in.
    intros y ?%list_elem_of_In. case_bool_decide as E'; [|done].
    destruct Hn. rewrite -E'. by apply list_elem_of_fmap_2.
  - destruct Hr as [->|Hr]; [done|]. specialize (IH Hd Hr). lia.
Qed.

(** Rewriting one row of a table. *)
Definition replace_row (r r' : R) (t : list R) : list R :=
  update_where (λ x, k x == k r) (λ _, r') t.
Lemma update_key_replace f t r :
  NoDup (map k t) → r ∈ t →
  update_where (λ x, k x == k r) f t = replace_row r (f r) t.
Proof.
  intros Hd Hr. apply map_ext_in. intros x Hx%list_elem_of_In.
  case_bool_decide as E; [|done]. f_equal. eapply key_unique; eauto.
Qed.
Lemma elem_of_replace r r' t x :
  NoDup (map k t) → r ∈ t →
  x ∈ replace_row r r' t ↔ x = r' ∨ (x ∈ t ∧ x ≠ r).
Proof.
  intros Hd Hr. unfold replace_row. rewrite elem_of_update. split.
  - intros (y & Hy & ->). case_bool_decide as E; [by left|right].
    split; [done|congruence].
  - intros [->|[Hx Hn]]; [exists r; by rewrite bool_decide_true|].
    exists x. split; [done|]. rewrite bool_decide_false; [|done].
    intros E. apply Hn. eapply key_unique; eauto.
Qed.
Lemma map_replace {B} (g : R → B) r r' t :
  (∀ x, x ∈ t → k x = k r → g x = g r') → map g (replace_row r r' t) = map g t.
Proof.
  intros H. unfold replace_row, update_where. rewrite map_map. apply map_ext_in.
  intros x Hx%list_elem_of_In. case_bool_decide; [|done]. symmetry. by apply H.
Qed.
Lemma Forall_replace (P : R → Prop) r r' t :
  Forall P t → P r' → Forall P (replace_row r r' t).
Proof. intros H ?. by apply Forall_update. Qed.
Lemma select_replace_other q r r' t :
  (∀ x, x ∈ t → k x = k r → q x = false) → q r' = false →
  select q (replace_row r r' t) = select q t.
Proof.
  intros H Hr'. apply select_update_false. intros x Hx ?%bool_decide_eq_true.
  split; [by apply H|done].
Qed.

Lemma fetch_replace r r' t :
  NoDup (map k t) → r ∈ t → k r' = k r →
  fetchone (λ x, k x == k r) (replace_row r r' t) = Some r'.
Proof.
  intros Hd Hr E. rewrite -E. apply fetchone_key.
  - rewrite map_replace //. intros. congruence.
  - apply elem_of_replace; auto.
Qed.

Lemma sum_by_replace g r r' t :
  NoDup (map k t) → r ∈ t → sum_by g (replace_row r r' t) = (sum_by g t - g r + g r')%Z.
Proof. apply sum_by_update_key. Qed.

(** Splitting a table at a row: the row occurs exactly once. *)
Lemma select_key_singleton t r :
  NoDup (map k t) → r ∈ t → select (λ x, k x == k r) t = [r].
Proof.
  induction t as [|x t IH]; [by intros _ ?%not_elem_of_nil|]. simpl.
  rewrite NoDup_cons elem_of_cons. intros [Hn Hd] Hr. unfold select. simpl.
  case_bool_decide as E.
  - assert (x = r) as ->.
    { destruct Hr as [->|Hr]; [done|]. destruct Hn. rewrite E. by apply list_elem_of_fmap_2. }
    f_equal. apply (select_none (λ x, k x == k r)). intros y Hy. rewrite bool_decide_eq_false.
    intros E'. destruct Hn. rewrite -E'. by apply list_elem_of_fmap_2.
  - destruct Hr as [->|Hr]; [done|]. by apply IH.
Qed.
End key.
End table.

Lemma sum_by_map {R S} (g : S → Z) (f : R → S) l : sum_by g (map f l) = sum_by (λ r, g (f r)) l.
Proof. induction l as [|r l IH]; simpl; [done|]. by rewrite IH. Qed.

Lemma count_as_sum {R} (p : R → bool) t :
  count_where p t = sum_by (λ r, if p r then 1 else 0)%Z t.
Proof.
  unfold count_where, sum_by, select. induction t as [|r t IH]; simpl; [done|].
  rewrite -IH. destruct (p r); simpl; lia.
Qed.

Lemma sum_by_perm {R} (g : R → Z) t t' : t ≡ₚ t' → sum_by g t = sum_by g t'.
Proof. unfold sum_by. induction 1; simpl; lia. Qed.
Lemma count_perm {R} (p : R → bool) t t' : t ≡ₚ t' → count_where p t = count_where p t'.
Proof. intros H. rewrite !count_as_sum. by apply sum_by_perm. Qed.
Lemma count_map {R S} (f : R → S) p t : count_where p (map f t) = count_where (λ r, p (f r)) t.
Proof.
  rewrite !count_as_sum. unfold sum_by. induction t as [|r t IH]; simpl; [done|]. by rewrite IH.
Qed.
(** Double counting. *)
Lemma sum_by_plus {R} (g h : R → Z) t :
  sum_by (λ r, g r + h r)%Z t = (sum_by g t + sum_by h t)%Z.
Proof. unfold sum_by. induction t as [|r t IH]; simpl; [done|]. lia. Qed.
Lemma sum_by_swap {R S} (g : R → S → Z) t u :
  sum_by (λ r, sum_by (g r) u) t = sum_by (λ s, sum_by (λ r, g r s) t) u.
Proof.
  induction t as [|r t IH].
  - induction u as [|s u IHu]; [done|]. unfold sum_by in *. simpl in *. lia.
  - etrans; [|symmetry; apply (sum_by_plus (g r) (λ s, sum_by (λ r, g r s) t))].
    unfold sum_by in *. simpl. by rewrite IH.
Qed.
Lemma sum_by_const {R} (c : Z) (t : list R) :
  sum_by (λ _, c) t = (c * Z.of_nat (length t))%Z.
Proof. unfold sum_by. induction t as [|r t IH]; simpl; [lia|]. rewrite IH. lia. Qed.
Lemma count_key {R K} `{!EqDecision K} (k : R → K) (x : K) t :
  NoDup (map k t) →
  count_where (λ r, k r == x) t = if bool_decide (x ∈ map k t) then 1%Z else 0%Z.
Proof.
  intros Hd. case_bool_decide as Hx.
  - apply list_elem_of_fmap in Hx as (r & -> & Hr). unfold count_where.
    by rewrite (select_key_singleton k).
  - unfold count_where. rewrite select_none //. intros r Hr. apply bool_decide_eq_false.
    intros <-. apply Hx. by apply list_elem_of_fmap_2.
Qed.
Lemma count_replace {R K} `{!EqDecision K} (k : R → K) p r r' t :
  NoDup (map k t) → r ∈ t →
  count_where p (replace_row k r r' t)
  = (count_where p t - (if p r then 1 else 0) + (if p r' then 1 else 0))%Z.
Proof. intros. rewrite !count_as_sum. by apply sum_by_replace. Qed.

(** ** ORDER BY *)

(** Stable insertion sort: what [ORDER BY] and Python's [sorted] compute. *)
Section sort.
Context {R : Type} (leb : R → R → bool).

Fixpoint insert_sorted (x : R) (l : list R) : list R :=
  match l with
  | [] => [x]
  | y :: l' => if leb x y then x :: y :: l' else y :: insert_sorted x l'
  end.
Fixpoint sort_by (l : list R) : list R :=
  match l with
  | [] => []
  | x :: l' => insert_sorted x (sort_by l')
  end.

Lemma insert_sorted_perm x l : insert_sorted x l ≡ₚ x :: l.
Proof.
  induction l as [|y l IH]; simpl; [done|]. destruct (leb x y); [done|].
  rewrite IH. apply Permutation_swap.
Qed.
Lemma sort_by_perm l : sort_by l ≡ₚ l.
Proof. induction l as [|x l IH]; simpl; [done|]. by rewrite insert_sorted_perm IH. Qed.
Lemma elem_of_sort_by x l : x ∈ sort_by l ↔ x ∈ l.
Proof. by rewrite sort_by_perm. Qed.
End sort.
