(* ===== verification/PyStr.v ===== *)
(** * Python strings

    A Python [str] is a [string] whose characters are the code points
    0..255: the model covers text of the Latin-1 range, and every byte of a
    [string] is one code point.  The functions are the [str] methods,
    [int()], [str(int)] and the regular expressions the modelled code uses. *)

From Stdlib Require Import DecimalString DecimalZ.
From S2P Require Import Prelude.
Local Open Scope Z_scope.

Definition code (c : Ascii.ascii) : N := Ascii.N_of_ascii c.
Definition in_range (lo hi : N) (c : Ascii.ascii) : bool := (lo <=? code c)%N && (code c <=? hi)%N.

Definition is_digit : Ascii.ascii → bool := in_range 48 57.
Definition is_upper : Ascii.ascii → bool := in_range 65 90.
Definition is_lower : Ascii.ascii → bool := in_range 97 122.
Definition is_alnum (c : Ascii.ascii) : bool := is_digit c || is_upper c || is_lower c.
Definition is_hex (c : Ascii.ascii) : bool := is_digit c || in_range 65 70 c || in_range 97 102 c.
(** [str.isspace] on the code points below 256. *)
Definition is_space (c : Ascii.ascii) : bool :=
  in_range 9 13 c || in_range 28 32 c || (code c =? 133)%N || (code c =? 160)%N.

Fixpoint str_forallb (p : Ascii.ascii → bool) (s : string) : bool :=
  match s with
  | EmptyString => true
  | String c s' => p c && str_forallb p s'
  end.

(** [str.strip()]. *)
Fixpoint lstrip (s : string) : string :=
  match s with
  | EmptyString => EmptyString
  | String c s' => if is_space c then lstrip s' else s
  end.
Fixpoint rstrip (s : string) : string :=
  match s with
  | EmptyString => EmptyString
  | String c s' =>
      match rstrip s' with
      | EmptyString => if is_space c then EmptyString else String c EmptyString
      | s'' => String c s''
      end
  end.
Definition strip (s : string) : string := rstrip (lstrip s).
(** [not s.strip()]. *)
Definition blank (s : string) : bool := strip s == EmptyString.

(** [len(s)]. *)
Definition len (s : string) : Z := Z.of_nat (String.length s).

(** SQLite's [trim(s)], which strips the space character only. *)
Fixpoint sql_ltrim (s : string) : string :=
  match s with
  | String c s' => if (code c =? 32)%N then sql_ltrim s' else s
  | EmptyString => EmptyString
  end.
Fixpoint sql_rtrim (s : string) : string :=
  match s with
  | EmptyString => EmptyString
  | String c s' =>
      match sql_rtrim s' with
      | EmptyString => if (code c =? 32)%N then EmptyString else String c EmptyString
      | s'' => String c s''
      end
  end.
Definition sql_trim (s : string) : string := sql_rtrim (sql_ltrim s).

(** [s.lower()] on ASCII letters. *)
Definition lower_char (c : Ascii.ascii) : Ascii.ascii :=
  if is_upper c then Ascii.ascii_of_N (code c + 32) else c.
Fixpoint lower (s : string) : string :=
  match s with
  | EmptyString => EmptyString
  | String c s' => String (lower_char c) (lower s')
  end.

(** Python and SQLite ([BINARY]) compare text by code points. *)
Fixpoint str_ltb (a b : string) : bool :=
  match a, b with
  | EmptyString, String _ _ => true
  | String x a', String y b' =>
      if (code x =? code y)%N then str_ltb a' b' else (code x <? code y)%N
  | _, EmptyString => false
  end.
Definition str_leb (a b : string) : bool := negb (str_ltb b a).

(** [sep.join(parts)]. *)
Fixpoint join (sep : string) (parts : list string) : string :=
  match parts with
  | [] => EmptyString
  | [x] => x
  | x :: rest => x +:+ sep +:+ join sep rest
  end.

(** [str(z)] for an integer. *)
Definition show_Z (z : Z) : string := NilZero.string_of_int (Z.to_int z).

(** [int(s)]: surrounding white space, a sign, and decimal digits with
    single underscores between them; [None] is [ValueError]. *)
Fixpoint int_digits (acc : Z) (after_digit : bool) (s : string) : option Z :=
  match s with
  | EmptyString => if after_digit then Some acc else None
  | String c s' =>
      if is_digit c then int_digits (10 * acc + (Z.of_N (code c) - 48)) true s'
      else if (code c =? 95)%N && after_digit then int_digits acc false s'
      else None
  end.
Definition py_int (s : string) : option Z :=
  match strip s with
  | String c s' =>
      if (code c =? 45)%N then Z.opp <$> int_digits 0 false s'
      else if (code c =? 43)%N then int_digits 0 false s'
      else int_digits 0 false (String c s')
  | EmptyString => None
  end.

(** A decimal numeral: digits only, non-empty. *)
Definition numeral (s : string) : bool := (0 <? len s)%Z && str_forallb is_digit s.

Lemma int_digits_numeral acc b s :
  str_forallb is_digit s = true → (0 <= acc)%Z → (b = true ∨ s ≠ EmptyString) →
  ∃ v, int_digits acc b s = Some v ∧ (acc <= v)%Z.
Proof.
  revert acc b. induction s as [|c s IH]; intros acc b Hs Hacc Hb; simpl in *.
  - destruct Hb as [->|]; [|done]. exists acc. split; [done|lia].
  - apply andb_true_iff in Hs as [Hc Hs]. rewrite Hc.
    unfold is_digit, in_range in Hc. apply andb_true_iff in Hc as [Hl Hh].
    apply N.leb_le in Hl, Hh.
    destruct (IH (10 * acc + (Z.of_N (code c) - 48))%Z true) as (v & -> & Hv);
      [done|lia|by left|]. exists v. split; [done|lia].
Qed.

Lemma digit_not_space c : is_digit c = true → is_space c = false.
Proof.
  unfold is_digit, is_space, in_range. rewrite !andb_true_iff !N.leb_le. intros [? ?].
  rewrite !orb_false_iff !andb_false_iff !N.leb_gt !N.eqb_neq. lia.
Qed.

Lemma rstrip_no_space s :
  str_forallb (λ c, negb (is_space c)) s = true → rstrip s = s.
Proof.
  induction s as [|c s IH]; simpl; [done|]. intros [Hc Hs]%andb_true_iff.
  rewrite IH //. apply negb_true_iff in Hc. by destruct s; rewrite ?Hc.
Qed.
Lemma strip_no_space s : str_forallb (λ c, negb (is_space c)) s = true → strip s = s.
Proof.
  intros Hs. unfold strip. destruct s as [|c s]; [done|]. simpl in *.
  apply andb_true_iff in Hs as Hs'. destruct Hs' as [Hc _]. apply negb_true_iff in Hc.
  rewrite Hc. by apply (rstrip_no_space (String c s)).
Qed.
Lemma str_forallb_impl p q s :
  (∀ c, p c = true → q c = true) → str_forallb p s = true → str_forallb q s = true.
Proof.
  intros H. induction s as [|c s IH]; simpl; [done|]. rewrite !andb_true_iff. naive_solver.
Qed.

(** [int()] of a numeral reads its digits. *)
Lemma py_int_digits s : numeral s = true → py_int s = int_digits 0 false s.
Proof.
  unfold numeral, py_int. intros [Hl Hd]%andb_true_iff. rewrite strip_no_space.
  { eapply str_forallb_impl; [|done]. intros c ?%digit_not_space. by apply negb_true_iff. }
  destruct s as [|c s]; [done|]. simpl in Hd. apply andb_true_iff in Hd as Hd'.
  destruct Hd' as [Hc _]. unfold is_digit, in_range in Hc.
  apply andb_true_iff in Hc as [H1 H2]. apply N.leb_le in H1, H2.
  rewrite (proj2 (N.eqb_neq (code c) 45)); [lia|].
  by rewrite (proj2 (N.eqb_neq (code c) 43)); [lia|].
Qed.
(** [int()] accepts every numeral, with a non-negative value. *)
Lemma py_int_numeral s : numeral s = true → ∃ v, py_int s = Some v ∧ (0 <= v)%Z.
Proof.
  intros H. rewrite py_int_digits //. unfold numeral in H. apply andb_true_iff in H as [Hl Hd].
  apply int_digits_numeral; [done|lia|]. right. by intros ->.
Qed.
(** A numeral whose first digit is not zero has a positive value. *)
Lemma py_int_positive c s :
  numeral (String c s) = true → code c ≠ 48%N →
  ∃ v, py_int (String c s) = Some v ∧ (0 < v)%Z.
Proof.
  intros H Hc. rewrite py_int_digits //. unfold numeral in H.
  apply andb_true_iff in H as [_ [Hd Hs]%andb_true_iff]. simpl. rewrite Hd.
  unfold is_digit, in_range in Hd. apply andb_true_iff in Hd as [H1 H2].
  apply N.leb_le in H1, H2.
  destruct (int_digits_numeral (Z.of_N (code c) - 48) true s) as (v & Hv & ?);
    [done|lia|by left|].
  exists v. split; [|lia]. rewrite -Hv. by destruct (code c).
Qed.

(** ** The string order *)

Lemma code_inj x y : code x = code y → x = y.
Proof.
  unfold code. intros H. by rewrite -(Ascii.ascii_N_embedding x) H Ascii.ascii_N_embedding.
Qed.
Lemma str_ltb_irrefl a : str_ltb a a = false.
Proof. induction a as [|x a IH]; simpl; [done|]. by rewrite N.eqb_refl. Qed.
Lemma str_ltb_trans a b c : str_ltb a b = true → str_ltb b c = true → str_ltb a c = true.
Proof.
  revert b c. induction a as [|x a IH]; intros [|y b] [|z c]; simpl; try done.
  destruct (N.eqb_spec (code x) (code y)) as [E1|E1],
    (N.eqb_spec (code y) (code z)) as [E2|E2], (N.eqb_spec (code x) (code z)) as [E3|E3];
    rewrite ?N.ltb_lt; intros; try lia; eauto.
Qed.
Lemma str_ltb_total a b : str_ltb a b = false → str_ltb b a = false → a = b.
Proof.
  revert b. induction a as [|x a IH]; intros [|y b]; simpl; try done.
  destruct (N.eqb_spec (code x) (code y)) as [E|E].
  - rewrite E N.eqb_refl. intros. rewrite (code_inj _ _ E). f_equal. by apply IH.
  - rewrite (proj2 (N.eqb_neq (code y) (code x))); [done|]. rewrite !N.ltb_ge. lia.
Qed.

(** ** Subject identifiers ([core/identity.py]) *)

Definition subject_id_match (s : string) : bool :=
  match s with
  | String c s' =>
      is_alnum c
      && str_forallb (λ c, is_alnum c || (code c =? 95)%N || (code c =? 45)%N) s'
      && (2 <=? len s') && (len s' <=? 127)
  | EmptyString => false
  end.
Definition windows_reserved : list string :=
  ["aux"; "con"; "nul"; "prn"]
  ++ map (λ i, "com" +:+ show_Z i) [1; 2; 3; 4; 5; 6; 7; 8; 9]
  ++ map (λ i, "lpt" +:+ show_Z i) [1; 2; 3; 4; 5; 6; 7; 8; 9].
Definition validate_subject_id (s : string) : result string :=
  if negb (subject_id_match s) then
    Raise (ValueError "subject_id must be 3-128 ASCII characters: letters, digits, '_' or '-'")
  else if bool_decide (lower s ∈ windows_reserved) then
    Raise (ValueError "subject_id cannot be a reserved filesystem device name")
  else Ok s.
