(* ===== verification/Json.v ===== *)
(** * Canonical JSON ([src/src/noyra/core/types.py])

    The values the store persists as JSON text, the canonical printer
    [canonical_json] and the strict parser [strict_json_loads], with the
    round trip that the integrity hashes of every table rely on.  Numbers
    are integers: no column hashed by the modelled code holds a float. *)

From S2P Require Import Prelude Tables PyStr.
From Stdlib Require Import DecimalString DecimalN DecimalZ DecimalFacts DecimalPos.

Inductive json :=
| JNull
| JBool (b : bool)
| JInt (z : Z)
| JStr (s : string)
| JList (l : list json)
| JObj (m : list (string * json)).

(** Optional columns and lists of strings. *)
Definition JOpt (o : option string) : json :=
  match o with Some s => JStr s | None => JNull end.
Definition JStrs (l : list string) : json := JList (map JStr l).

Section json_ind.
Variable P : json → Prop.
Hypotheses (Hnull : P JNull) (Hbool : ∀ b, P (JBool b)) (Hint : ∀ z, P (JInt z))
  (Hstr : ∀ s, P (JStr s)) (Hlist : ∀ l, Forall P l → P (JList l))
  (Hobj : ∀ m, Forall (λ kv, P kv.2) m → P (JObj m)).
Fixpoint json_induction (j : json) : P j :=
  match j with
  | JNull => Hnull
  | JBool b => Hbool b
  | JInt z => Hint z
  | JStr s => Hstr s
  | JList l => Hlist l ((fix go l : Forall P l :=
      match l with [] => Forall_nil_2 _ | x :: l' => Forall_cons_2 _ _ _ (json_induction x) (go l') end) l)
  | JObj m => Hobj m ((fix go m : Forall (λ kv, P kv.2) m :=
      match m with
      | [] => Forall_nil_2 _
      | kv :: m' => Forall_cons_2 _ _ _ (json_induction kv.2) (go m')
      end) m)
  end.
End json_ind.

(** ** Printing *)

Definition chr (n : N) : Ascii.ascii := Ascii.ascii_of_N n.
Definition str1 (c : Ascii.ascii) : string := String c EmptyString.
Definition QUOTE : Ascii.ascii := chr 34.
Definition BSLASH : Ascii.ascii := chr 92.

Definition hex_digit (n : N) : Ascii.ascii := if (n <? 10)%N then chr (48 + n) else chr (87 + n).

(** One character of a JSON string literal ([ensure_ascii=False]). *)
Definition escape_char (c : Ascii.ascii) : string :=
  let n := code c in
  if (n =? 34)%N then String BSLASH (str1 QUOTE)
  else if (n =? 92)%N then String BSLASH (str1 BSLASH)
  else if (n =? 10)%N then String BSLASH (str1 (chr 110))
  else if (n =? 13)%N then String BSLASH (str1 (chr 114))
  else if (n =? 9)%N then String BSLASH (str1 (chr 116))
  else if (n =? 12)%N then String BSLASH (str1 (chr 102))
  else if (n =? 8)%N then String BSLASH (str1 (chr 98))
  else if (n <? 32)%N then
    String BSLASH (String (chr 117) (String (chr 48) (String (chr 48)
      (String (hex_digit (n / 16)) (str1 (hex_digit (n mod 16)))))))
  else str1 c.
Fixpoint escape (s : string) : string :=
  match s with
  | EmptyString => EmptyString
  | String c s' => escape_char c +:+ escape s'
  end.
Definition quote (s : string) : string := String QUOTE (escape s +:+ str1 QUOTE).

Definition key_leb {A} (a b : string * A) : bool := str_leb a.1 b.1.
Definition member (kt : string * string) : string := quote kt.1 +:+ ":" +:+ kt.2.

(** [json.dumps(value, allow_nan=False, ensure_ascii=False, sort_keys=True,
    separators=(",", ":"))]. *)
Fixpoint canonical_json (v : json) : string :=
  match v with
  | JNull => "null"
  | JBool true => "true"
  | JBool false => "false"
  | JInt z => show_Z z
  | JStr s => quote s
  | JList l => "[" +:+ join "," (map canonical_json l) +:+ "]"
  | JObj m =>
      "{" +:+ join "," (map member (sort_by key_leb (map (λ kv, (kv.1, canonical_json kv.2)) m)))
        +:+ "}"
  end.

(** ** Parsing *)

Definition is_ws (c : Ascii.ascii) : bool :=
  let n := code c in (n =? 32)%N || (n =? 9)%N || (n =? 10)%N || (n =? 13)%N.
Fixpoint skip_ws (s : string) : string :=
  match s with
  | String c s' => if is_ws c then skip_ws s' else s
  | EmptyString => EmptyString
  end.

Definition hex_val (c : Ascii.ascii) : option N :=
  let n := code c in
  if is_digit c then Some (n - 48)%N
  else if in_range 97 102 c then Some (n - 87)%N
  else if in_range 65 70 c then Some (n - 55)%N
  else None.

(** The four digits of [\uXXXX]; code points above 255 are outside the
    modelled range of text. *)
Definition hex4 (a b c d : Ascii.ascii) : option Ascii.ascii :=
  x ← hex_val a; y ← hex_val b; z ← hex_val c; u ← hex_val d;
  let n := (((x * 16 + y) * 16 + z) * 16 + u)%N in
  if (n <? 256)%N then Some (chr n) else None.

(** A string literal after its opening quote. *)
Fixpoint parse_string (s : string) : option (string * string) :=
  match s with
  | EmptyString => None
  | String c s' =>
      if (code c =? 34)%N then Some (EmptyString, s')
      else if (code c =? 92)%N then
        match s' with
        | EmptyString => None
        | String e s'' =>
            let n := code e in
            if (n =? 34)%N || (n =? 92)%N || (n =? 47)%N then
              '(t, r') ← parse_string s''; Some (String e t, r')
            else if (n =? 110)%N then '(t, r') ← parse_string s''; Some (String (chr 10) t, r')
            else if (n =? 114)%N then '(t, r') ← parse_string s''; Some (String (chr 13) t, r')
            else if (n =? 116)%N then '(t, r') ← parse_string s''; Some (String (chr 9) t, r')
            else if (n =? 102)%N then '(t, r') ← parse_string s''; Some (String (chr 12) t, r')
            else if (n =? 98)%N then '(t, r') ← parse_string s''; Some (String (chr 8) t, r')
            else if (n =? 117)%N then
              match s'' with
              | String a (String b (String c' (String d r))) =>
                  ch ← hex4 a b c' d; '(t, r') ← parse_string r; Some (String ch t, r')
              | _ => None
              end
            else None
        end
      else if (code c <? 32)%N then None
      else '(t, r) ← parse_string s'; Some (String c t, r)
  end.

Fixpoint scan_digits (s : string) : string * string :=
  match s with
  | String c s' =>
      if is_digit c then let '(d, r) := scan_digits s' in (String c d, r) else (EmptyString, s)
  | EmptyString => (EmptyString, EmptyString)
  end.
(** The integer literals of JSON: no leading zero, and no fraction or
    exponent (those are floats, outside the model). *)
Definition float_follows (r : string) : bool :=
  match r with
  | String c _ => (code c =? 46)%N || (code c =? 101)%N || (code c =? 69)%N
  | EmptyString => false
  end.
Definition leading_zero (d : string) : bool :=
  match d with String c (String _ _) => (code c =? 48)%N | _ => false end.
Definition parse_digits (sign : string) (s : string) : option (json * string) :=
  let '(d, r) := scan_digits s in
  if (d == EmptyString) || leading_zero d || float_follows r then None
  else i ← NilZero.int_of_string (sign +:+ d); Some (JInt (Z.of_int i), r).
Definition parse_number (s : string) : option (json * string) :=
  match s with
  | String c s' => if (code c =? 45)%N then parse_digits "-" s' else parse_digits "" s
  | EmptyString => None
  end.

Fixpoint strip_prefix (p s : string) : option string :=
  match p, s with
  | EmptyString, _ => Some s
  | String a p', String b s' => if (code a =? code b)%N then strip_prefix p' s' else None
  | _, EmptyString => None
  end.

(** [dict[key] = value]. *)
Fixpoint dict_set (k : string) (v : json) (m : list (string * json)) : list (string * json) :=
  match m with
  | [] => [(k, v)]
  | (k', v') :: m' => if k == k' then (k, v) :: m' else (k', v') :: dict_set k v m'
  end.

(** [json.loads], with fuel for the recursion: [2 * len + 1] is enough
    ([json_roundtrip]). *)
Fixpoint parse_value (n : nat) (s : string) : option (json * string) :=
  match n with
  | O => None
  | S n' =>
      match skip_ws s with
      | EmptyString => None
      | String c r =>
          if (code c =? 34)%N then '(t, r') ← parse_string r; Some (JStr t, r')
          else if (code c =? 91)%N then
            match strip_prefix "]" (skip_ws r) with
            | Some r' => Some (JList [], r')
            | None => parse_elems n' [] r
            end
          else if (code c =? 123)%N then
            match strip_prefix "}" (skip_ws r) with
            | Some r' => Some (JObj [], r')
            | None => parse_members n' [] r
            end
          else if (code c =? 110)%N then r' ← strip_prefix "ull" r; Some (JNull, r')
          else if (code c =? 116)%N then r' ← strip_prefix "rue" r; Some (JBool true, r')
          else if (code c =? 102)%N then r' ← strip_prefix "alse" r; Some (JBool false, r')
          else parse_number (String c r)
      end
  end
with parse_elems (n : nat) (acc : list json) (s : string) : option (json * string) :=
  match n with
  | O => None
  | S n' =>
      '(v, r) ← parse_value n' s;
      match skip_ws r with
      | String c r' =>
          if (code c =? 44)%N then parse_elems n' (acc ++ [v]) r'
          else if (code c =? 93)%N then Some (JList (acc ++ [v]), r')
          else None
      | EmptyString => None
      end
  end
with parse_members (n : nat) (acc : list (string * json)) (s : string) : option (json * string) :=
  match n with
  | O => None
  | S n' =>
      r0 ← strip_prefix (str1 QUOTE) (skip_ws s);
      '(k, r1) ← parse_string r0;
      r2 ← strip_prefix ":" (skip_ws r1);
      '(v, r) ← parse_value n' r2;
      match skip_ws r with
      | String c r' =>
          if (code c =? 44)%N then parse_members n' (dict_set k v acc) r'
          else if (code c =? 125)%N then Some (JObj (dict_set k v acc), r')
          else None
      | EmptyString => None
      end
  end.

(** [strict_json_loads]: every failure is a [ValueError].  The texts are
    those of the modelled values: a float and an escape above U+00FF, which
    the code accepts, raise here. *)
Definition strict_json_loads (s : string) : result json :=
  match parse_value (2 * String.length s + 1) s with
  | Some (v, r) =>
      if skip_ws r == EmptyString then Ok v else Raise (ValueError "Extra data")
  | None => Raise (ValueError "invalid JSON")
  end.

(** ** The round trip *)

(** Python dictionaries have distinct keys, at every level. *)
Fixpoint wf_json (v : json) : Prop :=
  match v with
  | JList l => foldr and True (map wf_json l)
  | JObj m => NoDup (map fst m) ∧ foldr and True (map (λ kv, wf_json kv.2) m)
  | _ => True
  end.
(** The value with the members of every object in key order. *)
Fixpoint norm (v : json) : json :=
  match v with
  | JList l => JList (map norm l)
  | JObj m => JObj (sort_by key_leb (map (λ kv, (kv.1, norm kv.2)) m))
  | _ => v
  end.

Lemma str_app_assoc (a b c : string) : (a +:+ b) +:+ c = a +:+ (b +:+ c).
Proof. induction a as [|x a IH]; [done|].
  change (String x ((a +:+ b) +:+ c) = String x (a +:+ (b +:+ c))). by rewrite IH. Qed.
Lemma str_length_app (a b : string) :
  String.length (a +:+ b) = String.length a + String.length b.
Proof. induction a as [|x a IH]; simpl; [done|]. by rewrite IH. Qed.
Lemma len_app (a b : string) : len (a +:+ b) = (len a + len b)%Z.
Proof. unfold len. rewrite str_length_app. lia. Qed.

Lemma parse_escape_char c t :
  parse_string (escape_char c +:+ t) = '(u, r) ← parse_string t; Some (String c u, r).
Proof. destruct c as [[] [] [] [] [] [] [] []]; reflexivity. Qed.
Lemma parse_escape s r : parse_string (escape s +:+ String QUOTE r) = Some (s, r).
Proof.
  induction s as [|c s IH]; simpl; [done|].
  by rewrite str_app_assoc parse_escape_char IH.
Qed.

(** What may follow a value: nothing that extends a numeral. *)
Definition delimited (r : string) : Prop :=
  match r with
  | EmptyString => True
  | String c _ => (code c =? 44)%N || (code c =? 93)%N || (code c =? 125)%N = true
  end.

Lemma scan_digits_app d r :
  str_forallb is_digit d = true → delimited r → scan_digits (d +:+ r) = (d, r).
Proof.
  intros Hd Hr. induction d as [|c d IH]; simpl in *.
  - destruct r as [|c r]; [done|]. simpl in *.
    destruct (is_digit c) eqn:E; [|done]. exfalso.
    unfold is_digit, in_range in E. apply andb_true_iff in E as [E1 E2].
    apply N.leb_le in E1, E2. rewrite !orb_true_iff !N.eqb_eq in Hr. lia.
  - apply andb_true_iff in Hd as [-> Hd]. by rewrite (IH Hd).
Qed.
Lemma delimited_no_float r : delimited r → float_follows r = false.
Proof.
  destruct r as [|c r]; [done|]. simpl. rewrite !orb_true_iff !N.eqb_eq.
  intros H. rewrite !orb_false_iff !N.eqb_neq. lia.
Qed.
Lemma uint_digits u : str_forallb is_digit (NilEmpty.string_of_uint u) = true.
Proof. by induction u. Qed.
Lemma uint_nonempty u : u ≠ Decimal.Nil → NilEmpty.string_of_uint u ≠ EmptyString.
Proof. by destruct u. Qed.
Lemma pos_to_uint_head p u : Pos.to_uint p ≠ Decimal.D0 u.
Proof.
  intros E. pose proof (DecimalN.Unsigned.to_of (Pos.to_uint p)) as H.
  unfold N.of_uint in H. rewrite Unsigned.of_to in H. simpl in H.
  rewrite E in H. assert (Decimal.nzhead (Decimal.D0 u) ≠ Decimal.Nil) as Hn.
  { intros Hz%unorm_0. rewrite -H in Hz. rewrite Hz in E.
    by apply (Unsigned.to_uint_nonzero p). }
  rewrite (unorm_nzhead _ Hn) in H. by apply (nzhead_nonzero (Decimal.D0 u) u).
Qed.
Lemma uint_no_leading_zero p :
  leading_zero (NilEmpty.string_of_uint (Pos.to_uint p)) = false.
Proof.
  pose proof (pos_to_uint_head p) as H.
  destruct (Pos.to_uint p) as [|u|u|u|u|u|u|u|u|u|u]; [done|by destruct (H u)|..];
    by destruct u.
Qed.

(** A scanned numeral is read back. *)
Lemma parse_digits_uint sign u i r :
  u ≠ Decimal.Nil → leading_zero (NilEmpty.string_of_uint u) = false →
  NilZero.int_of_string (sign +:+ NilEmpty.string_of_uint u) = Some i → delimited r →
  parse_digits sign (NilEmpty.string_of_uint u +:+ r) = Some (JInt (Z.of_int i), r).
Proof.
  intros Hu Hz Hi Hr. unfold parse_digits.
  rewrite scan_digits_app; [apply uint_digits|done|].
  rewrite (bool_decide_eq_false_2 _ (uint_nonempty _ Hu)) Hz delimited_no_float //=.
  by rewrite Hi.
Qed.
Lemma parse_number_show z r : delimited r → parse_number (show_Z z +:+ r) = Some (JInt z, r).
Proof.
  intros Hr. unfold show_Z. pose proof (of_to z) as Hz.
  destruct z as [|p|p]; simpl in *.
  - by apply (parse_digits_uint "" (Decimal.D0 Decimal.Nil) (Decimal.Pos Decimal.zero)).
  - pose proof (Unsigned.to_uint_nonnil p) as Hn.
    assert (NilZero.string_of_uint (Pos.to_uint p) = NilEmpty.string_of_uint (Pos.to_uint p))
      as -> by (by destruct (Pos.to_uint p)).
    assert (NilZero.int_of_string (NilEmpty.string_of_uint (Pos.to_uint p))
      = Some (Decimal.Pos (Pos.to_uint p))) as Hi.
    { rewrite -(NilZero.isi (Decimal.Pos (Pos.to_uint p))); [congruence..|].
      simpl. by destruct (Pos.to_uint p). }
    pose proof (parse_digits_uint "" _ _ r Hn (uint_no_leading_zero p) Hi Hr) as H.
    change (Z.of_int (Decimal.Pos (Pos.to_uint p)) = Z.pos p) in Hz.
    rewrite Hz in H. rewrite -H. unfold parse_number.
    by destruct (Pos.to_uint p).
  - pose proof (Unsigned.to_uint_nonnil p) as Hn.
    assert (NilZero.string_of_uint (Pos.to_uint p) = NilEmpty.string_of_uint (Pos.to_uint p))
      as -> by (by destruct (Pos.to_uint p)).
    assert (NilZero.int_of_string ("-" +:+ NilEmpty.string_of_uint (Pos.to_uint p))
      = Some (Decimal.Neg (Pos.to_uint p))) as Hi.
    { rewrite -(NilZero.isi (Decimal.Neg (Pos.to_uint p))); [congruence..|].
      simpl. by destruct (Pos.to_uint p). }
    pose proof (parse_digits_uint "-" _ _ r Hn (uint_no_leading_zero p) Hi Hr) as H.
    change (Z.of_int (Decimal.Neg (Pos.to_uint p)) = Z.neg p) in Hz.
    rewrite Hz in H. by rewrite -H.
Qed.

Lemma show_Z_head z : ∃ c t, show_Z z = String c t ∧ (is_digit c = true ∨ code c = 45%N).
Proof.
  unfold show_Z. destruct z as [|p|p]; simpl; [by eauto| |by eauto].
  pose proof (Unsigned.to_uint_nonnil p) as Hn.
  destruct (Pos.to_uint p); [done|..]; simpl; eauto.
Qed.
Lemma strip_prefix_neq c p d s :
  code c ≠ code d → strip_prefix (String c p) (String d s) = None.
Proof. intros H. simpl. by rewrite (proj2 (N.eqb_neq _ _)). Qed.

Definition value_start (c : Ascii.ascii) : bool :=
  negb (is_ws c) && negb (code c =? 93)%N && negb (code c =? 125)%N.
Lemma canonical_json_head v : ∃ c t, canonical_json v = String c t ∧ value_start c = true.
Proof.
  destruct v as [|[]|z|s|l|m]; simpl; try by eauto.
  destruct (show_Z_head z) as (c & t & -> & Hc). exists c, t. split; [done|].
  unfold value_start, is_ws, is_digit, in_range in *.
  rewrite !andb_true_iff !negb_true_iff !orb_false_iff !N.eqb_neq.
  destruct Hc as [[H1%N.leb_le H2%N.leb_le]%andb_true_iff|Hc]; lia.
Qed.
Lemma skip_ws_start c t : value_start c = true → skip_ws (String c t) = String c t.
Proof.
  unfold value_start. rewrite !andb_true_iff !negb_true_iff. intros [[H _] _].
  simpl. by rewrite H.
Qed.

Lemma parse_value_int n z r :
  delimited r → parse_value (S n) (show_Z z +:+ r) = Some (JInt z, r).
Proof.
  intros Hr. pose proof (parse_number_show z r Hr) as H. revert H.
  destruct (show_Z_head z) as (c & t & -> & Hc). change (String c t +:+ r) with (String c (t +:+ r)).
  intros H. cbn -[parse_number is_ws].
  assert (∀ k, (k < 45 ∨ 57 < k)%N → (code c =? k)%N = false) as Hk.
  { intros k Hk. apply N.eqb_neq.
    destruct Hc as [[H1%N.leb_le H2%N.leb_le]%andb_true_iff|Hc]; lia. }
  unfold is_ws. rewrite !Hk; [lia..|]. cbn -[parse_number]. rewrite !Hk; [lia..|]. exact H.
Qed.

Lemma sort_by_map {A B} (f : A → B) (m : list (string * A)) :
  sort_by key_leb (map (λ kv, (kv.1, f kv.2)) m)
  = map (λ kv, (kv.1, f kv.2)) (sort_by key_leb m).
Proof.
  assert (∀ x l, insert_sorted key_leb (x.1, f x.2) (map (λ kv, (kv.1, f kv.2)) l)
    = map (λ kv, (kv.1, f kv.2)) (insert_sorted key_leb x l)) as Hi.
  { intros x l. induction l as [|y l IH]; simpl; [done|].
    change (key_leb (x.1, f x.2) (y.1, f y.2)) with (key_leb x y).
    destruct (key_leb x y); simpl; [done|]. by rewrite IH. }
  induction m as [|x m IH]; simpl; [done|]. by rewrite IH Hi.
Qed.
Lemma dict_set_fresh k v m : k ∉ map fst m → dict_set k v m = m ++ [(k, v)].
Proof.
  induction m as [|[k' v'] m IH]; simpl; [done|]. rewrite not_elem_of_cons. intros [? ?].
  rewrite bool_decide_eq_false_2 //. by rewrite IH.
Qed.

(** A value is read back from its canonical text, whatever follows. *)
Definition reads (v : json) : Prop :=
  ∀ n r, delimited r → 2 * String.length (canonical_json v +:+ r) ≤ n →
    parse_value n (canonical_json v +:+ r) = Some (norm v, r).

Lemma str_app_cons c (t r : string) : String c t +:+ r = String c (t +:+ r).
Proof. done. Qed.
Lemma str_app_nil (t : string) : t +:+ EmptyString = t.
Proof. induction t as [|c t IH]; [done|]. by rewrite str_app_cons IH. Qed.

Lemma parse_elems_reads l n acc r :
  l ≠ [] → Forall reads l →
  2 * String.length (join "," (map canonical_json l) +:+ ("]" +:+ r)) + 1 ≤ n →
  parse_elems n acc (join "," (map canonical_json l) +:+ ("]" +:+ r))
  = Some (JList (acc ++ map norm l), r).
Proof.
  revert n acc. induction l as [|v l IH]; intros n acc Hl Hreads Hn; [done|].
  apply Forall_cons in Hreads as [Hv Hreads]. destruct n as [|n]; [lia|].
  destruct l as [|v' l].
  - change (join "," (map canonical_json [v])) with (canonical_json v) in *.
    cbn [parse_elems]. rewrite Hv; [done|lia|]. done.
  - set (rest := join "," (map canonical_json (v' :: l))) in *.
    change (join "," (map canonical_json (v :: v' :: l)))
      with (canonical_json v +:+ ("," +:+ rest)) in *.
    rewrite !str_app_assoc in Hn |- *. cbn [parse_elems]. rewrite Hv; [done|lia|].
    change (("," +:+ rest) +:+ ("]" +:+ r)) with (String (chr 44) (rest +:+ ("]" +:+ r))).
    cbn [mbind option_bind]. simpl skip_ws. cbn -[parse_elems map].
    destruct (canonical_json_head v) as (c & t & Ev & _).
    rewrite IH //.
    + rewrite Ev in Hn. rewrite !str_length_app /= in Hn. rewrite !str_length_app /=. lia.
    + by rewrite -app_assoc.
Qed.

Definition member_text (kv : string * json) : string :=
  quote kv.1 +:+ ":" +:+ canonical_json kv.2.

(** One member, up to the delimiter after its value. *)
Lemma parse_member_step n acc kv r :
  reads kv.2 → delimited r → 2 * String.length (canonical_json kv.2 +:+ r) ≤ n →
  parse_members (S n) acc (member_text kv +:+ r)
  = match skip_ws r with
    | String c r' =>
        if (code c =? 44)%N then parse_members n (dict_set kv.1 (norm kv.2) acc) r'
        else if (code c =? 125)%N then Some (JObj (dict_set kv.1 (norm kv.2) acc), r')
        else None
    | EmptyString => None
    end.
Proof.
  intros Hv Hr Hn. unfold member_text, quote. rewrite !str_app_cons !str_app_assoc.
  cbn [parse_members].
  change (strip_prefix (str1 QUOTE) (skip_ws (String QUOTE ?x))) with (Some x).
  cbn [mbind option_bind].
  change (str1 QUOTE +:+ ?x) with (String QUOTE x). rewrite parse_escape.
  cbn [mbind option_bind].
  change (strip_prefix ":" (skip_ws _)) with (Some (canonical_json kv.2 +:+ r)).
  cbn [mbind option_bind]. by rewrite Hv.
Qed.

Lemma parse_members_reads m n acc r :
  m ≠ [] → Forall (λ kv, reads kv.2) m → NoDup (map fst acc ++ map fst m) →
  2 * String.length (join "," (map member_text m) +:+ ("}" +:+ r)) + 1 ≤ n →
  parse_members n acc (join "," (map member_text m) +:+ ("}" +:+ r))
  = Some (JObj (acc ++ map (λ kv, (kv.1, norm kv.2)) m), r).
Proof.
  revert n acc. induction m as [|kv m IH]; intros n acc Hm Hreads Hnd Hn; [done|].
  apply Forall_cons in Hreads as [Hv Hreads]. destruct n as [|n]; [lia|].
  assert (kv.1 ∉ map fst acc) as Hk.
  { apply NoDup_app in Hnd as (_ & H & _). intros Hin. apply (H _ Hin). apply here. }
  destruct m as [|kv' m].
  - change (join "," (map member_text [kv])) with (member_text kv) in *.
    rewrite parse_member_step //.
    + revert Hn. unfold member_text. rewrite !str_length_app. simpl. lia.
    + by rewrite dict_set_fresh.
  - set (rest := join "," (map member_text (kv' :: m))) in *.
    change (join "," (map member_text (kv :: kv' :: m)))
      with (member_text kv +:+ ("," +:+ rest)) in *.
    rewrite (str_app_assoc (member_text kv)) in Hn |- *. rewrite parse_member_step //.
    + revert Hn. unfold member_text. rewrite !str_length_app. simpl. lia.
    + change (("," +:+ rest) +:+ ("}" +:+ r)) with (String (chr 44) (rest +:+ ("}" +:+ r))).
      change (skip_ws (String (chr 44) ?x)) with (String (chr 44) x). cbn -[parse_members map].
      rewrite dict_set_fresh // IH //.
      * rewrite map_app /= -app_assoc //.
      * revert Hn. unfold member_text, quote. rewrite !str_length_app /= !str_length_app /=. lia.
      * by rewrite -app_assoc.
Qed.

Lemma NoDup_sorted_keys {A} (m : list (string * A)) :
  NoDup (map fst m) → NoDup (map fst (sort_by key_leb m)).
Proof. intros H. by rewrite (sort_by_perm key_leb m). Qed.

Lemma canonical_json_obj m :
  canonical_json (JObj m) = "{" +:+ join "," (map member_text (sort_by key_leb m)) +:+ "}".
Proof.
  simpl. rewrite (sort_by_map canonical_json m) map_map. by unfold member, member_text.
Qed.
Lemma foldr_and_Forall {A} (P : A → Prop) l : foldr and True (map P l) → Forall P l.
Proof. induction l as [|x l IH]; simpl; [done|]. intros [? ?]. constructor; auto. Qed.
Lemma join_head x l sep : ∃ u, join sep (x :: l) = x +:+ u.
Proof. destruct l; [exists EmptyString; by rewrite str_app_nil|by eexists]. Qed.

Lemma parse_value_list n r :
  parse_value (S n) (String (chr 91) r)
  = match strip_prefix "]" (skip_ws r) with
    | Some r' => Some (JList [], r')
    | None => parse_elems n [] r
    end.
Proof. done. Qed.
Lemma parse_value_obj n r :
  parse_value (S n) (String (chr 123) r)
  = match strip_prefix "}" (skip_ws r) with
    | Some r' => Some (JObj [], r')
    | None => parse_members n [] r
    end.
Proof. done. Qed.

Lemma reads_list l : Forall reads l → reads (JList l).
Proof.
  intros Hl [|n] r Hr Hn; [simpl in Hn; lia|]. destruct l as [|v l]; [done|].
  change (canonical_json (JList (v :: l)))
    with (String (chr 91) (join "," (map canonical_json (v :: l)) +:+ "]")) in *.
  rewrite str_app_cons str_app_assoc in Hn |- *.
  rewrite parse_value_list.
  destruct (join_head (canonical_json v) (map canonical_json l) ",") as [u Hu].
  destruct (canonical_json_head v) as (c & t & Ev & Hc).
  rewrite -(parse_elems_reads (v :: l) n [] r) //.
  { simpl in Hn |- *. lia. }
  change (map canonical_json (v :: l)) with (canonical_json v :: map canonical_json l).
  rewrite Hu Ev !str_app_cons skip_ws_start // strip_prefix_neq //.
  unfold value_start in Hc. rewrite !andb_true_iff !negb_true_iff !N.eqb_neq in Hc.
  intros E. destruct Hc as [[_ Hc] _]. by rewrite -E in Hc.
Qed.
Lemma reads_obj m :
  NoDup (map fst m) → Forall (λ kv, reads kv.2) m → reads (JObj m).
Proof.
  intros Hnd Hm [|n] r Hr Hn; [simpl in Hn; lia|].
  rewrite canonical_json_obj in Hn |- *.
  change (norm (JObj m)) with (JObj (sort_by key_leb (map (λ kv, (kv.1, norm kv.2)) m))).
  rewrite (sort_by_map norm m).
  rewrite -(sort_by_perm key_leb m) in Hm. apply NoDup_sorted_keys in Hnd.
  destruct (sort_by key_leb m) as [|kv m']; [done|].
  change ("{" +:+ ?x) with (String (chr 123) x) in *.
  rewrite str_app_cons str_app_assoc in Hn |- *.
  rewrite parse_value_obj.
  rewrite -(parse_members_reads (kv :: m') n [] r) //.
  { simpl in Hn |- *. lia. }
  destruct (join_head (member_text kv) (map member_text m') ",") as [u Hu].
  change (map member_text (kv :: m')) with (member_text kv :: map member_text m').
  by rewrite Hu.
Qed.
Lemma reads_all v : wf_json v → reads v.
Proof.
  induction v as [|b|z|s|l Hl|m Hm] using json_induction; intros Hwf.
  - by intros [|n] r Hr Hn; [simpl in Hn; lia|].
  - by intros [|n] r Hr Hn; destruct b; [simpl in Hn; lia..| |].
  - intros [|n] r Hr Hn; [|by apply parse_value_int].
    simpl in Hn. destruct (show_Z_head z) as (c & t & E & _). rewrite E in Hn. simpl in Hn. lia.
  - intros [|n] r Hr Hn; [simpl in Hn; lia|].
    change (canonical_json (JStr s) +:+ r) with (String QUOTE ((escape s +:+ str1 QUOTE) +:+ r)).
    rewrite str_app_assoc. change (str1 QUOTE +:+ r) with (String QUOTE r).
    change (('(t, r') ← parse_string (escape s +:+ String QUOTE r); Some (JStr t, r'))
      = Some (JStr s, r)). by rewrite parse_escape.
  - apply reads_list. apply foldr_and_Forall in Hwf.
    rewrite -> Forall_forall in *. naive_solver.
  - destruct Hwf as [Hnd Hwf]. apply reads_obj; [done|].
    apply (foldr_and_Forall (λ kv : string * json, wf_json kv.2)) in Hwf.
    rewrite -> Forall_forall in *. naive_solver.
Qed.

(** [strict_json_loads (canonical_json v)] is [v] up to member order. *)
Lemma loads_canonical v : wf_json v → strict_json_loads (canonical_json v) = Ok (norm v).
Proof.
  intros Hwf. unfold strict_json_loads.
  pose proof (reads_all v Hwf (2 * String.length (canonical_json v) + 1) EmptyString) as H.
  rewrite str_app_nil in H. rewrite H //. lia.
Qed.
Lemma loads_strs l : strict_json_loads (canonical_json (JStrs l)) = Ok (JStrs l).
Proof.
  rewrite loads_canonical; simpl.
  - by induction l.
  - by rewrite /JStrs /= map_map.
Qed.

(** Equal canonical texts come from the same value, up to member order. *)
Lemma canonical_json_inj v1 v2 :
  wf_json v1 → wf_json v2 → canonical_json v1 = canonical_json v2 → norm v1 = norm v2.
Proof.
  intros H1%loads_canonical H2%loads_canonical E. rewrite E H2 in H1. by simplify_eq.
Qed.

(** C30: Canonical JSON is faithful.  Reading back the canonical text of a
    value gives that value with its members sorted, and two values with the
    same canonical text are equal up to the order of members: a content
    hash never identifies different contents before hashing. *)
Theorem canonical_json_faithful v1 v2 :
  wf_json v1 → wf_json v2 →
  strict_json_loads (canonical_json v1) = Ok (norm v1) ∧
  (canonical_json v1 = canonical_json v2 → norm v1 = norm v2).
Proof. intros H1 H2. split; [by apply loads_canonical|by apply canonical_json_inj]. Qed.
