(* ===== verification/Digest.v ===== *)
(** * Content hashes ([src/src/noyra/core/types.py])

    [content_hash] is the SHA-256 of the UTF-8 encoding of the canonical
    JSON text, in hexadecimal.  The components are proved against the
    [Digest] interface, an arbitrary digest function; the instance
    [sha256_digest] is SHA-256 itself (FIPS 180-4), executable, so that
    concrete runs compute the hashes the program stores. *)

From S2P Require Import Prelude Tables PyStr Json.

(** [hashlib.sha256(data).hexdigest()] as a function of the bytes. *)
Class Digest := sha256_hexdigest : list N → string.

(** [s.encode("utf-8")] for text of the modelled range. *)
Fixpoint utf8 (s : string) : list N :=
  match s with
  | EmptyString => []
  | String c s' =>
      let n := code c in
      (if (n <? 128)%N then [n] else [N.lor 192 (N.shiftr n 6); N.lor 128 (N.land n 63)])
        ++ utf8 s'
  end.

(** The encoding is injective: a decoder of its first character. *)
Definition utf8_first (l : list N) : option (Ascii.ascii * list N) :=
  match l with
  | [] => None
  | n :: t =>
      if (n <? 128)%N then Some (Ascii.ascii_of_N n, t)
      else match t with
           | [] => None
           | m :: t' =>
               Some (Ascii.ascii_of_N (N.lor (N.shiftl (N.land n 31) 6) (N.land m 63)), t')
           end
  end.
Lemma utf8_first_spec c s : utf8_first (utf8 (String c s)) = Some (c, utf8 s).
Proof. by destruct c as [[] [] [] [] [] [] [] []]. Qed.
Lemma utf8_inj s1 s2 : utf8 s1 = utf8 s2 → s1 = s2.
Proof.
  revert s2. induction s1 as [|c1 s1 IH]; intros [|c2 s2] E; try done;
    apply (f_equal utf8_first) in E; rewrite ?utf8_first_spec in E; try done.
  injection E as -> E. f_equal. by apply IH.
Qed.

Definition content_hash `{Digest} (v : json) : string :=
  sha256_hexdigest (utf8 (canonical_json v)).

(** ** SHA-256 *)

Definition w32 (n : N) : N := N.land n 4294967295.
Definition rotr (k x : N) : N := w32 (N.lor (N.shiftr x k) (N.shiftl x (32 - k))).
Definition add32 (x y : N) : N := w32 (x + y).

Definition sha_K : list N :=
  [1116352408; 1899447441; 3049323471; 3921009573; 961987163; 1508970993;
   2453635748; 2870763221; 3624381080; 310598401; 607225278; 1426881987;
   1925078388; 2162078206; 2614888103; 3248222580; 3835390401; 4022224774;
   264347078; 604807628; 770255983; 1249150122; 1555081692; 1996064986;
   2554220882; 2821834349; 2952996808; 3210313671; 3336571891; 3584528711;
   113926993; 338241895; 666307205; 773529912; 1294757372; 1396182291;
   1695183700; 1986661051; 2177026350; 2456956037; 2730485921; 2820302411;
   3259730800; 3345764771; 3516065817; 3600352804; 4094571909; 275423344;
   430227734; 506948616; 659060556; 883997877; 958139571; 1322822218;
   1537002063; 1747873779; 1955562222; 2024104815; 2227730452; 2361852424;
   2428436474; 2756734187; 3204031479; 3329325298]%N.
Definition sha_H0 : list N :=
  [1779033703; 3144134277; 1013904242; 2773480762; 1359893119; 2600822924;
   528734635; 1541459225]%N.

Fixpoint bytes_be (k : nat) (n : N) : list N :=
  match k with O => [] | S k' => N.land (N.shiftr n (8 * N.of_nat k')) 255 :: bytes_be k' n end.
Definition sha_pad (m : list N) : list N :=
  let l := N.of_nat (length m) in
  let z := N.to_nat ((119 - l mod 64) mod 64) in
  m ++ [128%N] ++ replicate z 0%N ++ bytes_be 8 (8 * l).

Fixpoint words (m : list N) : list N :=
  match m with
  | a :: b :: c :: d :: m' =>
      N.lor (N.shiftl a 24) (N.lor (N.shiftl b 16) (N.lor (N.shiftl c 8) d)) :: words m'
  | _ => []
  end.
Fixpoint chunks {A} (fuel k : nat) (l : list A) : list (list A) :=
  match fuel, l with
  | S f, _ :: _ => take k l :: chunks f k (drop k l)
  | _, _ => []
  end.

Definition sig0 (x : N) : N := N.lxor (rotr 7 x) (N.lxor (rotr 18 x) (N.shiftr x 3)).
Definition sig1 (x : N) : N := N.lxor (rotr 17 x) (N.lxor (rotr 19 x) (N.shiftr x 10)).
Definition Sig0 (x : N) : N := N.lxor (rotr 2 x) (N.lxor (rotr 13 x) (rotr 22 x)).
Definition Sig1 (x : N) : N := N.lxor (rotr 6 x) (N.lxor (rotr 11 x) (rotr 25 x)).
Definition Ch (x y z : N) : N := N.lxor (N.land x y) (N.land (N.lxor x 4294967295) z).
Definition Maj (x y z : N) : N := N.lxor (N.land x y) (N.lxor (N.land x z) (N.land y z)).

(** The message schedule, last word first. *)
Fixpoint schedule (k : nat) (rev_w : list N) : list N :=
  match k with
  | O => rev_w
  | S k' =>
      let g i := nth i rev_w 0%N in
      schedule k' (w32 (sig1 (g 1%nat) + g 6%nat + sig0 (g 14%nat) + g 15%nat) :: rev_w)
  end.
Definition round (st : list N) (kw : N * N) : list N :=
  match st with
  | [a; b; c; d; e; f; g; h] =>
      let t1 := w32 (h + Sig1 e + Ch e f g + kw.1 + kw.2) in
      let t2 := w32 (Sig0 a + Maj a b c) in
      [add32 t1 t2; a; b; c; add32 d t1; e; f; g]
  | _ => st
  end.
Definition compress (st block : list N) : list N :=
  let w := rev (schedule 48 (rev block)) in
  zip_with add32 st (foldl round st (zip sha_K w)).
Definition sha256 (m : list N) : list N :=
  let ws := words (sha_pad m) in
  foldl compress sha_H0 (chunks (length ws) 16 ws).

Definition hexdigest (ws : list N) : string :=
  String.concat "" (map (λ b, String (hex_digit (b / 16)) (str1 (hex_digit (b mod 16))))
    (mjoin (map (bytes_be 4) ws))).
Definition sha256_digest : Digest := λ m, hexdigest (sha256 m).

(** The FIPS 180-4 test vectors, and a two-block message. *)
Example sha256_abc :
  sha256_digest (utf8 "abc")
  = "ba7816bf8f01cfea414140de5dae2223b00361a396177a9cb410ff61f20015ad".
Proof. vm_compute. reflexivity. Qed.
Example sha256_empty :
  sha256_digest [] = "e3b0c44298fc1c149afbf4c8996fb92427ae41e4649b934ca495991b7852b855".
Proof. vm_compute. reflexivity. Qed.
Example sha256_two_blocks :
  sha256_digest (utf8 "abcdbcdecdefdefgefghfghighijhijkijkljklmklmnlmnomnopnopq")
  = "248d6a61d20638b8e5c026930c3e6039a33ce45964ff2167f6ecedd419db06c1".
Proof. vm_compute. reflexivity. Qed.
