(* ===== verification/Time.v ===== *)
(** * Timestamps

    The part of Python's [datetime] the store uses: [fromisoformat] on
    [YYYY-MM-DDTHH:MM:SS[.ffffff](Z|+HH:MM|-HH:MM)] texts (any separator
    character, any number of fraction digits, an optional [:SS] in the
    offset), conversion to UTC, and [isoformat].  An aware datetime is its
    instant, in microseconds since 0001-01-01T00:00:00+00:00.  The other
    ISO-8601 spellings [fromisoformat] accepts (basic format, week dates,
    missing seconds) are not written by the program and are read as
    [ValueError]. *)

From S2P Require Import Prelude Tables PyStr Json.
Local Open Scope Z_scope.

(** ** Calendar *)

Definition is_leap (y : Z) : bool :=
  (y mod 4 =? 0) && (negb (y mod 100 =? 0) || (y mod 400 =? 0)).
Definition days_in_month (y m : Z) : Z :=
  if m =? 2 then (if is_leap y then 29 else 28)
  else if (m =? 4) || (m =? 6) || (m =? 9) || (m =? 11) then 30 else 31.

(** Days since 0001-01-01 of a date, and back. *)
Definition days_of_date (y m d : Z) : Z :=
  let y' := if m <=? 2 then y - 1 else y in
  let era := y' / 400 in
  let yoe := y' - era * 400 in
  let mp := if m <=? 2 then m + 9 else m - 3 in
  let doy := (153 * mp + 2) / 5 + d - 1 in
  era * 146097 + (yoe * 365 + yoe / 4 - yoe / 100 + doy) - 306.
Definition date_of_days (n : Z) : Z * Z * Z :=
  let z := n + 306 in
  let era := z / 146097 in
  let doe := z - era * 146097 in
  let yoe := (doe - doe / 1460 + doe / 36524 - doe / 146096) / 365 in
  let doy := doe - (365 * yoe + yoe / 4 - yoe / 100) in
  let mp := (5 * doy + 2) / 153 in
  let d := doy - (153 * mp + 2) / 5 + 1 in
  let m := if mp <? 10 then mp + 3 else mp - 9 in
  (yoe + era * 400 + (if m <=? 2 then 1 else 0), m, d).

Definition day_us : Z := 86400000000.

(** ** Reading *)

Definition digit_val (c : Ascii.ascii) : option Z :=
  if is_digit c then Some (Z.of_N (code c) - 48) else None.

(** [k] decimal digits. *)
Fixpoint read_digits (k : nat) (acc : Z) (s : string) : option (Z * string) :=
  match k with
  | O => Some (acc, s)
  | S k' =>
      match s with
      | String c s' => d ← digit_val c; read_digits k' (10 * acc + d) s'
      | EmptyString => None
      end
  end.
Definition expect (c s : string) : option string := strip_prefix c s.

(** The fraction: the first six digits count, the others are dropped. *)
Fixpoint read_fraction (k : nat) (acc : Z) (s : string) : Z * string :=
  match s with
  | String c s' =>
      match digit_val c, k with
      | Some d, S k' => read_fraction k' (10 * acc + d) s'
      | Some _, O => read_fraction O acc s'
      | None, _ => (acc * 10 ^ Z.of_nat k, s)
      end
  | EmptyString => (acc * 10 ^ Z.of_nat k, s)
  end.
Definition read_optional_fraction (s : string) : option (Z * string) :=
  match s with
  | String c s' =>
      if (code c =? 46)%N || (code c =? 44)%N then
        match s' with
        | String c' _ => if is_digit c' then Some (read_fraction 6 0 s') else None
        | EmptyString => None
        end
      else Some (0, s)
  | EmptyString => Some (0, s)
  end.

(** The UTC offset in microseconds; [None] inside [Some] is a naive time. *)
Definition read_offset (s : string) : option (option Z) :=
  match s with
  | EmptyString => Some None
  | String c s' =>
      if (code c =? 90)%N then (if s' == EmptyString then Some (Some 0) else None)
      else if (code c =? 43)%N || (code c =? 45)%N then
        '(h, r1) ← read_digits 2 0 s'; r2 ← expect ":" r1; '(mi, r3) ← read_digits 2 0 r2;
        '(sec, r4) ← match expect ":" r3 with
                     | Some r => read_digits 2 0 r
                     | None => Some (0, r3)
                     end;
        if (r4 == EmptyString) && (h <? 24) && (mi <? 60) && (sec <? 60)
        then let v := (h * 3600 + mi * 60 + sec) * 1000000 in
             Some (Some (if (code c =? 43)%N then v else - v))
        else None
      else None
  end.

(** [datetime.fromisoformat(s)]: local microseconds and offset; [None] is
    [ValueError]. *)
Definition fromisoformat (s : string) : option (Z * option Z) :=
  '(y, r1) ← read_digits 4 0 s; r2 ← expect "-" r1;
  '(m, r3) ← read_digits 2 0 r2; r4 ← expect "-" r3;
  '(d, r5) ← read_digits 2 0 r4;
  match r5 with
  | EmptyString => None
  | String _ r6 =>
      '(h, r7) ← read_digits 2 0 r6; r8 ← expect ":" r7;
      '(mi, r9) ← read_digits 2 0 r8; r10 ← expect ":" r9;
      '(sec, r11) ← read_digits 2 0 r10;
      '(us, r12) ← read_optional_fraction r11;
      off ← read_offset r12;
      if (1 <=? y) && (1 <=? m) && (m <=? 12) && (1 <=? d) && (d <=? days_in_month y m)
         && (h <? 24) && (mi <? 60) && (sec <? 60)
      then Some (days_of_date y m d * day_us + (h * 3600 + mi * 60 + sec) * 1000000 + us, off)
      else None
  end.

(** [.astimezone(UTC)] of an aware datetime; a date before year 1 or after
    year 9999 does not exist. *)
Definition max_instant : Z := 3652059 * day_us.
Definition to_utc (local off : Z) : result Z :=
  if (0 <=? local - off) && (local - off <? max_instant) then Ok (local - off)
  else Raise (OverflowError "date value out of range").

(** [_parse_time]: an aware timestamp as its instant. *)
Definition parse_time (s : string) : result Z :=
  match fromisoformat s with
  | None => Raise (ValueError "Invalid isoformat string")
  | Some (_, None) => Raise (ValueError "timestamp must include timezone")
  | Some (local, Some off) => to_utc local off
  end.

(** ** Writing *)

Definition digit_char (d : Z) : Ascii.ascii := chr (Z.to_N (48 + d)).
Fixpoint pad (k : nat) (n : Z) : string :=
  match k with
  | O => EmptyString
  | S k' => pad k' (n / 10) +:+ str1 (digit_char (n mod 10))
  end.

(** [.isoformat(timespec="seconds")] of a UTC instant, without offset. *)
Definition iso_seconds (t : Z) : string :=
  let '(y, m, d) := date_of_days (t / day_us) in
  let s := (t mod day_us) / 1000000 in
  pad 4 y +:+ "-" +:+ pad 2 m +:+ "-" +:+ pad 2 d +:+ "T"
    +:+ pad 2 (s / 3600) +:+ ":" +:+ pad 2 (s / 60 mod 60) +:+ ":" +:+ pad 2 (s mod 60).
(** [.isoformat()] and [.isoformat(timespec="milliseconds")]. *)
Definition isoformat (t : Z) : string :=
  iso_seconds t +:+
    (if t mod 1000000 =? 0 then "" else "." +:+ pad 6 (t mod 1000000)) +:+ "+00:00".
Definition isoformat_ms (t : Z) : string :=
  iso_seconds t +:+ "." +:+ pad 3 (t mod 1000000 / 1000) +:+ "+00:00".

(** [.replace(hour=0, minute=0, second=0, microsecond=0)], also with [day=1]. *)
Definition midnight (t : Z) : Z := t / day_us * day_us.
Definition month_start (t : Z) : Z :=
  let '(y, m, _) := date_of_days (t / day_us) in days_of_date y m 1 * day_us.

(** [canonical_timestamp]: UTC, millisecond precision. *)
Definition canonical_timestamp (s : string) : result string :=
  match fromisoformat s with
  | None => Raise (ValueError "wallet observation time must be ISO-8601")
  | Some (_, None) => Raise (ValueError "wallet observation time must include a timezone")
  | Some (local, Some off) => t ← to_utc local off; Ok (isoformat_ms t)
  end.

Example parse_time_offset :
  parse_time "2026-01-02T03:04:05.678+02:00" = parse_time "2026-01-02T01:04:05.678000Z".
Proof. vm_compute. reflexivity. Qed.
Example canonical_timestamp_ms :
  canonical_timestamp "2024-02-29T23:59:59.9999-01:00" = Ok "2024-03-01T00:59:59.999+00:00".
Proof. vm_compute. reflexivity. Qed.
Example parse_time_rejects :
  (is_ok (parse_time "2023-02-29T00:00:00Z"), is_ok (parse_time "2023-02-28T00:00:00"))
  = (false, false).
Proof. vm_compute. reflexivity. Qed.

(** Midnight is at or before the instant, by less than a day. *)
Lemma midnight_bounds t : midnight t <= t < midnight t + day_us.
Proof.
  unfold midnight, day_us. pose proof (Z.div_mod t 86400000000 ltac:(lia)).
  pose proof (Z.mod_pos_bound t 86400000000 ltac:(lia)). lia.
Qed.
Lemma pad_length k z : String.length (pad k z) = k.
Proof.
  revert z. induction k as [|k IH]; intros z; simpl; [done|]. rewrite str_length_app IH. simpl. lia.
Qed.
