(* ===== verification/Sorting.v ===== *)
(** * Sorted queries

    [ORDER BY] is the stable insertion sort of [Tables].  The lemmas say
    when its result is sorted, that a sorted list is determined by its
    elements, and how sorting commutes with [WHERE].  Orders are boolean
    functions; [Preorder] is what a sort needs of them, and [lexb] builds
    the order of several columns. *)

From S2P Require Import Prelude Tables PyStr.
From stdpp Require Import sorting.

Class PreorderB {R} (leb : R → R → bool) : Prop := {
  leb_total : ∀ x y, leb x y = true ∨ leb y x = true;
  leb_trans : ∀ x y z, leb x y = true → leb y z = true → leb x z = true;
}.
Class AntisymB {R} (leb : R → R → bool) : Prop :=
  leb_antisym : ∀ x y, leb x y = true → leb y x = true → x = y.

Lemma leb_refl {R} (leb : R → R → bool) `{!PreorderB leb} x : leb x x = true.
Proof. by destruct (leb_total x x). Qed.
Lemma leb_false {R} (leb : R → R → bool) `{!PreorderB leb} x y :
  leb x y = false → leb y x = true.
Proof. intros H. destruct (leb_total x y) as [E|E]; congruence. Qed.

(** ** Text *)

#[global] Instance str_preorder : PreorderB str_leb.
Proof.
  split; unfold str_leb.
  - intros x y. destruct (str_ltb y x) eqn:E; [right|by left].
    apply negb_true_iff. destruct (str_ltb x y) eqn:E'; [|done].
    pose proof (str_ltb_trans _ _ _ E E') as F. by rewrite str_ltb_irrefl in F.
  - intros x y z H1%negb_true_iff H2%negb_true_iff. apply negb_true_iff.
    destruct (str_ltb z x) eqn:E; [|done]. destruct (str_ltb x y) eqn:E'.
    + by rewrite (str_ltb_trans _ _ _ E E') in H2.
    + rewrite (str_ltb_total x y E' H1) in E. by rewrite E in H2.
Qed.
#[global] Instance str_antisym : AntisymB str_leb.
Proof. intros x y H1%negb_true_iff H2%negb_true_iff. by apply str_ltb_total. Qed.
#[global] Instance Zleb_preorder : PreorderB Z.leb.
Proof. split; intros *; rewrite ?Z.leb_le; lia. Qed.
#[global] Instance Zleb_antisym : AntisymB Z.leb.
Proof. intros x y. rewrite !Z.leb_le. lia. Qed.

Lemma str_ltb_leb a b : str_ltb a b = negb (str_leb b a).
Proof. unfold str_leb. by rewrite negb_involutive. Qed.

(** ** Several columns *)

Section lex.
Context {R K : Type} `{!EqDecision K}.

(** [ORDER BY f, ...] where [le] orders the values of [f]. *)
Definition lexb (f : R → K) (le : K → K → bool) (rest : R → R → bool) (x y : R) : bool :=
  if f x == f y then rest x y else le (f x) (f y).

#[global] Instance lexb_preorder f le rest :
  PreorderB le → AntisymB le → PreorderB rest → PreorderB (lexb f le rest).
Proof.
  intros P A Q. split; unfold lexb.
  - intros x y. case_bool_decide as E.
    + rewrite bool_decide_true //. apply leb_total.
    + rewrite bool_decide_false; [by intros ?; apply E|]. apply leb_total.
  - intros x y z.
    destruct (decide (f x = f y)) as [E1|E1], (decide (f y = f z)) as [E2|E2].
    + rewrite !bool_decide_true; [congruence..|]. apply leb_trans.
    + rewrite (bool_decide_true _ E1) !bool_decide_false; [congruence..|]. by rewrite E1.
    + rewrite (bool_decide_true _ E2) !bool_decide_false; [congruence..|]. by rewrite E2.
    + rewrite (bool_decide_false _ E1) (bool_decide_false _ E2). intros Hxy Hyz.
      case_bool_decide as E3; [|by eapply leb_trans].
      destruct E1. apply leb_antisym; [done|]. by rewrite E3.
Qed.
End lex.

#[global] Instance flip_preorder {R} (leb : R → R → bool) :
  PreorderB leb → PreorderB (λ x y, leb y x).
Proof. intros P. split; [intros x y; apply leb_total|]. intros x y z H1 H2. by eapply leb_trans. Qed.
#[global] Instance flip_antisym {R} (leb : R → R → bool) :
  AntisymB leb → AntisymB (λ x y, leb y x).
Proof. intros A x y H1 H2. by apply leb_antisym. Qed.
#[global] Instance image_preorder {R K} (f : R → K) (leb : K → K → bool) :
  PreorderB leb → PreorderB (λ x y, leb (f x) (f y)).
Proof. intros P. split; [intros x y; apply leb_total|]. intros x y z H1 H2. by eapply leb_trans. Qed.

(** ** Sorting *)

Section sorted.
Context {R : Type} (leb : R → R → bool) `{!PreorderB leb}.
Implicit Types l : list R.

Abbreviation sorted := (StronglySorted (λ x y, leb x y = true)).

Lemma insert_sorted_sorted x l : sorted l → sorted (insert_sorted leb x l).
Proof.
  induction 1 as [|y l Hl IH Hy]; simpl; [by repeat constructor|].
  destruct (leb x y) eqn:E.
  - constructor; [by constructor|]. constructor; [done|].
    eapply Forall_impl; [exact Hy|]. intros z Hz. by eapply leb_trans.
  - constructor; [done|]. apply leb_false in E; [|done].
    rewrite Forall_forall. intros z Hz.
    rewrite (insert_sorted_perm leb x l) in Hz. apply elem_of_cons in Hz as [->|Hz].
    + done.
    + rewrite -> Forall_forall in Hy. by apply Hy.
Qed.
Lemma sort_by_sorted l : sorted (sort_by leb l).
Proof. induction l as [|x l IH]; simpl; [constructor|]. by apply insert_sorted_sorted. Qed.

Lemma sorted_app l1 l2 :
  sorted (l1 ++ l2) → sorted l1 ∧ sorted l2 ∧ ∀ x y, x ∈ l1 → y ∈ l2 → leb x y = true.
Proof.
  induction l1 as [|x l1 IH]; simpl; intros H.
  - split_and!; [constructor|done|]. by intros ?? ?%not_elem_of_nil.
  - inversion H as [|? ? H1 Hx]; subst. destruct (IH H1) as (Ha & Hb & Hab).
    apply Forall_app in Hx as [Hx1 Hx2]. split_and!; [by constructor|done|].
    intros a b [->|Ha']%elem_of_cons Hb'; [|by apply Hab].
    rewrite -> Forall_forall in Hx2. by apply Hx2.
Qed.
Lemma sorted_select p l : sorted l → sorted (select p l).
Proof.
  induction 1 as [|x l Hl IH Hx]; [constructor|]. unfold select. simpl. destruct (p x); [|done].
  constructor; [done|]. rewrite -> Forall_forall in *. intros y [Hy _]%elem_of_select. by apply Hx.
Qed.

(** Sorting a sorted list changes nothing. *)
Lemma sort_by_id l : sorted l → sort_by leb l = l.
Proof.
  induction 1 as [|x l Hl IH Hx]; simpl; [done|]. rewrite IH. destruct l as [|y l]; [done|].
  simpl. inversion Hx as [|? ? E ?]; subst. by rewrite E.
Qed.

(** A sorted list without ties is determined by its elements. *)
Lemma sorted_unique l1 l2 :
  (∀ x y, x ∈ l1 → y ∈ l1 → leb x y = true → leb y x = true → x = y) →
  sorted l1 → sorted l2 → l1 ≡ₚ l2 → l1 = l2.
Proof.
  revert l2. induction l1 as [|x l1 IH]; intros l2 Ha H1 H2 HP.
  { by apply Permutation_nil_l in HP. }
  destruct l2 as [|y l2]; [by apply Permutation_nil_r in HP|].
  inversion H1 as [|? ? H1' Hx]; inversion H2 as [|? ? H2' Hy]; subst.
  assert (x = y) as ->.
  { apply Ha; [apply here|rewrite HP; apply here|..].
    - assert (Hy' : y ∈ x :: l1) by (rewrite HP; apply here).
      apply elem_of_cons in Hy' as [->|Hy']; [by apply leb_refl|].
      rewrite -> Forall_forall in Hx. by apply Hx.
    - assert (Hx' : x ∈ y :: l2) by (rewrite -HP; apply here).
      apply elem_of_cons in Hx' as [->|Hx']; [by apply leb_refl|].
      rewrite -> Forall_forall in Hy. by apply Hy. }
  f_equal. apply IH; [|done|done|by apply Permutation_cons_inv in HP].
  intros a b ? ?. apply Ha; by apply there.
Qed.
(** The sort is stable, so it commutes with a selection. *)
Lemma insert_sorted_select p x l :
  sorted l → select p (insert_sorted leb x l)
             = if p x then insert_sorted leb x (select p l) else select p l.
Proof.
  induction 1 as [|y l Hl IH Hy]; unfold select in *; simpl; [done|].
  destruct (leb x y) eqn:E; simpl.
  - destruct (p x), (p y); simpl; rewrite ?E //. clear IH.
    induction Hl as [|z l Hl IHl Hz]; simpl; [done|]. inversion Hy as [|? ? Hyz Hy']; subst.
    destruct (p z); [|by apply IHl]. simpl. by rewrite (leb_trans x y z E Hyz).
  - rewrite IH. destruct (p x), (p y); simpl; rewrite ?E //.
Qed.
Lemma sort_by_select p l : sort_by leb (select p l) = select p (sort_by leb l).
Proof.
  induction l as [|x l IH]; [done|]. simpl.
  rewrite insert_sorted_select; [apply sort_by_sorted|]. rewrite -IH.
  unfold select. simpl. by destruct (p x).
Qed.
End sorted.
