(* ===== verification/Base64.v ===== *)
(** * UTF-8 and URL-safe Base64

    [str.encode("utf-8")] and its inverse on texts of code points below 256,
    and [base64.urlsafe_b64encode(...).rstrip(b"=")] with the decoder that
    restores the padding.  A byte string is a string of its bytes. *)

From S2P Require Import Prelude PyStr Json.
Local Open Scope Z_scope.

Definition byte_of (c : Ascii.ascii) : Z := Z.of_N (code c).
Definition of_byte (z : Z) : Ascii.ascii := chr (Z.to_N z).

Lemma byte_bound c : 0 <= byte_of c < 256.
Proof. unfold byte_of, code. pose proof (Ascii.N_ascii_bounded c). lia. Qed.
Lemma of_byte_of c : of_byte (byte_of c) = c.
Proof. unfold of_byte, byte_of, chr, code. by rewrite N2Z.id Ascii.ascii_N_embedding. Qed.
Lemma byte_of_byte z : 0 <= z < 256 → byte_of (of_byte z) = z.
Proof.
  intros H. unfold of_byte, byte_of, chr, code. rewrite Ascii.N_ascii_embedding; [lia|].
  by rewrite Z2N.id; [lia|].
Qed.

(** ** UTF-8 *)

Fixpoint utf8_encode (s : string) : string :=
  match s with
  | EmptyString => EmptyString
  | String c s =>
      if byte_of c <? 128 then String c (utf8_encode s)
      else String (of_byte (192 + byte_of c / 64))
             (String (of_byte (128 + byte_of c mod 64)) (utf8_encode s))
  end.
(** [None]: not UTF-8, or a code point above 255. *)
Fixpoint utf8_decode (s : string) : option string :=
  match s with
  | EmptyString => Some EmptyString
  | String c s =>
      if byte_of c <? 128 then String c <$> utf8_decode s
      else match s with
           | String d s =>
               if ((byte_of c =? 194) || (byte_of c =? 195)) && (byte_of d / 64 =? 2)
               then String (of_byte ((byte_of c - 192) * 64 + byte_of d mod 64)) <$> utf8_decode s
               else None
           | EmptyString => None
           end
  end.

Lemma utf8_roundtrip s : utf8_decode (utf8_encode s) = Some s.
Proof.
  induction s as [|c s IH]; simpl; [done|]. pose proof (byte_bound c) as Hc.
  destruct (byte_of c <? 128) eqn:E; simpl.
  - by rewrite E IH.
  - apply Z.ltb_ge in E. rewrite !byte_of_byte; [Z.to_euclidean_division_equations; lia..|].
    rewrite (proj2 (Z.ltb_ge _ _)); [Z.to_euclidean_division_equations; lia|].
    replace ((128 + byte_of c mod 64) / 64 =? 2) with true
      by (symmetry; apply Z.eqb_eq; Z.to_euclidean_division_equations; lia).
    replace ((192 + byte_of c / 64 =? 194) || (192 + byte_of c / 64 =? 195)) with true
      by (symmetry; apply orb_true_iff; rewrite !Z.eqb_eq; Z.to_euclidean_division_equations; lia).
    simpl. rewrite IH. simpl. do 2 f_equal.
    replace ((192 + byte_of c / 64 - 192) * 64 + (128 + byte_of c mod 64) mod 64) with (byte_of c)
      by (Z.to_euclidean_division_equations; lia).
    apply of_byte_of.
Qed.
Lemma utf8_length s : (String.length (utf8_encode s) ≤ 2 * String.length s)%nat.
Proof. induction s as [|c s IH]; simpl; [done|]. destruct (byte_of c <? 128); simpl; lia. Qed.
Lemma utf8_app a b : utf8_encode (a +:+ b) = utf8_encode a +:+ utf8_encode b.
Proof.
  induction a as [|c a IH]; simpl; [done|]. rewrite IH. by destruct (byte_of c <? 128).
Qed.

(** ** Base64 *)

(** The URL-safe alphabet. *)
Definition b64_char (z : Z) : Ascii.ascii :=
  of_byte (if z <? 26 then 65 + z else if z <? 52 then 71 + z else if z <? 62 then z - 4
           else if z =? 62 then 45 else 95).
Definition b64_value (c : Ascii.ascii) : option Z :=
  if is_upper c then Some (byte_of c - 65) else if is_lower c then Some (byte_of c - 71)
  else if is_digit c then Some (byte_of c + 4)
  else if byte_of c =? 45 then Some 62 else if byte_of c =? 95 then Some 63 else None.
Definition in_alphabet (c : Ascii.ascii) : bool := bool_decide (is_Some (b64_value c)).

(** [base64.urlsafe_b64encode(s).rstrip(b"=")]. *)
Fixpoint b64_encode (s : string) : string :=
  match s with
  | EmptyString => EmptyString
  | String a EmptyString =>
      String (b64_char (byte_of a / 4)) (str1 (b64_char (byte_of a mod 4 * 16)))
  | String a (String b EmptyString) =>
      String (b64_char (byte_of a / 4))
        (String (b64_char (byte_of a mod 4 * 16 + byte_of b / 16))
           (str1 (b64_char (byte_of b mod 16 * 4))))
  | String a (String b (String c s)) =>
      String (b64_char (byte_of a / 4))
        (String (b64_char (byte_of a mod 4 * 16 + byte_of b / 16))
           (String (b64_char (byte_of b mod 16 * 4 + byte_of c / 64))
              (String (b64_char (byte_of c mod 64)) (b64_encode s))))
  end.
(** [base64.urlsafe_b64decode(s + "=" * (-len(s) % 4))] on a text over the
    alphabet: [None] is [binascii.Error], bits left over are dropped. *)
Fixpoint b64_decode (s : string) : option string :=
  match s with
  | EmptyString => Some EmptyString
  | String a (String b EmptyString) =>
      x ← b64_value a; y ← b64_value b; Some (str1 (of_byte (x * 4 + y / 16)))
  | String a (String b (String c EmptyString)) =>
      x ← b64_value a; y ← b64_value b; z ← b64_value c;
      Some (String (of_byte (x * 4 + y / 16)) (str1 (of_byte (y mod 16 * 16 + z / 4))))
  | String a (String b (String c (String d s))) =>
      x ← b64_value a; y ← b64_value b; z ← b64_value c; u ← b64_value d; r ← b64_decode s;
      Some (String (of_byte (x * 4 + y / 16)) (String (of_byte (y mod 16 * 16 + z / 4))
              (String (of_byte (z mod 4 * 64 + u)) r)))
  | _ => None
  end.

Lemma b64_value_char z : 0 <= z < 64 → b64_value (b64_char z) = Some z.
Proof.
  intros H. assert (Hall : forallb (λ n, bool_decide (b64_value (b64_char (Z.of_nat n))
    = Some (Z.of_nat n))) (seq 0 64) = true) by (vm_compute; reflexivity).
  rewrite -> forallb_forall in Hall. specialize (Hall (Z.to_nat z)).
  rewrite Z2Nat.id in Hall; [lia|]. eapply bool_decide_eq_true_1, Hall, in_seq. lia.
Qed.
Lemma b64_ind (P : string → Prop) :
  P EmptyString → (∀ a, P (str1 a)) → (∀ a b, P (String a (str1 b))) →
  (∀ a b c s, P s → P (String a (String b (String c s)))) → ∀ s, P s.
Proof.
  intros H0 H1 H2 H3. fix IH 1. intros [|a [|b [|c s]]]; [exact H0|apply H1|apply H2|].
  apply H3, IH.
Qed.

Ltac bytes := Z.to_euclidean_division_equations; lia.
Lemma b64_roundtrip s : b64_decode (b64_encode s) = Some s.
Proof.
  induction s as [|a|a b|a b c s IH] using b64_ind; simpl; [done|..];
    pose proof (byte_bound a); try pose proof (byte_bound b); try pose proof (byte_bound c).
  - rewrite !b64_value_char; [bytes..|]. simpl. unfold str1. do 2 f_equal.
    rewrite -{3}(of_byte_of a). f_equal. bytes.
  - rewrite !b64_value_char; [bytes..|]. simpl. unfold str1. do 2 f_equal; [|f_equal].
    + rewrite -{3}(of_byte_of a). f_equal. bytes.
    + rewrite -{3}(of_byte_of b). f_equal. bytes.
  - rewrite !b64_value_char; [bytes..|]. simpl. rewrite IH. simpl. do 2 f_equal; [|do 2 f_equal].
    + rewrite -{3}(of_byte_of a). f_equal. bytes.
    + rewrite -{3}(of_byte_of b). f_equal. bytes.
    + rewrite -{3}(of_byte_of c). f_equal. bytes.
Qed.
Lemma b64_alphabet s : str_forallb in_alphabet (b64_encode s) = true.
Proof.
  assert (Hc : ∀ z, 0 <= z < 64 → in_alphabet (b64_char z) = true).
  { intros z Hz. unfold in_alphabet. rewrite b64_value_char //. }
  induction s as [|a|a b|a b c s IH] using b64_ind; simpl; [done|..];
    pose proof (byte_bound a); try pose proof (byte_bound b); try pose proof (byte_bound c);
    rewrite !Hc ?IH; done || bytes.
Qed.
Lemma b64_length s : (3 * String.length (b64_encode s) ≤ 4 * String.length s + 5)%nat.
Proof. induction s as [|a|a b|a b c s IH] using b64_ind; simpl; lia. Qed.
