(* ===== verification/PyDict.v ===== *)
(** * Python dictionaries and equality on JSON values

    A dictionary of JSON values is the list of its items in insertion order.
    [==] does not separate [True] from [1] nor [False] from [0]; the
    canonical text of a value does. *)

From S2P Require Import Prelude Tables PyStr Json Sorting.
Local Open Scope Z_scope.

Abbreviation dict := (list (string * json)).

Definition dict_get (k : string) (m : dict) : option json :=
  snd <$> fetchone (λ kv, kv.1 == k) m.
Definition dict_has (k : string) (m : dict) : bool := bool_decide (k ∈ map fst m).
(** [m.pop(k, None)]. *)
Definition dict_pop (k : string) (m : dict) : dict := select (λ kv, kv.1 =/= k) m.
(** [m.update(n)]. *)
Definition dict_update (m n : dict) : dict := foldl (λ m kv, dict_set kv.1 kv.2 m) m n.

(** [x == y]: booleans are the integers 0 and 1; the order of the items of a
    dictionary does not matter. *)
Fixpoint py_eq (x y : json) : bool :=
  match x, y with
  | JNull, JNull => true
  | JBool a, JBool b => Bool.eqb a b
  | JBool a, JInt z | JInt z, JBool a => z =? Z.b2z a
  | JInt a, JInt b => a =? b
  | JStr a, JStr b => a == b
  | JList l, JList l' =>
      (fix go (l l' : list json) : bool :=
         match l, l' with
         | [], [] => true
         | x :: l, y :: l' => py_eq x y && go l l'
         | _, _ => false
         end) l l'
  | JObj m, JObj n =>
      (length m =? length n)%nat
      && (fix go (m : dict) : bool :=
            match m with
            | [] => true
            | (k, v) :: m =>
                match dict_get k n with Some v' => py_eq v v' | None => false end && go m
            end) m
  | _, _ => false
  end.

(** ** Lookups *)

Lemma dict_get_None k m : dict_get k m = None ↔ k ∉ map fst m.
Proof.
  unfold dict_get. rewrite fmap_None. unfold fetchone. split.
  - intros H Hk. apply list_elem_of_fmap in Hk as (kv & -> & Hkv).
    pose proof (find_none _ _ H kv) as E. simpl in E. rewrite bool_decide_eq_true_2 // in E.
    apply list_elem_of_In in Hkv. by specialize (E Hkv).
  - intros H. destruct (find _ m) as [kv|] eqn:E; [|done].
    apply find_some in E as [Hin <-%bool_decide_eq_true]. destruct H.
    by apply list_elem_of_fmap_2, list_elem_of_In.
Qed.
Lemma dict_get_elem k v m : dict_get k m = Some v → (k, v) ∈ m.
Proof.
  unfold dict_get. destruct (fetchone _ m) as [[k' v']|] eqn:E; simpl; [|done]. intros [= <-].
  apply fetchone_Some in E as [Hin Hk%bool_decide_eq_true]. simpl in Hk. by subst.
Qed.
Lemma dict_get_Some k v m : NoDup (map fst m) → dict_get k m = Some v ↔ (k, v) ∈ m.
Proof.
  intros Hn. split; [apply dict_get_elem|]. intros Hin. unfold dict_get.
  by rewrite (fetchone_key fst m (k, v)).
Qed.
Lemma dict_get_cons k k' v m :
  dict_get k ((k', v) :: m) = if k' == k then Some v else dict_get k m.
Proof. unfold dict_get, fetchone. simpl. by case_bool_decide. Qed.
Lemma dict_get_set k k' v m : dict_get k (dict_set k' v m) = if k' == k then Some v else dict_get k m.
Proof.
  induction m as [|[k1 v1] m IH]; cbn [dict_set]; [by rewrite dict_get_cons|].
  destruct (k' == k1) eqn:E; rewrite !dict_get_cons ?IH.
  - apply bool_decide_eq_true in E as ->. by case_bool_decide.
  - apply bool_decide_eq_false in E. repeat case_bool_decide; congruence.
Qed.
Lemma dict_has_get k m : k ∈ map fst m ↔ is_Some (dict_get k m).
Proof.
  rewrite -not_eq_None_Some dict_get_None. split; [by intros ? []|].
  intros H. by destruct (decide (k ∈ map fst m)).
Qed.
Lemma dict_set_keys k v m : NoDup (map fst m) → NoDup (map fst (dict_set k v m)).
Proof.
  induction m as [|[k1 v1] m IH]; simpl; [intros _; apply NoDup_singleton|].
  intros [Hk1 Hn]%NoDup_cons. case_bool_decide as E; simpl.
  { subst. by apply NoDup_cons. }
  apply NoDup_cons. split; [|by apply IH].
  rewrite dict_has_get dict_get_set bool_decide_false // -dict_has_get. done.
Qed.
Lemma dict_get_pop k k' m : dict_get k (dict_pop k' m) = if k == k' then None else dict_get k m.
Proof.
  unfold dict_pop, select. induction m as [|[k1 v1] m IH]; cbn [List.filter fst].
  { by case_bool_decide. }
  destruct (k1 == k') eqn:E; cbn [negb]; rewrite ?dict_get_cons IH.
  - apply bool_decide_eq_true in E as ->. repeat case_bool_decide; congruence.
  - apply bool_decide_eq_false in E. repeat case_bool_decide; congruence.
Qed.
Lemma dict_pop_keys k m : NoDup (map fst m) → NoDup (map fst (dict_pop k m)).
Proof. apply NoDup_select. Qed.
Lemma dict_get_select k p m :
  NoDup (map fst m) →
  dict_get k (select p m) = v ← dict_get k m; if p (k, v) then Some v else None.
Proof.
  unfold select. induction m as [|[k1 v1] m IH]; [done|]. intros [Hk Hn]%NoDup_cons.
  specialize (IH Hn). cbn [List.filter]. rewrite dict_get_cons. destruct (p (k1, v1)) eqn:E.
  - rewrite dict_get_cons IH. case_bool_decide; [subst; simpl; by rewrite E|done].
  - rewrite IH. case_bool_decide; [subst|done]. simpl. rewrite E.
    by rewrite (proj2 (dict_get_None k m) Hk).
Qed.
Lemma dict_get_update k m n :
  NoDup (map fst n) →
  dict_get k (dict_update m n) = match dict_get k n with Some v => Some v | None => dict_get k m end.
Proof.
  unfold dict_update. revert m. induction n as [|[k1 v1] n IH]; intros m Hn; [done|].
  apply NoDup_cons in Hn as [Hk Hn]. cbn [foldl fst snd]. rewrite IH // dict_get_cons dict_get_set.
  case_bool_decide; [subst|done]. by rewrite (proj2 (dict_get_None k n) Hk).
Qed.
Lemma dict_update_keys m n : NoDup (map fst m) → NoDup (map fst (dict_update m n)).
Proof.
  unfold dict_update. revert m. induction n as [|[k1 v1] n IH]; intros m Hm; simpl; [done|].
  apply IH. by apply dict_set_keys.
Qed.

(** ** Canonical texts *)

#[global] Instance key_preorder {A} : PreorderB (@key_leb A).
Proof. apply (image_preorder fst), str_preorder. Qed.

Lemma canonical_perm m n :
  NoDup (map fst m) → map (λ kv, (kv.1, canonical_json kv.2)) m ≡ₚ map (λ kv, (kv.1, canonical_json kv.2)) n →
  canonical_json (JObj m) = canonical_json (JObj n).
Proof.
  intros Hd HP. simpl. do 4 f_equal.
  set (f := λ kv : string * json, (kv.1, canonical_json kv.2)) in *.
  assert (Hk : NoDup (map fst (map f m))) by by rewrite map_map.
  apply (sorted_unique key_leb); [|apply sort_by_sorted, _..|by rewrite !sort_by_perm].
  intros x y Hx%elem_of_sort_by Hy%elem_of_sort_by Hxy Hyx.
  eapply (key_unique fst (map f m)); try done. by apply str_antisym.
Qed.

(** Two dictionaries with the same keys and the same texts of their values. *)
Definition dict_equiv (m n : dict) : Prop :=
  ∀ k, canonical_json <$> dict_get k m = canonical_json <$> dict_get k n.
#[export] Instance dict_equiv_equivalence : Equivalence dict_equiv.
Proof.
  split; unfold dict_equiv; [done|by intros ?? H k|].
  intros x y z H1 H2 k. by rewrite H1.
Qed.

Lemma elem_of_texts k t m :
  NoDup (map fst m) →
  (k, t) ∈ map (λ kv, (kv.1, canonical_json kv.2)) m ↔ canonical_json <$> dict_get k m = Some t.
Proof.
  intros Hn. rewrite list_elem_of_fmap fmap_Some. split.
  - intros ([k' v] & [= -> ->] & Hin). exists v. split; [by apply dict_get_Some|done].
  - intros (v & Hv & ->). exists (k, v). split; [done|]. by apply dict_get_elem.
Qed.
Lemma equiv_canonical m n :
  NoDup (map fst m) → NoDup (map fst n) → dict_equiv m n →
  canonical_json (JObj m) = canonical_json (JObj n).
Proof.
  intros Hm Hn H. apply canonical_perm; [done|].
  assert (Hd : ∀ l : dict, NoDup (map fst l) → NoDup (map (λ kv, (kv.1, canonical_json kv.2)) l)).
  { intros l Hl. apply (NoDup_fmap_1 fst). change (NoDup (map fst (map (λ kv, (kv.1, canonical_json kv.2)) l))).
    by rewrite map_map. }
  apply NoDup_Permutation; [by apply Hd..|]. intros [k t]. rewrite !elem_of_texts //. by rewrite H.
Qed.

Lemma dict_get_map k (f : json → json) m :
  dict_get k (map (λ kv, (kv.1, f kv.2)) m) = f <$> dict_get k m.
Proof.
  induction m as [|[k1 v1] m IH]; [done|]. cbn [map fst snd]. rewrite !dict_get_cons IH.
  by case_bool_decide.
Qed.
Lemma dict_get_perm k m n : NoDup (map fst m) → m ≡ₚ n → dict_get k m = dict_get k n.
Proof.
  intros Hm HP. assert (Hn : NoDup (map fst n)) by by rewrite -HP.
  apply option_eq. intros v. rewrite !dict_get_Some //. by rewrite HP.
Qed.
Lemma dict_get_norm k m :
  NoDup (map fst m) → dict_get k (sort_by key_leb (map (λ kv, (kv.1, norm kv.2)) m)) = norm <$> dict_get k m.
Proof.
  intros Hm. rewrite -dict_get_map. apply dict_get_perm; [|by rewrite sort_by_perm].
  rewrite sort_by_perm map_map. done.
Qed.

Lemma canonical_norm v : canonical_json (norm v) = canonical_json v.
Proof.
  induction v as [| | | |l IH|m IH] using json_induction; try done.
  - simpl. do 3 f_equal. rewrite map_map. apply map_ext_in. intros x Hx%list_elem_of_In.
    rewrite -> Forall_forall in IH. by apply IH.
  - change (norm (JObj m)) with (JObj (sort_by key_leb (map (λ kv, (kv.1, norm kv.2)) m))).
    rewrite !canonical_json_obj. rewrite (sort_by_id key_leb (sort_by _ _) (sort_by_sorted _ _)).
    rewrite (sort_by_map norm m) map_map. do 3 f_equal. apply map_ext_in. intros [k v] Hkv.
    apply list_elem_of_In, elem_of_sort_by in Hkv. unfold member_text. simpl.
    rewrite -> Forall_forall in IH. by rewrite (IH _ Hkv).
Qed.
Lemma canonical_equiv m n :
  wf_json (JObj m) → wf_json (JObj n) → canonical_json (JObj m) = canonical_json (JObj n) →
  dict_equiv m n.
Proof.
  intros Hm Hn E k. pose proof (canonical_json_inj _ _ Hm Hn E) as H.
  change (norm (JObj ?x)) with (JObj (sort_by key_leb (map (λ kv, (kv.1, norm kv.2)) x))) in H.
  injection H as H. destruct Hm as [Hm _], Hn as [Hn _].
  pose proof (dict_get_norm k m Hm) as Gm. rewrite H (dict_get_norm k n Hn) in Gm.
  destruct (dict_get k m) as [v|], (dict_get k n) as [v'|]; simplify_eq/=; try done.
  f_equal. rewrite -(canonical_norm v) -(canonical_norm v'). congruence.
Qed.

(** ** Parsed values have distinct keys *)

Lemma wf_list l : wf_json (JList l) ↔ Forall wf_json l.
Proof.
  simpl. split; [apply foldr_and_Forall|]. induction 1; simpl; [done|]. by split.
Qed.
Lemma wf_obj m : wf_json (JObj m) ↔ NoDup (map fst m) ∧ Forall (λ kv, wf_json kv.2) m.
Proof.
  simpl. split; intros [H1 H2]; (split; [done|]).
  - by apply (foldr_and_Forall (λ kv, wf_json kv.2)).
  - clear H1. induction H2; simpl; [done|]. by split.
Qed.
Lemma wf_dict_set k v m : wf_json v → wf_json (JObj m) → wf_json (JObj (dict_set k v m)).
Proof.
  rewrite !wf_obj. intros Hv [Hn Hm]. split; [by apply dict_set_keys|].
  clear Hn. induction Hm as [|[k1 v1] m H1 Hm IH]; simpl; [by repeat constructor|].
  case_bool_decide; by constructor.
Qed.
Lemma parse_digits_wf sign s v r : parse_digits sign s = Some (v, r) → wf_json v.
Proof.
  unfold parse_digits. destruct (scan_digits s) as [d r']. case_match; [done|].
  intros (i & _ & [= <- _])%bind_Some. done.
Qed.
Lemma parse_number_wf s v r : parse_number s = Some (v, r) → wf_json v.
Proof. destruct s; simpl; [done|]. case_match; apply parse_digits_wf. Qed.
Lemma parse_wf n :
  (∀ s v r, parse_value n s = Some (v, r) → wf_json v) ∧
  (∀ acc s v r, Forall wf_json acc → parse_elems n acc s = Some (v, r) → wf_json v) ∧
  (∀ acc s v r, wf_json (JObj acc) → parse_members n acc s = Some (v, r) → wf_json v).
Proof.
  induction n as [|n (IHv & IHe & IHm)]; [done|]. split_and!.
  - intros s v r. simpl. destruct (skip_ws s) as [|c t]; [done|].
    destruct (code c =? 34)%N; [by intros ([] & _ & [= <- _])%bind_Some|].
    destruct (code c =? 91)%N.
    { case_match; [by intros [= <- _]|]. apply IHe. constructor. }
    destruct (code c =? 123)%N.
    { case_match; [by intros [= <- _]; repeat constructor|]. apply IHm. by repeat constructor. }
    do 3 (case_match; [by intros (? & _ & [= <- _])%bind_Some|]).
    apply (parse_number_wf (String c t)).
  - intros acc s v r Hacc. simpl. intros ([u t] & Hu%IHv & H)%bind_Some.
    destruct (skip_ws t) as [|c t']; [done|].
    assert (Forall wf_json (acc ++ [u])) by (apply Forall_app_2; [done|by constructor]).
    case_match; [by apply IHe in H|]. case_match; [|done]. simplify_eq. by apply wf_list.
  - intros acc s v r Hacc H. cbn [parse_members] in H.
    apply bind_Some in H as (r0 & _ & H). apply bind_Some in H as ([k r1] & _ & H).
    apply bind_Some in H as (r2 & _ & H). apply bind_Some in H as ([u t] & Hu%IHv & H).
    destruct (skip_ws t) as [|c t']; [done|].
    pose proof (wf_dict_set k u acc Hu Hacc) as Hset.
    case_match; [by apply IHm in H|]. case_match; [|done]. by simplify_eq.
Qed.
Lemma loads_wf s v : strict_json_loads s = Ok v → wf_json v.
Proof.
  unfold strict_json_loads. destruct (parse_value _ s) as [[u r]|] eqn:E; [|done].
  case_match; [|done]. intros [= <-]. by eapply (proj1 (parse_wf _)).
Qed.

(** ** Where [==] is equality of texts *)

(** A class of values on which [==] does not confuse different texts. *)
Definition distinguishes (P : json → Prop) : Prop :=
  ∀ x y, P x → P y → py_eq x y = true → canonical_json x = canonical_json y.

(** Values without booleans are one: only [True == 1] and [False == 0] are
    confused. *)
Fixpoint no_bool (v : json) : bool :=
  match v with
  | JBool _ => false
  | JList l => forallb no_bool l
  | JObj m => forallb (λ kv, no_bool kv.2) m
  | _ => true
  end.
Lemma no_bool_distinguishes : distinguishes (λ v, wf_json v ∧ no_bool v = true).
Proof.
  intros x. induction x as [| |z|s|l IH|m IH] using json_induction; intros y [Hwx Hx] [Hwy Hy] H;
    destruct y as [| | | |l'|n]; try done.
  - simpl in H. by apply Z.eqb_eq in H as ->.
  - simpl in H. by apply bool_decide_eq_true in H as ->.
  - simpl. do 3 f_equal. apply wf_list in Hwx, Hwy. simpl in Hx, Hy. revert l' Hy Hwy H.
    induction l as [|x l IHl]; intros [|y l'] Hy Hwy H; try done. simpl in *.
    apply andb_prop in Hx as [? ?], Hy as [? ?], H as [? ?].
    inversion IH; inversion Hwx; inversion Hwy; subst.
    f_equal; [by auto|]. by apply IHl.
  - apply wf_obj in Hwx as [Hn Hm], Hwy as [Hn' Hm'].
    cbn [py_eq] in H. apply andb_prop in H as [Hlen%Nat.eqb_eq H].
    assert (Hall : ∀ k v, (k, v) ∈ m → ∃ v', dict_get k n = Some v' ∧ py_eq v v' = true).
    { clear -H. induction m as [|[k v] m IHm]; [by intros ?? ?%not_elem_of_nil|].
      apply andb_prop in H as [H1 H2]. destruct (dict_get k n) as [v'|] eqn:E; [|done].
      intros k' u [[= -> ->]|Hin]%elem_of_cons; [by exists v'|]. by apply IHm. }
    rewrite -> Forall_forall in *. simpl in Hx, Hy. rewrite -> forallb_forall in Hx, Hy.
    assert (Hsub : ∀ k v, dict_get k m = Some v → ∃ v', dict_get k n = Some v' ∧
              canonical_json v = canonical_json v').
    { intros k v Hkv%dict_get_elem. destruct (Hall k v Hkv) as (v' & E & Hv). exists v'.
      split; [done|]. apply dict_get_elem in E. apply (IH (k, v) Hkv); [..|done]; split.
      - apply (Hm _ Hkv).
      - by apply (Hx (k, v)), list_elem_of_In.
      - apply (Hm' _ E).
      - by apply (Hy (k, v')), list_elem_of_In. }
    apply equiv_canonical; try done. intros k.
    destruct (dict_get k m) as [v|] eqn:E.
    + destruct (Hsub k v E) as (v' & -> & Ev). simpl. by rewrite Ev.
    + destruct (dict_get k n) as [v'|] eqn:E'; [|done]. exfalso.
      assert (Hkeys : map fst n ⊆ map fst m).
      { assert (map fst m ⊆+ map fst n) as HP.
        { apply NoDup_submseteq; [done|]. intros x [v Hv]%dict_has_get.
          destruct (Hsub x v Hv) as (u & Eu & _). apply dict_has_get. by exists u. }
        apply submseteq_length_Permutation in HP; [|by rewrite !length_map Hlen].
        intros x. by rewrite HP. }
      apply dict_get_None in E. apply E, Hkeys, dict_has_get. by exists v'.
Qed.
