(* ===== verification/Admission.v ===== *)
(** * The admission gate ([src/src/noyra/core/admission.py])

    [RuntimeAdmissionGate] and its leases.  Every method of the gate is one
    critical section of its lock, so a method is one function of the gate's
    fields; [fence_for_migration], which releases the lock while it waits,
    is the two sections around the wait.  The lock is reentrant: the second
    half of the file has the threads, the owner of the lock, the scopes that
    keep it, and what a thread may do from inside one.  The callbacks the gate is built
    with (process ownership, the durable migration epoch) may answer
    differently at every call: they are functions of the tick. *)

From S2P Require Import Prelude Tables PyStr.
From stdpp Require Import relations.
Local Open Scope Z_scope.

Record OperationLease := {
  l_subject_id : string; l_epoch : Z; l_operation_id : string; l_kind : string;
  l_allow_quarantine : bool;
}.
#[global] Instance OperationLease_eq_dec : EqDecision OperationLease.
Proof. solve_decision. Defined.

(** The mutable fields of the gate. *)
Record gate := Gate {
  g_epoch : Z; g_active : Z; g_accepting : bool; g_quarantined : bool; g_closed : bool;
  g_migration_fenced : bool; g_migration_fence_epoch : option Z;
  g_migration_control_active : bool;
}.

(** What the gate is constructed with. *)
Class GateConfig := {
  gate_subject_id : string;
  ownership_check : option (nat → bool);
  control_ownership_arg : option (nat → bool);
  migration_clear_check : option (nat → bool);
  lease_uuid : nat → string;
}.

Section gate.
Context {Gc : GateConfig}.
Abbreviation G := (M gate).

(** [__init__]. *)
Definition new_gate (initially_accepting : bool) : gate :=
  Gate 0 0 initially_accepting false false false None false.
(** [control_ownership_check or ownership_check]. *)
Definition control_ownership_check : option (nat → bool) :=
  match control_ownership_arg with Some f => Some f | None => ownership_check end.
(** [check is not None and not check()]. *)
Definition denied (check : option (nat → bool)) : G bool :=
  match check with
  | None => mret false
  | Some f => b ← read_clock f; mret (negb b)
  end.

#[local] Arguments denied : simpl never.

Definition accepting (g : gate) : bool :=
  g_accepting g && negb (g_closed g) && negb (g_migration_fenced g).

Definition open (epoch : option Z) : G unit :=
  g ← gets id;
  refused ← (if g_migration_fenced g then denied migration_clear_check else mret false);
  raise_if refused (RuntimeOwnershipError "migration epoch is still active") ;;
  modify (λ g, Gate (match epoch with Some e => Z.max (g_epoch g) e | None => g_epoch g end)
    (g_active g) true false false false None (g_migration_control_active g)).

Definition invalidate (quarantined closed : bool) : G Z :=
  modify (λ g, Gate (g_epoch g + 1) (g_active g) false (quarantined || g_quarantined g)
    (closed || g_closed g) (g_migration_fenced g) (g_migration_fence_epoch g)
    (g_migration_control_active g)) ;;
  gets g_epoch.
Definition quarantine : G Z := invalidate true false.
Definition begin_drain : G Z := invalidate false true.

Definition clear_quarantine : G unit :=
  g ← gets id;
  raise_if (g_closed g) (OperationInvalidated "runtime is draining") ;;
  modify (λ g, Gate (g_epoch g) (g_active g) false false (g_closed g) (g_migration_fenced g)
    (g_migration_fence_epoch g) (g_migration_control_active g)).

Definition set_control (b : bool) (g : gate) : gate :=
  Gate (g_epoch g) (g_active g) (g_accepting g) (g_quarantined g) (g_closed g)
    (g_migration_fenced g) (g_migration_fence_epoch g) b.
(** Entering and leaving [migration_control_scope]. *)
Definition enter_migration_control : G unit :=
  refused ← denied control_ownership_check;
  raise_if refused
    (RuntimeOwnershipError "runtime ownership is required for migration control") ;;
  g ← gets id;
  raise_if (g_closed g) (OperationInvalidated "runtime is draining") ;;
  raise_if (g_quarantined g) (OperationInvalidated "runtime is in integrity quarantine") ;;
  raise_if (g_migration_control_active g)
    (OperationInvalidated "migration control is already active") ;;
  modify (set_control true).
Definition exit_migration_control : G unit := modify (set_control false).

(** [fence_for_migration] up to the wait. *)
Definition fence_begin : G Z :=
  g ← gets id;
  raise_if (negb (g_migration_control_active g))
    (OperationInvalidated "migration control scope is required to fence runtime") ;;
  raise_if (g_closed g) (OperationInvalidated "runtime is draining") ;;
  modify (λ g, Gate (g_epoch g + 1) (g_active g) false (g_quarantined g) (g_closed g) true
    (Some (g_epoch g + 1)) (g_migration_control_active g)) ;;
  gets g_epoch.
(** One wake-up of [wait_for_drain]: [None] keeps waiting. *)
Definition drain_poll (timed_out : bool) : G (option bool) :=
  g ← gets id;
  mret (if g_active g =? 0 then Some true else if timed_out then Some false else None).
(** [fence_for_migration] after the wait. *)
Definition fence_end (drained : bool) (fence_epoch : Z) : result Z :=
  if drained then Ok fence_epoch
  else Raise (OperationInvalidated "migration fence could not drain active operations").

Definition clear_migration_fence (fence_epoch : Z) : G unit :=
  g ← gets id;
  raise_if (negb (g_migration_control_active g))
    (OperationInvalidated "migration control scope is required to clear fence") ;;
  raise_if (g_migration_fence_epoch g =/= Some fence_epoch)
    (OperationInvalidated "migration fence epoch is stale") ;;
  raise_if (g_closed g) (OperationInvalidated "runtime is draining") ;;
  refused ← denied migration_clear_check;
  raise_if refused (RuntimeOwnershipError "migration epoch is still active") ;;
  modify (λ g, Gate (g_epoch g) (g_active g) (negb (g_quarantined g)) (g_quarantined g)
    (g_closed g) false None (g_migration_control_active g)).

Definition assert_migration_fenced : G unit :=
  g ← gets id;
  raise_if (negb (g_migration_fenced g))
    (OperationInvalidated "migration source is not fenced").

Definition set_active (n : Z) (g : gate) : gate :=
  Gate (g_epoch g) n (g_accepting g) (g_quarantined g) (g_closed g)
    (g_migration_fenced g) (g_migration_fence_epoch g) (g_migration_control_active g).

Definition begin (kind : string) (allow_quarantine : bool) : G OperationLease :=
  raise_if (blank kind) (ValueError "operation kind is required") ;;
  refused ← denied ownership_check;
  raise_if refused
    (RuntimeOwnershipError "runtime ownership is required for operation admission") ;;
  g ← gets id;
  raise_if (g_closed g) (OperationInvalidated "runtime is draining") ;;
  raise_if (g_migration_fenced g) (RuntimeOwnershipError "runtime is fenced for migration") ;;
  raise_if (negb (g_accepting g) && negb allow_quarantine)
    (OperationInvalidated "runtime admission is closed") ;;
  raise_if (g_quarantined g && negb allow_quarantine)
    (OperationInvalidated "runtime is in integrity quarantine") ;;
  u ← read_fresh lease_uuid;
  modify (λ g, set_active (g_active g + 1) g) ;;
  mret {| l_subject_id := gate_subject_id; l_epoch := g_epoch g; l_operation_id := u;
          l_kind := kind; l_allow_quarantine := allow_quarantine |}.

Definition finish : G unit :=
  modify (λ g, if 0 <? g_active g then set_active (g_active g - 1) g else g).

(** [_assert_current_locked]; [commit_scope] and
    [external_side_effect_scope] run it and keep the lock for their body. *)
Definition assert_current (lease : OperationLease) : G unit :=
  raise_if (l_subject_id lease =/= gate_subject_id)
    (OperationInvalidated "operation subject mismatch") ;;
  refused ← denied ownership_check;
  raise_if refused (OperationInvalidated "runtime ownership was released") ;;
  g ← gets id;
  raise_if (negb (l_epoch lease =? g_epoch g))
    (OperationInvalidated "operation epoch is stale") ;;
  raise_if (g_closed g) (OperationInvalidated "runtime is draining") ;;
  raise_if (g_migration_fenced g) (OperationInvalidated "runtime is fenced for migration") ;;
  raise_if (negb (g_accepting g) && negb (l_allow_quarantine lease))
    (OperationInvalidated "runtime admission is closed") ;;
  raise_if (g_quarantined g && negb (l_allow_quarantine lease))
    (OperationInvalidated "runtime is in integrity quarantine").

(** Entering [lifecycle_control_scope]. *)
Definition enter_lifecycle_control : G unit :=
  g ← gets id;
  raise_if (g_closed g) (OperationInvalidated "runtime is draining") ;;
  raise_if (g_quarantined g) (OperationInvalidated "runtime is in integrity quarantine").

(** ** The gate as a machine *)

(** The calls a process makes on the gate.  [Invalidate] is the general
    form of [Quarantine] and [BeginDrain]. *)
Inductive gate_op :=
| Open (epoch : option Z)
| Invalidate (quarantined closed : bool)
| ClearQuarantine
| EnterMigrationControl
| ExitMigrationControl
| FenceBegin
| ClearMigrationFence (fence_epoch : Z)
| Begin (kind : string) (allow_quarantine : bool)
| Finish.
Definition run_gate (op : gate_op) : G (option OperationLease) :=
  match op with
  | Open e => open e ;; mret None
  | Invalidate q c => invalidate q c ;; mret None
  | ClearQuarantine => clear_quarantine ;; mret None
  | EnterMigrationControl => enter_migration_control ;; mret None
  | ExitMigrationControl => exit_migration_control ;; mret None
  | FenceBegin => fence_begin ;; mret None
  | ClearMigrationFence e => clear_migration_fence e ;; mret None
  | Begin k a => l ← begin k a; mret (Some l)
  | Finish => finish ;; mret None
  end.
Inductive gate_step (w : world gate) : world gate → Prop :=
| gate_called op : gate_step w (run_gate op w).2
| gate_clock t f : gate_step w (World (db w) t f).

(** The lease would pass the final check, were the process still owner. *)
Definition current (g : gate) (l : OperationLease) : bool :=
  (l_epoch l =? g_epoch g) && negb (g_closed g) && negb (g_migration_fenced g)
  && (g_accepting g || l_allow_quarantine l) && (negb (g_quarantined g) || l_allow_quarantine l).

(** The gate is changed at most by the last statement of a method. *)
Lemma silent_denied c : silent (denied c).
Proof. unfold denied. solve_silent. Qed.
Lemma silent_assert_current l : silent (assert_current l).
Proof. unfold assert_current. pose proof silent_denied. solve_silent. Qed.

Lemma assert_current_ok l w u w' :
  ok (assert_current l) w u w' →
  current (db w) l = true ∧ l_subject_id l = gate_subject_id ∧ db w' = db w.
Proof.
  intros H. pose proof (silent_pure _ (silent_assert_current l) _ _ _ H) as Hd.
  unfold assert_current in H. invert_ok.
  rewrite -Hd. split_and!; [| |done].
  - unfold current. by destruct (_ =? _), (g_closed _), (g_migration_fenced _),
      (g_accepting _), (g_quarantined _), (l_allow_quarantine l).
  - match goal with H : negb (bool_decide _) = false |- _ =>
      by apply negb_false_iff, bool_decide_eq_true_1 in H end.
Qed.

(** What each call does to the gate, when it returns; a call that raises
    leaves the gate alone. *)
Lemma begin_ok k a w l w' :
  ok (begin k a) w l w' →
  db w' = set_active (g_active (db w) + 1) (db w) ∧ current (db w) l = true ∧
  l_subject_id l = gate_subject_id ∧ l_allow_quarantine l = a ∧ l_kind l = k.
Proof.
  unfold begin. intros H. invert_ok. pose proof (silent_pure _ (silent_denied ownership_check)) as Hp.
  match goal with H : ok (denied _) _ _ _ |- _ => apply Hp in H; rename H into Hd end.
  simpl in *. rewrite -Hd. split_and!; try done. unfold current. simpl. rewrite Z.eqb_refl.
  by destruct (g_closed _), (g_migration_fenced _), (g_accepting _), (g_quarantined _), a.
Qed.

Definition effect (op : gate_op) (g : gate) : gate :=
  match op with
  | Open e => Gate (match e with Some e => Z.max (g_epoch g) e | None => g_epoch g end)
      (g_active g) true false false false None (g_migration_control_active g)
  | Invalidate q c => Gate (g_epoch g + 1) (g_active g) false (q || g_quarantined g)
      (c || g_closed g) (g_migration_fenced g) (g_migration_fence_epoch g)
      (g_migration_control_active g)
  | ClearQuarantine => Gate (g_epoch g) (g_active g) false false (g_closed g)
      (g_migration_fenced g) (g_migration_fence_epoch g) (g_migration_control_active g)
  | EnterMigrationControl => set_control true g
  | ExitMigrationControl => set_control false g
  | FenceBegin => Gate (g_epoch g + 1) (g_active g) false (g_quarantined g) (g_closed g) true
      (Some (g_epoch g + 1)) (g_migration_control_active g)
  | ClearMigrationFence _ => Gate (g_epoch g) (g_active g) (negb (g_quarantined g))
      (g_quarantined g) (g_closed g) false None (g_migration_control_active g)
  | Begin _ _ => set_active (g_active g + 1) g
  | Finish => if 0 <? g_active g then set_active (g_active g - 1) g else g
  end.
Lemma run_gate_effect op w :
  db (run_gate op w).2 = if is_ok (run_gate op w).1 then effect op (db w) else db w.
Proof.
  destruct op; unfold run_gate, open, invalidate, clear_quarantine, enter_migration_control,
    exit_migration_control, fence_begin, clear_migration_fence, begin, finish, denied,
    raise_if, raise, gets, modify, read_clock, read_fresh, mbind, M_bind, mret, M_ret;
    repeat (simpl; case_match; simplify_eq); simpl; congruence.
Qed.

Lemma effect_epoch op g : g_epoch g <= g_epoch (effect op g).
Proof. destruct op as [[e|]|[] []| | | | | | |]; simpl; try case_match; simpl; lia. Qed.
Lemma call_epoch op w : g_epoch (db w) <= g_epoch (db (run_gate op w).2).
Proof. rewrite run_gate_effect. case_match; [apply effect_epoch|lia]. Qed.
Lemma steps_epoch w w' : rtc gate_step w w' → g_epoch (db w) <= g_epoch (db w').
Proof.
  induction 1 as [w|w w1 w2 [op|t f] _ IH]; [lia| |done].
  pose proof (call_epoch op w). lia.
Qed.

Lemma not_current_refused l w :
  current (db w) l = false → ∃ msg w', assert_current l w = (Raise (OperationInvalidated msg), w').
Proof.
  intros Hc. destruct (assert_current l w) as [[u|e] w'] eqn:E.
  - apply assert_current_ok in E as [E _]. congruence.
  - revert E. unfold assert_current, denied, raise_if, raise, gets, read_clock, mbind, M_bind,
      mret, M_ret. repeat (simpl; case_match; simplify_eq); naive_solver.
Qed.

(** The calls that fence: [quarantine], [begin_drain] and any other
    invalidation, and the migration fence. *)
Definition fences (op : gate_op) : bool :=
  match op with Invalidate _ _ | FenceBegin => true | _ => false end.
Lemma effect_fences op g : fences op = true → g_epoch (effect op g) = g_epoch g + 1.
Proof. by destruct op. Qed.

(** C32: A fenced lease stays fenced.  Once a quarantine, a drain or a
    migration fence has returned, no lease issued before it passes the
    final check again, whatever is called on the gate afterwards,
    reopening included. *)
Theorem fenced_lease_stays_fenced op r l w w1 w2 :
  l_epoch l <= g_epoch (db w) → fences op = true → ok (run_gate op) w r w1 →
  rtc gate_step w1 w2 →
  ∃ msg w', assert_current l w2 = (Raise (OperationInvalidated msg), w').
Proof.
  intros Hl Hf Hr Hs%steps_epoch. apply not_current_refused.
  pose proof (run_gate_effect op w) as E. unfold ok in Hr. rewrite Hr /= in E.
  rewrite E effect_fences // in Hs. unfold current.
  by rewrite (proj2 (Z.eqb_neq _ _)); [lia|].
Qed.

(** ** Threads, scopes and the migration drain *)

(** The reentrant lock under the gate's condition variable: its owner and
    how many times the owner has entered it.  A thread acquires a lock that
    is free or its own. *)
Definition rlock : Type := option (nat * nat).
Definition acquire (t : nat) (lk : rlock) : option rlock :=
  match lk with
  | None => Some (Some (t, 1%nat))
  | Some (o, n) => if bool_decide (o = t) then Some (Some (t, S n)) else None
  end.
Definition release (lk : rlock) : rlock :=
  match lk with Some (o, S (S n)) => Some (o, S n) | _ => None end.
(** [Condition.wait] gives up every level of the lock and takes them back
    when it wakes. *)
Definition level (lk : rlock) : nat := match lk with Some (_, n) => n | None => 0%nat end.
Definition restore (t n : nat) : rlock := match n with O => None | S _ => Some (t, n) end.

(** An entered [commit_scope] or [external_side_effect_scope] (with its
    lease) or [lifecycle_control_scope] (without): the thread that entered
    it, and whether that thread has itself called a control of the gate or
    waited for a drain since. *)
Record scope := Scope {
  sc_thread : nat; sc_lease : option OperationLease; sc_touched : bool;
}.
Definition touch (t : nat) (sc : scope) : scope :=
  if bool_decide (sc_thread sc = t) then Scope t (sc_lease sc) true else sc.

(** A process at work: its gate, the lock, the threads asleep in
    [wait_for_drain] with the levels of the lock they will take back, the
    leases begun and not finished, the scopes entered (innermost first),
    and whether the wait of the standing migration fence has returned. *)
Record runtime := Runtime {
  rt_gate : world gate; rt_lock : rlock; rt_waiting : list (nat * nat);
  rt_leases : list OperationLease; rt_scopes : list scope; rt_drained : bool;
}.
Definition op_is_fence (op : gate_op) : bool :=
  match op with FenceBegin => true | _ => false end.
Definition is_control (op : gate_op) : bool :=
  match op with Begin _ _ | Finish => false | _ => true end.
Definition awake (s : runtime) (t : nat) : Prop := t ∉ (rt_waiting s).*1.
(** [with self._condition]: the thread runs and gets the lock. *)
Definition may_call (s : runtime) (t : nat) : Prop :=
  awake s t ∧ is_Some (acquire t (rt_lock s)).

(** One step of the thread [t].  Every method needs the lock, so it waits
    while another thread is inside a scope; the thread inside may call any
    of them, controls included.  A call that raises or only reads (the
    properties, [assert_current]) changes nothing but the clock
    ([rt_unchanged]).  A lease is finished once, as [operation] does; any
    lease may be used to enter a scope.  A thread that finds work under way in [wait_for_drain] sleeps
    ([rt_wait]) and tests again after it wakes. *)
Inductive runtime_step (s : runtime) (t : nat) : runtime → Prop :=
| rt_control op :
    is_control op = true → may_call s t →
    runtime_step s t (Runtime (run_gate op (rt_gate s)).2 (rt_lock s) (rt_waiting s)
      (rt_leases s) (touch t <$> rt_scopes s)
      (rt_drained s && g_migration_fenced (db (run_gate op (rt_gate s)).2)
       && negb (op_is_fence op)))
| rt_begin k a l w' :
    may_call s t → ok (begin k a) (rt_gate s) l w' →
    runtime_step s t (Runtime w' (rt_lock s) (rt_waiting s) (rt_leases s ++ [l])
      (rt_scopes s) (rt_drained s))
| rt_finish l l1 l2 :
    may_call s t → rt_leases s = l1 ++ l :: l2 →
    runtime_step s t (Runtime (finish (rt_gate s)).2 (rt_lock s) (rt_waiting s) (l1 ++ l2)
      (rt_scopes s) (rt_drained s))
| rt_enter l u w' lk :
    awake s t → acquire t (rt_lock s) = Some lk → ok (assert_current l) (rt_gate s) u w' →
    runtime_step s t (Runtime w' lk (rt_waiting s) (rt_leases s)
      (Scope t (Some l) false :: rt_scopes s) (rt_drained s))
| rt_enter_lifecycle u w' lk :
    awake s t → acquire t (rt_lock s) = Some lk → ok enter_lifecycle_control (rt_gate s) u w' →
    runtime_step s t (Runtime w' lk (rt_waiting s) (rt_leases s)
      (Scope t None false :: rt_scopes s) (rt_drained s))
| rt_leave sc s1 s2 :
    awake s t → rt_scopes s = s1 ++ sc :: s2 → sc_thread sc = t →
    Forall (λ c, sc_thread c ≠ t) s1 →
    runtime_step s t (Runtime (rt_gate s) (release (rt_lock s)) (rt_waiting s) (rt_leases s)
      (s1 ++ s2) (rt_drained s))
| rt_drain timed_out w' :
    may_call s t → g_migration_fenced (db (rt_gate s)) = true →
    ok (drain_poll timed_out) (rt_gate s) (Some true) w' →
    runtime_step s t (Runtime w' (rt_lock s) (rt_waiting s) (rt_leases s) (rt_scopes s) true)
| rt_wait w' :
    may_call s t → ok (drain_poll false) (rt_gate s) None w' →
    runtime_step s t (Runtime w' None ((t, level (rt_lock s)) :: rt_waiting s) (rt_leases s)
      (touch t <$> rt_scopes s) (rt_drained s))
| rt_wake n w1 w2 :
    rt_waiting s = w1 ++ (t, n) :: w2 → rt_lock s = None →
    runtime_step s t (Runtime (rt_gate s) (restore t n) (w1 ++ w2) (rt_leases s)
      (rt_scopes s) (rt_drained s))
| rt_unchanged k f :
    may_call s t →
    runtime_step s t (Runtime (World (db (rt_gate s)) k f) (rt_lock s) (rt_waiting s)
      (rt_leases s) (rt_scopes s) (rt_drained s)).
Definition new_runtime (initially_accepting : bool) : runtime :=
  Runtime (World (new_gate initially_accepting) 0 0) None [] [] [] false.
Definition any_step (s s' : runtime) : Prop := ∃ t, runtime_step s t s'.
Definition running (s : runtime) : Prop := ∃ b, rtc any_step (new_runtime b) s.

(** *** The lock *)

Definition scopes_of (t : nat) (l : list scope) : nat :=
  length (filter (λ c, sc_thread c = t) l).
Lemma scopes_of_cons t sc l :
  scopes_of t (sc :: l) = ((if bool_decide (sc_thread sc = t) then 1 else 0) + scopes_of t l)%nat.
Proof. unfold scopes_of. rewrite filter_cons. case_bool_decide; by case_decide. Qed.
Lemma scopes_of_middle t sc l1 l2 :
  scopes_of t (l1 ++ sc :: l2) =
  ((if bool_decide (sc_thread sc = t) then 1 else 0) + scopes_of t (l1 ++ l2))%nat.
Proof. induction l1 as [|c l1 IH]; simpl; rewrite !scopes_of_cons ?IH; lia. Qed.
Lemma touch_thread t sc : sc_thread (touch t sc) = sc_thread sc.
Proof. unfold touch. by case_bool_decide. Qed.
Lemma scopes_of_touch t t' l : scopes_of t (touch t' <$> l) = scopes_of t l.
Proof. induction l as [|sc l IH]; [done|]. by rewrite fmap_cons !scopes_of_cons touch_thread IH. Qed.
Lemma scopes_of_pos sc l : sc ∈ l → (0 < scopes_of (sc_thread sc) l)%nat.
Proof.
  induction 1 as [sc l|sc c l _ IH]; rewrite scopes_of_cons; [rewrite bool_decide_eq_true_2 //|]; lia.
Qed.

(** The lock is at the level of its owner's scopes, as it will be for a
    sleeper when it wakes; a thread with a scope owns the lock or sleeps,
    and the scopes of a sleeper are touched. *)
Record lock_ok (s : runtime) : Prop := {
  lo_owner : ∀ t n, rt_lock s = Some (t, n) →
    n = scopes_of t (rt_scopes s) ∧ (0 < n)%nat ∧ awake s t;
  lo_sleeper : ∀ t n, (t, n) ∈ rt_waiting s → n = scopes_of t (rt_scopes s);
  lo_once : NoDup (rt_waiting s).*1;
  lo_held : ∀ sc, sc ∈ rt_scopes s →
    (sc_thread sc ∈ (rt_waiting s).*1 ∧ sc_touched sc = true) ∨
    ∃ n, rt_lock s = Some (sc_thread sc, n);
}.

Lemma acquire_own t lk o n : is_Some (acquire t lk) → lk = Some (o, n) → o = t.
Proof. intros [lk' E] ->. simpl in E. by case_bool_decide. Qed.
Lemma untouched_owns s sc :
  lock_ok s → sc ∈ rt_scopes s → sc_touched sc = false → ∃ n, rt_lock s = Some (sc_thread sc, n).
Proof. intros H Hsc Ht. destruct (lo_held _ H sc Hsc) as [[_ ?]|?]; [congruence|done]. Qed.

(** Calls that neither enter nor leave a scope. *)
Lemma lock_ok_same s s' :
  lock_ok s → rt_lock s' = rt_lock s → rt_waiting s' = rt_waiting s →
  (rt_scopes s' = rt_scopes s ∨ ∃ t, rt_scopes s' = touch t <$> rt_scopes s) → lock_ok s'.
Proof.
  intros [Ho Hw Hn Hh] El Ew Es.
  assert (∀ t, scopes_of t (rt_scopes s') = scopes_of t (rt_scopes s)) as Hc.
  { intros t. destruct Es as [->|[t' ->]]; [done|apply scopes_of_touch]. }
  split; unfold awake in *; rewrite ?El ?Ew; try done.
  - intros t n E. rewrite Hc. by apply Ho.
  - intros t n E. rewrite Hc. by apply Hw.
  - intros sc Hsc. destruct Es as [E|[t' E]]; rewrite E in Hsc; [by apply Hh|].
    apply list_elem_of_fmap in Hsc as (c & -> & Hc'%Hh). rewrite touch_thread.
    destruct Hc' as [[? ?]|?]; [left; split; [done|]|by right].
    unfold touch. by case_bool_decide.
Qed.
Lemma acquired t lk lk' :
  acquire t lk = Some lk' →
  lk' = Some (t, S (level lk)) ∧ (lk = None ∨ ∃ n, lk = Some (t, n)).
Proof. destruct lk as [[o n]|]; simpl; [case_bool_decide|]; naive_solver. Qed.
(** A thread that gets the lock gets it at the level of its scopes. *)
Lemma level_scopes s t :
  lock_ok s → may_call s t → level (rt_lock s) = scopes_of t (rt_scopes s).
Proof.
  intros [Ho _ _ Hh] [Ha Hq]. destruct (rt_lock s) as [[o n]|] eqn:El; simpl.
  { pose proof (acquire_own _ _ _ _ Hq eq_refl) as ->. by apply Ho. }
  unfold scopes_of. destruct (filter _ (rt_scopes s)) as [|c l] eqn:F; [done|].
  assert (c ∈ filter (λ c, sc_thread c = t) (rt_scopes s)) as [Ec Hc]%list_elem_of_filter
    by (rewrite F; apply here).
  destruct (Hh c Hc) as [[Hc' _]|[n E']]; [|congruence]. rewrite Ec in Hc'. by destruct Ha.
Qed.
Lemma enter_lock_ok s t lk w' le :
  lock_ok s → awake s t → acquire t (rt_lock s) = Some lk →
  lock_ok (Runtime w' lk (rt_waiting s) (rt_leases s) (Scope t le false :: rt_scopes s)
    (rt_drained s)).
Proof.
  intros H Ha Hq. assert (level (rt_lock s) = scopes_of t (rt_scopes s)) as El
    by (apply level_scopes; [done|split; [done|by eexists]]).
  apply acquired in Hq as [-> Hl]. destruct H as [Ho Hw Hn Hh]. split; simpl; try done.
  - intros t' n [= <- <-]. rewrite scopes_of_cons /= bool_decide_eq_true_2 // El.
    split_and!; [done|lia|done].
  - intros t' n Hin. rewrite scopes_of_cons /= bool_decide_eq_false_2; [|by apply Hw].
    intros ->. apply Ha, list_elem_of_fmap. by exists (t', n).
  - intros sc [->|Hsc]%elem_of_cons; simpl; [eauto|].
    destruct (Hh sc Hsc) as [?|[n E]]; [by left|right].
    destruct Hl as [E'|[n' E']]; rewrite E' in E; [done|]. simplify_eq. eauto.
Qed.
Lemma leave_lock_ok s t sc s1 s2 :
  lock_ok s → awake s t → rt_scopes s = s1 ++ sc :: s2 → sc_thread sc = t →
  lock_ok (Runtime (rt_gate s) (release (rt_lock s)) (rt_waiting s) (rt_leases s) (s1 ++ s2)
    (rt_drained s)).
Proof.
  intros [Ho Hw Hn Hh] Ha Es Et.
  assert (∃ n, rt_lock s = Some (t, n)) as [n E].
  { destruct (Hh sc) as [[Hc _]|[n E]]; [rewrite Es; set_solver| |rewrite Et in E; eauto].
    rewrite Et in Hc. by destruct Ha. }
  destruct (Ho _ _ E) as (En & _ & _). rewrite Es scopes_of_middle bool_decide_eq_true_2 // in En.
  subst n. split; simpl; try done; rewrite ?E /=.
  - destruct (scopes_of t (s1 ++ s2)) eqn:F; intros t' k [= <- <-]. split_and!; [done|lia|done].
  - intros t' k Hin. rewrite (Hw _ _ Hin) Es scopes_of_middle bool_decide_eq_false_2 //.
    intros Hx. apply Ha, list_elem_of_fmap. exists (t', k). by rewrite -Et Hx.
  - intros c Hc. destruct (Hh c) as [?|[k Ek]]; [rewrite Es; set_solver|by left|right].
    apply scopes_of_pos in Hc. rewrite E in Ek. injection Ek as Ek _. rewrite -Ek in Hc |- *.
    destruct (scopes_of t (s1 ++ s2)); [lia|eauto].
Qed.
Lemma wait_lock_ok s t w' :
  lock_ok s → may_call s t →
  lock_ok (Runtime w' None ((t, level (rt_lock s)) :: rt_waiting s) (rt_leases s)
    (touch t <$> rt_scopes s) (rt_drained s)).
Proof.
  intros H Hm. pose proof H as [Ho Hw Hn Hh]. pose proof Hm as [Ha Hq]. split; simpl; try done.
  - intros t' n [E|Hin]%elem_of_cons; [injection E as -> ->|by rewrite scopes_of_touch; apply Hw].
    by rewrite scopes_of_touch; apply level_scopes.
  - by apply NoDup_cons.
  - intros sc (c & -> & Hc)%list_elem_of_fmap. left. rewrite touch_thread. unfold touch.
    case_bool_decide as Ed; [split; [by rewrite Ed; left|done]|].
    destruct (Hh c Hc) as [[? ?]|[n E]]; [split; [by right|done]|].
    by pose proof (acquire_own _ _ _ _ Hq E).
Qed.
Lemma wake_lock_ok s t n w1 w2 :
  lock_ok s → rt_waiting s = w1 ++ (t, n) :: w2 → rt_lock s = None →
  lock_ok (Runtime (rt_gate s) (restore t n) (w1 ++ w2) (rt_leases s) (rt_scopes s)
    (rt_drained s)).
Proof.
  intros [Ho Hw Hn Hh] Ew El. rewrite Ew in Hw Hn.
  assert (n = scopes_of t (rt_scopes s)) as En by (apply Hw; set_solver).
  rewrite fmap_app fmap_cons /= in Hn.
  assert ((t ∉ (w1 ++ w2).*1) ∧ NoDup ((w1 ++ w2).*1)) as [Ht Hn'].
  { rewrite fmap_app. apply NoDup_cons. by rewrite Permutation_middle. }
  split; simpl; try done.
  - destruct n as [|n]; intros t' k [= <- <-]. split_and!; [done|lia|done].
  - intros t' k Hin. apply Hw. set_solver.
  - intros sc Hsc. destruct (Hh sc Hsc) as [[Hc Hto]|[k E]]; [|congruence].
    rewrite Ew fmap_app fmap_cons /= in Hc. destruct (decide (sc_thread sc = t)) as [E|E].
    + right. pose proof (scopes_of_pos _ _ Hsc) as Hp. rewrite E -En in Hp.
      destruct n; [lia|]. rewrite E. simpl. eauto.
    + left. split; [|done]. rewrite fmap_app. set_solver.
Qed.
Lemma step_lock_ok s t s' : runtime_step s t s' → lock_ok s → lock_ok s'.
Proof.
  intros Hst H. destruct Hst.
  - eapply lock_ok_same; [exact H|done|done|]. right. by exists t.
  - by eapply lock_ok_same; [exact H|..|left].
  - by eapply lock_ok_same; [exact H|..|left].
  - by apply enter_lock_ok.
  - by apply enter_lock_ok.
  - by eapply leave_lock_ok.
  - by eapply lock_ok_same; [exact H|..|left].
  - by apply wait_lock_ok.
  - by apply wake_lock_ok.
  - by eapply lock_ok_same; [exact H|..|left].
Qed.

Lemma only_owner_steps s t o n s' :
  lock_ok s → rt_lock s = Some (o, n) → runtime_step s t s' → t = o.
Proof.
  intros H El Hst. destruct Hst as [? ? [_ Hq]|? ? ? ? [_ Hq] ?|? ? ? [_ Hq] ?|? ? ? ? _ Hq _
    |? ? ? _ Hq _|sc s1 s2 Ha Es Et _|? ? [_ Hq] _ _|? [_ Hq] _|? ? ? _ El'|? ? [_ Hq]];
    try (by symmetry; eapply acquire_own; eauto); [|congruence].
  destruct (lo_held _ H sc) as [[Hc _]|[k Ek]]; [rewrite Es; set_solver| |congruence].
  rewrite Et in Hc. by destruct Ha.
Qed.

(** *** The gate under the lock *)

(** What the entry check of a scope has established. *)
Definition scope_holds (g : gate) (sc : scope) : Prop :=
  match sc_lease sc with
  | Some l => l_subject_id l = gate_subject_id ∧ current g l = true
  | None => g_closed g = false ∧ g_quarantined g = false
  end.
Record runtime_ok (s : runtime) : Prop := {
  ro_lock : lock_ok s;
  ro_active : g_active (db (rt_gate s)) = Z.of_nat (length (rt_leases s));
  ro_scopes : ∀ sc, sc ∈ rt_scopes s → sc_touched sc = false →
    scope_holds (db (rt_gate s)) sc;
  ro_drained : rt_drained s = true →
    g_migration_fenced (db (rt_gate s)) = true ∧ rt_leases s = [];
}.

Lemma effect_active op g : is_control op = true → g_active (effect op g) = g_active g.
Proof. by destruct op. Qed.
Lemma scope_holds_active n g sc : scope_holds (set_active n g) sc ↔ scope_holds g sc.
Proof. done. Qed.
Lemma begin_unfenced k a w l w' : ok (begin k a) w l w' → g_migration_fenced (db w) = false.
Proof.
  intros (_ & Hc & _)%begin_ok. unfold current in Hc.
  by destruct (g_migration_fenced _); [rewrite /= andb_false_r in Hc|].
Qed.
Lemma enter_lifecycle_ok w u w' :
  ok enter_lifecycle_control w u w' →
  db w' = db w ∧ g_closed (db w) = false ∧ g_quarantined (db w) = false.
Proof. unfold enter_lifecycle_control. intros H. by invert_ok. Qed.
Lemma drain_poll_ok b w r w' :
  ok (drain_poll b) w r w' → db w' = db w ∧ (r = Some true → g_active (db w) = 0).
Proof.
  unfold drain_poll. intros H. invert_ok. split; [done|]. case_match eqn:E; [lia|by case_match].
Qed.
(** No scope of another thread is in the way of a call: it is untouched
    only while its thread owns the lock. *)
Lemma touched_untouched s t sc :
  lock_ok s → may_call s t → sc ∈ (touch t <$> rt_scopes s) → sc_touched sc = true.
Proof.
  intros H [_ Hq] (c & -> & Hc)%list_elem_of_fmap. unfold touch. case_bool_decide as Et; [done|].
  destruct (sc_touched c) eqn:E; [done|]. destruct (untouched_owns _ _ H Hc E) as [n El].
  by pose proof (acquire_own _ _ _ _ Hq El).
Qed.

Lemma runtime_step_ok s t s' : runtime_step s t s' → runtime_ok s → runtime_ok s'.
Proof.
  intros Hst [Hl Ha Hs Hd]. split; [by eapply step_lock_ok|..];
    destruct Hst as [op Hc Hm|k a l w' Hm Hb|l l1 l2 Hm El|l u w' lk _ _ Hc|u w' lk _ _ Hc
      |sc s1 s2 _ Es _ _|b w' Hm Hf Hp|w' Hm Hp|n w1 w2 _ _|k f Hm]; simpl; auto;
    try (apply begin_ok in Hb as Hb'; destruct Hb' as (E & _); rewrite E);
    try (apply assert_current_ok in Hc as (Hc & Hsub & E); rewrite E);
    try (apply enter_lifecycle_ok in Hc as (E & Hc); rewrite E);
    try (apply drain_poll_ok in Hp as (E & Hz); rewrite E); simpl; auto.
  - rewrite run_gate_effect. case_match; [by rewrite effect_active|done].
  - rewrite Ha length_app /=. lia.
  - rewrite El length_app /= in Ha. rewrite (proj2 (Z.ltb_lt _ _)) /=; [lia|].
    rewrite length_app. lia.
  - intros sc Hsc Ht. pose proof (touched_untouched _ _ _ Hl Hm Hsc). congruence.
  - intros sc Hsc Ht. specialize (Hs sc Hsc Ht). by case_match.
  - intros sc [->|?]%elem_of_cons Ht; [done|by apply Hs].
  - intros sc [->|?]%elem_of_cons Ht; [done|by apply Hs].
  - intros c Hcc. apply Hs. rewrite Es. set_solver.
  - intros sc Hsc Ht. pose proof (touched_untouched _ _ _ Hl Hm Hsc). congruence.
  - rewrite !andb_true_iff. intros [[Hd1 Hf] _]. split; [done|by apply Hd].
  - intros [Hf _]%Hd. by rewrite (begin_unfenced _ _ _ _ _ Hb) in Hf.
  - intros [Hf Hn]%Hd. rewrite El in Hn. by destruct l1.
  - intros _. split; [done|]. apply length_zero_iff_nil. specialize (Hz eq_refl). lia.
Qed.
Lemma running_ok s : running s → runtime_ok s.
Proof.
  intros [b H]. revert s H. apply rtc_ind_r.
  - split; [split|..]; simpl; try done; [by intros ? ? ?%not_elem_of_nil|apply NoDup_nil_2
      |by intros ? ?%not_elem_of_nil..].
  - intros s1 s2 _ [t Hs]. by eapply runtime_step_ok.
Qed.

(** The gate counts its leases, and a drained fence is quiet.  In every
    state of a running process the gate's counter is the number of leases
    begun and not finished; and from the moment the wait of a migration
    fence returns until the fence is lifted, no operation is under way and
    none can begin. *)
Theorem drained_fence_is_quiet s :
  running s →
  g_active (db (rt_gate s)) = Z.of_nat (length (rt_leases s)) ∧
  (rt_drained s = true → rt_leases s = [] ∧
     ∀ k a l w', ~ ok (begin k a) (rt_gate s) l w').
Proof.
  intros [_ Ha _ Hd]%running_ok. split; [done|]. intros [Hf Hn]%Hd. split; [done|].
  intros k a l w' Hb%begin_unfenced. congruence.
Qed.

(** C34: What is committed is current.  Take any state of a running process
    of any number of threads and an entered commit or side-effect scope
    whose own thread has neither called a control of the gate nor waited for
    a drain since it entered.  Then its thread owns the lock, and no other
    thread can take a step on the gate; the lease is of the gate's subject
    and present epoch, the gate is neither draining nor fenced, and it
    admits the lease: no pause, quarantine, drain or migration fence of
    another thread comes between the final check and the write. *)
Theorem commits_are_current s sc l :
  running s → sc ∈ rt_scopes s → sc_lease sc = Some l → sc_touched sc = false →
  (∃ n, rt_lock s = Some (sc_thread sc, n)) ∧
  (∀ t s', runtime_step s t s' → t = sc_thread sc) ∧
  l_subject_id l = gate_subject_id ∧ l_epoch l = g_epoch (db (rt_gate s)) ∧
  g_closed (db (rt_gate s)) = false ∧ g_migration_fenced (db (rt_gate s)) = false ∧
  (l_allow_quarantine l = false →
     g_accepting (db (rt_gate s)) = true ∧ g_quarantined (db (rt_gate s)) = false).
Proof.
  intros [Hk _ Hs _]%running_ok Hin El Ht. pose proof (untouched_owns _ _ Hk Hin Ht) as [n Hn].
  specialize (Hs sc Hin Ht). unfold scope_holds, current in Hs. rewrite El in Hs.
  destruct Hs as [Hsub Hc]. split; [eauto|]. split; [by intros; eapply only_owner_steps|].
  rewrite !andb_true_iff !orb_true_iff !negb_true_iff Z.eqb_eq in Hc. naive_solver congruence.
Qed.
End gate.
