(* ===== verification/WalletTypes.v ===== *)
(** * Wallet data ([src/src/noyra/wallet/economy_types.py], the wallet
    tables of [core/schema/migrations_v055_v069.py])

    The enumerations, the validated inputs and the rows of the tables of
    the bounty, payment-order and ledger domain. *)

From S2P Require Import Prelude Tables PyStr Json Digest Time.
Local Open Scope Z_scope.

(** ** Enumerations *)

Inductive BountyStatus := BDraft | BPublished | BClosed | BCancelled | BExpired.
Inductive SubmissionStatus := SSubmitted | SAccepted | SRejected | SWithdrawn | SExpired.
Inductive PaymentMode := MDisabled | MConditional | MAutomatic.
Inductive PaymentOrderStatus :=
| OPendingPolicy | OAwaitingConfirmation | OReserved | ORejected | OCancelled | OExpired
| OSigning | OBroadcast | OUnknown | OConfirmed | OFailed | ORefunded.
Inductive JournalType := JReservation | JRelease | JSettlement | JRefund.
Inductive Account := AAvailable | AReserved | APaid | AReleased.
Inductive Direction := Debit | Credit.

#[global] Instance BountyStatus_eq_dec : EqDecision BountyStatus.
Proof. solve_decision. Defined.
#[global] Instance SubmissionStatus_eq_dec : EqDecision SubmissionStatus.
Proof. solve_decision. Defined.
#[global] Instance PaymentMode_eq_dec : EqDecision PaymentMode.
Proof. solve_decision. Defined.
#[global] Instance PaymentOrderStatus_eq_dec : EqDecision PaymentOrderStatus.
Proof. solve_decision. Defined.
#[global] Instance JournalType_eq_dec : EqDecision JournalType.
Proof. solve_decision. Defined.
#[global] Instance Account_eq_dec : EqDecision Account.
Proof. solve_decision. Defined.
#[global] Instance Direction_eq_dec : EqDecision Direction.
Proof. solve_decision. Defined.

Definition bounty_status_text (s : BountyStatus) : string :=
  match s with
  | BDraft => "draft" | BPublished => "published" | BClosed => "closed"
  | BCancelled => "cancelled" | BExpired => "expired"
  end.
Definition submission_status_text (s : SubmissionStatus) : string :=
  match s with
  | SSubmitted => "submitted" | SAccepted => "accepted" | SRejected => "rejected"
  | SWithdrawn => "withdrawn" | SExpired => "expired"
  end.
Definition payment_mode_text (m : PaymentMode) : string :=
  match m with
  | MDisabled => "disabled" | MConditional => "conditional_confirmation"
  | MAutomatic => "automatic"
  end.
Definition order_status_text (s : PaymentOrderStatus) : string :=
  match s with
  | OPendingPolicy => "pending_policy" | OAwaitingConfirmation => "awaiting_confirmation"
  | OReserved => "reserved" | ORejected => "rejected" | OCancelled => "cancelled"
  | OExpired => "expired" | OSigning => "signing" | OBroadcast => "broadcast"
  | OUnknown => "unknown" | OConfirmed => "confirmed" | OFailed => "failed"
  | ORefunded => "refunded"
  end.
Definition journal_type_text (t : JournalType) : string :=
  match t with
  | JReservation => "reservation" | JRelease => "release" | JSettlement => "settlement"
  | JRefund => "refund"
  end.
Definition account_text (a : Account) : string :=
  match a with
  | AAvailable => "available" | AReserved => "reserved" | APaid => "paid"
  | AReleased => "released"
  end.
Definition direction_text (d : Direction) : string :=
  match d with Debit => "debit" | Credit => "credit" end.

(** ** Validation *)

Definition SQLITE_INT64_MAX : Z := 9223372036854775807.

(** [[A-Za-z0-9][A-Za-z0-9._:-]{0,127}]. *)
Definition evm_id_char (c : Ascii.ascii) : bool :=
  is_alnum c || (code c =? 46)%N || (code c =? 95)%N || (code c =? 58)%N || (code c =? 45)%N.
Definition evm_id_match (s : string) : bool :=
  match s with
  | String c s' => is_alnum c && str_forallb evm_id_char s' && (len s <=? 128)
  | EmptyString => false
  end.
Definition _identifier (value label : string) : result string :=
  let value := strip value in
  if evm_id_match value then Ok value
  else Raise (ValueError ("wallet " +:+ label +:+ " is invalid")).

(** [(?:0|[1-9][0-9]{0,18})]. *)
Definition amount_match (s : string) : bool :=
  numeral s && (len s <=? 19) && negb (leading_zero s).
Definition canonical_amount (value : string) : result string :=
  if negb (amount_match value) then
    Raise (ValueError "wallet amount must be a canonical integer string")
  else
    match py_int value with
    | Some parsed =>
        if SQLITE_INT64_MAX <? parsed then
          Raise (ValueError "wallet amount exceeds SQLite integer bound")
        else Ok value
    | None => Raise (ValueError "invalid literal for int()")
    end.

(** [0x[0-9a-fA-F]{40}], stored in lower case. *)
Definition evm_address_match (s : string) : bool :=
  match s with
  | String z (String x s') =>
      (code z =? 48)%N && (code x =? 120)%N && str_forallb is_hex s' && (len s' =? 40)
  | _ => false
  end.
Definition canonical_evm_address (value : string) : result string :=
  let candidate := strip value in
  if evm_address_match candidate then Ok (lower candidate)
  else Raise (ValueError "wallet address must be a 20-byte EVM address").

(** [Field(min_length=lo, max_length=hi)] and [Field(ge=lo, le=hi)]. *)
Definition length_between (lo hi : Z) (s : string) : result unit :=
  if (lo <=? len s) && (len s <=? hi) then Ok tt else Raise (ValueError "string length").
Definition between (lo hi z : Z) : result unit :=
  if (lo <=? z) && (z <=? hi) then Ok tt else Raise (ValueError "integer bound").
Definition check (b : bool) (msg : string) : result unit :=
  if b then Ok tt else Raise (ValueError msg).

Fixpoint mapM_result {A B} (f : A → result B) (l : list A) : result (list B) :=
  match l with
  | [] => Ok []
  | x :: l' => y ← f x; ys ← mapM_result f l'; Ok (y :: ys)
  end.
Definition distinct (l : list string) : bool := bool_decide (NoDup l).

Record BountyInput := {
  bi_title : string;
  bi_description : string;
  bi_acceptance_criteria : list string;
  bi_network_id : string;
  bi_asset_id : string;
  bi_reward_amount : string;
  bi_opens_at : string;
  bi_expires_at : string;
  bi_max_submissions : Z;
  bi_reward_slots : Z;
  bi_project_id : option string;
  bi_goal_id : option string;
  bi_idempotency_key : string;
}.

Definition nonblank_text (value msg : string) : result string :=
  let value := strip value in
  _ ← check (value =/= EmptyString) msg; Ok value.
Definition clean_criteria (value : list string) : result (list string) :=
  let cleaned := map strip value in
  _ ← check (forallb (λ s, (s =/= EmptyString) && (len s <=? 2000)) cleaned && distinct cleaned)
        "wallet bounty acceptance criteria are invalid";
  Ok cleaned.
Definition optional_identifier (value : option string) : result (option string) :=
  match value with
  | None => Ok None
  | Some s =>
      _ ← length_between 0 128 s; s' ← _identifier s "provenance identifier"; Ok (Some s')
  end.

(** [BountyInput.model_validate]: the field constraints, the field
    validators and the model validator. *)
Definition validate_BountyInput (p : BountyInput) : result BountyInput :=
  _ ← length_between 1 240 (bi_title p);
  title ← nonblank_text (bi_title p) "wallet bounty text cannot be blank";
  _ ← length_between 1 20000 (bi_description p);
  description ← nonblank_text (bi_description p) "wallet bounty text cannot be blank";
  _ ← between 1 32 (Z.of_nat (length (bi_acceptance_criteria p)));
  criteria ← clean_criteria (bi_acceptance_criteria p);
  _ ← length_between 1 128 (bi_network_id p);
  network_id ← _identifier (bi_network_id p) "identifier";
  _ ← length_between 1 128 (bi_asset_id p);
  asset_id ← _identifier (bi_asset_id p) "identifier";
  _ ← length_between 1 19 (bi_reward_amount p);
  reward ← canonical_amount (bi_reward_amount p);
  _ ← check (reward =/= "0") "wallet bounty reward must be positive";
  opens_at ← canonical_timestamp (bi_opens_at p);
  expires_at ← canonical_timestamp (bi_expires_at p);
  _ ← between 1 10000 (bi_max_submissions p);
  _ ← between 1 10000 (bi_reward_slots p);
  project_id ← optional_identifier (bi_project_id p);
  goal_id ← optional_identifier (bi_goal_id p);
  _ ← length_between 1 128 (bi_idempotency_key p);
  key ← _identifier (bi_idempotency_key p) "identifier";
  _ ← check (str_ltb opens_at expires_at) "wallet bounty expiry must be after opening";
  _ ← check (bool_decide (is_Some project_id) || bool_decide (is_Some goal_id))
        "wallet bounty requires project or goal provenance";
  _ ← check (bi_reward_slots p <=? bi_max_submissions p)
        "wallet bounty reward slots exceed submission limit";
  Ok {| bi_title := title; bi_description := description; bi_acceptance_criteria := criteria;
        bi_network_id := network_id; bi_asset_id := asset_id; bi_reward_amount := reward;
        bi_opens_at := opens_at; bi_expires_at := expires_at;
        bi_max_submissions := bi_max_submissions p; bi_reward_slots := bi_reward_slots p;
        bi_project_id := project_id; bi_goal_id := goal_id; bi_idempotency_key := key |}.

Record SubmissionInput := {
  si_counterparty : string;
  si_content : string;
  si_evidence : list string;
  si_recipient_address : string;
  si_idempotency_key : string;
  si_consent_version : Z;
}.

Definition validate_SubmissionInput (p : SubmissionInput) : result SubmissionInput :=
  _ ← length_between 1 256 (si_counterparty p);
  counterparty ← nonblank_text (si_counterparty p) "wallet submission text cannot be blank";
  _ ← length_between 1 20000 (si_content p);
  content ← nonblank_text (si_content p) "wallet submission text cannot be blank";
  _ ← between 0 32 (Z.of_nat (length (si_evidence p)));
  _ ← check (forallb (λ s, (s =/= EmptyString) && (len s <=? 2000)) (map strip (si_evidence p)))
        "wallet submission evidence is invalid";
  _ ← length_between 42 42 (si_recipient_address p);
  address ← canonical_evm_address (si_recipient_address p);
  _ ← length_between 1 128 (si_idempotency_key p);
  key ← _identifier (si_idempotency_key p) "submission idempotency key";
  _ ← between 1 1000 (si_consent_version p);
  Ok {| si_counterparty := counterparty; si_content := content;
        si_evidence := map strip (si_evidence p); si_recipient_address := address;
        si_idempotency_key := key; si_consent_version := si_consent_version p |}.

Record PaymentPolicyInput := {
  pi_mode : PaymentMode;
  pi_allowed_network_ids : list string;
  pi_allowed_asset_ids : list string;
  pi_per_order_limit : string;
  pi_daily_limit : string;
  pi_monthly_limit : string;
  pi_daily_order_limit : Z;
  pi_monthly_order_limit : Z;
  pi_min_balance : string;
  pi_max_observation_age_seconds : Z;
  pi_automatic_max_amount : string;
  pi_anomaly_block : bool;
  pi_emergency_paused : bool;
  pi_automation_enabled : option bool;
  pi_recipient_allowlist_enabled : bool;
  pi_allowed_recipient_addresses : list string;
}.

Definition clean_allowlist (f : string → result string) (msg : string) (value : list string)
    : result (list string) :=
  _ ← between 0 256 (Z.of_nat (length value));
  cleaned ← mapM_result f value;
  _ ← check (distinct cleaned) msg;
  Ok cleaned.

Definition validate_PaymentPolicyInput (p : PaymentPolicyInput) : result PaymentPolicyInput :=
  networks ← clean_allowlist (λ s, _identifier s "allow-list identifier")
    "wallet policy allow-list contains duplicates" (pi_allowed_network_ids p);
  assets ← clean_allowlist (λ s, _identifier s "allow-list identifier")
    "wallet policy allow-list contains duplicates" (pi_allowed_asset_ids p);
  per_order ← canonical_amount (pi_per_order_limit p);
  daily ← canonical_amount (pi_daily_limit p);
  monthly ← canonical_amount (pi_monthly_limit p);
  _ ← between 0 1000000 (pi_daily_order_limit p);
  _ ← between 0 1000000 (pi_monthly_order_limit p);
  min_balance ← canonical_amount (pi_min_balance p);
  _ ← between 0 2592000 (pi_max_observation_age_seconds p);
  automatic ← canonical_amount (pi_automatic_max_amount p);
  recipients ← clean_allowlist canonical_evm_address
    "wallet recipient allow-list contains duplicates" (pi_allowed_recipient_addresses p);
  Ok {| pi_mode := pi_mode p; pi_allowed_network_ids := networks;
        pi_allowed_asset_ids := assets; pi_per_order_limit := per_order;
        pi_daily_limit := daily; pi_monthly_limit := monthly;
        pi_daily_order_limit := pi_daily_order_limit p;
        pi_monthly_order_limit := pi_monthly_order_limit p; pi_min_balance := min_balance;
        pi_max_observation_age_seconds := pi_max_observation_age_seconds p;
        pi_automatic_max_amount := automatic; pi_anomaly_block := pi_anomaly_block p;
        pi_emergency_paused := pi_emergency_paused p;
        pi_automation_enabled := pi_automation_enabled p;
        pi_recipient_allowlist_enabled := pi_recipient_allowlist_enabled p;
        pi_allowed_recipient_addresses := recipients |}.
