(* ===== verification/KernelDb.v ===== *)
(** * The kernel tables ([core/schema/base.py], [core/schema/migrations_v022_v034.py],
    [core/schema/evidence.py], [core/evidence_schema.py])

    Events and the hash chain over them, training provenance, the runtime
    state, actions with their revisions and behaviour logs: rows, the
    constraints and triggers SQLite enforces, and the hashes of the rows.
    Tables of other components that the kernel only reads hold the columns
    it reads.  As for the wallet tables, constraints that cannot fail in
    the modelled code are not repeated. *)

From S2P Require Import Prelude Tables PyStr Json Digest Time.
Local Open Scope Z_scope.

(** What the kernel reads from outside the database: the wall clock,
    [uuid4], archived payloads (subject, archive key, event), the file
    fence of the migration runner, and the configured bounds. *)
Class Host := {
  now_at : nat → string;
  uuid_at : nat → string;
  archived_payload : nat → string → string → string → result json;
  fence_file_active : nat → string → bool;
  migration_target_id : option string;
  evidence_row_limit : Z;
}.

(** ** Rows *)

Inductive ProcessingStatus := Recorded | Processed | ProcessingFailed.
#[global] Instance ProcessingStatus_eq_dec : EqDecision ProcessingStatus.
Proof. solve_decision. Defined.

Record event_row := {
  ev_event_id : string; ev_subject_id : string; ev_event_type : string; ev_source : string;
  ev_occurred_at : string; ev_observed_at : string; ev_payload_json : string;
  ev_payload_hash : string; ev_privacy_level : string; ev_causal_parent_ids_json : string;
  ev_processing_status : ProcessingStatus; ev_payload_archive_key : option string;
  ev_payload_archived_at : option string;
}.
Record chain_row := {
  cr_event_id : string; cr_subject_id : string; cr_sequence_number : Z;
  cr_previous_root_hash : option string; cr_root_hash : string; cr_created_at : string;
}.

Record training_policy_row := {
  tp_subject_id : string; tp_record_enabled : bool; tp_export_enabled : bool;
  tp_include_private_psychology : bool; tp_include_conversations : bool;
  tp_include_model_io : bool; tp_include_external_actions : bool; tp_include_workspace : bool;
  tp_policy_version : Z; tp_updated_at : string;
}.
Record training_record_row := {
  tr_record_id : string; tr_subject_id : string; tr_event_id : string; tr_record_kind : string;
  tr_privacy_level : string; tr_eligibility : string; tr_source_hash : string;
  tr_redaction_status : string; tr_consent_version : Z; tr_created_at : string;
  tr_updated_at : string;
}.

Inductive LifecycleState :=
| Booting | Orienting | Active | Paused | WindingDown | ReflectiveSleep | DeepSleep | Waking
| Stopped | Resetting.
#[global] Instance LifecycleState_eq_dec : EqDecision LifecycleState.
Proof. solve_decision. Defined.
Definition lifecycle_text (s : LifecycleState) : string :=
  match s with
  | Booting => "booting" | Orienting => "orienting" | Active => "active" | Paused => "paused"
  | WindingDown => "winding_down" | ReflectiveSleep => "reflective_sleep"
  | DeepSleep => "deep_sleep" | Waking => "waking" | Stopped => "stopped"
  | Resetting => "resetting"
  end.
Record runtime_row := {
  rs_subject_id : string; rs_state : LifecycleState; rs_reason : string; rs_version : Z;
  rs_changed_at : string;
}.

Inductive ActionStatus := Prepared | Executing | Succeeded | Failed | Unknown | Cancelled.
#[global] Instance ActionStatus_eq_dec : EqDecision ActionStatus.
Proof. solve_decision. Defined.
Definition action_status_text (s : ActionStatus) : string :=
  match s with
  | Prepared => "prepared" | Executing => "executing" | Succeeded => "succeeded"
  | Failed => "failed" | Unknown => "unknown" | Cancelled => "cancelled"
  end.
Record action_row := {
  ac_action_id : string; ac_subject_id : string; ac_goal_id : option string;
  ac_project_id : option string; ac_phase_id : option string; ac_strategy_id : option string;
  ac_action_type : string; ac_tool : string; ac_target : string; ac_input_hash : string;
  ac_idempotency_key : string; ac_expected_outcome : string; ac_side_effect : bool;
  ac_status : ActionStatus; ac_retry_count : Z; ac_resource_cost_json : string;
  ac_result_json : option string; ac_prepared_at : string; ac_started_at : option string;
  ac_completed_at : option string;
}.
Record action_revision_row := {
  ar_revision_id : string; ar_action_id : string; ar_subject_id : string;
  ar_revision_number : Z; ar_status : ActionStatus; ar_state_hash : string;
  ar_reason : string; ar_created_at : string;
}.
Record behavior_log_row := {
  bl_log_id : string; bl_action_id : string; bl_subject_id : string; bl_occurred_at : string;
  bl_action_type : string; bl_public_goal_reference : option string; bl_tool : string;
  bl_public_target : string; bl_result_status : ActionStatus; bl_side_effect_summary : string;
  bl_resource_summary : string; bl_public_explanation : string;
  bl_redaction_reason : option string;
}.
(** A revision repeats the columns of the log. *)
Record behavior_revision_row := {
  br_revision_id : string; br_log : behavior_log_row; br_revision_number : Z;
  br_state_hash : string; br_reason : string; br_created_at : string;
}.

Record kaudit_row := {
  ka_audit_id : string; ka_subject_id : string; ka_action : string; ka_actor : string;
  ka_payload_json : string; ka_occurred_at : string;
}.
Record retry_block_row := {
  rb_subject_id : string; rb_goal_id : option string; rb_strategy_id : option string;
  rb_tool : string; rb_target : string; rb_status : string;
}.
(** [evidence_row_counts] and [route_evidence_row_counts] together. *)
Record count_row := { ct_subject_id : string; ct_table_name : string; ct_row_count : Z }.
Record epoch_row := { ep_subject_id : string; ep_target_id : string; ep_status : string }.

#[global] Instance event_row_eq_dec : EqDecision event_row.
Proof. solve_decision. Defined.
#[global] Instance action_row_eq_dec : EqDecision action_row.
Proof. solve_decision. Defined.
#[global] Instance behavior_log_row_eq_dec : EqDecision behavior_log_row.
Proof. solve_decision. Defined.

(** [private_conversation_messages] and [private_conversations]. *)
Record private_message_row := {
  pm_interaction_id : string; pm_conversation_id : string; pm_subject_id : string;
}.
Record conversation_row := {
  pc_conversation_id : string; pc_subject_id : string; pc_status : string;
}.
(** Tables other components own. *)
Record other_tables := {
  retry_blocks : list retry_block_row;
  goal_owners : list (string * string);
  project_owners : list (string * string);
  phase_projects : list (string * string);
  private_messages : list private_message_row;
  private_conversations : list conversation_row;
  migration_epochs : list epoch_row;
}.
Record kernel_db := {
  subject_ids : list string;
  events : list event_row;
  chain_roots : list chain_row;
  training_policies : list training_policy_row;
  training_records : list training_record_row;
  runtime_states : list runtime_row;
  actions : list action_row;
  action_revisions : list action_revision_row;
  behavior_logs : list behavior_log_row;
  behavior_revisions : list behavior_revision_row;
  kaudits : list kaudit_row;
  counts : list count_row;
  others : other_tables;
}.

Definition set_subject_ids (f : list string → list string) (d : kernel_db) : kernel_db :=
  {| subject_ids := f (subject_ids d); events := events d; chain_roots := chain_roots d;
     training_policies := training_policies d; training_records := training_records d;
     runtime_states := runtime_states d; actions := actions d;
     action_revisions := action_revisions d; behavior_logs := behavior_logs d;
     behavior_revisions := behavior_revisions d; kaudits := kaudits d; counts := counts d;
     others := others d |}.
Definition set_events (f : list event_row → list event_row) (d : kernel_db) : kernel_db :=
  {| subject_ids := subject_ids d; events := f (events d); chain_roots := chain_roots d;
     training_policies := training_policies d; training_records := training_records d;
     runtime_states := runtime_states d; actions := actions d;
     action_revisions := action_revisions d; behavior_logs := behavior_logs d;
     behavior_revisions := behavior_revisions d; kaudits := kaudits d; counts := counts d;
     others := others d |}.
Definition set_chain_roots (f : list chain_row → list chain_row) (d : kernel_db) : kernel_db :=
  {| subject_ids := subject_ids d; events := events d; chain_roots := f (chain_roots d);
     training_policies := training_policies d; training_records := training_records d;
     runtime_states := runtime_states d; actions := actions d;
     action_revisions := action_revisions d; behavior_logs := behavior_logs d;
     behavior_revisions := behavior_revisions d; kaudits := kaudits d; counts := counts d;
     others := others d |}.
Definition set_training_policies (f : list training_policy_row → list training_policy_row) (d : kernel_db) : kernel_db :=
  {| subject_ids := subject_ids d; events := events d; chain_roots := chain_roots d;
     training_policies := f (training_policies d); training_records := training_records d;
     runtime_states := runtime_states d; actions := actions d;
     action_revisions := action_revisions d; behavior_logs := behavior_logs d;
     behavior_revisions := behavior_revisions d; kaudits := kaudits d; counts := counts d;
     others := others d |}.
Definition set_training_records (f : list training_record_row → list training_record_row) (d : kernel_db) : kernel_db :=
  {| subject_ids := subject_ids d; events := events d; chain_roots := chain_roots d;
     training_policies := training_policies d; training_records := f (training_records d);
     runtime_states := runtime_states d; actions := actions d;
     action_revisions := action_revisions d; behavior_logs := behavior_logs d;
     behavior_revisions := behavior_revisions d; kaudits := kaudits d; counts := counts d;
     others := others d |}.
Definition set_runtime_states (f : list runtime_row → list runtime_row) (d : kernel_db) : kernel_db :=
  {| subject_ids := subject_ids d; events := events d; chain_roots := chain_roots d;
     training_policies := training_policies d; training_records := training_records d;
     runtime_states := f (runtime_states d); actions := actions d;
     action_revisions := action_revisions d; behavior_logs := behavior_logs d;
     behavior_revisions := behavior_revisions d; kaudits := kaudits d; counts := counts d;
     others := others d |}.
Definition set_actions (f : list action_row → list action_row) (d : kernel_db) : kernel_db :=
  {| subject_ids := subject_ids d; events := events d; chain_roots := chain_roots d;
     training_policies := training_policies d; training_records := training_records d;
     runtime_states := runtime_states d; actions := f (actions d);
     action_revisions := action_revisions d; behavior_logs := behavior_logs d;
     behavior_revisions := behavior_revisions d; kaudits := kaudits d; counts := counts d;
     others := others d |}.
Definition set_action_revisions (f : list action_revision_row → list action_revision_row) (d : kernel_db) : kernel_db :=
  {| subject_ids := subject_ids d; events := events d; chain_roots := chain_roots d;
     training_policies := training_policies d; training_records := training_records d;
     runtime_states := runtime_states d; actions := actions d;
     action_revisions := f (action_revisions d); behavior_logs := behavior_logs d;
     behavior_revisions := behavior_revisions d; kaudits := kaudits d; counts := counts d;
     others := others d |}.
Definition set_behavior_logs (f : list behavior_log_row → list behavior_log_row) (d : kernel_db) : kernel_db :=
  {| subject_ids := subject_ids d; events := events d; chain_roots := chain_roots d;
     training_policies := training_policies d; training_records := training_records d;
     runtime_states := runtime_states d; actions := actions d;
     action_revisions := action_revisions d; behavior_logs := f (behavior_logs d);
     behavior_revisions := behavior_revisions d; kaudits := kaudits d; counts := counts d;
     others := others d |}.
Definition set_behavior_revisions (f : list behavior_revision_row → list behavior_revision_row) (d : kernel_db) : kernel_db :=
  {| subject_ids := subject_ids d; events := events d; chain_roots := chain_roots d;
     training_policies := training_policies d; training_records := training_records d;
     runtime_states := runtime_states d; actions := actions d;
     action_revisions := action_revisions d; behavior_logs := behavior_logs d;
     behavior_revisions := f (behavior_revisions d); kaudits := kaudits d; counts := counts d;
     others := others d |}.
Definition set_kaudits (f : list kaudit_row → list kaudit_row) (d : kernel_db) : kernel_db :=
  {| subject_ids := subject_ids d; events := events d; chain_roots := chain_roots d;
     training_policies := training_policies d; training_records := training_records d;
     runtime_states := runtime_states d; actions := actions d;
     action_revisions := action_revisions d; behavior_logs := behavior_logs d;
     behavior_revisions := behavior_revisions d; kaudits := f (kaudits d); counts := counts d;
     others := others d |}.
Definition set_counts (f : list count_row → list count_row) (d : kernel_db) : kernel_db :=
  {| subject_ids := subject_ids d; events := events d; chain_roots := chain_roots d;
     training_policies := training_policies d; training_records := training_records d;
     runtime_states := runtime_states d; actions := actions d;
     action_revisions := action_revisions d; behavior_logs := behavior_logs d;
     behavior_revisions := behavior_revisions d; kaudits := kaudits d; counts := f (counts d);
     others := others d |}.

(** ** Hashes *)

Section hashes.
Context {Dg : Digest}.

(** [EventStore._chain_hash]. *)
Definition _chain_hash (event : event_row) (sequence : Z) (previous : option string) : string :=
  content_hash (JObj
    [("subject_id", JStr (ev_subject_id event)); ("sequence_number", JInt sequence);
     ("previous_root_hash", JOpt previous); ("event_id", JStr (ev_event_id event));
     ("event_type", JStr (ev_event_type event)); ("source", JStr (ev_source event));
     ("occurred_at", JStr (ev_occurred_at event)); ("observed_at", JStr (ev_observed_at event));
     ("payload_hash", JStr (ev_payload_hash event));
     ("privacy_level", JStr (ev_privacy_level event));
     ("causal_parent_ids_json", JStr (ev_causal_parent_ids_json event))]).

Definition action_state_hash (row : action_row) : string :=
  content_hash (JObj
    [("action_id", JStr (ac_action_id row)); ("subject_id", JStr (ac_subject_id row));
     ("goal_id", JOpt (ac_goal_id row)); ("project_id", JOpt (ac_project_id row));
     ("phase_id", JOpt (ac_phase_id row)); ("strategy_id", JOpt (ac_strategy_id row));
     ("action_type", JStr (ac_action_type row)); ("tool", JStr (ac_tool row));
     ("target", JStr (ac_target row)); ("input_hash", JStr (ac_input_hash row));
     ("idempotency_key", JStr (ac_idempotency_key row));
     ("expected_outcome", JStr (ac_expected_outcome row));
     ("side_effect", JBool (ac_side_effect row));
     ("status", JStr (action_status_text (ac_status row)));
     ("retry_count", JInt (ac_retry_count row));
     ("resource_cost_json", JStr (ac_resource_cost_json row));
     ("result_json", JOpt (ac_result_json row)); ("prepared_at", JStr (ac_prepared_at row));
     ("started_at", JOpt (ac_started_at row)); ("completed_at", JOpt (ac_completed_at row))]).

Definition behavior_log_state_hash (row : behavior_log_row) (revision_number : Z)
    (reason : string) : string :=
  content_hash (JObj
    [("log_id", JStr (bl_log_id row)); ("action_id", JStr (bl_action_id row));
     ("subject_id", JStr (bl_subject_id row)); ("revision_number", JInt revision_number);
     ("occurred_at", JStr (bl_occurred_at row)); ("action_type", JStr (bl_action_type row));
     ("public_goal_reference", JOpt (bl_public_goal_reference row));
     ("tool", JStr (bl_tool row)); ("public_target", JStr (bl_public_target row));
     ("result_status", JStr (action_status_text (bl_result_status row)));
     ("side_effect_summary", JStr (bl_side_effect_summary row));
     ("resource_summary", JStr (bl_resource_summary row));
     ("public_explanation", JStr (bl_public_explanation row));
     ("redaction_reason", JOpt (bl_redaction_reason row)); ("reason", JStr reason)]).
End hashes.

(** ** Statements *)

Abbreviation K := (M kernel_db).

Definition kconstraint (b : bool) (msg : string) : K unit := raise_if (negb b) (SqliteError msg).
Definition subject_exists (sid : string) (d : kernel_db) : bool :=
  bool_decide (sid ∈ subject_ids d).

Definition insert_event (r : event_row) : K unit :=
  d ← gets id;
  kconstraint (negb (exists_where (λ x, ev_event_id x == ev_event_id r) (events d)))
    "UNIQUE constraint failed" ;;
  kconstraint (subject_exists (ev_subject_id r) d) "FOREIGN KEY constraint failed" ;;
  modify (set_events (append_row r)).
Definition insert_root (r : chain_row) : K unit :=
  d ← gets id;
  kconstraint (0 <? cr_sequence_number r) "CHECK constraint failed" ;;
  kconstraint (negb (exists_where (λ x, (cr_event_id x == cr_event_id r)
       || ((cr_subject_id x == cr_subject_id r)
           && (cr_sequence_number x =? cr_sequence_number r))) (chain_roots d)))
    "UNIQUE constraint failed" ;;
  modify (set_chain_roots (append_row r)).
Definition insert_training_policy (r : training_policy_row) : K unit :=
  d ← gets id;
  kconstraint (negb (exists_where (λ x, tp_subject_id x == tp_subject_id r)
      (training_policies d))) "UNIQUE constraint failed" ;;
  kconstraint (subject_exists (tp_subject_id r) d) "FOREIGN KEY constraint failed" ;;
  modify (set_training_policies (append_row r)).
(** [INSERT OR IGNORE]: a uniqueness conflict skips the row; the trigger
    [validate_training_record_event_subject] still aborts. *)
Definition insert_training_record (r : training_record_row) : K unit :=
  d ← gets id;
  kconstraint (exists_where (λ e, (ev_event_id e == tr_event_id r)
       && (ev_subject_id e == tr_subject_id r)) (events d))
    "training record event subject mismatch" ;;
  if exists_where (λ x, (tr_record_id x == tr_record_id r) || (tr_event_id x == tr_event_id r))
       (training_records d)
  then mret tt
  else modify (set_training_records (append_row r)).

Definition insert_kaudit (r : kaudit_row) : K unit :=
  d ← gets id;
  kconstraint (negb (exists_where (λ x, ka_audit_id x == ka_audit_id r) (kaudits d)))
    "UNIQUE constraint failed" ;;
  kconstraint (subject_exists (ka_subject_id r) d) "FOREIGN KEY constraint failed" ;;
  modify (set_kaudits (append_row r)).

Definition insert_runtime_state (r : runtime_row) : K unit :=
  d ← gets id;
  kconstraint (negb (exists_where (λ x, rs_subject_id x == rs_subject_id r) (runtime_states d)))
    "UNIQUE constraint failed" ;;
  kconstraint (subject_exists (rs_subject_id r) d) "FOREIGN KEY constraint failed" ;;
  modify (set_runtime_states (append_row r)).
Definition update_runtime_state (sid : string) (state : LifecycleState) (reason : string)
    (version : Z) (changed_at : string) : K unit :=
  kconstraint (0 <=? version) "CHECK constraint failed" ;;
  modify (set_runtime_states (update_where (λ r, rs_subject_id r == sid) (λ r,
    {| rs_subject_id := rs_subject_id r; rs_state := state; rs_reason := reason;
       rs_version := version; rs_changed_at := changed_at |}))).

(** The counting triggers of [evidence_schema.py]. *)
Definition bump_count (sid table : string) : K unit :=
  d ← gets id;
  kconstraint (exists_where (λ c, (ct_subject_id c == sid) && (ct_table_name c == table))
      (counts d)) "evidence counter missing" ;;
  modify (set_counts (update_where (λ c, (ct_subject_id c == sid) && (ct_table_name c == table))
    (λ c, {| ct_subject_id := ct_subject_id c; ct_table_name := ct_table_name c;
             ct_row_count := ct_row_count c + 1 |}))).

Definition insert_action (r : action_row) : K unit :=
  d ← gets id;
  kconstraint (0 <=? ac_retry_count r) "CHECK constraint failed" ;;
  kconstraint (negb (exists_where (λ x, (ac_action_id x == ac_action_id r)
       || ((ac_subject_id x == ac_subject_id r)
           && (ac_idempotency_key x == ac_idempotency_key r))) (actions d)))
    "UNIQUE constraint failed" ;;
  kconstraint (subject_exists (ac_subject_id r) d) "FOREIGN KEY constraint failed" ;;
  modify (set_actions (append_row r)) ;;
  bump_count (ac_subject_id r) "actions".
Definition update_action (action_id : string) (f : action_row → action_row) : K unit :=
  modify (set_actions (update_where (λ r, ac_action_id r == action_id) f)).

(** [SELECT MAX(n)]. *)
Definition max_of (l : list Z) : option Z :=
  match l with [] => None | x :: l' => Some (foldr Z.max x l') end.
Definition next_number (m : option Z) : Z := match m with None => 1 | Some n => n + 1 end.
Definition revision_numbers (action_id : string) (d : kernel_db) : list Z :=
  map ar_revision_number (select (λ r, ar_action_id r == action_id) (action_revisions d)).
Definition log_revision_numbers (log_id : string) (d : kernel_db) : list Z :=
  map br_revision_number (select (λ r, bl_log_id (br_log r) == log_id) (behavior_revisions d)).

(** Trigger [validate_action_revision_insert]. *)
Definition action_revision_ok (r : action_revision_row) (d : kernel_db) : bool :=
  exists_where (λ a, (ac_action_id a == ar_action_id r) && (ac_subject_id a == ar_subject_id r)
    && (ac_status a == ar_status r)
    && (ar_revision_number r =? next_number (max_of (revision_numbers (ar_action_id r) d))))
    (actions d).
Definition insert_action_revision (r : action_revision_row) : K unit :=
  d ← gets id;
  kconstraint (action_revision_ok r d)
    "action revision does not match the current action state" ;;
  kconstraint (negb (exists_where (λ x, (ar_revision_id x == ar_revision_id r)
       || ((ar_action_id x == ar_action_id r)
           && (ar_revision_number x =? ar_revision_number r))) (action_revisions d)))
    "UNIQUE constraint failed" ;;
  modify (set_action_revisions (append_row r)).

(** Trigger [validate_behavior_log_subject_insert]. *)
Definition insert_behavior_log (r : behavior_log_row) : K unit :=
  d ← gets id;
  kconstraint (exists_where (λ a, (ac_action_id a == bl_action_id r)
       && (ac_subject_id a == bl_subject_id r) && (ac_status a == bl_result_status r))
      (actions d)) "behavior log does not match its action" ;;
  kconstraint (negb (exists_where (λ x, (bl_log_id x == bl_log_id r)
       || (bl_action_id x == bl_action_id r)) (behavior_logs d))) "UNIQUE constraint failed" ;;
  modify (set_behavior_logs (append_row r)) ;;
  bump_count (bl_subject_id r) "behavior_logs".

(** Trigger [validate_behavior_log_revision_insert]. *)
Definition stable_fields (p r : behavior_log_row) : bool :=
  (bl_action_type p == bl_action_type r)
  && (bl_public_goal_reference p == bl_public_goal_reference r)
  && (bl_tool p == bl_tool r) && (bl_public_target p == bl_public_target r)
  && (bl_resource_summary p == bl_resource_summary r)
  && (bl_redaction_reason p == bl_redaction_reason r).
Definition behavior_revision_ok (r : behavior_revision_row) (d : kernel_db) : bool :=
  let log := br_log r in
  exists_where (λ l, (bl_log_id l == bl_log_id log) && (bl_action_id l == bl_action_id log)
    && (bl_subject_id l == bl_subject_id log)
    && exists_where (λ a, (ac_action_id a == bl_action_id l)
         && (ac_subject_id a == bl_subject_id log) && (ac_status a == bl_result_status log))
         (actions d)
    && (br_revision_number r =? next_number (max_of (log_revision_numbers (bl_log_id log) d)))
    && ((br_revision_number r =? 1)
        || (br_revision_number r =? 2) && (bl_result_status log =/= Unknown)
           && exists_where (λ p, (bl_log_id (br_log p) == bl_log_id log)
                && (br_revision_number p =? 1) && (bl_result_status (br_log p) == Unknown)
                && stable_fields (br_log p) log) (behavior_revisions d)))
    (behavior_logs d).
Definition insert_behavior_revision (r : behavior_revision_row) : K unit :=
  d ← gets id;
  kconstraint (behavior_revision_ok r d)
    "behavior log revision does not match reconciliation contract" ;;
  kconstraint (negb (exists_where (λ x, (br_revision_id x == br_revision_id r)
       || ((bl_log_id (br_log x) == bl_log_id (br_log r))
           && (br_revision_number x =? br_revision_number r))) (behavior_revisions d)))
    "UNIQUE constraint failed" ;;
  modify (set_behavior_revisions (append_row r)).

(** [utc_now] and [new_id] of [core/types.py]. *)
Section host.
Context {Ho : Host}.
Definition kutc_now : K string := read_clock now_at.
Definition knew_id (prefix : string) : K string :=
  u ← read_fresh uuid_at; mret (prefix +:+ "_" +:+ u).
End host.
