(* ===== verification/Events.v ===== *)
(** * Events, their hash chain and training provenance
    ([src/src/noyra/core/events.py], [core/storage.py], [core/private_sources.py])

    [EventStore]: appending an event records its training provenance and
    extends the chain of root hashes of its subject in the same
    transaction; [verify_chain] recomputes the chain.  Payloads moved to
    the encrypted archive are read through the [Host] interface. *)

From S2P Require Import Prelude Tables PyStr Json Digest Time KernelDb.
Local Open Scope Z_scope.

Record EventRecord := {
  er_event_id : string; er_subject_id : string; er_event_type : string; er_source : string;
  er_occurred_at : string; er_observed_at : string; er_payload : json;
  er_payload_hash : string; er_privacy_level : string; er_causal_parent_ids : list string;
  er_processing_status : ProcessingStatus;
}.

(** [row[...]] on [None]. *)
Definition row_of {A} (o : option A) : K A :=
  lift (of_option (TypeError "'NoneType' object is not subscriptable") o).

(** ** Withdrawn private sources *)

(** The text SQLite compares a [json_extract] result with. *)
Definition sql_value (v : json) : option string :=
  match v with
  | JNull => None
  | JBool b => Some (if b then "1" else "0")%string
  | JInt z => Some (show_Z z)
  | JStr s => Some s
  | _ => Some (canonical_json v)
  end.
Definition json_extract (key text : string) : option string :=
  match strict_json_loads text with
  | Ok (JObj m) => (snd <$> fetchone (λ kv, kv.1 == key) m) ≫= sql_value
  | _ => None
  end.
Definition withdrawn_conversation (o : other_tables) (conversation : string) : bool :=
  exists_where (λ c, (pc_conversation_id c == conversation)
      && ((pc_status c == "deleting") || (pc_status c == "deleted"))) (private_conversations o).
Definition withdrawn_event (o : other_tables) (e : event_row) : bool :=
  match json_extract "interaction_id" (ev_payload_json e) with
  | None => false
  | Some i => exists_where (λ m, (pm_interaction_id m == i)
                  && withdrawn_conversation o (pm_conversation_id m)) (private_messages o)
  end.
Definition assert_event_sources_available (subject_id event_id : string) : K unit :=
  d ← gets id;
  raise_if (exists_where (λ e, (ev_subject_id e == subject_id) && (ev_event_id e == event_id)
      && withdrawn_event (others d) e) (events d))
    (PermissionError "private event source has been withdrawn").

(** ** Training provenance *)

Definition starts_with (p s : string) : bool := String.prefix p s.
Definition in_set (s : string) (l : list string) : bool := bool_decide (s ∈ l).

(** [TrainingStore._classification]: eligibility and redaction status. *)
Definition _classification (event_type privacy_level : string) (policy : training_policy_row)
    : string * string :=
  let restricted := in_set privacy_level ["private"; "secret"] in
  let psychology := in_set event_type ["psychological_snapshot"; "sleep_reflection";
      "metacognitive_outcome"; "self_model_committed"; "intrinsic_thought"]
    || starts_with "affect_" event_type || starts_with "thought_" event_type in
  let conversation := in_set event_type
      ["human_message"; "interaction_received"; "interaction_sent"] in
  let model_io := starts_with "model_" event_type
    || in_set event_type ["cognition_proposal"; "cognition_rejected"; "self_model_committed"] in
  let external_action := starts_with "action_" event_type
    || in_set event_type ["external_action"; "web_action"; "browser_action"] in
  let workspace := starts_with "workspace_" event_type
    || in_set event_type ["project_artifact_created"; "project_artifact_updated"] in
  let excluded :=
    (restricted && psychology && negb (tp_include_private_psychology policy))
    || (conversation && negb (tp_include_conversations policy))
    || (model_io && negb (tp_include_model_io policy))
    || (external_action && negb (tp_include_external_actions policy))
    || (workspace && negb (tp_include_workspace policy)) in
  let explicitly_included_private := (privacy_level == "private")
    && ((psychology && tp_include_private_psychology policy)
        || (conversation && tp_include_conversations policy)
        || (model_io && tp_include_model_io policy)
        || (external_action && tp_include_external_actions policy)
        || (workspace && tp_include_workspace policy)) in
  if excluded then ("excluded", "excluded")%string
  else if explicitly_included_private then ("eligible", "redacted")%string
  else if restricted then ("restricted", "pending")%string
  else ("eligible", "clear")%string.

(** The column defaults of [training_policies]. *)
Definition default_training_policy (sid now : string) : training_policy_row :=
  {| tp_subject_id := sid; tp_record_enabled := true; tp_export_enabled := true;
     tp_include_private_psychology := false; tp_include_conversations := false;
     tp_include_model_io := false; tp_include_external_actions := true;
     tp_include_workspace := false; tp_policy_version := 1; tp_updated_at := now |}.

Section events.
Context {Dg : Digest} {Ho : Host}.

Definition training_policy_of (sid : string) (d : kernel_db) : option training_policy_row :=
  fetchone (λ p, tp_subject_id p == sid) (training_policies d).
Definition event_by_id (eid : string) (d : kernel_db) : option event_row :=
  fetchone (λ e, ev_event_id e == eid) (events d).

Definition _insert_event_record (subject_id : string) (event : event_row)
    (policy : training_policy_row) : K unit :=
  let '(eligibility, redaction) :=
    _classification (ev_event_type event) (ev_privacy_level event) policy in
  now ← kutc_now;
  rid ← knew_id "train";
  insert_training_record
    {| tr_record_id := rid; tr_subject_id := subject_id; tr_event_id := ev_event_id event;
       tr_record_kind := ev_event_type event; tr_privacy_level := ev_privacy_level event;
       tr_eligibility := eligibility; tr_source_hash := ev_payload_hash event;
       tr_redaction_status := redaction; tr_consent_version := tp_policy_version policy;
       tr_created_at := ev_occurred_at event;
       tr_updated_at := if ev_observed_at event == EmptyString then now
                        else ev_observed_at event |}.

(** [record_event] inside the caller's transaction. *)
Definition record_event (subject_id event_id event_type privacy_level source_hash : string)
    : K (option training_record_row) :=
  found ← gets (event_by_id event_id);
  event ← lift (of_option (NotFoundError ("event not found: " +:+ event_id)) found);
  raise_if ((ev_subject_id event =/= subject_id) || (ev_event_type event =/= event_type)
      || (ev_privacy_level event =/= privacy_level) || (ev_payload_hash event =/= source_hash))
    (IntegrityError "training provenance event subject or content mismatch") ;;
  existing ← gets (training_policy_of subject_id);
  policy ← match existing with
           | Some p => mret p
           | None =>
               now ← kutc_now;
               insert_training_policy (default_training_policy subject_id now) ;;
               p ← gets (training_policy_of subject_id);
               row_of p
           end;
  if negb (tp_record_enabled policy) then mret None
  else
    _insert_event_record subject_id event policy ;;
    row ← gets (λ d, fetchone (λ r, (tr_subject_id r == subject_id)
                                    && (tr_event_id r == event_id)) (training_records d));
    r ← row_of row;
    mret (Some r).

(** ** The hash chain *)

Definition root_row (sid eid : string) (sequence : Z) (previous : option string)
    (root now : string) : chain_row :=
  {| cr_event_id := eid; cr_subject_id := sid; cr_sequence_number := sequence;
     cr_previous_root_hash := previous; cr_root_hash := root; cr_created_at := now |}.
(** Roots for events recorded before the chain existed. *)
Fixpoint backfill_chain (sid : string) (sequence : Z) (previous : option string)
    (rows : list event_row) : K unit :=
  match rows with
  | [] => mret tt
  | event :: rest =>
      let root := _chain_hash event sequence previous in
      now ← kutc_now;
      insert_root (root_row sid (ev_event_id event) sequence previous root now) ;;
      backfill_chain sid (sequence + 1) (Some root) rest
  end.
Definition events_of (sid : string) (d : kernel_db) : list event_row :=
  select (λ e, ev_subject_id e == sid) (events d).
Definition roots_of (sid : string) (d : kernel_db) : list chain_row :=
  select (λ r, cr_subject_id r == sid) (chain_roots d).
(** [ORDER BY sequence_number DESC LIMIT 1]. *)
Definition last_root (sid : string) (d : kernel_db) : option chain_row :=
  head (sort_by (λ x y, cr_sequence_number y <=? cr_sequence_number x) (roots_of sid d)).

Definition _append_chain_connection (sid event_id : string) : K unit :=
  d ← gets id;
  let event_count := Z.of_nat (length (events_of sid d)) in
  let chain_count := Z.of_nat (length (roots_of sid d)) in
  if (chain_count =? 0) && (1 <? event_count) then backfill_chain sid 1 None (events_of sid d)
  else
    raise_if (negb (chain_count =? event_count - 1))
      (IntegrityError "event chain is incomplete before append") ;;
    let previous := cr_root_hash <$> last_root sid d in
    event ← row_of (event_by_id event_id d);
    let root := _chain_hash event event_count previous in
    now ← kutc_now;
    insert_root (root_row sid event_id event_count previous root now).

(** One iteration of [verify_chain] per joined row. *)
Fixpoint verify_rows (rows : list (chain_row * event_row)) (sequence : Z)
    (previous : option string) (verified : Z) : result (Z * option string) :=
  match rows with
  | [] => Ok (verified, previous)
  | (r, e) :: rest =>
      let expected := _chain_hash e sequence previous in
      if negb (cr_sequence_number r =? sequence) || (cr_event_id r =/= ev_event_id e)
         || (cr_previous_root_hash r =/= previous) || (cr_root_hash r =/= expected)
      then Raise (IntegrityError ("event chain mismatch at sequence " +:+ show_Z sequence))
      else verify_rows rest (sequence + 1) (Some expected) (verified + 1)
  end.
(** The join of roots and events, in sequence order. *)
Definition chain_join (sid : string) (d : kernel_db) : list (chain_row * event_row) :=
  flat_map (λ r, map (λ e, (r, e))
      (select (λ e, (ev_event_id e == cr_event_id r) && (ev_subject_id e == cr_subject_id r))
         (events d)))
    (sort_by (λ x y, cr_sequence_number x <=? cr_sequence_number y) (roots_of sid d)).
Definition verify_chain (sid : string) : K (Z * option string) :=
  read_transaction (
    d ← gets id;
    let event_count := Z.of_nat (length (events_of sid d)) in
    raise_if (negb (event_count =? Z.of_nat (length (roots_of sid d))))
      (IntegrityError "event chain coverage mismatch") ;;
    result ← lift (verify_rows (chain_join sid d) 1 None 0);
    raise_if (negb (result.1 =? event_count))
      (IntegrityError "event chain coverage mismatch") ;;
    mret result).

(** ** Reading events *)

Definition payload_from_row (row : event_row) : K json :=
  match ev_payload_archive_key row with
  | None =>
      match strict_json_loads (ev_payload_json row) with
      | Ok (JObj m) => mret (JObj m)
      | Ok _ => raise (IntegrityError ("event payload is not an object: " +:+ ev_event_id row))
      | Raise _ =>
          raise (IntegrityError ("event payload JSON is invalid: " +:+ ev_event_id row))
      end
  | Some key =>
      r ← read_clock (λ k, archived_payload k (ev_subject_id row) key (ev_event_id row));
      lift r
  end.
Fixpoint strings_of (l : list json) : option (list string) :=
  match l with
  | [] => Some []
  | JStr s :: l' => r ← strings_of l'; Some (s :: r)
  | _ => None
  end.
Definition event_from_row (row : event_row) : K EventRecord :=
  payload ← payload_from_row row;
  parents ← lift match strict_json_loads (ev_causal_parent_ids_json row) with
            | Ok (JList l) =>
                of_option (IntegrityError ("event causal parents are invalid: "
                                           +:+ ev_event_id row)) (strings_of l)
            | _ => Raise (IntegrityError ("event causal parents are invalid: "
                                          +:+ ev_event_id row))
            end;
  raise_if (content_hash payload =/= ev_payload_hash row)
    (IntegrityError ("event payload hash mismatch: " +:+ ev_event_id row)) ;;
  mret {| er_event_id := ev_event_id row; er_subject_id := ev_subject_id row;
          er_event_type := ev_event_type row; er_source := ev_source row;
          er_occurred_at := ev_occurred_at row; er_observed_at := ev_observed_at row;
          er_payload := payload; er_payload_hash := ev_payload_hash row;
          er_privacy_level := ev_privacy_level row; er_causal_parent_ids := parents;
          er_processing_status := ev_processing_status row |}.
Definition get_event (event_id : string) : K EventRecord :=
  found ← gets (event_by_id event_id);
  row ← lift (of_option (NotFoundError ("event not found: " +:+ event_id)) found);
  event_from_row row.

(** ** Appending *)

Definition _normalize_timestamp (value : string) : result string :=
  match fromisoformat value with
  | None => Raise (ValueError "event occurred_at must be an ISO-8601 timestamp")
  | Some (_, None) => Raise (ValueError "event occurred_at must include a timezone")
  | Some (local, Some off) => t ← to_utc local off; Ok (isoformat_ms t)
  end.

(** [x or default]: [None] and the empty string are false. *)
Definition or_else (x : option string) (default : K string) : K string :=
  match x with
  | Some (String _ _ as s) => mret s
  | _ => default
  end.

Definition check_parent (subject_id occurred_at : string) (runtime_timestamp : bool)
    (parent_id : string) : K unit :=
  found ← gets (event_by_id parent_id);
  parent ← lift (of_option (ValueError ("event causal parent is unavailable: " +:+ parent_id))
                   found);
  raise_if (ev_subject_id parent =/= subject_id)
    (PermissionError "event causal parent belongs to another subject") ;;
  raise_if (runtime_timestamp && str_ltb occurred_at (ev_occurred_at parent))
    (ValueError "event causal parent occurred_at cannot be after the child event").

(** What makes an existing event a conflict with a new one of its id. *)
Definition event_conflicts (existing : event_row)
    (subject_id event_type source payload_hash privacy_level parents_json : string) : bool :=
  (ev_subject_id existing =/= subject_id) || (ev_event_type existing =/= event_type)
  || (ev_source existing =/= source) || (ev_payload_hash existing =/= payload_hash)
  || (ev_privacy_level existing =/= privacy_level)
  || (ev_causal_parent_ids_json existing =/= parents_json).

Definition _append_connection (subject_id event_type source : string)
    (payload : list (string * json)) (privacy_level : string) (parents : list string)
    (occurred_at event_id : option string) : K EventRecord :=
  raise_if (blank event_type || blank source)
    (ValueError "event_type and source are required") ;;
  raise_if (blank privacy_level) (ValueError "privacy_level is required") ;;
  event_id ← or_else event_id (knew_id "evt");
  let runtime_timestamp := bool_decide (occurred_at = None) in
  occurred_text ← or_else occurred_at kutc_now;
  occurred_at ← lift (_normalize_timestamp occurred_text);
  observed_at ← kutc_now;
  raise_if (bool_decide (¬ NoDup parents) || bool_decide (event_id ∈ parents))
    (ValueError "event causal parents must be distinct prior events") ;;
  for_each (assert_event_sources_available subject_id) parents ;;
  let payload_json := canonical_json (JObj payload) in
  let payload_hash := content_hash (JObj payload) in
  let parents_json := canonical_json (JStrs parents) in
  found ← gets (event_by_id event_id);
  match found with
  | Some existing =>
      raise_if (event_conflicts existing subject_id event_type source payload_hash
                  privacy_level parents_json)
        (EventConflictError ("event ID already exists with different content: "
                             +:+ event_id)) ;;
      record_event subject_id event_id event_type privacy_level payload_hash ;;
      event_from_row existing
  | None =>
      for_each (check_parent subject_id occurred_at runtime_timestamp) parents ;;
      insert_event {| ev_event_id := event_id; ev_subject_id := subject_id;
        ev_event_type := event_type; ev_source := source; ev_occurred_at := occurred_at;
        ev_observed_at := observed_at; ev_payload_json := payload_json;
        ev_payload_hash := payload_hash; ev_privacy_level := privacy_level;
        ev_causal_parent_ids_json := parents_json; ev_processing_status := Recorded;
        ev_payload_archive_key := None; ev_payload_archived_at := None |} ;;
      record_event subject_id event_id event_type privacy_level payload_hash ;;
      _append_chain_connection subject_id event_id ;;
      mret {| er_event_id := event_id; er_subject_id := subject_id;
              er_event_type := event_type; er_source := source; er_occurred_at := occurred_at;
              er_observed_at := observed_at; er_payload := JObj payload;
              er_payload_hash := payload_hash; er_privacy_level := privacy_level;
              er_causal_parent_ids := parents; er_processing_status := Recorded |}
  end.

Definition append_event (subject_id event_type source : string)
    (payload : list (string * json)) (privacy_level : string) (parents : list string)
    (occurred_at event_id : option string) : K EventRecord :=
  transaction (_append_connection subject_id event_type source payload privacy_level parents
                 occurred_at event_id).

Definition set_processing (status : ProcessingStatus) (r : event_row) : event_row :=
  {| ev_event_id := ev_event_id r; ev_subject_id := ev_subject_id r;
     ev_event_type := ev_event_type r; ev_source := ev_source r;
     ev_occurred_at := ev_occurred_at r; ev_observed_at := ev_observed_at r;
     ev_payload_json := ev_payload_json r; ev_payload_hash := ev_payload_hash r;
     ev_privacy_level := ev_privacy_level r;
     ev_causal_parent_ids_json := ev_causal_parent_ids_json r;
     ev_processing_status := status; ev_payload_archive_key := ev_payload_archive_key r;
     ev_payload_archived_at := ev_payload_archived_at r |}.
Definition mark_processed (event_id : string) (status : ProcessingStatus)
    (subject_id : string) : K unit :=
  raise_if (status == Recorded) (ValueError "invalid event processing status: recorded") ;;
  transaction (
    n ← gets (λ d, count_where (λ e, (ev_event_id e == event_id)
                                     && (ev_subject_id e == subject_id)) (events d));
    modify (set_events (update_where (λ e, (ev_event_id e == event_id)
              && (ev_subject_id e == subject_id)) (set_processing status))) ;;
    raise_if (negb (n =? 1)) (NotFoundError ("event not found: " +:+ event_id))).
End events.
