(* ===== verification/Lifecycle.v ===== *)
(** * The runtime lifecycle ([src/src/noyra/core/lifecycle.py], [core/runtime.py])

    [LifecycleManager]: the state of one subject's runtime, its table of
    transitions, the restart recovery and the safe pause that still works
    when the event chain is damaged.  The mutation guard is the one the
    runtime installs, [_migration_epoch_guard]. *)

From S2P Require Import Prelude Tables PyStr Json Digest Time KernelDb Events.
Local Open Scope Z_scope.

Definition ALLOWED_TRANSITIONS (s : LifecycleState) : list LifecycleState :=
  match s with
  | Booting => [Orienting; Active; Stopped]
  | Orienting => [Active; Stopped]
  | Active => [Paused; WindingDown; Stopped]
  | Paused => [Active; Stopped]
  | WindingDown => [ReflectiveSleep; Stopped]
  | ReflectiveSleep => [DeepSleep; Stopped]
  | DeepSleep => [Waking; Stopped]
  | Waking => [Active; Stopped]
  | Stopped => [Booting; Resetting]
  | Resetting => [Booting; Stopped]
  end.

Section lifecycle.
Context {Dg : Digest} {Ho : Host}.

Definition _migration_epoch_guard (subject_id : string) : K unit :=
  d ← gets id;
  raise_if (exists_where (λ e, (ep_subject_id e == subject_id)
      && ((ep_status e == "active") || (ep_status e == "completed"))
      && match migration_target_id with None => true | Some t => ep_target_id e =/= t end)
      (migration_epochs (others d)))
    (RuntimeOwnershipError "runtime ownership is fenced by a migration epoch") ;;
  fenced ← read_clock (λ k, fence_file_active k subject_id);
  raise_if fenced
    (RuntimeOwnershipError "runtime mutation is blocked by a migration fence").

Definition runtime_of (subject_id : string) (d : kernel_db) : option runtime_row :=
  fetchone (λ r, rs_subject_id r == subject_id) (runtime_states d).
(** [_from_row]: the stored state is one of the ten by its type. *)
Definition runtime_from_row (row : runtime_row) : result runtime_row :=
  if rs_version row <? 0 then
    Raise (IntegrityError ("invalid persisted lifecycle state: '"
      +:+ lifecycle_text (rs_state row) +:+ "' v" +:+ show_Z (rs_version row)))
  else Ok row.
Definition require_runtime (subject_id : string) : K runtime_row :=
  found ← gets (runtime_of subject_id);
  lift (of_option (NotFoundError ("lifecycle state not found: " +:+ subject_id)) found).

Definition ensure_initial (subject_id : string) (state : LifecycleState) (reason : string)
    : K runtime_row :=
  raise_if (blank reason) (ValueError "initial lifecycle reason is required") ;;
  transaction (
    found ← gets (runtime_of subject_id);
    match found with
    | Some row => lift (runtime_from_row row)
    | None =>
        _migration_epoch_guard subject_id ;;
        changed_at ← kutc_now;
        let row := {| rs_subject_id := subject_id; rs_state := state; rs_reason := reason;
                      rs_version := 0; rs_changed_at := changed_at |} in
        insert_runtime_state row ;; mret row
    end).

Definition current_state (subject_id : string) : K runtime_row :=
  row ← require_runtime subject_id; lift (runtime_from_row row).

(** The payload of a lifecycle event or audit record. *)
Definition change_payload (from to : LifecycleState) (reason : string) (version : Z)
    : list (string * json) :=
  [("from", JStr (lifecycle_text from)); ("to", JStr (lifecycle_text to));
   ("reason", JStr reason); ("version", JInt version)].

Definition _transition_connection (subject_id : string) (new_state : LifecycleState)
    (reason actor : string) : K runtime_row :=
  raise_if (blank reason) (ValueError "transition reason is required") ;;
  raise_if (blank actor) (ValueError "transition actor is required") ;;
  row ← require_runtime subject_id;
  let current := rs_state row in
  raise_if (negb (bool_decide (new_state ∈ ALLOWED_TRANSITIONS current)))
    (InvalidTransitionError ("cannot transition " +:+ lifecycle_text current +:+ " -> "
                             +:+ lifecycle_text new_state)) ;;
  changed_at ← kutc_now;
  let version := rs_version row + 1 in
  update_runtime_state subject_id new_state reason version changed_at ;;
  _append_connection subject_id "lifecycle_transition" actor
    (change_payload current new_state reason version) "public_status" [] (Some changed_at) None ;;
  mret {| rs_subject_id := subject_id; rs_state := new_state; rs_reason := reason;
          rs_version := version; rs_changed_at := changed_at |}.

Definition transition (subject_id : string) (new_state : LifecycleState)
    (reason actor : string) : K runtime_row :=
  raise_if (blank reason) (ValueError "transition reason is required") ;;
  raise_if (blank actor) (ValueError "transition actor is required") ;;
  transaction (
    _migration_epoch_guard subject_id ;;
    _transition_connection subject_id new_state reason actor).

(** The fallback of [safe_pause] when the chain cannot be extended. *)
Definition pause_without_event (subject_id reason actor changed_at : string) : K runtime_row :=
  transaction (
    _migration_epoch_guard subject_id ;;
    row ← require_runtime subject_id;
    if rs_state row == Paused then lift (runtime_from_row row)
    else
      raise_if (rs_state row =/= Active) (InvalidTransitionError
        ("cannot safe-pause from state " +:+ lifecycle_text (rs_state row))) ;;
      let version := rs_version row + 1 in
      update_runtime_state subject_id Paused reason version changed_at ;;
      audit_id ← knew_id "audit";
      insert_kaudit {| ka_audit_id := audit_id; ka_subject_id := subject_id;
        ka_action := "integrity_safe_pause_fallback"; ka_actor := actor;
        ka_payload_json := canonical_json (JObj (change_payload Active Paused reason version));
        ka_occurred_at := changed_at |} ;;
      mret {| rs_subject_id := subject_id; rs_state := Paused; rs_reason := reason;
              rs_version := version; rs_changed_at := changed_at |}).

Definition safe_pause (subject_id reason actor : string) : K runtime_row :=
  current ← current_state subject_id;
  if rs_state current == Paused then mret current
  else
    raise_if (rs_state current =/= Active) (InvalidTransitionError
      ("cannot safe-pause from state " +:+ lifecycle_text (rs_state current))) ;;
    catch (transition subject_id Paused reason actor) (λ e,
      match e with
      | IntegrityError _ => Some (
          changed_at ← kutc_now; pause_without_event subject_id reason actor changed_at)
      | _ => None
      end).

Definition is_sleep_state (s : LifecycleState) : bool :=
  match s with WindingDown | ReflectiveSleep | DeepSleep | Waking => true | _ => false end.
Definition recovered_state (s : LifecycleState) : LifecycleState :=
  if is_sleep_state s then s else Booting.

Definition recover_for_restart (subject_id reason : string) : K runtime_row :=
  raise_if (blank reason) (ValueError "restart recovery reason is required") ;;
  transaction (
    _migration_epoch_guard subject_id ;;
    row ← require_runtime subject_id;
    current ← lift (runtime_from_row row);
    if rs_state current == Booting then mret current
    else
      raise_if ((rs_state current == Stopped) || (rs_state current == Resetting))
        (InvalidTransitionError ("cannot recover restart from state "
                                 +:+ lifecycle_text (rs_state current))) ;;
      if rs_state current == Paused then mret current
      else
        changed_at ← kutc_now;
        let version := rs_version current + 1 in
        let state := recovered_state (rs_state current) in
        update_runtime_state subject_id state reason version changed_at ;;
        _append_connection subject_id "lifecycle_recovery" "supervisor"
          (change_payload (rs_state current) state reason version) "public_status" []
          (Some changed_at) None ;;
        mret {| rs_subject_id := subject_id; rs_state := state; rs_reason := reason;
                rs_version := version; rs_changed_at := changed_at |}).
End lifecycle.
