(* ===== verification/Actions.v ===== *)
(** * The action ledger ([src/src/noyra/core/actions.py], [core/evidence_capacity.py])

    [ActionLedger]: an action is prepared, started and finished in separate
    transactions; a process that dies in between leaves it executing, and
    the recovery makes it unknown, to be reconciled by hand.  Every change
    appends a revision with the hash of the row, every outcome a behaviour
    log with its own revisions, and [verify_integrity] checks them all. *)

From S2P Require Import Prelude Tables PyStr Json Digest Time KernelDb Events.
Local Open Scope Z_scope.

Definition EXECUTOR_COMPLETION_STATES : list ActionStatus :=
  [Succeeded; Failed; Unknown; Cancelled].
Definition RECONCILIATION_STATES : list ActionStatus := [Succeeded; Failed; Cancelled].
Definition PRIVATE_PUBLIC_TARGET : string := "[private]".

Record ActionRecord := {
  acr_row : action_row; acr_resource_cost : json; acr_result : option json;
}.
(** The arguments of [prepare]. *)
Record action_request := {
  rq_subject_id : string; rq_action_type : string; rq_tool : string; rq_target : string;
  rq_input_payload : list (string * json); rq_goal_id : option string;
  rq_project_id : option string; rq_phase_id : option string; rq_strategy_id : option string;
  rq_expected_outcome : string; rq_side_effect : bool;
  rq_resource_cost : option (list (string * json)); rq_idempotency_key : option string;
}.
(** The optional arguments of [finish]. *)
Record public_summary := {
  ps_goal_reference : option string; ps_target : option string;
  ps_side_effect_summary : string; ps_resource_summary : string;
  ps_explanation : string; ps_redaction_reason : option string;
}.

(** ** Evidence capacity *)

Definition EVIDENCE_TABLES : list string :=
  ["model_calls"; "model_attempts"; "actions"; "behavior_logs"; "research_search_runs";
   "action_deliberation_runs"; "embedding_usage_entries"; "embedding_circuit_transitions";
   "cognitive_route_decisions"; "cognitive_route_attempts"; "cognitive_route_outcomes";
   "waiting_cognitive_tasks"; "waiting_cognitive_task_revisions"].
(** Table and admission source. *)
Definition EVIDENCE_LIFECYCLE : list (string * string) :=
  [("embedding_usage_entries", "embedding_usage_entries");
   ("embedding_circuit_transitions", "embedding_usage_entries");
   ("model_calls", "model_calls"); ("model_attempts", "model_attempts");
   ("actions", "actions"); ("behavior_logs", "actions");
   ("research_search_runs", "model_calls"); ("action_deliberation_runs", "model_calls");
   ("cognitive_route_decisions", "cognitive_route_decisions");
   ("cognitive_route_attempts", "cognitive_route_decisions");
   ("cognitive_route_outcomes", "cognitive_route_decisions");
   ("waiting_cognitive_tasks", "waiting_cognitive_tasks");
   ("waiting_cognitive_task_revisions", "waiting_cognitive_task_revisions")]%string.
Definition multiplier (table : string) : Z :=
  if table == "embedding_circuit_transitions" then 3
  else if table == "cognitive_route_attempts" then 64
  else if table == "waiting_cognitive_task_revisions" then 2 else 1.

Section capacity.
Context {Ho : Host}.

Definition evidence_counts (subject_id : string) : K (list count_row) :=
  d ← gets id;
  let rows := select (λ c, ct_subject_id c == subject_id) (counts d) in
  if forallb (λ t, exists_where (λ c, ct_table_name c == t) rows) EVIDENCE_TABLES
     && forallb (λ c, bool_decide (ct_table_name c ∈ EVIDENCE_TABLES)) rows
     && forallb (λ c, 0 <=? ct_row_count c) rows
  then mret rows
  else if subject_exists subject_id d
  then raise (IntegrityError "evidence counter contract is incomplete")
  else raise (SqliteError "evidence subject does not exist").
Definition require_evidence_capacity (subject_id table : string) : K unit :=
  raise_if (negb (bool_decide (table ∈ EVIDENCE_TABLES))) (ValueError "unknown evidence table") ;;
  rows ← evidence_counts subject_id;
  raise_if (negb ((1 <=? evidence_row_limit) && (evidence_row_limit <=? 10000000)))
    (ValueError "evidence row limit must be between 1 and 10000000") ;;
  let protected := table :: map fst (select (λ x, x.2 == table) EVIDENCE_LIFECYCLE) in
  raise_if (exists_where (λ c, bool_decide (ct_table_name c ∈ protected)
      && (evidence_row_limit * multiplier (ct_table_name c) <=? ct_row_count c)) rows)
    (InvalidTransitionError "evidence_capacity_reached").
End capacity.

(** ** Rows *)

(** [strict_json_loads] to a dictionary. *)
Definition json_dict (text : string) : result json :=
  match strict_json_loads text with
  | Ok (JObj m) => Ok (JObj m)
  | Ok _ => Raise (IntegrityError "invalid persisted action JSON")
  | Raise _ => Raise (IntegrityError "invalid persisted action data")
  end.
Definition action_from_row (row : action_row) : result ActionRecord :=
  resource_cost ← json_dict (ac_resource_cost_json row);
  result ← match ac_result_json row with
           | None => Ok None
           | Some t => v ← json_dict t; Ok (Some v)
           end;
  Ok {| acr_row := row; acr_resource_cost := resource_cost; acr_result := result |}.

Definition action_by_id (action_id : string) (d : kernel_db) : option action_row :=
  fetchone (λ a, ac_action_id a == action_id) (actions d).
Definition _get_row (action_id : string) : K action_row :=
  found ← gets (action_by_id action_id);
  lift (of_option (NotFoundError ("action not found: " +:+ action_id)) found).
Definition _load_connection (action_id : string) : K ActionRecord :=
  row ← _get_row action_id; lift (action_from_row row).

(** The row after an update of the mutable columns. *)
Definition action_set (status : ActionStatus) (retry_count : Z) (result : option string)
    (started_at completed_at : option string) (r : action_row) : action_row :=
  {| ac_action_id := ac_action_id r; ac_subject_id := ac_subject_id r;
     ac_goal_id := ac_goal_id r; ac_project_id := ac_project_id r;
     ac_phase_id := ac_phase_id r; ac_strategy_id := ac_strategy_id r;
     ac_action_type := ac_action_type r; ac_tool := ac_tool r; ac_target := ac_target r;
     ac_input_hash := ac_input_hash r; ac_idempotency_key := ac_idempotency_key r;
     ac_expected_outcome := ac_expected_outcome r; ac_side_effect := ac_side_effect r;
     ac_status := status; ac_retry_count := retry_count;
     ac_resource_cost_json := ac_resource_cost_json r; ac_result_json := result;
     ac_prepared_at := ac_prepared_at r; ac_started_at := started_at;
     ac_completed_at := completed_at |}.
(** [UPDATE actions SET status, result_json, completed_at]. *)
Definition action_outcome (status : ActionStatus) (result completed_at : string)
    (r : action_row) : action_row :=
  action_set status (ac_retry_count r) (Some result) (ac_started_at r) (Some completed_at) r.

Section actions.
Context {Dg : Digest} {Ho : Host}.

Definition _record_revision (action_id reason : string) : K unit :=
  row ← _get_row action_id;
  previous ← gets (λ d, max_of (revision_numbers action_id d));
  revision_id ← knew_id "arev";
  now ← kutc_now;
  insert_action_revision
    {| ar_revision_id := revision_id; ar_action_id := ac_action_id row;
       ar_subject_id := ac_subject_id row; ar_revision_number := next_number previous;
       ar_status := ac_status row; ar_state_hash := action_state_hash row;
       ar_reason := reason; ar_created_at := now |}.

Definition _append_behavior_log_revision (source : behavior_log_row) (occurred_at : string)
    (result_status : ActionStatus) (side_effect_summary public_explanation reason : string)
    : K unit :=
  previous ← gets (λ d, max_of (log_revision_numbers (bl_log_id source) d));
  let number := next_number previous in
  let revision :=
    {| bl_log_id := bl_log_id source; bl_action_id := bl_action_id source;
       bl_subject_id := bl_subject_id source; bl_occurred_at := occurred_at;
       bl_action_type := bl_action_type source;
       bl_public_goal_reference := bl_public_goal_reference source; bl_tool := bl_tool source;
       bl_public_target := bl_public_target source; bl_result_status := result_status;
       bl_side_effect_summary := side_effect_summary;
       bl_resource_summary := bl_resource_summary source;
       bl_public_explanation := public_explanation;
       bl_redaction_reason := bl_redaction_reason source |} in
  revision_id ← knew_id "brev";
  now ← kutc_now;
  insert_behavior_revision
    {| br_revision_id := revision_id; br_log := revision; br_revision_number := number;
       br_state_hash := behavior_log_state_hash revision number reason; br_reason := reason;
       br_created_at := now |}.

Definition _insert_behavior_log (row : action_row) (completed_at : string)
    (result_status : ActionStatus) (s : public_summary) : K unit :=
  let target_is_private := match ps_target s with None => true | Some t => blank t end in
  let safe_public_target := if target_is_private then PRIVATE_PUBLIC_TARGET
                            else default EmptyString (ps_target s) in
  let safe_redaction_reason :=
    match ps_redaction_reason s with
    | None => if target_is_private then Some "target withheld by default"%string else None
    | Some r => Some r
    end in
  log_id ← knew_id "blog";
  insert_behavior_log
    {| bl_log_id := log_id; bl_action_id := ac_action_id row;
       bl_subject_id := ac_subject_id row; bl_occurred_at := completed_at;
       bl_action_type := ac_action_type row; bl_public_goal_reference := ps_goal_reference s;
       bl_tool := ac_tool row; bl_public_target := safe_public_target;
       bl_result_status := result_status; bl_side_effect_summary := ps_side_effect_summary s;
       bl_resource_summary := ps_resource_summary s;
       bl_public_explanation := ps_explanation s;
       bl_redaction_reason := safe_redaction_reason |} ;;
  found ← gets (λ d, fetchone (λ l, bl_log_id l == log_id) (behavior_logs d));
  log ← lift (of_option (IntegrityError "behavior log was not persisted") found);
  _append_behavior_log_revision log completed_at result_status (ps_side_effect_summary s)
    (ps_explanation s) "initial outcome recorded".

(** ** Preparing *)

Definition check_goal (rq : action_request) (d : kernel_db) : bool :=
  match rq_goal_id rq with
  | None => true
  | Some g => match fetchone (λ x, x.1 == g) (goal_owners (others d)) with
              | Some x => x.2 == rq_subject_id rq
              | None => false
              end
  end.
Definition check_project (rq : action_request) (d : kernel_db) : bool :=
  match rq_project_id rq with
  | None => true
  | Some p => match fetchone (λ x, x.1 == p) (project_owners (others d)) with
              | Some x => x.2 == rq_subject_id rq
              | None => false
              end
  end.
(** The phase joined with its project. *)
Definition check_phase (rq : action_request) (d : kernel_db) : bool :=
  match rq_phase_id rq with
  | None => true
  | Some ph =>
      match fetchone (λ x, x.1 == ph) (phase_projects (others d)) with
      | None => false
      | Some x =>
          match fetchone (λ y, y.1 == x.2) (project_owners (others d)) with
          | None => false
          | Some y => (y.2 == rq_subject_id rq)
              && match rq_project_id rq with None => true | Some p => x.2 == p end
          end
      end
  end.
Definition sleeping (subject_id : string) (d : kernel_db) : option LifecycleState :=
  match fetchone (λ r, rs_subject_id r == subject_id) (runtime_states d) with
  | Some r => match rs_state r with
              | WindingDown | ReflectiveSleep | DeepSleep | Waking => Some (rs_state r)
              | _ => None
              end
  | None => None
  end.
Definition blocked (rq : action_request) (d : kernel_db) : bool :=
  exists_where (λ b, (rb_subject_id b == rq_subject_id rq) && (rb_status b == "active")
    && (rb_tool b == rq_tool rq) && (rb_target b == rq_target rq)
    && match rb_goal_id b with None => true | Some g => Some g == rq_goal_id rq end
    && match rb_strategy_id b with None => true | Some s => Some s == rq_strategy_id rq end)
    (retry_blocks (others d)).
Definition action_conflicts (existing : action_row) (rq : action_request) (input_hash : string)
    : bool :=
  (ac_action_type existing =/= rq_action_type rq) || (ac_tool existing =/= rq_tool rq)
  || (ac_target existing =/= rq_target rq) || (ac_input_hash existing =/= input_hash)
  || (ac_side_effect existing =/= rq_side_effect rq)
  || (ac_project_id existing =/= rq_project_id rq) || (ac_phase_id existing =/= rq_phase_id rq).
Definition request_key (rq : action_request) : string :=
  match rq_idempotency_key rq with
  | Some (String _ _ as k) => k
  | _ => content_hash (JObj
      [("subject_id", JStr (rq_subject_id rq)); ("action_type", JStr (rq_action_type rq));
       ("tool", JStr (rq_tool rq)); ("target", JStr (rq_target rq));
       ("input", JObj (rq_input_payload rq))])
  end.
Definition new_action_row (rq : action_request) (action_id input_hash prepared_at : string)
    : action_row :=
  {| ac_action_id := action_id; ac_subject_id := rq_subject_id rq;
     ac_goal_id := rq_goal_id rq; ac_project_id := rq_project_id rq;
     ac_phase_id := rq_phase_id rq; ac_strategy_id := rq_strategy_id rq;
     ac_action_type := rq_action_type rq; ac_tool := rq_tool rq; ac_target := rq_target rq;
     ac_input_hash := input_hash; ac_idempotency_key := request_key rq;
     ac_expected_outcome := rq_expected_outcome rq; ac_side_effect := rq_side_effect rq;
     ac_status := Prepared; ac_retry_count := 0;
     ac_resource_cost_json := canonical_json (JObj (default [] (rq_resource_cost rq)));
     ac_result_json := None; ac_prepared_at := prepared_at; ac_started_at := None;
     ac_completed_at := None |}.

Definition prepare (rq : action_request) : K ActionRecord :=
  raise_if (blank (rq_action_type rq) || blank (rq_tool rq) || blank (rq_target rq))
    (ValueError "action_type, tool and target are required") ;;
  raise_if match rq_idempotency_key rq with Some k => blank k | None => false end
    (ValueError "idempotency_key cannot be blank") ;;
  let input_hash := content_hash (JObj (rq_input_payload rq)) in
  transaction (
    d ← gets id;
    raise_if (negb (check_goal rq d))
      (PermissionError "action goal is missing or belongs to another subject") ;;
    raise_if (negb (check_project rq d))
      (PermissionError "action project is missing or belongs to another subject") ;;
    raise_if (negb (check_phase rq d))
      (PermissionError "action phase is missing or outside the subject project") ;;
    match sleeping (rq_subject_id rq) d with
    | Some s => raise (InvalidTransitionError
        ("new actions are disabled while lifecycle is " +:+ lifecycle_text s))
    | None => mret tt
    end ;;
    raise_if (blocked rq d) (InvalidTransitionError
      "this strategy is blocked until genuinely new evidence is recorded") ;;
    match fetchone (λ a, (ac_subject_id a == rq_subject_id rq)
                         && (ac_idempotency_key a == request_key rq)) (actions d) with
    | Some existing =>
        raise_if (action_conflicts existing rq input_hash)
          (DuplicateActionError "idempotency key already identifies a different action") ;;
        lift (action_from_row existing)
    | None =>
        require_evidence_capacity (rq_subject_id rq) "actions" ;;
        action_id ← knew_id "act";
        prepared_at ← kutc_now;
        insert_action (new_action_row rq action_id input_hash prepared_at) ;;
        _record_revision action_id "prepared" ;;
        _load_connection action_id
    end).

(** ** Running *)

Definition start (action_id : string) : K ActionRecord :=
  transaction (
    row ← _get_row action_id;
    raise_if (ac_status row =/= Prepared) (InvalidTransitionError
      ("cannot start action in state " +:+ action_status_text (ac_status row))) ;;
    now ← kutc_now;
    update_action action_id (λ r,
      action_set Executing (ac_retry_count r + 1) (ac_result_json r) (Some now) None r) ;;
    _record_revision action_id "started" ;;
    _load_connection action_id).

Definition finish_action (action_id : string) (status : ActionStatus)
    (result : list (string * json)) (s : public_summary) : K ActionRecord :=
  raise_if (negb (bool_decide (status ∈ EXECUTOR_COMPLETION_STATES)))
    (ValueError ("invalid action completion status: " +:+ action_status_text status)) ;;
  transaction (
    row ← _get_row action_id;
    raise_if (ac_status row =/= Executing) (InvalidTransitionError
      ("cannot finish action in state " +:+ action_status_text (ac_status row))) ;;
    completed_at ← kutc_now;
    update_action action_id
      (action_outcome status (canonical_json (JObj result)) completed_at) ;;
    _insert_behavior_log row completed_at status s ;;
    _record_revision action_id "finished" ;;
    _load_connection action_id).

Definition cancel (action_id reason : string) : K ActionRecord :=
  raise_if (blank reason) (ValueError "cancellation reason is required") ;;
  transaction (
    row ← _get_row action_id;
    raise_if (ac_status row =/= Prepared) (InvalidTransitionError
      ("cannot cancel action in state " +:+ action_status_text (ac_status row))) ;;
    completed_at ← kutc_now;
    update_action action_id (action_outcome Cancelled
      (canonical_json (JObj [("reason", JStr reason)])) completed_at) ;;
    _insert_behavior_log row completed_at Cancelled
      {| ps_goal_reference := None; ps_target := None; ps_side_effect_summary := "none";
         ps_resource_summary := "none"; ps_explanation := reason;
         ps_redaction_reason := None |} ;;
    _record_revision action_id "cancelled" ;;
    _load_connection action_id).

(** ** Recovery and reconciliation *)

Definition recovery_summary (may_have_side_effect : bool) : public_summary :=
  {| ps_goal_reference := None; ps_target := None;
     ps_side_effect_summary := if may_have_side_effect
       then "completion unknown; side effect may have occurred" else "completion unknown";
     ps_resource_summary := "unavailable after interruption";
     ps_explanation := "Action outcome requires reconciliation after restart.";
     ps_redaction_reason := None |}.
Definition recovery_result (may_have_side_effect : bool) : json :=
  JObj [("recovery", JStr "process ended before completion was durably recorded");
        ("side_effect_may_have_occurred", JBool may_have_side_effect)].
Fixpoint recover_actions (rows : list action_row) : K (list ActionRecord) :=
  match rows with
  | [] => mret []
  | row :: rest =>
      completed_at ← kutc_now;
      modify (set_actions (update_where
        (λ r, (ac_action_id r == ac_action_id row) && (ac_status r == Executing))
        (action_outcome Unknown (canonical_json (recovery_result (ac_side_effect row)))
           completed_at))) ;;
      _insert_behavior_log row completed_at Unknown (recovery_summary (ac_side_effect row)) ;;
      _record_revision (ac_action_id row) "recovered" ;;
      r ← _load_connection (ac_action_id row);
      rs ← recover_actions rest;
      mret (r :: rs)
  end.
Definition by_preparation (x y : action_row) : bool :=
  str_ltb (ac_prepared_at x) (ac_prepared_at y)
  || ((ac_prepared_at x == ac_prepared_at y) && str_leb (ac_action_id x) (ac_action_id y)).
Definition executing_rows (subject_id : string) (d : kernel_db) : list action_row :=
  sort_by by_preparation
    (select (λ a, (ac_subject_id a == subject_id) && (ac_status a == Executing)) (actions d)).
Definition recover_interrupted (subject_id : string) : K (list ActionRecord) :=
  transaction (rows ← gets (executing_rows subject_id); recover_actions rows).

(** [ORDER BY revision_number DESC LIMIT 1]. *)
Definition latest_log_revision (log_id : string) (d : kernel_db) : option behavior_revision_row :=
  head (sort_by (λ x y, br_revision_number y <=? br_revision_number x)
    (select (λ r, bl_log_id (br_log r) == log_id) (behavior_revisions d))).

Definition reconcile_unknown (action_id : string) (status : ActionStatus)
    (result : list (string * json)) (public_explanation : string)
    (side_effect_summary : option string) : K ActionRecord :=
  raise_if (negb (bool_decide (status ∈ RECONCILIATION_STATES)))
    (ValueError ("invalid reconciliation status: " +:+ action_status_text status)) ;;
  transaction (
    row ← _get_row action_id;
    raise_if (ac_status row =/= Unknown) (InvalidTransitionError
      ("cannot reconcile action in state " +:+ action_status_text (ac_status row))) ;;
    found ← gets (λ d, fetchone (λ l, bl_action_id l == action_id) (behavior_logs d));
    log ← lift (of_option
      (NotFoundError ("behavior log not found for action: " +:+ action_id)) found);
    latest_found ← gets (latest_log_revision (bl_log_id log));
    latest ← lift (of_option
      (NotFoundError ("behavior log revision not found for action: " +:+ action_id))
      latest_found);
    completed_at ← kutc_now;
    update_action action_id
      (action_outcome status (canonical_json (JObj result)) completed_at) ;;
    _append_behavior_log_revision (br_log latest) completed_at status
      (default (bl_side_effect_summary (br_log latest)) side_effect_summary)
      public_explanation "unknown outcome reconciled" ;;
    _record_revision action_id "reconciled" ;;
    _load_connection action_id).

(** ** Verification *)

Definition revisions_of (sid action_id : string) (d : kernel_db) : list action_revision_row :=
  select (λ r, ar_action_id r == action_id)
    (sort_by (λ x y, str_ltb (ar_action_id x) (ar_action_id y)
        || ((ar_action_id x == ar_action_id y)
            && (ar_revision_number x <=? ar_revision_number y)))
      (select (λ r, ar_subject_id r == sid) (action_revisions d))).
Definition logs_of (sid action_id : string) (d : kernel_db) : list behavior_log_row :=
  select (λ l, bl_action_id l == action_id)
    (sort_by (λ x y, str_ltb (bl_occurred_at x) (bl_occurred_at y)
        || ((bl_occurred_at x == bl_occurred_at y) && str_leb (bl_log_id x) (bl_log_id y)))
      (select (λ l, bl_subject_id l == sid) (behavior_logs d))).
Definition log_revisions_of (sid log_id : string) (d : kernel_db) : list behavior_revision_row :=
  select (λ r, bl_log_id (br_log r) == log_id)
    (sort_by (λ x y, str_ltb (bl_log_id (br_log x)) (bl_log_id (br_log y))
        || ((bl_log_id (br_log x) == bl_log_id (br_log y))
            && (br_revision_number x <=? br_revision_number y)))
      (select (λ r, bl_subject_id (br_log r) == sid) (behavior_revisions d))).

(** [for expected, revision in enumerate(history, start=1)]. *)
Fixpoint check_revisions (sid action_id : string) (expected : Z)
    (history : list action_revision_row) : result unit :=
  match history with
  | [] => Ok tt
  | r :: rest =>
      if negb (ar_revision_number r =? expected) then
        Raise (IntegrityError ("action revision sequence mismatch: " +:+ action_id))
      else if ar_subject_id r =/= sid then
        Raise (IntegrityError ("action revision ownership mismatch: " +:+ action_id))
      else check_revisions sid action_id (expected + 1) rest
  end.
Fixpoint check_log_revisions (sid action_id : string) (expected : Z)
    (history : list behavior_revision_row) : result unit :=
  match history with
  | [] => Ok tt
  | r :: rest =>
      if negb (br_revision_number r =? expected) then
        Raise (IntegrityError ("behavior log revision sequence mismatch: " +:+ action_id))
      else if (bl_action_id (br_log r) =/= action_id) || (bl_subject_id (br_log r) =/= sid)
           || (br_state_hash r
               =/= behavior_log_state_hash (br_log r) (br_revision_number r) (br_reason r)) then
        Raise (IntegrityError ("behavior log revision integrity mismatch: " +:+ action_id))
      else check_log_revisions sid action_id (expected + 1) rest
  end.
(** The reconciliation of a log with two revisions. *)
Definition check_reconciliation (action_id : string) (history : list behavior_revision_row)
    : result unit :=
  match history with
  | [baseline; reconciled] =>
      if (bl_result_status (br_log baseline) =/= Unknown)
         || (bl_result_status (br_log reconciled) == Unknown) then
        Raise (IntegrityError ("behavior log reconciliation baseline mismatch: " +:+ action_id))
      else if negb (stable_fields (br_log baseline) (br_log reconciled)) then
        Raise (IntegrityError ("behavior log reconciliation fields changed: " +:+ action_id))
      else Ok tt
  | _ => Ok tt
  end.
Definition check_log (sid : string) (action : action_row) (log : behavior_log_row)
    (history : list behavior_revision_row) : result unit :=
  let action_id := ac_action_id action in
  match history with
  | [] => Raise (IntegrityError ("behavior log revision history is missing: " +:+ action_id))
  | baseline :: _ =>
      if 2 <? Z.of_nat (length history) then
        Raise (IntegrityError ("behavior log revision count is invalid: " +:+ action_id))
      else
        _ ← check_log_revisions sid action_id 1 history;
        _ ← check_reconciliation action_id history;
        if br_log baseline =/= log then
          Raise (IntegrityError ("behavior log baseline mismatch: " +:+ action_id))
        else if (bl_result_status ∘ br_log <$> last history) =/= Some (ac_status action) then
          Raise (IntegrityError ("behavior log status mismatch: " +:+ action_id))
        else Ok tt
  end.
Definition check_action (sid : string) (d : kernel_db) (action : action_row) : result unit :=
  let action_id := ac_action_id action in
  _ ← action_from_row action;
  let history := revisions_of sid action_id d in
  match last history with
  | None => Raise (IntegrityError ("action revision history is missing: " +:+ action_id))
  | Some latest =>
      _ ← check_revisions sid action_id 1 history;
      if (ar_status latest =/= ac_status action)
         || (ar_state_hash latest =/= action_state_hash action) then
        Raise (IntegrityError ("action revision hash mismatch: " +:+ action_id))
      else
        let terminal := bool_decide (ac_status action ∈ EXECUTOR_COMPLETION_STATES) in
        let logs := logs_of sid action_id d in
        if terminal && negb (Z.of_nat (length logs) =? 1) then
          Raise (IntegrityError ("terminal action behavior log mismatch: " +:+ action_id))
        else
          match logs with
          | [] => Ok tt
          | log :: _ =>
              if negb terminal then
                Raise (IntegrityError ("nonterminal action has behavior log: " +:+ action_id))
              else check_log sid action log (log_revisions_of sid (bl_log_id log) d)
          end
  end.
Fixpoint check_each {A} (f : A → result unit) (l : list A) : result unit :=
  match l with [] => Ok tt | x :: l' => _ ← f x; check_each f l' end.
Definition check_log_owner (actions_of_subject : list action_row) (log : behavior_log_row)
    : result unit :=
  if exists_where (λ a, ac_action_id a == bl_action_id log) actions_of_subject then Ok tt
  else Raise (IntegrityError ("behavior log ownership mismatch: " +:+ bl_action_id log)).

Definition verify_actions (sid : string) : K (Z * Z * Z * Z) :=
  read_transaction (
    d ← gets id;
    let rows := sort_by by_preparation (select (λ a, ac_subject_id a == sid) (actions d)) in
    let logs := select (λ l, bl_subject_id l == sid) (behavior_logs d) in
    lift (check_each (check_action sid d) rows) ;;
    lift (check_each (check_log_owner rows)
      (sort_by (λ x y, str_ltb (bl_occurred_at x) (bl_occurred_at y)
        || ((bl_occurred_at x == bl_occurred_at y) && str_leb (bl_log_id x) (bl_log_id y)))
        logs)) ;;
    mret (Z.of_nat (length rows),
          count_where (λ r, ar_subject_id r == sid) (action_revisions d),
          Z.of_nat (length logs),
          count_where (λ r, bl_subject_id (br_log r) == sid) (behavior_revisions d))).
End actions.
