(* ===== verification/PayloadCodec.v ===== *)
(** * Compressed payloads ([src/src/noyra/core/payload_codec.py])

    Old model requests and responses are kept as zlib streams in padded
    URL-safe Base64 behind a prefix.  Reading one back is bounded: the
    encoded form is refused before it is decoded when it is too long, and
    the decompressor stops one byte above the limit.  The ledger reads
    outside of [payload_read_budget]. *)

From S2P Require Import Prelude PyStr Json Digest Base64.
Local Open Scope Z_scope.

(** [zlib.decompressobj().decompress(value, ...)] on a byte string: a
    complete stream with its output and the bytes behind it, the output of
    an unfinished stream, or what came out before [zlib.error]. *)
Inductive inflated :=
| Complete (out rest : string)
| Truncated (out : string)
| Corrupt (out : string).
Class Deflate := {
  deflate : string → string;
  inflate : string → inflated;
}.

Definition PREFIX : string := "noyra-zlib-b64:".
Definition DEFAULT_TEXT_LIMIT : Z := 64000000.

(** [base64.urlsafe_b64encode]. *)
Definition b64_padding (n : Z) : string :=
  match n mod 4 with 2 => "==" | 3 => "=" | _ => "" end.
Definition urlsafe_b64encode (s : string) : string :=
  b64_encode s +:+ b64_padding (len (b64_encode s)).
(** The characters before the first ["="], and the rest. *)
Fixpoint split_padding (s : string) : string * string :=
  match s with
  | EmptyString => (EmptyString, EmptyString)
  | String c t =>
      if (code c =? 61)%N then (EmptyString, s)
      else let '(a, b) := split_padding t in (String c a, b)
  end.
(** [altchars=b"-_"] translates these two; the standard characters stay valid. *)
Definition alt_char (c : Ascii.ascii) : Ascii.ascii :=
  if (code c =? 43)%N then chr 45 else if (code c =? 47)%N then chr 95 else c.
Fixpoint str_map (f : Ascii.ascii → Ascii.ascii) (s : string) : string :=
  match s with EmptyString => EmptyString | String c s => String (f c) (str_map f s) end.
(** [base64.b64decode(s, altchars=b"-_", validate=True)]. *)
Definition b64decode_validated (s : string) : option string :=
  let '(body, padding) := split_padding s in
  if bool_decide (padding = b64_padding (len body)) && negb (len body mod 4 =? 1)
  then b64_decode (str_map alt_char body) else None.

Section codec.
Context {De : Deflate}.

Definition compress_text (value : string) : string :=
  if String.prefix PREFIX value then value
  else
    let raw := utf8_encode value in
    if len raw <? 1024 then value
    else
      let encoded := PREFIX +:+ urlsafe_b64encode (deflate raw) in
      if len encoded <? len value then encoded else value.

Definition too_long : exn :=
  PayloadLimitError "decompressed payload exceeds the configured byte limit".
Definition decompress_bytes (value : string) (max_bytes : Z) : result string :=
  if max_bytes <? 1 then Raise (ValueError "decompression limit must be positive")
  else match inflate value with
       | Complete out rest =>
           if max_bytes <? len out then Raise too_long
           else match rest with
                | EmptyString => Ok out
                | _ => Raise (IntegrityError "compressed payload is invalid")
                end
       | Truncated out =>
           if max_bytes <? len out then Raise too_long
           else Raise (IntegrityError "compressed payload is invalid")
       | Corrupt out =>
           if max_bytes <? len out then Raise too_long
           else Raise (ZlibError "invalid stream")
       end.

(** Python's [value[len(PREFIX):]] on a value that starts with the prefix. *)
Definition after_prefix (value : string) : string :=
  default EmptyString (strip_prefix PREFIX value).
Definition invalid_payload : exn := IntegrityError "compressed model payload is invalid".
Definition decompress_text (value : option string) : result (option string) :=
  let max_bytes := DEFAULT_TEXT_LIMIT in
  match value with
  | None => Ok None
  | Some value =>
      if negb (String.prefix PREFIX value) then
        if max_bytes <? len (utf8_encode value)
        then Raise (PayloadLimitError "persisted text exceeds the configured byte limit")
        else Ok (Some value)
      else
        let encoded := after_prefix value in
        if 4 * ((max_bytes + 1024 + 2) / 3) <? len encoded
        then Raise (PayloadLimitError "compressed text exceeds the configured byte limit")
        else match b64decode_validated encoded with
             | None => Raise invalid_payload
             | Some compressed =>
                 match decompress_bytes compressed max_bytes with
                 | Ok raw => match utf8_decode raw with
                             | Some text => Ok (Some text)
                             | None => Raise invalid_payload
                             end
                 | Raise (ZlibError _) => Raise invalid_payload
                 | Raise (ValueError _) => Raise invalid_payload
                 | Raise e => Raise e
                 end
             end
  end.
End codec.

(** ** Reading back *)

Lemma prefix_app p s : String.prefix p (p +:+ s) = true.
Proof. induction p as [|c p IH]; simpl; [by destruct s|]. by destruct (Ascii.ascii_dec c c). Qed.
Lemma strip_prefix_app p s : strip_prefix p (p +:+ s) = Some s.
Proof. induction p as [|c p IH]; simpl; [done|]. by rewrite N.eqb_refl. Qed.

Lemma alphabet_plain c : in_alphabet c = true → (code c =? 61)%N = false ∧ alt_char c = c.
Proof.
  destruct c as [[] [] [] [] [] [] [] []]; vm_compute; by intros [=].
Qed.
Lemma split_alphabet s p :
  str_forallb in_alphabet s = true → (p = EmptyString ∨ ∃ t, p = String (chr 61) t) →
  split_padding (s +:+ p) = (s, p).
Proof.
  intros Hs Hp. induction s as [|c s IH]; simpl in *.
  - destruct Hp as [->|[t ->]]; done.
  - apply andb_true_iff in Hs as [Hc Hs]. destruct (alphabet_plain _ Hc) as [-> _].
    by rewrite (IH Hs).
Qed.
Lemma str_map_alphabet s : str_forallb in_alphabet s = true → str_map alt_char s = s.
Proof.
  induction s as [|c s IH]; simpl; [done|]. intros [Hc Hs]%andb_true_iff.
  destruct (alphabet_plain _ Hc) as [_ ->]. by rewrite IH.
Qed.
Lemma b64_encode_mod s : len (b64_encode s) mod 4 ≠ 1.
Proof.
  induction s as [|a|a b|a b c s IH] using b64_ind; try done.
  intros H. apply IH. rewrite -H. unfold len. simpl.
  rewrite !Nat2Z.inj_succ. Z.to_euclidean_division_equations; lia.
Qed.
Lemma padding_form n : b64_padding n = EmptyString ∨ ∃ t, b64_padding n = String (chr 61) t.
Proof.
  unfold b64_padding. destruct (n mod 4) as [|[[[]|[]|]|[[]|[]|]|]|]; eauto.
Qed.
Lemma b64_validated_roundtrip s : b64decode_validated (urlsafe_b64encode s) = Some s.
Proof.
  unfold b64decode_validated, urlsafe_b64encode.
  rewrite split_alphabet; [apply b64_alphabet|apply padding_form|].
  rewrite bool_decide_true //= (proj2 (Z.eqb_neq _ _)); [apply b64_encode_mod|]. simpl.
  rewrite str_map_alphabet; [apply b64_alphabet|]. apply b64_roundtrip.
Qed.
Lemma len_utf8 s : len s <= len (utf8_encode s).
Proof.
  unfold len. induction s as [|c s IH]; simpl; [done|]. destruct (byte_of c <? 128); simpl; lia.
Qed.

Section roundtrip.
Context {De : Deflate} (inflate_deflate : ∀ s, inflate (deflate s) = Complete s EmptyString).

(** A value that can be read reads the same after it was compressed. *)
Lemma decompress_compress v x :
  decompress_text (Some v) = Ok x → decompress_text (Some (compress_text v)) = Ok x.
Proof.
  unfold compress_text. destruct (String.prefix PREFIX v) eqn:Ep; [done|].
  case_match eqn:E1; [done|]. case_match eqn:E2; [|done].
  unfold decompress_text at 1. rewrite Ep. cbn [negb]. case_match eqn:E3; [done|]. intros [= <-].
  apply Z.ltb_ge in E3, E1. apply Z.ltb_lt in E2. unfold decompress_text.
  rewrite prefix_app. cbn [negb]. unfold after_prefix. rewrite strip_prefix_app. cbn [default id].
  rewrite len_app in E2. pose proof (len_utf8 v). unfold DEFAULT_TEXT_LIMIT in *.
  rewrite (proj2 (Z.ltb_ge _ _)).
  { assert (0 <= len PREFIX) by (unfold len; lia).
    change (4 * ((64000000 + 1024 + 2) / 3)) with 85334700. unfold id. lia. }
  rewrite b64_validated_roundtrip. unfold decompress_bytes. rewrite inflate_deflate.
  rewrite (proj2 (Z.ltb_ge 64000000 (len (utf8_encode v))) E3) /= utf8_roundtrip. done.
Qed.
End roundtrip.
