(* ===== verification/ModelDb.v ===== *)
(** * Model calls, attempts and resource groups: tables
    ([core/schema/migrations_v002_v005.py], [migrations_v018_v021.py],
    [core/usage_schema.py], [core/resource_policy.py], [core/private_sources.py],
    [core/private_erasure_schema.py])

    The tables of [ModelLedger] beside those of the kernel: calls and their
    attempts, the private inputs of a call, the resource groups with their
    limit policies and keys, and the columns of the interaction and
    participant tables that decide whether an invitation was withdrawn.
    [erased_calls] are the [record_id]s of [private_erasure_receipts] for
    [record_table = 'model_calls'].

    A prompt is built inside [private_input_scope] and
    [invitation_input_scope]: two context variables name the interactions it
    draws on and the invitation it answers.  [input_scope] holds both.
    [Database.transaction] refuses to begin while one of them has been
    withdrawn, except inside [accounting_scope], where the outcome of a
    request that was already sent is recorded. *)

From S2P Require Import Prelude Tables PyStr Json Digest Time KernelDb Events.
Local Open Scope Z_scope.

(** ** Rows *)

Inductive CallStatus := CallPrepared | CallExecuting | CallSucceeded | CallFailed | CallUnknown.
#[global] Instance CallStatus_eq_dec : EqDecision CallStatus.
Proof. solve_decision. Defined.
Definition call_status_text (s : CallStatus) : string :=
  match s with
  | CallPrepared => "prepared" | CallExecuting => "executing" | CallSucceeded => "succeeded"
  | CallFailed => "failed" | CallUnknown => "unknown"
  end.
Inductive AttemptStatus :=
| Authorized | AttemptExecuting | AttemptSucceeded | AttemptFailed | AttemptUnknown
| AttemptCancelled.
#[global] Instance AttemptStatus_eq_dec : EqDecision AttemptStatus.
Proof. solve_decision. Defined.
Definition attempt_status_text (s : AttemptStatus) : string :=
  match s with
  | Authorized => "authorized" | AttemptExecuting => "executing"
  | AttemptSucceeded => "succeeded" | AttemptFailed => "failed" | AttemptUnknown => "unknown"
  | AttemptCancelled => "cancelled"
  end.
Inductive UsageSource := UsageLegacy | UsageUnknown | UsageProvider | UsageEstimated.
#[global] Instance UsageSource_eq_dec : EqDecision UsageSource.
Proof. solve_decision. Defined.

Record call_row := {
  mc_call_id : string; mc_subject_id : string; mc_provider : string; mc_model : string;
  mc_purpose : string; mc_request_hash : string; mc_idempotency_key : string;
  mc_status : CallStatus; mc_response_json : option string; mc_response_hash : option string;
  mc_usage_estimated : bool; mc_error_code : option string; mc_created_at : string;
  mc_completed_at : option string; mc_resource_pool : string;
  mc_resource_group_id : option string; mc_request_json : option string;
  mc_capture_policy_version : option Z;
}.
Record attempt_row := {
  ma_attempt_id : string; ma_call_id : string; ma_subject_id : string; ma_budget_day : string;
  ma_attempt_number : Z; ma_status : AttemptStatus; ma_reserved_input_tokens : Z;
  ma_reserved_output_tokens : Z; ma_reserved_cost_microusd : Z; ma_input_tokens : option Z;
  ma_output_tokens : option Z; ma_cost_microusd : option Z;
  ma_provider_request_id : option string; ma_error_code : option string;
  ma_started_at : option string; ma_completed_at : option string; ma_usage_source : UsageSource;
  ma_pricing_snapshot_json : option string;
}.
#[global] Instance call_row_eq_dec : EqDecision call_row.
Proof. solve_decision. Defined.
#[global] Instance attempt_row_eq_dec : EqDecision attempt_row.
Proof. solve_decision. Defined.
Record private_source_row := {
  pv_call_id : string; pv_interaction_id : string; pv_conversation_id : string;
  pv_subject_id : string; pv_source_hash : string;
}.

(** The switches of a budget, in the order of [LIMIT_DIMENSIONS]. *)
Record switches := {
  sw_attempts : bool; sw_input_tokens : bool; sw_output_tokens : bool; sw_cost : bool;
}.
#[global] Instance switches_eq_dec : EqDecision switches.
Proof. solve_decision. Defined.
Record group_row := {
  rg_group_id : string; rg_subject_id : string; rg_pool : string; rg_label : string;
  rg_provider_type : string; rg_base_url : string; rg_model : string; rg_priority : Z;
  rg_weight : Z; rg_daily_attempts : Z; rg_daily_input_tokens : Z; rg_daily_output_tokens : Z;
  rg_daily_cost_microusd : Z; rg_input_microusd_per_million : Z;
  rg_output_microusd_per_million : Z; rg_max_attempts : Z; rg_status : string;
  rg_state_hash : string; rg_created_at : string; rg_updated_at : string;
  rg_reasoning_effort : option string;
}.
Record key_row := {
  rk_key_id : string; rk_group_id : string; rk_subject_id : string; rk_key_reference : string;
  rk_key_fingerprint : string; rk_status : string; rk_selection_count : Z;
  rk_consecutive_failures : Z; rk_cooldown_until : option string;
  rk_last_selected_at : option string; rk_last_success_at : option string;
  rk_last_failure_at : option string; rk_state_hash : string; rk_created_at : string;
}.
Record limit_policy_row := {
  lp_group_id : string; lp_subject_id : string; lp_enabled : switches; lp_revision : Z;
  lp_updated_at : string; lp_state_hash : string; lp_pricing_status : string;
}.
Record limit_revision_row := {
  lr_policy : limit_policy_row; lr_actor : string; lr_reason : string;
}.

Record interaction_row := {
  in_interaction_id : string; in_subject_id : string; in_content_hash : string;
  in_idempotency_key : string;
}.
Record message_link_row := {
  ml_interaction_id : string; ml_subject_id : string; ml_entity_id : string;
}.
Record application_row := {
  ap_subject_id : string; ap_entity_id : string; ap_status : string;
  ap_idempotency_key : string;
}.

Record resource_tables := {
  resource_groups : list group_row;
  resource_keys : list key_row;
  limit_policies : list limit_policy_row;
  limit_revisions : list limit_revision_row;
}.
Record social_tables := {
  interactions : list interaction_row;
  message_links : list message_link_row;
  applications : list application_row;
}.
Record model_db := {
  base : kernel_db;
  model_calls : list call_row;
  model_attempts : list attempt_row;
  private_model_sources : list private_source_row;
  erased_calls : list string;
  resources : resource_tables;
  social : social_tables;
  schema_meta : list (string * string);
}.
Definition set_base (k : kernel_db) (d : model_db) : model_db :=
  {| base := k; model_calls := model_calls d; model_attempts := model_attempts d;
     private_model_sources := private_model_sources d; erased_calls := erased_calls d;
     resources := resources d; social := social d; schema_meta := schema_meta d |}.
Definition set_model_calls (f : list call_row → list call_row) (d : model_db) : model_db :=
  {| base := base d; model_calls := f (model_calls d); model_attempts := model_attempts d;
     private_model_sources := private_model_sources d; erased_calls := erased_calls d;
     resources := resources d; social := social d; schema_meta := schema_meta d |}.
Definition set_model_attempts (f : list attempt_row → list attempt_row) (d : model_db)
    : model_db :=
  {| base := base d; model_calls := model_calls d; model_attempts := f (model_attempts d);
     private_model_sources := private_model_sources d; erased_calls := erased_calls d;
     resources := resources d; social := social d; schema_meta := schema_meta d |}.
Definition set_private_model_sources (f : list private_source_row → list private_source_row)
    (d : model_db) : model_db :=
  {| base := base d; model_calls := model_calls d; model_attempts := model_attempts d;
     private_model_sources := f (private_model_sources d); erased_calls := erased_calls d;
     resources := resources d; social := social d; schema_meta := schema_meta d |}.
Definition set_erased_calls (f : list string → list string) (d : model_db) : model_db :=
  {| base := base d; model_calls := model_calls d; model_attempts := model_attempts d;
     private_model_sources := private_model_sources d; erased_calls := f (erased_calls d);
     resources := resources d; social := social d; schema_meta := schema_meta d |}.
Definition set_resources (r : resource_tables) (d : model_db) : model_db :=
  {| base := base d; model_calls := model_calls d; model_attempts := model_attempts d;
     private_model_sources := private_model_sources d; erased_calls := erased_calls d;
     resources := r; social := social d; schema_meta := schema_meta d |}.
Definition set_social (s : social_tables) (d : model_db) : model_db :=
  {| base := base d; model_calls := model_calls d; model_attempts := model_attempts d;
     private_model_sources := private_model_sources d; erased_calls := erased_calls d;
     resources := resources d; social := s; schema_meta := schema_meta d |}.
Definition set_schema_meta (f : list (string * string) → list (string * string)) (d : model_db)
    : model_db :=
  {| base := base d; model_calls := model_calls d; model_attempts := model_attempts d;
     private_model_sources := private_model_sources d; erased_calls := erased_calls d;
     resources := resources d; social := social d; schema_meta := f (schema_meta d) |}.

(** The row after an update of the mutable columns. *)
Definition call_set (status : CallStatus) (response_json response_hash : option string)
    (usage_estimated : bool) (error_code completed_at request_json : option string)
    (r : call_row) : call_row :=
  {| mc_call_id := mc_call_id r; mc_subject_id := mc_subject_id r;
     mc_provider := mc_provider r; mc_model := mc_model r; mc_purpose := mc_purpose r;
     mc_request_hash := mc_request_hash r; mc_idempotency_key := mc_idempotency_key r;
     mc_status := status; mc_response_json := response_json; mc_response_hash := response_hash;
     mc_usage_estimated := usage_estimated; mc_error_code := error_code;
     mc_created_at := mc_created_at r; mc_completed_at := completed_at;
     mc_resource_pool := mc_resource_pool r; mc_resource_group_id := mc_resource_group_id r;
     mc_request_json := request_json;
     mc_capture_policy_version := mc_capture_policy_version r |}.
(** [SET status = ?, error_code = ?, completed_at = ?]. *)
Definition call_moved (status : CallStatus) (error_code completed_at : option string)
    (r : call_row) : call_row :=
  call_set status (mc_response_json r) (mc_response_hash r) (mc_usage_estimated r) error_code
    completed_at (mc_request_json r) r.
(** The update of [finish_attempt]. *)
Definition attempt_finished (status : AttemptStatus) (usage : option (Z * Z * Z))
    (provider_request_id error_code : option string) (completed_at : string)
    (usage_source : UsageSource) (r : attempt_row) : attempt_row :=
  {| ma_attempt_id := ma_attempt_id r; ma_call_id := ma_call_id r;
     ma_subject_id := ma_subject_id r; ma_budget_day := ma_budget_day r;
     ma_attempt_number := ma_attempt_number r; ma_status := status;
     ma_reserved_input_tokens := ma_reserved_input_tokens r;
     ma_reserved_output_tokens := ma_reserved_output_tokens r;
     ma_reserved_cost_microusd := ma_reserved_cost_microusd r;
     ma_input_tokens := (λ u, u.1.1) <$> usage; ma_output_tokens := (λ u, u.1.2) <$> usage;
     ma_cost_microusd := snd <$> usage; ma_provider_request_id := provider_request_id;
     ma_error_code := error_code; ma_started_at := ma_started_at r;
     ma_completed_at := Some completed_at; ma_usage_source := usage_source; ma_pricing_snapshot_json := ma_pricing_snapshot_json r |}.
(** [SET status = 'executing', started_at = ?]. *)
Definition attempt_started (started_at : string) (r : attempt_row) : attempt_row :=
  {| ma_attempt_id := ma_attempt_id r; ma_call_id := ma_call_id r;
     ma_subject_id := ma_subject_id r; ma_budget_day := ma_budget_day r;
     ma_attempt_number := ma_attempt_number r; ma_status := AttemptExecuting;
     ma_reserved_input_tokens := ma_reserved_input_tokens r;
     ma_reserved_output_tokens := ma_reserved_output_tokens r;
     ma_reserved_cost_microusd := ma_reserved_cost_microusd r;
     ma_input_tokens := ma_input_tokens r; ma_output_tokens := ma_output_tokens r;
     ma_cost_microusd := ma_cost_microusd r;
     ma_provider_request_id := ma_provider_request_id r; ma_error_code := ma_error_code r;
     ma_started_at := Some started_at; ma_completed_at := ma_completed_at r;
     ma_usage_source := ma_usage_source r;
     ma_pricing_snapshot_json := ma_pricing_snapshot_json r |}.
(** [SET status = ?, error_code = ?, completed_at = ?]. *)
Definition attempt_closed (status : AttemptStatus) (error_code completed_at : string)
    (r : attempt_row) : attempt_row :=
  {| ma_attempt_id := ma_attempt_id r; ma_call_id := ma_call_id r;
     ma_subject_id := ma_subject_id r; ma_budget_day := ma_budget_day r;
     ma_attempt_number := ma_attempt_number r; ma_status := status;
     ma_reserved_input_tokens := ma_reserved_input_tokens r;
     ma_reserved_output_tokens := ma_reserved_output_tokens r;
     ma_reserved_cost_microusd := ma_reserved_cost_microusd r;
     ma_input_tokens := ma_input_tokens r; ma_output_tokens := ma_output_tokens r;
     ma_cost_microusd := ma_cost_microusd r;
     ma_provider_request_id := ma_provider_request_id r; ma_error_code := Some error_code;
     ma_started_at := ma_started_at r; ma_completed_at := Some completed_at;
     ma_usage_source := ma_usage_source r;
     ma_pricing_snapshot_json := ma_pricing_snapshot_json r |}.

(** ** Statements *)

Abbreviation L := (M model_db).
(** A program of the kernel, in the same transaction. *)
Definition in_base {A} (m : K A) : L A := within base set_base m.
Definition lconstraint (b : bool) (msg : string) : L unit := raise_if (negb b) (SqliteError msg).

Section host.
Context {Ho : Host}.
Definition lutc_now : L string := read_clock now_at.
Definition lnew_id (prefix : string) : L string :=
  u ← read_fresh uuid_at; mret (prefix +:+ "_" +:+ u).
End host.

(** [ERASED_MODEL] of [interaction/erasure.py]. *)
Definition ERASED_MODEL : json := JObj [("privacy_erased", JBool true)].

Definition insert_call (r : call_row) : L unit :=
  d ← gets id;
  lconstraint (negb (exists_where (λ x, (mc_call_id x == mc_call_id r)
       || ((mc_subject_id x == mc_subject_id r)
           && (mc_idempotency_key x == mc_idempotency_key r))) (model_calls d)))
    "UNIQUE constraint failed" ;;
  lconstraint (subject_exists (mc_subject_id r) (base d)) "FOREIGN KEY constraint failed" ;;
  modify (set_model_calls (append_row r)) ;;
  in_base (bump_count (mc_subject_id r) "model_calls").
(** Trigger [prevent_erased_model_payload_update]. *)
Definition erasure_kept (d : model_db) (r : call_row) : bool :=
  negb (bool_decide (mc_call_id r ∈ erased_calls d))
  || (bool_decide (mc_request_json r = None)
      && bool_decide (mc_response_json r = Some (canonical_json ERASED_MODEL))).
Definition update_call (call_id : string) (f : call_row → call_row) : L unit :=
  d ← gets id;
  lconstraint (forallb (λ r, erasure_kept d (f r))
      (select (λ r, mc_call_id r == call_id) (model_calls d)))
    "erased model content cannot be restored" ;;
  modify (set_model_calls (update_where (λ r, mc_call_id r == call_id) f)).

Definition insert_attempt (r : attempt_row) : L unit :=
  bind_int (ma_reserved_input_tokens r) ;;
  bind_int (ma_reserved_output_tokens r) ;;
  bind_int (ma_reserved_cost_microusd r) ;;
  d ← gets id;
  lconstraint ((0 <? ma_attempt_number r) && (0 <=? ma_reserved_input_tokens r)
      && (0 <=? ma_reserved_output_tokens r) && (0 <=? ma_reserved_cost_microusd r))
    "CHECK constraint failed" ;;
  lconstraint (negb (exists_where (λ x, (ma_attempt_id x == ma_attempt_id r)
       || ((ma_call_id x == ma_call_id r)
           && (ma_attempt_number x =? ma_attempt_number r))) (model_attempts d)))
    "UNIQUE constraint failed" ;;
  lconstraint (exists_where (λ c, mc_call_id c == ma_call_id r) (model_calls d)
               && subject_exists (ma_subject_id r) (base d)) "FOREIGN KEY constraint failed" ;;
  modify (set_model_attempts (append_row r)) ;;
  in_base (bump_count (ma_subject_id r) "model_attempts").
Definition update_attempts (p : attempt_row → bool) (f : attempt_row → attempt_row) : L unit :=
  modify (set_model_attempts (update_where p f)).

(** [INSERT OR IGNORE INTO private_model_sources]. *)
Definition insert_private_source (r : private_source_row) : L unit :=
  found ← gets (λ d, exists_where (λ x, (pv_call_id x == pv_call_id r)
      && (pv_interaction_id x == pv_interaction_id r)) (private_model_sources d));
  if found then mret tt else modify (set_private_model_sources (append_row r)).

Definition insert_audit (subject_id action actor : string) (payload : json) (now : string)
    `{!Host} : L unit :=
  audit_id ← lnew_id "audit";
  in_base (insert_kaudit {| ka_audit_id := audit_id; ka_subject_id := subject_id;
    ka_action := action; ka_actor := actor; ka_payload_json := canonical_json payload;
    ka_occurred_at := now |}).

Definition meta_get (key : string) (d : model_db) : option string :=
  snd <$> fetchone (λ kv, kv.1 == key) (schema_meta d).
Definition meta_delete (key : string) : L unit :=
  modify (set_schema_meta (select (λ kv, kv.1 =/= key))).
Definition meta_replace (key value : string) : L unit :=
  modify (set_schema_meta (λ t, append_row (key, value) (select (λ kv, kv.1 =/= key) t))).

(** ** Private inputs of a model call ([core/private_sources.py]) *)

Record input_scope := {
  scope_sources : list string;
  scope_invitation : option (string * string);
}.
Definition no_scope : input_scope := {| scope_sources := []; scope_invitation := None |}.

Section sources.
Context {Dg : Digest}.

(** [WITHDRAWN_PARTICIPANT_INVITATION]: the key of the interaction is the key
    of a withdrawn application with [":interest"] appended. *)
Definition withdrawn_invitation (s : social_tables) (i : interaction_row) : bool :=
  exists_where (λ p, (ml_interaction_id p == in_interaction_id i)
      && (ml_subject_id p == in_subject_id i)
      && exists_where (λ a, (ap_subject_id a == ml_subject_id p)
           && (ap_entity_id a == ml_entity_id p) && (ap_status a == "withdrawn")
           && (in_idempotency_key i == ap_idempotency_key a +:+ ":interest")) (applications s))
    (message_links s).
Definition participant_invitation_withdrawn (subject_id interaction_id : string) (d : model_db)
    : bool :=
  exists_where (λ i, (in_subject_id i == subject_id) && (in_interaction_id i == interaction_id)
    && withdrawn_invitation (social d) i) (interactions (social d)).

(** The conversation a message belongs to. *)
Definition message_conversation (interaction_id : string) (d : model_db)
    : option conversation_row :=
  m ← fetchone (λ m, pm_interaction_id m == interaction_id) (private_messages (others (base d)));
  fetchone (λ c, pc_conversation_id c == pm_conversation_id m)
    (private_conversations (others (base d))).
Definition withdrawn_status (s : string) : bool := (s == "deleting") || (s == "deleted").
Definition assert_private_inputs_available (scope : input_scope) : L unit :=
  d ← gets id;
  match scope_invitation scope with
  | Some (subject_id, interaction_id) =>
      raise_if (participant_invitation_withdrawn subject_id interaction_id d)
        (InvitationWithdrawnError "participant invitation has been withdrawn")
  | None => mret tt
  end ;;
  raise_if (exists_where (λ i, match message_conversation i d with
                               | Some c => withdrawn_status (pc_status c)
                               | None => false
                               end) (scope_sources scope))
    (PermissionError "private input has been withdrawn").

(** [Database.transaction] outside and inside of [accounting_scope]. *)
Definition guarded {A} (scope : input_scope) (m : L A) : L A :=
  transaction (assert_private_inputs_available scope ;; m).
Definition accounting {A} (m : L A) : L A := transaction m.

(** A source of the call belongs to a conversation being deleted. *)
Definition withdrawn_source (call_id : string) (d : model_db) : bool :=
  exists_where (λ s, (pv_call_id s == call_id)
    && withdrawn_conversation (others (base d)) (pv_conversation_id s)) (private_model_sources d).

Definition private_source (subject_id interaction_id : string) (d : model_db)
    : option (interaction_row * conversation_row) :=
  i ← fetchone (λ i, (in_interaction_id i == interaction_id) && (in_subject_id i == subject_id))
        (interactions (social d));
  m ← fetchone (λ m, (pm_interaction_id m == interaction_id) && (pm_subject_id m == subject_id))
        (private_messages (others (base d)));
  c ← fetchone (λ c, (pc_conversation_id c == pm_conversation_id m)
                     && (pc_subject_id c == subject_id)) (private_conversations (others (base d)));
  Some (i, c).
Definition record_private_source (subject_id call_id interaction_id : string) : L unit :=
  d ← gets id;
  match private_source subject_id interaction_id d with
  | None =>
      raise_if (negb (exists_where (λ i, (in_interaction_id i == interaction_id)
          && (in_subject_id i == subject_id)) (interactions (social d))))
        (PermissionError "private source subject mismatch")
  | Some (i, c) =>
      raise_if (negb ((pc_status c == "active") || (pc_status c == "archived")))
        (PermissionError "private input is unavailable") ;;
      insert_private_source
        {| pv_call_id := call_id; pv_interaction_id := interaction_id;
           pv_conversation_id := pc_conversation_id c; pv_subject_id := subject_id;
           pv_source_hash := content_hash (JObj
             [("call_id", JStr call_id); ("interaction_id", JStr interaction_id);
              ("conversation_id", JStr (pc_conversation_id c)); ("subject_id", JStr subject_id);
              ("content_hash", JStr (in_content_hash i))]) |}
  end.
Definition record_private_sources (scope : input_scope) (subject_id call_id : string) : L unit :=
  for_each (record_private_source subject_id call_id) (scope_sources scope).
End sources.
