(* ===== verification/ModelResources.v ===== *)
(** * Resource groups, keys and limit policies ([core/resource_policy.py] and
    the row readers of [CognitiveResourceStore] in [model/resources.py])

    A group of credentials for one model endpoint has a row with its daily
    limits, a policy row that says which limits are enforced, and an
    append-only list of policy revisions.  All of them carry the hash of
    their own columns, and a reader refuses a row whose hash or newest
    revision does not match.

    Then the records of calls and attempts ([model/types.py]) and the row
    readers of [ModelLedger] in [model/ledger.py]: a row is checked whenever
    it is read, its status against its timestamps and usage, its response
    against the recorded hash. *)

From S2P Require Import Prelude Tables PyStr Json Digest Time KernelDb Events PayloadCodec.
From S2P Require Import ModelDb.
Local Open Scope Z_scope.

(** [_normalize_public_model_url], which is the URL validation of the
    [pydantic] settings model and the [ipaddress] package; [None] is
    [ValueError]. *)
Class Endpoints := { public_model_url : string → option string }.

(** [BudgetLimits] of [model/types.py]. *)
Record BudgetLimits := {
  daily_attempts : Z; daily_input_tokens : Z; daily_output_tokens : Z; daily_cost_microusd : Z;
  enabled : switches;
}.
Record CognitiveResourceGroupRecord := {
  grp_row : group_row; grp_key_count : Z; grp_available_key_count : Z;
  grp_limit_enabled : switches; grp_limit_revision : Z; grp_pricing_status : string;
}.

Section policy.
Context {Dg : Digest} {Ho : Host} {En : Endpoints}.

(** ** Limit policies *)

Definition switches_json (s : switches) : json :=
  JObj [("attempts", JBool (sw_attempts s)); ("input_tokens", JBool (sw_input_tokens s));
        ("output_tokens", JBool (sw_output_tokens s)); ("cost", JBool (sw_cost s))].
Definition pricing_statuses : list string := ["unknown"; "priced"; "free"].
Definition resource_policy_hash (row : limit_policy_row) : result string :=
  if (lp_revision row <? 1) || negb (in_set (lp_pricing_status row) pricing_statuses)
  then Raise (IntegrityError "invalid resource limit policy")
  else Ok (content_hash (JObj
    [("group_id", JStr (lp_group_id row)); ("subject_id", JStr (lp_subject_id row));
     ("enabled", switches_json (lp_enabled row)); ("revision", JInt (lp_revision row));
     ("updated_at", JStr (lp_updated_at row));
     ("pricing_status", JStr (lp_pricing_status row))])).
Definition policy_of (group_id : string) (r : resource_tables) : option limit_policy_row :=
  fetchone (λ p, lp_group_id p == group_id) (limit_policies r).
(** [ORDER BY revision DESC LIMIT 1]. *)
Definition newest_first (a b : limit_revision_row) : bool :=
  lp_revision (lr_policy b) <=? lp_revision (lr_policy a).
Definition latest_revision (group_id : string) (r : resource_tables) : option limit_revision_row :=
  head (sort_by newest_first
    (select (λ x, lp_group_id (lr_policy x) == group_id) (limit_revisions r))).
Definition read_resource_policy (group_id subject_id : string) (r : resource_tables)
    : result switches :=
  match fetchone (λ p, (lp_group_id p == group_id) && (lp_subject_id p == subject_id))
          (limit_policies r) with
  | None => Raise (IntegrityError "cognitive resource limit policy mismatch")
  | Some row =>
      digest ← resource_policy_hash row;
      if digest =/= lp_state_hash row
      then Raise (IntegrityError "cognitive resource limit policy mismatch")
      else if bool_decide (lp_state_hash ∘ lr_policy <$> latest_revision group_id r
                           = Some (lp_state_hash row))
           then Ok (lp_enabled row)
           else Raise (IntegrityError "cognitive resource limit revision mismatch")
  end.

Definition set_policies (f : list limit_policy_row → list limit_policy_row)
    (g : list limit_revision_row → list limit_revision_row) (r : resource_tables)
    : resource_tables :=
  {| resource_groups := resource_groups r; resource_keys := resource_keys r;
     limit_policies := f (limit_policies r); limit_revisions := g (limit_revisions r) |}.
(** [INSERT ... ON CONFLICT(group_id) DO UPDATE]; the subject of an existing
    policy stays. *)
Definition upsert_policy (row : limit_policy_row) (t : list limit_policy_row)
    : list limit_policy_row :=
  if exists_where (λ p, lp_group_id p == lp_group_id row) t
  then update_where (λ p, lp_group_id p == lp_group_id row) (λ p,
         {| lp_group_id := lp_group_id p; lp_subject_id := lp_subject_id p;
            lp_enabled := lp_enabled row; lp_revision := lp_revision row;
            lp_updated_at := lp_updated_at row; lp_state_hash := lp_state_hash row;
            lp_pricing_status := lp_pricing_status row |}) t
  else append_row row t.
Definition group_by_id (group_id : string) (r : resource_tables) : option group_row :=
  fetchone (λ g, rg_group_id g == group_id) (resource_groups r).
Definition priced (g : group_row) : bool :=
  negb ((rg_input_microusd_per_million g =? 0) && (rg_output_microusd_per_million g =? 0)).
Definition write_resource_policy (group_id subject_id : string) (on : switches)
    (actor reason now : string) (pricing_status : option string) : L unit :=
  r ← gets resources;
  let previous := policy_of group_id r in
  let revision := match previous with None => 1 | Some p => lp_revision p + 1 end in
  status ← match pricing_status with
           | Some s => mret s
           | None =>
               g ← lift (of_option (TypeError "'NoneType' object is not iterable")
                     (group_by_id group_id r));
               mret (if priced g then "priced"
                     else match previous with
                          | Some p => lp_pricing_status p
                          | None => "unknown"
                          end)%string
           end;
  raise_if (negb (in_set status pricing_statuses)) (ValueError "invalid resource pricing status") ;;
  let values := {| lp_group_id := group_id; lp_subject_id := subject_id; lp_enabled := on;
                   lp_revision := revision; lp_updated_at := now; lp_state_hash := "";
                   lp_pricing_status := status |} in
  digest ← lift (resource_policy_hash values);
  let row := {| lp_group_id := group_id; lp_subject_id := subject_id; lp_enabled := on;
                lp_revision := revision; lp_updated_at := now; lp_state_hash := digest;
                lp_pricing_status := status |} in
  known ← gets (λ d, subject_exists subject_id (base d));
  lconstraint (exists_where (λ g, rg_group_id g == group_id) (resource_groups r) && known)
    "FOREIGN KEY constraint failed" ;;
  lconstraint (negb (exists_where (λ x, (lp_group_id (lr_policy x) == group_id)
      && (lp_revision (lr_policy x) =? revision)) (limit_revisions r)))
    "UNIQUE constraint failed" ;;
  modify (set_resources (set_policies (upsert_policy row)
    (append_row {| lr_policy := row; lr_actor := actor; lr_reason := reason |}) r)).

(** ** Groups and keys *)

Definition _row_values (row : group_row) : list json :=
  [JStr (rg_subject_id row); JStr (rg_pool row); JStr (rg_label row);
   JStr (rg_provider_type row); JStr (rg_base_url row); JStr (rg_model row);
   JInt (rg_priority row); JInt (rg_weight row); JInt (rg_daily_attempts row);
   JInt (rg_daily_input_tokens row); JInt (rg_daily_output_tokens row);
   JInt (rg_daily_cost_microusd row); JInt (rg_input_microusd_per_million row);
   JInt (rg_output_microusd_per_million row); JInt (rg_max_attempts row)]
  ++ match rg_reasoning_effort row with Some e => [JStr e] | None => [] end.
Definition _group_hash (row : group_row) : string :=
  content_hash (JObj [("group_id", JStr (rg_group_id row));
                      ("values", JList (_row_values row)); ("status", JStr (rg_status row))]).
Definition invalid_group : exn :=
  IntegrityError "cognitive resource group durable state is invalid".
Definition SQLITE_INT64_MAX : Z := 2 ^ 63 - 1.
Definition _validate_group_values (row : group_row) : result unit :=
  if existsb blank [rg_subject_id row; rg_label row; rg_base_url row; rg_model row]
  then Raise invalid_group
  else if negb (in_set (rg_pool row) ["economy"; "deep"]
                && (rg_provider_type row == "openai_compatible")
                && in_set (rg_status row) ["active"; "disabled"; "revoked"])
  then Raise invalid_group
  else if match rg_reasoning_effort row with
          | Some e => negb (in_set e ["low"; "medium"; "high"; "xhigh"])
          | None => false
          end
  then Raise (IntegrityError "cognitive resource reasoning effort is invalid")
  else if negb (bool_decide (public_model_url (rg_base_url row) = Some (rg_base_url row)))
  then Raise invalid_group
  else if existsb (λ z, (z <? 0) || (SQLITE_INT64_MAX <? z))
         [rg_priority row; rg_weight row; rg_daily_attempts row; rg_daily_input_tokens row;
          rg_daily_output_tokens row; rg_daily_cost_microusd row;
          rg_input_microusd_per_million row; rg_output_microusd_per_million row;
          rg_max_attempts row]
  then Raise invalid_group
  else if negb ((rg_priority row <=? 1000) && (1 <=? rg_weight row) && (rg_weight row <=? 1000)
                && (1 <=? rg_max_attempts row) && (rg_max_attempts row <=? 10))
  then Raise invalid_group
  else Ok tt.

Definition own_group (subject_id : string) (group_id : option string) (r : resource_tables)
    : option group_row :=
  fetchone (λ g, bool_decide (Some (rg_group_id g) = group_id) && (rg_subject_id g == subject_id))
    (resource_groups r).
Definition available_key (now : string) (k : key_row) : bool :=
  (rk_status k == "active")
  || ((rk_status k == "cooldown")
      && match rk_cooldown_until k with Some u => str_leb u now | None => false end).
Definition group_keys (row : group_row) (r : resource_tables) : list key_row :=
  select (λ k, (rk_group_id k == rg_group_id row) && (rk_subject_id k == rg_subject_id row))
    (resource_keys r).
Definition _from_group_row (row : group_row) : L CognitiveResourceGroupRecord :=
  _ ← lift (_validate_group_values row);
  raise_if (_group_hash row =/= rg_state_hash row)
    (IntegrityError ("cognitive resource group hash mismatch: " +:+ rg_group_id row)) ;;
  now ← lutc_now;
  r ← gets resources;
  on ← lift (read_resource_policy (rg_group_id row) (rg_subject_id row) r);
  policy ← lift (of_option (TypeError "'NoneType' object is not subscriptable")
             (policy_of (rg_group_id row) r));
  mret {| grp_row := row; grp_key_count := Z.of_nat (length (group_keys row r));
          grp_available_key_count := count_where (available_key now) (group_keys row r);
          grp_limit_enabled := on; grp_limit_revision := lp_revision policy;
          grp_pricing_status := lp_pricing_status policy |}.

Definition _key_hash (k : key_row) : string :=
  content_hash (JObj
    [("key_id", JStr (rk_key_id k)); ("group_id", JStr (rk_group_id k));
     ("subject_id", JStr (rk_subject_id k)); ("key_reference", JStr (rk_key_reference k));
     ("key_fingerprint", JStr (rk_key_fingerprint k)); ("status", JStr (rk_status k));
     ("selection_count", JInt (rk_selection_count k));
     ("consecutive_failures", JInt (rk_consecutive_failures k));
     ("cooldown_until", JOpt (rk_cooldown_until k));
     ("last_selected_at", JOpt (rk_last_selected_at k));
     ("last_success_at", JOpt (rk_last_success_at k));
     ("last_failure_at", JOpt (rk_last_failure_at k)); ("created_at", JStr (rk_created_at k))]).
Definition _from_key_row (k : key_row) : result key_row :=
  if (rk_selection_count k <? 0) || (rk_consecutive_failures k <? 0)
  then Raise (IntegrityError ("cognitive resource key counters are invalid: " +:+ rk_key_id k))
  else if negb (in_set (rk_status k) ["active"; "cooldown"; "revoked"])
  then Raise (IntegrityError ("cognitive resource key status is invalid: " +:+ rk_key_id k))
  else if _key_hash k =/= rk_state_hash k
  then Raise (IntegrityError ("cognitive resource key hash mismatch: " +:+ rk_key_id k))
  else Ok k.

(** ** Limits *)

Definition _limits_for_group (g : CognitiveResourceGroupRecord) : BudgetLimits :=
  let row := grp_row g in
  {| daily_attempts := rg_daily_attempts row; daily_input_tokens := rg_daily_input_tokens row;
     daily_output_tokens := rg_daily_output_tokens row;
     daily_cost_microusd := rg_daily_cost_microusd row; enabled := grp_limit_enabled g |}.
(** The limits of a pool: the sums over its groups; a dimension is enforced
    when every group enforces it. *)
Definition pool_limits_of (gs : list CognitiveResourceGroupRecord) : BudgetLimits :=
  {| daily_attempts := sum_by (λ g, rg_daily_attempts (grp_row g)) gs;
     daily_input_tokens := sum_by (λ g, rg_daily_input_tokens (grp_row g)) gs;
     daily_output_tokens := sum_by (λ g, rg_daily_output_tokens (grp_row g)) gs;
     daily_cost_microusd := sum_by (λ g, rg_daily_cost_microusd (grp_row g)) gs;
     enabled := {| sw_attempts := forallb (λ g, sw_attempts (grp_limit_enabled g)) gs;
                   sw_input_tokens := forallb (λ g, sw_input_tokens (grp_limit_enabled g)) gs;
                   sw_output_tokens := forallb (λ g, sw_output_tokens (grp_limit_enabled g)) gs;
                   sw_cost := forallb (λ g, sw_cost (grp_limit_enabled g)) gs |} |}.
(** [[_from_group_row(connection, row) for row in ...]]. *)
Fixpoint read_groups (rows : list group_row) : L (list CognitiveResourceGroupRecord) :=
  match rows with
  | [] => mret []
  | row :: rows => g ← _from_group_row row; gs ← read_groups rows; mret (g :: gs)
  end.
End policy.

(** ** Model calls and attempts *)

Record CallRecord := {
  cl_call_id : string; cl_subject_id : string; cl_provider : string; cl_model : string;
  cl_purpose : string; cl_request_hash : string; cl_idempotency_key : string;
  cl_status : CallStatus; cl_response : option json; cl_response_hash : option string;
  cl_usage_estimated : bool; cl_error_code : option string; cl_created_at : string;
  cl_completed_at : option string; cl_resource_pool : string;
  cl_resource_group_id : option string;
}.
Record AttemptRecord := {
  at_attempt_id : string; at_call_id : string; at_subject_id : string; at_budget_day : string;
  at_attempt_number : Z; at_status : AttemptStatus; at_reserved_input_tokens : Z;
  at_reserved_output_tokens : Z; at_reserved_cost_microusd : Z; at_input_tokens : option Z;
  at_output_tokens : option Z; at_cost_microusd : option Z;
  at_provider_request_id : option string; at_error_code : option string;
  at_started_at : option string; at_completed_at : option string;
}.
Record ModelUsage := { input_tokens : Z; output_tokens : Z }.
Record ModelPricing := { input_microusd_per_million : Z; output_microusd_per_million : Z }.
Record BudgetStatus := {
  bs_budget_day : string; bs_attempts : Z; bs_input_tokens : Z; bs_output_tokens : Z;
  bs_cost_microusd : Z; bs_limits : BudgetLimits;
}.
(** The arguments of [prepare_call]. *)
Record call_request := {
  cq_subject_id : string; cq_provider : string; cq_model : string; cq_purpose : string;
  cq_request_hash : string; cq_idempotency_key : string; cq_resource_pool : string;
  cq_resource_group_id : option string; cq_request : option (list (string * json));
  cq_enforce_training_policy : bool;
}.
(** The arguments of [authorize_attempt] after the call. *)
Record attempt_request := {
  aq_limits : BudgetLimits; aq_reserved_input_tokens : Z; aq_reserved_output_tokens : Z;
  aq_reserved_cost_microusd : Z; aq_budget_day : option string;
  aq_resource_group_id : option string; aq_pool_limits : option BudgetLimits;
  aq_continuation : bool; aq_expected_resource_revision : option Z;
  aq_refresh_pool_limits : bool; aq_resource_key_id : option string;
  aq_resource_key_fingerprint : option string; aq_pricing : option ModelPricing;
}.

(** [purpose.rpartition(":")[0]]. *)
Fixpoint rpartition_head (s : string) : string :=
  match s with
  | EmptyString => EmptyString
  | String c t =>
      if str_forallb (λ x, negb (code x =? 58)%N) t then EmptyString
      else String c (rpartition_head t)
  end.

(** [SELECT * FROM cognitive_resource_groups WHERE ...] in the order of the
    table. *)
Definition pool_groups (subject_id pool : string) (r : resource_tables) : list group_row :=
  select (λ g, (rg_subject_id g == subject_id) && (rg_pool g == pool) && (rg_status g == "active"))
    (resource_groups r).

Section ledger.
Context {Dg : Digest} {Ho : Host} {De : Deflate} {En : Endpoints}.

(** ** Reading rows *)

Definition call_error (msg : string) (row : call_row) : exn :=
  IntegrityError (msg +:+ ": " +:+ mc_call_id row).
(** The response of a call: [None] when there is none, and for the JSON text
    [null]. *)
Definition call_response (row : call_row) : result (option json) :=
  match decompress_text (mc_response_json row) with
  | Raise e => Raise e
  | Ok None | Ok (Some EmptyString) => Ok None
  | Ok (Some text) =>
      match strict_json_loads text with
      | Ok JNull => Ok None
      | Ok v => Ok (Some v)
      | Raise _ => Raise (call_error "model response payload is invalid" row)
      end
  end.
Definition _call_from_row (row : call_row) : result CallRecord :=
  if existsb blank [mc_provider row; mc_model row; mc_purpose row; mc_request_hash row;
                    mc_idempotency_key row]
  then Raise (call_error "model call metadata is invalid" row)
  else if negb (in_set (mc_resource_pool row) ["economy"; "deep"])
  then Raise (call_error "model call resource pool is invalid" row)
  else if match mc_capture_policy_version row with Some v => v <? 1 | None => false end
  then Raise (call_error "model call capture policy version is invalid" row)
  else
    response ← call_response row;
    if negb (Bool.eqb (bool_decide (response = None)) (bool_decide (mc_response_hash row = None)))
    then Raise (call_error "model response metadata mismatch" row)
    else if match response with
            | Some (JObj m) => negb (bool_decide (Some (content_hash (JObj m))
                                                  = mc_response_hash row))
            | Some _ => true
            | None => false
            end
    then Raise (call_error "model response integrity failure" row)
    else if (mc_status row == CallSucceeded) && bool_decide (response = None)
    then Raise (call_error "successful model call has no response" row)
    else if negb (Bool.eqb ((mc_status row == CallPrepared) || (mc_status row == CallExecuting))
                           (bool_decide (mc_completed_at row = None)))
    then Raise (call_error "model call completion state is invalid" row)
    else Ok {| cl_call_id := mc_call_id row; cl_subject_id := mc_subject_id row;
               cl_provider := mc_provider row; cl_model := mc_model row;
               cl_purpose := mc_purpose row; cl_request_hash := mc_request_hash row;
               cl_idempotency_key := mc_idempotency_key row; cl_status := mc_status row;
               cl_response := response; cl_response_hash := mc_response_hash row;
               cl_usage_estimated := mc_usage_estimated row;
               cl_error_code := mc_error_code row; cl_created_at := mc_created_at row;
               cl_completed_at := mc_completed_at row;
               cl_resource_pool := mc_resource_pool row;
               cl_resource_group_id := mc_resource_group_id row |}.

Definition attempt_error (msg : string) (row : attempt_row) : exn :=
  IntegrityError ("model attempt " +:+ msg +:+ " is invalid: " +:+ ma_attempt_id row).
Definition below (minimum : Z) (o : option Z) : bool :=
  match o with Some z => z <? minimum | None => false end.
Definition is_some {A} (o : option A) : bool := match o with Some _ => true | None => false end.
Definition _attempt_from_row (row : attempt_row) : result AttemptRecord :=
  if below 0 (ma_input_tokens row) then Raise (attempt_error "input_tokens" row)
  else if below 0 (ma_output_tokens row) then Raise (attempt_error "output_tokens" row)
  else if below 0 (ma_cost_microusd row) then Raise (attempt_error "cost_microusd" row)
  else
    let i := is_some (ma_input_tokens row) in
    let o := is_some (ma_output_tokens row) in
    let c := is_some (ma_cost_microusd row) in
    let started := is_some (ma_started_at row) in
    let completed := is_some (ma_completed_at row) in
    if negb (Bool.eqb i o && Bool.eqb o c) then Raise (attempt_error "usage state" row)
    else if match ma_status row with
            | Authorized => started || completed || i || o || c
            | AttemptExecuting => negb started || completed || i || o || c
            | AttemptSucceeded | AttemptFailed | AttemptUnknown => negb started || negb completed
            | AttemptCancelled => negb completed
            end
    then Raise (attempt_error "lifecycle" row)
    else if (ma_status row == AttemptSucceeded) && negb (i && o && c)
    then Raise (attempt_error "usage state" row)
    else if ma_attempt_number row <? 1 then Raise (attempt_error "attempt_number" row)
    else if ma_reserved_input_tokens row <? 0
    then Raise (attempt_error "reserved_input_tokens" row)
    else if ma_reserved_output_tokens row <? 0
    then Raise (attempt_error "reserved_output_tokens" row)
    else if ma_reserved_cost_microusd row <? 0
    then Raise (attempt_error "reserved_cost_microusd" row)
    else Ok {| at_attempt_id := ma_attempt_id row; at_call_id := ma_call_id row;
               at_subject_id := ma_subject_id row; at_budget_day := ma_budget_day row;
               at_attempt_number := ma_attempt_number row; at_status := ma_status row;
               at_reserved_input_tokens := ma_reserved_input_tokens row;
               at_reserved_output_tokens := ma_reserved_output_tokens row;
               at_reserved_cost_microusd := ma_reserved_cost_microusd row;
               at_input_tokens := ma_input_tokens row;
               at_output_tokens := ma_output_tokens row;
               at_cost_microusd := ma_cost_microusd row;
               at_provider_request_id := ma_provider_request_id row;
               at_error_code := ma_error_code row; at_started_at := ma_started_at row;
               at_completed_at := ma_completed_at row |}.

Definition call_by_id (call_id : string) (d : model_db) : option call_row :=
  fetchone (λ c, mc_call_id c == call_id) (model_calls d).
Definition _get_call_row (call_id : string) : L call_row :=
  found ← gets (call_by_id call_id);
  lift (of_option (NotFoundError ("model call not found: " +:+ call_id)) found).
Definition attempt_by_id (attempt_id : string) (d : model_db) : option attempt_row :=
  fetchone (λ a, ma_attempt_id a == attempt_id) (model_attempts d).
Definition _get_attempt_row (attempt_id : string) : L attempt_row :=
  found ← gets (attempt_by_id attempt_id);
  lift (of_option (NotFoundError ("model attempt not found: " +:+ attempt_id)) found).
Definition _load_call_connection (call_id : string) : L CallRecord :=
  row ← _get_call_row call_id; lift (_call_from_row row).
Definition _load_attempt_connection (attempt_id : string) : L AttemptRecord :=
  row ← _get_attempt_row attempt_id; lift (_attempt_from_row row).

Definition get_call (call_id : string) : L CallRecord := _load_call_connection call_id.
Fixpoint all_ok {A B} (f : A → result B) (l : list A) : result (list B) :=
  match l with
  | [] => Ok []
  | x :: l => y ← f x; ys ← all_ok f l; Ok (y :: ys)
  end.
Definition by_number (a b : attempt_row) : bool := ma_attempt_number a <=? ma_attempt_number b.
Definition call_attempts (call_id : string) (d : model_db) : list attempt_row :=
  select (λ a, ma_call_id a == call_id) (model_attempts d).
Definition attempts (call_id : string) : L (list AttemptRecord) :=
  rows ← gets (λ d, sort_by by_number (call_attempts call_id d));
  lift (all_ok _attempt_from_row rows).
Definition by_creation (a b : call_row) : bool :=
  if mc_created_at a == mc_created_at b then str_leb (mc_call_id a) (mc_call_id b)
  else str_ltb (mc_created_at a) (mc_created_at b).
Definition unknown_calls (subject_id : string) (limit : Z) : L (list CallRecord) :=
  rows ← gets (λ d, take (Z.to_nat (Z.max 1 (Z.min limit 1000)))
    (sort_by by_creation (select (λ c, (mc_subject_id c == subject_id)
       && (mc_status c == CallUnknown)) (model_calls d))));
  lift (all_ok _call_from_row rows).
End ledger.
