(* ===== verification/ModelLedger.v ===== *)
(** * The model ledger ([ModelLedger] of [src/src/noyra/model/ledger.py])

    A request to a model provider is a _call_ with an idempotency key; every
    time it is sent is an _attempt_.  An attempt is authorized under the
    daily budgets of its resource group and pool, which count what earlier
    attempts used or, until that is known, what they reserved; it is started
    and finished in transactions of their own, so that a process that dies
    in between leaves it executing, and the recovery makes it unknown.  A
    call whose outcome is unknown moves on only by an operator's decision.
    The decision is appended to [audit_records] in the transaction that
    carries it out.  Old payloads are compressed in passes over the calls
    below a horizon, with a cursor kept in [schema_meta]. *)

From S2P Require Import Prelude Tables PyStr Json Digest Time PyDict KernelDb Events Actions.
From S2P Require Import PayloadCodec ModelDb ModelResources.
Local Open Scope Z_scope.

(** ** Budgets *)

(** A [SUM] over non-negative integers overflows when its value does. *)
Definition sql_sum (l : list Z) : result Z :=
  let total := sum_by id l in
  if 2 ^ 63 - 1 <? total then Raise (SqliteError "integer overflow") else Ok total.
(** What an attempt counts as: its usage, or its reservation until then. *)
Definition spent_input (a : attempt_row) : Z :=
  default (ma_reserved_input_tokens a) (ma_input_tokens a).
Definition spent_output (a : attempt_row) : Z :=
  default (ma_reserved_output_tokens a) (ma_output_tokens a).
Definition spent_cost (a : attempt_row) : Z :=
  default (ma_reserved_cost_microusd a) (ma_cost_microusd a).
Definition matches {A} `{!EqDecision A} (o : option A) (x : option A) : bool :=
  match o with None => true | Some _ => bool_decide (x = o) end.
(** The attempts a budget counts. *)
Definition counted (subject_id budget_day : string) (pool group : option string) (d : model_db)
    (a : attempt_row) : bool :=
  (ma_subject_id a == subject_id) && (ma_budget_day a == budget_day)
  && (ma_status a =/= AttemptCancelled)
  && exists_where (λ c, (mc_call_id c == ma_call_id a) && matches pool (Some (mc_resource_pool c))
       && matches group (mc_resource_group_id c)) (model_calls d).

Section ledger.
Context {Dg : Digest} {Ho : Host} {De : Deflate} {En : Endpoints}.

Definition _budget_status_connection (subject_id : string) (limits : BudgetLimits)
    (budget_day : string) (resource_pool resource_group_id : option string) : L BudgetStatus :=
  raise_if (match resource_pool with Some p => negb (in_set p ["economy"; "deep"]) | None => false end)
    (ValueError "model resource pool is invalid") ;;
  rows ← gets (λ d, select (counted subject_id budget_day resource_pool resource_group_id d)
                      (model_attempts d));
  i ← lift (sql_sum (map spent_input rows));
  o ← lift (sql_sum (map spent_output rows));
  c ← lift (sql_sum (map spent_cost rows));
  mret {| bs_budget_day := budget_day; bs_attempts := Z.of_nat (length rows);
          bs_input_tokens := i; bs_output_tokens := o; bs_cost_microusd := c;
          bs_limits := limits |}.
(** [budget_day or utc_now()[:10]]. *)
Definition day_or_today (budget_day : option string) : L string :=
  match budget_day with
  | Some (String _ _ as day) => mret day
  | _ => now ← lutc_now; mret (String.substring 0 10 now)
  end.
Definition budget_status (subject_id : string) (limits : BudgetLimits)
    (budget_day resource_pool resource_group_id : option string) : L BudgetStatus :=
  day ← day_or_today budget_day;
  _budget_status_connection subject_id limits day resource_pool resource_group_id.

(** The amounts a budget is compared with after one more attempt. *)
Definition projected (s : BudgetStatus) (rq : attempt_request) : Z * Z * Z * Z :=
  (bs_attempts s + 1, bs_input_tokens s + aq_reserved_input_tokens rq,
   bs_output_tokens s + aq_reserved_output_tokens rq,
   bs_cost_microusd s + aq_reserved_cost_microusd rq).
(** The first enforced dimension that is exceeded. *)
Definition exceeded (l : BudgetLimits) (p : Z * Z * Z * Z) : option string :=
  let '(a, i, o, c) := p in
  if sw_attempts (enabled l) && (daily_attempts l <? a) then Some "attempts"
  else if sw_input_tokens (enabled l) && (daily_input_tokens l <? i) then Some "input_tokens"
  else if sw_output_tokens (enabled l) && (daily_output_tokens l <? o) then Some "output_tokens"
  else if sw_cost (enabled l) && (daily_cost_microusd l <? c) then Some "cost"
  else None.

(** ** Preparing a call *)

Definition same_call (row : call_row) (rq : call_request) : bool :=
  (mc_provider row == cq_provider rq) && (mc_model row == cq_model rq)
  && (mc_purpose row == cq_purpose rq) && (mc_request_hash row == cq_request_hash rq)
  && (mc_resource_pool row == cq_resource_pool rq)
  && bool_decide (mc_resource_group_id row = cq_resource_group_id rq).
(** The captured request and the policy version it was captured under. *)
Definition captured (rq : call_request) (d : model_db) : option string * option Z :=
  let text := canonical_json ∘ JObj <$> cq_request rq in
  if cq_enforce_training_policy rq then
    match fetchone (λ p, tp_subject_id p == cq_subject_id rq) (training_policies (base d)) with
    | Some p => (if tp_include_model_io p then text else None, Some (tp_policy_version p))
    | None => (None, None)
    end
  else (text, None).
Definition prepare_call (scope : input_scope) (rq : call_request) : L (CallRecord * bool) :=
  raise_if (existsb blank [cq_provider rq; cq_model rq; cq_purpose rq; cq_request_hash rq;
                           cq_idempotency_key rq])
    (ValueError "model call metadata cannot be blank") ;;
  raise_if (negb (in_set (cq_resource_pool rq) ["economy"; "deep"]))
    (ValueError "model resource pool is invalid") ;;
  guarded scope (
    d ← gets id;
    let '(request_json, capture_policy_version) := captured rq d in
    match fetchone (λ c, (mc_subject_id c == cq_subject_id rq)
            && (mc_idempotency_key c == cq_idempotency_key rq)) (model_calls d) with
    | Some existing =>
        raise_if (negb (same_call existing rq))
          (ModelCallConflictError "idempotency key already identifies a different model call") ;;
        record_private_sources scope (cq_subject_id rq) (mc_call_id existing) ;;
        r ← lift (_call_from_row existing);
        mret (r, false)
    | None =>
        in_base (require_evidence_capacity (cq_subject_id rq) "model_calls") ;;
        call_id ← lnew_id "mcall";
        now ← lutc_now;
        insert_call
          {| mc_call_id := call_id; mc_subject_id := cq_subject_id rq;
             mc_provider := cq_provider rq; mc_model := cq_model rq;
             mc_purpose := cq_purpose rq; mc_request_hash := cq_request_hash rq;
             mc_idempotency_key := cq_idempotency_key rq; mc_status := CallPrepared;
             mc_response_json := None; mc_response_hash := None; mc_usage_estimated := false;
             mc_error_code := None; mc_created_at := now; mc_completed_at := None;
             mc_resource_pool := cq_resource_pool rq;
             mc_resource_group_id := cq_resource_group_id rq; mc_request_json := request_json;
             mc_capture_policy_version := capture_policy_version |} ;;
        record_private_sources scope (cq_subject_id rq) call_id ;;
        r ← _load_call_connection call_id;
        mret (r, true)
    end).

(** ** Authorization *)

Definition _check_key (call : call_row) (key_id fingerprint : option string) : L unit :=
  match key_id with
  | None => mret tt
  | Some key_id =>
      r ← gets resources;
      match fetchone (λ k, (rk_key_id k == key_id) && (rk_subject_id k == mc_subject_id call)
              && bool_decide (Some (rk_group_id k) = mc_resource_group_id call)) (resource_keys r)
      with
      | None => raise (ModelAuthorizationError "model credential authorization changed")
      | Some k =>
          raise_if ((rk_status k == "revoked")
                    || negb (bool_decide (Some (rk_key_fingerprint k) = fingerprint)))
            (ModelAuthorizationError "model credential authorization changed") ;;
          _ ← lift (_from_key_row k);
          mret tt
      end
  end.
Definition _check_lifecycle (subject_id purpose : string) : L unit :=
  d ← gets id;
  match fetchone (λ r, rs_subject_id r == subject_id) (runtime_states (base d)) with
  | None => mret tt
  | Some r =>
      let allowed := if starts_with "sleep_reflection:" purpose then ReflectiveSleep else Active in
      raise_if (rs_state r =/= allowed)
        (ModelLifecycleBlockedError (lifecycle_text (rs_state r)))
  end.
Definition check_lifecycle (subject_id purpose : string) : L unit :=
  _check_lifecycle subject_id purpose.

(** [except InvitationWithdrawnError as error: raise ModelAuthorizationError]. *)
Definition withdrawn_as_denied (e : exn) : exn :=
  match e with
  | InvitationWithdrawnError _ =>
      ModelAuthorizationError "participant invitation has been withdrawn"
  | e => e
  end.
Definition cognition_prefix : string := "interaction_cognition:".
Definition _check_request (scope : input_scope) (call_id : string)
    (key_id fingerprint : option string) (revision : option Z) : L unit :=
  rethrow withdrawn_as_denied (assert_private_inputs_available scope) ;;
  call ← _get_call_row call_id;
  _check_lifecycle (mc_subject_id call) (mc_purpose call) ;;
  d ← gets id;
  raise_if (match strip_prefix cognition_prefix (mc_purpose call) with
            | Some rest => participant_invitation_withdrawn (mc_subject_id call)
                             (rpartition_head rest) d
            | None => false
            end)
    (ModelAuthorizationError "participant invitation has been withdrawn") ;;
  raise_if (withdrawn_source call_id d)
    (ModelAuthorizationError "private source has been withdrawn") ;;
  _check_key call key_id fingerprint ;;
  match revision with
  | None => mret tt
  | Some revision =>
      group ← lift (of_option (ModelAuthorizationError "model resource is unavailable")
                (own_group (mc_subject_id call) (mc_resource_group_id call) (resources d)));
      current ← _from_group_row group;
      raise_if ((rg_status (grp_row current) =/= "active")
                || negb (grp_limit_revision current =? revision))
        (ModelAuthorizationError "model resource authorization changed")
  end.
Definition check_request_authorization (scope : input_scope) (call_id : string)
    (key_id fingerprint : option string) (revision : option Z) : L unit :=
  read_transaction (_check_request scope call_id key_id fingerprint revision).

(** [price_evidence]. *)
Record price_evidence := {
  pe_status : string; pe_basis : string; pe_resource : option (string * Z);
  pe_input : option Z; pe_output : option Z;
}.
Definition JOptInt (o : option Z) : json := match o with Some z => JInt z | None => JNull end.
Definition price_json (p : price_evidence) : json :=
  JObj ([("version", JInt 1); ("status", JStr (pe_status p)); ("basis", JStr (pe_basis p));
         ("input_microusd_per_million", JOptInt (pe_input p));
         ("output_microusd_per_million", JOptInt (pe_output p))]
        ++ match pe_resource p with
           | Some (g, r) => [("resource_group_id", JStr g); ("revision", JInt r)]
           | None => []
           end).
Definition truthy (o : option Z) : bool := match o with Some z => negb (z =? 0) | None => false end.
Definition gateway_price (pricing : option ModelPricing) : price_evidence :=
  let i := input_microusd_per_million <$> pricing in
  let o := output_microusd_per_million <$> pricing in
  if truthy i || truthy o
  then {| pe_status := "priced"; pe_basis := "gateway_configuration"; pe_resource := None;
          pe_input := i; pe_output := o |}
  else {| pe_status := "unknown"; pe_basis := "unconfigured"; pe_resource := None;
          pe_input := i; pe_output := o |}.
Definition group_price (g : CognitiveResourceGroupRecord) : price_evidence :=
  {| pe_status := grp_pricing_status g; pe_basis := "resource_revision";
     pe_resource := Some (rg_group_id (grp_row g), grp_limit_revision g);
     pe_input := Some (rg_input_microusd_per_million (grp_row g));
     pe_output := Some (rg_output_microusd_per_million (grp_row g)) |}.
Definition price_known (p : price_evidence) : bool :=
  (pe_status p == "free") || truthy (pe_input p) || truthy (pe_output p).
Definition cost_only (l : BudgetLimits) : bool :=
  bool_decide (enabled l = {| sw_attempts := false; sw_input_tokens := false;
                              sw_output_tokens := false; sw_cost := true |}).

(** The limits and the price an existing group imposes. *)
Definition group_limits (call : call_row) (rq : attempt_request) (row : group_row)
    : L (BudgetLimits * option BudgetLimits * price_evidence) :=
  group ← _from_group_row row;
  raise_if (match aq_pricing rq with
            | Some p => negb ((input_microusd_per_million p
                               =? rg_input_microusd_per_million (grp_row group))
                              && (output_microusd_per_million p
                                  =? rg_output_microusd_per_million (grp_row group)))
            | None => false
            end) (ModelAuthorizationError "model pricing changed before authorization") ;;
  raise_if (rg_status (grp_row group) =/= "active")
    (ModelAuthorizationError "model resource is not active") ;;
  raise_if (match aq_expected_resource_revision rq with
            | Some r => negb (grp_limit_revision group =? r)
            | None => false
            end) (ModelAuthorizationError "model resource changed before authorization") ;;
  pool ← match aq_pool_limits rq with
         | Some _ =>
             if aq_refresh_pool_limits rq then
               rows ← gets (λ d, pool_groups (mc_subject_id call) (mc_resource_pool call)
                                   (resources d));
               gs ← read_groups rows;
               mret (Some (pool_limits_of gs))
             else mret (aq_pool_limits rq)
         | None => mret None
         end;
  mret (_limits_for_group group, pool, group_price group).

(** The newest attempt of a call. *)
Definition latest_attempt (call_id : string) (d : model_db) : option attempt_row :=
  head (sort_by (λ a b, ma_attempt_number b <=? ma_attempt_number a) (call_attempts call_id d)).
Definition active_status (s : AttemptStatus) : bool := (s == Authorized) || (s == AttemptExecuting).
Definition check_call_state (call : call_row) (continuation : bool) : L unit :=
  d ← gets id;
  if (mc_status call == CallExecuting) && continuation then
    raise_if (match latest_attempt (mc_call_id call) d with
              | Some a => active_status (ma_status a)
              | None => true
              end) (ModelCallStateError "cannot continue a model call with an active attempt")
  else raise_if (mc_status call =/= CallPrepared)
         (ModelCallStateError ("cannot authorize attempt for call in state "
                               +:+ call_status_text (mc_status call))).

(** The budget of the group, then that of the pool. *)
Definition check_budgets (call : call_row) (rq : attempt_request) (budget_day : string)
    (limits : BudgetLimits) (pool_limits : option BudgetLimits) : L unit :=
  status ← _budget_status_connection (mc_subject_id call) limits budget_day
             (Some (mc_resource_pool call)) (mc_resource_group_id call);
  match exceeded limits (projected status rq) with
  | Some name => raise (BudgetExhaustedError ("daily model " +:+ name +:+ " budget exhausted"))
  | None => mret tt
  end ;;
  match pool_limits with
  | None => mret tt
  | Some pool_limits =>
      pool_status ← _budget_status_connection (mc_subject_id call) pool_limits budget_day
                      (Some (mc_resource_pool call)) None;
      raise_if (is_some (exceeded pool_limits (projected pool_status rq)))
        (BudgetExhaustedError "daily model pool budget exhausted")
  end.

Definition authorize_attempt (scope : input_scope) (call_id : string) (rq : attempt_request)
    : L AttemptRecord :=
  raise_if ((aq_reserved_input_tokens rq <? 0) || (aq_reserved_output_tokens rq <? 0)
            || (aq_reserved_cost_microusd rq <? 0))
    (ValueError "model attempt reservations cannot be negative") ;;
  budget_day ← day_or_today (aq_budget_day rq);
  guarded scope (
    call ← _get_call_row call_id;
    check_call_state call (aq_continuation rq) ;;
    _check_request scope call_id (aq_resource_key_id rq) (aq_resource_key_fingerprint rq)
      (aq_expected_resource_revision rq) ;;
    raise_if (is_some (aq_resource_group_id rq)
              && negb (bool_decide (aq_resource_group_id rq = mc_resource_group_id call)))
      (ModelCallStateError "model attempt resource group does not match its call") ;;
    d ← gets id;
    let group := own_group (mc_subject_id call) (mc_resource_group_id call) (resources d) in
    raise_if (is_some (aq_expected_resource_revision rq) && negb (is_some group))
      (ModelAuthorizationError "model resource is unavailable") ;;
    limited ← match group with
              | Some row => group_limits call rq row
              | None => mret (aq_limits rq, aq_pool_limits rq, gateway_price (aq_pricing rq))
              end;
    let '(limits, pool_limits, price) := limited in
    raise_if (negb (price_known price)
              && (cost_only limits || match pool_limits with
                                      | Some l => cost_only l
                                      | None => false
                                      end))
      (BudgetExhaustedError "cost_only_pricing_unknown") ;;
    check_budgets call rq budget_day limits pool_limits ;;
    attempt_number ← gets (λ d, Z.of_nat (length (call_attempts call_id d)) + 1);
    in_base (require_evidence_capacity (mc_subject_id call) "model_attempts") ;;
    attempt_id ← lnew_id "matt";
    insert_attempt
      {| ma_attempt_id := attempt_id; ma_call_id := call_id;
         ma_subject_id := mc_subject_id call; ma_budget_day := budget_day;
         ma_attempt_number := attempt_number; ma_status := Authorized;
         ma_reserved_input_tokens := aq_reserved_input_tokens rq;
         ma_reserved_output_tokens := aq_reserved_output_tokens rq;
         ma_reserved_cost_microusd := aq_reserved_cost_microusd rq; ma_input_tokens := None;
         ma_output_tokens := None; ma_cost_microusd := None; ma_provider_request_id := None;
         ma_error_code := None; ma_started_at := None; ma_completed_at := None;
         ma_usage_source := UsageUnknown;
         ma_pricing_snapshot_json := Some (canonical_json (price_json price)) |} ;;
    update_call call_id (λ r, call_moved CallExecuting None (mc_completed_at r) r) ;;
    _load_attempt_connection attempt_id).

(** ** Attempts *)

Definition cancel_unsent_attempt (attempt_id error_code : string) : L unit :=
  accounting (
    row ← _get_attempt_row attempt_id;
    raise_if (negb (active_status (ma_status row)))
      (ModelCallStateError "cannot cancel a terminal model attempt") ;;
    now ← lutc_now;
    update_attempts (λ a, ma_attempt_id a == attempt_id)
      (attempt_closed AttemptCancelled error_code now)).
Definition start_attempt (scope : input_scope) (attempt_id : string)
    (key_id fingerprint : option string) (revision : option Z) : L AttemptRecord :=
  guarded scope (
    row ← _get_attempt_row attempt_id;
    _check_request scope (ma_call_id row) key_id fingerprint revision ;;
    d ← gets id;
    raise_if (withdrawn_source (ma_call_id row) d)
      (ModelAuthorizationError "private source has been withdrawn") ;;
    raise_if (ma_status row =/= Authorized)
      (ModelCallStateError ("cannot start model attempt in state "
                            +:+ attempt_status_text (ma_status row))) ;;
    now ← lutc_now;
    update_attempts (λ a, ma_attempt_id a == attempt_id) (attempt_started now) ;;
    _load_attempt_connection attempt_id).
Definition finish_attempt (attempt_id : string) (status : AttemptStatus)
    (usage : option ModelUsage) (cost_microusd : option Z)
    (provider_request_id error_code : option string) (usage_estimated : bool)
    : L AttemptRecord :=
  raise_if (negb (bool_decide (status ∈ [AttemptSucceeded; AttemptFailed; AttemptUnknown])))
    (ValueError ("invalid model attempt completion status: " +:+ attempt_status_text status)) ;;
  raise_if (below 0 cost_microusd) (ValueError "model attempt cost cannot be negative") ;;
  raise_if (negb (Bool.eqb (is_some usage) (is_some cost_microusd)))
    (ValueError "usage and cost must both be known or both be unknown") ;;
  accounting (
    row ← _get_attempt_row attempt_id;
    raise_if (ma_status row =/= AttemptExecuting)
      (ModelCallStateError ("cannot finish model attempt in state "
                            +:+ attempt_status_text (ma_status row))) ;;
    now ← lutc_now;
    let amounts := match usage, cost_microusd with
                   | Some u, Some c => Some (input_tokens u, output_tokens u, c)
                   | _, _ => None
                   end in
    match amounts with
    | Some (i, o, c) =>
        bind_int i ;; bind_int o ;; bind_int c ;;
        lconstraint ((0 <=? i) && (0 <=? o) && (0 <=? c)) "CHECK constraint failed"
    | None => mret tt
    end ;;
    update_attempts (λ a, ma_attempt_id a == attempt_id) 
      (attempt_finished status amounts provider_request_id error_code now
        (match usage with
         | None => UsageUnknown
         | Some _ => if usage_estimated then UsageEstimated else UsageProvider
         end)) ;;
    _load_attempt_connection attempt_id).

(** ** Finishing a call *)

Definition finish_call (call_id : string) (status : CallStatus)
    (response : option (list (string * json))) (usage_estimated : bool)
    (error_code : option string) : L CallRecord :=
  raise_if (negb (bool_decide (status ∈ [CallSucceeded; CallFailed; CallUnknown])))
    (ValueError ("invalid model call completion status: " +:+ call_status_text status)) ;;
  raise_if ((status == CallSucceeded) && negb (is_some response))
    (ValueError "successful model call requires a response") ;;
  accounting (
    row ← _get_call_row call_id;
    d ← gets id;
    let withdrawn := withdrawn_source call_id d in
    let response := if withdrawn then Some ERASED_MODEL else JObj <$> response in
    let error_code := if withdrawn then Some "private_content_erased"%string else error_code in
    raise_if (negb ((mc_status row == CallExecuting)
                    || ((status == CallFailed) && (mc_status row == CallPrepared))))
      (ModelCallStateError ("cannot finish model call in state "
                            +:+ call_status_text (mc_status row))) ;;
    now ← lutc_now;
    update_call call_id (λ r, call_set status (canonical_json <$> response)
      (content_hash <$> response) usage_estimated error_code (Some now) (mc_request_json r) r) ;;
    _load_call_connection call_id).
End ledger.

(** ** Recovery, operator decisions and cold payloads *)

(** [datetime.now(UTC) - timedelta(days)] printed in milliseconds. *)
Class Calendar := { days_before : nat → Z → result string }.

Section retry.
Context {Dg : Digest} {Ho : Host} {De : Deflate}.

(** ** Recovery *)

Definition ambiguous (a : attempt_row) : bool :=
  (ma_status a == AttemptSucceeded) || (ma_status a == AttemptUnknown).
Definition interrupted_call (now : string) (uncertain : bool) (r : call_row) : call_row :=
  if uncertain then call_moved CallUnknown (Some "interrupted_model_call"%string) (Some now) r
  else call_moved CallFailed (Some "interrupted_before_attempt"%string) (Some now) r.
Fixpoint recover_calls (now : string) (rows : list call_row) : L (list CallRecord) :=
  match rows with
  | [] => mret []
  | row :: rows =>
      uncertain ← gets (λ d, exists_where ambiguous (call_attempts (mc_call_id row) d));
      update_call (mc_call_id row) (interrupted_call now uncertain) ;;
      r ← _load_call_connection (mc_call_id row);
      rs ← recover_calls now rows;
      mret (r :: rs)
  end.
Definition open_call (subject_id : string) (c : call_row) : bool :=
  (mc_subject_id c == subject_id)
  && ((mc_status c == CallPrepared) || (mc_status c == CallExecuting)).
Definition recover_interrupted (scope : input_scope) (subject_id : string)
    : L (list CallRecord) :=
  now ← lutc_now;
  guarded scope (
    update_attempts (λ a, (ma_subject_id a == subject_id) && (ma_status a == Authorized))
      (attempt_closed AttemptCancelled "interrupted_before_send" now) ;;
    update_attempts (λ a, (ma_subject_id a == subject_id) && (ma_status a == AttemptExecuting))
      (attempt_closed AttemptUnknown "interrupted_during_request" now) ;;
    rows ← gets (λ d, select (open_call subject_id) (model_calls d));
    recover_calls now rows).

(** ** Decisions of an operator *)

(** [not actor.strip() or actor.strip().casefold() == "subject"]. *)
Definition no_operator (actor : string) : bool :=
  blank actor || (lower (strip actor) == "subject").
(** An audit record about a call. *)
Definition audited (action call_id : string) (r : kaudit_row) : bool :=
  (ka_action r == action) && bool_decide (json_extract "call_id" (ka_payload_json r) = Some call_id).
Definition has_audit (subject_id action call_id : string) (d : model_db) : bool :=
  exists_where (λ r, (ka_subject_id r == subject_id) && audited action call_id r)
    (kaudits (base d)).

Definition prepare_unknown_retry (scope : input_scope) (call_id actor reason : string)
    : L CallRecord :=
  raise_if (no_operator actor || blank reason)
    (ValueError "unknown retry requires actor and reason") ;;
  now ← lutc_now;
  guarded scope (
    row ← _get_call_row call_id;
    raise_if (mc_status row =/= CallUnknown)
      (ModelCallStateError "only unknown model calls can be retried") ;;
    update_call call_id (call_moved CallPrepared None None) ;;
    insert_audit (mc_subject_id row) "model_unknown_retry_authorized" actor
      (JObj [("call_id", JStr call_id); ("reason", JStr reason)]) now ;;
    _load_call_connection call_id).

Definition reconcile_unknown (call_id : string) (outcome : CallStatus) (actor reason : string)
    (response : option (list (string * json))) : L CallRecord :=
  raise_if (negb (bool_decide (outcome ∈ [CallSucceeded; CallFailed])))
    (ValueError "unknown reconciliation outcome must be succeeded or failed") ;;
  raise_if (blank actor || blank reason)
    (ValueError "unknown reconciliation requires actor and reason") ;;
  raise_if ((outcome == CallSucceeded) && negb (is_some response))
    (ValueError "successful reconciliation requires provider response evidence") ;;
  now ← lutc_now;
  accounting (
    row ← _get_call_row call_id;
    raise_if (mc_status row =/= CallUnknown)
      (ModelCallStateError "only unknown model calls can be reconciled") ;;
    d ← gets id;
    let withdrawn := withdrawn_source call_id d in
    let response := if withdrawn then Some ERASED_MODEL else JObj <$> response in
    let reason := if withdrawn then "private content erased"%string else reason in
    let error_code :=
      if withdrawn then Some "private_content_erased"%string
      else if outcome == CallSucceeded then None
      else Some "operator_reconciled_failed"%string in
    update_call call_id (λ r, call_set outcome (canonical_json <$> response)
      (content_hash <$> response) (mc_usage_estimated r) error_code (Some now)
      (mc_request_json r) r) ;;
    insert_audit (mc_subject_id row) "model_unknown_reconciled" actor
      (JObj [("call_id", JStr call_id); ("outcome", JStr (call_status_text outcome));
             ("reason", JStr reason)]) now ;;
    _load_call_connection call_id).

Definition reconcile_prepared_failed (scope : input_scope) (call_id actor reason : string)
    : L CallRecord :=
  raise_if (no_operator actor || blank reason)
    (ValueError "prepared call reconciliation requires actor and reason") ;;
  now ← lutc_now;
  guarded scope (
    row ← _get_call_row call_id;
    raise_if (mc_status row =/= CallPrepared)
      (ModelCallStateError "only prepared model calls can be failed") ;;
    authorized ← gets (has_audit (mc_subject_id row) "model_unknown_retry_authorized" call_id);
    update_call call_id (call_moved CallFailed (Some "operator_cancelled"%string) (Some now)) ;;
    (if authorized : bool
     then insert_audit (mc_subject_id row) "model_unknown_retry_cancelled" actor
            (JObj [("call_id", JStr call_id); ("reason", JStr reason)]) now
     else mret tt) ;;
    _load_call_connection call_id).

Definition close_failed_unknown_retry (scope : input_scope) (call_id actor reason : string)
    (resolution_evidence : option string) (accept_duplicate_risk : bool) : L bool :=
  raise_if (no_operator actor || blank reason)
    (ValueError "retry reconciliation requires actor and reason") ;;
  now ← lutc_now;
  guarded scope (
    row ← _get_call_row call_id;
    raise_if (mc_status row =/= CallFailed)
      (ModelCallStateError "only failed model calls can close a retry grant") ;;
    d ← gets id;
    if negb (has_audit (mc_subject_id row) "model_unknown_retry_authorized" call_id d)
    then mret false
    else if has_audit (mc_subject_id row) "model_unknown_retry_closed" call_id d
            || has_audit (mc_subject_id row) "model_unknown_retry_cancelled" call_id d
    then mret false
    else match resolution_evidence with
         | Some evidence =>
             raise_if (blank evidence || (1024 <? len evidence) || negb accept_duplicate_risk)
               (UnknownRetryResolutionEvidenceRequired "closing an ambiguous retry requires provider evidence and explicit risk acceptance") ;;
             insert_audit (mc_subject_id row) "model_unknown_retry_closed" actor
               (JObj [("call_id", JStr call_id); ("reason", JStr reason);
                      ("resolution_evidence_hash",
                       JStr (content_hash (JObj [("evidence", JStr (strip evidence))])));
                      ("duplicate_risk_accepted", JBool true)]) now ;;
             mret true
         | None =>
             raise (UnknownRetryResolutionEvidenceRequired "closing an ambiguous retry requires provider evidence and explicit risk acceptance")
         end).

Definition quarantine_prepared_context (scope : input_scope) (subject_id purpose : string)
    : L unit :=
  guarded scope (
    rows ← gets (λ d, select (λ c, (mc_subject_id c == subject_id) && (mc_purpose c == purpose)
                               && (mc_status c == CallPrepared)) (model_calls d));
    for_each (λ row,
      found ← gets (has_audit subject_id "model_request_context_conflict" (mc_call_id row));
      if found : bool then mret tt
      else
        now ← lutc_now;
        insert_audit subject_id "model_request_context_conflict" "runtime"
          (JObj [("call_id", JStr (mc_call_id row)); ("purpose", JStr purpose);
                 ("reason", JStr "prepared_request_context_changed")]) now) rows).

(** ** Cold payloads *)

Context {Ca : Calendar}.

(** [(created_at, call_id)], compared as SQL row values and Python lists. *)
Abbreviation position := (string * string)%type.
Definition pos_ltb (a b : position) : bool :=
  str_ltb a.1 b.1 || ((a.1 == b.1) && str_ltb a.2 b.2).
Definition call_position (c : call_row) : position := (mc_created_at c, mc_call_id c).
Record progress := { pr_last : position; pr_horizon : position }.
Definition position_json (p : position) : json := JList [JStr p.1; JStr p.2].
Definition progress_json (p : progress) : json :=
  JObj [("last", position_json (pr_last p)); ("horizon", position_json (pr_horizon p))].
Definition position_of (v : option json) : option position :=
  match v with Some (JList [JStr a; JStr b]) => Some (a, b) | _ => None end.
(** What a stored cursor says; anything else starts a new pass. *)
Definition stored_progress (value : option string) : option progress :=
  match strict_json_loads <$> value with
  | Some (Ok (JObj m)) =>
      if forallb (λ k, in_set k ["last"; "horizon"]) (map fst m) then
        l ← position_of (dict_get "last" m);
        h ← position_of (dict_get "horizon" m);
        Some {| pr_last := l; pr_horizon := h |}
      else None
  | _ => None
  end.
Definition cursor_key (subject_id : string) (older_than_days : Z) : string :=
  "model_compaction:" +:+ subject_id +:+ ":" +:+ show_Z older_than_days.
(** [ORDER BY created_at DESC, call_id DESC LIMIT 1]. *)
Definition horizon_of (subject_id cutoff : string) (d : model_db) : option position :=
  call_position <$> head (sort_by (λ a b, negb (pos_ltb (call_position a) (call_position b)))
    (select (λ c, (mc_subject_id c == subject_id) && str_ltb (mc_created_at c) cutoff)
      (model_calls d))).
Definition cold (subject_id cutoff : string) (p : progress) (c : call_row) : bool :=
  (mc_subject_id c == subject_id)
  && bool_decide (mc_status c ∈ [CallSucceeded; CallFailed; CallUnknown])
  && str_ltb (mc_created_at c) cutoff
  && (is_some (mc_request_json c) || is_some (mc_response_json c))
  && pos_ltb (pr_last p) (call_position c) && negb (pos_ltb (pr_horizon p) (call_position c)).
Definition cold_batch (subject_id cutoff : string) (p : progress) (n : nat) (d : model_db)
    : list call_row :=
  take n (sort_by (λ a b, negb (pos_ltb (call_position b) (call_position a)))
    (select (cold subject_id cutoff p) (model_calls d))).
(** [compress_text(value) if value else None]. *)
Definition compress_column (value : option string) : option string :=
  match value with None | Some EmptyString => None | Some v => Some (compress_text v) end.
Fixpoint compress_rows (rows : list call_row) : L Z :=
  match rows with
  | [] => mret 0
  | row :: rows =>
      if bool_decide (compress_column (mc_request_json row) = mc_request_json row)
         && bool_decide (compress_column (mc_response_json row) = mc_response_json row)
      then compress_rows rows
      else
        update_call (mc_call_id row) (λ r,
          call_set (mc_status r) (compress_column (mc_response_json row)) (mc_response_hash r)
            (mc_usage_estimated r) (mc_error_code r) (mc_completed_at r)
            (compress_column (mc_request_json row)) r) ;;
        changed ← compress_rows rows;
        mret (changed + 1)
  end.
Definition compress_cold_payloads (scope : input_scope) (subject_id : string)
    (older_than_days limit : Z) : L Z :=
  raise_if (older_than_days <? 1)
    (ValueError "model payload retention must be at least one day") ;;
  cutoff ← (t ← read_clock (λ n, days_before n older_than_days); lift t);
  let bounded := Z.max 1 (Z.min limit 2000) in
  guarded scope (
    let key := cursor_key subject_id older_than_days in
    d ← gets id;
    let p := match stored_progress (meta_get key d) with
             | Some p => Some p
             | None => (λ h, {| pr_last := (EmptyString, EmptyString); pr_horizon := h |})
                         <$> horizon_of subject_id cutoff d
             end in
    match p with
    | None => mret 0
    | Some p =>
        let rows := cold_batch subject_id cutoff p (Z.to_nat bounded) d in
        changed ← compress_rows rows;
        let reached := match last rows with
                       | Some r => call_position r
                       | None => pr_last p
                       end in
        (if (Z.of_nat (length rows) <? bounded) || negb (pos_ltb reached (pr_horizon p))
         then meta_delete key
         else meta_replace key (canonical_json (progress_json
                {| pr_last := reached; pr_horizon := pr_horizon p |}))) ;;
        mret changed
    end).
End retry.
