(* ===== verification/Snapshots.v ===== *)
(** * State snapshots ([SnapshotStore] of [src/src/noyra/core/snapshots.py])

    Saving a snapshot, and the compaction that moves all but the newest
    ones, batch by batch, into compressed archives: the first state of a
    batch in full, the others as changes to the state before.  A batch is
    read outside of a write transaction and published by one that first
    compares every row with what was read.

    The tables are those of [core/schema/base.py],
    [core/schema/migrations_v022_v034.py] and [migrations_v002_v005.py]
    beside the kernel's.  [sleep_checkpoints] is the column
    [sleep_runs.checkpoint_id]: the sleep engine refers to the snapshot of
    each deep sleep and never drops the reference.  [PRAGMA foreign_keys =
    ON] holds for every connection, so that a referenced snapshot cannot be
    deleted. *)

From S2P Require Import Prelude Tables PyStr Json Digest Time Base64 PyDict KernelDb Events.
Local Open Scope Z_scope.

Record identity_row := {
  id_subject_id : string; id_project_name : string; id_genesis_hash : string;
  id_personal_name : option string; id_identity_status : string; id_created_at : string;
  id_updated_at : string; id_state_version : Z; id_model_name : option string;
  id_last_checkpoint : option string; id_origin_subject_id : option string;
  id_branch_reason : option string;
}.
Record state_snapshot_row := {
  ss_snapshot_id : string; ss_subject_id : string; ss_state_version : Z; ss_state_json : string;
  ss_state_hash : string; ss_reason : string; ss_created_at : string;
}.
#[global] Instance state_snapshot_row_eq_dec : EqDecision state_snapshot_row.
Proof. solve_decision. Defined.
Record snapshot_archive_row := {
  sa_archive_id : string; sa_subject_id : string; sa_first_version : Z; sa_last_version : Z;
  sa_snapshot_count : Z; sa_compressed_payload : string; sa_payload_hash : string;
  sa_compressed_hash : string; sa_created_at : string;
}.
Record core_db := {
  kernel : kernel_db;
  identities : list identity_row;
  storage_keys : list (string * string);
  state_snapshots : list state_snapshot_row;
  snapshot_archives : list snapshot_archive_row;
  sleep_checkpoints : list string;
}.
Definition set_kernel (k : kernel_db) (d : core_db) : core_db :=
  {| kernel := k; identities := identities d; storage_keys := storage_keys d;
     state_snapshots := state_snapshots d; snapshot_archives := snapshot_archives d;
     sleep_checkpoints := sleep_checkpoints d |}.
Definition set_identities (f : list identity_row → list identity_row) (d : core_db) : core_db :=
  {| kernel := kernel d; identities := f (identities d); storage_keys := storage_keys d;
     state_snapshots := state_snapshots d; snapshot_archives := snapshot_archives d;
     sleep_checkpoints := sleep_checkpoints d |}.
Definition set_storage_keys (f : list (string * string) → list (string * string)) (d : core_db)
    : core_db :=
  {| kernel := kernel d; identities := identities d; storage_keys := f (storage_keys d);
     state_snapshots := state_snapshots d; snapshot_archives := snapshot_archives d;
     sleep_checkpoints := sleep_checkpoints d |}.
Definition set_state_snapshots (f : list state_snapshot_row → list state_snapshot_row)
    (d : core_db) : core_db :=
  {| kernel := kernel d; identities := identities d; storage_keys := storage_keys d;
     state_snapshots := f (state_snapshots d); snapshot_archives := snapshot_archives d;
     sleep_checkpoints := sleep_checkpoints d |}.
Definition set_snapshot_archives (f : list snapshot_archive_row → list snapshot_archive_row)
    (d : core_db) : core_db :=
  {| kernel := kernel d; identities := identities d; storage_keys := storage_keys d;
     state_snapshots := state_snapshots d; snapshot_archives := f (snapshot_archives d);
     sleep_checkpoints := sleep_checkpoints d |}.
Definition set_sleep_checkpoints (f : list string → list string) (d : core_db) : core_db :=
  {| kernel := kernel d; identities := identities d; storage_keys := storage_keys d;
     state_snapshots := state_snapshots d; snapshot_archives := snapshot_archives d;
     sleep_checkpoints := f (sleep_checkpoints d) |}.

Abbreviation C := (M core_db).
(** A program of the kernel, in the same transaction. *)
Definition in_kernel {A} (m : K A) : C A := within kernel set_kernel m.

Section host.
Context {Ho : Host}.
Definition cutc_now : C string := read_clock now_at.
Definition cnew_id (prefix : string) : C string :=
  u ← read_fresh uuid_at; mret (prefix +:+ "_" +:+ u).
End host.

Definition cconstraint (b : bool) (msg : string) : C unit := raise_if (negb b) (SqliteError msg).

(** The foreign keys to a snapshot: [subject_identity.last_checkpoint] and
    [sleep_runs.checkpoint_id]. *)
Definition snapshot_referenced (d : core_db) (snapshot_id : string) : bool :=
  exists_where (λ r, id_last_checkpoint r == Some snapshot_id) (identities d)
  || exists_where (λ c, c == snapshot_id) (sleep_checkpoints d).

Definition insert_snapshot (r : state_snapshot_row) : C unit :=
  bind_int (ss_state_version r) ;;
  d ← gets id;
  cconstraint (0 <? ss_state_version r) "CHECK constraint failed" ;;
  cconstraint (negb (exists_where (λ x, ss_snapshot_id x == ss_snapshot_id r)
                 (state_snapshots d))) "UNIQUE constraint failed" ;;
  cconstraint (negb (exists_where (λ x, (ss_subject_id x == ss_subject_id r)
                  && (ss_state_version x =? ss_state_version r)) (state_snapshots d)))
    "UNIQUE constraint failed" ;;
  cconstraint (subject_exists (ss_subject_id r) (kernel d)) "FOREIGN KEY constraint failed" ;;
  modify (set_state_snapshots (append_row r)).
Definition insert_archive (r : snapshot_archive_row) : C unit :=
  d ← gets id;
  cconstraint ((0 <? sa_first_version r) && (sa_first_version r <=? sa_last_version r)
               && (0 <? sa_snapshot_count r)) "CHECK constraint failed" ;;
  cconstraint (negb (exists_where (λ x, sa_archive_id x == sa_archive_id r)
                 (snapshot_archives d))) "UNIQUE constraint failed" ;;
  cconstraint (subject_exists (sa_subject_id r) (kernel d)) "FOREIGN KEY constraint failed" ;;
  modify (set_snapshot_archives (append_row r)).
(** [DELETE FROM state_snapshots WHERE ...]; the number of deleted rows. *)
Definition delete_snapshots (p : state_snapshot_row → bool) : C Z :=
  d ← gets id;
  let rows := select p (state_snapshots d) in
  cconstraint (forallb (λ r, negb (snapshot_referenced d (ss_snapshot_id r))) rows)
    "FOREIGN KEY constraint failed" ;;
  modify (set_state_snapshots (select (λ r, negb (p r)))) ;;
  mret (Z.of_nat (length rows)).

(** ** Snapshots *)

(** [zlib.compress(..., level=9)] and [zlib.decompress] ([None] is
    [zlib.error]) on byte strings. *)
Class Zlib := {
  zlib_compress : string → string;
  zlib_decompress : string → option string;
}.

(** ** Differences *)

Definition _delta (previous current : dict) : json :=
  JObj [("set", JObj (select (λ kv, match dict_get kv.1 previous with
                                    | Some v => negb (py_eq v kv.2)
                                    | None => true
                                    end) current));
        ("delete", JStrs (sort_by str_leb (select (λ k, negb (dict_has k current))
                                             (map fst previous))))].
Definition invalid_delta : exn := IntegrityError "snapshot archive delta is invalid".
Fixpoint pop_keys (keys : list json) (m : dict) : result dict :=
  match keys with
  | [] => Ok m
  | JStr k :: keys => pop_keys keys (dict_pop k m)
  | _ :: _ => Raise (IntegrityError "snapshot archive delete key is invalid")
  end.
Definition _apply_delta (state : dict) (raw : option json) : result dict :=
  match raw with
  | Some (JObj raw) =>
      match dict_get "set" raw, dict_get "delete" raw with
      | Some (JObj changed), Some (JList keys) =>
          m ← pop_keys keys state;
          Ok (dict_update m changed)
      | _, _ => Raise invalid_delta
      end
  | _ => Raise invalid_delta
  end.

(** ** Saving and loading *)

Record SnapshotRecord := {
  sr_snapshot_id : string; sr_subject_id : string; sr_state_version : Z; sr_state : dict;
  sr_state_hash : string; sr_reason : string; sr_created_at : string;
}.

Section store.
Context {Dg : Digest} {Ho : Host} {Zl : Zlib}.

Definition _save_connection (subject_id : string) (state : dict) (state_version : Z)
    (reason : string) (snapshot_id : option string) : C SnapshotRecord :=
  raise_if (state_version <=? 0) (ValueError "state_version must be positive") ;;
  raise_if (blank reason) (ValueError "snapshot reason is required") ;;
  snapshot_id ← match snapshot_id with
                | Some (String _ _ as s) => mret s
                | _ => cnew_id "snap"
                end;
  created_at ← cutc_now;
  let state_hash := content_hash (JObj state) in
  insert_snapshot {| ss_snapshot_id := snapshot_id; ss_subject_id := subject_id;
    ss_state_version := state_version; ss_state_json := canonical_json (JObj state);
    ss_state_hash := state_hash; ss_reason := reason; ss_created_at := created_at |} ;;
  mret {| sr_snapshot_id := snapshot_id; sr_subject_id := subject_id;
          sr_state_version := state_version; sr_state := state; sr_state_hash := state_hash;
          sr_reason := reason; sr_created_at := created_at |}.
Definition save (subject_id : string) (state : dict) (state_version : Z) (reason : string)
    (snapshot_id : option string) : C SnapshotRecord :=
  transaction (_save_connection subject_id state state_version reason snapshot_id).

(** [_from_row]. *)
Definition snapshot_from_row (row : state_snapshot_row) : result SnapshotRecord :=
  match strict_json_loads (ss_state_json row) with
  | Raise _ => Raise (IntegrityError ("snapshot durable state is invalid: "
                                      +:+ ss_snapshot_id row))
  | Ok (JObj state) =>
      if content_hash (JObj state) =/= ss_state_hash row then
        Raise (IntegrityError ("snapshot state hash mismatch: " +:+ ss_snapshot_id row))
      else Ok {| sr_snapshot_id := ss_snapshot_id row; sr_subject_id := ss_subject_id row;
                 sr_state_version := ss_state_version row; sr_state := state;
                 sr_state_hash := content_hash (JObj state); sr_reason := ss_reason row;
                 sr_created_at := ss_created_at row |}
  | Ok _ => Raise (IntegrityError ("snapshot state is not an object: " +:+ ss_snapshot_id row))
  end.

(** [ORDER BY state_version DESC, created_at DESC, snapshot_id DESC]. *)
Definition latest_leb (x y : state_snapshot_row) : bool :=
  if ss_state_version x =? ss_state_version y then
    if ss_created_at x == ss_created_at y then str_leb (ss_snapshot_id y) (ss_snapshot_id x)
    else str_leb (ss_created_at y) (ss_created_at x)
  else ss_state_version y <=? ss_state_version x.
Definition snapshots_of (subject_id : string) (d : core_db) : list state_snapshot_row :=
  select (λ r, ss_subject_id r == subject_id) (state_snapshots d).
Definition latest_snapshot (subject_id : string) : C SnapshotRecord :=
  rows ← gets (λ d, sort_by latest_leb (snapshots_of subject_id d));
  match rows with
  | [] => raise (NotFoundError ("snapshot not found for subject: " +:+ subject_id))
  | row :: _ => lift (snapshot_from_row row)
  end.

(** ** Compaction *)

(** [ORDER BY state_version, snapshot_id], and before a key. *)
Definition version_key (r : state_snapshot_row) : Z * string :=
  (ss_state_version r, ss_snapshot_id r).
Definition key_ltb (x y : Z * string) : bool :=
  (x.1 <? y.1) || ((x.1 =? y.1) && str_ltb x.2 y.2).
Definition version_leb (x y : state_snapshot_row) : bool :=
  negb (key_ltb (version_key y) (version_key x)).
Definition version_geb (x y : state_snapshot_row) : bool := version_leb y x.

(** [length(CAST(state_json AS BLOB))]. *)
Definition state_bytes (r : state_snapshot_row) : Z := len (utf8_encode (ss_state_json r)).
Definition _checkpoint (checkpoint : option (C unit)) : C unit :=
  match checkpoint with Some c => c | None => mret tt end.

(** The loop over the rows of the query.  A row holds everything but the
    state, which a second query reads; the open query keeps its view [d] of
    the tables while the callback runs. *)
Fixpoint read_batch (d : core_db) (subject_id : string) (row_limit byte_limit : Z)
    (checkpoint : option (C unit)) (rows result : list state_snapshot_row)
    (materialized : Z) : C (list state_snapshot_row) :=
  match rows with
  | [] => mret result
  | row :: rows =>
      _checkpoint checkpoint ;;
      let row_bytes := state_bytes row in
      if (if bool_decide (result = []) then byte_limit <? row_bytes
          else byte_limit <? materialized + row_bytes)
      then mret result
      else
        match fetchone (λ r, (ss_snapshot_id r == ss_snapshot_id row)
                             && (ss_subject_id r == subject_id)) (state_snapshots d) with
        | None => raise (IntegrityError ("snapshot state JSON must be text: "
                                         +:+ ss_snapshot_id row))
        | Some full =>
            raise_if (negb (state_bytes full =? row_bytes))
              (IntegrityError ("snapshot state changed during bounded read: "
                               +:+ ss_snapshot_id row)) ;;
            let result := result ++
              [{| ss_snapshot_id := ss_snapshot_id row; ss_subject_id := ss_subject_id row;
                  ss_state_version := ss_state_version row;
                  ss_state_json := ss_state_json full; ss_state_hash := ss_state_hash row;
                  ss_reason := ss_reason row; ss_created_at := ss_created_at row |}] in
            if row_limit <=? Z.of_nat (length result) then mret result
            else read_batch d subject_id row_limit byte_limit checkpoint rows result
                   (materialized + row_bytes)
        end
  end.
Definition _read_compaction_batch (subject_id : string) (keep_recent : Z)
    (cursor : option (Z * string)) (row_limit byte_limit : Z)
    (checkpoint : option (C unit)) : C (list state_snapshot_row) :=
  recent ← gets (λ d, take (Z.to_nat (keep_recent + 1))
                        (sort_by version_geb (snapshots_of subject_id d)));
  if Z.of_nat (length recent) <=? keep_recent then mret []
  else
    match recent !! Z.to_nat (keep_recent - 1) with
    | None => mret []
    | Some cutoff =>
        d ← gets id;
        let rows := take (Z.to_nat row_limit) (sort_by version_leb
          (select (λ r, key_ltb (version_key r) (version_key cutoff)
                        && match cursor with
                           | Some c => key_ltb c (version_key r)
                           | None => true
                           end) (snapshots_of subject_id d))) in
        read_batch d subject_id row_limit byte_limit checkpoint rows [] 0
    end.

(** The entries of an archive; [previous] is the state before. *)
Definition archive_entry (row : state_snapshot_row) (previous : option dict) (state : dict)
    : json :=
  JObj [("snapshot_id", JStr (ss_snapshot_id row)); ("state_version", JInt (ss_state_version row));
        ("state_hash", JStr (ss_state_hash row)); ("reason", JStr (ss_reason row));
        ("created_at", JStr (ss_created_at row));
        match previous with
        | None => ("base_state", JObj state)
        | Some p => ("delta", _delta p state)
        end].
Fixpoint build_entries (checkpoint : option (C unit)) (rows : list state_snapshot_row)
    (previous : option dict) (entries : list json) (raw_bytes : Z)
    : C (list json * Z) :=
  match rows with
  | [] => mret (entries, raw_bytes)
  | row :: rows =>
      _checkpoint checkpoint ;;
      v ← lift (strict_json_loads (ss_state_json row));
      match v with
      | JObj state =>
          raise_if (content_hash (JObj state) =/= ss_state_hash row)
            (IntegrityError ("snapshot state hash mismatch: " +:+ ss_snapshot_id row)) ;;
          build_entries checkpoint rows (Some state)
            (entries ++ [archive_entry row previous state]) (raw_bytes + state_bytes row)
      | _ => raise (IntegrityError ("snapshot state is not an object: " +:+ ss_snapshot_id row))
      end
  end.
Definition archive_format : string := "noyra-incremental-snapshots-v1".
Definition _build_archive_payload (rows : list state_snapshot_row)
    (checkpoint : option (C unit)) : C (json * Z) :=
  '(entries, raw_bytes) ← build_entries checkpoint rows None [] 0;
  mret (JObj [("format", JStr archive_format); ("entries", JList entries)], raw_bytes).

(** [bytes.hex()] and the hash of a compressed payload. *)
Fixpoint hex (s : string) : string :=
  match s with
  | EmptyString => EmptyString
  | String c s => String (hex_digit (code c / 16)) (String (hex_digit (code c mod 16)) (hex s))
  end.
Definition compressed_hash (compressed : string) : string :=
  content_hash (JObj [("compressed_hex", JStr (hex compressed))]).

(** The row is still what was read. *)
Definition unchanged (subject_id : string) (row : state_snapshot_row) (d : core_db) : bool :=
  match fetchone (λ r, (ss_snapshot_id r == ss_snapshot_id row)
                       && (ss_subject_id r == subject_id)) (state_snapshots d) with
  | None => false
  | Some r =>
      (ss_subject_id r == subject_id) && (ss_state_version r =? ss_state_version row)
      && (ss_state_hash r == ss_state_hash row) && (ss_state_json r == ss_state_json row)
      && (ss_reason r == ss_reason row) && (ss_created_at r == ss_created_at row)
  end.
Definition first_version (rows : list state_snapshot_row) : Z :=
  match rows with r :: _ => ss_state_version r | [] => 0 end.
Definition last_version (rows : list state_snapshot_row) : Z :=
  match last rows with Some r => ss_state_version r | None => 0 end.
Definition _publish_compaction_batch (subject_id : string) (rows : list state_snapshot_row)
    (archive_payload : json) (compressed : string) (checkpoint : option (C unit)) : C unit :=
  _checkpoint checkpoint ;;
  transaction (
    for_each (λ row, same ← gets (unchanged subject_id row);
                     raise_if (negb same) CompactionConflict) rows ;;
    archive_id ← cnew_id "snapshot-archive";
    now ← cutc_now;
    insert_archive {| sa_archive_id := archive_id; sa_subject_id := subject_id;
      sa_first_version := first_version rows; sa_last_version := last_version rows;
      sa_snapshot_count := Z.of_nat (length rows); sa_compressed_payload := compressed;
      sa_payload_hash := content_hash archive_payload;
      sa_compressed_hash := compressed_hash compressed; sa_created_at := now |} ;;
    deleted ← delete_snapshots (λ r, (ss_subject_id r == subject_id)
                && bool_decide (ss_snapshot_id r ∈ map ss_snapshot_id rows));
    raise_if (negb (deleted =? Z.of_nat (length rows))) CompactionConflict) ;;
  _checkpoint checkpoint.

Record compact_report := { cr_archived : Z; cr_compressed_bytes : Z }.
(** The variables of the loop. *)
Record compact_state := {
  cs_archived : Z; cs_compressed_bytes : Z; cs_consumed_bytes : Z;
  cs_cursor : option (Z * string); cs_conflicts : Z;
}.
Record compact_bounds := {
  cb_keep : Z; cb_batch : Z; cb_batch_bytes : Z;
  cb_rows : option Z; cb_bytes : option Z;
}.
Definition remaining (batch : Z) (bound : option Z) (used : Z) : Z :=
  match bound with None => batch | Some b => Z.min batch (b - used) end.

(** One iteration: [None] where the loop ends. *)
Definition compact_once (subject_id : string) (b : compact_bounds) (checkpoint : option (C unit))
    (st : compact_state) : C (option compact_state) :=
  _checkpoint checkpoint ;;
  let remaining_rows := remaining (cb_batch b) (cb_rows b) (cs_archived st) in
  let remaining_bytes := remaining (cb_batch_bytes b) (cb_bytes b) (cs_consumed_bytes st) in
  if (remaining_rows <=? 0) || (remaining_bytes <=? 0) then mret None
  else
    rows ← _read_compaction_batch subject_id (cb_keep b) (cs_cursor st) remaining_rows
             remaining_bytes checkpoint;
    match last rows with
    | None => mret None
    | Some last_row =>
        _checkpoint checkpoint ;;
        '(payload, raw_bytes) ← _build_archive_payload rows checkpoint;
        if match cb_bytes b with Some n => n <? cs_consumed_bytes st + raw_bytes | None => false end
        then mret None
        else
          let compressed := zlib_compress (utf8_encode (canonical_json payload)) in
          _checkpoint checkpoint ;;
          published ← catch (_publish_compaction_batch subject_id rows payload compressed checkpoint ;;
                             mret true)
            (λ e, match e with CompactionConflict => Some (mret false) | _ => None end);
          if negb published then
            if 8 <=? cs_conflicts st + 1 then mret None
            else mret (Some {| cs_archived := cs_archived st;
                               cs_compressed_bytes := cs_compressed_bytes st;
                               cs_consumed_bytes := cs_consumed_bytes st;
                               cs_cursor := cs_cursor st; cs_conflicts := cs_conflicts st + 1 |})
          else
            _checkpoint checkpoint ;;
            mret (Some {| cs_archived := cs_archived st + Z.of_nat (length rows);
                          cs_compressed_bytes := cs_compressed_bytes st + len compressed;
                          cs_consumed_bytes := cs_consumed_bytes st + raw_bytes;
                          cs_cursor := Some (version_key last_row); cs_conflicts := 0 |})
    end.
(** The loop; [None] is out of fuel. *)
Fixpoint compact_loop (fuel : nat) (subject_id : string) (b : compact_bounds)
    (checkpoint : option (C unit)) (st : compact_state) : C (option compact_report) :=
  match fuel with
  | O => mret None
  | S fuel =>
      next ← compact_once subject_id b checkpoint st;
      match next with
      | None => mret (Some {| cr_archived := cs_archived st;
                              cr_compressed_bytes := cs_compressed_bytes st |})
      | Some st => compact_loop fuel subject_id b checkpoint st
      end
  end.
Definition no_progress : compact_state :=
  {| cs_archived := 0; cs_compressed_bytes := 0; cs_consumed_bytes := 0; cs_cursor := None;
     cs_conflicts := 0 |}.

(** An argument and its alias. *)
Definition budget (x alias : option Z) (msg : string) : result (option Z) :=
  match alias with
  | None => Ok x
  | Some b =>
      match x with
      | Some a => if a =? b then Ok (Some b) else Raise (ValueError msg)
      | None => Ok (Some b)
      end
  end.
Record compact_request := {
  cq_keep_recent : Z; cq_batch_size : Z; cq_max_batch_bytes : Z;
  cq_max_rows : option Z; cq_max_bytes : option Z; cq_row_budget : option Z;
  cq_byte_budget : option Z; cq_max_rows_per_batch : option Z; cq_max_bytes_per_batch : option Z;
}.
Definition clamp (lo hi x : Z) : Z := Z.max lo (Z.min x hi).
Definition compact_bounds_of (q : compact_request) : result compact_bounds :=
  let batch_size := default (cq_batch_size q) (cq_max_rows_per_batch q) in
  let max_batch_bytes := default (cq_max_batch_bytes q) (cq_max_bytes_per_batch q) in
  max_rows ← budget (cq_max_rows q) (cq_row_budget q) "max_rows and row_budget disagree";
  max_bytes ← budget (cq_max_bytes q) (cq_byte_budget q) "max_bytes and byte_budget disagree";
  Ok {| cb_keep := clamp 2 1000 (cq_keep_recent q); cb_batch := clamp 1 10000 batch_size;
        cb_batch_bytes := clamp 1 128000000 max_batch_bytes;
        cb_rows := Z.max 0 <$> max_rows; cb_bytes := Z.max 0 <$> max_bytes |}.
Definition compact (fuel : nat) (subject_id : string) (q : compact_request)
    (checkpoint : option (C unit)) : C (option compact_report) :=
  b ← lift (compact_bounds_of q);
  if (cb_rows b == Some 0) || (cb_bytes b == Some 0) then
    mret (Some {| cr_archived := 0; cr_compressed_bytes := 0 |})
  else compact_loop fuel subject_id b checkpoint no_progress.

(** ** Verification of the archives *)

(** [strict_json_loads] of bytes. *)
Definition loads_bytes (s : string) : result json :=
  match utf8_decode s with
  | Some t => strict_json_loads t
  | None => Raise (ValueError "invalid UTF-8")
  end.
(** The states of the entries, replayed; [state] is the one before. *)
Fixpoint verify_entries (entries : list json) (state : option dict) : result unit :=
  match entries with
  | [] => Ok tt
  | JObj entry :: entries =>
      state ← match state with
              | None =>
                  match dict_get "base_state" entry with
                  | Some (JObj base) => Ok base
                  | _ => Raise (IntegrityError "snapshot archive base state is invalid")
                  end
              | Some state => _apply_delta state (dict_get "delta" entry)
              end;
      match dict_get "state_hash" entry with
      | Some (JStr h) =>
          if content_hash (JObj state) == h then verify_entries entries (Some state)
          else Raise (IntegrityError "snapshot archive state hash mismatch")
      | _ => Raise (IntegrityError "snapshot archive state hash mismatch")
      end
  | _ :: _ => Raise (IntegrityError "snapshot archive entry is invalid")
  end.
Definition verify_archive (row : snapshot_archive_row) : result unit :=
  if compressed_hash (sa_compressed_payload row) =/= sa_compressed_hash row then
    Raise (IntegrityError "snapshot archive compressed hash mismatch")
  else
    match zlib_decompress (sa_compressed_payload row) with
    | None => Raise (ZlibError "incorrect header check")
    | Some raw =>
        payload ← loads_bytes raw;
        match payload with
        | JObj m =>
            match dict_get "entries" m with
            | Some (JList entries) =>
                if (content_hash payload =/= sa_payload_hash row)
                   || negb (Z.of_nat (length entries) =? sa_snapshot_count row)
                then Raise (IntegrityError "snapshot archive payload mismatch")
                else verify_entries entries None
            | _ => Raise (IntegrityError "snapshot archive payload mismatch")
            end
        | _ => Raise (IntegrityError "snapshot archive payload mismatch")
        end
    end.
Definition verify_archives (subject_id : string) : C Z :=
  rows ← gets (λ d, select (λ r, sa_subject_id r == subject_id) (snapshot_archives d));
  for_each (λ row, lift (verify_archive row)) rows ;;
  mret (Z.of_nat (length rows)).
End store.
