(* ===== verification/Identity.v ===== *)
(** * Identities ([IdentityStore] of [src/src/noyra/core/identity.py])

    Creation of a subject, its storage key, and the pointer to its latest
    checkpoint.  [ensure] also gives the wallet its default payment policy:
    that statement is [ensure_identity] of [WalletEconomy], on the wallet's
    tables.

    [checkpoint] and [verify_continuity] are of [SubjectKernel] in
    [src/src/noyra/core/runtime.py]: one transaction saves the state, moves the
    pointer to it and appends the event; [verify_continuity] checks that the
    pointer and the newest snapshot describe the same state. *)

From S2P Require Import Prelude Tables PyStr Json Digest Time PyDict WalletTypes KernelDb.
From S2P Require Import Events Lifecycle Actions Snapshots.
Local Open Scope Z_scope.

(** [^subject_[0-9a-f]{32}$]. *)
Definition storage_key_match (s : string) : bool :=
  match strip_prefix "subject_" s with
  | Some r => str_forallb (λ c, is_digit c || in_range 97 102 c) r && (len r =? 32)
  | None => false
  end.
Definition validate_subject_storage_key (storage_key : string) : result string :=
  if storage_key_match storage_key then Ok storage_key
  else Raise (IntegrityError "subject storage key has an invalid format").

(** [IdentityStore._from_row]. *)
Definition identity_from_row (row : identity_row) : result identity_row :=
  _ ← validate_subject_id (id_subject_id row);
  _ ← match id_origin_subject_id row with
      | None => Ok tt
      | Some o =>
          match validate_subject_id o with
          | Ok _ => Ok tt
          | Raise _ => Raise (IntegrityError "identity origin subject id is invalid")
          end
      end;
  if id_state_version row <? 0 then
    Raise (IntegrityError ("identity has a negative state version: " +:+ id_subject_id row))
  else Ok row.

Definition identity_of (subject_id : string) (d : core_db) : option identity_row :=
  fetchone (λ r, id_subject_id r == subject_id) (identities d).
Definition _storage_key_connection (subject_id : string) : C string :=
  lift (validate_subject_id subject_id) ;;
  row ← gets (λ d, fetchone (λ r, r.1 == subject_id) (storage_keys d));
  match row with
  | None => raise (IntegrityError ("subject storage key is missing: " +:+ subject_id))
  | Some row =>
      storage_key ← lift (validate_subject_storage_key row.2);
      raise_if (lower storage_key == lower subject_id)
        (IntegrityError "subject storage key is controlled by the logical subject id") ;;
      mret storage_key
  end.

(** The row with a new checkpoint. *)
Definition with_checkpoint (state_version : Z) (checkpoint_id : string)
    (model_name : option string) (now : string) (r : identity_row) : identity_row :=
  {| id_subject_id := id_subject_id r; id_project_name := id_project_name r;
     id_genesis_hash := id_genesis_hash r; id_personal_name := id_personal_name r;
     id_identity_status := id_identity_status r; id_created_at := id_created_at r;
     id_updated_at := now; id_state_version := state_version;
     id_model_name := match model_name with Some m => Some m | None => id_model_name r end;
     id_last_checkpoint := Some checkpoint_id; id_origin_subject_id := id_origin_subject_id r;
     id_branch_reason := id_branch_reason r |}.
Definition with_personal_name (name : option string) (now : string) (r : identity_row)
    : identity_row :=
  {| id_subject_id := id_subject_id r; id_project_name := id_project_name r;
     id_genesis_hash := id_genesis_hash r; id_personal_name := name;
     id_identity_status := id_identity_status r; id_created_at := id_created_at r;
     id_updated_at := now; id_state_version := id_state_version r;
     id_model_name := id_model_name r; id_last_checkpoint := id_last_checkpoint r;
     id_origin_subject_id := id_origin_subject_id r; id_branch_reason := id_branch_reason r |}.

Section identity.
Context {Dg : Digest} {Ho : Host}.

(** Up to [attempts] random keys. *)
Fixpoint _new_storage_key (attempts : nat) (subject_id : string) : C string :=
  match attempts with
  | O => raise (RuntimeError "could not allocate a unique subject storage key")
  | S attempts =>
      candidate ← cnew_id "subject";
      if lower candidate == lower subject_id then _new_storage_key attempts subject_id
      else
        taken ← gets (λ d, exists_where (λ r, r.2 == candidate) (storage_keys d));
        if taken then _new_storage_key attempts subject_id else mret candidate
  end.

(** The triggers [evidence_counts_new_subject] and
    [route_evidence_counts_new_subject]. *)
Definition seed_counts (subject_id : string) : K unit :=
  taken ← gets (λ d, exists_where (λ c, ct_subject_id c == subject_id) (counts d));
  kconstraint (negb taken) "UNIQUE constraint failed" ;;
  modify (set_counts (λ l, l ++ map (λ n, {| ct_subject_id := subject_id; ct_table_name := n;
                                            ct_row_count := 0 |}) EVIDENCE_TABLES)).
Definition insert_identity (r : identity_row) : C unit :=
  d ← gets id;
  cconstraint (negb (exists_where (λ x, id_subject_id x == id_subject_id r) (identities d)))
    "UNIQUE constraint failed" ;;
  modify (set_identities (append_row r)) ;;
  in_kernel (modify (set_subject_ids (append_row (id_subject_id r))) ;;
             seed_counts (id_subject_id r)).
Definition insert_storage_key (subject_id storage_key : string) : C unit :=
  d ← gets id;
  cconstraint (storage_key_match storage_key && (lower storage_key =/= lower subject_id))
    "CHECK constraint failed" ;;
  cconstraint (negb (exists_where (λ x, (x.1 == subject_id) || (x.2 == storage_key))
                 (storage_keys d))) "UNIQUE constraint failed" ;;
  modify (set_storage_keys (append_row (subject_id, storage_key))).
(** [INSERT OR IGNORE INTO training_policies]. *)
Definition ensure_training_policy (subject_id now : string) : K unit :=
  found ← gets (λ d, exists_where (λ p, tp_subject_id p == subject_id) (training_policies d));
  if found then mret tt else insert_training_policy (default_training_policy subject_id now).

Definition new_identity (subject_id genesis_hash project_name : string)
    (origin_subject_id branch_reason : option string) (now : string) : identity_row :=
  {| id_subject_id := subject_id; id_project_name := project_name;
     id_genesis_hash := genesis_hash; id_personal_name := None; id_identity_status := "active";
     id_created_at := now; id_updated_at := now; id_state_version := 0; id_model_name := None;
     id_last_checkpoint := None; id_origin_subject_id := origin_subject_id;
     id_branch_reason := branch_reason |}.
Definition ensure (subject_id genesis_hash project_name : string)
    (origin_subject_id branch_reason : option string) : C identity_row :=
  lift (validate_subject_id subject_id) ;;
  lift (match origin_subject_id with
        | Some o => _ ← validate_subject_id o; Ok tt | None => Ok tt end) ;;
  raise_if (genesis_hash == EmptyString) (ValueError "genesis_hash is required") ;;
  now ← cutc_now;
  transaction (
    found ← gets (identity_of subject_id);
    match found with
    | Some row =>
        raise_if ((id_genesis_hash row =/= genesis_hash) || (id_project_name row =/= project_name))
          (IdentityConflictError ("identity already exists with different genesis: "
                                  +:+ subject_id)) ;;
        raise_if (bool_decide (is_Some origin_subject_id)
                  && (id_origin_subject_id row =/= origin_subject_id))
          (IdentityConflictError ("identity already exists with different origin: "
                                  +:+ subject_id)) ;;
        raise_if (bool_decide (is_Some branch_reason) && (id_branch_reason row =/= branch_reason))
          (IdentityConflictError ("identity already exists with different branch reason: "
                                  +:+ subject_id)) ;;
        _storage_key_connection subject_id ;;
        lift (identity_from_row row)
    | None =>
        storage_key ← _new_storage_key 16 subject_id;
        insert_identity (new_identity subject_id genesis_hash project_name origin_subject_id
                           branch_reason now) ;;
        insert_storage_key subject_id storage_key ;;
        in_kernel (ensure_training_policy subject_id now) ;;
        row ← gets (identity_of subject_id);
        match row with
        | Some row => lift (identity_from_row row)
        | None => raise (TypeError "'NoneType' object is not subscriptable")
        end
    end).

Definition storage_key (subject_id : string) : C string :=
  lift (validate_subject_id subject_id) ;; _storage_key_connection subject_id.
Definition legacy_storage_path_is_unambiguous (subject_id : string) : C bool :=
  lift (validate_subject_id subject_id) ;;
  n ← gets (λ d, count_where (λ r, lower (id_subject_id r) == lower subject_id) (identities d));
  mret (n =? 1).
Definition load_identity (subject_id : string) : C identity_row :=
  lift (validate_subject_id subject_id) ;;
  found ← gets (identity_of subject_id);
  match found with
  | None => raise (NotFoundError ("identity not found: " +:+ subject_id))
  | Some row => lift (identity_from_row row)
  end.

(** [UPDATE subject_identity ... WHERE subject_id = ?]; the number of rows. *)
Definition update_identity (subject_id : string) (f : identity_row → identity_row) : C Z :=
  let p r := id_subject_id r == subject_id in
  n ← gets (λ d, count_where p (identities d));
  modify (set_identities (update_where p f)) ;;
  mret n.

Definition _update_checkpoint_connection (subject_id : string) (state_version : Z)
    (checkpoint_id : string) (model_name : option string) : C unit :=
  lift (validate_subject_id subject_id) ;;
  raise_if (state_version <? 0) (ValueError "state_version cannot be negative") ;;
  raise_if (blank checkpoint_id) (ValueError "checkpoint_id is required") ;;
  current ← gets (identity_of subject_id);
  match current with
  | None => raise (NotFoundError ("identity not found: " +:+ subject_id))
  | Some current =>
      raise_if (state_version <=? id_state_version current)
        (IdentityConflictError ("checkpoint version must increase: " +:+ show_Z state_version
           +:+ " <= " +:+ show_Z (id_state_version current))) ;;
      snapshot ← gets (λ d, fetchone (λ s, ss_snapshot_id s == checkpoint_id)
                              (state_snapshots d));
      match snapshot with
      | None => raise (NotFoundError ("checkpoint not found: " +:+ checkpoint_id))
      | Some snapshot =>
          raise_if ((ss_subject_id snapshot =/= subject_id)
                    || negb (ss_state_version snapshot =? state_version))
            (IdentityConflictError
               "checkpoint subject or version does not match the identity update") ;;
          now ← cutc_now;
          updated ← update_identity subject_id
                      (with_checkpoint state_version checkpoint_id model_name now);
          raise_if (negb (updated =? 1)) (NotFoundError ("identity not found: " +:+ subject_id))
      end
  end.
Definition update_checkpoint (subject_id : string) (state_version : Z) (checkpoint_id : string)
    (model_name : option string) : C identity_row :=
  lift (validate_subject_id subject_id) ;;
  raise_if (state_version <? 0) (ValueError "state_version cannot be negative") ;;
  raise_if (blank checkpoint_id) (ValueError "checkpoint_id is required") ;;
  row ← transaction (
    _update_checkpoint_connection subject_id state_version checkpoint_id model_name ;;
    gets (identity_of subject_id));
  match row with
  | Some row => lift (identity_from_row row)
  | None => raise (TypeError "'NoneType' object is not subscriptable")
  end.
Definition set_personal_name (subject_id : string) (personal_name : option string)
    : C identity_row :=
  lift (validate_subject_id subject_id) ;;
  row ← transaction (
    now ← cutc_now;
    updated ← update_identity subject_id (with_personal_name personal_name now);
    raise_if (negb (updated =? 1)) (NotFoundError ("identity not found: " +:+ subject_id)) ;;
    gets (identity_of subject_id));
  match row with
  | Some row => lift (identity_from_row row)
  | None => raise (TypeError "'NoneType' object is not subscriptable")
  end.
End identity.

(** ** Checkpoints of a runtime *)

(** What a runtime asks about itself: whether it holds the process lock, and
    whether a migration of the subject is being rolled back
    ([migration_tasks] joined with [migration_epochs]). *)
Class Process := {
  lock_held : nat → bool;
  rollback_pending : nat → string → bool;
}.

Section runtime.
Context {Dg : Digest} {Ho : Host} {Pr : Process}.

Definition _no_active_migration_epoch (subject_id : string) : K bool :=
  epoch ← gets (λ d, exists_where (λ e, (ep_subject_id e == subject_id)
      && ((ep_status e == "active") || (ep_status e == "completed"))
      && match migration_target_id with None => true | Some t => ep_target_id e =/= t end)
      (migration_epochs (others d)));
  rollback ← (if epoch then mret true else read_clock (λ k, rollback_pending k subject_id));
  if rollback then mret false
  else fenced ← read_clock (λ k, fence_file_active k subject_id); mret (negb fenced).
Definition _require_ownership (subject_id : string) : C unit :=
  held ← read_clock lock_held;
  raise_if (negb held)
    (RuntimeOwnershipError "this kernel does not own the subject runtime") ;;
  clear ← in_kernel (_no_active_migration_epoch subject_id);
  if clear then mret tt
  else
    fenced ← read_clock (λ k, fence_file_active k subject_id);
    raise_if fenced
      (RuntimeOwnershipError "runtime ownership is blocked by a migration fence") ;;
    raise (RuntimeOwnershipError "runtime ownership is fenced by a migration epoch").

Definition checkpoint (subject_id : string) (state : dict) (reason : string)
    (model_name : option string) : C SnapshotRecord :=
  _require_ownership subject_id ;;
  raise_if (blank reason) (ValueError "checkpoint reason is required") ;;
  snapshot ← transaction (
    in_kernel (_migration_epoch_guard subject_id) ;;
    row ← gets (identity_of subject_id);
    match row with
    | None => raise (NotFoundError ("identity not found: " +:+ subject_id))
    | Some row =>
        let next_version := id_state_version row + 1 in
        snapshot ← _save_connection subject_id state next_version reason None;
        _update_checkpoint_connection subject_id next_version (sr_snapshot_id snapshot)
          model_name ;;
        now ← cutc_now;
        in_kernel (_append_connection subject_id "state_checkpoint" "supervisor"
          [("snapshot_id", JStr (sr_snapshot_id snapshot)); ("state_version", JInt next_version);
           ("reason", JStr reason)] "private" [] (Some now) None) ;;
        mret snapshot
    end);
  load_identity subject_id ;;
  mret snapshot.

Definition verify_continuity (subject_id : string) : C unit :=
  '(identity, rows) ← read_transaction (
    found ← gets (identity_of subject_id);
    match found with
    | None => raise (NotFoundError ("identity not found: " +:+ subject_id))
    | Some row =>
        identity ← lift (identity_from_row row);
        rows ← gets (λ d, take 2 (sort_by latest_leb (snapshots_of subject_id d)));
        mret (identity, rows)
    end);
  if id_state_version identity =? 0 then
    raise_if (bool_decide (is_Some (id_last_checkpoint identity)))
      (IntegrityError "version-zero identity unexpectedly references a checkpoint") ;;
    raise_if (negb (bool_decide (rows = [])))
      (IntegrityError "version-zero identity unexpectedly has snapshots")
  else
    match id_last_checkpoint identity, rows with
    | None, _ => raise (IntegrityError "versioned identity has no checkpoint")
    | Some _, [] => raise (IntegrityError "versioned identity has no stored snapshot")
    | Some id, row :: _ =>
        newest ← lift (snapshot_from_row row);
        raise_if ((sr_snapshot_id newest =/= id)
                  || negb (sr_state_version newest =? id_state_version identity))
          (IntegrityError "identity and latest checkpoint do not describe one state")
    end.
End runtime.
