(* ===== verification/SnapshotDelta.v ===== *)
(** * Orders of snapshots, and replaying the changes between them

    First the keyset order of [_read_compaction_batch], the order of
    [latest] and the cutoff of a compaction.

    [_apply_delta] undoes [_delta] exactly when no value changed between
    two that Python's [==] takes for equal, [True] and [1] for instance; the
    entries of an archive, read back from its text, then replay to the
    archived states. *)

From stdpp Require Import sorting.
From S2P Require Import Prelude Tables PyStr Json Digest Time Sorting Base64 PyDict KernelDb.
From S2P Require Import Events Snapshots.
Local Open Scope Z_scope.

Lemma preorder_ext {R} (le le' : R → R → bool) :
  (∀ x y, le x y = le' x y) → PreorderB le' → PreorderB le.
Proof.
  intros E P. split; [intros x y; rewrite !E; apply leb_total|].
  intros x y z. rewrite !E. apply leb_trans.
Qed.

Lemma version_leb_lex x y :
  version_leb x y = lexb ss_state_version Z.leb
                      (λ x y, str_leb (ss_snapshot_id x) (ss_snapshot_id y)) x y.
Proof.
  unfold version_leb, key_ltb, lexb, version_key. simpl. rewrite str_ltb_leb negb_orb.
  case_bool_decide as E.
  - rewrite E Z.ltb_irrefl Z.eqb_refl. simpl. by rewrite negb_involutive.
  - replace (ss_state_version y =? ss_state_version x) with false by lia.
    rewrite andb_true_r. lia.
Qed.
Lemma latest_leb_lex x y :
  latest_leb x y = lexb ss_state_version (λ v v', v' <=? v)
    (lexb ss_created_at (λ t t', str_leb t' t)
       (λ x y, str_leb (ss_snapshot_id y) (ss_snapshot_id x))) x y.
Proof.
  unfold latest_leb, lexb. destruct (Z.eqb_spec (ss_state_version x) (ss_state_version y)) as [E|E].
  - by rewrite (bool_decide_true _ E).
  - by rewrite (bool_decide_false _ E).
Qed.

#[global] Instance version_preorder : PreorderB version_leb.
Proof.
  eapply preorder_ext; [exact version_leb_lex|]. apply lexb_preorder; [apply _..|].
  apply (image_preorder ss_snapshot_id str_leb str_preorder).
Qed.
#[global] Instance version_desc_preorder : PreorderB version_geb.
Proof. exact (flip_preorder version_leb version_preorder). Qed.
#[global] Instance latest_preorder : PreorderB latest_leb.
Proof.
  eapply preorder_ext; [exact latest_leb_lex|]. apply lexb_preorder.
  - exact (flip_preorder Z.leb Zleb_preorder).
  - exact (flip_antisym Z.leb Zleb_antisym).
  - apply lexb_preorder.
    + exact (flip_preorder str_leb str_preorder).
    + exact (flip_antisym str_leb str_antisym).
    + exact (flip_preorder _ (image_preorder ss_snapshot_id str_leb str_preorder)).
Qed.

Lemma version_leb_le x y : version_leb x y = true → ss_state_version x <= ss_state_version y.
Proof. rewrite version_leb_lex. unfold lexb. case_bool_decide; [lia|]. by intros ?%Z.leb_le. Qed.
Lemma latest_leb_le x y : latest_leb x y = true → ss_state_version y <= ss_state_version x.
Proof. unfold latest_leb. destruct (_ =? _) eqn:E; [lia|]. by intros ?%Z.leb_le. Qed.
Lemma version_leb_antisym x y :
  version_leb x y = true → version_leb y x = true → ss_snapshot_id x = ss_snapshot_id y.
Proof.
  rewrite !version_leb_lex. unfold lexb. case_bool_decide as E.
  - rewrite bool_decide_true //. apply str_antisym.
  - rewrite bool_decide_false; [congruence|]. rewrite !Z.leb_le. lia.
Qed.

(** The snapshots of a subject from a version on, as [above] counts them. *)
Lemma count_subject sid v (t : list state_snapshot_row) :
  count_where (λ r, (ss_subject_id r == sid) && (v <=? ss_state_version r)) t
  = count_where (λ r, v <=? ss_state_version r) (select (λ r, ss_subject_id r == sid) t).
Proof.
  unfold count_where, select. f_equal. induction t as [|r t IH]; [done|]. simpl.
  destruct (ss_subject_id r == sid); simpl; [|done]. destruct (v <=? _); simpl; by rewrite IH.
Qed.
Lemma count_all {R} (p : R → bool) t : Forall (λ r, p r = true) t → count_where p t = Z.of_nat (length t).
Proof.
  unfold count_where, select. induction 1 as [|r t E H IH]; [done|]. simpl. rewrite E. simpl. lia.
Qed.

(** The [n]-th newest of a list has [n] others, with itself, from its
    version on. *)
Lemma cutoff_count rows n (x : state_snapshot_row) :
  sort_by version_geb rows !! n = Some x →
  Z.of_nat (S n) <= count_where (λ r, ss_state_version x <=? ss_state_version r) rows.
Proof.
  intros Hx. rewrite -(count_perm _ _ _ (sort_by_perm version_geb rows)).
  rewrite -(take_drop_middle _ _ _ Hx). pose proof (sort_by_sorted version_geb rows) as Hs.
  rewrite -(take_drop_middle _ _ _ Hx) in Hs. apply sorted_app in Hs as (_ & Hs & Hall).
  rewrite cons_middle app_assoc. unfold count_where. rewrite select_app length_app.
  assert (E : count_where (λ r, ss_state_version x <=? ss_state_version r)
                (take n (sort_by version_geb rows) ++ [x]) = Z.of_nat (S n)).
  { rewrite count_all.
    - apply Forall_app. split.
      + apply Forall_forall. intros r Hr. apply Z.leb_le, version_leb_le.
        apply (Hall r x Hr), here.
      + constructor; [apply Z.leb_refl|done].
    - rewrite length_app length_take. apply lookup_lt_Some in Hx. simpl. lia. }
  unfold count_where in E. lia.
Qed.

(** The rows before the cutoff have versions below its own. *)
Lemma key_ltb_version (rows : list state_snapshot_row) x y :
  NoDup (map ss_state_version rows) → x ∈ rows → y ∈ rows →
  key_ltb (version_key x) (version_key y) = true → ss_state_version x < ss_state_version y.
Proof.
  intros Hn Hx Hy. unfold key_ltb, version_key. simpl. intros [?|[E%Z.eqb_eq Hs]%andb_prop]%orb_prop.
  - by apply Z.ltb_lt.
  - rewrite (key_unique ss_state_version rows x y Hn Hx Hy E) in Hs.
    rewrite str_ltb_leb leb_refl in Hs. done.
Qed.

(** ** Replaying changes *)

Lemma pop_keys_strs ks m :
  pop_keys (map JStr ks) m = Ok (foldl (λ m k, dict_pop k m) m ks).
Proof. revert m. induction ks as [|k ks IH]; intros m; [done|]. apply IH. Qed.
Lemma dict_get_pops k ks m :
  dict_get k (foldl (λ m k, dict_pop k m) m ks) = if bool_decide (k ∈ ks) then None else dict_get k m.
Proof.
  revert m. induction ks as [|k' ks IH]; intros m; [by rewrite bool_decide_false; [apply not_elem_of_nil|]|].
  cbn [foldl]. rewrite IH dict_get_pop. destruct (decide (k ∈ k' :: ks)) as [H|H].
  - rewrite (bool_decide_true _ H). apply elem_of_cons in H as [->|H].
    + rewrite (bool_decide_true (k' = k')) //. by case_bool_decide.
    + by rewrite (bool_decide_true _ H).
  - rewrite (bool_decide_false _ H). apply not_elem_of_cons in H as [H1 H2].
    by rewrite (bool_decide_false _ H1) (bool_decide_false _ H2).
Qed.
Lemma dict_pops_keys ks m : NoDup (map fst m) → NoDup (map fst (foldl (λ m k, dict_pop k m) m ks)).
Proof.
  revert m. induction ks as [|k ks IH]; intros m Hm; [done|]. by apply IH, dict_pop_keys.
Qed.

(** What the key of a state becomes. *)
Definition replayed (previous current : option json) : option json :=
  match current with
  | None => None
  | Some v => match previous with Some u => if py_eq u v then Some u else Some v | None => Some v end
  end.

Section delta.
Variables previous current : dict.
Hypothesis previous_keys : NoDup (map fst previous).
Hypothesis current_keys : NoDup (map fst current).

Definition changed : dict :=
  select (λ kv, match dict_get kv.1 previous with
                | Some v => negb (py_eq v kv.2) | None => true end) current.
Definition deleted : list string :=
  sort_by str_leb (select (λ k, negb (dict_has k current)) (map fst previous)).
Lemma delta_parts : _delta previous current = JObj [("set", JObj changed); ("delete", JStrs deleted)].
Proof. done. Qed.
Lemma changed_keys : NoDup (map fst changed).
Proof. by apply NoDup_select. Qed.
Lemma elem_of_deleted k : k ∈ deleted ↔ is_Some (dict_get k previous) ∧ dict_get k current = None.
Proof.
  unfold deleted. rewrite elem_of_sort_by elem_of_select dict_has_get dict_get_None.
  unfold dict_has. rewrite negb_true_iff bool_decide_eq_false. done.
Qed.
Lemma get_changed k :
  dict_get k changed
  = v ← dict_get k current;
    match dict_get k previous with
    | Some u => if py_eq u v then None else Some v
    | None => Some v
    end.
Proof.
  unfold changed. rewrite dict_get_select //. destruct (dict_get k current) as [v|]; [|done]. simpl.
  destruct (dict_get k previous); [|done]. by destruct (py_eq _ _).
Qed.

(** [_apply_delta(previous, _delta(previous, current))]. *)
Lemma apply_delta_get :
  ∃ m, _apply_delta previous (Some (_delta previous current)) = Ok m ∧ NoDup (map fst m) ∧
    ∀ k, dict_get k m = replayed (dict_get k previous) (dict_get k current).
Proof.
  rewrite delta_parts. eexists. split; [|split].
  { unfold _apply_delta, JStrs. rewrite !dict_get_cons. cbn [bool_decide].
    change ("set" == "set") with true. change ("set" == "delete") with false.
    change ("delete" == "delete") with true. cbn iota. by rewrite pop_keys_strs. }
  - by apply dict_update_keys, dict_pops_keys.
  - intros k. rewrite dict_get_update; [apply changed_keys|]. rewrite get_changed dict_get_pops.
    unfold replayed. destruct (dict_get k current) as [v|] eqn:E; simpl.
    + destruct (dict_get k previous) as [u|] eqn:E'; [|done]. destruct (py_eq u v); [|done].
      rewrite bool_decide_false //. rewrite elem_of_deleted. naive_solver.
    + case_bool_decide as H; [done|]. destruct (dict_get k previous) as [u|] eqn:E'; [|done].
      destruct H. apply elem_of_deleted. by rewrite E' E.
Qed.

(** The same with the change read back from its text, applied to a state
    with the texts of [previous]. *)
Lemma apply_norm_delta r :
  NoDup (map fst r) → dict_equiv r previous →
  ∃ m, _apply_delta r (Some (norm (_delta previous current))) = Ok m ∧ NoDup (map fst m) ∧
    ∀ k, canonical_json <$> dict_get k m
         = canonical_json <$> replayed (dict_get k previous) (dict_get k current).
Proof.
  intros Hr Heq. rewrite delta_parts.
  set (fields := [("set", JObj changed); ("delete", JStrs deleted)]%string).
  assert (Hf : NoDup (map fst fields)) by (apply (bool_decide_unpack _); vm_compute; exact I).
  set (changed' := sort_by key_leb (map (λ kv, (kv.1, norm kv.2)) changed)).
  assert (Hset : dict_get "set" (sort_by key_leb (map (λ kv, (kv.1, norm kv.2)) fields))
    = Some (JObj changed')).
  { rewrite dict_get_norm //. }
  assert (Hdel : dict_get "delete" (sort_by key_leb (map (λ kv, (kv.1, norm kv.2)) fields))
    = Some (JList (map JStr deleted))).
  { rewrite dict_get_norm //. unfold fields. rewrite !dict_get_cons.
    change ("set" == "delete") with false. change ("delete" == "delete") with true. simpl.
    do 2 f_equal. rewrite map_map. done. }
  assert (Hck : NoDup (map fst changed')).
  { unfold changed'. rewrite sort_by_perm map_map. apply changed_keys. }
  eexists. split; [|split].
  { change (norm (JObj fields))
      with (JObj (sort_by key_leb (map (λ kv, (kv.1, norm kv.2)) fields))).
    unfold _apply_delta. by rewrite Hset Hdel pop_keys_strs. }
  - by apply dict_update_keys, dict_pops_keys.
  - intros k. rewrite dict_get_update // dict_get_pops.
    unfold changed'. rewrite (dict_get_norm k changed changed_keys) get_changed.
    specialize (Heq k). unfold replayed. destruct (dict_get k current) as [v|] eqn:E; simpl.
    + destruct (dict_get k previous) as [u|] eqn:E'; simpl; [|by rewrite canonical_norm].
      destruct (py_eq u v); simpl; [|by rewrite canonical_norm].
      rewrite bool_decide_false //. rewrite elem_of_deleted. naive_solver.
    + case_bool_decide as H; [done|]. destruct (dict_get k previous) as [u|] eqn:E'; [|done].
      destruct H. apply elem_of_deleted. by rewrite E' E.
Qed.
End delta.

(** No key holds two values that [==] takes for equal and that have
    different texts. *)
Definition unconfused (previous current : dict) : Prop :=
  ∀ k u v, dict_get k previous = Some u → dict_get k current = Some v →
    py_eq u v = true → canonical_json u = canonical_json v.

Lemma replayed_exact previous current :
  unconfused previous current ↔
  ∀ k, canonical_json <$> replayed (dict_get k previous) (dict_get k current)
       = canonical_json <$> dict_get k current.
Proof.
  unfold unconfused, replayed. split; intros H k.
  - destruct (dict_get k current) as [v|] eqn:E; [|done].
    destruct (dict_get k previous) as [u|] eqn:E'; [|done].
    destruct (py_eq u v) eqn:Ep; [|done]. simpl. f_equal. by eapply H.
  - intros u v E E' Ep. specialize (H k). rewrite E E' Ep in H. by injection H.
Qed.

(** C9: Replaying the difference between two states gives a state with the
    text, and so the hash, of the second exactly when no key changed from
    one value to another that [==] takes for equal: a change from [True] to
    [1] is lost, every other change survives. *)
Theorem delta_roundtrip previous current :
  wf_json (JObj previous) → wf_json (JObj current) →
  ∃ m, _apply_delta previous (Some (_delta previous current)) = Ok m ∧
    (canonical_json (JObj m) = canonical_json (JObj current) ↔ unconfused previous current).
Proof.
  intros Hp Hc. pose proof Hp as [Hpk Hpv]%wf_obj. pose proof Hc as [Hck Hcv]%wf_obj.
  destruct (apply_delta_get previous current Hpk Hck) as (m & Hm & Hk & Hg).
  exists m. split; [done|]. rewrite replayed_exact.
  assert (Hw : wf_json (JObj m)).
  { apply wf_obj. split; [done|]. rewrite -> Forall_forall in *. intros [k v] Hin.
    apply (dict_get_Some k v m Hk) in Hin. rewrite Hg in Hin. unfold replayed in Hin.
    destruct (dict_get k current) as [u|] eqn:E; [|done]. apply dict_get_elem in E.
    destruct (dict_get k previous) as [u'|] eqn:E'; [apply dict_get_elem in E'|].
    - case_match; simplify_eq; [by apply (Hpv _ E')|by apply (Hcv _ E)].
    - simplify_eq. by apply (Hcv _ E). }
  split.
  - intros E k. rewrite -Hg. by apply canonical_equiv.
  - intros E. apply equiv_canonical; [done..|]. intros k. by rewrite Hg.
Qed.
