(* ===== verification/SnapshotArchive.v ===== *)
(** * An archive holds the states it was made from

    The payload of a batch is read back from the compressed text entry by
    entry; [replay] computes the states, as [verify_archives] does. *)

From S2P Require Import Prelude Tables PyStr Json Digest Time Sorting Base64 PyDict KernelDb.
From S2P Require Import Events Snapshots SnapshotDelta.
Local Open Scope Z_scope.

(** The states of the entries of an archive. *)
Fixpoint replay (entries : list json) (state : option dict) : result (list dict) :=
  match entries with
  | [] => Ok []
  | JObj entry :: entries =>
      state ← match state with
              | None =>
                  match dict_get "base_state" entry with
                  | Some (JObj base) => Ok base
                  | _ => Raise (IntegrityError "snapshot archive base state is invalid")
                  end
              | Some state => _apply_delta state (dict_get "delta" entry)
              end;
      rest ← replay entries (Some state);
      Ok (state :: rest)
  | _ :: _ => Raise (IntegrityError "snapshot archive entry is invalid")
  end.

(** The entries of a batch, without the callback. *)
Fixpoint entries_of (previous : option dict) (rows : list (state_snapshot_row * dict)) : list json :=
  match rows with
  | [] => []
  | (row, state) :: rows => archive_entry row previous state :: entries_of (Some state) rows
  end.
Definition payload_of (rows : list (state_snapshot_row * dict)) : json :=
  JObj [("format", JStr archive_format); ("entries", JList (entries_of None rows))].

Section archive.
Context {Dg : Digest} {Zl : Zlib}.

(** A row whose state can be read. *)
Definition reads_as (r : state_snapshot_row) (state : dict) : Prop :=
  strict_json_loads (ss_state_json r) = Ok (JObj state) ∧
  content_hash (JObj state) = ss_state_hash r.
Lemma reads_as_wf r state : reads_as r state → wf_json (JObj state).
Proof. intros [H _]. by eapply loads_wf. Qed.
Lemma reads_as_inj r s s' : reads_as r s → reads_as r s' → s = s'.
Proof. intros [H _] [H' _]. rewrite H in H'. by simplify_eq. Qed.

(** ** The entries are values with distinct keys *)

Lemma wf_strs l : wf_json (JStrs l).
Proof. apply wf_list. apply Forall_fmap. by apply Forall_true. Qed.
Lemma wf_select p m : wf_json (JObj m) → wf_json (JObj (select p m)).
Proof.
  rewrite !wf_obj. intros [Hn Hm]. split; [by apply NoDup_select|].
  rewrite -> Forall_forall in *. intros kv [? _]%elem_of_select. by apply Hm.
Qed.
Lemma wf_delta p c : wf_json (JObj c) → wf_json (_delta p c).
Proof.
  intros Hc. rewrite delta_parts. apply wf_obj. split.
  - apply (bool_decide_unpack _). vm_compute. exact I.
  - repeat constructor; simpl.
    + apply (wf_select (λ kv, match dict_get kv.1 p with
                | Some v => negb (py_eq v kv.2) | None => true end) c Hc).
    + apply (wf_select (λ kv, match dict_get kv.1 p with
                | Some v => negb (py_eq v kv.2) | None => true end) c Hc).
    + apply (wf_strs (deleted p c)).
Qed.
Lemma wf_entry r p s : wf_json (JObj s) → wf_json (archive_entry r p s).
Proof.
  intros Hs. unfold archive_entry. apply wf_obj. split.
  - destruct p; apply (bool_decide_unpack _); vm_compute; exact I.
  - do 5 (constructor; [done|]). constructor; [|done]. destruct p; [by apply wf_delta|done].
Qed.
Lemma wf_entries p rows :
  Forall (λ rs, wf_json (JObj rs.2)) rows → Forall wf_json (entries_of p rows).
Proof.
  intros H. revert p. induction H as [|[r s] rows H1 H2 IH]; intros p; simpl; [done|].
  constructor; [by apply wf_entry|done].
Qed.
Lemma wf_payload rows : Forall (λ rs, wf_json (JObj rs.2)) rows → wf_json (payload_of rows).
Proof.
  intros H. unfold payload_of. apply wf_obj. split.
  - apply (bool_decide_unpack _). vm_compute. exact I.
  - constructor; [done|]. constructor; [|done]. by apply wf_list, wf_entries.
Qed.

(** ** Replaying what was read back *)

(** The fields of an entry, read back. *)
Lemma entry_fields r p s :
  ∃ e, norm (archive_entry r p s) = JObj e ∧
    dict_get "snapshot_id" e = Some (JStr (ss_snapshot_id r)) ∧
    dict_get "state_version" e = Some (JInt (ss_state_version r)) ∧
    dict_get "state_hash" e = Some (JStr (ss_state_hash r)) ∧
    dict_get "reason" e = Some (JStr (ss_reason r)) ∧
    dict_get "created_at" e = Some (JStr (ss_created_at r)) ∧
    match p with
    | None => dict_get "base_state" e = Some (norm (JObj s))
    | Some p => dict_get "delta" e = Some (norm (_delta p s))
    end.
Proof.
  unfold archive_entry. set (fields := _ :: _).
  exists (sort_by key_leb (map (λ kv, (kv.1, norm kv.2)) fields)). split; [done|].
  assert (Hn : NoDup (map fst fields)).
  { unfold fields. destruct p; apply (bool_decide_unpack _); vm_compute; exact I. }
  split_and!; try by rewrite dict_get_norm.
  destruct p; by rewrite dict_get_norm.
Qed.

(** States that follow one another without confusion. *)
Fixpoint steady (previous : option dict) (states : list dict) : Prop :=
  match states with
  | [] => True
  | s :: states =>
      match previous with Some p => unconfused p s | None => True end ∧ steady (Some s) states
  end.

Definition same_state (s s' : dict) : Prop :=
  NoDup (map fst s) ∧ NoDup (map fst s') ∧ dict_equiv s s'.
Lemma same_state_text s s' : same_state s s' → canonical_json (JObj s) = canonical_json (JObj s').
Proof. intros (H1 & H2 & H3). by apply equiv_canonical. Qed.

Lemma replay_entries rows previous state :
  Forall (λ rs, reads_as rs.1 rs.2) rows → steady previous (map snd rows) →
  match previous, state with
  | None, None => True
  | Some p, Some s => same_state s p
  | _, _ => False
  end →
  ∃ states, replay (map norm (entries_of previous rows)) state = Ok states ∧
    Forall2 same_state states (map snd rows) ∧
    verify_entries (map norm (entries_of previous rows)) state = Ok tt.
Proof.
  revert previous state. induction rows as [|[r s] rows IH]; intros previous state Hr Hs Hp.
  { by exists []. }
  inversion Hr as [|? ? Hrs Hrest]; subst. simpl in Hrs. destruct Hs as [Hu Hs].
  destruct (entry_fields r previous s) as (e & He & _ & _ & Hh & _ & _ & Hb).
  assert (Hw : NoDup (map fst s)) by by apply reads_as_wf, wf_obj in Hrs as [? _].
  assert (∃ s', match state with
                | None => match dict_get "base_state" e with
                          | Some (JObj base) => Ok base
                          | _ => Raise (IntegrityError "snapshot archive base state is invalid")
                          end
                | Some state => _apply_delta state (dict_get "delta" e)
                end = Ok s' ∧ same_state s' s) as (s' & Es & Hsame).
  { destruct previous as [p|], state as [st|]; try done.
    - destruct Hp as (H1 & H2 & H3). rewrite Hb.
      destruct (apply_norm_delta p s Hw st H1 H3) as (m & -> & Hm & Hk).
      exists m. split; [done|]. split; [done|]. split; [done|]. intros k.
      rewrite Hk. by apply replayed_exact.
    - rewrite Hb. eexists. split; [done|]. split; [|split; [done|]].
      + rewrite sort_by_perm map_map. done.
      + intros k. rewrite dict_get_norm //. destruct (dict_get k s); [|done]. simpl.
        by rewrite canonical_norm. }
  destruct (IH (Some s) (Some s') Hrest Hs Hsame) as (states & E & Hst & Hv).
  cbn [entries_of map]. rewrite He. exists (s' :: states). cbn [replay verify_entries].
  rewrite Es. cbn [mbind result_bind]. rewrite E. cbn [mbind result_bind]. rewrite Hh.
  split; [done|]. split; [by constructor|].
  assert (content_hash (JObj s') = ss_state_hash r) as ->.
  { destruct Hrs as [_ <-]. unfold content_hash. by rewrite (same_state_text _ _ Hsame). }
  by rewrite bool_decide_true.
Qed.
End archive.
