(* ===== verification/SnapshotCompact.v ===== *)
(** * Compaction loses no snapshot

    Whatever runs between its transactions, [compact] removes a snapshot
    only when an archive gives the very row back and the retained number of
    newer snapshots of the subject are still stored. *)

From stdpp Require Import sorting.
From S2P Require Import Prelude Tables PyStr Json Digest Time Sorting Base64 PyDict KernelDb.
From S2P Require Import Events Snapshots SnapshotDelta SnapshotArchive.
Local Open Scope Z_scope.

(** ** Reading an archive back *)

(** The row of an entry whose state was replayed. *)
Definition rebuild_row (subject_id : string) (entry : json) (state : dict)
    : option state_snapshot_row :=
  match entry with
  | JObj e =>
      match dict_get "snapshot_id" e, dict_get "state_version" e, dict_get "state_hash" e,
            dict_get "reason" e, dict_get "created_at" e with
      | Some (JStr i), Some (JInt v), Some (JStr h), Some (JStr re), Some (JStr c) =>
          Some {| ss_snapshot_id := i; ss_subject_id := subject_id; ss_state_version := v;
                  ss_state_json := canonical_json (JObj state); ss_state_hash := h;
                  ss_reason := re; ss_created_at := c |}
      | _, _, _, _, _ => None
      end
  | _ => None
  end.
Fixpoint rebuild_rows (subject_id : string) (entries : list json) (states : list dict)
    : option (list state_snapshot_row) :=
  match entries, states with
  | [], [] => Some []
  | e :: entries, s :: states =>
      r ← rebuild_row subject_id e s; rows ← rebuild_rows subject_id entries states; Some (r :: rows)
  | _, _ => None
  end.

Section compact.
Context {Dg : Digest} {Ho : Host} {Zl : Zlib}.

Definition restore (a : snapshot_archive_row) : option (list state_snapshot_row) :=
  raw ← zlib_decompress (sa_compressed_payload a);
  match loads_bytes raw with
  | Ok (JObj m) =>
      match dict_get "entries" m with
      | Some (JList entries) =>
          match replay entries None with
          | Ok states => rebuild_rows (sa_subject_id a) entries states
          | Raise _ => None
          end
      | _ => None
      end
  | _ => None
  end.

(** [zlib.decompress] undoes [zlib.compress]. *)
Hypothesis zlib_law : ∀ s, zlib_decompress (zlib_compress s) = Some s.

Lemma rebuild_entries sid p rows states :
  Forall (λ rs, ss_subject_id rs.1 = sid ∧ ss_state_json rs.1 = canonical_json (JObj rs.2)) rows →
  Forall2 same_state states (map snd rows) →
  rebuild_rows sid (map norm (entries_of p rows)) states = Some (map fst rows).
Proof.
  revert p states. induction rows as [|[r s] rows IH]; intros p states Hr Hs.
  { by inversion Hs. }
  inversion Hs as [|s' ? states' ? Hsame Hs']; subst. inversion Hr as [|? ? [<- Hj] Hr']; subst.
  destruct (entry_fields r p s) as (e & He & E1 & E2 & E3 & E4 & E5 & _).
  cbn [entries_of map rebuild_rows fst snd]. rewrite He. unfold rebuild_row.
  rewrite E1 E2 E3 E4 E5 (IH (Some s) states' Hr' Hs') (same_state_text _ _ Hsame).
  cbn [fst snd] in Hj.
  rewrite -Hj. by destruct r.
Qed.

Definition archive_of (a : snapshot_archive_row) (rows : list (state_snapshot_row * dict)) : Prop :=
  sa_compressed_payload a = zlib_compress (utf8_encode (canonical_json (payload_of rows))) ∧
  sa_payload_hash a = content_hash (payload_of rows) ∧
  sa_compressed_hash a = compressed_hash (sa_compressed_payload a) ∧
  sa_snapshot_count a = Z.of_nat (length rows).

Lemma entries_length p rows : length (entries_of p rows) = length rows.
Proof. revert p. induction rows as [|[r s] rows IH]; intros p; simpl; auto. Qed.

Lemma content_hash_norm v : content_hash (norm v) = content_hash v.
Proof. unfold content_hash. by rewrite canonical_norm. Qed.

(** An archive made from readable rows verifies and gives them back. *)
Lemma archive_restores a rows :
  archive_of a rows →
  Forall (λ rs, reads_as rs.1 rs.2 ∧ ss_subject_id rs.1 = sa_subject_id a ∧
                ss_state_json rs.1 = canonical_json (JObj rs.2)) rows →
  steady None (map snd rows) →
  verify_archive a = Ok tt ∧ restore a = Some (map fst rows).
Proof.
  intros (E1 & E2 & E3 & E4) Hr Hs.
  assert (Hreads : Forall (λ rs, reads_as rs.1 rs.2) rows)
    by (eapply Forall_impl; [exact Hr|]; by intros ? [? _]).
  assert (Hw : wf_json (payload_of rows)).
  { apply wf_payload. eapply Forall_impl; [exact Hreads|]. intros [r s] H. exact (reads_as_wf _ _ H). }
  destruct (replay_entries rows None None Hreads Hs I) as (states & Hrep & Hst & Hv).
  set (fields := [("format", JStr archive_format); ("entries", JList (entries_of None rows))]%string).
  assert (Hload : loads_bytes (utf8_encode (canonical_json (payload_of rows)))
    = Ok (norm (payload_of rows))).
  { unfold loads_bytes. rewrite utf8_roundtrip. by apply loads_canonical. }
  assert (Hget : dict_get "entries" (sort_by key_leb (map (λ kv, (kv.1, norm kv.2)) fields))
    = Some (JList (map norm (entries_of None rows)))).
  { rewrite dict_get_norm; [apply (bool_decide_unpack _); vm_compute; exact I|].
    unfold fields. rewrite !dict_get_cons. change ("format" == "entries") with false.
    by change ("entries" == "entries") with true. }
  assert (Hnorm : norm (payload_of rows)
    = JObj (sort_by key_leb (map (λ kv, (kv.1, norm kv.2)) fields))) by done.
  split.
  - unfold verify_archive. rewrite E3 bool_decide_true //. cbn [negb]. rewrite E1 zlib_law Hload.
    cbn [mbind result_bind]. rewrite {1}Hnorm Hget.
    rewrite content_hash_norm E2 E4 length_map entries_length Z.eqb_refl bool_decide_true //.
  - unfold restore. rewrite E1 zlib_law. cbn [mbind option_bind].
    rewrite Hload Hnorm Hget Hrep. apply rebuild_entries; [|done].
    eapply Forall_impl; [exact Hr|]. by intros ? [_ ?].
Qed.

(** ** What may happen to the store *)

(** Snapshots of [subject_id] from version [v] on. *)
Definition above (subject_id : string) (v : Z) (d : core_db) : Z :=
  count_where (λ r, (ss_subject_id r == subject_id) && (v <=? ss_state_version r))
    (state_snapshots d).
(** An archive gives the row back. *)
Definition restorable (d : core_db) (r : state_snapshot_row) : Prop :=
  ∃ a rows, a ∈ snapshot_archives d ∧ sa_subject_id a = ss_subject_id r ∧
    restore a = Some rows ∧ r ∈ rows.
(** The row was written by [_save_connection] with values in [P]. *)
Definition saved (P : json → Prop) (r : state_snapshot_row) : Prop :=
  ∃ s, reads_as r s ∧ ss_state_json r = canonical_json (JObj s) ∧ Forall (λ kv, P kv.2) s.

Record snap_ok (P : json → Prop) (d : core_db) : Prop := {
  snap_ids : NoDup (map ss_snapshot_id (state_snapshots d));
  snap_versions : NoDup (map (λ r, (ss_subject_id r, ss_state_version r)) (state_snapshots d));
  snap_saved : Forall (saved P) (state_snapshots d);
  snap_archives : Forall (λ a, verify_archive a = Ok tt) (snapshot_archives d);
}.

(** From [d] to [d'] no snapshot is lost. *)
Record no_loss (P : json → Prop) (k : Z) (d d' : core_db) : Prop := {
  loss_ok : snap_ok P d';
  loss_archives : snapshot_archives d ⊆ snapshot_archives d';
  loss_rows : ∀ r, r ∈ state_snapshots d →
    r ∈ state_snapshots d' ∨
    (restorable d' r ∧ k <= above (ss_subject_id r) (ss_state_version r + 1) d');
}.
Definition evolves (P : json → Prop) (k : Z) (d d' : core_db) : Prop :=
  snap_ok P d → no_loss P k d d'.

Lemma above_antitone sid v v' d : v <= v' → above sid v' d <= above sid v d.
Proof.
  intros H. unfold above, count_where. apply inj_le. unfold select.
  induction (state_snapshots d) as [|r l IH]; simpl; [done|].
  destruct (ss_subject_id r == sid); simpl; [|done].
  destruct (v' <=? ss_state_version r) eqn:E1, (v <=? ss_state_version r) eqn:E2; simpl; lia.
Qed.

Section keep.
Variables (P : json → Prop) (k : Z).

Lemma above_mono sid v d d' :
  snap_ok P d → no_loss P k d d' → k <= above sid v d → k <= above sid v d'.
Proof.
  intros Hd Hl Hk. set (p := λ r, (ss_subject_id r == sid) && (v <=? ss_state_version r)) in *.
  destruct (decide (Forall (λ r, r ∈ state_snapshots d') (select p (state_snapshots d))))
    as [H|H].
  - etrans; [exact Hk|]. apply inj_le, submseteq_length, NoDup_submseteq.
    + apply (NoDup_fmap_1 ss_snapshot_id), NoDup_select, (snap_ids _ _ Hd).
    + intros r Hr. rewrite -> Forall_forall in H. pose proof (H r Hr).
      apply elem_of_select in Hr as [_ Hr]. by apply elem_of_select.
  - apply not_Forall_Exists in H; [|apply _]. apply Exists_exists in H as (r & Hr & Hn).
    apply elem_of_select in Hr as [Hr [Hs%bool_decide_eq_true Hv]%andb_prop].
    destruct (loss_rows _ _ _ _ Hl r Hr) as [?|[_ Hab]]; [done|]. rewrite Hs in Hab.
    pose proof (above_antitone sid v (ss_state_version r + 1) d'). lia.
Qed.
Lemma restorable_mono d d' r :
  snapshot_archives d ⊆ snapshot_archives d' → restorable d r → restorable d' r.
Proof. intros H (a & rows & Ha & ?). exists a, rows. split; [by apply H|done]. Qed.

Lemma no_loss_refl d : snap_ok P d → no_loss P k d d.
Proof. intros. split; auto. Qed.
Lemma no_loss_trans d1 d2 d3 :
  snap_ok P d1 → no_loss P k d1 d2 → no_loss P k d2 d3 → no_loss P k d1 d3.
Proof.
  intros H1 H12 H23. pose proof (loss_ok _ _ _ _ H12) as H2. split; [apply H23| |].
  - etrans; [apply H12|apply H23].
  - intros r Hr. destruct (loss_rows _ _ _ _ H12 r Hr) as [Hr2|[Hres Hk]].
    + by apply (loss_rows _ _ _ _ H23).
    + right. split; [by eapply restorable_mono; [apply H23|]|by eapply above_mono].
Qed.
#[local] Instance evolves_preorder : PreOrder (evolves P k).
Proof.
  split; [intros d Hd; by apply no_loss_refl|].
  intros d1 d2 d3 H12 H23 H1. eapply no_loss_trans; [done|by apply H12|]. apply H23, H12, H1.
Qed.

(** ** Publishing a batch *)

(** What a batch must be when it is published: old rows of one subject,
    with [c] a version that the [k] newest have reached. *)
Definition old_rows (sid : string) (c : Z) (rows : list state_snapshot_row) : Prop :=
  Forall (λ r, ss_subject_id r = sid ∧ ss_state_version r < c) rows.

Lemma unchanged_elem sid r d : unchanged sid r d = true → ss_subject_id r = sid →
  r ∈ state_snapshots d.
Proof.
  unfold unchanged. intros H Hs. destruct (fetchone _ _) as [r'|] eqn:E; [|done].
  apply fetchone_Some in E as [Hr' [Hi%bool_decide_eq_true _]%andb_prop].
  repeat apply andb_prop in H as [H ?]. repeat match goal with
  | H : bool_decide _ = true |- _ => apply bool_decide_eq_true in H
  | H : (_ =? _) = true |- _ => apply Z.eqb_eq in H
  end.
  destruct r, r'; simpl in *; by subst.
Qed.
Lemma ok_checks sid rows u w w' :
  ok (for_each (λ row, same ← gets (unchanged sid row);
                       raise_if (negb same) CompactionConflict) rows) w u w' →
  w' = w ∧ Forall (λ r, unchanged sid r (db w) = true) rows.
Proof.
  destruct u. revert w. induction rows as [|r rows IH]; intros w H%ok_for_each; [done|].
  destruct H as (w1 & H1 & H2). invert_ok. apply IH in H2 as [-> H2]. split; [done|].
  constructor; [by apply negb_false_iff|done].
Qed.

(** The rows of a batch with the states they hold. *)
Definition states_of (rows : list state_snapshot_row) (l : list (state_snapshot_row * dict)) : Prop :=
  map fst l = rows ∧ Forall (λ rs, reads_as rs.1 rs.2) l.

Hypothesis values : distinguishes P.
Lemma distinguishes_unconfused s s' :
  Forall (λ kv, P kv.2) s → Forall (λ kv, P kv.2) s' → unconfused s s'.
Proof.
  rewrite !Forall_forall. intros H H' key u v E%dict_get_elem E'%dict_get_elem.
  apply values; [by apply (H _ E)|by apply (H' _ E')].
Qed.
Lemma distinguishes_steady p l :
  match p with Some s => Forall (λ kv, P kv.2) s | None => True end →
  Forall (λ s, Forall (λ kv, P kv.2) s) l → steady p l.
Proof.
  intros Hp Hl. revert p Hp. induction Hl as [|s l Hs Hl IH]; intros p Hp; simpl; [done|].
  split; [|by apply IH]. destruct p; [by apply distinguishes_unconfused|done].
Qed.
Lemma states_saved rows l :
  states_of rows l → Forall (saved P) rows →
  Forall (λ rs, ss_state_json rs.1 = canonical_json (JObj rs.2) ∧ Forall (λ kv, P kv.2) rs.2) l.
Proof.
  intros [<- Hl] Hs. rewrite List.Forall_map in Hs. rewrite -> !Forall_forall in *. intros [r s] Hin.
  destruct (Hs _ Hin) as (s' & Hr & ? & ?). pose proof (Hl _ Hin) as Hr'. simpl in *.
  by rewrite -(reads_as_inj _ _ _ Hr Hr').
Qed.

(** The tables after the transaction. *)
Definition published (sid : string) (rows : list state_snapshot_row) (a : snapshot_archive_row)
    (d : core_db) : core_db :=
  set_state_snapshots (select (λ r, negb ((ss_subject_id r == sid)
      && bool_decide (ss_snapshot_id r ∈ map ss_snapshot_id rows))))
    (set_snapshot_archives (append_row a) d).

Section publish.
Variables (sid : string) (c : Z) (rows : list state_snapshot_row)
  (l : list (state_snapshot_row * dict)) (a : snapshot_archive_row) (d : core_db).
Hypothesis rows_states : states_of rows l.
Hypothesis rows_old : old_rows sid c rows.
Hypothesis rows_in : Forall (λ r, r ∈ state_snapshots d) rows.
Hypothesis a_subject : sa_subject_id a = sid.
Hypothesis a_archive : archive_of a l.
Hypothesis d_ok : snap_ok P d.
Hypothesis d_above : k <= above sid c d.

Lemma row_old r : r ∈ rows → ss_subject_id r = sid ∧ ss_state_version r < c.
Proof. intros Hr. exact (proj1 (Forall_forall _ _) rows_old r Hr). Qed.
Lemma row_in r : r ∈ rows → r ∈ state_snapshots d.
Proof. intros Hr. exact (proj1 (Forall_forall _ _) rows_in r Hr). Qed.
Lemma removed_iff r : r ∈ state_snapshots d →
  (ss_subject_id r == sid) && bool_decide (ss_snapshot_id r ∈ map ss_snapshot_id rows) = true
  ↔ r ∈ rows.
Proof.
  intros Hr. rewrite andb_true_iff !bool_decide_eq_true. split.
  - intros [_ (r' & E & Hr')%list_elem_of_fmap].
    by rewrite (key_unique ss_snapshot_id _ r r' (snap_ids _ _ d_ok) Hr (row_in _ Hr') E).
  - intros H. split; [apply (row_old r H)|by apply list_elem_of_fmap_2].
Qed.
Lemma published_above v : c <= v → above sid v (published sid rows a d) = above sid v d.
Proof.
  intros Hv. unfold above, count_where, published, select. simpl. f_equal.
  assert (Hin : ∀ r, r ∈ state_snapshots d → r ∈ state_snapshots d) by done.
  revert Hin. generalize (state_snapshots d) at 1 3 4. induction l0 as [|r t IH]; intros Hin; [done|].
  cbn [List.filter]. specialize (IH (λ r Hr, Hin r (there _ _ _ Hr))).
  pose proof (removed_iff r (Hin r (here _ _))) as Hrm.
  destruct ((ss_subject_id r == sid) && _) eqn:E.
  - assert (Hr : r ∈ rows) by by apply Hrm. destruct (row_old r Hr) as [_ Hc]. cbn [negb].
    rewrite IH. replace (v <=? ss_state_version r) with false by lia. by rewrite andb_false_r.
  - cbn [negb List.filter]. destruct (_ && (v <=? _)); [|done]. cbn [length]. by rewrite IH.
Qed.
Lemma batch_archive : verify_archive a = Ok tt ∧ restore a = Some rows.
Proof.
  assert (Hsaved : Forall (saved P) rows).
  { apply Forall_forall. intros r Hr. apply (proj1 (Forall_forall _ _) (snap_saved _ _ d_ok)).
    by apply row_in. }
  pose proof (states_saved _ _ rows_states Hsaved) as Hs. destruct rows_states as [El Hl].
  rewrite -El. apply archive_restores; [done| |].
  - rewrite a_subject. rewrite -> Forall_forall in Hs, Hl |- *. intros rs Hrs.
    split; [by apply Hl|]. split; [|by apply (Hs rs Hrs)].
    apply row_old. rewrite -El. by apply list_elem_of_fmap_2.
  - apply distinguishes_steady; [done|]. rewrite List.Forall_map.
    eapply Forall_impl; [exact Hs|by intros ? [_ ?]].
Qed.
Lemma published_no_loss :
  no_loss P k d (published sid rows a d) ∧ k <= above sid c (published sid rows a d).
Proof.
  destruct d_ok as [H1 H2 H3 H4]. destruct batch_archive as [Hv Hres].
  split; [|by rewrite published_above]. split; simpl.
  - split; simpl; [by apply NoDup_select..| |by apply Forall_append].
    rewrite -> Forall_forall in H3 |- *. intros r [? _]%elem_of_select. by apply H3.
  - intros x Hx. apply elem_of_append. by left.
  - intros r Hr. rewrite elem_of_select. pose proof (removed_iff r Hr) as Hrm.
    destruct (_ && _); [right|by left]. assert (r ∈ rows) as Hin by by apply Hrm.
    destruct (row_old r Hin) as [Hsid Hc]. split.
    + exists a, rows. split; [by apply elem_of_append; right|]. by rewrite a_subject.
    + rewrite Hsid. etrans; [|apply (above_antitone _ _ c); lia]. by rewrite published_above.
Qed.
End publish.

(** ** Reading a batch *)

Lemma subject_versions sid d :
  snap_ok P d → NoDup (map ss_state_version (snapshots_of sid d)).
Proof.
  intros Hd. apply (NoDup_fmap_1 (pair sid)).
  assert (E : map (pair sid) (map ss_state_version (snapshots_of sid d))
    = map (λ r, (ss_subject_id r, ss_state_version r)) (snapshots_of sid d)).
  { rewrite map_map. apply map_ext_in. intros r Hr%list_elem_of_In.
    apply elem_of_select in Hr as [_ <-%bool_decide_eq_true]. done. }
  change (NoDup (map (pair sid) (map ss_state_version (snapshots_of sid d)))).
  rewrite E. apply NoDup_select, Hd.
Qed.

Variable cb : option (C unit).

Lemma ok_read_batch d sid c rl bl rows result mat w l w' :
  ok (read_batch d sid rl bl cb rows result mat) w l w' →
  old_rows sid c rows → old_rows sid c result → old_rows sid c l.
Proof.
  revert result mat w. induction rows as [|r rows IH]; intros result mat w H Hr Hres;
    cbn [read_batch] in H; [by invert_ok|].
  apply ok_bind in H as (? & w1 & _ & H). inversion Hr as [|? ? Hr1 Hr2]; subst.
  destruct (if bool_decide (result = []) then _ else _); [by invert_ok|].
  destruct (fetchone _ _) as [full|]; [|by apply ok_raise in H].
  apply ok_bind in H as (? & w2 & _ & H). set (res' := _ ++ _) in H.
  assert (old_rows sid c res') by (apply Forall_app; split; [done|by constructor]).
  destruct (_ <=? _); [by invert_ok|]. by eapply IH.
Qed.
Lemma ok_build rows previous entries raw w es n w' :
  ok (build_entries cb rows previous entries raw) w (es, n) w' →
  ∃ l, states_of rows l ∧ es = entries ++ entries_of previous l.
Proof.
  revert previous entries raw w. induction rows as [|r rows IH]; intros previous entries raw w H;
    cbn [build_entries] in H.
  { apply ok_ret in H as [[= <- _] _]. exists []. by rewrite app_nil_r. }
  apply ok_bind in H as (? & w1 & _ & H). apply ok_bind in H as (v & w2 & Hv & H).
  apply ok_lift in Hv as [Hv _]. destruct v as [| | | | |s]; try by apply ok_raise in H.
  apply ok_bind in H as (? & w3 & Hh & H). apply ok_raise_if in Hh as [Hh _].
  apply IH in H as (l & [<- Hl] & ->). exists ((r, s) :: l). split; [split; [done|]|].
  - constructor; [|done]. split; [done|]. simpl.
    by apply negb_false_iff, bool_decide_eq_true in Hh.
  - by rewrite -app_assoc.
Qed.

(** ** The loop *)

(** What else holds of the tables: the callback keeps it, and so does the
    deletion of rows that nothing refers to. *)
Variable also : core_db → Prop.
Hypothesis callback : ∀ w, snap_ok P (db w) → also (db w) →
  no_loss P k (db w) (db (_checkpoint cb w).2) ∧ also (db (_checkpoint cb w).2).
Hypothesis also_published : ∀ sid rows a d, also d →
  (∀ r, r ∈ state_snapshots d → r ∉ state_snapshots (published sid rows a d) →
        snapshot_referenced d (ss_snapshot_id r) = false) →
  also (published sid rows a d).
Variable d0 : core_db.
Hypothesis d0_ok : snap_ok P d0.
(** The invariant: nothing is lost since [d0]; in the middle of an
    iteration, also the [k] snapshots from [c] on are there. *)
Definition intact (d : core_db) : Prop := no_loss P k d0 d ∧ also d.
Definition retained (sid : string) (c : Z) (d : core_db) : Prop := intact d ∧ k <= above sid c d.

Lemma intact_callback : preserves intact (_checkpoint cb).
Proof.
  intros w [Hw Ha]. destruct (callback w (loss_ok _ _ _ _ Hw) Ha) as [Hl Ha'].
  split; [|done]. by eapply no_loss_trans.
Qed.
Lemma retained_callback sid c : preserves (retained sid c) (_checkpoint cb).
Proof.
  intros w [Hw Hc]. split; [by apply intact_callback|]. destruct Hw as [Hw Ha].
  pose proof (loss_ok _ _ _ _ Hw). eapply above_mono; [done|by apply callback|done].
Qed.
Lemma preserves_read_batch I d sid rl bl rows result mat :
  preserves I (_checkpoint cb) → preserves I (read_batch d sid rl bl cb rows result mat).
Proof.
  intros Hcb. revert result mat. induction rows as [|r rows IH]; intros result mat;
    cbn [read_batch]; [by apply preserves_silent, silent_ret|].
  apply preserves_bind; [done|]. intros _.
  destruct (if bool_decide (result = []) then _ else _); [by apply preserves_silent, silent_ret|].
  destruct (fetchone _ _); [|by apply preserves_silent, silent_raise].
  apply preserves_bind; [by apply preserves_silent, silent_raise_if|]. intros _.
  destruct (_ <=? _); [by apply preserves_silent, silent_ret|]. apply IH.
Qed.
Lemma preserves_build I rows previous entries raw :
  preserves I (_checkpoint cb) → preserves I (build_entries cb rows previous entries raw).
Proof.
  intros Hcb. revert previous entries raw. induction rows as [|r rows IH]; intros previous entries raw;
    cbn [build_entries]; [by apply preserves_silent, silent_ret|].
  apply preserves_bind; [done|]. intros _.
  apply preserves_bind; [by apply preserves_silent, silent_lift|]. intros v.
  destruct v; try by apply preserves_silent, silent_raise.
  apply preserves_bind; [by apply preserves_silent, silent_raise_if|]. intros _. apply IH.
Qed.

Lemma read_retained sid keep cursor rl bl w :
  k <= keep → 1 <= keep → intact (db w) →
  match _read_compaction_batch sid keep cursor rl bl cb w with
  | (Ok rows, w') =>
      intact (db w') ∧ (rows = [] ∨ ∃ c, retained sid c (db w') ∧ old_rows sid c rows)
  | (Raise _, w') => intact (db w')
  end.
Proof.
  intros Hk H1 Hw. unfold _read_compaction_batch, mbind, M_bind, gets, mret, M_ret.
  set (recent := take _ _). destruct (_ <=? keep); [by auto|].
  destruct (recent !! _) as [cutoff|] eqn:E; [|by auto].
  set (rows := take (Z.to_nat rl) _).
  apply lookup_take_Some in E as [E _].
  assert (Hret : retained sid (ss_state_version cutoff) (db w)).
  { split; [done|]. apply cutoff_count in E. unfold above. rewrite count_subject.
    unfold snapshots_of in E. lia. }
  assert (Hold : old_rows sid (ss_state_version cutoff) rows).
  { apply Forall_forall. intros r Hr. apply elem_of_take in Hr as (i & Hr & _).
    apply list_elem_of_lookup_2, elem_of_sort_by, elem_of_select in Hr as [Hr [Hlt _]%andb_prop].
    split; [by apply elem_of_select in Hr as [_ ?%bool_decide_eq_true]|].
    eapply key_ltb_version; [apply (subject_versions sid), (loss_ok _ _ _ _ (proj1 Hw))|done| |done].
    by apply list_elem_of_lookup_2, elem_of_sort_by in E. }
  pose proof (preserves_read_batch _ (db w) sid rl bl rows [] 0
                (retained_callback sid (ss_state_version cutoff)) w Hret) as Hpres.
  destruct (read_batch _ _ _ _ _ _ _ _ w) as [[res|e] w'] eqn:Er; simpl in Hpres.
  - split; [apply Hpres|]. right. exists (ss_state_version cutoff). split; [done|].
    eapply ok_read_batch; [exact Er|done|]. by constructor.
  - apply Hpres.
Qed.

Lemma publish_retained sid c rows l :
  states_of rows l → old_rows sid c rows →
  preserves (retained sid c)
    (_publish_compaction_batch sid rows (payload_of l)
       (zlib_compress (utf8_encode (canonical_json (payload_of l)))) cb).
Proof.
  intros Hl Hold. unfold _publish_compaction_batch.
  apply preserves_bind; [apply retained_callback|]. intros _.
  apply preserves_bind; [|intros _; apply retained_callback].
  apply preserves_transaction. intros w u w' H [[Hw Ha] Hc]. pose proof (loss_ok _ _ _ _ Hw) as Hok.
  apply ok_bind in H as (? & w1 & [-> Hun]%ok_checks & H).
  unfold cnew_id, cutc_now, insert_archive, delete_snapshots, cconstraint in H.
  set (a := λ i now, {| sa_archive_id := i; sa_subject_id := sid;
      sa_first_version := first_version rows; sa_last_version := last_version rows;
      sa_snapshot_count := Z.of_nat (length rows);
      sa_compressed_payload := zlib_compress (utf8_encode (canonical_json (payload_of l)));
      sa_payload_hash := content_hash (payload_of l);
      sa_compressed_hash := compressed_hash
        (zlib_compress (utf8_encode (canonical_json (payload_of l)))); sa_created_at := now |}).
  assert (∃ i now, db w' = published sid rows (a i now) (db w) ∧
    ∀ r, r ∈ state_snapshots (db w) → r ∉ state_snapshots (db w') →
         snapshot_referenced (db w) (ss_snapshot_id r) = false) as (i & now & E & Hfree).
  { repeat (apply ok_bind in H as (? & ? & ? & H)). invert_ok. do 2 eexists. split; [done|].
    match goal with Hf : negb (forallb _ _) = false |- _ => apply negb_false_iff in Hf;
      rewrite -> forallb_forall in Hf; rename Hf into Hfree end.
    intros r Hr Hn. apply negb_true_iff, Hfree, list_elem_of_In, elem_of_select. split; [done|].
    apply not_false_is_true. intros E. apply Hn, elem_of_select. by rewrite E. }
  destruct (published_no_loss sid c rows l (a i now) (db w)) as [Hn Hk]; try done.
  - apply Forall_forall. intros r Hr. apply unchanged_elem with sid.
    + exact (proj1 (Forall_forall _ _) Hun r Hr).
    + exact (proj1 (proj1 (Forall_forall _ _) Hold r Hr)).
  - split_and!; try done. destruct Hl as [<- _]. simpl. by rewrite length_map.
  - rewrite E in Hfree |- *. split; [|done]. split; [by eapply no_loss_trans|].
    by apply also_published.
Qed.

Lemma once_intact sid b st :
  k <= cb_keep b → 1 <= cb_keep b → preserves intact (compact_once sid b cb st).
Proof.
  intros Hk H1. unfold compact_once. apply preserves_bind; [apply intact_callback|]. intros _.
  destruct (_ || _); [by apply preserves_silent, silent_ret|]. intros w Hw.
  set (rl := remaining _ _ _). set (bl := remaining (cb_batch_bytes b) _ _).
  unfold mbind at 1, M_bind at 1.
  pose proof (read_retained sid (cb_keep b) (cs_cursor st) rl bl w Hk H1 Hw) as Hr.
  destruct (_read_compaction_batch _ _ _ _ _ _ w) as [[rows|e] w1]; [|done].
  destruct Hr as [Hi Hr]. destruct (last rows) as [lr|] eqn:El; [|done].
  destruct Hr as [->|(c & Hc & Hold)]; [done|].
  set (m := _ ≫= _). enough (Hm : preserves (retained sid c) m) by apply (Hm w1 Hc).
  clear - callback also_published Hold d0_ok values zlib_law. unfold m.
  apply preserves_bind; [apply retained_callback|]. intros _.
  apply preserves_bind_ok.
  { apply preserves_bind; [apply preserves_build, retained_callback|]. intros [es n].
    by apply preserves_silent, silent_ret. }
  intros w [payload n] w1 H. apply ok_bind in H as ([es n'] & w2 & H & [[= <- <-] _]%ok_ret).
  apply ok_build in H as (l & Hl & ->). cbn [app].
  change (JObj _) with (payload_of l).
  destruct (match cb_bytes b with Some _ => _ | None => _ end);
    [by apply preserves_silent, silent_ret|].
  apply preserves_bind; [apply retained_callback|]. intros _.
  apply preserves_bind; [|intros p].
  - apply preserves_catch.
    + apply preserves_bind; [by apply publish_retained|]. intros _.
      by apply preserves_silent, silent_ret.
    + intros e m' Em. destruct e; simplify_eq. by apply preserves_silent, silent_ret.
  - destruct (negb p).
    + destruct (8 <=? _); by apply preserves_silent, silent_ret.
    + apply preserves_bind; [apply retained_callback|]. intros _.
      by apply preserves_silent, silent_ret.
Qed.
Lemma loop_intact fuel sid b st :
  k <= cb_keep b → 1 <= cb_keep b → preserves intact (compact_loop fuel sid b cb st).
Proof.
  intros Hk H1. revert st. induction fuel as [|fuel IH]; intros st; simpl;
    [by apply preserves_silent, silent_ret|].
  apply preserves_bind; [by apply once_intact|]. intros [st'|]; [apply IH|].
  by apply preserves_silent, silent_ret.
Qed.
End keep.

(** What a program does to the store, whatever it returns. *)
Definition always {A} (R : core_db → core_db → Prop) (m : C A) : Prop :=
  ∀ w, R (db w) (db (m w).2).

Lemma bounds_keep q b : compact_bounds_of q = Ok b → 2 <= cb_keep b.
Proof.
  unfold compact_bounds_of. destruct (budget (cq_max_rows q) _ _); [|done].
  simpl. destruct (budget (cq_max_bytes q) _ _); [|done]. intros [= <-]. simpl. unfold clamp. lia.
Qed.

Lemma compact_keeps P k also fuel sid q cb :
  distinguishes P →
  (∀ b, compact_bounds_of q = Ok b → k <= cb_keep b) →
  (∀ w, snap_ok P (db w) → also (db w) →
     no_loss P k (db w) (db (_checkpoint cb w).2) ∧ also (db (_checkpoint cb w).2)) →
  (∀ sid rows a d, also d →
     (∀ r, r ∈ state_snapshots d → r ∉ state_snapshots (published sid rows a d) →
           snapshot_referenced d (ss_snapshot_id r) = false) →
     also (published sid rows a d)) →
  ∀ w, snap_ok P (db w) → also (db w) →
    no_loss P k (db w) (db (compact fuel sid q cb w).2) ∧ also (db (compact fuel sid q cb w).2).
Proof.
  intros HP Hk Hcb Hpub w Hw Ha. pose proof (no_loss_refl P k _ Hw).
  unfold compact, mbind, M_bind, lift.
  destruct (compact_bounds_of q) as [b|e] eqn:Eb; [|done]. destruct (_ || _); [done|].
  apply (loop_intact P k HP cb also Hcb Hpub (db w) Hw fuel sid b no_progress).
  - by apply Hk.
  - pose proof (bounds_keep q b Eb). lia.
  - done.
Qed.

(** C5: Compaction loses nothing.  Let the values of the stored states come
    from a class [P] on which Python's [==] is equality of texts
    ([distinguishes]; values without booleans are one), and let the snapshots
    be unique and readable and the archives verify before.  Then whatever
    other writers do between the transactions of [compact], as long as they
    lose nothing and keep to such values either: afterwards every snapshot is
    still stored, or an archive restores the very same row and at least [k]
    newer snapshots of its subject are stored, for every [k] up to the
    retained number; rows stay unique and readable, and every archive
    verifies.  (Without the condition on the values the archive of a change
    from [True] to [1] loses it: [flag_lost].) *)
Theorem compaction_safe P k fuel sid q cb :
  distinguishes P →
  (∀ b, compact_bounds_of q = Ok b → k <= cb_keep b) →
  always (evolves P k) (_checkpoint cb) →
  always (evolves P k) (compact fuel sid q cb).
Proof.
  intros HP Hk Hcb w Hw. apply (compact_keeps P k (λ _, True) fuel sid q cb HP Hk); [|done..].
  intros w' Hw' _. split; [by apply Hcb|done].
Qed.
End compact.
