(* ===== verification/SnapshotRun.v ===== *)
(** * Compaction ends, and what stops it

    A compaction with a row budget returns after a bounded number of
    iterations whatever its callback does to the store; a subject whose
    oldest snapshot is a deep-sleep checkpoint is not compacted. *)

From stdpp Require Import sorting.
From S2P Require Import Prelude Tables PyStr Json Digest Time Sorting Base64 PyDict KernelDb.
From S2P Require Import Events Snapshots SnapshotDelta SnapshotArchive SnapshotCompact.
Local Open Scope Z_scope.

Section run.
Context {Dg : Digest} {Ho : Host} {Zl : Zlib}.

(** ** Termination *)

Section budget.
Variables (sid : string) (b : compact_bounds) (cb : option (C unit)) (n : Z).
Hypothesis rows_bound : cb_rows b = Some n.

Lemma read_batch_length d rl bl rows result mat w l w' :
  ok (read_batch d sid rl bl cb rows result mat) w l w' →
  Z.of_nat (length result) < rl → Z.of_nat (length l) <= rl.
Proof.
  revert result mat w. induction rows as [|r rows IH]; intros result mat w H Hlen;
    cbn [read_batch] in H; [invert_ok; lia|].
  apply ok_bind in H as (? & w1 & _ & H).
  destruct (if bool_decide (result = []) then _ else _); [invert_ok; lia|].
  destruct (fetchone _ _) as [full|]; [|by apply ok_raise in H].
  apply ok_bind in H as (? & w2 & _ & H). set (res' := _ ++ _) in H.
  assert (E : length res' = S (length result)) by (unfold res'; rewrite length_app /=; lia).
  destruct (rl <=? Z.of_nat (length res')) eqn:Erl; [invert_ok; lia|]. eapply IH; [done|lia].
Qed.
Lemma read_length keep cursor rl bl w l w' :
  0 < rl → ok (_read_compaction_batch sid keep cursor rl bl cb) w l w' →
  Z.of_nat (length l) <= rl.
Proof.
  intros Hrl H. unfold _read_compaction_batch in H. apply ok_bind in H as (recent & w1 & _ & H).
  destruct (_ <=? keep); [apply ok_ret in H as [<- _]; simpl; lia|].
  destruct (recent !! _); [|apply ok_ret in H as [<- _]; simpl; lia].
  apply ok_bind in H as (d & w2 & _ & H). by apply read_batch_length in H.
Qed.

(** Every iteration that continues archives rows within the budget, or is
    one of at most seven conflicts in a row. *)
Lemma once_progress st w st' w' :
  ok (compact_once sid b cb st) w (Some st') w' →
  (cs_archived st < cs_archived st' <= n ∧ cs_conflicts st' = 0) ∨
  (cs_archived st' = cs_archived st ∧ cs_conflicts st' = cs_conflicts st + 1 ∧
   cs_conflicts st' < 8).
Proof.
  unfold compact_once. rewrite rows_bound. cbn [remaining]. intros H.
  apply ok_bind in H as (? & w1 & _ & H).
  destruct (_ || _) eqn:Erem; [by apply ok_ret in H as [? _]|].
  apply orb_false_elim in Erem as [Erem _].
  apply Z.leb_gt in Erem. apply ok_bind in H as (rows & w2 & Hr & H). apply read_length in Hr; [|exact Erem].
  destruct (last rows) as [lr|] eqn:El; [|by apply ok_ret in H as [? _]].
  assert (0 < Z.of_nat (length rows)) by (destruct rows; [done|simpl; lia]).
  apply ok_bind in H as (? & w3 & _ & H). apply ok_bind in H as ([payload raw] & w4 & _ & H).
  destruct (match cb_bytes b with Some _ => _ | None => _ end); [by apply ok_ret in H as [? _]|].
  apply ok_bind in H as (? & w5 & _ & H). apply ok_bind in H as (p & w6 & _ & H).
  destruct (negb p).
  - destruct (8 <=? _) eqn:E8; [by apply ok_ret in H as [? _]|].
    apply ok_ret in H as [[= <-] _]. right. simpl. lia.
  - apply ok_bind in H as (? & w7 & _ & H). apply ok_ret in H as [[= <-] _]. left. simpl. lia.
Qed.

(** The outcome of a run that did not run out of fuel. *)
Definition bounded (out : result (option compact_report)) : Prop :=
  match out with
  | Ok (Some r) => 0 <= cr_archived r <= n
  | Ok None => False
  | Raise _ => True
  end.
Lemma loop_bounded fuel st w :
  0 <= cs_archived st <= n → 0 <= cs_conflicts st < 8 →
  8 * (n - cs_archived st) + (8 - cs_conflicts st) < Z.of_nat fuel →
  bounded (compact_loop fuel sid b cb st w).1.
Proof.
  revert st w. induction fuel as [|fuel IH]; intros st w Ha Hc Hf; [lia|].
  cbn [compact_loop]. unfold mbind, M_bind.
  destruct (compact_once sid b cb st w) as [[[st'|]|e] w'] eqn:E; simpl; [|lia|done].
  apply once_progress in E. apply IH; destruct E; lia.
Qed.
(** More fuel gives the same run. *)
Lemma loop_fuel fuel more st w :
  (compact_loop fuel sid b cb st w).1 ≠ Ok None →
  compact_loop (fuel + more) sid b cb st w = compact_loop fuel sid b cb st w.
Proof.
  revert st w. induction fuel as [|fuel IH]; intros st w H; [done|].
  cbn [compact_loop Nat.add] in *. unfold mbind, M_bind in *.
  destruct (compact_once sid b cb st w) as [[[st'|]|e] w'] eqn:E; [by apply IH|done..].
Qed.
End budget.

(** A compaction with a row budget [n] ends, whatever the callback does
    to the store between its transactions: with [8 * n + 9] iterations of
    fuel or more the run is the same, and it raises or reports at most [n]
    archived snapshots. *)
Theorem compact_terminates sid q cb b n w :
  compact_bounds_of q = Ok b → cb_rows b = Some n →
  ∃ out, (∀ fuel, 8 * n + 9 <= Z.of_nat fuel → compact fuel sid q cb w = out) ∧ bounded n out.1.
Proof.
  intros Hb Hn. set (fuel0 := Z.to_nat (8 * n + 9)).
  assert (0 <= n).
  { unfold compact_bounds_of in Hb. destruct (budget (cq_max_rows q) _ _) as [x|]; [|done].
    simpl in Hb. destruct (budget (cq_max_bytes q) _ _); [|done]. injection Hb as <-.
    simpl in Hn. destruct x; simplify_eq/=. lia. }
  unfold compact, mbind, M_bind, lift. rewrite Hb. destruct (_ || _); [eexists; split; [done|simpl; lia]|].
  exists (compact_loop fuel0 sid b cb no_progress w).
  assert (Hbound : bounded n (compact_loop fuel0 sid b cb no_progress w).1)
    by (apply loop_bounded; simpl; try done; lia).
  split; [|done]. intros fuel Hf. replace fuel with (fuel0 + (fuel - fuel0))%nat by lia.
  apply loop_fuel. intros E. by rewrite E in Hbound.
Qed.

(** ** A referenced snapshot *)

(** The oldest snapshot of the subject is referenced. *)
Record stuck (sid : string) (o : state_snapshot_row) (d : core_db) : Prop := {
  sk_in : o ∈ snapshots_of sid d;
  sk_oldest : ∀ r, r ∈ snapshots_of sid d → version_leb o r = true;
  sk_referenced : snapshot_referenced d (ss_snapshot_id o) = true;
}.

Section blocked.
Variables (sid : string) (o : state_snapshot_row) (cb : option (C unit)) (P : core_db → Prop).
Definition stuck_with (d : core_db) : Prop := stuck sid o d ∧ P d.
Hypothesis callback : preserves stuck_with (_checkpoint cb).

Lemma read_batch_prefix d rl bl rows result mat w l w' :
  ok (read_batch d sid rl bl cb rows result mat) w l w' →
  map ss_snapshot_id result `prefix_of` map ss_snapshot_id l.
Proof.
  revert result mat w. induction rows as [|r rows IH]; intros result mat w H;
    cbn [read_batch] in H; [by invert_ok|].
  apply ok_bind in H as (? & w1 & _ & H).
  destruct (if bool_decide (result = []) then _ else _); [by invert_ok|].
  destruct (fetchone _ _) as [full|]; [|by apply ok_raise in H].
  apply ok_bind in H as (? & w2 & _ & H). set (res' := _ ++ _) in H.
  assert (map ss_snapshot_id result `prefix_of` map ss_snapshot_id res').
  { unfold res'. rewrite map_app. by eexists. }
  destruct (_ <=? _); [by invert_ok|]. etrans; [done|by eapply IH].
Qed.
Lemma read_batch_head d rl bl r rows w l w' :
  ok (read_batch d sid rl bl cb (r :: rows) [] 0) w l w' →
  l = [] ∨ ss_snapshot_id r ∈ map ss_snapshot_id l.
Proof.
  cbn [read_batch]. intros H. apply ok_bind in H as (? & w1 & _ & H).
  destruct (if bool_decide _ then _ else _); [left; by invert_ok|]. right.
  destruct (fetchone _ _) as [full|]; [|by apply ok_raise in H].
  apply ok_bind in H as (? & w2 & _ & H). set (res' := _ ++ _) in H.
  assert (Hp : map ss_snapshot_id res' `prefix_of` map ss_snapshot_id l).
  { destruct (_ <=? _); [by invert_ok|]. by eapply read_batch_prefix. }
  eapply elem_of_prefix; [|exact Hp]. apply here.
Qed.

(** A batch from the start holds the oldest snapshot. *)
Lemma read_oldest keep rl bl w l w' :
  stuck sid o (db w) → 0 < rl →
  ok (_read_compaction_batch sid keep None rl bl cb) w l w' →
  l = [] ∨ ss_snapshot_id o ∈ map ss_snapshot_id l.
Proof.
  intros [o_in o_oldest _] Hrl H. set (d := db w) in *. unfold _read_compaction_batch in H.
  apply ok_bind in H as (recent & w1 & [_ <-]%ok_gets & H).
  destruct (_ <=? keep); [left; by apply ok_ret in H as [<- _]|].
  destruct (recent !! _) as [cutoff|]; [|left; by apply ok_ret in H as [<- _]].
  apply ok_bind in H as (d' & w2 & [<- <-]%ok_gets & H). unfold id in H. fold d in H. simpl in H.
  set (p := λ r, _ && true) in H. pose proof (sort_by_sorted version_leb
    (select p (snapshots_of sid d))) as Hs.
  destruct (sort_by version_leb (select p (snapshots_of sid d))) as [|r rest] eqn:E.
  { rewrite take_nil in H. left. by apply ok_ret in H as [<- _]. }
  destruct (Z.to_nat rl) as [|m] eqn:Em; [lia|]. cbn [take] in H.
  assert (Hr : r ∈ snapshots_of sid d ∧ p r = true).
  { apply elem_of_select, (elem_of_sort_by version_leb). rewrite E. apply here. }
  destruct Hr as [Hr Hp]. assert (Ho' : version_leb r o = true).
  { assert (Hpo : p o = true).
    { unfold p in *. rewrite andb_true_r in Hp. rewrite andb_true_r.
      destruct (key_ltb (version_key o) (version_key cutoff)) eqn:Eo; [done|].
      assert (Hc : version_leb cutoff o = true) by (unfold version_leb; by rewrite Eo).
      assert (Hcr : version_leb cutoff r = true)
        by (eapply leb_trans; [exact Hc|by apply o_oldest]).
      unfold version_leb in Hcr. by rewrite Hp in Hcr. }
    assert (Hin : o ∈ r :: rest) by (rewrite -E; by apply elem_of_sort_by, elem_of_select).
    apply elem_of_cons in Hin as [->|Hin]; [exact (leb_refl version_leb _)|].
    inversion Hs as [|? ? _ Hall]; subst. rewrite -> Forall_forall in Hall. by apply Hall. }
  rewrite -(version_leb_antisym _ _ Ho' (o_oldest r Hr)). by eapply read_batch_head.
Qed.
Lemma delete_blocked d f rows w n w' :
  stuck sid o d → db w = set_snapshot_archives f d → ss_snapshot_id o ∈ map ss_snapshot_id rows →
  ¬ ok (delete_snapshots (λ r, (ss_subject_id r == sid)
          && bool_decide (ss_snapshot_id r ∈ map ss_snapshot_id rows))) w n w'.
Proof.
  intros [o_in _ o_referenced] Hd Ho' H. unfold delete_snapshots, cconstraint in H.
  apply ok_bind in H as (d' & w1 & [E <-]%ok_gets & H). unfold id in E. rewrite Hd in E. subst d'.
  apply ok_bind in H as (? & w2 & [Hf _]%ok_raise_if & _). apply negb_false_iff in Hf.
  rewrite -> forallb_forall in Hf. specialize (Hf o).
  assert (Hn : negb (snapshot_referenced (set_snapshot_archives f d) (ss_snapshot_id o)) = false)
    by (apply negb_false_iff, o_referenced).
  rewrite Hn in Hf. discriminate Hf. apply list_elem_of_In, elem_of_select.
  pose proof o_in as [Hin Hs]%elem_of_select. split; [done|]. by rewrite Hs bool_decide_true.
Qed.
Lemma publish_blocked rows payload compressed w :
  stuck_with (db w) → ss_snapshot_id o ∈ map ss_snapshot_id rows →
  ∃ e w', _publish_compaction_batch sid rows payload compressed cb w = (Raise e, w') ∧
    stuck_with (db w').
Proof.
  intros Hw Ho'. unfold _publish_compaction_batch, mbind at 1, M_bind.
  specialize (callback w Hw) as Hc. destruct (_checkpoint cb w) as [[u|e] w1]; simpl in Hc;
    [|by exists e, w1].
  unfold mbind at 1, M_bind.
  destruct (transaction _ w1) as [[u'|e] w2] eqn:E;
    [exfalso|exists e, w2; split; [done|]; by rewrite (transaction_rollback _ _ _ _ E)].
  apply ok_transaction in E. apply ok_bind in E as (? & w3 & [-> _]%ok_checks & E).
  apply ok_bind in E as (i & w4 & Hi & E). apply ok_bind in E as (now & w5 & Hnow & E).
  apply ok_bind in E as (? & w6 & Ha & E). apply ok_bind in E as (n & w7 & Hdel & _).
  pose proof (λ f, delete_blocked (db w1) f rows) as Hno. revert Hdel.
  unfold insert_archive, cconstraint in Ha. unfold cnew_id in Hi. unfold cutc_now in Hnow.
  invert_ok. eapply Hno; [apply Hc|reflexivity|done].
Qed.

(** [stays m Q] : [m] keeps the subject stuck and [P] true, and what it
    returns satisfies [Q]. *)
Definition stays {A} (m : C A) (Q : A → Prop) : Prop :=
  ∀ w, stuck_with (db w) → stuck_with (db (m w).2) ∧ ∀ a w', ok m w a w' → Q a.
Lemma stays_bind {A B} (m : C A) (f : A → C B) Q R :
  stays m Q → (∀ a, Q a → stays (f a) R) → stays (m ≫= f) R.
Proof.
  intros Hm Hf w Hw. destruct (Hm w Hw) as [H1 H2]. unfold ok, mbind, M_bind.
  destruct (m w) as [[a|e] w'] eqn:E; simpl in *; [|done]. apply (Hf a); [by eapply H2|done].
Qed.
Lemma stays_ret {A} (a : A) (Q : A → Prop) : Q a → stays (mret a) Q.
Proof. intros Ha w Hw. split; [done|]. by intros ? ? [<- _]%ok_ret. Qed.
Lemma stays_preserves {A} (m : C A) : preserves stuck_with m → stays m (λ _, True).
Proof. intros Hm w Hw. split; [|done]. by apply Hm. Qed.

Lemma read_quiet keep cursor rl bl :
  preserves stuck_with (_read_compaction_batch sid keep cursor rl bl cb).
Proof.
  apply preserves_bind; [by apply preserves_silent, silent_gets|]. intros recent.
  destruct (Z.of_nat (length recent) <=? keep); [by apply preserves_silent, silent_ret|].
  destruct (recent !! _); [|by apply preserves_silent, silent_ret].
  apply preserves_bind; [by apply preserves_silent, silent_gets|]. intros d'.
  apply preserves_read_batch, callback.
Qed.

(** The batch never goes through, and the loop starts again where it was. *)
Definition at_start (st : compact_state) : Prop := cs_cursor st = None ∧ cs_archived st = 0.
Lemma once_blocked b st :
  at_start st →
  stays (compact_once sid b cb st) (λ o, match o with Some st' => at_start st' | None => True end).
Proof.
  intros [Hc Har]. unfold compact_once. rewrite Hc.
  eapply stays_bind; [apply stays_preserves, callback|]. intros _ _.
  destruct (_ || _) eqn:Erem; [by apply stays_ret|]. apply orb_false_elim in Erem as [Erem _].
  apply stays_bind with (λ rows, rows = [] ∨ ss_snapshot_id o ∈ map ss_snapshot_id rows).
  { intros w Hw. split; [|intros; eapply read_oldest; [apply Hw| |done]; lia].
    by apply read_quiet. }
  intros rows Hrows. destruct (last rows) as [lr|] eqn:El; [|by apply stays_ret].
  destruct Hrows as [->|Hrows]; [done|].
  eapply stays_bind; [apply stays_preserves, callback|]. intros _ _.
  eapply stays_bind; [apply stays_preserves|].
  { apply preserves_bind; [apply preserves_build, callback|]. intros [es n].
    by apply preserves_silent, silent_ret. }
  intros [payload n] _. destruct (match cb_bytes b with Some _ => _ | None => _ end);
    [by apply stays_ret|].
  eapply stays_bind; [apply stays_preserves, callback|]. intros _ _.
  apply stays_bind with (λ p, p = false).
  { intros w Hw. unfold ok, catch, mbind, M_bind.
    destruct (publish_blocked rows payload
      (zlib_compress (utf8_encode (canonical_json payload))) w Hw Hrows) as (e & w' & -> & Hd).
    destruct e; try (split; [done|]; by intros). split; [done|]. by intros ? ? [= <- _]. }
  intros p ->. cbn [negb]. destruct (8 <=? _); by apply stays_ret.
Qed.
Lemma loop_blocked fuel b st :
  at_start st →
  stays (compact_loop fuel sid b cb st) (λ o, ∀ r, o = Some r → cr_archived r = 0).
Proof.
  revert st. induction fuel as [|fuel IH]; intros st Hc; [by apply stays_ret|].
  cbn [compact_loop]. eapply stays_bind; [by apply once_blocked|].
  intros [st'|] H; [by apply IH|]. apply stays_ret. intros r [= <-]. apply Hc.
Qed.
End blocked.

(** C21: A referenced snapshot stops compaction.  Suppose the oldest
    snapshot of a subject is one that a deep sleep (or an identity) refers
    to.  Then [compact] of the subject archives nothing and deletes nothing,
    whatever its arguments: every batch starts with that snapshot, and the
    foreign key refuses its deletion.  Its checkpoint callback may change
    the database, as long as the snapshot stays the oldest and referenced:
    then so it is when [compact] returns or raises, and every property [P]
    of the tables that the callback keeps still holds (without a callback:
    the tables are the same); a report counts no archived snapshot. *)
Theorem referenced_blocks fuel sid q cb o (P : core_db → Prop) w :
  (∀ m w1, cb = Some m → stuck sid o (db w1) → P (db w1) →
     stuck sid o (db (m w1).2) ∧ P (db (m w1).2)) →
  stuck sid o (db w) → P (db w) →
  stuck sid o (db (compact fuel sid q cb w).2) ∧ P (db (compact fuel sid q cb w).2) ∧
  ∀ r, (compact fuel sid q cb w).1 = Ok (Some r) → cr_archived r = 0.
Proof.
  intros Hcb Hst HP. assert (callback : preserves (stuck_with sid o P) (_checkpoint cb)).
  { intros w1 [H1 H2]. destruct cb as [m|]; [by apply Hcb|done]. }
  unfold compact, mbind, M_bind, lift.
  destruct (compact_bounds_of q) as [b|]; [|done].
  destruct (_ || _); [split_and!; try done; by intros r [= <-]|].
  destruct (loop_blocked sid o cb P callback fuel b no_progress) with (w := w)
    as [[H1 H2] H3]; [done|done|].
  split_and!; [done|done|]. intros r E.
  destruct (compact_loop _ _ _ _ _ w) as [out w'] eqn:Er. simpl in E. subst out.
  by eapply H3.
Qed.
End run.
