(* ===== verification/SnapshotSystem.v ===== *)
(** * The identity points at its newest snapshot

    The operations on identities and snapshots as one system: creating a
    subject, checkpoints of the runtime and of the sleep engine, renaming,
    compaction with any of the others between its transactions, and whatever
    the rest of the program does to the kernel tables.  [continuous] is the
    invariant that makes [verify_continuity] pass. *)

From stdpp Require Import sorting.
From S2P Require Import Prelude Tables PyStr Json Digest Time Sorting Base64 PyDict WalletTypes.
From S2P Require Import KernelDb Events Lifecycle Snapshots Identity SnapshotDelta.
From S2P Require Import SnapshotArchive SnapshotCompact.
Local Open Scope Z_scope.

Section system.
Context {Dg : Digest} {Ho : Host} {Zl : Zlib} {Pr : Process}.
Variable P : json → Prop.

(** ** The invariant *)

(** The identity describes no state, or its newest snapshot. *)
Definition points (d : core_db) (i : identity_row) : Prop :=
  identity_from_row i = Ok i ∧
  ((id_state_version i = 0 ∧ id_last_checkpoint i = None ∧
    ∀ r, r ∈ state_snapshots d → ss_subject_id r ≠ id_subject_id i) ∨
   (0 < id_state_version i ∧
    (∃ r, r ∈ state_snapshots d ∧ ss_subject_id r = id_subject_id i ∧
          ss_state_version r = id_state_version i ∧ id_last_checkpoint i = Some (ss_snapshot_id r)) ∧
    ∀ r, r ∈ state_snapshots d → ss_subject_id r = id_subject_id i →
         ss_state_version r <= id_state_version i)).
Record pointers (d : core_db) : Prop := {
  pointer_subjects : NoDup (map id_subject_id (identities d));
  pointer_owner : ∀ r, r ∈ state_snapshots d →
    ∃ i, i ∈ identities d ∧ id_subject_id i = ss_subject_id r;
  pointer_rows : Forall (points d) (identities d);
}.
Definition continuous (d : core_db) : Prop := snap_ok P d ∧ pointers d.
(** Also, no snapshot was lost since [d0]. *)
Definition sound (d0 d : core_db) : Prop := continuous d ∧ no_loss P 2 d0 d ∧ snap_ok P d0.

Lemma sound_refl d : continuous d → sound d d.
Proof. intros H. split; [done|]. split; [apply no_loss_refl|]; apply H. Qed.

(** Only three tables matter. *)
Definition agrees (d d' : core_db) : Prop :=
  identities d' = identities d ∧ state_snapshots d' = state_snapshots d ∧
  snapshot_archives d' = snapshot_archives d.
Lemma points_agrees d d' i : agrees d d' → points d i → points d' i.
Proof. intros (_ & E & _). unfold points. by rewrite E. Qed.
Lemma sound_agrees d0 d d' : agrees d d' → sound d0 d → sound d0 d'.
Proof.
  intros Ha [[[S1 S2 S3 S4] [P1 P2 P3]] [[L1 L2 L3] S0]]. pose proof Ha as (Ei & Es & Eh).
  assert (snap_ok P d') by (split; by rewrite ?Es ?Eh). split; [split; [done|]|].
  - split; rewrite ?Ei ?Es; [done..|]. eapply Forall_impl; [exact P3|].
    intros i. by apply points_agrees.
  - split; [|done]. split; [done|by rewrite Eh|]. intros r Hr. unfold above. rewrite Es.
    destruct (L3 r Hr) as [?|[Hres ?]]; [by left|right]. split; [|done].
    eapply restorable_mono; [|exact Hres]. by rewrite Eh.
Qed.
Lemma pointers_agrees d d' : agrees d d' → pointers d → pointers d'.
Proof.
  intros Ha [P1 P2 P3]. pose proof Ha as (Ei & Es & _). split; rewrite ?Ei ?Es; [done..|].
  eapply Forall_impl; [exact P3|]. intros i. by apply points_agrees.
Qed.
Lemma preserves_agrees {A} d0 (m : C A) :
  (∀ w, agrees (db w) (db (m w).2)) → preserves (sound d0) m.
Proof. intros Hm w Hw. eapply sound_agrees; [apply Hm|done]. Qed.
Lemma kernel_agrees {A} (m : K A) w : agrees (db w) (db (in_kernel m w).2).
Proof. unfold in_kernel, within. by destruct (m _) as [r w']. Qed.

(** ** Compaction keeps the pointers *)

Lemma pointer_referenced d i r :
  i ∈ identities d → id_last_checkpoint i = Some (ss_snapshot_id r) →
  snapshot_referenced d (ss_snapshot_id r) = true.
Proof.
  intros Hi E. unfold snapshot_referenced. apply orb_true_iff. left. apply exists_where_true.
  exists i. split; [done|]. by apply bool_decide_eq_true.
Qed.
Lemma pointers_published sid rows a d :
  pointers d →
  (∀ r, r ∈ state_snapshots d → r ∉ state_snapshots (published sid rows a d) →
        snapshot_referenced d (ss_snapshot_id r) = false) →
  pointers (published sid rows a d).
Proof.
  intros [P1 P2 P3] Hfree.
  assert (Hsub : ∀ r, r ∈ state_snapshots (published sid rows a d) → r ∈ state_snapshots d).
  { by intros r [? _]%elem_of_select. }
  split; [done|by intros r Hr; apply P2, Hsub|]. change (identities (published _ _ _ _)) with (identities d).
  rewrite -> Forall_forall in *. intros i Hi. destruct (P3 i Hi) as [Hv [(?&?&Hn)|(?&Hr&Hmax)]].
  - split; [done|]. left. split_and!; [done..|]. intros r Hr. by apply Hn, Hsub.
  - split; [done|]. right. split; [done|]. split; [|intros r ?; by apply Hmax, Hsub].
    destruct Hr as (r & Hr & ? & ? & Hc). exists r. split; [|done].
    destruct (decide (r ∈ state_snapshots (published sid rows a d))) as [|Hout]; [done|].
    specialize (Hfree r Hr Hout). by rewrite (pointer_referenced _ _ _ Hi Hc) in Hfree.
Qed.

(** ** A new checkpoint *)

(** States that can be saved: the keys are distinct, and the values read
    back are in [P]. *)
Definition storable (state : dict) : Prop :=
  wf_json (JObj state) ∧ Forall (λ kv, P (norm kv.2)) state.

Lemma saved_row r state :
  ss_state_json r = canonical_json (JObj state) → ss_state_hash r = content_hash (JObj state) →
  storable state → saved P r.
Proof.
  intros Ej Eh [Hw Hv]. set (s := sort_by key_leb (map (λ kv, (kv.1, norm kv.2)) state)).
  assert (En : JObj s = norm (JObj state)) by done. exists s. rewrite /reads_as Ej Eh En.
  rewrite content_hash_norm canonical_norm loads_canonical //. split_and!; [done..|].
  apply Forall_forall. intros kv Hkv. apply elem_of_sort_by in Hkv.
  apply list_elem_of_fmap in Hkv as (kv' & -> & Hkv). simpl.
  exact (proj1 (Forall_forall _ _) Hv kv' Hkv).
Qed.

(** The tables after a checkpoint. *)
Definition advanced (sid : string) (r : state_snapshot_row) (f : identity_row → identity_row)
    (d : core_db) : core_db :=
  set_identities (update_where (λ i, id_subject_id i == sid) f)
    (set_state_snapshots (append_row r) d).

Lemma ok_save sid state v reason o w rec w' :
  ok (_save_connection sid state v reason o) w rec w' →
  ∃ r, db w' = set_state_snapshots (append_row r) (db w) ∧
    ss_snapshot_id r = sr_snapshot_id rec ∧ ss_subject_id r = sid ∧ ss_state_version r = v ∧
    ss_state_json r = canonical_json (JObj state) ∧ ss_state_hash r = content_hash (JObj state) ∧
    (∀ x, x ∈ state_snapshots (db w) → ss_snapshot_id x ≠ ss_snapshot_id r ∧
          (ss_subject_id x, ss_state_version x) ≠ (sid, v)).
Proof.
  unfold _save_connection, insert_snapshot, bind_int, cconstraint, cnew_id, cutc_now. intros H.
  apply ok_bind in H as (? & w1 & [_ <-]%ok_raise_if & H).
  apply ok_bind in H as (? & w1 & [_ <-]%ok_raise_if & H).
  apply ok_bind in H as (i & w1 & Hi & H).
  assert (db w1 = db w) as Ew.
  { destruct o as [[|? ?]|]; invert_ok; done. }
  apply ok_bind in H as (now & w2 & [_ ->]%ok_read_clock & H).
  apply ok_bind in H as (? & w3 & Hins & H). apply ok_ret in H as [<- <-].
  set (row := {| ss_snapshot_id := i |}) in Hins.
  apply ok_bind in Hins as (? & w4 & [_ <-]%ok_raise_if & H).
  apply ok_bind in H as (d & w4 & [Ed <-]%ok_gets & H). unfold id in Ed. simpl in Ed. subst d.
  apply ok_bind in H as (? & w4 & [_ <-]%ok_raise_if & H).
  apply ok_bind in H as (? & w4 & [H1 <-]%ok_raise_if & H).
  apply ok_bind in H as (? & w4 & [H2 <-]%ok_raise_if & H).
  apply ok_bind in H as (? & w4 & [_ <-]%ok_raise_if & H). apply ok_modify in H as ->.
  apply negb_false_iff, negb_true_iff in H1, H2. rewrite -> exists_where_false in H1, H2.
  exists row. simpl. rewrite Ew in H1, H2 |- *. split_and!; [done..|]. intros y Hy.
  specialize (H1 y Hy). specialize (H2 y Hy). rewrite bool_decide_eq_false in H1.
  split; [done|]. intros [= E1 E2]. simpl in H2. rewrite E1 E2 Z.eqb_refl bool_decide_true // in H2.
Qed.
Lemma ok_update_checkpoint sid v c model w u w' :
  ok (_update_checkpoint_connection sid v c model) w u w' →
  ∃ i now, identity_of sid (db w) = Some i ∧ id_state_version i < v ∧
    db w' = set_identities (update_where (λ i, id_subject_id i == sid)
                              (with_checkpoint v c model now)) (db w).
Proof.
  unfold _update_checkpoint_connection, update_identity, cutc_now. intros H. invert_ok; try done.
  do 2 eexists. split; [done|]. split; [|done].
  match goal with H : (v <=? _) = false |- _ => apply Z.leb_gt in H; exact H end.
Qed.

Lemma identity_valid i i' :
  id_subject_id i' = id_subject_id i → id_origin_subject_id i' = id_origin_subject_id i →
  0 <= id_state_version i' → identity_from_row i = Ok i → identity_from_row i' = Ok i'.
Proof.
  unfold identity_from_row. intros -> -> Hv. destruct (validate_subject_id _); [|done]. simpl.
  destruct (match id_origin_subject_id i with Some _ => _ | None => _ end); [|done]. simpl.
  destruct (id_state_version i <? 0); [done|]. intros _.
  by replace (id_state_version i' <? 0) with false by lia.
Qed.
Lemma identity_of_elem sid d i :
  identity_of sid d = Some i → i ∈ identities d ∧ id_subject_id i = sid.
Proof. by intros [? ?%bool_decide_eq_true]%fetchone_Some. Qed.
Lemma points_nonneg d i : points d i → 0 <= id_state_version i.
Proof. intros [_ [[-> _]|[? _]]]; lia. Qed.

Section advance.
Variables (d0 d : core_db) (sid : string) (i : identity_row) (r : state_snapshot_row)
  (model : option string) (now : string).
Hypothesis d_sound : sound d0 d.
Hypothesis d_identity : identity_of sid d = Some i.
Hypothesis r_subject : ss_subject_id r = sid.
Hypothesis r_version : ss_state_version r = id_state_version i + 1.
Hypothesis r_saved : saved P r.
Hypothesis r_fresh : ∀ x, x ∈ state_snapshots d → ss_snapshot_id x ≠ ss_snapshot_id r ∧
  (ss_subject_id x, ss_state_version x) ≠ (sid, id_state_version i + 1).
Let f := with_checkpoint (id_state_version i + 1) (ss_snapshot_id r) model now.

Lemma advanced_snap : snap_ok P (advanced sid r f d).
Proof.
  destruct d_sound as [[[S1 S2 S3 S4] _] _]. split; simpl; [| |by apply Forall_append|done].
  - apply NoDup_map_snoc; [done|]. intros (x & E & Hx)%list_elem_of_fmap.
    by destruct (r_fresh x Hx) as [? _].
  - apply NoDup_map_snoc; [done|]. rewrite r_subject r_version.
    intros (x & E & Hx)%list_elem_of_fmap. by destruct (r_fresh x Hx) as [_ []].
Qed.
Lemma advanced_points j : j ∈ identities d → points d j →
  points (advanced sid r f d) (if id_subject_id j == sid then f j else j).
Proof.
  intros Hj Hpt. destruct d_sound as [[_ [P1 _ P3]] _].
  pose proof (identity_of_elem _ _ _ d_identity) as [Hi Hs].
  case_bool_decide as E.
  - assert (j = i) as -> by (eapply (key_unique id_subject_id); [exact P1|done..|congruence]).
    pose proof (points_nonneg _ _ Hpt). split; [by eapply identity_valid, Hpt; simpl; try done; lia|].
    right. simpl. split; [lia|]. split.
    + exists r. split; [by apply elem_of_append; right|]. by rewrite r_subject.
    + intros x [Hx| ->]%elem_of_append Ex; [|lia].
      destruct Hpt as [_ [(_ & _ & Hn)|(_ & _ & Hmax)]]; [by apply Hn in Hx|].
      specialize (Hmax x Hx Ex). lia.
  - destruct Hpt as [Hv [(?&?&Hn)|(?&(x & Hx & Hxs & ?)&Hmax)]].
    + split; [done|]. left. split_and!; [done..|].
      intros x [Hx| ->]%elem_of_append; [by apply Hn|]. by rewrite r_subject.
    + split; [done|]. right. split; [done|]. split.
      * exists x. split; [by apply elem_of_append; left|done].
      * intros y [Hy| ->]%elem_of_append Ey; [by apply Hmax|]. destruct E. by rewrite -Ey r_subject.
Qed.
Lemma advanced_sound : sound d0 (advanced sid r f d).
Proof.
  pose proof advanced_snap as Hsnap. pose proof advanced_points as Hpts.
  destruct d_sound as [[Sok [P1 P2 P3]] [Hl S0]]. split; [split; [done|]|].
  - split; simpl.
    + rewrite map_update //.
    + pose proof (identity_of_elem _ _ _ d_identity) as [Hi Hs].
      assert (Hown : ∀ s, (∃ j, j ∈ identities d ∧ id_subject_id j = s) →
        ∃ j, j ∈ update_where (λ j, id_subject_id j == sid) f (identities d) ∧ id_subject_id j = s).
      { intros s (j & Hj & <-). exists (if id_subject_id j == sid then f j else j).
        split; [by apply elem_of_update; exists j|]. by destruct (_ == _). }
      intros x [Hx| ->]%elem_of_append; apply Hown; [by apply P2|]. exists i. by rewrite r_subject.
    + apply Forall_forall. intros j (j0 & Hj & ->)%elem_of_update. apply Hpts; [done|].
      exact (proj1 (Forall_forall _ _) P3 j0 Hj).
  - split; [|done]. eapply no_loss_trans; [done|exact Hl|]. split; [done..|].
    intros x Hx. left. by apply elem_of_append; left.
Qed.
End advance.

(** Saving a state and moving the pointer to it, in one transaction. *)
Lemma save_and_point d0 sid state i reason model w rec w1 u w2 :
  sound d0 (db w) → storable state → identity_of sid (db w) = Some i →
  ok (_save_connection sid state (id_state_version i + 1) reason None) w rec w1 →
  ok (_update_checkpoint_connection sid (id_state_version i + 1) (sr_snapshot_id rec) model)
    w1 u w2 →
  sound d0 (db w2).
Proof.
  intros Hw Hst Hi (r & E1 & Er & Hs & Hv & Hj & Hh & Hf)%ok_save
    (i' & now & Hi' & _ & E2)%ok_update_checkpoint.
  rewrite E2 E1 -Er. apply (advanced_sound d0 (db w) sid i r model now); try done.
  by eapply saved_row.
Qed.

Lemma checkpoint_sound d0 sid state reason model :
  storable state → preserves (sound d0) (checkpoint sid state reason model).
Proof.
  intros Hst. unfold checkpoint. apply preserves_bind; [|intros _].
  { unfold _require_ownership. apply preserves_bind; [by apply preserves_silent, silent_read_clock|].
    intros held. apply preserves_bind; [by apply preserves_silent, silent_raise_if|]. intros _.
    apply preserves_bind; [by apply preserves_agrees, kernel_agrees|]. intros [];
      apply preserves_silent; solve_silent. }
  apply preserves_bind; [by apply preserves_silent, silent_raise_if|]. intros _.
  apply preserves_bind; [|intros rec; apply preserves_silent; unfold load_identity; solve_silent].
  apply preserves_transaction. intros w a w' H Hw.
  apply ok_bind in H as (? & w1 & Hg & H).
  assert (Hw1 : sound d0 (db w1)).
  { pose proof (kernel_agrees (_migration_epoch_guard sid) w) as Ha. unfold ok in Hg.
    rewrite Hg in Ha. by eapply sound_agrees. }
  apply ok_bind in H as (o & w2 & [Ei <-]%ok_gets & H). subst o.
  destruct (identity_of sid (db w1)) as [i|] eqn:Ei; [|by apply ok_raise in H].
  apply ok_bind in H as (rec & w2 & Hsave & H). apply ok_bind in H as (u & w3 & Hupd & H).
  pose proof (save_and_point _ _ _ _ _ _ _ _ _ _ _ Hw1 Hst Ei Hsave Hupd) as Hw3.
  apply ok_bind in H as (now & w4 & [_ ->]%ok_read_clock & H).
  apply ok_bind in H as (ev & w5 & Hev & H). apply ok_ret in H as [_ <-].
  eapply sound_agrees; [|exact Hw3]. match type of Hev with ok (in_kernel ?m) ?w0 _ _ =>
    pose proof (kernel_agrees m w0) as Ha end. unfold ok in Hev. by rewrite Hev in Ha.
Qed.

(** The checkpoint of a deep sleep ([SleepEngine.enter_deep_sleep]): its
    statements on these tables; [rest] stands for the lifecycle transition
    and the updates of the sleep tables in the same transaction. *)
Definition sleep_checkpoint (subject_id : string) (state : dict) (rest : K unit)
    : C SnapshotRecord :=
  transaction (
    row ← gets (identity_of subject_id);
    match row with
    | None => raise (NotFoundError ("identity not found: " +:+ subject_id))
    | Some row =>
        let state_version := id_state_version row + 1 in
        snapshot ← _save_connection subject_id state state_version
                     "sleep integration checkpoint" None;
        _update_checkpoint_connection subject_id state_version (sr_snapshot_id snapshot) None ;;
        in_kernel rest ;;
        modify (set_sleep_checkpoints (append_row (sr_snapshot_id snapshot))) ;;
        mret snapshot
    end).
Lemma sleep_sound d0 sid state rest :
  storable state → preserves (sound d0) (sleep_checkpoint sid state rest).
Proof.
  intros Hst. apply preserves_transaction. intros w a w' H Hw.
  apply ok_bind in H as (o & w2 & [Ei <-]%ok_gets & H). subst o.
  destruct (identity_of sid (db w)) as [i|] eqn:Ei; [|by apply ok_raise in H].
  apply ok_bind in H as (rec & w2 & Hsave & H). apply ok_bind in H as (u & w3 & Hupd & H).
  pose proof (save_and_point _ _ _ _ _ _ _ _ _ _ _ Hw Hst Ei Hsave Hupd) as Hw3.
  apply ok_bind in H as (? & w4 & Hk & H). pose proof (kernel_agrees rest w3) as Ha.
  unfold ok in Hk. rewrite Hk in Ha. apply ok_bind in H as (? & w5 & ->%ok_modify & H).
  apply ok_ret in H as [_ <-]. eapply sound_agrees; [|exact Hw3]. exact Ha.
Qed.

(** ** New subjects and names *)

Lemma pure_new_key n sid : pure (_new_storage_key n sid).
Proof.
  induction n as [|n IH]; cbn [_new_storage_key]; [apply pure_raise|]. unfold cnew_id.
  apply pure_bind; [apply pure_bind; [apply pure_read_fresh|intros; apply pure_ret]|]. intros c.
  destruct (_ == _); [done|]. apply pure_bind; [apply pure_gets|]. intros []; [done|apply pure_ret].
Qed.
Lemma new_identity_sound d0 d i :
  sound d0 d → identity_from_row i = Ok i → id_state_version i = 0 → id_last_checkpoint i = None →
  exists_where (λ x, id_subject_id x == id_subject_id i) (identities d) = false →
  sound d0 (set_identities (append_row i) d).
Proof.
  intros [[[S1 S2 S3 S4] [P1 P2 P3]] [[L1 L2 L3] S0]] Hi Hv Hc Hn.
  rewrite -> exists_where_false in Hn.
  assert (Hnew : ∀ j, j ∈ identities d → id_subject_id j ≠ id_subject_id i).
  { intros j Hj E. specialize (Hn j Hj). by rewrite bool_decide_eq_false in Hn. }
  split; [split; [by split|]|by split].
  split; simpl.
  - apply NoDup_map_snoc; [done|]. intros (j & E & Hj)%list_elem_of_fmap. by apply (Hnew j Hj).
  - intros r Hr. destruct (P2 r Hr) as (j & Hj & E). exists j.
    split; [by apply elem_of_append; left|done].
  - apply Forall_append; [exact P3|]. split; [done|]. left. split_and!; [done..|].
    intros r Hr E. destruct (P2 r Hr) as (j & Hj & E'). apply (Hnew j Hj). by rewrite E'.
Qed.
Lemma new_identity_valid sid genesis project origin branch now :
  validate_subject_id sid = Ok sid →
  match origin with Some o => validate_subject_id o = Ok o | None => True end →
  let i := new_identity sid genesis project origin branch now in identity_from_row i = Ok i.
Proof.
  intros Es Eo. unfold identity_from_row. cbn. rewrite Es. cbn. by destruct origin; [rewrite Eo|].
Qed.
Lemma validate_same s s' : validate_subject_id s = Ok s' → validate_subject_id s = Ok s.
Proof. unfold validate_subject_id. destruct (negb _); [done|]. by case_bool_decide. Qed.
Lemma kernel_sound {A} d0 (m : K A) w a w' :
  ok (in_kernel m) w a w' → sound d0 (db w) → sound d0 (db w').
Proof.
  intros H Hw. pose proof (kernel_agrees m w) as Ha. unfold ok in H. rewrite H in Ha.
  by eapply sound_agrees.
Qed.
Lemma ensure_new_sound d0 sid genesis project origin branch now key w a w' :
  validate_subject_id sid = Ok sid →
  match origin with Some o => validate_subject_id o = Ok o | None => True end →
  ok (insert_identity (new_identity sid genesis project origin branch now) ;;
      insert_storage_key sid key ;; in_kernel (ensure_training_policy sid now) ;;
      row ← gets (identity_of sid);
      match row with
      | Some row => lift (identity_from_row row)
      | None => raise (TypeError "'NoneType' object is not subscriptable")
      end) w a w' →
  sound d0 (db w) → sound d0 (db w').
Proof.
  intros Es Eo H Hw. set (i := new_identity sid genesis project origin branch now) in H.
  unfold insert_identity, insert_storage_key, cconstraint in H.
  apply ok_bind in H as (? & w1 & Hi & H).
  apply ok_bind in Hi as (d & w2 & [Ed <-]%ok_gets & Hi). unfold id in Ed. subst d.
  apply ok_bind in Hi as (? & w2 & [Hn <-]%ok_raise_if & Hi).
  apply negb_false_iff, negb_true_iff in Hn.
  apply ok_bind in Hi as (? & w2 & ->%ok_modify & Hi).
  apply (kernel_sound d0) in Hi; [|by apply new_identity_sound; [|apply new_identity_valid| | |]].
  apply ok_bind in H as (? & w3 & Hk & H).
  assert (Hw3 : sound d0 (db w3)).
  { invert_ok. by eapply sound_agrees; [|exact Hi]. }
  apply ok_bind in H as (? & w4 & Hp & H). apply (kernel_sound d0) in Hp; [|done].
  apply ok_bind in H as (? & w5 & [_ <-]%ok_gets & H). case_match; by invert_ok.
Qed.
Lemma ensure_sound d0 sid genesis project origin branch :
  preserves (sound d0) (ensure sid genesis project origin branch).
Proof.
  unfold ensure. apply preserves_bind_ok; [by apply preserves_silent, silent_lift|].
  intros w0 s0 w1 [Es%validate_same _]%ok_lift. clear w0 w1.
  apply preserves_bind_ok; [by apply preserves_silent, silent_lift|].
  intros w0 u0 w1 [Eo _]%ok_lift. clear w0 w1.
  assert (Hor : match origin with Some o => validate_subject_id o = Ok o | None => True end).
  { destruct origin as [o|]; [|done]. destruct (validate_subject_id o) as [s|] eqn:E; [|done].
    pose proof (validate_same _ _ E). congruence. }
  apply preserves_bind; [by apply preserves_silent, silent_raise_if|]. intros _.
  apply preserves_bind; [by apply preserves_silent, silent_read_clock|]. intros now.
  apply preserves_transaction. intros w a w' H Hw.
  apply ok_bind in H as (o & w1 & [Ei <-]%ok_gets & H). destruct o as [row|].
  - match type of H with ok ?m _ _ _ =>
      assert (Hp : pure m) by (unfold _storage_key_connection; solve_pure) end.
    by rewrite (Hp _ _ _ H).
  - apply ok_bind in H as (key & w1 & Hk%pure_new_key & H). rewrite -Hk in Hw.
    by eapply ensure_new_sound.
Qed.

Lemma rename_sound d0 d sid name now :
  sound d0 d →
  sound d0 (set_identities (update_where (λ i, id_subject_id i == sid)
              (with_personal_name name now)) d).
Proof.
  intros [[[S1 S2 S3 S4] [P1 P2 P3]] [[L1 L2 L3] S0]]. split; [split; [by split|]|by split].
  split; simpl.
  - rewrite map_update //.
  - intros r Hr. destruct (P2 r Hr) as (j & Hj & <-). eexists. split; [by apply elem_of_update; exists j|].
    by destruct (_ == _).
  - apply Forall_update; [exact P3|]. intros j _ _ [Hv Hp]. split; [|done].
    apply (identity_valid j); [done|done| |exact Hv]. exact (points_nonneg d j (conj Hv Hp)).
Qed.
Lemma set_personal_name_sound d0 sid name :
  preserves (sound d0) (set_personal_name sid name).
Proof.
  unfold set_personal_name. apply preserves_bind; [by apply preserves_silent, silent_lift|].
  intros _. apply preserves_bind; [|intros []; apply preserves_silent; solve_silent].
  apply preserves_transaction. unfold update_identity, cutc_now. intros w a w' H Hw. invert_ok.
  by apply rename_sound.
Qed.

(** ** The system *)

Inductive step : world core_db → world core_db → Prop :=
| step_ensure sid genesis project origin branch w :
    step w (ensure sid genesis project origin branch w).2
| step_checkpoint sid state reason model w :
    storable state → step w (checkpoint sid state reason model w).2
| step_sleep sid state rest w :
    storable state → step w (sleep_checkpoint sid state rest w).2
| step_name sid name w : step w (set_personal_name sid name w).2
| step_compact fuel sid q cb w :
    (∀ w, steps w (_checkpoint cb w).2) → step w (compact fuel sid q cb w).2
| step_others w w' : agrees (db w) (db w') → step w w'
with steps : world core_db → world core_db → Prop :=
| steps_nil w : steps w w
| steps_cons w w' w'' : step w w' → steps w' w'' → steps w w''.

Lemma steps_trans w w' w'' : steps w w' → steps w' w'' → steps w w''.
Proof. induction 1 as [|? ? ? Hs _ IH]; [done|]. intros H. eapply steps_cons; [exact Hs|auto]. Qed.

Scheme step_ind' := Induction for step Sort Prop
  with steps_ind' := Induction for steps Sort Prop.
Combined Scheme step_steps_ind from step_ind', steps_ind'.

Hypothesis zlib_law : ∀ s, zlib_decompress (zlib_compress s) = Some s.
Hypothesis values : distinguishes P.

Lemma sound_pair d0 d d' : sound d0 d → continuous d' → no_loss P 2 d d' → sound d0 d'.
Proof. intros (_ & Hl & S0) Hc Hl'. split; [done|]. split; [by eapply no_loss_trans|done]. Qed.
Lemma run_sound :
  (∀ w w', step w w' → ∀ d0, sound d0 (db w) → sound d0 (db w')) ∧
  (∀ w w', steps w w' → ∀ d0, sound d0 (db w) → sound d0 (db w')).
Proof.
  apply step_steps_ind.
  - intros. by apply ensure_sound.
  - intros. by apply checkpoint_sound.
  - intros. by apply sleep_sound.
  - intros. by apply set_personal_name_sound.
  - intros fuel sid q cb w _ IH d0 Hw. pose proof Hw as [[Hs Hp] _].
    destruct (compact_keeps zlib_law P 2 pointers fuel sid q cb values
      (λ b Hb, bounds_keep q b Hb)) with w as [Hl Hp']; try done.
    + intros w' Hs' Hp'. destruct (IH w' (db w')) as ([_ ?] & ? & _); [by apply sound_refl|done].
    + intros. by apply pointers_published.
    + eapply sound_pair; [exact Hw| |exact Hl]. split; [apply Hl|done].
  - intros w w' Ha d0. by apply sound_agrees.
  - done.
  - intros w w' w'' _ IH1 _ IH2 d0 Hw. by apply IH2, IH1.
Qed.
End system.
