(* ===== verification/SnapshotContinuity.v ===== *)
(** * What a runtime finds again

    In every reachable state [verify_continuity] passes, the archives
    verify, [latest] loads the state of the last checkpoint, and no snapshot
    that was ever taken is lost. *)

From stdpp Require Import sorting.
From S2P Require Import Prelude Tables PyStr Json Digest Time Sorting Base64 PyDict WalletTypes.
From S2P Require Import KernelDb Events Lifecycle Snapshots Identity SnapshotDelta.
From S2P Require Import SnapshotArchive SnapshotCompact SnapshotSystem.
Local Open Scope Z_scope.

Section continuity.
Context {Dg : Digest} {Ho : Host} {Zl : Zlib} {Pr : Process}.
Variable P : json → Prop.

(** ** The newest snapshot *)

Lemma latest_first sid d r :
  snap_ok P d → r ∈ state_snapshots d → ss_subject_id r = sid →
  (∀ x, x ∈ state_snapshots d → ss_subject_id x = sid → ss_state_version x <= ss_state_version r) →
  ∃ rest, sort_by latest_leb (snapshots_of sid d) = r :: rest.
Proof.
  intros Hd Hr Hs Hmax. pose proof (sort_by_sorted latest_leb (snapshots_of sid d)) as Hsort.
  assert (Hin : r ∈ sort_by latest_leb (snapshots_of sid d)).
  { apply elem_of_sort_by, elem_of_select. split; [done|]. by apply bool_decide_eq_true. }
  destruct (sort_by latest_leb (snapshots_of sid d)) as [|x rest] eqn:E;
    [by apply not_elem_of_nil in Hin|].
  exists rest. f_equal. apply elem_of_cons in Hin as [->|Hin]; [done|].
  assert (Hx : x ∈ snapshots_of sid d).
  { apply (elem_of_sort_by latest_leb). rewrite E. apply here. }
  apply (key_unique ss_state_version (snapshots_of sid d)); [by eapply subject_versions|done| |].
  - apply elem_of_select. split; [done|]. by apply bool_decide_eq_true.
  - inversion Hsort as [|? ? _ Hall]; subst. rewrite -> Forall_forall in Hall.
    specialize (Hall r Hin). apply latest_leb_le in Hall.
    apply elem_of_select in Hx as [Hx Hxs%bool_decide_eq_true]. specialize (Hmax x Hx Hxs). lia.
Qed.
Lemma saved_loads r :
  saved P r → ∃ rec, snapshot_from_row r = Ok rec ∧ sr_snapshot_id rec = ss_snapshot_id r ∧
    sr_state_version rec = ss_state_version r ∧
    canonical_json (JObj (sr_state rec)) = ss_state_json r.
Proof.
  intros (s & [Hl Hh] & Hj & _). unfold snapshot_from_row. rewrite Hl Hh bool_decide_true //.
  eexists. by split.
Qed.
Lemma pointed_latest d i :
  continuous P d → i ∈ identities d → 0 < id_state_version i →
  ∃ r rest rec, sort_by latest_leb (snapshots_of (id_subject_id i) d) = r :: rest ∧
    snapshot_from_row r = Ok rec ∧ r ∈ state_snapshots d ∧ ss_subject_id r = id_subject_id i ∧
    id_last_checkpoint i = Some (sr_snapshot_id rec) ∧ sr_state_version rec = id_state_version i ∧
    canonical_json (JObj (sr_state rec)) = ss_state_json r ∧
    sr_snapshot_id rec = ss_snapshot_id r ∧ sr_state_version rec = ss_state_version r.
Proof.
  intros [Hs [_ _ P3]] Hi Hv. rewrite -> Forall_forall in P3.
  destruct (P3 i Hi) as [_ [(? & _)|(_ & (r & Hr & Hrs & Hrv & Hc) & Hmax)]]; [lia|].
  destruct (latest_first (id_subject_id i) d r) as [rest E]; [done..| |].
  { intros x Hx Hxs. rewrite Hrv. by apply Hmax. }
  pose proof (proj1 (Forall_forall _ _) (snap_saved _ _ Hs) r Hr) as Hsv.
  destruct (saved_loads r Hsv) as (rec & Hrec & Ei & Ev & Ej).
  exists r, rest, rec. split_and!; try done; congruence.
Qed.
Lemma continuity_passes d i :
  continuous P d → i ∈ identities d →
  ∀ w, db w = d → verify_continuity (id_subject_id i) w = (Ok tt, w).
Proof.
  intros Hd Hi w Ew. pose proof Hd as [Hs [P1 _ P3]].
  pose proof (proj1 (Forall_forall _ _) P3 i Hi) as [Hv Hpt].
  unfold verify_continuity. unfold mbind at 1, M_bind at 1.
  assert (Eq : read_transaction (
      found ← gets (identity_of (id_subject_id i));
      match found with
      | None => raise (NotFoundError ("identity not found: " +:+ id_subject_id i))
      | Some row =>
          identity ← lift (identity_from_row row);
          rows ← gets (λ d, take 2 (sort_by latest_leb (snapshots_of (id_subject_id i) d)));
          mret (identity, rows)
      end) w = (Ok (i, take 2 (sort_by latest_leb (snapshots_of (id_subject_id i) d))), w)).
  { unfold read_transaction, transaction, mbind, M_bind, gets, lift, mret, M_ret. rewrite Ew.
    unfold identity_of. by rewrite (fetchone_key id_subject_id _ _ P1 Hi) Hv Ew. }
  rewrite Eq. destruct (Z.eqb_spec (id_state_version i) 0) as [Hz|Hz].
  - destruct Hpt as [(_ & Hc & Hn)|(? & _)]; [|lia]. rewrite Hc.
    assert (snapshots_of (id_subject_id i) d = []) as ->; [|done].
    apply select_none. intros r Hr. apply bool_decide_eq_false. by apply Hn.
  - pose proof (points_nonneg d i (conj Hv Hpt)).
    destruct (pointed_latest d i Hd Hi) as (r & rest & rec & E & Hrec & _ & _ & Hc & Hver & _); [lia|].
    rewrite E Hc. cbn [take]. unfold mbind, M_bind, lift. rewrite Hrec Hver Z.eqb_refl.
    by rewrite bool_decide_true.
Qed.
Lemma archives_pass sid w :
  snap_ok P (db w) →
  verify_archives sid w
  = (Ok (count_where (λ a, sa_subject_id a == sid) (snapshot_archives (db w))), w).
Proof.
  intros Hs. unfold verify_archives, mbind, M_bind, gets, mret, M_ret.
  set (rows := select _ _).
  assert (Hall : Forall (λ a, verify_archive a = Ok tt) rows).
  { apply Forall_forall. intros a [Ha _]%elem_of_select.
    exact (proj1 (Forall_forall _ _) (snap_archives _ _ Hs) a Ha). }
  assert (for_each (λ row, lift (verify_archive row)) rows w = (Ok tt, w)) as ->; [|done].
  clear -Hall. induction Hall as [|a l Ha Hl IH]; [done|]. simpl. unfold mbind, M_bind, lift.
  by rewrite Ha.
Qed.

(** What a checkpoint leaves behind. *)
Lemma ok_checkpoint sid state reason model w rec w' :
  continuous P (db w) → ok (checkpoint sid state reason model) w rec w' →
  ∃ r i, r ∈ state_snapshots (db w') ∧ i ∈ identities (db w') ∧ id_subject_id i = sid ∧
    0 < id_state_version i ∧ id_last_checkpoint i = Some (sr_snapshot_id rec) ∧
    ss_snapshot_id r = sr_snapshot_id rec ∧ ss_state_json r = canonical_json (JObj state).
Proof.
  intros [_ [_ _ P3]] H. unfold checkpoint in H. apply ok_bind in H as (? & w1 & Hown & H).
  apply ok_bind in H as (? & w2 & [_ <-]%ok_raise_if & H).
  apply ok_bind in H as (rec' & w2 & Htx%ok_transaction & H).
  assert (Hsil : rec' = rec ∧ db w' = db w2).
  { apply ok_bind in H as (i & w3 & Hl & H). apply ok_ret in H as [-> <-]. split; [done|].
    assert (Hp : pure (load_identity sid)) by (unfold load_identity; solve_pure).
    by apply Hp in Hl. }
  destruct Hsil as [-> ->]. clear H.
  apply ok_bind in Htx as (? & w3 & Hg & H).
  apply ok_bind in H as (o & w4 & [Ei <-]%ok_gets & H). subst o.
  destruct (identity_of sid (db w3)) as [i|] eqn:Ei; [|by apply ok_raise in H].
  apply ok_bind in H as (rec' & w4 & Hsave & H). apply ok_bind in H as (u & w5 & Hupd & H).
  apply ok_bind in H as (now & w6 & [_ ->]%ok_read_clock & H).
  apply ok_bind in H as (ev & w7 & Hev & H). apply ok_ret in H as [-> <-].
  match type of Hev with ok (in_kernel ?m) ?w0 _ _ =>
    pose proof (kernel_agrees m w0) as Ha end. unfold ok in Hev. rewrite Hev in Ha. simpl in Ha.
  destruct Ha as (-> & -> & _).
  apply ok_save in Hsave as (r & E1 & Er & Hs & Hv & Hj & _ & _).
  apply ok_update_checkpoint in Hupd as (i' & now' & Hi' & _ & E2). rewrite E2 E1.
  pose proof (identity_of_elem _ _ _ Ei) as [Hin Hsub].
  exists r, (with_checkpoint (id_state_version i + 1) (sr_snapshot_id rec) model now' i). simpl.
  split; [by apply elem_of_append; right|]. split_and!; try done.
  - apply elem_of_update. exists i. split; [done|]. by rewrite Hsub bool_decide_true.
  - assert (identities (db w3) = identities (db w)) as Eid.
    { unfold _require_ownership in Hown.
      apply ok_bind in Hown as (? & v1 & [_ ->]%ok_read_clock & Hown).
      apply ok_bind in Hown as (? & v2 & [_ <-]%ok_raise_if & Hown).
      apply ok_bind in Hown as (clear & v3 & Hk & Hown).
      pose proof (kernel_agrees (_migration_epoch_guard sid) w1) as (Hg' & _).
      unfold ok in Hg. rewrite Hg in Hg'. rewrite Hg'.
      match type of Hk with ok (in_kernel ?m) ?w0 _ _ =>
        pose proof (kernel_agrees m w0) as (Hk' & _) end. unfold ok in Hk. rewrite Hk in Hk'.
      simpl in Hk'. rewrite -Hk'. destruct clear; invert_ok; done. }
    rewrite Eid in Hin. pose proof (points_nonneg _ _ (proj1 (Forall_forall _ _) P3 i Hin)). lia.
Qed.

(** ** From the empty tables *)

Definition empty_tables (d : core_db) : Prop :=
  identities d = [] ∧ state_snapshots d = [] ∧ snapshot_archives d = [].
Hypothesis zlib_law : ∀ s, zlib_decompress (zlib_compress s) = Some s.
Hypothesis values : distinguishes P.

Lemma reachable_continuous w0 w : empty_tables (db w0) → steps P w0 w → continuous P (db w).
Proof.
  intros (E1 & E2 & E3) Hs.
  assert (Hc : continuous P (db w0)).
  { split; split; rewrite ?E1 ?E2 ?E3; try by constructor. by intros r ?%not_elem_of_nil. }
  apply (proj2 (run_sound P zlib_law values) w0 w Hs (db w0)), sound_refl, Hc.
Qed.

(** C17: Let every state that is saved be a dictionary with values of a class
    [P] on which Python's [==] is equality of texts ([storable],
    [distinguishes]; values without booleans are one).  Then in every state
    the system reaches from empty tables, whatever the order of operations
    and with any of them between the transactions of a compaction,
    [verify_continuity] passes for every identity and [verify_archives]
    verifies every archive of the subject. *)
Theorem continuity_verified w0 w i :
  empty_tables (db w0) → steps P w0 w → i ∈ identities (db w) →
  verify_continuity (id_subject_id i) w = (Ok tt, w) ∧
  verify_archives (id_subject_id i) w
  = (Ok (count_where (λ a, sa_subject_id a == id_subject_id i) (snapshot_archives (db w))), w).
Proof.
  intros H0 Hs Hi. pose proof (reachable_continuous _ _ H0 Hs) as Hc. split.
  - by apply (continuity_passes (db w)).
  - apply archives_pass, Hc.
Qed.

(** No snapshot is ever lost: in every later state it is stored, or an
    archive of its subject restores the very same row and at least two newer
    snapshots of the subject are stored. *)
Theorem snapshots_kept w0 w w' r :
  empty_tables (db w0) → steps P w0 w → steps P w w' → r ∈ state_snapshots (db w) →
  r ∈ state_snapshots (db w') ∨
  (restorable (db w') r ∧ 2 <= above (ss_subject_id r) (ss_state_version r + 1) (db w')).
Proof.
  intros H0 Hs Hs' Hr. pose proof (reachable_continuous _ _ H0 Hs) as Hc.
  pose proof (proj2 (run_sound P zlib_law values) w w' Hs' (db w) (sound_refl P _ Hc)) as (_ & Hl & _).
  by apply (loss_rows _ _ _ _ Hl).
Qed.

(** After a checkpoint that returns, [latest] loads the state that was
    saved: the record has its identifier and a state with the same text. *)
Theorem checkpoint_latest w0 w sid state reason model rec w' :
  empty_tables (db w0) → steps P w0 w → storable P state →
  ok (checkpoint sid state reason model) w rec w' →
  ∃ found, latest_snapshot sid w' = (Ok found, w') ∧ sr_snapshot_id found = sr_snapshot_id rec ∧
    canonical_json (JObj (sr_state found)) = canonical_json (JObj state).
Proof.
  intros H0 Hs Hst Hok. pose proof (reachable_continuous _ _ H0 Hs) as Hc.
  assert (Hc' : continuous P (db w')).
  { eapply reachable_continuous; [exact H0|]. eapply steps_trans; [exact Hs|].
    eapply steps_cons; [|apply steps_nil]. unfold ok in Hok.
    change w' with (Ok rec, w').2. rewrite -Hok. by apply step_checkpoint. }
  destruct (ok_checkpoint _ _ _ _ _ _ _ Hc Hok) as (r & i & Hr & Hi & <- & Hv & Hp & Er & Ej).
  destruct (pointed_latest _ _ Hc' Hi Hv) as (r' & rest & rec' & Es & Hrec & Hr' & _ & Hp' & _ & Ej' & Ei & _).
  exists rec'. unfold latest_snapshot, mbind, M_bind, gets. rewrite Es. unfold lift.
  rewrite Hp in Hp'. injection Hp' as Hp'. rewrite Hrec. split; [done|]. split; [done|].
  rewrite Ej' -Ej. f_equal. apply (key_unique ss_snapshot_id (state_snapshots (db w'))); try done.
  - apply Hc'.
  - congruence.
Qed.
End continuity.
