(* ===== verification/SnapshotProgress.v ===== *)
(** * Compaction does its work

    Left alone, without a budget, [compact] returns and leaves at most the
    retained number of snapshots of the subject, whatever their number. *)

From stdpp Require Import sorting.
From S2P Require Import Prelude Tables PyStr Json Digest Time Sorting Base64 PyDict KernelDb.
From S2P Require Import Events Snapshots SnapshotDelta SnapshotArchive SnapshotCompact.
Local Open Scope Z_scope.

Lemma sublist_length {A} (l l' : list A) :
  NoDup l → NoDup l' → (∀ x, x ∈ l ↔ x ∈ l') → length l = length l'.
Proof. intros H H' E. by apply Permutation_length, NoDup_Permutation. Qed.
Lemma prefix_append (p s s' : string) : p +:+ s = p +:+ s' → s = s'.
Proof. induction p as [|c p IH]; [done|]. intros [= E]. by apply IH. Qed.

Section progress.
Context {Dg : Digest} {Ho : Host} {Zl : Zlib}.
Variables (sid : string) (b : compact_bounds) (c0 : Z).
Hypothesis uuid_inj : ∀ j k, uuid_at j = uuid_at k → j = k.
Hypothesis keep_pos : 1 <= cb_keep b.
Hypothesis batch_pos : 1 <= cb_batch b.
Hypothesis bytes_pos : 1 <= cb_batch_bytes b.
Hypothesis no_rows : cb_rows b = None.
Hypothesis no_bytes : cb_bytes b = None.

Definition archive_name (n : nat) : string := "snapshot-archive" +:+ "_" +:+ uuid_at n.

(** What a compaction needs: readable snapshots that fit into a batch, none
    of them referred to before version [c0], from which on there are at most
    the retained number. *)
Record ready (w : world core_db) : Prop := {
  ready_ids : NoDup (map ss_snapshot_id (state_snapshots (db w)));
  ready_versions : NoDup (map ss_state_version (snapshots_of sid (db w)));
  ready_rows : ∀ r, r ∈ snapshots_of sid (db w) →
    (∃ s, reads_as r s) ∧ 0 < ss_state_version r ∧ state_bytes r <= cb_batch_bytes b ∧
    (c0 <= ss_state_version r ∨ snapshot_referenced (db w) (ss_snapshot_id r) = false);
  ready_tail : above sid c0 (db w) <= cb_keep b;
  ready_subject : subject_exists sid (kernel (db w)) = true;
  ready_names : ∀ n a, (fresh w <= n)%nat → a ∈ snapshot_archives (db w) →
    sa_archive_id a ≠ archive_name n;
}.

(** ** Reading *)

Lemma fetch_self (d : core_db) r :
  NoDup (map ss_snapshot_id (state_snapshots d)) → r ∈ snapshots_of sid d →
  fetchone (λ x, (ss_snapshot_id x == ss_snapshot_id r) && (ss_subject_id x == sid))
    (state_snapshots d) = Some r.
Proof.
  intros Hn [Hr Hs]%elem_of_select.
  destruct (fetchone _ _) as [x|] eqn:E.
  - apply fetchone_Some in E as [Hx [Hi%bool_decide_eq_true _]%andb_prop]. f_equal.
    by eapply (key_unique ss_snapshot_id).
  - pose proof (fetchone_None _ _ E r Hr) as Hf. simpl in Hf. rewrite Hs bool_decide_true // in Hf.
Qed.
Lemma row_eta r : {| ss_snapshot_id := ss_snapshot_id r; ss_subject_id := ss_subject_id r;
  ss_state_version := ss_state_version r; ss_state_json := ss_state_json r;
  ss_state_hash := ss_state_hash r; ss_reason := ss_reason r; ss_created_at := ss_created_at r |} = r.
Proof. by destruct r. Qed.
Lemma read_batch_takes d rl bl rows result mat w :
  NoDup (map ss_snapshot_id (state_snapshots d)) →
  (∀ r, r ∈ rows → r ∈ snapshots_of sid d ∧ state_bytes r <= bl) →
  ∃ n, read_batch d sid rl bl None rows result mat w = (Ok (result ++ take n rows), w) ∧
    (result = [] → rows ≠ [] → n ≠ 0%nat).
Proof.
  intros Hn. revert result mat. induction rows as [|r rows IH]; intros result mat Hrows.
  { exists 0%nat. by rewrite app_nil_r. }
  destruct (Hrows r (here _ _)) as [Hr Hb].
  cbn [read_batch]. unfold mbind, M_bind. cbn [_checkpoint mret M_ret].
  destruct (if bool_decide (result = []) then _ else _) eqn:Es.
  { exists 0%nat. rewrite app_nil_r. split; [done|]. intros ->. rewrite bool_decide_true // in Es. lia. }
  rewrite (fetch_self d r Hn Hr) row_eta Z.eqb_refl. cbn [negb raise_if mret M_ret].
  destruct (rl <=? _); [by exists 1%nat|].
  destruct (IH (result ++ [r]) (mat + state_bytes r)) as (n & -> & _).
  { intros x Hx. by apply Hrows, there. }
  exists (S n). by rewrite -app_assoc.
Qed.
Lemma build_runs rows previous entries raw w :
  (∀ r, r ∈ rows → ∃ s, reads_as r s) →
  ∃ out, build_entries None rows previous entries raw w = (Ok out, w).
Proof.
  revert previous entries raw. induction rows as [|r rows IH]; intros previous entries raw Hr.
  { by eexists. }
  destruct (Hr r (here _ _)) as (s & Hl & Hh). cbn [build_entries]. unfold mbind, M_bind.
  cbn [_checkpoint mret M_ret]. unfold lift. rewrite Hl Hh bool_decide_true //.
  cbn [negb raise_if mret M_ret]. apply IH. intros x Hx. by apply Hr, there.
Qed.

Lemma key_ltb_leb x y : key_ltb (version_key x) (version_key y) = negb (version_leb y x).
Proof. unfold version_leb. by rewrite negb_involutive. Qed.
Lemma count_strict {A} (p q : A → bool) l r :
  (∀ x, x ∈ l → p x = true → q x = true) → r ∈ l → q r = true → p r = false →
  count_where p l + 1 <= count_where q l.
Proof.
  unfold count_where, select. induction l as [|x l IH]; intros Hpq Hr Hq Hp;
    [by apply not_elem_of_nil in Hr|]. simpl.
  assert (Hle : ∀ l', (∀ x, x ∈ l' → p x = true → q x = true) →
    (length (List.filter p l') <= length (List.filter q l'))%nat).
  { clear. induction l' as [|y l' IH]; intros H; [done|]. simpl.
    specialize (IH (λ x Hx, H x (there _ _ _ Hx))). specialize (H y (here _ _)).
    destruct (p y), (q y); simpl; lia. }
  apply elem_of_cons in Hr as [->|Hr].
  - rewrite Hp Hq. simpl. specialize (Hle l (λ x Hx, Hpq x (there _ _ _ Hx))). lia.
  - specialize (IH (λ x Hx, Hpq x (there _ _ _ Hx)) Hr Hq Hp). specialize (Hpq x (here _ _)).
    destruct (p x), (q x); simpl; lia.
Qed.

(** The rows that a compaction may take. *)
Definition eligible (cutoff : state_snapshot_row) (cursor : option (Z * string)) (d : core_db)
    : list state_snapshot_row :=
  sort_by version_leb (select (λ r, key_ltb (version_key r) (version_key cutoff)
    && match cursor with Some c => key_ltb c (version_key r) | None => true end) (snapshots_of sid d)).
Definition past (cursor : option (Z * string)) (d : core_db) : Prop :=
  ∀ r, r ∈ snapshots_of sid d →
    match cursor with Some c => key_ltb c (version_key r) = true | None => True end.

Section eligible.
Variables (d : core_db) (cursor : option (Z * string)) (cutoff : state_snapshot_row).
Hypothesis ids : NoDup (map ss_snapshot_id (state_snapshots d)).
Hypothesis versions : NoDup (map ss_state_version (snapshots_of sid d)).
Hypothesis d_past : past cursor d.
Hypothesis is_cutoff :
  sort_by version_geb (snapshots_of sid d) !! Z.to_nat (cb_keep b - 1) = Some cutoff.

Lemma same_row x y : x ∈ snapshots_of sid d → y ∈ snapshots_of sid d →
  version_leb x y = true → version_leb y x = true → x = y.
Proof.
  intros [Hx _]%elem_of_select [Hy _]%elem_of_select H1 H2.
  eapply (key_unique ss_snapshot_id); [exact ids|done..|]. by apply version_leb_antisym.
Qed.
Lemma elem_of_eligible r :
  r ∈ eligible cutoff cursor d ↔
  r ∈ snapshots_of sid d ∧ key_ltb (version_key r) (version_key cutoff) = true.
Proof.
  unfold eligible. rewrite elem_of_sort_by elem_of_select andb_true_iff. split; [naive_solver|].
  intros [Hr Hk]. split; [done|]. split; [done|]. pose proof (d_past r Hr). by destruct cursor.
Qed.
Lemma cutoff_in : cutoff ∈ snapshots_of sid d.
Proof. by apply (elem_of_sort_by version_geb), (list_elem_of_lookup_2 _ _ _ is_cutoff). Qed.
Lemma eligible_nonempty :
  cb_keep b < Z.of_nat (length (snapshots_of sid d)) → eligible cutoff cursor d ≠ [].
Proof.
  intros Hlen E. set (l := sort_by version_geb (snapshots_of sid d)) in *.
  assert (Hl : length l = length (snapshots_of sid d)) by (apply Permutation_length, sort_by_perm).
  destruct (lookup_lt_is_Some_2 l (Z.to_nat (cb_keep b))) as [x Hx]; [lia|].
  assert (Hxs : x ∈ snapshots_of sid d)
    by (by apply (elem_of_sort_by version_geb), (list_elem_of_lookup_2 _ _ _ Hx)).
  assert (Hin : x ∈ eligible cutoff cursor d); [|by rewrite E in Hin; apply not_elem_of_nil in Hin].
  apply elem_of_eligible. split; [done|]. rewrite key_ltb_leb. apply negb_true_iff, not_true_is_false.
  intros Hc. pose proof (sort_by_sorted version_geb (snapshots_of sid d)) as Hs. fold l in Hs.
  rewrite -(take_drop_middle _ _ _ Hx) in Hs. apply sorted_app in Hs as (_ & _ & Hs).
  assert (Hd : version_geb cutoff x = true).
  { apply Hs; [|apply here]. apply list_elem_of_lookup. exists (Z.to_nat (cb_keep b - 1)).
    rewrite lookup_take_lt //. lia. }
  assert (cutoff = x) as -> by (apply same_row; [apply cutoff_in|done..]).
  assert (NoDup l) as Hnd.
  { unfold l. rewrite sort_by_perm. eapply NoDup_fmap_1, versions. }
  pose proof (NoDup_lookup _ _ _ _ Hnd Hx is_cutoff). lia.
Qed.
Lemma eligible_old r :
  above sid c0 d <= cb_keep b → r ∈ eligible cutoff cursor d → ss_state_version r < c0.
Proof.
  intros Htail [Hr Hk]%elem_of_eligible.
  pose proof (key_ltb_version _ _ _ versions Hr cutoff_in Hk) as Hlt.
  destruct (Z.lt_ge_cases (ss_state_version r) c0) as [|Hge]; [done|].
  pose proof (cutoff_count _ _ _ is_cutoff) as Hc.
  unfold above in Htail. rewrite count_subject in Htail.
  pose proof (count_strict (λ x, ss_state_version cutoff <=? ss_state_version x)
    (λ x, c0 <=? ss_state_version x) (snapshots_of sid d) r) as Hst.
  unfold snapshots_of in *. apply Hst in Hr; [lia|intros x _; lia|lia|lia].
Qed.
(** After a batch, the others come later. *)
Lemma eligible_next n x r :
  last (take n (eligible cutoff cursor d)) = Some x → r ∈ snapshots_of sid d →
  r ∉ take n (eligible cutoff cursor d) → key_ltb (version_key x) (version_key r) = true.
Proof.
  intros Hx Hr Hn. rewrite key_ltb_leb. apply negb_true_iff, not_true_is_false. intros Hle.
  assert (Hxt : x ∈ take n (eligible cutoff cursor d)) by by apply last_Some_elem_of.
  assert (Hxe : x ∈ eligible cutoff cursor d).
  { rewrite -(take_drop n (eligible _ _ _)). by apply elem_of_app; left. }
  pose proof Hxe as [Hxs Hxc]%elem_of_eligible.
  destruct (key_ltb (version_key r) (version_key cutoff)) eqn:Ek.
  - assert (Hre : r ∈ eligible cutoff cursor d) by by apply elem_of_eligible.
    pose proof (sort_by_sorted version_leb (select (λ r, key_ltb (version_key r) (version_key cutoff)
      && match cursor with Some c => key_ltb c (version_key r) | None => true end)
      (snapshots_of sid d))) as Hs. fold (eligible cutoff cursor d) in Hs.
    rewrite -(take_drop n (eligible _ _ _)) in Hs, Hre. apply sorted_app in Hs as (_ & _ & Hs).
    apply elem_of_app in Hre as [?|Hre]; [done|]. specialize (Hs x r Hxt Hre).
    apply Hn. by rewrite -(same_row x r Hxs Hr Hs Hle).
  - assert (Hcr : version_leb cutoff r = true) by (unfold version_leb; by rewrite Ek).
    assert (Hcx : version_leb cutoff x = true) by by eapply leb_trans.
    unfold version_leb in Hcx. by rewrite Hxc in Hcx.
Qed.
End eligible.

(** ** Publishing *)

Lemma select_comm {A} (p q : A → bool) l : select p (select q l) = select q (select p l).
Proof.
  unfold select. induction l as [|x l IH]; [done|]. simpl.
  destruct (p x) eqn:Ep, (q x) eqn:Eq; simpl; rewrite ?Ep ?Eq ?IH; done.
Qed.
Lemma published_snapshots rows a d :
  snapshots_of sid (published sid rows a d)
  = select (λ r, negb ((ss_subject_id r == sid)
      && bool_decide (ss_snapshot_id r ∈ map ss_snapshot_id rows))) (snapshots_of sid d).
Proof. apply select_comm. Qed.
Lemma published_elem rows a d r :
  r ∈ snapshots_of sid (published sid rows a d) → r ∈ snapshots_of sid d ∧ r ∉ rows.
Proof.
  rewrite published_snapshots. intros [Hr Hn]%elem_of_select. split; [done|]. intros Hin.
  apply elem_of_select in Hr as [_ Hs]. rewrite Hs bool_decide_true // in Hn.
  by apply list_elem_of_fmap_2.
Qed.
Lemma select_length {A} (p : A → bool) l :
  (length (select p l) + length (select (λ x, negb (p x)) l))%nat = length l.
Proof.
  unfold select. induction l as [|x l IH]; [done|]. simpl. destruct (p x); simpl; lia.
Qed.
Lemma count_select {A} (p q : A → bool) l : count_where p (select q l) <= count_where p l.
Proof.
  unfold count_where. rewrite select_comm. pose proof (select_length q (select p l)). lia.
Qed.

Section publish.
Variables (w : world core_db) (rows : list state_snapshot_row).
Hypothesis w_ready : ready w.
Hypothesis rows_in : ∀ r, r ∈ rows → r ∈ snapshots_of sid (db w).
Hypothesis rows_old : ∀ r, r ∈ rows → ss_state_version r < c0.
Hypothesis rows_distinct : NoDup rows.
Hypothesis rows_sorted : StronglySorted (λ x y, version_leb x y = true) rows.
Hypothesis rows_some : rows ≠ [].

Lemma removed_rows :
  length (select (λ r, (ss_subject_id r == sid)
            && bool_decide (ss_snapshot_id r ∈ map ss_snapshot_id rows)) (state_snapshots (db w)))
  = length rows.
Proof.
  apply sublist_length; [|done|].
  - eapply (NoDup_fmap_1 ss_snapshot_id), NoDup_select, (ready_ids _ w_ready).
  - intros r. rewrite elem_of_select. split.
    + intros [Hr [_ Hi%bool_decide_eq_true]%andb_prop].
      apply list_elem_of_fmap in Hi as (x & E & Hx). pose proof (rows_in x Hx) as [Hx' _]%elem_of_select.
      by rewrite (key_unique ss_snapshot_id _ r x (ready_ids _ w_ready) Hr Hx' E).
    + intros Hr. pose proof (rows_in r Hr) as [Hr' Hs]%elem_of_select. split; [done|].
      rewrite Hs bool_decide_true //. by apply list_elem_of_fmap_2.
Qed.
Lemma first_last : 0 < first_version rows <= last_version rows.
Proof.
  destruct rows as [|x l]; [done|]. clear rows_some. unfold first_version, last_version.
  assert (Hx : 0 < ss_state_version x) by by apply (ready_rows _ w_ready), rows_in, here.
  destruct (last (x :: l)) as [y|] eqn:E; [|by apply last_None in E].
  apply last_Some_elem_of, elem_of_cons in E as [->|Hy]; [lia|].
  inversion rows_sorted as [|? ? _ Hall]; subst. rewrite -> Forall_forall in Hall.
  pose proof (version_leb_le _ _ (Hall y Hy)). lia.
Qed.
Lemma checks_pass :
  for_each (λ row, same ← gets (unchanged sid row);
                   raise_if (negb same) CompactionConflict) rows w = (Ok tt, w).
Proof.
  clear rows_old rows_distinct rows_sorted rows_some. revert rows_in.
  induction rows as [|r l IH]; intros Hin; [done|]. cbn [for_each].
  unfold mbind, M_bind, gets. unfold unchanged.
  rewrite (fetch_self (db w) r (ready_ids _ w_ready) (Hin r (here _ _))).
  pose proof (Hin r (here _ _)) as [_ Hs]%elem_of_select. rewrite Hs Z.eqb_refl !bool_decide_true //.
  cbn. apply IH. intros x Hx. by apply Hin, there.
Qed.
Lemma insert_runs a t f :
  sa_subject_id a = sid → 0 < sa_first_version a <= sa_last_version a → 0 < sa_snapshot_count a →
  sa_archive_id a = archive_name (fresh w) →
  insert_archive a (World (db w) t f)
  = (Ok tt, World (set_snapshot_archives (append_row a) (db w)) t f).
Proof.
  intros Es Hv Hc En. unfold insert_archive, cconstraint, mbind, M_bind, gets, id. cbn [db].
  replace (0 <? sa_first_version a) with true by lia.
  replace (sa_first_version a <=? sa_last_version a) with true by lia.
  replace (0 <? sa_snapshot_count a) with true by lia. cbn [andb negb raise_if mret M_ret].
  assert (exists_where (λ x, sa_archive_id x == sa_archive_id a) (snapshot_archives (db w)) = false)
    as ->.
  { apply exists_where_false. intros x Hx. apply bool_decide_eq_false. rewrite En.
    by apply (ready_names _ w_ready). }
  cbn [negb raise_if mret M_ret db]. by rewrite Es (ready_subject _ w_ready).
Qed.
Lemma delete_runs g t f :
  delete_snapshots (λ r, (ss_subject_id r == sid)
      && bool_decide (ss_snapshot_id r ∈ map ss_snapshot_id rows))
    (World (set_snapshot_archives g (db w)) t f)
  = (Ok (Z.of_nat (length rows)), World (set_state_snapshots (select (λ r, negb ((ss_subject_id r == sid)
      && bool_decide (ss_snapshot_id r ∈ map ss_snapshot_id rows))))
      (set_snapshot_archives g (db w))) t f).
Proof.
  unfold delete_snapshots, cconstraint, mbind, M_bind, gets, id. cbn [db].
  change (state_snapshots (set_snapshot_archives g (db w))) with (state_snapshots (db w)).
  set (p := λ r, _ && _).
  assert (forallb (λ r, negb (snapshot_referenced (set_snapshot_archives g (db w)) (ss_snapshot_id r)))
    (select p (state_snapshots (db w))) = true) as ->.
  { apply forallb_forall. intros r Hr%list_elem_of_In.
    apply elem_of_select in Hr as [Hr [Hs Hi%bool_decide_eq_true]%andb_prop].
    apply list_elem_of_fmap in Hi as (x & E & Hx). pose proof (rows_in x Hx) as Hxs.
    pose proof (rows_old x Hx). destruct (ready_rows _ w_ready x Hxs) as (_ & _ & _ & [?|Hf]); [lia|].
    rewrite E. by apply negb_true_iff. }
  cbn [negb raise_if mret M_ret modify db tick fresh]. unfold p. by rewrite removed_rows.
Qed.
Lemma publish_runs payload compressed :
  ∃ a, _publish_compaction_batch sid rows payload compressed None w
       = (Ok tt, World (published sid rows a (db w)) (S (tick w)) (S (fresh w))) ∧
       sa_archive_id a = archive_name (fresh w).
Proof.
  assert (Hpos : 0 < Z.of_nat (length rows)) by (destruct rows; [done|simpl; lia]).
  exists {| sa_archive_id := archive_name (fresh w); sa_subject_id := sid;
      sa_first_version := first_version rows; sa_last_version := last_version rows;
      sa_snapshot_count := Z.of_nat (length rows); sa_compressed_payload := compressed;
      sa_payload_hash := content_hash payload;
      sa_compressed_hash := compressed_hash compressed; sa_created_at := now_at (tick w) |}.
  split; [|done]. unfold _publish_compaction_batch, transaction.
  unfold mbind, M_bind. cbn [_checkpoint mret M_ret]. rewrite checks_pass.
  unfold cnew_id, cutc_now, mbind, M_bind, read_fresh, read_clock, mret, M_ret.
  cbn [db tick fresh].
  rewrite insert_runs; [done|exact first_last|exact Hpos|done|].
  rewrite delete_runs. rewrite Z.eqb_refl. done.
Qed.
Lemma publish_ready a t :
  sa_archive_id a = archive_name (fresh w) →
  ready (World (published sid rows a (db w)) t (S (fresh w))) ∧
  (length (snapshots_of sid (published sid rows a (db w))) < length (snapshots_of sid (db w)))%nat.
Proof.
  intros Ea. destruct w_ready as [R1 R2 R3 R4 R5 R6]. split.
  - split; cbn [db fresh].
    + by apply NoDup_select.
    + rewrite published_snapshots. by apply NoDup_select.
    + intros r [Hr _]%published_elem. by apply R3.
    + etrans; [|exact R4]. apply count_select.
    + done.
    + intros n x Hn [Hx| ->]%elem_of_append; [apply R6; [lia|done]|]. rewrite Ea.
      intros E. apply prefix_append, prefix_append, uuid_inj in E. lia.
  - rewrite published_snapshots. set (p := λ r : state_snapshot_row, (ss_subject_id r == sid)
      && bool_decide (ss_snapshot_id r ∈ map ss_snapshot_id rows)).
    pose proof (select_length p (snapshots_of sid (db w))) as Hl.
    assert (∃ r, r ∈ rows) as [r Hrr] by (destruct rows as [|r l]; [done|exists r; apply here]).
    assert (Hr : r ∈ select p (snapshots_of sid (db w))).
    { pose proof (rows_in r Hrr) as Hin. apply elem_of_select. split; [done|].
      apply elem_of_select in Hin as [_ Hs]. unfold p. rewrite Hs bool_decide_true //.
      by apply list_elem_of_fmap_2. }
    destruct (select p (snapshots_of sid (db w))); [by apply not_elem_of_nil in Hr|].
    change (length (select (λ r, negb (p r)) (snapshots_of sid (db w)))
            < length (snapshots_of sid (db w)))%nat. simpl in Hl. lia.
Qed.
End publish.

(** ** The loop *)

Lemma run_bind {A B} (m : C A) (f : A → C B) w a w' :
  m w = (Ok a, w') → (m ≫= f) w = f a w'.
Proof. intros E. unfold mbind, M_bind. by rewrite E. Qed.
Lemma run_quiet {B} (f : unit → C B) w : (_checkpoint None ≫= f) w = f tt w.
Proof. done. Qed.
Lemma read_runs cursor w :
  ready w → past cursor (db w) → cb_keep b < Z.of_nat (length (snapshots_of sid (db w))) →
  ∃ cutoff n, let rows := take n (eligible cutoff cursor (db w)) in
    _read_compaction_batch sid (cb_keep b) cursor (cb_batch b) (cb_batch_bytes b) None w
      = (Ok rows, w) ∧ rows ≠ [] ∧
    sort_by version_geb (snapshots_of sid (db w)) !! Z.to_nat (cb_keep b - 1) = Some cutoff.
Proof.
  intros Hw Hp Hlen. set (l := sort_by version_geb (snapshots_of sid (db w))).
  assert (Hl : length l = length (snapshots_of sid (db w))) by (apply Permutation_length, sort_by_perm).
  destruct (lookup_lt_is_Some_2 l (Z.to_nat (cb_keep b - 1))) as [cutoff Hc]; [lia|].
  set (rows0 := take (Z.to_nat (cb_batch b)) (eligible cutoff cursor (db w))).
  assert (Hne : rows0 ≠ []).
  { pose proof (eligible_nonempty (db w) cursor cutoff (ready_ids _ Hw) (ready_versions _ Hw) Hp Hc Hlen)
      as Hne. unfold rows0. destruct (eligible _ _ _) as [|x e]; [done|].
    by destruct (Z.to_nat (cb_batch b)) eqn:Eb; [lia|]. }
  destruct (read_batch_takes (db w) (cb_batch b) (cb_batch_bytes b) rows0 [] 0 w) as (n & Hn & Hn0).
  - apply Hw.
  - intros r (i & Hr & _)%elem_of_take. apply list_elem_of_lookup_2 in Hr.
    apply elem_of_eligible in Hr as [Hr _]; [|done]. split; [done|]. by apply (ready_rows _ Hw).
  - exists cutoff, (n `min` Z.to_nat (cb_batch b))%nat. rewrite -take_take. fold rows0.
    unfold _read_compaction_batch, mbind, M_bind, gets. cbv beta. fold l.
    rewrite length_take Hl. destruct (Z.leb_spec (Z.of_nat (Z.to_nat (cb_keep b + 1)
      `min` length (snapshots_of sid (db w)))) (cb_keep b)); [lia|].
    rewrite lookup_take_lt; [lia|]. rewrite Hc. split; [exact Hn|]. split; [|done].
    destruct rows0; [done|]. by destruct n; [destruct (Hn0 eq_refl Hne eq_refl)|].
Qed.
Lemma once_runs st w :
  ready w → past (cs_cursor st) (db w) →
  if bool_decide (Z.of_nat (length (snapshots_of sid (db w))) <= cb_keep b) then
    compact_once sid b None st w = (Ok None, w)
  else
    ∃ st' w', compact_once sid b None st w = (Ok (Some st'), w') ∧ ready w' ∧
      past (cs_cursor st') (db w') ∧
      (length (snapshots_of sid (db w')) < length (snapshots_of sid (db w)))%nat.
Proof.
  intros Hw Hp. unfold compact_once. rewrite no_rows no_bytes. cbn [remaining].
  rewrite run_quiet. replace (cb_batch b <=? 0) with false by lia. replace (cb_batch_bytes b <=? 0) with false by lia.
  cbn [orb]. case_bool_decide as Hlen.
  { unfold _read_compaction_batch, mbind, M_bind, gets.
    rewrite length_take (Permutation_length (sort_by_perm version_geb _)).
    destruct (Z.leb_spec (Z.of_nat (Z.to_nat (cb_keep b + 1)
      `min` length (snapshots_of sid (db w)))) (cb_keep b)); [done|lia]. }
  destruct (read_runs (cs_cursor st) w Hw Hp) as (cutoff & n & Hread & Hne & Hc); [lia|].
  rewrite (run_bind _ _ _ _ _ Hread). set (rows := take n _) in *. destruct (last rows) as [lr|] eqn:El;
    [|by apply last_None in El].
  assert (Hin : ∀ r, r ∈ rows → r ∈ eligible cutoff (cs_cursor st) (db w)).
  { intros r (i & Hr & _)%elem_of_take. by eapply list_elem_of_lookup_2. }
  assert (Hsub : ∀ r, r ∈ rows → r ∈ snapshots_of sid (db w)).
  { intros r Hr%Hin. by apply elem_of_eligible in Hr as [? _]. }
  rewrite run_quiet. destruct (build_runs rows None [] 0 w) as [[es raw] Hb].
  { intros r Hr. by apply (ready_rows _ Hw), Hsub. }
  set (payload := JObj [("format", JStr archive_format); ("entries", JList es)]).
  assert (Hpay : _build_archive_payload rows None w = (Ok (payload, raw), w))
    by (unfold _build_archive_payload; by rewrite (run_bind _ _ _ _ _ Hb)).
  rewrite (run_bind _ _ _ _ _ Hpay) run_quiet.
  assert (Hold : ∀ r, r ∈ rows → ss_state_version r < c0).
  { intros r Hr. by eapply eligible_old; [apply Hw|exact Hp|exact Hc|apply Hw|apply Hin]. }
  assert (Hnd : NoDup rows).
  { assert (Hnd : NoDup (eligible cutoff (cs_cursor st) (db w))).
    { unfold eligible. rewrite sort_by_perm.
      eapply (NoDup_fmap_1 ss_snapshot_id), NoDup_select, NoDup_select, Hw. }
    rewrite -(take_drop n (eligible _ _ _)) in Hnd. by apply NoDup_app in Hnd as [? _]. }
  assert (Hs : StronglySorted (λ x y, version_leb x y = true) rows).
  { pose proof (sort_by_sorted version_leb (select (λ r, key_ltb (version_key r) (version_key cutoff)
      && match cs_cursor st with Some c => key_ltb c (version_key r) | None => true end)
      (snapshots_of sid (db w)))) as Hs. fold (eligible cutoff (cs_cursor st) (db w)) in Hs.
    rewrite -(take_drop n (eligible _ _ _)) in Hs. by apply sorted_app in Hs as (Hs & _). }
  destruct (publish_runs w rows Hw Hsub Hold Hnd Hs Hne payload
    (zlib_compress (utf8_encode (canonical_json payload)))) as (a & Hpub & Ea).
  destruct (publish_ready w rows Hw Hsub Hold Hnd Hs Hne a (S (tick w)) Ea) as [Hr' Hless].
  assert (Hcatch : catch (_publish_compaction_batch sid rows payload
        (zlib_compress (utf8_encode (canonical_json payload))) None ;; mret true)
      (λ e, match e with CompactionConflict => Some (mret false) | _ => None end) w
      = (Ok true, World (published sid rows a (db w)) (S (tick w)) (S (fresh w))))
      by (unfold catch; by rewrite (run_bind _ _ _ _ _ Hpub)).
  rewrite (run_bind _ _ _ _ _ Hcatch). do 2 eexists. split; [done|]. split; [exact Hr'|]. split; [|exact Hless].
  cbn [cs_cursor db]. intros r [Hr Hn]%published_elem.
  eapply eligible_next; [apply Hw|exact Hp|exact El|done..].
Qed.
Lemma loop_runs fuel st w :
  ready w → past (cs_cursor st) (db w) →
  (length (snapshots_of sid (db w)) < fuel)%nat →
  ∃ report w', compact_loop fuel sid b None st w = (Ok (Some report), w') ∧
    Z.of_nat (length (snapshots_of sid (db w'))) <= cb_keep b.
Proof.
  revert st w. induction fuel as [|fuel IH]; intros st w Hw Hp Hf; [lia|].
  cbn [compact_loop]. unfold mbind, M_bind. pose proof (once_runs st w Hw Hp) as H.
  case_bool_decide as Hlen.
  - rewrite H. by do 2 eexists.
  - destruct H as (st' & w' & -> & Hw' & Hp' & Hless). apply IH; [done..|lia].
Qed.
End progress.

(** C18: A compaction without budgets and without interference does its
    work when it is [ready]: the subject exists, its snapshots are distinct
    rows with distinct positive versions, readable, and each fits into a
    batch, none before the retained tail is referred to, and the identifiers
    still to be drawn are not those of stored archives; and [uuid4] never
    repeats.  Then it returns with one unit of fuel more than there are
    snapshots, and at most the retained number of the subject's snapshots is
    left. *)
Theorem compact_completes {Dg : Digest} {Ho : Host} {Zl : Zlib} fuel sid q b c0 w :
  (∀ j k, uuid_at j = uuid_at k → j = k) →
  compact_bounds_of q = Ok b → cb_rows b = None → cb_bytes b = None →
  ready sid b c0 w → (length (snapshots_of sid (db w)) < fuel)%nat →
  ∃ report w', compact fuel sid q None w = (Ok (Some report), w') ∧
    Z.of_nat (length (snapshots_of sid (db w'))) <= cb_keep b.
Proof.
  intros Hu Hb Hr Hy Hw Hf. unfold compact, mbind, M_bind, lift. rewrite Hb Hr Hy.
  assert (2 <= cb_keep b ∧ 1 <= cb_batch b ∧ 1 <= cb_batch_bytes b) as (? & ? & ?).
  { unfold compact_bounds_of in Hb. destruct (budget (cq_max_rows q) _ _); [|done]. simpl in Hb.
    destruct (budget (cq_max_bytes q) _ _); [|done]. injection Hb as <-. simpl. unfold clamp. lia. }
  rewrite !bool_decide_false //. cbn [orb].
  eapply loop_runs; [eassumption|lia|lia|lia|done..].
Qed.
