(* ===== verification/KernelSystem.v ===== *)
(** * The kernel as a transition system

    The public operations of the event store, the lifecycle manager and
    the action ledger as one type of commands; the changes other
    components make to the same database; the reachable states.  The other
    components call [EventStore] inside their own transactions, which is
    the command [KAppend] here, and [sleep/engine.py] and
    [operator_controls.py] change the lifecycle state inside theirs, without
    the migration guard: the command [KTransitionIn].  They also create
    subjects, write their own tables and counters, archive event payloads ([core/event_archive.py]:
    the only other update of [events] the immutability trigger admits) and
    append audit records. *)

From stdpp Require Import relations.
From S2P Require Import Prelude Tables PyStr Json Digest Time KernelDb Events Lifecycle Actions.
Local Open Scope Z_scope.

Inductive kernel_op :=
| KAppend (subject_id event_type source : string) (payload : list (string * json))
    (privacy_level : string) (parents : list string) (occurred_at event_id : option string)
| KMark (event_id : string) (status : ProcessingStatus) (subject_id : string)
| KEnsureInitial (subject_id : string) (state : LifecycleState) (reason : string)
| KTransition (subject_id : string) (new_state : LifecycleState) (reason actor : string)
| KTransitionIn (subject_id : string) (new_state : LifecycleState) (reason actor : string)
| KSafePause (subject_id reason actor : string)
| KRestart (subject_id reason : string)
| KPrepare (rq : action_request)
| KStart (action_id : string)
| KFinish (action_id : string) (status : ActionStatus) (result : list (string * json))
    (s : public_summary)
| KCancel (action_id reason : string)
| KRecover (subject_id : string)
| KReconcile (action_id : string) (status : ActionStatus) (result : list (string * json))
    (public_explanation : string) (side_effect_summary : option string).

(** Dictionary arguments have distinct keys. *)
Definition wf_op (op : kernel_op) : Prop :=
  match op with
  | KAppend _ _ _ payload _ _ _ _ => wf_json (JObj payload)
  | KPrepare rq => wf_json (JObj (default [] (rq_resource_cost rq)))
  | KFinish _ _ result _ | KReconcile _ _ result _ _ => wf_json (JObj result)
  | _ => True
  end.

Section system.
Context {Dg : Digest} {Ho : Host}.

Definition run_kernel (op : kernel_op) : K unit :=
  match op with
  | KAppend s t src p l ps o e => append_event s t src p l ps o e ;; mret tt
  | KMark e st s => mark_processed e st s
  | KEnsureInitial s st r => ensure_initial s st r ;; mret tt
  | KTransition s st r a => transition s st r a ;; mret tt
  | KTransitionIn s st r a => transaction (_transition_connection s st r a) ;; mret tt
  | KSafePause s r a => safe_pause s r a ;; mret tt
  | KRestart s r => recover_for_restart s r ;; mret tt
  | KPrepare rq => prepare rq ;; mret tt
  | KStart a => start a ;; mret tt
  | KFinish a st r s => finish_action a st r s ;; mret tt
  | KCancel a r => cancel a r ;; mret tt
  | KRecover s => recover_interrupted s ;; mret tt
  | KReconcile a st r e s => reconcile_unknown a st r e s ;; mret tt
  end.

(** Archiving replaces the payload text and sets the archive columns. *)
Definition archive_payload (key at_ : string) (r : event_row) : event_row :=
  {| ev_event_id := ev_event_id r; ev_subject_id := ev_subject_id r;
     ev_event_type := ev_event_type r; ev_source := ev_source r;
     ev_occurred_at := ev_occurred_at r; ev_observed_at := ev_observed_at r;
     ev_payload_json := "{}"; ev_payload_hash := ev_payload_hash r;
     ev_privacy_level := ev_privacy_level r;
     ev_causal_parent_ids_json := ev_causal_parent_ids_json r;
     ev_processing_status := ev_processing_status r; ev_payload_archive_key := Some key;
     ev_payload_archived_at := Some at_ |}.
Definition recount (f : count_row → Z) (c : count_row) : count_row :=
  {| ct_subject_id := ct_subject_id c; ct_table_name := ct_table_name c;
     ct_row_count := f c |}.
Definition set_others (o : other_tables) (d : kernel_db) : kernel_db :=
  {| subject_ids := subject_ids d; events := events d; chain_roots := chain_roots d;
     training_policies := training_policies d; training_records := training_records d;
     runtime_states := runtime_states d; actions := actions d;
     action_revisions := action_revisions d; behavior_logs := behavior_logs d;
     behavior_revisions := behavior_revisions d; kaudits := kaudits d; counts := counts d;
     others := o |}.

(** What other components commit.  A new subject gets its counters from
    the triggers of [evidence_schema.py]. *)
Inductive env_change (d : kernel_db) : kernel_db → Prop :=
| env_none : env_change d d
| env_subject sid :
    sid ∉ subject_ids d →
    env_change d (set_counts (λ t, t ++ map (λ n, {| ct_subject_id := sid; ct_table_name := n;
                                                    ct_row_count := 0 |}) EVIDENCE_TABLES)
                  (set_subject_ids (append_row sid) d))
| env_archive sid eid key at_ :
    env_change d (set_events (update_where (λ e, (ev_subject_id e == sid)
        && (ev_event_id e == eid) && bool_decide (ev_payload_archive_key e = None))
        (archive_payload key at_)) d)
| env_training ps rs :
    env_change d (set_training_policies (λ _, ps) (set_training_records (λ _, rs) d))
| env_audit r : env_change d (set_kaudits (append_row r) d)
| env_counts f : env_change d (set_counts (map (recount f)) d)
| env_others o : env_change d (set_others o d).

Inductive kernel_step (w : world kernel_db) : world kernel_db → Prop :=
| kstep_op op : wf_op op → kernel_step w (run_kernel op w).2
| kstep_env d t f :
    env_change (db w) d → (tick w <= t)%nat → (fresh w <= f)%nat →
    kernel_step w (World d t f).

(** A database from before the chain: events may be there, roots are not,
    and nothing else of the kernel. *)
Record legacy (d : kernel_db) : Prop := {
  lg_events : NoDup (map ev_event_id (events d));
  lg_roots : chain_roots d = [];
  lg_states : runtime_states d = [];
  lg_actions : actions d = [];
  lg_revisions : action_revisions d = [];
  lg_logs : behavior_logs d = [];
  lg_log_revisions : behavior_revisions d = [];
  lg_counts : ∀ sid n, sid ∈ subject_ids d → n ∈ EVIDENCE_TABLES →
    exists_where (λ c, (ct_subject_id c == sid) && (ct_table_name c == n)) (counts d) = true;
}.
Definition kreachable (w : world kernel_db) : Prop :=
  ∃ d, legacy d ∧ rtc kernel_step (World d 0 0) w.

Lemma kreachable_ind (P : world kernel_db → Prop) :
  (∀ d, legacy d → P (World d 0 0)) →
  (∀ w w', kreachable w → kernel_step w w' → P w → P w') →
  ∀ w, kreachable w → P w.
Proof.
  intros H0 HS w (d & Hd & H). revert w H.
  refine (rtc_ind_r _ _ (H0 d Hd) _). intros w1 w2 H1 H2. apply HS; [|done]. by exists d.
Qed.
Lemma kreachable_step w w' : kreachable w → kernel_step w w' → kreachable w'.
Proof. intros (d & Hd & H) HS. exists d. split; [done|]. by eapply rtc_r. Qed.
End system.

Lemma ok_kconstraint b msg u w w' : ok (kconstraint b msg) w u w' ↔ b = true ∧ w = w'.
Proof. unfold kconstraint. rewrite ok_raise_if negb_false_iff. done. Qed.

(** ** Frames *)

(** [frame p m] : [m], if it returns, leaves the part [p] of the tables alone. *)
Definition frame {D A B} (p : D → B) (m : M D A) : Prop :=
  ∀ w a w', ok m w a w' → p (db w') = p (db w).
Lemma frame_pure {D A B} (p : D → B) (m : M D A) : pure m → frame p m.
Proof. by intros H w a w' ->%H. Qed.
Lemma frame_bind {D A A' B} (p : D → B) (m : M D A) (k : A → M D A') :
  frame p m → (∀ a, frame p (k a)) → frame p (m ≫= k).
Proof. intros Hm Hk w b w'' (a & w' & ?%Hm & ->%Hk)%ok_bind. done. Qed.
Lemma frame_modify {D B} (p : D → B) f : (∀ d, p (f d) = p d) → frame p (modify f).
Proof. intros H w u w' ->%ok_modify. apply H. Qed.
Lemma frame_transaction {D A B} (p : D → B) (m : M D A) :
  frame p m → frame p (transaction m).
Proof. intros H w a w' ?%ok_transaction. by eapply H. Qed.
Lemma frame_for_each {D A B} (p : D → B) (f : A → M D unit) l :
  (∀ x, frame p (f x)) → frame p (for_each f l).
Proof.
  intros Hf. induction l as [|x l IH]; [by apply frame_pure, pure_ret|].
  by apply frame_bind.
Qed.
Lemma pure_for_each {D A} (f : A → M D unit) l : (∀ x, pure (f x)) → pure (for_each f l).
Proof. intros Hf. apply (frame_for_each (λ d, d)). intros x. by apply frame_pure. Qed.
Create HintDb kframe.
#[export] Hint Resolve pure_ret pure_raise pure_lift pure_gets pure_raise_if
  pure_read_clock pure_read_fresh : kframe.

(** [solve_frame] closes [frame p prog] by the structure of [prog]; the
    database [kframe] holds the frames of the sub-programs. *)
Ltac solve_frame :=
  repeat first
    [ by eauto with kframe nocore
    | apply frame_pure; by eauto with kframe nocore
    | apply frame_bind; [|intros ?]
    | apply frame_modify; by intros ?
    | apply frame_transaction
    | apply frame_for_each; intros ?
    | match goal with
      | |- frame _ (if ?b then _ else _) => destruct b
      | |- frame _ (match ?o with _ => _ end) => destruct o
      | |- frame _ (let '(_, _) := ?o in _) => destruct o
      end ].

(** The parts of the tables the components own. *)
Definition log_part (d : kernel_db) := (events d, chain_roots d).
Definition life_part (d : kernel_db) := (runtime_states d, kaudits d).
Definition action_part (d : kernel_db) :=
  (actions d, action_revisions d, behavior_logs d, behavior_revisions d).
(** Subjects are never removed, nor are their counters. *)
Definition count_part (d : kernel_db) :=
  (subject_ids d, map (λ c, (ct_subject_id c, ct_table_name c)) (counts d)).

Section frames.
Context {Dg : Digest} {Ho : Host}.

Lemma frame_bump sid n B (p : kernel_db → B) :
  (∀ f d, p (set_counts f d) = p d) → frame p (bump_count sid n).
Proof. intros H. unfold bump_count, kconstraint. solve_frame. Qed.
Lemma bump_counts sid n : frame count_part (bump_count sid n).
Proof.
  unfold bump_count, kconstraint. solve_frame. apply frame_modify. intros d. unfold count_part.
  f_equal. simpl. by apply map_update.
Qed.
Lemma pure_row_of {A} (o : option A) : pure (row_of o).
Proof. apply pure_lift. Qed.
Lemma pure_knew_id s : pure (knew_id s).
Proof. unfold knew_id. solve_pure. Qed.
Lemma pure_kutc_now : pure kutc_now.
Proof. apply pure_read_clock. Qed.
End frames.
#[export] Hint Resolve pure_row_of pure_knew_id pure_kutc_now bump_counts : kframe.
#[export] Hint Extern 1 (frame _ (bump_count _ _)) => (apply frame_bump; by intros) : kframe.

(** ** What the components leave alone *)

Ltac unfold_statements :=
  unfold insert_event, insert_root, insert_training_policy, insert_training_record,
    insert_kaudit, insert_runtime_state, update_runtime_state, insert_action, update_action,
    insert_action_revision, insert_behavior_log, insert_behavior_revision, kconstraint.

Section component_frames.
Context {Dg : Digest} {Ho : Host}.

Lemma assert_sources_pure s e : pure (assert_event_sources_available s e).
Proof. unfold assert_event_sources_available. solve_pure. Qed.
Lemma check_parent_pure s o r p : pure (check_parent s o r p).
Proof. unfold check_parent. solve_pure. Qed.
Lemma payload_from_row_pure r : pure (payload_from_row r).
Proof. unfold payload_from_row. solve_pure. Qed.
#[local] Hint Resolve payload_from_row_pure : noyra.
Lemma event_from_row_pure r : pure (event_from_row r).
Proof. unfold event_from_row. solve_pure. Qed.
Lemma or_else_pure o m : pure m → pure (or_else o m).
Proof. intros. unfold or_else. solve_pure. Qed.
Lemma guard_pure s : pure (_migration_epoch_guard s).
Proof. unfold _migration_epoch_guard. solve_pure. Qed.
Lemma require_runtime_pure s : pure (require_runtime s).
Proof. unfold require_runtime. solve_pure. Qed.
Lemma get_row_pure a : pure (_get_row a).
Proof. unfold _get_row. solve_pure. Qed.
#[local] Hint Resolve get_row_pure : noyra.
Lemma load_pure a : pure (_load_connection a).
Proof. unfold _load_connection. solve_pure. Qed.
Lemma evidence_counts_pure s : pure (evidence_counts s).
Proof. unfold evidence_counts. solve_pure. Qed.
#[local] Hint Resolve evidence_counts_pure : noyra.
Lemma capacity_pure s t : pure (require_evidence_capacity s t).
Proof. unfold require_evidence_capacity. solve_pure. Qed.
End component_frames.
#[export] Hint Resolve assert_sources_pure check_parent_pure event_from_row_pure or_else_pure
  guard_pure require_runtime_pure get_row_pure load_pure capacity_pure : kframe.

Section part_frames.
Context {Dg : Digest} {Ho : Host}.

Lemma record_event_log s e t l h : frame log_part (record_event s e t l h).
Proof. unfold record_event, _insert_event_record. unfold_statements. solve_frame. Qed.
Lemma record_event_life s e t l h : frame life_part (record_event s e t l h).
Proof. unfold record_event, _insert_event_record. unfold_statements. solve_frame. Qed.
Lemma record_event_action s e t l h : frame action_part (record_event s e t l h).
Proof. unfold record_event, _insert_event_record. unfold_statements. solve_frame. Qed.
Lemma record_event_count s e t l h : frame count_part (record_event s e t l h).
Proof. unfold record_event, _insert_event_record. unfold_statements. solve_frame. Qed.

Lemma backfill_frame B (p : kernel_db → B) s n pr es :
  (∀ f d, p (set_chain_roots f d) = p d) → frame p (backfill_chain s n pr es).
Proof.
  intros Hp. revert n pr. induction es as [|e es IH]; intros n pr; simpl; unfold_statements;
    solve_frame.
Qed.
Lemma append_chain_frame B (p : kernel_db → B) s e :
  (∀ f d, p (set_chain_roots f d) = p d) → frame p (_append_chain_connection s e).
Proof.
  intros Hp. pose proof (backfill_frame B p). unfold _append_chain_connection.
  unfold_statements. solve_frame.
Qed.
End part_frames.
#[export] Hint Resolve record_event_log record_event_life record_event_action
  record_event_count : kframe.
#[export] Hint Extern 1 (frame _ (_append_chain_connection _ _)) =>
  (apply append_chain_frame; by intros) : kframe.

Section append_frames.
Context {Dg : Digest} {Ho : Host}.

Lemma append_life s t src p l ps o e : frame life_part (_append_connection s t src p l ps o e).
Proof. unfold _append_connection. unfold_statements. solve_frame. Qed.
Lemma append_action s t src p l ps o e :
  frame action_part (_append_connection s t src p l ps o e).
Proof. unfold _append_connection. unfold_statements. solve_frame. Qed.
Lemma append_count s t src p l ps o e : frame count_part (_append_connection s t src p l ps o e).
Proof. unfold _append_connection. unfold_statements. solve_frame. Qed.

Lemma record_revision_log a r : frame log_part (_record_revision a r).
Proof. unfold _record_revision. unfold_statements. solve_frame. Qed.
Lemma record_revision_life a r : frame life_part (_record_revision a r).
Proof. unfold _record_revision. unfold_statements. solve_frame. Qed.
Lemma record_revision_count a r : frame count_part (_record_revision a r).
Proof. unfold _record_revision. unfold_statements. solve_frame. Qed.
Lemma log_revision_log l o st s e r : frame log_part (_append_behavior_log_revision l o st s e r).
Proof. unfold _append_behavior_log_revision. unfold_statements. solve_frame. Qed.
Lemma log_revision_life l o st s e r :
  frame life_part (_append_behavior_log_revision l o st s e r).
Proof. unfold _append_behavior_log_revision. unfold_statements. solve_frame. Qed.
Lemma log_revision_count l o st s e r :
  frame count_part (_append_behavior_log_revision l o st s e r).
Proof. unfold _append_behavior_log_revision. unfold_statements. solve_frame. Qed.
End append_frames.
#[export] Hint Resolve append_life append_action append_count record_revision_log
  record_revision_life record_revision_count log_revision_log log_revision_life
  log_revision_count : kframe.

(** [leaves p m] : [m] leaves [p] alone, whether it returns or raises. *)
Definition leaves {D A B} (p : D → B) (m : M D A) : Prop :=
  ∀ w, p (db (m w).2) = p (db w).
Lemma leaves_transaction {D A B} (p : D → B) (m : M D A) :
  frame p m → leaves p (transaction m).
Proof.
  intros H w. unfold transaction. destruct (m w) as [[a|e] w'] eqn:E; [by eapply H|done].
Qed.
Lemma leaves_silent {D A B} (p : D → B) (m : M D A) : silent m → leaves p m.
Proof. intros H w. by rewrite H. Qed.
Lemma leaves_bind {D A A' B} (p : D → B) (m : M D A) (k : A → M D A') :
  leaves p m → (∀ a, leaves p (k a)) → leaves p (m ≫= k).
Proof.
  intros Hm Hk w. unfold mbind, M_bind. specialize (Hm w).
  destruct (m w) as [[a|e] w']; simpl in *; [by rewrite Hk|done].
Qed.
Lemma leaves_catch {D A B} (p : D → B) (m : M D A) h :
  leaves p m → (∀ e m', h e = Some m' → leaves p m') → leaves p (catch m h).
Proof.
  intros Hm Hh w. unfold catch. specialize (Hm w).
  destruct (m w) as [[a|e] w']; simpl in *; [done|].
  destruct (h e) eqn:E; [by rewrite (Hh _ _ E)|done].
Qed.

Ltac solve_leaves :=
  repeat first
    [ apply leaves_silent; by eauto with noyra nocore
    | apply leaves_transaction; solve [solve_frame]
    | apply leaves_catch; [|intros ???]
    | apply leaves_bind; [|intros ?]
    | match goal with
      | |- leaves _ (if ?b then _ else _) => destruct b
      | |- leaves _ (match ?o with _ => _ end) => destruct o
      | H : _ = Some ?m |- leaves _ ?m => repeat case_match; simplify_eq
      end ].

Definition is_action_op (op : kernel_op) : bool :=
  match op with
  | KPrepare _ | KStart _ | KFinish _ _ _ _ | KCancel _ _ | KRecover _ | KReconcile _ _ _ _ _ =>
      true
  | _ => false
  end.

Section op_frames.
Context {Dg : Digest} {Ho : Host}.

Lemma behavior_log_frame B (p : kernel_db → B) r c st s :
  (∀ f d, p (set_behavior_logs f d) = p d) →
  (∀ l o st' s' e r', frame p (_append_behavior_log_revision l o st' s' e r')) →
  (∀ sid n, frame p (bump_count sid n)) → frame p (_insert_behavior_log r c st s).
Proof. intros. unfold _insert_behavior_log. unfold_statements. solve_frame. Qed.
Lemma behavior_log_log r c st s : frame log_part (_insert_behavior_log r c st s).
Proof. apply behavior_log_frame; by eauto with kframe. Qed.
Lemma behavior_log_life r c st s : frame life_part (_insert_behavior_log r c st s).
Proof. apply behavior_log_frame; by eauto with kframe. Qed.
Lemma behavior_log_count r c st s : frame count_part (_insert_behavior_log r c st s).
Proof. apply behavior_log_frame; by eauto with kframe. Qed.
End op_frames.
#[export] Hint Resolve behavior_log_log behavior_log_life behavior_log_count : kframe.

Section op_leaves.
Context {Dg : Digest} {Ho : Host}.

Lemma recover_frame B (p : kernel_db → B) rows :
  (∀ f d, p (set_actions f d) = p d) →
  (∀ r c st s, frame p (_insert_behavior_log r c st s)) →
  (∀ a r, frame p (_record_revision a r)) → frame p (recover_actions rows).
Proof. intros. induction rows as [|r rows IH]; simpl; solve_frame. Qed.
#[local] Hint Extern 1 (frame _ (recover_actions _)) =>
  (apply recover_frame; by eauto with kframe) : kframe.

Ltac unfold_actions :=
  unfold run_kernel, prepare, start, finish_action, Actions.cancel, recover_interrupted,
    reconcile_unknown; unfold_statements.
Lemma action_op_log op : is_action_op op = true → leaves log_part (run_kernel op).
Proof. destruct op; intros [=]; unfold_actions; solve_leaves. Qed.
Lemma action_op_life op : is_action_op op = true → leaves life_part (run_kernel op).
Proof. destruct op; intros [=]; unfold_actions; solve_leaves. Qed.
Lemma kernel_op_count op : leaves count_part (run_kernel op).
Proof.
  destruct op; unfold append_event, mark_processed, ensure_initial, transition,
    _transition_connection, safe_pause, current_state, require_runtime, pause_without_event,
    recover_for_restart; unfold_actions; solve_leaves.
Qed.
Lemma other_op_action op : is_action_op op = false → leaves action_part (run_kernel op).
Proof.
  destruct op; intros [=]; unfold run_kernel, append_event, mark_processed, ensure_initial,
    transition, _transition_connection, safe_pause, current_state, require_runtime,
    pause_without_event, recover_for_restart; unfold_statements; solve_leaves.
Qed.
End op_leaves.
