(* ===== verification/KernelChain.v ===== *)
(** * The event chain is intact, and evident when it is not

    Every reachable database passes [verify_chain] (C35), also one that
    started without a chain: its first append backfills the roots.  Two
    databases with the same number of events and the same root hold the
    same events, or exhibit a digest collision (C36). *)

From stdpp Require Import sorting.
From S2P Require Import Prelude Tables PyStr Json Digest Time KernelDb Events Lifecycle Actions.
From S2P Require Import KernelSystem.
Local Open Scope Z_scope.

(** ** Sorting by a number *)

Section sorting.
Context {R : Type}.

Lemma sort_by_strongly_sorted (leb : R → R → bool) l :
  StronglySorted (λ x y, leb x y = true) l → sort_by leb l = l.
Proof.
  induction 1 as [|x l _ IH Hx]; [done|]. simpl. rewrite IH.
  destruct l as [|y l]; [done|]. simpl. by rewrite (Forall_inv Hx).
Qed.
Lemma head_sort_max (k : R → Z) l x :
  head (sort_by (λ x y, k y <=? k x) l) = Some x → x ∈ l ∧ ∀ y, y ∈ l → k y <= k x.
Proof.
  revert x. induction l as [|z l IH]; intros x; [done|]. simpl.
  destruct (sort_by _ l) as [|y s] eqn:E; simpl.
  - intros [= ->]. assert (l = []) as ->.
    { apply Permutation_nil_r. by rewrite -E sort_by_perm. }
    split; [apply here|]. intros y Hy%list_elem_of_singleton. by subst.
  - destruct (IH y eq_refl) as [Hy Hm]. destruct (k y <=? k z) eqn:Ez; intros [= ->].
    + apply Z.leb_le in Ez. split; [apply here|].
      intros y' [->|Hy'%Hm]%elem_of_cons; lia.
    + apply Z.leb_gt in Ez. split; [by apply there|].
      intros y' [->|Hy'%Hm]%elem_of_cons; lia.
Qed.
Lemma head_sort_last (k : R → Z) l :
  StronglySorted (λ x y, k x < k y) l → head (sort_by (λ x y, k y <=? k x) l) = last l.
Proof.
  intros Hs. destruct (head _) as [x|] eqn:E.
  - apply head_sort_max in E as [Hx Hm].
    destruct l as [|y l _] using rev_ind; [by apply not_elem_of_nil in Hx|].
    rewrite last_snoc. apply elem_of_app in Hx as [Hx|Hx%list_elem_of_singleton]; [|by subst].
    specialize (Hm y ltac:(by apply elem_of_app; right; apply here)).
    apply (StronglySorted_app_1_elem_of _ _ _ x y) in Hs; [simpl in Hs; lia|done|apply here].
  - apply head_None in E. assert (l = []) as ->; [|done].
    apply Permutation_nil_r. by rewrite -E sort_by_perm.
Qed.
End sorting.

Section chain.
Context {Dg : Digest} {Ho : Host}.

(** ** Linked roots *)

(** Roots and events side by side: the chain the code builds. *)
Fixpoint linked (seq : Z) (prev : option string) (rs : list chain_row) (es : list event_row)
    : Prop :=
  match rs, es with
  | [], [] => True
  | r :: rs', e :: es' =>
      cr_event_id r = ev_event_id e ∧ cr_sequence_number r = seq ∧
      cr_previous_root_hash r = prev ∧ cr_root_hash r = _chain_hash e seq prev ∧
      linked (seq + 1) (Some (cr_root_hash r)) rs' es'
  | _, _ => False
  end.
Definition last_hash (prev : option string) (rs : list chain_row) : option string :=
  match last rs with Some r => Some (cr_root_hash r) | None => prev end.

Lemma last_hash_cons prev r rs : last_hash prev (r :: rs) = last_hash (Some (cr_root_hash r)) rs.
Proof. unfold last_hash. rewrite last_cons. by destruct (last rs). Qed.
Lemma linked_length seq prev rs es : linked seq prev rs es → length rs = length es.
Proof.
  revert seq prev es. induction rs as [|r rs IH]; intros seq prev [|e es]; try done.
  intros (_ & _ & _ & _ & H%IH). simpl. congruence.
Qed.
Lemma linked_snoc seq prev rs es r e :
  linked seq prev rs es →
  cr_event_id r = ev_event_id e → cr_sequence_number r = seq + Z.of_nat (length es) →
  cr_previous_root_hash r = last_hash prev rs →
  cr_root_hash r = _chain_hash e (seq + Z.of_nat (length es)) (last_hash prev rs) →
  linked seq prev (rs ++ [r]) (es ++ [e]).
Proof.
  revert seq prev es. induction rs as [|r0 rs IH]; intros seq prev [|e0 es] H He Hs Hp Hr;
    try done; simpl in *.
  - rewrite Z.add_0_r in Hs Hr. done.
  - destruct H as (? & ? & ? & ? & H). rewrite last_hash_cons in Hp, Hr. split_and!; try done.
    apply IH; try done; [lia|].
    by replace (seq + 1 + Z.of_nat (length es)) with (seq + Z.of_nat (S (length es))) by lia.
Qed.
Lemma linked_sorted seq prev rs es :
  linked seq prev rs es →
  StronglySorted (λ x y, cr_sequence_number x < cr_sequence_number y) rs
  ∧ Forall (λ r, seq <= cr_sequence_number r) rs.
Proof.
  revert seq prev es. induction rs as [|r rs IH]; intros seq prev [|e es]; try done.
  - by split; constructor.
  - intros (_ & Hs & _ & _ & [H1 H2]%IH). rewrite Forall_forall in H2.
    split; constructor; try done; try lia; apply Forall_forall; intros x Hx%H2; lia.
Qed.

(** The columns a root covers. *)
Definition event_core (e : event_row) :=
  (ev_event_id e, ev_subject_id e, ev_event_type e, ev_source e, ev_occurred_at e,
   ev_observed_at e, ev_payload_hash e, ev_privacy_level e, ev_causal_parent_ids_json e).
Lemma chain_hash_core e e' n p :
  event_core e = event_core e' → _chain_hash e n p = _chain_hash e' n p.
Proof.
  unfold event_core, _chain_hash. intros [= E1 E2 E3 E4 E5 E6 E7 E8 E9].
  by rewrite E1 E2 E3 E4 E5 E6 E7 E8 E9.
Qed.
Lemma linked_core n p rs es es' :
  map event_core es = map event_core es' → linked n p rs es → linked n p rs es'.
Proof.
  revert n p es es'. induction rs as [|r rs IH]; intros n p [|e es] [|e' es']; try done.
  intros [= E1 E2 E3 E4 E5 E6 E7 E8 E9 E]. assert (event_core e = event_core e') as Ec.
  { unfold event_core. congruence. }
  simpl. rewrite (chain_hash_core e e') // E1. intros (? & ? & ? & ? & H). split_and!; try done.
  by eapply IH.
Qed.

(** ** What the statements do *)

Lemma insert_event_ok r w u w' :
  ok (insert_event r) w u w' →
  w' = World (set_events (append_row r) (db w)) (tick w) (fresh w) ∧
  ev_event_id r ∉ map ev_event_id (events (db w)).
Proof.
  unfold insert_event. intros H. apply ok_bind in H as (d & w1 & [<- <-]%ok_gets & H).
  apply ok_bind in H as (? & ? & [Hn <-]%ok_kconstraint & H).
  apply ok_bind in H as (? & ? & [_ <-]%ok_kconstraint & ->%ok_modify). split; [done|].
  intros (e & E & He)%list_elem_of_fmap.
  rewrite negb_true_iff exists_where_false in Hn. specialize (Hn e He).
  by rewrite bool_decide_eq_false E in Hn.
Qed.
Lemma insert_root_ok r w u w' :
  ok (insert_root r) w u w' → w' = World (set_chain_roots (append_row r) (db w)) (tick w) (fresh w).
Proof. unfold insert_root, kconstraint. intros H. by invert_ok. Qed.

Lemma roots_of_append sid r d :
  roots_of sid (set_chain_roots (append_row r) d)
  = roots_of sid d ++ (if cr_subject_id r == sid then [r] else []).
Proof. unfold roots_of. simpl. by rewrite select_append. Qed.
Lemma backfill_links sid es n p w u w' :
  ok (backfill_chain sid n p es) w u w' →
  ∃ rs, roots_of sid (db w') = roots_of sid (db w) ++ rs ∧ linked n p rs es ∧
        ∀ sid', sid' ≠ sid → roots_of sid' (db w') = roots_of sid' (db w).
Proof.
  revert n p w. induction es as [|e es IH]; intros n p w H; simpl in H.
  - apply ok_ret in H as [_ <-]. exists []. by rewrite app_nil_r.
  - apply ok_bind in H as (now & w1 & [_ ->]%ok_read_clock & H).
    apply ok_bind in H as ([] & w2 & ->%insert_root_ok & H).
    apply IH in H as (rs & Er & Hl & Hot). simpl in *.
    rewrite roots_of_append bool_decide_true //= in Er.
    exists (root_row sid (ev_event_id e) n p (_chain_hash e n p) now :: rs). split_and!.
    + by rewrite Er -app_assoc.
    + done.
    + intros sid' Hn. rewrite Hot // roots_of_append bool_decide_false /=; [congruence|].
      by rewrite app_nil_r.
Qed.

(** The last step of an append: [es] are the earlier events of the subject. *)
Lemma append_chain_links sid eid es e w u w' :
  ok (_append_chain_connection sid eid) w u w' →
  events_of sid (db w) = es ++ [e] → event_by_id eid (db w) = Some e → ev_event_id e = eid →
  roots_of sid (db w) = [] ∨ linked 1 None (roots_of sid (db w)) es →
  linked 1 None (roots_of sid (db w')) (es ++ [e]) ∧
  ∀ sid', sid' ≠ sid → roots_of sid' (db w') = roots_of sid' (db w).
Proof.
  unfold _append_chain_connection. intros H Ees He Hid Hc.
  apply ok_bind in H as (d & w1 & [<- <-]%ok_gets & H). simpl in H.
  rewrite Ees length_app /= in H. unfold id in H.
  destruct ((Z.of_nat (length (roots_of sid (db w))) =? 0) && _) eqn:Eb.
  - apply andb_true_iff in Eb as [Er%Z.eqb_eq _].
    apply backfill_links in H as (rs & Er' & Hl & Hot). split; [|done].
    assert (roots_of sid (db w) = []) as E0 by (apply length_zero_iff_nil; lia).
    by rewrite Er' E0.
  - apply ok_bind in H as (? & ? & [Hlen <-]%ok_raise_if & H).
    apply negb_false_iff, Z.eqb_eq in Hlen.
    apply ok_bind in H as (e' & w2 & [E <-]%ok_lift & H). rewrite He in E. simplify_eq/=.
    apply ok_bind in H as (now & w2 & [_ ->]%ok_read_clock & ->%insert_root_ok). simpl.
    assert (linked 1 None (roots_of sid (db w)) es) as Hl.
    { destruct Hc as [Hc|Hc]; [|done]. rewrite Hc /= in Hlen *.
      destruct es; [done|simpl in Hlen; lia]. }
    assert (cr_root_hash <$> last_root sid (db w) = last_hash None (roots_of sid (db w))) as El.
    { unfold last_root. rewrite head_sort_last; [by eapply linked_sorted|].
      unfold last_hash. by destruct (last _). }
    split.
    + rewrite roots_of_append bool_decide_true //. apply linked_snoc; simpl; try done; try lia.
      rewrite El. f_equal. lia.
    + intros sid' Hn. rewrite roots_of_append bool_decide_false /=; [congruence|].
      by rewrite app_nil_r.
Qed.

(** ** The invariant *)

Record chain_inv (d : kernel_db) : Prop := {
  ci_ids : NoDup (map ev_event_id (events d));
  ci_chain sid : roots_of sid d = [] ∨ linked 1 None (roots_of sid d) (events_of sid d);
}.
Lemma chain_inv_part d d' : log_part d' = log_part d → chain_inv d → chain_inv d'.
Proof.
  unfold log_part. intros [= E1 E2] [H1 H2]. unfold roots_of, events_of in *.
  split; unfold roots_of, events_of; by rewrite E1 ?E2.
Qed.
Lemma select_update_core (p q : event_row → bool) f es :
  (∀ e, event_core (f e) = event_core e) → (∀ e, q (f e) = q e) →
  map event_core (select q (update_where p f es)) = map event_core (select q es).
Proof.
  intros Hf Hq. induction es as [|e es IH]; [done|]. unfold select, update_where in *. simpl.
  destruct (p e); rewrite ?Hq; destruct (q e); simpl; rewrite ?Hf IH; done.
Qed.
(** Updates of the columns the roots do not cover. *)
Lemma chain_inv_update p f d :
  (∀ e, event_core (f e) = event_core e) →
  chain_inv d → chain_inv (set_events (update_where p f) d).
Proof.
  intros Hf [H1 H2].
  assert (∀ e, ev_event_id (f e) = ev_event_id e ∧ ev_subject_id (f e) = ev_subject_id e) as Hk.
  { intros e. specialize (Hf e). unfold event_core in Hf. by simplify_eq. }
  split.
  - simpl. rewrite map_update //. intros e _. apply Hk.
  - intros sid. destruct (H2 sid) as [|Hl]; [by left|right]. eapply linked_core; [|exact Hl].
    symmetry. apply select_update_core; [done|]. intros e. by rewrite (proj2 (Hk e)).
Qed.

(** ** Appending *)

(** The event row [_append_connection] stores or finds. *)
Definition appended (sid type source : string) (payload : list (string * json))
    (privacy : string) (parents : list string) (e : event_row) : Prop :=
  ev_subject_id e = sid ∧ ev_event_type e = type ∧ ev_source e = source ∧
  ev_payload_hash e = content_hash (JObj payload) ∧ ev_privacy_level e = privacy ∧
  ev_causal_parent_ids_json e = canonical_json (JStrs parents).
Lemma conflict_free x s t src h l ps :
  event_conflicts x s t src h l ps = false →
  ev_subject_id x = s ∧ ev_event_type x = t ∧ ev_source x = src ∧ ev_payload_hash x = h ∧
  ev_privacy_level x = l ∧ ev_causal_parent_ids_json x = ps.
Proof.
  unfold event_conflicts. rewrite !orb_false_iff !negb_false_iff !bool_decide_eq_true.
  naive_solver.
Qed.
Lemma append_cases s t src p l ps o eid w r w' :
  ok (_append_connection s t src p l ps o eid) w r w' →
  ∃ e, appended s t src p l ps e ∧
  ((e ∈ events (db w) ∧ log_part (db w') = log_part (db w)) ∨
   (∃ w3, events (db w3) = events (db w) ++ [e] ∧ chain_roots (db w3) = chain_roots (db w) ∧
      (ev_event_id e ∉ map ev_event_id (events (db w))) ∧
      ok (_append_chain_connection s (ev_event_id e)) w3 tt w')).
Proof.
  unfold _append_connection. intros H.
  apply ok_bind in H as (? & ? & [_ <-]%ok_raise_if & H).
  apply ok_bind in H as (? & ? & [_ <-]%ok_raise_if & H).
  apply ok_bind in H as (id & w1 & H1%(or_else_pure _ _ (pure_knew_id _)) & H).
  apply ok_bind in H as (ot & w2 & H2%(or_else_pure _ _ pure_kutc_now) & H).
  apply ok_bind in H as (oa & ? & [_ <-]%ok_lift & H).
  apply ok_bind in H as (ob & w3 & H3%pure_kutc_now & H).
  apply ok_bind in H as (? & ? & [_ <-]%ok_raise_if & H).
  apply ok_bind in H as (? & w4 & H4%(pure_for_each _ _ (assert_sources_pure _)) & H).
  assert (db w4 = db w) as Ew by congruence. clear H1 H2 H3 H4.
  apply ok_bind in H as (found & ? & [Hf <-]%ok_gets & H). destruct found as [ex|].
  - apply ok_bind in H as (? & ? & [Hc%conflict_free <-]%ok_raise_if & H).
    apply ok_bind in H as (? & w5 & H5%record_event_log & H6%event_from_row_pure).
    exists ex. split; [done|left]. unfold event_by_id in Hf. apply fetchone_Some in Hf as [Hx _].
    rewrite H6 -Ew. done.
  - apply ok_bind in H as (? & w5 & H5%(pure_for_each _ _ (check_parent_pure _ _ _)) & H).
    apply ok_bind in H as (? & w6 & [-> Hn]%insert_event_ok & H).
    apply ok_bind in H as (? & w7 & H7%record_event_log & H).
    apply ok_bind in H as ([] & w8 & H8 & [_ <-]%ok_ret).
    match type of H7 with context [append_row ?e] => exists e end.
    split; [done|right]. exists w7. unfold log_part in H7. injection H7 as E1 E2.
    rewrite -Ew -H5. split_and!; [exact E1|exact E2|exact Hn|exact H8].
Qed.

Lemma events_of_snoc sid d d' e :
  events d' = events d ++ [e] →
  events_of sid d' = events_of sid d ++ (if ev_subject_id e == sid then [e] else []).
Proof. unfold events_of. intros ->. by rewrite -select_append. Qed.
Lemma append_chain_inv s t src p l ps o eid :
  keeps chain_inv (_append_connection s t src p l ps o eid).
Proof.
  intros w r w' (e & Ha & [[_ E]|(w3 & Ee & Er & Hn & H)])%append_cases Hi;
    [by eapply chain_inv_part|].
  assert (events (db w') = events (db w3)) as Ew.
  { eapply (append_chain_frame _ events); [|exact H]. done. }
  destruct Ha as (Hs & _). destruct Hi as [Hd Hc].
  assert (NoDup (map ev_event_id (events (db w3)))) as Hd3.
  { rewrite Ee. by apply NoDup_map_snoc. }
  apply (append_chain_links _ _ (events_of s (db w)) e) in H as [Hl Ho'].
  - split; [by rewrite Ew|]. intros sid. unfold events_of. rewrite Ew Ee.
    fold (append_row e (events (db w))). rewrite select_append.
    destruct (decide (sid = s)) as [->|Hne].
    + right. by rewrite bool_decide_true.
    + rewrite Ho' // bool_decide_false; [congruence|]. rewrite app_nil_r.
      unfold roots_of. rewrite Er. apply Hc.
  - by rewrite (events_of_snoc _ (db w) _ e) // bool_decide_true.
  - unfold event_by_id. apply (fetchone_key ev_event_id); [done|].
    rewrite Ee. apply elem_of_app. right. apply here.
  - done.
  - unfold roots_of. rewrite Er. apply Hc.
Qed.

(** ** Every step keeps the chain *)

Lemma keeps_log_part {A} (m : K A) : frame log_part m → keeps chain_inv m.
Proof. intros H w a w' ?%H ?. by eapply chain_inv_part. Qed.
Ltac keep_chain :=
  repeat first
    [ apply append_chain_inv
    | apply keeps_log_part; solve [unfold_statements; solve_frame]
    | apply keeps_bind; [|intros ?]
    | match goal with
      | |- keeps _ (if ?b then _ else _) => destruct b
      | |- keeps _ (match ?o with _ => _ end) => destruct o
      end ].
Lemma op_keeps_chain op : preserves chain_inv (run_kernel op).
Proof.
  destruct (is_action_op op) eqn:Ea.
  { intros w. apply chain_inv_part. by apply action_op_log. }
  destruct op; try done; simpl;
    try (apply preserves_bind; [|intros ?; by apply preserves_silent]).
  - apply preserves_transaction. keep_chain.
  - apply preserves_bind; [apply preserves_silent; by eauto with noyra|intros _].
    apply preserves_transaction. keep_chain. apply keeps_modify. intros d.
    by apply chain_inv_update.
  - apply preserves_bind; [apply preserves_silent; by eauto with noyra|intros _].
    apply preserves_transaction. keep_chain.
  - do 2 (apply preserves_bind; [apply preserves_silent; by eauto with noyra|intros _]).
    apply preserves_transaction. unfold _transition_connection. keep_chain.
  - apply preserves_transaction. unfold _transition_connection. keep_chain.
  - unfold safe_pause. apply preserves_bind; [|intros r'].
    { apply preserves_silent. unfold current_state, require_runtime. solve_silent. }
    case_match; [by apply preserves_silent|].
    apply preserves_bind; [apply preserves_silent; by eauto with noyra|intros _].
    apply preserves_catch.
    + do 2 (apply preserves_bind; [apply preserves_silent; by eauto with noyra|intros _]).
      apply preserves_transaction. unfold _transition_connection. keep_chain.
    + intros e m' E. destruct e; simplify_eq. apply preserves_bind; [by apply preserves_silent|].
      intros now. apply preserves_transaction. keep_chain.
  - apply preserves_bind; [apply preserves_silent; by eauto with noyra|intros _].
    apply preserves_transaction. keep_chain.
Qed.
Lemma env_keeps_chain d d' : env_change d d' → chain_inv d → chain_inv d'.
Proof.
  intros [|sid _|sid eid key at_|ps rs|r|f|o] H; try done; try (by apply (chain_inv_part d)).
  by apply chain_inv_update.
Qed.
Lemma reachable_chain w : kreachable w → chain_inv (db w).
Proof.
  revert w. apply kreachable_ind.
  - intros d [Hd Hr]. split; [done|]. intros sid. left. unfold roots_of. simpl. by rewrite Hr.
  - intros w w' _ [op _|d t f He _ _]; [apply op_keeps_chain|by apply env_keeps_chain].
Qed.

(** ** Verification succeeds *)

Lemma verify_linked n p rs es v :
  linked n p rs es →
  verify_rows (zip rs es) n p v = Ok (v + Z.of_nat (length es), last_hash p rs).
Proof.
  revert n p es v. induction rs as [|r rs IH]; intros n p [|e es] v H; try done; simpl.
  - by rewrite Z.add_0_r.
  - destruct H as (Hi & Hs & Hp & Hr & H). rewrite Hs Hi Hp Hr Z.eqb_refl !bool_decide_true //=.
    rewrite -Hr IH // last_hash_cons. do 2 f_equal. lia.
Qed.
Lemma linked_join n p d rs es :
  NoDup (map ev_event_id (events d)) → linked n p rs es →
  (∀ e, e ∈ es → e ∈ events d) →
  (∀ r e, r ∈ rs → e ∈ es → cr_subject_id r = ev_subject_id e) →
  flat_map (λ r, map (λ e, (r, e))
      (select (λ e, (ev_event_id e == cr_event_id r) && (ev_subject_id e == cr_subject_id r))
         (events d))) rs = zip rs es.
Proof.
  intros Hd. revert n p es. induction rs as [|r rs IH]; intros n p [|e es] H Hin Hs; try done.
  destruct H as (Hi & _ & _ & _ & H). simpl. rewrite (IH _ _ _ H).
  - intros x Hx. by apply Hin, there.
  - intros x y Hx Hy. apply Hs; by apply there.
  - rewrite (select_ext _ (λ x, ev_event_id x == ev_event_id e)).
    { intros x Hx. rewrite Hi. case_bool_decide as E; [|done]. simpl. apply bool_decide_true.
      rewrite (Hs r e (here _ _) (here _ _)). f_equal.
      by eapply (key_unique ev_event_id); [|..|exact E]; [|done|apply Hin, here]. }
    rewrite (select_key_singleton ev_event_id) //. apply Hin, here.
Qed.

(** C35: The event chain is intact.  In every reachable database, whatever
    the operations and other components did and also when it began with
    events from before the chain, [verify_chain] succeeds for a subject
    whose chain exists: it covers every event of the subject exactly once
    and returns their number and the hash of the last root. *)
Theorem reachable_chain_verifies w sid :
  kreachable w → (roots_of sid (db w) ≠ [] ∨ events_of sid (db w) = []) →
  verify_chain sid w = (Ok (Z.of_nat (length (events_of sid (db w))),
                            cr_root_hash <$> last_root sid (db w)), w).
Proof.
  intros [Hd Hc]%reachable_chain Hne.
  assert (linked 1 None (roots_of sid (db w)) (events_of sid (db w))) as Hl.
  { destruct (Hc sid) as [E|Hl]; [|done]. destruct Hne as [?|E']; [done|]. by rewrite E E'. }
  destruct (linked_sorted _ _ _ _ Hl) as [Hs _].
  assert (chain_join sid (db w) = zip (roots_of sid (db w)) (events_of sid (db w))) as Ej.
  { unfold chain_join. rewrite sort_by_strongly_sorted.
    - clear -Hs. induction Hs as [|x l _ IH Hx]; constructor; [done|].
      eapply Forall_impl; [exact Hx|]. simpl. intros y ?. lia.
    - eapply linked_join; eauto.
      + by intros e [? _]%elem_of_select.
      + intros r e [_ ?%bool_decide_eq_true]%elem_of_select
          [_ ?%bool_decide_eq_true]%elem_of_select. congruence. }
  unfold verify_chain, read_transaction, transaction, gets, lift, raise_if, mbind, M_bind, mret,
    M_ret. unfold id. simpl. rewrite (linked_length _ _ _ _ Hl) Z.eqb_refl Ej /=.
  rewrite (verify_linked _ _ _ _ 0 Hl) /= Z.eqb_refl /=.
  unfold last_root. by rewrite head_sort_last.
Qed.

(** ** Tampering is evident *)

Definition collision : Prop :=
  ∃ b1 b2 : list N, b1 ≠ b2 ∧ sha256_hexdigest b1 = sha256_hexdigest b2.
Lemma content_hash_inj v1 v2 :
  wf_json v1 → wf_json v2 → content_hash v1 = content_hash v2 → norm v1 = norm v2 ∨ collision.
Proof.
  intros H1 H2 E. destruct (decide (utf8 (canonical_json v1) = utf8 (canonical_json v2))) as [Eu|Hn].
  - left. by apply canonical_json_inj, utf8_inj.
  - right. by eexists _, _.
Qed.
(** The hashed object determines what it is built from. *)
Lemma chain_hash_inj e1 e2 n1 n2 p1 p2 :
  _chain_hash e1 n1 p1 = _chain_hash e2 n2 p2 →
  (event_core e1 = event_core e2 ∧ n1 = n2 ∧ p1 = p2) ∨ collision.
Proof.
  unfold _chain_hash.
  intros [E|?]%content_hash_inj; [left|by right|split; [|by destruct p1]|split; [|by destruct p2]];
    [|by apply (bool_decide_unpack _); vm_compute..].
  destruct e1, e2. destruct p1, p2; vm_compute in E; unfold event_core; simpl; by simplify_eq.
Qed.

(** The root after a sequence of events. *)
Fixpoint chain_root (n : Z) (p : option string) (es : list event_row) : option string :=
  match es with
  | [] => p
  | e :: es' => chain_root (n + 1) (Some (_chain_hash e n p)) es'
  end.
Lemma chain_root_inj n es1 : ∀ p1 p2 es2,
  length es1 = length es2 → chain_root n p1 es1 = chain_root n p2 es2 →
  (map event_core es1 = map event_core es2 ∧ p1 = p2) ∨ collision.
Proof.
  revert n. induction es1 as [|e1 es1 IH]; intros n p1 p2 [|e2 es2] Hl E; try done; [by left|].
  simpl in *. destruct (IH (n + 1) _ _ es2 ltac:(lia) E) as [[Em Ep]|?]; [|by right].
  simplify_eq. destruct (chain_hash_inj _ _ _ _ _ _ Ep) as [(Ec & _ & Epp)|?]; [|by right].
  left. by rewrite Em Ec.
Qed.
Lemma verify_rows_root rows n p v m q :
  verify_rows rows n p v = Ok (m, q) →
  m = v + Z.of_nat (length rows) ∧ q = chain_root n p (map snd rows).
Proof.
  revert n p v. induction rows as [|[r e] rows IH]; intros n p v H; simpl in *.
  - simplify_eq. split; [lia|done].
  - case_match; [done|]. apply IH in H as [-> ->]. split; [lia|done].
Qed.

(** The primary keys of [events] and [event_chain_roots]. *)
Definition keyed (d : kernel_db) : Prop :=
  NoDup (map ev_event_id (events d)) ∧ NoDup (map cr_event_id (chain_roots d)).
Lemma chain_join_nodup sid d : keyed d → NoDup (map snd (chain_join sid d)).
Proof.
  intros [He Hr]. unfold chain_join.
  assert (NoDup (map cr_event_id (sort_by (λ x y, cr_sequence_number x <=? cr_sequence_number y)
            (roots_of sid d)))) as Hn.
  { rewrite sort_by_perm. by apply NoDup_select. }
  induction (sort_by _ _) as [|r rs IH]; simpl in *; [constructor|].
  apply NoDup_cons in Hn as [Hn1 Hn2]. rewrite map_app map_map /= map_id.
  apply NoDup_app. split_and!; [| |by apply IH].
  - apply NoDup_fmap_1 in He. by apply NoDup_ListNoDup, List.NoDup_filter, NoDup_ListNoDup.
  - intros e [_ [E%bool_decide_eq_true _]%andb_true_iff]%elem_of_select
      ([r' e'] & -> & Hr')%list_elem_of_fmap.
    apply list_elem_of_In, in_flat_map in Hr' as (r2 & Hr2 & (e2 & [= <- <-] & He2)%in_map_iff).
    apply list_elem_of_In, elem_of_select in He2 as [_ [E2%bool_decide_eq_true _]%andb_true_iff].
    apply Hn1. simpl in E. rewrite -E E2. by apply list_elem_of_fmap_2, list_elem_of_In.
Qed.
Lemma chain_join_covers sid w n root w' :
  keyed (db w) → ok (verify_chain sid) w (n, root) w' →
  n = Z.of_nat (length (chain_join sid (db w))) ∧
  root = chain_root 1 None (map snd (chain_join sid (db w))) ∧
  map snd (chain_join sid (db w)) ≡ₚ events_of sid (db w).
Proof.
  intros Hk H%ok_read_transaction. apply ok_bind in H as (d & ? & [<- <-]%ok_gets & H).
  apply ok_bind in H as (? & ? & [_ <-]%ok_raise_if & H).
  apply ok_bind in H as ([m q] & ? & [Hv%verify_rows_root <-]%ok_lift & H).
  apply ok_bind in H as (? & ? & [Hc <-]%ok_raise_if & [[= -> ->] _]%ok_ret).
  unfold id in *. destruct Hv as [-> ->]. apply negb_false_iff, Z.eqb_eq in Hc. simpl in Hc.
  split_and!; [lia|done|]. apply submseteq_length_Permutation.
  - apply NoDup_submseteq; [by apply chain_join_nodup|].
    intros e ([r e'] & -> & Hr)%list_elem_of_fmap. unfold chain_join in Hr.
    apply list_elem_of_In, in_flat_map in Hr as (r2 & Hr2 & (e2 & [= <- <-] & He2)%in_map_iff).
    apply list_elem_of_In, elem_of_sort_by, elem_of_select in Hr2 as [_ E%bool_decide_eq_true].
    apply list_elem_of_In, elem_of_select in He2 as
      [He2 [_ E2%bool_decide_eq_true]%andb_true_iff].
    apply elem_of_select. split; [done|]. apply bool_decide_true. simpl. congruence.
  - rewrite length_map. lia.
Qed.

(** C36: The chain is tamper evident.  If two databases, say a backup and
    the present one, both pass [verify_chain] for a subject with the same
    count and the same root hash, then they hold the same events of that
    subject, in the columns the chain covers (identity, type, source,
    times, payload hash, privacy level, causal parents), or else the digest
    has a collision.  Nothing is assumed of how the second came about. *)
Theorem chain_tamper_evident sid w1 w1' w2 w2' n root :
  keyed (db w1) → keyed (db w2) →
  verify_chain sid w1 = (Ok (n, root), w1') → verify_chain sid w2 = (Ok (n, root), w2') →
  map event_core (events_of sid (db w1)) ≡ₚ map event_core (events_of sid (db w2))
  ∨ ∃ b1 b2 : list N, b1 ≠ b2 ∧ sha256_hexdigest b1 = sha256_hexdigest b2.
Proof.
  intros Hk1 Hk2 H1%(chain_join_covers _ _ _ _ _ Hk1) H2%(chain_join_covers _ _ _ _ _ Hk2).
  destruct H1 as (N1 & R1 & P1), H2 as (N2 & R2 & P2).
  destruct (chain_root_inj 1 (map snd (chain_join sid (db w1))) None None
              (map snd (chain_join sid (db w2)))) as [[E _]|?]; [|congruence| |by right].
  - rewrite !length_map. lia.
  - left. by rewrite -P1 -P2 E.
Qed.
End chain.
