(* ===== verification/KernelLife.v ===== *)
(** * The lifecycle is explained by its records

    Every change of a runtime state leaves a record of the same version:
    an event on the hash chain, or the audit record of the safe pause.
    C37: the stored state of a reachable database is the end of an unbroken
    sequence of recorded, permitted changes. *)

From S2P Require Import Prelude Tables PyStr Json Digest Time KernelDb Events Lifecycle Actions.
From S2P Require Import KernelSystem KernelChain.
Local Open Scope Z_scope.

(** The changes [recover_for_restart] makes. *)
Definition restarts (from to : LifecycleState) : bool :=
  match from with
  | Booting | Stopped | Resetting | Paused => false
  | _ => to == recovered_state from
  end.

Section life.
Context {Dg : Digest} {Ho : Host}.

(** The database records the [n]-th change of the subject's state. *)
Inductive recorded (sid : string) (d : kernel_db) (n : Z) : LifecycleState → LifecycleState → Prop :=
| recorded_transition from to reason e :
    to ∈ ALLOWED_TRANSITIONS from → e ∈ events d → ev_subject_id e = sid →
    ev_event_type e = "lifecycle_transition"%string →
    ev_payload_hash e = content_hash (JObj (change_payload from to reason n)) →
    recorded sid d n from to
| recorded_restart from to reason e :
    restarts from to = true → e ∈ events d → ev_subject_id e = sid →
    ev_event_type e = "lifecycle_recovery"%string →
    ev_payload_hash e = content_hash (JObj (change_payload from to reason n)) →
    recorded sid d n from to
| recorded_safe_pause reason a :
    a ∈ kaudits d → ka_subject_id a = sid →
    ka_action a = "integrity_safe_pause_fallback"%string →
    ka_payload_json a = canonical_json (JObj (change_payload Active Paused reason n)) →
    recorded sid d n Active Paused.
(** From some initial state at version 0, one record per version. *)
Inductive trail (sid : string) (d : kernel_db) : Z → LifecycleState → Prop :=
| trail_initial s : trail sid d 0 s
| trail_change n from to :
    trail sid d n from → recorded sid d (n + 1) from to → trail sid d (n + 1) to.

(** ** Records are never lost *)

Record grows (d d' : kernel_db) : Prop := {
  gr_events e : e ∈ events d → ∃ e', e' ∈ events d' ∧ event_core e' = event_core e;
  gr_audits a : a ∈ kaudits d → a ∈ kaudits d';
}.
Lemma grows_parts d d' :
  log_part d' = log_part d → kaudits d' = kaudits d → grows d d'.
Proof. unfold log_part. intros [= E _] Ea. split; rewrite ?E ?Ea; eauto. Qed.
Lemma grows_trans d1 d2 d3 : grows d1 d2 → grows d2 d3 → grows d1 d3.
Proof.
  intros [H1 H2] [H3 H4]. split; [|by auto]. intros e (e1 & (e2 & ? & E2)%H3 & E1)%H1.
  exists e2. split; congruence.
Qed.
Lemma recorded_grows sid d d' n from to :
  grows d d' → recorded sid d n from to → recorded sid d' n from to.
Proof.
  intros [He Ha] [from' to' reason e Hal (e' & Hin & E)%He Hs Ht Hh
                 |from' to' reason e Hal (e' & Hin & E)%He Hs Ht Hh
                 |reason a Hin%Ha Hs Hk Hp].
  - unfold event_core in E. eapply (recorded_transition _ _ _ _ _ reason e'); [done..| | |];
      simplify_eq; congruence.
  - unfold event_core in E. eapply (recorded_restart _ _ _ _ _ reason e'); [done..| | |];
      simplify_eq; congruence.
  - by eapply recorded_safe_pause.
Qed.
Lemma trail_grows sid d d' n s : grows d d' → trail sid d n s → trail sid d' n s.
Proof. intros Hg. induction 1; econstructor; eauto using recorded_grows. Qed.

Lemma append_grows s t src p l ps o eid w r w' :
  ok (_append_connection s t src p l ps o eid) w r w' →
  grows (db w) (db w') ∧ runtime_states (db w') = runtime_states (db w) ∧
  ∃ e, e ∈ events (db w') ∧ appended s t src p l ps e.
Proof.
  intros H. pose proof (append_life _ _ _ _ _ _ _ _ _ _ _ H) as El. unfold life_part in El.
  injection El as Er Ea. apply append_cases in H as (e & Hp & [[He E]|(w3 & Ee & _ & _ & H)]).
  - split_and!; [by apply grows_parts|done|]. unfold log_part in E. injection E as E _.
    exists e. by rewrite E.
  - assert (events (db w') = events (db w) ++ [e]) as E.
    { rewrite -Ee. eapply (append_chain_frame _ events); [done|exact H]. }
    split_and!; [split|done|].
    + intros x Hx. exists x. rewrite E. split; [by apply elem_of_app; left|done].
    + by rewrite Ea.
    + exists e. rewrite E. split; [|done]. apply elem_of_app. right. apply here.
Qed.

(** ** The invariant *)

Record life_inv (d : kernel_db) : Prop := {
  li_key : NoDup (map rs_subject_id (runtime_states d));
  li_trail r : r ∈ runtime_states d → trail (rs_subject_id r) d (rs_version r) (rs_state r);
}.
Lemma life_inv_grows d d' :
  grows d d' → runtime_states d' = runtime_states d → life_inv d → life_inv d'.
Proof.
  intros Hg E [H1 H2]. split; rewrite E; [done|]. intros r Hr. by eapply trail_grows, H2.
Qed.
Lemma life_inv_change sid row to reason changed_at d d' :
  life_inv d → runtime_of sid d = Some row →
  runtime_states d' = update_where (λ r, rs_subject_id r == sid) (λ r,
    {| rs_subject_id := rs_subject_id r; rs_state := to; rs_reason := reason;
       rs_version := rs_version row + 1; rs_changed_at := changed_at |}) (runtime_states d) →
  grows d d' → recorded sid d' (rs_version row + 1) (rs_state row) to → life_inv d'.
Proof.
  intros [H1 H2] [Hin Es%bool_decide_eq_true]%fetchone_Some E Hg Hr.
  split; rewrite E; [by rewrite map_update|].
  intros r (r0 & Hr0 & ->)%elem_of_update. case_bool_decide as E0; simpl.
  - rewrite E0. eapply trail_change; [|exact Hr]. rewrite -Es. by eapply trail_grows, H2.
  - by eapply trail_grows, H2.
Qed.

(** ** Every operation keeps it *)

Lemma update_state_ok sid st reason v at_ w u w' :
  ok (update_runtime_state sid st reason v at_) w u w' →
  w' = World (set_runtime_states (update_where (λ r, rs_subject_id r == sid) (λ r,
    {| rs_subject_id := rs_subject_id r; rs_state := st; rs_reason := reason;
       rs_version := v; rs_changed_at := at_ |})) (db w)) (tick w) (fresh w).
Proof.
  unfold update_runtime_state. intros H.
  by apply ok_bind in H as (? & ? & [_ <-]%ok_kconstraint & ->%ok_modify).
Qed.
Lemma require_runtime_ok sid w row w' :
  ok (require_runtime sid) w row w' → runtime_of sid (db w) = Some row ∧ w' = w.
Proof.
  unfold require_runtime. intros H. apply ok_bind in H as (o & ? & [Ho' <-]%ok_gets & H).
  apply ok_lift in H as [H <-]. destruct o; simpl in H; by simplify_eq.
Qed.
Lemma runtime_from_row_ok row row' : runtime_from_row row = Ok row' → row' = row.
Proof. unfold runtime_from_row. case_match; congruence. Qed.

(** A change of state and the event that records it. *)
Lemma change_recorded sid st reason v at_ at2 type actor p eid row w u w1 r w2 :
  ok (update_runtime_state sid st reason v at_) w u w1 →
  ok (_append_connection sid type actor p "public_status" [] at2 eid) w1 r w2 →
  runtime_of sid (db w) = Some row → v = rs_version row + 1 →
  (∀ d e, e ∈ events d → ev_subject_id e = sid → ev_event_type e = type →
     ev_payload_hash e = content_hash (JObj p) →
     recorded sid d (rs_version row + 1) (rs_state row) st) →
  life_inv (db w) → life_inv (db w2).
Proof.
  intros ->%update_state_ok (Hg & Er & e & He & Hs & Ht & _ & Hh & _)%append_grows Hrow -> Hrec Hi.
  simpl in *. eapply life_inv_change; eauto. eapply grows_trans; [|exact Hg]. by apply grows_parts.
Qed.
Lemma transition_keeps sid st reason actor :
  keeps life_inv (_transition_connection sid st reason actor).
Proof.
  intros w r w' H Hi. unfold _transition_connection in H.
  apply ok_bind in H as (? & ? & [_ <-]%ok_raise_if & H).
  apply ok_bind in H as (? & ? & [_ <-]%ok_raise_if & H).
  apply ok_bind in H as (row & ? & [Hrow ->]%require_runtime_ok & H).
  apply ok_bind in H as (? & ? & [Hal <-]%ok_raise_if & H).
  apply negb_false_iff, bool_decide_eq_true in Hal.
  apply ok_bind in H as (now & w1 & [_ ->]%ok_read_clock & H).
  apply ok_bind in H as (? & w2 & Hu & H). apply ok_bind in H as (? & w3 & Ha & [_ <-]%ok_ret).
  eapply (change_recorded _ _ _ _ _ _ _ _ _ _ row _ _ _ _ _ Hu Ha); try done.
  intros d e ????. by eapply recorded_transition.
Qed.
Lemma restart_keeps sid reason w r w' :
  ok (recover_for_restart sid reason) w r w' → life_inv (db w) → life_inv (db w').
Proof.
  intros H Hi. apply ok_bind in H as (? & ? & [_ <-]%ok_raise_if & H%ok_transaction).
  apply ok_bind in H as (? & w1 & Hg%guard_pure & H). rewrite -Hg in Hi.
  apply ok_bind in H as (row & ? & [Hrow ->]%require_runtime_ok & H).
  apply ok_bind in H as (cur & ? & [->%runtime_from_row_ok <-]%ok_lift & H).
  case_bool_decide as E1; [by apply ok_ret in H as [_ <-]|].
  apply ok_bind in H as (? & ? & [[E2 E3]%orb_false_iff <-]%ok_raise_if & H).
  apply bool_decide_eq_false in E2, E3.
  case_bool_decide as E4; [by apply ok_ret in H as [_ <-]|].
  apply ok_bind in H as (now & w2 & [_ ->]%ok_read_clock & H).
  apply ok_bind in H as (? & w3 & Hu & H). apply ok_bind in H as (? & w4 & Ha & [_ <-]%ok_ret).
  eapply (change_recorded _ _ _ _ _ _ _ _ _ _ row _ _ _ _ _ Hu Ha); try done.
  intros d e ????. eapply recorded_restart; try done.
  unfold restarts. destruct (rs_state row); try done; by apply bool_decide_true.
Qed.
Lemma pause_keeps sid reason actor at_ w r w' :
  ok (pause_without_event sid reason actor at_) w r w' → life_inv (db w) → life_inv (db w').
Proof.
  intros H%ok_transaction Hi.
  apply ok_bind in H as (? & w1 & Hg%guard_pure & H). rewrite -Hg in Hi.
  apply ok_bind in H as (row & ? & [Hrow ->]%require_runtime_ok & H).
  case_bool_decide as E1; [by apply ok_lift in H as [_ <-]|].
  apply ok_bind in H as (? & ? & [E2%negb_false_iff%bool_decide_eq_true <-]%ok_raise_if & H).
  apply ok_bind in H as (? & w2 & ->%update_state_ok & H).
  apply ok_bind in H as (aid & w3 & Hd%pure_knew_id & H).
  apply ok_bind in H as (? & w4 & H & [_ <-]%ok_ret). unfold insert_kaudit in H.
  apply ok_bind in H as (d & ? & [<- <-]%ok_gets & H).
  do 2 apply ok_bind in H as (? & ? & [_ <-]%ok_kconstraint & H). apply ok_modify in H as ->.
  simpl in *. unfold id in *. eapply life_inv_change; [exact Hi|exact Hrow|..]; simpl.
  - by rewrite Hd.
  - split; simpl; rewrite Hd; [by eauto|]. intros a Ha. by apply elem_of_append; left.
  - rewrite E2. eapply recorded_safe_pause; [apply elem_of_append; by right|done..].
Qed.
Lemma life_inv_parts d d' :
  log_part d' = log_part d → life_part d' = life_part d → life_inv d → life_inv d'.
Proof.
  unfold life_part. intros E [= Er Ea]. apply life_inv_grows; [by apply grows_parts|done].
Qed.
Lemma grows_update p f d :
  (∀ e, event_core (f e) = event_core e) → grows d (set_events (update_where p f) d).
Proof.
  intros Hf. split; simpl; [|done]. intros e He. exists (if p e then f e else e). split.
  - apply elem_of_update. by exists e.
  - by case_match.
Qed.
Lemma ensure_keeps sid st reason w r w' :
  ok (ensure_initial sid st reason) w r w' → life_inv (db w) → life_inv (db w').
Proof.
  intros H Hi. apply ok_bind in H as (? & ? & [_ <-]%ok_raise_if & H%ok_transaction).
  apply ok_bind in H as ([row|] & ? & [Hf <-]%ok_gets & H); [by apply ok_lift in H as [_ <-]|].
  apply ok_bind in H as (? & w1 & Hg%guard_pure & H). rewrite -Hg in Hi, Hf.
  apply ok_bind in H as (now & w2 & [_ ->]%ok_read_clock & H).
  apply ok_bind in H as (? & w3 & H & [_ <-]%ok_ret). unfold insert_runtime_state in H.
  apply ok_bind in H as (d & ? & [<- <-]%ok_gets & H).
  do 2 apply ok_bind in H as (? & ? & [_ <-]%ok_kconstraint & H). apply ok_modify in H as ->.
  simpl in *. destruct Hi as [H1 H2]. split; simpl.
  - by apply NoDup_append.
  - intros r' [Hr'| ->]%elem_of_append; [|apply trail_initial].
    eapply trail_grows; [|by apply H2]. by apply grows_parts.
Qed.
Lemma append_keeps_life s t src p l ps o eid :
  keeps life_inv (_append_connection s t src p l ps o eid).
Proof. intros w r w' (Hg & Er & _)%append_grows. by apply life_inv_grows. Qed.
(** A program whose exceptions roll back. *)
Definition rolls_back {A} (m : K A) : Prop := ∀ w e w', m w = (Raise e, w') → db w' = db w.
Lemma rolls_back_transaction {A} (m : K A) : rolls_back (transaction m).
Proof. intros w e w'. apply transaction_rollback. Qed.
Lemma rolls_back_guarded {A} b e (m : K A) : rolls_back m → rolls_back (raise_if b e ;; m).
Proof.
  intros H w e' w'. unfold raise_if, raise, mbind, M_bind, mret, M_ret.
  destruct b; [by intros [= _ <-]|apply H].
Qed.
Lemma preserves_rolls_back {A} I (m : K A) : rolls_back m → keeps I m → preserves I m.
Proof.
  intros Hr Hk w Hi. destruct (m w) as [[a|e] w'] eqn:E; simpl; [by eapply Hk|].
  by rewrite (Hr _ _ _ E).
Qed.
Lemma transition_op_keeps sid st reason actor :
  preserves life_inv (transition sid st reason actor).
Proof.
  apply preserves_rolls_back; [by apply rolls_back_guarded, rolls_back_guarded, rolls_back_transaction|].
  do 2 (apply keeps_bind; [by apply keeps_pure, pure_raise_if|intros _]).
  apply keeps_transaction, keeps_bind; [apply keeps_pure, guard_pure|intros _].
  apply transition_keeps.
Qed.
Lemma safe_pause_keeps sid reason actor : preserves life_inv (safe_pause sid reason actor).
Proof.
  unfold safe_pause. apply preserves_bind; [|intros row].
  { apply preserves_silent. unfold current_state, require_runtime. solve_silent. }
  case_match; [by apply preserves_silent|].
  apply preserves_bind; [apply preserves_silent, silent_raise_if|intros _].
  apply preserves_catch; [apply transition_op_keeps|].
  intros e m' E. destruct e; simplify_eq. apply preserves_bind; [by apply preserves_silent|].
  intros now. apply preserves_rolls_back; [apply rolls_back_transaction|].
  intros w a w'. apply pause_keeps.
Qed.
Lemma op_keeps_life op : preserves life_inv (run_kernel op).
Proof.
  destruct (is_action_op op) eqn:Ea.
  { intros w. apply life_inv_parts; [by apply action_op_log|by apply action_op_life]. }
  destruct op; try done; simpl;
    try (apply preserves_bind; [|intros ?; by apply preserves_silent]).
  - apply preserves_transaction, append_keeps_life.
  - apply preserves_bind; [apply preserves_silent, silent_raise_if|intros _].
    apply preserves_transaction. apply keeps_bind; [apply keeps_pure, pure_gets|intros n].
    apply keeps_bind; [|intros _; apply keeps_pure, pure_raise_if].
    apply keeps_modify. intros d. apply life_inv_grows; [by apply grows_update|done].
  - apply preserves_rolls_back; [apply rolls_back_guarded, rolls_back_transaction|].
    intros w a w'. apply ensure_keeps.
  - apply transition_op_keeps.
  - apply preserves_transaction, transition_keeps.
  - apply safe_pause_keeps.
  - apply preserves_rolls_back; [apply rolls_back_guarded, rolls_back_transaction|].
    intros w a w'. apply restart_keeps.
Qed.
Lemma env_keeps_life d d' : env_change d d' → life_inv d → life_inv d'.
Proof.
  intros [|sid _|sid eid key at_|ps rs|r|f|o] H; try done; try (by apply (life_inv_parts d)).
  - apply (life_inv_grows d); [by apply grows_update|done..].
  - apply (life_inv_grows d); [|done..]. split; simpl; [by eauto|].
    intros a Ha. by apply elem_of_append; left.
Qed.
Lemma reachable_life w : kreachable w → life_inv (db w).
Proof.
  revert w. apply kreachable_ind.
  - intros d [_ _ Hs]. split; simpl; rewrite Hs; [constructor|by intros r ?%not_elem_of_nil].
  - intros w w' _ [op _|d t f He _ _]; [apply op_keeps_life|by apply env_keeps_life].
Qed.

(** C37: The lifecycle is explained by its records.  In every reachable
    database the stored state of a subject, at version [n], is the end of a
    sequence of [n] changes from its initial state: each one permitted by
    the transition table, or a restart (which never leaves paused, stopped
    or resetting), or the safe pause of an active runtime; and each with
    its record: an event of the subject whose payload hash is that of the
    change and its version, or the audit record of the safe pause. *)
Theorem lifecycle_explained w sid row :
  kreachable w → runtime_of sid (db w) = Some row →
  trail sid (db w) (rs_version row) (rs_state row).
Proof.
  intros [_ Ht]%reachable_life [Hin <-%bool_decide_eq_true]%fetchone_Some. by apply Ht.
Qed.
End life.
