(* ===== verification/KernelActions.v ===== *)
(** * The invariant of the action ledger

    The invariant of the action tables: every action has its revisions,
    numbered from 1, the last of them of its present state; a terminal
    action has exactly one behaviour log with one revision, or two after a
    reconciliation; a started action was started once.  Every operation
    keeps it, and moves actions forward only. *)

From stdpp Require Import sorting relations.
From S2P Require Import Prelude Tables PyStr Json Digest Time KernelDb Events Lifecycle Actions.
From S2P Require Import KernelSystem KernelChain KernelLife.
Local Open Scope Z_scope.

(** ** Selecting from a sorted table *)

Section lexicographic.
Context {R : Type} (leb : R → R → bool).
Hypothesis leb_trans : ∀ x y z, leb x y = true → leb y z = true → leb x z = true.
Hypothesis leb_total : ∀ x y, leb x y = false → leb y x = true.

Lemma insert_front x l : Forall (λ y, leb x y = true) l → insert_sorted leb x l = x :: l.
Proof. destruct 1 as [|y l E _]; simpl; [done|]. by rewrite E. Qed.
Lemma insert_is_sorted x l :
  StronglySorted (λ x y, leb x y = true) l →
  StronglySorted (λ x y, leb x y = true) (insert_sorted leb x l).
Proof.
  induction 1 as [|y l Hs IH Hy]; simpl; [by repeat constructor|]. destruct (leb x y) eqn:E.
  - constructor; [by constructor|]. constructor; [done|].
    eapply Forall_impl; [exact Hy|]. intros z Hz. by eapply leb_trans.
  - constructor; [done|]. rewrite insert_sorted_perm. constructor; [by apply leb_total|done].
Qed.
Lemma sort_is_sorted l : StronglySorted (λ x y, leb x y = true) (sort_by leb l).
Proof. induction l as [|x l IH]; simpl; [constructor|]. by apply insert_is_sorted. Qed.
Lemma select_insert (p : R → bool) x l :
  StronglySorted (λ x y, leb x y = true) l →
  select p (insert_sorted leb x l)
  = if p x then insert_sorted leb x (select p l) else select p l.
Proof.
  unfold select. induction 1 as [|y l Hs IH Hy]; simpl; [done|].
  destruct (leb x y) eqn:E; simpl.
  - destruct (p x) eqn:Ep; [|done]. destruct (p y) eqn:Eq; simpl; [by rewrite E|].
    rewrite insert_front //. apply Forall_forall.
    intros z [Hz _]%elem_of_select. rewrite Forall_forall in Hy. eapply leb_trans; [done|by apply Hy].
  - rewrite IH. destruct (p y); [|done]. destruct (p x); simpl; [by rewrite E|done].
Qed.
Lemma select_sort (p : R → bool) l : select p (sort_by leb l) = sort_by leb (select p l).
Proof.
  induction l as [|x l IH]; [done|]. simpl. rewrite select_insert; [apply sort_is_sorted|].
  rewrite IH. unfold select. simpl. by destruct (p x).
Qed.
End lexicographic.

(** A condition that another one implies. *)
Lemma select_narrow {R} (p q : R → bool) l :
  (∀ x, x ∈ l → p x = true → q x = true) → select p (select q l) = select p l.
Proof.
  intros Hq. unfold select. induction l as [|x l IH]; [done|]. simpl.
  specialize (IH ltac:(intros; apply Hq; [by apply there|done])).
  destruct (p x) eqn:E.
  - rewrite (Hq x (here _ _) E) /= E. by rewrite IH.
  - destruct (q x); simpl; [by rewrite E|done].
Qed.
Lemma select_perm {R} (p : R → bool) l l' : l ≡ₚ l' → select p l ≡ₚ select p l'.
Proof.
  unfold select. induction 1 as [|x l l' _ IH|x y l|l1 l2 l3 _ IH1 _ IH2]; simpl; [done| | |].
  - destruct (p x); [by constructor|done].
  - destruct (p x), (p y); [apply Permutation_swap|done..].
  - by etrans.
Qed.

(** By a text, then by a number: the order of the revision tables. *)
Section by_text.
Context {R : Type} (k : R → string) (n : R → Z).
Definition lex_leb (x y : R) : bool :=
  str_ltb (k x) (k y) || ((k x == k y) && (n x <=? n y)).
Lemma lex_leb_trans x y z : lex_leb x y = true → lex_leb y z = true → lex_leb x z = true.
Proof.
  unfold lex_leb. rewrite !orb_true_iff !andb_true_iff !bool_decide_eq_true !Z.leb_le.
  intros [H1|[E1 H1]] [H2|[E2 H2]].
  - left. by eapply str_ltb_trans.
  - left. by rewrite -E2.
  - left. by rewrite E1.
  - right. split; [congruence|lia].
Qed.
Lemma lex_leb_total x y : lex_leb x y = false → lex_leb y x = true.
Proof.
  unfold lex_leb. rewrite orb_false_iff andb_false_iff. intros [H1 H2].
  destruct (str_ltb (k y) (k x)) eqn:E; [done|]. simpl.
  assert (k x = k y) as Ek by (by apply str_ltb_total). rewrite Ek bool_decide_true //=.
  rewrite Ek bool_decide_true // in H2. destruct H2 as [|H2]; [done|].
  apply Z.leb_gt in H2. apply Z.leb_le. lia.
Qed.
(** Rows of one text, in the order of their numbers. *)
Lemma select_by_text t q l :
  StronglySorted (λ x y, n x < n y) (select (λ x, k x == t) l) →
  (∀ x, x ∈ l → k x = t → q x = true) →
  select (λ x, k x == t) (sort_by lex_leb (select q l)) = select (λ x, k x == t) l.
Proof.
  intros Hs Hq. rewrite (select_sort lex_leb lex_leb_trans lex_leb_total).
  rewrite (select_narrow _ q); [by intros x Hx ?%bool_decide_eq_true; apply Hq|].
  apply sort_by_strongly_sorted.
  assert (Forall (λ x, k x = t) (select (λ x, k x == t) l)) as Ht.
  { apply Forall_forall. by intros x [_ ?%bool_decide_eq_true]%elem_of_select. }
  induction Hs as [|x l' _ IH Hx]; constructor; inversion Ht as [|? ? Hkx Ht']; subst.
  - by apply IH.
  - rewrite ->Forall_forall in *. intros y Hy. unfold lex_leb.
    rewrite (Ht' y Hy) bool_decide_true //= orb_true_iff. right.
    specialize (Hx y Hy). simpl in Hx. apply Z.leb_le. lia.
Qed.
End by_text.

(** ** Numbering *)

Fixpoint numbered (k : Z) (l : list Z) : Prop :=
  match l with
  | [] => True
  | x :: l' => x = k ∧ numbered (k + 1) l'
  end.
Lemma numbered_snoc k l x :
  numbered k l → x = k + Z.of_nat (length l) → numbered k (l ++ [x]).
Proof.
  revert k. induction l as [|y l IH]; intros k H E; simpl in *; [split; [lia|done]|].
  destruct H as [-> H]. split; [done|]. apply IH; [done|]. lia.
Qed.
Lemma numbered_max k x l :
  numbered (k + 1) l → x <= k →
  foldr Z.max x l = match l with [] => x | _ => k + Z.of_nat (length l) end.
Proof.
  revert k. induction l as [|y l IH]; intros k H Hx; [done|]. destruct H as [-> H]. simpl.
  rewrite (IH (k + 1)) //; [lia|]. destruct l; simpl; lia.
Qed.
Lemma next_numbered l : numbered 1 l → next_number (max_of l) = Z.of_nat (length l) + 1.
Proof.
  destruct l as [|x l]; [done|]. intros [-> H]. unfold max_of, next_number.
  rewrite (numbered_max 1) //. destruct l; simpl; lia.
Qed.
Lemma numbered_sorted {R} (n : R → Z) k l :
  numbered k (map n l) → StronglySorted (λ x y, n x < n y) l ∧ Forall (λ x, k <= n x) l.
Proof.
  revert k. induction l as [|x l IH]; intros k H; [by repeat constructor|].
  destruct H as [E [H1 H2]%IH]. rewrite ->Forall_forall in H2.
  split; constructor; try done; try lia; apply Forall_forall; intros y Hy%H2; lia.
Qed.

(** ** The invariant *)

Definition terminal (a : action_row) : bool :=
  bool_decide (ac_status a ∈ EXECUTOR_COMPLETION_STATES).
(** The mutable columns agree with the status: an action is started once,
    or cancelled before. *)
Definition shape (a : action_row) : Prop :=
  match ac_status a with
  | Prepared => ac_retry_count a = 0 ∧ ac_started_at a = None ∧ ac_completed_at a = None
                ∧ ac_result_json a = None
  | Executing => ac_retry_count a = 1 ∧ is_Some (ac_started_at a) ∧ ac_completed_at a = None
                 ∧ ac_result_json a = None
  | Cancelled => (ac_retry_count a = 0 ∧ ac_started_at a = None
                  ∨ ac_retry_count a = 1 ∧ is_Some (ac_started_at a))
                 ∧ is_Some (ac_completed_at a) ∧ is_Some (ac_result_json a)
  | _ => ac_retry_count a = 1 ∧ is_Some (ac_started_at a) ∧ is_Some (ac_completed_at a)
         ∧ is_Some (ac_result_json a)
  end.

(** The moves of an action. *)
Definition action_next (s : ActionStatus) : list ActionStatus :=
  match s with
  | Prepared => [Executing; Cancelled]
  | Executing => EXECUTOR_COMPLETION_STATES
  | Unknown => RECONCILIATION_STATES
  | _ => []
  end.
(** The columns no operation changes. *)
Definition frozen (a : action_row) :=
  (ac_action_id a, ac_subject_id a, ac_goal_id a, ac_project_id a, ac_phase_id a,
   ac_strategy_id a, ac_action_type a, ac_tool a, ac_target a, ac_input_hash a,
   ac_idempotency_key a, ac_expected_outcome a, ac_side_effect a, ac_resource_cost_json a,
   ac_prepared_at a).
(** A later state of the same action. *)
Record moves_to (a a' : action_row) : Prop := {
  ad_frozen : frozen a' = frozen a;
  ad_status : rtc (λ s s', s' ∈ action_next s) (ac_status a) (ac_status a');
  ad_started : is_Some (ac_started_at a) → ac_started_at a' = ac_started_at a;
}.
#[global] Instance moves_to_preorder : PreOrder moves_to.
Proof.
  split; [by split|]. intros a b c [H1 H2 H3] [H4 H5 H6]. split; [congruence|by etrans|].
  intros Hs. pose proof (H3 Hs) as E. rewrite H6 //. by rewrite E.
Qed.
Definition advanced (d d' : kernel_db) : Prop :=
  ∀ a, a ∈ actions d → ∃ a', a' ∈ actions d' ∧ moves_to a a'.
#[global] Instance advanced_preorder : PreOrder advanced.
Proof.
  split; [by intros d a Ha; exists a|]. intros d1 d2 d3 H1 H2 a (b & Hb & Hab)%H1.
  destruct (H2 b Hb) as (c & Hc & Hbc). exists c. split; [done|by etrans].
Qed.
Lemma advanced_same d d' : actions d' = actions d → advanced d d'.
Proof. intros E a Ha. exists a. by rewrite E. Qed.
Lemma moves_to_one a a' :
  frozen a' = frozen a → ac_status a' ∈ action_next (ac_status a) →
  (is_Some (ac_started_at a) → ac_started_at a' = ac_started_at a) → moves_to a a'.
Proof. intros. split; [done|by apply rtc_once|done]. Qed.

Section ledger.
Context {Dg : Digest} {Ho : Host}.

Definition revs (id : string) (d : kernel_db) : list action_revision_row :=
  select (λ r, ar_action_id r == id) (action_revisions d).
Definition logs (id : string) (d : kernel_db) : list behavior_log_row :=
  select (λ l, bl_action_id l == id) (behavior_logs d).
Definition log_revs (log_id : string) (d : kernel_db) : list behavior_revision_row :=
  select (λ r, bl_log_id (br_log r) == log_id) (behavior_revisions d).

Record revisions_ok (a : action_row) (h : list action_revision_row) : Prop := {
  ro_numbers : numbered 1 (map ar_revision_number h);
  ro_subjects : Forall (λ r, ar_subject_id r = ac_subject_id a) h;
  ro_last : ∃ r, last h = Some r ∧ ar_status r = ac_status a
                 ∧ ar_state_hash r = action_state_hash a;
}.
Definition log_revision_ok (a : action_row) (n : Z) (r : behavior_revision_row) : Prop :=
  br_revision_number r = n ∧ bl_action_id (br_log r) = ac_action_id a ∧
  bl_subject_id (br_log r) = ac_subject_id a ∧
  br_state_hash r = behavior_log_state_hash (br_log r) n (br_reason r).
(** One revision, or the reconciliation of an unknown outcome. *)
Inductive log_history (a : action_row) (log : behavior_log_row)
    : list behavior_revision_row → Prop :=
| history_initial r :
    log_revision_ok a 1 r → br_log r = log → bl_result_status log = ac_status a →
    log_history a log [r]
| history_reconciled r r' :
    log_revision_ok a 1 r → log_revision_ok a 2 r' → br_log r = log →
    bl_result_status log = Unknown → bl_result_status (br_log r') = ac_status a →
    ac_status a ≠ Unknown → stable_fields log (br_log r') = true →
    log_history a log [r; r'].
Definition logs_ok (a : action_row) (d : kernel_db) : Prop :=
  if terminal a then
    ∃ log, logs (ac_action_id a) d = [log] ∧ bl_subject_id log = ac_subject_id a ∧
           log_history a log (log_revs (bl_log_id log) d)
  else logs (ac_action_id a) d = [].

Record action_ok (d : kernel_db) (a : action_row) : Prop := {
  ao_json : is_ok (action_from_row a) = true;
  ao_shape : shape a;
  ao_revisions : revisions_ok a (revs (ac_action_id a) d);
  ao_logs : logs_ok a d;
}.
Record action_inv (d : kernel_db) : Prop := {
  ai_key : NoDup (map ac_action_id (actions d));
  ai_actions a : a ∈ actions d → action_ok d a;
  ai_revisions r : r ∈ action_revisions d → ar_action_id r ∈ map ac_action_id (actions d);
  ai_log_key : NoDup (map bl_log_id (behavior_logs d));
  ai_log_owner l : l ∈ behavior_logs d →
    ∃ a, a ∈ actions d ∧ ac_action_id a = bl_action_id l;
  ai_log_revisions r : r ∈ behavior_revisions d →
    bl_log_id (br_log r) ∈ map bl_log_id (behavior_logs d);
}.
Lemma action_inv_part d d' : action_part d' = action_part d → action_inv d → action_inv d'.
Proof.
  unfold action_part. intros [= E1 E2 E3 E4] [H1 H2 H3 H4 H5 H6].
  split; rewrite ?E1 ?E2 ?E3 ?E4; try done.
  intros a [Ha Hb Hc Hd]%H2.
  split; unfold logs_ok, revs, logs, log_revs in *; rewrite ?E2 ?E3 ?E4; done.
Qed.

(** An action's log belongs to its subject. *)
Lemma log_of_action d a l :
  action_inv d → a ∈ actions d → l ∈ behavior_logs d → bl_action_id l = ac_action_id a →
  terminal a = true ∧ logs (ac_action_id a) d = [l] ∧ bl_subject_id l = ac_subject_id a ∧
  log_history a l (log_revs (bl_log_id l) d).
Proof.
  intros Hi Ha Hl E. destruct (ai_actions d Hi a Ha) as [_ _ _ Hlog].
  assert (l ∈ logs (ac_action_id a) d) as Hin.
  { apply elem_of_select. split; [done|]. by apply bool_decide_true. }
  unfold logs_ok in Hlog. destruct (terminal a); [|rewrite Hlog in Hin; by apply not_elem_of_nil in Hin].
  destruct Hlog as (log & El & Es & Hh). rewrite El in Hin.
  apply list_elem_of_singleton in Hin as ->. done.
Qed.

(** ** Advancing an action *)

(** What [_record_revision] inserts for a row. *)
Record revision_of (a : action_row) (d : kernel_db) (r : action_revision_row) : Prop := {
  rv_action : ar_action_id r = ac_action_id a;
  rv_subject : ar_subject_id r = ac_subject_id a;
  rv_number : ar_revision_number r = next_number (max_of (revision_numbers (ac_action_id a) d));
  rv_status : ar_status r = ac_status a;
  rv_hash : ar_state_hash r = action_state_hash a;
}.
Lemma revs_append id d d' r :
  action_revisions d' = action_revisions d ++ [r] →
  revs id d' = revs id d ++ (if ar_action_id r == id then [r] else []).
Proof. unfold revs. intros ->. by rewrite -select_append. Qed.
Lemma revisions_ok_snoc a a' d r :
  revisions_ok a (revs (ac_action_id a) d) → revision_of a' d r →
  ac_action_id a' = ac_action_id a → ac_subject_id a' = ac_subject_id a →
  revisions_ok a' (revs (ac_action_id a) d ++ [r]).
Proof.
  intros [H1 H2 _] [Ea Es En' Est Eh] E1 E2. split.
  - rewrite map_app. apply numbered_snoc; [done|].
    rewrite En' E1 next_numbered //. fold (revs (ac_action_id a) d). rewrite length_map. lia.
  - rewrite E2. apply Forall_app. split; [done|]. by repeat constructor; rewrite Es.
  - exists r. by rewrite last_snoc.
Qed.
Lemma action_ok_frame d d' x :
  revs (ac_action_id x) d' = revs (ac_action_id x) d →
  logs (ac_action_id x) d' = logs (ac_action_id x) d →
  (∀ l, l ∈ behavior_logs d → bl_action_id l = ac_action_id x →
     log_revs (bl_log_id l) d' = log_revs (bl_log_id l) d) →
  action_ok d x → action_ok d' x.
Proof.
  intros Er El Elr [Hj Hs Hr Hl]. split; [done..|by rewrite Er|].
  unfold logs_ok in *. destruct (terminal x); [|by rewrite El].
  destruct Hl as (l & E & Es & Hh). exists l. rewrite El. split_and!; [done..|].
  rewrite Elr //; assert (l ∈ logs (ac_action_id x) d) as [? ?%bool_decide_eq_true]%elem_of_select
    by (rewrite E; apply here); done.
Qed.

Section advance.
Context (d d' : kernel_db) (id : string).
Context (xl : list behavior_log_row) (xr : list behavior_revision_row).
Context (rev : action_revision_row).
Hypothesis Hrevs : action_revisions d' = action_revisions d ++ [rev].
Hypothesis Hlogs : behavior_logs d' = behavior_logs d ++ xl.
Hypothesis Hlrevs : behavior_revisions d' = behavior_revisions d ++ xr.
Hypothesis Hrev : ar_action_id rev = id.
Hypothesis Hxl : ∀ l, l ∈ xl → bl_action_id l = id.
Hypothesis Hkey : NoDup (map bl_log_id (behavior_logs d')).
Hypothesis Hxr : ∀ r, r ∈ xr →
  ∃ l, l ∈ behavior_logs d' ∧ bl_action_id l = id ∧ bl_log_id l = bl_log_id (br_log r).

Lemma other_action_ok x : ac_action_id x ≠ id → action_ok d x → action_ok d' x.
Proof.
  intros Hne. apply action_ok_frame.
  - rewrite (revs_append _ d _ rev) // bool_decide_false; [congruence|]. by rewrite app_nil_r.
  - unfold logs. rewrite Hlogs select_app (select_none _ xl); [|by rewrite app_nil_r].
    intros l ->%Hxl. by apply bool_decide_false.
  - intros l Hl El. unfold log_revs. rewrite Hlrevs select_app (select_none _ xr);
      [|by rewrite app_nil_r].
    intros r (l' & Hl' & Ea & Ei)%Hxr. apply bool_decide_false. intros E.
    assert (l = l') as ->; [|congruence].
    eapply (key_unique bl_log_id); [exact Hkey| |exact Hl'|congruence].
    rewrite Hlogs. by apply elem_of_app; left.
Qed.
Lemma advance_inv :
  action_inv d → NoDup (map ac_action_id (actions d')) →
  (∀ x, x ∈ actions d → ac_action_id x ∈ map ac_action_id (actions d')) →
  id ∈ map ac_action_id (actions d') →
  (∀ x, x ∈ actions d' → x ∈ actions d ∧ ac_action_id x ≠ id ∨ action_ok d' x) →
  action_inv d'.
Proof.
  intros [H1 H2 H3 H4 H5 H6] Hk Hsub Hid Hin. split; [done| | |done| |].
  - intros x [[Hx%H2 Hne]|?]%Hin; [by apply other_action_ok|done].
  - rewrite Hrevs. intros r [(x & -> & Hx%Hsub)%H3%list_elem_of_fmap|Hr]%elem_of_app; [done|].
    apply list_elem_of_singleton in Hr as ->. by rewrite Hrev.
  - rewrite Hlogs. intros l [(x & Hx%Hsub & <-)%H5|Hl%Hxl]%elem_of_app.
    + apply list_elem_of_fmap in Hx as (y & -> & Hy). by exists y.
    + apply list_elem_of_fmap in Hid as (y & E & Hy). exists y. split; congruence.
  - rewrite Hlrevs. intros r [Hr%H6|(l & Hl & _ & <-)%Hxr]%elem_of_app.
    + rewrite Hlogs map_app. by apply elem_of_app; left.
    + by apply list_elem_of_fmap_2.
Qed.
End advance.

(** ** What the sub-programs write *)

Lemma get_row_ok id w row w' :
  ok (_get_row id) w row w' →
  w' = w ∧ action_by_id id (db w) = Some row ∧ row ∈ actions (db w) ∧ ac_action_id row = id.
Proof.
  unfold _get_row. intros H. apply ok_bind in H as (o & ? & [Ho' <-]%ok_gets & H).
  apply ok_lift in H as [H <-]. destruct o; simpl in H; simplify_eq. split_and!; try done;
    by apply fetchone_Some in Ho' as [? ?%bool_decide_eq_true].
Qed.
Lemma record_revision_ok id reason w u w' :
  ok (_record_revision id reason) w u w' →
  ∃ row rev, action_by_id id (db w) = Some row ∧ revision_of row (db w) rev ∧
    db w' = set_action_revisions (append_row rev) (db w).
Proof.
  unfold _record_revision. intros H.
  apply ok_bind in H as (row & ? & (-> & Hrow & _ & Eid)%get_row_ok & H).
  apply ok_bind in H as (prev & ? & [<- <-]%ok_gets & H).
  apply ok_bind in H as (rid & w1 & Hd%pure_knew_id & H).
  apply ok_bind in H as (now & w2 & [_ ->]%ok_read_clock & H). unfold insert_action_revision in H.
  apply ok_bind in H as (d & ? & [<- <-]%ok_gets & H).
  do 2 apply ok_bind in H as (? & ? & [_ <-]%ok_kconstraint & H). apply ok_modify in H as ->.
  simpl. rewrite Hd. eexists row, _. split_and!; [done| |reflexivity]. subst id. by split.
Qed.
Lemma log_revision_ok_run source at_ st se ex reason w u w' :
  ok (_append_behavior_log_revision source at_ st se ex reason) w u w' →
  ∃ r, db w' = set_behavior_revisions (append_row r) (db w) ∧
    br_revision_number r = next_number (max_of (log_revision_numbers (bl_log_id source) (db w))) ∧
    br_state_hash r = behavior_log_state_hash (br_log r) (br_revision_number r) (br_reason r) ∧
    br_log r = {| bl_log_id := bl_log_id source; bl_action_id := bl_action_id source;
       bl_subject_id := bl_subject_id source; bl_occurred_at := at_;
       bl_action_type := bl_action_type source;
       bl_public_goal_reference := bl_public_goal_reference source; bl_tool := bl_tool source;
       bl_public_target := bl_public_target source; bl_result_status := st;
       bl_side_effect_summary := se; bl_resource_summary := bl_resource_summary source;
       bl_public_explanation := ex; bl_redaction_reason := bl_redaction_reason source |}.
Proof.
  unfold _append_behavior_log_revision. intros H.
  apply ok_bind in H as (prev & ? & [<- <-]%ok_gets & H).
  apply ok_bind in H as (rid & w1 & Hd%pure_knew_id & H).
  apply ok_bind in H as (now & w2 & [_ ->]%ok_read_clock & H). unfold insert_behavior_revision in H.
  apply ok_bind in H as (d & ? & [<- <-]%ok_gets & H).
  do 2 apply ok_bind in H as (? & ? & [_ <-]%ok_kconstraint & H). apply ok_modify in H as ->.
  simpl. rewrite Hd. eexists. split; [reflexivity|]. done.
Qed.
Lemma bump_count_ok sid n w u w' :
  ok (bump_count sid n) w u w' → action_part (db w') = action_part (db w).
Proof. apply frame_bump. by intros. Qed.
Lemma insert_log_ok log w u w' :
  ok (insert_behavior_log log) w u w' →
  action_part (db w') = (actions (db w), action_revisions (db w), behavior_logs (db w) ++ [log],
    behavior_revisions (db w)) ∧
  (bl_log_id log ∉ map bl_log_id (behavior_logs (db w))) ∧ fresh w' = fresh w.
Proof.
  unfold insert_behavior_log. intros H. apply ok_bind in H as (d & ? & [<- <-]%ok_gets & H).
  apply ok_bind in H as (? & ? & [_ <-]%ok_kconstraint & H).
  apply ok_bind in H as (? & ? & [Hu%negb_true_iff <-]%ok_kconstraint & H).
  apply ok_bind in H as (? & ? & ->%ok_modify & H). split_and!.
  - apply bump_count_ok in H. by rewrite H.
  - intros (l & E & Hlin)%list_elem_of_fmap. rewrite exists_where_false in Hu.
    specialize (Hu l Hlin). rewrite orb_false_iff bool_decide_eq_false in Hu.
    by destruct Hu as [[] _].
  - apply ok_bind in H as (d & ? & [<- <-]%ok_gets & H).
    by apply ok_bind in H as (? & ? & [_ <-]%ok_kconstraint & ->%ok_modify).
Qed.
(** The keys of the log tables. *)
Definition log_keys (d : kernel_db) : Prop :=
  NoDup (map bl_log_id (behavior_logs d)) ∧
  ∀ r, r ∈ behavior_revisions d → bl_log_id (br_log r) ∈ map bl_log_id (behavior_logs d).
Lemma behavior_log_ok row at_ st s w u w' :
  ok (_insert_behavior_log row at_ st s) w u w' → log_keys (db w) →
  ∃ log r, action_part (db w') = (actions (db w), action_revisions (db w),
      behavior_logs (db w) ++ [log], behavior_revisions (db w) ++ [r]) ∧
    bl_action_id log = ac_action_id row ∧ bl_subject_id log = ac_subject_id row ∧
    bl_result_status log = st ∧ br_log r = log ∧ log_revision_ok row 1 r ∧
    NoDup (map bl_log_id (behavior_logs (db w) ++ [log])) ∧
    log_revs (bl_log_id log) (db w) = [].
Proof.
  unfold _insert_behavior_log. intros H Hi.
  apply ok_bind in H as (lid & w1 & Hd%pure_knew_id & H).
  apply ok_bind in H as (? & w2 & (Hb & Hfresh & _)%insert_log_ok & H). rewrite Hd in Hb, Hfresh.
  match type of Hfresh with context [bl_log_id ?l] => set (log := l) in * end.
  unfold action_part in Hb. injection Hb as B1 B2 B3 B4.
  assert (NoDup (map bl_log_id (behavior_logs (db w) ++ [log]))) as Hnd
    by (by apply NoDup_map_snoc; [apply Hi|]).
  apply ok_bind in H as (found & ? & [Hf <-]%ok_gets & H).
  apply ok_bind in H as (l & ? & [El <-]%ok_lift & H).
  assert (l = log) as ->.
  { unfold append_row in B3. rewrite B3 in Hf. change lid with (bl_log_id log) in Hf.
    rewrite (fetchone_key bl_log_id) in Hf; [done| |by subst; simpl in El; simplify_eq].
    apply elem_of_app. right. apply here. }
  apply log_revision_ok_run in H as (r & Hd' & Hn & Hh & Er).
  assert (log_revs (bl_log_id log) (db w) = []) as Hno.
  { apply select_none. intros r' Hr'%Hi. apply bool_decide_false. intros E. apply Hfresh.
    by rewrite -E. }
  assert (br_log r = log) as Erl by exact Er.
  assert (br_revision_number r = 1) as En1.
  { rewrite Hn. unfold log_revision_numbers. rewrite B4. unfold log_revs in Hno. by rewrite Hno. }
  exists log, r. split_and!; try done.
  - unfold action_part. rewrite Hd' /= B1 B2 B3 B4. done.
  - unfold log_revision_ok. rewrite Erl. split_and!; try done. by rewrite Hh En1 Erl.
Qed.

(** The replaced action, once its revision and its log are written. *)
Lemma replace_inv d d' a a' rev xl xr :
  action_inv d → a ∈ actions d → ac_action_id a' = ac_action_id a →
  ac_subject_id a' = ac_subject_id a → actions d' = replace_row ac_action_id a a' (actions d) →
  action_revisions d' = action_revisions d ++ [rev] →
  behavior_logs d' = behavior_logs d ++ xl → behavior_revisions d' = behavior_revisions d ++ xr →
  revision_of a' d rev → (∀ l, l ∈ xl → bl_action_id l = ac_action_id a) →
  NoDup (map bl_log_id (behavior_logs d')) →
  (∀ r, r ∈ xr → ∃ l, l ∈ behavior_logs d' ∧ bl_action_id l = ac_action_id a
                      ∧ bl_log_id l = bl_log_id (br_log r)) →
  is_ok (action_from_row a') = true → shape a' → logs_ok a' d' → moves_to a a' →
  action_inv d' ∧ advanced d d'.
Proof.
  intros Hi Ha Ei Es Ea Er El Elr Hrev Hxl Hkey Hxr Hj Hsh Hlog Had.
  pose proof (ai_key d Hi) as Hk. split.
  2: { intros x Hx. destruct (decide (x = a)) as [->|Hne].
       - exists a'. rewrite Ea elem_of_replace //. by split; [left|].
       - exists x. rewrite Ea elem_of_replace //. by split; [right|]. }
  assert (map ac_action_id (actions d') = map ac_action_id (actions d)) as Em.
  { rewrite Ea. apply map_replace. intros x _ E. congruence. }
  eapply (advance_inv d d' (ac_action_id a) xl xr rev); rewrite ?Em; try done.
  - rewrite (rv_action _ _ _ Hrev) //.
  - intros x. apply list_elem_of_fmap_2.
  - by apply list_elem_of_fmap_2.
  - intros x. rewrite Ea elem_of_replace //. intros [->|[Hx Hne]].
    + right. split; try done. rewrite Ei (revs_append _ d _ rev) // (rv_action _ _ _ Hrev) Ei
        bool_decide_true //. by apply revisions_ok_snoc; [apply Hi|..].
    + left. split; [done|]. intros E. apply Hne. by eapply key_unique.
Qed.

(** The end of [finish], [cancel] and of each recovery: the outcome, its
    behaviour log and the revision. *)
Lemma outcome_inv row a' at_ st s reason w w1 u1 w2 u2 w3 :
  action_inv (db w) → row ∈ actions (db w) → terminal row = false →
  action_part (db w1) = (replace_row ac_action_id row a' (actions (db w)),
    action_revisions (db w), behavior_logs (db w), behavior_revisions (db w)) →
  ac_action_id a' = ac_action_id row → ac_subject_id a' = ac_subject_id row →
  ac_status a' = st → terminal a' = true → moves_to row a' →
  is_ok (action_from_row a') = true → shape a' →
  ok (_insert_behavior_log row at_ st s) w1 u1 w2 →
  ok (_record_revision (ac_action_id row) reason) w2 u2 w3 →
  (action_inv (db w3) ∧ advanced (db w) (db w3)) ∧
  actions (db w3) = replace_row ac_action_id row a' (actions (db w)).
Proof.
  unfold action_part at 1. intros Hi Hrow Ht [= P1 P2 P3 P4] Ei Es Est Hta Had Hj Hsh Hlog
    (row' & rev & Hr' & Hrev & Ed)%record_revision_ok.
  apply behavior_log_ok in Hlog as (log & r & Ep & La & Ls & Lst & Rl & Rok & Hnd & Hno);
    [|split; rewrite P3 ?P4; apply Hi].
  unfold action_part in Ep. injection Ep as Q1 Q2 Q3 Q4. rewrite ->P1, P2, P3, P4 in *.
  assert (row' = a') as ->.
  { unfold action_by_id in Hr'. rewrite Q1 (fetch_replace ac_action_id) // in Hr'; [apply Hi|].
    by simplify_eq. }
  assert (actions (db w3) = replace_row ac_action_id row a' (actions (db w))) as Ea
    by (by rewrite Ed).
  split; [|done]. eapply (replace_inv (db w) _ row a' rev [log] [r]); rewrite ?Ed; simpl; try done.
  - by rewrite Q2.
  - destruct Hrev as [R1 R2 R3 R4 R5]. split; try done. rewrite R3. unfold revision_numbers.
    by rewrite Q2.
  - intros l ->%list_elem_of_singleton. done.
  - by rewrite Q3.
  - intros r' ->%list_elem_of_singleton. exists log. rewrite Q3 Rl. split_and!; try done.
    apply elem_of_app. right. apply here.
  - unfold logs_ok. rewrite Hta. exists log.
    pose proof (ao_logs _ _ (ai_actions _ Hi row Hrow)) as Hold. unfold logs_ok in Hold.
    rewrite Ht in Hold. split_and!; [|congruence|].
    + unfold logs in *. simpl. rewrite Q3 select_app Ei Hold /=.
      unfold select. simpl. by rewrite bool_decide_true.
    + unfold log_revs in *. rewrite P4 in Hno. simpl. rewrite Q4 select_app Hno.
      unfold select. simpl. rewrite Rl bool_decide_true //. apply history_initial; [|done|congruence].
      unfold log_revision_ok in *. by rewrite Ei Es.
Qed.

(** The row an update of one action leaves. *)
Lemma update_action_part id row f w u w' :
  NoDup (map ac_action_id (actions (db w))) → row ∈ actions (db w) → ac_action_id row = id →
  ok (update_action id f) w u w' →
  action_part (db w') = (replace_row ac_action_id row (f row) (actions (db w)),
    action_revisions (db w), behavior_logs (db w), behavior_revisions (db w)).
Proof.
  intros Hk Hin <- ->%ok_modify. unfold action_part. simpl.
  by rewrite (update_key_replace ac_action_id).
Qed.
Lemma json_dict_canonical m : wf_json (JObj m) → is_ok (json_dict (canonical_json (JObj m))) = true.
Proof. intros H. unfold json_dict. by rewrite (loads_canonical _ H). Qed.
Lemma outcome_json st m at_ row :
  is_ok (action_from_row row) = true → wf_json (JObj m) →
  is_ok (action_from_row (action_outcome st (canonical_json (JObj m)) at_ row)) = true.
Proof.
  intros H Hm%json_dict_canonical. unfold action_from_row in *.
  change (ac_resource_cost_json (action_outcome _ _ _ row)) with (ac_resource_cost_json row).
  change (ac_result_json (action_outcome st (canonical_json (JObj m)) at_ row))
    with (Some (canonical_json (JObj m))).
  destruct (json_dict (ac_resource_cost_json row)); [|done].
  by destruct (json_dict (canonical_json (JObj m))).
Qed.
Lemma terminal_outcome st r at_ row :
  st ∈ EXECUTOR_COMPLETION_STATES → terminal (action_outcome st r at_ row) = true.
Proof. apply bool_decide_true. Qed.
Lemma outcome_advances st r at_ row :
  st ∈ action_next (ac_status row) → moves_to row (action_outcome st r at_ row).
Proof. intros. by apply moves_to_one. Qed.
Lemma outcome_shape st r at_ row :
  shape row → ac_status row = Executing → st ∈ EXECUTOR_COMPLETION_STATES →
  shape (action_outcome st r at_ row).
Proof.
  unfold shape. intros H E Hst. rewrite E in H. destruct H as (H1 & H2 & _).
  unfold EXECUTOR_COMPLETION_STATES in Hst. simpl. case_in Hst; subst st; simpl; eauto.
Qed.

(** ** The operations keep the invariant *)

Lemma load_ok id w r w' : ok (_load_connection id) w r w' → db w' = db w.
Proof. apply load_pure. Qed.
Lemma finish_keeps id st m s w r w' :
  wf_json (JObj m) → ok (finish_action id st m s) w r w' →
  action_inv (db w) → action_inv (db w') ∧ advanced (db w) (db w').
Proof.
  intros Hm H Hi.
  apply ok_bind in H as
    (? & ? & [Hst%negb_false_iff%bool_decide_eq_true <-]%ok_raise_if & H%ok_transaction).
  apply ok_bind in H as (row & ? & (-> & _ & Hrow & Eid)%get_row_ok & H).
  apply ok_bind in H as (? & ? & [Hs%negb_false_iff%bool_decide_eq_true <-]%ok_raise_if & H).
  apply ok_bind in H as (at_ & w1 & [_ ->]%ok_read_clock & H).
  apply ok_bind in H as (? & w2 & Hu & H). apply ok_bind in H as (? & w3 & Hl & H).
  apply ok_bind in H as (? & w4 & Hr & ->%load_ok).
  apply (update_action_part _ row) in Hu; [|apply Hi|done..]. subst id.
  pose proof (ai_actions _ Hi row Hrow) as [Hj Hsh _ _].
  eapply (outcome_inv row _ _ _ _ _ w w2 _ w3 _ w4); eauto using terminal_outcome, outcome_json,
    outcome_shape.
  - unfold terminal. by rewrite Hs.
  - apply outcome_advances. by rewrite Hs.
Qed.
Lemma cancel_keeps id reason w r w' :
  ok (Actions.cancel id reason) w r w' → action_inv (db w) → action_inv (db w') ∧ advanced (db w) (db w').
Proof.
  intros H Hi. apply ok_bind in H as (? & ? & [_ <-]%ok_raise_if & H%ok_transaction).
  apply ok_bind in H as (row & ? & (-> & _ & Hrow & Eid)%get_row_ok & H).
  apply ok_bind in H as (? & ? & [Hs%negb_false_iff%bool_decide_eq_true <-]%ok_raise_if & H).
  apply ok_bind in H as (at_ & w1 & [_ ->]%ok_read_clock & H).
  apply ok_bind in H as (? & w2 & Hu & H). apply ok_bind in H as (? & w3 & Hl & H).
  apply ok_bind in H as (? & w4 & Hr & ->%load_ok).
  apply (update_action_part _ row) in Hu; [|apply Hi|done..]. subst id.
  pose proof (ai_actions _ Hi row Hrow) as [Hj Hsh _ _].
  eapply (outcome_inv row _ _ _ _ _ w w2 _ w3 _ w4); eauto.
  - unfold terminal. by rewrite Hs.
  - apply outcome_advances. rewrite Hs. in_list.
  - apply outcome_json; [done|]. split; [apply NoDup_singleton|done].
  - unfold shape in *. rewrite Hs in Hsh. simpl. naive_solver.
Qed.
Lemma start_keeps id w r w' : ok (start id) w r w' → action_inv (db w) → action_inv (db w') ∧ advanced (db w) (db w').
Proof.
  intros H%ok_transaction Hi.
  apply ok_bind in H as (row & ? & (-> & _ & Hrow & Eid)%get_row_ok & H).
  apply ok_bind in H as (? & ? & [Hs%negb_false_iff%bool_decide_eq_true <-]%ok_raise_if & H).
  apply ok_bind in H as (at_ & w1 & [_ ->]%ok_read_clock & H).
  apply ok_bind in H as (? & w2 & Hu & H).
  apply ok_bind in H as (? & w4 & (row' & rev & Hr' & Hrev & Ed)%record_revision_ok & ->%load_ok).
  apply (update_action_part _ row) in Hu; [|apply Hi|done..]. subst id.
  pose proof (ai_actions _ Hi row Hrow) as [Hj Hsh Hrv Hlg]. unfold action_part in Hu.
  simpl in Hu. injection Hu as U1 U2 U3 U4.
  match type of U1 with _ = replace_row _ _ ?x _ => set (a' := x) in * end.
  unfold action_by_id in Hr'. rewrite U1 (fetch_replace ac_action_id) // in Hr'; [apply Hi|].
  injection Hr' as <-.
  eapply (replace_inv (db w) _ row a' rev [] []); rewrite ?Ed; simpl; rewrite ?app_nil_r; try done.
  - by rewrite U2.
  - destruct Hrev as [R1 R2 R3 R4 R5]. split; try done. rewrite R3. unfold revision_numbers.
    by rewrite U2.
  - by intros l ?%not_elem_of_nil.
  - rewrite U3. apply Hi.
  - by intros l ?%not_elem_of_nil.
  - clear -Hj. subst a'. unfold action_from_row in *. simpl.
    destruct (json_dict _); [|done]. simpl in *. destruct (ac_result_json row) as [t|]; [|done].
    simpl in *. by destruct (json_dict t).
  - unfold shape in *. rewrite Hs in Hsh. simpl. destruct Hsh as (-> & _ & _ & ->). eauto.
  - unfold logs_ok in *. unfold terminal in Hlg. rewrite Hs in Hlg. simpl in Hlg.
    unfold logs in *. simpl. by rewrite U3.
  - unfold shape in Hsh. rewrite Hs in Hsh. apply moves_to_one; [done| |].
    + rewrite Hs. in_list.
    + destruct Hsh as (_ & -> & _). by intros [? ?].
Qed.

Lemma recover_update row f w u w' :
  NoDup (map ac_action_id (actions (db w))) → row ∈ actions (db w) → ac_status row = Executing →
  ok (modify (set_actions (update_where
        (λ r, (ac_action_id r == ac_action_id row) && (ac_status r == Executing)) f))) w u w' →
  action_part (db w') = (replace_row ac_action_id row (f row) (actions (db w)),
    action_revisions (db w), behavior_logs (db w), behavior_revisions (db w)).
Proof.
  intros Hk Hin Hs ->%ok_modify. unfold action_part. simpl. do 3 f_equal.
  rewrite -(update_key_replace ac_action_id) //. apply map_ext_in.
  intros x Hx%list_elem_of_In. case_bool_decide as E; [|done].
  assert (x = row) as -> by (by eapply (key_unique ac_action_id)). by rewrite bool_decide_true.
Qed.
Lemma recover_keeps rows w rs w' :
  ok (recover_actions rows) w rs w' → action_inv (db w) → NoDup (map ac_action_id rows) →
  (∀ r, r ∈ rows → r ∈ actions (db w) ∧ ac_status r = Executing) →
  action_inv (db w') ∧ advanced (db w) (db w').
Proof.
  revert w rs. induction rows as [|row rows IH]; intros w rs H Hi Hn Hin;
    cbn [recover_actions] in H.
  { by apply ok_ret in H as [_ <-]. }
  apply NoDup_cons in Hn as [Hn1 Hn2]. destruct (Hin row (here _ _)) as [Hrow Hs].
  apply ok_bind in H as (at_ & w1 & [_ ->]%ok_read_clock & H).
  apply ok_bind in H as (? & w2 & Hu & H). apply ok_bind in H as (? & w3 & Hl & H).
  apply ok_bind in H as (? & w4 & Hr & H). apply ok_bind in H as (? & w5 & Hld%load_ok & H).
  apply ok_bind in H as (? & w6 & H & [_ <-]%ok_ret).
  apply recover_update in Hu; [|apply Hi|done..]. cbn [db] in Hu.
  set (a' := action_outcome Unknown (canonical_json (recovery_result (ac_side_effect row))) at_ row).
  change (action_part (db w2) = (replace_row ac_action_id row a' (actions (db w)),
    action_revisions (db w), behavior_logs (db w), behavior_revisions (db w))) in Hu.
  pose proof (ai_actions _ Hi row Hrow) as [Hj Hsh _ _].
  assert (Unknown ∈ EXECUTOR_COMPLETION_STATES) as HU by in_list.
  assert (is_ok (action_from_row a') = true) as Hj'.
  { apply outcome_json; [done|]. split; [|done]. by apply (bool_decide_unpack _). }
  eapply (outcome_inv row a' _ _ _ _ w w2 _ w3 _ w4) in Hr as [[Hi' Hadv] Ea]; try done.
  - rewrite -Hld in Hi', Hadv, Ea.
    enough (action_inv (db w6) ∧ advanced (db w5) (db w6)) as [? ?] by (split; [done|by etrans]).
    eapply IH; [exact H|done|done|]. intros r Hr. rewrite Ea.
    destruct (Hin r (there _ _ _ Hr)) as [Hra Hrs]. split; [|done].
    apply elem_of_replace; [apply Hi|done|]. right. split; [done|]. intros ->.
    apply Hn1. by apply list_elem_of_fmap_2.
  - unfold terminal. by rewrite Hs.
  - apply outcome_advances. by rewrite Hs.
  - by apply outcome_shape.
Qed.

(** The revision a reconciliation starts from. *)
Lemma unknown_log d row log :
  action_inv d → row ∈ actions d → ac_status row = Unknown →
  fetchone (λ l, bl_action_id l == ac_action_id row) (behavior_logs d) = Some log →
  log ∈ behavior_logs d ∧ logs (ac_action_id row) d = [log] ∧
  bl_action_id log = ac_action_id row ∧ bl_subject_id log = ac_subject_id row ∧
  bl_result_status log = Unknown ∧
  ∃ r, log_revs (bl_log_id log) d = [r] ∧ log_revision_ok row 1 r ∧ br_log r = log.
Proof.
  intros Hi Hrow Hs [Hl E%bool_decide_eq_true]%fetchone_Some.
  destruct (log_of_action d row log Hi Hrow Hl E) as (_ & El & Es & Hh).
  split_and!; try done; rewrite Hs in Hh || idtac.
  - inversion Hh; congruence.
  - inversion Hh; [eauto|congruence].
Qed.
Lemma latest_single log r d :
  log_revs (bl_log_id log) d = [r] → latest_log_revision (bl_log_id log) d = Some r.
Proof. unfold latest_log_revision, log_revs. by intros ->. Qed.
Lemma reconciled_logs row a' log r c d d' :
  logs (ac_action_id row) d = [log] → log_revs (bl_log_id log) d = [r] →
  log_revision_ok row 1 r → br_log r = log → bl_result_status log = Unknown →
  bl_subject_id log = ac_subject_id row → behavior_logs d' = behavior_logs d →
  behavior_revisions d' = behavior_revisions d ++ [c] → bl_log_id (br_log c) = bl_log_id log →
  log_revision_ok row 2 c → stable_fields log (br_log c) = true →
  bl_result_status (br_log c) = ac_status a' → terminal a' = true → ac_status a' ≠ Unknown →
  ac_action_id a' = ac_action_id row → ac_subject_id a' = ac_subject_id row → logs_ok a' d'.
Proof.
  intros Els Er Hr Rl Lst Ls E1 E2 Ec Hc Hst Hcs Ht Hnu Ei Es. unfold logs_ok. rewrite Ht.
  exists log. unfold logs, log_revs in *. rewrite E1 E2 Ei Es select_app Er /=. split_and!; try done.
  unfold select. simpl. rewrite Ec bool_decide_true //.
  apply history_reconciled; try done; unfold log_revision_ok; by rewrite Ei Es.
Qed.
Lemma reconcile_keeps id st m ex se w r w' :
  wf_json (JObj m) → ok (reconcile_unknown id st m ex se) w r w' →
  action_inv (db w) → action_inv (db w') ∧ advanced (db w) (db w').
Proof.
  intros Hm H Hi. apply ok_bind in H as
    (? & ? & [Hst%negb_false_iff%bool_decide_eq_true <-]%ok_raise_if & H%ok_transaction).
  apply ok_bind in H as (row & ? & (-> & _ & Hrow & Eid)%get_row_ok & H). subst id.
  apply ok_bind in H as (? & ? & [Hs%negb_false_iff%bool_decide_eq_true <-]%ok_raise_if & H).
  apply ok_bind in H as (found & ? & [Hf <-]%ok_gets & H).
  apply ok_bind in H as (log & ? & [El <-]%ok_lift & H).
  destruct found as [l|]; [|done]. injection El as ->.
  apply (unknown_log _ row) in Hf as (Hl & Els & La & Ls & Lst & r1 & Er1 & Hr1 & Rl); [|done..].
  apply ok_bind in H as (found & ? & [Hlat <-]%ok_gets & H).
  apply ok_bind in H as (lat & ? & [Elat <-]%ok_lift & H).
  rewrite (latest_single _ _ _ Er1) in Hlat. subst found. injection Elat as <-.
  apply ok_bind in H as (at_ & w1 & [_ ->]%ok_read_clock & H).
  apply ok_bind in H as (? & w2 & Hu & H).
  apply ok_bind in H as (? & w3 & (c & Ec & Cn & Ch & Cl)%log_revision_ok_run & H).
  apply ok_bind in H as (? & w4 & (row' & rev & Hr' & Hrev & Ed)%record_revision_ok & ->%load_ok).
  apply (update_action_part _ row) in Hu; [|apply Hi|done..].
  set (a' := action_outcome st (canonical_json (JObj m)) at_ row) in Hu.
  unfold action_part in Hu. cbn [db] in Hu. injection Hu as U1 U2 U3 U4.
  pose proof (ai_actions _ Hi row Hrow) as [Hj Hsh _ _].
  unfold action_by_id in Hr'. rewrite Ec in Hr'. cbn [actions set_behavior_revisions] in Hr'.
  rewrite U1 (fetch_replace ac_action_id) // in Hr'; [apply Hi|]. injection Hr' as <-.
  rewrite Rl in Cn, Cl.
  assert (br_revision_number c = 2) as C2.
  { rewrite Cn. unfold log_revision_numbers. rewrite U4. unfold log_revs in Er1. rewrite Er1 /=.
    by destruct Hr1 as [-> _]. }
  assert (st ≠ Unknown ∧ terminal a' = true) as [Hnu Ht].
  { unfold RECONCILIATION_STATES in Hst. case_in Hst; by subst st. }
  eapply (replace_inv (db w) _ row a' rev [] [c]); rewrite ?Ed; rewrite ?Ec;
    cbn [actions action_revisions behavior_logs behavior_revisions set_action_revisions
         set_behavior_revisions]; rewrite ?app_nil_r; try done.
  - by rewrite U2.
  - by rewrite U4.
  - destruct Hrev as [R1 R2 R3 R4 R5]. split; try done. rewrite R3. unfold revision_numbers.
    by rewrite Ec /= U2.
  - by intros l ?%not_elem_of_nil.
  - rewrite U3. apply Hi.
  - intros r' ->%list_elem_of_singleton. exists log. by rewrite U3 Cl.
  - by apply outcome_json.
  - unfold shape in *. rewrite Hs in Hsh. simpl. unfold RECONCILIATION_STATES in Hst.
    case_in Hst; subst st; naive_solver.
  - eapply (reconciled_logs row a' log r1 c (db w)); simpl; rewrite ?U3 ?U4 ?Cl; try done.
    + rewrite /log_revision_ok Ch C2 Cl /=. by split_and!.
    + unfold stable_fields. simpl. by rewrite !bool_decide_true.
  - apply outcome_advances. by rewrite Hs.
Qed.

Lemma insert_action_ok a w u w' :
  ok (insert_action a) w u w' →
  action_part (db w') = (actions (db w) ++ [a], action_revisions (db w), behavior_logs (db w),
    behavior_revisions (db w)) ∧ (ac_action_id a ∉ map ac_action_id (actions (db w))) ∧
  subject_exists (ac_subject_id a) (db w) = true.
Proof.
  unfold insert_action. intros H. apply ok_bind in H as (d & ? & [<- <-]%ok_gets & H).
  apply ok_bind in H as (? & ? & [_ <-]%ok_kconstraint & H).
  apply ok_bind in H as (? & ? & [Hu%negb_true_iff <-]%ok_kconstraint & H).
  apply ok_bind in H as (? & ? & [Hs <-]%ok_kconstraint & H).
  apply ok_bind in H as (? & ? & ->%ok_modify & ->%bump_count_ok). split_and!; [done| |done].
  intros (x' & E & Hx)%list_elem_of_fmap. rewrite exists_where_false in Hu.
  specialize (Hu x' Hx). rewrite orb_false_iff bool_decide_eq_false in Hu. by destruct Hu as [[] _].
Qed.
(** A prepared action and its first revision. *)
Lemma new_action_inv a rev d d' :
  action_inv d → ac_action_id a ∉ map ac_action_id (actions d) →
  action_part d' = (actions d ++ [a], action_revisions d ++ [rev], behavior_logs d,
    behavior_revisions d) →
  revision_of a d rev → ac_status a = Prepared → is_ok (action_from_row a) = true → shape a →
  action_inv d'.
Proof.
  unfold action_part. intros Hi Hn [= P1 P2 P3 P4] Hrev Hs Hj Hsh.
  assert (revs (ac_action_id a) d = []) as Hr0.
  { apply select_none. intros r Hr%Hi. apply bool_decide_false. intros E. apply Hn. by rewrite -E. }
  eapply (advance_inv d d' (ac_action_id a) [] [] rev); rewrite ?app_nil_r; try done.
  - apply Hrev.
  - by intros l ?%not_elem_of_nil.
  - rewrite P3. apply Hi.
  - by intros l ?%not_elem_of_nil.
  - rewrite P1. apply NoDup_map_snoc; [apply Hi|done].
  - intros x Hx. rewrite P1 map_app. apply elem_of_app. left. by apply list_elem_of_fmap_2.
  - rewrite P1 map_app. apply elem_of_app. right. apply here.
  - intros x. rewrite P1. intros [Hx| ->%list_elem_of_singleton]%elem_of_app.
    + left. split; [done|]. intros E. apply Hn. rewrite -E. by apply list_elem_of_fmap_2.
    + right. split; try done.
      * rewrite (revs_append _ d _ rev) // (rv_action _ _ _ Hrev) bool_decide_true // Hr0.
        destruct Hrev as [R1 R2 R3 R4 R5]. split; simpl.
        -- rewrite R3. unfold revision_numbers. unfold revs in Hr0. by rewrite Hr0.
        -- by repeat constructor.
        -- by exists rev.
      * unfold logs_ok, terminal. rewrite Hs. unfold logs. rewrite P3. apply select_none.
        intros l (x' & Hx & E)%Hi. apply bool_decide_false. intros E'. apply Hn.
        rewrite -E' -E. by apply list_elem_of_fmap_2.
Qed.
Lemma prepare_keeps rq w r w' :
  wf_json (JObj (default [] (rq_resource_cost rq))) → ok (prepare rq) w r w' →
  action_inv (db w) → action_inv (db w') ∧ advanced (db w) (db w').
Proof.
  intros Hm H Hi. unfold prepare in H.
  do 2 apply ok_bind in H as (? & ? & [_ <-]%ok_raise_if & H). apply ok_transaction in H.
  apply ok_bind in H as (d & ? & [<- <-]%ok_gets & H).
  do 3 apply ok_bind in H as (? & ? & [_ <-]%ok_raise_if & H).
  apply ok_bind in H as (? & w1 & Hsl & H).
  assert (w1 = w) as -> by (case_match; by invert_ok). clear Hsl.
  apply ok_bind in H as (? & ? & [_ <-]%ok_raise_if & H).
  case_match.
  { by apply ok_bind in H as (? & ? & [_ <-]%ok_raise_if & [_ <-]%ok_lift). }
  apply ok_bind in H as (? & w2 & H2%capacity_pure & H).
  apply ok_bind in H as (aid & w3 & H3%pure_knew_id & H).
  apply ok_bind in H as (at_ & w4 & [_ ->]%ok_read_clock & H).
  apply ok_bind in H as (? & w5 & (Ep & Hn & _)%insert_action_ok & H). cbn [db] in Ep, Hn.
  apply ok_bind in H as (? & w6 & (row & rev & Hr & Hrev & Ed)%record_revision_ok & ->%load_ok).
  set (a := new_action_row rq aid (content_hash (JObj (rq_input_payload rq))) at_) in *.
  change aid with (ac_action_id a) in Hr. rewrite H3 H2 in Ep, Hn.
  pose proof Ep as Ep'. unfold action_part in Ep'. injection Ep' as P1 P2 P3 P4.
  assert (row = a) as ->.
  { assert (NoDup (map ac_action_id (actions (db w) ++ [a]))) as Hnd
      by (by apply NoDup_map_snoc; [apply Hi|]).
    unfold action_by_id in Hr. rewrite P1 (fetchone_key ac_action_id _ a Hnd) in Hr;
      [apply elem_of_app; right; apply here|by simplify_eq]. }
  split; [eapply (new_action_inv a rev (db w)); try done|].
  4: { intros b Hb. exists b. rewrite Ed. simpl. rewrite P1. split; [|done].
       apply elem_of_app. by left. }
  - unfold action_part. rewrite Ed. simpl. by rewrite P1 P2 P3 P4.
  - destruct Hrev as [R1 R2 R3 R4 R5]. split; try done. rewrite R3. unfold revision_numbers.
    by rewrite P2.
  - unfold action_from_row. apply json_dict_canonical in Hm.
    change (ac_resource_cost_json a) with (canonical_json (JObj (default [] (rq_resource_cost rq)))).
    by destruct (json_dict _).
Qed.

Lemma recover_op_keeps sid w rs w' :
  ok (recover_interrupted sid) w rs w' → action_inv (db w) → action_inv (db w') ∧ advanced (db w) (db w').
Proof.
  intros H%ok_transaction Hi. apply ok_bind in H as (rows & ? & [<- <-]%ok_gets & H).
  eapply recover_keeps; [exact H|done|..]; unfold executing_rows.
  - rewrite sort_by_perm. apply NoDup_select, Hi.
  - intros r Hr%elem_of_sort_by%elem_of_select. rewrite andb_true_iff !bool_decide_eq_true in Hr.
    naive_solver.
Qed.
(** An action operation, whether it returns or raises. *)
Lemma op_advances op w :
  wf_op op → action_inv (db w) →
  action_inv (db (run_kernel op w).2) ∧ advanced (db w) (db (run_kernel op w).2).
Proof.
  intros Hwf Hi. destruct (is_action_op op) eqn:Ea.
  2: { pose proof (other_op_action op Ea w) as E. split; [by eapply action_inv_part|].
       apply advanced_same. unfold action_part in E. by simplify_eq. }
  enough (∀ A (m : K A), rolls_back m →
    (∀ a w', ok m w a w' → action_inv (db w') ∧ advanced (db w) (db w')) →
    action_inv (db ((m ;; mret tt) w).2) ∧ advanced (db w) (db ((m ;; mret tt) w).2)) as Hop.
  { destruct op; try done; apply Hop; try apply rolls_back_transaction;
      try (repeat apply rolls_back_guarded; apply rolls_back_transaction); intros a w' H.
    - by eapply prepare_keeps.
    - by eapply start_keeps.
    - by eapply finish_keeps.
    - by eapply cancel_keeps.
    - by eapply recover_op_keeps.
    - by eapply reconcile_keeps. }
  intros A m Hat Hm. unfold mbind, M_bind. destruct (m w) as [[a|e] w'] eqn:E; simpl.
  - by eapply Hm.
  - apply Hat in E. by rewrite E.
Qed.
Lemma env_advances d d' : env_change d d' → action_inv d → action_inv d' ∧ advanced d d'.
Proof. intros He Hi. destruct He; (split; [by apply (action_inv_part d)|by apply advanced_same]). Qed.
Lemma step_advances w w' :
  kernel_step w w' → action_inv (db w) → action_inv (db w') ∧ advanced (db w) (db w').
Proof. intros [op Hwf|d t f He _ _]; [by apply op_advances|by apply env_advances]. Qed.
Lemma reachable_actions w : kreachable w → action_inv (db w).
Proof.
  revert w. apply kreachable_ind.
  - intros d Hd. destruct Hd as [_ _ _ E1 E2 E3 E4 _]. simpl.
    split; rewrite ?E1 ?E2 ?E3 ?E4; try apply NoDup_nil_2; by intros ? ?%not_elem_of_nil.
  - intros w w' _ Hs Hi. by eapply step_advances.
Qed.
Lemma steps_advance w w' : rtc kernel_step w w' → action_inv (db w) → advanced (db w) (db w').
Proof.
  induction 1 as [w|w w1 w2 Hs _ IH]; intros Hi; [done|].
  apply step_advances in Hs as [Hi' Ha]; [|done]. etrans; [exact Ha|by apply IH].
Qed.
End ledger.
