(* ===== verification/KernelLedger.v ===== *)
(** * The action ledger verifies, and starts nothing twice

    C38: every reachable database passes [verify_integrity] of the action
    ledger.  C39: an action moves forward only and is started at most once,
    also across crashes and recoveries. *)

From stdpp Require Import sorting relations.
From S2P Require Import Prelude Tables PyStr Json Digest Time KernelDb Events Lifecycle Actions.
From S2P Require Import KernelSystem KernelChain KernelLife KernelActions.
Local Open Scope Z_scope.

Section verify.
Context {Dg : Digest} {Ho : Host}.

(** ** Verification succeeds *)

Lemma check_each_ok {A} (f : A → result unit) l :
  (∀ x, x ∈ l → f x = Ok tt) → check_each f l = Ok tt.
Proof.
  induction l as [|x l IH]; intros H; [done|]. simpl. rewrite (H x (here _ _)). simpl.
  apply IH. intros y Hy. by apply H, there.
Qed.
Lemma check_revisions_ok sid id k h :
  numbered k (map ar_revision_number h) → Forall (λ r, ar_subject_id r = sid) h →
  check_revisions sid id k h = Ok tt.
Proof.
  revert k. induction h as [|r h IH]; intros k Hn Hs; [done|]. destruct Hn as [E Hn].
  inversion Hs as [|? ? Es Hs']; subst. simpl. by rewrite Z.eqb_refl bool_decide_true // IH.
Qed.
Lemma check_log_ok a log h :
  log_history a log h → bl_subject_id log = ac_subject_id a →
  check_log (ac_subject_id a) a log h = Ok tt.
Proof.
  intros [r (N1 & A1 & S1 & H1) E1 Est|r r' (N1 & A1 & S1 & H1) (N2 & A2 & S2 & H2) E1 Eu Est Hnu Hst]
    Hs; unfold check_log; simpl.
  - rewrite N1 A1 S1 H1 E1 Est /=. by rewrite !bool_decide_true.
  - rewrite N1 N2 A1 A2 S1 S2 H1 H2 E1 Eu Est Hst /=.
    repeat (case_bool_decide; simpl; try congruence).
Qed.

#[local] Arguments logs_of : simpl never.
#[local] Arguments log_revisions_of : simpl never.
Lemma check_action_ok d a :
  action_inv d → a ∈ actions d → check_action (ac_subject_id a) d a = Ok tt.
Proof.
  intros Hi Ha. destruct (ai_actions d Hi a Ha) as [Hj _ [Rn Rs (r & El & Es & Eh)] Hl].
  unfold check_action. destruct (action_from_row a); [|done]. simpl.
  assert (revisions_of (ac_subject_id a) (ac_action_id a) d = revs (ac_action_id a) d) as ->.
  { unfold revs in *. apply (select_by_text ar_action_id ar_revision_number).
    - by eapply numbered_sorted.
    - intros x Hx Ex. rewrite Forall_forall in Rs. apply bool_decide_true, Rs, elem_of_select.
      split; [done|]. by apply bool_decide_true. }
  rewrite El check_revisions_ok //=. rewrite Es Eh.
  rewrite (bool_decide_true (ac_status a = _)) // (bool_decide_true (action_state_hash a = _)) //=.
  fold (terminal a).
  assert (∀ l, l ∈ behavior_logs d → bl_action_id l = ac_action_id a →
               bl_subject_id l = ac_subject_id a) as Hsub.
  { intros l Hl' E. by apply (log_of_action d a l Hi Ha Hl' E). }
  assert (logs_of (ac_subject_id a) (ac_action_id a) d ≡ₚ logs (ac_action_id a) d) as Hp.
  { unfold logs_of, logs. rewrite select_perm; [apply sort_by_perm|].
    rewrite select_narrow //. intros l Hl' ?%bool_decide_eq_true. apply bool_decide_true. auto. }
  unfold logs_ok in Hl. destruct (terminal a).
  - destruct Hl as (log & Elog & Esub & Hh). rewrite Elog in Hp.
    apply Permutation_singleton_r in Hp as ->. simpl.
    assert (log_revisions_of (ac_subject_id a) (bl_log_id log) d = log_revs (bl_log_id log) d) as ->;
      [|by apply check_log_ok].
    apply (select_by_text (λ r, bl_log_id (br_log r)) br_revision_number).
    + fold (log_revs (bl_log_id log) d).
      destruct Hh as [r0 (N1 & _) _ _|r0 r1 (N1 & _) (N2 & _) _ _ _ _ _];
        eapply (numbered_sorted _ 1); simpl; lia.
    + intros x Hx Ex. apply bool_decide_true.
      assert (x ∈ log_revs (bl_log_id log) d) as Hin
        by (apply elem_of_select; split; [done|by apply bool_decide_true]).
      destruct Hh as [r0 (_ & _ & S1 & _) _ _|r0 r1 (_ & _ & S1 & _) (_ & _ & S2 & _) _ _ _ _ _];
        case_in Hin; by subst x.
  - rewrite Hl in Hp. by apply Permutation_nil_r in Hp as ->.
Qed.

(** C38: The action ledger verifies.  In every reachable database
    [verify_integrity] succeeds for every subject: each action has a
    complete sequence of revisions that ends in its stored state, exactly
    the terminal actions have a behaviour log, each log has its revisions
    with valid hashes, and no log belongs to another subject's action.  It
    returns the four counts. *)
Theorem reachable_actions_verify w sid :
  kreachable w →
  verify_actions sid w
  = (Ok (count_where (λ a, ac_subject_id a == sid) (actions (db w)),
         count_where (λ r, ar_subject_id r == sid) (action_revisions (db w)),
         count_where (λ l, bl_subject_id l == sid) (behavior_logs (db w)),
         count_where (λ r, bl_subject_id (br_log r) == sid) (behavior_revisions (db w))), w).
Proof.
  intros Hi%reachable_actions.
  unfold verify_actions, read_transaction, transaction, gets, lift, mbind, M_bind, mret, M_ret.
  unfold id. rewrite check_each_ok.
  { intros a [Ha <-%bool_decide_eq_true]%elem_of_sort_by%elem_of_select. by apply check_action_ok. }
  rewrite check_each_ok.
  { intros l [Hl E%bool_decide_eq_true]%elem_of_sort_by%elem_of_select. unfold check_log_owner.
    destruct (ai_log_owner _ Hi l Hl) as (a & Ha & Ea).
    destruct (log_of_action _ a l Hi Ha Hl (eq_sym Ea)) as (_ & _ & Es & _).
    rewrite (proj2 (exists_where_true _ _)) //. exists a.
    rewrite elem_of_sort_by elem_of_select !bool_decide_eq_true. split; [|done].
    split; [done|congruence]. }
  by rewrite sort_by_perm.
Qed.

(** ** At most one start *)

Definition starts (a : action_row) : Z :=
  match ac_started_at a with Some _ => 1 | None => 0 end.
Lemma shape_retry a : shape a → ac_retry_count a = starts a.
Proof.
  unfold shape, starts. destruct (ac_status a), (ac_started_at a);
    unfold is_Some; naive_solver.
Qed.
Lemma started_not_prepared a : shape a → is_Some (ac_started_at a) → ac_status a ≠ Prepared.
Proof. unfold shape. intros H [t E] Hs. rewrite Hs E in H. naive_solver. Qed.
Lemma start_refused d a w :
  action_inv d → a ∈ actions d → ac_status a ≠ Prepared → db w = d →
  start (ac_action_id a) w = (Raise (InvalidTransitionError
    ("cannot start action in state " +:+ action_status_text (ac_status a))), w).
Proof.
  intros Hi Ha Hs <-. unfold start, transaction, _get_row, gets, lift, raise_if, raise, mbind,
    M_bind, mret, M_ret. unfold action_by_id. rewrite (fetchone_key ac_action_id); [apply Hi|done|].
  simpl. rewrite bool_decide_false //=. by destruct w.
Qed.

(** C39: Nothing is started twice.  Whatever happens after a reachable
    state (crashes, recoveries and reconciliations included), each of its
    actions is still there with the same request columns, in a status that
    follows from its old one by the moves of the ledger; its retry count is
    the number of its starts, at most one; and once it has been started,
    its start time stays and a further [start] raises and changes nothing. *)
Theorem started_at_most_once w w' a :
  kreachable w → a ∈ actions (db w) → rtc kernel_step w w' →
  ∃ a', a' ∈ actions (db w') ∧ frozen a' = frozen a ∧
    rtc (λ s s', s' ∈ action_next s) (ac_status a) (ac_status a') ∧
    ac_retry_count a' = starts a' ∧
    (is_Some (ac_started_at a) → ac_started_at a' = ac_started_at a ∧
       start (ac_action_id a) w' = (Raise (InvalidTransitionError
         ("cannot start action in state " +:+ action_status_text (ac_status a'))), w')).
Proof.
  intros Hw Ha Hs. pose proof (reachable_actions w Hw) as Hi.
  assert (action_inv (db w')) as Hi'.
  { apply reachable_actions. destruct Hw as (d & Hd & H). exists d. split; [done|by etrans]. }
  destruct (steps_advance w w' Hs Hi a Ha) as (a' & Ha' & [Hf Hst Hstart]).
  pose proof (ai_actions _ Hi' a' Ha') as [_ Hsh _ _].
  exists a'. split_and!; try done; [by apply shape_retry|]. intros Hst'. split; [by apply Hstart|].
  assert (ac_action_id a = ac_action_id a') as -> by (unfold frozen in Hf; congruence).
  eapply start_refused; [exact Hi'|done| |done]. apply started_not_prepared; [done|].
  by rewrite Hstart.
Qed.
End verify.
