(* ===== verification/KernelRecovery.v ===== *)
(** * Recovery always completes

    [recover_interrupted] runs at every start of the process.  C40: in
    every reachable state it returns, and then no action of the subject is
    executing any more.  The proof needs that nothing in the tables blocks
    it: identifiers drawn from [uuid4] are fresh, every subject has its
    counters, and every constraint and trigger the recovery meets holds. *)

From stdpp Require Import sorting relations.
From S2P Require Import Prelude Tables PyStr Json Digest Time KernelDb Events Lifecycle Actions.
From S2P Require Import KernelSystem KernelChain KernelLife KernelActions.
Local Open Scope Z_scope.

Create HintDb tidy.

Section recovery.
Context {Dg : Digest} {Ho : Host}.

(** ** Identifiers *)

Definition id_of (prefix : string) (k : nat) : string := prefix +:+ "_" +:+ uuid_at k.
(** [x] was drawn before the [n]-th draw. *)
Definition drawn (prefix : string) (n : nat) (x : string) : Prop :=
  ∃ k, (k < n)%nat ∧ x = id_of prefix k.
Record ids_inv (w : world kernel_db) : Prop := {
  ii_logs l : l ∈ behavior_logs (db w) → drawn "blog" (fresh w) (bl_log_id l);
  ii_revs r : r ∈ action_revisions (db w) → drawn "arev" (fresh w) (ar_revision_id r);
  ii_log_revs r : r ∈ behavior_revisions (db w) → drawn "brev" (fresh w) (br_revision_id r);
}.
Lemma drawn_mono p n n' x : (n <= n')%nat → drawn p n x → drawn p n' x.
Proof. intros Hn (k & Hk & ->). exists k. split; [lia|done]. Qed.
Definition id_part (d : kernel_db) := (behavior_logs d, action_revisions d, behavior_revisions d).
Lemma ids_inv_part w w' :
  id_part (db w') = id_part (db w) → (fresh w <= fresh w')%nat → ids_inv w → ids_inv w'.
Proof.
  unfold id_part. intros [= E1 E2 E3] Hf [H1 H2 H3].
  split; rewrite ?E1 ?E2 ?E3; intros x Hx; eapply drawn_mono; eauto.
Qed.

(** [tidy Q m] : [m] keeps the identifiers drawn, whether it returns or
    raises, given [Q] of the number of draws (which only grows). *)
Definition tidy {A} (Q : nat → Prop) (m : K A) : Prop :=
  ∀ w, ids_inv w → Q (fresh w) → ids_inv (m w).2 ∧ (fresh w <= fresh (m w).2)%nat.
Definition grown (Q : nat → Prop) : Prop := ∀ n n', (n <= n')%nat → Q n → Q n'.
Lemma tidy_bind {A B} Q (m : K A) (k : A → K B) :
  grown Q → tidy Q m → (∀ a, tidy Q (k a)) → tidy Q (m ≫= k).
Proof.
  intros HQ Hm Hk w Hi Hq. unfold mbind, M_bind. destruct (Hm w Hi Hq) as [Hi' Hf].
  destruct (m w) as [[a|e] w']; simpl in *; [|done].
  destruct (Hk a w' Hi' (HQ _ _ Hf Hq)) as [? ?]. split; [done|lia].
Qed.
Lemma tidy_transaction {A} Q (m : K A) : tidy Q m → tidy Q (transaction m).
Proof.
  intros Hm w Hi Hq. unfold transaction. destruct (Hm w Hi Hq) as [Hi' Hf].
  destruct (m w) as [[a|e] w']; simpl in *; [done|]. split; [|done].
  eapply (ids_inv_part w); done.
Qed.
Lemma tidy_catch {A} Q (m : K A) h :
  grown Q → tidy Q m → (∀ e m', h e = Some m' → tidy Q m') → tidy Q (catch m h).
Proof.
  intros HQ Hm Hh w Hi Hq. unfold catch. destruct (Hm w Hi Hq) as [Hi' Hf].
  destruct (m w) as [[a|e] w']; simpl in *; [done|]. destruct (h e) as [m'|] eqn:E; [|done].
  destruct (Hh e m' E w' Hi' (HQ _ _ Hf Hq)) as [? ?]. split; [done|lia].
Qed.
Lemma tidy_steady {A} Q (m : K A) :
  (∀ w, db (m w).2 = db w ∧ (fresh w <= fresh (m w).2)%nat) → tidy Q m.
Proof.
  intros Hm w Hi _. destruct (Hm w) as [E Hf]. split; [|done].
  eapply (ids_inv_part w); [by rewrite E|done|done].
Qed.
Lemma tidy_modify Q f : (∀ d, id_part (f d) = id_part d) → tidy Q (modify f).
Proof. intros Hf w Hi _. split; [|done]. eapply (ids_inv_part w); simpl; auto. Qed.
Lemma tidy_for_each {A} Q (f : A → K unit) l :
  grown Q → (∀ x, tidy Q (f x)) → tidy Q (for_each f l).
Proof.
  intros HQ Hf. induction l as [|x l IH]; simpl; [by apply tidy_steady|]. by apply tidy_bind.
Qed.
(** Drawing an identifier. *)
Lemma tidy_new_id {A} Q p (k : string → K A) :
  (∀ x, tidy (λ n, Q n ∧ drawn p n x) (k x)) → grown Q → tidy Q (knew_id p ≫= k).
Proof.
  intros Hk HQ w Hi Hq. unfold knew_id, read_fresh, mbind, M_bind, mret, M_ret. simpl.
  edestruct (Hk (id_of p (fresh w)) (World (db w) (tick w) (S (fresh w)))) as [? Hf].
  - eapply (ids_inv_part w); simpl; [done|lia|done].
  - simpl. split; [eapply HQ; [|done]; lia|]. exists (fresh w). split; [lia|done].
  - simpl in *. split; [done|]. unfold id_of in Hf. lia.
Qed.

Lemma grown_true : grown (λ _, True).
Proof. by intros n n' _ _. Qed.
Lemma grown_drawn Q p x : grown Q → grown (λ n, Q n ∧ drawn p n x).
Proof. intros HQ n n' Hn [? ?]. split; [by eapply HQ|by eapply drawn_mono]. Qed.
Lemma tidy_id {A} Q Q' (m : K A) : (∀ n, Q n → Q' n) → tidy Q' m → tidy Q m.
Proof. intros HQ Hm w Hi Hq. apply Hm; auto. Qed.

#[local] Hint Resolve grown_true grown_drawn : tidy.

Ltac solve_tidy :=
  repeat first
    [ solve [eauto with tidy]
    | apply tidy_steady; (intros ?; split; [reflexivity|simpl; lia])
    | apply tidy_new_id; [intros ?|solve [eauto using grown_true, grown_drawn]]
    | apply tidy_bind; [solve [eauto using grown_true, grown_drawn]| |intros ?]
    | apply tidy_transaction
    | apply tidy_modify; by intros ?
    | apply tidy_for_each; [solve [eauto using grown_true, grown_drawn]|intros ?]
    | apply tidy_catch; [solve [eauto using grown_true, grown_drawn]| |intros ???]
    | progress unfold raise_if, kconstraint, row_of, or_else
    | match goal with
      | |- tidy _ (if ?b then _ else _) => destruct b
      | |- tidy _ (match ?o with _ => _ end) => destruct o
      end ].

Lemma tidy_record_revision Q a r : grown Q → tidy Q (_record_revision a r).
Proof.
  intros HQ. unfold _record_revision, _get_row, insert_action_revision. solve_tidy.
  intros w [H1 H2 H3] [_ Hd]. split; [|simpl; lia]. split; simpl; [done| |done].
  intros y [Hy%H2| ->]%elem_of_append; done.
Qed.
Lemma tidy_log_revision Q l o st s e r :
  grown Q → tidy Q (_append_behavior_log_revision l o st s e r).
Proof.
  intros HQ. unfold _append_behavior_log_revision, insert_behavior_revision. solve_tidy.
  intros w [H1 H2 H3] [_ Hd]. split; [|simpl; lia]. split; simpl; [done|done|].
  intros y [Hy%H3| ->]%elem_of_append; done.
Qed.
Lemma tidy_behavior_log Q row at_ st s : grown Q → tidy Q (_insert_behavior_log row at_ st s).
Proof.
  intros HQ. pose proof tidy_log_revision. unfold _insert_behavior_log, insert_behavior_log,
    bump_count. solve_tidy.
  intros w [H1 H2 H3] [_ Hd]. split; [|simpl; lia]. split; simpl; [|done|done].
  intros y [Hy%H1| ->]%elem_of_append; done.
Qed.
Lemma tidy_recover Q rows : grown Q → tidy Q (recover_actions rows).
Proof.
  intros HQ. pose proof tidy_behavior_log. pose proof tidy_record_revision.
  induction rows as [|row rows IH]; cbn [recover_actions]; unfold _load_connection, _get_row;
    solve_tidy.
Qed.
Lemma tidy_backfill Q s n p es : grown Q → tidy Q (backfill_chain s n p es).
Proof.
  intros HQ. revert n p. induction es as [|e es IH]; intros n p; cbn [backfill_chain];
    unfold insert_root; solve_tidy.
Qed.
Lemma tidy_append Q s t src p l ps o e :
  grown Q → tidy Q (_append_connection s t src p l ps o e).
Proof.
  intros HQ. pose proof tidy_backfill.
  unfold _append_connection, assert_event_sources_available, record_event, _insert_event_record,
    insert_training_policy, insert_training_record, event_from_row, payload_from_row,
    check_parent, insert_event, _append_chain_connection, insert_root.
  solve_tidy.
Qed.
Lemma tidy_op op : tidy (λ _, True) (run_kernel op).
Proof.
  pose proof tidy_append. pose proof tidy_recover. pose proof tidy_behavior_log.
  pose proof tidy_record_revision. pose proof tidy_log_revision. pose proof grown_true.
  destruct op; unfold run_kernel, append_event, mark_processed, ensure_initial, transition,
    _transition_connection, safe_pause, current_state, require_runtime, pause_without_event,
    recover_for_restart, _migration_epoch_guard, prepare, start, finish_action, Actions.cancel,
    recover_interrupted, reconcile_unknown, _load_connection, _get_row, require_evidence_capacity,
    evidence_counts; unfold_statements; unfold bump_count; solve_tidy.
  match goal with H : _ = Some ?m |- tidy _ ?m => case_match; simplify_eq end. solve_tidy.
Qed.
Lemma reachable_ids w : kreachable w → ids_inv w.
Proof.
  revert w. apply kreachable_ind.
  - intros d Hd. destruct Hd as [_ _ _ _ E2 E3 E4 _].
    split; simpl; rewrite ?E2 ?E3 ?E4; by intros ? ?%not_elem_of_nil.
  - intros w w' _ [op _|d t f He _ Hf] Hi; [by apply tidy_op|].
    apply (ids_inv_part w); [by destruct He|done|done].
Qed.

(** ** Counters and owners *)

Record owners_inv (d : kernel_db) : Prop := {
  oi_actions a : a ∈ actions d → ac_subject_id a ∈ subject_ids d;
  oi_counts sid n : sid ∈ subject_ids d → n ∈ EVIDENCE_TABLES →
    (sid, n) ∈ map (λ c, (ct_subject_id c, ct_table_name c)) (counts d);
}.
Lemma counter_exists sid n d :
  (sid, n) ∈ map (λ c, (ct_subject_id c, ct_table_name c)) (counts d) →
  exists_where (λ c, (ct_subject_id c == sid) && (ct_table_name c == n)) (counts d) = true.
Proof.
  intros (c & [= -> ->] & Hc)%list_elem_of_fmap. apply exists_where_true. exists c.
  by rewrite !bool_decide_true.
Qed.
Lemma owners_part d d' :
  count_part d' = count_part d → map ac_subject_id (actions d') = map ac_subject_id (actions d) →
  owners_inv d → owners_inv d'.
Proof.
  unfold count_part. intros [= E1 E2] E [H1 H2]. split; rewrite ?E1 ?E2; [|done].
  intros a Ha. assert (ac_subject_id a ∈ map ac_subject_id (actions d)) as
    (b & -> & Hb)%list_elem_of_fmap by (rewrite -E; by apply list_elem_of_fmap_2). by apply H1.
Qed.
Definition owner_part (d : kernel_db) := (count_part d, map ac_subject_id (actions d)).
Lemma owners_frame {A} (m : K A) :
  frame owner_part m → keeps owners_inv m.
Proof.
  unfold owner_part. intros H w a w' Hok%H. injection Hok as E1 E2 E3.
  apply owners_part; [|exact E3]. unfold count_part. congruence.
Qed.

Lemma bump_owner sid n : frame owner_part (bump_count sid n).
Proof.
  intros w a w' H. unfold owner_part. by rewrite (bump_counts _ _ _ _ _ H)
    (frame_bump _ _ _ actions ltac:(done) _ _ _ H).
Qed.
Lemma update_owner p f :
  (∀ r, ac_subject_id (f r) = ac_subject_id r) →
  frame owner_part (modify (set_actions (update_where p f))).
Proof.
  intros Hf. apply frame_modify. intros d. unfold owner_part. simpl. by rewrite map_update.
Qed.
Lemma revision_owner a r : frame owner_part (_record_revision a r).
Proof. unfold _record_revision. unfold_statements. solve_frame. Qed.
Lemma log_revision_owner l o st s e r :
  frame owner_part (_append_behavior_log_revision l o st s e r).
Proof. unfold _append_behavior_log_revision. unfold_statements. solve_frame. Qed.
Lemma log_owner r c st s : frame owner_part (_insert_behavior_log r c st s).
Proof. apply behavior_log_frame; [done|apply log_revision_owner|apply bump_owner]. Qed.
#[local] Hint Resolve bump_owner revision_owner log_revision_owner log_owner : kframe.
#[local] Hint Extern 1 (frame owner_part (modify (set_actions _))) =>
  (apply update_owner; by intros) : kframe.
Lemma recover_owner rows : frame owner_part (recover_actions rows).
Proof. induction rows as [|r rows IH]; cbn [recover_actions]; solve_frame. Qed.
#[local] Hint Resolve recover_owner : kframe.
Lemma insert_action_count a : frame count_part (insert_action a).
Proof. unfold_statements. solve_frame. Qed.
Lemma insert_action_owners a : keeps owners_inv (insert_action a).
Proof.
  intros w u w' H [H1 H2].
  assert (count_part (db w') = count_part (db w)) as Ec.
  { eapply insert_action_count, H. }
  apply insert_action_ok in H as (Ep & _ & Hs%bool_decide_eq_true).
  unfold action_part in Ep. injection Ep as Ea _ _ _. unfold count_part in Ec.
  injection Ec as Es Ek. split; rewrite ?Es ?Ek; [|done].
  rewrite Ea. intros x [Hx%H1| ->%list_elem_of_singleton]%elem_of_app; done.
Qed.
Ltac keep_owners :=
  repeat first
    [ apply insert_action_owners
    | apply owners_frame; solve [unfold update_action; solve_frame]
    | apply keeps_bind; [|intros ?]
    | apply keeps_transaction
    | match goal with
      | |- keeps _ (if ?b then _ else _) => destruct b
      | |- keeps _ (match ?o with _ => _ end) => destruct o
      end ].
Lemma op_keeps_owners op : preserves owners_inv (run_kernel op).
Proof.
  destruct (is_action_op op) eqn:Ea.
  2: { intros w. apply owners_part; [apply kernel_op_count|].
       pose proof (other_op_action op Ea w) as E. unfold action_part in E. by injection E as -> _. }
  destruct op; try done; (apply preserves_bind; [|intros ?; by apply preserves_silent]);
    apply preserves_rolls_back; try apply rolls_back_transaction;
    try (repeat apply rolls_back_guarded; apply rolls_back_transaction);
    unfold prepare, start, finish_action, Actions.cancel, recover_interrupted, reconcile_unknown;
    keep_owners.
Qed.
Lemma reachable_owners w : kreachable w → owners_inv (db w).
Proof.
  revert w. apply kreachable_ind.
  - intros d Hd. split; simpl.
    + rewrite (lg_actions d Hd). by intros a ?%not_elem_of_nil.
    + intros sid n H1 H2. destruct (proj1 (exists_where_true _ _) (lg_counts d Hd sid n H1 H2))
        as (c & Hc & [E1%bool_decide_eq_true E2%bool_decide_eq_true]%andb_true_iff).
      subst. by apply (list_elem_of_fmap_2 (λ c, (ct_subject_id c, ct_table_name c))).
  - intros w w' _ [op _|d t f He _ _] Hi; [by apply op_keeps_owners|]. simpl.
    destruct He as [|sid Hn|sid eid key at_|ps rs|r|g|o]; try done;
      try (by apply (owners_part (db w))).
    + destruct Hi as [H1 H2].
      split; cbn [actions subject_ids counts set_counts set_subject_ids].
      * intros a Ha%H1. by apply elem_of_append; left.
      * intros s n [Hs| ->]%elem_of_append Hin; rewrite map_app; apply elem_of_app;
          [left; by apply H2|right]. rewrite map_map.
        apply list_elem_of_fmap. by exists n.
    + apply (owners_part (db w)); [|done|done]. unfold count_part. simpl. by rewrite map_map.
Qed.

(** ** Running to the end *)

Definition runs {A} (m : K A) (w : world kernel_db) : Prop := ∃ a w', ok m w a w'.
Lemma runs_bind {A B} (m : K A) (k : A → K B) w a w' :
  ok m w a w' → runs (k a) w' → runs (m ≫= k) w.
Proof. intros H1 (b & w'' & H2). exists b, w''. apply ok_bind. eauto. Qed.
Lemma runs_gets {A B} (f : kernel_db → A) (k : A → K B) w :
  runs (k (f (db w))) w → runs (gets f ≫= k) w.
Proof. by eapply runs_bind. Qed.
Lemma runs_constraint {B} b msg (k : unit → K B) w :
  b = true → runs (k tt) w → runs (kconstraint b msg ≫= k) w.
Proof. intros ->. by eapply runs_bind. Qed.
Lemma runs_new_id {B} p (k : string → K B) w :
  runs (k (id_of p (fresh w))) (World (db w) (tick w) (S (fresh w))) → runs (knew_id p ≫= k) w.
Proof. by eapply runs_bind. Qed.
Lemma runs_now {B} (k : string → K B) w :
  runs (k (now_at (tick w))) (World (db w) (S (tick w)) (fresh w)) → runs (kutc_now ≫= k) w.
Proof. by eapply runs_bind. Qed.
Lemma runs_modify f w : runs (modify f) w.
Proof. by eexists _, _. Qed.

Section fresh_ids.
Hypothesis uuid_inj : ∀ j k, uuid_at j = uuid_at k → j = k.

Lemma app_inj_l (a b c : string) : a +:+ b = a +:+ c → b = c.
Proof. induction a as [|ch a IH]; simpl; [done|]. intros [= E]. by apply IH. Qed.
Lemma drawn_fresh p n x : drawn p n x → x ≠ id_of p n.
Proof.
  intros (k & Hk & ->) E. unfold id_of in E. apply app_inj_l, app_inj_l, uuid_inj in E. lia.
Qed.
Lemma numbered_bound k l x : numbered k l → x ∈ l → x < k + Z.of_nat (length l).
Proof.
  revert k. induction l as [|y l IH]; intros k H Hx; [by apply not_elem_of_nil in Hx|].
  destruct H as [-> H]. apply elem_of_cons in Hx as [->|Hx]; [simpl; lia|].
  specialize (IH _ H Hx). simpl. lia.
Qed.

Lemma get_row_runs id w row : action_by_id id (db w) = Some row → ok (_get_row id) w row w.
Proof. intros E. unfold ok, _get_row, gets, lift, mbind, M_bind. by rewrite E. Qed.
Lemma record_revision_runs id reason w row :
  ids_inv w → NoDup (map ac_action_id (actions (db w))) → action_by_id id (db w) = Some row →
  numbered 1 (map ar_revision_number (revs id (db w))) → runs (_record_revision id reason) w.
Proof.
  intros Hi Hk Hrow Hn. pose proof Hrow as Hf. unfold action_by_id in Hf.
  apply fetchone_Some in Hf as [Hin <-%bool_decide_eq_true].
  unfold _record_revision, insert_action_revision.
  eapply runs_bind; [by apply get_row_runs|].
  apply runs_gets, runs_new_id, runs_now, runs_gets. unfold id. simpl.
  apply runs_constraint, runs_constraint; [| |apply runs_modify].
  - unfold action_revision_ok. apply exists_where_true. exists row. simpl.
    by rewrite !bool_decide_true // Z.eqb_refl.
  - apply negb_true_iff, exists_where_false. intros r Hr. simpl. apply orb_false_iff. split.
    + apply bool_decide_false. by eapply drawn_fresh, Hi.
    + apply andb_false_iff. destruct (decide (ar_action_id r = ac_action_id row)) as [E|E];
        [right|left; by apply bool_decide_false].
      unfold revision_numbers. fold (revs (ac_action_id row) (db w)).
      rewrite (next_numbered _ Hn). apply Z.eqb_neq.
      assert (ar_revision_number r ∈ map ar_revision_number (revs (ac_action_id row) (db w))) as Hx.
      { apply list_elem_of_fmap_2, elem_of_select. split; [done|by apply bool_decide_true]. }
      pose proof (numbered_bound _ _ _ Hn Hx). lia.
Qed.
Lemma log_revision_runs source at_ st se ex reason w a :
  (∀ r, r ∈ behavior_revisions (db w) → drawn "brev" (fresh w) (br_revision_id r)) →
  source ∈ behavior_logs (db w) → a ∈ actions (db w) → ac_action_id a = bl_action_id source →
  ac_subject_id a = bl_subject_id source → ac_status a = st →
  log_revs (bl_log_id source) (db w) = [] →
  runs (_append_behavior_log_revision source at_ st se ex reason) w.
Proof.
  intros Hi Hl Ha E1 E2 E3 Hno. unfold _append_behavior_log_revision, insert_behavior_revision.
  assert (log_revision_numbers (bl_log_id source) (db w) = []) as En0.
  { unfold log_revision_numbers. unfold log_revs in Hno. by rewrite Hno. }
  apply runs_gets. rewrite En0. apply runs_new_id, runs_now, runs_gets. unfold id. simpl.
  apply runs_constraint, runs_constraint; [| |apply runs_modify].
  - unfold behavior_revision_ok. apply exists_where_true. exists source. split; [done|]. simpl.
    rewrite En0 !bool_decide_true //= andb_true_r andb_true_iff. split; [|done].
    apply exists_where_true. exists a. by rewrite !bool_decide_true.
  - apply negb_true_iff, exists_where_false. intros r Hr. simpl. apply orb_false_iff. split.
    + apply bool_decide_false. by eapply drawn_fresh, Hi.
    + apply andb_false_iff. left. apply bool_decide_false. intros E.
      assert (r ∈ log_revs (bl_log_id source) (db w)) as Hx
        by (apply elem_of_select; split; [done|by apply bool_decide_true]).
      rewrite Hno in Hx. by apply not_elem_of_nil in Hx.
Qed.
Lemma bump_runs sid n w :
  (sid, n) ∈ map (λ c, (ct_subject_id c, ct_table_name c)) (counts (db w)) →
  runs (bump_count sid n) w.
Proof.
  intros H%counter_exists. unfold bump_count. apply runs_gets, runs_constraint; [done|].
  apply runs_modify.
Qed.
Lemma log_runs row at_ st s w a :
  ids_inv w → log_keys (db w) → a ∈ actions (db w) → ac_action_id a = ac_action_id row →
  ac_subject_id a = ac_subject_id row → ac_status a = st →
  logs (ac_action_id row) (db w) = [] →
  (ac_subject_id row, "behavior_logs"%string)
    ∈ map (λ c, (ct_subject_id c, ct_table_name c)) (counts (db w)) →
  runs (_insert_behavior_log row at_ st s) w.
Proof.
  intros Hi [Hk Hlr] Ha E1 E2 E3 Hno Hc. unfold _insert_behavior_log. apply runs_new_id.
  match goal with |- context [insert_behavior_log ?l] => set (log := l) end.
  set (w1 := World (db w) (tick w) (S (fresh w))).
  assert (bl_log_id log ∉ map bl_log_id (behavior_logs (db w))) as Hfresh.
  { intros (l & E & Hl)%list_elem_of_fmap. by apply (drawn_fresh _ _ _ (ii_logs _ Hi l Hl)). }
  assert (runs (insert_behavior_log log) w1) as (u & w2 & Hrun).
  { unfold insert_behavior_log. apply runs_gets, runs_constraint; [|apply runs_constraint].
    - apply exists_where_true. exists a. by rewrite !bool_decide_true.
    - apply negb_true_iff, exists_where_false. intros l Hl. apply orb_false_iff.
      split; apply bool_decide_false; intros E.
      + apply Hfresh. rewrite -E. by apply list_elem_of_fmap_2.
      + assert (l ∈ logs (ac_action_id row) (db w)) as Hx
          by (apply elem_of_select; split; [done|by apply bool_decide_true]).
        rewrite Hno in Hx. by apply not_elem_of_nil in Hx.
    - eapply (runs_bind _ _ _ tt); [by apply ok_modify|]. by apply bump_runs. }
  eapply runs_bind; [exact Hrun|].
  apply insert_log_ok in Hrun as (Ep & _ & Ef). unfold action_part in Ep. simpl in Ep, Ef.
  injection Ep as P1 P2 P3 P4. apply runs_gets. change (id_of "blog" (fresh w)) with (bl_log_id log).
  assert (log ∈ behavior_logs (db w2)) as Hin by (rewrite P3; apply elem_of_app; right; apply here).
  rewrite (fetchone_key bl_log_id) //.
  { rewrite P3. by apply NoDup_map_snoc. }
  apply (runs_bind _ _ _ log w2); [by apply ok_lift|]. eapply (log_revision_runs _ _ _ _ _ _ _ a); try done.
  - rewrite P4 Ef. intros r Hr. eapply drawn_mono; [|by apply Hi]. lia.
  - by rewrite P1.
  - unfold log_revs. rewrite P4. apply select_none. intros r Hr%Hlr. apply bool_decide_false.
    intros E. apply Hfresh. by rewrite -E.
Qed.

Lemma load_runs d a w :
  action_inv d → a ∈ actions d → db w = d →
  ∃ r, ok (_load_connection (ac_action_id a)) w r w ∧ acr_row r = a.
Proof.
  intros Hi Ha <-. destruct (ai_actions _ Hi a Ha) as [Hj _ _ _].
  destruct (action_from_row a) as [r|] eqn:E; [|done]. exists r. split.
  - apply ok_bind. exists a, w. split; [|by apply ok_lift]. apply get_row_runs.
    apply (fetchone_key ac_action_id); [apply Hi|done].
  - unfold action_from_row in E. destruct (json_dict _); [|done]. simpl in E.
    destruct (ac_result_json a) as [t|]; simpl in E; [destruct (json_dict t); simpl in E|];
      by simplify_eq.
Qed.

Lemma tidy_ok {A} Q (m : K A) w a w' :
  tidy Q m → ok m w a w' → ids_inv w → Q (fresh w) → ids_inv w'.
Proof. intros Hm Hok Hi Hq. destruct (Hm w Hi Hq) as [H _]. unfold ok in Hok. by rewrite Hok in H. Qed.
(** One iteration of the recovery loop: the log, then the revision. *)
Definition recovered (at_ : string) (row : action_row) : action_row :=
  action_outcome Unknown (canonical_json (recovery_result (ac_side_effect row))) at_ row.
Lemma recovered_log_runs row at_ w w2 :
  action_inv (db w) → ids_inv w2 → owners_inv (db w) → row ∈ actions (db w) →
  ac_status row = Executing → counts (db w2) = counts (db w) →
  action_part (db w2) = (replace_row ac_action_id row (recovered at_ row) (actions (db w)),
    action_revisions (db w), behavior_logs (db w), behavior_revisions (db w)) →
  ∃ w3, ok (_insert_behavior_log row at_ Unknown (recovery_summary (ac_side_effect row))) w2 tt w3 ∧
    ids_inv w3 ∧ actions (db w3) = actions (db w2) ∧ action_revisions (db w3) = action_revisions (db w).
Proof.
  unfold action_part. intros Hi Hid Ho' Hrow Hs Pc [= P1 P2 P3 P4].
  pose proof (ao_logs _ _ (ai_actions _ Hi row Hrow)) as Hlogs.
  unfold logs_ok, terminal in Hlogs. rewrite Hs in Hlogs. simpl in Hlogs.
  assert (log_keys (db w2)) as Hlk by (split; rewrite ?P3 ?P4; apply Hi).
  assert (runs (_insert_behavior_log row at_ Unknown (recovery_summary (ac_side_effect row))) w2)
    as ([] & w3 & Hl).
  { eapply (log_runs _ _ _ _ _ (recovered at_ row)); try done.
    - rewrite P1. apply elem_of_replace; auto. apply Hi.
    - unfold logs. by rewrite P3.
    - rewrite Pc. apply Ho'; [by apply Ho'|]. by apply (bool_decide_unpack _). }
  exists w3. split; [done|]. split.
  { by apply (tidy_ok _ _ _ _ _ (tidy_behavior_log (λ _, True) _ _ _ _ grown_true) Hl). }
  destruct (behavior_log_ok _ _ _ _ _ _ _ Hl Hlk) as (log & lr & Eq & _).
  unfold action_part in Eq. injection Eq as Q1 Q2 _ _. by rewrite Q2 P2.
Qed.
Lemma recover_one_runs row w :
  action_inv (db w) → ids_inv w → owners_inv (db w) → row ∈ actions (db w) →
  ac_status row = Executing →
  let at_ := now_at (tick w) in
  ∃ w2 w3 w4 r,
    ok (modify (set_actions (update_where
        (λ r, (ac_action_id r == ac_action_id row) && (ac_status r == Executing))
        (action_outcome Unknown (canonical_json (recovery_result (ac_side_effect row))) at_))))
      (World (db w) (S (tick w)) (fresh w)) tt w2 ∧
    ok (_insert_behavior_log row at_ Unknown (recovery_summary (ac_side_effect row))) w2 tt w3 ∧
    ok (_record_revision (ac_action_id row) "recovered") w3 tt w4 ∧
    ok (_load_connection (ac_action_id row)) w4 r w4 ∧ acr_row r = recovered at_ row ∧
    actions (db w4) = replace_row ac_action_id row (recovered at_ row) (actions (db w)) ∧
    action_inv (db w4) ∧ ids_inv w4 ∧ owners_inv (db w4).
Proof.
  intros Hi Hid Ho' Hrow Hs at_. pose proof (ai_key _ Hi) as Hk.
  set (p := λ r, (ac_action_id r == ac_action_id row) && (ac_status r == Executing)).
  set (f := action_outcome Unknown (canonical_json (recovery_result (ac_side_effect row))) at_).
  set (w1 := World (db w) (S (tick w)) (fresh w)). set (a' := recovered at_ row).
  destruct (runs_modify (set_actions (update_where p f)) w1) as ([] & w2 & Hm).
  pose proof (recover_update row f w1 tt w2 Hk Hrow Hs Hm) as Ep.
  change (action_part (db w2) = (replace_row ac_action_id row a' (actions (db w)),
    action_revisions (db w), behavior_logs (db w), behavior_revisions (db w))) in Ep.
  pose proof (f_equal (λ x, x.1.1.1) Ep) as P1. cbn [fst action_part] in P1.
  assert (ids_inv w2 ∧ counts (db w2) = counts (db w)) as [Hid2 Pc].
  { apply ok_modify in Hm as ->. split; [by apply (ids_inv_part w)|done]. }
  destruct (recovered_log_runs row at_ w w2) as (w3 & Hl & Hid3 & Q1 & Q2); [done..|].
  assert (runs (_record_revision (ac_action_id row) "recovered") w3) as ([] & w4 & Hr).
  { eapply (record_revision_runs _ _ _ a'); [done|..].
    - by rewrite Q1 P1 map_replace.
    - unfold action_by_id. rewrite Q1 P1. by apply fetch_replace.
    - unfold revs. rewrite Q2. apply (ai_actions _ Hi row Hrow). }
  pose proof (ai_actions _ Hi row Hrow) as [Hj Hsh _ _].
  destruct (outcome_inv row a' at_ Unknown (recovery_summary (ac_side_effect row)) "recovered"
    w w2 tt w3 tt w4) as [[Hi4 _] Ea4]; try done.
  { unfold terminal. by rewrite Hs. }
  { apply outcome_advances. rewrite Hs. by apply (bool_decide_unpack _). }
  { apply outcome_json; [done|]. split; [|done]. by apply (bool_decide_unpack _). }
  { apply outcome_shape; [done..|]. by apply (bool_decide_unpack _). }
  destruct (load_runs (db w4) a' w4) as (r & Hld & Er); [done| |done|].
  { rewrite Ea4. apply elem_of_replace; auto. }
  exists w2, w3, w4, r. split_and!; try done.
  - by apply (tidy_ok _ _ _ _ _ (tidy_record_revision (λ _, True) _ _ grown_true) Hr).
  - eapply owners_frame; [apply revision_owner|exact Hr|].
    eapply owners_frame; [apply log_owner|exact Hl|].
    eapply owners_frame; [|exact Hm|done]. by apply update_owner.
Qed.

Lemma recover_runs rows : ∀ w,
  action_inv (db w) → ids_inv w → owners_inv (db w) → NoDup (map ac_action_id rows) →
  (∀ r, r ∈ rows → r ∈ actions (db w) ∧ ac_status r = Executing) →
  ∃ rs w', ok (recover_actions rows) w rs w' ∧
    map (λ r, ac_action_id (acr_row r)) rs = map ac_action_id rows ∧
    Forall (λ r, ac_status (acr_row r) = Unknown) rs ∧
    ∀ a, a ∈ actions (db w') → ac_status a = Executing → a ∈ actions (db w) ∧ a ∉ rows.
Proof.
  induction rows as [|row rows IH]; intros w Hi Hid Ho' Hn Hin.
  { exists [], w. split_and!; try done. intros a Ha _. split; [done|by apply not_elem_of_nil]. }
  apply NoDup_cons in Hn as [Hn1 Hn2]. destruct (Hin row (here _ _)) as [Hrow Hs].
  destruct (recover_one_runs row w Hi Hid Ho' Hrow Hs)
    as (w2 & w3 & w4 & r & H2 & H3 & H4 & H5 & Er & Ea & Hi4 & Hid4 & Ho4).
  destruct (IH w4 Hi4 Hid4 Ho4 Hn2) as (rs & w' & Hrs & Em & Hu & Hleft).
  { intros x Hx. destruct (Hin x (there _ _ _ Hx)) as [Hxa Hxs]. split; [|done].
    rewrite Ea. apply elem_of_replace; [apply Hi|done|]. right. split; [done|]. intros ->.
    apply Hn1. by apply list_elem_of_fmap_2. }
  exists (r :: rs), w'. split_and!.
  - cbn [recover_actions]. apply ok_bind. eexists _, _. split; [by apply ok_read_clock|].
    repeat (apply ok_bind; eexists _, _; split; [first [exact H2|exact H3|exact H4|exact H5|exact Hrs]|]).
    by apply ok_ret.
  - rewrite /= Em Er. done.
  - constructor; [by rewrite Er|done].
  - intros a Ha Hx. destruct (Hleft a Ha Hx) as [Ha4 Hnr]. rewrite Ea in Ha4.
    apply elem_of_replace in Ha4 as [->|[Haw Hne]]; [done| |apply Hi|done].
    split; [done|]. by rewrite not_elem_of_cons.
Qed.

Lemma recover_interrupted_runs sid w :
  kreachable w →
  ∃ rs w', recover_interrupted sid w = (Ok rs, w') ∧
    map (λ r, ac_action_id (acr_row r)) rs = map ac_action_id (executing_rows sid (db w)) ∧
    Forall (λ r, ac_status (acr_row r) = Unknown) rs ∧
    ∀ a, a ∈ actions (db w') → ac_subject_id a = sid → ac_status a ≠ Executing.
Proof.
  intros Hw. pose proof (reachable_actions w Hw) as Hi.
  destruct (recover_runs (executing_rows sid (db w)) w) as (rs & w' & Hrs & Em & Hu & Hleft);
    [done|by apply reachable_ids|by apply reachable_owners|..].
  - unfold executing_rows. rewrite sort_by_perm. apply NoDup_select, Hi.
  - intros r Hr%elem_of_sort_by%elem_of_select. rewrite andb_true_iff !bool_decide_eq_true in Hr.
    naive_solver.
  - exists rs, w'. split_and!; [|done..|].
    + apply (transaction_ok _ w rs w'), ok_bind. by eexists _, w.
    + intros a Ha Hs Hx. destruct (Hleft a Ha Hx) as [Haw Hne]. apply Hne.
      apply elem_of_sort_by, elem_of_select. by rewrite !bool_decide_true.
Qed.
End fresh_ids.

(** C40: Recovery always completes.  When [uuid4] never repeats, then in
    every reachable state (in particular the one a crash leaves)
    [recover_interrupted] returns: it reports exactly the actions of the
    subject that were executing, now with an unknown outcome, and no action
    of the subject is executing any more.  (The lease and the private inputs
    that [Database.transaction] checks first are taken to be in order.) *)
Theorem recovery_completes sid w :
  (∀ j k, uuid_at j = uuid_at k → j = k) → kreachable w →
  ∃ rs w', recover_interrupted sid w = (Ok rs, w') ∧
    map (λ r, ac_action_id (acr_row r)) rs = map ac_action_id (executing_rows sid (db w)) ∧
    Forall (λ r, ac_status (acr_row r) = Unknown) rs ∧
    ∀ a, a ∈ actions (db w') → ac_subject_id a = sid → ac_status a ≠ Executing.
Proof. intros Hu Hw. by apply recover_interrupted_runs. Qed.
End recovery.
