(* ===== verification/KernelWitness.v ===== *)
(** * The kernel theorems at work

    A runtime whose database holds an event from before the chain starts,
    prepares and starts an action, and dies; the next process recovers the
    lifecycle and the action, whose outcome is then reconciled.  And a run
    of the admission gate: an operation, its commit, a migration fence.
    Each theorem of the admission gate and of the kernel that has
    hypotheses is applied to these states. *)

From stdpp Require Import relations.
From S2P Require Import Prelude Tables PyStr Json Digest Time Admission KernelDb Events.
From S2P Require Import Lifecycle Actions KernelSystem KernelChain KernelLife KernelActions.
From S2P Require Import KernelLedger KernelRecovery.
Local Open Scope Z_scope.

(** The digest is SHA-256; the clock stands still. *)
#[export] Instance scene_digest : Digest := sha256_digest.
#[export] Instance scene_host : Host := {|
  now_at k := "2026-01-02T12:00:00.000+00:00"; uuid_at k := show_Z (Z.of_nat k);
  archived_payload _ _ _ _ := Raise (IntegrityError "no archive");
  fence_file_active _ _ := false; migration_target_id := None; evidence_row_limit := 1000 |}.

Lemma scene_uuid_inj j k : uuid_at j = uuid_at k → j = k.
Proof.
  simpl. intros E.
  pose proof (parse_number_show (Z.of_nat j) EmptyString I) as Hj.
  pose proof (parse_number_show (Z.of_nat k) EmptyString I) as Hk.
  rewrite E Hk in Hj. injection Hj as Hj. lia.
Qed.

Definition sid : string := "alice".
Definition old_event : event_row :=
  {| ev_event_id := "evt_old"; ev_subject_id := sid; ev_event_type := "human_message";
     ev_source := "chat"; ev_occurred_at := "2026-01-01T00:00:00.000+00:00";
     ev_observed_at := "2026-01-01T00:00:00.000+00:00"; ev_payload_json := "{}";
     ev_payload_hash := content_hash (JObj []); ev_privacy_level := "private";
     ev_causal_parent_ids_json := "[]"; ev_processing_status := Recorded;
     ev_payload_archive_key := None; ev_payload_archived_at := None |}.
Definition no_others : other_tables :=
  {| retry_blocks := []; goal_owners := []; project_owners := []; phase_projects := [];
     private_messages := []; private_conversations := []; migration_epochs := [] |}.
Definition scene_db : kernel_db :=
  {| subject_ids := [sid]; events := [old_event]; chain_roots := []; training_policies := [];
     training_records := []; runtime_states := []; actions := []; action_revisions := [];
     behavior_logs := []; behavior_revisions := []; kaudits := [];
     counts := map (λ n, {| ct_subject_id := sid; ct_table_name := n; ct_row_count := 0 |})
                 EVIDENCE_TABLES;
     others := no_others |}.
Definition scene_request : action_request :=
  {| rq_subject_id := sid; rq_action_type := "web"; rq_tool := "browser";
     rq_target := "https://example.org"; rq_input_payload := [("q", JStr "rocq")];
     rq_goal_id := None; rq_project_id := None; rq_phase_id := None; rq_strategy_id := None;
     rq_expected_outcome := "a page"; rq_side_effect := true; rq_resource_cost := None;
     rq_idempotency_key := Some "once"%string |}.

Definition kafter (op : kernel_op) (w : world kernel_db) : world kernel_db := (run_kernel op w).2.
Definition kop1 := KEnsureInitial sid Booting "first boot".
Definition kop2 := KTransition sid Active "ready" "supervisor".
Definition kop3 := KPrepare scene_request.
Definition kop4 := KStart "act_2".
Definition kop5 := KRestart sid "process restarted".
Definition kop6 := KRecover sid.
Definition kop7 := KReconcile "act_2" Succeeded [("seen", JBool true)] "it was done" None.

Definition k0 : world kernel_db := World scene_db 0 0.
Definition k1 := Eval vm_compute in kafter kop1 k0.
Definition k2 := Eval vm_compute in kafter kop2 k1.
Definition k3 := Eval vm_compute in kafter kop3 k2.
Definition k4 := Eval vm_compute in kafter kop4 k3.
Definition k5 := Eval vm_compute in kafter kop5 k4.
Definition k6 := Eval vm_compute in kafter kop6 k5.
Definition k7 := Eval vm_compute in kafter kop7 k6.

Lemma scene_legacy : legacy scene_db.
Proof.
  split; try done; [apply NoDup_singleton|].
  intros s n Hs%list_elem_of_singleton Hn. subst s. apply exists_where_true.
  exists {| ct_subject_id := sid; ct_table_name := n; ct_row_count := 0 |}. split.
  - apply list_elem_of_fmap. by exists n.
  - by rewrite !bool_decide_true.
Qed.
Lemma kreach_op op w w' : kreachable w → wf_op op → kafter op w = w' → kreachable w'.
Proof. intros Hw Hwf <-. eapply kreachable_step; [exact Hw|]. by apply kstep_op. Qed.
Ltac kreached op H := apply (kreach_op op _ _ H); [|vm_compute; reflexivity].
Lemma reach_k0 : kreachable k0.
Proof. exists scene_db. split; [apply scene_legacy|apply rtc_refl]. Qed.
Lemma reach_k1 : kreachable k1.
Proof. kreached kop1 reach_k0. done. Qed.
Lemma reach_k2 : kreachable k2.
Proof. kreached kop2 reach_k1. done. Qed.
Lemma reach_k3 : kreachable k3.
Proof. kreached kop3 reach_k2. split; [constructor|done]. Qed.
Lemma reach_k4 : kreachable k4.
Proof. kreached kop4 reach_k3. done. Qed.
Lemma reach_k5 : kreachable k5.
Proof. kreached kop5 reach_k4. done. Qed.
Lemma wf_kop7 : wf_op kop7.
Proof. split; [apply NoDup_singleton|done]. Qed.
Lemma steps_k4_k7 : rtc kernel_step k4 k7.
Proof.
  assert (∀ op w w' w'', wf_op op → kafter op w = w' → rtc kernel_step w' w'' →
    rtc kernel_step w w'') as Hstep.
  { intros op w w' w'' Hwf <- H. eapply rtc_l; [|exact H]. by apply kstep_op. }
  apply (Hstep kop5 _ k5); [done|vm_compute; reflexivity|].
  apply (Hstep kop6 _ k6); [done|vm_compute; reflexivity|].
  apply (Hstep kop7 _ k7); [apply wf_kop7|vm_compute; reflexivity|apply rtc_refl].
Qed.
Lemma reach_k7 : kreachable k7.
Proof.
  destruct reach_k4 as (d & Hd & H). exists d. split; [done|]. etrans; [exact H|apply steps_k4_k7].
Qed.

(** ** The gate *)

#[export] Instance scene_gate : GateConfig := {|
  gate_subject_id := sid; ownership_check := Some (λ _, true); control_ownership_arg := None;
  migration_clear_check := Some (λ _, true); lease_uuid k := show_Z (Z.of_nat k) |}.

Definition scene_lease : OperationLease :=
  {| l_subject_id := sid; l_epoch := 0; l_operation_id := "0"; l_kind := "cognition";
     l_allow_quarantine := false |}.
(** The operation of thread 1, before, inside and after its commit scope. *)
Definition working (lk : rlock) (scopes : list scope) (t : nat) : runtime :=
  Runtime (World (set_active 1 (new_gate true)) t 1) lk [] [scene_lease] scopes false.
Definition scene_scope : scope := Scope 1 (Some scene_lease) false.
Definition committing : runtime := working (Some (1, 1)%nat) [scene_scope] 2.
(** The same thread quarantines the runtime from inside its scope. *)
Definition quarantined_inside : runtime :=
  Runtime (World (Gate 1 1 false true false false None false) 2 1) (Some (1, 1)%nat) []
    [scene_lease] [Scope 1 (Some scene_lease) true] false.
(** After the operation thread 2 fences the runtime for migration. *)
Definition idle (g : gate) (t : nat) : runtime := Runtime (World g t 1) None [] [] [] false.
Definition fenced_gate : gate := Gate 1 0 false false false true (Some 1) true.
Definition drained : runtime := Runtime (World fenced_gate 3 1) None [] [] [] true.

Lemma free_lock s t : rt_waiting s = [] → rt_lock s = None → may_call s t.
Proof.
  intros Ew El. split; [unfold awake; rewrite Ew; apply not_elem_of_nil|rewrite El; by eexists].
Qed.
Lemma control_step op g t g' t' :
  is_control op = true → (run_gate op (World g t 1)).2 = World g' t' 1 →
  any_step (idle g t) (idle g' t').
Proof.
  intros Hc E. exists 2%nat. pose proof (rt_control (idle g t) 2 op Hc
    (free_lock (idle g t) 2 eq_refl eq_refl)) as H.
  simpl in H. by rewrite E in H.
Qed.
Lemma committing_running : running committing.
Proof.
  exists true. apply (rtc_l _ _ (working None [] 1)).
  { exists 1%nat. by apply (rt_begin (new_runtime true) 1 "cognition" false scene_lease);
      [apply free_lock|]. }
  apply rtc_once. exists 1%nat.
  by apply (rt_enter (working None [] 1) 1 scene_lease tt); [apply not_elem_of_nil|..].
Qed.
Lemma quarantined_inside_running : running quarantined_inside.
Proof.
  destruct committing_running as [b H]. exists b. eapply rtc_r; [exact H|]. exists 1%nat.
  apply (rt_control committing 1 (Invalidate true false)); [done|].
  split; [apply not_elem_of_nil|by eexists].
Qed.
(** A scope is exempt from the guarantee once its own thread fences it. *)
Lemma own_quarantine_stales :
  ∃ sc l, sc ∈ rt_scopes quarantined_inside ∧ sc_lease sc = Some l ∧ sc_touched sc = true ∧
    current (db (rt_gate quarantined_inside)) l = false.
Proof. exists (Scope 1 (Some scene_lease) true), scene_lease. by split; [apply here|]. Qed.
Lemma drained_running : running drained.
Proof.
  destruct committing_running as [b H]. exists b. etrans; [exact H|].
  apply (rtc_l _ _ (working None [] 2)).
  { exists 1%nat. by apply (rt_leave committing 1 scene_scope [] []);
      [apply not_elem_of_nil|..|constructor]. }
  apply (rtc_l _ _ (idle (new_gate true) 2)).
  { exists 1%nat. by apply (rt_finish (working None [] 2) 1 scene_lease [] []);
      [apply free_lock|]. }
  apply (rtc_l _ _ (idle (set_control true (new_gate true)) 3));
    [by apply (control_step EnterMigrationControl)|].
  apply (rtc_l _ _ (idle fenced_gate 3)); [by apply (control_step FenceBegin)|].
  apply rtc_once. exists 2%nat.
  by apply (rt_drain (idle fenced_gate 3) 2 false); [apply free_lock|..].
Qed.

(** ** The theorems *)

(** A quarantine, and a reopened gate: the old lease stays refused. *)
Lemma fenced_lease_stays_fenced_witness :
  ∃ w1 w2 msg w', ok (run_gate (Invalidate true false)) (rt_gate committing) None w1 ∧
    run_gate (Open None) w1 = (Ok None, w2) ∧ g_accepting (db w2) = true ∧
    assert_current scene_lease w2 = (Raise (OperationInvalidated msg), w').
Proof.
  eexists _, _. edestruct (fenced_lease_stays_fenced (Invalidate true false) None scene_lease
    (rt_gate committing)) as (msg & w' & H);
    [vm_compute; discriminate|reflexivity|reflexivity|eapply rtc_once, (gate_called _ (Open None))|].
  exists msg, w'. split_and!; [reflexivity|reflexivity|reflexivity|exact H].
Defined.

Lemma drained_fence_is_quiet_witness :
  rt_drained drained = true ∧ rt_leases drained = [] ∧
  ∀ k a l w', ~ ok (begin k a) (rt_gate drained) l w'.
Proof.
  destruct (drained_fence_is_quiet drained drained_running) as [_ H].
  split; [reflexivity|]. apply H. reflexivity.
Defined.

Lemma commits_are_current_witness :
  scene_scope ∈ rt_scopes committing ∧ (∃ n, rt_lock committing = Some (1%nat, n)) ∧
  (∀ t s', runtime_step committing t s' → t = 1%nat) ∧
  l_epoch scene_lease = g_epoch (db (rt_gate committing)).
Proof.
  destruct (commits_are_current committing scene_scope scene_lease committing_running)
    as (Hn & Ht & _ & He & _); [apply here|reflexivity|reflexivity|].
  split; [apply here|]. split; [exact Hn|]. split; [exact Ht|exact He].
Defined.

(** Three events, the first of them backfilled. *)
Lemma reachable_chain_verifies_witness :
  ∃ root, verify_chain sid k7 = (Ok (3, Some root), k7).
Proof.
  eexists. rewrite (reachable_chain_verifies k7 sid reach_k7); [left; discriminate|]. reflexivity.
Defined.

(** The database before and after an event was marked as processed. *)
Lemma chain_tamper_evident_witness :
  ∃ k8 n root, k8 = kafter (KMark "evt_old" Processed sid) k7 ∧ events (db k8) ≠ events (db k7) ∧
    verify_chain sid k7 = (Ok (n, root), k7) ∧ verify_chain sid k8 = (Ok (n, root), k8) ∧
    (map event_core (events_of sid (db k7)) ≡ₚ map event_core (events_of sid (db k8))
     ∨ ∃ b1 b2 : list N, b1 ≠ b2 ∧ sha256_hexdigest b1 = sha256_hexdigest b2).
Proof.
  set (k8 := kafter (KMark "evt_old" Processed sid) k7). exists k8.
  set (r := cr_root_hash <$> last_root sid (db k7)). exists 3, r.
  assert (verify_chain sid k7 = (Ok (3, r), k7)) as Hv7 by (vm_compute; reflexivity).
  assert (verify_chain sid k8 = (Ok (3, r), k8)) as Hv8 by (vm_compute; reflexivity).
  assert (keyed (db k7)) as Hk7 by (split; apply (bool_decide_unpack _); vm_compute; exact I).
  assert (keyed (db k8)) as Hk8 by (split; apply (bool_decide_unpack _); vm_compute; exact I).
  split_and!; [reflexivity|vm_compute; discriminate|exact Hv7|exact Hv8|].
  exact (chain_tamper_evident sid k7 k7 k8 k8 3 r Hk7 Hk8 Hv7 Hv8).
Defined.

(** Booting, active, and booting again after the restart. *)
Lemma lifecycle_explained_witness :
  ∃ row, runtime_of sid (db k5) = Some row ∧ rs_version row = 2 ∧ rs_state row = Booting ∧
    trail sid (db k5) 2 Booting.
Proof.
  eexists. split_and!; [reflexivity|reflexivity|reflexivity|].
  exact (lifecycle_explained k5 sid _ reach_k5 eq_refl).
Defined.

(** One action with four revisions, one log with two. *)
Lemma reachable_actions_verify_witness : verify_actions sid k7 = (Ok (1, 4, 1, 2), k7).
Proof. rewrite (reachable_actions_verify k7 sid reach_k7). reflexivity. Defined.

(** Started in one process, reconciled in the next, never started again. *)
Lemma started_at_most_once_witness :
  ∃ a a', a ∈ actions (db k4) ∧ ac_status a = Executing ∧ a' ∈ actions (db k7) ∧
    ac_status a' = Succeeded ∧ ac_retry_count a' = 1 ∧
    is_ok (start (ac_action_id a) k7).1 = false.
Proof.
  eexists. edestruct (started_at_most_once k4 k7) as (a' & H1 & H2 & H3 & H4 & H5);
    [exact reach_k4|apply here|exact steps_k4_k7|].
  destruct H5 as [_ H5]; [eexists; reflexivity|].
  exists a'. split_and!; [apply here|reflexivity|exact H1|..|by rewrite H5];
    apply list_elem_of_singleton in H1; by subst a'.
Defined.

Lemma recovery_completes_witness :
  ∃ rs w', recover_interrupted sid k5 = (Ok rs, w') ∧ length rs = 1%nat ∧
    ∀ a, a ∈ actions (db w') → ac_subject_id a = sid → ac_status a ≠ Executing.
Proof.
  destruct (recovery_completes sid k5 scene_uuid_inj reach_k5) as (rs & w' & H1 & H2 & _ & H3).
  exists rs, w'. split_and!; [exact H1| |exact H3].
  apply (f_equal length) in H2. rewrite !length_map in H2. rewrite H2. reflexivity.
Defined.
