(* ===== verification/ModelSystem.v ===== *)
(** * The model ledger as a transition system

    The operations of [ModelLedger] as one type of commands, and what the
    rest of the program does to the same database: it owns every other
    table, appends audit records, adds subjects, and erases the content of
    calls whose private sources were deleted ([interaction/erasure.py], the
    only other writer of [model_calls]). *)

From stdpp Require Import relations.
From S2P Require Import Prelude Tables PyStr Json Digest Time KernelDb Events Actions.
From S2P Require Import PayloadCodec ModelDb ModelResources ModelLedger KernelSystem.
Local Open Scope Z_scope.

Inductive model_op :=
| MPrepare (scope : input_scope) (rq : call_request)
| MAuthorize (scope : input_scope) (call_id : string) (rq : attempt_request)
| MStart (scope : input_scope) (attempt_id : string) (key_id fingerprint : option string)
    (revision : option Z)
| MCancel (attempt_id error_code : string)
| MFinish (attempt_id : string) (status : AttemptStatus) (usage : option ModelUsage)
    (cost_microusd : option Z) (provider_request_id error_code : option string)
    (usage_estimated : bool)
| MFinishCall (call_id : string) (status : CallStatus) (response : option (list (string * json)))
    (usage_estimated : bool) (error_code : option string)
| MRecover (scope : input_scope) (subject_id : string)
| MRetry (scope : input_scope) (call_id actor reason : string)
| MReconcile (call_id : string) (outcome : CallStatus) (actor reason : string)
    (response : option (list (string * json)))
| MFailPrepared (scope : input_scope) (call_id actor reason : string)
| MCloseRetry (scope : input_scope) (call_id actor reason : string)
    (resolution_evidence : option string) (accept_duplicate_risk : bool)
| MQuarantine (scope : input_scope) (subject_id purpose : string)
| MCompress (scope : input_scope) (subject_id : string) (older_than_days limit : Z).

(** The content of a call after its erasure. *)
Definition erased_call {Dg : Digest} (r : call_row) : call_row :=
  call_set (mc_status r) (Some (canonical_json ERASED_MODEL)) (Some (content_hash ERASED_MODEL))
    (mc_usage_estimated r) (mc_error_code r) (mc_completed_at r) None r.

Section system.
Context {Dg : Digest} {Ho : Host} {De : Deflate} {En : Endpoints} {Ca : Calendar}.

Definition run_model (op : model_op) : L unit :=
  match op with
  | MPrepare sc rq => prepare_call sc rq ;; mret tt
  | MAuthorize sc c rq => authorize_attempt sc c rq ;; mret tt
  | MStart sc a k f r => start_attempt sc a k f r ;; mret tt
  | MCancel a e => cancel_unsent_attempt a e
  | MFinish a s u c p e b => finish_attempt a s u c p e b ;; mret tt
  | MFinishCall c s r b e => finish_call c s r b e ;; mret tt
  | MRecover sc s => recover_interrupted sc s ;; mret tt
  | MRetry sc c a r => prepare_unknown_retry sc c a r ;; mret tt
  | MReconcile c o a r p => reconcile_unknown c o a r p ;; mret tt
  | MFailPrepared sc c a r => reconcile_prepared_failed sc c a r ;; mret tt
  | MCloseRetry sc c a r e b => close_failed_unknown_retry sc c a r e b ;; mret tt
  | MQuarantine sc s p => quarantine_prepared_context sc s p
  | MCompress sc s o l => compress_cold_payloads sc s o l ;; mret tt
  end.

Inductive model_env (d : model_db) : model_db → Prop :=
| menv_other d' :
    model_calls d' = model_calls d → model_attempts d' = model_attempts d →
    erased_calls d' = erased_calls d →
    kaudits (base d) `prefix_of` kaudits (base d') → model_env d d'
| menv_erase call_id :
    call_id ∈ map mc_call_id (model_calls d) →
    model_env d (set_erased_calls (append_row call_id)
      (set_model_calls (update_where (λ r, mc_call_id r == call_id) erased_call) d)).
Inductive model_step (w : world model_db) : world model_db → Prop :=
| mstep_op op : model_step w (run_model op w).2
| mstep_env d t f : model_env (db w) d → model_step w (World d t f).
(** A ledger that has not been used. *)
Definition new_ledger (d : model_db) : Prop :=
  model_calls d = [] ∧ model_attempts d = [] ∧ erased_calls d = [].
Definition mreachable (w : world model_db) : Prop :=
  ∃ d t f, new_ledger d ∧ rtc model_step (World d t f) w.

Lemma mreachable_ind (P : model_db → Prop) :
  (∀ d, new_ledger d → P d) → (∀ w w', model_step w w' → P (db w) → P (db w')) →
  ∀ w, mreachable w → P (db w).
Proof.
  intros H0 HS w (d & t & f & Hd & H). apply H0 in Hd. change d with (db (World d t f)) in Hd.
  induction H as [|w1 w2 w3 H1 H2 IH]; [done|]. by eapply IH, HS.
Qed.
End system.

(** ** Statements *)

Lemma ok_within {D E A} (get : D → E) set (m : M E A) w a w' :
  ok (within get set m) w a w' ↔
  ∃ w1, ok m (World (get (db w)) (tick w) (fresh w)) a w1 ∧
        w' = World (set (db w1) (db w)) (tick w1) (fresh w1).
Proof. unfold ok, within. destruct (m _) as [r w1]. naive_solver. Qed.
Lemma ok_lconstraint b msg u w w' : ok (lconstraint b msg) w u w' ↔ b = true ∧ w = w'.
Proof. unfold lconstraint. rewrite ok_raise_if negb_false_iff. done. Qed.

(** The tables the ledger's properties are about. *)
Definition ledger_part (d : model_db) :=
  (model_calls d, model_attempts d, erased_calls d, resources d).
Definition book_part (d : model_db) := (ledger_part d, kaudits (base d)).

Lemma frame_in_base {A B} (p : model_db → B) (m : K A) :
  (∀ k d, p (set_base k d) = p d) → frame p (in_base m).
Proof. intros H w a w' (w1 & _ & ->)%ok_within. apply H. Qed.
Lemma frame_in_base_audits {A} (m : K A) :
  frame kaudits m → frame book_part (in_base m).
Proof.
  intros H w a w' (w1 & H1 & ->)%ok_within. apply H in H1. simpl in H1.
  unfold book_part. simpl. by rewrite H1.
Qed.
Lemma frame_book_ledger {A} (m : L A) : frame book_part m → frame ledger_part m.
Proof. intros H w a w' E. apply H in E. exact (f_equal fst E). Qed.

Section statements.
Context {Dg : Digest} {Ho : Host} {De : Deflate} {En : Endpoints} {Ca : Calendar}.

Lemma frame_bump_audits sid n : frame kaudits (bump_count sid n).
Proof. apply frame_bump. done. Qed.
Lemma pure_capacity s t : pure (in_base (require_evidence_capacity s t)).
Proof.
  intros w a w' (w1 & H & ->)%ok_within. apply capacity_pure in H. simpl in *.
  rewrite H. by destruct (db w).
Qed.
Lemma pure_lnew_id p : pure (lnew_id p).
Proof. unfold lnew_id. solve_pure. Qed.
Lemma pure_lutc_now : pure lutc_now.
Proof. apply pure_read_clock. Qed.
Lemma pure_lconstraint b m : pure (lconstraint b m).
Proof. apply pure_raise_if. Qed.
Lemma pure_assert_private sc : pure (assert_private_inputs_available sc).
Proof. unfold assert_private_inputs_available. solve_pure. Qed.
Lemma pure_get_call c : pure (_get_call_row c).
Proof. unfold _get_call_row. solve_pure. Qed.
Lemma pure_get_attempt a : pure (_get_attempt_row a).
Proof. unfold _get_attempt_row. solve_pure. Qed.
#[local] Hint Resolve pure_get_call pure_get_attempt pure_lnew_id pure_lutc_now
  pure_lconstraint pure_assert_private pure_capacity : noyra.
Lemma pure_load_call c : pure (_load_call_connection c).
Proof. unfold _load_call_connection. solve_pure. Qed.
Lemma pure_load_attempt a : pure (_load_attempt_connection a).
Proof. unfold _load_attempt_connection. solve_pure. Qed.
Lemma pure_from_group g : pure (_from_group_row g).
Proof. unfold _from_group_row. solve_pure. Qed.
#[local] Hint Resolve pure_from_group : noyra.
Lemma pure_read_groups gs : pure (read_groups gs).
Proof. induction gs as [|g gs IH]; simpl; solve_pure. Qed.
#[local] Hint Resolve pure_read_groups : noyra.
Lemma pure_group_limits c rq g : pure (group_limits c rq g).
Proof. unfold group_limits. solve_pure. Qed.
Lemma pure_check_lifecycle s p : pure (_check_lifecycle s p).
Proof. unfold _check_lifecycle. solve_pure. Qed.
Lemma pure_check_key c k f : pure (_check_key c k f).
Proof. unfold _check_key. solve_pure. Qed.
#[local] Hint Resolve pure_check_lifecycle pure_check_key : noyra.
Lemma pure_check_request sc c k f r : pure (_check_request sc c k f r).
Proof. unfold _check_request. solve_pure. Qed.
Lemma pure_budget_status s l d p g : pure (_budget_status_connection s l d p g).
Proof. unfold _budget_status_connection. solve_pure. Qed.
#[local] Hint Resolve pure_budget_status : noyra.
Lemma pure_check_budgets c rq d l p : pure (check_budgets c rq d l p).
Proof. unfold check_budgets. solve_pure. Qed.
Lemma pure_check_call_state c b : pure (check_call_state c b).
Proof. unfold check_call_state. solve_pure. Qed.
Lemma pure_day d : pure (day_or_today d).
Proof. unfold day_or_today. solve_pure. Qed.
Lemma pure_bind_int (z : Z) : pure (D:=model_db) (bind_int z).
Proof. apply pure_raise_if. Qed.
Lemma frame_private_sources sc s c : frame book_part (record_private_sources sc s c).
Proof.
  unfold record_private_sources. apply frame_for_each. intros i.
  unfold record_private_source, insert_private_source. solve_frame.
Qed.
End statements.
#[export] Hint Resolve pure_lnew_id pure_lutc_now pure_lconstraint pure_assert_private
  pure_get_call pure_get_attempt pure_load_call pure_load_attempt pure_from_group
  pure_read_groups pure_group_limits pure_check_lifecycle pure_check_key pure_check_request
  pure_budget_status pure_check_budgets pure_check_call_state pure_day pure_bind_int
  pure_capacity : noyra.
