(* ===== verification/ModelEffects.v ===== *)
(** * What each operation of the model ledger does to its tables

    [effect d d'] lists the changes a committed transaction of the ledger
    can make to calls, attempts and audit records; [op_effect] shows that
    every operation makes one of them or leaves no trace.  The theorems
    about runs are proved by cases on it. *)

From stdpp Require Import relations.
From S2P Require Import Prelude Tables PyStr Json Digest Time PyDict KernelDb Events Actions.
From S2P Require Import PayloadCodec ModelDb ModelResources ModelLedger KernelSystem.
From S2P Require Import ModelSystem.
Local Open Scope Z_scope.

Definition audits (d : model_db) : list kaudit_row := kaudits (base d).

Section effects.
Context {Dg : Digest} {Ho : Host} {De : Deflate} {En : Endpoints} {Ca : Calendar}.

Definition reads_call (c : call_row) : Prop := is_ok (_call_from_row c) = true.
Definition reads_attempt (a : attempt_row) : Prop := is_ok (_attempt_from_row a) = true.

(** Everything but the calls, or but the attempts, is as before. *)
Definition only_calls (d d' : model_db) : Prop :=
  model_attempts d' = model_attempts d ∧ erased_calls d' = erased_calls d ∧
  resources d' = resources d.
Definition only_attempts (d d' : model_db) : Prop :=
  model_calls d' = model_calls d ∧ erased_calls d' = erased_calls d ∧
  resources d' = resources d ∧ audits d' = audits d.

(** One more audit record, about the call. *)
Definition decided (d d' : model_db) (action : string) (c : call_row) : Prop :=
  ∃ r, audits d' = audits d ++ [r] ∧ audited action (mc_call_id c) r = true ∧
       ka_subject_id r = mc_subject_id c ∧ blank (ka_actor r) = false.

(** The columns of an attempt no statement changes. *)
Definition attempt_key (a : attempt_row) :=
  (ma_attempt_id a, ma_call_id a, ma_subject_id a, ma_budget_day a, ma_attempt_number a,
   ma_reserved_input_tokens a, ma_reserved_output_tokens a, ma_reserved_cost_microusd a,
   ma_pricing_snapshot_json a).


Inductive attempt_change (a : attempt_row) : attempt_row → Prop :=
| change_start now :
    ma_status a = Authorized → attempt_change a (attempt_started now a)
| change_cancel code now :
    active_status (ma_status a) = true →
    attempt_change a (attempt_closed AttemptCancelled code now a)
| change_finish status amounts p e now src :
    ma_status a = AttemptExecuting →
    status ∈ [AttemptSucceeded; AttemptFailed; AttemptUnknown] →
    attempt_change a (attempt_finished status amounts p e now src a).
(** A change of the status of a call, with the audit record it needs. *)
Inductive call_change (d d' : model_db) (c c' : call_row) : Prop :=
| change_finished :
    mc_status c = CallExecuting ∨ (mc_status c = CallPrepared ∧ mc_status c' = CallFailed) →
    mc_status c' ∈ [CallSucceeded; CallFailed; CallUnknown] → audits d' = audits d →
    call_change d d' c c'
| change_retried :
    mc_status c = CallUnknown → mc_status c' = CallPrepared →
    decided d d' "model_unknown_retry_authorized" c → call_change d d' c c'
| change_reconciled :
    mc_status c = CallUnknown → mc_status c' ∈ [CallSucceeded; CallFailed] →
    decided d d' "model_unknown_reconciled" c → call_change d d' c c'
| change_dropped :
    mc_status c = CallPrepared → mc_status c' = CallFailed →
    audits d `prefix_of` audits d' → call_change d d' c c'.

Definition idem_key (c : call_row) : string * string := (mc_subject_id c, mc_idempotency_key c).
(** The immutable columns of a call. *)
Definition call_key (c : call_row) :=
  (mc_call_id c, mc_subject_id c, mc_resource_pool c, mc_resource_group_id c,
   mc_idempotency_key c, mc_request_hash c, mc_provider c, mc_model c, mc_purpose c).

Definition recovered_attempts (s now : string) (t : list attempt_row) : list attempt_row :=
  update_where (λ a, (ma_subject_id a == s) && (ma_status a == AttemptExecuting))
    (attempt_closed AttemptUnknown "interrupted_during_request" now)
    (update_where (λ a, (ma_subject_id a == s) && (ma_status a == Authorized))
       (attempt_closed AttemptCancelled "interrupted_before_send" now) t).
(** Whether an attempt of the call may have reached the provider. *)
Definition uncertain (id : string) (t : list attempt_row) : bool :=
  exists_where ambiguous (select (λ a, ma_call_id a == id) t).
Definition recovered_calls (s now : string) (t : list attempt_row) (cs : list call_row)
    : list call_row :=
  map (λ c, if open_call s c then interrupted_call now (uncertain (mc_call_id c) t) c else c) cs.

(** A call with its payload columns compressed. *)
Definition packed (c : call_row) : call_row :=
  call_set (mc_status c) (compress_column (mc_response_json c)) (mc_response_hash c)
    (mc_usage_estimated c) (mc_error_code c) (mc_completed_at c)
    (compress_column (mc_request_json c)) c.

Definition counted_rows (d : model_db) (s day : string) (pool group : option string)
    : list attempt_row := select (counted s day pool group d) (model_attempts d).
(** The budget leaves room for an attempt with these reservations. *)
Definition room (d : model_db) (s day : string) (pool group : option string) (l : BudgetLimits)
    (i o c : Z) : Prop :=
  let rows := counted_rows d s day pool group in
  exceeded l (Z.of_nat (length rows) + 1, sum_by spent_input rows + i,
              sum_by spent_output rows + o, sum_by spent_cost rows + c) = None.
(** The budgets a new attempt was admitted under: those of its group if the
    group exists, and those of its pool if the caller gave any. *)
Definition admitted (d : model_db) (call : call_row) (a : attempt_row) : Prop :=
  ∃ limits pool,
    (∀ g, own_group (mc_subject_id call) (mc_resource_group_id call) (resources d) = Some g →
       rg_status g = "active" ∧
       ∃ sw, read_resource_policy (rg_group_id g) (rg_subject_id g) (resources d) = Ok sw ∧
         limits = {| daily_attempts := rg_daily_attempts g;
                     daily_input_tokens := rg_daily_input_tokens g;
                     daily_output_tokens := rg_daily_output_tokens g;
                     daily_cost_microusd := rg_daily_cost_microusd g; enabled := sw |}) ∧
    room d (mc_subject_id call) (ma_budget_day a) (Some (mc_resource_pool call))
      (mc_resource_group_id call) limits (ma_reserved_input_tokens a)
      (ma_reserved_output_tokens a) (ma_reserved_cost_microusd a) ∧
    (∀ pl, pool = Some pl →
       room d (mc_subject_id call) (ma_budget_day a) (Some (mc_resource_pool call)) None pl
         (ma_reserved_input_tokens a) (ma_reserved_output_tokens a)
         (ma_reserved_cost_microusd a)).

Inductive effect (d d' : model_db) : Prop :=
| eff_audits :
    ledger_part d' = ledger_part d → audits d `prefix_of` audits d' → effect d d'
| eff_new_call c :
    model_calls d' = append_row c (model_calls d) → only_calls d d' → audits d' = audits d →
    mc_call_id c ∉ map mc_call_id (model_calls d) →
    (∀ x, x ∈ model_calls d → idem_key x ≠ idem_key c) →
    mc_status c = CallPrepared → reads_call c → effect d d'
| eff_authorize c a :
    call_by_id (mc_call_id c) d = Some c →
    mc_status c = CallPrepared ∨ mc_status c = CallExecuting →
    model_calls d' = update_where (λ r, mc_call_id r == mc_call_id c)
      (λ r, call_moved CallExecuting None (mc_completed_at r) r) (model_calls d) →
    model_attempts d' = append_row a (model_attempts d) →
    erased_calls d' = erased_calls d → resources d' = resources d → audits d' = audits d →
    ma_call_id a = mc_call_id c → ma_subject_id a = mc_subject_id c → ma_status a = Authorized →
    ma_attempt_id a ∉ map ma_attempt_id (model_attempts d) →
    ma_attempt_number a = Z.of_nat (length (call_attempts (mc_call_id c) d)) + 1 →
    (ma_input_tokens a = None ∧ ma_output_tokens a = None ∧ ma_cost_microusd a = None) →
    reads_attempt a → admitted d c a → effect d d'
| eff_attempt a a' f :
    attempt_by_id (ma_attempt_id a) d = Some a →
    model_attempts d' = update_where (λ r, ma_attempt_id r == ma_attempt_id a) f (model_attempts d) →
    a' = f a → (∀ r, attempt_key (f r) = attempt_key r) → attempt_change a a' → only_attempts d d' →
    (reads_attempt a → reads_attempt a') → effect d d'
| eff_call c f :
    call_by_id (mc_call_id c) d = Some c →
    model_calls d' = update_where (λ r, mc_call_id r == mc_call_id c) f (model_calls d) →
    (∀ r, call_key (f r) = call_key r) → call_change d d' c (f c) → only_calls d d' →
    reads_call (f c) → erasure_kept d (f c) = true → effect d d'
| eff_recover s now :
    model_attempts d' = recovered_attempts s now (model_attempts d) →
    model_calls d' = recovered_calls s now (model_attempts d') (model_calls d) →
    erased_calls d' = erased_calls d → resources d' = resources d → audits d' = audits d →
    effect d d'
| eff_pack p :
    model_calls d' = update_where p packed (model_calls d) → only_calls d d' →
    audits d' = audits d → effect d d'.

(** ** Statements *)

Lemma ok_guarded {A} sc (m : L A) w a w' : ok (guarded sc m) w a w' → ok m w a w'.
Proof.
  unfold guarded, assert_private_inputs_available. intros H. invert_ok; done.
Qed.
Lemma ok_accounting {A} (m : L A) w a w' : ok (accounting m) w a w' → ok m w a w'.
Proof. apply ok_transaction. Qed.
End effects.

(** [invert_ok] with the statements of the ledger. *)
Ltac invert_ledger_step :=
  match goal with
  | H : ok (guarded _ _) _ _ _ |- _ => apply ok_guarded in H
  | H : ok (accounting _) _ _ _ |- _ => apply ok_accounting in H
  | H : ok (lconstraint _ _) _ _ _ |- _ => apply ok_lconstraint in H as [H ?]; subst
  | H : ok (in_base _) _ _ _ |- _ => apply ok_within in H as (? & H & ?); subst
  | H : ok (kconstraint _ _) _ _ _ |- _ => apply ok_kconstraint in H as [H ?]; subst
  | _ => invert_ok_step
  end.
Ltac invert_ledger := repeat (invert_ledger_step; simpl in * ).

Section statement_effects.
Context {Dg : Digest} {Ho : Host} {De : Deflate} {En : Endpoints} {Ca : Calendar}.

Lemma ok_update_call id f w u w' :
  ok (update_call id f) w u w' ↔
  (∀ r, r ∈ model_calls (db w) → mc_call_id r = id → erasure_kept (db w) (f r) = true) ∧
  w' = World (set_model_calls (update_where (λ r, mc_call_id r == id) f) (db w)) (tick w) (fresh w).
Proof.
  unfold update_call. split.
  - intros H. invert_ledger. split; [|done].
    match goal with H : forallb _ _ = true |- _ => rewrite -> forallb_forall in H; rename H into Hall end.
    intros r Hr E. apply Hall, list_elem_of_In, elem_of_select. by rewrite bool_decide_true.
  - intros [H ->]. apply ok_bind. exists (db w), w. split; [done|]. apply ok_bind.
    exists tt, w. destruct u. split; [|done]. apply ok_lconstraint. split; [|done].
    apply forallb_forall. intros r [Hr E%bool_decide_eq_true]%list_elem_of_In%elem_of_select.
    by apply H.
Qed.
Lemma ok_get_call id w c w' :
  ok (_get_call_row id) w c w' ↔ call_by_id id (db w) = Some c ∧ w' = w.
Proof.
  unfold _get_call_row. rewrite ok_bind. setoid_rewrite ok_gets. setoid_rewrite ok_lift.
  split; [intros (o & w1 & [<- <-] & H & <-)|intros [H ->]; exists (Some c), w].
  - by destruct (call_by_id id (db w)); simplify_eq/=.
  - done.
Qed.
Lemma ok_get_attempt id w a w' :
  ok (_get_attempt_row id) w a w' ↔ attempt_by_id id (db w) = Some a ∧ w' = w.
Proof.
  unfold _get_attempt_row. rewrite ok_bind. setoid_rewrite ok_gets. setoid_rewrite ok_lift.
  split; [intros (o & w1 & [<- <-] & H & <-)|intros [H ->]; exists (Some a), w].
  - by destruct (attempt_by_id id (db w)); simplify_eq/=.
  - done.
Qed.
Lemma call_by_id_Some id d c :
  call_by_id id d = Some c → c ∈ model_calls d ∧ mc_call_id c = id.
Proof. by intros [? ?%bool_decide_eq_true]%fetchone_Some. Qed.
Lemma attempt_by_id_Some id d a :
  attempt_by_id id d = Some a → a ∈ model_attempts d ∧ ma_attempt_id a = id.
Proof. by intros [? ?%bool_decide_eq_true]%fetchone_Some. Qed.
Lemma ok_load_call id w r w' :
  ok (_load_call_connection id) w r w' →
  ∃ c, call_by_id id (db w) = Some c ∧ _call_from_row c = Ok r ∧ w' = w.
Proof.
  unfold _load_call_connection. intros (c & w1 & [Hc ->]%ok_get_call & H)%ok_bind. invert_ok.
  eauto.
Qed.
Lemma ok_load_attempt id w r w' :
  ok (_load_attempt_connection id) w r w' →
  ∃ a, attempt_by_id id (db w) = Some a ∧ _attempt_from_row a = Ok r ∧ w' = w.
Proof.
  unfold _load_attempt_connection. intros (c & w1 & [Hc ->]%ok_get_attempt & H)%ok_bind.
  invert_ok. eauto.
Qed.

(** Looking a row up after an update that keeps the keys. *)
Lemma fetch_update {R} (k : R → string) id f t r :
  fetchone (λ x, k x == id) t = Some r → (∀ x, k (f x) = k x) →
  fetchone (λ x, k x == id) (update_where (λ x, k x == id) f t) = Some (f r).
Proof.
  intros H Hk. induction t as [|x t IH]; [done|]. unfold fetchone, update_where in *. simpl in *.
  destruct (k x == id) eqn:E.
  - simplify_eq. by rewrite Hk E.
  - rewrite E. by apply IH.
Qed.
Lemma fetch_append {R} (k : R → string) id t r :
  k r = id → id ∉ map k t → fetchone (λ x, k x == id) (append_row r t) = Some r.
Proof.
  intros <- Hn. unfold append_row. induction t as [|x t IH]; unfold fetchone in *; simpl in *.
  - by rewrite bool_decide_true.
  - apply not_elem_of_cons in Hn as [Hx Hn]. rewrite bool_decide_false; [congruence|]. by apply IH.
Qed.
Lemma fresh_key {R} (k : R → string) q t r :
  exists_where (λ x, (k x == k r) || q x) t = false → k r ∉ map k t.
Proof.
  intros H (x & E & Hx)%list_elem_of_fmap. rewrite -> exists_where_false in H.
  specialize (H x Hx). apply orb_false_iff in H as [H _]. by apply bool_decide_eq_false in H.
Qed.

Lemma ok_insert_call r w u w' :
  ok (insert_call r) w u w' →
  model_calls (db w') = append_row r (model_calls (db w)) ∧ only_calls (db w) (db w') ∧
  audits (db w') = audits (db w) ∧ (mc_call_id r ∉ map mc_call_id (model_calls (db w))) ∧
  ∀ x, x ∈ model_calls (db w) → idem_key x ≠ idem_key r.
Proof.
  unfold insert_call. intros H. invert_ledger.
  match goal with
  | Hu : negb (exists_where _ _) = true, Hb : ok (bump_count _ _) _ _ _ |- _ =>
      apply frame_bump_audits in Hb; apply negb_true_iff in Hu;
      pose proof (fresh_key _ _ _ _ Hu) as Hn; rename Hu into Hex
  end.
  split_and!; [done..|]. intros x Hx [= E1 E2]. rewrite -> exists_where_false in Hex.
  specialize (Hex x Hx). apply orb_false_iff in Hex as [_ Hex].
  by rewrite E1 E2 !bool_decide_true in Hex.
Qed.
Lemma ok_insert_attempt r w u w' :
  ok (insert_attempt r) w u w' →
  model_attempts (db w') = append_row r (model_attempts (db w)) ∧
  model_calls (db w') = model_calls (db w) ∧ erased_calls (db w') = erased_calls (db w) ∧
  resources (db w') = resources (db w) ∧ audits (db w') = audits (db w) ∧
  ma_attempt_id r ∉ map ma_attempt_id (model_attempts (db w)).
Proof.
  unfold insert_attempt, bind_int. intros H. invert_ledger.
  match goal with
  | Hu : negb (exists_where _ _) = true, Hb : ok (bump_count _ _) _ _ _ |- _ =>
      apply frame_bump_audits in Hb; apply negb_true_iff, fresh_key in Hu
  end. done.
Qed.

(** A string member of a stored object. *)
Lemma extract_member k s m :
  NoDup (map fst m) → Forall (λ kv, wf_json kv.2) m → (k, JStr s) ∈ m →
  json_extract k (canonical_json (JObj m)) = Some s.
Proof.
  intros Hd Hw Hk. unfold json_extract. rewrite loads_canonical; [by apply wf_obj|]. simpl.
  change (snd <$> fetchone (λ kv, kv.1 == k) (sort_by key_leb (map (λ kv, (kv.1, norm kv.2)) m)))
    with (dict_get k (sort_by key_leb (map (λ kv, (kv.1, norm kv.2)) m))).
  rewrite dict_get_norm //. apply dict_get_Some in Hk as ->; done.
Qed.
Lemma ok_insert_audit s action actor m now w u w' :
  ok (insert_audit s action actor (JObj m) now) w u w' →
  ledger_part (db w') = ledger_part (db w) ∧
  ∃ r, audits (db w') = audits (db w) ++ [r] ∧ ka_subject_id r = s ∧ ka_actor r = actor ∧
       ∀ id, NoDup (map fst m) → Forall (λ kv, wf_json kv.2) m → ("call_id", JStr id) ∈ m →
             audited action id r = true.
Proof.
  unfold insert_audit, lnew_id, insert_kaudit. intros H. invert_ledger.
  split; [done|]. eexists. split_and!; [done..|].
  intros id ???. unfold audited. simpl. rewrite bool_decide_true //= bool_decide_true //.
  by apply extract_member.
Qed.
End statement_effects.

(** Forgets runs that leave the tables alone. *)
Ltac drop_pure :=
  repeat match goal with
  | H : ok ?m ?w ?a ?w' |- _ =>
      let P := fresh in
      assert (P : pure m) by (eauto with noyra nocore); apply P in H; clear P
  end.

Section op_effects.
Context {Dg : Digest} {Ho : Host} {De : Deflate} {En : Endpoints} {Ca : Calendar}.

Lemma book_same d d' : book_part d' = book_part d → effect d d'.
Proof.
  intros E. apply eff_audits; [exact (f_equal fst E)|]. unfold audits.
  by rewrite -(f_equal snd E : kaudits (base d') = kaudits (base d)).
Qed.
Lemma book_parts d d' :
  book_part d' = book_part d →
  model_calls d' = model_calls d ∧ model_attempts d' = model_attempts d ∧
  erased_calls d' = erased_calls d ∧ resources d' = resources d ∧ audits d' = audits d.
Proof. unfold book_part, ledger_part, audits. by intros [= -> -> -> -> ->]. Qed.

Lemma prepare_effect sc rq w r w' :
  ok (prepare_call sc rq) w r w' → effect (db w) (db w').
Proof.
  unfold prepare_call. intros H.
  apply ok_bind in H as (u1 & w1 & [_ <-]%ok_raise_if & H).
  apply ok_bind in H as (u2 & w2 & [_ <-]%ok_raise_if & H%ok_guarded).
  apply ok_bind in H as (d & w3 & [<- <-]%ok_gets & H). simpl in H.
  destruct (captured rq _) as [text v]. destruct (fetchone _ _) as [c|] eqn:Ef.
  { invert_ok. match goal with H : ok (record_private_sources _ _ _) _ _ _ |- _ =>
      apply frame_private_sources in H; by apply book_same end. }
  apply ok_bind in H as (u4 & w4 & E4%pure_capacity & H).
  apply ok_bind in H as (id & w5 & E5%pure_lnew_id & H).
  apply ok_bind in H as (now & w6 & E6%pure_lutc_now & H).
  apply ok_bind in H as (u7 & w7 & (Hc & (Ha & He & Hr) & Hk & Hn & Hid)%ok_insert_call & H).
  apply ok_bind in H as (u8 & w8 & E8%frame_private_sources & H).
  apply book_parts in E8 as (E1 & E2 & E3 & ? & ?).
  apply ok_bind in H as (rec & w9 & (c & Hl & Hok & ->)%ok_load_call & H). invert_ok.
  rewrite E6 E5 E4 in Hc Ha He Hr Hk Hn Hid. unfold call_by_id in Hl. rewrite E1 Hc in Hl.
  eapply eff_new_call; [by rewrite E1 Hc|unfold only_calls; split_and!; congruence|congruence
    |exact Hn|exact Hid|done|].
  rewrite (fetch_append mc_call_id id _ _ _ Hn) // in Hl. simplify_eq. by rewrite /reads_call Hok.
Qed.

(** ** Authorization *)

Lemma sql_sum_Ok (f : attempt_row → Z) rows z :
  sql_sum (map f rows) = Ok z → z = sum_by f rows.
Proof. unfold sql_sum. rewrite sum_by_map. case_match; [done|]. by intros [= <-]. Qed.
Lemma ok_budget_status s l day p g w st w' :
  ok (_budget_status_connection s l day p g) w st w' →
  w' = w ∧ let rows := counted_rows (db w) s day p g in
  bs_attempts st = Z.of_nat (length rows) ∧ bs_input_tokens st = sum_by spent_input rows ∧
  bs_output_tokens st = sum_by spent_output rows ∧ bs_cost_microusd st = sum_by spent_cost rows.
Proof.
  unfold _budget_status_connection. intros H. invert_ok.
  repeat match goal with H : sql_sum _ = Ok _ |- _ => apply sql_sum_Ok in H; subst end. done.
Qed.
Lemma ok_check_budgets c rq day l pool w u w' :
  ok (check_budgets c rq day l pool) w u w' →
  w' = w ∧
  room (db w) (mc_subject_id c) day (Some (mc_resource_pool c)) (mc_resource_group_id c) l
    (aq_reserved_input_tokens rq) (aq_reserved_output_tokens rq) (aq_reserved_cost_microusd rq) ∧
  ∀ pl, pool = Some pl →
    room (db w) (mc_subject_id c) day (Some (mc_resource_pool c)) None pl
      (aq_reserved_input_tokens rq) (aq_reserved_output_tokens rq) (aq_reserved_cost_microusd rq).
Proof.
  unfold check_budgets. intros H.
  apply ok_bind in H as (st & w1 & (-> & E1 & E2 & E3 & E4)%ok_budget_status & H).
  apply ok_bind in H as (u2 & w2 & Hx & H).
  destruct (exceeded l _) eqn:Ex; [by apply ok_raise in Hx|]. apply ok_ret in Hx as [_ <-].
  rewrite /projected E1 E2 E3 E4 in Ex. destruct pool as [pl|].
  - apply ok_bind in H as (sp & w3 & (-> & F1 & F2 & F3 & F4)%ok_budget_status & H).
    apply ok_raise_if in H as [H <-]. split_and!; [done..|]. intros ? [= <-].
    rewrite /projected F1 F2 F3 F4 in H. unfold room. by destruct (exceeded pl _).
  - apply ok_ret in H as [_ <-]. by split_and!.
Qed.
Lemma ok_from_group g w r w' :
  ok (_from_group_row g) w r w' →
  db w' = db w ∧ grp_row r = g ∧
  read_resource_policy (rg_group_id g) (rg_subject_id g) (resources (db w))
  = Ok (grp_limit_enabled r).
Proof.
  intros H. split; [by apply pure_from_group in H|]. unfold _from_group_row, lutc_now in H.
  invert_ok. done.
Qed.
Lemma ok_group_limits c rq g w r w' :
  ok (group_limits c rq g) w r w' →
  db w' = db w ∧ rg_status g = "active" ∧
  ∃ sw, read_resource_policy (rg_group_id g) (rg_subject_id g) (resources (db w)) = Ok sw ∧
    r.1.1 = {| daily_attempts := rg_daily_attempts g;
               daily_input_tokens := rg_daily_input_tokens g;
               daily_output_tokens := rg_daily_output_tokens g;
               daily_cost_microusd := rg_daily_cost_microusd g; enabled := sw |}.
Proof.
  intros H. split; [by apply pure_group_limits in H|]. unfold group_limits in H.
  apply ok_bind in H as (gr & w1 & (E1 & <- & Hp)%ok_from_group & H).
  apply ok_bind in H as (u2 & w2 & [_ <-]%ok_raise_if & H).
  apply ok_bind in H as (u3 & w3 & [Hs <-]%ok_raise_if & H).
  apply ok_bind in H as (u4 & w4 & [_ <-]%ok_raise_if & H).
  apply ok_bind in H as (pool & w5 & _ & H). invert_ok.
  apply negb_false_iff, bool_decide_eq_true in Hs. split; [done|]. by eexists.
Qed.
Lemma ok_check_call_state c b w u w' :
  ok (check_call_state c b) w u w' →
  w' = w ∧ (mc_status c = CallPrepared ∨ mc_status c = CallExecuting).
Proof.
  unfold check_call_state. intros H. invert_ok; split; try done.
  - right. by apply andb_true_iff in Heqb0 as [?%bool_decide_eq_true _].
  - left. match goal with H : (_ =/= _) = false |- _ =>
      by apply negb_false_iff, bool_decide_eq_true in H end.
Qed.

Lemma authorize_effect sc id rq w r w' :
  ok (authorize_attempt sc id rq) w r w' → effect (db w) (db w').
Proof.
  unfold authorize_attempt. intros H.
  apply ok_bind in H as (u1 & w1 & [_ <-]%ok_raise_if & H).
  apply ok_bind in H as (day & w2 & E2%pure_day & H%ok_guarded).
  apply ok_bind in H as (c & w3 & [Hc ->]%ok_get_call & H).
  apply ok_bind in H as (u4 & w4 & [-> Hst]%ok_check_call_state & H).
  apply ok_bind in H as (u5 & w5 & E5%pure_check_request & H).
  apply ok_bind in H as (u6 & w6 & [_ <-]%ok_raise_if & H).
  apply ok_bind in H as (d & w7 & [<- <-]%ok_gets & H). simpl in H.
  apply ok_bind in H as (u8 & w8 & [_ <-]%ok_raise_if & H).
  apply ok_bind in H as ([[limits pool] price] & w9 & Hl & H).
  apply ok_bind in H as (u10 & w10 & [_ <-]%ok_raise_if & H).
  apply ok_bind in H as (u11 & w11 & (-> & Hroom & Hpool)%ok_check_budgets & H).
  apply ok_bind in H as (n & w12 & [<- <-]%ok_gets & H).
  apply ok_bind in H as (u13 & w13 & E13%pure_capacity & H).
  apply ok_bind in H as (aid & w14 & E14%pure_lnew_id & H).
  apply ok_bind in H as (u15 & w15 & (Ia & Ic & Ie & Ir & Ik & Hfresh)%ok_insert_attempt & H).
  apply ok_bind in H as (u16 & w16 & [_ ->]%ok_update_call & H).
  apply ok_load_attempt in H as (a & Hla & Hok & ->). cbn [db model_attempts] in *.
  assert (db w9 = db w5 ∧ ∀ g,
    own_group (mc_subject_id c) (mc_resource_group_id c) (resources (db w5)) = Some g →
    rg_status g = "active" ∧ ∃ sw,
      read_resource_policy (rg_group_id g) (rg_subject_id g) (resources (db w5)) = Ok sw ∧
      limits = {| daily_attempts := rg_daily_attempts g;
                  daily_input_tokens := rg_daily_input_tokens g;
                  daily_output_tokens := rg_daily_output_tokens g;
                  daily_cost_microusd := rg_daily_cost_microusd g; enabled := sw |})
    as [E9 Hg].
  { destruct (own_group _ _ _) as [g|] eqn:Eg.
    - apply ok_group_limits in Hl as (-> & ? & Hs). split; [done|]. intros ? [= <-]. done.
    - apply ok_ret in Hl as [_ <-]. done. }
  apply call_by_id_Some in Hc as Hin. destruct Hin as [_ <-].
  rewrite E14 E13 E9 E5 E2 in Ia, Ic, Ie, Ir, Ik, Hfresh. rewrite E9 E5 E2 in Hroom, Hpool.
  rewrite E5 E2 in Hg. rewrite E2 in Hc.
  unfold attempt_by_id in Hla. simpl in Hla. rewrite Ia in Hla.
  rewrite (fetch_append ma_attempt_id aid _ _ _ Hfresh) // in Hla. simplify_eq Hla. intros <-.
  eapply eff_authorize; simpl; eauto; [by rewrite Ic|by rewrite /reads_attempt Hok|].
  exists limits, pool. split; [exact Hg|]. split; [exact Hroom|exact Hpool].
Qed.

(** ** Attempts *)

Lemma closed_reads a st code now :
  st = AttemptCancelled ∨ (st = AttemptUnknown ∧ ma_status a = AttemptExecuting) →
  active_status (ma_status a) = true → reads_attempt a →
  reads_attempt (attempt_closed st code now a).
Proof.
  unfold reads_attempt, _attempt_from_row, attempt_closed. simpl. intros Hst Ha.
  destruct (below 0 _); [done|]. destruct (below 0 _); [done|]. destruct (below 0 _); [done|].
  destruct (negb _); [done|].
  destruct (ma_status a) eqn:E; try discriminate Ha; destruct (ma_started_at a);
    destruct (ma_completed_at a); simpl; try done;
    destruct Hst as [->|[-> ?]]; simpl; try done; repeat case_match; naive_solver.
Qed.
Lemma fetch_by_key f id d a :
  attempt_by_id id d = Some a → (∀ x, ma_attempt_id (f x) = ma_attempt_id x) →
  attempt_by_id id (set_model_attempts (update_where (λ x, ma_attempt_id x == id) f) d)
  = Some (f a).
Proof. apply (fetch_update ma_attempt_id). Qed.
Lemma cancel_effect id code w r w' :
  ok (cancel_unsent_attempt id code) w r w' → effect (db w) (db w').
Proof.
  unfold cancel_unsent_attempt. intros H%ok_accounting.
  apply ok_bind in H as (a & w1 & [Ha ->]%ok_get_attempt & H).
  apply ok_bind in H as (u2 & w2 & [Hs%negb_false_iff <-]%ok_raise_if & H).
  apply ok_bind in H as (now & w3 & E3%pure_lutc_now & ->%ok_modify). simpl.
  apply attempt_by_id_Some in Ha as Hin. destruct Hin as [_ <-].
  eapply (eff_attempt _ _ a); [done|by simpl; rewrite E3|done|done|by apply change_cancel| |].
  - unfold only_attempts. simpl. by rewrite E3.
  - apply closed_reads; [by left|done].
Qed.
Lemma start_effect sc id k f rv w r w' :
  ok (start_attempt sc id k f rv) w r w' → effect (db w) (db w').
Proof.
  unfold start_attempt. intros H%ok_guarded.
  apply ok_bind in H as (a & w1 & [Ha ->]%ok_get_attempt & H).
  apply ok_bind in H as (u2 & w2 & E2%pure_check_request & H).
  apply ok_bind in H as (d & w3 & [<- <-]%ok_gets & H).
  apply ok_bind in H as (u4 & w4 & [_ <-]%ok_raise_if & H).
  apply ok_bind in H as (u5 & w5 & [Hs%negb_false_iff <-]%ok_raise_if & H).
  apply ok_bind in H as (now & w6 & E6%pure_lutc_now & H).
  apply ok_bind in H as (u7 & w7 & ->%ok_modify & H).
  apply ok_load_attempt in H as (a' & Hl & Hok & ->). simpl in *. rewrite E6 E2 in Hl.
  rewrite (fetch_by_key _ _ _ _ Ha) // in Hl. injection Hl as <-.
  apply bool_decide_eq_true in Hs. apply attempt_by_id_Some in Ha as Hin. destruct Hin as [_ <-].
  eapply (eff_attempt _ _ a); [done|by simpl; rewrite E6 E2|done|done|by apply change_start| |].
  - unfold only_attempts. simpl. by rewrite E6 E2.
  - intros _. by rewrite /reads_attempt Hok.
Qed.
Lemma finish_effect id st u c p e b w r w' :
  ok (finish_attempt id st u c p e b) w r w' → effect (db w) (db w').
Proof.
  unfold finish_attempt. intros H.
  apply ok_bind in H as (u1 & w1 & [Hst <-]%ok_raise_if & H).
  apply ok_bind in H as (u2 & w2 & [_ <-]%ok_raise_if & H).
  apply ok_bind in H as (u3 & w3 & [_ <-]%ok_raise_if & H%ok_accounting).
  apply ok_bind in H as (a & w4 & [Ha ->]%ok_get_attempt & H).
  apply ok_bind in H as (u5 & w5 & [Hs%negb_false_iff <-]%ok_raise_if & H).
  apply ok_bind in H as (now & w6 & E6%pure_lutc_now & H). simpl in H.
  apply ok_bind in H as (u7 & w7 & Hx & H).
  assert (E7 : db w7 = db w6).
  { revert Hx. match goal with |- ok ?m _ _ _ → _ => enough (pure m) by eauto end.
    destruct u, c; solve_pure. }
  apply ok_bind in H as (u8 & w8 & ->%ok_modify & H).
  apply ok_load_attempt in H as (a' & Hl & Hok & ->). simpl in *. rewrite E7 E6 in Hl.
  rewrite (fetch_by_key _ _ _ _ Ha) // in Hl. injection Hl as <-.
  apply bool_decide_eq_true in Hs. apply attempt_by_id_Some in Ha as Hin. destruct Hin as [_ <-].
  eapply (eff_attempt _ _ a); [done|by simpl; rewrite E7 E6|done|done| | |].
  - apply change_finish; [done|]. by apply negb_false_iff, bool_decide_eq_true in Hst.
  - unfold only_attempts. simpl. by rewrite E7 E6.
  - intros _. by rewrite /reads_attempt Hok.
Qed.

(** ** Calls *)

Lemma fetch_call f id d c :
  call_by_id id d = Some c → (∀ x, mc_call_id (f x) = mc_call_id x) →
  fetchone (λ x, mc_call_id x == id) (update_where (λ x, mc_call_id x == id) f (model_calls d))
  = Some (f c).
Proof. apply (fetch_update mc_call_id). Qed.
(** One call is rewritten and read back. *)
Lemma call_effect id f c d d' c' r :
  call_by_id id d = Some c →
  (∀ x, x ∈ model_calls d → mc_call_id x = id → erasure_kept d (f x) = true) →
  model_calls d' = update_where (λ x, mc_call_id x == id) f (model_calls d) → only_calls d d' →
  (∀ x, call_key (f x) = call_key x) → call_by_id id d' = Some c' → _call_from_row c' = Ok r →
  call_change d d' c (f c) → effect d d'.
Proof.
  intros Hc Hk Hm Hrest Hkey Hl Hok Hch. unfold call_by_id in Hl. rewrite Hm in Hl.
  rewrite (fetch_call _ _ _ _ Hc) in Hl; [intros x; by injection (Hkey x)|]. injection Hl as <-.
  apply call_by_id_Some in Hc as Hin. destruct Hin as [Hin <-].
  eapply (eff_call _ _ c); eauto. by rewrite /reads_call Hok.
Qed.
Lemma ledger_parts d d' :
  ledger_part d' = ledger_part d →
  model_calls d' = model_calls d ∧ model_attempts d' = model_attempts d ∧
  erased_calls d' = erased_calls d ∧ resources d' = resources d.
Proof. unfold ledger_part. by intros [= -> -> -> ->]. Qed.

Lemma finish_call_effect id st resp b e w r w' :
  ok (finish_call id st resp b e) w r w' → effect (db w) (db w').
Proof.
  unfold finish_call. intros H.
  apply ok_bind in H as (u1 & w1 & [Hst <-]%ok_raise_if & H).
  apply ok_bind in H as (u2 & w2 & [_ <-]%ok_raise_if & H%ok_accounting).
  apply ok_bind in H as (c & w3 & [Hc ->]%ok_get_call & H).
  apply ok_bind in H as (d & w4 & [<- <-]%ok_gets & H). simpl in H.
  apply ok_bind in H as (u5 & w5 & [Hs%negb_false_iff <-]%ok_raise_if & H).
  apply ok_bind in H as (now & w6 & E6%pure_lutc_now & H).
  apply ok_bind in H as (u7 & w7 & [Hk ->]%ok_update_call & H).
  apply ok_load_call in H as (c' & Hl & Hok & ->). simpl. rewrite -> E6 in *.
  eapply call_effect; [exact Hc|exact Hk|done|done|done|exact Hl|exact Hok|].
  apply change_finished; simpl; [| |done].
  - apply orb_true_iff in Hs as [?%bool_decide_eq_true|[?%bool_decide_eq_true ?%bool_decide_eq_true]%andb_true_iff]; auto.
  - by apply negb_false_iff, bool_decide_eq_true in Hst.
Qed.
Lemma operator_actor actor reason :
  no_operator actor || blank reason = false → blank actor = false.
Proof. unfold no_operator. by intros [[? _]%orb_false_iff _]%orb_false_iff. Qed.
Lemma retry_effect sc id actor reason w r w' :
  ok (prepare_unknown_retry sc id actor reason) w r w' → effect (db w) (db w').
Proof.
  unfold prepare_unknown_retry. intros H.
  apply ok_bind in H as (u1 & w1 & [Hop%operator_actor <-]%ok_raise_if & H).
  apply ok_bind in H as (now & w2 & E2%pure_lutc_now & H%ok_guarded).
  apply ok_bind in H as (c & w3 & [Hc ->]%ok_get_call & H).
  apply ok_bind in H as (u4 & w4 & [Hs%negb_false_iff%bool_decide_eq_true <-]%ok_raise_if & H).
  apply ok_bind in H as (u5 & w5 & [Hk ->]%ok_update_call & H).
  apply ok_bind in H as (u6 & w6 & (El%ledger_parts & a & Ea & Hsub & Hact & Haud)%ok_insert_audit & H).
  apply ok_load_call in H as (c' & Hl & Hok & ->). simpl in El, Ea. rewrite -> E2 in *.
  destruct El as (El1 & El2 & El3 & El4).
  eapply call_effect; [exact Hc|exact Hk|exact El1|done|done|exact Hl|exact Hok|].
  apply change_retried; [done|done|]. exists a. split_and!; [done| |done|by rewrite Hact].
  apply call_by_id_Some in Hc as [_ ->]. apply Haud; [|repeat constructor|in_list].
  apply (bool_decide_unpack _). done.
Qed.
Lemma reconcile_effect id o actor reason resp w r w' :
  ok (reconcile_unknown id o actor reason resp) w r w' → effect (db w) (db w').
Proof.
  unfold reconcile_unknown. intros H.
  apply ok_bind in H as (u1 & w1 & [Hout%negb_false_iff%bool_decide_eq_true <-]%ok_raise_if & H).
  apply ok_bind in H as (u2 & w2 & [[Hop _]%orb_false_iff <-]%ok_raise_if & H).
  apply ok_bind in H as (u3 & w3 & [_ <-]%ok_raise_if & H).
  apply ok_bind in H as (now & w4 & E2%pure_lutc_now & H%ok_accounting).
  apply ok_bind in H as (c & w5 & [Hc ->]%ok_get_call & H).
  apply ok_bind in H as (u6 & w6 & [Hs%negb_false_iff%bool_decide_eq_true <-]%ok_raise_if & H).
  apply ok_bind in H as (d & w7 & [<- <-]%ok_gets & H). simpl in H.
  apply ok_bind in H as (u8 & w8 & [Hk ->]%ok_update_call & H).
  apply ok_bind in H as (u9 & w9 & (El%ledger_parts & a & Ea & Hsub & Hact & Haud)%ok_insert_audit & H).
  apply ok_load_call in H as (c' & Hl & Hok & ->). simpl in El, Ea. rewrite -> E2 in *.
  destruct El as (El1 & El2 & El3 & El4).
  eapply call_effect; [exact Hc|exact Hk|exact El1|done|done|exact Hl|exact Hok|].
  apply change_reconciled; [done|done|]. exists a. split_and!; [done| |done|by rewrite Hact].
  apply call_by_id_Some in Hc as [_ ->]. apply Haud; [|repeat constructor|in_list].
  apply (bool_decide_unpack _). done.
Qed.
Lemma fail_prepared_effect sc id actor reason w r w' :
  ok (reconcile_prepared_failed sc id actor reason) w r w' → effect (db w) (db w').
Proof.
  unfold reconcile_prepared_failed. intros H.
  apply ok_bind in H as (u1 & w1 & [_ <-]%ok_raise_if & H).
  apply ok_bind in H as (now & w2 & E2%pure_lutc_now & H%ok_guarded).
  apply ok_bind in H as (c & w3 & [Hc ->]%ok_get_call & H).
  apply ok_bind in H as (u4 & w4 & [Hs%negb_false_iff%bool_decide_eq_true <-]%ok_raise_if & H).
  apply ok_bind in H as (b & w5 & [_ <-]%ok_gets & H).
  apply ok_bind in H as (u6 & w6 & [Hk ->]%ok_update_call & H).
  apply ok_bind in H as (u7 & w7 & Haud & H).
  apply ok_load_call in H as (c' & Hl & Hok & ->). rewrite -> E2 in *.
  assert (El : ledger_part (db w7) = ledger_part (set_model_calls (update_where
      (λ r, mc_call_id r == id) (call_moved CallFailed (Some "operator_cancelled"%string)
        (Some now))) (db w)) ∧ audits (db w) `prefix_of` audits (db w7)).
  { destruct b; [|by apply ok_ret in Haud as [_ <-]].
    apply ok_insert_audit in Haud as (El & a & Ea & _). simpl in *. split; [done|].
    rewrite Ea. by apply prefix_app_r. }
  destruct El as [(El1 & El2 & El3 & El4)%ledger_parts Ha].
  eapply call_effect; [exact Hc|exact Hk|exact El1|done|done|exact Hl|exact Hok|].
  by apply change_dropped.
Qed.

(** ** Audit records only *)

(** [m], if it returns, at most appends audit records. *)
Definition appends {A} (m : L A) : Prop :=
  ∀ w a w', ok m w a w' →
    ledger_part (db w') = ledger_part (db w) ∧ audits (db w) `prefix_of` audits (db w').
Lemma appends_pure {A} (m : L A) : pure m → appends m.
Proof. by intros H w a w' ->%H. Qed.
Lemma appends_bind {A B} (m : L A) (k : A → L B) :
  appends m → (∀ a, appends (k a)) → appends (m ≫= k).
Proof.
  intros Hm Hk w b w'' (a & w' & [E1 P1]%Hm & [E2 P2]%Hk)%ok_bind.
  split; [congruence|by etrans].
Qed.
Lemma appends_for_each {A} (f : A → L unit) l : (∀ x, appends (f x)) → appends (for_each f l).
Proof.
  intros Hf. induction l as [|x l IH]; simpl; [by apply appends_pure, pure_ret|].
  by apply appends_bind.
Qed.
Lemma appends_audit s action actor m now : appends (insert_audit s action actor (JObj m) now).
Proof.
  intros w a w' (E & r & Er & _)%ok_insert_audit. split; [done|]. rewrite Er.
  by apply prefix_app_r.
Qed.
Lemma appends_guarded {A} sc (m : L A) : appends m → appends (guarded sc m).
Proof. intros H w a w' ?%ok_guarded. by eapply H. Qed.
Lemma appends_effect {A} (m : L A) w a w' : appends m → ok m w a w' → effect (db w) (db w').
Proof. intros H [? ?]%H. by apply eff_audits. Qed.

Ltac solve_appends :=
  repeat first
    [ apply appends_audit
    | apply appends_pure; by eauto with noyra nocore
    | apply appends_guarded
    | apply appends_bind; [|intros ?]
    | apply appends_for_each; intros ?
    | match goal with
      | |- appends (if ?b then _ else _) => destruct b
      | |- appends (match ?o with _ => _ end) => destruct o
      end ].
Lemma close_appends sc id actor reason e b :
  appends (close_failed_unknown_retry sc id actor reason e b).
Proof. unfold close_failed_unknown_retry. solve_appends. Qed.
Lemma quarantine_appends sc s p : appends (quarantine_prepared_context sc s p).
Proof. unfold quarantine_prepared_context. solve_appends. Qed.

(** ** Recovery *)

Lemma interrupted_key now b c : call_key (interrupted_call now b c) = call_key c.
Proof. by destruct b. Qed.
Lemma recover_calls_effect now rows w rs w' :
  NoDup (map mc_call_id rows) → ok (recover_calls now rows) w rs w' →
  model_calls (db w') = map (λ c, if bool_decide (mc_call_id c ∈ map mc_call_id rows)
      then interrupted_call now (uncertain (mc_call_id c) (model_attempts (db w))) c else c)
    (model_calls (db w)) ∧
  only_calls (db w) (db w') ∧ audits (db w') = audits (db w).
Proof.
  revert w w' rs. induction rows as [|row rows IH]; intros w w' rs Hd H; simpl in H.
  { apply ok_ret in H as [_ <-]. split; [|done]. symmetry. apply map_id. }
  simpl in Hd. apply NoDup_cons in Hd as [Hn Hd].
  apply ok_bind in H as (b & w1 & [Hb <-]%ok_gets & H).
  apply ok_bind in H as (u2 & w2 & [_ ->]%ok_update_call & H).
  apply ok_bind in H as (r & w3 & (c & _ & _ & ->)%ok_load_call & H).
  apply ok_bind in H as (rs' & w4 & H4 & H). apply ok_ret in H as [_ <-].
  eapply IH in H4; [|done]. destruct H4 as (E1 & (E2 & E3 & E4) & E5). simpl in *. split; [|done]. rewrite E1.
  unfold update_where. rewrite map_map. apply map_ext. intros x.
  destruct (decide (mc_call_id x = mc_call_id row)) as [Ex|Ex].
  - rewrite (bool_decide_true (mc_call_id x = _)) //.
    rewrite (bool_decide_true (mc_call_id x ∈ _)); [rewrite Ex; apply here|].
    rewrite bool_decide_false; [by destruct b; simpl; rewrite Ex|]. by rewrite Ex -Hb.
  - rewrite (bool_decide_false (mc_call_id x = _)) //.
    rewrite (bool_decide_ext (mc_call_id x ∈ _ :: _) (mc_call_id x ∈ map mc_call_id rows)) //.
    rewrite elem_of_cons. naive_solver.
Qed.
Lemma recover_effect sc s w rs w' :
  NoDup (map mc_call_id (model_calls (db w))) →
  ok (recover_interrupted sc s) w rs w' → effect (db w) (db w').
Proof.
  intros Hd. unfold recover_interrupted. intros H.
  apply ok_bind in H as (now & w1 & E1%pure_lutc_now & H%ok_guarded).
  apply ok_bind in H as (u2 & w2 & ->%ok_modify & H).
  apply ok_bind in H as (u3 & w3 & ->%ok_modify & H).
  apply ok_bind in H as (rows & w4 & [<- <-]%ok_gets & H). simpl in H. rewrite -> E1 in *.
  apply recover_calls_effect in H as (Hc & (Ha & He & Hr) & Hk); [|by apply NoDup_select].
  simpl in *. eapply (eff_recover _ _ s now); [done| |done..]. rewrite Hc Ha.
  apply map_ext_in. intros c Hin%list_elem_of_In. f_equal.
  destruct (open_call s c) eqn:Eo.
  - rewrite bool_decide_true //. apply list_elem_of_fmap_2. by apply elem_of_select.
  - rewrite bool_decide_false //. intros (c' & E & [Hc' Ho']%elem_of_select)%list_elem_of_fmap.
    rewrite (key_unique mc_call_id _ c c' Hd Hin Hc' E) in Eo. by rewrite Eo in Ho'.
Qed.

(** ** Compression *)

Lemma packed_same c :
  compress_column (mc_request_json c) = mc_request_json c →
  compress_column (mc_response_json c) = mc_response_json c → packed c = c.
Proof. unfold packed. intros -> ->. by destruct c. Qed.
Lemma compress_rows_effect rows w n w' :
  NoDup (map mc_call_id rows) → NoDup (map mc_call_id (model_calls (db w))) →
  (∀ c, c ∈ rows → c ∈ model_calls (db w)) → ok (compress_rows rows) w n w' →
  model_calls (db w')
  = update_where (λ c, bool_decide (mc_call_id c ∈ map mc_call_id rows)) packed
      (model_calls (db w)) ∧
  only_calls (db w) (db w') ∧ audits (db w') = audits (db w).
Proof.
  revert w w' n. induction rows as [|row rows IH]; intros w w' n Hd Hk Hin H; simpl in H.
  { apply ok_ret in H as [_ <-]. split; [|done]. symmetry. apply map_id. }
  simpl in Hd. apply NoDup_cons in Hd as [Hn Hd].
  assert (Hrow : ∀ x, x ∈ model_calls (db w) → mc_call_id x = mc_call_id row → x = row).
  { intros x Hx E. apply (key_unique mc_call_id (model_calls (db w))); [done..| |done].
    apply Hin, here. }
  destruct (bool_decide (compress_column (mc_request_json row) = _) && _) eqn:Et.
  - apply andb_true_iff in Et as [E1%bool_decide_eq_true E2%bool_decide_eq_true].
    apply IH in H as (Hc & Ho' & Ha); [|done..|by intros; apply Hin, there].
    split; [|done]. rewrite Hc. apply map_ext_in. intros x Hx%list_elem_of_In.
    destruct (decide (mc_call_id x = mc_call_id row)) as [Ex|Ex].
    + rewrite (Hrow x Hx Ex) bool_decide_false // bool_decide_true; [apply here|].
      by rewrite packed_same.
    + rewrite (bool_decide_ext (mc_call_id x ∈ map _ (_ :: _)) (mc_call_id x ∈ map mc_call_id rows)) //.
      rewrite elem_of_cons. naive_solver.
  - apply ok_bind in H as (u & w1 & [_ ->]%ok_update_call & H).
    apply ok_bind in H as (m & w2 & H2 & H). apply ok_ret in H as [_ <-].
    match type of H2 with ok _ (World ?d _ _) _ _ => set (d1 := d) in H2 end.
    assert (Hd1 : model_calls d1 = update_where (λ r, mc_call_id r == mc_call_id row) packed
                                     (model_calls (db w))).
    { clear Et. apply map_ext_in. intros x Hx%list_elem_of_In. case_bool_decide as Ex; [|done].
      by rewrite (Hrow x Hx Ex). }
    apply IH in H2 as (Hc & (Ha & He & Hr) & Hau); cbn [db]; [|done| |].
    + split; [|done]. rewrite Hc. cbn [db]. rewrite Hd1. unfold update_where. rewrite map_map.
      apply map_ext_in. intros x Hx%list_elem_of_In.
      destruct (decide (mc_call_id x = mc_call_id row)) as [Ex|Ex].
      * rewrite (Hrow x Hx Ex) (bool_decide_true (mc_call_id row = _)) //.
        rewrite bool_decide_false // bool_decide_true //. apply here.
      * rewrite (bool_decide_false (mc_call_id x = _)) //.
        rewrite (bool_decide_ext (mc_call_id x ∈ _ :: _) (mc_call_id x ∈ map mc_call_id rows)) //.
        rewrite elem_of_cons. naive_solver.
    + rewrite Hd1 map_update //.
    + intros c Hc. rewrite Hd1. apply elem_of_update. exists c.
      split; [by apply Hin, there|]. rewrite bool_decide_false //. intros E. apply Hn.
      rewrite -E. by apply list_elem_of_fmap_2.
Qed.
Lemma cold_batch_rows s cutoff p n d :
  NoDup (map mc_call_id (model_calls d)) →
  NoDup (map mc_call_id (cold_batch s cutoff p n d)) ∧
  ∀ c, c ∈ cold_batch s cutoff p n d → c ∈ model_calls d.
Proof.
  intros Hd. unfold cold_batch. set (l := select _ _). split.
  - rewrite -firstn_map. eapply sublist_NoDup; [|apply sublist_take].
    rewrite (sort_by_perm _ l). by apply NoDup_select.
  - intros c Hc. eapply elem_of_take in Hc as (i & Hc & _).
    apply list_elem_of_lookup_2, elem_of_sort_by, elem_of_select in Hc. apply Hc.
Qed.
Lemma compress_packs sc s o l w n w' :
  NoDup (map mc_call_id (model_calls (db w))) →
  ok (compress_cold_payloads sc s o l) w n w' →
  ∃ p, model_calls (db w') = update_where p packed (model_calls (db w)) ∧
    only_calls (db w) (db w') ∧ audits (db w') = audits (db w).
Proof.
  intros Hd. unfold compress_cold_payloads. intros H.
  apply ok_bind in H as (u1 & w1 & [_ <-]%ok_raise_if & H).
  apply ok_bind in H as (cutoff & w2 & E2 & H%ok_guarded).
  assert (E2' : db w2 = db w) by (invert_ok; done). clear E2.
  apply ok_bind in H as (d & w3 & [<- <-]%ok_gets & H). simpl in H. rewrite -> E2' in *.
  match type of H with ok (match ?o with _ => _ end) _ _ _ => destruct o as [p|] end;
    [|apply ok_ret in H as [_ <-]; exists (λ _, false); rewrite E2'; split; [|done]; symmetry; apply map_id].
  apply ok_bind in H as (m & w4 & H4 & H).
  destruct (cold_batch_rows s cutoff p (Z.to_nat (Z.max 1 (Z.min l 2000))) (db w) Hd) as [Hn Hi].
  apply compress_rows_effect in H4; [|by rewrite ?E2'..]. rewrite E2' in H4.
  destruct H4 as (Hc & Ho' & Ha).
  assert (ledger_part (db w') = ledger_part (db w4) ∧ audits (db w') = audits (db w4)) as [El Ea].
  { apply ok_bind in H as (u5 & w5 & H5 & H). apply ok_ret in H as [_ <-].
    unfold meta_delete, meta_replace in H5. invert_ok; done. }
  apply ledger_parts in El as (E1 & E3 & E4 & E5). destruct Ho' as (? & ? & ?).
  eexists. split; [by rewrite E1|]. split; [unfold only_calls; split_and!; congruence|congruence].
Qed.
Lemma compress_effect sc s o l w n w' :
  NoDup (map mc_call_id (model_calls (db w))) →
  ok (compress_cold_payloads sc s o l) w n w' → effect (db w) (db w').
Proof. intros Hd (p & ? & ? & ?)%compress_packs; [by eapply eff_pack|done]. Qed.

(** ** All operations *)

(** [m] leaves the tables alone when it raises. *)
Definition atomic {A} (m : L A) : Prop := ∀ w e w', m w = (Raise e, w') → db w' = db w.
Lemma atomic_tx {A} (m : L A) : atomic (transaction m).
Proof. intros w e w'. apply transaction_rollback. Qed.
Lemma atomic_silent {A} (m : L A) : silent m → atomic m.
Proof. intros H w e w' E. specialize (H w). by rewrite E in H. Qed.
Lemma atomic_bind {A B} (m : L A) (k : A → L B) :
  silent m → (∀ a, atomic (k a)) → atomic (m ≫= k).
Proof.
  intros Hm Hk w e w' E. unfold mbind, M_bind in E. specialize (Hm w).
  destruct (m w) as [[a|e'] w1]; simplify_eq/=; [|done]. apply Hk in E. congruence.
Qed.
Lemma atomic_ignore {A} (m : L A) : atomic m → atomic (m ;; mret tt).
Proof.
  intros Hm w e w' E. unfold mbind, M_bind in E.
  destruct (m w) as [[a|e'] w1] eqn:E1; simplify_eq/=. by eapply Hm.
Qed.
Lemma silent_day d : silent (day_or_today d).
Proof. unfold day_or_today, lutc_now. solve_silent. Qed.

Ltac solve_atomic :=
  repeat first
    [ apply atomic_tx
    | apply atomic_ignore
    | apply atomic_bind; [solve [eauto using silent_day with noyra nocore | solve_silent]|intros ?]
    | apply atomic_silent; solve [eauto with noyra nocore] ].
Lemma op_atomic op : atomic (run_model op).
Proof.
  destruct op; unfold run_model, prepare_call, authorize_attempt, start_attempt,
    cancel_unsent_attempt, finish_attempt, finish_call, recover_interrupted,
    prepare_unknown_retry, reconcile_unknown, reconcile_prepared_failed,
    close_failed_unknown_retry, quarantine_prepared_context, compress_cold_payloads,
    guarded, accounting, lutc_now; solve_atomic.
Qed.
Lemma atomic_compress sc s o l : atomic (compress_cold_payloads sc s o l).
Proof. unfold compress_cold_payloads, guarded. solve_atomic. Qed.

(** Every operation makes one of the listed changes, or none. *)
Lemma op_effect op w :
  NoDup (map mc_call_id (model_calls (db w))) → effect (db w) (db (run_model op w).2).
Proof.
  intros Hd. destruct (run_model op w) as [[u|e] w'] eqn:E; simpl.
  2:{ apply op_atomic in E as ->. by apply book_same. }
  change (ok (run_model op) w u w') in E.
  destruct op; simpl in E;
    try (apply ok_bind in E as (r & w1 & E & [_ <-]%ok_ret)).
  - by eapply prepare_effect.
  - by eapply authorize_effect.
  - by eapply start_effect.
  - by eapply cancel_effect.
  - by eapply finish_effect.
  - by eapply finish_call_effect.
  - by eapply recover_effect.
  - by eapply retry_effect.
  - by eapply reconcile_effect.
  - by eapply fail_prepared_effect.
  - eapply appends_effect; [apply close_appends|exact E].
  - eapply appends_effect; [apply quarantine_appends|exact E].
  - by eapply compress_effect.
Qed.
End op_effects.
