(* ===== verification/ModelFacts.v ===== *)
(** * What holds of every reachable model ledger

    [ledger_inv]: rows have unique keys and are readable, every attempt
    belongs to a call of its subject, the attempts of a call are numbered
    from 1, and erased content stays erased.  Proved by cases on [effect]. *)

From stdpp Require Import relations.
From S2P Require Import Prelude Tables PyStr Json Digest Time PyDict KernelDb Events Actions.
From S2P Require Import PayloadCodec ModelDb ModelResources ModelLedger KernelSystem.
From S2P Require Import ModelSystem ModelEffects.
Local Open Scope Z_scope.

(** ** Rows stay readable *)

Section rows.
Context {Dg : Digest} {Ho : Host} {De : Deflate} {En : Endpoints} {Ca : Calendar}.

(** The checks of the reader, as a proposition. *)
Definition readable (c : call_row) : Prop :=
  existsb blank [mc_provider c; mc_model c; mc_purpose c; mc_request_hash c;
                 mc_idempotency_key c] = false ∧
  in_set (mc_resource_pool c) ["economy"; "deep"] = true ∧
  (∀ v, mc_capture_policy_version c = Some v → 1 <= v) ∧
  (∃ response, call_response c = Ok response ∧ (response = None ↔ mc_response_hash c = None) ∧
     (∀ v, response = Some v → ∃ m, v = JObj m ∧ mc_response_hash c = Some (content_hash v)) ∧
     (mc_status c = CallSucceeded → response ≠ None)) ∧
  ((mc_status c = CallPrepared ∨ mc_status c = CallExecuting) ↔ mc_completed_at c = None).
Lemma eqb_iff (P Q : Prop) `{!Decision P, !Decision Q} :
  negb (Bool.eqb (bool_decide P) (bool_decide Q)) = false ↔ (P ↔ Q).
Proof. rewrite negb_false_iff Bool.eqb_true_iff. repeat case_bool_decide; naive_solver. Qed.
Lemma reads_call_iff c : reads_call c ↔ readable c.
Proof.
  unfold reads_call, readable, _call_from_row.
  destruct (existsb _ _); [naive_solver|]. destruct (in_set _ _); [|naive_solver]. simpl.
  assert (Hv : (match mc_capture_policy_version c with Some v => v <? 1 | None => false end) = false
    ↔ ∀ v, mc_capture_policy_version c = Some v → 1 <= v).
  { destruct (mc_capture_policy_version c) as [v|]; [|naive_solver]. rewrite Z.ltb_ge.
    naive_solver. }
  destruct (match mc_capture_policy_version c with _ => _ end);
    [split; [done|intros (_ & _ & H & _); apply Hv in H; done]|].
  destruct (call_response c) as [r|e]; [|naive_solver]. simpl.
  assert (Hn : negb (Bool.eqb (bool_decide (r = None)) (bool_decide (mc_response_hash c = None)))
    = false ↔ (r = None ↔ mc_response_hash c = None)) by apply eqb_iff.
  destruct (negb (Bool.eqb (bool_decide (r = None)) _));
    [split; [done|intros (_ & _ & _ & (r' & [= <-] & H & _) & _); apply Hn in H; done]|].
  assert (Hh : match r with
               | Some (JObj m) => negb (bool_decide (Some (content_hash (JObj m)) = mc_response_hash c))
               | Some _ => true
               | None => false
               end = false
    ↔ ∀ v, r = Some v → ∃ m, v = JObj m ∧ mc_response_hash c = Some (content_hash v)).
  { destruct r as [[| | | | |m]|]; try (split; [done|intros H; by destruct (H _ eq_refl) as (? & ? & _)]).
    - rewrite negb_false_iff bool_decide_eq_true. split.
      + intros H v [= <-]. eauto.
      + intros H. by destruct (H _ eq_refl) as (? & _ & ->).
    - naive_solver. }
  match goal with |- is_ok (if ?b then _ else _) = true ↔ _ => destruct b eqn:Eb end.
  { split; [done|intros (_ & _ & _ & (r' & [= <-] & _ & H & _) & _)]. apply Hh in H. congruence. }
  assert (Hs : (mc_status c == CallSucceeded) && bool_decide (r = None) = false
    ↔ (mc_status c = CallSucceeded → r ≠ None)).
  { rewrite andb_false_iff !bool_decide_eq_false. split; [naive_solver|].
    destruct (decide (mc_status c = CallSucceeded)); naive_solver. }
  destruct ((mc_status c == CallSucceeded) && bool_decide (r = None));
    [split; [done|intros (_ & _ & _ & (r' & [= <-] & _ & _ & H) & _); apply Hs in H; done]|].
  assert (Ht : negb (Bool.eqb ((mc_status c == CallPrepared) || (mc_status c == CallExecuting))
                       (bool_decide (mc_completed_at c = None))) = false
    ↔ ((mc_status c = CallPrepared ∨ mc_status c = CallExecuting) ↔ mc_completed_at c = None)).
  { rewrite -bool_decide_or. apply eqb_iff. }
  destruct (negb (Bool.eqb (_ || _) _)) eqn:Et;
    [split; [done|intros (_ & _ & _ & _ & H); apply Ht in H; done]|].
  split; [|done]. intros _. split_and!; [done..|by apply Hv| |by apply Ht].
  exists r. split_and!; [done|by apply Hn|by apply Hh|by apply Hs].
Qed.

Lemma moved_reads st e t c :
  reads_call c → st ≠ CallSucceeded → ((st = CallPrepared ∨ st = CallExecuting) ↔ t = None) →
  reads_call (call_moved st e t c).
Proof.
  rewrite !reads_call_iff. intros (H1 & H2 & H3 & (r & Hr & Hn & Hv & Hs) & Ht) Hst Hto.
  split_and!; [done..| |done]. exists r. by split_and!.
Qed.
Lemma interrupted_reads now b c : reads_call c → reads_call (interrupted_call now b c).
Proof. intros Hc. destruct b; apply moved_reads; naive_solver. Qed.
Lemma executing_reads c :
  mc_status c = CallPrepared ∨ mc_status c = CallExecuting → reads_call c →
  reads_call (call_moved CallExecuting None (mc_completed_at c) c).
Proof.
  intros Hs Hc. apply moved_reads; [done..|]. apply reads_call_iff in Hc as (_ & _ & _ & _ & Ht).
  naive_solver.
Qed.

Lemma erased_response c : call_response (erased_call c) = Ok (Some ERASED_MODEL).
Proof. reflexivity. Qed.
Lemma erased_reads c : reads_call c → reads_call (erased_call c).
Proof.
  rewrite !reads_call_iff. intros (H1 & H2 & H3 & _ & Ht). split_and!; [done..| |done].
  exists (Some ERASED_MODEL). split_and!; [apply erased_response|done| |done].
  intros v [= <-]. by eexists.
Qed.

Context (inflate_deflate : ∀ s, inflate (deflate s) = Complete s EmptyString).
Lemma packed_response c r : call_response c = Ok r → call_response (packed c) = Ok r.
Proof.
  unfold call_response, packed. simpl.
  destruct (mc_response_json c) as [[|x t]|]; [done| |done]. cbn [compress_column].
  destruct (decompress_text (Some (String x t))) as [o|] eqn:E; [|done].
  by rewrite (decompress_compress inflate_deflate _ _ E).
Qed.
Lemma packed_reads c : reads_call c → _call_from_row (packed c) = _call_from_row c.
Proof.
  intros Hc. apply reads_call_iff in Hc as (_ & _ & _ & (r & Hr & _) & _).
  unfold _call_from_row. rewrite Hr (packed_response _ _ Hr). done.
Qed.
End rows.

(** ** The invariant *)

Lemma select_kept {R} (q : R → bool) h t :
  (∀ r, q (h r) = q r) → select q (map h t) = map h (select q t).
Proof.
  intros Hq. unfold select. induction t as [|r t IH]; simpl; [done|]. rewrite Hq.
  by destruct (q r); simpl; rewrite IH.
Qed.

Section invariant.
Context {Dg : Digest} {Ho : Host} {De : Deflate} {En : Endpoints} {Ca : Calendar}.

Record ledger_inv (d : model_db) : Prop := {
  li_calls : NoDup (map mc_call_id (model_calls d));
  li_attempts : NoDup (map ma_attempt_id (model_attempts d));
  li_reads : Forall reads_call (model_calls d);
  li_attempt_reads : Forall reads_attempt (model_attempts d);
  li_owner a : a ∈ model_attempts d → ∃ c, c ∈ model_calls d ∧ mc_call_id c = ma_call_id a ∧
    mc_subject_id c = ma_subject_id a;
  li_numbers id : map ma_attempt_number (call_attempts id d)
    = map Z.of_nat (seq 1 (length (call_attempts id d)));
  li_erased c : c ∈ model_calls d → erasure_kept d c = true;
  li_idem : NoDup (map idem_key (model_calls d));
  li_receipts id : id ∈ erased_calls d → id ∈ map mc_call_id (model_calls d);
}.

(** Two tables of calls with the same keys serve the same attempts. *)
Lemma owner_map (h : call_row → call_row) (t : list call_row) (l : list attempt_row) :
  (∀ c, call_key (h c) = call_key c) →
  (∀ a, a ∈ l → ∃ c, c ∈ t ∧ mc_call_id c = ma_call_id a ∧ mc_subject_id c = ma_subject_id a) →
  ∀ a, a ∈ l → ∃ c, c ∈ map h t ∧ mc_call_id c = ma_call_id a ∧ mc_subject_id c = ma_subject_id a.
Proof.
  intros Hk Hown a (c & Hc & E1 & E2)%Hown. exists (h c).
  split; [by apply list_elem_of_fmap_2|]. specialize (Hk c). unfold call_key in Hk. simplify_eq. split; congruence.
Qed.
Lemma call_ids_map (h : call_row → call_row) t :
  (∀ c, call_key (h c) = call_key c) → map mc_call_id (map h t) = map mc_call_id t.
Proof. intros Hk. rewrite map_map. apply map_ext. intros c. specialize (Hk c). unfold call_key in Hk. by simplify_eq. Qed.

(** Only the calls change, each to a readable one under the same key. *)
Lemma inv_calls d d' h :
  ledger_inv d → model_calls d' = map h (model_calls d) → (∀ c, call_key (h c) = call_key c) →
  model_attempts d' = model_attempts d → erased_calls d' = erased_calls d →
  (∀ c, c ∈ model_calls d → reads_call (h c) ∧ erasure_kept d (h c) = true) → ledger_inv d'.
Proof.
  intros [I1 I2 I3 I4 I5 I6 I7 I9 I8] Hc Hk Ha He Hh. split; try by rewrite Ha.
  - by rewrite Hc call_ids_map.
  - rewrite Hc. apply Forall_forall. intros ? (c & -> & Hin)%list_elem_of_fmap. by apply Hh.
  - rewrite Ha Hc. by apply owner_map.
  - unfold call_attempts. by rewrite Ha.
  - rewrite Hc. intros ? (c & -> & Hin)%list_elem_of_fmap. unfold erasure_kept. rewrite He.
    by apply Hh.
  - rewrite Hc map_map. erewrite map_ext; [exact I9|]. intros c. specialize (Hk c).
    unfold call_key in Hk. unfold idem_key. congruence.
  - by rewrite He Hc call_ids_map.
Qed.
(** Only the attempts change, each to a readable one under the same key. *)
Lemma inv_attempts d d' h :
  ledger_inv d → model_attempts d' = map h (model_attempts d) →
  (∀ a, attempt_key (h a) = attempt_key a) →
  model_calls d' = model_calls d → erased_calls d' = erased_calls d →
  (∀ a, a ∈ model_attempts d → reads_attempt (h a)) → ledger_inv d'.
Proof.
  intros [I1 I2 I3 I4 I5 I6 I7 I9 I8] Ha Hk Hc He Hh.
  assert (Hid : ∀ a, ma_attempt_id (h a) = ma_attempt_id a ∧ ma_call_id (h a) = ma_call_id a ∧
    ma_subject_id (h a) = ma_subject_id a ∧ ma_attempt_number (h a) = ma_attempt_number a)
    by (intros a; by injection (Hk a)).
  split; try by rewrite Hc.
  - rewrite Ha map_map. erewrite map_ext; [exact I2|]. intros a. apply Hid.
  - rewrite Ha. apply Forall_forall. intros ? (a & -> & Hin)%list_elem_of_fmap. by apply Hh.
  - rewrite Ha Hc. intros ? (a & -> & Hin)%list_elem_of_fmap. destruct (Hid a) as (_ & -> & -> & _).
    by apply I5.
  - intros id. unfold call_attempts. rewrite Ha select_kept.
    { intros a. by destruct (Hid a) as (_ & -> & _). }
    rewrite length_map map_map. erewrite map_ext; [apply I6|]. intros a. apply Hid.
  - rewrite Hc. intros c. unfold erasure_kept. rewrite He. apply I7.
  - by rewrite He Hc.
Qed.
Lemma inv_same d d' :
  model_calls d' = model_calls d → model_attempts d' = model_attempts d →
  erased_calls d' = erased_calls d → ledger_inv d → ledger_inv d'.
Proof.
  intros Hc Ha He H. eapply (inv_calls d d' id); [done|by rewrite map_id|done..|].
  intros c Hin. destruct H as [_ _ I3 _ _ _ I7 _ _]. rewrite -> Forall_forall in I3. auto.
Qed.
(** The rows an update by key touches. *)
Lemma keyed_update {R} (k : R → string) c f t (P : R → Prop) :
  NoDup (map k t) → c ∈ t → (∀ x, x ∈ t → P x) → P (f c) →
  ∀ x, x ∈ t → P (if k x == k c then f x else x).
Proof.
  intros Hd Hc HP Hf x Hx. case_bool_decide as E; [|by apply HP].
  by rewrite (key_unique k t x c).
Qed.

Lemma inv_new_call d d' c :
  ledger_inv d → model_calls d' = append_row c (model_calls d) → only_calls d d' →
  mc_call_id c ∉ map mc_call_id (model_calls d) →
  (∀ x, x ∈ model_calls d → idem_key x ≠ idem_key c) → reads_call c → ledger_inv d'.
Proof.
  intros [I1 I2 I3 I4 I5 I6 I7 I9 I8] Hc (Ha & He & _) Hn Hid Hr. split; try by rewrite Ha.
  - rewrite Hc. by apply NoDup_map_snoc.
  - rewrite Hc. by apply Forall_append.
  - rewrite Ha Hc. intros a (c' & ? & ?)%I5. exists c'. rewrite elem_of_append. auto.
  - unfold call_attempts. by rewrite Ha.
  - rewrite Hc. intros x [Hx%I7| ->]%elem_of_append; unfold erasure_kept in *; rewrite He; [done|].
    rewrite bool_decide_false //. intros ?%I8. done.
  - rewrite Hc. apply NoDup_map_snoc; [done|]. intros (x & E & Hx)%list_elem_of_fmap. by eapply Hid.
  - rewrite He Hc map_append. intros id ?%I8. apply elem_of_app. by left.
Qed.
Lemma inv_new_attempt d d' c a :
  ledger_inv d → c ∈ model_calls d → model_attempts d' = append_row a (model_attempts d) →
  model_calls d' = model_calls d → erased_calls d' = erased_calls d →
  ma_call_id a = mc_call_id c → ma_subject_id a = mc_subject_id c →
  ma_attempt_id a ∉ map ma_attempt_id (model_attempts d) →
  ma_attempt_number a = Z.of_nat (length (call_attempts (mc_call_id c) d)) + 1 →
  reads_attempt a → ledger_inv d'.
Proof.
  intros [I1 I2 I3 I4 I5 I6 I7 I9 I8] Hin Ha Hc He Ei Es Hn Hnum Hr. split; try by rewrite Hc.
  - rewrite Ha. by apply NoDup_map_snoc.
  - rewrite Ha. by apply Forall_append.
  - rewrite Ha Hc. intros x [Hx%I5| ->]%elem_of_append; [done|]. exists c. by rewrite Ei Es.
  - intros id. unfold call_attempts. rewrite Ha select_append. case_bool_decide as Eid.
    + rewrite map_app length_app. change (select _ _) with (call_attempts id d).
      rewrite I6 Nat.add_1_r seq_S map_app /= Hnum -Eid Ei. do 2 f_equal. lia.
    + rewrite app_nil_r. apply I6.
  - rewrite Hc. intros x. unfold erasure_kept. rewrite He. apply I7.
  - by rewrite He Hc.
Qed.

Context (inflate_deflate : ∀ s, inflate (deflate s) = Complete s EmptyString).
Lemma kept_packed d c : erasure_kept d c = true → erasure_kept d (packed c) = true.
Proof.
  unfold erasure_kept. simpl. destruct (bool_decide (_ ∈ _)); [|done]. simpl.
  intros [->%bool_decide_eq_true ->%bool_decide_eq_true]%andb_true_iff. reflexivity.
Qed.
Lemma recovered_split s now t :
  recovered_attempts s now t
  = map (λ a, if (ma_subject_id a == s) && active_status (ma_status a)
              then attempt_closed (if ma_status a == Authorized then AttemptCancelled
                                   else AttemptUnknown)
                     (if ma_status a == Authorized then "interrupted_before_send"
                      else "interrupted_during_request") now a
              else a) t.
Proof.
  unfold recovered_attempts, update_where, active_status. rewrite map_map. apply map_ext.
  intros a. destruct (ma_subject_id a == s) eqn:Es; simpl; [|by rewrite Es].
  destruct (ma_status a) eqn:Ea; simpl; rewrite ?Es ?Ea //=.
Qed.
Lemma effect_inv d d' : effect d d' → ledger_inv d → ledger_inv d'.
Proof.
  intros H HI. pose proof HI as [I1 I2 I3 I4 _ _ I7 _ _]. rewrite -> Forall_forall in I3. rewrite -> Forall_forall in I4.
  destruct H as [E _|c Hc Ho' _ Hn Hid _ Hr|c a Hc Hs Hcs Has He _ _ Ei Es _ Hn Hnum _ Hr _
    |a a' f Ha Has -> Hkey _ (Hcs & He & _) Hr|c f Hc Hcs Hk _ (Has & He & _) Hr Hke
    |s now Has Hcs He _ _|p Hcs (Has & He & _) _].
  - apply ledger_parts in E as (? & ? & ? & _). by eapply inv_same.
  - by eapply inv_new_call.
  - apply call_by_id_Some in Hc as [Hin _].
    set (d1 := set_model_calls (λ _, model_calls d') d).
    assert (H1 : ledger_inv d1).
    { eapply (inv_calls d d1); [done|exact Hcs|by intros x; cbn beta; case_bool_decide|done..|].
      apply (keyed_update mc_call_id c _ _ (λ x, reads_call x ∧ erasure_kept d x = true)); auto.
      split; [by apply executing_reads; auto|]. by apply (I7 c). }
    eapply (inv_new_attempt d1 d' (call_moved CallExecuting None (mc_completed_at c) c) a); try done.
    simpl. rewrite Hcs. apply elem_of_update. exists c. by rewrite bool_decide_true.
  - apply attempt_by_id_Some in Ha as [Hin _]. eapply (inv_attempts d d'); [done|exact Has| |done..|].
    + intros x. cbn beta. case_bool_decide; [apply Hkey|done].
    + by apply (keyed_update ma_attempt_id a); auto.
  - apply call_by_id_Some in Hc as [Hin _]. eapply (inv_calls d d'); [done|exact Hcs| |done..|].
    + intros x. cbn beta. case_bool_decide; [apply Hk|done].
    + apply (keyed_update mc_call_id c _ _ (λ x, reads_call x ∧ erasure_kept d x = true)); auto.
  - set (d1 := set_model_attempts (λ _, model_attempts d') d).
    assert (H1 : ledger_inv d1).
    { rewrite recovered_split in Has. eapply (inv_attempts d d1); [done|exact Has| |done..|].
      - intros a. cbn beta. by destruct (_ && _).
      - intros a Hin. cbn beta. destruct (_ && _) eqn:Ea; [|by apply I4].
        apply andb_true_iff in Ea as [_ Ea]. apply closed_reads; [|done|by apply I4].
        destruct (ma_status a); naive_solver. }
    eapply (inv_calls d1 d'); [done|exact Hcs| |done..|].
    + intros x. cbn beta. destruct (open_call s x); [apply interrupted_key|done].
    + intros x Hx. cbn beta. destruct (open_call s x); [|exact (conj (I3 x Hx) (I7 x Hx))]. split; [by apply interrupted_reads; auto|].
      specialize (I7 x Hx). by destruct (uncertain _ _).
  - eapply (inv_calls d d'); [done|exact Hcs|by intros x; cbn beta; destruct (p x)|done..|].
    intros x Hx. cbn beta. destruct (p x); [|exact (conj (I3 x Hx) (I7 x Hx))]. split; [|by apply kept_packed, I7].
    unfold reads_call. rewrite (packed_reads inflate_deflate x (I3 x Hx)). exact (I3 x Hx).
Qed.

Lemma erase_inv d id :
  id ∈ map mc_call_id (model_calls d) → ledger_inv d →
  ledger_inv (set_erased_calls (append_row id)
    (set_model_calls (update_where (λ r, mc_call_id r == id) erased_call) d)).
Proof.
  intros Hid [I1 I2 I3 I4 I5 I6 I7 I8]. split; simpl; try done.
  - by rewrite map_update.
  - apply Forall_update; [done|]. intros r _ _. apply erased_reads.
  - apply owner_map; [|done]. intros c. by case_bool_decide.
  - intros c (c0 & Hc0 & ->)%elem_of_update. specialize (I7 c0 Hc0). unfold erasure_kept in *. simpl.
    destruct (decide (mc_call_id c0 = id)) as [E|E].
    { rewrite (bool_decide_true (mc_call_id c0 = id)) //=. apply orb_true_r. }
    rewrite (bool_decide_false (mc_call_id c0 = id)) //=.
    destruct (bool_decide (mc_call_id c0 ∈ append_row id (erased_calls d))) eqn:Em; [|done].
    apply bool_decide_eq_true, elem_of_append in Em as [Em|?]; [|done].
    by rewrite (bool_decide_true _ Em) in I7.
  - by rewrite map_update.
  - intros x Hx. rewrite map_update //. apply elem_of_append in Hx as [Hx| ->]; auto.
Qed.
Lemma step_inv w w' : model_step w w' → ledger_inv (db w) → ledger_inv (db w').
Proof.
  intros [op|d t f [d' Hc Ha He _|id Hid]] HI; simpl.
  - eapply effect_inv; [|done]. apply op_effect, HI.
  - by eapply inv_same.
  - by apply erase_inv.
Qed.
Lemma new_inv d : new_ledger d → ledger_inv d.
Proof.
  intros (Hc & Ha & He). split; unfold call_attempts; rewrite ?Hc ?Ha ?He; try constructor;
    try (intros ? []%not_elem_of_nil); done.
Qed.
Lemma reachable_inv w : mreachable w → ledger_inv (db w).
Proof. apply mreachable_ind; [apply new_inv|apply step_inv]. Qed.
End invariant.
