(* ===== verification/ModelBudget.v ===== *)
(** * Daily budgets

    A budget counts the attempts of one subject, day, pool and group that
    were not cancelled, each with what it used or, until that is known, with
    what it reserved.  [budget_held]: while the limits of a group stay as
    they are, no sequence of operations takes it over an enforced limit,
    except by what providers reported beyond the reservation. *)

From stdpp Require Import relations.
From S2P Require Import Prelude Tables PyStr Json Digest Time PyDict KernelDb Events Actions.
From S2P Require Import PayloadCodec ModelDb ModelResources ModelLedger KernelSystem.
From S2P Require Import ModelSystem ModelEffects ModelFacts.
Local Open Scope Z_scope.

Lemma sum_select {R} (g : R → Z) p t :
  sum_by g (select p t) = sum_by (λ r, if p r then g r else 0) t.
Proof.
  unfold sum_by, select. induction t as [|r t IH]; simpl; [done|].
  destruct (p r); simpl; lia.
Qed.
Lemma sum_le {R} (g h : R → Z) t : (∀ r, r ∈ t → g r <= h r) → sum_by g t <= sum_by h t.
Proof.
  unfold sum_by. induction t as [|r t IH]; intros H; simpl; [done|].
  pose proof (H r (here _ _)). specialize (IH ltac:(intros; by apply H, there)). lia.
Qed.

(** The four dimensions. *)
Inductive dimension := DAttempts | DInput | DOutput | DCost.
Definition dim_enabled (x : dimension) (s : switches) : bool :=
  match x with
  | DAttempts => sw_attempts s | DInput => sw_input_tokens s
  | DOutput => sw_output_tokens s | DCost => sw_cost s
  end.
Definition dim_limit (x : dimension) (l : BudgetLimits) : Z :=
  match x with
  | DAttempts => daily_attempts l | DInput => daily_input_tokens l
  | DOutput => daily_output_tokens l | DCost => daily_cost_microusd l
  end.
Definition spent (x : dimension) (a : attempt_row) : Z :=
  match x with
  | DAttempts => 1 | DInput => spent_input a | DOutput => spent_output a | DCost => spent_cost a
  end.
Definition reserved (x : dimension) (a : attempt_row) : Z :=
  match x with
  | DAttempts => 1 | DInput => ma_reserved_input_tokens a
  | DOutput => ma_reserved_output_tokens a | DCost => ma_reserved_cost_microusd a
  end.
(** What an attempt reported beyond its reservation. *)
Definition overrun (x : dimension) (a : attempt_row) : Z := Z.max 0 (spent x a - reserved x a).

Section budget.
Context {Dg : Digest} {Ho : Host} {De : Deflate} {En : Endpoints} {Ca : Calendar}.

Definition used (x : dimension) (d : model_db) (s day : string) (pool group : option string) : Z :=
  sum_by (spent x) (counted_rows d s day pool group).
Definition overspent (x : dimension) (d : model_db) (s day : string)
    (pool group : option string) : Z := sum_by (overrun x) (counted_rows d s day pool group).

(** The limits the stored group and its policy impose. *)
Definition imposes (d : model_db) (s gid : string) (l : BudgetLimits) : Prop :=
  ∃ g sw, own_group s (Some gid) (resources d) = Some g ∧
    read_resource_policy (rg_group_id g) (rg_subject_id g) (resources d) = Ok sw ∧
    l = {| daily_attempts := rg_daily_attempts g;
           daily_input_tokens := rg_daily_input_tokens g;
           daily_output_tokens := rg_daily_output_tokens g;
           daily_cost_microusd := rg_daily_cost_microusd g; enabled := sw |}.
Definition held (d : model_db) (s day pool gid : string) (l : BudgetLimits) : Prop :=
  ∀ x, dim_enabled x (enabled l) = true →
    used x d s day (Some pool) (Some gid)
    <= dim_limit x l + overspent x d s day (Some pool) (Some gid).

(** ** What an attempt is charged with *)

Definition charge (x : dimension) (a : attempt_row) : Z := Z.min (spent x a) (reserved x a).
Definition charged (x : dimension) (d : model_db) (s day : string) (pool group : option string)
    (a : attempt_row) : Z := if counted s day pool group d a then charge x a else 0.
Lemma held_iff d s day pool gid l :
  held d s day pool gid l ↔
  ∀ x, dim_enabled x (enabled l) = true →
    sum_by (charged x d s day (Some pool) (Some gid)) (model_attempts d) <= dim_limit x l.
Proof.
  unfold held, used, overspent, counted_rows, charged. apply forall_proper. intros x.
  rewrite !sum_select.
  assert (E : sum_by (λ a, if counted s day (Some pool) (Some gid) d a then spent x a else 0)
                (model_attempts d)
    = sum_by (λ a, if counted s day (Some pool) (Some gid) d a then charge x a else 0)
        (model_attempts d)
      + sum_by (λ a, if counted s day (Some pool) (Some gid) d a then overrun x a else 0)
          (model_attempts d)).
  { rewrite -sum_by_plus. apply sum_by_ext. intros a _. unfold charge, overrun.
    destruct (counted _ _ _ _ _ a); lia. }
  rewrite E. naive_solver lia.
Qed.
(** Readable attempts hold no negative amounts. *)
Lemma reads_nonneg x a : reads_attempt a → 0 <= spent x a ∧ 0 <= reserved x a.
Proof.
  unfold reads_attempt, _attempt_from_row. cbv zeta.
  repeat match goal with
  | |- is_ok (if ?b then _ else _) = true → _ => destruct b eqn:?; [done|]
  end. intros _.
  unfold spent, reserved, spent_input, spent_output, spent_cost, below in *.
  destruct x, (ma_input_tokens a), (ma_output_tokens a), (ma_cost_microusd a); simpl; lia.
Qed.
(** Until an attempt is finished it counts with its reservation. *)
Lemma reads_active x a :
  reads_attempt a → active_status (ma_status a) = true → spent x a = reserved x a.
Proof.
  unfold reads_attempt, _attempt_from_row.
  destruct (below 0 _); [done|]. destruct (below 0 _); [done|]. destruct (below 0 _); [done|].
  destruct (negb _); [done|]. intros H Ha.
  destruct (ma_status a); try discriminate Ha; simpl in H;
    unfold spent, reserved, spent_input, spent_output, spent_cost;
    destruct (ma_input_tokens a), (ma_output_tokens a), (ma_cost_microusd a); simpl in H;
    rewrite ?orb_true_r in H; try done; by destruct x.
Qed.

(** ** What the operations change *)

Lemma call_key_parts c c' :
  call_key c = call_key c' →
  mc_call_id c = mc_call_id c' ∧ mc_subject_id c = mc_subject_id c' ∧
  mc_resource_pool c = mc_resource_pool c' ∧ mc_resource_group_id c = mc_resource_group_id c'.
Proof. unfold call_key. intros H. by simplify_eq. Qed.
(** The call an attempt belongs to decides which budgets count it. *)
Lemma counted_calls d d' h s day p g a :
  model_calls d' = map h (model_calls d) → (∀ c, call_key (h c) = call_key c) →
  counted s day p g d' a = counted s day p g d a.
Proof.
  intros Hc Hk. unfold counted. f_equal. rewrite Hc. clear Hc. unfold exists_where.
  induction (model_calls d) as [|c t IH]; simpl; [done|]. rewrite IH. f_equal.
  destruct (call_key_parts _ _ (Hk c)) as (-> & _ & -> & ->). done.
Qed.
Lemma charged_calls x d d' h s day p g :
  model_calls d' = map h (model_calls d) → (∀ c, call_key (h c) = call_key c) →
  model_attempts d' = model_attempts d →
  sum_by (charged x d' s day p g) (model_attempts d')
  = sum_by (charged x d s day p g) (model_attempts d).
Proof.
  intros Hc Hk ->. apply sum_by_ext. intros a _. unfold charged. by rewrite (counted_calls d d' h).
Qed.
(** An attempt that is started, cancelled, finished or recovered is charged
    with no more than before. *)
Lemma closed_charge x d s day p g st code now a :
  st = AttemptCancelled ∨ st = AttemptUnknown → active_status (ma_status a) = true →
  reads_attempt a →
  charged x d s day p g (attempt_closed st code now a) <= charged x d s day p g a.
Proof.
  intros Hst Ha Hr. unfold charged, counted. simpl. destruct (reads_nonneg x a Hr).
  pose proof (reads_active x a Hr Ha) as E.
  assert (Ec : charge x (attempt_closed st code now a) = charge x a) by by destruct x.
  assert (Hact : (ma_status a =/= AttemptCancelled) = true) by by destruct (ma_status a).
  rewrite Ec Hact. unfold charge. destruct Hst as [->| ->]; simpl.
  - change (AttemptCancelled =/= AttemptCancelled) with false. rewrite andb_false_r /=.
    destruct (_ && _); lia.
  - by rewrite !andb_true_r.
Qed.
Lemma change_charge x d s day p g a a' :
  attempt_change a a' → reads_attempt a →
  charged x d s day p g a' <= charged x d s day p g a.
Proof.
  intros Hch Hr. destruct Hch as [now Hs|code now Hs|st am pr e now src Hs Hst].
  - unfold charged, counted. simpl. rewrite Hs. simpl.
    assert (charge x (attempt_started now a) = charge x a) as -> by by destruct x. done.
  - by apply closed_charge; [left|..].
  - assert (Ha : active_status (ma_status a) = true) by by rewrite Hs.
    pose proof (reads_active x a Hr Ha) as E. unfold charged, counted. simpl. rewrite Hs. simpl.
    assert ((st =/= AttemptCancelled) = true) as ->.
    { apply negb_true_iff, bool_decide_eq_false. intros ->. by case_in Hst. }
    destruct (_ && _ && _ && _); [|done]. unfold charge.
    assert (reserved x (attempt_finished st am pr e now src a) = reserved x a) as -> by by destruct x.
    lia.
Qed.
Lemma charged_attempts x d d' h s day p g :
  model_attempts d' = map h (model_attempts d) → model_calls d' = model_calls d →
  (∀ a, a ∈ model_attempts d → charged x d s day p g (h a) <= charged x d s day p g a) →
  sum_by (charged x d' s day p g) (model_attempts d')
  <= sum_by (charged x d s day p g) (model_attempts d).
Proof.
  intros -> Hc H. rewrite sum_by_map. apply sum_le. intros a Ha. etrans; [|by apply H].
  unfold charged, counted. by rewrite Hc.
Qed.

Lemma exceeded_None l a i o c :
  exceeded l (a, i, o, c) = None →
  ∀ x, dim_enabled x (enabled l) = true →
    match x with DAttempts => a | DInput => i | DOutput => o | DCost => c end <= dim_limit x l.
Proof.
  unfold exceeded. intros H x Hx.
  destruct (_ && _) eqn:E1; [done|]. destruct (_ && (_ <? i)) eqn:E2; [done|].
  destruct (_ && (_ <? o)) eqn:E3; [done|]. destruct (_ && (_ <? c)) eqn:E4; [done|].
  destruct x; simpl in *; rewrite Hx /= in E1 E2 E3 E4; lia.
Qed.
(** Room for an attempt, dimension by dimension. *)
Lemma room_used d s day p g l a x :
  room d s day p g l (ma_reserved_input_tokens a) (ma_reserved_output_tokens a)
    (ma_reserved_cost_microusd a) →
  dim_enabled x (enabled l) = true → used x d s day p g + reserved x a <= dim_limit x l.
Proof.
  intros H Hx. apply (exceeded_None _ _ _ _ _ H) in Hx. unfold used.
  destruct x.
  - change (spent DAttempts) with (λ _ : attempt_row, 1). rewrite sum_by_const. simpl in *. lia.
  - change (spent DInput) with spent_input. simpl in *. lia.
  - change (spent DOutput) with spent_output. simpl in *. lia.
  - change (spent DCost) with spent_cost. simpl in *. lia.
Qed.
Lemma used_charged x d s day p g :
  Forall reads_attempt (model_attempts d) →
  sum_by (charged x d s day p g) (model_attempts d) <= used x d s day p g.
Proof.
  intros Hr. unfold used, counted_rows. rewrite sum_select. apply sum_le. intros a Ha.
  unfold charged, charge. destruct (counted _ _ _ _ _ _); lia.
Qed.

(** A new attempt that a budget counts was admitted under it. *)
Lemma admitted_charge d c a s day pool gid l x :
  ledger_inv d → c ∈ model_calls d → ma_call_id a = mc_call_id c →
  ma_subject_id a = mc_subject_id c → ma_status a = Authorized → reads_attempt a →
  admitted d c a → imposes d s gid l → dim_enabled x (enabled l) = true →
  counted s day (Some pool) (Some gid) d a = true →
  sum_by (charged x d s day (Some pool) (Some gid)) (model_attempts d) + charge x a
  <= dim_limit x l.
Proof.
  intros [I1 _ _ I4 _ _ _ _ _] Hin Ei Es Hst Hr Hadm (g & sw & Hg & Hsw & El) Hx Ec.
  assert (charge x a = reserved x a) as ->.
  { unfold charge. rewrite (reads_active x a Hr); [by rewrite Hst|]. lia. }
  unfold counted in Ec.
  rewrite -> !andb_true_iff, !bool_decide_eq_true in Ec. destruct Ec as [[[Esub Eday] _] Hex].
  apply exists_where_true in Hex as (c' & Hin' & Hex).
  rewrite -> !andb_true_iff, bool_decide_eq_true in Hex. destruct Hex as [[Eid Hp] Hgr].
  assert (c' = c) as -> by (eapply (key_unique mc_call_id (model_calls d)); [done..|congruence]).
  simpl in Hp, Hgr. apply bool_decide_eq_true in Hp, Hgr. injection Hp as Hp.
  destruct Hadm as (lim & pl & Hlim & Hroom & _).
  rewrite -Es Esub Hgr in Hlim Hroom. rewrite Eday Hp in Hroom.
  destruct (Hlim g Hg) as (_ & sw' & Hsw' & ->). rewrite Hsw in Hsw'. injection Hsw' as <-.
  rewrite -El in Hroom. pose proof (room_used _ _ _ _ _ _ _ _ Hroom Hx).
  pose proof (used_charged x d s day (Some pool) (Some gid) I4). lia.
Qed.
Lemma effect_held d d' s day pool gid l :
  effect d d' → ledger_inv d → imposes d s gid l → held d s day pool gid l →
  held d' s day pool gid l.
Proof.
  intros H HI Himp Hh. apply held_iff. rewrite -> held_iff in Hh.
  intros x Hx. specialize (Hh x Hx). pose proof HI as [I1 I2 _ I4 I5 _ _ _ _].
  rewrite -> Forall_forall in I4.
  destruct H as [E _|c Hc (Ha & _) _ Hn _ _ _|c a Hc Hs Hcs Has _ _ _ Ei Es Hst Hn Hnum Hu Hr Hadm
    |a a' f Ha Has -> Hkey Hch (Hcs & _) _|c f Hc Hcs Hk _ (Has & _) _ _
    |r now Has Hcs _ _ _|p Hcs (Has & _) _].
  - apply ledger_parts in E as (E1 & E2 & _).
    rewrite (charged_calls x d d' (λ c, c)); [by rewrite map_id|done..].
  - rewrite Ha. etrans; [|exact Hh]. apply Z.eq_le_incl, sum_by_ext. intros a Hin.
    unfold charged, counted. rewrite Hc. unfold exists_where, append_row.
    rewrite existsb_app /= orb_false_r.
    rewrite (bool_decide_false (mc_call_id c = ma_call_id a)) ?orb_false_r //.
    intros E. destruct (I5 a Hin) as (c' & Hc' & E' & _). apply Hn. rewrite E -E'.
    by apply list_elem_of_fmap_2.
  - assert (Hk : ∀ c', call_key (if mc_call_id c' == mc_call_id c
        then call_moved CallExecuting None (mc_completed_at c') c' else c') = call_key c')
      by (intros c'; by case_bool_decide).
    rewrite Has sum_by_append.
    assert (Ech : ∀ b, charged x d' s day (Some pool) (Some gid) b
                       = charged x d s day (Some pool) (Some gid) b).
    { intros b. unfold charged. by rewrite (counted_calls d d' _ s day _ _ b Hcs Hk). }
    rewrite (sum_by_ext _ _ _ (λ b _, Ech b)) Ech. unfold charged at 2.
    destruct (counted s day (Some pool) (Some gid) d a) eqn:Ec; [|lia].
    apply call_by_id_Some in Hc as [Hin _]. by eapply admitted_charge.
  - apply attempt_by_id_Some in Ha as [Hin _]. etrans; [|exact Hh].
    eapply charged_attempts; [exact Has|done|]. intros b Hb. cbn beta. case_bool_decide as E; [|done].
    rewrite (key_unique ma_attempt_id _ b a I2 Hb Hin E). by apply change_charge; auto.
  - rewrite (charged_calls x d d' _ s day _ _ Hcs); [|done|done]. intros c'. cbn beta.
    case_bool_decide; [apply Hk|done].
  - set (d1 := set_model_attempts (λ _, model_attempts d') d).
    assert (H1 : sum_by (charged x d1 s day (Some pool) (Some gid)) (model_attempts d1)
                 <= sum_by (charged x d s day (Some pool) (Some gid)) (model_attempts d)).
    { rewrite recovered_split in Has. eapply charged_attempts; [exact Has|done|].
      intros b Hb. cbn beta. destruct (_ && _) eqn:Eb; [|done].
      apply andb_true_iff in Eb as [_ Eb]. apply closed_charge; [|done|by auto].
      destruct (ma_status b); naive_solver. }
    rewrite (charged_calls x d1 d' _ s day _ _ Hcs); [|done|lia]. intros c'. cbn beta.
    destruct (open_call r c'); [apply interrupted_key|done].
  - rewrite (charged_calls x d d' _ s day _ _ Hcs); [|done|done]. intros c'. cbn beta.
    by destruct (p c').
Qed.

(** ** Runs *)

Lemma held_calls d d' h s day pool gid l :
  model_calls d' = map h (model_calls d) → (∀ c, call_key (h c) = call_key c) →
  model_attempts d' = model_attempts d → held d s day pool gid l → held d' s day pool gid l.
Proof.
  intros Hc Hk Ha. rewrite !held_iff. intros H x Hx. rewrite (charged_calls x d d' h); auto.
Qed.
(** A step that leaves the limits of the group as they are. *)
Definition budget_step (s gid : string) (l : BudgetLimits) (w w' : world model_db) : Prop :=
  model_step w w' ∧ imposes (db w') s gid l.

(** C14: The daily budget of a resource group is a hard limit.  Let the stored
    group and its policy impose the limits [l], and let them stay so, and let
    the budget hold at the start; the budget counts the attempts for the calls of the group in one pool.  Then
    whatever calls are prepared, authorized, started, finished, cancelled,
    retried, recovered or erased, in whatever order, and whatever other
    components do to the database: the attempts of a day that were not
    cancelled never outnumber an enforced limit, and the tokens and the cost
    counted for them exceed an enforced limit by no more than the providers
    reported beyond what the attempts had reserved. *)
Theorem budget_held s day pool gid l w w' :
  (∀ t, inflate (deflate t) = Complete t EmptyString) →
  mreachable w → imposes (db w) s gid l → held (db w) s day pool gid l →
  rtc (budget_step s gid l) w w' →
  held (db w') s day pool gid l ∧
  (sw_attempts (enabled l) = true →
   Z.of_nat (length (counted_rows (db w') s day (Some pool) (Some gid))) <= daily_attempts l).
Proof.
  intros Hz Hw Hi Hh Hr. apply (reachable_inv Hz) in Hw.
  assert (held (db w') s day pool gid l) as Hh'.
  { induction Hr as [w|w1 w2 w3 [Hs Hi2] _ IH]; [done|].
    apply IH; [by eapply step_inv|done|]. clear IH.
    destruct Hs as [op|d t f [d' Hc Ha He _|id Hid]]; simpl.
    - eapply effect_held; [apply op_effect, Hw|done..].
    - eapply (held_calls _ _ (λ c, c)); [by rewrite map_id|done..].
    - eapply held_calls; [done| |done..]. intros c. cbn beta. by case_bool_decide. }
  split; [done|]. intros Hx. specialize (Hh' DAttempts Hx). unfold used, overspent in Hh'.
  change (spent DAttempts) with (λ _ : attempt_row, 1) in Hh'.
  change (overrun DAttempts) with (λ _ : attempt_row, 0) in Hh'.
  rewrite !sum_by_const in Hh'. simpl in Hh'. lia.
Qed.
End budget.
