(* ===== verification/ModelRuns.v ===== *)
(** * Runs of the model ledger

    History, operator decisions, readability, recovery, idempotency and
    compression, for every reachable ledger and every run from it. *)

From stdpp Require Import relations.
From S2P Require Import Prelude Tables PyStr Json Digest Time Sorting PyDict KernelDb Events.
From S2P Require Import Actions PayloadCodec ModelDb ModelResources ModelLedger KernelSystem.
From S2P Require Import ModelSystem ModelEffects ModelFacts.
Local Open Scope Z_scope.

Section runs.
Context {Dg : Digest} {Ho : Host} {De : Deflate} {En : Endpoints} {Ca : Calendar}.

(** ** One step *)

(** What may happen to a call: nothing to its status; anything while it is
    open; and a decision of an operator about an unknown one. *)
Inductive call_move (d d' : model_db) (c c' : call_row) : Prop :=
| move_same : mc_status c' = mc_status c → call_move d d' c c'
| move_open : mc_status c = CallPrepared ∨ mc_status c = CallExecuting → call_move d d' c c'
| move_decided action :
    mc_status c = CallUnknown →
    action ∈ ["model_unknown_retry_authorized"; "model_unknown_reconciled"] →
    decided d d' action c → call_move d d' c c'.
Lemma effect_call d d' c :
  effect d d' → ledger_inv d → c ∈ model_calls d →
  ∃ c', c' ∈ model_calls d' ∧ call_key c' = call_key c ∧ call_move d d' c c'.
Proof.
  intros H HI Hin. pose proof HI as [I1 _ _ _ _ _ _ _ _].
  destruct H as [E _|x Hc _ _ _ _ _ _|x a Hx Hs Hcs _ _ _ _ _ _ _ _ _ _ _ _
    |a a' f _ _ _ _ _ (Hcs & _) _|x f Hx Hcs Hk Hch _ _ _|s now _ Hcs _ _ _|p Hcs _ _].
  - apply ledger_parts in E as (E & _). exists c. rewrite E. split_and!; [done..|by apply move_same].
  - exists c. rewrite Hc elem_of_append. split_and!; [by left|done|by apply move_same].
  - apply call_by_id_Some in Hx as [Hx _].
    eexists. split; [rewrite Hcs; apply elem_of_update; by exists c|].
    case_bool_decide as E; [|split; [done|by apply move_same]].
    rewrite (key_unique mc_call_id _ c x I1 Hin Hx E). split; [done|by apply move_open].
  - exists c. rewrite Hcs. split_and!; [done..|by apply move_same].
  - apply call_by_id_Some in Hx as [Hx _].
    eexists. split; [rewrite Hcs; apply elem_of_update; by exists c|].
    case_bool_decide as E; [|split; [done|by apply move_same]].
    rewrite (key_unique mc_call_id _ c x I1 Hin Hx E). split; [apply Hk|].
    destruct Hch as [[?|[? _]] _ _|H1 H2 H3|H1 H2 H3|H1 H2 H3].
    + by apply move_open; right.
    + by apply move_open; left.
    + eapply move_decided; [done| |exact H3]. in_list.
    + eapply move_decided; [done| |exact H3]. in_list.
    + by apply move_open; left.
  - eexists. split; [rewrite Hcs; apply list_elem_of_fmap_2, Hin|].
    destruct (open_call s c) eqn:Eo; [|split; [done|by apply move_same]].
    split; [apply interrupted_key|]. apply move_open. unfold open_call in Eo.
    apply andb_true_iff in Eo as [_ [?%bool_decide_eq_true|?%bool_decide_eq_true]%orb_true_iff]; auto.
  - eexists. split; [rewrite Hcs; apply elem_of_update; by exists c|].
    destruct (p c); (split; [done|by apply move_same]).
Qed.
Lemma effect_attempt d d' a :
  effect d d' → ledger_inv d → a ∈ model_attempts d →
  ∃ a', a' ∈ model_attempts d' ∧ attempt_key a' = attempt_key a ∧
    (a' = a ∨ (active_status (ma_status a) = true ∧ ma_status a' ≠ Authorized)).
Proof.
  intros H HI Hin. pose proof HI as [_ I2 _ _ _ _ _ _ _].
  destruct H as [E _|x _ (Ha & _) _ _ _ _ _|x b _ _ _ Has _ _ _ _ _ _ _ _ _ _ _
    |b b' f Hb Has -> Hkey Hch _ _|x f _ _ _ _ (Ha & _) _ _|s now Has _ _ _ _|p _ (Ha & _) _].
  - apply ledger_parts in E as (_ & E & _). exists a. rewrite E. auto.
  - exists a. rewrite Ha. auto.
  - exists a. rewrite Has elem_of_append. auto.
  - apply attempt_by_id_Some in Hb as [Hb _].
    eexists. split; [rewrite Has; apply elem_of_update; by exists a|].
    case_bool_decide as E; [|by auto]. rewrite (key_unique ma_attempt_id _ a b I2 Hin Hb E).
    split; [apply Hkey|]. right. destruct Hch as [now Hs|code now Hs|st am p e now src Hs Hst].
    + by rewrite Hs.
    + done.
    + rewrite Hs. split; [done|]. simpl. intros ->. by case_in Hst.
  - exists a. rewrite Ha. auto.
  - rewrite recovered_split in Has.
    eexists. split; [rewrite Has; apply list_elem_of_fmap_2, Hin|]. cbn beta.
    destruct (_ && _) eqn:Ea; [|by auto]. split; [done|]. right.
    apply andb_true_iff in Ea as [_ Ea]. split; [done|]. simpl. by destruct (ma_status a).
  - exists a. rewrite Ha. auto.
Qed.
Lemma effect_audits d d' : effect d d' → audits d `prefix_of` audits d'.
Proof.
  intros [? ?|? ? ? E|? ? ? ? ? ? ? ? E|? ? ? ? ? ? ? ? (_ & _ & _ & E) ?|c f ? ? ? Hch ? ? ?
    |? ? ? ? ? ? E|? ? ? E]; try by rewrite E. { done. }
  destruct Hch as [_ _ E|_ _ (r & E & _)|_ _ (r & E & _)|]; [by rewrite E| | |done];
    rewrite E; by apply prefix_app_r.
Qed.

Definition erased_as (id : string) (c : call_row) : call_row :=
  if mc_call_id c == id then erased_call c else c.
Lemma step_call w w' c :
  model_step w w' → ledger_inv (db w) → c ∈ model_calls (db w) →
  ∃ c', c' ∈ model_calls (db w') ∧ call_key c' = call_key c ∧ call_move (db w) (db w') c c'.
Proof.
  intros [op|d t f [d' Hc _ _ _|id _]] HI Hin; simpl.
  - eapply effect_call; [apply op_effect, HI|done..].
  - exists c. rewrite Hc. split_and!; [done..|by apply move_same].
  - exists (erased_as id c). split; [apply elem_of_update; by exists c|]. unfold erased_as.
    case_bool_decide; (split; [done|by apply move_same]).
Qed.
Lemma step_attempt w w' a :
  model_step w w' → ledger_inv (db w) → a ∈ model_attempts (db w) →
  ∃ a', a' ∈ model_attempts (db w') ∧ attempt_key a' = attempt_key a ∧
    (a' = a ∨ (active_status (ma_status a) = true ∧ ma_status a' ≠ Authorized)).
Proof.
  intros [op|d t f [d' _ Ha _ _|id _]] HI Hin; simpl.
  - eapply effect_attempt; [apply op_effect, HI|done..].
  - exists a. rewrite Ha. auto.
  - exists a. auto.
Qed.
Lemma step_audits w w' :
  model_step w w' → ledger_inv (db w) → audits (db w) `prefix_of` audits (db w').
Proof.
  intros [op|d t f [d' _ _ _ Hp|id _]] HI; simpl; [apply effect_audits, op_effect, HI|done..].
Qed.

(** ** Runs *)

Context (inflate_deflate : ∀ t, inflate (deflate t) = Complete t EmptyString).

Lemma run_inv w w' : rtc model_step w w' → ledger_inv (db w) → ledger_inv (db w').
Proof.
  induction 1 as [|w1 w2 w3 Hs _ IH]; [done|]. intros H. apply IH. by eapply step_inv.
Qed.
Lemma run_audits w w' :
  rtc model_step w w' → ledger_inv (db w) → audits (db w) `prefix_of` audits (db w').
Proof.
  induction 1 as [|w1 w2 w3 Hs _ IH]; [done|]. intros H. etrans; [by eapply step_audits|].
  apply IH. by eapply step_inv.
Qed.

Lemma run_call w w' c :
  rtc model_step w w' → ledger_inv (db w) → c ∈ model_calls (db w) →
  ∃ c', c' ∈ model_calls (db w') ∧ call_key c' = call_key c.
Proof.
  intros Hr. revert c. induction Hr as [|w1 w2 w3 Hs _ IH]; intros c Hw Hc; [by exists c|].
  destruct (step_call _ _ _ Hs Hw Hc) as (c1 & Hc1 & Ek1 & _).
  destruct (IH c1 (step_inv inflate_deflate _ _ Hs Hw) Hc1) as (c2 & Hc2 & Ek2).
  exists c2. split; [done|congruence].
Qed.

(** C26: The ledger is an append-only history.  Along any run no call and no
    attempt disappears or changes the columns that identify it, its
    reservation or its price; an attempt that succeeded, failed, was
    cancelled or became unknown never changes again in any column, one that
    was started never returns to authorized, a call that succeeded or failed
    keeps that status, and audit records are only appended. *)
Theorem history_kept w w' :
  mreachable w → rtc model_step w w' →
  (∀ a, a ∈ model_attempts (db w) →
     ∃ a', a' ∈ model_attempts (db w') ∧ attempt_key a' = attempt_key a ∧
       (active_status (ma_status a) = false → a' = a) ∧
       (ma_status a ≠ Authorized → ma_status a' ≠ Authorized)) ∧
  (∀ c, c ∈ model_calls (db w) →
     ∃ c', c' ∈ model_calls (db w') ∧ call_key c' = call_key c ∧
       (mc_status c = CallSucceeded ∨ mc_status c = CallFailed → mc_status c' = mc_status c)) ∧
  audits (db w) `prefix_of` audits (db w').
Proof.
  intros Hw%(reachable_inv inflate_deflate) Hr. split; [|split; [|by apply run_audits]].
  - induction Hr as [|w1 w2 w3 Hs _ IH]; intros a Ha; [by exists a|].
    destruct (step_attempt _ _ _ Hs Hw Ha) as (a1 & Ha1 & Ek1 & Hm).
    destruct (IH (step_inv inflate_deflate _ _ Hs Hw) a1 Ha1) as (a2 & Ha2 & Ek2 & Hf & Hn).
    exists a2. split_and!; [done|congruence| |].
    + intros Hact. destruct Hm as [->|[Hact' _]]; [auto|congruence].
    + intros Hna. apply Hn. by destruct Hm as [->|[_ ?]].
  - induction Hr as [|w1 w2 w3 Hs _ IH]; intros c Hc; [by exists c|].
    destruct (step_call _ _ _ Hs Hw Hc) as (c1 & Hc1 & Ek1 & Hm).
    destruct (IH (step_inv inflate_deflate _ _ Hs Hw) c1 Hc1) as (c2 & Hc2 & Ek2 & Hf).
    exists c2. split_and!; [done|congruence|]. intros Hst.
    destruct Hm as [E|Hs'|? Hs' _ _]; [rewrite -E; apply Hf; by rewrite E|..];
      destruct Hst; naive_solver congruence.
Qed.

Lemma drop_earlier {A} (l : list A) m n x : (m <= n)%nat → x ∈ drop n l → x ∈ drop m l.
Proof.
  intros Hmn Hx. rewrite -(take_drop (n - m) (drop m l)) drop_drop.
  apply elem_of_app. right. by replace (m + (n - m))%nat with n by lia.
Qed.
(** A decision of an operator about a call, among the audit records after
    the first [n]. *)
Definition operator_decision (d : model_db) (n : nat) (c : call_row) : Prop :=
  ∃ r, r ∈ drop n (audits d) ∧ ka_subject_id r = mc_subject_id c ∧ blank (ka_actor r) = false ∧
    (audited "model_unknown_retry_authorized" (mc_call_id c) r = true ∨
     audited "model_unknown_reconciled" (mc_call_id c) r = true).

(** C22: A call whose outcome is unknown is never retried or settled by
    itself.  As long as no operator decision about it was recorded it stays
    unknown, through any sequence of operations, recoveries included: if it
    is not unknown any more, then an audit record that was appended since
    names the call, its subject and an actor, and says that the retry was
    authorized or the call reconciled. *)
Theorem unknown_needs_operator w w' c :
  mreachable w → rtc model_step w w' → c ∈ model_calls (db w) → mc_status c = CallUnknown →
  ∃ c', c' ∈ model_calls (db w') ∧ call_key c' = call_key c ∧
    (mc_status c' = CallUnknown ∨ operator_decision (db w') (length (audits (db w))) c).
Proof.
  intros Hw%(reachable_inv inflate_deflate) Hr. revert c.
  induction Hr as [|w1 w2 w3 Hs Hr IH]; intros c Hc Hu; [exists c; auto|].
  pose proof (step_inv inflate_deflate _ _ Hs Hw) as Hw2.
  pose proof (step_audits _ _ Hs Hw) as Hp1. pose proof (run_audits _ _ Hr Hw2) as Hp2.
  destruct (step_call _ _ _ Hs Hw Hc) as (c1 & Hc1 & Ek1 & Hm).
  destruct Hm as [E|[?|?]|action _ Hact (r & Er & Ha & Hsub & Hb)]; [|congruence..|].
  - destruct (IH Hw2 c1 Hc1) as (c2 & Hc2 & Ek2 & Hd); [congruence|].
    exists c2. split_and!; [done|congruence|]. destruct Hd as [?|(r & Hr' & Es & Hb & Ha)]; [by left|right].
    unfold call_key in Ek1. exists r. split_and!.
    + eapply drop_earlier; [|exact Hr']. by apply prefix_length.
    + congruence.
    + done.
    + replace (mc_call_id c) with (mc_call_id c1) by congruence. done.
  - assert (Hrun : rtc model_step w2 w3) by done.
    destruct (run_call w2 w3 c1 Hrun Hw2 Hc1) as (c2 & Hc2 & Ek2).
    exists c2. split_and!; [done|congruence|]. right. exists r. split_and!; [|done..|].
    + destruct Hp2 as [l2 E2]. rewrite E2 Er -app_assoc drop_app_length. apply elem_of_app. left.
      by apply list_elem_of_singleton.
    + case_in Hact; subst; auto.
Qed.

(** ** Reading *)

Lemma all_ok_Forall {A B} (f : A → result B) l :
  Forall (λ x, is_ok (f x) = true) l → ∃ ys, all_ok f l = Ok ys ∧ Forall2 (λ x y, f x = Ok y) l ys.
Proof.
  induction 1 as [|x l Hx _ (ys & E & H)]; [by exists []|]. simpl.
  destruct (f x) as [y|] eqn:Ef; [|done]. exists (y :: ys). simpl. rewrite E. by repeat constructor.
Qed.
Lemma attempt_record a r :
  _attempt_from_row a = Ok r → at_attempt_number r = ma_attempt_number a.
Proof. unfold _attempt_from_row. intros H. repeat case_match; by simplify_eq. Qed.
Lemma call_record c r :
  _call_from_row c = Ok r →
  cl_call_id r = mc_call_id c ∧ cl_status r = mc_status c ∧
  cl_response_hash r = mc_response_hash c.
Proof.
  unfold _call_from_row. intros H. repeat (case_match; [done|]).
  destruct (call_response c) as [o|]; [|done]. simpl in H. repeat (case_match; [done|]).
  by simplify_eq.
Qed.
Lemma numbers_sorted (l : list attempt_row) k :
  map ma_attempt_number l = map Z.of_nat (seq k (length l)) → sort_by by_number l = l.
Proof.
  revert k. induction l as [|a l IH]; intros k; [done|]. intros H.
  change (sort_by by_number (a :: l)) with (insert_sorted by_number a (sort_by by_number l)).
  cbn [map length seq] in H. injection H as Ha Hl. rewrite (IH (S k) Hl).
  destruct l as [|b l]; [done|]. cbn [map length seq] in Hl. injection Hl as Hb _. simpl.
  unfold by_number. by rewrite (proj2 (Z.leb_le _ _)); [lia|].
Qed.

(** C29: Everything the ledger wrote can be read.  In every reachable state
    [get_call] returns every stored call, [attempts] returns all attempts of
    a call in order, numbered from 1 without gaps, and [unknown_calls]
    returns; every attempt belongs to a stored call of its own subject, and
    an idempotency key identifies at most one call of a subject. *)
Theorem ledger_readable w :
  mreachable w →
  (∀ c, c ∈ model_calls (db w) → ∃ r, get_call (mc_call_id c) w = (Ok r, w) ∧
     cl_status r = mc_status c ∧ cl_response_hash r = mc_response_hash c) ∧
  (∀ id, ∃ rs, attempts id w = (Ok rs, w) ∧
     map at_attempt_number rs = map Z.of_nat (seq 1 (length (call_attempts id (db w))))) ∧
  (∀ s n, ∃ rs, unknown_calls s n w = (Ok rs, w)) ∧
  (∀ a, a ∈ model_attempts (db w) → ∃ c, c ∈ model_calls (db w) ∧
     mc_call_id c = ma_call_id a ∧ mc_subject_id c = ma_subject_id a) ∧
  NoDup (map idem_key (model_calls (db w))).
Proof.
  intros [I1 I2 I3 I4 I5 I6 _ I8 _]%(reachable_inv inflate_deflate).
  rewrite -> Forall_forall in I3. split_and!; [| | |done..].
  - intros c Hc. pose proof (I3 c Hc) as Hr. unfold reads_call in Hr.
    destruct (_call_from_row c) as [r|] eqn:E; [|done]. exists r.
    split; [|by apply call_record in E as (_ & ? & ?)].
    unfold get_call, _load_call_connection, _get_call_row, call_by_id, gets, lift, mbind, M_bind.
    rewrite (fetchone_key mc_call_id) //= E. done.
  - intros id. rewrite -> Forall_forall in I4.
    assert (Hf : Forall (λ a, is_ok (_attempt_from_row a) = true) (call_attempts id (db w))).
    { apply Forall_forall. intros a [Ha _]%elem_of_select. by apply I4. }
    destruct (all_ok_Forall _ _ Hf) as (rs & E & H2). exists rs.
    unfold attempts, gets, lift, mbind, M_bind. simpl. rewrite (numbers_sorted _ 1); [apply I6|].
    rewrite E. split; [done|]. rewrite -I6. clear -H2.
    induction H2 as [|a r l rs Ha _ IH]; [done|]. simpl. by rewrite IH (attempt_record _ _ Ha).
  - intros s n. unfold unknown_calls, gets, lift, mbind, M_bind. simpl.
    match goal with |- ∃ rs, (all_ok ?f ?l, w) = _ => destruct (all_ok_Forall f l) as (rs & E & _) end.
    { apply Forall_forall. intros c (i & Hc & _)%elem_of_take.
      apply list_elem_of_lookup_2, elem_of_sort_by, elem_of_select in Hc as [Hc _]. by apply I3. }
    exists rs. by rewrite E.
Qed.

(** ** Recovery *)

Lemma ok_load_call_row id w c :
  call_by_id id (db w) = Some c → reads_call c → ∃ r, ok (_load_call_connection id) w r w.
Proof.
  unfold reads_call. intros Hc Hr. destruct (_call_from_row c) as [r|] eqn:E; [|done]. exists r.
  unfold _load_call_connection. apply ok_bind. exists c, w. split; [by apply ok_get_call|].
  by apply ok_lift.
Qed.
Lemma assert_any sc (w w2 : world model_db) :
  db w2 = db w → (assert_private_inputs_available sc w).1 = Ok tt →
  ok (assert_private_inputs_available sc) w2 tt w2.
Proof.
  intros E. unfold ok, assert_private_inputs_available, gets, raise_if, raise, mbind, M_bind,
    mret, M_ret. simpl. rewrite E.
  destruct (scope_invitation sc) as [[??]|];
    [destruct (participant_invitation_withdrawn _ _ _); [done|]|];
    destruct (exists_where _ _); done.
Qed.
Lemma recover_calls_ok now rows w :
  NoDup (map mc_call_id (model_calls (db w))) → NoDup (map mc_call_id rows) →
  (∀ c, c ∈ rows → c ∈ model_calls (db w)) →
  (∀ c, c ∈ model_calls (db w) → reads_call c ∧ erasure_kept (db w) c = true) →
  ∃ rs w', ok (recover_calls now rows) w rs w'.
Proof.
  revert w. induction rows as [|row rows IH]; intros w Hk Hd Hin Hok; simpl; [by exists [], w|].
  simpl in Hd. apply NoDup_cons in Hd as [Hn Hd].
  set (b := exists_where ambiguous (call_attempts (mc_call_id row) (db w))).
  set (f := interrupted_call now b).
  set (w1 := World (set_model_calls (update_where (λ r, mc_call_id r == mc_call_id row) f) (db w))
               (tick w) (fresh w)).
  assert (Hf : ∀ c, c ∈ model_calls (db w) → reads_call (f c) ∧ erasure_kept (db w) (f c) = true).
  { intros c Hc. destruct (Hok c Hc) as [Hr He]. split; [by apply interrupted_reads|].
    unfold f. by destruct b. }
  assert (Hu : ok (update_call (mc_call_id row) f) w tt w1).
  { apply ok_update_call. split; [|done]. intros r Hr _. by apply Hf. }
  assert (Hrow : row ∈ model_calls (db w)) by apply Hin, here.
  destruct (ok_load_call_row (mc_call_id row) w1 (f row)) as [r Hl].
  { apply fetch_call; [by apply (fetchone_key mc_call_id)|].
    intros x. unfold f. by destruct b. }
  { by apply Hf. }
  destruct (IH w1) as (rs & w2 & Hrs); simpl.
  - rewrite map_update //. intros x _. unfold f. by destruct b.
  - done.
  - intros c Hc. apply elem_of_update. exists c. split; [by apply Hin, there|].
    rewrite bool_decide_false //. intros E. apply Hn. rewrite -E. by apply list_elem_of_fmap_2.
  - intros c (c0 & Hc0 & ->)%elem_of_update. destruct (_ == _); [by apply Hf|by apply Hok].
  - exists (r :: rs), w2. apply ok_bind. exists b, w. split; [done|].
    apply ok_bind. exists tt, w1. split; [done|]. apply ok_bind. exists r, w1. split; [done|].
    apply ok_bind. exists rs, w2. by split; [|apply ok_ret].
Qed.

(** The attempt may have reached the provider. *)
Definition maybe_sent (a : attempt_row) : bool :=
  (ma_status a == AttemptExecuting) || (ma_status a == AttemptSucceeded)
  || (ma_status a == AttemptUnknown).
Lemma recovered_uncertain s now id d :
  ledger_inv d → (∃ c, c ∈ model_calls d ∧ mc_call_id c = id ∧ mc_subject_id c = s) →
  uncertain id (recovered_attempts s now (model_attempts d))
  = exists_where maybe_sent (call_attempts id d).
Proof.
  intros [I1 _ _ _ I5 _ _ _ _] (c & Hc & Eid & Esub).
  rewrite recovered_split. unfold uncertain. rewrite select_kept.
  { intros a. cbn beta. by destruct (_ && _). }
  unfold call_attempts, exists_where.
  assert (Hall : ∀ a, a ∈ select (λ a, ma_call_id a == id) (model_attempts d) →
    ma_subject_id a = s).
  { intros a [Ha E%bool_decide_eq_true]%elem_of_select. destruct (I5 a Ha) as (c' & Hc' & E1 & E2).
    assert (c' = c) as -> by (eapply (key_unique mc_call_id (model_calls d)); [done..|congruence]).
    congruence. }
  induction (select _ _) as [|a t IH]; [done|]. simpl.
  rewrite IH; [intros; by apply Hall, there|]. f_equal.
  rewrite (bool_decide_true _ (Hall a (here _ _))). simpl. unfold ambiguous, maybe_sent.
  by destruct (ma_status a) eqn:E; simpl; rewrite ?E.
Qed.

Lemma recover_calls_frame now rows : frame (set_model_calls (λ _, [])) (recover_calls now rows).
Proof.
  induction rows as [|row rows IH]; intros w rs w' H; simpl in H.
  { by apply ok_ret in H as [_ <-]. }
  apply ok_bind in H as (b & w1 & [_ <-]%ok_gets & H).
  apply ok_bind in H as (u2 & w2 & [_ ->]%ok_update_call & H).
  apply ok_bind in H as (r & w3 & (c & _ & _ & ->)%ok_load_call & H).
  apply ok_bind in H as (rs' & w4 & H4 & H). apply ok_ret in H as [_ <-].
  by apply IH in H4.
Qed.
(** What an interrupted attempt or call of the subject becomes. *)
Definition settled_attempt (s now : string) (a : attempt_row) : attempt_row :=
  if (ma_subject_id a == s) && active_status (ma_status a)
  then if ma_status a == Authorized
       then attempt_closed AttemptCancelled "interrupted_before_send" now a
       else attempt_closed AttemptUnknown "interrupted_during_request" now a
  else a.
Definition settled_call (s now : string) (d : model_db) (c : call_row) : call_row :=
  if open_call s c
  then if exists_where maybe_sent (call_attempts (mc_call_id c) d)
       then call_moved CallUnknown (Some "interrupted_model_call"%string) (Some now) c
       else call_moved CallFailed (Some "interrupted_before_attempt"%string) (Some now) c
  else c.

Lemma recovered_settled s now t : recovered_attempts s now t = map (settled_attempt s now) t.
Proof.
  rewrite recovered_split. apply map_ext. intros a. unfold settled_attempt.
  by destruct (_ && _), (ma_status a).
Qed.
Lemma settled_inactive s now a :
  ma_subject_id (settled_attempt s now a) = s →
  active_status (ma_status (settled_attempt s now a)) = false.
Proof.
  unfold settled_attempt. destruct (_ && _) eqn:E; [by destruct (ma_status a)|].
  intros Es. by rewrite (bool_decide_true _ Es) in E.
Qed.
Lemma db_eq_calls d d' :
  set_model_calls (λ _, []) d' = set_model_calls (λ _, []) d →
  model_calls d' = model_calls d → d' = d.
Proof. destruct d, d'. unfold set_model_calls. simpl. intros [= -> -> -> -> -> -> ->] ->. done. Qed.

(** Recovery returns, and this is what it leaves. *)
Lemma recovery_runs sc s w :
  ledger_inv (db w) → (assert_private_inputs_available sc w).1 = Ok tt →
  ∃ rs w', recover_interrupted sc s w = (Ok rs, w') ∧
    db w' = set_model_calls (map (settled_call s (now_at (tick w)) (db w)))
              (set_model_attempts (map (settled_attempt s (now_at (tick w)))) (db w)).
Proof.
  intros HI Hs. pose proof HI as [I1 _ I3 _ _ _ I7 _ _]. rewrite -> Forall_forall in I3.
  set (now := now_at (tick w)).
  set (d1 := set_model_attempts (recovered_attempts s now) (db w)).
  set (w1 := World d1 (S (tick w)) (fresh w)).
  destruct (recover_calls_ok now (select (open_call s) (model_calls (db w))) w1)
    as (rs & w' & Hrs); [done|by apply NoDup_select|by intros c [? _]%elem_of_select| |].
  { intros c Hc. split; [by apply I3|]. exact (I7 c Hc). }
  pose proof (recover_calls_frame _ _ _ _ _ Hrs) as Hfr.
  pose proof Hrs as Hrs'. apply recover_calls_effect in Hrs' as (Hc & _); [|by apply NoDup_select].
  assert (Hrun : ok (recover_interrupted sc s) w rs w').
  { unfold recover_interrupted. apply ok_bind. exists now, (World (db w) (S (tick w)) (fresh w)).
    split; [done|]. apply transaction_ok. apply ok_bind.
    exists tt, (World (db w) (S (tick w)) (fresh w)). split.
    { exact (assert_any sc w (World (db w) (S (tick w)) (fresh w)) eq_refl Hs). }
    apply ok_bind. eexists tt, _. split; [done|]. apply ok_bind. eexists tt, _. split; [done|].
    apply ok_bind. eexists _, _. split; [done|]. exact Hrs. }
  exists rs, w'. split; [exact Hrun|]. apply db_eq_calls.
  - rewrite Hfr /d1 /set_model_calls /set_model_attempts /=. by rewrite recovered_settled.
  - rewrite Hc. simpl. apply map_ext_in. intros c Hin%list_elem_of_In.
    unfold settled_call. destruct (open_call s c) eqn:Eo.
    + rewrite bool_decide_true; [apply list_elem_of_fmap_2; by apply elem_of_select|].
      rewrite (recovered_uncertain s now _ _ HI) //.
      exists c. split_and!; [done..|]. unfold open_call in Eo.
      by apply andb_true_iff in Eo as [?%bool_decide_eq_true _].
    + rewrite bool_decide_false //. intros (c' & E & [Hc' Ho']%elem_of_select)%list_elem_of_fmap.
      rewrite (key_unique mc_call_id _ c c' I1 Hin Hc' E) in Eo. by rewrite Eo in Ho'.
Qed.
(** C25: Recovery always settles.  Unless the prompt it runs for was itself
    withdrawn, [recover_interrupted] returns in every reachable state, and
    the database it leaves is exactly the one before with these rows changed:
    an authorized attempt of the subject is cancelled and an executing one
    becomes unknown; a prepared or executing call of the subject becomes
    unknown if one of its attempts may have reached the provider, and failed
    otherwise, each with its error code and the time of the recovery.  So
    afterwards the subject has no attempt that is authorized or executing
    and no call that is prepared or executing, and no other row, column or
    table has changed. *)
Theorem recovery_settles sc s w :
  mreachable w → (assert_private_inputs_available sc w).1 = Ok tt →
  ∃ rs w', recover_interrupted sc s w = (Ok rs, w') ∧
    db w' = set_model_calls (map (settled_call s (now_at (tick w)) (db w)))
              (set_model_attempts (map (settled_attempt s (now_at (tick w)))) (db w)) ∧
    (∀ a, a ∈ model_attempts (db w') → ma_subject_id a = s → active_status (ma_status a) = false) ∧
    (∀ c, c ∈ model_calls (db w') → open_call s c = false) ∧
    (∀ c, c ∈ model_calls (db w) → open_call s c = true →
       ∃ c', c' ∈ model_calls (db w') ∧ call_key c' = call_key c ∧
         mc_status c' = if exists_where maybe_sent (call_attempts (mc_call_id c) (db w))
                        then CallUnknown else CallFailed) ∧
    (∀ c, c ∈ model_calls (db w) → open_call s c = false → c ∈ model_calls (db w')) ∧
    (∀ a, a ∈ model_attempts (db w) →
       ma_subject_id a ≠ s ∨ active_status (ma_status a) = false → a ∈ model_attempts (db w')).
Proof.
  intros HI%(reachable_inv inflate_deflate) Hs.
  destruct (recovery_runs sc s w HI Hs) as (rs & w' & Hrun & E).
  exists rs, w'. split; [exact Hrun|]. split; [exact E|]. rewrite E.
  cbn [model_attempts model_calls set_model_calls set_model_attempts].
  set (now := now_at (tick w)) in *. split_and!.
  - intros ? (a & -> & Hin)%list_elem_of_fmap Es. by apply settled_inactive.
  - intros ? (c & -> & Hin)%list_elem_of_fmap. unfold settled_call.
    destruct (open_call s c) eqn:Eo; [|done].
    destruct (exists_where _ _); unfold open_call; simpl; by rewrite andb_false_r.
  - intros c Hin Eo. exists (settled_call s now (db w) c). split; [by apply list_elem_of_fmap_2|].
    unfold settled_call. rewrite Eo. by case_match.
  - intros c Hin Eo. apply list_elem_of_fmap. exists c. unfold settled_call. by rewrite Eo.
  - intros a Hin Hor. apply list_elem_of_fmap. exists a. split; [|done]. unfold settled_attempt.
    destruct Hor as [Hne|Hna]; [rewrite bool_decide_false //|]. by rewrite Hna andb_false_r.
Qed.
(** ** Idempotency *)

Lemma same_call_fields c rq :
  same_call c rq = true →
  mc_provider c = cq_provider rq ∧ mc_model c = cq_model rq ∧ mc_purpose c = cq_purpose rq ∧
  mc_request_hash c = cq_request_hash rq ∧ mc_resource_pool c = cq_resource_pool rq ∧
  mc_resource_group_id c = cq_resource_group_id rq.
Proof. unfold same_call. rewrite !andb_true_iff !bool_decide_eq_true. naive_solver. Qed.
(** The call a request was prepared as. *)
Lemma prepare_ok sc rq w r b w' :
  ok (prepare_call sc rq) w (r, b) w' →
  ∃ c, c ∈ model_calls (db w') ∧ idem_key c = (cq_subject_id rq, cq_idempotency_key rq) ∧
    same_call c rq = true ∧ cl_call_id r = mc_call_id c ∧
    (if b then ∀ x, x ∈ model_calls (db w) → idem_key x ≠ idem_key c
     else book_part (db w') = book_part (db w)).
Proof.
  unfold prepare_call. intros H.
  apply ok_bind in H as (u1 & w1 & [_ <-]%ok_raise_if & H).
  apply ok_bind in H as (u2 & w2 & [_ <-]%ok_raise_if & H%ok_guarded).
  apply ok_bind in H as (d & w3 & [<- <-]%ok_gets & H). simpl in H.
  destruct (captured rq _) as [text v]. destruct (fetchone _ _) as [c|] eqn:Ef.
  - apply fetchone_Some in Ef as [Hin [?%bool_decide_eq_true ?%bool_decide_eq_true]%andb_true_iff].
    apply ok_bind in H as (u4 & w4 & [Hs%negb_false_iff <-]%ok_raise_if & H).
    apply ok_bind in H as (u5 & w5 & E5%frame_private_sources & H).
    apply ok_bind in H as (r' & w6 & Hr & H). apply ok_lift in Hr as [Hr <-].
    apply ok_ret in H as [[= <- <-] <-]. exists c. apply book_parts in E5 as E.
    split_and!; [by rewrite (proj1 E)|unfold idem_key; congruence|done| |done].
    by apply call_record in Hr as (? & _).
  - apply ok_bind in H as (u4 & w4 & E4%pure_capacity & H).
    apply ok_bind in H as (id & w5 & E5%pure_lnew_id & H).
    apply ok_bind in H as (now & w6 & E6%pure_lutc_now & H).
    apply ok_bind in H as (u7 & w7 & (Hc & _ & _ & Hn & Hid)%ok_insert_call & H).
    apply ok_bind in H as (u8 & w8 & E8%frame_private_sources & H).
    apply book_parts in E8 as (E8 & _).
    apply ok_bind in H as (rec & w9 & (c & Hl & Hok & ->)%ok_load_call & H).
    apply ok_ret in H as [[= <- <-] <-]. unfold call_by_id in Hl. rewrite E8 Hc in Hl.
    rewrite (fetch_append mc_call_id id _ _ _ Hn) // in Hl. simplify_eq Hl. intros <-.
    eexists. split; [rewrite E8 Hc elem_of_append; by right|].
    rewrite E6 E5 E4 in Hid. split_and!; [done| |by apply call_record in Hok as (-> & _)|exact Hid].
    unfold same_call. simpl. by rewrite !bool_decide_true.
Qed.

(** C28: An idempotency key names one request for good.  After [prepare_call]
    returned, whatever happens to the ledger since, a later [prepare_call] of
    the same subject under the same key can only return the same call, for
    the same provider, model, purpose, request hash, pool and group: it never
    inserts a second one, and it leaves calls, attempts, resources and audit
    records as they are. *)
Theorem prepare_idempotent sc rq sc' rq' w r b w1 w2 r' b' w3 :
  mreachable w → prepare_call sc rq w = (Ok (r, b), w1) → rtc model_step w1 w2 →
  cq_subject_id rq' = cq_subject_id rq → cq_idempotency_key rq' = cq_idempotency_key rq →
  prepare_call sc' rq' w2 = (Ok (r', b'), w3) →
  b' = false ∧ cl_call_id r' = cl_call_id r ∧ book_part (db w3) = book_part (db w2) ∧
  cq_provider rq' = cq_provider rq ∧ cq_model rq' = cq_model rq ∧
  cq_purpose rq' = cq_purpose rq ∧ cq_request_hash rq' = cq_request_hash rq ∧
  cq_resource_pool rq' = cq_resource_pool rq ∧
  cq_resource_group_id rq' = cq_resource_group_id rq.
Proof.
  intros Hw%(reachable_inv inflate_deflate) H1 Hr Es Ek H2.
  assert (Hw1 : ledger_inv (db w1)).
  { eapply effect_inv; [done| |exact Hw]. by eapply prepare_effect. }
  apply prepare_ok in H1 as (c & Hc & Kc & Sc & Ic & _).
  apply prepare_ok in H2 as (c3 & Hc3 & Kc3 & Sc3 & Ic3 & Hb).
  destruct (run_call w1 w2 c Hr Hw1 Hc) as (c2 & Hc2 & Kc2).
  assert (Hid : idem_key c2 = idem_key c3).
  { unfold call_key in Kc2. unfold idem_key in *. congruence. }
  destruct b'; [by apply Hb in Hc2|]. simpl in Hb. apply book_parts in Hb as E. rewrite (proj1 E) in Hc3.
  pose proof (run_inv _ _ Hr Hw1) as [_ _ _ _ _ _ _ I8 _].
  assert (c2 = c3) as -> by by eapply (key_unique idem_key (model_calls (db w2))).
  apply same_call_fields in Sc as (? & ? & ? & ? & ? & ?).
  apply same_call_fields in Sc3 as (? & ? & ? & ? & ? & ?).
  unfold call_key in Kc2. injection Kc2 as ? ? ? ? ? ? ? ? ?. split_and!; congruence.
Qed.

(** ** Compression *)

Lemma packed_request c x t :
  decompress_text (mc_request_json c) = Ok (Some (String x t)) →
  decompress_text (mc_request_json (packed c)) = Ok (Some (String x t)).
Proof.
  simpl. destruct (mc_request_json c) as [[|y u]|]; [done| |done]. cbn [compress_column].
  apply decompress_compress, inflate_deflate.
Qed.
(** C33: Compressing old payloads is invisible.  Whatever a compression pass
    returns, and however far it gets, every call reads as before it, response
    included, each captured request decompresses to the same text, and no
    attempt, receipt, resource or audit record changes. *)
Theorem compression_transparent sc s days limit w r w' :
  mreachable w → compress_cold_payloads sc s days limit w = (r, w') →
  (∀ id, (get_call id w').1 = (get_call id w).1) ∧
  (∀ c, c ∈ model_calls (db w) → ∃ c', c' ∈ model_calls (db w') ∧ call_key c' = call_key c ∧
     mc_status c' = mc_status c ∧
     ∀ x t, decompress_text (mc_request_json c) = Ok (Some (String x t)) →
            decompress_text (mc_request_json c') = Ok (Some (String x t))) ∧
  only_calls (db w) (db w') ∧ audits (db w') = audits (db w).
Proof.
  intros [I1 _ I3 _ _ _ _ _ _]%(reachable_inv inflate_deflate) H. rewrite -> Forall_forall in I3.
  assert (Hp : ∃ p, model_calls (db w') = update_where p packed (model_calls (db w)) ∧
    only_calls (db w) (db w') ∧ audits (db w') = audits (db w)).
  { destruct r as [n|e]; [by eapply compress_packs|].
    apply atomic_compress in H as ->. exists (λ _, false). split; [|done]. symmetry. apply map_id. }
  destruct Hp as (p & Hc & Ho' & Ha). split_and!; [| |done..].
  - intros id. unfold get_call, _load_call_connection, _get_call_row, call_by_id, gets, lift,
      mbind, M_bind. simpl. rewrite Hc. clear Hc Ho' Ha.
    induction (model_calls (db w)) as [|c t IH]; [done|]. unfold fetchone, update_where in *.
    simpl. assert (Ec : mc_call_id (if p c then packed c else c) = mc_call_id c) by by destruct (p c).
    rewrite Ec. destruct (mc_call_id c == id).
    + simpl. destruct (p c); [|done]. by rewrite (packed_reads inflate_deflate c); [apply I3, here|].
    + simpl in I1. apply NoDup_cons in I1 as [_ I1].
      apply IH; [done|]. intros; by apply I3, there.
  - intros c Hin. exists (if p c then packed c else c). split.
    { rewrite Hc. apply elem_of_update. by exists c. }
    destruct (p c); [|done]. split_and!; [done..|]. intros x t. apply packed_request.
Qed.
End runs.
