(* ===== verification/ModelWitness.v ===== *)
(** * The model ledger at work

    A subject with one resource group, whose policy enforces two attempts and
    1000 input tokens a day, prepares a call and sends it; the process dies
    before an answer, recovery makes the call unknown, an operator authorizes
    the retry, and the second attempt succeeds.  The payloads are compressed
    later.  Each theorem about the ledger that has hypotheses is applied to
    these states. *)

From stdpp Require Import relations.
From S2P Require Import Prelude Tables PyStr Json Digest Time PyDict KernelDb Events Actions.
From S2P Require Import PayloadCodec ModelDb ModelResources ModelLedger KernelSystem ModelSystem.
From S2P Require Import ModelEffects ModelFacts ModelBudget ModelRuns.
Local Open Scope Z_scope.

(** The digest is SHA-256; the clock stands still. *)
#[export] Instance scene_digest : Digest := sha256_digest.
#[export] Instance scene_host : Host := {|
  now_at k := "2026-01-02T12:00:00.000+00:00"; uuid_at k := show_Z (Z.of_nat k);
  archived_payload _ _ _ _ := Raise (IntegrityError "no archive");
  fence_file_active _ _ := false; migration_target_id := None; evidence_row_limit := 1000 |}.
#[export] Instance scene_endpoints : Endpoints := {| public_model_url u := Some u |}.
#[export] Instance scene_calendar : Calendar := {|
  days_before _ _ := Ok "2026-02-01T00:00:00.000+00:00"%string |}.

(** A prompt of 1200 letters. *)
Fixpoint letters (n : nat) : string :=
  match n with O => EmptyString | S n => String (chr 97) (letters n) end.
Definition prompt : list (string * json) := [("prompt", JStr (letters 1200))].
(** A compressor that knows one text. *)
Definition known : string := Eval vm_compute in canonical_json (JObj prompt).
#[export] Instance scene_deflate : Deflate := {|
  deflate s := if s == known then "z"%string else String (chr 45) s;
  inflate s := match s with
               | String c t =>
                   if (code c =? 45)%N then Complete t EmptyString
                   else Complete known EmptyString
               | EmptyString => Corrupt EmptyString
               end |}.
Lemma scene_inflate t : inflate (deflate t) = Complete t EmptyString.
Proof. simpl. by case_bool_decide; subst. Qed.

Definition sid : string := "alice".
Definition no_others : other_tables :=
  {| retry_blocks := []; goal_owners := []; project_owners := []; phase_projects := [];
     private_messages := []; private_conversations := []; migration_epochs := [] |}.
Definition scene_base : kernel_db :=
  {| subject_ids := [sid]; events := []; chain_roots := []; training_policies := [];
     training_records := []; runtime_states := []; actions := []; action_revisions := [];
     behavior_logs := []; behavior_revisions := []; kaudits := [];
     counts := map (λ n, {| ct_subject_id := sid; ct_table_name := n; ct_row_count := 0 |})
                 EVIDENCE_TABLES;
     others := no_others |}.
Definition group_with (hash : string) : group_row :=
  {| rg_group_id := "grp"; rg_subject_id := sid; rg_pool := "economy"; rg_label := "main";
     rg_provider_type := "openai_compatible"; rg_base_url := "https://models.example.org/v1";
     rg_model := "small"; rg_priority := 1; rg_weight := 1; rg_daily_attempts := 2;
     rg_daily_input_tokens := 1000; rg_daily_output_tokens := 1000;
     rg_daily_cost_microusd := 5000; rg_input_microusd_per_million := 10;
     rg_output_microusd_per_million := 20; rg_max_attempts := 3; rg_status := "active";
     rg_state_hash := hash; rg_created_at := "2026-01-01T00:00:00.000+00:00";
     rg_updated_at := "2026-01-01T00:00:00.000+00:00"; rg_reasoning_effort := None |}.
Definition scene_group : group_row := Eval vm_compute in group_with (_group_hash (group_with "")).
Definition scene_switches : switches :=
  {| sw_attempts := true; sw_input_tokens := true; sw_output_tokens := false; sw_cost := false |}.
Definition empty_ledger : model_db :=
  {| base := scene_base; model_calls := []; model_attempts := []; private_model_sources := [];
     erased_calls := [];
     resources := {| resource_groups := [scene_group]; resource_keys := []; limit_policies := [];
                     limit_revisions := [] |};
     social := {| interactions := []; message_links := []; applications := [] |};
     schema_meta := [] |}.
(** The policy is written by the store itself. *)
Definition m0 : world model_db := Eval vm_compute in
  (write_resource_policy "grp" sid scene_switches "operator" "limits"
     "2026-01-01T00:00:00.000+00:00" None (World empty_ledger 0 0)).2.
Definition scene_limits : BudgetLimits :=
  {| daily_attempts := 2; daily_input_tokens := 1000; daily_output_tokens := 1000;
     daily_cost_microusd := 5000; enabled := scene_switches |}.

Definition scene_call (key : string) : call_request :=
  {| cq_subject_id := sid; cq_provider := "openai_compatible"; cq_model := "small";
     cq_purpose := "planning"; cq_request_hash := "hash of the prompt"; cq_idempotency_key := key;
     cq_resource_pool := "economy"; cq_resource_group_id := Some "grp"%string;
     cq_request := Some prompt; cq_enforce_training_policy := false |}.
Definition scene_attempt : attempt_request :=
  {| aq_limits := scene_limits; aq_reserved_input_tokens := 400; aq_reserved_output_tokens := 100;
     aq_reserved_cost_microusd := 50; aq_budget_day := None; aq_resource_group_id := None;
     aq_pool_limits := None; aq_continuation := false; aq_expected_resource_revision := Some 1;
     aq_refresh_pool_limits := false; aq_resource_key_id := None;
     aq_resource_key_fingerprint := None; aq_pricing := None |}.
Definition mop1 := MPrepare no_scope (scene_call "once").
Definition mop2 := MAuthorize no_scope "mcall_0" scene_attempt.
Definition mop3 := MStart no_scope "matt_1" None None None.
Definition mop4 := MRecover no_scope sid.
Definition mop5 := MRetry no_scope "mcall_0" "operator" "the provider lost it".
Definition mop6 := MAuthorize no_scope "mcall_0" scene_attempt.
Definition mop7 := MStart no_scope "matt_3" None None None.
Definition mop8 := MFinish "matt_3" AttemptSucceeded
  (Some {| input_tokens := 420; output_tokens := 80 |}) (Some 40) None None false.
Definition mop9 := MFinishCall "mcall_0" CallSucceeded (Some [("text", JStr "done")]) false None.
Definition mop10 := MCompress no_scope sid 30 100.
Definition mafter (op : model_op) (w : world model_db) : world model_db := (run_model op w).2.
Definition m1 := Eval vm_compute in mafter mop1 m0.
Definition m2 := Eval vm_compute in mafter mop2 m1.
Definition m3 := Eval vm_compute in mafter mop3 m2.
Definition m4 := Eval vm_compute in mafter mop4 m3.
Definition m5 := Eval vm_compute in mafter mop5 m4.
Definition m6 := Eval vm_compute in mafter mop6 m5.
Definition m7 := Eval vm_compute in mafter mop7 m6.
Definition m8 := Eval vm_compute in mafter mop8 m7.
Definition m9 := Eval vm_compute in mafter mop9 m8.
Definition m10 := Eval vm_compute in mafter mop10 m9.
(** Another call, when the attempts of the day are used up. *)
Definition mop11 := MPrepare no_scope (scene_call "again").
Definition m11 := Eval vm_compute in mafter mop11 m10.

Lemma reach_m0 : mreachable m0.
Proof. exists (db m0), (tick m0), (fresh m0). split; [done|apply rtc_refl]. Qed.
Lemma mrun_op op w w' w'' :
  mafter op w = w' → rtc model_step w' w'' → rtc model_step w w''.
Proof. intros <- H. eapply rtc_l; [|exact H]. apply mstep_op. Qed.
Ltac mrun op w := apply (mrun_op op _ w); [vm_compute; reflexivity|].
Lemma steps_m0_m1 : rtc model_step m0 m1.
Proof. mrun mop1 m1. apply rtc_refl. Qed.
Lemma steps_m1_m3 : rtc model_step m1 m3.
Proof. mrun mop2 m2. mrun mop3 m3. apply rtc_refl. Qed.
Lemma steps_m3_m4 : rtc model_step m3 m4.
Proof. mrun mop4 m4. apply rtc_refl. Qed.
Lemma steps_m4_m9 : rtc model_step m4 m9.
Proof. mrun mop5 m5. mrun mop6 m6. mrun mop7 m7. mrun mop8 m8. mrun mop9 m9. apply rtc_refl. Qed.
Lemma reach_run w w' : mreachable w → rtc model_step w w' → mreachable w'.
Proof. intros (d & t & f & Hd & H) Hr. exists d, t, f. split; [done|by etrans]. Qed.
Lemma reach_m1 : mreachable m1.
Proof. exact (reach_run _ _ reach_m0 steps_m0_m1). Qed.
Lemma reach_m3 : mreachable m3.
Proof. exact (reach_run _ _ reach_m1 steps_m1_m3). Qed.
Lemma reach_m4 : mreachable m4.
Proof. exact (reach_run _ _ reach_m3 steps_m3_m4). Qed.
Lemma reach_m9 : mreachable m9.
Proof. exact (reach_run _ _ reach_m4 steps_m4_m9). Qed.

(** The limits stay as the store wrote them. *)
Lemma same_resources w : resources (db w) = resources (db m0) → imposes (db w) sid "grp" scene_limits.
Proof.
  intros E. exists scene_group, scene_switches. unfold own_group. rewrite E.
  split_and!; vm_compute; reflexivity.
Qed.
Lemma budget_op op w w' w'' :
  mafter op w = w' → resources (db w') = resources (db m0) →
  rtc (budget_step sid "grp" scene_limits) w' w'' → rtc (budget_step sid "grp" scene_limits) w w''.
Proof.
  intros <- E H. eapply rtc_l; [|exact H]. split; [apply mstep_op|by apply same_resources].
Qed.
Ltac brun op w := apply (budget_op op _ w); [vm_compute; reflexivity|reflexivity|].
Lemma budget_m1_m11 : rtc (budget_step sid "grp" scene_limits) m1 m11.
Proof.
  brun mop2 m2. brun mop3 m3. brun mop4 m4. brun mop5 m5. brun mop6 m6. brun mop7 m7.
  brun mop8 m8. brun mop9 m9. brun mop10 m10. brun mop11 m11. apply rtc_refl.
Qed.
Definition today : string := "2026-01-02".
Lemma held_m1 : held (db m1) sid today "economy" "grp" scene_limits.
Proof. intros x _. destruct x; vm_compute; discriminate. Qed.

(** ** The theorems *)

(** Two attempts are counted, with 820 input tokens; a third is refused. *)
Lemma budget_held_witness :
  held (db m11) sid today "economy" "grp" scene_limits ∧
  length (counted_rows (db m11) sid today (Some "economy"%string) (Some "grp"%string)) = 2%nat ∧
  used DInput (db m11) sid today (Some "economy"%string) (Some "grp"%string) = 820 ∧
  (authorize_attempt no_scope "mcall_4" scene_attempt m11).1
  = Raise (BudgetExhaustedError "daily model attempts budget exhausted").
Proof.
  destruct (budget_held sid today "economy" "grp" scene_limits m1 m11 scene_inflate reach_m1
    (same_resources m1 eq_refl) held_m1 budget_m1_m11) as [H _].
  split_and!; [exact H|vm_compute; reflexivity..].
Defined.

(** The attempt that was lost stays as the recovery left it. *)
Lemma history_kept_witness :
  ∃ a, a ∈ model_attempts (db m4) ∧ ma_status a = AttemptUnknown ∧ a ∈ model_attempts (db m9) ∧
    audits (db m4) `prefix_of` audits (db m9).
Proof.
  destruct (history_kept scene_inflate m4 m9 reach_m4 steps_m4_m9) as (Ha & _ & Hp).
  eexists. split; [apply here|]. split; [reflexivity|]. split; [|exact Hp].
  edestruct Ha as (a' & Hin & _ & E & _); [apply here|]. rewrite -E; [reflexivity|exact Hin].
Defined.

(** The call was retried because the operator said so. *)
Lemma unknown_needs_operator_witness :
  ∃ c, c ∈ model_calls (db m4) ∧ mc_status c = CallUnknown ∧
    ~ (∃ c', c' ∈ model_calls (db m9) ∧ mc_status c' = CallUnknown) ∧
    operator_decision (db m9) (length (audits (db m4))) c.
Proof.
  assert (Hno : ~ (∃ c', c' ∈ model_calls (db m9) ∧ mc_status c' = CallUnknown)).
  { intros (c' & [->|[]%not_elem_of_nil]%elem_of_cons & E). discriminate E. }
  eexists. split_and!; [apply here|reflexivity|exact Hno|].
  edestruct (unknown_needs_operator scene_inflate m4 m9) as (c' & Hc & _ & [E|H]);
    [exact reach_m4|exact steps_m4_m9|apply here|reflexivity| |exact H].
  destruct Hno. by exists c'.
Defined.

Lemma ledger_readable_witness :
  ∃ r rs, get_call "mcall_0" m9 = (Ok r, m9) ∧ cl_status r = CallSucceeded ∧
    attempts "mcall_0" m9 = (Ok rs, m9) ∧ map at_attempt_number rs = [1; 2].
Proof.
  destruct (ledger_readable scene_inflate m9 reach_m9) as (Hc & Ha & _).
  edestruct Hc as (r & Hr & Es & _); [apply here|]. destruct (Ha "mcall_0"%string) as (rs & Hrs & En).
  exists r, rs. split_and!; [exact Hr|exact Es|exact Hrs|exact En].
Defined.

(** A call in flight when the process died becomes unknown. *)
Lemma recovery_settles_witness :
  ∃ rs w', recover_interrupted no_scope sid m3 = (Ok rs, w') ∧
    audits (db w') = audits (db m3) ∧
    (∀ a, a ∈ model_attempts (db w') → ma_subject_id a = sid → active_status (ma_status a) = false) ∧
    ∃ c', c' ∈ model_calls (db w') ∧ mc_status c' = CallUnknown.
Proof.
  destruct (recovery_settles scene_inflate no_scope sid m3 reach_m3 eq_refl)
    as (rs & w' & Hrun & E & Ha & _ & Hc & _).
  exists rs, w'. split; [exact Hrun|]. split; [by rewrite E|]. split; [exact Ha|].
  clear E.
  edestruct Hc as (c' & Hin & _ & E); [apply here|reflexivity|]. by exists c'.
Defined.

(** The same request under the same key, after it has succeeded. *)
Lemma prepare_idempotent_witness :
  ∃ r r' w', (prepare_call no_scope (scene_call "once") m0).1 = Ok (r, true) ∧
    prepare_call no_scope (scene_call "once") m9 = (Ok (r', false), w') ∧
    cl_call_id r' = cl_call_id r ∧ cl_status r' = CallSucceeded ∧
    book_part (db w') = book_part (db m9).
Proof.
  assert (∃ r, prepare_call no_scope (scene_call "once") m0 = (Ok (r, true), m1)) as (r & E1)
    by (eexists; vm_compute; reflexivity).
  assert (∃ r', prepare_call no_scope (scene_call "once") m9 = (Ok (r', false), m9) ∧
    cl_status r' = CallSucceeded) as (r' & E2 & Es)
    by (eexists; split; [vm_compute; reflexivity|reflexivity]).
  assert (Hr : rtc model_step m1 m9)
    by (etrans; [exact steps_m1_m3|]; etrans; [exact steps_m3_m4|exact steps_m4_m9]).
  destruct (prepare_idempotent scene_inflate no_scope (scene_call "once") no_scope
    (scene_call "once") m0 r true m1 m9 r' false m9 reach_m0 E1 Hr eq_refl eq_refl E2)
    as (_ & Hid & Hbook & _).
  exists r, r', m9. split_and!; [by rewrite E1|exact E2|exact Hid|exact Es|exact Hbook].
Defined.

(** The captured request shrinks from 1213 characters to 19. *)
Lemma compression_transparent_witness :
  (get_call "mcall_0" m10).1 = (get_call "mcall_0" m9).1 ∧
  map (λ c, len <$> mc_request_json c) (model_calls (db m9)) = [Some 1213] ∧
  map (λ c, len <$> mc_request_json c) (model_calls (db m10)) = [Some 19].
Proof.
  edestruct (compression_transparent scene_inflate no_scope sid 30 100 m9) as [H _];
    [exact reach_m9|vm_compute; reflexivity|].
  split_and!; [exact (H "mcall_0"%string)|vm_compute; reflexivity..].
Defined.
