(* ===== verification/SnapshotWitness.v ===== *)
(** * Witnesses for the theorems on snapshots, on the scenario's runs

    A subject is created, takes four checkpoints, and its snapshots are
    compacted while the callback takes a fifth; another subject's oldest
    snapshot is the checkpoint of a deep sleep.  The compression is the
    identity. *)

From stdpp Require Import sorting.
From S2P Require Import Prelude Tables PyStr Json Digest Time Sorting Base64 PyDict WalletTypes.
From S2P Require Import KernelDb Events Lifecycle Actions Snapshots Identity SnapshotDelta.
From S2P Require Import SnapshotArchive SnapshotCompact SnapshotRun SnapshotSystem.
From S2P Require Import SnapshotContinuity SnapshotProgress.
Local Open Scope Z_scope.

(** The digest is SHA-256, the clock stands still, and the random
    identifiers are numbers of 32 digits, from the lowest digit on. *)
Fixpoint digits (n k : nat) : string :=
  match n with
  | O => if (k =? 0)%nat then EmptyString else show_Z (Z.of_nat k)
  | S n => String (Ascii.ascii_of_nat (48 + k mod 10)) (digits n (k / 10))
  end.
#[export] Instance scene_digest : Digest := sha256_digest.
#[export] Instance scene_host : Host := {|
  now_at k := "2026-01-02T12:00:00.000+00:00"; uuid_at k := digits 32 k;
  archived_payload _ _ _ _ := Raise (IntegrityError "no archive");
  fence_file_active _ _ := false; migration_target_id := None; evidence_row_limit := 1000 |}.
#[export] Instance stored : Zlib := {| zlib_compress s := s; zlib_decompress s := Some s |}.
#[export] Instance owner : Process := {| lock_held _ := true; rollback_pending _ _ := false |}.

(** Values on which [==] is equality of texts. *)
Definition plain (v : json) : Prop := wf_json v ∧ no_bool v = true.
Lemma plain_distinguishes : distinguishes plain.
Proof. exact no_bool_distinguishes. Qed.
Lemma stored_law s : zlib_decompress (zlib_compress s) = Some s.
Proof. done. Qed.

Definition sid : string := "alice".
Definition base_db : core_db :=
  {| kernel := {| subject_ids := []; events := []; chain_roots := []; training_policies := [];
       training_records := []; runtime_states := []; actions := []; action_revisions := [];
       behavior_logs := []; behavior_revisions := []; kaudits := []; counts := [];
       others := {| retry_blocks := []; goal_owners := []; project_owners := [];
         phase_projects := []; private_messages := []; private_conversations := [];
         migration_epochs := [] |} |};
     identities := []; storage_keys := []; state_snapshots := []; snapshot_archives := [];
     sleep_checkpoints := [] |}.
Definition mood (n : Z) (extra : dict) : dict := ("mood", JStr "calm") :: ("turn", JInt n) :: extra.
Definition take_checkpoint (n : Z) (extra : dict) (w : world core_db) : world core_db :=
  (checkpoint sid (mood n extra) "tick" None w).2.

Definition s0 : world core_db := World base_db 0 0.
Definition s1 := Eval vm_compute in (ensure sid "genesis" "noyra" None None s0).2.
Definition s2 := Eval vm_compute in take_checkpoint 1 [] s1.
Definition s3 := Eval vm_compute in take_checkpoint 2 [("plan", JList [JInt 1])] s2.
Definition s4 := Eval vm_compute in take_checkpoint 3 [] s3.
Definition s5 := Eval vm_compute in take_checkpoint 4 [("plan", JNull)] s4.
Definition request (keep : Z) (rows : option Z) : compact_request :=
  {| cq_keep_recent := keep; cq_batch_size := 256; cq_max_batch_bytes := 8000000;
     cq_max_rows := rows; cq_max_bytes := None; cq_row_budget := None; cq_byte_budget := None;
     cq_max_rows_per_batch := None; cq_max_bytes_per_batch := None |}.
(** Another checkpoint while a compaction runs. *)
Definition meanwhile : option (C unit) :=
  Some (λ w, (Ok tt, if (length (state_snapshots (db w)) =? 4)%nat then take_checkpoint 5 [] w
                     else w)).
Definition s6 := Eval vm_compute in (compact 9 sid (request 2 None) meanwhile s5).2.

(** A subject that slept before its checkpoints. *)
Definition asleep : dict :=
  [("kind", JStr "sleep_checkpoint"); ("sleep_id", JStr "sleep_1"); ("lifecycle", JStr "deep_sleep")].
Definition d1 := Eval vm_compute in (sleep_checkpoint sid asleep (mret tt) s1).2.
Definition d2 := Eval vm_compute in take_checkpoint 2 [] d1.
Definition d3 := Eval vm_compute in take_checkpoint 3 [] d2.

(** A flag that was a boolean and becomes a number. *)
Definition b2 := Eval vm_compute in take_checkpoint 1 [("flag", JBool true)] s1.
Definition b3 := Eval vm_compute in take_checkpoint 2 [("flag", JInt 1)] b2.
Definition b4 := Eval vm_compute in take_checkpoint 3 [] b3.
Definition b5 := Eval vm_compute in take_checkpoint 4 [] b4.
Definition b6 := Eval vm_compute in (compact 9 sid (request 2 None) None b5).2.

(** ** What the runs give *)

(** The compaction archives the three oldest of five and keeps the others. *)
Example compacted :
  map ss_state_version (state_snapshots (db s6)) = [4; 5] ∧
  map sa_snapshot_count (snapshot_archives (db s6)) = [3] ∧
  (compact 9 sid (request 2 None) meanwhile s5).1
  = Ok (Some {| cr_archived := 3; cr_compressed_bytes := 833 |}).
Proof. vm_compute. done. Qed.
(** The compaction of a subject whose oldest snapshot is a sleep checkpoint
    raises. *)
Example sleep_stops_compaction :
  (compact 9 sid (request 2 None) None d3).1 = Raise (SqliteError "FOREIGN KEY constraint failed").
Proof. vm_compute. done. Qed.
(** The archive of the changed flag does not verify, and the snapshots it
    was made from are gone. *)
Example flag_lost :
  (compact 9 sid (request 2 None) None b5).1
  = Ok (Some {| cr_archived := 2; cr_compressed_bytes := 574 |}) ∧
  map ss_state_version (state_snapshots (db b6)) = [3; 4] ∧
  (verify_archives sid b6).1 = Raise (IntegrityError "snapshot archive state hash mismatch").
Proof. vm_compute. done. Qed.

(** ** The theorems *)

(** ** The runs as steps *)

Lemma plain_str s : plain (norm (JStr s)).
Proof. done. Qed.
Lemma plain_int n : plain (norm (JInt n)).
Proof. done. Qed.
Ltac solve_storable :=
  split; [apply wf_obj; split; [apply (bool_decide_unpack _); vm_compute; exact I|]|];
  repeat constructor.
Lemma storable_turn n : storable plain (mood n []).
Proof. solve_storable. Qed.
Lemma storable_list n : storable plain (mood n [("plan", JList [JInt 1])]).
Proof. solve_storable. Qed.
Lemma storable_null n : storable plain (mood n [("plan", JNull)]).
Proof. solve_storable. Qed.
Lemma storable_asleep : storable plain asleep.
Proof. solve_storable. Qed.

Lemma one_step w w' : step plain w w' → steps plain w w'.
Proof. intros H. eapply steps_cons; [exact H|apply steps_nil]. Qed.
Lemma checkpoint_steps n extra w :
  storable plain (mood n extra) → steps plain w (take_checkpoint n extra w).
Proof. intros H. apply one_step. by apply step_checkpoint. Qed.
Lemma reach_s1 : steps plain s0 s1.
Proof.
  apply one_step. replace s1 with (ensure sid "genesis" "noyra" None None s0).2
    by (vm_compute; reflexivity). apply step_ensure.
Qed.
Lemma reach_s5 : steps plain s0 s5.
Proof.
  eapply steps_trans; [exact reach_s1|].
  replace s5 with (take_checkpoint 4 [("plan", JNull)] (take_checkpoint 3 []
    (take_checkpoint 2 [("plan", JList [JInt 1])] (take_checkpoint 1 [] s1))))
    by (vm_compute; reflexivity).
  do 3 (eapply steps_trans; [|apply checkpoint_steps; first [apply storable_turn|apply storable_null|apply storable_list]]).
  apply checkpoint_steps, storable_turn.
Qed.
Lemma meanwhile_steps w : steps plain w (_checkpoint meanwhile w).2.
Proof.
  simpl. destruct (_ =? 4)%nat; [apply checkpoint_steps, storable_turn|apply steps_nil].
Qed.
Lemma reach_s6 : steps plain s5 s6.
Proof.
  apply one_step. replace s6 with (compact 9 sid (request 2 None) meanwhile s5).2
    by (vm_compute; reflexivity). apply step_compact, meanwhile_steps.
Qed.
Lemma empty_s0 : empty_tables (db s0).
Proof. done. Qed.
Lemma continuous_s5 : continuous plain (db s5).
Proof.
  exact (reachable_continuous plain stored_law plain_distinguishes s0 s5 empty_s0 reach_s5).
Qed.

(** ** Witnesses *)

Lemma digit_inj j k : Ascii.ascii_of_nat (48 + j mod 10) = Ascii.ascii_of_nat (48 + k mod 10) →
  (j mod 10 = k mod 10)%nat.
Proof.
  intros E%(f_equal Ascii.nat_of_ascii).
  pose proof (Nat.mod_upper_bound j 10). pose proof (Nat.mod_upper_bound k 10).
  rewrite !Ascii.nat_ascii_embedding in E; lia.
Qed.
Lemma show_not_empty z : show_Z z ≠ EmptyString.
Proof. intros E. pose proof (parse_number_show z EmptyString I) as H. by rewrite E in H. Qed.
Lemma digits_inj n j k : digits n j = digits n k → j = k.
Proof.
  revert j k. induction n as [|n IH]; intros j k; cbn [digits].
  - destruct (Nat.eqb_spec j 0), (Nat.eqb_spec k 0); intros E; [lia| | |].
    + by apply symmetry, show_not_empty in E.
    + by apply show_not_empty in E.
    + pose proof (parse_number_show (Z.of_nat j) EmptyString I) as Hj.
      pose proof (parse_number_show (Z.of_nat k) EmptyString I) as Hk.
      rewrite E Hk in Hj. injection Hj as Hj. lia.
  - intros E. injection E as Ed Er. apply digit_inj in Ed. apply IH in Er.
    change (j / 10 = k / 10)%nat in Er.
    pose proof (Nat.div_mod_eq j 10). pose proof (Nat.div_mod_eq k 10). lia.
Qed.
Lemma uuid_distinct j k : uuid_at j = uuid_at k → j = k.
Proof. apply digits_inj. Qed.

Definition before : dict := [("a", JInt 1); ("b", JStr "x")].
Definition after : dict := [("b", JStr "y"); ("c", JNull)].
Lemma delta_roundtrip_witness :
  wf_json (JObj before) ∧ wf_json (JObj after) ∧
  ∃ m, _apply_delta before (Some (_delta before after)) = Ok m ∧
    (canonical_json (JObj m) = canonical_json (JObj after) ↔ unconfused before after).
Proof.
  assert (H1 : wf_json (JObj before)).
  { apply wf_obj. split; [apply (bool_decide_unpack _); vm_compute; exact I|repeat constructor]. }
  assert (H2 : wf_json (JObj after)).
  { apply wf_obj. split; [apply (bool_decide_unpack _); vm_compute; exact I|repeat constructor]. }
  split; [exact H1|]. split; [exact H2|]. exact (delta_roundtrip before after H1 H2).
Defined.

Lemma compaction_safe_witness :
  snap_ok plain (db s5) ∧ no_loss plain 2 (db s5) (db (compact 9 sid (request 2 None) None s5).2).
Proof.
  pose proof (proj1 continuous_s5) as Hs. split; [exact Hs|].
  assert (Hq : ∀ b, compact_bounds_of (request 2 None) = Ok b → 2 <= cb_keep b).
  { intros b Hb. exact (bounds_keep _ b Hb). }
  assert (Hcb : always (evolves plain 2) (_checkpoint None)).
  { intros w Hw. apply no_loss_refl. exact Hw. }
  exact (compaction_safe stored_law plain 2 9 sid (request 2 None) None plain_distinguishes Hq Hcb s5 Hs).
Defined.

Definition budget_bounds : compact_bounds :=
  {| cb_keep := 2; cb_batch := 256; cb_batch_bytes := 8000000; cb_rows := Some 1; cb_bytes := None |}.
Lemma compact_terminates_witness :
  compact_bounds_of (request 2 (Some 1)) = Ok budget_bounds ∧ cb_rows budget_bounds = Some 1 ∧
  ∃ out, (∀ fuel, 8 * 1 + 9 <= Z.of_nat fuel →
            compact fuel sid (request 2 (Some 1)) meanwhile s5 = out) ∧ bounded 1 out.1.
Proof.
  assert (Hb : compact_bounds_of (request 2 (Some 1)) = Ok budget_bounds) by reflexivity.
  split; [exact Hb|]. split; [reflexivity|].
  exact (compact_terminates sid (request 2 (Some 1)) meanwhile budget_bounds 1 s5 Hb eq_refl).
Defined.

(** The snapshot of the deep sleep. *)
Definition oldest : state_snapshot_row :=
  Eval vm_compute in
    match state_snapshots (db d3) with r :: _ => r | [] =>
      {| ss_snapshot_id := ""; ss_subject_id := ""; ss_state_version := 0; ss_state_json := "";
         ss_state_hash := ""; ss_reason := ""; ss_created_at := "" |} end.
(** A callback that stores a key at every checkpoint. *)
Definition stores_key : C unit := modify (set_storage_keys (λ t, t ++ [("alice", "key")%string])).
Definition same_tables (d : core_db) : Prop :=
  state_snapshots d = state_snapshots (db d3) ∧ snapshot_archives d = snapshot_archives (db d3).
Lemma referenced_blocks_witness :
  stuck sid oldest (db d3) ∧ 0 < Z.of_nat (length (state_snapshots (db d3))) ∧
  storage_keys (db (compact 9 sid (request 2 None) (Some stores_key) d3).2)
    ≠ storage_keys (db d3) ∧
  same_tables (db (compact 9 sid (request 2 None) (Some stores_key) d3).2).
Proof.
  assert (Hst : stuck sid oldest (db d3)).
  { split; [apply (bool_decide_unpack _); vm_compute; exact I| |vm_compute; reflexivity].
    apply Forall_forall. apply (bool_decide_unpack _). vm_compute. exact I. }
  split; [exact Hst|]. split; [vm_compute; reflexivity|]. split; [vm_compute; discriminate|].
  apply (referenced_blocks 9 sid (request 2 None) (Some stores_key) oldest same_tables d3);
    [|exact Hst|split; reflexivity].
  intros m w1 [= <-] [H1 H2 H3] HP. split; [split; [exact H1|exact H2|exact H3]|exact HP].
Defined.

Definition alice6 : identity_row :=
  Eval vm_compute in
    match identities (db s6) with r :: _ => r | [] => new_identity "" "" "" None None "" end.
Lemma reach_s6' : steps plain s0 s6.
Proof. exact (steps_trans _ _ _ _ reach_s5 reach_s6). Qed.
Lemma continuity_verified_witness :
  alice6 ∈ identities (db s6) ∧ verify_continuity sid s6 = (Ok tt, s6) ∧
  verify_archives sid s6 = (Ok 1, s6).
Proof.
  assert (Hi : alice6 ∈ identities (db s6)).
  { apply (list_elem_of_lookup_2 _ 0). reflexivity. }
  split; [exact Hi|].
  exact (continuity_verified plain stored_law plain_distinguishes s0 s6 alice6 empty_s0 reach_s6' Hi).
Defined.

Definition first_snapshot : state_snapshot_row :=
  Eval vm_compute in match state_snapshots (db s5) with r :: _ => r | [] => oldest end.
Lemma snapshots_kept_witness :
  first_snapshot ∈ state_snapshots (db s5) ∧
  (first_snapshot ∈ state_snapshots (db s6) ∨
   (restorable (db s6) first_snapshot ∧ 2 <= above sid 2 (db s6))).
Proof.
  assert (Hi : first_snapshot ∈ state_snapshots (db s5)).
  { apply (list_elem_of_lookup_2 _ 0). reflexivity. }
  split; [exact Hi|].
  exact (snapshots_kept plain stored_law plain_distinguishes s0 s5 s6 first_snapshot empty_s0
           reach_s5 reach_s6 Hi).
Defined.

Definition fifth : SnapshotRecord :=
  Eval vm_compute in
    match (checkpoint sid (mood 5 []) "tick" None s5).1 with
    | Ok r => r
    | Raise _ => {| sr_snapshot_id := ""; sr_subject_id := ""; sr_state_version := 0; sr_state := [];
                    sr_state_hash := ""; sr_reason := ""; sr_created_at := "" |}
    end.
Definition s5' := Eval vm_compute in take_checkpoint 5 [] s5.
Lemma checkpoint_latest_witness :
  ok (checkpoint sid (mood 5 []) "tick" None) s5 fifth s5' ∧
  ∃ found, latest_snapshot sid s5' = (Ok found, s5') ∧ sr_snapshot_id found = sr_snapshot_id fifth ∧
    canonical_json (JObj (sr_state found)) = canonical_json (JObj (mood 5 [])).
Proof.
  assert (Hok : ok (checkpoint sid (mood 5 []) "tick" None) s5 fifth s5')
    by (vm_compute; reflexivity).
  split; [exact Hok|].
  exact (checkpoint_latest plain stored_law plain_distinguishes s0 s5 sid (mood 5 []) "tick" None
           fifth s5' empty_s0 reach_s5 (storable_turn 5) Hok).
Defined.

Definition free_bounds : compact_bounds :=
  {| cb_keep := 2; cb_batch := 256; cb_batch_bytes := 8000000; cb_rows := None; cb_bytes := None |}.
Lemma ready_s5 : ready sid free_bounds 3 s5.
Proof.
  destruct continuous_s5 as [Hs _]. split.
  - apply (snap_ids _ _ Hs).
  - exact (subject_versions plain sid _ Hs).
  - intros r Hr. split.
    + pose proof (snap_saved _ _ Hs) as Hsv. rewrite -> Forall_forall in Hsv.
      destruct (Hsv r) as (s & ? & _); [by apply elem_of_select in Hr as [? _]|]. by exists s.
    + revert r Hr. apply Forall_forall. apply (bool_decide_unpack _). vm_compute. exact I.
  - vm_compute. discriminate.
  - vm_compute. reflexivity.
  - intros n a _ Ha. by apply not_elem_of_nil in Ha.
Qed.
Lemma compact_completes_witness :
  compact_bounds_of (request 2 None) = Ok free_bounds ∧ ready sid free_bounds 3 s5 ∧
  ∃ report w', compact 5 sid (request 2 None) None s5 = (Ok (Some report), w') ∧
    Z.of_nat (length (snapshots_of sid (db w'))) <= 2.
Proof.
  assert (Hb : compact_bounds_of (request 2 None) = Ok free_bounds) by reflexivity.
  assert (Hf : (length (snapshots_of sid (db s5)) < 5)%nat) by (vm_compute; lia).
  split; [exact Hb|]. split; [exact ready_s5|].
  exact (compact_completes 5 sid (request 2 None) free_bounds 3 s5 uuid_distinct Hb eq_refl eq_refl
           ready_s5 Hf).
Defined.
