(* ===== verification/RegistryTypes.v ===== *)
(** * Wallet registry inputs ([src/src/noyra/wallet/types.py])

    The validated inputs of the wallet registry: networks, assets, addresses
    and observed balances.  [_rpc_url] reads its argument with
    [urllib.parse.urlsplit], which is modelled here; what it asks about host
    names ([idna], [ipaddress]) is the interface [HostNames]. *)

From S2P Require Import Prelude Tables PyStr Json Digest Time WalletTypes.
Local Open Scope Z_scope.

(** The default age window of an observation ([wallet/store.py]). *)
Definition WALLET_BALANCE_OBSERVATION_MAX_AGE_SECONDS : Z := 86400.

(** ** Text *)

Definition _nonblank_text (value field : string) (maximum : Z) : result string :=
  let candidate := strip value in
  if (candidate == EmptyString) || (maximum <? len candidate) then
    Raise (ValueError ("wallet " +:+ field +:+ " is invalid"))
  else Ok candidate.

(** [str.upper()]: ASCII letters, and sharp s, which becomes two letters.
    The other letters above 127 stay above 127, where no symbol accepts them. *)
Fixpoint upper (s : string) : string :=
  match s with
  | EmptyString => EmptyString
  | String c s' =>
      if is_lower c then String (chr (code c - 32)) (upper s')
      else if (code c =? 223)%N then String (chr 83) (String (chr 83) (upper s'))
      else String c (upper s')
  end.

(** [[A-Z0-9._-]{1,32}]. *)
Definition symbol_char (c : Ascii.ascii) : bool :=
  is_upper c || is_digit c || (code c =? 46)%N || (code c =? 95)%N || (code c =? 45)%N.
Definition symbol_match (s : string) : bool :=
  str_forallb symbol_char s && (1 <=? len s) && (len s <=? 32).
Definition _symbol (value field : string) : result string :=
  text ← _nonblank_text value field 32;
  let candidate := upper text in
  if symbol_match candidate then Ok candidate
  else Raise (ValueError ("wallet " +:+ field +:+ " is invalid")).

(** [(?:0|[1-9][0-9]{0,255})]. *)
Definition balance_match (s : string) : bool :=
  numeral s && (len s <=? 256) && negb (leading_zero s).
Definition canonical_balance (value : string) : result string :=
  if balance_match value then Ok value
  else Raise (ValueError "wallet balance must be a canonical decimal string").

(** [[a-z][a-z0-9_]{0,63}]. *)
Definition source_match (s : string) : bool :=
  match s with
  | String c s' =>
      is_lower c && str_forallb (λ c, is_lower c || is_digit c || (code c =? 95)%N) s'
      && (len s <=? 64)
  | EmptyString => false
  end.

Definition validate_timestamp (value : string) : bool :=
  match fromisoformat value with Some (_, Some _) => true | _ => false end.

(** ** URLs *)

(** What [_rpc_url] asks about host names: [host.encode("idna")]
    ([None] is [UnicodeError]), [ipaddress.ip_address(host).is_global]
    ([None] is [ValueError]: not an address), and whether the brackets of a
    [netloc] hold an address ([urllib.parse._check_bracketed_netloc]). *)
Class HostNames := {
  idna_encode : string → option string;
  ip_is_global : string → option bool;
  bracketed_ok : string → bool;
}.

(** [s.partition(c)] and [s.rpartition(c)]: the parts before and after the
    first or the last [c]; [None] where there is none. *)
Fixpoint partition_at (c : N) (s : string) : option (string * string) :=
  match s with
  | EmptyString => None
  | String x s' =>
      if (code x =? c)%N then Some (EmptyString, s')
      else '(a, b) ← partition_at c s'; Some (String x a, b)
  end.
Fixpoint rpartition_at (c : N) (s : string) : option (string * string) :=
  match s with
  | EmptyString => None
  | String x s' =>
      match rpartition_at c s' with
      | Some (a, b) => Some (String x a, b)
      | None => if (code x =? c)%N then Some (EmptyString, s') else None
      end
  end.
Definition has_char (c : N) (s : string) : bool :=
  negb (str_forallb (λ x, negb (code x =? c)%N) s).
(** The part of [s] before the first character that satisfies [p], and the rest. *)
Fixpoint split_when (p : Ascii.ascii → bool) (s : string) : string * string :=
  match s with
  | EmptyString => (EmptyString, EmptyString)
  | String c s' =>
      if p c then (EmptyString, s)
      else let '(a, b) := split_when p s' in (String c a, b)
  end.
Fixpoint str_filter (p : Ascii.ascii → bool) (s : string) : string :=
  match s with
  | EmptyString => EmptyString
  | String c s' => if p c then String c (str_filter p s') else str_filter p s'
  end.
Fixpoint lstrip_control (s : string) : string :=
  match s with
  | String c s' => if (code c <=? 32)%N then lstrip_control s' else s
  | EmptyString => EmptyString
  end.

Record SplitResult := {
  u_scheme : string; u_netloc : string; u_path : string; u_query : string; u_fragment : string;
}.

Definition scheme_char (c : Ascii.ascii) : bool :=
  is_alnum c || (code c =? 43)%N || (code c =? 45)%N || (code c =? 46)%N.
Definition split_scheme (url : string) : string * string :=
  match partition_at 58 url with
  | Some (String c a as scheme, rest) =>
      if (is_upper c || is_lower c) && str_forallb scheme_char scheme
      then (lower scheme, rest) else (EmptyString, url)
  | _ => (EmptyString, url)
  end.

Section urls.
Context {Hosts : HostNames}.

(** [urlsplit(url)]; [None] is [ValueError]. *)
Definition urlsplit (url : string) : option SplitResult :=
  let url := str_filter (λ c, negb ((code c =? 9)%N || (code c =? 10)%N || (code c =? 13)%N))
               (lstrip_control url) in
  let '(scheme, url) := split_scheme url in
  let '(netloc, url) :=
    match strip_prefix "//" url with
    | Some rest => split_when (λ c, (code c =? 47)%N || (code c =? 63)%N || (code c =? 35)%N) rest
    | None => (EmptyString, url)
    end in
  if negb (Bool.eqb (has_char 91 netloc) (has_char 93 netloc)) then None
  else if has_char 91 netloc && negb (bracketed_ok netloc) then None
  else
    let '(url, fragment) := match partition_at 35 url with
                            | Some (a, b) => (a, b) | None => (url, EmptyString) end in
    let '(url, query) := match partition_at 63 url with
                         | Some (a, b) => (a, b) | None => (url, EmptyString) end in
    Some {| u_scheme := scheme; u_netloc := netloc; u_path := url; u_query := query;
            u_fragment := fragment |}.

(** [SplitResult._hostinfo]. *)
Definition hostinfo (netloc : string) : string * string :=
  let info := match rpartition_at 64 netloc with Some (_, b) => b | None => netloc end in
  match partition_at 91 info with
  | Some (_, bracketed) =>
      let '(host, rest) := match partition_at 93 bracketed with
                           | Some (a, b) => (a, b) | None => (bracketed, EmptyString) end in
      (host, match partition_at 58 rest with Some (_, p) => p | None => EmptyString end)
  | None => match partition_at 58 info with Some (h, p) => (h, p) | None => (info, EmptyString) end
  end.
(** [.hostname]: the zone of an IPv6 address keeps its case. *)
Definition hostname (netloc : string) : option string :=
  let host := (hostinfo netloc).1 in
  if host == EmptyString then None
  else Some match partition_at 37 host with
            | Some (h, zone) => lower h +:+ "%" +:+ zone
            | None => lower host
            end.
(** [.port]: [Some None] where the URL has none; [None] is [ValueError]. *)
Definition port (netloc : string) : option (option Z) :=
  let p := (hostinfo netloc).2 in
  if p == EmptyString then Some None
  else if str_forallb is_digit p then
    match py_int p with
    | Some n => if n <=? 65535 then Some (Some n) else None
    | None => None
    end
  else None.

Definition _rpc_url (value : string) : result string :=
  candidate ← _nonblank_text value "RPC URL" 512;
  match urlsplit candidate with
  | None => Raise (ValueError "wallet RPC URL is invalid")
  | Some parsed =>
      match port (u_netloc parsed) with
      | None => Raise (ValueError "wallet RPC URL is invalid")
      | Some p =>
          match hostname (u_netloc parsed) with
          | Some host =>
              if (lower (u_scheme parsed) =/= "https") || has_char 64 (u_netloc parsed)
                 || (u_query parsed =/= "") || (u_fragment parsed =/= "")
                 || negb ((p == None) || (p == Some 443))
                 || negb ((u_path parsed == "") || (u_path parsed == "/"))
              then Raise (ValueError "wallet RPC URL must be a credential-free HTTPS origin")
              else
                match idna_encode host with
                | None => Raise (ValueError "wallet RPC URL is invalid")
                | Some ascii =>
                    let host := lower ascii in
                    if host == "localhost" then
                      Raise (ValueError "wallet RPC URL must use a public endpoint")
                    else if ip_is_global host == Some false then
                      Raise (ValueError "wallet RPC URL must use a public endpoint")
                    else
                      let netloc := if has_char 58 host then "[" +:+ host +:+ "]" else host in
                      Ok ("https://" +:+ netloc)
                end
          | None => Raise (ValueError "wallet RPC URL must be a credential-free HTTPS origin")
          end
      end
  end.

(** ** Inputs *)

Record WalletNetworkInput := {
  ni_label : string;
  ni_chain_family : string;
  ni_chain_id : Z;
  ni_native_symbol : string;
  ni_rpc_url : option string;
}.
Definition validate_rpc_url (value : option string) : result (option string) :=
  match value with
  | None => Ok None
  | Some s => _ ← length_between 0 512 s; u ← _rpc_url s; Ok (Some u)
  end.
Definition validate_WalletNetworkInput (p : WalletNetworkInput) : result WalletNetworkInput :=
  _ ← length_between 1 128 (ni_label p);
  label ← _nonblank_text (ni_label p) "network label" 128;
  _ ← check (ni_chain_family p == "evm") "Input should be 'evm'";
  _ ← between 1 SQLITE_INT64_MAX (ni_chain_id p);
  _ ← length_between 1 32 (ni_native_symbol p);
  native_symbol ← _symbol (ni_native_symbol p) "native symbol";
  rpc_url ← validate_rpc_url (ni_rpc_url p);
  Ok {| ni_label := label; ni_chain_family := ni_chain_family p; ni_chain_id := ni_chain_id p;
        ni_native_symbol := native_symbol; ni_rpc_url := rpc_url |}.
End urls.

Record WalletAssetInput := {
  ai_network_id : string;
  ai_asset_type : string;
  ai_contract_address : option string;
  ai_name : string;
  ai_symbol : string;
  ai_decimals : Z;
}.
Definition validate_contract_address (value : option string) : result (option string) :=
  match value with
  | None => Ok None
  | Some s => _ ← length_between 0 42 s; a ← canonical_evm_address s; Ok (Some a)
  end.
Definition validate_WalletAssetInput (p : WalletAssetInput) : result WalletAssetInput :=
  _ ← length_between 1 128 (ai_network_id p);
  network_id ← _nonblank_text (ai_network_id p) "network identifier" 128;
  _ ← check ((ai_asset_type p == "native") || (ai_asset_type p == "token"))
        "Input should be 'native' or 'token'";
  contract_address ← validate_contract_address (ai_contract_address p);
  _ ← length_between 1 128 (ai_name p);
  name ← _nonblank_text (ai_name p) "asset name" 128;
  _ ← length_between 1 32 (ai_symbol p);
  symbol ← _symbol (ai_symbol p) "asset symbol";
  _ ← between 0 255 (ai_decimals p);
  _ ← check (negb ((ai_asset_type p == "native") && bool_decide (is_Some contract_address)))
        "native assets cannot have a contract address";
  _ ← check (negb ((ai_asset_type p == "token") && (contract_address == None)))
        "token assets require a contract address";
  Ok {| ai_network_id := network_id; ai_asset_type := ai_asset_type p;
        ai_contract_address := contract_address; ai_name := name; ai_symbol := symbol;
        ai_decimals := ai_decimals p |}.

Record WalletAddressInput := {
  di_network_id : string;
  di_label : string;
  di_address : string;
  di_purpose : string;
}.
Definition address_purposes : list string := ["treasury"; "spending"; "observation"; "external"].
Definition validate_WalletAddressInput (p : WalletAddressInput) : result WalletAddressInput :=
  _ ← length_between 1 128 (di_network_id p);
  network_id ← _nonblank_text (di_network_id p) "network identifier" 128;
  _ ← length_between 1 128 (di_label p);
  label ← _nonblank_text (di_label p) "address label" 128;
  _ ← length_between 42 42 (di_address p);
  address ← canonical_evm_address (di_address p);
  _ ← check (bool_decide (di_purpose p ∈ address_purposes)) "Input should be a known purpose";
  Ok {| di_network_id := network_id; di_label := label; di_address := address;
        di_purpose := di_purpose p |}.

Record WalletBalanceSnapshotInput := {
  bs_asset_id : string;
  bs_address_id : string;
  bs_balance : string;
  bs_source : string;
  bs_observed_at : option string;
}.
Definition validate_source (value : string) : result string :=
  candidate ← _nonblank_text value "balance source" 64;
  _ ← check (source_match candidate) "wallet balance source is invalid";
  Ok candidate.
Definition validate_observed_at (value : option string) : result (option string) :=
  match value with
  | None => Ok None
  | Some s => _ ← length_between 0 64 s; t ← canonical_timestamp s; Ok (Some t)
  end.
Definition validate_WalletBalanceSnapshotInput (p : WalletBalanceSnapshotInput)
    : result WalletBalanceSnapshotInput :=
  _ ← length_between 1 128 (bs_asset_id p);
  asset_id ← _nonblank_text (bs_asset_id p) "balance identifier" 128;
  _ ← length_between 1 128 (bs_address_id p);
  address_id ← _nonblank_text (bs_address_id p) "balance identifier" 128;
  _ ← length_between 1 256 (bs_balance p);
  balance ← canonical_balance (bs_balance p);
  _ ← length_between 1 64 (bs_source p);
  source ← validate_source (bs_source p);
  observed_at ← validate_observed_at (bs_observed_at p);
  Ok {| bs_asset_id := asset_id; bs_address_id := address_id; bs_balance := balance;
        bs_source := source; bs_observed_at := observed_at |}.

(** ** Examples *)

(** The host names of plain ASCII, where [idna] only checks the labels, and
    no address literals. *)
Definition ascii_label (last : bool) (s : string) : bool :=
  (len s <? 64) && (last || (0 <? len s)).
Fixpoint ascii_labels (fuel : nat) (s : string) : bool :=
  match fuel with
  | O => false
  | S fuel =>
      match partition_at 46 s with
      | Some (a, b) => ascii_label false a && ascii_labels fuel b
      | None => ascii_label true s
      end
  end.
Definition ascii_hosts : HostNames := {|
  idna_encode s := if str_forallb (λ c, (code c <? 128)%N) s && ascii_labels (S (String.length s)) s
                   then Some s else None;
  ip_is_global s := None; bracketed_ok s := false |}.

Example rpc_url_origin :
  @_rpc_url ascii_hosts " HTTPS://RPC.Example.org:443/ " = Ok "https://rpc.example.org".
Proof. vm_compute. reflexivity. Qed.
Example rpc_url_credentials :
  is_ok (@_rpc_url ascii_hosts "https://user@rpc.example.org") = false
  ∧ is_ok (@_rpc_url ascii_hosts "https://rpc.example.org/path") = false
  ∧ is_ok (@_rpc_url ascii_hosts "https://rpc.example.org:8545") = false
  ∧ is_ok (@_rpc_url ascii_hosts "http://rpc.example.org") = false.
Proof. vm_compute. auto. Qed.
(** A host name that ends in a space is accepted, but not as it is stored. *)
Example rpc_url_unstable :
  @_rpc_url ascii_hosts "https://rpc.example.org :443" = Ok "https://rpc.example.org "
  ∧ @_rpc_url ascii_hosts "https://rpc.example.org " = Ok "https://rpc.example.org".
Proof. vm_compute. auto. Qed.
