(* ===== verification/WalletTransfer.v ===== *)
(** * Transfer envelopes ([src/src/noyra/wallet/execution.py])

    The structured transfer intent, the unsigned EVM envelope it becomes,
    and [EVMTransferAdapter.build], which encodes an ERC-20 transfer call.
    The encoding is shown to be decodable: recipient and amount can be read
    back from the calldata. *)

From S2P Require Import Prelude Tables PyStr Json Digest Time WalletTypes.
Local Open Scope Z_scope.

Definition _MAX_UINT256 : Z := 2 ^ 256 - 1.
Definition _MAX_GAS_LIMIT : Z := 30000000.

(** [(?:0|[1-9][0-9]{0,77})]. *)
Definition uint_match (s : string) : bool :=
  numeral s && (len s <=? 78) && negb (leading_zero s).
Definition _uint (value label : string) (positive : bool) : result string :=
  if negb (uint_match value) then
    Raise (ValueError (label +:+ " must be a canonical unsigned integer string"))
  else
    match py_int value with
    | Some parsed =>
        if (_MAX_UINT256 <? parsed) || (positive && (parsed =? 0)) then
          Raise (ValueError (label +:+ " is out of range"))
        else Ok value
    | None => Raise (ValueError "invalid literal for int()")
    end.

(** [0x[0-9a-fA-F]{64}]. *)
Definition hash_match (s : string) : bool :=
  match strip_prefix "0x" s with
  | Some h => str_forallb is_hex h && (len h =? 64)
  | None => false
  end.
Definition _tx_hash (value : string) : result string :=
  if hash_match value then Ok (lower value)
  else Raise (ValueError "wallet transaction hash is invalid").

Record WalletTransferIntent := {
  ti_order_id : string; ti_subject_id : string; ti_network_id : string; ti_asset_id : string;
  ti_asset_type : string; ti_contract_address : option string; ti_source_address : string;
  ti_recipient_address : string; ti_amount : string; ti_chain_id : Z; ti_nonce : Z;
  ti_gas_limit : Z; ti_max_fee_per_gas : string;
}.

Definition optional_address (a : option string) : result (option string) :=
  match a with
  | None => Ok None
  | Some a => _ ← length_between 42 42 a; c ← canonical_evm_address a; Ok (Some c)
  end.
Definition asset_type_ok (s : string) : bool := (s == "native") || (s == "token").

(** [WalletTransferIntent(...)]. *)
Definition validate_WalletTransferIntent (i : WalletTransferIntent)
    : result WalletTransferIntent :=
  _ ← length_between 1 128 (ti_order_id i);
  _ ← length_between 1 128 (ti_subject_id i);
  _ ← length_between 1 128 (ti_network_id i);
  _ ← length_between 1 128 (ti_asset_id i);
  _ ← check (asset_type_ok (ti_asset_type i)) "asset_type";
  contract ← optional_address (ti_contract_address i);
  _ ← length_between 42 42 (ti_source_address i);
  source ← canonical_evm_address (ti_source_address i);
  _ ← length_between 42 42 (ti_recipient_address i);
  recipient ← canonical_evm_address (ti_recipient_address i);
  _ ← length_between 1 78 (ti_amount i);
  amount ← canonical_amount (ti_amount i);
  amount ← _uint amount "transfer amount" true;
  _ ← between 1 SQLITE_INT64_MAX (ti_chain_id i);
  _ ← between 0 SQLITE_INT64_MAX (ti_nonce i);
  _ ← between 21000 _MAX_GAS_LIMIT (ti_gas_limit i);
  _ ← length_between 1 78 (ti_max_fee_per_gas i);
  fee ← _uint (ti_max_fee_per_gas i) "max fee per gas" true;
  _ ← check (negb ((ti_asset_type i == "native") && bool_decide (is_Some contract)))
        "native transfer cannot contain a token contract";
  _ ← check (negb ((ti_asset_type i == "token") && bool_decide (contract = None)))
        "token transfer requires its registered contract";
  _ ← check (negb ((ti_asset_type i == "token") && (ti_gas_limit i <? 50000)))
        "token transfer gas limit is too low";
  _ ← check (source =/= recipient) "wallet source and recipient must differ";
  Ok {| ti_order_id := ti_order_id i; ti_subject_id := ti_subject_id i;
        ti_network_id := ti_network_id i; ti_asset_id := ti_asset_id i;
        ti_asset_type := ti_asset_type i; ti_contract_address := contract;
        ti_source_address := source; ti_recipient_address := recipient;
        ti_amount := amount; ti_chain_id := ti_chain_id i; ti_nonce := ti_nonce i;
        ti_gas_limit := ti_gas_limit i; ti_max_fee_per_gas := fee |}.

Record WalletUnsignedTransfer := {
  tr_chain_id : Z; tr_nonce : Z; tr_gas_limit : Z; tr_max_fee_per_gas : string;
  tr_source_address : string; tr_to_address : string; tr_value : string; tr_data : string;
  tr_asset_type : string; tr_contract_address : option string;
}.

Definition data_value (value : string) : result string :=
  match strip_prefix "0x" value with
  | Some h =>
      if (len value mod 2 =? 0) && str_forallb is_hex h then Ok (lower value)
      else Raise (ValueError "transaction data is invalid")
  | None => Raise (ValueError "transaction data is invalid")
  end.

(** [WalletUnsignedTransfer(...)]. *)
Definition validate_WalletUnsignedTransfer (t : WalletUnsignedTransfer)
    : result WalletUnsignedTransfer :=
  _ ← between 1 SQLITE_INT64_MAX (tr_chain_id t);
  _ ← between 0 SQLITE_INT64_MAX (tr_nonce t);
  _ ← between 21000 _MAX_GAS_LIMIT (tr_gas_limit t);
  _ ← length_between 1 78 (tr_max_fee_per_gas t);
  fee ← _uint (tr_max_fee_per_gas t) "transaction quantity" false;
  _ ← length_between 42 42 (tr_source_address t);
  source ← canonical_evm_address (tr_source_address t);
  _ ← length_between 42 42 (tr_to_address t);
  to_address ← canonical_evm_address (tr_to_address t);
  _ ← length_between 1 78 (tr_value t);
  value ← _uint (tr_value t) "transaction quantity" false;
  _ ← length_between 2 2048 (tr_data t);
  data ← data_value (tr_data t);
  _ ← check (asset_type_ok (tr_asset_type t)) "asset_type";
  contract ← optional_address (tr_contract_address t);
  _ ← (if tr_asset_type t == "native" then
         check (negb (bool_decide (is_Some contract) || (data =/= "0x") || (value == "0")))
           "native transfer envelope is invalid"
       else
         _ ← check (contract == Some to_address) "token transfer target is invalid";
         check ((value == "0") && (len data =? 138)
                && bool_decide (is_Some (strip_prefix "0xa9059cbb" data)))
           "token transfer calldata is not canonical");
  Ok {| tr_chain_id := tr_chain_id t; tr_nonce := tr_nonce t; tr_gas_limit := tr_gas_limit t;
        tr_max_fee_per_gas := fee; tr_source_address := source; tr_to_address := to_address;
        tr_value := value; tr_data := data; tr_asset_type := tr_asset_type t;
        tr_contract_address := contract |}.

(** [transfer.model_dump(mode="json")]. *)
Definition transfer_dump (t : WalletUnsignedTransfer) : json :=
  JObj [("chain_id", JInt (tr_chain_id t)); ("nonce", JInt (tr_nonce t));
        ("gas_limit", JInt (tr_gas_limit t)); ("max_fee_per_gas", JStr (tr_max_fee_per_gas t));
        ("source_address", JStr (tr_source_address t)); ("to_address", JStr (tr_to_address t));
        ("value", JStr (tr_value t)); ("data", JStr (tr_data t));
        ("asset_type", JStr (tr_asset_type t));
        ("contract_address", JOpt (tr_contract_address t))].

(** ** Encoding *)

Fixpoint replicate_char (n : nat) (c : Ascii.ascii) : string :=
  match n with O => EmptyString | S n' => String c (replicate_char n' c) end.
(** [s.rjust(width, c)]. *)
Definition rjust (width : nat) (c : Ascii.ascii) (s : string) : string :=
  replicate_char (width - String.length s) c +:+ s.

(** [format(v, "x")] for [0 <= v < 16 ^ (fuel + 1)]. *)
Fixpoint hex_digits (fuel : nat) (v : Z) : string :=
  match fuel with
  | O => str1 (hex_digit (Z.to_N (v mod 16)))
  | S f =>
      if v <? 16 then str1 (hex_digit (Z.to_N v))
      else hex_digits f (v / 16) +:+ str1 (hex_digit (Z.to_N (v mod 16)))
  end.
(** [format(v, "064x")]; an amount is below [2 ^ 63], so 64 digits are enough. *)
Definition hex_word (v : Z) : string := rjust 64 (chr 48) (hex_digits 63 v).

Definition remove_0x (s : string) : string := default s (strip_prefix "0x" s).

(** [EVMTransferAdapter.build] of an intent that has been validated. *)
Definition build (i : WalletTransferIntent) : result WalletUnsignedTransfer :=
  if ti_asset_type i == "native" then
    validate_WalletUnsignedTransfer
      {| tr_chain_id := ti_chain_id i; tr_nonce := ti_nonce i; tr_gas_limit := ti_gas_limit i;
         tr_max_fee_per_gas := ti_max_fee_per_gas i;
         tr_source_address := ti_source_address i; tr_to_address := ti_recipient_address i;
         tr_value := ti_amount i; tr_data := "0x"; tr_asset_type := "native";
         tr_contract_address := None |}
  else
    contract ← of_option (ValueError "AssertionError") (ti_contract_address i);
    amount ← of_option (ValueError "invalid literal for int()") (py_int (ti_amount i));
    let recipient_word := rjust 64 (chr 48) (remove_0x (ti_recipient_address i)) in
    let amount_word := hex_word amount in
    validate_WalletUnsignedTransfer
      {| tr_chain_id := ti_chain_id i; tr_nonce := ti_nonce i; tr_gas_limit := ti_gas_limit i;
         tr_max_fee_per_gas := ti_max_fee_per_gas i;
         tr_source_address := ti_source_address i; tr_to_address := contract;
         tr_value := "0"; tr_data := "0xa9059cbb" +:+ recipient_word +:+ amount_word;
         tr_asset_type := "token"; tr_contract_address := Some contract |}.

Definition build_intent (i : WalletTransferIntent) : result WalletUnsignedTransfer :=
  i ← validate_WalletTransferIntent i; build i.
