(* ===== verification/WalletDb.v ===== *)
(** * The wallet tables ([core/schema/migrations_v055_v069.py],
    [migrations_v070_v107.py], [core/schema/evidence.py], [core/wallet_schema.py])

    Rows, the constraints and triggers SQLite enforces on them, and the
    state hash of every row.  The schema is the current one: payment orders
    have the [authorized_at] column, policies have [automation_enabled].
    Columns no modelled code reads or writes are left out.

    Constraints that cannot fail in the modelled code are not repeated: the
    length-64 hexadecimal checks on hash columns (every such value is a
    [hexdigest]), the checks that a status column holds one of its names
    (the rows hold constructors), and the foreign keys to rows the same
    transaction has just read or inserted. *)

From S2P Require Import Prelude Tables PyStr Json Digest Time WalletTypes.
Local Open Scope Z_scope.

(** What the code reads from outside the database: the economy store's
    clock, the wall clock, [uuid4], and whether the process is a
    production process holding valid release evidence. *)
Class Env := {
  clock_at : nat → string;
  utc_now_at : nat → string;
  uuid4_hex : nat → string;
  production : bool;
  current_evidence_ok : bool;
}.

(** ** Rows *)

(** The lifecycle columns that networks, assets and addresses share. *)
Record lifecycle := {
  l_status : string;
  l_created_at : string;
  l_revoked_at : option string;
  l_revoke_reason : option string;
  l_created_audit_id : string;
  l_revoked_audit_id : option string;
}.

Record network_row := {
  n_network_id : string;
  n_subject_id : string;
  n_label : string;
  n_chain_family : string;
  n_chain_id : Z;
  n_native_symbol : string;
  n_rpc_url : option string;
  n_life : lifecycle;
  n_state_hash : string;
}.
Definition n_status (r : network_row) : string := l_status (n_life r).

Record asset_row := {
  as_asset_id : string;
  as_subject_id : string;
  as_network_id : string;
  as_asset_type : string;
  as_contract_address : option string;
  as_name : string;
  as_symbol : string;
  as_decimals : Z;
  as_life : lifecycle;
  as_state_hash : string;
}.
Definition as_status (r : asset_row) : string := l_status (as_life r).

Record address_row := {
  ad_address_id : string;
  ad_subject_id : string;
  ad_network_id : string;
  ad_label : string;
  ad_address : string;
  ad_purpose : string;
  ad_life : lifecycle;
  ad_state_hash : string;
}.
Definition ad_status (r : address_row) : string := l_status (ad_life r).
Definition ad_created_at (r : address_row) : string := l_created_at (ad_life r).

(** [wallet_network_revisions], [wallet_asset_revisions] and
    [wallet_address_revisions]; [v_resource_id] is the [network_id],
    [asset_id] or [address_id] column. *)
Record revision_row := {
  v_revision_id : string;
  v_resource_id : string;
  v_subject_id : string;
  v_revision_number : Z;
  v_status : string;
  v_reason : string;
  v_audit_id : string;
  v_state_hash : string;
  v_created_at : string;
}.

Record snapshot_row := {
  sn_snapshot_id : string;
  sn_subject_id : string;
  sn_network_id : string;
  sn_asset_id : string;
  sn_address_id : string;
  sn_balance : string;
  sn_source : string;
  sn_observed_at : string;
  sn_created_at : string;
  sn_state_hash : string;
}.

Record bounty_row := {
  b_bounty_id : string;
  b_subject_id : string;
  b_project_id : option string;
  b_goal_id : option string;
  b_idempotency_key : string;
  b_title : string;
  b_description : string;
  b_acceptance_criteria_json : string;
  b_network_id : string;
  b_asset_id : string;
  b_reward_amount : string;
  b_opens_at : string;
  b_expires_at : string;
  b_max_submissions : Z;
  b_reward_slots : Z;
  b_status : BountyStatus;
  b_state_hash : string;
  b_created_audit_id : string;
  b_last_audit_id : string;
  b_created_at : string;
  b_updated_at : string;
}.

Record submission_row := {
  s_submission_id : string;
  s_bounty_id : string;
  s_subject_id : string;
  s_counterparty : string;
  s_content : string;
  s_evidence_json : string;
  s_recipient_address : string;
  s_idempotency_key : string;
  s_consent_version : Z;
  s_status : SubmissionStatus;
  s_decision_reason : option string;
  s_created_at : string;
  s_decided_at : option string;
  s_state_hash : string;
  s_created_audit_id : string;
  s_decision_audit_id : option string;
}.

Record policy_row := {
  p_subject_id : string;
  p_mode : PaymentMode;
  p_allowed_network_ids_json : string;
  p_allowed_asset_ids_json : string;
  p_per_order_limit : string;
  p_daily_limit : string;
  p_monthly_limit : string;
  p_daily_order_limit : Z;
  p_monthly_order_limit : Z;
  p_min_balance : string;
  p_max_observation_age_seconds : Z;
  p_automatic_max_amount : string;
  p_anomaly_block : Z;
  p_emergency_paused : Z;
  p_automation_enabled : Z;
  p_recipient_allowlist_enabled : Z;
  p_allowed_recipient_addresses_json : string;
  p_policy_version : Z;
  p_updated_at : string;
  p_state_hash : string;
}.

Record order_row := {
  o_order_id : string;
  o_subject_id : string;
  o_bounty_id : string;
  o_submission_id : string;
  o_network_id : string;
  o_asset_id : string;
  o_recipient_address : string;
  o_amount : string;
  o_payment_mode : PaymentMode;
  o_policy_version : Z;
  o_idempotency_key : string;
  o_authorized_at : option string;
  o_created_audit_id : string;
  o_last_audit_id : string;
  o_status : PaymentOrderStatus;
  o_state_hash : string;
  o_created_at : string;
  o_updated_at : string;
}.

Record journal_row := {
  j_journal_id : string;
  j_subject_id : string;
  j_order_id : string;
  j_network_id : string;
  j_asset_id : string;
  j_journal_type : JournalType;
  j_amount : string;
  j_created_at : string;
  j_state_hash : string;
}.

Record entry_row := {
  e_entry_id : string;
  e_journal_id : string;
  e_subject_id : string;
  e_order_id : string;
  e_account : Account;
  e_direction : Direction;
  e_amount : string;
  e_created_at : string;
  e_state_hash : string;
}.

Record audit_row := {
  a_audit_id : string;
  a_subject_id : string;
  a_action : string;
  a_actor : string;
  a_payload_json : string;
  a_occurred_at : string;
}.

(** [wallet_payment_executions.status] and the attempts' status. *)
Inductive ExecutionStatus := XSigning | XBroadcast | XUnknown | XConfirmed | XFailed.
#[global] Instance ExecutionStatus_eq_dec : EqDecision ExecutionStatus.
Proof. solve_decision. Defined.
Definition execution_status_text (s : ExecutionStatus) : string :=
  match s with
  | XSigning => "signing" | XBroadcast => "broadcast" | XUnknown => "unknown"
  | XConfirmed => "confirmed" | XFailed => "failed"
  end.

(** The five [receipt_*] columns of an execution. *)
Record receipt_columns := {
  rc_status : option Z;
  rc_block_number : option Z;
  rc_block_hash : option string;
  rc_confirmations : option Z;
  rc_effect_hash : option string;
}.
#[global] Instance receipt_columns_eq_dec : EqDecision receipt_columns.
Proof. solve_decision. Defined.
Definition no_receipt : receipt_columns :=
  {| rc_status := None; rc_block_number := None; rc_block_hash := None;
     rc_confirmations := None; rc_effect_hash := None |}.

Record execution_row := {
  x_execution_id : string;
  x_subject_id : string;
  x_order_id : string;
  x_network_id : string;
  x_asset_id : string;
  x_source_address : string;
  x_recipient_address : string;
  x_asset_type : string;
  x_contract_address : option string;
  x_amount : string;
  x_chain_id : Z;
  x_nonce : Z;
  x_gas_limit : Z;
  x_max_fee_per_gas : string;
  x_request_id : string;
  x_request_hash : string;
  x_signer_id : string;
  x_status : ExecutionStatus;
  x_tx_hash : option string;
  x_error_code : option string;
  x_receipt : receipt_columns;
  x_attempt_count : Z;
  x_state_hash : string;
  x_created_audit_id : string;
  x_last_audit_id : string;
  x_created_at : string;
  x_updated_at : string;
}.

Record attempt_row := {
  t_attempt_id : string;
  t_execution_id : string;
  t_subject_id : string;
  t_attempt_number : Z;
  t_request_id : string;
  t_status : ExecutionStatus;
  t_tx_hash : option string;
  t_error_code : option string;
  t_started_at : string;
  t_completed_at : option string;
  t_state_hash : string;
  t_created_audit_id : string;
}.

(** [wallet_payment_reconciliation_events]; [previous_status] is always
    ['confirmed']. *)
Record reconciliation_row := {
  rec_event_id : string;
  rec_subject_id : string;
  rec_order_id : string;
  rec_execution_id : string;
  rec_reason : string;
  rec_tx_hash : option string;
  rec_created_at : string;
  rec_state_hash : string;
}.

#[global] Instance bounty_row_eq_dec : EqDecision bounty_row.
Proof. solve_decision. Defined.
#[global] Instance submission_row_eq_dec : EqDecision submission_row.
Proof. solve_decision. Defined.
#[global] Instance policy_row_eq_dec : EqDecision policy_row.
Proof. solve_decision. Defined.
#[global] Instance order_row_eq_dec : EqDecision order_row.
Proof. solve_decision. Defined.
#[global] Instance journal_row_eq_dec : EqDecision journal_row.
Proof. solve_decision. Defined.
#[global] Instance entry_row_eq_dec : EqDecision entry_row.
Proof. solve_decision. Defined.
#[global] Instance execution_row_eq_dec : EqDecision execution_row.
Proof. solve_decision. Defined.
#[global] Instance attempt_row_eq_dec : EqDecision attempt_row.
Proof. solve_decision. Defined.

(** The database: one list of rows per table.  [projects] and [goals] hold
    (identifier, subject) pairs. *)
Record wallet_db := {
  subjects : list string;
  networks : list network_row;
  assets : list asset_row;
  addresses : list address_row;
  network_revisions : list revision_row;
  asset_revisions : list revision_row;
  address_revisions : list revision_row;
  snapshots : list snapshot_row;
  projects : list (string * string);
  goals : list (string * string);
  bounties : list bounty_row;
  submissions : list submission_row;
  policies : list policy_row;
  orders : list order_row;
  journals : list journal_row;
  entries : list entry_row;
  executions : list execution_row;
  attempts : list attempt_row;
  reconciliations : list reconciliation_row;
  audits : list audit_row;
}.

Definition set_subjects (f : list string → list string) (d : wallet_db) : wallet_db :=
  {| subjects := f (subjects d); networks := networks d; assets := assets d; addresses :=
     addresses d; network_revisions := network_revisions d; asset_revisions := asset_revisions
     d; address_revisions := address_revisions d; snapshots := snapshots d; projects := projects
     d; goals := goals d; bounties := bounties d; submissions := submissions d; policies :=
     policies d; orders := orders d; journals := journals d; entries := entries d; executions :=
     executions d; attempts := attempts d; reconciliations := reconciliations d; audits :=
     audits d |}.
Definition set_networks (f : list network_row → list network_row) (d : wallet_db) : wallet_db :=
  {| subjects := subjects d; networks := f (networks d); assets := assets d; addresses :=
     addresses d; network_revisions := network_revisions d; asset_revisions := asset_revisions
     d; address_revisions := address_revisions d; snapshots := snapshots d; projects := projects
     d; goals := goals d; bounties := bounties d; submissions := submissions d; policies :=
     policies d; orders := orders d; journals := journals d; entries := entries d; executions :=
     executions d; attempts := attempts d; reconciliations := reconciliations d; audits :=
     audits d |}.
Definition set_assets (f : list asset_row → list asset_row) (d : wallet_db) : wallet_db :=
  {| subjects := subjects d; networks := networks d; assets := f (assets d); addresses :=
     addresses d; network_revisions := network_revisions d; asset_revisions := asset_revisions
     d; address_revisions := address_revisions d; snapshots := snapshots d; projects := projects
     d; goals := goals d; bounties := bounties d; submissions := submissions d; policies :=
     policies d; orders := orders d; journals := journals d; entries := entries d; executions :=
     executions d; attempts := attempts d; reconciliations := reconciliations d; audits :=
     audits d |}.
Definition set_addresses (f : list address_row → list address_row) (d : wallet_db) : wallet_db :=
  {| subjects := subjects d; networks := networks d; assets := assets d; addresses := f
     (addresses d); network_revisions := network_revisions d; asset_revisions := asset_revisions
     d; address_revisions := address_revisions d; snapshots := snapshots d; projects := projects
     d; goals := goals d; bounties := bounties d; submissions := submissions d; policies :=
     policies d; orders := orders d; journals := journals d; entries := entries d; executions :=
     executions d; attempts := attempts d; reconciliations := reconciliations d; audits :=
     audits d |}.
Definition set_network_revisions (f : list revision_row → list revision_row) (d : wallet_db) : wallet_db :=
  {| subjects := subjects d; networks := networks d; assets := assets d; addresses := addresses
     d; network_revisions := f (network_revisions d); asset_revisions := asset_revisions d;
     address_revisions := address_revisions d; snapshots := snapshots d; projects := projects d;
     goals := goals d; bounties := bounties d; submissions := submissions d; policies :=
     policies d; orders := orders d; journals := journals d; entries := entries d; executions :=
     executions d; attempts := attempts d; reconciliations := reconciliations d; audits :=
     audits d |}.
Definition set_asset_revisions (f : list revision_row → list revision_row) (d : wallet_db) : wallet_db :=
  {| subjects := subjects d; networks := networks d; assets := assets d; addresses := addresses
     d; network_revisions := network_revisions d; asset_revisions := f (asset_revisions d);
     address_revisions := address_revisions d; snapshots := snapshots d; projects := projects d;
     goals := goals d; bounties := bounties d; submissions := submissions d; policies :=
     policies d; orders := orders d; journals := journals d; entries := entries d; executions :=
     executions d; attempts := attempts d; reconciliations := reconciliations d; audits :=
     audits d |}.
Definition set_address_revisions (f : list revision_row → list revision_row) (d : wallet_db) : wallet_db :=
  {| subjects := subjects d; networks := networks d; assets := assets d; addresses := addresses
     d; network_revisions := network_revisions d; asset_revisions := asset_revisions d;
     address_revisions := f (address_revisions d); snapshots := snapshots d; projects :=
     projects d; goals := goals d; bounties := bounties d; submissions := submissions d;
     policies := policies d; orders := orders d; journals := journals d; entries := entries d;
     executions := executions d; attempts := attempts d; reconciliations := reconciliations d;
     audits := audits d |}.
Definition set_snapshots (f : list snapshot_row → list snapshot_row) (d : wallet_db) : wallet_db :=
  {| subjects := subjects d; networks := networks d; assets := assets d; addresses := addresses
     d; network_revisions := network_revisions d; asset_revisions := asset_revisions d;
     address_revisions := address_revisions d; snapshots := f (snapshots d); projects :=
     projects d; goals := goals d; bounties := bounties d; submissions := submissions d;
     policies := policies d; orders := orders d; journals := journals d; entries := entries d;
     executions := executions d; attempts := attempts d; reconciliations := reconciliations d;
     audits := audits d |}.
Definition set_bounties (f : list bounty_row → list bounty_row) (d : wallet_db) : wallet_db :=
  {| subjects := subjects d; networks := networks d; assets := assets d; addresses := addresses
     d; network_revisions := network_revisions d; asset_revisions := asset_revisions d;
     address_revisions := address_revisions d; snapshots := snapshots d; projects := projects d;
     goals := goals d; bounties := f (bounties d); submissions := submissions d; policies :=
     policies d; orders := orders d; journals := journals d; entries := entries d; executions :=
     executions d; attempts := attempts d; reconciliations := reconciliations d; audits :=
     audits d |}.
Definition set_submissions (f : list submission_row → list submission_row) (d : wallet_db) : wallet_db :=
  {| subjects := subjects d; networks := networks d; assets := assets d; addresses := addresses
     d; network_revisions := network_revisions d; asset_revisions := asset_revisions d;
     address_revisions := address_revisions d; snapshots := snapshots d; projects := projects d;
     goals := goals d; bounties := bounties d; submissions := f (submissions d); policies :=
     policies d; orders := orders d; journals := journals d; entries := entries d; executions :=
     executions d; attempts := attempts d; reconciliations := reconciliations d; audits :=
     audits d |}.
Definition set_policies (f : list policy_row → list policy_row) (d : wallet_db) : wallet_db :=
  {| subjects := subjects d; networks := networks d; assets := assets d; addresses := addresses
     d; network_revisions := network_revisions d; asset_revisions := asset_revisions d;
     address_revisions := address_revisions d; snapshots := snapshots d; projects := projects d;
     goals := goals d; bounties := bounties d; submissions := submissions d; policies := f
     (policies d); orders := orders d; journals := journals d; entries := entries d; executions
     := executions d; attempts := attempts d; reconciliations := reconciliations d; audits :=
     audits d |}.
Definition set_orders (f : list order_row → list order_row) (d : wallet_db) : wallet_db :=
  {| subjects := subjects d; networks := networks d; assets := assets d; addresses := addresses
     d; network_revisions := network_revisions d; asset_revisions := asset_revisions d;
     address_revisions := address_revisions d; snapshots := snapshots d; projects := projects d;
     goals := goals d; bounties := bounties d; submissions := submissions d; policies :=
     policies d; orders := f (orders d); journals := journals d; entries := entries d;
     executions := executions d; attempts := attempts d; reconciliations := reconciliations d;
     audits := audits d |}.
Definition set_journals (f : list journal_row → list journal_row) (d : wallet_db) : wallet_db :=
  {| subjects := subjects d; networks := networks d; assets := assets d; addresses := addresses
     d; network_revisions := network_revisions d; asset_revisions := asset_revisions d;
     address_revisions := address_revisions d; snapshots := snapshots d; projects := projects d;
     goals := goals d; bounties := bounties d; submissions := submissions d; policies :=
     policies d; orders := orders d; journals := f (journals d); entries := entries d;
     executions := executions d; attempts := attempts d; reconciliations := reconciliations d;
     audits := audits d |}.
Definition set_entries (f : list entry_row → list entry_row) (d : wallet_db) : wallet_db :=
  {| subjects := subjects d; networks := networks d; assets := assets d; addresses := addresses
     d; network_revisions := network_revisions d; asset_revisions := asset_revisions d;
     address_revisions := address_revisions d; snapshots := snapshots d; projects := projects d;
     goals := goals d; bounties := bounties d; submissions := submissions d; policies :=
     policies d; orders := orders d; journals := journals d; entries := f (entries d);
     executions := executions d; attempts := attempts d; reconciliations := reconciliations d;
     audits := audits d |}.
Definition set_executions (f : list execution_row → list execution_row) (d : wallet_db) : wallet_db :=
  {| subjects := subjects d; networks := networks d; assets := assets d; addresses := addresses
     d; network_revisions := network_revisions d; asset_revisions := asset_revisions d;
     address_revisions := address_revisions d; snapshots := snapshots d; projects := projects d;
     goals := goals d; bounties := bounties d; submissions := submissions d; policies :=
     policies d; orders := orders d; journals := journals d; entries := entries d; executions :=
     f (executions d); attempts := attempts d; reconciliations := reconciliations d; audits :=
     audits d |}.
Definition set_attempts (f : list attempt_row → list attempt_row) (d : wallet_db) : wallet_db :=
  {| subjects := subjects d; networks := networks d; assets := assets d; addresses := addresses
     d; network_revisions := network_revisions d; asset_revisions := asset_revisions d;
     address_revisions := address_revisions d; snapshots := snapshots d; projects := projects d;
     goals := goals d; bounties := bounties d; submissions := submissions d; policies :=
     policies d; orders := orders d; journals := journals d; entries := entries d; executions :=
     executions d; attempts := f (attempts d); reconciliations := reconciliations d; audits :=
     audits d |}.
Definition set_reconciliations (f : list reconciliation_row → list reconciliation_row) (d : wallet_db) : wallet_db :=
  {| subjects := subjects d; networks := networks d; assets := assets d; addresses := addresses
     d; network_revisions := network_revisions d; asset_revisions := asset_revisions d;
     address_revisions := address_revisions d; snapshots := snapshots d; projects := projects d;
     goals := goals d; bounties := bounties d; submissions := submissions d; policies :=
     policies d; orders := orders d; journals := journals d; entries := entries d; executions :=
     executions d; attempts := attempts d; reconciliations := f (reconciliations d); audits :=
     audits d |}.
Definition set_audits (f : list audit_row → list audit_row) (d : wallet_db) : wallet_db :=
  {| subjects := subjects d; networks := networks d; assets := assets d; addresses := addresses
     d; network_revisions := network_revisions d; asset_revisions := asset_revisions d;
     address_revisions := address_revisions d; snapshots := snapshots d; projects := projects d;
     goals := goals d; bounties := bounties d; submissions := submissions d; policies :=
     policies d; orders := orders d; journals := journals d; entries := entries d; executions :=
     executions d; attempts := attempts d; reconciliations := reconciliations d; audits := f
     (audits d) |}.

(** The columns an [UPDATE ... SET] names. *)
Definition bounty_set_status (target : BountyStatus) (state_hash audit_id now : string) (r : bounty_row) : bounty_row :=
  {| b_bounty_id := b_bounty_id r;
     b_subject_id := b_subject_id r;
     b_project_id := b_project_id r;
     b_goal_id := b_goal_id r;
     b_idempotency_key := b_idempotency_key r;
     b_title := b_title r;
     b_description := b_description r;
     b_acceptance_criteria_json := b_acceptance_criteria_json r;
     b_network_id := b_network_id r;
     b_asset_id := b_asset_id r;
     b_reward_amount := b_reward_amount r;
     b_opens_at := b_opens_at r;
     b_expires_at := b_expires_at r;
     b_max_submissions := b_max_submissions r;
     b_reward_slots := b_reward_slots r;
     b_status := target;
     b_state_hash := state_hash;
     b_created_audit_id := b_created_audit_id r;
     b_last_audit_id := audit_id;
     b_created_at := b_created_at r;
     b_updated_at := now |}.
Definition submission_decide (target : SubmissionStatus) (reason now audit_id state_hash : string) (r : submission_row) : submission_row :=
  {| s_submission_id := s_submission_id r;
     s_bounty_id := s_bounty_id r;
     s_subject_id := s_subject_id r;
     s_counterparty := s_counterparty r;
     s_content := s_content r;
     s_evidence_json := s_evidence_json r;
     s_recipient_address := s_recipient_address r;
     s_idempotency_key := s_idempotency_key r;
     s_consent_version := s_consent_version r;
     s_status := target;
     s_decision_reason := Some reason;
     s_created_at := s_created_at r;
     s_decided_at := Some now;
     s_state_hash := state_hash;
     s_created_audit_id := s_created_audit_id r;
     s_decision_audit_id := Some audit_id |}.
Definition order_set_status (target : PaymentOrderStatus) (authorized_at : option string) (now audit_id state_hash : string) (r : order_row) : order_row :=
  {| o_order_id := o_order_id r;
     o_subject_id := o_subject_id r;
     o_bounty_id := o_bounty_id r;
     o_submission_id := o_submission_id r;
     o_network_id := o_network_id r;
     o_asset_id := o_asset_id r;
     o_recipient_address := o_recipient_address r;
     o_amount := o_amount r;
     o_payment_mode := o_payment_mode r;
     o_policy_version := o_policy_version r;
     o_idempotency_key := o_idempotency_key r;
     o_authorized_at := authorized_at;
     o_created_audit_id := o_created_audit_id r;
     o_last_audit_id := audit_id;
     o_status := target;
     o_state_hash := state_hash;
     o_created_at := o_created_at r;
     o_updated_at := now |}.

Definition execution_set (status : ExecutionStatus) (tx_hash error_code : option string)
    (receipt : receipt_columns) (attempt_count : Z) (audit_id now state_hash : string)
    (r : execution_row) : execution_row :=
  {| x_execution_id := x_execution_id r;
     x_subject_id := x_subject_id r;
     x_order_id := x_order_id r;
     x_network_id := x_network_id r;
     x_asset_id := x_asset_id r;
     x_source_address := x_source_address r;
     x_recipient_address := x_recipient_address r;
     x_asset_type := x_asset_type r;
     x_contract_address := x_contract_address r;
     x_amount := x_amount r;
     x_chain_id := x_chain_id r;
     x_nonce := x_nonce r;
     x_gas_limit := x_gas_limit r;
     x_max_fee_per_gas := x_max_fee_per_gas r;
     x_request_id := x_request_id r;
     x_request_hash := x_request_hash r;
     x_signer_id := x_signer_id r;
     x_status := status; x_tx_hash := tx_hash; x_error_code := error_code;
     x_receipt := receipt; x_attempt_count := attempt_count; x_state_hash := state_hash;
     x_created_audit_id := x_created_audit_id r; x_last_audit_id := audit_id;
     x_created_at := x_created_at r; x_updated_at := now |}.
Definition attempt_set (status : ExecutionStatus) (tx_hash error_code completed_at : option string)
    (state_hash : string) (r : attempt_row) : attempt_row :=
  {| t_attempt_id := t_attempt_id r; t_execution_id := t_execution_id r;
     t_subject_id := t_subject_id r; t_attempt_number := t_attempt_number r;
     t_request_id := t_request_id r; t_status := status; t_tx_hash := tx_hash;
     t_error_code := error_code; t_started_at := t_started_at r;
     t_completed_at := completed_at; t_state_hash := state_hash;
     t_created_audit_id := t_created_audit_id r |}.

(** ** Constraints and triggers *)

(** [length(trim(s)) BETWEEN lo AND hi]. *)
Definition sql_text (lo hi : Z) (s : string) : bool :=
  (lo <=? len (sql_trim s)) && (len (sql_trim s) <=? hi).
(** [length(s) BETWEEN 1 AND 256 AND s NOT GLOB '*[^0-9]*' AND (s='0' OR s NOT GLOB '0*')]. *)
Definition sql_amount (s : string) : bool :=
  numeral s && (len s <=? 256) && negb (leading_zero s).

Definition bounty_check (r : bounty_row) : bool :=
  sql_text 1 128 (b_idempotency_key r) && sql_text 1 240 (b_title r)
  && sql_text 1 20000 (b_description r) && sql_amount (b_reward_amount r)
  && (1 <=? b_max_submissions r) && (b_max_submissions r <=? 10000)
  && (1 <=? b_reward_slots r) && (b_reward_slots r <=? 10000)
  && str_ltb (b_opens_at r) (b_expires_at r).
Definition bounty_unique (t : list bounty_row) (r : bounty_row) : bool :=
  negb (exists_where (λ x, b_bounty_id x == b_bounty_id r) t)
  && negb (exists_where (λ x, (b_subject_id x == b_subject_id r)
       && (b_idempotency_key x == b_idempotency_key r)) t).

Definition submission_check (r : submission_row) : bool :=
  sql_text 1 256 (s_counterparty r) && sql_text 1 20000 (s_content r)
  && (len (s_recipient_address r) =? 42)
  && bool_decide (is_Some (strip_prefix "0x" (s_recipient_address r)))
  && sql_text 1 128 (s_idempotency_key r).
Definition submission_unique (t : list submission_row) (r : submission_row) : bool :=
  negb (exists_where (λ x, s_submission_id x == s_submission_id r) t)
  && negb (exists_where (λ x, (s_subject_id x == s_subject_id r)
       && (s_bounty_id x == s_bounty_id r) && (s_idempotency_key x == s_idempotency_key r)) t).

Definition policy_check (r : policy_row) : bool :=
  (0 <=? p_daily_order_limit r) && (0 <=? p_monthly_order_limit r)
  && (0 <=? p_max_observation_age_seconds r) && (0 <? p_policy_version r).

Definition order_check (r : order_row) : bool :=
  sql_amount (o_amount r) && (0 <? o_policy_version r).
Definition order_unique (t : list order_row) (r : order_row) : bool :=
  negb (exists_where (λ x, o_order_id x == o_order_id r) t)
  && negb (exists_where (λ x, (o_subject_id x == o_subject_id r)
       && (o_submission_id x == o_submission_id r)) t)
  && negb (exists_where (λ x, (o_subject_id x == o_subject_id r)
       && (o_idempotency_key x == o_idempotency_key r)) t).

Definition journal_unique (t : list journal_row) (r : journal_row) : bool :=
  negb (exists_where (λ x, j_journal_id x == j_journal_id r) t)
  && negb (exists_where (λ x, (j_order_id x == j_order_id r)
       && (j_journal_type x == j_journal_type r)) t).
Definition entry_unique (t : list entry_row) (r : entry_row) : bool :=
  negb (exists_where (λ x, e_entry_id x == e_entry_id r) t)
  && negb (exists_where (λ x, (e_journal_id x == e_journal_id r)
       && (e_account x == e_account r) && (e_direction x == e_direction r)) t).

(** Trigger [validate_wallet_bounty_transition]. *)
Definition bounty_trigger_ok (old new : bounty_row) : bool :=
  ((b_status new == b_status old) && (b_state_hash new == b_state_hash old)
     && (b_updated_at new == b_updated_at old))
  || match b_status old, b_status new with
     | BDraft, (BPublished | BCancelled | BExpired)
     | BPublished, (BClosed | BCancelled | BExpired)
     | BClosed, BExpired => true
     | _, _ => false
     end.
(** Trigger [validate_wallet_submission_transition]. *)
Definition submission_trigger_ok (old new : submission_row) : bool :=
  ((s_status new == s_status old) && (s_state_hash new == s_state_hash old))
  || match s_status old, s_status new with
     | SSubmitted, (SAccepted | SRejected | SWithdrawn | SExpired) => true
     | _, _ => false
     end.
(** Trigger [validate_wallet_order_transition], as schema 71 defines it. *)
Definition order_trigger_step (old new : PaymentOrderStatus) : bool :=
  match old, new with
  | OPendingPolicy, (OAwaitingConfirmation | OReserved | ORejected | OCancelled | OExpired)
  | OAwaitingConfirmation, (OReserved | ORejected | OCancelled | OExpired)
  | OReserved, (OCancelled | OExpired | OSigning)
  | OSigning, (OBroadcast | OUnknown | OFailed)
  | OBroadcast, (OUnknown | OConfirmed | OFailed)
  | OUnknown, (OSigning | OBroadcast | OConfirmed | OFailed | ORefunded)
  | OConfirmed, OUnknown
  | OFailed, ORefunded => true
  | _, _ => false
  end.
Definition order_trigger_ok (old new : order_row) : bool :=
  ((o_status new == o_status old) && (o_state_hash new == o_state_hash old)
     && (o_updated_at new == o_updated_at old))
  || order_trigger_step (o_status old) (o_status new).

(** The checks of [wallet_payment_executions], the insert trigger, and the
    unique keys: the primary key, the order, the request, and the two
    partial indexes on the nonce and on the transaction hash. *)
Definition address_check (s : string) : bool :=
  (len s =? 42) && bool_decide (is_Some (strip_prefix "0x" s)).
Definition execution_check (r : execution_row) : bool :=
  address_check (x_source_address r) && address_check (x_recipient_address r)
  && ((x_asset_type r == "native") || (x_asset_type r == "token"))
  && sql_amount (x_amount r) && (0 <? x_chain_id r) && (0 <=? x_nonce r)
  && (21000 <=? x_gas_limit r) && (x_gas_limit r <=? 30000000)
  && sql_amount (x_max_fee_per_gas r) && (x_max_fee_per_gas r =/= "0")
  && sql_text 1 256 (x_signer_id r)
  && match rc_status (x_receipt r) with None => true | Some z => (z =? 0) || (z =? 1) end
  && match rc_block_number (x_receipt r) with None => true | Some z => 0 <=? z end
  && match rc_confirmations (x_receipt r) with None => true | Some z => 0 <=? z end
  && (1 <=? x_attempt_count r).
Definition execution_reference_ok (t : list order_row) (r : execution_row) : bool :=
  exists_where (λ o, (o_order_id o == x_order_id r) && (o_subject_id o == x_subject_id r)
    && (o_network_id o == x_network_id r) && (o_asset_id o == x_asset_id r)
    && (o_recipient_address o == x_recipient_address r) && (o_amount o == x_amount r)
    && (o_status o == OSigning)) t.
Definition nonce_indexed (r : execution_row) : bool :=
  (x_status r =/= XFailed) || bool_decide (is_Some (x_tx_hash r)).
Definition execution_index_clash (r x : execution_row) : bool :=
  ((x_subject_id x == x_subject_id r) && (x_network_id x == x_network_id r)
     && (x_source_address x == x_source_address r) && (x_nonce x =? x_nonce r)
     && nonce_indexed x && nonce_indexed r)
  || ((x_subject_id x == x_subject_id r) && (x_network_id x == x_network_id r)
     && (x_tx_hash x == x_tx_hash r) && bool_decide (is_Some (x_tx_hash r))).
Definition execution_unique (t : list execution_row) (r : execution_row) : bool :=
  negb (exists_where (λ x, x_execution_id x == x_execution_id r) t)
  && negb (exists_where (λ x, x_order_id x == x_order_id r) t)
  && negb (exists_where (λ x, (x_subject_id x == x_subject_id r)
       && (x_request_id x == x_request_id r)) t)
  && negb (exists_where (execution_index_clash r) t).
Definition attempt_reference_ok (t : list execution_row) (r : attempt_row) : bool :=
  exists_where (λ x, (x_execution_id x == t_execution_id r) && (x_subject_id x == t_subject_id r)
    && (x_status x == XSigning) && (x_attempt_count x =? t_attempt_number r)) t.
Definition attempt_unique (t : list attempt_row) (r : attempt_row) : bool :=
  negb (exists_where (λ x, t_attempt_id x == t_attempt_id r) t)
  && negb (exists_where (λ x, (t_execution_id x == t_execution_id r)
       && (t_attempt_number x =? t_attempt_number r)) t)
  && negb (exists_where (λ x, (t_subject_id x == t_subject_id r)
       && (t_request_id x == t_request_id r)) t).

(** Triggers [validate_wallet_execution_transition] and
    [validate_wallet_execution_attempt_transition], as schema 71 defines them. *)
Definition execution_trigger_step (old new : ExecutionStatus) : bool :=
  match old, new with
  | XSigning, (XBroadcast | XUnknown | XFailed)
  | XBroadcast, (XUnknown | XConfirmed | XFailed)
  | XUnknown, (XSigning | XBroadcast | XConfirmed | XFailed)
  | XConfirmed, XUnknown => true
  | _, _ => false
  end.
Definition execution_trigger_ok (old new : execution_row) : bool :=
  ((x_status new == x_status old) && (x_tx_hash new == x_tx_hash old)
     && (x_error_code new == x_error_code old)
     && (rc_status (x_receipt new) == rc_status (x_receipt old))
     && (rc_block_number (x_receipt new) == rc_block_number (x_receipt old))
     && (x_attempt_count new =? x_attempt_count old)
     && (x_state_hash new == x_state_hash old) && (x_last_audit_id new == x_last_audit_id old)
     && (x_updated_at new == x_updated_at old))
  || execution_trigger_step (x_status old) (x_status new).
Definition attempt_trigger_step (old new : ExecutionStatus) : bool :=
  match old, new with
  | XSigning, (XBroadcast | XUnknown | XFailed)
  | XBroadcast, (XUnknown | XConfirmed | XFailed)
  | XUnknown, (XBroadcast | XConfirmed | XFailed)
  | XConfirmed, XUnknown => true
  | _, _ => false
  end.
Definition attempt_trigger_ok (old new : attempt_row) : bool :=
  ((t_status new == t_status old) && (t_tx_hash new == t_tx_hash old)
     && (t_error_code new == t_error_code old) && (t_completed_at new == t_completed_at old)
     && (t_state_hash new == t_state_hash old))
  || attempt_trigger_step (t_status old) (t_status new).

(** ** Statements *)

Abbreviation W := (M wallet_db).

Definition constraint (b : bool) (msg : string) : W unit := raise_if (negb b) (SqliteError msg).

Definition insert_audit (r : audit_row) : W unit :=
  d ← gets id;
  constraint (bool_decide (a_subject_id r ∈ subjects d)) "FOREIGN KEY constraint failed" ;;
  constraint (negb (exists_where (λ x, a_audit_id x == a_audit_id r) (audits d)))
    "UNIQUE constraint failed" ;;
  modify (set_audits (append_row r)).
Definition insert_bounty (r : bounty_row) : W unit :=
  d ← gets id;
  constraint (bounty_check r) "CHECK constraint failed" ;;
  constraint (bounty_unique (bounties d) r) "UNIQUE constraint failed" ;;
  modify (set_bounties (append_row r)).
Definition insert_submission (r : submission_row) : W unit :=
  d ← gets id;
  constraint (submission_check r) "CHECK constraint failed" ;;
  constraint (submission_unique (submissions d) r) "UNIQUE constraint failed" ;;
  modify (set_submissions (append_row r)).
Definition insert_order (r : order_row) : W unit :=
  d ← gets id;
  constraint (order_check r) "CHECK constraint failed" ;;
  constraint (order_unique (orders d) r) "UNIQUE constraint failed" ;;
  modify (set_orders (append_row r)).
Definition insert_journal (r : journal_row) : W unit :=
  d ← gets id;
  constraint (sql_amount (j_amount r)) "CHECK constraint failed" ;;
  constraint (journal_unique (journals d) r) "UNIQUE constraint failed" ;;
  modify (set_journals (append_row r)).
Definition insert_entry (r : entry_row) : W unit :=
  d ← gets id;
  constraint (sql_amount (e_amount r)) "CHECK constraint failed" ;;
  constraint (entry_unique (entries d) r) "UNIQUE constraint failed" ;;
  modify (set_entries (append_row r)).
(** [INSERT OR REPLACE INTO wallet_payment_policies]: the old row with the
    same primary key is deleted, the new one gets the next rowid. *)
Definition replace_policy (r : policy_row) : W unit :=
  constraint (policy_check r) "CHECK constraint failed" ;;
  modify (set_policies (λ t, append_row r (select (λ x, p_subject_id x =/= p_subject_id r) t))).

Definition update_bounty (bounty_id : string) (f : bounty_row → bounty_row) : W unit :=
  d ← gets id;
  constraint (forallb (λ r, bounty_trigger_ok r (f r))
      (select (λ r, b_bounty_id r == bounty_id) (bounties d)))
    "wallet bounty transition is invalid" ;;
  modify (set_bounties (update_where (λ r, b_bounty_id r == bounty_id) f)).
Definition update_submission (submission_id : string) (f : submission_row → submission_row)
    : W unit :=
  d ← gets id;
  constraint (forallb (λ r, submission_trigger_ok r (f r))
      (select (λ r, s_submission_id r == submission_id) (submissions d)))
    "wallet submission transition is invalid" ;;
  modify (set_submissions (update_where (λ r, s_submission_id r == submission_id) f)).
Definition update_order (order_id : string) (f : order_row → order_row) : W unit :=
  d ← gets id;
  constraint (forallb (λ r, order_trigger_ok r (f r))
      (select (λ r, o_order_id r == order_id) (orders d)))
    "wallet payment order transition is invalid" ;;
  modify (set_orders (update_where (λ r, o_order_id r == order_id) f)).

Definition insert_execution (r : execution_row) : W unit :=
  d ← gets id;
  constraint (execution_reference_ok (orders d) r)
    "wallet payment execution reference mismatch" ;;
  constraint (execution_check r) "CHECK constraint failed" ;;
  constraint (execution_unique (executions d) r) "UNIQUE constraint failed" ;;
  modify (set_executions (append_row r)).
Definition insert_attempt (r : attempt_row) : W unit :=
  d ← gets id;
  constraint (attempt_reference_ok (executions d) r)
    "wallet payment execution attempt reference mismatch" ;;
  constraint (1 <=? t_attempt_number r) "CHECK constraint failed" ;;
  constraint (attempt_unique (attempts d) r) "UNIQUE constraint failed" ;;
  modify (set_attempts (append_row r)).
Definition insert_reconciliation (r : reconciliation_row) : W unit :=
  d ← gets id;
  constraint (negb (exists_where (λ x, rec_event_id x == rec_event_id r) (reconciliations d)))
    "UNIQUE constraint failed" ;;
  modify (set_reconciliations (append_row r)).
Definition update_execution (execution_id : string) (f : execution_row → execution_row)
    : W unit :=
  d ← gets id;
  let rows := select (λ r, x_execution_id r == execution_id) (executions d) in
  constraint (forallb (λ r, execution_trigger_ok r (f r)) rows)
    "wallet payment execution transition is invalid" ;;
  constraint (forallb (λ r, execution_check (f r)) rows) "CHECK constraint failed" ;;
  constraint (forallb (λ r, negb (exists_where
      (λ x, (x_execution_id x =/= execution_id) && execution_index_clash (f r) x)
      (executions d))) rows)
    "UNIQUE constraint failed" ;;
  modify (set_executions (update_where (λ r, x_execution_id r == execution_id) f)).
Definition update_attempt (attempt_id : string) (f : attempt_row → attempt_row) : W unit :=
  d ← gets id;
  constraint (forallb (λ r, attempt_trigger_ok r (f r))
      (select (λ r, t_attempt_id r == attempt_id) (attempts d)))
    "wallet payment execution attempt transition is invalid" ;;
  modify (set_attempts (update_where (λ r, t_attempt_id r == attempt_id) f)).

(** ** State hashes *)

Definition validate_wallet_timestamp (value : string) : result string :=
  match fromisoformat value with
  | Some (_, Some _) => Ok value
  | _ => Raise (ValueError "wallet timestamp must include a timezone")
  end.

Section hashes.
Context {Dg : Digest}.

Definition _bounty_state_hash_values
    (bid sid : string) (proposal : BountyInput) (status : BountyStatus) : string :=
  content_hash (JObj
    [("bounty_id", JStr bid); ("subject_id", JStr sid);
     ("project_id", JOpt (bi_project_id proposal)); ("goal_id", JOpt (bi_goal_id proposal));
     ("idempotency_key", JStr (bi_idempotency_key proposal));
     ("title", JStr (bi_title proposal)); ("description", JStr (bi_description proposal));
     ("acceptance_criteria_json",
        JStr (canonical_json (JStrs (bi_acceptance_criteria proposal))));
     ("network_id", JStr (bi_network_id proposal)); ("asset_id", JStr (bi_asset_id proposal));
     ("reward_amount", JStr (bi_reward_amount proposal));
     ("opens_at", JStr (bi_opens_at proposal)); ("expires_at", JStr (bi_expires_at proposal));
     ("max_submissions", JInt (bi_max_submissions proposal));
     ("reward_slots", JInt (bi_reward_slots proposal));
     ("status", JStr (bounty_status_text status))]).

Definition _bounty_state_hash_row (row : bounty_row) (status : BountyStatus) : string :=
  content_hash (JObj
    [("bounty_id", JStr (b_bounty_id row)); ("subject_id", JStr (b_subject_id row));
     ("project_id", JOpt (b_project_id row)); ("goal_id", JOpt (b_goal_id row));
     ("idempotency_key", JStr (b_idempotency_key row));
     ("title", JStr (b_title row)); ("description", JStr (b_description row));
     ("acceptance_criteria_json", JStr (b_acceptance_criteria_json row));
     ("network_id", JStr (b_network_id row)); ("asset_id", JStr (b_asset_id row));
     ("reward_amount", JStr (b_reward_amount row));
     ("opens_at", JStr (b_opens_at row)); ("expires_at", JStr (b_expires_at row));
     ("max_submissions", JInt (b_max_submissions row));
     ("reward_slots", JInt (b_reward_slots row));
     ("status", JStr (bounty_status_text status))]).

(** [wallet_submission_state_hash]. *)
Definition wallet_submission_state_hash
    (submission_id bounty_id subject_id counterparty content evidence_json
     recipient_address idempotency_key : string) (consent_version : Z)
    (status : SubmissionStatus) (decision_reason : option string) : string :=
  content_hash (JObj
    [("submission_id", JStr submission_id); ("bounty_id", JStr bounty_id);
     ("subject_id", JStr subject_id); ("counterparty", JStr counterparty);
     ("content", JStr content); ("evidence_json", JStr evidence_json);
     ("recipient_address", JStr recipient_address);
     ("idempotency_key", JStr idempotency_key);
     ("consent_version", JInt consent_version);
     ("status", JStr (submission_status_text status));
     ("decision_reason", JOpt decision_reason)]).
Definition _submission_state_hash_values
    (sid bid subject counterparty content : string) (evidence : json)
    (recipient key : string) (consent_version : Z)
    (status : SubmissionStatus) (reason : option string) : string :=
  wallet_submission_state_hash sid bid subject counterparty content
    (canonical_json evidence) recipient key consent_version status reason.
(** The evidence column is decoded and encoded again; [list()] of a JSON
    list is that list. *)
Definition _submission_state_hash_row
    (row : submission_row) (status : SubmissionStatus) (reason : option string)
    : result string :=
  evidence ← strict_json_loads (s_evidence_json row);
  match evidence with
  | JList l =>
      Ok (_submission_state_hash_values (s_submission_id row) (s_bounty_id row)
        (s_subject_id row) (s_counterparty row) (s_content row) (JList l)
        (s_recipient_address row) (s_idempotency_key row) (s_consent_version row)
        status reason)
  | _ => Raise (TypeError "evidence is not a list")
  end.

Definition _order_temporal_hash
    (oid sid bid subid network asset recipient amount : string) (mode : PaymentMode)
    (version : Z) (key : string) (status : PaymentOrderStatus) (created_at : string)
    (authorized_at : option string) (updated_at : string) : string :=
  content_hash (JObj
    [("order_id", JStr oid); ("subject_id", JStr sid); ("bounty_id", JStr bid);
     ("submission_id", JStr subid); ("network_id", JStr network); ("asset_id", JStr asset);
     ("recipient_address", JStr recipient); ("amount", JStr amount);
     ("payment_mode", JStr (payment_mode_text mode)); ("policy_version", JInt version);
     ("idempotency_key", JStr key); ("status", JStr (order_status_text status));
     ("created_at", JStr created_at); ("authorized_at", JOpt authorized_at);
     ("updated_at", JStr updated_at)]).
(** [row["authorized_at"] if authorized_at is None else authorized_at]. *)
Definition _order_state_hash_row (row : order_row) (status : PaymentOrderStatus)
    (authorized_at updated_at : option string) : string :=
  _order_temporal_hash (o_order_id row) (o_subject_id row) (o_bounty_id row)
    (o_submission_id row) (o_network_id row) (o_asset_id row) (o_recipient_address row)
    (o_amount row) (o_payment_mode row) (o_policy_version row) (o_idempotency_key row)
    status (o_created_at row)
    (match authorized_at with None => o_authorized_at row | Some a => Some a end)
    (default (o_updated_at row) updated_at).

(** [wallet_payment_policy_state_hash] of the columns of a row. *)
Definition _policy_state_hash_row (row : policy_row) : result string :=
  _ ← validate_wallet_timestamp (p_updated_at row);
  Ok (content_hash (JObj
    [("subject_id", JStr (p_subject_id row)); ("mode", JStr (payment_mode_text (p_mode row)));
     ("allowed_network_ids_json", JStr (p_allowed_network_ids_json row));
     ("allowed_asset_ids_json", JStr (p_allowed_asset_ids_json row));
     ("per_order_limit", JStr (p_per_order_limit row));
     ("daily_limit", JStr (p_daily_limit row)); ("monthly_limit", JStr (p_monthly_limit row));
     ("daily_order_limit", JInt (p_daily_order_limit row));
     ("monthly_order_limit", JInt (p_monthly_order_limit row));
     ("min_balance", JStr (p_min_balance row));
     ("max_observation_age_seconds", JInt (p_max_observation_age_seconds row));
     ("automatic_max_amount", JStr (p_automatic_max_amount row));
     ("anomaly_block", JInt (p_anomaly_block row));
     ("emergency_paused", JInt (p_emergency_paused row));
     ("automation_enabled", JInt (p_automation_enabled row));
     ("recipient_allowlist_enabled", JInt (p_recipient_allowlist_enabled row));
     ("allowed_recipient_addresses_json", JStr (p_allowed_recipient_addresses_json row));
     ("policy_version", JInt (p_policy_version row));
     ("updated_at", JStr (p_updated_at row))])).

Definition wallet_journal_hash
    (journal_id subject_id order_id network_id asset_id : string)
    (journal_type : JournalType) (amount created_at : string) : result string :=
  _ ← validate_wallet_timestamp created_at;
  Ok (content_hash (JObj
    [("journal_id", JStr journal_id); ("subject_id", JStr subject_id);
     ("order_id", JStr order_id); ("network_id", JStr network_id);
     ("asset_id", JStr asset_id); ("journal_type", JStr (journal_type_text journal_type));
     ("amount", JStr amount); ("created_at", JStr created_at)])).
Definition wallet_entry_hash
    (entry_id journal_id subject_id order_id : string) (account : Account)
    (direction : Direction) (amount created_at : string) : result string :=
  _ ← validate_wallet_timestamp created_at;
  Ok (content_hash (JObj
    [("entry_id", JStr entry_id); ("journal_id", JStr journal_id);
     ("subject_id", JStr subject_id); ("order_id", JStr order_id);
     ("account", JStr (account_text account));
     ("direction", JStr (direction_text direction));
     ("amount", JStr amount); ("created_at", JStr created_at)])).
End hashes.
