(* ===== verification/WalletEconomy.v ===== *)
(** * [WalletEconomyStore] ([src/src/noyra/wallet/economy.py])

    Bounties, submissions, payment policy, payment orders and the
    append-only ledger.  One definition per method, with the guards, the
    order of the statements and the exceptions of the source.  A method
    that opens [self.database.transaction()] is a [transaction]; the
    process lock of [wallet_policy_scope] and the caller-owned
    [_connection] variants do not change what is read or written. *)

From S2P Require Import Prelude Tables PyStr Json Digest Time WalletTypes WalletDb.
Local Open Scope Z_scope.

(** ** Transition tables *)

Definition _BOUNTY_TRANSITIONS (s : BountyStatus) : list BountyStatus :=
  match s with
  | BDraft => [BPublished; BCancelled; BExpired]
  | BPublished => [BClosed; BCancelled; BExpired]
  | BClosed => [BExpired]
  | BCancelled | BExpired => []
  end.
Definition _SUBMISSION_TRANSITIONS (s : SubmissionStatus) : list SubmissionStatus :=
  match s with
  | SSubmitted => [SAccepted; SRejected; SWithdrawn; SExpired]
  | SAccepted | SRejected | SWithdrawn | SExpired => []
  end.
Definition _ORDER_TRANSITIONS (s : PaymentOrderStatus) : list PaymentOrderStatus :=
  match s with
  | OPendingPolicy => [OAwaitingConfirmation; OReserved; ORejected; OCancelled; OExpired]
  | OAwaitingConfirmation => [OReserved; ORejected; OCancelled; OExpired]
  | OReserved => [OCancelled; OExpired; OSigning]
  | OCancelled | OExpired | ORejected => []
  | OSigning => [OBroadcast; OUnknown; OFailed]
  | OBroadcast => [OUnknown; OConfirmed; OFailed]
  | OUnknown => [OSigning; OBroadcast; OConfirmed; OFailed; ORefunded]
  | OConfirmed => [OUnknown]
  | OFailed => [ORefunded]
  | ORefunded => []
  end.

(** ** Records returned to callers *)

Record BountyRecord := {
  br_bounty_id : string; br_subject_id : string; br_project_id : option string;
  br_goal_id : option string; br_idempotency_key : string; br_title : string;
  br_description : string; br_acceptance_criteria : list json; br_network_id : string;
  br_asset_id : string; br_reward_amount : string; br_opens_at : string;
  br_expires_at : string; br_max_submissions : Z; br_reward_slots : Z;
  br_status : BountyStatus; br_state_hash : string; br_created_at : string;
  br_updated_at : string;
}.
Record SubmissionRecord := {
  sr_submission_id : string; sr_bounty_id : string; sr_subject_id : string;
  sr_counterparty : string; sr_content : string; sr_evidence : list json;
  sr_recipient_address : string; sr_idempotency_key : string; sr_consent_version : Z;
  sr_status : SubmissionStatus; sr_decision_reason : option string;
  sr_created_at : string; sr_decided_at : option string;
}.
Record PaymentOrderRecord := {
  or_order_id : string; or_subject_id : string; or_bounty_id : string;
  or_submission_id : string; or_network_id : string; or_asset_id : string;
  or_recipient_address : string; or_amount : string; or_payment_mode : PaymentMode;
  or_policy_version : Z; or_idempotency_key : string; or_status : PaymentOrderStatus;
  or_created_at : string; or_updated_at : string;
}.

(** [tuple(value)] of a decoded JSON value. *)
Fixpoint chars (s : string) : list json :=
  match s with EmptyString => [] | String c s' => JStr (str1 c) :: chars s' end.
Definition json_tuple (v : json) : result (list json) :=
  match v with
  | JList l => Ok l
  | JStr s => Ok (chars s)
  | JObj m => Ok (map (λ kv, JStr kv.1) m)
  | _ => Raise (TypeError "object is not iterable")
  end.

(** [int(text)], which raises [ValueError] on malformed text. *)
Definition int_of (s : string) : result Z :=
  of_option (ValueError "invalid literal for int()") (py_int s).

(** [_operator]: economic operations need an actor that is not the subject. *)
Definition _operator (actor : string) : result string :=
  if (strip actor == EmptyString) || (strip actor == "subject") then
    Raise (PermissionError "wallet economic operation requires an operator")
  else Ok (strip actor).

(** [require_activation_evidence(production=self.production)]. *)
Definition require_activation_evidence `{Env} : result unit :=
  if production && negb current_evidence_ok then
    Raise (ValueError "production_release_evidence_required")
  else Ok tt.

Section economy.
Context {Dg : Digest} {En : Env}.

Definition self_clock : W string := read_clock clock_at.
Definition utc_now : W string := read_clock utc_now_at.
Definition new_id (prefix : string) : W string :=
  u ← read_fresh uuid4_hex; mret (prefix +:+ "_" +:+ u).

(** [_audit]. *)
Definition _audit (sid action actor : string) (payload : json) : W string :=
  aid ← new_id "audit";
  now ← utc_now;
  insert_audit {| a_audit_id := aid; a_subject_id := sid; a_action := action;
                  a_actor := actor; a_payload_json := canonical_json payload;
                  a_occurred_at := now |} ;;
  mret aid.

(** ** Reading rows *)

Definition _bounty_from_row (r : bounty_row) (status : option BountyStatus)
    : result BountyRecord :=
  let effective_status := default (b_status r) status in
  let state_hash :=
    if effective_status == b_status r then b_state_hash r
    else _bounty_state_hash_row r effective_status in
  criteria_json ← strict_json_loads (b_acceptance_criteria_json r);
  criteria ← json_tuple criteria_json;
  Ok {| br_bounty_id := b_bounty_id r; br_subject_id := b_subject_id r;
        br_project_id := b_project_id r; br_goal_id := b_goal_id r;
        br_idempotency_key := b_idempotency_key r; br_title := b_title r;
        br_description := b_description r; br_acceptance_criteria := criteria;
        br_network_id := b_network_id r; br_asset_id := b_asset_id r;
        br_reward_amount := b_reward_amount r; br_opens_at := b_opens_at r;
        br_expires_at := b_expires_at r; br_max_submissions := b_max_submissions r;
        br_reward_slots := b_reward_slots r; br_status := effective_status;
        br_state_hash := state_hash; br_created_at := b_created_at r;
        br_updated_at := b_updated_at r |}.

Definition _submission_from_row (r : submission_row) : result SubmissionRecord :=
  evidence_json ← strict_json_loads (s_evidence_json r);
  evidence ← json_tuple evidence_json;
  Ok {| sr_submission_id := s_submission_id r; sr_bounty_id := s_bounty_id r;
        sr_subject_id := s_subject_id r; sr_counterparty := s_counterparty r;
        sr_content := s_content r; sr_evidence := evidence;
        sr_recipient_address := s_recipient_address r;
        sr_idempotency_key := s_idempotency_key r;
        sr_consent_version := s_consent_version r; sr_status := s_status r;
        sr_decision_reason := s_decision_reason r; sr_created_at := s_created_at r;
        sr_decided_at := s_decided_at r |}.

Definition _order_from_row (r : order_row) : PaymentOrderRecord :=
  {| or_order_id := o_order_id r; or_subject_id := o_subject_id r;
     or_bounty_id := o_bounty_id r; or_submission_id := o_submission_id r;
     or_network_id := o_network_id r; or_asset_id := o_asset_id r;
     or_recipient_address := o_recipient_address r; or_amount := o_amount r;
     or_payment_mode := o_payment_mode r; or_policy_version := o_policy_version r;
     or_idempotency_key := o_idempotency_key r; or_status := o_status r;
     or_created_at := o_created_at r; or_updated_at := o_updated_at r |}.

Definition bounty_by_id (bounty_id : string) (d : wallet_db) : option bounty_row :=
  fetchone (λ r, b_bounty_id r == bounty_id) (bounties d).
Definition bounty_of_subject (bounty_id subject_id : string) (d : wallet_db)
    : option bounty_row :=
  fetchone (λ r, (b_bounty_id r == bounty_id) && (b_subject_id r == subject_id)) (bounties d).
Definition submission_by_id (submission_id : string) (d : wallet_db) : option submission_row :=
  fetchone (λ r, s_submission_id r == submission_id) (submissions d).
Definition submission_of_subject (submission_id subject_id : string) (d : wallet_db)
    : option submission_row :=
  fetchone (λ r, (s_submission_id r == submission_id) && (s_subject_id r == subject_id))
    (submissions d).
Definition order_by_id (order_id : string) (d : wallet_db) : option order_row :=
  fetchone (λ r, o_order_id r == order_id) (orders d).
(** [row[...]] of a missing row. *)
Definition subscript {A} (o : option A) : W A :=
  lift (of_option (TypeError "'NoneType' object is not subscriptable") o).

Definition _order_row (order_id subject_id : string) : W order_row :=
  o ← gets (λ d, fetchone (λ r, (o_order_id r == order_id) && (o_subject_id r == subject_id))
                   (orders d));
  lift (of_option (NotFoundError "wallet payment order not found") o).
Definition _policy_row (sid : string) (d : wallet_db) : option policy_row :=
  fetchone (λ r, p_subject_id r == sid) (policies d).

(** [WalletStore._network_row] and [_asset_row]. *)
Definition store_identifier (value field : string) : result string :=
  if blank value || (128 <? len value) then
    Raise (ValueError ("wallet " +:+ field +:+ " is invalid"))
  else Ok value.
Definition _network_row (network_id subject_id : string) : W network_row :=
  lift (store_identifier network_id "network identifier") ;;
  o ← gets (λ d, fetchone (λ r, (n_network_id r == network_id)
                    && (n_subject_id r == subject_id)) (networks d));
  lift (of_option (NotFoundError ("wallet network not found: " +:+ network_id)) o).
Definition _asset_row (asset_id subject_id : string) : W asset_row :=
  lift (store_identifier asset_id "asset identifier") ;;
  o ← gets (λ d, fetchone (λ r, (as_asset_id r == asset_id)
                    && (as_subject_id r == subject_id)) (assets d));
  lift (of_option (NotFoundError ("wallet asset not found: " +:+ asset_id)) o).

(** ** Bounties *)

Definition bounty_live (s : BountyStatus) : bool :=
  match s with BDraft | BPublished | BClosed => true | _ => false end.

Definition _effective_bounty_status (row : bounty_row) : W BountyStatus :=
  if bounty_live (b_status row) then
    expires ← lift (parse_time (b_expires_at row));
    now_text ← self_clock;
    now ← lift (parse_time now_text);
    mret (if expires <=? now then BExpired else b_status row)
  else mret (b_status row).

Definition _set_bounty_status
    (row : bounty_row) (target : BountyStatus) (reason actor : string) : W unit :=
  now ← self_clock;
  let payload := JObj [("bounty_id", JStr (b_bounty_id row));
                       ("from", JStr (bounty_status_text (b_status row)));
                       ("to", JStr (bounty_status_text target)); ("reason", JStr reason)] in
  audit_id ← _audit (b_subject_id row) ("wallet_bounty_" +:+ bounty_status_text target)
               actor payload;
  let state_hash := _bounty_state_hash_row row target in
  update_bounty (b_bounty_id row) (bounty_set_status target state_hash audit_id now).

Definition _bounty_payload (bid sid : string) (p : BountyInput) (now : string) : json :=
  JObj [("bounty_id", JStr bid); ("subject_id", JStr sid);
        ("project_id", JOpt (bi_project_id p)); ("goal_id", JOpt (bi_goal_id p));
        ("idempotency_key", JStr (bi_idempotency_key p)); ("title", JStr (bi_title p));
        ("description", JStr (bi_description p));
        ("acceptance_criteria", JStrs (bi_acceptance_criteria p));
        ("network_id", JStr (bi_network_id p)); ("asset_id", JStr (bi_asset_id p));
        ("reward_amount", JStr (bi_reward_amount p)); ("opens_at", JStr (bi_opens_at p));
        ("expires_at", JStr (bi_expires_at p));
        ("max_submissions", JInt (bi_max_submissions p));
        ("reward_slots", JInt (bi_reward_slots p)); ("status", JStr "draft");
        ("created_at", JStr now)].

(** The replay check of [create_bounty]. *)
Definition bounty_equivalent (existing : bounty_row) (p : BountyInput) : bool :=
  (b_title existing == bi_title p) && (b_description existing == bi_description p)
  && (b_acceptance_criteria_json existing
        == canonical_json (JStrs (bi_acceptance_criteria p)))
  && (b_network_id existing == bi_network_id p) && (b_asset_id existing == bi_asset_id p)
  && (b_reward_amount existing == bi_reward_amount p)
  && (b_opens_at existing == bi_opens_at p) && (b_expires_at existing == bi_expires_at p)
  && (b_max_submissions existing =? bi_max_submissions p)
  && (b_reward_slots existing =? bi_reward_slots p)
  && (b_project_id existing == bi_project_id p) && (b_goal_id existing == bi_goal_id p).

(** [SELECT subject_id FROM <table> WHERE <key>=?] must be the subject. *)
Definition owned_by (table : list (string * string)) (key : option string) (sid : string)
    : bool :=
  match key with
  | None => true
  | Some k =>
      match fetchone (λ kv, kv.1 == k) table with
      | Some kv => kv.2 == sid
      | None => false
      end
  end.

Definition new_bounty_row (bounty_id subject_id : string) (p : BountyInput)
    (audit_id now : string) : bounty_row :=
  {| b_bounty_id := bounty_id; b_subject_id := subject_id;
     b_project_id := bi_project_id p; b_goal_id := bi_goal_id p;
     b_idempotency_key := bi_idempotency_key p; b_title := bi_title p;
     b_description := bi_description p;
     b_acceptance_criteria_json := canonical_json (JStrs (bi_acceptance_criteria p));
     b_network_id := bi_network_id p; b_asset_id := bi_asset_id p;
     b_reward_amount := bi_reward_amount p; b_opens_at := bi_opens_at p;
     b_expires_at := bi_expires_at p; b_max_submissions := bi_max_submissions p;
     b_reward_slots := bi_reward_slots p; b_status := BDraft;
     b_state_hash := _bounty_state_hash_values bounty_id subject_id p BDraft;
     b_created_audit_id := audit_id; b_last_audit_id := audit_id;
     b_created_at := now; b_updated_at := now |}.

Definition create_bounty (subject_id : string) (proposal : BountyInput) (actor : string)
    : W BountyRecord :=
  actor ← lift (_operator actor);
  lift (validate_subject_id subject_id) ;;
  now ← self_clock;
  transaction (
    network ← _network_row (bi_network_id proposal) subject_id;
    asset ← _asset_row (bi_asset_id proposal) subject_id;
    raise_if ((n_status network =/= "active") || (as_status asset =/= "active")
        || (as_network_id asset =/= bi_network_id proposal))
      (ValueError "wallet network or asset is not active") ;;
    d ← gets id;
    raise_if (negb (owned_by (projects d) (bi_project_id proposal) subject_id))
      (ValueError "bounty project provenance is invalid") ;;
    raise_if (negb (owned_by (goals d) (bi_goal_id proposal) subject_id))
      (ValueError "bounty goal provenance is invalid") ;;
    match fetchone (λ r, (b_subject_id r == subject_id)
              && (b_idempotency_key r == bi_idempotency_key proposal)) (bounties d) with
    | Some existing =>
        raise_if (negb (bounty_equivalent existing proposal))
          (ValueError "bounty idempotency key conflicts with different input") ;;
        lift (_bounty_from_row existing None)
    | None =>
        bounty_id ← new_id "bounty";
        let payload := _bounty_payload bounty_id subject_id proposal now in
        audit_id ← _audit subject_id "wallet_bounty_created" actor payload;
        insert_bounty (new_bounty_row bounty_id subject_id proposal audit_id now) ;;
        row ← gets (bounty_by_id bounty_id);
        r ← subscript row;
        lift (_bounty_from_row r None)
    end).

Definition _transition_bounty (bounty_id subject_id : string) (target : BountyStatus)
    (actor : string) : W BountyRecord :=
  actor ← lift (_operator actor);
  lift (validate_subject_id subject_id) ;;
  transaction (
    found ← gets (bounty_of_subject bounty_id subject_id);
    row ← lift (of_option (NotFoundError "wallet bounty not found") found);
    status ← _effective_bounty_status row;
    row ← (if status =/= b_status row then
             _set_bounty_status row status "expired" actor ;;
             again ← gets (bounty_by_id bounty_id);
             subscript again
           else mret row);
    raise_if (negb (bool_decide (target ∈ _BOUNTY_TRANSITIONS (b_status row))))
      (InvalidTransitionError "wallet bounty transition is invalid") ;;
    _set_bounty_status row target (bounty_status_text target) actor ;;
    final ← gets (bounty_by_id bounty_id);
    r ← subscript final;
    lift (_bounty_from_row r None)).

Definition publish_bounty bounty_id subject_id actor :=
  _transition_bounty bounty_id subject_id BPublished actor.
Definition close_bounty bounty_id subject_id actor :=
  _transition_bounty bounty_id subject_id BClosed actor.
Definition cancel_bounty bounty_id subject_id actor :=
  _transition_bounty bounty_id subject_id BCancelled actor.

Definition get_bounty (bounty_id subject_id : string) : W BountyRecord :=
  lift (validate_subject_id subject_id) ;;
  read_transaction (
    found ← gets (bounty_of_subject bounty_id subject_id);
    row ← lift (of_option (NotFoundError "wallet bounty not found") found);
    status ← _effective_bounty_status row;
    lift (_bounty_from_row row (Some status))).

(** The loop of [maintain_expired_bounties]. *)
Fixpoint expire_rows (now : Z) (rows : list bounty_row) (changed : Z) : W Z :=
  match rows with
  | [] => mret changed
  | row :: rest =>
      expires ← lift (parse_time (b_expires_at row));
      if expires <=? now then
        _set_bounty_status row BExpired "expiry" "system" ;;
        expire_rows now rest (changed + 1)
      else expire_rows now rest changed
  end.
Definition due_bounties (subject_id : string) (now : Z) (d : wallet_db) : list bounty_row :=
  sort_by (λ x y, str_ltb (b_expires_at x) (b_expires_at y)
             || ((b_expires_at x == b_expires_at y)
                 && str_leb (b_bounty_id x) (b_bounty_id y)))
    (select (λ r, (b_subject_id r == subject_id) && bounty_live (b_status r)
               && str_leb (b_expires_at r) (isoformat now)) (bounties d)).
Definition maintain_expired_bounties (subject_id : string) (limit : Z) : W Z :=
  raise_if (negb ((1 <=? limit) && (limit <=? 1000)))
    (ValueError "invalid bounty expiry maintenance limit") ;;
  now_text ← self_clock;
  now ← lift (parse_time now_text);
  transaction (
    rows ← gets (λ d, take (Z.to_nat limit) (due_bounties subject_id now d));
    expire_rows now rows 0).
End economy.
