(* ===== verification/RegistryDb.v ===== *)
(** * The registry tables ([core/schema/migrations_v053_v054.py], the row
    readers of [wallet/store.py])

    Constraints, triggers and statements of the tables of networks, assets,
    addresses, their revisions and the observed balances; the state hash of
    every row; and the readers [_network_from_row], ... that check a row
    before anything is done with it.  A reader returns the row it was given:
    it has checked that every column is in canonical form. *)

From S2P Require Import Prelude Tables PyStr Json Digest Time WalletTypes RegistryTypes.
From S2P Require Import WalletDb WalletEconomy.
Local Open Scope Z_scope.

(** [_RESOURCE_META]: the three kinds of resources and their tables. *)
Inductive resource_type := RNetwork | RAsset | RAddress.
#[global] Instance resource_type_eq_dec : EqDecision resource_type.
Proof. solve_decision. Defined.
Definition resource_text (k : resource_type) : string :=
  match k with RNetwork => "network" | RAsset => "asset" | RAddress => "address" end.
Definition id_column (k : resource_type) : string := resource_text k +:+ "_id".
Definition revisions (k : resource_type) (d : wallet_db) : list revision_row :=
  match k with
  | RNetwork => network_revisions d | RAsset => asset_revisions d | RAddress => address_revisions d
  end.
Definition set_revisions (k : resource_type) (f : list revision_row → list revision_row)
    : wallet_db → wallet_db :=
  match k with
  | RNetwork => set_network_revisions f | RAsset => set_asset_revisions f
  | RAddress => set_address_revisions f
  end.
(** The columns of a resource that its revisions refer to. *)
Record head := { h_id : string; h_subject : string; h_life : lifecycle }.
Definition network_head (r : network_row) : head :=
  {| h_id := n_network_id r; h_subject := n_subject_id r; h_life := n_life r |}.
Definition asset_head (r : asset_row) : head :=
  {| h_id := as_asset_id r; h_subject := as_subject_id r; h_life := as_life r |}.
Definition address_head (r : address_row) : head :=
  {| h_id := ad_address_id r; h_subject := ad_subject_id r; h_life := ad_life r |}.
Definition heads (k : resource_type) (d : wallet_db) : list head :=
  match k with
  | RNetwork => map network_head (networks d)
  | RAsset => map asset_head (assets d)
  | RAddress => map address_head (addresses d)
  end.

(** ** State hashes *)

Section hashes.
Context {Dg : Digest}.

Definition life_json (l : lifecycle) : list (string * json) :=
  [("status", JStr (l_status l)); ("created_at", JStr (l_created_at l));
   ("revoked_at", JOpt (l_revoked_at l)); ("revoke_reason", JOpt (l_revoke_reason l));
   ("created_audit_id", JStr (l_created_audit_id l));
   ("revoked_audit_id", JOpt (l_revoked_audit_id l))].
Definition _network_hash (network_id subject_id : string) (p : WalletNetworkInput)
    (l : lifecycle) : string :=
  content_hash (JObj
    ([("network_id", JStr network_id); ("subject_id", JStr subject_id);
      ("label", JStr (ni_label p)); ("chain_family", JStr (ni_chain_family p));
      ("chain_id", JInt (ni_chain_id p)); ("native_symbol", JStr (ni_native_symbol p));
      ("rpc_url", JOpt (ni_rpc_url p))] ++ life_json l)).
Definition _asset_hash (asset_id subject_id : string) (p : WalletAssetInput) (l : lifecycle)
    : string :=
  content_hash (JObj
    ([("asset_id", JStr asset_id); ("subject_id", JStr subject_id);
      ("network_id", JStr (ai_network_id p)); ("asset_type", JStr (ai_asset_type p));
      ("contract_address", JOpt (ai_contract_address p)); ("name", JStr (ai_name p));
      ("symbol", JStr (ai_symbol p)); ("decimals", JInt (ai_decimals p))] ++ life_json l)).
Definition _address_hash (address_id subject_id : string) (p : WalletAddressInput)
    (l : lifecycle) : string :=
  content_hash (JObj
    ([("address_id", JStr address_id); ("subject_id", JStr subject_id);
      ("network_id", JStr (di_network_id p)); ("label", JStr (di_label p));
      ("address", JStr (di_address p)); ("purpose", JStr (di_purpose p))] ++ life_json l)).
Definition _balance_hash (row : snapshot_row) : string :=
  content_hash (JObj
    [("snapshot_id", JStr (sn_snapshot_id row)); ("subject_id", JStr (sn_subject_id row));
     ("network_id", JStr (sn_network_id row)); ("asset_id", JStr (sn_asset_id row));
     ("address_id", JStr (sn_address_id row)); ("balance", JStr (sn_balance row));
     ("source", JStr (sn_source row)); ("observed_at", JStr (sn_observed_at row));
     ("created_at", JStr (sn_created_at row))]).
Definition _revision_hash (k : resource_type) (resource_id subject_id : string)
    (revision_number : Z) (status reason audit_id created_at : string) : string :=
  content_hash (JObj
    [("resource_type", JStr (resource_text k)); ("resource_id", JStr resource_id);
     ("subject_id", JStr subject_id); ("revision_number", JInt revision_number);
     ("status", JStr status); ("reason", JStr reason); ("audit_id", JStr audit_id);
     ("created_at", JStr created_at)]).
End hashes.

(** ** Reading rows *)

(** [try: r except (KeyError, TypeError, ValueError): raise e]. *)
Definition except_invalid {A} (e : exn) (r : result A) : result A :=
  match r with
  | Ok a => Ok a
  | Raise (OverflowError msg) => Raise (OverflowError msg)
  | Raise _ => Raise e
  end.
Definition fail_if (b : bool) (e : exn) : result unit := if b then Raise e else Ok tt.

Definition lifecycle_valid (l : lifecycle) : bool :=
  is_ok (store_identifier (l_created_audit_id l) "creation audit identifier")
  && ((l_status l == "active") || (l_status l == "revoked"))
  && validate_timestamp (l_created_at l)
  && if l_status l == "active" then
       (l_revoked_at l == None) && (l_revoke_reason l == None) && (l_revoked_audit_id l == None)
     else
       match l_revoked_at l, l_revoke_reason l, l_revoked_audit_id l with
       | Some at_, Some reason, Some audit =>
           validate_timestamp at_ && negb (blank reason) && (len reason <=? 2000)
           && (audit =/= EmptyString)
       | _, _, _ => false
       end.
Definition _lifecycle_values (l : lifecycle) (resource_id : string) : result unit :=
  fail_if (negb (lifecycle_valid l))
    (IntegrityError ("wallet lifecycle is invalid: " +:+ resource_id)).

Section readers.
Context {Dg : Digest} {Hosts : HostNames}.

Definition network_input (row : network_row) : WalletNetworkInput :=
  {| ni_label := n_label row; ni_chain_family := n_chain_family row;
     ni_chain_id := n_chain_id row; ni_native_symbol := n_native_symbol row;
     ni_rpc_url := n_rpc_url row |}.
Definition asset_input (row : asset_row) : WalletAssetInput :=
  {| ai_network_id := as_network_id row; ai_asset_type := as_asset_type row;
     ai_contract_address := as_contract_address row; ai_name := as_name row;
     ai_symbol := as_symbol row; ai_decimals := as_decimals row |}.
Definition address_input (row : address_row) : WalletAddressInput :=
  {| di_network_id := ad_network_id row; di_label := ad_label row; di_address := ad_address row;
     di_purpose := ad_purpose row |}.
Definition snapshot_input (row : snapshot_row) : WalletBalanceSnapshotInput :=
  {| bs_asset_id := sn_asset_id row; bs_address_id := sn_address_id row;
     bs_balance := sn_balance row; bs_source := sn_source row;
     bs_observed_at := Some (sn_observed_at row) |}.

(** The identity checks of the readers: [_identifier] and [validate_subject_id]. *)
Definition identity_ok (resource_id subject_id field : string) : bool :=
  is_ok (store_identifier resource_id field) && is_ok (validate_subject_id subject_id).

Definition _network_from_row (row : network_row) : result network_row :=
  let id := n_network_id row in
  p ← except_invalid (IntegrityError ("wallet network durable state is invalid: " +:+ id))
        (validate_WalletNetworkInput (network_input row));
  _ ← fail_if (negb (identity_ok id (n_subject_id row) "network identifier"))
        (IntegrityError ("wallet network durable identity is invalid: " +:+ id));
  _ ← _lifecycle_values (n_life row) id;
  _ ← fail_if ((n_label row =/= ni_label p) || (n_chain_family row =/= ni_chain_family p)
               || (n_chain_id row =/= ni_chain_id p)
               || (n_native_symbol row =/= ni_native_symbol p) || (n_rpc_url row =/= ni_rpc_url p))
        (IntegrityError ("wallet network state is non-canonical: " +:+ id));
  _ ← fail_if (n_state_hash row =/= _network_hash id (n_subject_id row) p (n_life row))
        (IntegrityError ("wallet network state hash mismatch: " +:+ id));
  Ok row.
Definition _asset_from_row (row : asset_row) : result asset_row :=
  let id := as_asset_id row in
  p ← except_invalid (IntegrityError ("wallet asset durable state is invalid: " +:+ id))
        (validate_WalletAssetInput (asset_input row));
  _ ← fail_if (negb (identity_ok id (as_subject_id row) "asset identifier"))
        (IntegrityError ("wallet asset durable identity is invalid: " +:+ id));
  _ ← _lifecycle_values (as_life row) id;
  _ ← fail_if ((as_network_id row =/= ai_network_id p) || (as_asset_type row =/= ai_asset_type p)
               || (as_contract_address row =/= ai_contract_address p)
               || (as_name row =/= ai_name p) || (as_symbol row =/= ai_symbol p)
               || (as_decimals row =/= ai_decimals p))
        (IntegrityError ("wallet asset state is non-canonical: " +:+ id));
  _ ← fail_if (as_state_hash row =/= _asset_hash id (as_subject_id row) p (as_life row))
        (IntegrityError ("wallet asset state hash mismatch: " +:+ id));
  Ok row.
Definition _address_from_row (row : address_row) : result address_row :=
  let id := ad_address_id row in
  p ← except_invalid (IntegrityError ("wallet address durable state is invalid: " +:+ id))
        (validate_WalletAddressInput (address_input row));
  _ ← fail_if (negb (identity_ok id (ad_subject_id row) "address identifier"))
        (IntegrityError ("wallet address durable identity is invalid: " +:+ id));
  _ ← _lifecycle_values (ad_life row) id;
  _ ← fail_if ((ad_network_id row =/= di_network_id p) || (ad_label row =/= di_label p)
               || (ad_address row =/= di_address p) || (ad_purpose row =/= di_purpose p))
        (IntegrityError ("wallet address state is non-canonical: " +:+ id));
  _ ← fail_if (ad_state_hash row =/= _address_hash id (ad_subject_id row) p (ad_life row))
        (IntegrityError ("wallet address state hash mismatch: " +:+ id));
  Ok row.
End readers.

Section balances.
Context {Dg : Digest}.

(** [canonical_timestamp(value) != value: raise]. *)
Definition is_canonical (value : string) : result unit :=
  t ← canonical_timestamp value; check (t == value) "time is not canonical".
Definition _balance_from_row (row : snapshot_row) : result snapshot_row :=
  let id := sn_snapshot_id row in
  p ← except_invalid (IntegrityError ("wallet balance snapshot durable state is invalid: " +:+ id))
        (validate_WalletBalanceSnapshotInput (snapshot_input row));
  _ ← fail_if (negb (is_ok (store_identifier id "balance snapshot identifier")
                     && is_ok (store_identifier (sn_network_id row) "network identifier")
                     && is_ok (validate_subject_id (sn_subject_id row))))
        (IntegrityError ("wallet balance snapshot durable identity is invalid: " +:+ id));
  _ ← except_invalid (IntegrityError ("wallet balance snapshot time is invalid: " +:+ id))
        (is_canonical (sn_created_at row));
  _ ← fail_if ((sn_asset_id row =/= bs_asset_id p) || (sn_address_id row =/= bs_address_id p)
               || (sn_balance row =/= bs_balance p) || (sn_source row =/= bs_source p)
               || (Some (sn_observed_at row) =/= bs_observed_at p))
        (IntegrityError ("wallet balance snapshot is non-canonical: " +:+ id));
  _ ← fail_if (sn_state_hash row =/= _balance_hash row)
        (IntegrityError ("wallet balance snapshot hash mismatch: " +:+ id));
  Ok row.
End balances.

(** ** Constraints and triggers *)

(** [CHECK (status = 'active' AND revoked_at IS NULL ... OR status = 'revoked' ...)]. *)
Definition lifecycle_check (l : lifecycle) : bool :=
  ((l_status l == "active") && (l_revoked_at l == None) && (l_revoke_reason l == None)
     && (l_revoked_audit_id l == None))
  || ((l_status l == "revoked")
      && match l_revoked_at l, l_revoke_reason l, l_revoked_audit_id l with
         | Some _, Some reason, Some _ => 0 <? len (sql_trim reason)
         | _, _, _ => false
         end).
(** [s = trim(s) AND length(s) BETWEEN 1 AND 128]. *)
Definition trimmed_check (s : string) : bool :=
  (s == sql_trim s) && (1 <=? len s) && (len s <=? 128).
Definition evm_check (s : string) : bool :=
  (len s =? 42) && evm_address_match s && (lower s == s).

Definition network_check (r : network_row) : bool :=
  trimmed_check (n_label r) && (n_chain_family r == "evm") && (1 <=? n_chain_id r)
  && symbol_match (n_native_symbol r)
  && match n_rpc_url r with None => true | Some u => (1 <=? len u) && (len u <=? 512) end
  && lifecycle_check (n_life r).
Definition network_unique (t : list network_row) (r : network_row) : bool :=
  negb (exists_where (λ x, n_network_id x == n_network_id r) t)
  && negb (exists_where (λ x, (n_subject_id x == n_subject_id r) && (n_label x == n_label r)) t)
  && negb (exists_where (λ x, (n_subject_id x == n_subject_id r)
       && (n_chain_family x == n_chain_family r) && (n_chain_id x == n_chain_id r)) t).
Definition asset_check (r : asset_row) : bool :=
  trimmed_check (as_name r) && symbol_match (as_symbol r)
  && (0 <=? as_decimals r) && (as_decimals r <=? 255)
  && match as_contract_address r with
     | None => as_asset_type r == "native"
     | Some a => (as_asset_type r == "token") && evm_check a
     end
  && lifecycle_check (as_life r).
(** The unique key on the contract address ignores null addresses; the
    partial index covers native assets. *)
Definition asset_unique (t : list asset_row) (r : asset_row) : bool :=
  negb (exists_where (λ x, as_asset_id x == as_asset_id r) t)
  && negb (exists_where (λ x, (as_subject_id x == as_subject_id r)
       && (as_network_id x == as_network_id r)
       && (as_contract_address x == as_contract_address r)
       && bool_decide (is_Some (as_contract_address r))) t)
  && negb (exists_where (λ x, (as_subject_id x == as_subject_id r)
       && (as_network_id x == as_network_id r)
       && (as_asset_type x == "native") && (as_asset_type r == "native")) t).
Definition registered_address_check (r : address_row) : bool :=
  trimmed_check (ad_label r) && evm_check (ad_address r)
  && bool_decide (ad_purpose r ∈ address_purposes) && lifecycle_check (ad_life r).
(** The label and the address are unique among the active rows. *)
Definition active_twin (r x : address_row) : bool :=
  (ad_status r == "active") && (ad_status x == "active")
  && (ad_subject_id x == ad_subject_id r) && (ad_network_id x == ad_network_id r)
  && ((ad_label x == ad_label r) || (ad_address x == ad_address r)).
Definition address_unique (t : list address_row) (r : address_row) : bool :=
  negb (exists_where (λ x, ad_address_id x == ad_address_id r) t)
  && negb (exists_where (active_twin r) t).
Definition snapshot_check (r : snapshot_row) : bool :=
  balance_match (sn_balance r) && source_match (sn_source r).

(** [EXISTS (SELECT 1 FROM audit_records a WHERE a.audit_id = ... AND
    a.subject_id = ... AND a.action = ...)]. *)
Definition has_audit (d : wallet_db) (audit_id subject_id action : string) : bool :=
  exists_where (λ a, (a_audit_id a == audit_id) && (a_subject_id a == subject_id)
    && (a_action a == action)) (audits d).
Definition registered_action (k : resource_type) : string :=
  "wallet_" +:+ resource_text k +:+ "_registered".
Definition revoked_action (k : resource_type) : string :=
  "wallet_" +:+ resource_text k +:+ "_revoked".

(** Triggers [validate_wallet_network_transition], ...: the only update is
    the revocation, with its audit record and a new hash. *)
Definition lifecycle_transition_ok (k : resource_type) (d : wallet_db) (subject_id : string)
    (old new : lifecycle) (old_hash new_hash : string) : bool :=
  ((l_status new == l_status old) && (new_hash == old_hash)
     && (l_revoked_at new == l_revoked_at old) && (l_revoke_reason new == l_revoke_reason old)
     && (l_revoked_audit_id new == l_revoked_audit_id old))
  || ((l_status old == "active") && (l_status new == "revoked") && (new_hash =/= old_hash)
      && bool_decide (is_Some (l_revoked_at new)) && bool_decide (is_Some (l_revoke_reason new))
      && match l_revoked_audit_id new with
         | Some a => has_audit d a subject_id (revoked_action k)
         | None => false
         end).
Definition active_asset_on (subject_id network_id : string) (a : asset_row) : bool :=
  (as_subject_id a == subject_id) && (as_network_id a == network_id) && (as_status a == "active").
Definition active_address_on (subject_id network_id : string) (a : address_row) : bool :=
  (ad_subject_id a == subject_id) && (ad_network_id a == network_id) && (ad_status a == "active").
Definition network_transition_ok (d : wallet_db) (old new : network_row) : bool :=
  lifecycle_transition_ok RNetwork d (n_subject_id new) (n_life old) (n_life new)
    (n_state_hash old) (n_state_hash new)
  && ((n_status new == n_status old)
      || (negb (exists_where (active_asset_on (n_subject_id new) (n_network_id new)) (assets d))
          && negb (exists_where (active_address_on (n_subject_id new) (n_network_id new))
                     (addresses d)))).

(** Trigger [validate_wallet_network_revision_insert] and its two twins. *)
Definition next_revision (t : list revision_row) (resource_id : string) : Z :=
  match map v_revision_number (select (λ r, v_resource_id r == resource_id) t) with
  | [] => 1
  | n :: l => foldl Z.max n l + 1
  end.
Definition revision_insert_ok (k : resource_type) (d : wallet_db) (r : revision_row) : bool :=
  exists_where (λ h, (h_id h == v_resource_id r) && (h_subject h == v_subject_id r)
    && (l_status (h_life h) == v_status r)) (heads k d)
  && (((v_status r == "active")
         && has_audit d (v_audit_id r) (v_subject_id r) (registered_action k))
      || ((v_status r == "revoked")
         && has_audit d (v_audit_id r) (v_subject_id r) (revoked_action k)))
  && (v_revision_number r =? next_revision (revisions k d) (v_resource_id r))
  && negb ((v_revision_number r =? 1) && (v_status r =/= "active"))
  && negb ((v_revision_number r =? 2)
      && ((v_status r =/= "revoked")
          || negb (exists_where (λ x, (v_resource_id x == v_resource_id r)
               && (v_revision_number x =? 1) && (v_status x == "active")) (revisions k d)))).
Definition revision_check (r : revision_row) : bool :=
  (1 <=? v_revision_number r) && (v_revision_number r <=? 2) && sql_text 1 2000 (v_reason r).
Definition revision_unique (t : list revision_row) (r : revision_row) : bool :=
  negb (exists_where (λ x, v_revision_id x == v_revision_id r) t)
  && negb (exists_where (λ x, (v_resource_id x == v_resource_id r)
       && (v_revision_number x =? v_revision_number r)) t).
(** Trigger [validate_wallet_balance_snapshot_insert]. *)
Definition snapshot_reference_ok (d : wallet_db) (r : snapshot_row) : bool :=
  exists_where (λ n, (n_network_id n == sn_network_id r) && (n_subject_id n == sn_subject_id r))
    (networks d)
  && exists_where (λ a, (as_asset_id a == sn_asset_id r) && (as_subject_id a == sn_subject_id r)
       && (as_network_id a == sn_network_id r)) (assets d)
  && exists_where (λ a, (ad_address_id a == sn_address_id r) && (ad_subject_id a == sn_subject_id r)
       && (ad_network_id a == sn_network_id r)) (addresses d).

(** ** Statements *)

Definition subject_exists (s : string) (d : wallet_db) : bool := bool_decide (s ∈ subjects d).

Definition insert_network (r : network_row) : W unit :=
  d ← gets id;
  constraint (has_audit d (l_created_audit_id (n_life r)) (n_subject_id r)
                (registered_action RNetwork)) "wallet network creation audit mismatch" ;;
  constraint (network_check r) "CHECK constraint failed" ;;
  constraint (network_unique (networks d) r) "UNIQUE constraint failed" ;;
  constraint (subject_exists (n_subject_id r) d) "FOREIGN KEY constraint failed" ;;
  modify (set_networks (append_row r)).
Definition insert_asset (r : asset_row) : W unit :=
  d ← gets id;
  constraint (has_audit d (l_created_audit_id (as_life r)) (as_subject_id r)
                (registered_action RAsset)) "wallet asset creation audit mismatch" ;;
  constraint (asset_check r) "CHECK constraint failed" ;;
  constraint (asset_unique (assets d) r) "UNIQUE constraint failed" ;;
  constraint (subject_exists (as_subject_id r) d) "FOREIGN KEY constraint failed" ;;
  modify (set_assets (append_row r)).
Definition insert_address (r : address_row) : W unit :=
  d ← gets id;
  constraint (has_audit d (l_created_audit_id (ad_life r)) (ad_subject_id r)
                (registered_action RAddress)) "wallet address creation audit mismatch" ;;
  constraint (registered_address_check r) "CHECK constraint failed" ;;
  constraint (address_unique (addresses d) r) "UNIQUE constraint failed" ;;
  constraint (subject_exists (ad_subject_id r) d) "FOREIGN KEY constraint failed" ;;
  modify (set_addresses (append_row r)).
Definition insert_revision_row (k : resource_type) (r : revision_row) : W unit :=
  d ← gets id;
  constraint (revision_insert_ok k d r) "wallet revision is invalid" ;;
  constraint (revision_check r) "CHECK constraint failed" ;;
  constraint (revision_unique (revisions k d) r) "UNIQUE constraint failed" ;;
  modify (set_revisions k (append_row r)).
Definition insert_snapshot (r : snapshot_row) : W unit :=
  d ← gets id;
  constraint (snapshot_reference_ok d r) "wallet balance snapshot reference mismatch" ;;
  constraint (snapshot_check r) "CHECK constraint failed" ;;
  constraint (negb (exists_where (λ x, sn_snapshot_id x == sn_snapshot_id r) (snapshots d)))
    "UNIQUE constraint failed" ;;
  constraint (subject_exists (sn_subject_id r) d) "FOREIGN KEY constraint failed" ;;
  modify (set_snapshots (append_row r)).

(** [UPDATE ... SET status = 'revoked', state_hash = ?, revoked_at = ?,
    revoke_reason = ?, revoked_audit_id = ?]. *)
Definition life_revoke (now reason audit_id : string) (l : lifecycle) : lifecycle :=
  {| l_status := "revoked"; l_created_at := l_created_at l; l_revoked_at := Some now;
     l_revoke_reason := Some reason; l_created_audit_id := l_created_audit_id l;
     l_revoked_audit_id := Some audit_id |}.
Definition network_revoke (l : lifecycle) (h : string) (r : network_row) : network_row :=
  {| n_network_id := n_network_id r; n_subject_id := n_subject_id r; n_label := n_label r;
     n_chain_family := n_chain_family r; n_chain_id := n_chain_id r;
     n_native_symbol := n_native_symbol r; n_rpc_url := n_rpc_url r; n_life := l;
     n_state_hash := h |}.
Definition asset_revoke (l : lifecycle) (h : string) (r : asset_row) : asset_row :=
  {| as_asset_id := as_asset_id r; as_subject_id := as_subject_id r;
     as_network_id := as_network_id r; as_asset_type := as_asset_type r;
     as_contract_address := as_contract_address r; as_name := as_name r;
     as_symbol := as_symbol r; as_decimals := as_decimals r; as_life := l;
     as_state_hash := h |}.
Definition address_revoke (l : lifecycle) (h : string) (r : address_row) : address_row :=
  {| ad_address_id := ad_address_id r; ad_subject_id := ad_subject_id r;
     ad_network_id := ad_network_id r; ad_label := ad_label r; ad_address := ad_address r;
     ad_purpose := ad_purpose r; ad_life := l; ad_state_hash := h |}.

Definition update_network (network_id subject_id : string) (f : network_row → network_row)
    : W unit :=
  d ← gets id;
  let p r := (n_network_id r == network_id) && (n_subject_id r == subject_id) in
  constraint (forallb (λ r, network_transition_ok d r (f r)) (select p (networks d)))
    "wallet network transition is invalid" ;;
  constraint (forallb (λ r, network_check (f r)) (select p (networks d)))
    "CHECK constraint failed" ;;
  modify (set_networks (update_where p f)).
Definition update_asset (asset_id subject_id : string) (f : asset_row → asset_row) : W unit :=
  d ← gets id;
  let p r := (as_asset_id r == asset_id) && (as_subject_id r == subject_id) in
  constraint (forallb (λ r, lifecycle_transition_ok RAsset d (as_subject_id (f r))
                (as_life r) (as_life (f r)) (as_state_hash r) (as_state_hash (f r)))
                (select p (assets d))) "wallet asset transition is invalid" ;;
  constraint (forallb (λ r, asset_check (f r)) (select p (assets d)))
    "CHECK constraint failed" ;;
  modify (set_assets (update_where p f)).
Definition update_address (address_id subject_id : string) (f : address_row → address_row)
    : W unit :=
  d ← gets id;
  let p r := (ad_address_id r == address_id) && (ad_subject_id r == subject_id) in
  constraint (forallb (λ r, lifecycle_transition_ok RAddress d (ad_subject_id (f r))
                (ad_life r) (ad_life (f r)) (ad_state_hash r) (ad_state_hash (f r)))
                (select p (addresses d))) "wallet address transition is invalid" ;;
  constraint (forallb (λ r, registered_address_check (f r)) (select p (addresses d)))
    "CHECK constraint failed" ;;
  modify (set_addresses (update_where p f)).
