(* ===== verification/RegistryStore.v ===== *)
(** * The wallet registry ([WalletStore] of [src/src/noyra/wallet/store.py])

    Registration and revocation of networks, assets and addresses, the
    recording of observed balances, and the listings. *)

From S2P Require Import Prelude Tables PyStr Json Digest Time WalletTypes RegistryTypes.
From S2P Require Import WalletDb WalletEconomy RegistryDb.
Local Open Scope Z_scope.

Definition _MAX_LIST_LIMIT : Z := 1000.

(** [except sqlite3.IntegrityError as error: raise ValueError(msg) from error]. *)
Definition conflict (msg : string) (e : exn) : exn :=
  match e with SqliteError _ => ValueError msg | _ => e end.

Definition _require_operator (actor action : string) : result unit :=
  if blank actor || (strip actor == "subject") then
    Raise (PermissionError ("only an operator can " +:+ action))
  else Ok tt.
Definition _reason (value : string) : result string :=
  let reason := strip value in
  if (reason == EmptyString) || (2000 <? len reason) then
    Raise (ValueError "wallet revoke reason is invalid")
  else Ok reason.
Definition _limit (value : Z) : result Z :=
  if (1 <=? value) && (value <=? _MAX_LIST_LIMIT) then Ok value
  else Raise (ValueError "wallet list limit is invalid").

Definition _address_row (address_id subject_id : string) : W address_row :=
  lift (store_identifier address_id "address identifier") ;;
  o ← gets (λ d, fetchone (λ r, (ad_address_id r == address_id)
                    && (ad_subject_id r == subject_id)) (addresses d));
  lift (of_option (NotFoundError ("wallet address not found: " +:+ address_id)) o).

Definition active_life (now audit_id : string) : lifecycle :=
  {| l_status := "active"; l_created_at := now; l_revoked_at := None; l_revoke_reason := None;
     l_created_audit_id := audit_id; l_revoked_audit_id := None |}.

Section store.
Context {Dg : Digest} {En : Env} {Hosts : HostNames}.

(** [_append_audit]. *)
Definition _append_audit (subject_id action actor : string) (payload : json) : W string :=
  audit_id ← new_id "audit";
  now ← utc_now;
  insert_audit {| a_audit_id := audit_id; a_subject_id := subject_id; a_action := action;
                  a_actor := actor; a_payload_json := canonical_json payload;
                  a_occurred_at := now |} ;;
  mret audit_id.

Definition _network_registration_audit_payload (network_id : string) (p : WalletNetworkInput)
    : json :=
  JObj [("network_id", JStr network_id); ("label", JStr (ni_label p));
        ("chain_family", JStr (ni_chain_family p)); ("chain_id", JInt (ni_chain_id p))].
Definition _asset_registration_audit_payload (asset_id : string) (p : WalletAssetInput) : json :=
  JObj [("asset_id", JStr asset_id); ("network_id", JStr (ai_network_id p));
        ("asset_type", JStr (ai_asset_type p));
        ("contract_address", JOpt (ai_contract_address p))].
Definition _address_registration_audit_payload (address_id : string) (p : WalletAddressInput)
    : json :=
  JObj [("address_id", JStr address_id); ("network_id", JStr (di_network_id p));
        ("address", JStr (di_address p))].

Definition _insert_revision (k : resource_type) (resource_id subject_id : string)
    (revision_number : Z) (status reason audit_id created_at : string) : W unit :=
  revision_id ← new_id ("wallet" +:+ resource_text k +:+ "rev");
  insert_revision_row k
    {| v_revision_id := revision_id; v_resource_id := resource_id; v_subject_id := subject_id;
       v_revision_number := revision_number; v_status := status; v_reason := reason;
       v_audit_id := audit_id;
       v_state_hash := _revision_hash k resource_id subject_id revision_number status reason
                         audit_id created_at;
       v_created_at := created_at |}.

(** ** Reading one record *)

Definition get_network (network_id subject_id : string) : W network_row :=
  row ← _network_row network_id subject_id; lift (_network_from_row row).
Definition get_asset (asset_id subject_id : string) : W asset_row :=
  row ← _asset_row asset_id subject_id; lift (_asset_from_row row).
Definition get_address (address_id subject_id : string) : W address_row :=
  row ← _address_row address_id subject_id; lift (_address_from_row row).
Definition get_balance_snapshot (snapshot_id subject_id : string) : W snapshot_row :=
  lift (store_identifier snapshot_id "balance snapshot identifier") ;;
  o ← gets (λ d, fetchone (λ r, (sn_snapshot_id r == snapshot_id)
                    && (sn_subject_id r == subject_id)) (snapshots d));
  row ← lift (of_option (NotFoundError ("wallet balance snapshot not found: " +:+ snapshot_id)) o);
  lift (_balance_from_row row).

(** ** Registration *)

Definition new_network_row (network_id subject_id : string) (p : WalletNetworkInput)
    (now audit_id : string) : network_row :=
  {| n_network_id := network_id; n_subject_id := subject_id; n_label := ni_label p;
     n_chain_family := ni_chain_family p; n_chain_id := ni_chain_id p;
     n_native_symbol := ni_native_symbol p; n_rpc_url := ni_rpc_url p;
     n_life := active_life now audit_id;
     n_state_hash := _network_hash network_id subject_id p (active_life now audit_id) |}.
Definition register_network (subject_id : string) (p : WalletNetworkInput) (actor : string)
    : W network_row :=
  lift (_require_operator actor "register a wallet network") ;;
  lift (validate_subject_id subject_id) ;;
  network_id ← new_id "walletnet";
  now ← utc_now;
  rethrow (conflict "wallet network registration conflicts with durable state") (transaction (
    clash ← gets (λ d, fetchone (λ r, (n_subject_id r == subject_id)
        && ((n_label r == ni_label p) || ((n_chain_family r == ni_chain_family p)
             && (n_chain_id r == ni_chain_id p)))) (networks d));
    raise_if (bool_decide (is_Some clash)) (ValueError "wallet network already registered") ;;
    audit_id ← _append_audit subject_id "wallet_network_registered" actor
                 (_network_registration_audit_payload network_id p);
    insert_network (new_network_row network_id subject_id p now audit_id) ;;
    _insert_revision RNetwork network_id subject_id 1 "active"
      "operator registered wallet network" audit_id now)) ;;
  get_network network_id subject_id.

Definition new_asset_row (asset_id subject_id : string) (p : WalletAssetInput)
    (now audit_id : string) : asset_row :=
  {| as_asset_id := asset_id; as_subject_id := subject_id; as_network_id := ai_network_id p;
     as_asset_type := ai_asset_type p; as_contract_address := ai_contract_address p;
     as_name := ai_name p; as_symbol := ai_symbol p; as_decimals := ai_decimals p;
     as_life := active_life now audit_id;
     as_state_hash := _asset_hash asset_id subject_id p (active_life now audit_id) |}.
Definition asset_clash (subject_id : string) (p : WalletAssetInput) (r : asset_row) : bool :=
  (as_subject_id r == subject_id) && (as_network_id r == ai_network_id p)
  && if ai_asset_type p == "native" then as_asset_type r == "native"
     else (as_contract_address r == ai_contract_address p)
          && bool_decide (is_Some (ai_contract_address p)).
Definition register_asset (subject_id : string) (p : WalletAssetInput) (actor : string)
    : W asset_row :=
  lift (_require_operator actor "register a wallet asset") ;;
  lift (validate_subject_id subject_id) ;;
  asset_id ← new_id "walletasset";
  now ← utc_now;
  rethrow (conflict "wallet asset registration conflicts with durable state") (transaction (
    row ← _network_row (ai_network_id p) subject_id;
    network ← lift (_network_from_row row);
    raise_if (n_status network =/= "active") (ValueError "wallet network is not active") ;;
    raise_if ((ai_asset_type p == "native") && (ai_symbol p =/= n_native_symbol network))
      (ValueError "native asset symbol must match the network native symbol") ;;
    clash ← gets (λ d, fetchone (asset_clash subject_id p) (assets d));
    raise_if (bool_decide (is_Some clash)) (ValueError "wallet asset already registered") ;;
    audit_id ← _append_audit subject_id "wallet_asset_registered" actor
                 (_asset_registration_audit_payload asset_id p);
    insert_asset (new_asset_row asset_id subject_id p now audit_id) ;;
    _insert_revision RAsset asset_id subject_id 1 "active"
      "operator registered wallet asset" audit_id now)) ;;
  get_asset asset_id subject_id.

Definition new_address_row (address_id subject_id : string) (p : WalletAddressInput)
    (now audit_id : string) : address_row :=
  {| ad_address_id := address_id; ad_subject_id := subject_id; ad_network_id := di_network_id p;
     ad_label := di_label p; ad_address := di_address p; ad_purpose := di_purpose p;
     ad_life := active_life now audit_id;
     ad_state_hash := _address_hash address_id subject_id p (active_life now audit_id) |}.
Definition register_address (subject_id : string) (p : WalletAddressInput) (actor : string)
    : W address_row :=
  lift (_require_operator actor "register a wallet address") ;;
  lift (validate_subject_id subject_id) ;;
  address_id ← new_id "walletaddr";
  now ← utc_now;
  rethrow (conflict "wallet address registration conflicts with durable state") (transaction (
    row ← _network_row (di_network_id p) subject_id;
    network ← lift (_network_from_row row);
    raise_if (n_status network =/= "active") (ValueError "wallet network is not active") ;;
    clash ← gets (λ d, fetchone (λ r, (ad_subject_id r == subject_id)
        && (ad_network_id r == di_network_id p) && (ad_status r == "active")
        && ((ad_label r == di_label p) || (ad_address r == di_address p))) (addresses d));
    raise_if (bool_decide (is_Some clash)) (ValueError "wallet address already registered") ;;
    audit_id ← _append_audit subject_id "wallet_address_registered" actor
                 (_address_registration_audit_payload address_id p);
    insert_address (new_address_row address_id subject_id p now audit_id) ;;
    _insert_revision RAddress address_id subject_id 1 "active"
      "operator registered wallet address" audit_id now)) ;;
  get_address address_id subject_id.

(** ** Revocation *)

(** The common end of the three revocations: the audit record, the update
    of the row, the second revision. *)
Definition _revoked_payload (k : resource_type) (resource_id reason : string) : json :=
  JObj [(id_column k, JStr resource_id); ("reason", JStr reason)].

Definition revoke_network (network_id reason actor subject_id : string) : W network_row :=
  lift (_require_operator actor "revoke a wallet network") ;;
  reason ← lift (_reason reason);
  lift (validate_subject_id subject_id) ;;
  early ← transaction (
    row ← _network_row network_id subject_id;
    record ← lift (_network_from_row row);
    if n_status record == "revoked" then mret (Some record)
    else
      children ← gets (λ d,
        exists_where (active_asset_on subject_id network_id) (assets d)
        || exists_where (active_address_on subject_id network_id) (addresses d));
      raise_if children
        (ValueError "wallet network has active asset or address registrations") ;;
      now ← utc_now;
      audit_id ← _append_audit subject_id "wallet_network_revoked" actor
                   (_revoked_payload RNetwork network_id reason);
      let l := life_revoke now reason audit_id (n_life record) in
      update_network network_id subject_id
        (network_revoke l (_network_hash (n_network_id record) (n_subject_id record)
                             (network_input record) l)) ;;
      _insert_revision RNetwork network_id subject_id 2 "revoked" reason audit_id now ;;
      mret None);
  match early with
  | Some record => mret record
  | None => get_network network_id subject_id
  end.

Definition revoke_asset (asset_id reason actor subject_id : string) : W asset_row :=
  lift (_require_operator actor "revoke a wallet asset") ;;
  reason ← lift (_reason reason);
  lift (validate_subject_id subject_id) ;;
  early ← transaction (
    row ← _asset_row asset_id subject_id;
    record ← lift (_asset_from_row row);
    if as_status record == "revoked" then mret (Some record)
    else
      now ← utc_now;
      audit_id ← _append_audit subject_id "wallet_asset_revoked" actor
                   (_revoked_payload RAsset asset_id reason);
      let l := life_revoke now reason audit_id (as_life record) in
      update_asset asset_id subject_id
        (asset_revoke l (_asset_hash (as_asset_id record) (as_subject_id record)
                           (asset_input record) l)) ;;
      _insert_revision RAsset asset_id subject_id 2 "revoked" reason audit_id now ;;
      mret None);
  match early with
  | Some record => mret record
  | None => get_asset asset_id subject_id
  end.

Definition revoke_address (address_id reason actor subject_id : string) : W address_row :=
  lift (_require_operator actor "revoke a wallet address") ;;
  reason ← lift (_reason reason);
  lift (validate_subject_id subject_id) ;;
  early ← transaction (
    row ← _address_row address_id subject_id;
    record ← lift (_address_from_row row);
    if ad_status record == "revoked" then mret (Some record)
    else
      now ← utc_now;
      audit_id ← _append_audit subject_id "wallet_address_revoked" actor
                   (_revoked_payload RAddress address_id reason);
      let l := life_revoke now reason audit_id (ad_life record) in
      update_address address_id subject_id
        (address_revoke l (_address_hash (ad_address_id record) (ad_subject_id record)
                             (address_input record) l)) ;;
      _insert_revision RAddress address_id subject_id 2 "revoked" reason audit_id now ;;
      mret None);
  match early with
  | Some record => mret record
  | None => get_address address_id subject_id
  end.

(** ** Balance observations *)

Definition or_new (x : option string) (fallback : W string) : W string :=
  match x with Some (String _ _ as s) => mret s | _ => fallback end.
Definition new_snapshot_row (snapshot_id subject_id network_id : string)
    (p : WalletBalanceSnapshotInput) (observed_at created_at : string) : snapshot_row :=
  let row h := {| sn_snapshot_id := snapshot_id; sn_subject_id := subject_id;
    sn_network_id := network_id; sn_asset_id := bs_asset_id p; sn_address_id := bs_address_id p;
    sn_balance := bs_balance p; sn_source := bs_source p; sn_observed_at := observed_at;
    sn_created_at := created_at; sn_state_hash := h |} in
  row (_balance_hash (row EmptyString)).
Definition _record_balance_snapshot_connection (subject_id : string)
    (p : WalletBalanceSnapshotInput) (actor : string) (snapshot_id created_at : option string)
    : W snapshot_row :=
  lift (_require_operator actor "record a wallet balance observation") ;;
  lift (validate_subject_id subject_id) ;;
  snapshot_id ← or_new snapshot_id (new_id "walletbal");
  lift (store_identifier snapshot_id "balance snapshot identifier") ;;
  created_at ← or_new created_at utc_now;
  lift (except_invalid (ValueError "wallet snapshot creation time is invalid")
          (is_canonical created_at)) ;;
  let observed_at := match bs_observed_at p with
                     | Some (String _ _ as t) => t | _ => created_at end in
  asset_row_ ← _asset_row (bs_asset_id p) subject_id;
  address_row_ ← _address_row (bs_address_id p) subject_id;
  asset ← lift (_asset_from_row asset_row_);
  address ← lift (_address_from_row address_row_);
  raise_if ((as_status asset =/= "active") || (ad_status address =/= "active")
            || (as_network_id asset =/= ad_network_id address))
    (ValueError "wallet balance references are not active on one network") ;;
  network_row_ ← _network_row (as_network_id asset) subject_id;
  network ← lift (_network_from_row network_row_);
  raise_if (n_status network =/= "active") (ValueError "wallet network is not active") ;;
  insert_snapshot (new_snapshot_row snapshot_id subject_id (as_network_id asset) p
                     observed_at created_at) ;;
  o ← gets (λ d, fetchone (λ r, (sn_snapshot_id r == snapshot_id)
                    && (sn_subject_id r == subject_id)) (snapshots d));
  row ← lift (of_option
          (IntegrityError "wallet balance snapshot disappeared after insertion") o);
  lift (_balance_from_row row).
Definition record_balance_snapshot (subject_id : string) (p : WalletBalanceSnapshotInput)
    (actor : string) : W snapshot_row :=
  lift (_require_operator actor "record a wallet balance observation") ;;
  lift (validate_subject_id subject_id) ;;
  snapshot_id ← new_id "walletbal";
  created_at ← utc_now;
  rethrow (conflict "wallet balance snapshot conflicts with durable state") (transaction (
    _record_balance_snapshot_connection subject_id p actor (Some snapshot_id)
      (Some created_at))).

(** ** Listings *)

(** [ORDER BY a DESC, b DESC] on two text columns. *)
Definition desc2 {R} (a b : R → string) (x y : R) : bool :=
  if a x == a y then str_leb (b y) (b x) else str_leb (a y) (a x).
Definition limited {R} (limit : Z) (l : list R) : list R := take (Z.to_nat limit) l.
Definition optional_match (o : option string) (s : string) : bool :=
  match o with None => true | Some x => s == x end.
Definition optional_id (o : option string) (field : string) : result unit :=
  match o with None => Ok tt | Some x => _ ← store_identifier x field; Ok tt end.

Definition list_networks (subject_id : string) (include_revoked : bool) (limit : Z)
    : W (list network_row) :=
  lift (validate_subject_id subject_id) ;;
  n ← lift (_limit limit);
  rows ← gets (λ d, limited n (sort_by (desc2 (λ r, l_created_at (n_life r)) n_network_id)
    (select (λ r, (n_subject_id r == subject_id)
                  && (include_revoked || (n_status r == "active"))) (networks d))));
  lift (mapM_result _network_from_row rows).
Definition list_assets (subject_id : string) (network_id : option string)
    (include_revoked : bool) (limit : Z) : W (list asset_row) :=
  lift (validate_subject_id subject_id) ;;
  lift (optional_id network_id "network identifier") ;;
  n ← lift (_limit limit);
  rows ← gets (λ d, limited n (sort_by (desc2 (λ r, l_created_at (as_life r)) as_asset_id)
    (select (λ r, (as_subject_id r == subject_id) && optional_match network_id (as_network_id r)
                  && (include_revoked || (as_status r == "active"))) (assets d))));
  lift (mapM_result _asset_from_row rows).
Definition list_addresses (subject_id : string) (network_id : option string)
    (include_revoked : bool) (limit : Z) : W (list address_row) :=
  lift (validate_subject_id subject_id) ;;
  lift (optional_id network_id "network identifier") ;;
  n ← lift (_limit limit);
  rows ← gets (λ d, limited n (sort_by (desc2 (λ r, l_created_at (ad_life r)) ad_address_id)
    (select (λ r, (ad_subject_id r == subject_id) && optional_match network_id (ad_network_id r)
                  && (include_revoked || (ad_status r == "active"))) (addresses d))));
  lift (mapM_result _address_from_row rows).

(** [_balance_filters]. *)
Record balance_filter := {
  f_subject : string; f_network : option string; f_asset : option string;
  f_address : option string;
}.
Definition _balance_filters (f : balance_filter) : result unit :=
  _ ← validate_subject_id (f_subject f);
  _ ← optional_id (f_network f) "network identifier";
  _ ← optional_id (f_asset f) "asset identifier";
  optional_id (f_address f) "address identifier".
Definition balance_where (f : balance_filter) (s : snapshot_row) : bool :=
  (sn_subject_id s == f_subject f) && optional_match (f_network f) (sn_network_id s)
  && optional_match (f_asset f) (sn_asset_id s) && optional_match (f_address f) (sn_address_id s).
(** [ORDER BY observed_at DESC, snapshot_id DESC]. *)
Definition newest_first : snapshot_row → snapshot_row → bool := desc2 sn_observed_at sn_snapshot_id.

Definition list_balance_snapshots (f : balance_filter) (limit : Z) : W (list snapshot_row) :=
  lift (_balance_filters f) ;;
  n ← lift (_limit limit);
  rows ← gets (λ d, limited n (sort_by newest_first (select (balance_where f) (snapshots d))));
  lift (mapM_result _balance_from_row rows).
(** The condition of the [NOT EXISTS] subquery. *)
Definition newer_of_pair (s newer : snapshot_row) : bool :=
  (sn_subject_id newer == sn_subject_id s) && (sn_network_id newer == sn_network_id s)
  && (sn_asset_id newer == sn_asset_id s) && (sn_address_id newer == sn_address_id s)
  && (str_ltb (sn_observed_at s) (sn_observed_at newer)
      || ((sn_observed_at newer == sn_observed_at s)
          && str_ltb (sn_snapshot_id s) (sn_snapshot_id newer))).
Definition latest_balances (f : balance_filter) (limit : Z) : W (list snapshot_row) :=
  lift (_balance_filters f) ;;
  n ← lift (_limit limit);
  rows ← gets (λ d, limited n (sort_by newest_first (select (λ s, balance_where f s
    && negb (exists_where (newer_of_pair s) (snapshots d))) (snapshots d))));
  lift (mapM_result _balance_from_row rows).
End store.
