(* ===== verification/RegistryHistory.v ===== *)
(** * Balance history pages ([WalletStore.balance_history_page])

    A page is the first rows of the balance observations of a query, newest
    first, up to a high-water mark of the table; the cursor of the next page
    is the mark and the last row, as an opaque text. *)

From S2P Require Import Prelude Tables PyStr Json Digest Time Base64 WalletTypes RegistryTypes.
From S2P Require Import WalletDb WalletEconomy RegistryDb RegistryStore.
Local Open Scope Z_scope.

Definition WALLET_BALANCE_HISTORY_MAX_PAGE_SIZE : Z := 1000.
Definition WALLET_BALANCE_HISTORY_MAX_CURSOR_LENGTH : Z := 8192.
Definition WALLET_BALANCE_HISTORY_CURSOR_VERSION : string := "wallet-balance-history/v1".

(** ** Cursors *)

(** [_BalanceHistoryCursor]; the first four fields are the query. *)
Record _BalanceHistoryCursor := {
  hc_filter : balance_filter; hc_anchor : Z; hc_observed_at : string; hc_snapshot_id : string;
}.
Definition cursor_fields (c : _BalanceHistoryCursor) : list (string * json) :=
  [("version"%string, JStr WALLET_BALANCE_HISTORY_CURSOR_VERSION);
   ("subject_id"%string, JStr (f_subject (hc_filter c)));
   ("network_id"%string, JOpt (f_network (hc_filter c)));
   ("asset_id"%string, JOpt (f_asset (hc_filter c)));
   ("address_id"%string, JOpt (f_address (hc_filter c)));
   ("anchor"%string, JInt (hc_anchor c));
   ("observed_at"%string, JStr (hc_observed_at c));
   ("snapshot_id"%string, JStr (hc_snapshot_id c))].
Definition b64_json (payload : json) : string := b64_encode (utf8_encode (canonical_json payload)).
Definition _encode_balance_history_cursor (c : _BalanceHistoryCursor) : result string :=
  let encoded := b64_json (JObj (cursor_fields c)) in
  _ ← fail_if (WALLET_BALANCE_HISTORY_MAX_CURSOR_LENGTH <? len encoded)
        (IntegrityError "wallet balance history cursor exceeds the configured bound");
  Ok encoded.

Definition invalid_cursor : exn := ValueError "wallet balance history cursor is invalid".
Definition required_keys : list string :=
  ["version"; "subject_id"; "network_id"; "asset_id"; "address_id"; "anchor"; "observed_at";
   "snapshot_id"]%string.
(** [set(payload) != required]; the keys of a dictionary are distinct. *)
Definition has_keys (m : list (string * json)) : bool :=
  (length m =? length required_keys)%nat
  && forallb (λ k, bool_decide (k ∈ map fst m)) required_keys.
Definition get (m : list (string * json)) (k : string) : json :=
  match fetchone (λ x, x.1 == k) m with Some x => x.2 | None => JNull end.

(** Every exception the source catches here becomes the one [ValueError]. *)
Definition text_field (v : json) : result string :=
  match v with JStr s => Ok s | _ => Raise invalid_cursor end.
Definition optional_field (v : json) : result (option string) :=
  match v with
  | JNull => Ok None
  | JStr s => if is_ok (store_identifier s EmptyString) then Ok (Some s) else Raise invalid_cursor
  | _ => Raise invalid_cursor
  end.
Definition anchor_field (v : json) : result Z :=
  match v with
  | JInt z => if (0 <=? z) && (z <=? SQLITE_INT64_MAX) then Ok z else Raise invalid_cursor
  | _ => Raise invalid_cursor
  end.
Definition time_field (v : json) : result string :=
  s ← text_field v;
  if (64 <? len s) || negb (match canonical_timestamp s with Ok t => t == s | Raise _ => false end)
  then Raise invalid_cursor else Ok s.
Definition subject_field (v : json) : result string :=
  s ← text_field v;
  if is_ok (validate_subject_id s) then Ok s else Raise invalid_cursor.
Definition snapshot_field (v : json) : result string :=
  s ← text_field v;
  if is_ok (store_identifier s EmptyString) then Ok s else Raise invalid_cursor.
Definition cursor_of_fields (m : list (string * json)) : result _BalanceHistoryCursor :=
  version ← text_field (get m "version");
  _ ← fail_if (version =/= WALLET_BALANCE_HISTORY_CURSOR_VERSION) invalid_cursor;
  subject_id ← subject_field (get m "subject_id");
  network_id ← optional_field (get m "network_id");
  asset_id ← optional_field (get m "asset_id");
  address_id ← optional_field (get m "address_id");
  anchor ← anchor_field (get m "anchor");
  observed_at ← time_field (get m "observed_at");
  snapshot_id ← snapshot_field (get m "snapshot_id");
  Ok {| hc_filter := {| f_subject := subject_id; f_network := network_id; f_asset := asset_id;
                        f_address := address_id |};
        hc_anchor := anchor; hc_observed_at := observed_at; hc_snapshot_id := snapshot_id |}.
Definition _decode_balance_history_cursor (cursor : string) : result _BalanceHistoryCursor :=
  _ ← fail_if ((cursor == EmptyString) || (WALLET_BALANCE_HISTORY_MAX_CURSOR_LENGTH <? len cursor)
               || negb (str_forallb in_alphabet cursor)) invalid_cursor;
  raw ← of_option invalid_cursor (b64_decode cursor);
  text ← of_option invalid_cursor (utf8_decode raw);
  match strict_json_loads text with
  | Ok (JObj m) =>
      _ ← fail_if (negb (has_keys m)) invalid_cursor;
      c ← cursor_of_fields m;
      _ ← fail_if (b64_json (JObj m) =/= cursor) invalid_cursor;
      Ok c
  | _ => Raise invalid_cursor
  end.

(** ** Pages *)

Record WalletBalanceHistoryPage := {
  pg_items : list snapshot_row; pg_next_cursor : option string; pg_has_more : bool;
}.
Definition _history_limit (value : Z) : result Z :=
  if (1 <=? value) && (value <=? WALLET_BALANCE_HISTORY_MAX_PAGE_SIZE) then Ok value
  else Raise (ValueError "wallet balance history page limit is invalid").
#[global] Instance balance_filter_eq_dec : EqDecision balance_filter.
Proof. solve_decision. Defined.
(** [observed_at < ? OR (observed_at = ? AND snapshot_id < ?)]. *)
Definition before_cursor (c : _BalanceHistoryCursor) (s : snapshot_row) : bool :=
  str_ltb (sn_observed_at s) (hc_observed_at c)
  || ((sn_observed_at s == hc_observed_at c) && str_ltb (sn_snapshot_id s) (hc_snapshot_id c)).

Section page.
Context {Dg : Digest}.

(** The rowid of a row is its position in the table: rows are never deleted. *)
Definition balance_history_page (f : balance_filter) (limit : Z) (cursor : option string)
    : W WalletBalanceHistoryPage :=
  bounded ← lift (_history_limit limit);
  lift (_balance_filters f) ;;
  decoded ← lift (match cursor with
                  | None => Ok None
                  | Some c => c ← _decode_balance_history_cursor c; Ok (Some c)
                  end);
  raise_if (match decoded with Some c => hc_filter c =/= f | None => false end)
    (ValueError "wallet balance history cursor does not match the query") ;;
  page ← read_transaction (
    high_water ← gets (λ d, Z.of_nat (length (snapshots d)));
    raise_if (SQLITE_INT64_MAX <? high_water)
      (IntegrityError "wallet balance history high-water mark is invalid") ;;
    let anchor := match decoded with Some c => hc_anchor c | None => high_water end in
    raise_if (high_water <? anchor)
      (ValueError "wallet balance history cursor is outside the current history") ;;
    rows ← gets (λ d, limited (bounded + 1) (sort_by newest_first
      (select (λ s, balance_where f s
                    && match decoded with Some c => before_cursor c s | None => true end)
         (take (Z.to_nat anchor) (snapshots d)))));
    mret (anchor, rows));
  let '(anchor, rows) := page in
  records ← lift (mapM_result _balance_from_row rows);
  let has_more := bounded <? Z.of_nat (length records) in
  let items := limited bounded records in
  next_cursor ← lift (match has_more, last items with
    | true, Some s => c ← _encode_balance_history_cursor
                            {| hc_filter := f; hc_anchor := anchor;
                               hc_observed_at := sn_observed_at s;
                               hc_snapshot_id := sn_snapshot_id s |};
                      Ok (Some c)
    | _, _ => Ok None
    end);
  mret {| pg_items := items; pg_next_cursor := next_cursor; pg_has_more := has_more |}.
End page.
