(* ===== verification/RegistryIntegrity.v ===== *)
(** * Verification of the registry ([WalletStore.verify_integrity])

    The check reads the resources of a subject with everything that refers
    to them: it validates every row and its hash, ownership across tables,
    the audit record behind every registration and revocation, and the
    revision history of every resource.  The acquisition ledger, whose own
    check follows in the source, is another component. *)

From S2P Require Import Prelude Tables PyStr Json Digest Time WalletTypes RegistryTypes.
From S2P Require Import WalletDb WalletEconomy RegistryDb RegistryStore.
Local Open Scope Z_scope.

(** [==] of a decoded JSON value with a text, an integer or [None]; a
    boolean equals the integer of its value. *)
Definition scalar_eq (x y : json) : bool :=
  match x, y with
  | JStr a, JStr b => a == b
  | JNull, JNull => true
  | JInt a, JInt b => a =? b
  | JBool b, JInt z => z =? (if b then 1 else 0)
  | _, _ => false
  end.
(** [==] of two dictionaries, [m] with scalar values. *)
Definition dict_eq (payload m : list (string * json)) : bool :=
  (length payload =? length m)%nat
  && forallb (λ kv, match fetchone (λ x, x.1 == kv.1) payload with
                    | Some x => scalar_eq x.2 kv.2
                    | None => false
                    end) m.

Section integrity.
Context {Dg : Digest} {Hosts : HostNames}.

Definition _verify_audit (audit_id : option string) (subject_id action : string)
    (expected : list (string * json)) : W unit :=
  match audit_id with
  | Some (String _ _ as aid) =>
      o ← gets (λ d, fetchone (λ a, a_audit_id a == aid) (audits d));
      match o with
      | None => raise (IntegrityError ("wallet lifecycle audit is invalid: " +:+ aid))
      | Some a =>
          raise_if ((a_subject_id a =/= subject_id) || (a_action a =/= action)
                    || blank (a_actor a) || (strip (a_actor a) == "subject")
                    || negb (validate_timestamp (a_occurred_at a)))
            (IntegrityError ("wallet lifecycle audit is invalid: " +:+ aid)) ;;
          payload ← lift (except_invalid
            (IntegrityError ("wallet lifecycle audit payload is invalid: " +:+ aid))
            (strict_json_loads (a_payload_json a)));
          match payload with
          | JObj m =>
              raise_if (negb (dict_eq m expected)
                        || (canonical_json (JObj m) =/= a_payload_json a))
                (IntegrityError ("wallet lifecycle audit payload mismatch: " +:+ aid))
          | _ => raise (IntegrityError ("wallet lifecycle audit payload mismatch: " +:+ aid))
          end
      end
  | _ => raise (IntegrityError "wallet lifecycle audit identifier is invalid")
  end.

(** [_verify_resource_audits], given [_registration_audit_payload]. *)
Definition _verify_resource_audits (k : resource_type) (h : head)
    (registration : list (string * json)) : W unit :=
  _verify_audit (Some (l_created_audit_id (h_life h))) (h_subject h) (registered_action k)
    registration ;;
  if l_status (h_life h) == "revoked" then
    _verify_audit (l_revoked_audit_id (h_life h)) (h_subject h) (revoked_action k)
      [(id_column k, JStr (h_id h)); ("reason", JOpt (l_revoke_reason (h_life h)))]
  else mret tt.
Definition network_audit_payload (r : network_row) : list (string * json) :=
  [("network_id", JStr (n_network_id r)); ("label", JStr (n_label r));
   ("chain_family", JStr (n_chain_family r)); ("chain_id", JInt (n_chain_id r))].
Definition asset_audit_payload (r : asset_row) : list (string * json) :=
  [("asset_id", JStr (as_asset_id r)); ("network_id", JStr (as_network_id r));
   ("asset_type", JStr (as_asset_type r)); ("contract_address", JOpt (as_contract_address r))].
Definition address_audit_payload (r : address_row) : list (string * json) :=
  [("address_id", JStr (ad_address_id r)); ("network_id", JStr (ad_network_id r));
   ("address", JStr (ad_address r))].

(** ** Revision histories *)

Definition expected_statuses (h : head) : list string :=
  if l_status (h_life h) == "active" then ["active"] else ["active"; "revoked"].
Definition find_head (resources : list head) (id : string) : option head :=
  fetchone (λ h, h_id h == id) resources.
(** [current_id], [current_count] and the keys of [revision_counts]. *)
Record history := { hy_current : option string; hy_count : Z; hy_done : list string }.

Definition revision_mismatch (k : resource_type) (id : string) : exn :=
  IntegrityError ("wallet " +:+ resource_text k +:+ " revision history mismatch: " +:+ id).
Definition finish (k : resource_type) (resources : list head) (st : history)
    : result (list string) :=
  match hy_current st with
  | None => Ok (hy_done st)
  | Some id =>
      match find_head resources id with
      | None => Raise (KeyError id)
      | Some h =>
          if hy_count st =? Z.of_nat (length (expected_statuses h)) then Ok (id :: hy_done st)
          else Raise (revision_mismatch k id)
      end
  end.
(** The rows of the next resource begin. *)
Definition enter (k : resource_type) (resources : list head) (id : string) (st : history)
    : result history :=
  if hy_current st == Some id then Ok st
  else done ← finish k resources st;
       Ok {| hy_current := Some id; hy_count := 0; hy_done := done |}.
(** The reason, time and audit record of the [position]-th revision. *)
Definition revision_matches (k : resource_type) (h : head) (position : Z) (r : revision_row)
    : bool :=
  if position =? 1 then
    (v_created_at r == l_created_at (h_life h))
    && (v_reason r == "operator registered wallet " +:+ resource_text k)
    && (v_audit_id r == l_created_audit_id (h_life h))
  else
    (Some (v_created_at r) == l_revoked_at (h_life h))
    && (Some (v_reason r) == l_revoke_reason (h_life h))
    && (Some (v_audit_id r) == l_revoked_audit_id (h_life h)).
Definition verify_revision (k : resource_type) (subject_id : string) (resources : list head)
    (parent_subject : string → option string) (st : history) (r : revision_row)
    : result history :=
  let id := v_resource_id r in
  match find_head resources id with
  | Some h =>
      _ ← fail_if ((id == EmptyString) || (v_subject_id r =/= subject_id)
                   || (parent_subject id =/= Some subject_id))
            (IntegrityError ("wallet " +:+ resource_text k +:+ " revision ownership mismatch"));
      st ← enter k resources id st;
      let position := hy_count st + 1 in
      _ ← fail_if (negb ((v_revision_number r =? position)
                         && (position <=? Z.of_nat (length (expected_statuses h)))
                         && (expected_statuses h !! Z.to_nat (position - 1) == Some (v_status r))
                         && negb (blank (v_reason r)) && validate_timestamp (v_created_at r)
                         && (v_audit_id r =/= EmptyString) && (v_revision_id r =/= EmptyString)))
            (IntegrityError ("wallet " +:+ resource_text k +:+ " revision is invalid: " +:+ id));
      _ ← fail_if (v_state_hash r =/= _revision_hash k id subject_id (v_revision_number r)
                     (v_status r) (v_reason r) (v_audit_id r) (v_created_at r))
            (IntegrityError ("wallet " +:+ resource_text k +:+ " revision hash mismatch: " +:+ id));
      _ ← fail_if (negb (revision_matches k h position r))
            (IntegrityError ("wallet " +:+ resource_text k
               +:+ (if position =? 1 then " creation" else " revoke")
               +:+ " revision mismatch: " +:+ id));
      Ok {| hy_current := Some id; hy_count := position; hy_done := hy_done st |}
  | None => Raise (IntegrityError ("wallet " +:+ resource_text k +:+ " revision ownership mismatch"))
  end.
Fixpoint verify_revision_rows (k : resource_type) (subject_id : string) (resources : list head)
    (parent_subject : string → option string) (st : history) (rows : list revision_row)
    : result history :=
  match rows with
  | [] => Ok st
  | r :: rows =>
      st ← verify_revision k subject_id resources parent_subject st r;
      verify_revision_rows k subject_id resources parent_subject st rows
  end.
(** [ORDER BY id, revision_number, revision_id]. *)
Definition revision_leb (x y : revision_row) : bool :=
  if v_resource_id x == v_resource_id y then
    if v_revision_number x =? v_revision_number y then str_leb (v_revision_id x) (v_revision_id y)
    else v_revision_number x <=? v_revision_number y
  else str_leb (v_resource_id x) (v_resource_id y).
Definition parent_subject (k : resource_type) (d : wallet_db) (id : string) : option string :=
  h_subject <$> find_head (heads k d) id.
Definition _verify_revisions (k : resource_type) (subject_id : string) (resources : list head)
    : W unit :=
  rows ← gets (λ d, sort_by revision_leb (select (λ r, (v_subject_id r == subject_id)
            || (parent_subject k d (v_resource_id r) == Some subject_id)) (revisions k d)));
  parent ← gets (parent_subject k);
  st ← lift (verify_revision_rows k subject_id resources parent
               {| hy_current := None; hy_count := 0; hy_done := [] |} rows);
  done ← lift (finish k resources st);
  for_each (λ h, raise_if (negb (bool_decide (h_id h ∈ done))) (revision_mismatch k (h_id h)))
    resources.
Definition _revision_count (resources : list head) : Z :=
  sum_by (λ h, if l_status (h_life h) == "active" then 1 else 2) resources.

(** ** The check *)

(** [ORDER BY created_at, id]. *)
Definition oldest_first {R} (created_at id : R → string) (x y : R) : bool :=
  if created_at x == created_at y then str_leb (id x) (id y)
  else str_leb (created_at x) (created_at y).

Definition network_by_id (d : wallet_db) (id : string) : option network_row :=
  fetchone (λ n, n_network_id n == id) (networks d).
(** The rows of the two queries with [LEFT JOIN wallet_networks]. *)
Definition joined_subject (d : wallet_db) (network_id : string) : option string :=
  n_subject_id <$> network_by_id d network_id.

Definition verify_network (r : network_row) : W unit :=
  lift (_network_from_row r) ;;
  _verify_resource_audits RNetwork (network_head r) (network_audit_payload r).
Definition verify_asset (subject_id : string) (nets : list network_row) (r : asset_row) : W unit :=
  lift (_asset_from_row r) ;;
  parent ← gets (λ d, joined_subject d (as_network_id r));
  raise_if ((as_subject_id r =/= subject_id) || (parent =/= Some subject_id))
    (IntegrityError ("wallet asset ownership mismatch: " +:+ as_asset_id r)) ;;
  network ← lift (of_option
    (IntegrityError ("wallet asset network is missing: " +:+ as_asset_id r))
    (fetchone (λ n, n_network_id n == as_network_id r) nets));
  raise_if ((as_asset_type r == "native") && (as_symbol r =/= n_native_symbol network))
    (IntegrityError ("wallet native asset symbol mismatch: " +:+ as_asset_id r)) ;;
  raise_if ((as_status r == "active") && (n_status network =/= "active"))
    (IntegrityError ("active wallet asset has revoked network: " +:+ as_asset_id r)) ;;
  _verify_resource_audits RAsset (asset_head r) (asset_audit_payload r).
Definition verify_address (subject_id : string) (nets : list network_row) (r : address_row)
    : W unit :=
  lift (_address_from_row r) ;;
  parent ← gets (λ d, joined_subject d (ad_network_id r));
  raise_if ((ad_subject_id r =/= subject_id) || (parent =/= Some subject_id))
    (IntegrityError ("wallet address ownership mismatch: " +:+ ad_address_id r)) ;;
  network ← lift (of_option
    (IntegrityError ("wallet address network is missing: " +:+ ad_address_id r))
    (fetchone (λ n, n_network_id n == ad_network_id r) nets));
  raise_if ((ad_status r == "active") && (n_status network =/= "active"))
    (IntegrityError ("active wallet address has revoked network: " +:+ ad_address_id r)) ;;
  _verify_resource_audits RAddress (address_head r) (address_audit_payload r).

Definition asset_by_id (d : wallet_db) (id : string) : option asset_row :=
  fetchone (λ a, as_asset_id a == id) (assets d).
Definition address_by_id (d : wallet_db) (id : string) : option address_row :=
  fetchone (λ a, ad_address_id a == id) (addresses d).
Definition snapshot_owners (d : wallet_db) (s : snapshot_row) : list (option string) :=
  [Some (sn_subject_id s); joined_subject d (sn_network_id s);
   as_subject_id <$> asset_by_id d (sn_asset_id s);
   ad_subject_id <$> address_by_id d (sn_address_id s)].
Definition verify_snapshot (subject_id : string) (nets : list network_row)
    (assets_ : list asset_row) (addresses_ : list address_row) (s : snapshot_row) : W unit :=
  lift (_balance_from_row s) ;;
  d ← gets id;
  raise_if (negb (forallb (λ o, o == Some subject_id) (snapshot_owners d s)))
    (IntegrityError ("wallet balance ownership mismatch: " +:+ sn_snapshot_id s)) ;;
  raise_if (negb (exists_where (λ n, n_network_id n == sn_network_id s) nets)
            || negb (exists_where (λ a, as_asset_id a == sn_asset_id s) assets_)
            || negb (exists_where (λ a, ad_address_id a == sn_address_id s) addresses_)
            || ((as_network_id <$> asset_by_id d (sn_asset_id s)) =/= Some (sn_network_id s))
            || ((ad_network_id <$> address_by_id d (sn_address_id s)) =/= Some (sn_network_id s)))
    (IntegrityError ("wallet balance reference mismatch: " +:+ sn_snapshot_id s)).

Definition verify_registry (subject_id : string) : W (list (string * Z)) :=
  lift (validate_subject_id subject_id) ;;
  read_transaction (
    nets ← gets (λ d, sort_by (oldest_first (λ r, l_created_at (n_life r)) n_network_id)
      (select (λ r, n_subject_id r == subject_id) (networks d)));
    for_each verify_network nets ;;
    _verify_revisions RNetwork subject_id (map network_head nets) ;;
    assets_ ← gets (λ d, sort_by (oldest_first (λ r, l_created_at (as_life r)) as_asset_id)
      (select (λ r, (as_subject_id r == subject_id)
         || (joined_subject d (as_network_id r) == Some subject_id)) (assets d)));
    for_each (verify_asset subject_id nets) assets_ ;;
    _verify_revisions RAsset subject_id (map asset_head assets_) ;;
    addresses_ ← gets (λ d, sort_by (oldest_first (λ r, l_created_at (ad_life r)) ad_address_id)
      (select (λ r, (ad_subject_id r == subject_id)
         || (joined_subject d (ad_network_id r) == Some subject_id)) (addresses d)));
    for_each (verify_address subject_id nets) addresses_ ;;
    _verify_revisions RAddress subject_id (map address_head addresses_) ;;
    rows ← gets (λ d, sort_by (oldest_first sn_observed_at sn_snapshot_id)
      (select (λ s, existsb (λ o, o == Some subject_id) (snapshot_owners d s)) (snapshots d)));
    for_each (verify_snapshot subject_id nets assets_ addresses_) rows ;;
    mret
      [("wallet_networks", Z.of_nat (length nets));
       ("wallet_network_revisions", _revision_count (map network_head nets));
       ("wallet_assets", Z.of_nat (length assets_));
       ("wallet_asset_revisions", _revision_count (map asset_head assets_));
       ("wallet_addresses", Z.of_nat (length addresses_));
       ("wallet_address_revisions", _revision_count (map address_head addresses_));
       ("wallet_balance_snapshots", Z.of_nat (length rows))]).
End integrity.
