(* ===== verification/RegistryHealth.v ===== *)
(** * Observation health ([WalletStore.observation_health] and its breakdown)

    The balance observations of a subject, read once in the order of the
    asset/address pair and newest first: how many active pairs are observed
    recently, late or never, and how many have contradictory or jumping
    balances; in total ([_observation_health_connection]) and by network or
    source ([_observation_health_breakdown_connection]). *)

From stdpp Require Import gmap.
From S2P Require Import Prelude Tables PyStr Json Digest Time WalletTypes RegistryTypes.
From S2P Require Import WalletDb WalletEconomy RegistryDb RegistryStore RegistryIntegrity.
Local Open Scope Z_scope.

Definition WALLET_BALANCE_OBSERVATION_MAX_WINDOW_SECONDS : Z := 2592000.
Definition WALLET_BALANCE_OBSERVATION_MAX_ACTIVE_PAIRS : Z := 100000.
Definition WALLET_BALANCE_OBSERVATION_MAX_GROUPS : Z := 256.

(** A pair: network, asset, address. *)
Abbreviation pair := (string * string * string)%type.
Definition pair_of (s : snapshot_row) : pair := (sn_network_id s, sn_asset_id s, sn_address_id s).

(** ** Arguments *)

Definition _observation_age_limit (value : Z) : result Z :=
  if (0 <=? value) && (value <=? WALLET_BALANCE_OBSERVATION_MAX_WINDOW_SECONDS) then Ok value
  else Raise (ValueError "wallet observation age window is invalid").
Definition _observation_group_limit (value : Z) : result Z :=
  if (1 <=? value) && (value <=? WALLET_BALANCE_OBSERVATION_MAX_GROUPS) then Ok value
  else Raise (ValueError "wallet observation breakdown limit is invalid").
Definition _observation_group_by (value : string) : result string :=
  if (value == "network") || (value == "source") then Ok value
  else Raise (ValueError "wallet observation breakdown dimension is invalid").
Definition _observation_source (value : option string) : result (option string) :=
  match value with
  | Some s => if source_match s then Ok (Some s)
              else Raise (ValueError "wallet observation source is invalid")
  | None => Ok None
  end.

(** The reference time: a text, or a datetime as its local microseconds and
    its offset. *)
Inductive reference_time := AtText (s : string) | AtDatetime (local : Z) (off : option Z).
(** [parsed.astimezone(UTC).replace(microsecond=(parsed.microsecond // 1_000) * 1_000)]. *)
Definition reference_instant (local off : Z) : result Z :=
  match to_utc local off with
  | Ok t => Ok (t - t mod 1000000 + local mod 1000000 / 1000 * 1000)
  | Raise _ => Raise (ValueError "wallet observation reference time is invalid")
  end.
Definition parse_reference (value : reference_time) : result Z :=
  match value with
  | AtDatetime _ None =>
      Raise (ValueError "wallet observation reference time must include a timezone")
  | AtDatetime local (Some off) =>
      _ ← fail_if (negb (local mod 1000 =? 0))
            (ValueError "wallet observation reference time must use milliseconds");
      reference_instant local off
  | AtText s =>
      match fromisoformat s, canonical_timestamp s with
      | Some (local, Some off), Ok t =>
          if t == s then reference_instant local off
          else Raise (ValueError "wallet observation reference time is invalid")
      | _, _ => Raise (ValueError "wallet observation reference time is invalid")
      end
  end.
Definition _persisted_observation_datetime (value : string) : result Z :=
  match fromisoformat value, canonical_timestamp value with
  | Some (local, Some off), Ok t =>
      if t == value then
        match to_utc local off with
        | Ok u => Ok u
        | Raise _ => Raise (IntegrityError "wallet observation timestamp is invalid")
        end
      else Raise (IntegrityError "wallet observation timestamp is invalid")
  | _, _ => Raise (IntegrityError "wallet observation timestamp is invalid")
  end.

(** ** Queries *)

(** The active asset/address/network combinations of a subject, one row per
    combination of the joined rows. *)
Definition active_targets (d : wallet_db) (subject_id : string) (network_id : option string)
    : list pair :=
  a ← assets d; b ← addresses d; n ← networks d;
  if (as_subject_id a == subject_id) && (as_status a == "active")
     && optional_match network_id (as_network_id a)
     && (ad_subject_id b == as_subject_id a) && (ad_network_id b == as_network_id a)
     && (ad_status b == "active")
     && (n_subject_id n == as_subject_id a) && (n_network_id n == as_network_id a)
     && (n_status n == "active")
  then [(as_network_id a, as_asset_id a, ad_address_id b)] else [].
Definition pair_leb (x y : pair) : bool :=
  if x.1.1 == y.1.1 then
    if x.1.2 == y.1.2 then str_leb x.2 y.2 else str_leb x.1.2 y.1.2
  else str_leb x.1.1 y.1.1.
(** [ORDER BY network_id, asset_id, address_id, observed_at DESC, snapshot_id DESC]. *)
Definition history_leb (x y : snapshot_row) : bool :=
  if pair_of x == pair_of y then newest_first x y else pair_leb (pair_of x) (pair_of y).
Definition history_rows (d : wallet_db) (subject_id : string) (network_id : option string)
    : list snapshot_row :=
  sort_by history_leb (select (λ s, (sn_subject_id s == subject_id)
                                    && optional_match network_id (sn_network_id s)) (snapshots d)).

Definition target_valid (p : pair) : bool :=
  is_ok (store_identifier p.1.1 "network identifier")
  && is_ok (store_identifier p.1.2 "asset identifier")
  && is_ok (store_identifier p.2 "address identifier").

Definition _observation_snapshot_is_active (d : wallet_db) (s : snapshot_row) (subject_id : string)
    : result bool :=
  let n := network_by_id d (sn_network_id s) in
  let a := asset_by_id d (sn_asset_id s) in
  let b := address_by_id d (sn_address_id s) in
  let statuses := [n_status <$> n; as_status <$> a; ad_status <$> b] in
  _ ← fail_if ((sn_subject_id s =/= subject_id)
               || existsb (λ o, o =/= Some subject_id)
                    [n_subject_id <$> n; as_subject_id <$> a; ad_subject_id <$> b])
        (IntegrityError ("wallet observation ownership mismatch: " +:+ sn_snapshot_id s));
  _ ← fail_if (((as_network_id <$> a) =/= Some (sn_network_id s))
               || ((ad_network_id <$> b) =/= Some (sn_network_id s)))
        (IntegrityError ("wallet observation reference mismatch: " +:+ sn_snapshot_id s));
  _ ← fail_if (existsb (λ o, (o =/= Some "active"%string) && (o =/= Some "revoked"%string)) statuses)
        (IntegrityError ("wallet observation resource lifecycle is invalid: "
                         +:+ sn_snapshot_id s));
  _ ← fail_if (((n_status <$> n) =/= Some "active"%string)
               && (((as_status <$> a) == Some "active"%string)
                   || ((ad_status <$> b) == Some "active"%string)))
        (IntegrityError ("wallet observation active resource has revoked network: "
                         +:+ sn_snapshot_id s));
  Ok (forallb (λ o, o == Some "active"%string) statuses).

(** ** Ages and anomalies *)

Record window := { wd_reference : Z; wd_age_limit : Z }.
Definition stale_window (v : window) : Z := wd_age_limit v * 1000000.
(** [timedelta(microseconds=(age_limit * 3 * 1_000_000) // 4)]; [None] for a
    window of no time. *)
Definition near_cutoff (v : window) : option Z :=
  if wd_age_limit v =? 0 then None else Some (wd_age_limit v * 3 * 1000000 / 4).
Inductive age_class := Future | Stale | NearExpiry | Fresh.
#[global] Instance age_class_eq_dec : EqDecision age_class.
Proof. solve_decision. Defined.
Definition classify (v : window) (delta : Z) : age_class :=
  if delta <? 0 then Future
  else if stale_window v <? delta then Stale
  else if match near_cutoff v with Some c => c <=? delta | None => false end then NearExpiry
  else Fresh.
(** [delta.days * 86_400 + delta.seconds] of a time that has passed. *)
Definition age_seconds (delta : Z) : Z := delta / 1000000.
Definition max_opt (x : option Z) (y : Z) : option Z :=
  Some (match x with None => y | Some x => Z.max x y end).

Definition balance_int (s : snapshot_row) : result Z :=
  of_option (ValueError "invalid literal for int() with base 10") (py_int (sn_balance s)).
(** What is remembered of the row before: balance, its text, its time. *)
Record previous := { pv_balance : Z; pv_text : string; pv_observed_at : string }.
Definition jump (x y : Z) : bool :=
  let low := Z.min x y in
  let high := Z.max x y in
  ((low =? 0) && negb (high =? 0)) || (negb (low =? 0) && (low * 2 <? high)).
Definition anomaly (p : previous) (balance : Z) (s : snapshot_row) : bool :=
  ((sn_observed_at s == pv_observed_at p) && (sn_balance s =/= pv_text p))
  || jump (pv_balance p) balance.

(** ** Health in total *)

Record health := {
  h_observed : Z; h_fresh : Z; h_near_expiry : Z; h_stale : Z; h_future : Z; h_anomalous : Z;
  h_max_age : option Z;
}.
Definition no_health : health :=
  {| h_observed := 0; h_fresh := 0; h_near_expiry := 0; h_stale := 0; h_future := 0;
     h_anomalous := 0; h_max_age := None |}.
(** [observed_pairs += 1] and the class of the newest observation. *)
Definition count_class (v : window) (delta : Z) (h : health) : health :=
  let add c n := if classify v delta == c then n + 1 else n in
  {| h_observed := h_observed h + 1; h_fresh := add Fresh (h_fresh h);
     h_near_expiry := add NearExpiry (h_near_expiry h); h_stale := add Stale (h_stale h);
     h_future := add Future (h_future h); h_anomalous := h_anomalous h;
     h_max_age := if delta <? 0 then h_max_age h else max_opt (h_max_age h) (age_seconds delta) |}.
Definition count_anomalous (b : bool) (h : health) : health :=
  {| h_observed := h_observed h; h_fresh := h_fresh h; h_near_expiry := h_near_expiry h;
     h_stale := h_stale h; h_future := h_future h;
     h_anomalous := if b then h_anomalous h + 1 else h_anomalous h; h_max_age := h_max_age h |}.

(** [current_key], the previous row, [pair_anomalous] and the counters. *)
Record health_state := {
  hs_key : option pair; hs_previous : option previous; hs_anomalous : bool; hs_health : health;
}.
Definition remember (s : snapshot_row) (balance : Z) : option previous :=
  Some {| pv_balance := balance; pv_text := sn_balance s; pv_observed_at := sn_observed_at s |}.

Section health.
Context {Dg : Digest}.

Definition health_row (d : wallet_db) (subject_id : string) (v : window) (active_pair_count : Z)
    (st : health_state) (s : snapshot_row) : result health_state :=
  _ ← _balance_from_row s;
  active ← _observation_snapshot_is_active d s subject_id;
  if negb active then Ok st
  else
    balance ← balance_int s;
    if hs_key st =/= Some (pair_of s) then
      let h := count_anomalous (hs_anomalous st) (hs_health st) in
      _ ← fail_if (active_pair_count <? h_observed h + 1)
            (IntegrityError "wallet observation pair count is inconsistent");
      parsed ← _persisted_observation_datetime (sn_observed_at s);
      Ok {| hs_key := Some (pair_of s); hs_previous := remember s balance; hs_anomalous := false;
            hs_health := count_class v (wd_reference v - parsed) h |}
    else
      Ok {| hs_key := hs_key st; hs_previous := remember s balance;
            hs_anomalous := hs_anomalous st
              || match hs_previous st with Some p => anomaly p balance s | None => false end;
            hs_health := hs_health st |}.
Fixpoint health_rows (d : wallet_db) (subject_id : string) (v : window) (active_pair_count : Z)
    (st : health_state) (rows : list snapshot_row) : result health_state :=
  match rows with
  | [] => Ok st
  | s :: rows =>
      st ← health_row d subject_id v active_pair_count st s;
      health_rows d subject_id v active_pair_count st rows
  end.
(** The loop over the targets; [previous] is the target before. *)
Fixpoint count_targets (previous : option pair) (count : Z) (targets : list pair) : result Z :=
  match targets with
  | [] => Ok count
  | p :: targets =>
      _ ← fail_if (negb (target_valid p))
            (IntegrityError "wallet observation target identity is invalid");
      _ ← fail_if (previous == Some p) (IntegrityError "wallet observation target is duplicated");
      _ ← fail_if (WALLET_BALANCE_OBSERVATION_MAX_ACTIVE_PAIRS <? count + 1)
            (IntegrityError "wallet observation active pair limit is exceeded");
      count_targets (Some p) (count + 1) targets
  end.

Record observation_report := {
  or_status : string; or_evaluated_at : string; or_stale_after_seconds : Z;
  or_health : health; or_never : Z;
}.
Definition needs_attention (h : health) (never : Z) : bool :=
  negb ((h_near_expiry h =? 0) && (h_stale h =? 0) && (never =? 0) && (h_future h =? 0)
        && (h_anomalous h =? 0)).
Definition _observation_health_connection (subject_id : string) (v : window)
    : W observation_report :=
  targets ← gets (λ d, limited (WALLET_BALANCE_OBSERVATION_MAX_ACTIVE_PAIRS + 1)
                         (sort_by pair_leb (active_targets d subject_id None)));
  active_pair_count ← lift (count_targets None 0 targets);
  d ← gets id;
  st ← lift (health_rows d subject_id v active_pair_count
               {| hs_key := None; hs_previous := None; hs_anomalous := false;
                  hs_health := no_health |} (history_rows d subject_id None));
  let h := count_anomalous (hs_anomalous st) (hs_health st) in
  let never := active_pair_count - h_observed h in
  raise_if (never <? 0) (IntegrityError "wallet observation never-pair count is invalid") ;;
  mret {| or_status := if needs_attention h never then "attention" else "ok";
          or_evaluated_at := isoformat_ms (wd_reference v);
          or_stale_after_seconds := wd_age_limit v; or_health := h; or_never := never |}.
Context {En : Env}.
Definition _observation_reference (now : option reference_time) : W Z :=
  value ← match now with Some t => mret t | None => t ← utc_now; mret (AtText t) end;
  lift (parse_reference value).
Definition observation_health (subject_id : string) (max_age_seconds : Z)
    (now : option reference_time) : W observation_report :=
  lift (validate_subject_id subject_id) ;;
  age_limit ← lift (_observation_age_limit max_age_seconds);
  reference ← _observation_reference now;
  read_transaction (_observation_health_connection subject_id
    {| wd_reference := reference; wd_age_limit := age_limit |}).
End health.

(** ** Health by network or by source *)

Record group := {
  g_active : Z; g_health : health; g_never : Z; g_snapshot_count : Z;
  g_latest_observed_at : option string;
}.
Definition new_group : group :=
  {| g_active := 0; g_health := no_health; g_never := 0; g_snapshot_count := 0;
     g_latest_observed_at := None |}.
Abbreviation groups := (gmap (option string) group).

Definition latest (x : option string) (y : string) : option string :=
  match x with
  | None => Some y
  | Some x => if str_ltb x y then Some y else Some x
  end.
(** The newest observation of a pair. *)
Definition group_first (v : window) (delta : Z) (observed_at : string) (g : group) : group :=
  {| g_active := g_active g + 1; g_health := count_class v delta (g_health g);
     g_never := g_never g; g_snapshot_count := g_snapshot_count g + 1;
     g_latest_observed_at := latest (g_latest_observed_at g) observed_at |}.
(** An older observation. *)
Definition group_next (g : group) : group :=
  {| g_active := g_active g; g_health := g_health g; g_never := g_never g;
     g_snapshot_count := g_snapshot_count g + 1;
     g_latest_observed_at := g_latest_observed_at g |}.
Definition group_anomalous (g : group) : group :=
  {| g_active := g_active g; g_health := count_anomalous true (g_health g);
     g_never := g_never g; g_snapshot_count := g_snapshot_count g;
     g_latest_observed_at := g_latest_observed_at g |}.
Definition group_never (g : group) : group :=
  {| g_active := g_active g + 1; g_health := g_health g; g_never := g_never g + 1;
     g_snapshot_count := g_snapshot_count g;
     g_latest_observed_at := g_latest_observed_at g |}.

(** [get_group(value)]: the group is there afterwards. *)
Definition get_group (value : option string) (gs : groups) : result groups :=
  match gs !! value with
  | Some _ => Ok gs
  | None =>
      _ ← fail_if (WALLET_BALANCE_OBSERVATION_MAX_GROUPS <=? Z.of_nat (size gs))
            (IntegrityError "wallet observation breakdown group limit is exceeded");
      Ok (<[value := new_group]> gs)
  end.

(** The variables of the loop; [bs_group] is the group of the current pair
    ([current_include and current_group is not None]). *)
Record breakdown_state := {
  bs_key : option pair; bs_group : option (option string); bs_seen : bool; bs_anomalous : bool;
  bs_previous : option previous; bs_seen_pairs : gset pair; bs_groups : groups;
}.
Definition finish_pair (st : breakdown_state) : breakdown_state :=
  {| bs_key := None; bs_group := None; bs_seen := false; bs_anomalous := false;
     bs_previous := None; bs_seen_pairs := bs_seen_pairs st;
     bs_groups := match bs_group st, bs_anomalous st with
                  | Some value, true => alter group_anomalous value (bs_groups st)
                  | _, _ => bs_groups st
                  end |}.
Definition with_key (key : pair) (st : breakdown_state) : breakdown_state :=
  {| bs_key := Some key; bs_group := bs_group st; bs_seen := bs_seen st;
     bs_anomalous := bs_anomalous st; bs_previous := bs_previous st;
     bs_seen_pairs := bs_seen_pairs st; bs_groups := bs_groups st |}.

Record query := {
  q_subject : string; q_grouping : string; q_network : option string; q_source : option string;
  q_window : window;
}.
Definition group_value (q : query) (s : snapshot_row) : option string :=
  if q_grouping q == "network" then Some (sn_network_id s) else Some (sn_source s).
Definition selected (q : query) (s : snapshot_row) : bool := optional_match (q_source q) (sn_source s).

Section breakdown.
Context {Dg : Digest}.

Definition breakdown_row (d : wallet_db) (q : query) (active_pairs : list pair)
    (st : breakdown_state) (s : snapshot_row) : result breakdown_state :=
  _ ← _balance_from_row s;
  let key := pair_of s in
  let st := if bs_key st =/= Some key then with_key key (finish_pair st) else st in
  active ← _observation_snapshot_is_active d s (q_subject q);
  if negb active then Ok st
  else
    _ ← fail_if (negb (bool_decide (key ∈ active_pairs)))
          (IntegrityError "wallet observation pair count is inconsistent");
    balance ← balance_int s;
    if negb (bs_seen st) then
      gs ← (if selected q s then
              gs ← get_group (group_value q s) (bs_groups st);
              parsed ← _persisted_observation_datetime (sn_observed_at s);
              Ok (alter (group_first (q_window q) (wd_reference (q_window q) - parsed)
                           (sn_observed_at s)) (group_value q s) gs)
            else Ok (bs_groups st));
      Ok {| bs_key := bs_key st;
            bs_group := if selected q s then Some (group_value q s) else bs_group st;
            bs_seen := true; bs_anomalous := bs_anomalous st; bs_previous := remember s balance;
            bs_seen_pairs := {[ key ]} ∪ bs_seen_pairs st; bs_groups := gs |}
    else
      Ok {| bs_key := bs_key st; bs_group := bs_group st; bs_seen := true;
            bs_anomalous := bs_anomalous st
              || match bs_previous st with Some p => anomaly p balance s | None => false end;
            bs_previous := remember s balance; bs_seen_pairs := bs_seen_pairs st;
            bs_groups := match bs_group st with
                         | Some value => alter group_next value (bs_groups st)
                         | None => bs_groups st
                         end |}.
Fixpoint breakdown_rows (d : wallet_db) (q : query) (active_pairs : list pair)
    (st : breakdown_state) (rows : list snapshot_row) : result breakdown_state :=
  match rows with
  | [] => Ok st
  | s :: rows =>
      st ← breakdown_row d q active_pairs st s;
      breakdown_rows d q active_pairs st rows
  end.
(** [active_pairs], a dictionary in the order of the query. *)
Fixpoint collect_targets (active_pairs : list pair) (targets : list pair) : result (list pair) :=
  match targets with
  | [] => Ok active_pairs
  | p :: targets =>
      _ ← fail_if (negb (target_valid p))
            (IntegrityError "wallet observation target identity is invalid");
      _ ← fail_if (bool_decide (p ∈ active_pairs))
            (IntegrityError "wallet observation target is duplicated");
      _ ← fail_if (WALLET_BALANCE_OBSERVATION_MAX_ACTIVE_PAIRS
                   <? Z.of_nat (length active_pairs) + 1)
            (IntegrityError "wallet observation active pair limit is exceeded");
      collect_targets (active_pairs ++ [p]) targets
  end.
(** The pairs that were never observed; none under a source filter. *)
Fixpoint never_observed (q : query) (seen : gset pair) (active_pairs : list pair) (gs : groups)
    : result groups :=
  match active_pairs with
  | [] => Ok gs
  | p :: active_pairs =>
      if bool_decide (p ∈ seen) || bool_decide (is_Some (q_source q)) then
        never_observed q seen active_pairs gs
      else
        let value := if q_grouping q == "network" then Some p.1.1 else None in
        gs ← get_group value gs;
        never_observed q seen active_pairs (alter group_never value gs)
  end.

Definition group_status (g : group) : string :=
  if needs_attention (g_health g) (g_never g) then "attention" else "ok".
(** [key=lambda item: (item is None, "" if item is None else item)]. *)
Definition value_leb (x y : option string) : bool :=
  match x, y with
  | Some x, Some y => str_leb x y
  | Some _, None => true
  | None, Some _ => false
  | None, None => true
  end.
Definition rendered (gs : groups) : list (option string * group) :=
  sort_by (λ x y, value_leb x.1 y.1) (map_to_list gs).
Record breakdown_report := {
  br_group_by : string; br_evaluated_at : string; br_stale_after_seconds : Z; br_status : string;
  br_groups : list (option string * group * string); br_total_groups : Z; br_has_more : bool;
}.
Definition _observation_health_breakdown_connection (q : query) (limit : Z) : W breakdown_report :=
  targets ← gets (λ d, limited (WALLET_BALANCE_OBSERVATION_MAX_ACTIVE_PAIRS + 1)
                         (active_targets d (q_subject q) (q_network q)));
  active_pairs ← lift (collect_targets [] targets);
  d ← gets id;
  st ← lift (breakdown_rows d q active_pairs
               {| bs_key := None; bs_group := None; bs_seen := false; bs_anomalous := false;
                  bs_previous := None; bs_seen_pairs := ∅; bs_groups := ∅ |}
               (history_rows d (q_subject q) (q_network q)));
  let st := finish_pair st in
  gs ← lift (never_observed q (bs_seen_pairs st) active_pairs (bs_groups st));
  let rows := map (λ vg, (vg, group_status vg.2)) (rendered gs) in
  mret {| br_group_by := q_grouping q;
          br_evaluated_at := isoformat_ms (wd_reference (q_window q));
          br_stale_after_seconds := wd_age_limit (q_window q);
          br_status := if existsb (λ r, r.2 == "attention") rows then "attention" else "ok";
          br_groups := limited limit rows; br_total_groups := Z.of_nat (length rows);
          br_has_more := limit <? Z.of_nat (length rows) |}.
Context {En : Env} {Hosts : HostNames}.
Definition observation_health_breakdown (subject_id group_by : string)
    (network_id source : option string) (limit max_age_seconds : Z) (now : option reference_time)
    : W breakdown_report :=
  lift (validate_subject_id subject_id) ;;
  grouping ← lift (_observation_group_by group_by);
  lift (optional_id network_id "network identifier") ;;
  source ← lift (_observation_source source);
  limit ← lift (_observation_group_limit limit);
  age_limit ← lift (_observation_age_limit max_age_seconds);
  reference ← _observation_reference now;
  read_transaction (
    match network_id with
    | None => mret tt
    | Some id =>
        o ← gets (λ d, fetchone (λ n, (n_network_id n == id) && (n_subject_id n == subject_id))
                         (networks d));
        row ← lift (of_option (NotFoundError ("wallet network not found: " +:+ id)) o);
        lift (_network_from_row row) ;; mret tt
    end ;;
    _observation_health_breakdown_connection
      {| q_subject := subject_id; q_grouping := grouping; q_network := network_id;
         q_source := source;
         q_window := {| wd_reference := reference; wd_age_limit := age_limit |} |} limit).

(** [observation_health_by_network] and [observation_health_by_source]. *)
Definition observation_health_by_network (subject_id : string) (network_id source : option string)
    (limit max_age_seconds : Z) (now : option reference_time) : W breakdown_report :=
  observation_health_breakdown subject_id "network" network_id source limit max_age_seconds now.
Definition observation_health_by_source (subject_id : string) (network_id source : option string)
    (limit max_age_seconds : Z) (now : option reference_time) : W breakdown_report :=
  observation_health_breakdown subject_id "source" network_id source limit max_age_seconds now.

(** ** Summary *)

(** [SELECT status, COUNT( * ) ... GROUP BY status ORDER BY status]: the counts
    of active and revoked rows, or the first other status. *)
Definition lifecycle_counts (key : string) (statuses : list string) : result (Z * Z) :=
  match fetchone (λ t, (t =/= "active") && (t =/= "revoked")) (sort_by str_leb statuses) with
  | Some t => Raise (IntegrityError ("wallet " +:+ key +:+ " status is invalid: " +:+ t))
  | None => Ok (count_where (λ t, t == "active") statuses,
                count_where (λ t, t == "revoked") statuses)
  end.
Record resource_counts := { rc_active : Z; rc_revoked : Z; rc_total : Z }.
Definition with_total (c : Z * Z) : resource_counts :=
  {| rc_active := c.1; rc_revoked := c.2; rc_total := c.1 + c.2 |}.
Record wallet_summary := {
  sm_subject_id : string; sm_networks : resource_counts; sm_assets : resource_counts;
  sm_addresses : resource_counts; sm_snapshots : Z; sm_latest_observed_at : option string;
  sm_latest_created_at : option string; sm_observation_health : observation_report;
}.
Definition max_text (l : list string) : option string := foldl latest None l.
Definition status_summary (subject_id : string) : W wallet_summary :=
  lift (validate_subject_id subject_id) ;;
  age_limit ← lift (_observation_age_limit WALLET_BALANCE_OBSERVATION_MAX_AGE_SECONDS);
  reference ← _observation_reference None;
  read_transaction (
    networks_ ← gets (λ d, map n_status (select (λ r, n_subject_id r == subject_id) (networks d)));
    n ← lift (lifecycle_counts "networks" networks_);
    assets_ ← gets (λ d, map as_status (select (λ r, as_subject_id r == subject_id) (assets d)));
    a ← lift (lifecycle_counts "assets" assets_);
    addresses_ ← gets (λ d,
      map ad_status (select (λ r, ad_subject_id r == subject_id) (addresses d)));
    b ← lift (lifecycle_counts "addresses" addresses_);
    history ← gets (λ d, select (λ r, sn_subject_id r == subject_id) (snapshots d));
    h ← _observation_health_connection subject_id
          {| wd_reference := reference; wd_age_limit := age_limit |};
    mret {| sm_subject_id := subject_id; sm_networks := with_total n; sm_assets := with_total a;
            sm_addresses := with_total b; sm_snapshots := Z.of_nat (length history);
            sm_latest_observed_at := max_text (map sn_observed_at history);
            sm_latest_created_at := max_text (map sn_created_at history);
            sm_observation_health := h |}).
End breakdown.
