(* ===== verification/WalletOrders.v ===== *)
(** * Payment orders and the ledger ([src/src/noyra/wallet/economy.py])

    The order state machine, the double-entry journals, the payment policy
    check and the operations that reserve, release, settle and refund. *)

From S2P Require Import Prelude Tables PyStr Json Digest Time WalletTypes WalletDb WalletEconomy.
Local Open Scope Z_scope.

Section orders.
Context {Dg : Digest} {En : Env}.

(** ** Transitions and journals *)

Definition _transition_order (row : order_row) (target : PaymentOrderStatus)
    (actor reason : string) : W unit :=
  raise_if (negb (bool_decide (target ∈ _ORDER_TRANSITIONS (o_status row))))
    (InvalidTransitionError "payment order transition is invalid") ;;
  now ← self_clock;
  audit_id ← _audit (o_subject_id row)
    ("wallet_payment_order_" +:+ order_status_text target) actor
    (JObj [("order_id", JStr (o_order_id row));
           ("from", JStr (order_status_text (o_status row)));
           ("to", JStr (order_status_text target)); ("reason", JStr reason)]);
  let authorized_at := if target == OReserved then Some now else o_authorized_at row in
  let state_hash := _order_state_hash_row row target authorized_at (Some now) in
  update_order (o_order_id row)
    (order_set_status target authorized_at now audit_id state_hash).

Definition post_entry (row : order_row) (jid now : string) (side : Account * Direction)
    : W unit :=
  eid ← new_id "entry";
  ehash ← lift (wallet_entry_hash eid jid (o_subject_id row) (o_order_id row) side.1 side.2
                  (o_amount row) now);
  insert_entry {| e_entry_id := eid; e_journal_id := jid; e_subject_id := o_subject_id row;
                  e_order_id := o_order_id row; e_account := side.1; e_direction := side.2;
                  e_amount := o_amount row; e_created_at := now; e_state_hash := ehash |}.

(** [_post_order_journal]: one balanced immutable journal for an order. *)
Definition _post_order_journal (row : order_row) (journal_type : JournalType)
    (first second : Account * Direction) : W unit :=
  existing ← gets (λ d, exists_where (λ j, (j_order_id j == o_order_id row)
                           && (j_journal_type j == journal_type)) (journals d));
  raise_if existing (InvalidTransitionError
    ("order " +:+ journal_type_text journal_type +:+ " journal already exists")) ;;
  now ← self_clock;
  jid ← new_id "journal";
  jhash ← lift (wallet_journal_hash jid (o_subject_id row) (o_order_id row)
                  (o_network_id row) (o_asset_id row) journal_type (o_amount row) now);
  insert_journal {| j_journal_id := jid; j_subject_id := o_subject_id row;
                    j_order_id := o_order_id row; j_network_id := o_network_id row;
                    j_asset_id := o_asset_id row; j_journal_type := journal_type;
                    j_amount := o_amount row; j_created_at := now; j_state_hash := jhash |} ;;
  post_entry row jid now first ;;
  post_entry row jid now second.

Definition post_reservation (row : order_row) : W unit :=
  _post_order_journal row JReservation (AAvailable, Debit) (AReserved, Credit).
Definition post_release (row : order_row) : W unit :=
  _post_order_journal row JRelease (AReserved, Debit) (AReleased, Credit).
Definition post_settlement (row : order_row) : W unit :=
  _post_order_journal row JSettlement (AReserved, Debit) (APaid, Credit).
Definition post_refund (row : order_row) : W unit :=
  _post_order_journal row JRefund (AReserved, Debit) (AReleased, Credit).

(** ** The payment policy *)

(** [value in container] for a decoded JSON value. *)
Definition py_in (value : string) (container : json) : result bool :=
  match container with
  | JList l => Ok (existsb (λ v, match v with JStr s => s == value | _ => false end) l)
  | JObj m => Ok (existsb (λ kv, kv.1 == value) m)
  | JStr s => Ok (bool_decide (is_Some (String.index 0 value s)))
  | _ => Raise (TypeError "argument is not iterable")
  end.

(** The switches, the registered network and asset, the per-order limit
    and the recipient allow-list: lines 1187-1233. *)
Definition policy_gate (row : order_row) (policy : policy_row) : W bool :=
  let automatic := o_payment_mode row == MAutomatic in
  if negb (p_emergency_paused policy =? 0) then mret false
  else if p_mode policy == MDisabled then mret false
  else if automatic && (p_mode policy =/= MAutomatic) then mret false
  else if automatic && (p_automation_enabled policy =? 0) then mret false
  else if automatic && negb (is_ok require_activation_evidence) then mret false
  else
    d ← gets id;
    let network := fetchone (λ n, (n_subject_id n == o_subject_id row)
                      && (n_network_id n == o_network_id row)) (networks d) in
    let asset := fetchone (λ a, (as_subject_id a == o_subject_id row)
                    && (as_network_id a == o_network_id row)
                    && (as_asset_id a == o_asset_id row)) (assets d) in
    match network, asset with
    | Some n, Some a =>
        if (n_status n =/= "active") || (as_status a =/= "active") then mret false
        else
          amount ← lift (int_of (o_amount row));
          single_limit ← lift (int_of (p_per_order_limit policy));
          daily_limit ← lift (int_of (p_daily_limit policy));
          if automatic && ((single_limit <=? 0) || (daily_limit <=? 0)) then mret false
          else if (amount <=? 0) || ((0 <? single_limit) && (single_limit <? amount))
          then mret false
          else if negb (p_recipient_allowlist_enabled policy =? 0) then
            allowed ← lift (strict_json_loads (p_allowed_recipient_addresses_json policy));
            lift (py_in (o_recipient_address row) allowed)
          else mret true
    | _, _ => mret false
    end.

Definition period_active (s : PaymentOrderStatus) : bool :=
  match s with OReserved | OSigning | OBroadcast | OUnknown | OConfirmed => true | _ => false end.
Definition holds_funds (s : PaymentOrderStatus) : bool :=
  match s with OReserved | OSigning | OBroadcast | OUnknown => true | _ => false end.

(** [authorized_at or updated_at or created_at]. *)
Definition period_value (r : order_row) : string :=
  match o_authorized_at r with
  | Some (String _ _ as s) => s
  | _ => if o_updated_at r == EmptyString then o_created_at r else o_updated_at r
  end.

Record totals := { day_count : Z; day_total : Z; month_count : Z; month_total : Z }.
Definition add_order (day_start month_start : string) (t : totals) (existing : order_row)
    : result totals :=
  match int_of (o_amount existing), parse_time (period_value existing) with
  | Ok value, Ok period =>
      day ← parse_time day_start;
      month ← parse_time month_start;
      let in_day := day <=? period in
      let in_month := month <=? period in
      Ok {| day_count := day_count t + (if in_day then 1 else 0);
            day_total := day_total t + (if in_day then value else 0);
            month_count := month_count t + (if in_month then 1 else 0);
            month_total := month_total t + (if in_month then value else 0) |}
  | _, _ => Raise (IntegrityError "wallet payment order amount or timestamp is invalid")
  end.
Fixpoint sum_periods (day_start month_start : string) (t : totals) (rows : list order_row)
    : result totals :=
  match rows with
  | [] => Ok t
  | r :: rest => t' ← add_order day_start month_start t r;
                 sum_periods day_start month_start t' rest
  end.

(** Same subject, network and asset, other than the excluded order. *)
Definition same_pool (row : order_row) (exclude : option string) (r : order_row) : bool :=
  (o_subject_id r == o_subject_id row) && (o_network_id r == o_network_id row)
  && (o_asset_id r == o_asset_id row)
  && match exclude with Some x => o_order_id r =/= x | None => true end.

(** [if exclude_order_id]: the empty string excludes nothing. *)
Definition nonempty (exclude : option string) : option string :=
  match exclude with Some EmptyString => None | x => x end.

(** The daily and monthly limits: lines 1234-1299. *)
Definition policy_periods (row : order_row) (policy : policy_row)
    (exclude : option string) (now amount daily_limit : Z) : W bool :=
  let automatic := o_payment_mode row == MAutomatic in
  let day_start := isoformat (midnight now) in
  let month_start := isoformat (month_start now) in
  d ← gets id;
  t ← lift (sum_periods day_start month_start {| day_count := 0; day_total := 0;
                                                 month_count := 0; month_total := 0 |}
              (select (λ r, same_pool row exclude r && period_active (o_status r)) (orders d)));
  if negb automatic && negb (p_daily_order_limit policy =? 0)
     && (p_daily_order_limit policy <=? day_count t) then mret false
  else if negb automatic && negb (p_monthly_order_limit policy =? 0)
     && (p_monthly_order_limit policy <=? month_count t) then mret false
  else if negb (daily_limit =? 0) && (daily_limit <? day_total t + amount) then mret false
  else if automatic then mret true
  else
    monthly_limit ← lift (int_of (p_monthly_limit policy));
    mret (negb (negb (monthly_limit =? 0) && (monthly_limit <? month_total t + amount))).

(** [_spending_address]: the one active spending address, if unique. *)
Definition _spending_address (d : wallet_db) (subject_id network_id : string)
    : option address_row :=
  match select (λ a, (ad_subject_id a == subject_id) && (ad_network_id a == network_id)
                  && (ad_status a == "active") && (ad_purpose a == "spending"))
          (addresses d) with
  | [a] => Some a
  | _ => None
  end.

(** [... ORDER BY observed_at DESC, snapshot_id DESC]. *)
Definition snapshots_of (row : order_row) (source : address_row) (d : wallet_db)
    : list snapshot_row :=
  sort_by (λ x y, str_ltb (sn_observed_at y) (sn_observed_at x)
             || ((sn_observed_at x == sn_observed_at y)
                 && str_leb (sn_snapshot_id y) (sn_snapshot_id x)))
    (select (λ s, (sn_subject_id s == o_subject_id row)
               && (sn_network_id s == o_network_id row)
               && (sn_asset_id s == o_asset_id row)
               && (sn_address_id s == ad_address_id source)) (snapshots d)).

Fixpoint sum_amounts (acc : Z) (rows : list order_row) : result Z :=
  match rows with
  | [] => Ok acc
  | r :: rest => v ← int_of (o_amount r); sum_amounts (acc + v) rest
  end.

(** The two newest observations differ by more than the older one. *)
Definition anomalous (newer older : Z) : bool :=
  (negb (Bool.eqb (newer =? 0) (older =? 0)))
  || (negb (older =? 0) && (older <? Z.abs (newer - older))).

(** The observed balance: lines 1300-1371. *)
Definition policy_balance (row : order_row) (policy : policy_row)
    (exclude : option string) (now amount : Z) : W bool :=
  let automatic := o_payment_mode row == MAutomatic in
  d ← gets id;
  match _spending_address d (o_subject_id row) (o_network_id row) with
  | None => mret false
  | Some source =>
      let observed := snapshots_of row source d in
      anomaly ← (if negb automatic && negb (p_anomaly_block policy =? 0) then
                   match observed with
                   | s1 :: s2 :: _ =>
                       newer ← lift (int_of (sn_balance s1));
                       older ← lift (int_of (sn_balance s2));
                       mret (anomalous newer older)
                   | _ => mret false
                   end
                 else mret false);
      if (anomaly : bool) then mret false
      else
        match observed with
        | latest :: _ =>
            at_time ← lift (parse_time (sn_observed_at latest));
            if now <? at_time then mret false
            else if negb automatic && (0 <? p_max_observation_age_seconds policy)
                    && (p_max_observation_age_seconds policy * 1000000 <? now - at_time)
            then mret false
            else
              balance ← lift (int_of (sn_balance latest));
              held ← lift (sum_amounts 0
                        (select (λ r, same_pool row (nonempty exclude) r
                                  && holds_funds (o_status r)) (orders d)));
              minimum_reserve ← (if automatic then mret 0
                                 else lift (int_of (p_min_balance policy)));
              mret (negb (balance - held <? amount + minimum_reserve))
        | [] =>
            if negb automatic && (0 <? p_max_observation_age_seconds policy) then mret false
            else if automatic then mret true
            else
              min_balance ← lift (int_of (p_min_balance policy));
              mret (negb (0 <? min_balance))
        end
  end.

Definition _policy_allows (row : order_row) (policy : option policy_row)
    (exclude_order_id : option string) : W bool :=
  match policy with
  | None => mret false
  | Some policy =>
      gate ← policy_gate row policy;
      if negb gate then mret false
      else
        amount ← lift (int_of (o_amount row));
        daily_limit ← lift (int_of (p_daily_limit policy));
        now_text ← self_clock;
        now ← lift (parse_time now_text);
        periods ← policy_periods row policy exclude_order_id now amount daily_limit;
        if negb periods then mret false
        else policy_balance row policy exclude_order_id now amount
  end.

(** ** Reservation, release, settlement, refund *)

Definition _reserve_order (row : order_row) (actor : string) : W unit :=
  policy ← gets (_policy_row (o_subject_id row));
  allowed ← _policy_allows row policy None;
  raise_if (negb allowed) (ValueError "payment policy denied reservation") ;;
  _transition_order row OReserved actor "funds reserved" ;;
  post_reservation row.

Definition _release_order (row : order_row) (actor reason : string) : W unit :=
  _transition_order row OCancelled actor reason ;;
  post_release row.

Definition _settle_order (row : order_row) (actor reason : string) : W unit :=
  raise_if (negb (bool_decide (o_status row ∈ [OBroadcast; OUnknown])))
    (InvalidTransitionError "order is not awaiting settlement") ;;
  _transition_order row OConfirmed actor reason ;;
  existing ← gets (λ d, exists_where (λ j, (j_order_id j == o_order_id row)
                           && (j_journal_type j == JSettlement)) (journals d));
  if (existing : bool) then mret tt else post_settlement row.

(** [_require_resolved_legacy_payments]. *)
Definition unresolved_legacy (d : wallet_db) (subject_id network_id : string) : bool :=
  exists_where (λ e,
    (x_subject_id e == subject_id) && (x_network_id e == network_id)
    && exists_where (λ o, (o_order_id o == x_order_id e) && (o_subject_id o == x_subject_id e)
         && (((x_status e == XFailed) && (rc_status (x_receipt e) == None)
              && exists_where (λ a, (t_execution_id a == x_execution_id e)
                   && (t_subject_id a == x_subject_id e)
                   && (t_attempt_number a <? x_attempt_count e)
                   && ((t_status a == XUnknown) || (t_status a == XBroadcast))) (attempts d))
             || ((o_status o == ORefunded)
                 && ((x_status e == XSigning) || (x_status e == XBroadcast)
                     || (x_status e == XUnknown))))) (orders d)) (executions d).

Definition refund_order (order_id subject_id actor reason : string) : W PaymentOrderRecord :=
  actor ← lift (_operator actor);
  let reason := strip reason in
  raise_if ((reason == EmptyString) || (2000 <? len reason))
    (ValueError "refund reason is invalid") ;;
  transaction (
    row ← _order_row order_id subject_id;
    unresolved ← gets (λ d, unresolved_legacy d subject_id (o_network_id row));
    raise_if unresolved
      (IntegrityError "legacy wallet payment has unresolved broadcasts; recovery required") ;;
    raise_if (o_status row =/= OFailed) (InvalidTransitionError "order cannot be refunded") ;;
    _transition_order row ORefunded actor reason ;;
    post_refund row ;;
    r ← _order_row order_id subject_id;
    mret (_order_from_row r)).

Definition confirm_order (order_id subject_id actor : string) : W PaymentOrderRecord :=
  actor ← lift (_operator actor);
  transaction (
    row ← _order_row order_id subject_id;
    raise_if (o_status row =/= OAwaitingConfirmation)
      (InvalidTransitionError "order is not awaiting confirmation") ;;
    _reserve_order row actor ;;
    r ← _order_row order_id subject_id;
    mret (_order_from_row r)).

Definition reject_order (order_id subject_id actor reason : string) : W PaymentOrderRecord :=
  actor ← lift (_operator actor);
  transaction (
    row ← _order_row order_id subject_id;
    raise_if (negb (bool_decide (o_status row ∈ [OPendingPolicy; OAwaitingConfirmation])))
      (InvalidTransitionError "order cannot be rejected") ;;
    _transition_order row ORejected actor reason ;;
    r ← _order_row order_id subject_id;
    mret (_order_from_row r)).

Definition cancel_order (order_id subject_id actor reason : string) : W PaymentOrderRecord :=
  actor ← lift (_operator actor);
  transaction (
    row ← _order_row order_id subject_id;
    (if o_status row == OReserved then _release_order row actor reason
     else if bool_decide (o_status row ∈ [OPendingPolicy; OAwaitingConfirmation])
     then _transition_order row OCancelled actor reason
     else raise (InvalidTransitionError "order cannot be cancelled")) ;;
    r ← _order_row order_id subject_id;
    mret (_order_from_row r)).

(** [_ensure_order]: the order of an accepted submission. *)
Definition new_order_row (order_id : string) (submission : SubmissionRecord)
    (bounty : bounty_row) (policy : option policy_row) (audit_id now : string) : order_row :=
  let mode := match policy with Some p => p_mode p | None => MDisabled end in
  let version := match policy with Some p => p_policy_version p | None => 1 end in
  let key := sr_bounty_id submission +:+ ":" +:+ sr_submission_id submission in
  {| o_order_id := order_id; o_subject_id := sr_subject_id submission;
     o_bounty_id := sr_bounty_id submission; o_submission_id := sr_submission_id submission;
     o_network_id := b_network_id bounty; o_asset_id := b_asset_id bounty;
     o_recipient_address := sr_recipient_address submission;
     o_amount := b_reward_amount bounty; o_payment_mode := mode;
     o_policy_version := version; o_idempotency_key := key; o_authorized_at := None;
     o_created_audit_id := audit_id; o_last_audit_id := audit_id;
     o_status := OPendingPolicy;
     o_state_hash := _order_temporal_hash order_id (sr_subject_id submission)
       (sr_bounty_id submission) (sr_submission_id submission) (b_network_id bounty)
       (b_asset_id bounty) (sr_recipient_address submission) (b_reward_amount bounty)
       mode version key OPendingPolicy now None now;
     o_created_at := now; o_updated_at := now |}.

Definition _ensure_order (submission : SubmissionRecord) : W unit :=
  existing ← gets (λ d, exists_where (λ o, o_submission_id o == sr_submission_id submission)
                          (orders d));
  if (existing : bool) then mret tt
  else
    found ← gets (bounty_by_id (sr_bounty_id submission));
    policy ← gets (_policy_row (sr_subject_id submission));
    order_id ← new_id "payorder";
    now ← self_clock;
    bounty ← subscript found;
    audit_id ← _audit (sr_subject_id submission) "wallet_payment_order_created" "system"
      (JObj [("submission_id", JStr (sr_submission_id submission));
             ("amount", JStr (b_reward_amount bounty))]);
    insert_order (new_order_row order_id submission bounty policy audit_id now) ;;
    inserted ← gets (order_by_id order_id);
    row ← subscript inserted;
    match o_payment_mode row with
    | MDisabled => _transition_order row ORejected "system" "payment policy disabled"
    | MConditional =>
        _transition_order row OAwaitingConfirmation "system" "confirmation required"
    | MAutomatic =>
        allowed ← _policy_allows row policy None;
        if (allowed : bool) then _reserve_order row "system"
        else _transition_order row ORejected "system" "payment policy denied"
    end.
End orders.
