(* ===== verification/WalletSubmissions.v ===== *)
(** * Submissions and policy updates ([src/src/noyra/wallet/economy.py])

    Submitting to a bounty, deciding and withdrawing a submission, and the
    compare-and-swap update of the payment policy. *)

From S2P Require Import Prelude Tables PyStr Json Digest Time WalletTypes WalletDb.
From S2P Require Import WalletEconomy WalletOrders.
Local Open Scope Z_scope.

Record PaymentPolicyRecord := {
  pr_subject_id : string; pr_mode : PaymentMode; pr_allowed_network_ids : list json;
  pr_allowed_asset_ids : list json; pr_per_order_limit : string; pr_daily_limit : string;
  pr_monthly_limit : string; pr_daily_order_limit : Z; pr_monthly_order_limit : Z;
  pr_min_balance : string; pr_max_observation_age_seconds : Z;
  pr_automatic_max_amount : string; pr_anomaly_block : bool; pr_emergency_paused : bool;
  pr_automation_enabled : bool; pr_policy_version : Z; pr_updated_at : string;
  pr_recipient_allowlist_enabled : bool; pr_allowed_recipient_addresses : list json;
}.

Section submissions.
Context {Dg : Digest} {En : Env}.

(** ** Submitting *)

(** [strict_json_loads(text) == list(strings)]. *)
Definition json_is_strs (v : json) (l : list string) : bool :=
  match v with
  | JList vs =>
      (Nat.eqb (length vs) (length l))
      && forallb (λ vs, match vs.1 with JStr s => s == vs.2 | _ => false end) (zip vs l)
  | _ => false
  end.

(** [_submission_input_matches]; [and] stops at the first mismatch. *)
Definition _submission_input_matches (row : submission_row) (p : SubmissionInput)
    : result bool :=
  if (s_counterparty row == si_counterparty p) && (s_content row == si_content p) then
    evidence ← strict_json_loads (s_evidence_json row);
    Ok (json_is_strs evidence (si_evidence p)
        && (s_recipient_address row == si_recipient_address p)
        && (s_consent_version row =? si_consent_version p))
  else Ok false.

Definition submission_payload (sid bounty_id subject_id : string) (p : SubmissionInput) : json :=
  JObj [("submission_id", JStr sid); ("bounty_id", JStr bounty_id);
        ("subject_id", JStr subject_id); ("counterparty", JStr (si_counterparty p));
        ("content", JStr (si_content p)); ("evidence", JStrs (si_evidence p));
        ("recipient_address", JStr (si_recipient_address p));
        ("idempotency_key", JStr (si_idempotency_key p));
        ("consent_version", JInt (si_consent_version p))].

Definition new_submission_row (sid bounty_id subject_id : string) (p : SubmissionInput)
    (audit now : string) : submission_row :=
  {| s_submission_id := sid; s_bounty_id := bounty_id; s_subject_id := subject_id;
     s_counterparty := si_counterparty p; s_content := si_content p;
     s_evidence_json := canonical_json (JStrs (si_evidence p));
     s_recipient_address := si_recipient_address p;
     s_idempotency_key := si_idempotency_key p;
     s_consent_version := si_consent_version p; s_status := SSubmitted;
     s_decision_reason := None; s_created_at := now; s_decided_at := None;
     s_state_hash := _submission_state_hash_values sid bounty_id subject_id
       (si_counterparty p) (si_content p) (JStrs (si_evidence p)) (si_recipient_address p)
       (si_idempotency_key p) (si_consent_version p) SSubmitted None;
     s_created_audit_id := audit; s_decision_audit_id := None |}.

Definition open_submission (s : SubmissionStatus) : bool :=
  match s with SSubmitted | SAccepted => true | _ => false end.

Definition submit_to_bounty (bounty_id subject_id : string) (proposal : SubmissionInput)
    : W SubmissionRecord :=
  lift (validate_subject_id subject_id) ;;
  now ← self_clock;
  transaction (
    found ← gets (bounty_of_subject bounty_id subject_id);
    bounty ← lift (of_option (NotFoundError "wallet bounty not found") found);
    d ← gets id;
    match fetchone (λ r, (s_subject_id r == subject_id) && (s_bounty_id r == bounty_id)
              && (s_idempotency_key r == si_idempotency_key proposal)) (submissions d) with
    | Some existing =>
        same ← lift (_submission_input_matches existing proposal);
        raise_if (negb same)
          (ValueError "submission idempotency key conflicts with different input") ;;
        lift (_submission_from_row existing)
    | None =>
        status ← _effective_bounty_status bounty;
        status ← (if status =/= b_status bounty then
                    _set_bounty_status bounty BExpired "expiry" "system" ;; mret BExpired
                  else mret status);
        closed ← (if status =/= BPublished then mret true
                  else
                    now_at ← lift (parse_time now);
                    opens ← lift (parse_time (b_opens_at bounty));
                    mret (now_at <? opens));
        raise_if closed (ValueError "bounty is not accepting submissions") ;;
        count ← gets (λ d, count_where (λ r, (s_bounty_id r == bounty_id)
                             && open_submission (s_status r)) (submissions d));
        raise_if (b_max_submissions bounty <=? count)
          (ValueError "bounty submission limit reached") ;;
        sid ← new_id "submission";
        audit ← _audit subject_id "wallet_bounty_submission_created" "visitor"
                  (submission_payload sid bounty_id subject_id proposal);
        insert_submission (new_submission_row sid bounty_id subject_id proposal audit now) ;;
        row ← gets (submission_by_id sid);
        r ← subscript row;
        lift (_submission_from_row r)
    end).

(** ** Deciding *)

Definition _decide_submission_connection (submission_id subject_id : string)
    (accepted : bool) (reason actor : string) : W SubmissionRecord :=
  found ← gets (submission_of_subject submission_id subject_id);
  row ← lift (of_option (NotFoundError "wallet submission not found") found);
  raise_if (s_status row =/= SSubmitted)
    (InvalidTransitionError "submission already decided") ;;
  bounty_found ← gets (bounty_of_subject (s_bounty_id row) subject_id);
  bounty ← lift (of_option (IntegrityError "submission bounty reference is invalid")
                   bounty_found);
  (if accepted then
     winners ← gets (λ d, count_where (λ r, (s_bounty_id r == s_bounty_id row)
                            && (s_status r == SAccepted)) (submissions d));
     raise_if (b_reward_slots bounty <=? winners)
       (ValueError "bounty reward slots are exhausted")
   else mret tt) ;;
  let target := if accepted then SAccepted else SRejected in
  now ← self_clock;
  audit_id ← _audit subject_id ("wallet_submission_" +:+ submission_status_text target) actor
    (JObj [("submission_id", JStr submission_id); ("from", JStr "submitted");
           ("to", JStr (submission_status_text target)); ("reason", JStr reason)]);
  state_hash ← lift (_submission_state_hash_row row target (Some reason));
  update_submission submission_id (submission_decide target reason now audit_id state_hash) ;;
  updated ← gets (submission_by_id submission_id);
  r ← subscript updated;
  result ← lift (_submission_from_row r);
  (if accepted then _ensure_order result else mret tt) ;;
  mret result.

Definition decide_submission (submission_id subject_id : string) (accepted : bool)
    (reason actor : string) : W SubmissionRecord :=
  actor ← lift (_operator actor);
  lift (validate_subject_id subject_id) ;;
  let reason := strip reason in
  raise_if ((reason == EmptyString) || (2000 <? len reason))
    (ValueError "submission decision reason is invalid") ;;
  transaction (_decide_submission_connection submission_id subject_id accepted reason actor).

Definition withdraw_submission (submission_id subject_id actor : string)
    : W SubmissionRecord :=
  lift (validate_subject_id subject_id) ;;
  transaction (
    found ← gets (submission_of_subject submission_id subject_id);
    row ← lift (of_option (NotFoundError "wallet submission not found") found);
    raise_if (s_status row =/= SSubmitted)
      (InvalidTransitionError "submission cannot be withdrawn") ;;
    now ← self_clock;
    audit_id ← _audit subject_id "wallet_submission_withdrawn" actor
      (JObj [("submission_id", JStr submission_id); ("from", JStr "submitted");
             ("to", JStr "withdrawn")]);
    state_hash ← lift (_submission_state_hash_row row SWithdrawn (Some "withdrawn"));
    update_submission submission_id
      (submission_decide SWithdrawn "withdrawn" now audit_id state_hash) ;;
    updated ← gets (submission_by_id submission_id);
    r ← subscript updated;
    lift (_submission_from_row r)).

(** ** Payment policy *)

Definition _policy_from_row (r : policy_row) : result PaymentPolicyRecord :=
  nets ← strict_json_loads (p_allowed_network_ids_json r); nets ← json_tuple nets;
  asts ← strict_json_loads (p_allowed_asset_ids_json r); asts ← json_tuple asts;
  rcps ← strict_json_loads (p_allowed_recipient_addresses_json r); rcps ← json_tuple rcps;
  Ok {| pr_subject_id := p_subject_id r; pr_mode := p_mode r;
        pr_allowed_network_ids := nets; pr_allowed_asset_ids := asts;
        pr_per_order_limit := p_per_order_limit r; pr_daily_limit := p_daily_limit r;
        pr_monthly_limit := p_monthly_limit r;
        pr_daily_order_limit := p_daily_order_limit r;
        pr_monthly_order_limit := p_monthly_order_limit r;
        pr_min_balance := p_min_balance r;
        pr_max_observation_age_seconds := p_max_observation_age_seconds r;
        pr_automatic_max_amount := p_automatic_max_amount r;
        pr_anomaly_block := negb (p_anomaly_block r =? 0);
        pr_emergency_paused := negb (p_emergency_paused r =? 0);
        pr_automation_enabled := negb (p_automation_enabled r =? 0);
        pr_policy_version := p_policy_version r; pr_updated_at := p_updated_at r;
        pr_recipient_allowlist_enabled := negb (p_recipient_allowlist_enabled r =? 0);
        pr_allowed_recipient_addresses := rcps |}.

Definition get_policy (subject_id : string) : W PaymentPolicyRecord :=
  lift (validate_subject_id subject_id) ;;
  read_transaction (
    found ← gets (_policy_row subject_id);
    row ← lift (of_option
            (IntegrityError ("wallet payment policy is missing: " +:+ subject_id)) found);
    lift (_policy_from_row row)).

Definition b2z (b : bool) : Z := if b then 1 else 0.

(** The row [_insert_policy] writes, before its hash. *)
Definition policy_row_of (sid : string) (p : PaymentPolicyInput) (version : Z)
    (now state_hash : string) : policy_row :=
  {| p_subject_id := sid; p_mode := pi_mode p;
     p_allowed_network_ids_json := canonical_json (JStrs (pi_allowed_network_ids p));
     p_allowed_asset_ids_json := canonical_json (JStrs (pi_allowed_asset_ids p));
     p_per_order_limit := pi_per_order_limit p; p_daily_limit := pi_daily_limit p;
     p_monthly_limit := pi_monthly_limit p; p_daily_order_limit := pi_daily_order_limit p;
     p_monthly_order_limit := pi_monthly_order_limit p; p_min_balance := pi_min_balance p;
     p_max_observation_age_seconds := pi_max_observation_age_seconds p;
     p_automatic_max_amount := pi_automatic_max_amount p;
     p_anomaly_block := b2z (pi_anomaly_block p);
     p_emergency_paused := b2z (pi_emergency_paused p);
     p_automation_enabled := b2z (default false (pi_automation_enabled p));
     p_recipient_allowlist_enabled := b2z (pi_recipient_allowlist_enabled p);
     p_allowed_recipient_addresses_json :=
       canonical_json (JStrs (pi_allowed_recipient_addresses p));
     p_policy_version := version; p_updated_at := now; p_state_hash := state_hash |}.

Definition _insert_policy (sid : string) (p : PaymentPolicyInput) (version : Z) (now : string)
    : W unit :=
  state_hash ← lift (_policy_state_hash_row (policy_row_of sid p version now EmptyString));
  replace_policy (policy_row_of sid p version now state_hash).

Definition with_automation (p : PaymentPolicyInput) : PaymentPolicyInput :=
  match pi_automation_enabled p with
  | Some _ => p
  | None =>
      {| pi_mode := pi_mode p; pi_allowed_network_ids := pi_allowed_network_ids p;
         pi_allowed_asset_ids := pi_allowed_asset_ids p;
         pi_per_order_limit := pi_per_order_limit p; pi_daily_limit := pi_daily_limit p;
         pi_monthly_limit := pi_monthly_limit p;
         pi_daily_order_limit := pi_daily_order_limit p;
         pi_monthly_order_limit := pi_monthly_order_limit p;
         pi_min_balance := pi_min_balance p;
         pi_max_observation_age_seconds := pi_max_observation_age_seconds p;
         pi_automatic_max_amount := pi_automatic_max_amount p;
         pi_anomaly_block := pi_anomaly_block p; pi_emergency_paused := pi_emergency_paused p;
         pi_automation_enabled := Some (pi_mode p == MAutomatic);
         pi_recipient_allowlist_enabled := pi_recipient_allowlist_enabled p;
         pi_allowed_recipient_addresses := pi_allowed_recipient_addresses p |}
  end.

(** [json_extract(payload_json, '$.key')] and [dict.get(key)]. *)
Definition json_get (key : string) (v : json) : option json :=
  match v with
  | JObj m => snd <$> fetchone (λ kv, kv.1 == key) m
  | _ => None
  end.
Definition payload_key_is (key value : string) (a : audit_row) : bool :=
  match strict_json_loads (a_payload_json a) with
  | Ok v => match json_get key v with Some (JStr s) => s == value | _ => false end
  | Raise _ => false
  end.
Definition request_field (key : string) (request : list (string * string)) : W string :=
  lift (of_option (KeyError key) (snd <$> fetchone (λ kv, kv.1 == key) request)).

Definition update_policy (subject_id : string) (proposal : PaymentPolicyInput)
    (expected_version : Z) (actor : string)
    (automation_request : option (list (string * string))) : W PaymentPolicyRecord :=
  actor ← lift (_operator actor);
  lift (validate_subject_id subject_id) ;;
  raise_if (expected_version <? 1) (ValueError "invalid policy version") ;;
  (if pi_mode proposal == MAutomatic then
     per_order ← lift (int_of (pi_per_order_limit proposal));
     (if per_order <=? 0 then raise
        (ValueError "automatic payment requires per-order and daily amount limits")
      else
        daily ← lift (int_of (pi_daily_limit proposal));
        raise_if (daily <=? 0)
          (ValueError "automatic payment requires per-order and daily amount limits"))
   else mret tt) ;;
  transaction (
    row ← gets (_policy_row subject_id);
    replay ← match automation_request with
      | None => mret None
      | Some request =>
          key ← request_field "idempotency_key" request;
          duplicate ← gets (λ d, fetchone (λ a, (a_subject_id a == subject_id)
                                && (a_action a == "wallet_automation_updated")
                                && payload_key_is "idempotency_key" key a) (audits d));
          match duplicate with
          | None => mret None
          | Some dup =>
              digest ← request_field "request_digest" request;
              raise_if (negb (payload_key_is "request_digest" digest dup))
                (ValueError "wallet automation idempotency conflict") ;;
              r ← lift (of_option (IntegrityError "wallet payment policy is missing") row);
              mret (Some r)
          end
      end;
    match replay with
    | Some r => lift (_policy_from_row r)
    | None =>
        let current := match row with None => 1 | Some r => p_policy_version r end in
        raise_if (negb (expected_version =? current))
          (ValueError "wallet payment policy version conflict") ;;
        (if (pi_mode proposal == MAutomatic)
            && negb (bool_decide (pi_automation_enabled proposal = Some false))
            && negb (pi_emergency_paused proposal)
         then lift require_activation_evidence else mret tt) ;;
        let proposal := with_automation proposal in
        now ← self_clock;
        _insert_policy subject_id proposal (current + 1) now ;;
        _audit subject_id "wallet_payment_policy_updated" actor
          (JObj [("policy_version", JInt (current + 1));
                 ("mode", JStr (payment_mode_text (pi_mode proposal)))]) ;;
        match automation_request with
        | None => mret EmptyString
        | Some request =>
            _audit subject_id "wallet_automation_updated" actor
              (JObj (dict_set "policy_version" (JInt (current + 1))
                       (map (λ kv, (kv.1, JStr kv.2)) request)))
        end ;;
        updated ← gets (_policy_row subject_id);
        r ← subscript updated;
        lift (_policy_from_row r)
    end).

(** ** The wallet part of [IdentityStore.ensure] ([core/identity.py])

    A new subject gets a closed default policy ([INSERT OR IGNORE]); an
    existing one is left alone.  The subject's own record holds only its
    identifier here. *)
Definition default_policy_row (sid now state_hash : string) : policy_row :=
  {| p_subject_id := sid; p_mode := MDisabled; p_allowed_network_ids_json := "[]";
     p_allowed_asset_ids_json := "[]"; p_per_order_limit := "0"; p_daily_limit := "0";
     p_monthly_limit := "0"; p_daily_order_limit := 0; p_monthly_order_limit := 0;
     p_min_balance := "0"; p_max_observation_age_seconds := 0;
     p_automatic_max_amount := "0"; p_anomaly_block := 1; p_emergency_paused := 0;
     p_automation_enabled := 0; p_recipient_allowlist_enabled := 0;
     p_allowed_recipient_addresses_json := "[]"; p_policy_version := 1;
     p_updated_at := now; p_state_hash := state_hash |}.
Definition ensure_identity (subject_id : string) : W unit :=
  lift (validate_subject_id subject_id) ;;
  now ← utc_now;
  transaction (
    d ← gets id;
    if bool_decide (subject_id ∈ subjects d) then mret tt
    else
      modify (set_subjects (append_row subject_id)) ;;
      h ← lift (_policy_state_hash_row (default_policy_row subject_id now EmptyString));
      match _policy_row subject_id d with
      | Some _ => mret tt
      | None => modify (set_policies (append_row (default_policy_row subject_id now h)))
      end).
End submissions.
