(* ===== verification/WalletExecution.v ===== *)
(** * The payment execution records ([src/src/noyra/wallet/execution.py])

    The durable half of [WalletPaymentExecutionEngine]: the rows an order's
    execution keeps, the transactions that move an execution and its order
    together ([_mark_broadcast], [_mark_unknown], [_mark_failed],
    [_mark_confirmed], [mark_reconcile_required], crash recovery), and the
    offline check [verify_database_integrity]. *)

From S2P Require Import Prelude Tables PyStr Json Digest Time WalletTypes WalletTransfer.
From S2P Require Import WalletDb WalletEconomy WalletOrders.
Local Open Scope Z_scope.

Record WalletBroadcastResult := {
  bc_tx_hash : string; bc_chain_id : Z; bc_nonce : Z; bc_accepted_at : string;
}.
Record WalletReceipt := {
  wr_tx_hash : string; wr_chain_id : Z; wr_status : Z; wr_block_number : option Z;
  wr_block_hash : option string; wr_confirmations : Z; wr_effect_hash : option string;
}.
Record WalletExecutionRecord := {
  xr_execution_id : string; xr_subject_id : string; xr_order_id : string;
  xr_network_id : string; xr_asset_id : string; xr_source_address : string;
  xr_recipient_address : string; xr_asset_type : string; xr_contract_address : option string;
  xr_amount : string; xr_chain_id : Z; xr_nonce : Z; xr_gas_limit : Z;
  xr_max_fee_per_gas : string; xr_request_id : string; xr_request_hash : string;
  xr_signer_id : string; xr_status : ExecutionStatus; xr_tx_hash : option string;
  xr_error_code : option string; xr_receipt : receipt_columns; xr_attempt_count : Z;
  xr_created_at : string; xr_updated_at : string;
}.
#[global] Instance WalletExecutionRecord_eq_dec : EqDecision WalletExecutionRecord.
Proof. solve_decision. Defined.

Definition JOptZ (o : option Z) : json := match o with Some z => JInt z | None => JNull end.

Section execution.
Context {Dg : Digest} {En : Env}.

Definition _execution_from_row (row : execution_row) : WalletExecutionRecord :=
  {| xr_execution_id := x_execution_id row; xr_subject_id := x_subject_id row;
     xr_order_id := x_order_id row; xr_network_id := x_network_id row;
     xr_asset_id := x_asset_id row; xr_source_address := x_source_address row;
     xr_recipient_address := x_recipient_address row; xr_asset_type := x_asset_type row;
     xr_contract_address := x_contract_address row; xr_amount := x_amount row;
     xr_chain_id := x_chain_id row; xr_nonce := x_nonce row; xr_gas_limit := x_gas_limit row;
     xr_max_fee_per_gas := x_max_fee_per_gas row; xr_request_id := x_request_id row;
     xr_request_hash := x_request_hash row; xr_signer_id := x_signer_id row;
     xr_status := x_status row; xr_tx_hash := x_tx_hash row;
     xr_error_code := x_error_code row; xr_receipt := x_receipt row;
     xr_attempt_count := x_attempt_count row; xr_created_at := x_created_at row;
     xr_updated_at := x_updated_at row |}.

(** ** Hashes *)

Definition _execution_hash_values_from_row (row : execution_row) (status : ExecutionStatus)
    (tx_hash error_code : option string) (receipt : receipt_columns) (attempt_count : Z)
    (updated_at : string) : string :=
  content_hash (JObj
    [("execution_id", JStr (x_execution_id row)); ("subject_id", JStr (x_subject_id row));
     ("order_id", JStr (x_order_id row)); ("network_id", JStr (x_network_id row));
     ("asset_id", JStr (x_asset_id row)); ("source_address", JStr (x_source_address row));
     ("recipient_address", JStr (x_recipient_address row));
     ("asset_type", JStr (x_asset_type row));
     ("contract_address", JOpt (x_contract_address row)); ("amount", JStr (x_amount row));
     ("chain_id", JInt (x_chain_id row)); ("nonce", JInt (x_nonce row));
     ("gas_limit", JInt (x_gas_limit row)); ("max_fee_per_gas", JStr (x_max_fee_per_gas row));
     ("request_id", JStr (x_request_id row)); ("request_hash", JStr (x_request_hash row));
     ("signer_id", JStr (x_signer_id row)); ("status", JStr (execution_status_text status));
     ("tx_hash", JOpt tx_hash); ("error_code", JOpt error_code);
     ("receipt_status", JOptZ (rc_status receipt));
     ("receipt_block_number", JOptZ (rc_block_number receipt));
     ("receipt_block_hash", JOpt (rc_block_hash receipt));
     ("receipt_confirmations", JOptZ (rc_confirmations receipt));
     ("receipt_effect_hash", JOpt (rc_effect_hash receipt));
     ("attempt_count", JInt attempt_count); ("created_at", JStr (x_created_at row));
     ("updated_at", JStr updated_at)]).
Definition _execution_hash (row : execution_row) : string :=
  _execution_hash_values_from_row row (x_status row) (x_tx_hash row) (x_error_code row)
    (x_receipt row) (x_attempt_count row) (x_updated_at row).

Definition _attempt_hash_values (attempt_id execution_id subject_id : string)
    (attempt_number : Z) (request_id : string) (status : ExecutionStatus)
    (tx_hash error_code : option string) (started_at : string) (completed_at : option string)
    : string :=
  content_hash (JObj
    [("attempt_id", JStr attempt_id); ("execution_id", JStr execution_id);
     ("subject_id", JStr subject_id); ("attempt_number", JInt attempt_number);
     ("request_id", JStr request_id); ("status", JStr (execution_status_text status));
     ("tx_hash", JOpt tx_hash); ("error_code", JOpt error_code);
     ("started_at", JStr started_at); ("completed_at", JOpt completed_at)]).
Definition _attempt_hash (row : attempt_row) : string :=
  _attempt_hash_values (t_attempt_id row) (t_execution_id row) (t_subject_id row)
    (t_attempt_number row) (t_request_id row) (t_status row) (t_tx_hash row)
    (t_error_code row) (t_started_at row) (t_completed_at row).

(** ** Reading *)

Definition execution_of_subject (execution_id subject_id : string) (d : wallet_db)
    : option execution_row :=
  fetchone (λ r, (x_execution_id r == execution_id) && (x_subject_id r == subject_id))
    (executions d).
Definition execution_of_order (order_id subject_id : string) (d : wallet_db)
    : option execution_row :=
  fetchone (λ r, (x_order_id r == order_id) && (x_subject_id r == subject_id)) (executions d).
Definition execution_by_id (execution_id : string) : W WalletExecutionRecord :=
  row ← gets (λ d, fetchone (λ r, x_execution_id r == execution_id) (executions d));
  r ← subscript row;
  mret (_execution_from_row r).
Definition require_execution (execution_id subject_id : string) : W execution_row :=
  found ← gets (execution_of_subject execution_id subject_id);
  lift (of_option (NotFoundError "wallet payment execution not found") found).
Definition get_execution (execution_id subject_id : string) : W WalletExecutionRecord :=
  lift (validate_subject_id subject_id) ;;
  row ← read_transaction (gets (execution_of_subject execution_id subject_id));
  r ← lift (of_option (NotFoundError "wallet payment execution not found") row);
  mret (_execution_from_row r).
Definition _order_execution (order_id subject_id : string) : W (option WalletExecutionRecord) :=
  lift (validate_subject_id subject_id) ;;
  row ← read_transaction (gets (execution_of_order order_id subject_id));
  mret (_execution_from_row <$> row).

(** ** Moving an execution and its order *)

Definition _finish_attempt (execution : execution_row) (status : ExecutionStatus)
    (tx_hash error_code : option string) (completed_at : string) : W unit :=
  found ← gets (λ d, fetchone (λ a, (t_execution_id a == x_execution_id execution)
                        && (t_attempt_number a =? x_attempt_count execution)) (attempts d));
  attempt ← lift (of_option (IntegrityError "wallet execution attempt is missing") found);
  update_attempt (t_attempt_id attempt)
    (attempt_set status tx_hash error_code (Some completed_at)
       (_attempt_hash_values (t_attempt_id attempt) (t_execution_id attempt)
          (t_subject_id attempt) (t_attempt_number attempt) (t_request_id attempt) status
          tx_hash error_code (t_started_at attempt) (Some completed_at))).

Definition _mark_broadcast (execution_id subject_id actor : string)
    (result : WalletBroadcastResult) : W WalletExecutionRecord :=
  transaction (
    execution ← require_execution execution_id subject_id;
    order ← _order_row (x_order_id execution) subject_id;
    if o_status order =/= OSigning then mret (_execution_from_row execution)
    else
      tx ← lift (_tx_hash (bc_tx_hash result));
      raise_if (negb ((bc_chain_id result =? x_chain_id execution)
                      && (bc_nonce result =? x_nonce execution)))
        (WalletExecutionError "signer response does not match fixed chain or nonce") ;;
      collision ← gets (λ d, exists_where (λ r, (x_subject_id r == subject_id)
                      && (x_network_id r == x_network_id execution)
                      && (x_tx_hash r == Some tx)
                      && (x_execution_id r =/= execution_id)) (executions d));
      raise_if collision (WalletExecutionError "signer reused a transaction hash") ;;
      aid ← _audit subject_id "wallet_payment_broadcast" actor
        (JObj [("order_id", JStr (x_order_id execution)); ("tx_hash", JStr tx);
               ("nonce", JInt (bc_nonce result))]);
      _transition_order order OBroadcast actor "signer broadcast accepted" ;;
      now ← utc_now;
      let state := _execution_hash_values_from_row execution XBroadcast (Some tx) None
                     no_receipt (x_attempt_count execution) now in
      update_execution execution_id (λ r,
        execution_set XBroadcast (Some tx) (x_error_code r) (x_receipt r)
          (x_attempt_count r) aid now state r) ;;
      _finish_attempt execution XBroadcast (Some tx) None now ;;
      execution_by_id execution_id).

Definition _mark_unknown (execution_id subject_id actor : string) (tx_hash : option string)
    (code : string) : W WalletExecutionRecord :=
  transaction (
    execution ← require_execution execution_id subject_id;
    order ← _order_row (x_order_id execution) subject_id;
    if negb (bool_decide (o_status order ∈ [OSigning; OBroadcast])) then
      mret (_execution_from_row execution)
    else
      let '(tx, code) :=
        match tx_hash with
        | None => (x_tx_hash execution, code)
        | Some h =>
            match _tx_hash h with
            | Ok t => (Some t, code)
            | Raise _ => (x_tx_hash execution, "broadcast_unknown_invalid_hash")
            end
        end in
      aid ← _audit subject_id "wallet_payment_unknown" actor
        (JObj [("order_id", JStr (x_order_id execution)); ("tx_hash", JOpt tx);
               ("error_code", JStr code)]);
      _transition_order order OUnknown actor code ;;
      now ← utc_now;
      let state := _execution_hash_values_from_row execution XUnknown tx (Some code)
                     no_receipt (x_attempt_count execution) now in
      update_execution execution_id (λ r,
        execution_set XUnknown tx (Some code) (x_receipt r) (x_attempt_count r) aid now
          state r) ;;
      _finish_attempt execution XUnknown tx (Some code) now ;;
      execution_by_id execution_id).

Definition _mark_failed (execution_id subject_id actor code : string)
    (receipt_tx_hash : option string) (receipt : receipt_columns) : W WalletExecutionRecord :=
  transaction (
    execution ← require_execution execution_id subject_id;
    order ← _order_row (x_order_id execution) subject_id;
    if negb (bool_decide (o_status order ∈ [OSigning; OBroadcast; OUnknown])) then
      mret (_execution_from_row execution)
    else
      tx ← match receipt_tx_hash with
           | None => mret (x_tx_hash execution)
           | Some h => t ← lift (_tx_hash h); mret (Some t)
           end;
      aid ← _audit subject_id "wallet_payment_failed" actor
        (JObj [("order_id", JStr (x_order_id execution)); ("error_code", JStr code)]);
      _transition_order order OFailed actor code ;;
      now ← utc_now;
      let state := _execution_hash_values_from_row execution XFailed tx (Some code) receipt
                     (x_attempt_count execution) now in
      update_execution execution_id (λ r,
        execution_set XFailed tx (Some code) receipt (x_attempt_count r) aid now state r) ;;
      _finish_attempt execution XFailed tx (Some code) now ;;
      execution_by_id execution_id).

Definition receipt_of (receipt : WalletReceipt) (status : Z) : receipt_columns :=
  {| rc_status := Some status; rc_block_number := wr_block_number receipt;
     rc_block_hash := wr_block_hash receipt;
     rc_confirmations := Some (wr_confirmations receipt);
     rc_effect_hash := wr_effect_hash receipt |}.

Definition _mark_confirmed (execution_id subject_id actor : string) (receipt : WalletReceipt)
    : W WalletExecutionRecord :=
  transaction (
    execution ← require_execution execution_id subject_id;
    order ← _order_row (x_order_id execution) subject_id;
    if o_status order == OConfirmed then mret (_execution_from_row execution)
    else
      raise_if (negb (bool_decide (o_status order ∈ [OBroadcast; OUnknown])))
        (InvalidTransitionError "order is not awaiting receipt") ;;
      tx ← lift (_tx_hash (wr_tx_hash receipt));
      aid ← _audit subject_id "wallet_payment_confirmed" actor
        (JObj [("order_id", JStr (x_order_id execution)); ("tx_hash", JStr tx);
               ("block_number", JOptZ (wr_block_number receipt));
               ("block_hash", JOpt (wr_block_hash receipt));
               ("confirmations", JInt (wr_confirmations receipt))]);
      _transition_order order OConfirmed actor "chain receipt confirmed" ;;
      post_settlement order ;;
      now ← utc_now;
      let columns := receipt_of receipt 1 in
      let state := _execution_hash_values_from_row execution XConfirmed (Some tx) None columns
                     (x_attempt_count execution) now in
      update_execution execution_id (λ r,
        execution_set XConfirmed (Some tx) None columns (x_attempt_count r) aid now state r) ;;
      _finish_attempt execution XConfirmed (Some tx) None now ;;
      execution_by_id execution_id).

(** [mark_reconcile_required]: a confirmed payment whose receipt changed. *)
Definition mark_reconcile_required (execution_id subject_id actor reason : string)
    : W WalletExecutionRecord :=
  actor ← lift (_operator actor);
  let reason := strip reason in
  raise_if ((reason == EmptyString) || (2000 <? len reason))
    (ValueError "reconciliation reason is invalid") ;;
  transaction (
    execution ← require_execution execution_id subject_id;
    if x_status execution =/= XConfirmed then mret (_execution_from_row execution)
    else
      order ← _order_row (x_order_id execution) subject_id;
      raise_if (o_status order =/= OConfirmed)
        (IntegrityError "confirmed execution does not have a confirmed order") ;;
      now ← utc_now;
      audit_id ← _audit subject_id "wallet_payment_reconcile_required" actor
        (JObj [("order_id", JStr (x_order_id execution)); ("execution_id", JStr execution_id);
               ("tx_hash", JOpt (x_tx_hash execution)); ("reason", JStr reason)]);
      _transition_order order OUnknown actor "reconcile_required" ;;
      let state_hash := _execution_hash_values_from_row execution XUnknown
          (x_tx_hash execution) (Some "reconcile_required") (x_receipt execution)
          (x_attempt_count execution) now in
      update_execution execution_id (λ r,
        execution_set XUnknown (x_tx_hash r) (Some "reconcile_required") (x_receipt r)
          (x_attempt_count r) audit_id now state_hash r) ;;
      _finish_attempt execution XUnknown (x_tx_hash execution) (Some "reconcile_required")
        now ;;
      event_id ← new_id "wallet-reconcile";
      insert_reconciliation
        {| rec_event_id := event_id; rec_subject_id := subject_id;
           rec_order_id := x_order_id execution; rec_execution_id := execution_id;
           rec_reason := reason; rec_tx_hash := x_tx_hash execution; rec_created_at := now;
           rec_state_hash := content_hash (JObj
             [("event_id", JStr event_id); ("subject_id", JStr subject_id);
              ("order_id", JStr (x_order_id execution)); ("execution_id", JStr execution_id);
              ("previous_status", JStr "confirmed"); ("reason", JStr reason);
              ("tx_hash", JOpt (x_tx_hash execution)); ("created_at", JStr now)]) |} ;;
      execution_by_id execution_id).

(** ** Recovery after a restart *)

(** One iteration: a signing execution becomes unknown. *)
Definition recover_one (subject_id actor execution_id : string)
    : W (list WalletExecutionRecord) :=
  transaction (
    found ← gets (execution_of_subject execution_id subject_id);
    match found with
    | None => mret []
    | Some execution =>
        if x_status execution =/= XSigning then mret []
        else
          order ← _order_row (x_order_id execution) subject_id;
          raise_if (o_status order =/= OSigning)
            (IntegrityError "wallet execution/order recovery mismatch") ;;
          audit_id ← _audit subject_id "wallet_payment_unknown" actor
            (JObj [("order_id", JStr (x_order_id execution));
                   ("error_code", JStr "process_restarted")]);
          _transition_order order OUnknown actor "process_restarted" ;;
          now ← utc_now;
          let state_hash := _execution_hash_values_from_row execution XUnknown
              (x_tx_hash execution) (Some "process_restarted") no_receipt
              (x_attempt_count execution) now in
          update_execution (x_execution_id execution) (λ r,
            execution_set XUnknown (x_tx_hash r) (Some "process_restarted") no_receipt
              (x_attempt_count r) audit_id now state_hash r) ;;
          _finish_attempt execution XUnknown (x_tx_hash execution) (Some "process_restarted")
            now ;;
          r ← execution_by_id (x_execution_id execution);
          mret [r]
    end).

Fixpoint recover_rows (subject_id actor : string) (rows : list execution_row)
    : W (list WalletExecutionRecord) :=
  match rows with
  | [] => mret []
  | row :: rest =>
      r ← recover_one subject_id actor (x_execution_id row);
      rs ← recover_rows subject_id actor rest;
      mret (r ++ rs)
  end.

Definition signing_rows (subject_id : string) (d : wallet_db) : list execution_row :=
  sort_by (λ x y, str_ltb (x_created_at x) (x_created_at y)
             || ((x_created_at x == x_created_at y)
                 && str_leb (x_execution_id x) (x_execution_id y)))
    (select (λ r, (x_subject_id r == subject_id) && (x_status r == XSigning)) (executions d)).

Definition recover_database_inflight (subject_id actor : string) (limit : Z)
    : W (list WalletExecutionRecord) :=
  lift (validate_subject_id subject_id) ;;
  raise_if (negb ((1 <=? limit) && (limit <=? 1000))) (ValueError "invalid recovery limit") ;;
  actor ← lift (_operator actor);
  rows ← read_transaction (gets (λ d, take (Z.to_nat limit) (signing_rows subject_id d)));
  recover_rows subject_id actor rows.

(** ** Offline check *)

(** [SELECT MIN(attempt_number)] and [MAX]: [None] on no rows. *)
Definition sql_min (l : list Z) : option Z :=
  match l with [] => None | z :: l => Some (foldr Z.min z l) end.
Definition sql_max (l : list Z) : option Z :=
  match l with [] => None | z :: l => Some (foldr Z.max z l) end.

Definition order_matches_execution (o : PaymentOrderStatus) (x : ExecutionStatus) : bool :=
  match o, x with
  | OSigning, XSigning | OBroadcast, XBroadcast | OUnknown, XUnknown
  | OConfirmed, XConfirmed | OFailed, XFailed | ORefunded, (XFailed | XUnknown) => true
  | _, _ => false
  end.

Definition check_execution (d : wallet_db) (subject_id : string) (row : execution_row)
    : result unit :=
  let mine := select (λ a, (t_execution_id a == x_execution_id row)
                && (t_subject_id a == x_subject_id row)) (attempts d) in
  let latest := fetchone (λ a, (t_execution_id a == x_execution_id row)
                  && (t_subject_id a == x_subject_id row)
                  && (t_attempt_number a =? x_attempt_count row)) (attempts d) in
  if x_state_hash row =/= _execution_hash row then
    Raise (IntegrityError ("wallet execution hash mismatch: " +:+ x_execution_id row))
  else if negb ((Z.of_nat (length mine) =? x_attempt_count row)
           && (sql_min (map t_attempt_number mine) == Some 1)
           && (sql_max (map t_attempt_number mine) == Some (x_attempt_count row))
           && ((t_status <$> latest) == Some (x_status row))) then
    Raise (IntegrityError ("wallet execution attempt chain mismatch: " +:+ x_execution_id row))
  else
    match order_by_id (x_order_id row) d with
    | Some o =>
        if (o_subject_id o == subject_id)
           && order_matches_execution (o_status o) (x_status row) then Ok tt
        else Raise (IntegrityError ("wallet execution order mismatch: " +:+ x_execution_id row))
    | None =>
        Raise (IntegrityError ("wallet execution order mismatch: " +:+ x_execution_id row))
    end.

Fixpoint check_all {A} (f : A → result unit) (l : list A) : result unit :=
  match l with [] => Ok tt | x :: l' => _ ← f x; check_all f l' end.

Definition check_attempt (row : attempt_row) : result unit :=
  if t_state_hash row =/= _attempt_hash row then
    Raise (IntegrityError ("wallet execution attempt hash mismatch: " +:+ t_attempt_id row))
  else Ok tt.

Definition verify_database_integrity (subject_id : string) : W (Z * Z) :=
  lift (validate_subject_id subject_id) ;;
  read_transaction (
    d ← gets id;
    let rows := select (λ r, x_subject_id r == subject_id) (executions d) in
    lift (check_all (check_execution d subject_id) rows) ;;
    let tried := select (λ r, t_subject_id r == subject_id) (attempts d) in
    lift (check_all check_attempt tried) ;;
    mret (Z.of_nat (length rows), Z.of_nat (length tried))).
End execution.
