(* ===== verification/WalletEngine.v ===== *)
(** * The payment execution engine ([src/src/noyra/wallet/execution.py])

    [_prepare] (admission of a reserved or unknown order to signing),
    the native fee budget, the authorised dispatch to the signer, receipt
    look-up, and the three entry points [execute_order], [retry_unknown]
    and [poll_receipt].  The signer is the [WalletSigner] protocol: a
    parameter, each call of which may return or raise anything. *)

From S2P Require Import Prelude Tables PyStr Json Digest Time WalletTypes RegistryTypes.
From S2P Require Import WalletTransfer WalletDb WalletEconomy RegistryDb WalletOrders.
From S2P Require Import WalletSubmissions WalletExecution.
Local Open Scope Z_scope.

(** The signer and the engine's configuration.  A call takes the tick at
    which it happens, so that two calls may answer differently.
    [lease_current] says whether the operation's lease still holds. *)
Class Signer := {
  signer_id : string;
  default_max_fee_per_gas : string;
  min_confirmations : Z;
  confirmation_timeout_seconds : Z;
  lease_current : nat → bool;
  sign_and_broadcast : nat → WalletUnsignedTransfer → string → result WalletBroadcastResult;
  get_receipt : nat → string → Z → result (option WalletReceipt);
  get_pending_nonce : nat → string → Z → result Z;
  get_fee_quote : nat → WalletUnsignedTransfer → result (Z * string);
}.

Section engine.
Context {Dg : Digest} {En : Env} {Sg : Signer}.

(** One call of the signer. *)
Definition call {A} (f : nat → result A) : W A := r ← read_clock f; lift r.
Definition assert_current_lease : W unit :=
  b ← read_clock lease_current;
  raise_if (negb b) (OperationInvalidated "operation lease is no longer current").

(** ** The native fee budget *)

(** [datetime.fromisoformat(s)] in arithmetic with an aware instant. *)
Definition aware_time (s : string) : result Z :=
  match fromisoformat s with
  | None => Raise (ValueError "Invalid isoformat string")
  | Some (_, None) => Raise (TypeError "can't subtract offset-naive and offset-aware datetimes")
  | Some (local, Some off) => Ok (local - off)
  end.

Definition settled_after (subject_id network_id address observed_at : string)
    (r : execution_row) : bool :=
  (x_subject_id r == subject_id) && (x_network_id r == network_id)
  && (x_source_address r == address)
  && ((x_status r == XConfirmed) || (x_status r == XFailed))
  && bool_decide (is_Some (x_tx_hash r)) && str_leb observed_at (x_updated_at r).
Definition fee_pending (subject_id network_id address : string) (exclude : option string)
    (r : execution_row) : bool :=
  (x_subject_id r == subject_id) && (x_network_id r == network_id)
  && (x_source_address r == address)
  && ((x_status r == XSigning) || (x_status r == XBroadcast) || (x_status r == XUnknown))
  && match exclude with None => true | Some e => x_execution_id r =/= e end.
Fixpoint sum_fees (rows : list execution_row) : result Z :=
  match rows with
  | [] => Ok 0
  | r :: rest =>
      fee ← int_of (x_max_fee_per_gas r);
      total ← sum_fees rest;
      Ok (x_gas_limit r * fee + total)
  end.

Definition _check_observed_fee_budget (subject_id network_id asset_type source_address_id
    min_balance : string) (gas_limit : Z) (max_fee_per_gas : string)
    (max_observation_age_seconds : Z) (exclude_execution_id : option string) : W unit :=
  d ← gets id;
  raise_if (unresolved_legacy d subject_id network_id)
    (IntegrityError "legacy wallet payment has unresolved broadcasts; recovery required") ;;
  match fetchone (λ a, (as_subject_id a == subject_id) && (as_network_id a == network_id)
            && (as_asset_type a == "native") && (as_status a == "active")) (assets d) with
  | None => raise (WalletExecutionError "wallet native fee asset is not registered")
  | Some native_asset =>
      let observed := sort_by (λ x y, str_ltb (sn_observed_at y) (sn_observed_at x)
             || ((sn_observed_at x == sn_observed_at y)
                 && str_leb (sn_snapshot_id y) (sn_snapshot_id x)))
        (select (λ s, (sn_subject_id s == subject_id) && (sn_network_id s == network_id)
               && (sn_asset_id s == as_asset_id native_asset)
               && (sn_address_id s == source_address_id)) (snapshots d)) in
      match observed with
      | [] =>
          raise_if (asset_type == "token")
            (WalletExecutionError "wallet native fee balance is unavailable")
      | latest :: _ =>
          observation ← lift (_balance_from_row latest);
          (if asset_type == "token" then
             let age_limit := Z.min
               (if max_observation_age_seconds =? 0
                then WALLET_BALANCE_OBSERVATION_MAX_AGE_SECONDS
                else max_observation_age_seconds)
               WALLET_BALANCE_OBSERVATION_MAX_AGE_SECONDS in
             now_text ← self_clock;
             now ← lift (aware_time now_text);
             seen ← lift (aware_time (sn_observed_at observation));
             raise_if (negb ((0 <=? now - seen) && (now - seen <=? age_limit * 1000000)))
               (WalletExecutionError "wallet native fee balance is not current")
           else mret tt) ;;
          fee_unit ← lift (int_of max_fee_per_gas);
          let fee := fee_unit * gas_limit in
          source ← lift (of_option (IntegrityError "wallet spending address is missing")
            (fetchone (λ a, (ad_address_id a == source_address_id)
                        && (ad_subject_id a == subject_id)) (addresses d)));
          raise_if (exists_where (settled_after subject_id network_id (ad_address source)
                      (sn_observed_at observation)) (executions d))
            (WalletExecutionError "wallet native fee balance predates settlement") ;;
          pending_fee ← lift (sum_fees (select (fee_pending subject_id network_id
                            (ad_address source) exclude_execution_id) (executions d)));
          reserved_amount ← lift (sum_amounts 0 (select (λ o, (o_subject_id o == subject_id)
                && (o_network_id o == network_id) && (o_asset_id o == as_asset_id native_asset)
                && holds_funds (o_status o)) (orders d)));
          native_minimum ← (if asset_type == "native" then lift (int_of min_balance)
                            else mret 0);
          balance ← lift (int_of (sn_balance observation));
          raise_if (balance - reserved_amount - pending_fee <? fee + native_minimum)
            (WalletExecutionError "observed native balance cannot cover wallet fees")
      end
  end.

(** ** Admission to signing *)

Definition prepared : Type := WalletExecutionRecord * WalletUnsignedTransfer * string.

Definition request_of (order_id : string) (attempt_number : Z) : string :=
  order_id +:+ ":attempt:" +:+ show_Z attempt_number.

Definition insert_signing_attempt (execution_id subject_id : string) (attempt_number : Z)
    (request_id now audit_id : string) : W unit :=
  attempt_id ← new_id "wallet_attempt";
  insert_attempt
    {| t_attempt_id := attempt_id; t_execution_id := execution_id; t_subject_id := subject_id;
       t_attempt_number := attempt_number; t_request_id := request_id; t_status := XSigning;
       t_tx_hash := None; t_error_code := None; t_started_at := now; t_completed_at := None;
       t_state_hash := _attempt_hash_values attempt_id execution_id subject_id attempt_number
         request_id XSigning None None now None;
       t_created_audit_id := audit_id |}.

(** The policy checks both branches of [_prepare] open with. *)
Definition authorized_policy (order : order_row) (order_id subject_id denied : string)
    : W policy_row :=
  found ← gets (_policy_row subject_id);
  match found with
  | None => raise (ValueError "wallet payment execution is emergency paused or disabled")
  | Some policy =>
      raise_if (negb (p_emergency_paused policy =? 0) || (p_mode policy == MDisabled))
        (ValueError "wallet payment execution is emergency paused or disabled") ;;
      allowed ← _policy_allows order (Some policy) (Some order_id);
      raise_if (negb allowed) (ValueError denied) ;;
      mret policy
  end.

Definition intent_of_execution (e : execution_row) : WalletTransferIntent :=
  {| ti_order_id := x_order_id e; ti_subject_id := x_subject_id e;
     ti_network_id := x_network_id e; ti_asset_id := x_asset_id e;
     ti_asset_type := x_asset_type e; ti_contract_address := x_contract_address e;
     ti_source_address := x_source_address e; ti_recipient_address := x_recipient_address e;
     ti_amount := x_amount e; ti_chain_id := x_chain_id e; ti_nonce := x_nonce e;
     ti_gas_limit := x_gas_limit e; ti_max_fee_per_gas := x_max_fee_per_gas e |}.

Definition fee_floor (order : order_row) (policy : policy_row) : string :=
  if o_payment_mode order == MAutomatic then "0" else p_min_balance policy.

(** [_prepare(..., retry_unknown=True)]. *)
Definition prepare_retry (order_id subject_id actor reason : string) : W prepared :=
  lift (validate_subject_id subject_id) ;;
  transaction (
    order ← _order_row order_id subject_id;
    raise_if (o_status order =/= OUnknown)
      (InvalidTransitionError "only unknown orders can be retried") ;;
    policy ← authorized_policy order order_id subject_id
               "wallet payment policy no longer authorizes retry";
    found ← gets (execution_of_order order_id subject_id);
    execution ← lift (of_option (IntegrityError "unknown order execution is missing") found);
    raise_if (x_signer_id execution =/= signer_id)
      (ValueError "unknown execution signer identity changed") ;;
    let attempt_number := x_attempt_count execution + 1 in
    raise_if (32 <? attempt_number) (ValueError "wallet execution retry limit reached") ;;
    let request_id := request_of order_id attempt_number in
    transfer ← lift (build_intent (intent_of_execution execution));
    d ← gets id;
    match _spending_address d subject_id (x_network_id execution) with
    | None => raise (WalletExecutionError "wallet retry spending address changed")
    | Some source =>
        raise_if (ad_address source =/= x_source_address execution)
          (WalletExecutionError "wallet retry spending address changed") ;;
        _check_observed_fee_budget subject_id (x_network_id execution)
          (x_asset_type execution) (ad_address_id source) (fee_floor order policy)
          (x_gas_limit execution) (x_max_fee_per_gas execution)
          (p_max_observation_age_seconds policy) (Some (x_execution_id execution)) ;;
        aid ← _audit subject_id "wallet_payment_execution_retry" actor
          (JObj [("order_id", JStr order_id); ("attempt_number", JInt attempt_number);
                 ("reason", JStr reason)]);
        _transition_order order OSigning actor reason ;;
        now ← utc_now;
        let state := _execution_hash_values_from_row execution XSigning
            (x_tx_hash execution) None no_receipt attempt_number now in
        update_execution (x_execution_id execution) (λ r,
          execution_set XSigning (x_tx_hash r) None no_receipt attempt_number aid now state r) ;;
        insert_signing_attempt (x_execution_id execution) subject_id attempt_number
          request_id now aid ;;
        record ← execution_by_id (x_execution_id execution);
        mret (record, transfer, request_id)
    end).

(** [MAX(nonce)] of the executions that hold a nonce of the address. *)
Definition local_active_nonce (subject_id network_id address : string) (d : wallet_db)
    : option Z :=
  sql_max (map x_nonce (select (λ r, (x_subject_id r == subject_id)
    && (x_network_id r == network_id) && (x_source_address r == address)
    && nonce_indexed r) (executions d))).

Definition choose_nonce (subject_id network_id address : string) (chain_id : Z)
    (nonce : option Z) : W Z :=
  match nonce with
  | Some n => mret n
  | None =>
      n ← rethrow (λ _, WalletExecutionError "wallet nonce authority unavailable")
            (call (λ t, get_pending_nonce t address chain_id));
      raise_if (negb ((0 <=? n) && (n <=? SQLITE_INT64_MAX)))
        (WalletExecutionError "wallet nonce authority returned invalid nonce") ;;
      d ← gets id;
      raise_if (match local_active_nonce subject_id network_id address d with
                | None => false | Some m => n <=? m end)
        (WalletExecutionError "wallet nonce authority is behind local history") ;;
      mret n
  end.

Definition build_transfer (order : order_row) (asset : asset_row) (network : network_row)
    (source : address_row) (nonce gas : Z) (fee : string) : result WalletUnsignedTransfer :=
  build_intent
    {| ti_order_id := o_order_id order; ti_subject_id := o_subject_id order;
       ti_network_id := o_network_id order; ti_asset_id := o_asset_id order;
       ti_asset_type := as_asset_type asset; ti_contract_address := as_contract_address asset;
       ti_source_address := ad_address source;
       ti_recipient_address := o_recipient_address order; ti_amount := o_amount order;
       ti_chain_id := n_chain_id network; ti_nonce := nonce; ti_gas_limit := gas;
       ti_max_fee_per_gas := fee |}.

(** The signer's quote: its own [WalletExecutionError]s pass, any other
    exception becomes one. *)
Definition quote_error (e : exn) : exn :=
  match e with
  | WalletExecutionError _ | WalletRPCError _ | WalletSignerError _
  | WalletBroadcastUnknownError _ => e
  | _ => WalletExecutionError "wallet fee quote unavailable"
  end.
Definition quoted (transfer : WalletUnsignedTransfer) : W (Z * string) :=
  rethrow quote_error (
    q ← call (λ t, get_fee_quote t transfer);
    raise_if (negb ((21000 <=? q.1) && (q.1 <=? _MAX_GAS_LIMIT)))
      (WalletExecutionError "wallet fee quote gas limit is invalid") ;;
    fee ← lift (_uint q.2 "wallet fee quote max fee per gas" true);
    mret (q.1, fee)).

Definition new_execution_row (execution_id subject_id : string) (order : order_row)
    (asset : asset_row) (network : network_row) (source : address_row) (nonce gas : Z)
    (fee request_id request_hash audit_id now : string) : execution_row :=
  let row state_hash :=
    {| x_execution_id := execution_id; x_subject_id := subject_id;
       x_order_id := o_order_id order; x_network_id := o_network_id order;
       x_asset_id := o_asset_id order; x_source_address := ad_address source;
       x_recipient_address := o_recipient_address order; x_asset_type := as_asset_type asset;
       x_contract_address := as_contract_address asset; x_amount := o_amount order;
       x_chain_id := n_chain_id network; x_nonce := nonce; x_gas_limit := gas;
       x_max_fee_per_gas := fee; x_request_id := request_id; x_request_hash := request_hash;
       x_signer_id := signer_id; x_status := XSigning; x_tx_hash := None;
       x_error_code := None; x_receipt := no_receipt; x_attempt_count := 1;
       x_state_hash := state_hash; x_created_audit_id := audit_id;
       x_last_audit_id := audit_id; x_created_at := now; x_updated_at := now |} in
  row (_execution_hash (row EmptyString)).

Definition gas_ok (gas_limit : option Z) : bool :=
  match gas_limit with
  | None => true | Some g => (21000 <=? g) && (g <=? _MAX_GAS_LIMIT)
  end.
Definition nonce_ok (nonce : option Z) : bool :=
  match nonce with None => true | Some n => (0 <=? n) && (n <=? SQLITE_INT64_MAX) end.

(** [_prepare(..., retry_unknown=False)]. *)
Definition prepare_execution (order_id subject_id actor : string) (gas_limit : option Z)
    (max_fee_per_gas : option string) (nonce : option Z) : W prepared :=
  lift (validate_subject_id subject_id) ;;
  raise_if (negb (gas_ok gas_limit)) (ValueError "wallet gas limit is invalid") ;;
  fee ← match max_fee_per_gas with
        | None => mret default_max_fee_per_gas
        | Some f => lift (_uint f "max fee per gas" true)
        end;
  raise_if (negb (nonce_ok nonce)) (ValueError "wallet nonce is invalid") ;;
  transaction (
    order ← _order_row order_id subject_id;
    raise_if (o_status order =/= OReserved)
      (InvalidTransitionError "only reserved orders can execute") ;;
    policy ← authorized_policy order order_id subject_id
               "wallet payment execution is no longer authorized";
    asset ← _asset_row (o_asset_id order) subject_id;
    network ← _network_row (o_network_id order) subject_id;
    raise_if ((as_status asset =/= "active") || (n_status network =/= "active")
        || (as_network_id asset =/= n_network_id network))
      (ValueError "wallet execution references are not active") ;;
    d ← gets id;
    source ← lift (of_option
        (ValueError "wallet spending address must have exactly one active address")
        (_spending_address d subject_id (o_network_id order)));
    raise_if (ad_address source == o_recipient_address order)
      (ValueError "wallet source and recipient must differ") ;;
    nonce_value ← choose_nonce subject_id (o_network_id order) (ad_address source)
                    (n_chain_id network) nonce;
    let gas_value := match gas_limit with
      | Some g => g
      | None => if as_asset_type asset == "native" then 21000 else 100000
      end in
    transfer ← lift (build_transfer order asset network source nonce_value gas_value fee);
    '(gas_value, fee, transfer) ←
      (if bool_decide (gas_limit = None) || bool_decide (max_fee_per_gas = None) then
         q ← quoted transfer;
         let gas_value := match gas_limit with Some _ => gas_value | None => q.1 end in
         let fee := match max_fee_per_gas with Some _ => fee | None => q.2 end in
         transfer ← lift (build_transfer order asset network source nonce_value gas_value fee);
         mret (gas_value, fee, transfer)
       else mret (gas_value, fee, transfer));
    _check_observed_fee_budget subject_id (o_network_id order) (as_asset_type asset)
      (ad_address_id source) (fee_floor order policy) gas_value fee
      (p_max_observation_age_seconds policy) None ;;
    let request_id := request_of order_id 1 in
    execution_id ← new_id "wallet_exec";
    now ← utc_now;
    audit_id ← _audit subject_id "wallet_payment_execution_signing" actor
      (JObj [("order_id", JStr order_id); ("request_id", JStr request_id);
             ("signer_id", JStr signer_id)]);
    _transition_order order OSigning actor "execution started" ;;
    insert_execution (new_execution_row execution_id subject_id order asset network source
      nonce_value gas_value fee request_id (content_hash (transfer_dump transfer))
      audit_id now) ;;
    insert_signing_attempt execution_id subject_id 1 request_id now audit_id ;;
    record ← execution_by_id execution_id;
    mret (record, transfer, request_id)).

(** ** Dispatch *)

(** The checks [authorize] makes right before the signer is called. *)
Definition dispatch_authorized (transfer : WalletUnsignedTransfer) (request_id : string)
    (execution : WalletExecutionRecord) (policy_version : Z) : W bool :=
  found ← gets (_policy_row (xr_subject_id execution));
  order ← _order_row (xr_order_id execution) (xr_subject_id execution);
  current ← get_execution (xr_execution_id execution) (xr_subject_id execution);
  match found with
  | None => mret false
  | Some policy =>
      if negb (p_policy_version policy =? policy_version) then mret false
      else
        policy_hash ← lift (_policy_state_hash_row policy);
        if (p_state_hash policy =/= policy_hash) || (current =/= execution)
           || (xr_status current =/= XSigning)
           || (xr_request_hash current =/= content_hash (transfer_dump transfer))
           || (request_id =/= request_of (xr_order_id execution) (xr_attempt_count execution))
        then mret false
        else _policy_allows order (Some policy) (Some (xr_order_id execution))
  end.

Definition authorize (transfer : WalletUnsignedTransfer) (request_id : string)
    (execution : WalletExecutionRecord) (policy_version : Z) : W unit :=
  assert_current_lease ;;
  allowed ← read_transaction
    (dispatch_authorized transfer request_id execution policy_version);
  raise_if (negb allowed) (WalletDispatchDenied "wallet dispatch authorization changed") ;;
  assert_current_lease.

Definition _sign_and_broadcast (transfer : WalletUnsignedTransfer) (request_id : string)
    (execution : WalletExecutionRecord) (policy_version : Z) : W WalletBroadcastResult :=
  authorize transfer request_id execution policy_version ;;
  call (λ t, sign_and_broadcast t transfer request_id).

Definition _valid_broadcast_result (result : WalletBroadcastResult)
    (transfer : WalletUnsignedTransfer) : bool :=
  (bc_chain_id result =? tr_chain_id transfer) && (bc_nonce result =? tr_nonce transfer)
  && hash_match (bc_tx_hash result)
  && (1 <=? len (strip (bc_accepted_at result))) && (len (strip (bc_accepted_at result)) <=? 128).

Definition signer_reason_codes : list string :=
  ["signer_rejected"; "insufficient_balance"; "gas_too_high"; "nonce_conflict";
   "rpc_unavailable"].
Definition _signer_error_code (reason_code : string) : string :=
  if bool_decide (reason_code ∈ signer_reason_codes) then reason_code else "signer_rejected".

(** What a failed dispatch does; [first] distinguishes [execute_order]
    from [retry_unknown], whose earlier attempts may have been broadcast. *)
Definition dispatch_failed (first : bool) (execution : WalletExecutionRecord)
    (subject_id actor : string) (e : exn) : W WalletExecutionRecord :=
  let eid := xr_execution_id execution in
  let tx := if first then None else xr_tx_hash execution in
  match e with
  | OperationInvalidated _ =>
      _mark_unknown eid subject_id actor tx "dispatch_authorization_changed" ;; raise e
  | WalletDispatchDenied _ =>
      if first then
        _mark_failed eid subject_id actor "dispatch_authorization_changed" None no_receipt
      else _mark_unknown eid subject_id actor tx "dispatch_authorization_changed"
  | WalletBroadcastUnknownError h => _mark_unknown eid subject_id actor h "broadcast_unknown"
  | WalletSignerError code =>
      if first then
        _mark_failed eid subject_id actor (_signer_error_code code) None no_receipt
      else _mark_unknown eid subject_id actor tx (_signer_error_code code)
  | _ => _mark_unknown eid subject_id actor None "signer_transport_unknown"
  end.

Definition is_execution_error (e : exn) : bool :=
  match e with
  | WalletExecutionError _ | WalletRPCError _ | WalletSignerError _
  | WalletBroadcastUnknownError _ => true
  | _ => false
  end.

Definition dispatch (first : bool) (p : prepared) (subject_id actor : string)
    (policy_version : Z) : W WalletExecutionRecord :=
  let '(execution, transfer, request_id) := p in
  let eid := xr_execution_id execution in
  sent ← catch
    (r ← _sign_and_broadcast transfer request_id execution policy_version; mret (inl r))
    (λ e, Some (x ← dispatch_failed first execution subject_id actor e; mret (inr x)));
  match sent with
  | inr record => mret record
  | inl result =>
      if negb (_valid_broadcast_result result transfer) then
        _mark_unknown eid subject_id actor None "signer_response_invalid"
      else
        catch (_mark_broadcast eid subject_id actor result)
          (λ e, if is_execution_error e then
                  Some (_mark_unknown eid subject_id actor (Some (bc_tx_hash result))
                          "signer_response_invalid")
                else None)
  end.

Definition execute_order (order_id subject_id actor : string) (gas_limit : option Z)
    (max_fee_per_gas : option string) (nonce : option Z) : W WalletExecutionRecord :=
  actor ← lift (_operator actor);
  policy ← get_policy subject_id;
  p ← prepare_execution order_id subject_id actor gas_limit max_fee_per_gas nonce;
  dispatch true p subject_id actor (pr_policy_version policy).

(** ** Receipts *)

Definition _expected_effect_hash (execution : WalletExecutionRecord) (tx_hash : string)
    : string :=
  "0x" +:+ content_hash (JObj
    [("tx_hash", JStr (lower tx_hash)); ("chain_id", JInt (xr_chain_id execution));
     ("asset_type", JStr (xr_asset_type execution));
     ("contract_address", JOpt (xr_contract_address execution));
     ("recipient_address", JStr (xr_recipient_address execution));
     ("amount", JStr (xr_amount execution))]).
Definition opt_hash_ok (o : option string) : bool :=
  match o with Some h => hash_match h | None => false end.
(** [_valid_receipt(receipt, replace(execution, tx_hash=tx))]. *)
Definition _valid_receipt (receipt : WalletReceipt) (execution : WalletExecutionRecord)
    (tx : string) : bool :=
  hash_match (wr_tx_hash receipt) && (lower (wr_tx_hash receipt) == lower tx)
  && (wr_chain_id receipt =? xr_chain_id execution)
  && ((wr_status receipt =? 0) || (wr_status receipt =? 1))
  && match wr_block_number receipt with
     | Some n => (0 <=? n) && (n <=? SQLITE_INT64_MAX) | None => false end
  && opt_hash_ok (wr_block_hash receipt)
  && (min_confirmations <=? wr_confirmations receipt)
  && (wr_confirmations receipt <=? SQLITE_INT64_MAX)
  && ((xr_asset_type execution =/= "token") || (wr_status receipt =? 0)
      || match wr_effect_hash receipt with
         | Some h => hash_match h && (lower h == _expected_effect_hash execution tx)
         | None => false
         end).

Definition receipt_error_code (e : exn) : string :=
  match e with
  | WalletRPCError code => code
  | WalletSignerError code =>
      if _signer_error_code code == "signer_rejected" then "reconcile_required"
      else _signer_error_code code
  | WalletExecutionError msg =>
      if bool_decide (lower msg ∈ ["wallet signer receipt lookup failed";
           "local wallet rpc request failed"; "local wallet rpc deadline exceeded"])
      then "rpc_unavailable" else "reconcile_required"
  | _ => "reconcile_required"
  end.

Fixpoint find_receipt (execution : WalletExecutionRecord) (hashes : list string)
    (error : option string) : W (option WalletReceipt * option string) :=
  match hashes with
  | [] => mret (None, error)
  | tx :: rest =>
      answer ← catch
        (r ← call (λ t, get_receipt t tx (xr_chain_id execution)); mret (inl r))
        (λ e, Some (mret (inr (receipt_error_code e))));
      match answer with
      | inr code => find_receipt execution rest (Some code)
      | inl None => find_receipt execution rest error
      | inl (Some receipt) =>
          if _valid_receipt receipt execution tx then mret (Some receipt, None)
          else find_receipt execution rest (Some "reconcile_required")
      end
  end.

(** [dict.fromkeys]: insertion order, no duplicates. *)
Definition add_key (k : string) (l : list string) : list string :=
  if bool_decide (k ∈ l) then l else l ++ [k].
Fixpoint attempt_hashes (rows : list attempt_row) (hashes : list string)
    : result (list string) :=
  match rows with
  | [] => Ok hashes
  | row :: rest =>
      if t_state_hash row =/= _attempt_hash row then
        Raise (IntegrityError "wallet execution attempt hash mismatch")
      else
        match t_tx_hash row with
        | None => attempt_hashes rest hashes
        | Some h => t ← _tx_hash h; attempt_hashes rest (add_key t hashes)
        end
  end.
Definition _lookup_receipt (execution : WalletExecutionRecord)
    : W (option WalletReceipt * option string) :=
  hashes ← read_transaction (
    d ← gets id;
    let rows := take 32 (sort_by (λ x y, t_attempt_number y <=? t_attempt_number x)
      (select (λ a, (t_execution_id a == xr_execution_id execution)
         && (t_subject_id a == xr_subject_id execution)) (attempts d))) in
    lift (attempt_hashes rows
      match xr_tx_hash execution with Some h => [h] | None => [] end));
  find_receipt execution hashes None.

Definition settle_receipt (execution_id subject_id actor : string) (receipt : WalletReceipt)
    : W WalletExecutionRecord :=
  if wr_status receipt =? 1 then _mark_confirmed execution_id subject_id actor receipt
  else _mark_failed execution_id subject_id actor "receipt_failed"
         (Some (wr_tx_hash receipt)) (receipt_of receipt 0).

Definition retry_unknown (order_id subject_id actor reason : string)
    : W WalletExecutionRecord :=
  let reason := strip reason in
  raise_if ((reason == EmptyString) || (2000 <? len reason))
    (ValueError "unknown retry reason is invalid") ;;
  actor ← lift (_operator actor);
  policy ← get_policy subject_id;
  existing ← _order_execution order_id subject_id;
  receipt ← match existing with
            | None => mret None
            | Some e => r ← _lookup_receipt e; mret ((λ x, (e, x)) <$> r.1)
            end;
  match receipt with
  | Some (e, receipt) => settle_receipt (xr_execution_id e) subject_id actor receipt
  | None =>
      p ← prepare_retry order_id subject_id actor reason;
      dispatch false p subject_id actor (pr_policy_version policy)
  end.

(** A malformed time is not a timeout. *)
Definition _confirmation_timed_out (execution : WalletExecutionRecord) : W bool :=
  if confirmation_timeout_seconds =? 0 then mret true
  else
    now_text ← self_clock;
    mret match fromisoformat (xr_updated_at execution), fromisoformat now_text with
         | Some (l1, Some o1), Some (l2, Some o2) =>
             confirmation_timeout_seconds * 1000000 <=? (l2 - o2) - (l1 - o1)
         | Some (l1, None), Some (l2, None) =>
             confirmation_timeout_seconds * 1000000 <=? l2 - l1
         | _, _ => false
         end.

Definition poll_receipt (execution_id subject_id actor : string) : W WalletExecutionRecord :=
  actor ← lift (_operator actor);
  execution ← get_execution execution_id subject_id;
  if negb (bool_decide (xr_status execution ∈ [XBroadcast; XUnknown])) then mret execution
  else
    r ← _lookup_receipt execution;
    match r with
    | (None, Some error) =>
        if xr_status execution == XUnknown then mret execution
        else _mark_unknown execution_id subject_id actor (xr_tx_hash execution) error
    | (None, None) =>
        if xr_status execution == XBroadcast then
          late ← _confirmation_timed_out execution;
          if (late : bool) then
            _mark_unknown execution_id subject_id actor (xr_tx_hash execution)
              "confirmation_timeout"
          else mret execution
        else mret execution
    | (Some receipt, _) => settle_receipt execution_id subject_id actor receipt
    end.
End engine.
