(* ===== verification/WalletIntegrity.v ===== *)
(** * Ledger balances and the offline check of the economy tables
    ([src/src/noyra/wallet/economy.py])

    [ledger_balances], and [verify_integrity]: the policy row is decoded
    and validated again, every hash is recomputed, and the journals are
    checked by one pass over the join of journals, orders and entries. *)

From S2P Require Import Prelude Tables PyStr Json Digest Time WalletTypes WalletDb.
From S2P Require Import WalletEconomy WalletOrders WalletSubmissions WalletExecution.
Local Open Scope Z_scope.

Section integrity.
Context {Dg : Digest} {En : Env}.

(** ** Balances *)

Record LedgerBalance := {
  lb_account : Account; lb_debit : string; lb_credit : string; lb_net : string;
  lb_network_id : string; lb_asset_id : string;
}.

(** Rows of the join: an entry with the network and asset of its journal. *)
Definition ledger_rows (d : wallet_db) (subject_id : string)
    (network_id asset_id : option string) : list (entry_row * journal_row) :=
  flat_map (λ e, map (λ j, (e, j))
      (select (λ j, (j_journal_id j == e_journal_id e)
          && match network_id with Some n => (n == EmptyString) || (j_network_id j == n)
                                 | None => true end
          && match asset_id with Some a => (a == EmptyString) || (j_asset_id j == a)
                               | None => true end) (journals d)))
    (select (λ e, e_subject_id e == subject_id) (entries d)).

Definition ledger_key : Type := string * string * Account.
Definition account_leb (a b : Account) : bool := str_leb (account_text a) (account_text b).
Definition key_le (a b : ledger_key) : bool :=
  let '(n1, a1, c1) := a in
  let '(n2, a2, c2) := b in
  str_ltb n1 n2 || ((n1 == n2) && (str_ltb a1 a2 || ((a1 == a2) && account_leb c1 c2))).

(** [totals.setdefault(key, {...})[direction] += amount]. *)
Fixpoint add_total (k : ledger_key) (dir : Direction) (v : Z)
    (totals : list (ledger_key * (Z * Z))) : list (ledger_key * (Z * Z)) :=
  let add '(debit, credit) :=
    match dir with Debit => (debit + v, credit) | Credit => (debit, credit + v) end in
  match totals with
  | [] => [(k, add (0, 0))]
  | (k', t) :: rest =>
      if k' == k then (k', add t) :: rest else (k', t) :: add_total k dir v rest
  end.
Fixpoint ledger_totals (rows : list (entry_row * journal_row))
    (totals : list (ledger_key * (Z * Z))) : result (list (ledger_key * (Z * Z))) :=
  match rows with
  | [] => Ok totals
  | (e, j) :: rest =>
      v ← int_of (e_amount e);
      ledger_totals rest
        (add_total (j_network_id j, j_asset_id j, e_account e) (e_direction e) v totals)
  end.
Definition balance_of (kt : ledger_key * (Z * Z)) : LedgerBalance :=
  let '((network, asset, account), (debit, credit)) := kt in
  {| lb_account := account; lb_debit := show_Z debit; lb_credit := show_Z credit;
     lb_net := show_Z (debit - credit); lb_network_id := network; lb_asset_id := asset |}.
Definition ledger_balances (subject_id : string) (network_id asset_id : option string)
    : W (list LedgerBalance) :=
  lift (validate_subject_id subject_id) ;;
  d ← gets id;
  totals ← lift (ledger_totals (ledger_rows d subject_id network_id asset_id) []);
  mret (map balance_of (sort_by (λ x y, key_le x.1 y.1) totals)).

(** ** The policy row *)

Definition json_strs (v : json) : result (list string) :=
  match v with
  | JList l => mapM_result (λ x, match x with
                                 | JStr s => Ok s
                                 | _ => Raise (ValueError "Input should be a valid string")
                                 end) l
  | _ => Raise (ValueError "Input should be a valid tuple")
  end.
Definition bit (z : Z) : bool := (z =? 0) || (z =? 1).

(** [PaymentPolicyInput.model_validate] of the row, and its hash. *)
Definition policy_input_of_row (policy : policy_row) : result PaymentPolicyInput :=
  nets ← strict_json_loads (p_allowed_network_ids_json policy); nets ← json_strs nets;
  asts ← strict_json_loads (p_allowed_asset_ids_json policy); asts ← json_strs asts;
  rcps ← strict_json_loads (p_allowed_recipient_addresses_json policy);
  rcps ← json_strs rcps;
  Ok {| pi_mode := p_mode policy; pi_allowed_network_ids := nets;
        pi_allowed_asset_ids := asts; pi_per_order_limit := p_per_order_limit policy;
        pi_daily_limit := p_daily_limit policy; pi_monthly_limit := p_monthly_limit policy;
        pi_daily_order_limit := p_daily_order_limit policy;
        pi_monthly_order_limit := p_monthly_order_limit policy;
        pi_min_balance := p_min_balance policy;
        pi_max_observation_age_seconds := p_max_observation_age_seconds policy;
        pi_automatic_max_amount := p_automatic_max_amount policy;
        pi_anomaly_block := negb (p_anomaly_block policy =? 0);
        pi_emergency_paused := negb (p_emergency_paused policy =? 0);
        pi_automation_enabled := Some (negb (p_automation_enabled policy =? 0));
        pi_recipient_allowlist_enabled := negb (p_recipient_allowlist_enabled policy =? 0);
        pi_allowed_recipient_addresses := rcps |}.
Definition policy_hash_of (policy : policy_row) : result string :=
  _ ← check ((1 <=? p_policy_version policy) && bit (p_anomaly_block policy)
             && bit (p_emergency_paused policy) && bit (p_recipient_allowlist_enabled policy))
        "invalid wallet policy version or flags";
  input ← policy_input_of_row policy;
  _ ← validate_PaymentPolicyInput input;
  _policy_state_hash_row policy.
Definition check_policy (d : wallet_db) (subject_id : string) : result unit :=
  match _policy_row subject_id d with
  | None => Raise (IntegrityError ("wallet payment policy is missing: " +:+ subject_id))
  | Some policy =>
      match policy_hash_of policy with
      | Raise _ =>
          Raise (IntegrityError ("wallet payment policy is malformed: " +:+ subject_id))
      | Ok policy_hash =>
          if p_state_hash policy =/= policy_hash then
            Raise (IntegrityError ("wallet payment policy hash mismatch: " +:+ subject_id))
          else Ok tt
      end
  end.

(** ** Row hashes *)

Definition check_bounty (row : bounty_row) : result unit :=
  if b_state_hash row =/= _bounty_state_hash_row row (b_status row) then
    Raise (IntegrityError ("wallet bounty hash mismatch: " +:+ b_bounty_id row))
  else Ok tt.
Definition check_submission (row : submission_row) : result unit :=
  h ← _submission_state_hash_row row (s_status row) (s_decision_reason row);
  if s_state_hash row =/= h then
    Raise (IntegrityError ("wallet submission hash mismatch: " +:+ s_submission_id row))
  else Ok tt.
Definition check_order (row : order_row) : result unit :=
  if o_state_hash row =/= _order_state_hash_row row (o_status row) None None then
    Raise (IntegrityError ("wallet payment order hash mismatch: " +:+ o_order_id row))
  else Ok tt.

(** ** The journals: one pass over the join *)

Definition expected_accounts (t : JournalType) : list (Account * Direction) :=
  match t with
  | JReservation => [(AAvailable, Debit); (AReserved, Credit)]
  | JRelease => [(AReserved, Debit); (AReleased, Credit)]
  | JSettlement => [(AReserved, Debit); (APaid, Credit)]
  | JRefund => [(AReserved, Debit); (AReleased, Credit)]
  end.
Definition same_set (a b : list (Account * Direction)) : bool :=
  forallb (λ x, bool_decide (x ∈ b)) a && forallb (λ x, bool_decide (x ∈ a)) b.

Definition _amount_int (value : string) : result Z :=
  a ← canonical_amount value; int_of a.

(** The local variables of the loop. *)
Record journal_state := {
  journal_count : Z; entry_count : Z; current_journal_id : option string;
  current_entry_count : Z; current_debit : Z; current_credit : Z;
  current_accounts : list (Account * Direction); current_amount : Z;
  current_type : JournalType;
}.

Definition finish_journal (st : journal_state) : result unit :=
  match current_journal_id st with
  | None => Ok tt
  | Some jid =>
      if negb (current_entry_count st =? 2)
         || negb (current_debit st =? current_credit st) then
        Raise (IntegrityError ("wallet ledger journal is unbalanced: " +:+ jid))
      else if negb (same_set (current_accounts st) (expected_accounts (current_type st))) then
        Raise (IntegrityError ("wallet ledger journal accounts are invalid: " +:+ jid))
      else if negb (current_debit st =? current_amount st)
           || negb (current_credit st =? current_amount st) then
        Raise (IntegrityError ("wallet ledger journal amount is inconsistent: " +:+ jid))
      else Ok tt
  end.

(** The checks made when a new journal starts; returns its amount. *)
Definition journal_header (subject_id : string) (j : journal_row) (o : option order_row)
    : result Z :=
  let jid := j_journal_id j in
  match _amount_int (j_amount j) with
  | Raise _ => Raise (IntegrityError ("wallet ledger amount is invalid: " +:+ jid))
  | Ok amount =>
      if amount <=? 0 then
        Raise (IntegrityError ("wallet ledger amount is invalid: " +:+ jid))
      else if j_subject_id j =/= subject_id then
        Raise (IntegrityError ("wallet ledger journal subject mismatch: " +:+ jid))
      else
        match o with
        | None => Raise (IntegrityError ("wallet ledger order reference is missing: " +:+ jid))
        | Some o =>
            if (o_order_id o =/= j_order_id j) then
              Raise (IntegrityError ("wallet ledger order reference is missing: " +:+ jid))
            else if (o_subject_id o =/= subject_id) || (o_network_id o =/= j_network_id j)
                 || (o_asset_id o =/= j_asset_id j) || (o_amount o =/= j_amount j) then
              Raise (IntegrityError ("wallet ledger order reference mismatch: " +:+ jid))
            else
              match wallet_journal_hash jid (j_subject_id j) (j_order_id j) (j_network_id j)
                      (j_asset_id j) (j_journal_type j) (j_amount j) (j_created_at j) with
              | Raise _ =>
                  Raise (IntegrityError ("wallet ledger journal is malformed: " +:+ jid))
              | Ok h =>
                  if j_state_hash j =/= h then
                    Raise (IntegrityError ("wallet ledger journal hash mismatch: " +:+ jid))
                  else Ok amount
              end
        end
  end.

(** The checks of one entry; returns its amount. *)
Definition journal_entry (subject_id : string) (j : journal_row) (e : entry_row) : result Z :=
  let jid := j_journal_id j in
  if (e_journal_id e =/= jid) || (e_subject_id e =/= subject_id)
     || (e_order_id e =/= j_order_id j) || (e_amount e =/= j_amount j)
     || (e_created_at e =/= j_created_at j) then
    Raise (IntegrityError ("wallet ledger entry reference mismatch: " +:+ jid))
  else
    match wallet_entry_hash (e_entry_id e) jid (e_subject_id e) (e_order_id e) (e_account e)
            (e_direction e) (e_amount e) (e_created_at e) with
    | Raise _ =>
        Raise (IntegrityError ("wallet ledger entry is malformed: " +:+ e_entry_id e))
    | Ok h =>
        if e_state_hash e =/= h then
          Raise (IntegrityError ("wallet ledger entry hash mismatch: " +:+ e_entry_id e))
        else
          match _amount_int (e_amount e) with
          | Raise _ => Raise (IntegrityError
                         ("wallet ledger entry amount is invalid: " +:+ e_entry_id e))
          | Ok amount => Ok amount
          end
    end.

Definition start_journal (st : journal_state) (j : journal_row) (amount : Z) : journal_state :=
  {| journal_count := journal_count st + 1; entry_count := entry_count st;
     current_journal_id := Some (j_journal_id j); current_entry_count := 0;
     current_debit := 0; current_credit := 0; current_accounts := [];
     current_amount := amount; current_type := j_journal_type j |}.
Definition add_entry (st : journal_state) (e : entry_row) (amount : Z) : journal_state :=
  {| journal_count := journal_count st; entry_count := entry_count st + 1;
     current_journal_id := current_journal_id st;
     current_entry_count := current_entry_count st + 1;
     current_debit := current_debit st
       + match e_direction e with Debit => amount | Credit => 0 end;
     current_credit := current_credit st
       + match e_direction e with Debit => 0 | Credit => amount end;
     current_accounts := (e_account e, e_direction e) :: current_accounts st;
     current_amount := current_amount st; current_type := current_type st |}.

Definition history_row : Type := journal_row * option order_row * option entry_row.

Definition journal_step (subject_id : string) (st : journal_state) (row : history_row)
    : result journal_state :=
  let '(j, o, e) := row in
  st ← (if current_journal_id st == Some (j_journal_id j) then Ok st
        else
          _ ← finish_journal st;
          amount ← journal_header subject_id j o;
          Ok (start_journal st j amount));
  match e with
  | None => Ok st
  | Some e => amount ← journal_entry subject_id j e; Ok (add_entry st e amount)
  end.
Fixpoint journal_loop (subject_id : string) (st : journal_state) (rows : list history_row)
    : result journal_state :=
  match rows with
  | [] => Ok st
  | row :: rest => st' ← journal_step subject_id st row; journal_loop subject_id st' rest
  end.

(** [LEFT JOIN]: one row with no partner when nothing matches. *)
Definition left_join {A} (matches : list A) : list (option A) :=
  match matches with [] => [None] | l => map Some l end.
(** The history query, ordered by the journal's time and identifier. *)
Definition history_of (d : wallet_db) (j : journal_row) : list history_row :=
  flat_map (λ o, map (λ e, (j, o, e))
                   (left_join (select (λ e, e_journal_id e == j_journal_id j) (entries d))))
    (left_join (select (λ o, o_order_id o == j_order_id j) (orders d))).
Definition journals_in_order (d : wallet_db) (subject_id : string) : list journal_row :=
  sort_by (λ x y, str_ltb (j_created_at x) (j_created_at y)
             || ((j_created_at x == j_created_at y)
                 && str_leb (j_journal_id x) (j_journal_id y)))
    (select (λ j, j_subject_id j == subject_id) (journals d)).
Definition history (d : wallet_db) (subject_id : string) : list history_row :=
  flat_map (history_of d) (journals_in_order d subject_id).

Definition initial_state : journal_state :=
  {| journal_count := 0; entry_count := 0; current_journal_id := None;
     current_entry_count := 0; current_debit := 0; current_credit := 0;
     current_accounts := []; current_amount := 0; current_type := JReservation |}.

Definition verify_journals (d : wallet_db) (subject_id : string) : result journal_state :=
  st ← journal_loop subject_id initial_state (history d subject_id);
  _ ← finish_journal st;
  Ok st.

(** An entry of the subject whose journal is missing or is not its own. *)
Definition orphan (d : wallet_db) (subject_id : string) (e : entry_row) : bool :=
  (e_subject_id e == subject_id)
  && existsb (λ j, match j with
                   | None => true
                   | Some j => (j_subject_id j =/= subject_id)
                               || (j_order_id j =/= e_order_id e)
                   end)
       (left_join (select (λ j, j_journal_id j == e_journal_id e) (journals d))).

Record economy_counts := {
  n_bounties : Z; n_submissions : Z; n_orders : Z; n_journals : Z; n_entries : Z;
}.

Definition economy_check (d : wallet_db) (subject_id : string) : result economy_counts :=
  let bs := select (λ r, b_subject_id r == subject_id) (bounties d) in
  let ss := select (λ r, s_subject_id r == subject_id) (submissions d) in
  let os := select (λ r, o_subject_id r == subject_id) (orders d) in
  let es := select (λ r, e_subject_id r == subject_id) (entries d) in
  _ ← check_policy d subject_id;
  _ ← check_all check_bounty bs;
  _ ← check_all check_submission ss;
  _ ← check_all check_order os;
  st ← verify_journals d subject_id;
  match fetchone (orphan d subject_id) (entries d) with
  | Some e => Raise (IntegrityError ("wallet ledger entry has invalid journal: "
                                     +:+ e_entry_id e))
  | None =>
      if negb (entry_count st =? Z.of_nat (length es)) then
        Raise (IntegrityError "wallet ledger entry count is inconsistent")
      else
        Ok {| n_bounties := Z.of_nat (length bs); n_submissions := Z.of_nat (length ss);
              n_orders := Z.of_nat (length os); n_journals := journal_count st;
              n_entries := entry_count st |}
  end.

Definition verify_integrity (subject_id : string) : W economy_counts :=
  lift (validate_subject_id subject_id) ;;
  read_transaction (d ← gets id; lift (economy_check d subject_id)).
End integrity.
