(* ===== verification/WalletEffects.v ===== *)
(** * What the wallet transactions do to the tables

    A successful transaction is described by the rows it adds and the rows
    it rewrites.  The lemmas of this file read those descriptions off the
    code: [audited], [moved], [posted], ... are the effects of the shared
    helpers, and [tx] lists the shapes of whole transactions. *)

From S2P Require Import Prelude Tables PyStr Json Digest Time WalletTypes WalletTransfer WalletDb.
From S2P Require Import WalletEconomy WalletOrders WalletSubmissions WalletExecution WalletEngine.
Local Open Scope Z_scope.

Section effects.
Context {Dg : Digest} {En : Env}.

(** Primary keys are unique. *)
Record keys (d : wallet_db) : Prop := {
  k_bounties : NoDup (map b_bounty_id (bounties d));
  k_submissions : NoDup (map s_submission_id (submissions d));
  k_orders : NoDup (map o_order_id (orders d));
  k_executions : NoDup (map x_execution_id (executions d));
  k_attempts : NoDup (map t_attempt_id (attempts d));
}.

(** An audit record of the subject is appended. *)
Definition audited (sid aid : string) (d d' : wallet_db) : Prop :=
  ∃ a, a_audit_id a = aid ∧ a_subject_id a = sid ∧ d' = set_audits (append_row a) d.

(** The row [_transition_order] writes for [row]. *)
Definition moved_row (row : order_row) (target : PaymentOrderStatus) (now aid : string)
    : order_row :=
  let authorized_at := if target == OReserved then Some now else o_authorized_at row in
  order_set_status target authorized_at now aid
    (_order_state_hash_row row target authorized_at (Some now)) row.

Definition moved (row : order_row) (target : PaymentOrderStatus) (d d' : wallet_db) : Prop :=
  row ∈ orders d ∧ target ∈ _ORDER_TRANSITIONS (o_status row) ∧
  ∃ now aid d1, audited (o_subject_id row) aid d d1 ∧
    d' = set_orders (replace_row o_order_id row (moved_row row target now aid)) d1.

(** A journal of the order with its two entries is appended. *)
Record journal_for (row : order_row) (t : JournalType) (j : journal_row) : Prop := {
  jf_subject : j_subject_id j = o_subject_id row;
  jf_order : j_order_id j = o_order_id row;
  jf_network : j_network_id j = o_network_id row;
  jf_asset : j_asset_id j = o_asset_id row;
  jf_type : j_journal_type j = t;
  jf_amount : j_amount j = o_amount row;
  jf_hash : wallet_journal_hash (j_journal_id j) (j_subject_id j) (j_order_id j)
      (j_network_id j) (j_asset_id j) (j_journal_type j) (j_amount j) (j_created_at j)
    = Ok (j_state_hash j);
}.
Record entry_for (j : journal_row) (side : Account * Direction) (e : entry_row) : Prop := {
  ef_journal : e_journal_id e = j_journal_id j;
  ef_subject : e_subject_id e = j_subject_id j;
  ef_order : e_order_id e = j_order_id j;
  ef_side : (e_account e, e_direction e) = side;
  ef_amount : e_amount e = j_amount j;
  ef_created : e_created_at e = j_created_at j;
  ef_hash : wallet_entry_hash (e_entry_id e) (e_journal_id e) (e_subject_id e) (e_order_id e)
      (e_account e) (e_direction e) (e_amount e) (e_created_at e)
    = Ok (e_state_hash e);
}.
(** The two sides the code posts for each kind of journal. *)
Definition sides (t : JournalType) : (Account * Direction) * (Account * Direction) :=
  match t with
  | JReservation => ((AAvailable, Debit), (AReserved, Credit))
  | JRelease => ((AReserved, Debit), (AReleased, Credit))
  | JSettlement => ((AReserved, Debit), (APaid, Credit))
  | JRefund => ((AReserved, Debit), (AReleased, Credit))
  end.
Definition posted (row : order_row) (t : JournalType) (d d' : wallet_db) : Prop :=
  ∃ j e1 e2,
    journal_for row t j ∧ entry_for j (sides t).1 e1 ∧ entry_for j (sides t).2 e2 ∧
    (∀ x, x ∈ journals d → ¬ (j_order_id x = o_order_id row ∧ j_journal_type x = t)) ∧
    (∀ x, x ∈ journals d → j_journal_id x ≠ j_journal_id j) ∧
    (∀ x, x ∈ entries d → e_entry_id x ≠ e_entry_id e1) ∧
    (∀ x, x ∈ entries d → e_entry_id x ≠ e_entry_id e2) ∧ e_entry_id e1 ≠ e_entry_id e2 ∧
    d' = set_entries (append_row e2) (set_entries (append_row e1)
           (set_journals (append_row j) d)).

Lemma exists_none {R} (p : R → bool) t :
  negb (exists_where p t) = true → ∀ r, r ∈ t → p r = false.
Proof. by rewrite negb_true_iff exists_where_false. Qed.
Lemma ok_constraint b msg w u w' : ok (constraint b msg) w u w' → b = true ∧ w = w'.
Proof. unfold constraint. intros [?%negb_false_iff ?]%ok_raise_if. done. Qed.

Lemma pure_new_id prefix : pure (new_id prefix).
Proof. unfold new_id. solve_pure. Qed.
Lemma audit_effect sid action actor payload w aid w' :
  ok (_audit sid action actor payload) w aid w' → audited sid aid (db w) (db w').
Proof.
  unfold _audit, new_id, utc_now, insert_audit. intros H. invert_ok.
  repeat match goal with H : ok (constraint _ _) _ _ _ |- _ =>
    apply ok_constraint in H as [? ?]; subst end. simpl in *.
  by eexists; split_and!; [..|reflexivity].
Qed.

Lemma transition_order_effect row target actor reason w u w' :
  NoDup (map o_order_id (orders (db w))) → row ∈ orders (db w) →
  ok (_transition_order row target actor reason) w u w' →
  moved row target (db w) (db w').
Proof.
  intros Hk Hr.
  unfold _transition_order, self_clock, update_order. intros H.
  apply ok_bind in H as ([] & w0 & [Ht <-]%ok_raise_if & H).
  apply ok_bind in H as (now & w1 & [-> ->]%ok_read_clock & H).
  apply ok_bind in H as (aid & w2 & Ha%audit_effect & H). simpl in *.
  apply ok_bind in H as (d & w3 & [<- <-]%ok_gets & H).
  apply ok_bind in H as (? & w4 & [Hc <-]%ok_constraint & ->%ok_modify).
  split_and!; [done|by apply negb_false_iff, bool_decide_eq_true_1 in Ht|].
  eexists _, aid, (db w2); split; [done|]. destruct Ha as (a & _ & _ & ->).
  unfold set_orders. simpl. f_equal. by apply (update_key_replace o_order_id).
Qed.

Lemma post_entry_effect row jid now side w u w' :
  ok (post_entry row jid now side) w u w' →
  ∃ e, e_journal_id e = jid ∧ e_subject_id e = o_subject_id row ∧
    e_order_id e = o_order_id row ∧ (e_account e, e_direction e) = side ∧
    e_amount e = o_amount row ∧ e_created_at e = now ∧
    wallet_entry_hash (e_entry_id e) (e_journal_id e) (e_subject_id e) (e_order_id e)
      (e_account e) (e_direction e) (e_amount e) (e_created_at e) = Ok (e_state_hash e) ∧
    (∀ x, x ∈ entries (db w) → e_entry_id x ≠ e_entry_id e) ∧
    db w' = set_entries (append_row e) (db w).
Proof.
  unfold post_entry, new_id, insert_entry, entry_unique. intros H. invert_ok.
  repeat match goal with H : ok (constraint _ _) _ _ _ |- _ =>
    apply ok_constraint in H as [? ?]; subst end. simpl in *.
  eexists; split_and!; [..|reflexivity]; simpl; try done; [by destruct side|].
  intros x' Hx E. match goal with H : negb _ && _ = true |- _ =>
    apply andb_true_iff in H as [H _]; eapply exists_none in Hx; [|exact H] end.
  by apply bool_decide_eq_false in Hx.
Qed.

Lemma post_journal_effect row t w u w' :
  ok (_post_order_journal row t (sides t).1 (sides t).2) w u w' → posted row t (db w) (db w').
Proof.
  unfold _post_order_journal, self_clock, insert_journal. intros H.
  apply ok_bind in H as (ex & w0 & [<- <-]%ok_gets & H).
  apply ok_bind in H as ([] & w0 & [Hex <-]%ok_raise_if & H).
  apply ok_bind in H as (now & w1 & [-> ->]%ok_read_clock & H).
  apply ok_bind in H as (jid & w2 & Hj%pure_new_id & H).
  apply ok_bind in H as (jh & w3 & [Hjh <-]%ok_lift & H).
  apply ok_bind in H as (u1 & w4 & Hins & H).
  apply ok_bind in H as (u2 & w5 & (e1 & ? & ? & ? & ? & ? & ? & ? & Hf1 & Hd1)%post_entry_effect
    & (e2 & ? & ? & ? & ? & ? & ? & ? & Hf2 & Hd2)%post_entry_effect).
  apply ok_bind in Hins as (d & w6 & [<- <-]%ok_gets & Hins).
  apply ok_bind in Hins as (? & w7 & [_ <-]%ok_constraint & Hins).
  apply ok_bind in Hins as (? & w8 & [HU <-]%ok_constraint & ->%ok_modify).
  apply andb_true_iff in HU as [HU _]. simpl in *. rewrite Hj in Hd1 Hf1 HU.
  eexists _, e1, e2. split_and!; [..|by rewrite Hd2 Hd1].
  - by split; simpl.
  - split; simpl; congruence.
  - split; simpl; congruence.
  - intros y Hy [E1 E2]. rewrite -> exists_where_false in Hex. specialize (Hex y Hy).
    simpl in Hex. by rewrite E1 E2 !bool_decide_true in Hex.
  - intros y Hy E. eapply exists_none in Hy; [|exact HU].
    by apply bool_decide_eq_false in Hy.
  - intros y Hy. by apply Hf1.
  - intros y Hy. apply Hf2. rewrite Hd1. simpl. apply elem_of_append; by left.
  - apply Hf2. rewrite Hd1. simpl. apply elem_of_append; by right.
Qed.

(** ** Rewriting a bounty or a submission *)

Definition bounty_moved (row : bounty_row) (target : BountyStatus) (d d' : wallet_db) : Prop :=
  row ∈ bounties d ∧
  ∃ now aid d1, audited (b_subject_id row) aid d d1 ∧
    let row' := bounty_set_status target (_bounty_state_hash_row row target) aid now row in
    bounty_trigger_ok row row' = true ∧
    d' = set_bounties (replace_row b_bounty_id row row') d1.

Lemma set_bounty_status_effect row target reason actor w u w' :
  NoDup (map b_bounty_id (bounties (db w))) → row ∈ bounties (db w) →
  ok (_set_bounty_status row target reason actor) w u w' →
  bounty_moved row target (db w) (db w').
Proof.
  intros Hk Hr. unfold _set_bounty_status, self_clock, update_bounty. intros H.
  apply ok_bind in H as (now & w1 & [-> ->]%ok_read_clock & H).
  apply ok_bind in H as (aid & w2 & Ha%audit_effect & H). simpl in *.
  apply ok_bind in H as (d & w3 & [<- <-]%ok_gets & H).
  apply ok_bind in H as (? & w4 & [Hc <-]%ok_constraint & ->%ok_modify).
  split; [done|]. eexists _, aid, (db w2). split; [done|].
  destruct Ha as (a & _ & _ & E). rewrite -> E in *. simpl in *. split.
  - rewrite (select_key_singleton b_bounty_id) // in Hc. simpl in Hc.
    by rewrite andb_true_r in Hc.
  - unfold set_bounties. simpl. f_equal. by apply (update_key_replace b_bounty_id).
Qed.

Definition decided (row : submission_row) (target : SubmissionStatus) (reason : string)
    (d d' : wallet_db) : Prop :=
  row ∈ submissions d ∧
  ∃ now aid h d1, audited (s_subject_id row) aid d d1 ∧
    _submission_state_hash_row row target (Some reason) = Ok h ∧
    d' = set_submissions (replace_row s_submission_id row
           (submission_decide target reason now aid h row)) d1.

(** ** Orders *)

Definition reserved (row : order_row) (d d' : wallet_db) : Prop :=
  ∃ d1, moved row OReserved d d1 ∧ posted row JReservation d1 d'.

(** [_ensure_order] of a submission that has no order yet. *)
Definition placed (sub : SubmissionRecord) (d d' : wallet_db) : Prop :=
  ∃ oid b now aid d1,
    let row := new_order_row oid sub b (_policy_row (sr_subject_id sub) d) aid now in
    let d2 := set_orders (append_row row) d1 in
    (∀ o, o ∈ orders d → o_submission_id o ≠ sr_submission_id sub) ∧
    bounty_by_id (sr_bounty_id sub) d = Some b ∧
    audited (sr_subject_id sub) aid d d1 ∧
    order_check row = true ∧ order_unique (orders d) row = true ∧
    (moved row ORejected d2 d' ∨
     (o_payment_mode row = MConditional ∧ moved row OAwaitingConfirmation d2 d') ∨
     (o_payment_mode row = MAutomatic ∧ reserved row d2 d')).

(** ** Executions *)

(** The ways an execution [x] and its order [o] are marked: the new
    statuses, the journal posted, the error and receipt columns written,
    and the error and receipt that go into the new state hash. *)
Inductive mark_case (x : execution_row) (o : order_row) :
  ExecutionStatus → PaymentOrderStatus → option JournalType →
  option string → receipt_columns → option string → receipt_columns → Prop :=
| mc_broadcast : o_status o = OSigning →
    mark_case x o XBroadcast OBroadcast None (x_error_code x) (x_receipt x) None no_receipt
| mc_unknown code : o_status o ∈ [OSigning; OBroadcast] →
    mark_case x o XUnknown OUnknown None (Some code) (x_receipt x) (Some code) no_receipt
| mc_failed code rc : o_status o ∈ [OSigning; OBroadcast; OUnknown] →
    mark_case x o XFailed OFailed None (Some code) rc (Some code) rc
| mc_confirmed rc : o_status o ∈ [OBroadcast; OUnknown] →
    mark_case x o XConfirmed OConfirmed (Some JSettlement) None rc None rc
| mc_reconcile code : x_status x = XConfirmed → o_status o = OConfirmed →
    mark_case x o XUnknown OUnknown None (Some code) (x_receipt x) (Some code) (x_receipt x)
| mc_recover code : x_status x = XSigning → o_status o = OSigning →
    mark_case x o XUnknown OUnknown None (Some code) no_receipt (Some code) no_receipt.

Definition posted_opt (row : order_row) (t : option JournalType) (d d' : wallet_db) : Prop :=
  match t with None => d' = d | Some t => posted row t d d' end.

Definition marked_execution (x : execution_row) (xs : ExecutionStatus) (tx err : option string)
    (rc : receipt_columns) (herr : option string) (hrc : receipt_columns) (aid now : string)
    : execution_row :=
  execution_set xs tx err rc (x_attempt_count x) aid now
    (_execution_hash_values_from_row x xs tx herr hrc (x_attempt_count x) now) x.
Definition finished_attempt (t : attempt_row) (xs : ExecutionStatus) (tx err : option string)
    (now : string) : attempt_row :=
  attempt_set xs tx err (Some now)
    (_attempt_hash_values (t_attempt_id t) (t_execution_id t) (t_subject_id t)
       (t_attempt_number t) (t_request_id t) xs tx err (t_started_at t) (Some now)) t.
Definition signing_attempt (tid eid sid : string) (n : Z) (request now aid : string)
    : attempt_row :=
  {| t_attempt_id := tid; t_execution_id := eid; t_subject_id := sid; t_attempt_number := n;
     t_request_id := request; t_status := XSigning; t_tx_hash := None; t_error_code := None;
     t_started_at := now; t_completed_at := None;
     t_state_hash := _attempt_hash_values tid eid sid n request XSigning None None now None;
     t_created_audit_id := aid |}.

(** ** Transactions *)

(** Tables other components write: any change of the registry tables,
    and new audit records; subjects and the economy's own tables stay. *)
Definition same_economy (d d' : wallet_db) : Prop :=
  bounties d' = bounties d ∧ submissions d' = submissions d ∧ policies d' = policies d ∧
  orders d' = orders d ∧ journals d' = journals d ∧ entries d' = entries d ∧
  executions d' = executions d ∧ attempts d' = attempts d ∧
  reconciliations d' = reconciliations d ∧
  subjects d' = subjects d ∧ (∃ l, audits d' = audits d ++ l).

Context {Sg : Signer}.

Inductive tx (d : wallet_db) : wallet_db → Prop :=
| tx_environment d' : same_economy d d' → tx d d'
| tx_bounty_new sid bid p now aid d1 :
    let row := new_bounty_row bid sid p aid now in
    (∃ raw, validate_BountyInput raw = Ok p) →
    audited sid aid d d1 → bounty_check row = true → bounty_unique (bounties d) row = true →
    tx d (set_bounties (append_row row) d1)
| tx_bounty_move row target d' : bounty_moved row target d d' → tx d d'
| tx_submission_new b sid p now aid d1 :
    let row := new_submission_row sid (b_bounty_id b) (b_subject_id b) p aid now in
    b ∈ bounties d → b_status b = BPublished →
    count_where (λ r, (s_bounty_id r == b_bounty_id b) && open_submission (s_status r))
      (submissions d) < b_max_submissions b →
    audited (b_subject_id b) aid d d1 →
    submission_check row = true → submission_unique (submissions d) row = true →
    tx d (set_submissions (append_row row) d1)
| tx_submission_close row target reason d' :
    s_status row = SSubmitted → target ∈ [SRejected; SWithdrawn] →
    decided row target reason d d' → tx d d'
| tx_accept row b sub reason d1 d2 :
    s_status row = SSubmitted → b ∈ bounties d →
    b_bounty_id b = s_bounty_id row → b_subject_id b = s_subject_id row →
    count_where (λ r, (s_bounty_id r == s_bounty_id row) && (s_status r == SAccepted))
      (submissions d) < b_reward_slots b →
    decided row SAccepted reason d d1 →
    sr_submission_id sub = s_submission_id row → sr_bounty_id sub = s_bounty_id row →
    sr_subject_id sub = s_subject_id row →
    sr_recipient_address sub = s_recipient_address row →
    ((∃ o, o ∈ orders d1 ∧ o_submission_id o = s_submission_id row) ∧ d2 = d1
     ∨ placed sub d1 d2) →
    tx d d2
| tx_close_order row target d' :
    o_status row ∈ [OPendingPolicy; OAwaitingConfirmation] → target ∈ [ORejected; OCancelled] →
    moved row target d d' → tx d d'
| tx_reserve row d' : o_status row = OAwaitingConfirmation → reserved row d d' → tx d d'
| tx_release row d1 d' : o_status row = OReserved →
    moved row OCancelled d d1 → posted row JRelease d1 d' → tx d d'
| tx_refund row d1 d' : o_status row = OFailed →
    moved row ORefunded d d1 → posted row JRefund d1 d' → tx d d'
| tx_policy sid p version now h d1 d' :
    let row := policy_row_of sid (with_automation p) version now h in
    (∃ raw, validate_PaymentPolicyInput raw = Ok p) →
    _policy_state_hash_row row = Ok h →
    version = match _policy_row sid d with None => 1 | Some r => p_policy_version r end + 1 →
    policy_check row = true →
    d1 = set_policies (λ t, append_row row (select (λ x, p_subject_id x =/= sid) t)) d →
    (∃ l, d' = set_audits (λ t, t ++ l) d1) →
    tx d d'
| tx_subject sid now h :
    sid ∉ subjects d → _policy_state_hash_row (default_policy_row sid now h) = Ok h →
    tx d (set_policies (λ t, if bool_decide (_policy_row sid d = None)
                             then append_row (default_policy_row sid now h) t else t)
           (set_subjects (append_row sid) d))
| tx_prepare o x t aid d1 d2 :
    o_status o = OReserved → audited (o_subject_id o) aid d d1 → moved o OSigning d1 d2 →
    (∃ eid asset network source nonce gas fee request rhash now,
      x = new_execution_row eid (o_subject_id o) o asset network source nonce gas fee
            request rhash aid now ∧
      ∃ tid, t = signing_attempt tid eid (o_subject_id o) 1 request now aid) →
    execution_unique (executions d) x = true → attempt_unique (attempts d) t = true →
    x_source_address x ≠ x_recipient_address x →
    tx d (set_attempts (append_row t) (set_executions (append_row x) d2))
| tx_retry o x t aid now d1 d2 :
    o_status o = OUnknown → x ∈ executions d → x_order_id x = o_order_id o →
    x_subject_id x = o_subject_id o → x_attempt_count x + 1 <= 32 →
    audited (o_subject_id o) aid d d1 → moved o OSigning d1 d2 →
    (∃ tid request, t = signing_attempt tid (x_execution_id x) (o_subject_id o)
                          (x_attempt_count x + 1) request now aid) →
    attempt_unique (attempts d) t = true →
    tx d (set_attempts (append_row t) (set_executions (replace_row x_execution_id x
            (execution_set XSigning (x_tx_hash x) None no_receipt (x_attempt_count x + 1) aid
               now (_execution_hash_values_from_row x XSigning (x_tx_hash x) None no_receipt
                      (x_attempt_count x + 1) now) x)) d2))
| tx_mark x o t xs os jt txh err rc herr hrc aid now recs d1 d2 d3 :
    x ∈ executions d → o ∈ orders d → t ∈ attempts d →
    o_order_id o = x_order_id x → o_subject_id o = x_subject_id x →
    t_execution_id t = x_execution_id x → t_attempt_number t = x_attempt_count x →
    mark_case x o xs os jt err rc herr hrc →
    audited (x_subject_id x) aid d d1 → moved o os d1 d2 → posted_opt o jt d2 d3 →
    tx d (set_reconciliations (λ l, l ++ recs)
           (set_attempts (replace_row t_attempt_id t (finished_attempt t xs txh herr now))
             (set_executions (replace_row x_execution_id x
                (marked_execution x xs txh err rc herr hrc aid now)) d3))).
End effects.
