(* ===== verification/RegistryFrame.v ===== *)
(** * What a program leaves alone

    [frame] proves that a program keeps a predicate of the tables, by the
    structure of the program: the registry operations leave the economy
    alone ([same_economy]) and the economy and execution operations leave
    the registry alone ([same_registry]). *)

From S2P Require Import Prelude Tables PyStr Json Digest Time WalletTypes RegistryTypes.
From S2P Require Import WalletTransfer WalletDb WalletEconomy RegistryDb RegistryStore WalletOrders.
From S2P Require Import WalletSubmissions WalletExecution WalletEngine WalletEffects.
Local Open Scope Z_scope.

Section frame.
Context {D : Type} (I : D → Prop).

Lemma preserves_modify f : (∀ d, I d → I (f d)) → preserves I (modify f).
Proof. intros H w HI. by apply H. Qed.
Lemma preserves_rollback {A} (m : M D A) : preserves I m → preserves I (transaction m).
Proof.
  intros H w HI. specialize (H w HI). unfold transaction. by destruct (m w) as [[]?].
Qed.
Lemma preserves_rethrow {A} h (m : M D A) : preserves I m → preserves I (rethrow h m).
Proof. intros H w HI. specialize (H w HI). unfold rethrow. by destruct (m w) as [[]?]. Qed.
Lemma preserves_catch_all {A} (m : M D A) h :
  preserves I m → (∀ e, match h e with Some m' => preserves I m' | None => True end) →
  preserves I (catch m h).
Proof. intros Hm Hh. apply preserves_catch; [done|]. intros e m' E. specialize (Hh e). by rewrite E in Hh. Qed.
End frame.

Create HintDb frame.
Ltac head_of t := match t with ?f _ => head_of f | _ => t end.
(** One step: close a read, split a composition, or open a definition. *)
Ltac frame_step base :=
  match goal with
  | |- preserves _ (mbind _ _) => apply preserves_bind; [|intros ?]
  | |- preserves _ (mret _) => apply preserves_silent, silent_ret
  | |- preserves _ (raise _) => apply preserves_silent, silent_raise
  | |- preserves _ (lift _) => apply preserves_silent, silent_lift
  | |- preserves _ (gets _) => apply preserves_silent, silent_gets
  | |- preserves _ (raise_if _ _) => apply preserves_silent, silent_raise_if
  | |- preserves _ (read_clock _) => apply preserves_silent, silent_read_clock
  | |- preserves _ (read_fresh _) => apply preserves_silent, silent_read_fresh
  | |- preserves _ (transaction _) => apply preserves_rollback
  | |- preserves _ (read_transaction _) => apply preserves_rollback
  | |- preserves _ (rethrow _ _) => apply preserves_rethrow
  | |- preserves _ (catch _ _) => apply preserves_catch_all; [|intros ?]
  | |- preserves _ (for_each _ _) => apply preserves_for_each; intros ?
  | |- preserves _ (modify _) => apply preserves_modify; base
  | |- preserves _ (if ?b then _ else _) => destruct b
  | |- preserves _ (match ?o with _ => _ end) => destruct o
  | |- match (match ?x with _ => _ end) with _ => _ end => destruct x
  | |- match (Some _) with _ => _ end => cbn beta iota
  | |- match None with _ => _ end => exact I
  | |- match ?o with _ => _ end => let h := head_of o in progress unfold h
  | |- True => exact I
  | |- preserves _ _ => solve [eauto with frame nocore]
  | |- preserves _ ?m => let h := head_of m in progress unfold h
  end.
Ltac frame base := repeat (frame_step base; cbn beta iota zeta).

(** Registry tables unchanged; audit records with new identifiers and
    subjects only added. *)
Definition same_registry (d d' : wallet_db) : Prop :=
  networks d' = networks d ∧ assets d' = assets d ∧ addresses d' = addresses d ∧
  network_revisions d' = network_revisions d ∧ asset_revisions d' = asset_revisions d ∧
  address_revisions d' = address_revisions d ∧ snapshots d' = snapshots d ∧
  (∃ l, audits d' = audits d ++ l) ∧ subjects d ⊆ subjects d' ∧
  (NoDup (map a_audit_id (audits d)) → NoDup (map a_audit_id (audits d'))).

Lemma same_registry_refl d : same_registry d d.
Proof. split_and!; [done..|by exists []; rewrite app_nil_r|done|done]. Qed.
Lemma same_economy_refl d : same_economy d d.
Proof. split_and!; try done. by exists []; rewrite app_nil_r. Qed.

Lemma append_extends {R} (r : R) t t0 l :
  t = t0 ++ l → ∃ l', append_row r t = t0 ++ l'.
Proof. intros ->. exists (l ++ [r]). unfold append_row. by rewrite app_assoc. Qed.
Lemma subseteq_append {R} (r : R) t t0 : t0 ⊆ t → t0 ⊆ append_row r t.
Proof. intros H x Hx. apply elem_of_append. left. by apply H. Qed.

Ltac registry_base :=
  intros ? (?&?&?&?&?&?&?&[??]&?&?); split_and!; simpl; try done;
  eauto using append_extends, subseteq_append.
Ltac economy_base :=
  intros ? (?&?&?&?&?&?&?&?&?&?&[??]); split_and!; simpl; try done;
  eauto using append_extends.

Section ops.
Context {Dg : Digest} {En : Env} {Sg : Signer} {Hosts : HostNames}.
Variable d : wallet_db.
Abbreviation E := (same_economy d).
Abbreviation G := (same_registry d).

Lemma register_network_economy sid p actor : preserves E (register_network sid p actor).
Proof. frame economy_base. Qed.
Lemma register_asset_economy sid p actor : preserves E (register_asset sid p actor).
Proof. frame economy_base. Qed.
Lemma register_address_economy sid p actor : preserves E (register_address sid p actor).
Proof. frame economy_base. Qed.
Lemma revoke_network_economy id r a sid : preserves E (revoke_network id r a sid).
Proof. frame economy_base. Qed.
Lemma revoke_asset_economy id r a sid : preserves E (revoke_asset id r a sid).
Proof. frame economy_base. Qed.
Lemma revoke_address_economy id r a sid : preserves E (revoke_address id r a sid).
Proof. frame economy_base. Qed.
Lemma record_balance_economy sid p actor : preserves E (record_balance_snapshot sid p actor).
Proof. frame economy_base. Qed.

(** The audit identifier is unique. *)
Lemma insert_audit_registry r : preserves G (insert_audit r).
Proof.
  intros w HG. unfold insert_audit, constraint, raise_if, modify, gets, mbind, M_bind. simpl.
  destruct (bool_decide (a_subject_id r ∈ _)); [|done]. simpl.
  destruct (exists_where _ _) eqn:Hu; [done|]. rewrite -> exists_where_false in Hu. simpl.
  destruct HG as (?&?&?&?&?&?&?&[? Ha]&?&Hn). split_and!; try done; [by eapply append_extends|].
  intros Hd. simpl. apply NoDup_map_snoc; [by apply Hn|].
  intros (y & E & Hy)%list_elem_of_fmap. apply Hu in Hy. by apply bool_decide_eq_false in Hy.
Qed.
#[local] Hint Resolve insert_audit_registry : frame.

(** The loops. *)
Lemma expire_rows_registry now rows n : preserves G (expire_rows now rows n).
Proof. revert n. induction rows as [|r rows IH]; intros n; simpl; frame registry_base; apply IH. Qed.
Lemma find_receipt_registry x hashes e : preserves G (find_receipt x hashes e).
Proof. revert e. induction hashes as [|h hashes IH]; intros e; simpl; frame registry_base; apply IH. Qed.
Lemma recover_rows_registry s a rows : preserves G (recover_rows s a rows).
Proof. induction rows as [|r rows IH]; simpl; frame registry_base; apply IH. Qed.
#[local] Hint Resolve expire_rows_registry find_receipt_registry recover_rows_registry : frame.

Lemma create_bounty_registry sid p actor : preserves G (create_bounty sid p actor).
Proof. frame registry_base. Qed.
Lemma transition_bounty_registry b s t a : preserves G (_transition_bounty b s t a).
Proof. frame registry_base. Qed.
Lemma submit_to_bounty_registry b s p : preserves G (submit_to_bounty b s p).
Proof. frame registry_base. Qed.
Lemma decide_submission_registry x s b r a : preserves G (decide_submission x s b r a).
Proof. frame registry_base. Qed.
Lemma withdraw_submission_registry x s a : preserves G (withdraw_submission x s a).
Proof. frame registry_base. Qed.
Lemma update_policy_registry s p v a q : preserves G (update_policy s p v a q).
Proof. frame registry_base. Qed.
Lemma confirm_order_registry o s a : preserves G (confirm_order o s a).
Proof. frame registry_base. Qed.
Lemma reject_order_registry o s a r : preserves G (reject_order o s a r).
Proof. frame registry_base. Qed.
Lemma cancel_order_registry o s a r : preserves G (cancel_order o s a r).
Proof. frame registry_base. Qed.
Lemma refund_order_registry o s a r : preserves G (refund_order o s a r).
Proof. frame registry_base. Qed.
Lemma ensure_identity_registry s : preserves G (ensure_identity s).
Proof. frame registry_base. Qed.
Lemma maintain_expired_bounties_registry s n : preserves G (maintain_expired_bounties s n).
Proof. frame registry_base. Qed.
Lemma prepare_execution_registry o s a g f n : preserves G (prepare_execution o s a g f n).
Proof. frame registry_base. Qed.
Lemma prepare_retry_registry o s a r : preserves G (prepare_retry o s a r).
Proof. frame registry_base. Qed.
Lemma execute_order_registry o s a g f n : preserves G (execute_order o s a g f n).
Proof. frame registry_base. Qed.
Lemma retry_unknown_registry o s a r : preserves G (retry_unknown o s a r).
Proof. frame registry_base. Qed.
Lemma poll_receipt_registry x s a : preserves G (poll_receipt x s a).
Proof. frame registry_base. Qed.
Lemma mark_reconcile_required_registry x s a r : preserves G (mark_reconcile_required x s a r).
Proof. frame registry_base. Qed.
Lemma recover_database_inflight_registry s a n : preserves G (recover_database_inflight s a n).
Proof. frame registry_base. Qed.
End ops.
