(* ===== verification/WalletSteps.v ===== *)
(** * The wallet code only makes the transactions of [tx]

    Every public operation of the economy store and of the execution
    engine, whether it returns or raises, takes the tables through a
    sequence of [tx] steps.  Invariants and refinements proved for [tx] in
    the following files therefore hold of the code. *)

From S2P Require Import Prelude Tables PyStr Json Digest Time WalletTypes WalletTransfer WalletDb.
From S2P Require Import WalletEconomy WalletOrders WalletSubmissions WalletExecution WalletEngine.
From S2P Require Import WalletEffects.
From stdpp Require Import relations.
Local Open Scope Z_scope.

(** [open_effects] replaces every described effect by the tables it yields. *)
Ltac open_effects :=
  repeat match goal with
  | H : audited _ _ _ _ |- _ => destruct H as (? & ? & ? & ->)
  | H : moved _ _ _ _ |- _ => destruct H as (? & ? & ? & ? & ? & H & ->)
  | H : posted _ _ _ _ |- _ =>
      destruct H as (? & ? & ? & ? & ? & ? & ? & ? & ? & ? & ? & ->)
  | H : reserved _ _ _ |- _ => destruct H as (? & ? & ?)
  | H : bounty_moved _ _ _ _ |- _ => destruct H as (? & ? & ? & ? & H & ? & ->)
  | H : decided _ _ _ _ _ |- _ => destruct H as (? & ? & ? & ? & ? & H & ? & ->)
  end; simpl in *.

(** [case_tx H] : one goal per kind of transaction, with stable names. *)
Ltac case_tx H :=
  destruct H as
    [ d' He
    | sid bid p now aid d1 row Hv Ha Hc Hu
    | row target d' Hm
    | b sid p now aid d1 row Hb Hs Hn Ha Hc Hu
    | row target reason d' Hs Ht Hd
    | row b sub reason d1 d2 Hs Hb Eb Es Hn Hd E1 E2 E3 E4 Hp
    | row target d' Hs Ht Hm
    | row d' Hs Hr
    | row d1 d' Hs Hm Hp
    | row d1 d' Hs Hm Hp
    | sid p version now h d1 d' row Hv Hh Hver Hc Hd Hl
    | sid now h Hs Hh
    | o x t aid d1 d2 Hs Ha Hm Hx Hu Ht Hsrc
    | o x t aid now d1 d2 Hs Hx Ho Hsub Hn Ha Hm Ht Hu
    | x o t xs os jt txh err rc herr hrc aid now recs d1 d2 d3 Hx Ho Ht Eo Es Et Ek Hc Ha Hm Hp ].

(** [run H as pat] : the first statement of the run [H]. *)
Tactic Notation "run" hyp(H) "as" simple_intropattern(p) :=
  apply ok_bind in H as (? & ? & p & H).
(** The same, naming the state after the statement. *)
Tactic Notation "run" hyp(H) "to" ident(w) "as" simple_intropattern(p) :=
  apply ok_bind in H as (? & w & p & H).

Section steps.
Context {Dg : Digest} {En : Env} {Sg : Signer}.

(** ** Keys stay unique *)

Lemma NoDup_replace {R K} `{!EqDecision K} (k : R → K) r r' t :
  k r' = k r → NoDup (map k t) → NoDup (map k (replace_row k r r' t)).
Proof. intros E H. rewrite (map_replace k) //. intros. congruence. Qed.
Lemma NoDup_append_unique {R K} `{!EqDecision K} (k : R → K) r t :
  negb (exists_where (λ x, k x == k r) t) = true →
  NoDup (map k t) → NoDup (map k (append_row r t)).
Proof.
  intros Hn Hd. apply NoDup_append; [done|].
  destruct (fetchone _ t) as [x|] eqn:E; [|done].
  apply fetchone_Some in E as [Hx E]. eapply exists_none in Hx; [|exact Hn].
  simpl in *. congruence.
Qed.

Lemma keys_tx d d' : keys d → tx d d' → keys d'.
Proof.
  intros [K1 K2 K3 K4 K5] H. case_tx H.
  - destruct He as (? & ? & _ & ? & _ & _ & ? & ? & _). split; congruence.
  - open_effects. split; simpl; try done.
    apply andb_true_iff in Hu as [Hu _]. by apply NoDup_append_unique.
  - open_effects. split; simpl; try done. by apply NoDup_replace.
  - open_effects. split; simpl; try done.
    apply andb_true_iff in Hu as [Hu _]. by apply NoDup_append_unique.
  - open_effects. split; simpl; try done. by apply NoDup_replace.
  - open_effects. destruct Hp as [[_ ->]|Hp]; [split; simpl; try done; by apply NoDup_replace|].
    destruct Hp as (oid & b' & now & aid & d3 & H8 & H9 & H10 & H11 & H12 & H13).
    open_effects. apply andb_true_iff in H12 as [[H12 _]%andb_true_iff _].
    destruct H13 as [H13|[[_ H13]|[_ H13]]]; open_effects; split; simpl; try done;
      first [by apply NoDup_replace
            |apply NoDup_replace; [done|]; by apply NoDup_append_unique].
  - open_effects. split; simpl; try done. by apply NoDup_replace.
  - open_effects. split; simpl; try done. by apply NoDup_replace.
  - open_effects. split; simpl; try done. by apply NoDup_replace.
  - open_effects. split; simpl; try done. by apply NoDup_replace.
  - destruct Hl as [l ->]. subst. by split.
  - by split.
  - open_effects. unfold execution_unique, attempt_unique in *.
    apply andb_true_iff in Hu as [[[Hu _]%andb_true_iff _]%andb_true_iff _].
    apply andb_true_iff in Ht as [[Ht _]%andb_true_iff _].
    split; simpl; try done; [by apply NoDup_replace|by apply NoDup_append_unique..].
  - open_effects. unfold attempt_unique in *.
    apply andb_true_iff in Hu as [[Hu _]%andb_true_iff _].
    split; simpl; try done; [by apply NoDup_replace..|by apply NoDup_append_unique].
  - open_effects. destruct jt; unfold posted_opt in *; open_effects; subst; split; simpl;
      try done; by apply NoDup_replace.
Qed.

(** ** Programs as sequences of transactions *)

(** The body of a transaction, when it returns. *)
Definition commits {A} (m : W A) : Prop :=
  ∀ w a w', keys (db w) → ok m w a w' → rtc tx (db w) (db w').
(** A whole program, when it returns and when it raises. *)
Definition advances {A} (m : W A) : Prop :=
  ∀ w, keys (db w) → rtc tx (db w) (db (m w).2).

Lemma keys_rtc d d' : keys d → rtc tx d d' → keys d'.
Proof. intros K H. induction H; [done|]. eauto using keys_tx. Qed.

Lemma advances_transaction {A} (m : W A) : commits m → advances (transaction m).
Proof.
  intros H w K. unfold transaction. destruct (m w) as [[a|e] w'] eqn:E; simpl; [|done].
  by eapply H.
Qed.
Lemma advances_silent {A} (m : W A) : silent m → advances m.
Proof. intros H w K. by rewrite H. Qed.
Lemma advances_bind {A B} (m : W A) (k : A → W B) :
  advances m → (∀ a, advances (k a)) → advances (m ≫= k).
Proof.
  intros Hm Hk w K. unfold mbind, M_bind. specialize (Hm w K).
  destruct (m w) as [[a|e] w']; simpl in *; [|done].
  etrans; [done|]. apply Hk. eauto using keys_rtc.
Qed.
Lemma advances_catch {A} (m : W A) h :
  advances m → (∀ e m', h e = Some m' → advances m') → advances (catch m h).
Proof.
  intros Hm Hh w K. unfold catch. specialize (Hm w K).
  destruct (m w) as [[a|e] w']; simpl in *; [done|].
  destruct (h e) as [m'|] eqn:E; [|done].
  etrans; [done|]. eapply Hh; eauto using keys_rtc.
Qed.

(** [skip_silent] : the statements before the first transaction. *)
Ltac skip_silent :=
  repeat (apply advances_bind; [apply advances_silent; by solve_silent|intros ?]).

(** ** Queries *)

Lemma order_row_ok oid sid w row w' :
  ok (_order_row oid sid) w row w' →
  w' = w ∧ row ∈ orders (db w) ∧ o_order_id row = oid ∧ o_subject_id row = sid.
Proof.
  unfold _order_row. intros (o & w1 & [<- <-]%ok_gets & [H <-]%ok_lift)%ok_bind.
  destruct (fetchone _ _) as [r|] eqn:E; simpl in H; [|done]. simplify_eq.
  apply fetchone_Some in E as [? [?%bool_decide_eq_true ?%bool_decide_eq_true]%andb_true_iff].
  done.
Qed.
Lemma pure_order_row oid sid : pure (_order_row oid sid).
Proof. by intros w r w' [-> _]%order_row_ok. Qed.
Lemma ok_of_option {A} e (o : option A) (a : A) : of_option e o = Ok a → o = Some a.
Proof. destruct o; simpl; congruence. Qed.
Lemma subscript_ok {A} (o : option A) (w : world wallet_db) a w' :
  ok (subscript o) w a w' → o = Some a ∧ w' = w.
Proof. unfold subscript. intros [?%ok_of_option <-]%ok_lift. done. Qed.
Lemma pure_subscript {A} (o : option A) : pure (subscript o).
Proof. unfold subscript. solve_pure. Qed.

Lemma silent_asset_row a s : silent (_asset_row a s).
Proof. unfold _asset_row. solve_silent. Qed.
Lemma silent_network_row a s : silent (_network_row a s).
Proof. unfold _network_row. solve_silent. Qed.
Lemma silent_policy_gate row p : silent (policy_gate row p).
Proof. unfold policy_gate. solve_silent. Qed.
Lemma silent_policy_periods row p ex now amount daily :
  silent (policy_periods row p ex now amount daily).
Proof. unfold policy_periods. solve_silent. Qed.
Lemma silent_policy_balance row p ex now amount :
  silent (policy_balance row p ex now amount).
Proof. unfold policy_balance. solve_silent. Qed.
Hint Resolve silent_policy_gate silent_policy_periods silent_policy_balance : noyra.
Lemma silent_policy_allows row p ex : silent (_policy_allows row p ex).
Proof. unfold _policy_allows, self_clock. solve_silent. Qed.

(** ** Bounties *)

Lemma inserted_fetch {R K} `{!EqDecision K} (k : R → K) r t :
  negb (exists_where (λ x, k x == k r) t) = true →
  fetchone (λ x, k x == k r) (append_row r t) = Some r.
Proof.
  intros H%negb_true_iff. rewrite -> exists_where_false in H. unfold fetchone, append_row.
  induction t as [|y t IH]; simpl; [by rewrite bool_decide_true|].
  rewrite (H y (here _ _)). apply IH. intros z ?. apply H. by apply there.
Qed.

Lemma advances_create_bounty sid p actor :
  (∃ raw, validate_BountyInput raw = Ok p) → advances (create_bounty sid p actor).
Proof.
  intros Hv. unfold create_bounty. skip_silent.
  apply advances_transaction. intros w r w' K H.
  run H as Hn%(silent_pure _ (silent_network_row _ _)).
  run H as Ha%(silent_pure _ (silent_asset_row _ _)).
  run H as [_ <-]%ok_raise_if. run H as [<- <-]%ok_gets.
  run H as [_ <-]%ok_raise_if. run H as [_ <-]%ok_raise_if.
  destruct (fetchone _ _) as [e|] eqn:E.
  { run H as [_ <-]%ok_raise_if. apply ok_lift in H as [_ <-]. by rewrite Ha Hn. }
  run H as Hb%pure_new_id. run H as Hd%audit_effect.
  unfold insert_bounty in H. run H as H1. run H1 as [<- <-]%ok_gets.
  run H1 as [Hc <-]%ok_constraint. run H1 as [Hu <-]%ok_constraint.
  apply ok_modify in H1 as ->. run H as [_ <-]%ok_gets.
  run H as [_ ->]%subscript_ok. apply ok_lift in H as [_ <-]. simpl.
  apply rtc_once. rewrite -Hn -Ha -Hb. eapply tx_bounty_new; eauto.
  destruct Hd as (? & _ & _ & Hd). simpl in *. by rewrite Hd in Hu.
Qed.

Lemma bounty_of_subject_Some bid sid d b :
  bounty_of_subject bid sid d = Some b →
  b ∈ bounties d ∧ b_bounty_id b = bid ∧ b_subject_id b = sid.
Proof.
  unfold bounty_of_subject.
  intros [? [?%bool_decide_eq_true ?%bool_decide_eq_true]%andb_true_iff]%fetchone_Some.
  done.
Qed.
Lemma silent_effective_status row : silent (_effective_bounty_status row).
Proof. unfold _effective_bounty_status, self_clock. solve_silent. Qed.

Lemma bounty_by_id_Some bid d b :
  bounty_by_id bid d = Some b → b ∈ bounties d ∧ b_bounty_id b = bid.
Proof. unfold bounty_by_id. by intros [? ?%bool_decide_eq_true]%fetchone_Some. Qed.

Lemma set_status_tx row target reason actor w u w' :
  keys (db w) → row ∈ bounties (db w) →
  ok (_set_bounty_status row target reason actor) w u w' → tx (db w) (db w').
Proof.
  intros K Hr H. eapply tx_bounty_move, set_bounty_status_effect; eauto.
  apply (k_bounties _ K).
Qed.

Lemma advances_transition_bounty bid sid target actor :
  advances (_transition_bounty bid sid target actor).
Proof.
  unfold _transition_bounty. skip_silent. apply advances_transaction. intros w r w' K H.
  run H as [<- <-]%ok_gets. run H as [[Hb _]%ok_of_option%bounty_of_subject_Some <-]%ok_lift.
  run H as Hs%(silent_pure _ (silent_effective_status _)).
  run H as Hset. run H as [_ <-]%ok_raise_if. run H as Hfin.
  run H as [_ <-]%ok_gets. run H as [_ ->]%subscript_ok. apply ok_lift in H as [_ <-].
  rewrite -Hs. rewrite -Hs in K Hb. destruct (_ =/= _) in Hset.
  - run Hset as H1%set_status_tx; [|done..]. run Hset as [<- <-]%ok_gets.
    apply subscript_ok in Hset as [[Hr _]%bounty_by_id_Some ->].
    apply set_status_tx in Hfin; [|by eapply keys_tx|done].
    eapply rtc_l; [done|]. by apply rtc_once.
  - apply ok_ret in Hset as [<- <-]. apply set_status_tx in Hfin; [|done..].
    by apply rtc_once.
Qed.

Lemma expire_rows_tx now rows : ∀ changed w n w',
  keys (db w) → NoDup (map b_bounty_id rows) → (∀ r, r ∈ rows → r ∈ bounties (db w)) →
  ok (expire_rows now rows changed) w n w' → rtc tx (db w) (db w').
Proof.
  induction rows as [|r rows IH]; intros changed w n w' K Hd Hin H; simpl in H.
  { by apply ok_ret in H as [_ <-]. }
  apply NoDup_cons in Hd as [Hnot Hd].
  run H as [_ <-]%ok_lift. destruct (_ <=? _).
  - run H as Hset. assert (Hr := Hin r (here _ _)).
    pose proof (set_bounty_status_effect _ _ _ _ _ _ _ (k_bounties _ K) Hr Hset) as Hm.
    apply set_status_tx in Hset; [|done..].
    eapply rtc_l; [done|]. eapply IH; [by eapply keys_tx|done| |done].
    intros y Hy. destruct Hm as (_ & ? & ? & ? & (a & _ & _ & ->) & _ & ->). simpl.
    apply (elem_of_replace b_bounty_id); [apply (k_bounties _ K)|done|]. right.
    split; [by apply Hin, there|]. intros ->. apply Hnot. by apply list_elem_of_fmap_2.
  - eapply IH; [done..| |done]. intros y Hy. by apply Hin, there.
Qed.

Lemma NoDup_map_select {R K} (k : R → K) p t : NoDup (map k t) → NoDup (map k (select p t)).
Proof.
  induction t as [|x t IH]; simpl; [done|]. intros [Hn Hd]%NoDup_cons.
  unfold select in *. simpl. destruct (p x); simpl; [|by apply IH].
  apply NoDup_cons. split; [|by apply IH].
  intros (y & E & [Hy _]%elem_of_select)%list_elem_of_fmap. apply Hn. rewrite E.
  by apply list_elem_of_fmap_2.
Qed.
Lemma NoDup_map_take {R K} (k : R → K) n t : NoDup (map k t) → NoDup (map k (take n t)).
Proof.
  intros H. rewrite -(take_drop n t) map_app in H. by apply NoDup_app in H as [? _].
Qed.
Lemma NoDup_map_sort {R K} (k : R → K) leb t :
  NoDup (map k t) → NoDup (map k (sort_by leb t)).
Proof. intros H. by rewrite sort_by_perm. Qed.

Lemma advances_maintain sid limit : advances (maintain_expired_bounties sid limit).
Proof.
  unfold maintain_expired_bounties, self_clock. skip_silent. apply advances_transaction.
  intros w n w' K H. run H as [<- <-]%ok_gets.
  eapply expire_rows_tx; [done| | |exact H].
  - by apply NoDup_map_take, NoDup_map_sort, NoDup_map_select, (k_bounties _ K).
  - intros r (i & Hr%list_elem_of_lookup_2 & _)%elem_of_take. unfold due_bounties in Hr.
    rewrite elem_of_sort_by in Hr. by apply elem_of_select in Hr as [? _].
Qed.

(** ** Submissions *)

Lemma submission_of_subject_Some xid sid d s :
  submission_of_subject xid sid d = Some s →
  s ∈ submissions d ∧ s_submission_id s = xid ∧ s_subject_id s = sid.
Proof.
  unfold submission_of_subject.
  intros [? [?%bool_decide_eq_true ?%bool_decide_eq_true]%andb_true_iff]%fetchone_Some.
  done.
Qed.

Lemma advances_submit bid sid p : advances (submit_to_bounty bid sid p).
Proof.
  unfold submit_to_bounty, self_clock. skip_silent. apply advances_transaction.
  intros w r w' K H.
  run H as [<- <-]%ok_gets. run H as [Hb%ok_of_option%bounty_of_subject_Some <-]%ok_lift.
  destruct Hb as (Hb & <- & <-). run H as [<- <-]%ok_gets.
  destruct (fetchone _ _) as [e|] eqn:E.
  { run H as [_ <-]%ok_lift. run H as [_ <-]%ok_raise_if. by apply ok_lift in H as [_ <-]. }
  run H as Hs%(silent_pure _ (silent_effective_status _)).
  run H as Hset. destruct (_ =/= _) eqn:Es in Hset.
  { (* the expiry branch raises *)
    run Hset as _. apply ok_ret in Hset as [<- <-]. simpl in H.
    run H as [<- <-]%ok_ret. by run H as [Hf _]%ok_raise_if. }
  apply ok_ret in Hset as [<- <-]. run H as Hclosed. run H as [Hopen <-]%ok_raise_if.
  run H as [<- <-]%ok_gets. run H as [Hn%Z.leb_gt <-]%ok_raise_if.
  run H as Hi%pure_new_id. run H as Ha%audit_effect.
  unfold insert_submission in H. run H as H1. run H1 as [<- <-]%ok_gets.
  run H1 as [Hc <-]%ok_constraint. run H1 as [Hu <-]%ok_constraint.
  apply ok_modify in H1 as ->. run H as [_ <-]%ok_gets.
  run H as [_ ->]%subscript_ok. apply ok_lift in H as [_ <-]. simpl.
  apply negb_false_iff, bool_decide_eq_true_1 in Es as ->. subst.
  destruct (_ =/= _) eqn:Ep in Hclosed; [by apply ok_ret in Hclosed as [? _]|].
  apply negb_false_iff, bool_decide_eq_true_1 in Ep.
  run Hclosed as [_ <-]%ok_lift. run Hclosed as [_ <-]%ok_lift.
  apply ok_ret in Hclosed as [_ <-]. rewrite Hs in Hn, Hi.
  destruct Ha as (ar & Ea & Es & Ha). rewrite Hi in Ha. rewrite Ha in Hu. rewrite Ha.
  apply rtc_once. eapply tx_submission_new; eauto. by exists ar.
Qed.

Lemma update_submission_effect sid row target reason aid now h d1 w u w' :
  NoDup (map s_submission_id (submissions d1)) → row ∈ submissions d1 →
  s_submission_id row = sid → audited (s_subject_id row) aid d1 (db w) →
  _submission_state_hash_row row target (Some reason) = Ok h →
  ok (update_submission sid (submission_decide target reason now aid h)) w u w' →
  decided row target reason d1 (db w').
Proof.
  intros Hk Hr <- Ha Hh H. unfold update_submission in H.
  run H as [<- <-]%ok_gets. run H as [_ <-]%ok_constraint. apply ok_modify in H as ->.
  split; [done|]. eexists now, aid, h, (db w). split_and!; [done..|].
  destruct Ha as (a & _ & _ & Ha). simpl. rewrite Ha. unfold set_submissions. simpl. f_equal.
  by apply (update_key_replace s_submission_id).
Qed.

Lemma advances_withdraw xid sid actor : advances (withdraw_submission xid sid actor).
Proof.
  unfold withdraw_submission, self_clock. skip_silent. apply advances_transaction.
  intros w r w' K H.
  run H as [<- <-]%ok_gets. run H as [Hs%ok_of_option%submission_of_subject_Some <-]%ok_lift.
  destruct Hs as (Hs & <- & <-). run H as [Ht%negb_false_iff%bool_decide_eq_true_1 <-]%ok_raise_if.
  run H as [_ ->]%ok_read_clock. run H as Ha%audit_effect. run H as [Hh <-]%ok_lift.
  run H as Hu. run H as [_ <-]%ok_gets. run H as [_ ->]%subscript_ok.
  apply ok_lift in H as [_ <-].
  eapply update_submission_effect in Hu; [|apply (k_submissions _ K)|done|done|done|done].
  apply rtc_once. eapply tx_submission_close; [done| |done]. in_list.
Qed.

Lemma reserve_effect row actor w u w' :
  NoDup (map o_order_id (orders (db w))) → row ∈ orders (db w) →
  ok (_reserve_order row actor) w u w' → reserved row (db w) (db w').
Proof.
  intros Hk Hr H. unfold _reserve_order in H. run H as [<- <-]%ok_gets.
  run H as Ha%(silent_pure _ (silent_policy_allows _ _ _)). run H as [_ <-]%ok_raise_if.
  run H as Hm. rewrite <- Ha in Hk, Hr. eapply transition_order_effect in Hm; [|done..].
  apply (post_journal_effect _ JReservation) in H. rewrite <- Ha. by eexists.
Qed.

Lemma ensure_order_effect sub w u w' :
  keys (db w) → ok (_ensure_order sub) w u w' →
  (∃ o, o ∈ orders (db w) ∧ o_submission_id o = sr_submission_id sub) ∧ db w' = db w
  ∨ placed sub (db w) (db w').
Proof.
  intros K H. unfold _ensure_order, self_clock in H. run H as [<- <-]%ok_gets.
  destruct (exists_where _ _) eqn:Ee.
  { apply exists_where_true in Ee as (o & Ho & Eo%bool_decide_eq_true).
    apply ok_ret in H as [_ <-]. left. eauto. }
  right. rewrite -> exists_where_false in Ee.
  run H as [<- <-]%ok_gets. run H as [<- <-]%ok_gets. run H as Hi%pure_new_id.
  run H as [-> ->]%ok_read_clock. run H as [Hb ->]%subscript_ok.
  run H as Ha%audit_effect. unfold insert_order in H. run H as H1.
  run H1 as [<- <-]%ok_gets. run H1 as [Hc <-]%ok_constraint.
  run H1 as [Hu <-]%ok_constraint. apply ok_modify in H1 as ->.
  run H as [<- <-]%ok_gets. run H as [Hrow ->]%subscript_ok. simpl in *.
  rewrite Hi in Ha. destruct (Ha) as (a & _ & _ & Ed). rewrite -> Ed in *. simpl in *.
  assert (Hu1 := Hu). apply andb_true_iff in Hu1 as [[Hu1 _]%andb_true_iff _].
  pose proof (inserted_fetch o_order_id _ _ Hu1) as Hf. unfold order_by_id in Hrow. simpl in *.
  rewrite Hf in Hrow. injection Hrow as <-. clear Hf.
  match type of Hc with order_check ?r = true => set (row := r) in * end.
  assert (Hk : NoDup (map o_order_id (append_row row (orders (db w))))).
  { by apply NoDup_append_unique, (k_orders _ K). }
  assert (Hin : row ∈ append_row row (orders (db w))) by (apply elem_of_append; by right).
  eexists _, _, _, _, _. split_and!; [|done|done|exact Hc|exact Hu|].
  { intros o Ho E. specialize (Ee o Ho). by rewrite E bool_decide_true in Ee. }
  fold row. destruct (o_payment_mode row) eqn:Em.
  - left. by eapply transition_order_effect in H.
  - right; left. split; [done|]. by eapply transition_order_effect in H.
  - run H as Hp%(silent_pure _ (silent_policy_allows _ _ _)). simpl in Hp.
    destruct (_ : bool) in H.
    + right; right. split; [done|]. eapply reserve_effect in H; [by rewrite Hp in H|by rewrite Hp..].
    + left. eapply transition_order_effect in H; [by rewrite Hp in H|by rewrite Hp..].
Qed.

Lemma keys_decided row target reason d d' : keys d → decided row target reason d d' → keys d'.
Proof.
  intros [] H. open_effects. split; simpl; try done. by apply NoDup_replace.
Qed.
Lemma submission_from_row_fields row sub :
  _submission_from_row row = Ok sub →
  sr_submission_id sub = s_submission_id row ∧ sr_bounty_id sub = s_bounty_id row ∧
  sr_subject_id sub = s_subject_id row ∧ sr_recipient_address sub = s_recipient_address row.
Proof.
  unfold _submission_from_row. destruct (strict_json_loads _) as [j|]; [simpl|done].
  destruct (json_tuple j); [|done]. by intros [= <-].
Qed.
Lemma decided_read row target reason d d' r :
  keys d → decided row target reason d d' →
  submission_by_id (s_submission_id row) d' = Some r →
  s_submission_id r = s_submission_id row ∧ s_bounty_id r = s_bounty_id row ∧
  s_subject_id r = s_subject_id row ∧ s_recipient_address r = s_recipient_address row.
Proof.
  intros K (Hr & now & aid & h & d1 & (a & _ & _ & ->) & _ & ->) Hf.
  unfold submission_by_id in Hf. simpl in Hf.
  rewrite (fetch_replace s_submission_id) in Hf; [apply (k_submissions _ K)|done|done|].
  by injection Hf as <-.
Qed.

Lemma advances_decide xid sid accepted reason actor :
  advances (decide_submission xid sid accepted reason actor).
Proof.
  unfold decide_submission. skip_silent. apply advances_transaction.
  intros w r w' K H. unfold _decide_submission_connection, self_clock in H.
  run H as [<- <-]%ok_gets. run H as [Hs%ok_of_option%submission_of_subject_Some <-]%ok_lift.
  destruct Hs as (Hs & <- & <-). run H as [Ht%negb_false_iff%bool_decide_eq_true_1 <-]%ok_raise_if.
  run H as [<- <-]%ok_gets. run H as [Hb%ok_of_option%bounty_of_subject_Some <-]%ok_lift.
  destruct Hb as (Hb & Eb & Eb'). run H as Hslots. run H as [-> ->]%ok_read_clock.
  run H as Ha%audit_effect. run H as [Hh <-]%ok_lift. run H as Hu.
  run H as [<- <-]%ok_gets. run H as [Hrow ->]%subscript_ok. run H as [Hsub <-]%ok_lift.
  run H as Ho. apply ok_ret in H as [<- <-]. apply submission_from_row_fields in Hsub.
  apply rtc_once. destruct accepted.
  - run Hslots as [<- <-]%ok_gets. apply ok_raise_if in Hslots as [Hn%Z.leb_gt <-].
    eapply update_submission_effect in Hu; [|apply (k_submissions _ K)|done|done|done|done].
    eapply decided_read in Hrow; [|done|done]. destruct Hsub as (E1 & E2 & E3 & E4), Hrow as (F1 & F2 & F3 & F4).
    apply ensure_order_effect in Ho; [|by eapply keys_decided].
    eapply (tx_accept _ _ x1 x10); [done|done|done|done|done|done|congruence..|].
    rewrite -F1 -E1. naive_solver.
  - apply ok_ret in Hslots as [_ <-]. apply ok_ret in Ho as [_ <-].
    eapply update_submission_effect in Hu; [|apply (k_submissions _ K)|done|done|done|done].
    eapply tx_submission_close; [done| |done]. in_list.
Qed.

(** ** Orders *)

Lemma advances_confirm oid sid actor : advances (confirm_order oid sid actor).
Proof.
  unfold confirm_order. skip_silent. apply advances_transaction. intros w r w' K H.
  run H as (-> & Hr & _)%order_row_ok.
  run H as [Hs%negb_false_iff%bool_decide_eq_true_1 <-]%ok_raise_if.
  run H as Hres. run H as (-> & _)%order_row_ok. apply ok_ret in H as [_ <-].
  eapply reserve_effect in Hres; [|apply (k_orders _ K)|done].
  by eapply rtc_once, tx_reserve.
Qed.
Lemma advances_reject oid sid actor reason : advances (reject_order oid sid actor reason).
Proof.
  unfold reject_order. skip_silent. apply advances_transaction. intros w r w' K H.
  run H as (-> & Hr & _)%order_row_ok.
  run H as [Hs%negb_false_iff%bool_decide_eq_true_1 <-]%ok_raise_if.
  run H as Hm. run H as (-> & _)%order_row_ok. apply ok_ret in H as [_ <-].
  eapply transition_order_effect in Hm; [|apply (k_orders _ K)|done].
  eapply rtc_once, tx_close_order; [done| |done]. in_list.
Qed.
Lemma advances_cancel oid sid actor reason : advances (cancel_order oid sid actor reason).
Proof.
  unfold cancel_order. skip_silent. apply advances_transaction. intros w r w' K H.
  run H as (-> & Hr & _)%order_row_ok. run H as Hm.
  run H as (-> & _)%order_row_ok. apply ok_ret in H as [_ <-]. apply rtc_once.
  case_bool_decide as Hs; [|case_bool_decide as Hs'; [|by apply ok_raise in Hm]].
  - unfold _release_order in Hm. run Hm as Hmv.
    eapply transition_order_effect in Hmv; [|apply (k_orders _ K)|done].
    apply (post_journal_effect _ JRelease) in Hm. by eapply tx_release.
  - eapply transition_order_effect in Hm; [|apply (k_orders _ K)|done].
    eapply tx_close_order; [done| |done]. in_list.
Qed.
Lemma advances_refund oid sid actor reason : advances (refund_order oid sid actor reason).
Proof.
  unfold refund_order. skip_silent. apply advances_transaction. intros w r w' K H.
  run H as (-> & Hr & _)%order_row_ok. run H as [<- <-]%ok_gets. run H as [_ <-]%ok_raise_if.
  run H as [Hs%negb_false_iff%bool_decide_eq_true_1 <-]%ok_raise_if.
  run H as Hm. run H as Hp. run H as (-> & _)%order_row_ok. apply ok_ret in H as [_ <-].
  eapply transition_order_effect in Hm; [|apply (k_orders _ K)|done].
  apply (post_journal_effect _ JRefund) in Hp. by eapply rtc_once, tx_refund.
Qed.

(** ** The payment policy *)

Lemma advances_update_policy sid p version actor request :
  (∃ raw, validate_PaymentPolicyInput raw = Ok p) →
  advances (update_policy sid p version actor request).
Proof.
  intros Hv. unfold update_policy, request_field, self_clock. skip_silent.
  apply advances_transaction. intros w r w' K H.
  run H as [<- <-]%ok_gets. run H as Hrep. destruct (_ : option policy_row) in H.
  { apply ok_lift in H as [_ <-]. apply silent_pure in Hrep; [by rewrite Hrep|].
    solve_silent. }
  apply silent_pure in Hrep; [|solve_silent].
  run H as [Hcas%negb_false_iff%Z.eqb_eq <-]%ok_raise_if. run H as Hev.
  apply silent_pure in Hev; [|solve_silent].
  run H as [-> ->]%ok_read_clock. run H as Hins. run H as Ha%audit_effect. run H as Ha2.
  run H as [_ <-]%ok_gets. run H as [_ ->]%subscript_ok. apply ok_lift in H as [_ <-].
  unfold _insert_policy, replace_policy in Hins. run Hins as [Hh <-]%ok_lift.
  run Hins as [Hc <-]%ok_constraint. apply ok_modify in Hins as ->. simpl in *.
  rewrite Hev Hrep in Ha. destruct Ha as (au1 & _ & _ & Ha).
  apply rtc_once. match type of Hh with _ = Ok ?h => eapply (tx_policy _ sid p _ _ h) end;
    [done|exact Hh|reflexivity|exact Hc|reflexivity|].
  destruct request as [request|].
  - apply audit_effect in Ha2 as (au2 & _ & _ & ->). exists [au1; au2]. rewrite Ha.
    unfold set_audits, append_row. simpl. by rewrite -app_assoc.
  - apply ok_ret in Ha2 as [_ <-]. by exists [au1].
Qed.

Lemma advances_ensure_identity sid : advances (ensure_identity sid).
Proof.
  unfold ensure_identity, utc_now. skip_silent. apply advances_transaction.
  intros w r w' K H. run H as [<- <-]%ok_gets.
  case_bool_decide as Hin; [by apply ok_ret in H as [_ <-]|]. run H as Hm.
  apply ok_modify in Hm as ->. apply ok_bind in H as (h & ? & [Hh <-]%ok_lift & H). simpl in *.
  apply rtc_once. destruct (_policy_row sid (db w)) eqn:E; unfold id in *.
  - apply ok_ret in H as [_ <-]. simpl.
    pose proof (tx_subject (db w) sid a0 h Hin Hh) as Htx. rewrite E /= in Htx.
    by destruct (db w).
  - apply ok_modify in H as ->. simpl.
    pose proof (tx_subject (db w) sid a0 h Hin Hh) as Htx. rewrite E /= in Htx. exact Htx.
Qed.

(** ** Executions *)

Lemma require_execution_ok eid sid w x w' :
  ok (require_execution eid sid) w x w' →
  w' = w ∧ x ∈ executions (db w) ∧ x_execution_id x = eid ∧ x_subject_id x = sid.
Proof.
  unfold require_execution, execution_of_subject.
  intros (? & ? & [<- <-]%ok_gets & [H%ok_of_option <-]%ok_lift)%ok_bind.
  apply fetchone_Some in H as [? [?%bool_decide_eq_true ?%bool_decide_eq_true]%andb_true_iff].
  done.
Qed.
Lemma silent_execution_by_id eid : silent (execution_by_id eid).
Proof. unfold execution_by_id, subscript. solve_silent. Qed.

Lemma update_execution_effect eid f x w u w' :
  NoDup (map x_execution_id (executions (db w))) → x ∈ executions (db w) →
  x_execution_id x = eid → ok (update_execution eid f) w u w' →
  db w' = set_executions (replace_row x_execution_id x (f x)) (db w).
Proof.
  intros Hk Hx <- H. unfold update_execution in H. run H as [<- <-]%ok_gets.
  run H as [_ <-]%ok_constraint. run H as [_ <-]%ok_constraint.
  run H as [_ <-]%ok_constraint. apply ok_modify in H as ->. simpl.
  unfold set_executions. simpl. f_equal. by apply (update_key_replace x_execution_id).
Qed.
Lemma finish_attempt_effect x xs txh err now w u w' :
  NoDup (map t_attempt_id (attempts (db w))) →
  ok (_finish_attempt x xs txh err now) w u w' →
  ∃ t, t ∈ attempts (db w) ∧ t_execution_id t = x_execution_id x ∧
    t_attempt_number t = x_attempt_count x ∧
    db w' = set_attempts (replace_row t_attempt_id t (finished_attempt t xs txh err now)) (db w).
Proof.
  intros Hk H. unfold _finish_attempt, update_attempt in H. run H as [<- <-]%ok_gets.
  run H as [Ht%ok_of_option <-]%ok_lift.
  apply fetchone_Some in Ht as [Ht [?%bool_decide_eq_true ?%Z.eqb_eq]%andb_true_iff].
  run H as [<- <-]%ok_gets. run H as [_ <-]%ok_constraint. apply ok_modify in H as ->.
  eexists; split_and!; [done..|]. simpl. unfold set_attempts. simpl. f_equal.
  by apply (update_key_replace t_attempt_id).
Qed.

(** The common tail of the marking transactions. *)
Lemma mark_tail x o aid xs os jt txh err rc herr hrc w d1 d2 d3 w1 u1 w2 u2 w3 recs d' f now :
  keys (db w) → x ∈ executions (db w) → o ∈ orders (db w) →
  o_order_id o = x_order_id x → o_subject_id o = x_subject_id x →
  mark_case x o xs os jt err rc herr hrc →
  audited (x_subject_id x) aid (db w) d1 → moved o os d1 d2 → posted_opt o jt d2 d3 →
  ok (update_execution (x_execution_id x) f) w1 u1 w2 → db w1 = d3 →
  f x = marked_execution x xs txh err rc herr hrc aid now →
  ok (_finish_attempt x xs txh herr now) w2 u2 w3 →
  d' = set_reconciliations (λ l, l ++ recs) (db w3) → tx (db w) d'.
Proof.
  intros K Hx Ho Eo Es Hc Ha Hm Hp Hu E1 Hf Hfin ->.
  assert (executions d3 = executions (db w) ∧ attempts d3 = attempts (db w)) as [Ex Et].
  { open_effects. destruct jt; simpl in *; open_effects; by subst. }
  eapply update_execution_effect in Hu; [|rewrite E1 Ex; apply (k_executions _ K)|
    by rewrite E1 Ex|done].
  apply finish_attempt_effect in Hfin as (t & Ht & Te & Tn & ->);
    [|rewrite Hu /= E1 Et; apply (k_attempts _ K)].
  rewrite Hu /= E1 Et in Ht. rewrite Hu Hf E1. by eapply tx_mark.
Qed.

Lemma set_reconciliations_nil d : set_reconciliations (λ l, l ++ []) d = d.
Proof. unfold set_reconciliations. rewrite app_nil_r. by destruct d. Qed.

Lemma keys_audited sid aid d d' : keys d → audited sid aid d d' → keys d'.
Proof. intros [] H. open_effects. by split. Qed.

Lemma advances_mark_broadcast eid sid actor res : advances (_mark_broadcast eid sid actor res).
Proof.
  unfold _mark_broadcast, utc_now. apply advances_transaction. intros w r w' K H.
  run H as (-> & Hx & <- & <-)%require_execution_ok.
  run H as (-> & Ho & Eo & Es)%order_row_ok.
  case_bool_decide as Hs; simpl in H; [|by apply ok_ret in H as [_ <-]].
  run H as [_ <-]%ok_lift. run H as [_ <-]%ok_raise_if. run H as [<- <-]%ok_gets.
  run H as [_ <-]%ok_raise_if. run H as Ha%audit_effect. run H as Hm.
  run H as [-> ->]%ok_read_clock. run H as Hu. run H as Hf.
  apply (silent_pure _ (silent_execution_by_id _)) in H. rewrite H.
  assert (Ho' := Ho). destruct (Ha) as (? & _ & _ & Ed).
  eapply transition_order_effect in Hm; [|rewrite Ed; apply (k_orders _ K)|by rewrite Ed].
  apply rtc_once. eapply mark_tail; [done|exact Hx|exact Ho|done|done|by apply mc_broadcast|done|
    exact Hm|reflexivity|exact Hu|reflexivity|reflexivity|exact Hf|].
  symmetry. apply set_reconciliations_nil.
Qed.

(** What the marking transactions share up to the order's transition. *)
Ltac finish_mark K Hx Ho Ha Hm Hp Hu Hf case :=
  apply rtc_once; eapply mark_tail;
    [exact K|exact Hx|exact Ho|done|done|by apply case|exact Ha|exact Hm|first [exact Hp|reflexivity]|exact Hu|reflexivity
    |reflexivity|exact Hf|].

Lemma move_after_audit row target actor reason sid aid w w1 u w2 :
  keys (db w) → row ∈ orders (db w) → audited sid aid (db w) (db w1) →
  ok (_transition_order row target actor reason) w1 u w2 → moved row target (db w1) (db w2).
Proof.
  intros K Hr (a & _ & _ & E) H.
  eapply transition_order_effect; [rewrite E; apply (k_orders _ K)|by rewrite E|done].
Qed.

Lemma advances_mark_unknown eid sid actor txh code :
  advances (_mark_unknown eid sid actor txh code).
Proof.
  unfold _mark_unknown, utc_now. apply advances_transaction. intros w r w' K H.
  run H as (-> & Hx & <- & <-)%require_execution_ok.
  run H as (-> & Ho & Eo & Es)%order_row_ok.
  case_bool_decide as Hs; simpl in H; [|by apply ok_ret in H as [_ <-]].
  destruct (match txh with Some _ => _ | None => _ end) as [tx' code'].
  run H as Ha%audit_effect. run H as Hm. run H as [-> ->]%ok_read_clock. run H as Hu.
  run H as Hf. apply (silent_pure _ (silent_execution_by_id _)) in H. rewrite H.
  eapply move_after_audit in Hm; [|done..].
  finish_mark K Hx Ho Ha Hm I Hu Hf mc_unknown.
  symmetry. apply set_reconciliations_nil.
Qed.

Lemma advances_mark_failed eid sid actor code txh rc :
  advances (_mark_failed eid sid actor code txh rc).
Proof.
  unfold _mark_failed, utc_now. apply advances_transaction. intros w r w' K H.
  run H as (-> & Hx & <- & <-)%require_execution_ok.
  run H as (-> & Ho & Eo & Es)%order_row_ok.
  case_bool_decide as Hs; simpl in H; [|by apply ok_ret in H as [_ <-]].
  run H as Htx. assert (x2 = w) as ->.
  { destruct txh; [run Htx as [_ <-]%ok_lift|]; by apply ok_ret in Htx as [_ <-]. }
  run H as Ha%audit_effect. run H as Hm. run H as [-> ->]%ok_read_clock. run H as Hu.
  run H as Hf. apply (silent_pure _ (silent_execution_by_id _)) in H. rewrite H.
  eapply move_after_audit in Hm; [|done..].
  finish_mark K Hx Ho Ha Hm I Hu Hf mc_failed.
  symmetry. apply set_reconciliations_nil.
Qed.

Lemma advances_mark_confirmed eid sid actor receipt :
  advances (_mark_confirmed eid sid actor receipt).
Proof.
  unfold _mark_confirmed, utc_now. apply advances_transaction. intros w r w' K H.
  run H as (-> & Hx & <- & <-)%require_execution_ok.
  run H as (-> & Ho & Eo & Es)%order_row_ok.
  case_bool_decide as Hs; simpl in H; [by apply ok_ret in H as [_ <-]|].
  run H as [Hs'%negb_false_iff%bool_decide_eq_true_1 <-]%ok_raise_if. run H as [_ <-]%ok_lift.
  run H as Ha%audit_effect. run H as Hm. run H as Hp.
  run H as [-> ->]%ok_read_clock. run H as Hu.
  run H as Hf. apply (silent_pure _ (silent_execution_by_id _)) in H. rewrite H.
  eapply move_after_audit in Hm; [|done..]. apply (post_journal_effect _ JSettlement) in Hp.
  finish_mark K Hx Ho Ha Hm Hp Hu Hf mc_confirmed.
  symmetry. apply set_reconciliations_nil.
Qed.

Lemma advances_reconcile eid sid actor reason :
  advances (mark_reconcile_required eid sid actor reason).
Proof.
  unfold mark_reconcile_required, utc_now. skip_silent.
  apply advances_transaction. intros w r w' K H.
  run H as (-> & Hx & <- & <-)%require_execution_ok.
  case_bool_decide as Hc; simpl in H; [|by apply ok_ret in H as [_ <-]].
  run H as (-> & Ho & Eo & Es)%order_row_ok.
  run H as [Hs%negb_false_iff%bool_decide_eq_true_1 <-]%ok_raise_if.
  run H as [-> ->]%ok_read_clock. run H as Ha%audit_effect. run H as Hm. run H as Hu.
  run H as Hf. run H as Hn%pure_new_id. unfold insert_reconciliation in H. run H as Hi.
  run Hi as [<- <-]%ok_gets. run Hi as [_ <-]%ok_constraint. apply ok_modify in Hi as ->.
  apply (silent_pure _ (silent_execution_by_id _)) in H. rewrite H /= Hn.
  eapply move_after_audit in Hm; [|done..].
  finish_mark K Hx Ho Ha Hm I Hu Hf mc_reconcile.
  done.
Qed.

Lemma advances_recover_one sid actor eid : advances (recover_one sid actor eid).
Proof.
  unfold recover_one, utc_now. apply advances_transaction. intros w r w' K H.
  run H as [<- <-]%ok_gets. unfold execution_of_subject in H.
  destruct (fetchone _ _) as [x|] eqn:E; [|by apply ok_ret in H as [_ <-]].
  apply fetchone_Some in E as [Hx [<-%bool_decide_eq_true <-%bool_decide_eq_true]%andb_true_iff].
  case_bool_decide as Hc; simpl in H; [|by apply ok_ret in H as [_ <-]].
  run H as (-> & Ho & Eo & Es)%order_row_ok.
  run H as [Hs%negb_false_iff%bool_decide_eq_true_1 <-]%ok_raise_if.
  run H as Ha%audit_effect. run H as Hm. run H as [-> ->]%ok_read_clock. run H as Hu.
  run H as Hf. run H as Hl%(silent_pure _ (silent_execution_by_id _)).
  apply ok_ret in H as [_ <-]. rewrite Hl. eapply move_after_audit in Hm; [|done..].
  finish_mark K Hx Ho Ha Hm I Hu Hf mc_recover.
  symmetry. apply set_reconciliations_nil.
Qed.
Lemma advances_recover sid actor limit :
  advances (recover_database_inflight sid actor limit).
Proof.
  unfold recover_database_inflight. skip_silent. generalize a2. clear a2.
  intros rows. induction rows as [|x rows IH]; simpl; [by apply advances_silent|].
  apply advances_bind; [apply advances_recover_one|intros ?].
  apply advances_bind; [apply IH|intros ?]. by apply advances_silent.
Qed.

(** ** Admission to signing *)

Lemma silent_call {A} (f : nat → result A) : silent (call f).
Proof. unfold call. solve_silent. Qed.
Lemma silent_authorized_policy o oid sid msg : silent (authorized_policy o oid sid msg).
Proof.
  unfold authorized_policy. pose proof silent_policy_allows. solve_silent.
Qed.
Lemma silent_fee_budget sid nid ty aid mb gas fee age ex :
  silent (_check_observed_fee_budget sid nid ty aid mb gas fee age ex).
Proof. unfold _check_observed_fee_budget, self_clock. solve_silent. Qed.
Lemma silent_choose_nonce sid nid addr chain n : silent (choose_nonce sid nid addr chain n).
Proof. unfold choose_nonce. pose proof (@silent_call). solve_silent. Qed.
Lemma silent_quoted t : silent (quoted t).
Proof. unfold quoted. apply silent_rethrow. pose proof (@silent_call). solve_silent. Qed.

Lemma insert_attempt_effect eid sid n request now aid w u w' :
  ok (insert_signing_attempt eid sid n request now aid) w u w' →
  ∃ tid, let t := signing_attempt tid eid sid n request now aid in
    attempt_unique (attempts (db w)) t = true ∧
    db w' = set_attempts (append_row t) (db w).
Proof.
  unfold insert_signing_attempt, insert_attempt. intros H. run H as Hi%pure_new_id.
  run H as [<- <-]%ok_gets. run H as [_ <-]%ok_constraint. run H as [_ <-]%ok_constraint.
  run H as [Hu <-]%ok_constraint. apply ok_modify in H as ->. simpl in *.
  rewrite Hi in Hu. rewrite Hi. by eexists.
Qed.

Lemma advances_prepare_execution oid sid actor gas fee nonce :
  advances (prepare_execution oid sid actor gas fee nonce).
Proof.
  unfold prepare_execution, utc_now. skip_silent. apply advances_transaction.
  intros w r w' K H. run H as (-> & Ho & <- & <-)%order_row_ok.
  run H as [Hs%negb_false_iff%bool_decide_eq_true_1 <-]%ok_raise_if.
  run H as E1%(silent_pure _ (silent_authorized_policy _ _ _ _)).
  run H as E2%(silent_pure _ (silent_asset_row _ _)).
  run H as E3%(silent_pure _ (silent_network_row _ _)).
  run H as [_ <-]%ok_raise_if. run H as [<- <-]%ok_gets. run H as [_ <-]%ok_lift.
  run H as [Hsrc%bool_decide_eq_false <-]%ok_raise_if. run H as E4%(silent_pure _ (silent_choose_nonce _ _ _ _ _)).
  run H as [_ <-]%ok_lift. run H as E5.
  apply silent_pure in E5; [|pose proof silent_quoted; solve_silent].
  destruct (_ : Z * string * WalletUnsignedTransfer) as [[gas' fee'] transfer] in H.
  run H as E6%(silent_pure _ (silent_fee_budget _ _ _ _ _ _ _ _ _)).
  run H as E7%pure_new_id. run H as [-> ->]%ok_read_clock. run H as Ha%audit_effect.
  run H to wm as Hm. unfold insert_execution in H. run H as Hi. run Hi as [<- <-]%ok_gets.
  run Hi as [_ <-]%ok_constraint. run Hi as [_ <-]%ok_constraint.
  run Hi as [Hu <-]%ok_constraint. apply ok_modify in Hi as ->.
  run H as (tid & Ht & Hd)%insert_attempt_effect.
  run H as E8%(silent_pure _ (silent_execution_by_id _)). apply ok_ret in H as [_ <-].
  simpl in *. rewrite E7 E6 E5 E4 E3 E2 E1 in Ha.
  eapply move_after_audit in Hm; [|done..]. rewrite E8 Hd. simpl.
  assert (executions (db wm) = executions (db w) ∧ attempts (db wm) = attempts (db w)) as [Ex Et].
  { clear -Ha Hm. destruct Ha as (? & _ & _ & Ha), Hm as (_ & _ & ? & ? & ? & (? & _ & _ & ->) & ->).
    simpl. by rewrite Ha. }
  rewrite -> Ex in Hu. rewrite -> Et in Ht. apply rtc_once. eapply tx_prepare; eauto 20.
Qed.

Lemma advances_prepare_retry oid sid actor reason :
  advances (prepare_retry oid sid actor reason).
Proof.
  unfold prepare_retry, utc_now. skip_silent. apply advances_transaction.
  intros w r w' K H. run H as (-> & Ho & <- & <-)%order_row_ok.
  run H as [Hs%negb_false_iff%bool_decide_eq_true_1 <-]%ok_raise_if.
  run H as E1%(silent_pure _ (silent_authorized_policy _ _ _ _)).
  run H as [<- <-]%ok_gets. run H as [Hx%ok_of_option <-]%ok_lift.
  apply fetchone_Some in Hx as [Hx [Ho'%bool_decide_eq_true Hs'%bool_decide_eq_true]%andb_true_iff].
  run H as [_ <-]%ok_raise_if. run H as [Hn%Z.ltb_ge <-]%ok_raise_if.
  run H as [_ <-]%ok_lift. run H as [<- <-]%ok_gets.
  destruct (_spending_address _ _ _); [|by apply ok_raise in H].
  run H as [_ <-]%ok_raise_if. run H as E6%(silent_pure _ (silent_fee_budget _ _ _ _ _ _ _ _ _)).
  run H as Ha%audit_effect. run H to wm as Hm. run H as [-> ->]%ok_read_clock. run H as Hu.
  run H as (tid & Ht & Hd)%insert_attempt_effect.
  run H as E8%(silent_pure _ (silent_execution_by_id _)). apply ok_ret in H as [_ <-].
  simpl in *. rewrite E6 E1 in Ha. rewrite E1 in Hx. eapply move_after_audit in Hm; [|done..].
  assert (executions (db wm) = executions (db w) ∧ attempts (db wm) = attempts (db w)) as [Ex Et].
  { clear -Ha Hm. destruct Ha as (? & _ & _ & Ha), Hm as (_ & _ & ? & ? & ? & (? & _ & _ & ->) & ->).
    simpl. by rewrite Ha. }
  eapply update_execution_effect in Hu; [|simpl; rewrite Ex; apply (k_executions _ K)|
    by rewrite /= Ex|done].
  rewrite E8 Hd Hu. rewrite -> Hu in Ht. simpl in *. rewrite -> Et in Ht.
  apply rtc_once. eapply tx_retry; eauto.
Qed.

(** ** The engine's entry points *)

Lemma silent_get_execution eid sid : silent (get_execution eid sid).
Proof. unfold get_execution, read_transaction. solve_silent. Qed.
Lemma silent_order_execution oid sid : silent (_order_execution oid sid).
Proof. unfold _order_execution, read_transaction. solve_silent. Qed.
Lemma silent_get_policy sid : silent (get_policy sid).
Proof. unfold get_policy, read_transaction. solve_silent. apply silent_transaction. solve_pure. Qed.
Lemma silent_order_row oid sid : silent (_order_row oid sid).
Proof. unfold _order_row. solve_silent. Qed.
Lemma silent_authorize t request x v : silent (authorize t request x v).
Proof.
  unfold authorize, assert_current_lease, read_transaction, dispatch_authorized.
  pose proof silent_policy_allows. pose proof silent_get_execution.
  pose proof silent_order_row. solve_silent. apply silent_transaction, silent_pure.
  solve_silent.
Qed.
Lemma silent_sign t request x v : silent (_sign_and_broadcast t request x v).
Proof.
  unfold _sign_and_broadcast. apply silent_bind; [apply silent_authorize|intros ?].
  apply silent_call.
Qed.

Lemma advances_dispatch_failed first x sid actor e :
  advances (dispatch_failed first x sid actor e).
Proof.
  unfold dispatch_failed. destruct e;
    try apply advances_mark_unknown;
    try (destruct first; [apply advances_mark_failed|apply advances_mark_unknown]).
  apply advances_bind; [apply advances_mark_unknown|intros ?]. by apply advances_silent.
Qed.
Lemma advances_dispatch first p sid actor v : advances (dispatch first p sid actor v).
Proof.
  destruct p as [[x transfer] request]. unfold dispatch. apply advances_bind.
  - apply advances_catch.
    + apply advances_silent, silent_bind; [apply silent_sign|intros ?]. done.
    + intros e m' [= <-]. apply advances_bind; [apply advances_dispatch_failed|intros ?].
      by apply advances_silent.
  - intros [result|record]; [|by apply advances_silent].
    destruct (negb _); [apply advances_mark_unknown|].
    apply advances_catch; [apply advances_mark_broadcast|].
    intros e m'. destruct (is_execution_error e); [|done]. intros [= <-].
    apply advances_mark_unknown.
Qed.

Lemma advances_execute oid sid actor gas fee nonce :
  advances (execute_order oid sid actor gas fee nonce).
Proof.
  unfold execute_order. pose proof silent_get_policy. skip_silent.
  apply advances_bind; [apply advances_prepare_execution|intros ?].
  apply advances_dispatch.
Qed.

Lemma silent_find_receipt x hashes : ∀ err, silent (find_receipt x hashes err).
Proof.
  induction hashes as [|h hashes IH]; intros err; simpl; [done|].
  apply silent_bind.
  - apply silent_catch; [|by intros e m' [= <-]].
    apply silent_bind; [apply silent_call|done].
  - intros [[receipt|]|code]; [destruct (_valid_receipt _ _ _); [done|]|..]; apply IH.
Qed.
Lemma silent_lookup_receipt x : silent (_lookup_receipt x).
Proof.
  unfold _lookup_receipt, read_transaction. apply silent_bind; [|intros; apply silent_find_receipt].
  apply silent_transaction. solve_pure.
Qed.
Lemma advances_settle_receipt eid sid actor receipt :
  advances (settle_receipt eid sid actor receipt).
Proof.
  unfold settle_receipt. destruct (_ =? _);
    [apply advances_mark_confirmed|apply advances_mark_failed].
Qed.

Lemma advances_retry oid sid actor reason : advances (retry_unknown oid sid actor reason).
Proof.
  unfold retry_unknown. pose proof silent_get_policy. pose proof silent_order_execution.
  pose proof silent_lookup_receipt. skip_silent.
  destruct (_ : option (WalletExecutionRecord * WalletReceipt)) as [[x receipt]|].
  - apply advances_settle_receipt.
  - apply advances_bind; [apply advances_prepare_retry|intros ?]. apply advances_dispatch.
Qed.
Lemma advances_poll eid sid actor : advances (poll_receipt eid sid actor).
Proof.
  unfold poll_receipt. pose proof silent_get_execution. pose proof silent_lookup_receipt.
  skip_silent. destruct (negb _); [by apply advances_silent|]. skip_silent.
  destruct (_ : option WalletReceipt * option string) as [[receipt|] [err|]];
    try apply advances_settle_receipt.
  - case_bool_decide; [by apply advances_silent|apply advances_mark_unknown].
  - case_bool_decide; [|by apply advances_silent].
    apply advances_bind; [apply advances_silent; unfold _confirmation_timed_out, self_clock;
      solve_silent|intros late].
    destruct late; [apply advances_mark_unknown|by apply advances_silent].
Qed.
End steps.
