(* ===== verification/WalletSystem.v ===== *)
(** * The wallet as a transition system

    The public operations of the economy store, of the execution engine and
    of the registry as one type of commands, the transition relation they
    generate together with the other components that write to the tables,
    and the states reachable from an empty database.  A call of the engine
    commits a first transaction before it talks to the signer; a process
    that dies in between is a command of its own ([ExecuteInterrupted],
    [RetryInterrupted]), so reachable states include those a crash leaves.
    [wallet_reach] is the same set seen as sequences of transactions. *)

From S2P Require Import Prelude Tables PyStr Json Digest Time WalletTypes RegistryTypes WalletTransfer WalletDb.
From S2P Require Import WalletEconomy WalletOrders WalletSubmissions WalletExecution WalletEngine.
From S2P Require Import RegistryDb RegistryStore WalletIntegrity WalletEffects RegistryFrame WalletSteps.
From stdpp Require Import relations.
Local Open Scope Z_scope.

Definition empty_db : wallet_db :=
  {| subjects := []; networks := []; assets := []; addresses := [];
     network_revisions := []; asset_revisions := []; address_revisions := []; snapshots := [];
     projects := []; goals := []; bounties := []; submissions := []; policies := [];
     orders := []; journals := []; entries := []; executions := []; attempts := [];
     reconciliations := []; audits := [] |}.

(** Inputs that are pydantic models arrive as raw fields and are validated. *)
Inductive wallet_op :=
| EnsureIdentity (subject_id : string)
| CreateBounty (subject_id : string) (proposal : BountyInput) (actor : string)
| PublishBounty (bounty_id subject_id actor : string)
| CloseBounty (bounty_id subject_id actor : string)
| CancelBounty (bounty_id subject_id actor : string)
| MaintainExpired (subject_id : string) (limit : Z)
| Submit (bounty_id subject_id : string) (proposal : SubmissionInput)
| Decide (submission_id subject_id : string) (accepted : bool) (reason actor : string)
| Withdraw (submission_id subject_id actor : string)
| UpdatePolicy (subject_id : string) (proposal : PaymentPolicyInput) (expected_version : Z)
    (actor : string) (automation_request : option (list (string * string)))
| ConfirmOrder (order_id subject_id actor : string)
| RejectOrder (order_id subject_id actor reason : string)
| CancelOrder (order_id subject_id actor reason : string)
| RefundOrder (order_id subject_id actor reason : string)
| ExecuteOrder (order_id subject_id actor : string) (gas_limit : option Z)
    (max_fee_per_gas : option string) (nonce : option Z)
| RetryUnknown (order_id subject_id actor reason : string)
| ExecuteInterrupted (order_id subject_id actor : string) (gas_limit : option Z)
    (max_fee_per_gas : option string) (nonce : option Z)
| RetryInterrupted (order_id subject_id actor reason : string)
| PollReceipt (execution_id subject_id actor : string)
| ReconcileRequired (execution_id subject_id actor reason : string)
| RecoverInflight (subject_id actor : string) (limit : Z)
| RegisterNetwork (subject_id : string) (proposal : WalletNetworkInput) (actor : string)
| RegisterAsset (subject_id : string) (proposal : WalletAssetInput) (actor : string)
| RegisterAddress (subject_id : string) (proposal : WalletAddressInput) (actor : string)
| RevokeNetwork (network_id reason actor subject_id : string)
| RevokeAsset (asset_id reason actor subject_id : string)
| RevokeAddress (address_id reason actor subject_id : string)
| RecordBalance (subject_id : string) (proposal : WalletBalanceSnapshotInput) (actor : string).

Section system.
Context {Dg : Digest} {En : Env} {Sg : Signer} {Hosts : HostNames}.

Definition run_op (op : wallet_op) : W unit :=
  match op with
  | EnsureIdentity sid => ensure_identity sid
  | CreateBounty sid raw actor =>
      p ← lift (validate_BountyInput raw); create_bounty sid p actor ;; mret tt
  | PublishBounty b s a => publish_bounty b s a ;; mret tt
  | CloseBounty b s a => close_bounty b s a ;; mret tt
  | CancelBounty b s a => cancel_bounty b s a ;; mret tt
  | MaintainExpired s n => maintain_expired_bounties s n ;; mret tt
  | Submit b s raw =>
      p ← lift (validate_SubmissionInput raw); submit_to_bounty b s p ;; mret tt
  | Decide x s b r a => decide_submission x s b r a ;; mret tt
  | Withdraw x s a => withdraw_submission x s a ;; mret tt
  | UpdatePolicy s raw v a request =>
      p ← lift (validate_PaymentPolicyInput raw); update_policy s p v a request ;; mret tt
  | ConfirmOrder o s a => confirm_order o s a ;; mret tt
  | RejectOrder o s a r => reject_order o s a r ;; mret tt
  | CancelOrder o s a r => cancel_order o s a r ;; mret tt
  | RefundOrder o s a r => refund_order o s a r ;; mret tt
  | ExecuteOrder o s a gas fee nonce => execute_order o s a gas fee nonce ;; mret tt
  | RetryUnknown o s a r => retry_unknown o s a r ;; mret tt
  | ExecuteInterrupted o s a gas fee nonce =>
      actor ← lift (_operator a); prepare_execution o s actor gas fee nonce ;; mret tt
  | RetryInterrupted o s a r =>
      actor ← lift (_operator a); prepare_retry o s actor (strip r) ;; mret tt
  | PollReceipt x s a => poll_receipt x s a ;; mret tt
  | ReconcileRequired x s a r => mark_reconcile_required x s a r ;; mret tt
  | RecoverInflight s a n => recover_database_inflight s a n ;; mret tt
  | RegisterNetwork s raw a =>
      p ← lift (validate_WalletNetworkInput raw); register_network s p a ;; mret tt
  | RegisterAsset s raw a =>
      p ← lift (validate_WalletAssetInput raw); register_asset s p a ;; mret tt
  | RegisterAddress s raw a =>
      p ← lift (validate_WalletAddressInput raw); register_address s p a ;; mret tt
  | RevokeNetwork n r a s => revoke_network n r a s ;; mret tt
  | RevokeAsset n r a s => revoke_asset n r a s ;; mret tt
  | RevokeAddress n r a s => revoke_address n r a s ;; mret tt
  | RecordBalance s raw a =>
      p ← lift (validate_WalletBalanceSnapshotInput raw); record_balance_snapshot s p a ;; mret tt
  end.

Lemma advances_then_done {A} (m : W A) : advances m → advances (m ;; mret tt).
Proof. intros H. apply advances_bind; [done|intros ?]. by apply advances_silent. Qed.
Lemma advances_lift {A B} (r : result A) (k : A → W B) :
  (∀ a, r = Ok a → advances (k a)) → advances (lift r ≫= k).
Proof.
  intros H w K. destruct r as [a|e]; [|done]. by apply (H a).
Qed.

(** An operation of another component, whose own tables these are not. *)
Lemma advances_economy {A} (m : W A) : (∀ d, preserves (same_economy d) m) → advances m.
Proof. intros H w K. apply rtc_once, tx_environment. apply H, same_economy_refl. Qed.

Lemma advances_run_op op : advances (run_op op).
Proof.
  destruct op; cbn [run_op]; try apply advances_then_done;
    [ apply advances_ensure_identity
    | apply advances_lift; intros; apply advances_then_done, advances_create_bounty; eauto
    | apply advances_transition_bounty | apply advances_transition_bounty
    | apply advances_transition_bounty | apply advances_maintain
    | apply advances_lift; intros; apply advances_then_done, advances_submit
    | apply advances_decide | apply advances_withdraw
    | apply advances_lift; intros; apply advances_then_done, advances_update_policy; eauto
    | apply advances_confirm | apply advances_reject | apply advances_cancel
    | apply advances_refund | apply advances_execute | apply advances_retry
    | apply advances_lift; intros; apply advances_then_done, advances_prepare_execution
    | apply advances_lift; intros; apply advances_then_done, advances_prepare_retry
    | apply advances_poll | apply advances_reconcile | apply advances_recover
    | apply advances_lift; intros; apply advances_then_done, advances_economy; intros;
      apply register_network_economy
    | apply advances_lift; intros; apply advances_then_done, advances_economy; intros;
      apply register_asset_economy
    | apply advances_lift; intros; apply advances_then_done, advances_economy; intros;
      apply register_address_economy
    | apply advances_economy; intros; apply revoke_network_economy
    | apply advances_economy; intros; apply revoke_asset_economy
    | apply advances_economy; intros; apply revoke_address_economy
    | apply advances_lift; intros; apply advances_then_done, advances_economy; intros;
      apply record_balance_economy ].
Qed.

(** A step of the system: a call, or a write of another component. *)
Inductive wallet_step (w : world wallet_db) : world wallet_db → Prop :=
| step_op op : wallet_step w (run_op op w).2
| step_other d' t f : same_economy (db w) d' → wallet_step w (World d' t f).

(** The states reachable by complete calls from an empty database. *)
Definition reachable (w : world wallet_db) : Prop :=
  ∃ w0, db w0 = empty_db ∧ rtc wallet_step w0 w.
(** The tables reachable by transactions: also those a crash leaves. *)
Definition wallet_reach (d : wallet_db) : Prop := rtc tx empty_db d.

Lemma keys_empty : keys empty_db.
Proof. split; simpl; apply NoDup_nil_2. Qed.
Lemma wallet_reach_keys d : wallet_reach d → keys d.
Proof. intros H. eapply keys_rtc; [apply keys_empty|done]. Qed.

Lemma reachable_reach w : reachable w → wallet_reach (db w).
Proof.
  intros (w0 & E & H). unfold wallet_reach. rewrite -E.
  assert (K : keys (db w0)) by (rewrite E; apply keys_empty). clear E.
  induction H as [w|w w1 w2 H1 H IH]; [done|].
  assert (Hs : rtc tx (db w) (db w1)).
  { destruct H1 as [op|d' t f He]; [by apply advances_run_op|].
    simpl. by apply rtc_once, tx_environment. }
  etrans; [exact Hs|]. apply IH. by eapply keys_rtc.
Qed.

(** Invariants are proved along transactions. *)
Lemma wallet_invariant (I : wallet_db → Prop) :
  I empty_db → (∀ d d', keys d → I d → tx d d' → I d') → ∀ d, wallet_reach d → I d.
Proof.
  intros H0 Hs d. unfold wallet_reach. pose proof keys_empty as K. revert K H0.
  generalize empty_db. intros d0 K H0 H.
  induction H as [d|d d1 d2 Ht H IH]; [done|]. apply IH; [by eapply keys_tx|by eapply Hs].
Qed.
End system.
