(* ===== verification/WalletLedger.v ===== *)
(** * The ledger and the life of an order

    The abstract payment machine: an order is a status and the list of the
    journals posted for it.  Every wallet transaction moves every order by
    at most one step of that machine, and keeps the ledger a list of
    balanced double entries. *)

From S2P Require Import Prelude Tables PyStr Json Digest Time WalletTypes RegistryTypes WalletTransfer WalletDb.
From S2P Require Import WalletEconomy WalletOrders WalletSubmissions WalletExecution WalletEngine.
From S2P Require Import WalletIntegrity WalletEffects WalletSteps WalletSystem.
From stdpp Require Import relations.
Local Open Scope Z_scope.

(** ** The abstract payment machine *)

(** A step of an order and the journal it posts, if any. *)
Definition pay_rule (s t : PaymentOrderStatus) (jt : option JournalType) : bool :=
  match s, t, jt with
  | OPendingPolicy, (OAwaitingConfirmation | ORejected | OCancelled), None
  | OAwaitingConfirmation, (ORejected | OCancelled), None
  | (OPendingPolicy | OAwaitingConfirmation), OReserved, Some JReservation
  | OReserved, OCancelled, Some JRelease
  | OReserved, OSigning, None
  | OSigning, (OBroadcast | OUnknown | OFailed), None
  | OBroadcast, (OUnknown | OFailed), None
  | OUnknown, (OSigning | OFailed), None
  | (OBroadcast | OUnknown), OConfirmed, Some JSettlement
  | OConfirmed, OUnknown, None
  | OFailed, ORefunded, Some JRefund => true
  | _, _, _ => false
  end.

Definition pay_state : Type := PaymentOrderStatus * list JournalType.
Definition opt_list {A} (o : option A) : list A := match o with Some a => [a] | None => [] end.

(** A journal kind is posted at most once. *)
Inductive pay_step : pay_state → pay_state → Prop :=
| pay_move s t jt l :
    pay_rule s t jt = true → (∀ x, jt = Some x → x ∉ l) →
    pay_step (s, l) (t, l ++ opt_list jt).

(** The journals an order in each status can have. *)
Definition pay_journals (s : PaymentOrderStatus) (l : list JournalType) : bool :=
  let one := [JReservation] in
  let settled := [JReservation; JSettlement] in
  match s with
  | OPendingPolicy | OAwaitingConfirmation | ORejected => l == []
  | OReserved => l == one
  | OCancelled => (l == []) || (l == [JReservation; JRelease])
  | OSigning | OBroadcast | OUnknown | OFailed => (l == one) || (l == settled)
  | OConfirmed => l == settled
  | ORefunded => (l == [JReservation; JRefund]) || (l == [JReservation; JSettlement; JRefund])
  | OExpired => false
  end.

Lemma pay_journals_step s l t l' :
  pay_step (s, l) (t, l') → pay_journals s l = true → pay_journals t l' = true.
Proof.
  inversion 1 as [? ? jt ? Hr Hn]; subst. intros Hj.
  destruct s, t; destruct jt as [[]|]; simpl in *; try done;
    repeat case_bool_decide; subst; simpl in *; try done;
    exfalso; (eapply Hn; [reflexivity|in_list]).
Qed.

(** ** What a transaction does to the orders and the ledger *)

(** An order's identity: everything but its status, times, audit and hash. *)
Definition same_order (o o' : order_row) : Prop :=
  o_order_id o' = o_order_id o ∧ o_subject_id o' = o_subject_id o ∧
  o_bounty_id o' = o_bounty_id o ∧ o_submission_id o' = o_submission_id o ∧
  o_network_id o' = o_network_id o ∧ o_asset_id o' = o_asset_id o ∧
  o_recipient_address o' = o_recipient_address o ∧ o_amount o' = o_amount o ∧
  o_payment_mode o' = o_payment_mode o ∧ o_policy_version o' = o_policy_version o ∧
  o_idempotency_key o' = o_idempotency_key o ∧ o_created_at o' = o_created_at o.

#[global] Instance same_order_refl : Reflexive same_order.
Proof. intros o. unfold same_order. by split_and!. Qed.
#[global] Instance same_order_trans : Transitive same_order.
Proof. unfold same_order. intros x y z. naive_solver congruence. Qed.

Section ledger.
Context {Dg : Digest} {En : Env} {Sg : Signer} {Hosts : HostNames}.

Lemma moved_row_same row target now aid : same_order row (moved_row row target now aid).
Proof. unfold same_order. by split_and!. Qed.

(** The journal and entry tables after posting [jt] for [row]. *)
Definition posts (row : order_row) (jt : option JournalType) (d d' : wallet_db) : Prop :=
  match jt with
  | None => journals d' = journals d ∧ entries d' = entries d
  | Some t => ∃ j e1 e2,
      journal_for row t j ∧ entry_for j (sides t).1 e1 ∧ entry_for j (sides t).2 e2 ∧
      (∀ x, x ∈ journals d → ¬ (j_order_id x = o_order_id row ∧ j_journal_type x = t)) ∧
      (∀ x, x ∈ journals d → j_journal_id x ≠ j_journal_id j) ∧
      (∀ x, x ∈ entries d → e_entry_id x ≠ e_entry_id e1) ∧
      (∀ x, x ∈ entries d → e_entry_id x ≠ e_entry_id e2) ∧ e_entry_id e1 ≠ e_entry_id e2 ∧
      journals d' = append_row j (journals d) ∧
      entries d' = append_row e2 (append_row e1 (entries d))
  end.

(** The order placed for an accepted submission [s] of the bounty [b]. *)
Record order_for (s : submission_row) (b : bounty_row) (o : order_row) : Prop := {
  of_submission : o_submission_id o = s_submission_id s;
  of_bounty : o_bounty_id o = s_bounty_id s;
  of_subject : o_subject_id o = s_subject_id s;
  of_recipient : o_recipient_address o = s_recipient_address s;
  of_amount : o_amount o = b_reward_amount b;
  of_network : o_network_id o = b_network_id b;
  of_asset : o_asset_id o = b_asset_id b;
}.

(** Nothing; one order moves, with its journal; one order is placed. *)
Inductive order_event (d d' : wallet_db) : Prop :=
| oe_none :
    orders d' = orders d → journals d' = journals d → entries d' = entries d →
    order_event d d'
| oe_move o target now aid jt :
    o ∈ orders d → pay_rule (o_status o) target jt = true →
    orders d' = replace_row o_order_id o (moved_row o target now aid) (orders d) →
    posts o jt d d' → order_event d d'
| oe_place s b row target now aid jt :
    s ∈ submissions d → s_status s = SSubmitted → b ∈ bounties d →
    b_bounty_id b = s_bounty_id s → order_for s b row →
    (∀ o, o ∈ orders d → o_submission_id o ≠ o_submission_id row) →
    (∀ o, o ∈ orders d → o_order_id o ≠ o_order_id row) →
    o_status row = OPendingPolicy →
    orders d' = append_row (moved_row row target now aid) (orders d) →
    pay_rule OPendingPolicy target jt = true → posts row jt d d' → order_event d d'.

Lemma replace_appended (row row' : order_row) t :
  (∀ o, o ∈ t → o_order_id o ≠ o_order_id row) →
  replace_row o_order_id row row' (append_row row t) = append_row row' t.
Proof.
  intros H. unfold replace_row, update_where, append_row. rewrite map_app /=.
  rewrite bool_decide_true //. f_equal. rewrite -{2}(map_id t). apply map_ext_in.
  intros x Hx%list_elem_of_In. rewrite bool_decide_false //. by apply H.
Qed.

Lemma posted_posts row t d1 d d' :
  posted row t d d' → journals d = journals d1 → entries d = entries d1 →
  posts row (Some t) d1 d'.
Proof.
  intros (j & e1 & e2 & ? & ? & ? & ? & ? & ? & ? & ? & ->) G1 G2. simpl. rewrite -G1 -G2.
  exists j, e1, e2. by split_and!.
Qed.

Lemma placed_event s b sub d0 d d' :
  keys d → s ∈ submissions d0 → s_status s = SSubmitted → b ∈ bounties d →
  b_bounty_id b = s_bounty_id s →
  sr_submission_id sub = s_submission_id s → sr_bounty_id sub = s_bounty_id s →
  sr_subject_id sub = s_subject_id s → sr_recipient_address sub = s_recipient_address s →
  orders d0 = orders d → journals d0 = journals d → entries d0 = entries d →
  bounties d0 = bounties d → placed sub d d' → order_event d0 d'.
Proof.
  intros K Hs Hst Hb Eb F1 F2 F3 F4 G1 G2 G3 G4 H.
  destruct H as (oid & b' & now & aid & d1 & Hnew & Hb' & Ha & _ & Hu & Hm).
  apply bounty_by_id_Some in Hb' as [Hb' Eb'].
  assert (b' = b) as ->.
  { eapply (key_unique b_bounty_id); [apply (k_bounties _ K)|done|done|congruence]. }
  set (row := new_order_row oid sub b _ aid now) in *.
  assert (Hof : order_for s b row) by (split; simpl; congruence).
  assert (Hid : ∀ o, o ∈ orders d0 → o_order_id o ≠ o_order_id row).
  { rewrite G1. apply andb_true_iff in Hu as [[Hu _]%andb_true_iff _].
    intros o Ho E. eapply exists_none in Ho; [|exact Hu]. by rewrite bool_decide_eq_false in Ho. }
  assert (Hsub : ∀ o, o ∈ orders d0 → o_submission_id o ≠ o_submission_id row).
  { rewrite G1. intros o Ho. by apply Hnew. }
  destruct Ha as (a & _ & _ & ->). unfold reserved in Hm.
  destruct Hm as [(_ & _ & n & i & ? & (? & _ & _ & ->) & ->)
    |[[_ (_ & _ & n & i & ? & (? & _ & _ & ->) & ->)]
     |[_ (d2 & (_ & _ & n & i & ? & (? & _ & _ & ->) & ->) & Hp)]]].
  - eapply (oe_place _ _ s b row ORejected n i None); eauto; simpl; rewrite -?G1 ?G4 //.
    by apply replace_appended.
  - eapply (oe_place _ _ s b row OAwaitingConfirmation n i None); eauto; simpl;
      rewrite -?G1 ?G4 //. by apply replace_appended.
  - eapply (oe_place _ _ s b row OReserved n i (Some JReservation)); eauto;
      [by rewrite G4| |].
    + destruct Hp as (? & ? & ? & _ & _ & _ & _ & _ & _ & _ & _ & ->). simpl.
      rewrite -G1. by apply replace_appended.
    + by eapply posted_posts.
Qed.

Lemma mark_case_rule x o xs os jt err rc herr hrc :
  mark_case x o xs os jt err rc herr hrc → pay_rule (o_status o) os jt = true.
Proof.
  intros [Hs|code Hs|code rc' Hs|rc' Hs|code _ Hs|code _ Hs]; try by rewrite Hs.
  all: case_in Hs; by rewrite Hs.
Qed.

Lemma tx_order_event d d' : keys d → tx d d' → order_event d d'.
Proof.
  intros K H. case_tx H.
  - destruct He as (_ & _ & _ & ? & ? & ? & _). by apply oe_none.
  - open_effects. by apply oe_none.
  - open_effects. by apply oe_none.
  - open_effects. by apply oe_none.
  - open_effects. by apply oe_none.
  - assert (K1 := keys_decided _ _ _ _ _ K Hd). open_effects.
    destruct Hp as [[_ ->]|Hp]; [by apply oe_none|].
    by eapply placed_event in Hp.
  - open_effects. eapply (oe_move _ _ row target _ _ None); [done| |reflexivity|done].
    case_in Hs; case_in Ht; by rewrite Hs Ht.
  - open_effects. eapply (oe_move _ _ row OReserved _ _ (Some JReservation));
      [done|by rewrite Hs|reflexivity|].
    by do 3 eexists; split_and!.
  - open_effects. eapply (oe_move _ _ row OCancelled _ _ (Some JRelease));
      [done|by rewrite Hs|reflexivity|].
    by do 3 eexists; split_and!.
  - open_effects. eapply (oe_move _ _ row ORefunded _ _ (Some JRefund));
      [done|by rewrite Hs|reflexivity|].
    by do 3 eexists; split_and!.
  - destruct Hl as [l ->]. subst. by apply oe_none.
  - by apply oe_none.
  - open_effects. eapply (oe_move _ _ o OSigning _ _ None); [done|by rewrite Hs|reflexivity|done].
  - open_effects. eapply (oe_move _ _ o OSigning _ _ None); [done|by rewrite Hs|reflexivity|done].
  - open_effects. eapply (oe_move _ _ o os _ _ jt); [done|by eapply mark_case_rule| |].
    + destruct jt; simpl in *; open_effects; by subst.
    + destruct jt; simpl in *; open_effects; subst; [by do 3 eexists; split_and!|done].
Qed.

(** ** The ledger is a list of balanced pairs *)

(** The two entries of a journal. *)
Definition pair_ok (j : journal_row) (p : entry_row * entry_row) : Prop :=
  entry_for j (sides (j_journal_type j)).1 p.1 ∧ entry_for j (sides (j_journal_type j)).2 p.2.
Definition flat_pairs : list (entry_row * entry_row) → list entry_row :=
  flat_map (λ p, [p.1; p.2]).

Record ledger_ok (d : wallet_db) : Prop := {
  l_pairs : ∃ pairs, entries d = flat_pairs pairs ∧ Forall2 pair_ok (journals d) pairs;
  l_order : ∀ j, j ∈ journals d → ∃ o, o ∈ orders d ∧ journal_for o (j_journal_type j) j;
  l_journal_key : NoDup (map j_journal_id (journals d));
  l_journal_type : NoDup (map (λ j, (j_order_id j, j_journal_type j)) (journals d));
  l_entry_key : NoDup (map e_entry_id (entries d));
}.

Lemma journal_for_same o o' t j : same_order o o' → journal_for o t j → journal_for o' t j.
Proof. intros (? & ? & ? & ? & ? & ? & ? & ? & _) []. split; congruence. Qed.

(** Every order survives a transaction, with its identity. *)
Lemma orders_persist d d' o :
  keys d → order_event d d' → o ∈ orders d → ∃ o', o' ∈ orders d' ∧ same_order o o'.
Proof.
  intros K [E _ _|r target now aid jt Hr _ E _|s b r target now aid jt _ _ _ _ _ _ _ _ E _ _] Ho.
  - rewrite E. by exists o.
  - destruct (decide (o = r)) as [->|Hn].
    + eexists. split; [|apply moved_row_same]. rewrite E.
      apply (elem_of_replace o_order_id); [apply (k_orders _ K)|done|by left].
    + exists o. split; [|done]. rewrite E.
      apply (elem_of_replace o_order_id); [apply (k_orders _ K)|done|by right].
  - exists o. split; [|done]. rewrite E. apply elem_of_append; by left.
Qed.

Lemma NoDup_snoc {A} (x : A) l : x ∉ l → NoDup l → NoDup (l ++ [x]).
Proof.
  intros ? ?. apply NoDup_app. split; [done|]. split; [|apply NoDup_singleton].
  by intros y Hy ->%list_elem_of_singleton.
Qed.

Lemma posts_ledger row jt d d' :
  (∀ o, o ∈ orders d → ∃ o', o' ∈ orders d' ∧ same_order o o') →
  (∃ o, o ∈ orders d' ∧ same_order row o) →
  posts row jt d d' → ledger_ok d → ledger_ok d'.
Proof.
  intros Hper Hrow Hp [[pairs [HE HF]] L2 L3 L4 L5].
  assert (L2' : ∀ j, j ∈ journals d → ∃ o, o ∈ orders d' ∧ journal_for o (j_journal_type j) j).
  { intros j (o & Ho & Hj)%L2. destruct (Hper o Ho) as (o' & ? & ?).
    exists o'. eauto using journal_for_same. }
  destruct jt as [t|]; [|destruct Hp as [G1 G2]; split; rewrite ?G1 ?G2; eauto].
  destruct Hp as (j & e1 & e2 & Hj & He1 & He2 & N1 & N2 & N3 & N4 & N5 & G1 & G2).
  split; rewrite ?G1 ?G2.
  - exists (pairs ++ [(e1, e2)]). split.
    + unfold flat_pairs, append_row. by rewrite HE flat_map_app -app_assoc.
    + apply Forall2_app; [done|]. constructor; [|constructor].
      unfold pair_ok. by rewrite (jf_type _ _ _ Hj).
  - intros y [Hy| ->]%elem_of_append; [by apply L2'|].
    destruct Hrow as (o & Ho & Hs). exists o. split; [done|].
    rewrite (jf_type _ _ _ Hj). eauto using journal_for_same.
  - rewrite map_append. apply NoDup_snoc; [|done].
    intros (x & E & Hx)%list_elem_of_fmap. by apply (N2 x).
  - rewrite map_append. apply NoDup_snoc; [|done].
    intros (x & E & Hx)%list_elem_of_fmap. injection E as E1 E2. apply (N1 x Hx).
    rewrite -E1 -E2. split; [apply (jf_order _ _ _ Hj)|apply (jf_type _ _ _ Hj)].
  - rewrite !map_append. apply NoDup_snoc; [|apply NoDup_snoc; [|done]].
    + rewrite elem_of_app list_elem_of_singleton.
      intros [(x & E & Hx)%list_elem_of_fmap|E]; [by apply (N4 x)|done].
    + intros (x & E & Hx)%list_elem_of_fmap. by apply (N3 x).
Qed.

Lemma ledger_ok_event d d' : keys d → order_event d d' → ledger_ok d → ledger_ok d'.
Proof.
  intros K He. pose proof (λ o, orders_persist d d' o K He) as Hper.
  destruct He as [E E1 E2|r target now aid jt Hr _ E Hp
                 |s b r target now aid jt _ _ _ _ _ _ _ _ E _ Hp].
  - intros [L1 L2 L3 L4 L5]. split; rewrite ?E ?E1 ?E2 //.
  - eapply posts_ledger; eauto.
  - eapply posts_ledger; eauto. eexists. split; [|apply moved_row_same].
    rewrite E. apply elem_of_append; by right.
Qed.
Lemma ledger_reach d : wallet_reach d → ledger_ok d.
Proof.
  apply wallet_invariant.
  - split; simpl; try apply NoDup_nil_2; [by exists []|]. by intros j ?%not_elem_of_nil.
  - intros d1 d2 K L H. eapply ledger_ok_event; eauto using tx_order_event.
Qed.

(** ** Orders follow the payment machine *)

Definition journal_types (d : wallet_db) (order_id : string) : list JournalType :=
  map j_journal_type (select (λ j, j_order_id j == order_id) (journals d)).
Definition view (d : wallet_db) (o : order_row) : pay_state :=
  (o_status o, journal_types d (o_order_id o)).

Lemma posts_types row jt d d' oid :
  posts row jt d d' →
  journal_types d' oid
  = journal_types d oid ++ (if o_order_id row == oid then opt_list jt else []).
Proof.
  unfold journal_types. destruct jt as [t|]; simpl.
  - intros (j & e1 & e2 & Hj & _ & _ & _ & _ & _ & _ & _ & -> & _).
    rewrite select_append map_app (jf_order _ _ _ Hj). case_bool_decide; [|done].
    by rewrite /= (jf_type _ _ _ Hj).
  - intros [-> _]. case_bool_decide; by rewrite app_nil_r.
Qed.
Lemma posts_new row jt d d' x :
  posts row jt d d' → jt = Some x → x ∉ journal_types d (o_order_id row).
Proof.
  intros Hp ->. destruct Hp as (j & e1 & e2 & _ & _ & _ & N & _).
  intros (y & -> & [Hy E%bool_decide_eq_true]%elem_of_select)%list_elem_of_fmap.
  by apply (N y).
Qed.

Lemma posts_step row target now aid jt d d' :
  pay_rule (o_status row) target jt = true → posts row jt d d' →
  pay_step (view d row) (view d' (moved_row row target now aid)).
Proof.
  intros Hr Hp. unfold view. simpl. rewrite (posts_types _ _ _ _ _ Hp) bool_decide_true //.
  constructor; [done|]. intros x E. by eapply posts_new.
Qed.
Lemma posts_other row jt d d' o :
  posts row jt d d' → o_order_id o ≠ o_order_id row → view d' o = view d o.
Proof.
  intros Hp Hn. unfold view. rewrite (posts_types _ _ _ _ _ Hp) bool_decide_false ?app_nil_r //.
Qed.

(** One transaction is at most one step of each order. *)
Lemma event_view d d' o :
  keys d → order_event d d' → o ∈ orders d →
  ∃ o', o' ∈ orders d' ∧ same_order o o' ∧ rtc pay_step (view d o) (view d' o').
Proof.
  intros K [E E1 _|r target now aid jt Hr Hrule E Hp
           |s b r target now aid jt _ _ _ _ _ _ Hid _ E Hrule Hp] Ho.
  - exists o. rewrite E. split_and!; [done..|]. unfold view, journal_types. by rewrite E1.
  - destruct (decide (o = r)) as [->|Hn].
    + eexists. split_and!; [|apply moved_row_same|by eapply rtc_once, posts_step]. rewrite E.
      apply (elem_of_replace o_order_id); [apply (k_orders _ K)|done|by left].
    + exists o. split_and!; [|done|].
      * rewrite E. apply (elem_of_replace o_order_id); [apply (k_orders _ K)|done|by right].
      * rewrite (posts_other _ _ _ _ _ Hp) //.
        intros Eq. apply Hn. eapply (key_unique o_order_id); eauto. apply (k_orders _ K).
  - exists o. split_and!; [|done|].
    + rewrite E. apply elem_of_append; by left.
    + rewrite (posts_other _ _ _ _ _ Hp) //. by apply Hid.
Qed.

(** An order that appears was placed in this transaction. *)
Lemma event_new d d' o' :
  keys d → ledger_ok d → order_event d d' → o' ∈ orders d' →
  (∃ o, o ∈ orders d ∧ same_order o o' ∧ rtc pay_step (view d o) (view d' o'))
  ∨ ((∀ o, o ∈ orders d → o_order_id o ≠ o_order_id o') ∧
     rtc pay_step (OPendingPolicy, []) (view d' o')).
Proof.
  intros K L He Ho'.
  destruct He as [E E1 _|r target now aid jt Hr Hrule E Hp
           |s b r target now aid jt _ _ _ _ _ _ Hid Hst E Hrule Hp].
  - left. exists o'. rewrite -E. split_and!; [done..|]. unfold view, journal_types. by rewrite E1.
  - left. rewrite E in Ho'.
    apply (elem_of_replace o_order_id) in Ho' as [->|[Ho Hn]]; [| |apply (k_orders _ K)|done].
    + exists r. split_and!; [done|apply moved_row_same|by eapply rtc_once, posts_step].
    + exists o'. split_and!; [done..|]. rewrite (posts_other _ _ _ _ _ Hp) //.
      intros Eq. apply Hn. eapply (key_unique o_order_id); eauto. apply (k_orders _ K).
  - rewrite E in Ho'. apply elem_of_append in Ho' as [Ho| ->].
    + left. exists o'. split_and!; [done..|]. rewrite (posts_other _ _ _ _ _ Hp) //. by apply Hid.
    + right. split; [done|]. apply rtc_once.
      assert (journal_types d (o_order_id r) = []) as E0.
      { unfold journal_types. rewrite select_none //. intros j Hj.
        apply bool_decide_eq_false. intros Ej. destruct (l_order _ L j Hj) as (o & Ho & Hjf).
        apply (Hid o Ho). rewrite -Ej. symmetry. apply (jf_order _ _ _ Hjf). }
      pose proof (posts_step r target now aid jt d d') as Hs. unfold view in Hs at 1.
      rewrite E0 Hst in Hs. by apply Hs.
Qed.

Lemma pay_journals_rtc v v' :
  rtc pay_step v v' → pay_journals v.1 v.2 = true → pay_journals v'.1 v'.2 = true.
Proof.
  induction 1 as [|[s l] [t l'] v' H _ IH]; [done|]. intros Hj. apply IH.
  eapply pay_journals_step; eauto.
Qed.
Definition orders_ok (d : wallet_db) : Prop :=
  ∀ o, o ∈ orders d → pay_journals (o_status o) (journal_types d (o_order_id o)) = true.
Lemma orders_reach d : wallet_reach d → orders_ok d.
Proof.
  intros H. cut (ledger_ok d ∧ orders_ok d); [by intros []|]. revert d H.
  apply wallet_invariant.
  - split; [apply ledger_reach, rtc_refl|]. by intros o ?%not_elem_of_nil.
  - intros d d' K [L I] H%tx_order_event; [|done].
    split; [by eapply ledger_ok_event|]. intros o' Ho'.
    destruct (event_new _ _ _ K L H Ho') as [(o & Ho & _ & Hr)|[_ Hr]];
      apply pay_journals_rtc in Hr; simpl in *; auto.
Qed.

Lemma rtc_tx_view d d' o :
  keys d → rtc tx d d' → o ∈ orders d →
  ∃ o', o' ∈ orders d' ∧ same_order o o' ∧ rtc pay_step (view d o) (view d' o').
Proof.
  intros K H. revert o. induction H as [d|d d1 d2 Ht H IH]; intros o Ho; [by exists o|].
  destruct (event_view d d1 o K) as (o1 & Ho1 & S1 & P1); [by apply tx_order_event|done|].
  destruct (IH (keys_tx _ _ K Ht) o1 Ho1) as (o2 & Ho2 & S2 & P2).
  exists o2. split_and!; [done|by etrans|by etrans].
Qed.
Lemma step_rtc_tx w w' : keys (db w) → wallet_step w w' → rtc tx (db w) (db w').
Proof.
  intros K [op|d' t f He]; [by apply advances_run_op|]. by apply rtc_once, tx_environment.
Qed.

(** ** Reading the ledger *)

Lemma pair_journal j p e : pair_ok j p → e ∈ [p.1; p.2] → e_journal_id e = j_journal_id j.
Proof. intros [H1 H2] He. case_in He; subst; [apply H1|apply H2]. Qed.

Lemma select_pairs_none js pairs (jid : string) :
  Forall2 pair_ok js pairs → jid ∉ map j_journal_id js →
  select (λ e, e_journal_id e == jid) (flat_pairs pairs) = [].
Proof.
  intros HF Hn. apply select_none. intros e He. apply bool_decide_eq_false. intros E.
  apply Hn. clear Hn. induction HF as [|j p js pairs Hp HF IH]; simpl in *.
  - by apply not_elem_of_nil in He.
  - unfold flat_pairs in *. simpl in He. rewrite !elem_of_cons in He. apply elem_of_cons.
    destruct He as [->|[->|He]].
    + left. rewrite -E. eapply (pair_journal j p); [done|in_list].
    + left. rewrite -E. eapply (pair_journal j p); [done|in_list].
    + right. by apply IH.
Qed.
Lemma select_pairs js pairs j :
  Forall2 pair_ok js pairs → NoDup (map j_journal_id js) → j ∈ js →
  ∃ p, pair_ok j p ∧
    select (λ e, e_journal_id e == j_journal_id j) (flat_pairs pairs) = [p.1; p.2].
Proof.
  intros HF. induction HF as [|j' p js pairs Hp HF IH];
    [by intros _ ?%not_elem_of_nil|cbn [map]].
  rewrite NoDup_cons elem_of_cons. intros [Hn Hd] Hj.
  assert (∀ q, select q (flat_pairs (p :: pairs))
               = select q [p.1; p.2] ++ select q (flat_pairs pairs)) as Eapp.
  { intros q. by rewrite -select_app. }
  rewrite Eapp. destruct Hj as [->|Hj].
  - exists p. split; [done|]. rewrite (select_pairs_none js) // app_nil_r.
    destruct Hp as [H1 H2]. unfold select. simpl.
    by rewrite (ef_journal _ _ _ H1) (ef_journal _ _ _ H2) bool_decide_true.
  - destruct (IH Hd Hj) as (q & Hq & E). exists q. split; [done|]. rewrite E.
    assert (j_journal_id j' ≠ j_journal_id j) as Hne.
    { intros Eq. apply Hn. rewrite Eq. by apply list_elem_of_fmap_2. }
    destruct Hp as [H1 H2]. unfold select. simpl.
    by rewrite (ef_journal _ _ _ H1) (ef_journal _ _ _ H2) bool_decide_false.
Qed.
Lemma entry_has_journal d e :
  ledger_ok d → e ∈ entries d →
  ∃ j p, j ∈ journals d ∧ pair_ok j p ∧ e ∈ [p.1; p.2].
Proof.
  intros [[pairs [E HF]] _ _ _ _] He. rewrite E in He. clear E.
  induction HF as [|j p js pairs Hp HF IH]; simpl in *; [by apply not_elem_of_nil in He|].
  rewrite !elem_of_cons in He. destruct He as [->|[->|He]].
  - exists j, p. split_and!; [apply here|done|in_list].
  - exists j, p. split_and!; [apply here|done|in_list].
  - destruct (IH He) as (j' & p' & ? & ? & ?). exists j', p'. split_and!; [by apply there|done..].
Qed.

(** The entry is booked to the journal, under its subject and order. *)
Definition booked_to (j : journal_row) (e : entry_row) : Prop :=
  e_journal_id e = j_journal_id j ∧ e_subject_id e = j_subject_id j ∧
  e_order_id e = j_order_id j.
Lemma entry_booked j side e : entry_for j side e → booked_to j e.
Proof. by intros []. Qed.

(** C1: The ledger is double entry.  In every reachable state each journal
    belongs to an order, has that order's subject, network, asset and
    amount, and owns exactly two entries: the debit and the credit that its
    kind prescribes, both of the order's amount and booked to the journal's
    subject and order.  And every entry of the ledger is booked to a
    journal: there are no others. *)
Theorem ledger_double_entry w :
  reachable w →
  (∀ j, j ∈ journals (db w) →
     ∃ o e1 e2, o ∈ orders (db w) ∧ o_order_id o = j_order_id j ∧
       j_subject_id j = o_subject_id o ∧ j_network_id j = o_network_id o ∧
       j_asset_id j = o_asset_id o ∧ j_amount j = o_amount o ∧
       select (λ e, e_journal_id e == j_journal_id j) (entries (db w)) = [e1; e2] ∧
       [(e_account e1, e_direction e1); (e_account e2, e_direction e2)]
         = expected_accounts (j_journal_type j) ∧
       e_amount e1 = o_amount o ∧ e_amount e2 = o_amount o ∧
       booked_to j e1 ∧ booked_to j e2) ∧
  (∀ e, e ∈ entries (db w) → ∃ j, j ∈ journals (db w) ∧ booked_to j e).
Proof.
  intros L%reachable_reach%ledger_reach. split.
  - intros j Hj. destruct (l_order _ L j Hj) as (o & Ho & Hjf).
    destruct (l_pairs _ L) as (pairs & E & HF).
    destruct (select_pairs _ _ j HF (l_journal_key _ L) Hj) as (p & [H1 H2] & Es).
    exists o, p.1, p.2.
    split_and!; [done|symmetry; apply Hjf|apply Hjf..|by rewrite E| | | | |].
    + rewrite (ef_side _ _ _ H1) (ef_side _ _ _ H2). by destruct (j_journal_type j).
    + rewrite (ef_amount _ _ _ H1). apply Hjf.
    + rewrite (ef_amount _ _ _ H2). apply Hjf.
    + by eapply entry_booked.
    + by eapply entry_booked.
  - intros e (j & p & Hj & [H1 H2] & He)%(entry_has_journal _ _ L). exists j. split; [done|].
    case_in He; subst e; by eapply entry_booked.
Qed.

(** C2: The wallet refines the payment machine.  In one step of the system
    (any call, returning or raising, or a write of another component)
    every order keeps its identity (parties, amount, network, asset, mode)
    and its status and journals advance by steps of the payment machine. *)
Theorem wallet_refines_payment w w' o :
  reachable w → wallet_step w w' → o ∈ orders (db w) →
  ∃ o', o' ∈ orders (db w') ∧ same_order o o' ∧
    rtc pay_step (view (db w) o) (view (db w') o').
Proof.
  intros K%reachable_reach%wallet_reach_keys H Ho.
  eapply rtc_tx_view; eauto using step_rtc_tx.
Qed.

(** Status and journals agree.  In every reachable state the journals
    posted for an order are exactly those its status allows: none before
    reservation, a reservation while funds are held, reservation and
    release when cancelled, reservation and settlement when confirmed. *)
Theorem order_journals_agree w o :
  reachable w → o ∈ orders (db w) →
  pay_journals (o_status o) (journal_types (db w) (o_order_id o)) = true.
Proof. intros H%reachable_reach. by apply orders_reach. Qed.
End ledger.
