(* ===== verification/WalletRecords.v ===== *)
(** * Invariants of the wallet's records

    What every reachable database satisfies row by row: state hashes match
    the rows, amounts are canonical and positive, a bounty never has more
    accepted submissions than reward slots nor more open ones than its
    limit, and orders correspond one to one to accepted submissions. *)

From S2P Require Import Prelude Tables PyStr Json Digest Time WalletTypes RegistryTypes WalletTransfer WalletDb.
From S2P Require Import WalletEconomy WalletOrders WalletSubmissions WalletExecution WalletEngine.
From S2P Require Import WalletIntegrity WalletEffects WalletSteps WalletSystem WalletLedger.
From stdpp Require Import relations.
Local Open Scope Z_scope.

(** A canonical positive amount. *)
Definition amount_ok (s : string) : Prop :=
  canonical_amount s = Ok s ∧ ∃ v, py_int s = Some v ∧ 0 < v.

Lemma result_bind_ok {A B} (r : result A) (k : A → result B) b :
  r ≫= k = Ok b → ∃ a, r = Ok a ∧ k a = Ok b.
Proof. destruct r as [a|e]; [|done]. intros H. by exists a. Qed.

(** [step H as x E] : the first statement of a successful [result]. *)
Tactic Notation "step" hyp(H) "as" simple_intropattern(x) simple_intropattern(E) :=
  apply result_bind_ok in H as (x & E & H).

Lemma canonical_amount_ok s t :
  canonical_amount s = Ok t → t = s ∧ amount_match s = true ∧ ∃ v, py_int s = Some v ∧
    0 <= v <= SQLITE_INT64_MAX.
Proof.
  unfold canonical_amount. destruct (amount_match s) eqn:E; [simpl|done].
  assert (Hn : numeral s = true).
  { unfold amount_match in E. by apply andb_true_iff in E as [[? _]%andb_true_iff _]. }
  destruct (py_int_numeral s Hn) as (v & Hv & Hp). rewrite Hv.
  destruct (_ <? _) eqn:El; [done|]. intros [= <-]. apply Z.ltb_ge in El.
  split_and!; [done..|]. by exists v.
Qed.

Lemma positive_amount s t :
  canonical_amount s = Ok t → t ≠ "0"%string → amount_ok t.
Proof.
  intros H Hz. apply canonical_amount_ok in H as H'. destruct H' as (-> & Hm & v & Hv & Hb).
  split; [done|]. unfold amount_match in Hm.
  apply andb_true_iff in Hm as [[Hn _]%andb_true_iff Hl%negb_true_iff].
  destruct s as [|c s]; [done|]. apply py_int_positive; [done|]. intros Hc.
  destruct s as [|c' s]; simpl in Hl; [|by rewrite Hc in Hl].
  apply Hz. f_equal. by apply code_inj.
Qed.

Lemma valid_bounty_amount raw p :
  validate_BountyInput raw = Ok p →
  amount_ok (bi_reward_amount p) ∧ 1 <= bi_reward_slots p <= bi_max_submissions p.
Proof.
  unfold validate_BountyInput. intros H.
  do 11 step H as ? ?. step H as reward Hr. step H as ? Hz. do 2 step H as ? ?.
  step H as ? Hmax. step H as ? Hslots. do 6 step H as ? ?. step H as ? Hle.
  injection H as <-. simpl. unfold check, WalletTypes.between in *.
  destruct (reward =/= "0") eqn:E; [|done]. apply negb_true_iff, bool_decide_eq_false in E.
  split; [by eapply positive_amount|].
  destruct (_ <=? _) eqn:E1 in Hle; [|done]. apply Z.leb_le in E1.
  destruct (1 <=? bi_reward_slots raw) eqn:E2; [|done]. apply Z.leb_le in E2. lia.
Qed.

Section records.
Context {Dg : Digest} {En : Env} {Sg : Signer} {Hosts : HostNames}.

(** ** What a transaction does to bounties and submissions *)

Inductive bounty_event (d d' : wallet_db) : Prop :=
| be_none : bounties d' = bounties d → bounty_event d d'
| be_new bid sid p aid now :
    let row := new_bounty_row bid sid p aid now in
    (∃ raw, validate_BountyInput raw = Ok p) → bounty_unique (bounties d) row = true →
    bounties d' = append_row row (bounties d) → bounty_event d d'
| be_move row target aid now :
    let row' := bounty_set_status target (_bounty_state_hash_row row target) aid now row in
    row ∈ bounties d → bounty_trigger_ok row row' = true →
    bounties d' = replace_row b_bounty_id row row' (bounties d) → bounty_event d d'.

Inductive submission_event (d d' : wallet_db) : Prop :=
| se_none : submissions d' = submissions d → submission_event d d'
| se_new b sid p aid now :
    let row := new_submission_row sid (b_bounty_id b) (b_subject_id b) p aid now in
    b ∈ bounties d → b_status b = BPublished →
    count_where (λ r, (s_bounty_id r == b_bounty_id b) && open_submission (s_status r))
      (submissions d) < b_max_submissions b →
    submission_unique (submissions d) row = true →
    submissions d' = append_row row (submissions d) → submission_event d d'
| se_decide row target reason now aid h :
    let row' := submission_decide target reason now aid h row in
    row ∈ submissions d → s_status row = SSubmitted → target ∈ [SRejected; SWithdrawn; SAccepted] →
    _submission_state_hash_row row target (Some reason) = Ok h →
    (target = SAccepted → ∃ b, b ∈ bounties d ∧ b_bounty_id b = s_bounty_id row ∧
      count_where (λ r, (s_bounty_id r == s_bounty_id row) && (s_status r == SAccepted))
        (submissions d) < b_reward_slots b) →
    submissions d' = replace_row s_submission_id row row' (submissions d) →
    submission_event d d'.

Lemma placed_frame sub d d' :
  placed sub d d' → bounties d' = bounties d ∧ submissions d' = submissions d ∧
  policies d' = policies d ∧ executions d' = executions d ∧ attempts d' = attempts d.
Proof.
  intros (oid & b & now & aid & d1 & _ & _ & Ha & _ & _ & Hm). open_effects.
  destruct Hm as [Hm|[[_ Hm]|[_ Hm]]]; open_effects; done.
Qed.

Lemma tx_bounty_event d d' : tx d d' → bounty_event d d'.
Proof.
  intros H. case_tx H; try (open_effects; by apply be_none).
  - by apply be_none, He.
  - open_effects. by eapply be_new.
  - open_effects. by eapply be_move.
  - open_effects. destruct Hp as [[_ ->]|[E _]%placed_frame]; apply be_none; [done|by rewrite E].
  - destruct Hl as [l ->]. subst. by apply be_none.
  - apply be_none. open_effects. destruct jt; simpl in *; open_effects; by subst.
Qed.
Lemma tx_submission_event d d' : tx d d' → submission_event d d'.
Proof.
  intros H. case_tx H; try (open_effects; by apply se_none).
  - by apply se_none, He.
  - open_effects. by eapply se_new.
  - open_effects. eapply se_decide; [done..| |done| |reflexivity]; [|intros ->]; case_in Ht;
      try done; subst; in_list.
  - destruct Hd as (Hr & now & aid & h & d3 & (a & _ & _ & ->) & Hh & ->). simpl in *.
    eapply (se_decide _ _ row SAccepted reason now aid h); [done|done|in_list|done|eauto|].
    destruct Hp as [[_ ->]|(_ & E & _)%placed_frame]; [done|by rewrite E].
  - destruct Hl as [l ->]. subst. by apply se_none.
  - apply se_none. open_effects. destruct jt; simpl in *; open_effects; by subst.
Qed.

(** ** Hashes and amounts *)

Definition bounty_ok (b : bounty_row) : Prop :=
  b_state_hash b = _bounty_state_hash_row b (b_status b) ∧ amount_ok (b_reward_amount b)
  ∧ 1 <= b_reward_slots b <= b_max_submissions b.
Definition submission_ok (s : submission_row) : Prop :=
  _submission_state_hash_row s (s_status s) (s_decision_reason s) = Ok (s_state_hash s).
Definition order_ok (o : order_row) : Prop :=
  o_state_hash o = _order_state_hash_row o (o_status o) None None ∧ amount_ok (o_amount o).

Lemma bounties_ok_event d d' :
  bounty_event d d' → Forall bounty_ok (bounties d) → Forall bounty_ok (bounties d').
Proof.
  intros [E|bid sid p aid now row [raw Hv] _ E|row target aid now row' Hr _ E] H; rewrite E.
  - done.
  - apply Forall_append; [done|]. apply valid_bounty_amount in Hv. done.
  - apply Forall_replace; [done|]. rewrite -> Forall_forall in H.
    destruct (H row Hr) as (_ & ? & ?). done.
Qed.
Lemma submissions_ok_event d d' :
  submission_event d d' → Forall submission_ok (submissions d) →
  Forall submission_ok (submissions d').
Proof.
  intros [E|b sid p aid now row _ _ _ _ E|row target reason now aid h row' Hr _ _ Hh _ E] H;
    rewrite E.
  - done.
  - apply Forall_append; [done|]. unfold submission_ok, _submission_state_hash_row. simpl.
    by rewrite loads_strs.
  - apply Forall_replace; [done|]. unfold submission_ok. simpl. by rewrite -Hh.
Qed.
Lemma moved_row_ok row target now aid :
  amount_ok (o_amount row) → order_ok (moved_row row target now aid).
Proof.
  intros. split; [|done]. unfold moved_row, _order_state_hash_row. simpl.
  by destruct (target == OReserved), (o_authorized_at row).
Qed.
Lemma orders_ok_event d d' :
  order_event d d' → Forall bounty_ok (bounties d) → Forall order_ok (orders d) →
  Forall order_ok (orders d').
Proof.
  intros He HB HO.
  destruct He as [E _ _|o target now aid jt Ho _ E _
                 |s b row target now aid jt _ _ Hb _ Hof _ _ _ E _ _]; rewrite E.
  - done.
  - apply Forall_replace; [done|]. apply moved_row_ok. rewrite -> Forall_forall in HO.
    by apply HO.
  - apply Forall_append; [done|]. apply moved_row_ok. rewrite (of_amount _ _ _ Hof).
    rewrite -> Forall_forall in HB. by apply HB.
Qed.

Record rows_ok (d : wallet_db) : Prop := {
  r_bounties : Forall bounty_ok (bounties d);
  r_submissions : Forall submission_ok (submissions d);
  r_orders : Forall order_ok (orders d);
}.
Lemma rows_reach d : wallet_reach d → rows_ok d.
Proof.
  apply wallet_invariant; [by split; constructor|]. intros d1 d2 K [H1 H2 H3] H. split.
  - eapply bounties_ok_event; eauto using tx_bounty_event.
  - eapply submissions_ok_event; eauto using tx_submission_event.
  - eapply orders_ok_event; eauto using tx_order_event.
Qed.

(** ** Reward slots and submission limits *)

Definition accepted_of (b : bounty_row) (d : wallet_db) : Z :=
  count_where (λ s, (s_bounty_id s == b_bounty_id b) && (s_status s == SAccepted))
    (submissions d).
Definition open_of (b : bounty_row) (d : wallet_db) : Z :=
  count_where (λ s, (s_bounty_id s == b_bounty_id b) && open_submission (s_status s))
    (submissions d).
Record slots_ok (d : wallet_db) : Prop := {
  sl_bounty : ∀ s, s ∈ submissions d → ∃ b, b ∈ bounties d ∧ b_bounty_id b = s_bounty_id s;
  sl_accepted : ∀ b, b ∈ bounties d → accepted_of b d <= b_reward_slots b;
  sl_open : ∀ b, b ∈ bounties d → open_of b d <= b_max_submissions b;
}.

(** Every bounty of the new table stems from one of the old with the same
    identifier and limits, or is new. *)
Lemma bounty_origin d d' b' :
  keys d → bounty_event d d' → b' ∈ bounties d' →
  (∃ b, b ∈ bounties d ∧ b_bounty_id b' = b_bounty_id b ∧
        b_reward_slots b' = b_reward_slots b ∧ b_max_submissions b' = b_max_submissions b)
  ∨ ((∀ b, b ∈ bounties d → b_bounty_id b ≠ b_bounty_id b') ∧
     1 <= b_reward_slots b' <= b_max_submissions b').
Proof.
  intros K He Hb'.
  destruct He as [E|bid sid p aid now row [raw Hv] Hu E|row target aid now row' Hr _ E];
    rewrite E in Hb'.
  - left. by exists b'.
  - apply elem_of_append in Hb' as [Hb| ->]; [left; by exists b'|right].
    split; [|by apply valid_bounty_amount in Hv as [_ ?]].
    apply andb_true_iff in Hu as [Hu _]. intros b Hb Eq.
    eapply exists_none in Hb; [|exact Hu]. by rewrite bool_decide_eq_false in Hb.
  - left. apply (elem_of_replace b_bounty_id) in Hb' as [->|[Hb _]];
      [by exists row|by exists b'|apply (k_bounties _ K)|done].
Qed.
Lemma bounty_persists d d' b :
  keys d → bounty_event d d' → b ∈ bounties d →
  ∃ b', b' ∈ bounties d' ∧ b_bounty_id b' = b_bounty_id b ∧
    b_reward_amount b' = b_reward_amount b ∧ b_network_id b' = b_network_id b ∧
    b_asset_id b' = b_asset_id b.
Proof.
  intros K He Hb.
  destruct He as [E|bid sid p aid now row _ _ E|row target aid now row' Hr _ E]; rewrite E.
  - by exists b.
  - exists b. split; [|done]. apply elem_of_append; by left.
  - destruct (decide (b = row)) as [->|Hn].
    + exists row'. split; [|done]. apply (elem_of_replace b_bounty_id);
        [apply (k_bounties _ K)|done|by left].
    + exists b. split; [|done]. apply (elem_of_replace b_bounty_id);
        [apply (k_bounties _ K)|done|by right].
Qed.

(** How one transaction changes the two counts of a bounty. *)
Lemma counts_event d d' b :
  keys d → submission_event d d' → b ∈ bounties d → slots_ok d →
  accepted_of b d' <= b_reward_slots b ∧ open_of b d' <= b_max_submissions b.
Proof.
  intros K He Hb [S1 S2 S3]. specialize (S2 b Hb). specialize (S3 b Hb).
  unfold accepted_of, open_of in *.
  destruct He as [E|b0 sid p aid now row Hb0 _ Hn _ E
                 |row target reason now aid h row' Hr Hst Ht _ Hacc E]; rewrite E.
  - done.
  - rewrite !count_append. simpl. rewrite andb_false_r andb_true_r.
    case_bool_decide as Eb; [|lia].
    assert (b0 = b) as -> by (eapply (key_unique b_bounty_id); eauto; apply (k_bounties _ K)).
    lia.
  - rewrite !(count_replace s_submission_id) //; try apply (k_submissions _ K). simpl.
    rewrite Hst /=. destruct (decide (s_bounty_id row = b_bounty_id b)) as [Eb|Eb];
      [rewrite (bool_decide_true _ Eb)|rewrite (bool_decide_false _ Eb)]; simpl; [|lia].
    case_in Ht; subst target; simpl; [lia|lia|].
    destruct (Hacc eq_refl) as (b1 & Hb1 & Eb1 & Hn).
    assert (b1 = b) as ->.
    { eapply (key_unique b_bounty_id); eauto; [apply (k_bounties _ K)|congruence]. }
    rewrite Eb in Hn. lia.
Qed.

Lemma submission_bounty_event d d' s' :
  keys d → submission_event d d' → slots_ok d → s' ∈ submissions d' →
  ∃ b, b ∈ bounties d ∧ b_bounty_id b = s_bounty_id s'.
Proof.
  intros K He [S1 _ _] Hs'.
  destruct He as [E|b sid p aid now row Hb _ _ _ E|row target reason now aid h row' Hr _ _ _ _ E];
    rewrite E in Hs'.
  - by apply S1.
  - apply elem_of_append in Hs' as [?| ->]; [by apply S1|]. by exists b.
  - apply (elem_of_replace s_submission_id) in Hs' as [->|[Hs _]];
      [by apply (S1 row)|by apply S1|apply (k_submissions _ K)|done].
Qed.

Lemma slots_tx d d' : keys d → slots_ok d → tx d d' → slots_ok d'.
Proof.
  intros K S H. pose proof (tx_bounty_event _ _ H) as HB.
  pose proof (tx_submission_event _ _ H) as HS.
  assert (Hnew : ∀ b, (∀ b0, b0 ∈ bounties d → b_bounty_id b0 ≠ b_bounty_id b) →
    ∀ s, s ∈ submissions d' → s_bounty_id s ≠ b_bounty_id b).
  { intros b Hb s Hs. destruct (submission_bounty_event _ _ _ K HS S Hs) as (b0 & Hb0 & <-).
    by apply Hb. }
  split.
  - intros s Hs. destruct (submission_bounty_event _ _ _ K HS S Hs) as (b & Hb & <-).
    destruct (bounty_persists _ _ _ K HB Hb) as (b' & ? & ? & _). by exists b'.
  - intros b' Hb'. destruct (bounty_origin _ _ _ K HB Hb') as [(b & Hb & E1 & E2 & E3)|[Hf ?]].
    + destruct (counts_event _ _ b K HS Hb S) as [HA _]. unfold accepted_of in *.
      by rewrite E1 E2.
    + unfold accepted_of, count_where. rewrite select_none; [|simpl; lia].
      intros s Hs. rewrite bool_decide_false //. by apply Hnew.
  - intros b' Hb'. destruct (bounty_origin _ _ _ K HB Hb') as [(b & Hb & E1 & E2 & E3)|[Hf ?]].
    + destruct (counts_event _ _ b K HS Hb S) as [_ HA]. unfold open_of in *.
      by rewrite E1 E3.
    + unfold open_of, count_where. rewrite select_none; [|simpl; lia].
      intros s Hs. rewrite bool_decide_false //. by apply Hnew.
Qed.
Lemma slots_reach d : wallet_reach d → slots_ok d.
Proof.
  apply wallet_invariant; [split; by intros ? ?%not_elem_of_nil|].
  intros. by eapply slots_tx.
Qed.

(** ** Orders and accepted submissions *)

(** A transaction that accepts a submission, and what it does to orders. *)
Definition accepts (row : submission_row) (b : bounty_row) (d d' : wallet_db) : Prop :=
  row ∈ submissions d ∧ s_status row = SSubmitted ∧ b ∈ bounties d ∧
  b_bounty_id b = s_bounty_id row ∧
  (∃ reason now aid h, submissions d' = replace_row s_submission_id row
     (submission_decide SAccepted reason now aid h row) (submissions d)) ∧
  ((∃ o, o ∈ orders d ∧ o_submission_id o = s_submission_id row)
   ∨ ∃ o', order_for row b o' ∧ orders d' = append_row o' (orders d) ∧
       (∀ o, o ∈ orders d → o_submission_id o ≠ s_submission_id row)).

Lemma order_for_same s b o o' : same_order o o' → order_for s b o → order_for s b o'.
Proof. intros (? & ? & ? & ? & ? & ? & ? & ? & _) []. split; congruence. Qed.

Lemma moved_orders row target now aid d o' :
  keys d → row ∈ orders d →
  o' ∈ replace_row o_order_id row (moved_row row target now aid) (orders d) →
  ∃ o, o ∈ orders d ∧ same_order o o'.
Proof.
  intros K Hr Ho'. apply (elem_of_replace o_order_id) in Ho' as [->|[Ho _]];
    [|by exists o'|apply (k_orders _ K)|done].
  exists row. split; [done|]. apply moved_row_same.
Qed.

Lemma placed_order s b sub d d' :
  keys d → b ∈ bounties d → b_bounty_id b = s_bounty_id s →
  sr_submission_id sub = s_submission_id s → sr_bounty_id sub = s_bounty_id s →
  sr_subject_id sub = s_subject_id s → sr_recipient_address sub = s_recipient_address s →
  placed sub d d' →
  ∃ o', order_for s b o' ∧ orders d' = append_row o' (orders d) ∧
    (∀ o, o ∈ orders d → o_submission_id o ≠ s_submission_id s).
Proof.
  intros K Hb Eb F1 F2 F3 F4 (oid & b' & now & aid & d1 & Hnew & Hb' & Ha & _ & Hu & Hm).
  apply bounty_by_id_Some in Hb' as [Hb' Eb'].
  assert (b' = b) as ->.
  { eapply (key_unique b_bounty_id); [apply (k_bounties _ K)|done|done|congruence]. }
  set (row := new_order_row oid sub b _ aid now) in *.
  assert (Hof : order_for s b row) by (split; simpl; congruence).
  assert (Hid : ∀ o, o ∈ orders d → o_order_id o ≠ o_order_id row).
  { apply andb_true_iff in Hu as [[Hu _]%andb_true_iff _].
    intros o Ho E. eapply exists_none in Ho; [|exact Hu]. by rewrite bool_decide_eq_false in Ho. }
  assert (∃ target n i, orders d' = append_row (moved_row row target n i) (orders d))
    as (target & n & i & E).
  { open_effects. destruct Hm as [Hm|[[_ Hm]|[_ Hm]]]; open_effects;
      eexists _, _, _; by apply replace_appended. }
  eexists. split_and!; [|exact E|rewrite -F1; exact Hnew].
  eapply order_for_same; [apply moved_row_same|done].
Qed.

(** The orders after a transaction that accepts nothing. *)
Definition orders_moved (d d' : wallet_db) : Prop :=
  orders d' = orders d ∨
  ∃ row target now aid, row ∈ orders d ∧
    orders d' = replace_row o_order_id row (moved_row row target now aid) (orders d).

Lemma tx_accepts d d' :
  keys d → tx d d' →
  (∃ row b, accepts row b d d')
  ∨ (orders_moved d d' ∧
     ∀ s', s' ∈ submissions d' → s_status s' = SAccepted → s' ∈ submissions d).
Proof.
  intros K H. unfold orders_moved. case_tx H;
    try (open_effects; right; split; [by left|done]);
    try (open_effects; right; split; [right; by eexists _, _, _, _|done]).
  - right. destruct He as (_ & -> & _ & -> & _). split; [by left|done].
  - open_effects. right. split; [by left|].
    intros s' [?| ->]%elem_of_append; [done|by intros ?].
  - open_effects. right. split; [by left|]. intros s' Hs' Hst.
    apply (elem_of_replace s_submission_id) in Hs' as [->|[? _]];
      [|done|apply (k_submissions _ K)|done].
    simpl in Hst. case_in Ht; congruence.
  - left. exists row, b. assert (K1 := keys_decided _ _ _ _ _ K Hd).
    destruct Hd as (Hr & now & aid & h & d3 & (a & _ & _ & ->) & Hh & ->).
    destruct Hp as [[(o & Ho & Eo) ->]|Hp].
    + split_and!; [done..|eexists _, _, _, _; reflexivity|]. left. by exists o.
    + assert (Hp' := Hp). apply placed_frame in Hp' as (_ & Es' & _).
      split_and!; [done..|eexists _, _, _, _; by rewrite Es'|]. right.
      by eapply placed_order in Hp.
  - destruct Hl as [l ->]. subst. right. split; [by left|done].
  - right. open_effects. destruct jt; simpl in *; open_effects; subst; simpl in *;
      (split; [right; by eexists _, _, _, _|done]).
Qed.

Record order_submission (d : wallet_db) : Prop := {
  os_submission : ∀ o, o ∈ orders d → ∃ s b, s ∈ submissions d ∧ s_status s = SAccepted ∧
    b ∈ bounties d ∧ b_bounty_id b = s_bounty_id s ∧ order_for s b o;
  os_order : ∀ s, s ∈ submissions d → s_status s = SAccepted →
    ∃ o, o ∈ orders d ∧ o_submission_id o = s_submission_id s;
  os_unique : NoDup (map o_submission_id (orders d));
}.

Lemma accepted_persists d d' s :
  keys d → submission_event d d' → s ∈ submissions d → s_status s = SAccepted →
  s ∈ submissions d'.
Proof.
  intros K He Hs Hst.
  destruct He as [E|b sid p aid now row _ _ _ _ E|row target reason now aid h row' Hr Hsub _ _ _ E];
    rewrite E.
  - done.
  - apply elem_of_append; by left.
  - apply (elem_of_replace s_submission_id); [apply (k_submissions _ K)|done|right].
    split; [done|congruence].
Qed.

Lemma order_for_bounty s b b' o :
  b_reward_amount b' = b_reward_amount b → b_network_id b' = b_network_id b →
  b_asset_id b' = b_asset_id b → order_for s b o → order_for s b' o.
Proof. intros ??? []. split; congruence. Qed.

Lemma order_submission_moved d d' :
  keys d → tx d d' → orders_moved d d' →
  (∀ s', s' ∈ submissions d' → s_status s' = SAccepted → s' ∈ submissions d) →
  order_submission d → order_submission d'.
Proof.
  intros K H Hm Hacc [O1 O2 O3]. pose proof (tx_bounty_event _ _ H) as HB.
  pose proof (tx_submission_event _ _ H) as HS. pose proof (tx_order_event _ _ K H) as HO.
  split.
  - intros o' Ho'. assert (∃ o, o ∈ orders d ∧ same_order o o') as (o & Ho & Hso).
    { destruct Hm as [E|(row & target & now & aid & Hr & E)]; rewrite E in Ho'.
      - by exists o'.
      - by eapply moved_orders. }
    destruct (O1 o Ho) as (s & b & Hs & Hst & Hb & Eb & Hof).
    destruct (bounty_persists _ _ _ K HB Hb) as (b' & Hb' & E1 & E2 & E3 & E4).
    exists s, b'. split_and!; [by eapply accepted_persists|done|done|congruence|].
    eapply order_for_same; [done|]. by eapply order_for_bounty.
  - intros s Hs Hst. destruct (O2 s) as (o & Ho & Eo); [by apply Hacc|done|].
    destruct (orders_persist _ _ _ K HO Ho) as (o' & ? & Hso). exists o'. split; [done|].
    destruct Hso as (_ & _ & _ & -> & _). done.
  - destruct Hm as [->|(row & target & now & aid & Hr & ->)]; [done|].
    rewrite map_replace //. intros x Hx Ex.
    by rewrite (key_unique o_order_id _ x row (k_orders _ K) Hx Hr Ex).
Qed.

Lemma order_submission_accept row b d d' :
  keys d → tx d d' → accepts row b d d' → order_submission d → order_submission d'.
Proof.
  intros K H (Hr & Hsub & Hb & Eb & (reason & now & aid & h & Es) & Ho) [O1 O2 O3].
  pose proof (tx_bounty_event _ _ H) as HB. pose proof (tx_submission_event _ _ H) as HS.
  destruct Ho as [(o & Ho & Eo)|(o' & Hof & E & Hnew)].
  { (* an order of a submission that is not accepted: excluded *)
    destruct (O1 o Ho) as (s & b0 & Hs & Hst & _ & _ & Hof).
    assert (s = row) as ->; [|congruence].
    eapply (key_unique s_submission_id); [apply (k_submissions _ K)|done|done|].
    rewrite -(of_submission _ _ _ Hof). congruence. }
  split.
  - rewrite E. intros o [Ho| ->]%elem_of_append.
    + destruct (O1 o Ho) as (s & b0 & Hs & Hst & Hb0 & Eb0 & Hof0).
      destruct (bounty_persists _ _ _ K HB Hb0) as (b' & Hb' & E1 & E2 & E3 & E4).
      exists s, b'. split_and!; [by eapply accepted_persists|done|done|congruence|].
      by eapply order_for_bounty.
    + destruct (bounty_persists _ _ _ K HB Hb) as (b' & Hb' & E1 & E2 & E3 & E4).
      exists (submission_decide SAccepted reason now aid h row), b'.
      split_and!; [|done|done|simpl; congruence|].
      * rewrite Es. apply (elem_of_replace s_submission_id);
          [apply (k_submissions _ K)|done|by left].
      * destruct Hof. split; simpl; congruence.
  - rewrite E Es. intros s Hs Hst. apply (elem_of_replace s_submission_id) in Hs as [->|[Hs _]];
      [| |apply (k_submissions _ K)|done].
    + exists o'. split; [apply elem_of_append; by right|]. apply (of_submission _ _ _ Hof).
    + destruct (O2 s Hs Hst) as (o & Ho & Eo). exists o. split; [|done].
      apply elem_of_append; by left.
  - rewrite E map_append. apply NoDup_snoc; [|done].
    intros (o & Eq & Ho)%list_elem_of_fmap. apply (Hnew o Ho).
    rewrite -Eq. apply (of_submission _ _ _ Hof).
Qed.

Lemma order_submission_reach d : wallet_reach d → order_submission d.
Proof.
  apply wallet_invariant.
  - split; [by intros ? ?%not_elem_of_nil..|apply NoDup_nil_2].
  - intros d1 d2 K HI H. destruct (tx_accepts _ _ K H) as [(row & b & Ha)|[Hm Hacc]].
    + by eapply order_submission_accept.
    + by eapply order_submission_moved.
Qed.

(** ** Theorems *)

(** C4: Rewards are bounded.  In every reachable state a bounty has at most
    [reward_slots] accepted submissions and at most [max_submissions]
    submissions that are open or accepted. *)
Theorem reward_slots_respected w b :
  reachable w → b ∈ bounties (db w) →
  accepted_of b (db w) <= b_reward_slots b ∧ open_of b (db w) <= b_max_submissions b.
Proof.
  intros S%reachable_reach%slots_reach Hb. split; [by apply (sl_accepted _ S)|by apply (sl_open _ S)].
Qed.

(** Orders correspond to accepted submissions.  In every reachable
    state an order belongs to an accepted submission of its bounty and
    pays that submission's recipient the bounty's reward in the bounty's
    network and asset; every accepted submission has exactly one order. *)
Theorem orders_match_accepted w :
  reachable w →
  (∀ o, o ∈ orders (db w) → ∃ s b, s ∈ submissions (db w) ∧ s_status s = SAccepted ∧
     b ∈ bounties (db w) ∧ b_bounty_id b = s_bounty_id s ∧ order_for s b o) ∧
  (∀ s, s ∈ submissions (db w) → s_status s = SAccepted →
     ∃ o, select (λ o, o_submission_id o == s_submission_id s) (orders (db w)) = [o]).
Proof.
  intros [O1 O2 O3]%reachable_reach%order_submission_reach. split; [done|].
  intros s Hs Hst. destruct (O2 s Hs Hst) as (o & Ho & Eo). exists o.
  rewrite -Eo. by apply (select_key_singleton o_submission_id).
Qed.
End records.
