(* ===== verification/WalletVerify.v ===== *)
(** * The offline checks accept exactly the consistent databases

    [verify_integrity] walks the join of journals, orders and entries once
    with running totals.  Here it is shown equivalent to a declarative
    description of a consistent database, and to accept every reachable
    one. *)

From stdpp Require Import relations.
From S2P Require Import Prelude Tables PyStr Json Digest Time WalletTypes RegistryTypes.
From S2P Require Import WalletTransfer WalletDb WalletEconomy WalletOrders WalletSubmissions.
From S2P Require Import WalletExecution WalletEngine WalletIntegrity WalletEffects WalletSteps.
From S2P Require Import WalletSystem WalletLedger WalletRecords.
Local Open Scope Z_scope.

(** ** Validation is idempotent *)

(** What a field validator returns, it accepts unchanged. *)
Definition idempotent (f : string → result string) : Prop := ∀ s t, f s = Ok t → f t = Ok t.

Lemma alnum_not_space c : is_alnum c = true → is_space c = false.
Proof.
  unfold is_alnum, is_digit, is_upper, is_lower, is_space, in_range.
  rewrite !orb_true_iff !andb_true_iff !N.leb_le.
  rewrite !orb_false_iff !andb_false_iff !N.leb_gt !N.eqb_neq. lia.
Qed.
Lemma evm_id_not_space c : evm_id_char c = true → is_space c = false.
Proof.
  unfold evm_id_char. destruct (is_alnum c) eqn:Ha; [intros _; by apply alnum_not_space|simpl].
  rewrite !orb_true_iff !N.eqb_eq. unfold is_space, in_range.
  rewrite !orb_false_iff !andb_false_iff !N.leb_gt !N.eqb_neq. lia.
Qed.
Lemma evm_id_strip s : evm_id_match s = true → strip s = s.
Proof.
  intros H. apply strip_no_space. destruct s as [|c s]; [done|]. simpl in *.
  apply andb_true_iff in H as [[Hc Hs]%andb_true_iff _]. rewrite alnum_not_space //=.
  eapply str_forallb_impl; [|exact Hs]. intros c' Hc'. by rewrite evm_id_not_space.
Qed.
Lemma identifier_idempotent label : idempotent (λ s, _identifier s label).
Proof.
  intros s t. unfold _identifier. destruct (evm_id_match (strip s)) eqn:E; [|done].
  intros [= <-]. by rewrite (evm_id_strip _ E) E.
Qed.

Lemma lower_char_hex c : is_hex c = true → is_hex (lower_char c) = true.
Proof. destruct c as [[] [] [] [] [] [] [] []]; vm_compute; done. Qed.
Lemma lower_char_idem c : lower_char (lower_char c) = lower_char c.
Proof. destruct c as [[] [] [] [] [] [] [] []]; reflexivity. Qed.
Lemma lower_idem s : lower (lower s) = lower s.
Proof. induction s as [|c s IH]; simpl; [done|]. by rewrite lower_char_idem IH. Qed.
Lemma lower_length s : String.length (lower s) = String.length s.
Proof. induction s as [|c s IH]; simpl; [done|]. by rewrite IH. Qed.
Lemma lower_hex s : str_forallb is_hex s = true → str_forallb is_hex (lower s) = true.
Proof.
  induction s as [|c s IH]; simpl; [done|]. rewrite !andb_true_iff.
  intros [? ?]. split; [by apply lower_char_hex|by apply IH].
Qed.
Lemma hex_not_space c : is_hex c = true → is_space c = false.
Proof. destruct c as [[] [] [] [] [] [] [] []]; vm_compute; done. Qed.
Lemma evm_address_strip s : evm_address_match s = true → strip s = s.
Proof.
  intros H. apply strip_no_space. destruct s as [|z [|x s]]; try done. simpl in *.
  apply andb_true_iff in H as [[[Hz%N.eqb_eq Hx%N.eqb_eq]%andb_true_iff Hs]%andb_true_iff _].
  assert (is_space z = false) as ->.
  { unfold is_space, in_range. by rewrite Hz. }
  assert (is_space x = false) as ->.
  { unfold is_space, in_range. by rewrite Hx. }
  simpl. eapply str_forallb_impl; [|exact Hs]. intros c Hc. by rewrite hex_not_space.
Qed.
Lemma evm_address_lower s : evm_address_match s = true → evm_address_match (lower s) = true.
Proof.
  destruct s as [|z [|x s]]; try done. simpl.
  rewrite !andb_true_iff !N.eqb_eq. intros [[[Hz Hx] Hs] Hl].
  split_and!; [| |by apply lower_hex|unfold len in *; by rewrite lower_length].
  - assert (z = chr 48) as -> by by apply code_inj. done.
  - assert (x = chr 120) as -> by by apply code_inj. done.
Qed.
Lemma evm_address_idempotent : idempotent canonical_evm_address.
Proof.
  intros s t. unfold canonical_evm_address.
  destruct (evm_address_match (strip s)) eqn:E; [|done]. intros [= <-].
  assert (E' := evm_address_lower _ E).
  by rewrite (evm_address_strip _ E') E' lower_idem.
Qed.
Lemma amount_idempotent : idempotent canonical_amount.
Proof. intros s t H. pose proof (canonical_amount_ok _ _ H) as [-> _]. done. Qed.

Lemma mapM_idempotent f l l' :
  idempotent f → mapM_result f l = Ok l' →
  mapM_result f l' = Ok l' ∧ length l' = length l.
Proof.
  intros Hf. revert l'. induction l as [|x l IH]; intros l' H; simpl in H.
  { by injection H as <-. }
  step H as y Hy. step H as ys Hys. injection H as <-.
  destruct (IH _ Hys) as [E1 E2]. simpl. by rewrite (Hf _ _ Hy) /= E1 /= E2.
Qed.
Lemma allowlist_idempotent f msg l l' :
  idempotent f → clean_allowlist f msg l = Ok l' → clean_allowlist f msg l' = Ok l'.
Proof.
  intros Hf. unfold clean_allowlist. intros H. step H as [] Hb. step H as c Hc.
  step H as [] Hd. injection H as <-. destruct (mapM_idempotent _ _ _ Hf Hc) as [E1 E2].
  by rewrite E2 Hb /= E1 /= Hd.
Qed.

Lemma policy_idempotent p q :
  validate_PaymentPolicyInput p = Ok q → validate_PaymentPolicyInput q = Ok q.
Proof.
  unfold validate_PaymentPolicyInput. intros H.
  step H as nets H1. step H as asts H2. step H as a1 H3. step H as a2 H4. step H as a3 H5.
  step H as [] H6. step H as [] H7. step H as a4 H8. step H as [] H9. step H as a5 H10.
  step H as rcps H11. injection H as <-. simpl.
  rewrite (allowlist_idempotent _ _ _ _ (identifier_idempotent _) H1) /=
    (allowlist_idempotent _ _ _ _ (identifier_idempotent _) H2) /=
    (amount_idempotent _ _ H3) /= (amount_idempotent _ _ H4) /= (amount_idempotent _ _ H5) /=
    H6 /= H7 /= (amount_idempotent _ _ H8) /= H9 /= (amount_idempotent _ _ H10) /=
    (allowlist_idempotent _ _ _ _ evm_address_idempotent H11) //.
Qed.

Section verify.
Context {Dg : Digest} {En : Env} {Sg : Signer} {Hosts : HostNames}.

(** ** One journal, declaratively *)

(** What is required of a journal with respect to its order. *)
Record header_good (sid : string) (j : journal_row) (o : order_row) (v : Z) : Prop := {
  hg_amount : _amount_int (j_amount j) = Ok v;
  hg_positive : 0 < v;
  hg_subject : j_subject_id j = sid;
  hg_order : o_order_id o = j_order_id j;
  hg_order_subject : o_subject_id o = sid;
  hg_network : o_network_id o = j_network_id j;
  hg_asset : o_asset_id o = j_asset_id j;
  hg_order_amount : o_amount o = j_amount j;
  hg_hash : wallet_journal_hash (j_journal_id j) (j_subject_id j) (j_order_id j)
      (j_network_id j) (j_asset_id j) (j_journal_type j) (j_amount j) (j_created_at j)
    = Ok (j_state_hash j);
}.
(** What is required of an entry with respect to its journal. *)
Record entry_good (sid : string) (j : journal_row) (e : entry_row) : Prop := {
  eg_journal : e_journal_id e = j_journal_id j;
  eg_subject : e_subject_id e = sid;
  eg_order : e_order_id e = j_order_id j;
  eg_amount : e_amount e = j_amount j;
  eg_created : e_created_at e = j_created_at j;
  eg_hash : wallet_entry_hash (e_entry_id e) (e_journal_id e) (e_subject_id e) (e_order_id e)
      (e_account e) (e_direction e) (e_amount e) (e_created_at e)
    = Ok (e_state_hash e);
}.
Definition side (e : entry_row) : Account * Direction := (e_account e, e_direction e).

Definition journal_good (d : wallet_db) (sid : string) (j : journal_row) : Prop :=
  ∃ o v e1 e2, select (λ o, o_order_id o == j_order_id j) (orders d) = [o] ∧
    header_good sid j o v ∧
    select (λ e, e_journal_id e == j_journal_id j) (entries d) = [e1; e2] ∧
    entry_good sid j e1 ∧ entry_good sid j e2 ∧
    [side e1; side e2] ≡ₚ expected_accounts (j_journal_type j).

(** ** The checks of a journal's header and of an entry *)

Lemma neq_false {A} `{!EqDecision A} (x y : A) : (x =/= y) = false ↔ x = y.
Proof. by rewrite negb_false_iff bool_decide_eq_true. Qed.

Lemma neq_false_1 {A} `{!EqDecision A} (x y : A) : (x =/= y) = false → x = y.
Proof. apply neq_false. Qed.

Lemma journal_header_ok sid j o v :
  journal_header sid j o = Ok v ↔ ∃ o', o = Some o' ∧ header_good sid j o' v.
Proof.
  unfold journal_header. split.
  - destruct (_amount_int (j_amount j)) as [a|] eqn:Ea; [|done].
    destruct (a <=? 0) eqn:Ep; [done|]. apply Z.leb_gt in Ep.
    destruct (j_subject_id j =/= sid) eqn:E1; [done|]. apply neq_false_1 in E1.
    destruct o as [o|]; [|done].
    destruct (o_order_id o =/= j_order_id j) eqn:E2; [done|]. apply neq_false_1 in E2.
    destruct (_ || _) eqn:E3; [done|]. rewrite !orb_false_iff !neq_false in E3.
    destruct E3 as [[[E3 E4] E5] E6].
    destruct (wallet_journal_hash _ _ _ _ _ _ _ _) as [h|] eqn:Eh; [|done].
    destruct (j_state_hash j =/= h) eqn:E7; [done|]. apply neq_false_1 in E7.
    intros [= <-]. exists o. split; [done|]. subst h. by split.
  - intros (o' & -> & [H1 H2 H3 H4 H5 H6 H7 H8 H9]). rewrite H1 H9.
    rewrite (proj2 (Z.leb_gt v 0)) //.
    by rewrite !(proj2 (neq_false _ _)).
Qed.
Lemma journal_entry_ok sid j e v :
  journal_entry sid j e = Ok v ↔ entry_good sid j e ∧ _amount_int (j_amount j) = Ok v.
Proof.
  unfold journal_entry. split.
  - destruct (_ || _) eqn:E; [done|]. rewrite !orb_false_iff !neq_false in E.
    destruct E as [[[[E1 E2] E3] E4] E5].
    destruct (wallet_entry_hash _ _ _ _ _ _ _ _) as [h|] eqn:Eh; [|done].
    destruct (e_state_hash e =/= h) eqn:E7; [done|]. apply neq_false_1 in E7.
    destruct (_amount_int (e_amount e)) as [a|] eqn:Ea; [|done]. intros [= <-].
    split; [|by rewrite -E4]. subst h. split; try done. by rewrite E1.
  - intros [[H1 H2 H3 H4 H5 H6] H7]. rewrite H1 in H6. rewrite H6 H4 H7.
    by rewrite !(proj2 (neq_false _ _)).
Qed.

(** ** The rows of one journal *)

Fixpoint entry_loop (sid : string) (j : journal_row) (st : journal_state)
    (es : list entry_row) : result journal_state :=
  match es with
  | [] => Ok st
  | e :: es => amount ← journal_entry sid j e; entry_loop sid j (add_entry st e amount) es
  end.

Lemma loop_entries sid j o st es :
  current_journal_id st = Some (j_journal_id j) →
  journal_loop sid st (map (λ e, (j, o, Some e)) es) = entry_loop sid j st es.
Proof.
  revert st. induction es as [|e es IH]; intros st Hc; simpl; [done|].
  rewrite Hc bool_decide_true //=. destruct (journal_entry sid j e); simpl; [|done].
  by apply IH.
Qed.
Lemma journal_loop_app sid st rows1 rows2 :
  journal_loop sid st (rows1 ++ rows2)
  = (st' ← journal_loop sid st rows1; journal_loop sid st' rows2).
Proof.
  revert st. induction rows1 as [|r rows1 IH]; intros st; simpl; [done|].
  destruct (journal_step sid st r); simpl; [apply IH|done].
Qed.
(** All rows of a journal that is not the current one. *)
Lemma loop_journal sid j o st es :
  current_journal_id st ≠ Some (j_journal_id j) →
  journal_loop sid st (map (λ e, (j, o, e)) (left_join es))
  = (_ ← finish_journal st; v ← journal_header sid j o;
     entry_loop sid j (start_journal st j v) es).
Proof.
  intros Hc. destruct es as [|e es]; simpl; rewrite bool_decide_false //.
  - destruct (finish_journal st); simpl; [|done]. by destruct (journal_header sid j o).
  - destruct (finish_journal st); simpl; [|done].
    destruct (journal_header sid j o) as [v|]; simpl; [|done].
    destruct (journal_entry sid j e); simpl; [|done].
    rewrite map_map. by rewrite loop_entries.
Qed.

(** The running totals after the entries of a journal. *)
Definition is_debit (e : entry_row) : bool := e_direction e == Debit.
Lemma entry_loop_ok sid j st es st' v :
  _amount_int (j_amount j) = Ok v → entry_loop sid j st es = Ok st' →
  Forall (entry_good sid j) es ∧
  journal_count st' = journal_count st ∧
  entry_count st' = entry_count st + Z.of_nat (length es) ∧
  current_journal_id st' = current_journal_id st ∧
  current_entry_count st' = current_entry_count st + Z.of_nat (length es) ∧
  current_amount st' = current_amount st ∧ current_type st' = current_type st ∧
  current_accounts st' = rev (map side es) ++ current_accounts st ∧
  current_debit st' = current_debit st + v * count_where is_debit es ∧
  current_credit st' = current_credit st + v * (Z.of_nat (length es) - count_where is_debit es).
Proof.
  intros Hv. revert st. induction es as [|e es IH]; intros st H; cbn [entry_loop] in H.
  - injection H as <-. split_and!; simpl; try done; unfold count_where; simpl; lia.
  - step H as a Ha. apply journal_entry_ok in Ha as [Hg Ha]. rewrite Hv in Ha.
    injection Ha as <-. apply IH in H as (H0 & H1 & H2 & H3 & H4 & H5 & H6 & H7 & H8 & H9).
    simpl in *. split_and!; try done; try lia.
    + by constructor.
    + rewrite H7 /= -app_assoc. done.
    + rewrite H8. unfold count_where, select, is_debit. simpl.
      destruct (e_direction e); simpl; lia.
    + rewrite H9. unfold count_where, select, is_debit. simpl.
      destruct (e_direction e); simpl; lia.
Qed.
Lemma entry_loop_total sid j st es v :
  _amount_int (j_amount j) = Ok v → Forall (entry_good sid j) es →
  ∃ st', entry_loop sid j st es = Ok st'.
Proof.
  intros Hv H. revert st. induction H as [|e es He H IH]; intros st; simpl; [by eexists|].
  rewrite (proj2 (journal_entry_ok sid j e v)); [done|]. simpl. apply IH.
Qed.

Lemma same_set_two (x y : Account * Direction) t :
  same_set [y; x] (expected_accounts t) = true ↔ [x; y] ≡ₚ expected_accounts t.
Proof.
  split.
  - destruct x as [[] []], y as [[] []], t; intros H; vm_compute in H; try discriminate H;
      simpl; first [reflexivity|apply Permutation_swap].
  - intros H. unfold same_set. apply andb_true_iff.
    split; apply forallb_forall; intros z Hz%list_elem_of_In; apply bool_decide_eq_true.
    + rewrite -H. case_in Hz; subst; in_list.
    + rewrite -H in Hz. case_in Hz; subst; in_list.
Qed.

(** The state after a journal's rows can be closed exactly when the
    journal has its two entries. *)
Lemma finish_two sid j st es st' v :
  _amount_int (j_amount j) = Ok v →
  entry_loop sid j (start_journal st j v) es = Ok st' →
  finish_journal st' = Ok tt ↔
  ∃ e1 e2, es = [e1; e2] ∧ [side e1; side e2] ≡ₚ expected_accounts (j_journal_type j).
Proof.
  intros Hv H. destruct (entry_loop_ok _ _ _ _ _ _ Hv H)
    as (_ & _ & _ & H3 & H4 & H5 & H6 & H7 & H8 & H9).
  unfold finish_journal. rewrite H3 H4 H5 H6 H7 H8 H9. simpl.
  set (n := Z.of_nat (length es)). set (k := count_where is_debit es). split.
  - destruct (_ || _) eqn:E1; [done|]. destruct (negb (same_set _ _)) eqn:E2; [done|].
    intros _. apply orb_false_iff in E1 as [E1%negb_false_iff%Z.eqb_eq _].
    apply negb_false_iff in E2. destruct es as [|e1 [|e2 [|e3 es]]]; unfold n in E1;
      simpl in E1; try lia. exists e1, e2. split; [done|]. by apply same_set_two.
  - intros (e1 & e2 & -> & Hp). simpl in n. unfold n. rewrite (proj2 (same_set_two _ _ _) Hp).
    assert (k = 1) as ->.
    { pose proof (count_map side (λ x, x.2 == Debit) [e1; e2]) as Hk. simpl map in Hk.
      rewrite (count_perm _ _ _ Hp) in Hk. unfold k, is_debit. simpl in Hk. rewrite -Hk.
      by destruct (j_journal_type j). }
    repeat match goal with |- context [?a =? ?b] =>
      rewrite (proj2 (Z.eqb_eq a b)); [lia|] end. done.
Qed.

(** ** All journals *)

Lemma select_key_cases {R K} `{!EqDecision K} (k : R → K) (x : K) t :
  NoDup (map k t) → select (λ r, k r == x) t = [] ∨ ∃ r, select (λ r, k r == x) t = [r].
Proof.
  intros Hd. destruct (select _ t) as [|r l] eqn:E; [by left|right].
  assert (r ∈ select (λ r, k r == x) t) as [Hr Ex%bool_decide_eq_true]%elem_of_select
    by (rewrite E; apply here).
  exists r. rewrite -E -Ex. by apply select_key_singleton.
Qed.

Definition order_of (d : wallet_db) (j : journal_row) : option order_row :=
  head (select (λ o, o_order_id o == j_order_id j) (orders d)).
Definition entries_of (d : wallet_db) (j : journal_row) : list entry_row :=
  select (λ e, e_journal_id e == j_journal_id j) (entries d).

Lemma history_of_one d j :
  keys d → history_of d j = map (λ e, (j, order_of d j, e)) (left_join (entries_of d j)).
Proof.
  intros K. unfold history_of, order_of, entries_of.
  destruct (select_key_cases o_order_id (j_order_id j) _ (k_orders _ K)) as [->|[o ->]];
    simpl; by rewrite app_nil_r.
Qed.

Lemma journal_good_header d sid j :
  keys d →
  journal_good d sid j ↔
  ∃ v e1 e2, journal_header sid j (order_of d j) = Ok v ∧ entries_of d j = [e1; e2] ∧
    entry_good sid j e1 ∧ entry_good sid j e2 ∧
    [side e1; side e2] ≡ₚ expected_accounts (j_journal_type j).
Proof.
  intros K. unfold journal_good, order_of, entries_of. split.
  - intros (o & v & e1 & e2 & Eo & Hh & Ee & H1 & H2 & Hp). exists v, e1, e2.
    rewrite Eo. split_and!; try done. apply journal_header_ok. by exists o.
  - intros (v & e1 & e2 & Hh & Ee & H1 & H2 & Hp).
    apply journal_header_ok in Hh as (o & Eo & Hh).
    destruct (select_key_cases o_order_id (j_order_id j) _ (k_orders _ K)) as [E|[o' E]];
      rewrite E in Eo; simpl in Eo; simplify_eq.
    exists o, v, e1, e2. by split_and!.
Qed.

(** Rows of one journal and the close before the next one. *)
Lemma journal_rows_ok d sid j st st' :
  keys d → current_journal_id st ≠ Some (j_journal_id j) →
  journal_loop sid st (history_of d j) = Ok st' → finish_journal st' = Ok tt →
  finish_journal st = Ok tt ∧ journal_good d sid j ∧
  journal_count st' = journal_count st + 1 ∧ entry_count st' = entry_count st + 2 ∧
  current_journal_id st' = Some (j_journal_id j).
Proof.
  intros K Hc H Hf. rewrite history_of_one // loop_journal // in H.
  step H as [] Hfin. step H as v Hh. split; [done|].
  assert (Hh' := Hh). apply journal_header_ok in Hh' as (o & Eo & Hg).
  pose proof (hg_amount _ _ _ _ Hg) as Hv.
  destruct (entry_loop_ok _ _ _ _ _ _ Hv H) as (HF & C1 & C2 & C3 & _).
  apply (finish_two _ _ _ _ _ _ Hv H) in Hf as (e1 & e2 & Ee & Hp). rewrite Ee in HF, C2.
  split_and!; [|done..]. apply journal_good_header; [done|]. exists v, e1, e2.
  apply Forall_cons in HF as [? [? _]%Forall_cons]. done.
Qed.
Lemma journal_rows_total d sid j st :
  keys d → current_journal_id st ≠ Some (j_journal_id j) → finish_journal st = Ok tt →
  journal_good d sid j →
  ∃ st', journal_loop sid st (history_of d j) = Ok st' ∧ finish_journal st' = Ok tt.
Proof.
  intros K Hc Hf Hg. apply journal_good_header in Hg as (v & e1 & e2 & Hh & Ee & H1 & H2 & Hp);
    [|done].
  assert (Hh' := Hh). apply journal_header_ok in Hh' as (o & Eo & Hg).
  pose proof (hg_amount _ _ _ _ Hg) as Hv.
  destruct (entry_loop_total sid j (start_journal st j v) [e1; e2] v) as (st' & H);
    [done|by apply Forall_cons; split; [|apply Forall_singleton]|].
  exists st'. rewrite history_of_one // loop_journal // Hf Hh Ee. split; [done|].
  apply (finish_two _ _ _ _ _ _ Hv H). by exists e1, e2.
Qed.

Lemma journals_ok d sid js st st' :
  keys d → NoDup (map j_journal_id js) →
  (∀ j, j ∈ js → current_journal_id st ≠ Some (j_journal_id j)) →
  journal_loop sid st (flat_map (history_of d) js) = Ok st' → finish_journal st' = Ok tt →
  finish_journal st = Ok tt ∧ Forall (journal_good d sid) js ∧
  journal_count st' = journal_count st + Z.of_nat (length js) ∧
  entry_count st' = entry_count st + 2 * Z.of_nat (length js).
Proof.
  intros K. revert st. induction js as [|j js IH]; intros st Hd Hc H Hf; cbn [flat_map] in H.
  { injection H as <-. split_and!; simpl; try done; lia. }
  rewrite journal_loop_app in H. step H as st1 H1. cbn [map] in Hd.
  apply NoDup_cons in Hd as [Hn Hd].
  assert (current_journal_id st1 = Some (j_journal_id j)) as E1.
  { assert (H1' := H1). rewrite history_of_one // loop_journal in H1'; [by apply Hc, here|].
    step H1' as [] ?. step H1' as v Hh. apply journal_header_ok in Hh as (o & _ & Hg).
    by destruct (entry_loop_ok _ _ _ _ _ _ (hg_amount _ _ _ _ Hg) H1') as (_ & _ & _ & -> & _). }
  destruct (IH st1) as (F1 & F2 & F3 & F4); [done| |done|done|].
  { intros j' Hj'. rewrite E1. intros [= E]. apply Hn. rewrite E.
    by apply list_elem_of_fmap_2. }
  destruct (journal_rows_ok d sid j st st1) as (G1 & G2 & G3 & G4 & _);
    [done|by apply Hc, here|done|done|].
  split_and!; [done|by constructor|simpl length; lia..].
Qed.
Lemma journals_total d sid js st :
  keys d → NoDup (map j_journal_id js) →
  (∀ j, j ∈ js → current_journal_id st ≠ Some (j_journal_id j)) →
  finish_journal st = Ok tt → Forall (journal_good d sid) js →
  ∃ st', journal_loop sid st (flat_map (history_of d) js) = Ok st' ∧ finish_journal st' = Ok tt.
Proof.
  intros K. revert st. induction js as [|j js IH]; intros st Hd Hc Hf HF; simpl.
  { by exists st. }
  apply NoDup_cons in Hd as [Hn Hd]. apply Forall_cons in HF as [Hg HF].
  destruct (journal_rows_total d sid j st) as (st1 & H1 & F1); [done|by apply Hc, here|done|done|].
  destruct (journal_rows_ok d sid j st st1) as (_ & _ & _ & _ & E1); [done|by apply Hc, here|done|done|].
  rewrite journal_loop_app H1. simpl. apply IH; try done.
  intros j' Hj'. rewrite E1. intros [= E]. apply Hn. rewrite E. by apply list_elem_of_fmap_2.
Qed.

(** The journals of the subject. *)
Definition journals_of (d : wallet_db) (sid : string) : list journal_row :=
  select (λ j, j_subject_id j == sid) (journals d).

Lemma verify_journals_ok d sid :
  keys d → NoDup (map j_journal_id (journals d)) →
  (∀ st, verify_journals d sid = Ok st →
     (∀ j, j ∈ journals_of d sid → journal_good d sid j) ∧
     journal_count st = Z.of_nat (length (journals_of d sid)) ∧
     entry_count st = 2 * Z.of_nat (length (journals_of d sid))) ∧
  ((∀ j, j ∈ journals_of d sid → journal_good d sid j) →
     ∃ st, verify_journals d sid = Ok st).
Proof.
  intros K Hk. unfold verify_journals, history.
  assert (Hp : journals_in_order d sid ≡ₚ journals_of d sid) by apply sort_by_perm.
  assert (Hd : NoDup (map j_journal_id (journals_in_order d sid))).
  { by apply NoDup_map_sort, NoDup_map_select. }
  split.
  - intros st H. step H as st' H1. step H as [] Hf. injection H as <-.
    apply journals_ok in H1 as (_ & HF & C1 & C2); [|done..].
    rewrite (Permutation_length Hp) in C1, C2. split_and!; [|done..].
    intros j Hj. rewrite -Hp in Hj. rewrite -> Forall_forall in HF. by apply HF.
  - intros HF. destruct (journals_total d sid (journals_in_order d sid) initial_state)
      as (st & -> & Hf); [done..| |].
    + apply Forall_forall. intros j Hj. apply HF. by rewrite -Hp.
    + exists st. simpl. by rewrite Hf.
Qed.

(** ** The whole check *)

Record economy_consistent (d : wallet_db) (sid : string) : Prop := {
  ec_policy : ∃ p, _policy_row sid d = Some p ∧ policy_hash_of p = Ok (p_state_hash p);
  ec_bounties : ∀ b, b ∈ bounties d → b_subject_id b = sid →
    b_state_hash b = _bounty_state_hash_row b (b_status b);
  ec_submissions : ∀ s, s ∈ submissions d → s_subject_id s = sid →
    _submission_state_hash_row s (s_status s) (s_decision_reason s) = Ok (s_state_hash s);
  ec_orders : ∀ o, o ∈ orders d → o_subject_id o = sid →
    o_state_hash o = _order_state_hash_row o (o_status o) None None;
  ec_journals : ∀ j, j ∈ journals d → j_subject_id j = sid → journal_good d sid j;
  ec_entries : ∀ e, e ∈ entries d → e_subject_id e = sid →
    ∃ j, j ∈ journals d ∧ j_journal_id j = e_journal_id e ∧ j_subject_id j = sid ∧
      j_order_id j = e_order_id e;
}.
Definition economy_totals (d : wallet_db) (sid : string) : economy_counts :=
  {| n_bounties := count_where (λ r, b_subject_id r == sid) (bounties d);
     n_submissions := count_where (λ r, s_subject_id r == sid) (submissions d);
     n_orders := count_where (λ r, o_subject_id r == sid) (orders d);
     n_journals := count_where (λ r, j_subject_id r == sid) (journals d);
     n_entries := count_where (λ r, e_subject_id r == sid) (entries d) |}.

Lemma check_all_ok {A} (f : A → result unit) l :
  check_all f l = Ok tt ↔ ∀ x, x ∈ l → f x = Ok tt.
Proof.
  induction l as [|x l IH]; simpl.
  - split; [by intros _ ? ?%not_elem_of_nil|done].
  - split.
    + intros H. step H as [] Hx. intros y [->|Hy]%elem_of_cons; [done|]. by apply IH.
    + intros H. rewrite (H x (here _ _)). simpl. apply IH. intros y Hy. by apply H, there.
Qed.
Lemma check_policy_ok d sid :
  check_policy d sid = Ok tt ↔
  ∃ p, _policy_row sid d = Some p ∧ policy_hash_of p = Ok (p_state_hash p).
Proof.
  unfold check_policy. destruct (_policy_row sid d) as [p|]; [|naive_solver].
  destruct (policy_hash_of p) as [h|] eqn:E; [|naive_solver congruence].
  destruct (_ =/= _) eqn:Eh.
  - split; [done|]. intros (q & [= <-] & H). rewrite E in H. injection H as ->.
    by rewrite bool_decide_true in Eh.
  - apply neq_false_1 in Eh as <-. naive_solver.
Qed.
Lemma check_submission_ok s :
  check_submission s = Ok tt ↔
  _submission_state_hash_row s (s_status s) (s_decision_reason s) = Ok (s_state_hash s).
Proof.
  unfold check_submission. destruct (_submission_state_hash_row _ _ _) as [h|]; simpl; [|done].
  case_bool_decide as E; simpl; [by rewrite E|]. split; [done|]. intros [= ->]. done.
Qed.

Lemma orphan_false d sid e :
  NoDup (map j_journal_id (journals d)) →
  orphan d sid e = false ↔
  (e_subject_id e = sid → ∃ j, j ∈ journals d ∧ j_journal_id j = e_journal_id e ∧
     j_subject_id j = sid ∧ j_order_id j = e_order_id e).
Proof.
  intros Hk. unfold orphan. case_bool_decide as Es; simpl; [|done].
  destruct (select_key_cases j_journal_id (e_journal_id e) _ Hk) as [E|[j E]]; rewrite E; simpl.
  - split; [done|]. intros H. destruct (H Es) as (j & Hj & Ej & _).
    assert (j ∈ select (λ j, j_journal_id j == e_journal_id e) (journals d)) as Hin.
    { apply elem_of_select. by rewrite bool_decide_true. }
    rewrite E in Hin. by apply not_elem_of_nil in Hin.
  - assert (j ∈ select (λ j, j_journal_id j == e_journal_id e) (journals d))
      as [Hj Ej%bool_decide_eq_true]%elem_of_select by (rewrite E; apply here).
    rewrite orb_false_r orb_false_iff !neq_false. split.
    + intros [E1 E2] _. by exists j.
    + intros H. destruct (H Es) as (j' & Hj' & Ej' & E1 & E2).
      rewrite (key_unique j_journal_id _ j j' Hk Hj Hj' ltac:(congruence)). done.
Qed.

(** Two entries per journal of the subject are all of its entries. *)
Lemma entries_count d sid :
  NoDup (map j_journal_id (journals d)) →
  (∀ j, j ∈ journals_of d sid → journal_good d sid j) →
  (∀ e, e ∈ entries d → e_subject_id e = sid →
     ∃ j, j ∈ journals d ∧ j_journal_id j = e_journal_id e ∧ j_subject_id j = sid ∧
       j_order_id j = e_order_id e) →
  2 * Z.of_nat (length (journals_of d sid))
  = count_where (λ r, e_subject_id r == sid) (entries d).
Proof.
  intros Hk HJ HE. set (js := journals_of d sid).
  assert (Hd : NoDup (map j_journal_id js)) by by apply NoDup_map_select.
  rewrite -sum_by_const.
  trans (sum_by (λ j, sum_by (λ e, if e_journal_id e == j_journal_id j then 1 else 0)
                        (entries d)) js).
  { apply sum_by_ext. intros j Hj.
    destruct (HJ j Hj) as (o & v & e1 & e2 & _ & _ & E & _).
    rewrite -count_as_sum. unfold count_where. by rewrite E. }
  rewrite sum_by_swap count_as_sum. apply sum_by_ext. intros e He.
  rewrite (sum_by_ext _ (λ j, if j_journal_id j == e_journal_id e then 1 else 0)).
  { intros j _. by repeat case_bool_decide. }
  rewrite -count_as_sum count_key //. case_bool_decide as Hin.
  - apply list_elem_of_fmap in Hin as (j & Ej & Hj).
    destruct (HJ j Hj) as (o & v & e1 & e2 & _ & _ & E & H1 & H2 & _).
    assert (e ∈ select (λ e, e_journal_id e == j_journal_id j) (entries d)) as Hin.
    { apply elem_of_select. by rewrite Ej bool_decide_true. }
    rewrite E in Hin. rewrite bool_decide_true //.
    case_in Hin; subst; [apply H1|apply H2].
  - rewrite bool_decide_false //. intros Es. destruct (HE e He Es) as (j & Hj & Ej & Ejs & _).
    apply Hin. rewrite -Ej. apply list_elem_of_fmap_2, elem_of_select.
    by rewrite bool_decide_true.
Qed.

Lemma economy_check_ok d sid counts :
  keys d → NoDup (map j_journal_id (journals d)) →
  economy_check d sid = Ok counts ↔ economy_consistent d sid ∧ counts = economy_totals d sid.
Proof.
  intros K Hk. destruct (verify_journals_ok d sid K Hk) as [HV1 HV2]. unfold economy_check.
  split.
  - intros H. step H as [] HP%check_policy_ok. step H as [] HB. step H as [] HS. step H as [] HO. step H as st HJ.
    rewrite -> check_all_ok in HB. rewrite -> check_all_ok in HS. rewrite -> check_all_ok in HO.
    destruct (HV1 _ HJ) as (HG & C1 & C2).
    destruct (fetchone _ _) eqn:Ef; [done|].
    destruct (negb _) eqn:Ec; [done|]. apply negb_false_iff, Z.eqb_eq in Ec.
    injection H as <-. split.
    + split; [done|..].
      * intros b Hb Es. specialize (HB b). unfold check_bounty in HB.
        destruct (_ =/= _) eqn:E in HB; [|by apply neq_false_1].
        exfalso. discriminate HB. apply elem_of_select. by rewrite bool_decide_true.
      * intros s Hs Es. apply check_submission_ok, HS, elem_of_select.
        by rewrite bool_decide_true.
      * intros o Ho Es. specialize (HO o). unfold check_order in HO.
        destruct (_ =/= _) eqn:E in HO; [|by apply neq_false_1].
        exfalso. discriminate HO. apply elem_of_select. by rewrite bool_decide_true.
      * intros j Hj Es. apply HG, elem_of_select. by rewrite bool_decide_true.
      * intros e He. apply orphan_false; [done|]. by eapply fetchone_None.
    + unfold economy_totals. f_equal; [by rewrite C1|by rewrite Ec].
  - intros [[HP HB HS HO HJ HE] ->].
    rewrite (proj2 (check_policy_ok d sid) HP). simpl.
    rewrite (proj2 (check_all_ok check_bounty _)); simpl.
    { intros b [Hb Es%bool_decide_eq_true]%elem_of_select. unfold check_bounty.
      by rewrite (proj2 (neq_false _ _) (HB b Hb Es)). }
    rewrite (proj2 (check_all_ok check_submission _)); simpl.
    { intros s [Hs Es%bool_decide_eq_true]%elem_of_select. by apply check_submission_ok, HS. }
    rewrite (proj2 (check_all_ok check_order _)); simpl.
    { intros o [Ho Es%bool_decide_eq_true]%elem_of_select. unfold check_order.
      by rewrite (proj2 (neq_false _ _) (HO o Ho Es)). }
    assert (HG : ∀ j, j ∈ journals_of d sid → journal_good d sid j).
    { intros j [Hj Es%bool_decide_eq_true]%elem_of_select. by apply HJ. }
    destruct (HV2 HG) as [st Hst]. rewrite Hst. simpl.
    destruct (HV1 _ Hst) as (_ & C1 & C2).
    destruct (fetchone _ _) as [e|] eqn:Ef.
    { apply fetchone_Some in Ef as [He Ho].
      rewrite (proj2 (orphan_false d sid e Hk)) in Ho; [|done]. intros. by apply HE. }
    rewrite C1 C2. rewrite (entries_count d sid) //.
    rewrite (proj2 (negb_false_iff _)); [by apply Z.eqb_eq|done].
Qed.

(** ** The policy table *)

Definition policy_ok (p : policy_row) : Prop := policy_hash_of p = Ok (p_state_hash p).
Record policies_ok (d : wallet_db) : Prop := {
  po_key : NoDup (map p_subject_id (policies d));
  po_rows : Forall policy_ok (policies d);
  po_subjects : ∀ sid, sid ∈ subjects d → ∃ p, p ∈ policies d ∧ p_subject_id p = sid;
}.

Lemma json_strs_JStrs l : json_strs (JStrs l) = Ok l.
Proof.
  unfold json_strs, JStrs. induction l as [|s l IH]; simpl; [done|]. by rewrite IH.
Qed.
Lemma bit_b2z b : bit (b2z b) = true.
Proof. by destruct b. Qed.
Lemma b2z_bit b : negb (b2z b =? 0) = b.
Proof. by destruct b. Qed.

Lemma policy_row_valid raw p sid version now h :
  validate_PaymentPolicyInput raw = Ok p → 1 <= version →
  _policy_state_hash_row (policy_row_of sid (with_automation p) version now h) = Ok h →
  policy_ok (policy_row_of sid (with_automation p) version now h).
Proof.
  intros Hv%policy_idempotent Hver Hh. unfold policy_ok, policy_hash_of. rewrite Hh.
  rewrite /= (proj2 (Z.leb_le 1 version) Hver) !bit_b2z /=.
  unfold policy_input_of_row, policy_row_of. cbn -[json_strs JStrs canonical_json strict_json_loads b2z validate_PaymentPolicyInput with_automation].
  rewrite !loads_strs. cbn -[json_strs JStrs b2z validate_PaymentPolicyInput with_automation].
  rewrite !json_strs_JStrs. cbn -[b2z validate_PaymentPolicyInput with_automation]. rewrite !b2z_bit.
  assert (∀ a, ∃ q, validate_PaymentPolicyInput
    {| pi_mode := pi_mode p; pi_allowed_network_ids := pi_allowed_network_ids p;
       pi_allowed_asset_ids := pi_allowed_asset_ids p;
       pi_per_order_limit := pi_per_order_limit p; pi_daily_limit := pi_daily_limit p;
       pi_monthly_limit := pi_monthly_limit p;
       pi_daily_order_limit := pi_daily_order_limit p;
       pi_monthly_order_limit := pi_monthly_order_limit p;
       pi_min_balance := pi_min_balance p;
       pi_max_observation_age_seconds := pi_max_observation_age_seconds p;
       pi_automatic_max_amount := pi_automatic_max_amount p;
       pi_anomaly_block := pi_anomaly_block p; pi_emergency_paused := pi_emergency_paused p;
       pi_automation_enabled := a;
       pi_recipient_allowlist_enabled := pi_recipient_allowlist_enabled p;
       pi_allowed_recipient_addresses := pi_allowed_recipient_addresses p |} = Ok q) as Hq.
  { intros a. revert Hv. unfold validate_PaymentPolicyInput. simpl. intros H.
    do 11 (step H as ? ->; simpl). by eexists. }
  unfold with_automation. destruct (pi_automation_enabled p) as [a|]; simpl;
    (edestruct Hq as [q ->]; simpl; done).
Qed.
Lemma default_policy_valid sid now h :
  _policy_state_hash_row (default_policy_row sid now h) = Ok h →
  policy_ok (default_policy_row sid now h).
Proof.
  intros H. unfold policy_ok, policy_hash_of. rewrite H.
  unfold policy_input_of_row. simpl. done.
Qed.

Lemma policies_same d d' :
  policies d' = policies d → subjects d' = subjects d → policies_ok d → policies_ok d'.
Proof. intros E1 E2 []. by split; rewrite ?E1 ?E2. Qed.

Lemma policies_update row sid d d' :
  p_subject_id row = sid → policy_ok row →
  policies d' = append_row row (select (λ x, p_subject_id x =/= sid) (policies d)) →
  subjects d' = subjects d → policies_ok d → policies_ok d'.
Proof.
  intros <- Hok E1 E2 [P1 P2 P3]. split; rewrite ?E1 ?E2.
  - rewrite map_append. apply NoDup_snoc; [|by apply NoDup_map_select].
    intros (x & Ex & [_ Hx]%elem_of_select)%list_elem_of_fmap.
    by rewrite Ex bool_decide_true in Hx.
  - apply Forall_append; [|done]. apply Forall_forall. intros x [Hx _]%elem_of_select.
    rewrite -> Forall_forall in P2. by apply P2.
  - intros s (p & Hp & Ep)%P3. destruct (decide (s = p_subject_id row)) as [->|Hn].
    + exists row. split; [|done]. apply elem_of_append; by right.
    + exists p. split; [|done]. apply elem_of_append; left. apply elem_of_select.
      split; [done|]. by rewrite Ep bool_decide_false.
Qed.
Lemma policies_subject sid now h d d' :
  _policy_state_hash_row (default_policy_row sid now h) = Ok h →
  d' = set_policies (λ t, if bool_decide (_policy_row sid d = None)
                          then append_row (default_policy_row sid now h) t else t)
         (set_subjects (append_row sid) d) →
  policies_ok d → policies_ok d'.
Proof.
  intros Hh -> [P1 P2 P3]. unfold _policy_row. split; simpl; case_bool_decide as Hp.
  - rewrite map_append. apply NoDup_snoc; [|done]. simpl.
    intros (x & Ex & Hx)%list_elem_of_fmap. eapply fetchone_None in Hp; [|exact Hx].
    by rewrite /= Ex bool_decide_true in Hp.
  - done.
  - apply Forall_append; [done|by apply default_policy_valid].
  - done.
  - intros s [(p & ? & ?)%P3| ->]%elem_of_append.
    + exists p. split; [|done]. apply elem_of_append; by left.
    + eexists. split; [apply elem_of_append; by right|done].
  - intros s [(p & ? & ?)%P3| ->]%elem_of_append; [by exists p|].
    destruct (fetchone _ _) as [p|] eqn:E; [|done].
    apply fetchone_Some in E as [? ?%bool_decide_eq_true]. by exists p.
Qed.

Lemma policies_tx d d' : policies_ok d → tx d d' → policies_ok d'.
Proof.
  intros P H. case_tx H; try (open_effects; by apply (policies_same d)).
  - destruct He as (_ & _ & ? & _ & _ & _ & _ & _ & _ & ? & _). by apply (policies_same d).
  - open_effects. destruct Hp as [[_ ->]|Hp]; [by apply (policies_same d)|].
    assert (subjects d2 = subjects d) as E.
    { destruct Hp as (? & ? & ? & ? & ? & _ & _ & Ha & _ & _ & Hm). open_effects.
      destruct Hm as [Hm|[[_ Hm]|[_ Hm]]]; by open_effects. }
    apply placed_frame in Hp as (_ & _ & ? & _). by apply (policies_same d).
  - destruct Hl as [l ->], Hv as [raw Hv]. subst.
    eapply (policies_update row sid d); [done| |done|done|done].
    eapply policy_row_valid; [done| |done].
    destruct (_policy_row sid d) as [r|] eqn:E; [|lia].
    apply fetchone_Some in E as [Hr _]. destruct P as [_ P2 _]. rewrite -> Forall_forall in P2.
    specialize (P2 r Hr). unfold policy_ok, policy_hash_of, check in P2.
    destruct (1 <=? p_policy_version r) eqn:Ev; [|done]. apply Z.leb_le in Ev. lia.
  - by eapply policies_subject.
  - open_effects. destruct jt; simpl in *; open_effects; subst; by apply (policies_same d).
Qed.
Lemma policies_reach d : wallet_reach d → policies_ok d.
Proof.
  apply wallet_invariant.
  - split; simpl; [apply NoDup_nil_2|constructor|]. by intros ? ?%not_elem_of_nil.
  - intros. by eapply policies_tx.
Qed.

(** ** Reachable databases pass *)

Lemma sides_expected t : [(sides t).1; (sides t).2] = expected_accounts t.
Proof. by destruct t. Qed.
Lemma amount_ok_int s : amount_ok s → ∃ v, _amount_int s = Ok v ∧ 0 < v.
Proof.
  intros [H (v & Hv & Hp)]. exists v. unfold _amount_int. rewrite H. simpl.
  unfold int_of. by rewrite Hv.
Qed.
Lemma entry_for_good j sd e : entry_for j sd e → entry_good (j_subject_id j) j e.
Proof. by intros []; split. Qed.

Lemma reach_journal_good d j :
  wallet_reach d → j ∈ journals d → journal_good d (j_subject_id j) j.
Proof.
  intros H Hj. pose proof (ledger_reach _ H) as L. pose proof (rows_reach _ H) as R.
  pose proof (wallet_reach_keys _ H) as K.
  destruct (l_order _ L j Hj) as (o & Ho & Hf). destruct (l_pairs _ L) as (pairs & E & HF).
  destruct (select_pairs _ _ j HF (l_journal_key _ L) Hj) as (p & [H1 H2] & Es).
  pose proof (r_orders _ R) as RO. rewrite -> Forall_forall in RO.
  destruct (RO o Ho) as [_ Ham]. destruct (amount_ok_int _ Ham) as (v & Hv & Hpos).
  exists o, v, p.1, p.2. split_and!.
  - rewrite (jf_order _ _ _ Hf). by apply (select_key_singleton o_order_id); [apply K|].
  - destruct Hf. split; congruence.
  - by rewrite E.
  - by eapply entry_for_good.
  - by eapply entry_for_good.
  - unfold side. by rewrite (ef_side _ _ _ H1) (ef_side _ _ _ H2) sides_expected.
Qed.

Lemma reach_consistent d sid : wallet_reach d → sid ∈ subjects d → economy_consistent d sid.
Proof.
  intros H Hs. pose proof (ledger_reach _ H) as L. destruct (rows_reach _ H) as [R1 R2 R3].
  destruct (policies_reach _ H) as [P1 P2 P3].
  rewrite -> Forall_forall in R1. rewrite -> Forall_forall in R2.
  rewrite -> Forall_forall in R3. rewrite -> Forall_forall in P2. split.
  - destruct (P3 sid Hs) as (p & Hp & Ep). exists p. split; [|by apply P2].
    unfold _policy_row. rewrite -Ep. by apply (fetchone_key p_subject_id).
  - intros b Hb _. by apply R1.
  - intros s Hs' _. by apply R2.
  - intros o Ho _. by apply R3.
  - intros j Hj <-. by apply reach_journal_good.
  - intros e He <-. destruct (entry_has_journal _ _ L He) as (j & p & Hj & [H1 H2] & Hin).
    exists j. split; [done|]. case_in Hin; subst; [destruct H1|destruct H2]; by split_and!.
Qed.
Lemma reach_economy_check d sid :
  wallet_reach d → sid ∈ subjects d → economy_check d sid = Ok (economy_totals d sid).
Proof.
  intros H Hs. apply economy_check_ok; [by apply wallet_reach_keys| |].
  - apply (l_journal_key _ (ledger_reach _ H)).
  - split; [by apply reach_consistent|done].
Qed.

Lemma verify_integrity_run w sid sid' :
  validate_subject_id sid = Ok sid' →
  verify_integrity sid w = (economy_check (db w) sid, w).
Proof.
  intros Hs. unfold verify_integrity, read_transaction, transaction, lift. rewrite Hs.
  unfold mbind, M_bind. cbn. destruct (economy_check (db w) sid); [done|by destruct w].
Qed.

(** C6: The offline check is exact.  On a database with unique keys,
    [verify_integrity] returns normally exactly when the subject's policy,
    bounty, submission and order hashes are right, each of its journals
    has an order and the two entries of its kind and amount with right
    hashes, and no entry is left over; and then it returns the true
    counts. *)
Theorem verify_integrity_exact w sid sid' counts w' :
  keys (db w) → NoDup (map j_journal_id (journals (db w))) →
  validate_subject_id sid = Ok sid' →
  ok (verify_integrity sid) w counts w' ↔
  economy_consistent (db w) sid ∧ counts = economy_totals (db w) sid ∧ w' = w.
Proof.
  intros K Hk Hs. rewrite and_assoc -(economy_check_ok (db w) sid counts K Hk).
  unfold ok. rewrite (verify_integrity_run _ _ _ Hs). split.
  - by intros [= -> <-].
  - by intros [-> ->].
Qed.

(** C7: What the wallet writes is accepted.  In every reachable state the
    check of every registered subject succeeds, reports the true counts
    and changes nothing. *)
Theorem reachable_passes_check w sid sid' :
  reachable w → sid ∈ subjects (db w) → validate_subject_id sid = Ok sid' →
  verify_integrity sid w = (Ok (economy_totals (db w) sid), w).
Proof.
  intros H%reachable_reach Hs Hv.
  by rewrite (verify_integrity_run _ _ _ Hv) (reach_economy_check _ _ H Hs).
Qed.
End verify.
