(* ===== verification/WalletExecInv.v ===== *)
(** * Invariants of the payment executions

    Every reachable database couples an execution with its order, numbers
    its attempts without gaps, and carries the hashes
    [verify_database_integrity] recomputes. *)

From stdpp Require Import relations.
From S2P Require Import Prelude Tables PyStr Json Digest Time WalletTypes RegistryTypes.
From S2P Require Import WalletTransfer WalletDb WalletEconomy WalletOrders WalletSubmissions.
From S2P Require Import WalletExecution WalletEngine WalletIntegrity WalletEffects WalletSteps.
From S2P Require Import WalletSystem WalletLedger WalletRecords WalletVerify.
Local Open Scope Z_scope.

(** ** Attempt numbers *)

Lemma seqZ_snoc n : 0 <= n → seqZ 1 (n + 1) = seqZ 1 n ++ [n + 1].
Proof. intros H. rewrite seqZ_app; [lia..|]. f_equal. by rewrite Z.add_comm. Qed.
Lemma seqZ_le n k : k ∈ seqZ 1 n → k <= n.
Proof. intros ?%elem_of_seqZ. lia. Qed.
Lemma sql_min_seqZ n : 1 <= n → sql_min (seqZ 1 n) = Some 1.
Proof.
  intros H. rewrite seqZ_cons; [lia|]. simpl. f_equal.
  assert (∀ l, Forall (λ k, 1 <= k) l → foldr Z.min 1 l = 1) as Hl.
  { induction 1 as [|k l Hk Hl IH]; simpl; [done|]. rewrite IH. lia. }
  apply Hl, Forall_forall. intros k ?%elem_of_seqZ. lia.
Qed.
Lemma sql_max_seqZ n : 1 <= n → sql_max (seqZ 1 n) = Some n.
Proof.
  intros H. rewrite seqZ_cons; [lia|]. simpl. f_equal.
  assert (∀ (k : nat) m, foldr Z.max 1 (seqZ m (Z.of_nat k)) = match k with
                          | O => 1 | _ => Z.max 1 (m + Z.of_nat k - 1) end) as Hk.
  { induction k as [|k IH]; intros m; [done|]. rewrite seqZ_cons; [lia|]. simpl.
    replace (Z.pred (Z.of_nat (S k))) with (Z.of_nat k) by lia. rewrite IH.
    destruct k; lia. }
  replace (Z.pred n) with (Z.of_nat (Z.to_nat (Z.pred n))) by lia. rewrite Hk.
  destruct (Z.to_nat (Z.pred n)) eqn:?; lia.
Qed.

Section exec_inv.
Context {Dg : Digest} {En : Env} {Sg : Signer} {Hosts : HostNames}.

(** ** The invariant *)

Record row_good (x : execution_row) : Prop := {
  xg_hash : x_state_hash x = _execution_hash x;
  xg_signing : x_status x = XSigning → x_error_code x = None ∧ x_receipt x = no_receipt;
  xg_broadcast : x_status x = XBroadcast → x_receipt x = no_receipt;
  xg_count : 1 <= x_attempt_count x <= 32;
  xg_source : x_source_address x ≠ x_recipient_address x;
}.
(** The execution pays exactly its order, and their statuses agree. *)
Record pays (o : order_row) (x : execution_row) : Prop := {
  py_order : o_order_id o = x_order_id x;
  py_subject : o_subject_id o = x_subject_id x;
  py_network : o_network_id o = x_network_id x;
  py_asset : o_asset_id o = x_asset_id x;
  py_recipient : o_recipient_address o = x_recipient_address x;
  py_amount : o_amount o = x_amount x;
  py_status : order_matches_execution (o_status o) (x_status x) = true;
}.
Definition coupled (os : list order_row) (x : execution_row) : Prop :=
  ∃ o, o ∈ os ∧ pays o x.
Record chain (ts : list attempt_row) (x : execution_row) : Prop := {
  ch_numbers : map t_attempt_number (select (λ t, t_execution_id t == x_execution_id x) ts)
    = seqZ 1 (x_attempt_count x);
  ch_subject : ∀ t, t ∈ ts → t_execution_id t = x_execution_id x →
    t_subject_id t = x_subject_id x;
  ch_latest : ∀ t, t ∈ ts → t_execution_id t = x_execution_id x →
    t_attempt_number t = x_attempt_count x → t_status t = x_status x;
}.
Definition attempt_good (xs : list execution_row) (t : attempt_row) : Prop :=
  t_state_hash t = _attempt_hash t ∧ ∃ x, x ∈ xs ∧ x_execution_id x = t_execution_id t.

Record exec_ok (d : wallet_db) : Prop := {
  xo_order : NoDup (map x_order_id (executions d));
  xo_good : ∀ x, x ∈ executions d → row_good x;
  xo_coupled : ∀ x, x ∈ executions d → coupled (orders d) x;
  xo_chain : ∀ x, x ∈ executions d → chain (attempts d) x;
  xo_attempts : ∀ t, t ∈ attempts d → attempt_good (executions d) t;
}.

(** ** Orders that move *)

(** What is fixed in an execution from its creation on. *)
Definition same_execution (x x' : execution_row) : Prop :=
  x_execution_id x' = x_execution_id x ∧ x_order_id x' = x_order_id x ∧
  x_subject_id x' = x_subject_id x ∧ x_network_id x' = x_network_id x ∧
  x_asset_id x' = x_asset_id x ∧ x_recipient_address x' = x_recipient_address x ∧
  x_amount x' = x_amount x.

Lemma pays_same o o' x x' :
  same_order o o' → same_execution x x' →
  order_matches_execution (o_status o') (x_status x') = true → pays o x → pays o' x'.
Proof.
  intros (? & ? & ? & ? & ? & ? & ? & ? & _) (? & ? & ? & ? & ? & ? & ?) ? [].
  split; congruence.
Qed.

Lemma coupled_moved d row target now aid x x' :
  keys d → row ∈ orders d → coupled (orders d) x → same_execution x x' →
  (o_order_id row = x_order_id x → order_matches_execution (o_status row) (x_status x) = true →
     order_matches_execution target (x_status x') = true) →
  (o_order_id row ≠ x_order_id x → x_status x' = x_status x) →
  coupled (replace_row o_order_id row (moved_row row target now aid) (orders d)) x'.
Proof.
  intros K Hr (o & Ho & Hp) Hs H1 H2.
  destruct (decide (o = row)) as [->|Hn].
  - eexists. split; [apply (elem_of_replace o_order_id); [apply (k_orders _ K)|done|by left]|].
    eapply pays_same; [apply moved_row_same|exact Hs| |done].
    apply H1; [apply Hp|apply Hp].
  - exists o. split.
    + apply (elem_of_replace o_order_id); [apply (k_orders _ K)|done|by right].
    + eapply pays_same; [reflexivity|exact Hs| |done]. rewrite H2; [|apply Hp].
      intros E. apply Hn. eapply (key_unique o_order_id); [apply (k_orders _ K)|done|done|].
      rewrite E. apply Hp.
Qed.
Lemma coupled_append os o x : coupled os x → coupled (append_row o os) x.
Proof. intros (o' & ? & ?). exists o'. split; [|done]. apply elem_of_append; by left. Qed.
Lemma same_execution_refl x : same_execution x x.
Proof. by split_and!. Qed.

(** Orders change, executions do not. *)
Lemma exec_orders d d' :
  (∀ x, coupled (orders d) x → coupled (orders d') x) →
  executions d' = executions d → attempts d' = attempts d → exec_ok d → exec_ok d'.
Proof. intros H E1 E2 []. split; rewrite ?E1 ?E2; auto. Qed.

Lemma exec_moved d d' row target now aid :
  keys d → row ∈ orders d →
  (∀ xs, order_matches_execution (o_status row) xs = true →
         order_matches_execution target xs = true) →
  orders d' = replace_row o_order_id row (moved_row row target now aid) (orders d) →
  executions d' = executions d → attempts d' = attempts d → exec_ok d → exec_ok d'.
Proof.
  intros K Hr Hm Eo E1 E2. apply exec_orders; [|done|done]. intros x Hx. rewrite Eo.
  eapply coupled_moved; eauto using same_execution_refl.
Qed.

(** ** A new execution *)

Lemma exec_prepare d d' o now aid x t :
  keys d → o ∈ orders d → o_status o = OReserved →
  orders d' = replace_row o_order_id o (moved_row o OSigning now aid) (orders d) →
  executions d' = append_row x (executions d) → attempts d' = append_row t (attempts d) →
  row_good x → x_status x = XSigning → x_attempt_count x = 1 →
  pays (moved_row o OSigning now aid) x →
  t_execution_id t = x_execution_id x → t_subject_id t = x_subject_id x →
  t_attempt_number t = 1 → t_status t = XSigning → t_state_hash t = _attempt_hash t →
  execution_unique (executions d) x = true → exec_ok d → exec_ok d'.
Proof.
  intros K Ho Hs Eo E1 E2 Hg Hst Hc Hp T1 T2 T3 T4 T5 Hu [X1 X2 X3 X4 X5].
  unfold execution_unique in Hu.
  apply andb_true_iff in Hu as [[[U1 U2]%andb_true_iff _]%andb_true_iff _].
  assert (F1 : ∀ y, y ∈ executions d → x_execution_id y ≠ x_execution_id x).
  { intros y Hy E. eapply exists_none in Hy; [|exact U1]. by apply bool_decide_eq_false in Hy. }
  assert (F2 : ∀ u, u ∈ attempts d → t_execution_id u ≠ x_execution_id x).
  { intros u Hu. destruct (X5 u Hu) as (_ & y & Hy & <-). by apply F1. }
  split; rewrite ?E1 ?E2 ?Eo.
  - rewrite map_append. apply NoDup_snoc; [|done].
    intros (y & E & Hy)%list_elem_of_fmap. eapply exists_none in Hy; [|exact U2].
    by apply bool_decide_eq_false in Hy.
  - intros y [?| ->]%elem_of_append; [by apply X2|done].
  - intros y [Hy| ->]%elem_of_append.
    + eapply coupled_moved; eauto using same_execution_refl. by rewrite Hs.
    + eexists. split; [apply (elem_of_replace o_order_id); [apply (k_orders _ K)|done|by left]|done].
  - intros y [Hy| ->]%elem_of_append.
    + destruct (X4 y Hy) as [C1 C2 C3]. assert (t_execution_id t ≠ x_execution_id y) as Hn.
      { rewrite T1. intros E. by apply (F1 y Hy). }
      split.
      * by rewrite select_append bool_decide_false // app_nil_r.
      * intros u [?| ->]%elem_of_append; [by apply C2|done].
      * intros u [?| ->]%elem_of_append; [by apply C3|done].
    + split.
      * rewrite select_append T1 bool_decide_true // select_none /= ?T3 ?Hc //.
        intros u Hu. by apply bool_decide_eq_false, F2.
      * intros u [Hu| ->]%elem_of_append; [|done]. intros E. by apply F2 in Hu.
      * intros u [Hu| ->]%elem_of_append; [|congruence]. intros E. by apply F2 in Hu.
  - intros u [Hu| ->]%elem_of_append.
    + destruct (X5 u Hu) as (? & y & ? & ?). split; [done|]. exists y.
      split; [|done]. apply elem_of_append; by left.
    + split; [done|]. exists x. split; [|done]. apply elem_of_append; by right.
Qed.

(** ** An execution that moves with its order *)

Lemma exec_rewrite d d' o target now aid x x' :
  keys d → o ∈ orders d → x ∈ executions d → o_order_id o = x_order_id x →
  orders d' = replace_row o_order_id o (moved_row o target now aid) (orders d) →
  executions d' = replace_row x_execution_id x x' (executions d) →
  same_execution x x' → row_good x' →
  order_matches_execution target (x_status x') = true →
  chain (attempts d') x' →
  (∀ y, y ∈ executions d → y ≠ x → chain (attempts d') y) →
  (∀ t, t ∈ attempts d' → attempt_good (executions d) t) →
  exec_ok d → exec_ok d'.
Proof.
  intros K Ho Hx Eox Eo E1 Hs Hg Hm Hc Hcs Ht [X1 X2 X3 X4 X5].
  assert (Hel : ∀ y, y ∈ replace_row x_execution_id x x' (executions d) →
    y = x' ∨ y ∈ executions d ∧ y ≠ x).
  { intros y Hy. by apply (elem_of_replace x_execution_id) in Hy; [|apply (k_executions _ K)|]. }
  assert (Hid : x_execution_id x' = x_execution_id x) by apply Hs.
  split; rewrite ?E1 ?Eo.
  - rewrite map_replace //. intros y Hy Ey.
    rewrite (key_unique x_execution_id _ y x (k_executions _ K) Hy Hx Ey). symmetry. apply Hs.
  - intros y [->|[? _]]%Hel; [done|by apply X2].
  - intros y [->|[Hy Hn]]%Hel.
    + eapply coupled_moved; eauto. by intros ?.
    + eapply coupled_moved; eauto using same_execution_refl. intros E _.
      exfalso. apply Hn. eapply (key_unique x_order_id); [done|done|done|congruence].
  - intros y [->|[? ?]]%Hel; [done|by apply Hcs].
  - intros t (? & y & Hy & Ey)%Ht. split; [done|].
    destruct (decide (y = x)) as [->|Hn].
    + exists x'. split; [|congruence].
      apply (elem_of_replace x_execution_id); [apply (k_executions _ K)|done|by left].
    + exists y. split; [|done].
      apply (elem_of_replace x_execution_id); [apply (k_executions _ K)|done|by right].
Qed.

Lemma chain_le ts x t : chain ts x → t ∈ ts → t_execution_id t = x_execution_id x →
  t_attempt_number t <= x_attempt_count x.
Proof.
  intros [C1 _ _] Ht E. apply seqZ_le. rewrite -C1. apply list_elem_of_fmap_2, elem_of_select.
  by rewrite bool_decide_true.
Qed.

Lemma chain_retry ts x x' t :
  chain ts x → 1 <= x_attempt_count x → x_execution_id x' = x_execution_id x →
  x_subject_id x' = x_subject_id x → x_attempt_count x' = x_attempt_count x + 1 →
  t_execution_id t = x_execution_id x → t_subject_id t = x_subject_id x →
  t_attempt_number t = x_attempt_count x + 1 → t_status t = x_status x' →
  chain (append_row t ts) x'.
Proof.
  intros C Hn E1 E2 E3 T1 T2 T3 T4. split; rewrite ?E1 ?E2 ?E3.
  - rewrite select_append T1 bool_decide_true // map_app (ch_numbers _ _ C) /= T3.
    symmetry. apply seqZ_snoc. lia.
  - intros u [Hu| ->]%elem_of_append; [by apply C|done].
  - intros u [Hu| ->]%elem_of_append; [|done]. intros E En'.
    pose proof (chain_le _ _ _ C Hu E). lia.
Qed.
Lemma chain_other_append ts y t :
  t_execution_id t ≠ x_execution_id y → chain ts y → chain (append_row t ts) y.
Proof.
  intros Hn [C1 C2 C3]. split.
  - by rewrite select_append bool_decide_false // app_nil_r.
  - intros u [?| ->]%elem_of_append; [by apply C2|done].
  - intros u [?| ->]%elem_of_append; [by apply C3|done].
Qed.

(** Rewriting an attempt keeps the numbers of every execution. *)
Lemma numbers_replace ts t t' (eid : string) :
  t_attempt_id t' = t_attempt_id t → t_execution_id t' = t_execution_id t →
  t_attempt_number t' = t_attempt_number t → t ∈ ts → NoDup (map t_attempt_id ts) →
  map t_attempt_number (select (λ t, t_execution_id t == eid) (replace_row t_attempt_id t t' ts))
  = map t_attempt_number (select (λ t, t_execution_id t == eid) ts).
Proof.
  intros E1 E2 E3 Hin Hd. unfold replace_row, update_where.
  assert (∀ u, u ∈ ts → t_attempt_id u = t_attempt_id t → u = t) as Hu.
  { intros u Hu E. by eapply (key_unique t_attempt_id). }
  clear Hin Hd. induction ts as [|u ts IH]; [done|].
  unfold select in *. simpl.
  destruct (decide (t_attempt_id u = t_attempt_id t)) as [Eu|Eu];
    [rewrite (bool_decide_true _ Eu)|rewrite (bool_decide_false _ Eu)].
  - rewrite (Hu u (here _ _) Eu) E2. destruct (_ == eid); simpl; rewrite ?E3 IH //;
      intros v Hv; by apply Hu, there.
  - destruct (t_execution_id u == eid); simpl; rewrite IH //; intros v Hv; by apply Hu, there.
Qed.

Lemma chain_mark ts x x' t t' :
  chain ts x → NoDup (map t_attempt_id ts) → t ∈ ts →
  t_execution_id t = x_execution_id x → t_attempt_number t = x_attempt_count x →
  x_execution_id x' = x_execution_id x → x_subject_id x' = x_subject_id x →
  x_attempt_count x' = x_attempt_count x → t_attempt_id t' = t_attempt_id t →
  t_execution_id t' = t_execution_id t → t_attempt_number t' = t_attempt_number t →
  t_subject_id t' = t_subject_id t → t_status t' = x_status x' →
  chain (replace_row t_attempt_id t t' ts) x'.
Proof.
  intros C Hd Ht T1 T2 E1 E2 E3 F1 F2 F3 F4 F5.
  split; rewrite ?E1 ?E2 ?E3.
  - rewrite numbers_replace //. apply C.
  - intros u [->|[Hu _]]%(elem_of_replace t_attempt_id) E; [|by apply C|done|done].
    rewrite F4. by apply C.
  - intros u [->|[Hu Hn]]%(elem_of_replace t_attempt_id) E En'; [done| |done|done].
    exfalso. apply Hn.
    assert (Hk : NoDup (map t_attempt_number
               (select (λ t, t_execution_id t == x_execution_id x) ts))).
    { rewrite (ch_numbers _ _ C). apply NoDup_seqZ. }
    eapply (key_unique t_attempt_number); [exact Hk|..|congruence];
      apply elem_of_select; (split; [done|]; by apply bool_decide_eq_true).
Qed.
Lemma chain_other_mark ts y t t' :
  chain ts y → NoDup (map t_attempt_id ts) → t ∈ ts →
  t_execution_id t ≠ x_execution_id y → t_attempt_id t' = t_attempt_id t →
  t_execution_id t' = t_execution_id t → t_attempt_number t' = t_attempt_number t →
  chain (replace_row t_attempt_id t t' ts) y.
Proof.
  intros C Hd Ht Hn F1 F2 F3. split.
  - rewrite numbers_replace //. apply C.
  - intros u [->|[Hu _]]%(elem_of_replace t_attempt_id) E; [congruence|by apply C|done|done].
  - intros u [->|[Hu _]]%(elem_of_replace t_attempt_id) E; [congruence|by apply C|done|done].
Qed.

Lemma mark_good x o xs os jt txh err rc herr hrc aid now :
  row_good x → order_matches_execution (o_status o) (x_status x) = true →
  mark_case x o xs os jt err rc herr hrc →
  row_good (marked_execution x xs txh err rc herr hrc aid now) ∧
  order_matches_execution os xs = true.
Proof.
  intros [G1 G2 G3 G4 G5] Hm Hc.
  assert (Hpre : o_status o ∈ [OSigning; OBroadcast] → x_receipt x = no_receipt).
  { intros Hs. case_in Hs; rewrite Hs in Hm; destruct (x_status x) eqn:Ex; try done;
      [by apply G2|by apply G3]. }
  assert (Hsign : o_status o = OSigning → x_error_code x = None).
  { intros E. rewrite E in Hm. destruct (x_status x) eqn:Ex; try done. by apply G2. }
  assert (Heq : err = herr ∧ rc = hrc ∧ order_matches_execution os xs = true ∧
    xs ≠ XSigning ∧ (xs = XBroadcast → rc = no_receipt)).
  { destruct Hc as [Hs|code Hs|code rc' Hs|rc' Hs|code _ Hs|code _ Hs]; split_and!; try done.
    - by apply Hsign.
    - apply Hpre. rewrite Hs. in_list.
    - intros _. apply Hpre. rewrite Hs. in_list.
    - by apply Hpre. }
  destruct Heq as (-> & -> & H1 & H2 & H3). split; [|done].
  split; [reflexivity|intros E; by destruct H2|exact H3|exact G4|exact G5].
Qed.

Lemma exec_mark d d' x o t xs os jt txh err rc herr hrc aid now now' aid' :
  keys d → exec_ok d → x ∈ executions d → o ∈ orders d → t ∈ attempts d →
  o_order_id o = x_order_id x → t_execution_id t = x_execution_id x →
  t_attempt_number t = x_attempt_count x → mark_case x o xs os jt err rc herr hrc →
  orders d' = replace_row o_order_id o (moved_row o os now' aid') (orders d) →
  executions d' = replace_row x_execution_id x
    (marked_execution x xs txh err rc herr hrc aid now) (executions d) →
  attempts d' = replace_row t_attempt_id t (finished_attempt t xs txh herr now) (attempts d) →
  exec_ok d'.
Proof.
  intros K X Hx Ho Ht Eo Et Ek Hc Eos Exs Ets.
  assert (Hm : order_matches_execution (o_status o) (x_status x) = true).
  { destruct (xo_coupled _ X x Hx) as (o' & Ho' & Hp).
    rewrite (key_unique o_order_id _ o o' (k_orders _ K) Ho Ho'); [|apply Hp].
    rewrite Eo. symmetry. apply Hp. }
  destruct (mark_good x o xs os jt txh err rc herr hrc aid now (xo_good _ X x Hx) Hm Hc)
    as [Hg Hm'].
  eapply (exec_rewrite d d' o os now' aid' x); try done.
  - rewrite Ets. eapply (chain_mark _ x); eauto; [by apply X|apply K].
  - intros y Hy Hn. rewrite Ets. apply chain_other_mark; try done; [by apply X|apply K|].
    rewrite Et. intros E. apply Hn. symmetry.
    by eapply (key_unique x_execution_id); [apply K|..].
  - intros u. rewrite Ets.
    intros [->|[Hu _]]%(elem_of_replace t_attempt_id); [|by apply X|apply K|done].
    split; [done|]. by exists x.
Qed.

Lemma exec_retry d d' o x t now aid now' aid' tid request :
  keys d → exec_ok d → o ∈ orders d → x ∈ executions d → x_order_id x = o_order_id o →
  x_subject_id x = o_subject_id o → x_attempt_count x + 1 <= 32 →
  t = signing_attempt tid (x_execution_id x) (o_subject_id o) (x_attempt_count x + 1)
        request now aid →
  let x' := execution_set XSigning (x_tx_hash x) None no_receipt (x_attempt_count x + 1) aid
              now (_execution_hash_values_from_row x XSigning (x_tx_hash x) None no_receipt
                     (x_attempt_count x + 1) now) x in
  orders d' = replace_row o_order_id o (moved_row o OSigning now' aid') (orders d) →
  executions d' = replace_row x_execution_id x x' (executions d) →
  attempts d' = append_row t (attempts d) → exec_ok d'.
Proof.
  intros K X Ho Hx Eo Es Hle -> x' Eos Exs Ets.
  destruct (xo_good _ X x Hx) as [_ _ _ [Hlo Hhi] Hsrc].
  eapply (exec_rewrite d d' o OSigning now' aid' x); try done.
  - split; simpl; try done. lia.
  - rewrite Ets. eapply (chain_retry _ x); try done. by apply X.
  - intros y Hy Hn. rewrite Ets. apply chain_other_append; [|by apply X]. simpl.
    intros E. apply Hn. symmetry. by eapply (key_unique x_execution_id); [apply K|..].
  - intros u. rewrite Ets. intros [Hu| ->]%elem_of_append; [by apply X|].
    split; [done|]. by exists x.
Qed.

Lemma matches_inactive s :
  s ∈ [OPendingPolicy; OAwaitingConfirmation; OReserved] →
  ∀ xs, order_matches_execution s xs = true → False.
Proof. intros H xs. case_in H; subst s; by destruct xs. Qed.

Lemma exec_placed sub d d' : placed sub d d' → exec_ok d → exec_ok d'.
Proof.
  intros Hp. assert (Hf := Hp). apply placed_frame in Hf as (_ & _ & _ & E1 & E2).
  apply exec_orders; [|done|done]. intros x.
  destruct Hp as (oid & b & now & aid & d1 & _ & _ & Ha & _ & Hu & Hm).
  apply andb_true_iff in Hu as [[Hu _]%andb_true_iff _].
  set (row := new_order_row oid sub b _ aid now) in *.
  assert (Hid : ∀ o, o ∈ orders d → o_order_id o ≠ o_order_id row).
  { intros o Ho E. eapply exists_none in Ho; [|exact Hu]. by rewrite bool_decide_eq_false in Ho. }
  assert (∃ r, orders d' = append_row r (orders d)) as [r ->]; [|apply coupled_append].
  open_effects. destruct Hm as [Hm|[[_ Hm]|[_ Hm]]]; open_effects; eexists;
    by apply replace_appended.
Qed.

Lemma exec_tx d d' : keys d → exec_ok d → tx d d' → exec_ok d'.
Proof.
  intros K X H. case_tx H;
    try (open_effects; by apply (exec_orders d)).
  - destruct He as (_ & _ & _ & E & _ & _ & ? & ? & _). apply (exec_orders d); try done.
    by rewrite E.
  - assert (X1 : exec_ok d1) by (open_effects; by apply (exec_orders d)).
    destruct Hp as [[_ ->]|Hp]; [done|]. by eapply exec_placed.
  - open_effects. eapply (exec_moved d _ row target); [done|done| |done..].
    intros xs Hm. exfalso.
    eapply matches_inactive; [|exact Hm]. case_in Hs; rewrite Hs; in_list.
  - open_effects. eapply (exec_moved d _ row OReserved); [done|done| |done..].
    intros xs Hm. exfalso. eapply matches_inactive; [|exact Hm]. rewrite Hs; in_list.
  - open_effects. eapply (exec_moved d _ row OCancelled); [done|done| |done..].
    intros xs Hm. exfalso. eapply matches_inactive; [|exact Hm]. rewrite Hs; in_list.
  - open_effects. eapply (exec_moved d _ row ORefunded); [done|done| |done..].
    rewrite Hs. by intros [].
  - destruct Hl as [l ->]. subst. by apply (exec_orders d).
  - destruct Hx as (eid & asset & network & source & nonce & gas & fee & request & rhash & now &
      -> & tid & ->). open_effects.
    by eapply (exec_prepare d).
  - destruct Ht as (tid & request & ->). open_effects. by eapply (exec_retry d).
  - open_effects. destruct jt; simpl in *; open_effects; subst; by eapply (exec_mark d).
Qed.
Lemma exec_reach d : wallet_reach d → exec_ok d.
Proof.
  apply wallet_invariant.
  - split; simpl; [apply NoDup_nil_2|by intros ? ?%not_elem_of_nil..].
  - intros. by eapply exec_tx.
Qed.

(** ** The offline check of the executions *)

Lemma reach_check_execution d x :
  wallet_reach d → x ∈ executions d → check_execution d (x_subject_id x) x = Ok tt.
Proof.
  intros H Hx. pose proof (exec_reach _ H) as X. pose proof (wallet_reach_keys _ H) as K.
  destruct (xo_good _ X x Hx) as [G1 _ _ G4 _]. destruct (xo_chain _ X x Hx) as [C1 C2 C3].
  destruct (xo_coupled _ X x Hx) as (o & Ho & Hp). unfold check_execution.
  rewrite (proj2 (neq_false _ _) G1).
  rewrite (select_ext _ (λ t, t_execution_id t == x_execution_id x)).
  { intros t Ht. case_bool_decide as E; [|done]. by rewrite (bool_decide_true _ (C2 t Ht E)). }
  assert (Hl : Z.of_nat (length (select (λ t, t_execution_id t == x_execution_id x) (attempts d)))
               = x_attempt_count x).
  { rewrite -(length_map t_attempt_number) C1 length_seqZ. lia. }
  rewrite Hl C1 sql_min_seqZ ?sql_max_seqZ; [lia..|]. rewrite Z.eqb_refl.
  assert (Hlast : x_attempt_count x ∈ seqZ 1 (x_attempt_count x)) by (apply elem_of_seqZ; lia).
  rewrite -C1 in Hlast. apply list_elem_of_fmap in Hlast as (t & Et & Hsel).
  apply elem_of_select in Hsel as [Ht E%bool_decide_eq_true].
  destruct (fetchone _ (attempts d)) as [t'|] eqn:Ef; [|].
  - apply fetchone_Some in Ef as [Ht' Hq]. rewrite !andb_true_iff !bool_decide_eq_true in Hq.
    destruct Hq as [[Q1 Q2] Q3%Z.eqb_eq]. rewrite !bool_decide_true //=; [by rewrite /= (C3 t' Ht' Q1 Q3)|].
    unfold order_by_id. rewrite -(py_order _ _ Hp) (fetchone_key o_order_id) //; [apply K|].
    rewrite (bool_decide_true _ (py_subject _ _ Hp)) (py_status _ _ Hp). done.
  - exfalso. eapply fetchone_None in Ef; [|exact Ht].
    by rewrite /= E (C2 t Ht E) -Et Z.eqb_refl !bool_decide_true in Ef.
Qed.

(** ** Recovery *)

Definition still_signing (sid : string) (d : wallet_db) : list execution_row :=
  select (λ r, (x_subject_id r == sid) && (x_status r == XSigning)) (executions d).

Lemma recover_one_signing sid actor eid w r w' :
  keys (db w) → ok (recover_one sid actor eid) w r w' →
  ∀ x, x ∈ still_signing sid (db w') → x ∈ still_signing sid (db w) ∧ x_execution_id x ≠ eid.
Proof.
  intros K H%ok_transaction x Hx. run H as [<- <-]%ok_gets.
  destruct (execution_of_subject eid sid (db w)) as [e|] eqn:E.
  2:{ apply ok_ret in H as [_ <-]. split; [done|]. intros Ex.
      apply elem_of_select in Hx as [Hx [Es _]%andb_true_iff].
      eapply fetchone_None in E; [|exact Hx]. by rewrite /= Ex Es bool_decide_true in E. }
  apply fetchone_Some in E as [He [Eid%bool_decide_eq_true _]%andb_true_iff].
  case_bool_decide as Hc; cbn [negb] in H.
  2:{ apply ok_ret in H as [_ <-]. split; [done|]. intros Ex.
      apply elem_of_select in Hx as [Hx [_ Es%bool_decide_eq_true]%andb_true_iff].
      apply Hc. rewrite (key_unique x_execution_id _ e x (k_executions _ K) He Hx) //. congruence. }
  run H as (-> & Ho & _)%order_row_ok. run H as [_ <-]%ok_raise_if.
  run H to w1 as Ha%audit_effect. run H to w2 as Hm.
  run H as [-> ->]%ok_read_clock. run H to w3 as Hu. run H to w4 as Hf.
  run H as Hl%(silent_pure _ (silent_execution_by_id _)). apply ok_ret in H as [_ <-].
  eapply move_after_audit in Hm; [|done..]. rewrite Hl in Hx.
  assert (K2 : keys (db w2)).
  { destruct K. destruct Hm as (_ & _ & ? & ? & ? & (? & _ & _ & ->) & ->).
    destruct Ha as (? & _ & _ & ->). split; simpl; try done. by apply NoDup_replace. }
  assert (E2 : executions (db w2) = executions (db w)).
  { destruct Hm as (_ & _ & ? & ? & ? & (? & _ & _ & ->) & ->).
    by destruct Ha as (? & _ & _ & ->). }
  eapply update_execution_effect in Hu; [|apply K2|simpl; by rewrite E2|done].
  apply finish_attempt_effect in Hf as (t & _ & _ & _ & Ef); [|rewrite Hu; apply K2].
  rewrite Ef Hu in Hx. unfold still_signing in Hx. simpl in Hx.
  apply elem_of_select in Hx as [Hx Hs]. rewrite E2 in Hx.
  apply (elem_of_replace x_execution_id) in Hx as [->|[Hx Hn]];
    [by rewrite andb_false_r in Hs| |apply K|done].
  split; [by apply elem_of_select|]. intros Ex. apply Hn.
  eapply (key_unique x_execution_id); [apply K|done|done|congruence].
Qed.

Lemma recover_rows_signing sid actor rows w r w' :
  keys (db w) → ok (recover_rows sid actor rows) w r w' →
  ∀ x, x ∈ still_signing sid (db w') →
    x ∈ still_signing sid (db w) ∧ x_execution_id x ∉ map x_execution_id rows.
Proof.
  revert w r. induction rows as [|row rows IH]; intros w r K H x Hx; simpl in H.
  { apply ok_ret in H as [_ <-]. split; [done|]. by apply not_elem_of_nil. }
  run H to w1 as H1. run H to w2 as H2. apply ok_ret in H as [_ <-].
  assert (K1 : keys (db w1)).
  { eapply keys_rtc; [exact K|]. pose proof (advances_recover_one sid actor
      (x_execution_id row) w K) as Hadv. by rewrite H1 in Hadv. }
  destruct (IH _ _ K1 H2 x Hx) as [Hx1 Hn1].
  destruct (recover_one_signing _ _ _ _ _ _ K H1 x Hx1) as [Hx0 Hn0].
  split; [done|]. cbn [map]. rewrite not_elem_of_cons. done.
Qed.

(** ** Theorems *)

(** C8: What is signed is what was decided.  In every reachable state an
    execution names the recipient of an accepted submission and the
    reward, network and asset of its bounty, through an order whose
    status agrees with the execution's, and it pays from another address
    than the recipient's. *)
Theorem executions_pay_accepted w x :
  reachable w → x ∈ executions (db w) →
  ∃ o s b, o ∈ orders (db w) ∧ s ∈ submissions (db w) ∧ b ∈ bounties (db w) ∧
    s_status s = SAccepted ∧ b_bounty_id b = s_bounty_id s ∧
    o_order_id o = x_order_id x ∧ o_submission_id o = s_submission_id s ∧
    x_subject_id x = s_subject_id s ∧ x_recipient_address x = s_recipient_address s ∧
    x_amount x = b_reward_amount b ∧ x_network_id x = b_network_id b ∧
    x_asset_id x = b_asset_id b ∧ x_source_address x ≠ x_recipient_address x ∧
    order_matches_execution (o_status o) (x_status x) = true.
Proof.
  intros H%reachable_reach Hx. pose proof (xg_source _ (xo_good _ (exec_reach _ H) x Hx)).
  destruct (xo_coupled _ (exec_reach _ H) x Hx) as (o & Ho & []).
  destruct (os_submission _ (order_submission_reach _ H) o Ho)
    as (s & b & Hs & Hst & Hb & Eb & []).
  exists o, s, b. split_and!; first [done|congruence].
Qed.

(** Attempts are numbered without gaps.  In every reachable state an
    execution has between 1 and 32 attempts, inserted with numbers 1, 2,
    ..., and its last attempt has the execution's status. *)
Theorem attempts_numbered w x :
  reachable w → x ∈ executions (db w) →
  1 <= x_attempt_count x <= 32 ∧
  map t_attempt_number
    (select (λ t, t_execution_id t == x_execution_id x) (attempts (db w)))
    = seqZ 1 (x_attempt_count x) ∧
  ∀ t, t ∈ attempts (db w) → t_execution_id t = x_execution_id x →
    t_attempt_number t = x_attempt_count x → t_status t = x_status x.
Proof.
  intros X%reachable_reach%exec_reach Hx. destruct (xo_good _ X x Hx).
  destruct (xo_chain _ X x Hx). split_and!; [lia|lia|done|done].
Qed.

(** C10: The engine's offline check accepts every reachable state: on any
    well-formed subject identifier it returns the numbers of the
    subject's executions and attempts and changes nothing. *)
Theorem reachable_passes_execution_check w sid sid' :
  reachable w → validate_subject_id sid = Ok sid' →
  verify_database_integrity sid w
  = (Ok (count_where (λ r, x_subject_id r == sid) (executions (db w)),
         count_where (λ r, t_subject_id r == sid) (attempts (db w))), w).
Proof.
  intros H%reachable_reach Hv. pose proof (exec_reach _ H) as X.
  unfold verify_database_integrity, read_transaction, transaction, lift. rewrite Hv.
  assert (check_all (check_execution (db w) sid)
            (select (λ r, x_subject_id r == sid) (executions (db w))) = Ok tt) as E1.
  { apply check_all_ok. intros x [Hx <-%bool_decide_eq_true]%elem_of_select.
    by apply reach_check_execution. }
  assert (check_all check_attempt
            (select (λ r, t_subject_id r == sid) (attempts (db w))) = Ok tt) as E2.
  { apply check_all_ok. intros t [Ht _]%elem_of_select. unfold check_attempt.
    destruct (xo_attempts _ X t Ht) as [Eh _]. by rewrite (proj2 (neq_false _ _) Eh). }
  unfold mbind, M_bind, gets, id. by rewrite E1 E2.
Qed.

(** C11: Recovery is complete.  When [recover_database_inflight] returns
    and its limit covers the subject's executions that were signing, none
    of them is left signing, and no other execution became so. *)
Theorem recovery_complete w sid actor limit rs w' :
  reachable w → ok (recover_database_inflight sid actor limit) w rs w' →
  Z.of_nat (length (still_signing sid (db w))) <= limit →
  still_signing sid (db w') = [].
Proof.
  intros K%reachable_reach%wallet_reach_keys H Hlim. unfold recover_database_inflight in H.
  run H as [_ <-]%ok_lift. run H as [_ <-]%ok_raise_if. run H as [_ <-]%ok_lift.
  run H as [<- <-]%ok_read_transaction%ok_gets.
  set (rows := take _ _) in H. pose proof (recover_rows_signing _ _ _ _ _ _ K H) as Hr.
  destruct (still_signing sid (db w')) as [|y l]; [done|].
  destruct (Hr y (here _ _)) as [Hx Hn]. destruct Hn. apply list_elem_of_fmap_2.
  unfold rows. rewrite take_ge.
  - unfold signing_rows. rewrite (Permutation_length (sort_by_perm _ _)).
    unfold still_signing in Hlim. lia.
  - by apply elem_of_sort_by.
Qed.
End exec_inv.
