(* ===== verification/WalletPolicy.v ===== *)
(** * What the payment policy guarantees

    [_policy_allows] described by what it permits: the switches, the
    limits as sums over the orders table, and the observed balance.  No
    order is reserved, prepared for signing or sent to the signer unless
    the policy in force permits it. *)

From S2P Require Import Prelude Tables PyStr Json Digest Time WalletTypes WalletTransfer WalletDb.
From S2P Require Import WalletEconomy WalletOrders WalletSubmissions WalletExecution WalletEngine.
From S2P Require Import WalletIntegrity WalletEffects WalletSteps WalletSystem WalletLedger.
From S2P Require Import WalletRecords WalletVerify.
From Stdlib Require Import ZifyBool.
Local Open Scope Z_scope.

(** The value of an amount column. *)
Definition amt (s : string) : Z := default 0 (py_int s).
Lemma int_of_amt s v : int_of s = Ok v → v = amt s.
Proof. unfold int_of, amt. by destruct (py_int s); simpl; intros [= ->]. Qed.

(** A refusal is not a permission. *)
Ltac denied H := by apply ok_ret in H as [? _].

Section policy.
Context {Dg : Digest} {En : Env} {Sg : Signer}.

(** ** The specification *)

(** The order was authorised at or after the instant [start]. *)
Definition since (start : string) (r : order_row) : bool :=
  match parse_time (period_value r), parse_time start with
  | Ok t, Ok s => s <=? t
  | _, _ => false
  end.
(** Orders of the same subject, network and asset that count against the
    limits of the period starting at [start]. *)
Definition in_period (d : wallet_db) (row : order_row) (exclude : option string)
    (start : string) : list order_row :=
  select (since start) (select (λ r, same_pool row exclude r && period_active (o_status r))
    (orders d)).
Definition spent (rows : list order_row) : Z := sum_by (λ r, amt (o_amount r)) rows.
Definition held (d : wallet_db) (row : order_row) (exclude : option string) : Z :=
  spent (select (λ r, same_pool row (nonempty exclude) r && holds_funds (o_status r)) (orders d)).

(** A non-zero limit is respected. *)
Definition within (limit total : Z) : Prop := limit ≠ 0 → total <= limit.

(** The switches, the registered pair and the limits of one order. *)
Record gate_permits (d : wallet_db) (row : order_row) (policy : policy_row) : Prop := {
  gp_paused : p_emergency_paused policy = 0;
  gp_mode : p_mode policy ≠ MDisabled;
  gp_automatic : o_payment_mode row = MAutomatic →
    p_mode policy = MAutomatic ∧ p_automation_enabled policy ≠ 0 ∧
    is_ok require_activation_evidence = true ∧
    0 < amt (p_per_order_limit policy) ∧ 0 < amt (p_daily_limit policy);
  gp_network : ∃ n, n ∈ networks d ∧ n_subject_id n = o_subject_id row ∧
    n_network_id n = o_network_id row ∧ n_status n = "active"%string;
  gp_asset : ∃ a, a ∈ assets d ∧ as_subject_id a = o_subject_id row ∧
    as_network_id a = o_network_id row ∧ as_asset_id a = o_asset_id row ∧
    as_status a = "active"%string;
  gp_amount : 0 < amt (o_amount row);
  gp_single : 0 < amt (p_per_order_limit policy) →
    amt (o_amount row) <= amt (p_per_order_limit policy);
  gp_recipient : p_recipient_allowlist_enabled policy ≠ 0 →
    ∃ allowed, strict_json_loads (p_allowed_recipient_addresses_json policy) = Ok allowed ∧
      py_in (o_recipient_address row) allowed = Ok true;
}.
(** The limits of the day and of the month, the order included. *)
Record period_permits (d : wallet_db) (now : Z) (row : order_row) (policy : policy_row)
    (exclude : option string) : Prop := {
  pp_daily : within (amt (p_daily_limit policy))
    (spent (in_period d row exclude (isoformat (midnight now))) + amt (o_amount row));
  pp_monthly : o_payment_mode row ≠ MAutomatic → within (amt (p_monthly_limit policy))
    (spent (in_period d row exclude (isoformat (month_start now))) + amt (o_amount row));
  pp_daily_count : o_payment_mode row ≠ MAutomatic → within (p_daily_order_limit policy)
    (Z.of_nat (length (in_period d row exclude (isoformat (midnight now)))) + 1);
  pp_monthly_count : o_payment_mode row ≠ MAutomatic → within (p_monthly_order_limit policy)
    (Z.of_nat (length (in_period d row exclude (isoformat (month_start now)))) + 1);
}.
(** One spending address; the newest observation of its balance, if any,
    is not from the future and covers everything held, the order and the
    reserve; a conditional order needs a recent and plausible one where
    the policy asks for it. *)
Definition balance_permits (d : wallet_db) (now : Z) (row : order_row) (policy : policy_row)
    (exclude : option string) : Prop :=
  ∃ source, _spending_address d (o_subject_id row) (o_network_id row) = Some source ∧
    match snapshots_of row source d with
    | [] => o_payment_mode row ≠ MAutomatic →
        p_max_observation_age_seconds policy <= 0 ∧ amt (p_min_balance policy) <= 0
    | latest :: older =>
        (∃ seen, parse_time (sn_observed_at latest) = Ok seen ∧ seen <= now ∧
           (o_payment_mode row ≠ MAutomatic → 0 < p_max_observation_age_seconds policy →
              now - seen <= p_max_observation_age_seconds policy * 1000000)) ∧
        (o_payment_mode row ≠ MAutomatic → p_anomaly_block policy ≠ 0 →
           match older with
           | previous :: _ => anomalous (amt (sn_balance latest)) (amt (sn_balance previous)) = false
           | [] => True
           end) ∧
        held d row exclude + amt (o_amount row)
          + (if o_payment_mode row == MAutomatic then 0 else amt (p_min_balance policy))
        <= amt (sn_balance latest)
    end.

Record policy_permits (d : wallet_db) (now : Z) (row : order_row) (policy : policy_row)
    (exclude : option string) : Prop := {
  pp_gate : gate_permits d row policy;
  pp_period : period_permits d now row policy exclude;
  pp_balance : balance_permits d now row policy exclude;
}.

(** ** The sums *)

Lemma add_order_ok ds ms t r t' :
  add_order ds ms t r = Ok t' →
  day_count t' = day_count t + (if since ds r then 1 else 0) ∧
  day_total t' = day_total t + (if since ds r then amt (o_amount r) else 0) ∧
  month_count t' = month_count t + (if since ms r then 1 else 0) ∧
  month_total t' = month_total t + (if since ms r then amt (o_amount r) else 0).
Proof.
  unfold add_order, since. destruct (int_of (o_amount r)) as [v|] eqn:Ev; [|done].
  apply int_of_amt in Ev as ->. destruct (parse_time (period_value r)) as [p|]; [|done].
  destruct (parse_time ds) as [s|]; [simpl|done]. destruct (parse_time ms) as [m|]; [simpl|done].
  by intros [= <-].
Qed.
Lemma sum_periods_ok ds ms t rows t' :
  sum_periods ds ms t rows = Ok t' →
  day_count t' = day_count t + Z.of_nat (length (select (since ds) rows)) ∧
  day_total t' = day_total t + spent (select (since ds) rows) ∧
  month_count t' = month_count t + Z.of_nat (length (select (since ms) rows)) ∧
  month_total t' = month_total t + spent (select (since ms) rows).
Proof.
  revert t. induction rows as [|r rows IH]; intros t H; simpl in H.
  { injection H as <-. unfold spent. simpl. lia. }
  destruct (add_order ds ms t r) as [t1|] eqn:E; [simpl in H|done].
  apply add_order_ok in E as (E1 & E2 & E3 & E4). apply IH in H as (H1 & H2 & H3 & H4).
  unfold spent, select in *. simpl. rewrite H1 H2 H3 H4 E1 E2 E3 E4.
  split_and!; destruct (since ds r), (since ms r); simpl; lia.
Qed.
Lemma sum_amounts_ok acc rows v : sum_amounts acc rows = Ok v → v = acc + spent rows.
Proof.
  revert acc. induction rows as [|r rows IH]; intros acc H; simpl in H.
  { injection H as <-. unfold spent. simpl. lia. }
  destruct (int_of (o_amount r)) as [x|] eqn:E; [simpl in H|done].
  apply int_of_amt in E as ->. apply IH in H as ->. unfold spent. simpl. lia.
Qed.

(** ** The three parts *)

Lemma and_neq_false (a b : bool) : a && b = false → a = true → b = false.
Proof. by intros H ->. Qed.

Lemma gate_ok row policy w w' :
  ok (policy_gate row policy) w true w' → w' = w ∧ gate_permits (db w) row policy.
Proof.
  unfold policy_gate. intros H.
  destruct (p_emergency_paused policy =? 0) eqn:E1; cbn [negb] in H; [|denied H].
  apply Z.eqb_eq in E1. case_bool_decide as E2; [denied H|].
  destruct (_ && _) eqn:E3 in H; [denied H|]. destruct (_ && _) eqn:E4 in H; [denied H|].
  destruct (_ && _) eqn:E5 in H; [denied H|].
  run H as [<- <-]%ok_gets. unfold id in H.
  destruct (fetchone _ (networks (db w))) as [n|] eqn:En'; [|denied H].
  destruct (fetchone _ (assets (db w))) as [a|] eqn:Ea; [|denied H].
  destruct (_ || _) eqn:E6 in H; [denied H|].
  run H as [->%int_of_amt <-]%ok_lift. run H as [->%int_of_amt <-]%ok_lift.
  run H as [->%int_of_amt <-]%ok_lift.
  destruct (_ && _) eqn:E7 in H; [denied H|]. destruct (_ || _) eqn:E8 in H; [denied H|].
  apply fetchone_Some in En' as [Hn Qn]. apply fetchone_Some in Ea as [Ha Qa].
  rewrite !andb_true_iff !bool_decide_eq_true in Qn. rewrite !andb_true_iff !bool_decide_eq_true in Qa.
  rewrite orb_false_iff !neq_false in E6. apply orb_false_iff in E8 as [E8 E9].
  assert (Hw : w' = w ∧ (p_recipient_allowlist_enabled policy ≠ 0 →
    ∃ allowed, strict_json_loads (p_allowed_recipient_addresses_json policy) = Ok allowed ∧
      py_in (o_recipient_address row) allowed = Ok true)).
  { destruct (p_recipient_allowlist_enabled policy =? 0) eqn:Er; cbn [negb] in H.
    - apply ok_ret in H as [_ <-]. apply Z.eqb_eq in Er. done.
    - run H as [Hl <-]%ok_lift. apply ok_lift in H as [Hp <-]. split; [done|]. eauto. }
  destruct Hw as [-> Hr]. split; [done|]. split; try done.
  - intros Em%(bool_decide_eq_true_2 (o_payment_mode row = MAutomatic)).
    apply (and_neq_false _ _ E3) in Em as M1. apply (and_neq_false _ _ E4) in Em as M2.
    apply (and_neq_false _ _ E5) in Em as M3. apply (and_neq_false _ _ E7) in Em as M4.
    apply neq_false_1 in M1. apply negb_false_iff in M3. apply orb_false_iff in M4 as [M4 M5].
    split_and!; first [done|lia].
  - exists n. naive_solver.
  - exists a. naive_solver.
  - lia.
  - lia.
Qed.

Lemma periods_ok row policy exclude now w w' :
  ok (policy_periods row policy exclude now (amt (o_amount row)) (amt (p_daily_limit policy)))
    w true w' →
  w' = w ∧ period_permits (db w) now row policy exclude.
Proof.
  unfold policy_periods. intros H. run H as [<- <-]%ok_gets. unfold id in H.
  run H as [Ht%sum_periods_ok <-]%ok_lift. destruct Ht as (T1 & T2 & T3 & T4). simpl in *.
  unfold in_period, within.
  destruct (_ && _) eqn:E1 in H; [denied H|]. destruct (_ && _) eqn:E2 in H; [denied H|].
  destruct (_ && _) eqn:E3 in H; [denied H|].
  case_bool_decide as Em; cbn [negb andb] in *.
  - apply ok_ret in H as [_ <-]. split; [done|]. split; unfold within, in_period; try done. lia.
  - run H as [->%int_of_amt <-]%ok_lift. apply ok_ret in H as [E4 <-]. split; [done|].
    split; unfold within, in_period; intros; lia.
Qed.

Lemma balance_ok row policy exclude now w w' :
  ok (policy_balance row policy exclude now (amt (o_amount row))) w true w' →
  w' = w ∧ balance_permits (db w) now row policy exclude.
Proof.
  unfold policy_balance, balance_permits. intros H. run H as [<- <-]%ok_gets. unfold id in H.
  destruct (_spending_address _ _ _) as [source|]; [|denied H].
  run H to w1 as Hanom. destruct (_ : bool) eqn:Ea in H; [denied H|]. subst.
  assert (Hw : w1 = w ∧ (o_payment_mode row ≠ MAutomatic → p_anomaly_block policy ≠ 0 →
    match snapshots_of row source (db w) with
    | s1 :: s2 :: _ => anomalous (amt (sn_balance s1)) (amt (sn_balance s2)) = false
    | _ => True
    end)).
  { destruct (_ && _) eqn:Eb in Hanom.
    - destruct (snapshots_of row source (db w)) as [|s1 [|s2 l]];
        [by apply ok_ret in Hanom as [_ <-]..|].
      run Hanom as [->%int_of_amt <-]%ok_lift. run Hanom as [->%int_of_amt <-]%ok_lift.
      apply ok_ret in Hanom as [Hn <-]. done.
    - apply ok_ret in Hanom as [_ <-]. split; [done|]. intros M B%Z.eqb_neq.
      by rewrite (bool_decide_false _ M) B in Eb. }
  destruct Hw as [-> Hanomaly].
  destruct (snapshots_of row source (db w)) as [|latest older] eqn:Es.
  - destruct (_ && _) eqn:Eb in H; [denied H|]. split; [|exists source; split; [done|]; rewrite Es].
    + case_bool_decide; [by apply ok_ret in H as [_ <-]|].
      run H as [_ <-]%ok_lift. by apply ok_ret in H as [_ <-].
    + intros Hm. rewrite (bool_decide_false _ Hm) in H Eb. cbn [negb andb] in *.
      run H as [->%int_of_amt <-]%ok_lift. apply ok_ret in H as [E _]. lia.
  - run H as [Hseen <-]%ok_lift. destruct (_ <? _) eqn:E1 in H; [denied H|].
    destruct (_ && _) eqn:E2 in H; [denied H|].
    run H as [->%int_of_amt <-]%ok_lift. run H as [->%sum_amounts_ok <-]%ok_lift.
    apply ok_bind in H as (reserve & w2 & Hres & H). apply ok_ret in H as [E3 <-].
    assert (w2 = w ∧ reserve = if o_payment_mode row == MAutomatic then 0
                          else amt (p_min_balance policy)) as [-> ->].
    { case_bool_decide; [by apply ok_ret in Hres as [<- <-]|].
      by apply ok_lift in Hres as [->%int_of_amt <-]. }
    split; [done|]. exists source. split; [done|]. rewrite Es. split_and!.
    + eexists. split_and!; [done|lia|]. intros Hm Hp. rewrite (bool_decide_false _ Hm) in E2. lia.
    + intros Hm Hb. specialize (Hanomaly Hm Hb). by destruct older.
    + unfold held. lia.
Qed.

(** The instant at which [_policy_allows] reads the clock. *)
Lemma allows_permits row policy exclude w w' :
  ok (_policy_allows row (Some policy) exclude) w true w' →
  w' = World (db w) (S (tick w)) (fresh w) ∧ ∃ now, parse_time (clock_at (tick w)) = Ok now ∧
    policy_permits (db w) now row policy exclude.
Proof.
  unfold _policy_allows, self_clock. intros H.
  apply ok_bind in H as ([] & w1 & Hg & H); cbn [negb] in H; [|denied H]. apply gate_ok in Hg as [-> Hg].
  run H as [->%int_of_amt <-]%ok_lift. run H as [->%int_of_amt <-]%ok_lift.
  run H as [-> ->]%ok_read_clock. run H as [Hnow <-]%ok_lift.
  apply ok_bind in H as ([] & w2 & Hp & H); cbn [negb] in H; [|denied H].
  apply periods_ok in Hp as [-> Hp]. apply balance_ok in H as [-> Hb].
  split; [done|]. eexists. split; [exact Hnow|]. by split.
Qed.

(** ** Reservation, admission to signing, dispatch *)

Lemma authorized_ok order oid sid msg w policy w' :
  ok (authorized_policy order oid sid msg) w policy w' →
  db w' = db w ∧ _policy_row sid (db w) = Some policy ∧
  ∃ now, parse_time (clock_at (tick w)) = Ok now ∧
    policy_permits (db w) now order policy (Some oid).
Proof.
  unfold authorized_policy. intros H. run H as [<- <-]%ok_gets.
  destruct (_policy_row sid (db w)) as [p|]; [|done].
  run H as [_ <-]%ok_raise_if. apply ok_bind in H as (b & w1 & Ha & H).
  run H as [->%negb_false_iff <-]%ok_raise_if. apply ok_ret in H as [<- <-].
  apply allows_permits in Ha as (-> & Hp). by split_and!.
Qed.

(** C12: No reservation without permission.  When [_reserve_order] returns,
    the policy in force permitted the order at that moment: it is neither
    paused nor disabled, network and asset are active, the amount is within
    the per-order limit and, with the order included, within the daily limit,
    and for an order that is not automatic also within the monthly limit and
    the daily and monthly order counts; the newest observation of the balance,
    if there is one, is not from the future and covers everything held, and
    for an order that is not automatic it must be there, recent and plausible
    where the policy asks for it.  And the order is reserved and its
    reservation journal is posted. *)
Theorem reservation_permitted w row actor u w' :
  keys (db w) → row ∈ orders (db w) → ok (_reserve_order row actor) w u w' →
  ∃ policy now, _policy_row (o_subject_id row) (db w) = Some policy ∧
    parse_time (clock_at (tick w)) = Ok now ∧
    policy_permits (db w) now row policy None ∧ reserved row (db w) (db w').
Proof.
  intros K Hr H. assert (H' := H). apply reserve_effect in H'; [|apply K|done].
  unfold _reserve_order in H. run H as [<- <-]%ok_gets.
  apply ok_bind in H as (b & w1 & Ha & H). run H as [->%negb_false_iff _]%ok_raise_if.
  destruct (_policy_row (o_subject_id row) (db w)) as [p|]; [|denied Ha].
  apply allows_permits in Ha as (_ & now & Hnow & Hp). by exists p, now.
Qed.

(** The same signer and engine, with other answers to a dispatch. *)
Definition with_answers
    (f : nat → WalletUnsignedTransfer → string → result WalletBroadcastResult) : Signer :=
  {| signer_id := signer_id; default_max_fee_per_gas := default_max_fee_per_gas;
     min_confirmations := min_confirmations;
     confirmation_timeout_seconds := confirmation_timeout_seconds;
     lease_current := lease_current; sign_and_broadcast := f; get_receipt := get_receipt;
     get_pending_nonce := get_pending_nonce; get_fee_quote := get_fee_quote |}.

Lemma get_execution_ok eid sid w e w' :
  ok (get_execution eid sid) w e w' →
  w' = w ∧ ∃ x, x ∈ executions (db w) ∧ x_execution_id x = eid ∧ x_subject_id x = sid ∧
    _execution_from_row x = e.
Proof.
  unfold get_execution. intros H. run H as [_ <-]%ok_lift.
  run H as [<- <-]%ok_read_transaction%ok_gets. run H as [Hx%ok_of_option <-]%ok_lift.
  apply ok_ret in H as [<- <-]. split; [done|]. eexists. split_and!; [..|reflexivity];
    by apply fetchone_Some in Hx as [? [?%bool_decide_eq_true ?%bool_decide_eq_true]%andb_true_iff].
Qed.

(** What the database must say at the instant [now] for the transfer to be
    handed to the signer. *)
Definition dispatchable (d : wallet_db) (now : Z) (transfer : WalletUnsignedTransfer)
    (request : string) (e : WalletExecutionRecord) (version : Z) : Prop :=
  ∃ policy order x,
    _policy_row (xr_subject_id e) d = Some policy ∧ p_policy_version policy = version ∧
    order ∈ orders d ∧ o_order_id order = xr_order_id e ∧
    o_subject_id order = xr_subject_id e ∧
    x ∈ executions d ∧ _execution_from_row x = e ∧ x_status x = XSigning ∧
    x_request_hash x = content_hash (transfer_dump transfer) ∧
    request = request_of (xr_order_id e) (xr_attempt_count e) ∧
    policy_permits d now order policy (Some (xr_order_id e)).

Lemma authorize_ok transfer request e version w u w' :
  ok (authorize transfer request e version) w u w' →
  w' = World (db w) (tick w + 3)%nat (fresh w) ∧
  lease_current (tick w) = true ∧ lease_current (tick w + 2)%nat = true ∧
  ∃ now, parse_time (clock_at (tick w + 1)%nat) = Ok now ∧
    dispatchable (db w) now transfer request e version.
Proof.
  unfold authorize, assert_current_lease. intros Ha.
  run Ha as Hl. run Hl as [-> ->]%ok_read_clock. apply ok_raise_if in Hl as [Hl%negb_false_iff <-].
  apply ok_bind in Ha as (b & w2 & Hd%ok_read_transaction & Ha).
  run Ha as [->%negb_false_iff <-]%ok_raise_if.
  run Ha as [-> ->]%ok_read_clock. apply ok_raise_if in Ha as [Hl2%negb_false_iff <-].
  unfold dispatch_authorized in Hd. run Hd as [<- <-]%ok_gets. cbn [db] in Hd.
  apply ok_bind in Hd as (order & w3 & (-> & Ho & Eo & Es)%order_row_ok & Hd).
  apply ok_bind in Hd as (e' & w3 & (-> & x' & Hx & _ & _ & Ex)%get_execution_ok & Hd).
  destruct (_policy_row (xr_subject_id e) (db w)) as [policy|] eqn:Ep; [|denied Hd].
  destruct (p_policy_version policy =? version) eqn:Ev; cbn [negb] in Hd; [|denied Hd].
  run Hd as [_ <-]%ok_lift. destruct (_ || _) eqn:Ec in Hd; [denied Hd|].
  rewrite !orb_false_iff !neq_false in Ec. destruct Ec as [[[[_ ->] Est] Eh] Er].
  apply allows_permits in Hd as (-> & now & Hnow & Hp). cbn [db tick fresh] in *.
  rewrite !(Nat.add_comm (tick w)). split_and!; [done..|]. exists now. split; [done|].
  exists policy, order, x'. subst e. split_and!; try done. lia.
Qed.

(** C13: Nothing is sent without a second look.  A run of
    [_sign_and_broadcast] does one of two things.  Either the lease is
    current before and after, and in between, at the time then read from the
    clock, the database says that the transfer may go: the policy has the
    version the operation started from and permits the order, the execution
    is the one prepared, still signing, and its stored request hash is that
    of this very transfer; then the signer is called once, with this
    transfer, and its answer, returned or raised, is the run's.  Or the run
    raises and what it does is the same whatever the signer would answer:
    the signer is not called.  The database is unchanged in both cases. *)
Theorem dispatch_rechecked w transfer request e version :
  (lease_current (tick w) = true ∧ lease_current (tick w + 2)%nat = true ∧
   (∃ now, parse_time (clock_at (tick w + 1)%nat) = Ok now ∧
      dispatchable (db w) now transfer request e version) ∧
   _sign_and_broadcast transfer request e version w
   = (sign_and_broadcast (tick w + 3)%nat transfer request,
      World (db w) (tick w + 4)%nat (fresh w))) ∨
  (∃ err w', db w' = db w ∧
   _sign_and_broadcast transfer request e version w = (Raise err, w') ∧
   ∀ f, _sign_and_broadcast (Sg := with_answers f) transfer request e version w
        = (Raise err, w')).
Proof.
  destruct (authorize transfer request e version w) as [[[]|err] w'] eqn:Ha.
  - left. pose proof (authorize_ok _ _ _ _ _ _ _ Ha) as (-> & H1 & H2 & H3).
    split_and!; [done..|]. unfold _sign_and_broadcast, call, mbind, M_bind. rewrite Ha.
    simpl. replace (tick w + 4)%nat with (S (tick w + 3)) by lia.
    by destruct (sign_and_broadcast _ _ _).
  - right. exists err, w'. split.
    { pose proof (silent_authorize transfer request e version w) as E. by rewrite Ha in E. }
    unfold _sign_and_broadcast, mbind, M_bind. split; [by rewrite Ha|]. intros f.
    change (authorize (Sg := with_answers f)) with (authorize (Sg := Sg)). by rewrite Ha.
Qed.

(** ** The emergency stop *)

Definition stopped (sid : string) (d : wallet_db) : Prop :=
  ∀ policy, _policy_row sid d = Some policy →
    p_emergency_paused policy ≠ 0 ∨ p_mode policy = MDisabled.

Lemma stopped_allows row policy exclude w w' :
  p_emergency_paused policy ≠ 0 ∨ p_mode policy = MDisabled →
  ¬ ok (_policy_allows row (Some policy) exclude) w true w'.
Proof. intros Hs (_ & now & _ & [[H1 H2 _ _ _ _ _ _] _ _])%allows_permits. by destruct Hs. Qed.
Lemma stopped_authorized sid row oid msg w policy w' :
  stopped sid (db w) → ¬ ok (authorized_policy row oid sid msg) w policy w'.
Proof.
  intros Hs (_ & E & now & _ & [[H1 H2 _ _ _ _ _ _] _ _])%authorized_ok.
  by destruct (Hs _ E).
Qed.
Lemma stopped_reserve row actor w u w' :
  stopped (o_subject_id row) (db w) → ¬ ok (_reserve_order row actor) w u w'.
Proof.
  intros Hs H. unfold _reserve_order in H. run H as [<- <-]%ok_gets.
  apply ok_bind in H as (b & w1 & Ha & H). run H as [->%negb_false_iff _]%ok_raise_if.
  destruct (_policy_row (o_subject_id row) (db w)) as [p|] eqn:E; [|denied Ha].
  eapply stopped_allows; [by apply Hs|exact Ha].
Qed.

(** The call raises and changes no table. *)
Definition refused {A} (m : W A) (w : world wallet_db) : Prop :=
  ∃ e w', m w = (Raise e, w') ∧ db w' = db w.

Lemma refused_transaction {A} (m : W A) w :
  (∀ a w', ¬ ok m w a w') → refused (transaction m) w.
Proof.
  intros H. unfold refused, transaction. destruct (m w) as [[a|e] w'] eqn:E.
  - by destruct (H a w').
  - by eexists _, _.
Qed.
Lemma refused_bind {A B} (m : W A) (k : A → W B) w : refused m w → refused (m ≫= k) w.
Proof. intros (e & w' & H & E). exists e, w'. unfold mbind, M_bind. by rewrite H. Qed.
Lemma refused_after {A B} (m : W A) (k : A → W B) w :
  silent m → (∀ a w', ok m w a w' → refused (k a) w') → refused (m ≫= k) w.
Proof.
  intros Hs Hk. specialize (Hs w). unfold refused, mbind, M_bind.
  destruct (m w) as [[a|e] w1] eqn:E; simpl in Hs.
  - destruct (Hk a w1 E) as (e & w2 & H & Ed). exists e, w2. by rewrite -Hs.
  - by exists e, w1.
Qed.

Lemma stopped_prepare oid sid actor gas fee nonce w :
  stopped sid (db w) → refused (prepare_execution oid sid actor gas fee nonce) w.
Proof.
  intros Hs. unfold prepare_execution. apply refused_after; [solve_silent|intros _ w1 [_ <-]%ok_lift].
  apply refused_after; [solve_silent|intros _ w1 [_ <-]%ok_raise_if].
  apply refused_after; [destruct fee; solve_silent|intros f w1 Hf].
  assert (w1 = w) as ->.
  { destruct fee; [by apply ok_lift in Hf as [_ <-]|by apply ok_ret in Hf as [_ <-]]. }
  apply refused_after; [solve_silent|intros _ w1 [_ <-]%ok_raise_if].
  apply refused_transaction. intros a w' H. run H as (-> & _)%order_row_ok.
  run H as [_ <-]%ok_raise_if. run H as Ha. by eapply stopped_authorized.
Qed.
Lemma stopped_retry oid sid actor reason w :
  stopped sid (db w) → refused (prepare_retry oid sid actor reason) w.
Proof.
  intros Hs. unfold prepare_retry. apply refused_after; [solve_silent|intros _ w1 [_ <-]%ok_lift].
  apply refused_transaction. intros a w' H. run H as (-> & _)%order_row_ok.
  run H as [_ <-]%ok_raise_if. run H as Ha. by eapply stopped_authorized.
Qed.

(** The emergency stop.  While the subject's policy is paused,
    disabled or missing, confirming an order, executing one and preparing
    a retry all raise and leave every table as it was. *)
Theorem stopped_policy_refuses w sid oid actor :
  stopped sid (db w) →
  refused (confirm_order oid sid actor) w ∧
  (∀ gas fee nonce, refused (execute_order oid sid actor gas fee nonce) w) ∧
  (∀ reason, refused (prepare_retry oid sid actor reason) w).
Proof.
  intros Hs. split_and!.
  - unfold confirm_order. apply refused_after; [solve_silent|intros a w1 [_ <-]%ok_lift].
    apply refused_transaction. intros r w' H. run H as (-> & _ & _ & <-)%order_row_ok.
    run H as [_ <-]%ok_raise_if. run H as Hr. by eapply stopped_reserve.
  - intros gas fee nonce. unfold execute_order.
    apply refused_after; [solve_silent|intros a w1 [_ <-]%ok_lift].
    apply refused_after; [apply silent_get_policy|intros p w1 Hp].
    apply refused_bind, stopped_prepare.
    pose proof (silent_get_policy sid w) as Hsil. rewrite Hp in Hsil. simpl in Hsil.
    by rewrite Hsil.
  - intros reason. by apply stopped_retry.
Qed.
End policy.
