(* ===== verification/WalletSafety.v ===== *)
(** * Safety along transactions

    Properties that compare two states: what never changes, what only
    grows, which resources are never used twice. *)

From S2P Require Import Prelude Tables PyStr Json Digest Time WalletTypes RegistryTypes WalletTransfer WalletDb.
From S2P Require Import WalletEconomy WalletOrders WalletSubmissions WalletExecution WalletEngine.
From S2P Require Import WalletIntegrity WalletEffects WalletSteps WalletSystem WalletLedger.
From S2P Require Import WalletRecords WalletVerify WalletExecInv.
From stdpp Require Import relations.
Local Open Scope Z_scope.

Section safety.
Context {Dg : Digest} {En : Env} {Sg : Signer} {Hosts : HostNames}.

(** ** Nonces *)

(** The account nonce an execution uses. *)
Definition nonce_slot (x : execution_row) : string * string * string * Z :=
  (x_subject_id x, x_network_id x, x_source_address x, x_nonce x).
Definition nonces_ok (d : wallet_db) : Prop :=
  ∀ x y, x ∈ executions d → y ∈ executions d → nonce_indexed x = true →
    nonce_indexed y = true → nonce_slot x = nonce_slot y → x = y.

Inductive execution_event (d d' : wallet_db) : Prop :=
| xe_none : executions d' = executions d → execution_event d d'
| xe_new x : execution_unique (executions d) x = true →
    executions d' = append_row x (executions d) → execution_event d d'
| xe_move x x' : x ∈ executions d → x_status x ≠ XFailed → x_execution_id x' = x_execution_id x →
    nonce_slot x' = nonce_slot x →
    executions d' = replace_row x_execution_id x x' (executions d) → execution_event d d'.

Lemma coupled_status d o x :
  keys d → exec_ok d → o ∈ orders d → x ∈ executions d → o_order_id o = x_order_id x →
  order_matches_execution (o_status o) (x_status x) = true.
Proof.
  intros K X Ho Hx E. destruct (xo_coupled _ X x Hx) as (o' & Ho' & Hp).
  rewrite (key_unique o_order_id _ o o' (k_orders _ K) Ho Ho'); [|apply Hp].
  rewrite E. symmetry. apply Hp.
Qed.

Lemma tx_execution_event d d' : keys d → exec_ok d → tx d d' → execution_event d d'.
Proof.
  intros K X H. case_tx H; try (open_effects; by apply xe_none).
  - destruct He as (_ & _ & _ & _ & _ & _ & ? & _). by apply xe_none.
  - open_effects. destruct Hp as [[_ ->]|(_ & _ & _ & E & _)%placed_frame];
      apply xe_none; [done|by rewrite E].
  - destruct Hl as [l ->]. subst. by apply xe_none.
  - open_effects. by apply (xe_new _ _ x).
  - open_effects. eapply (xe_move _ _ x); [done| | | |reflexivity]; [|done|done].
    assert (Hm := coupled_status d o x K X). intros E. rewrite Hs E in Hm.
    by discriminate Hm.
  - eapply (xe_move _ _ x (marked_execution x xs txh err rc herr hrc aid now));
      [done| |done|done|].
    + assert (Hm' := coupled_status d o x K X Ho Hx Eo). intros E. rewrite E in Hm'.
      destruct Hc as [Hs|code Hs|code rc' Hs|rc' Hs|code Hxs Hs|code Hxs Hs]; try congruence;
        try (rewrite Hs in Hm'; done); case_in Hs; by rewrite Hs in Hm'.
    + open_effects. destruct jt; simpl in *; open_effects; by subst.
Qed.

Lemma nonces_tx d d' : keys d → exec_ok d → nonces_ok d → tx d d' → nonces_ok d'.
Proof.
  intros K X N H. destruct (tx_execution_event _ _ K X H) as [E|x Hu E|x x' Hx Hst Hid Hsl E];
    unfold nonces_ok; rewrite E.
  - done.
  - apply andb_true_iff in Hu as [_ Hu].
    assert (Hn : ∀ y, y ∈ executions d → nonce_indexed y = true → nonce_indexed x = true →
      nonce_slot y ≠ nonce_slot x).
    { intros y Hy I1 I2 Es. eapply exists_none in Hy; [|exact Hu].
      unfold execution_index_clash in Hy. apply orb_false_iff in Hy as [Hy _]. injection Es as E1 E2 E3 E4.
      by rewrite I1 I2 E1 E2 E3 E4 Z.eqb_refl !bool_decide_true in Hy. }
    intros y z [Hy| ->]%elem_of_append [Hz| ->]%elem_of_append I1 I2 Es; [by apply N|..|done].
    + by destruct (Hn y).
    + by destruct (Hn z).
  - assert (Ix : nonce_indexed x = true).
    { unfold nonce_indexed. by rewrite bool_decide_false. }
    intros y z Hy Hz I1 I2 Es.
    apply (elem_of_replace x_execution_id) in Hy as [->|[Hy Ny]]; [| |apply K|done];
    apply (elem_of_replace x_execution_id) in Hz as [->|[Hz Nz]];
      try apply K; try done; [| |by apply N].
    + destruct Nz. symmetry. apply N; congruence.
    + destruct Ny. apply N; congruence.
Qed.
Lemma nonces_reach d : wallet_reach d → nonces_ok d.
Proof.
  intros H. cut (exec_ok d ∧ nonces_ok d); [by intros []|]. revert d H.
  apply wallet_invariant.
  - split; [apply exec_reach, rtc_refl|]. by intros x y ?%not_elem_of_nil.
  - intros d d' K [X N] H. split; [by eapply exec_tx|by eapply nonces_tx].
Qed.

(** C15: Nonces are not reused.  In every reachable state two executions of
    the same subject that spend from the same address of a network with
    the same nonce are the same execution, unless one of them failed
    without ever having a transaction hash. *)
Theorem nonces_unique w x y :
  reachable w → x ∈ executions (db w) → y ∈ executions (db w) →
  nonce_indexed x = true → nonce_indexed y = true → nonce_slot x = nonce_slot y → x = y.
Proof. intros H%reachable_reach%nonces_reach. apply H. Qed.

(** ** Decisions are final, the audit trail only grows *)

Lemma submission_final d d' s :
  keys d → tx d d' → s ∈ submissions d → s_status s ≠ SSubmitted → s ∈ submissions d'.
Proof.
  intros K H Hs Hst.
  destruct (tx_submission_event _ _ H) as [E|b sid p aid now row _ _ _ _ E
    |row target reason now aid h row' Hr Hsub _ _ _ E]; rewrite E.
  - done.
  - apply elem_of_append; by left.
  - apply (elem_of_replace s_submission_id); [apply K|done|right]. split; [done|congruence].
Qed.

Lemma audits_tx d d' : tx d d' → ∃ l, audits d' = audits d ++ l.
Proof.
  intros H. case_tx H; try (open_effects; by eexists);
    try (open_effects; rewrite /append_row -?app_assoc; by eexists).
  - by destruct He as (_ & _ & _ & _ & _ & _ & _ & _ & _ & _ & l).
  - open_effects. destruct Hp as [[_ ->]|Hp]; [by eexists|].
    destruct Hp as (? & ? & ? & ? & ? & _ & _ & Ha & _ & _ & Hm).
    open_effects. destruct Hm as [Hm|[[_ Hm]|[_ Hm]]]; open_effects;
      rewrite /append_row -?app_assoc; by eexists.
  - destruct Hl as [l ->]. subst. by eexists.
  - exists []. by rewrite app_nil_r.
  - open_effects. destruct jt; simpl in *; open_effects; subst; simpl;
      rewrite /append_row -?app_assoc; by eexists.
Qed.
Lemma audits_rtc d d' : rtc tx d d' → ∃ l, audits d' = audits d ++ l.
Proof.
  induction 1 as [d|d d1 d2 H _ [l2 IH]]; [exists []; by rewrite app_nil_r|].
  destruct (audits_tx _ _ H) as [l1 E]. exists (l1 ++ l2). by rewrite IH E app_assoc.
Qed.

(** History is append-only.  In one step of the system (a call that
    returns or raises, or a write of another component) the audit trail
    only grows at its end, and a submission that was accepted, rejected or
    withdrawn stays exactly as it is. *)
Theorem history_append_only w w' :
  reachable w → wallet_step w w' →
  (∃ l, audits (db w') = audits (db w) ++ l) ∧
  (∀ s, s ∈ submissions (db w) → s_status s ≠ SSubmitted → s ∈ submissions (db w')).
Proof.
  intros K%reachable_reach%wallet_reach_keys H. apply step_rtc_tx in H; [|done].
  split; [by apply audits_rtc|]. revert K. induction H as [d|d d1 d2 H1 H IH]; [done|].
  intros K s Hs Hst. apply IH; [by eapply keys_tx| |done]. by eapply submission_final.
Qed.

(** ** Orders that are closed stay closed *)

Definition closed (s : PaymentOrderStatus) : bool :=
  match s with ORejected | OCancelled | ORefunded => true | _ => false end.
Lemma closed_rtc v v' : rtc pay_step v v' → closed v.1 = true → v' = v.
Proof.
  intros H. destruct H as [v|v v1 v2 H1 H]; [done|].
  destruct H1 as [s t jt l Hr _]. simpl. by destruct s.
Qed.

(** Closed orders are final.  An order that is rejected, cancelled or
    refunded keeps its status and its journals in every later state. *)
Theorem closed_orders_final w w' o :
  reachable w → rtc wallet_step w w' → o ∈ orders (db w) → closed (o_status o) = true →
  ∃ o', o' ∈ orders (db w') ∧ same_order o o' ∧ view (db w') o' = view (db w) o.
Proof.
  intros K%reachable_reach%wallet_reach_keys H Ho Hc.
  assert (Ht : rtc tx (db w) (db w')).
  { clear Ho. induction H as [w|w w1 w2 H1 H IH]; [done|].
    apply step_rtc_tx in H1; [|done]. etrans; [done|]. apply IH. by eapply keys_rtc. }
  destruct (rtc_tx_view _ _ o K Ht Ho) as (o' & Ho' & Hs & Hr).
  exists o'. split_and!; [done..|]. by apply closed_rtc.
Qed.
End safety.
