(* ===== verification/WalletOps.v ===== *)
(** * The operations one by one

    Retries are harmless, failures leave no trace, updates of the policy
    are compare-and-swap, expired bounties accept nothing. *)

From stdpp Require Import relations.
From S2P Require Import Prelude Tables PyStr Json Digest Time WalletTypes RegistryTypes.
From S2P Require Import WalletTransfer WalletDb WalletEconomy RegistryDb RegistryStore.
From S2P Require Import WalletOrders WalletSubmissions WalletExecution WalletEngine.
From S2P Require Import WalletIntegrity WalletEffects WalletSteps WalletSystem WalletLedger.
From S2P Require Import WalletRecords WalletVerify WalletExecInv WalletPolicy.
Local Open Scope Z_scope.

Lemma fetchone_append {R} (p : R → bool) r t :
  fetchone p t = None → p r = true → fetchone p (append_row r t) = Some r.
Proof.
  intros Hn Hp. unfold append_row. induction t as [|x t IH]; simpl in *; [by rewrite Hp|].
  destruct (p x); [done|]. by apply IH.
Qed.

Section ops.
Context {Dg : Digest} {En : Env} {Sg : Signer} {Hosts : HostNames}.

(** ** Submitting twice *)

Definition submission_key (sid bid key : string) (r : submission_row) : bool :=
  (s_subject_id r == sid) && (s_bounty_id r == bid) && (s_idempotency_key r == key).

Lemma json_is_strs_JStrs l : json_is_strs (JStrs l) l = true.
Proof.
  unfold json_is_strs, JStrs. rewrite length_map Nat.eqb_refl. simpl.
  induction l as [|s l IH]; simpl; [done|]. by rewrite bool_decide_true.
Qed.

(** The stored submission a successful call answers with. *)
Lemma submit_row bid sid p w r w' :
  ok (submit_to_bounty bid sid p) w r w' →
  ∃ sid' b row, validate_subject_id sid = Ok sid' ∧
    bounty_of_subject bid sid (db w') = Some b ∧
    fetchone (submission_key sid bid (si_idempotency_key p)) (submissions (db w')) = Some row ∧
    _submission_input_matches row p = Ok true ∧ _submission_from_row row = Ok r.
Proof.
  unfold submit_to_bounty, self_clock. intros H.
  apply ok_bind in H as (sid' & ? & [Hv <-]%ok_lift & H).
  run H as [-> ->]%ok_read_clock. apply ok_transaction in H.
  run H as [<- <-]%ok_gets. apply ok_bind in H as (b & ? & [Hb%ok_of_option <-]%ok_lift & H).
  run H as [<- <-]%ok_gets. simpl in Hb. unfold id in H. cbn [db] in H.
  destruct (fetchone _ (submissions (db w))) as [row|] eqn:E.
  - apply ok_bind in H as (same & ? & [Hm <-]%ok_lift & H).
    run H as [->%negb_false_iff <-]%ok_raise_if. apply ok_lift in H as [Hr <-].
    exists sid', b, row. by split_and!.
  - apply ok_bind in H as (st & w1 & Hs%(silent_pure _ (silent_effective_status _)) & H).
    apply ok_bind in H as (st' & w2 & Hset & H). destruct (_ =/= _) eqn:Es in Hset.
    { run Hset as _. apply ok_ret in Hset as [<- <-]. simpl in H.
      run H as [<- <-]%ok_ret. by run H as [Hf _]%ok_raise_if. }
    apply ok_ret in Hset as [<- <-]. apply ok_bind in H as (c & w3 & Hc & H).
    assert (db w3 = db w1) as E3.
    { destruct (_ =/= _) in Hc; [by apply ok_ret in Hc as [_ <-]|].
      run Hc as [_ <-]%ok_lift. run Hc as [_ <-]%ok_lift. by apply ok_ret in Hc as [_ <-]. }
    run H as [_ <-]%ok_raise_if. run H as [<- <-]%ok_gets. run H as [_ <-]%ok_raise_if.
    apply ok_bind in H as (id & w4 & Hi%pure_new_id & H).
    apply ok_bind in H as (aid & w5 & Ha%audit_effect & H).
    unfold insert_submission in H. run H as H1. run H1 as [<- <-]%ok_gets.
    run H1 as [_ <-]%ok_constraint. run H1 as [Hu <-]%ok_constraint.
    apply ok_modify in H1 as ->. run H as [<- <-]%ok_gets.
    apply ok_bind in H as (row & ? & [Hrow ->]%subscript_ok & H).
    apply ok_lift in H as [Hr <-]. destruct Ha as (a & _ & _ & Ea).
    set (new := new_submission_row id bid sid p aid (clock_at (tick w))) in *.
    apply andb_true_iff in Hu as [Hu%(inserted_fetch s_submission_id) _].
    assert (row = new) as ->.
    { unfold submission_by_id in Hrow. simpl in Hrow, Hu. congruence. }
    simpl in *.
    assert (submissions (db w5) = submissions (db w)) as Esub by by rewrite Ea Hi E3 Hs.
    assert (bounties (db w5) = bounties (db w)) as Ebnt by by rewrite Ea Hi E3 Hs.
    eexists sid', b, _. split_and!; [done| | | |exact Hr].
    + unfold bounty_of_subject. simpl. by rewrite Ebnt.
    + rewrite Esub. apply fetchone_append; [done|]. unfold submission_key. simpl.
      by rewrite !bool_decide_true.
    + unfold _submission_input_matches. cbn -[json_is_strs strict_json_loads canonical_json].
      rewrite !bool_decide_true // loads_strs. cbn -[json_is_strs].
      by rewrite json_is_strs_JStrs Z.eqb_refl.
Qed.

(** Submitting is idempotent.  After a successful submission the same
    request succeeds again, answers with the same record, and changes no
    table. *)
Theorem submit_idempotent bid sid p w r w' :
  ok (submit_to_bounty bid sid p) w r w' →
  ∃ w'', ok (submit_to_bounty bid sid p) w' r w'' ∧ db w'' = db w'.
Proof.
  intros (sid' & b & row & Hv & Hb & Hk & Hm & Hr)%submit_row.
  exists (World (db w') (S (tick w')) (Prelude.fresh w')). split; [|done].
  unfold ok, submit_to_bounty, transaction, lift, gets, id, self_clock, read_clock, mbind, M_bind.
  rewrite Hv. cbn -[_submission_from_row _submission_input_matches fetchone bounty_of_subject].
  rewrite Hb. cbn -[_submission_from_row _submission_input_matches fetchone].
  unfold submission_key in Hk. rewrite Hk Hm. cbn -[_submission_from_row]. by rewrite Hr.
Qed.

(** ** Creating a bounty twice *)

Lemma network_row_run i sid w n w' :
  ok (_network_row i sid) w n w' →
  w' = w ∧ ∀ w2, networks (db w2) = networks (db w) → _network_row i sid w2 = (Ok n, w2).
Proof.
  unfold _network_row. intros H. apply ok_bind in H as (u & ? & [Hi <-]%ok_lift & H).
  run H as [<- <-]%ok_gets. apply ok_lift in H as [Hn <-]. split; [done|]. intros w2 E.
  unfold mbind, M_bind, lift, gets. by rewrite Hi E Hn.
Qed.
Lemma asset_row_run i sid w a w' :
  ok (_asset_row i sid) w a w' →
  w' = w ∧ ∀ w2, assets (db w2) = assets (db w) → _asset_row i sid w2 = (Ok a, w2).
Proof.
  unfold _asset_row. intros H. apply ok_bind in H as (u & ? & [Hi <-]%ok_lift & H).
  run H as [<- <-]%ok_gets. apply ok_lift in H as [Hn <-]. split; [done|]. intros w2 E.
  unfold mbind, M_bind, lift, gets. by rewrite Hi E Hn.
Qed.

Definition bounty_key (sid key : string) (r : bounty_row) : bool :=
  (b_subject_id r == sid) && (b_idempotency_key r == key).
Lemma bounty_equivalent_new bid sid p aid now :
  bounty_equivalent (new_bounty_row bid sid p aid now) p = true.
Proof. unfold bounty_equivalent. simpl. by rewrite !bool_decide_true // !Z.eqb_refl. Qed.

(** What a successful call establishes for every later one. *)
Lemma create_row sid p actor w r w' :
  ok (create_bounty sid p actor) w r w' →
  ∃ actor' sid' n a row, _operator actor = Ok actor' ∧ validate_subject_id sid = Ok sid' ∧
    _network_row (bi_network_id p) sid (World (db w') (S (tick w')) (Prelude.fresh w'))
      = (Ok n, World (db w') (S (tick w')) (Prelude.fresh w')) ∧
    _asset_row (bi_asset_id p) sid (World (db w') (S (tick w')) (Prelude.fresh w'))
      = (Ok a, World (db w') (S (tick w')) (Prelude.fresh w')) ∧
    (n_status n =/= "active") || (as_status a =/= "active")
      || (as_network_id a =/= bi_network_id p) = false ∧
    owned_by (projects (db w')) (bi_project_id p) sid = true ∧
    owned_by (goals (db w')) (bi_goal_id p) sid = true ∧
    fetchone (bounty_key sid (bi_idempotency_key p)) (bounties (db w')) = Some row ∧
    bounty_equivalent row p = true ∧ _bounty_from_row row None = Ok r.
Proof.
  unfold create_bounty, self_clock. intros H.
  apply ok_bind in H as (actor' & ? & [Ho <-]%ok_lift & H).
  apply ok_bind in H as (sid' & ? & [Hv <-]%ok_lift & H).
  run H as [-> ->]%ok_read_clock. apply ok_transaction in H.
  apply ok_bind in H as (n & ? & [-> Hn]%network_row_run & H).
  apply ok_bind in H as (a & ? & [-> Ha]%asset_row_run & H).
  run H as [Hact <-]%ok_raise_if. run H as [<- <-]%ok_gets. unfold id in H. cbn [db] in *.
  run H as [Hp%negb_false_iff <-]%ok_raise_if. run H as [Hg%negb_false_iff <-]%ok_raise_if.
  destruct (fetchone _ (bounties (db w))) as [row|] eqn:E.
  - run H as [Hq%negb_false_iff <-]%ok_raise_if. apply ok_lift in H as [Hr <-].
    exists actor', sid', n, a, row. split_and!; try done; [by apply Hn|by apply Ha].
  - apply ok_bind in H as (bid & w1 & Hi%pure_new_id & H).
    apply ok_bind in H as (aid & w2 & (ar & _ & _ & Ea)%audit_effect & H).
    unfold insert_bounty in H. run H as H1. run H1 as [<- <-]%ok_gets.
    run H1 as [_ <-]%ok_constraint. run H1 as [Hu <-]%ok_constraint.
    apply ok_modify in H1 as ->. run H as [<- <-]%ok_gets.
    apply ok_bind in H as (row & ? & [Hrow ->]%subscript_ok & H).
    apply ok_lift in H as [Hr <-].
    set (new := new_bounty_row bid sid p aid (clock_at (tick w))) in *.
    apply andb_true_iff in Hu as [Hu%(inserted_fetch b_bounty_id) _].
    assert (row = new) as ->.
    { unfold bounty_by_id in Hrow. simpl in Hrow, Hu. congruence. }
    rewrite Hi in Ea. simpl in *.
    exists actor', sid', n, a, new. split_and!; try done.
    + apply Hn. simpl. by rewrite Ea.
    + apply Ha. simpl. by rewrite Ea.
    + by rewrite Ea.
    + by rewrite Ea.
    + rewrite Ea. apply fetchone_append; [done|]. unfold bounty_key. simpl.
      by rewrite !bool_decide_true.
    + apply bounty_equivalent_new.
Qed.

(** Creating a bounty is idempotent.  After a successful call the same
    request succeeds again, answers with the same record, and changes no
    table. *)
Theorem create_idempotent sid p actor w r w' :
  ok (create_bounty sid p actor) w r w' →
  ∃ w'', ok (create_bounty sid p actor) w' r w'' ∧ db w'' = db w'.
Proof.
  intros (actor' & sid' & n & a & row & Ho & Hv & Hn & Ha & Hact & Hp & Hg & Hk & Hq & Hr)%create_row.
  exists (World (db w') (S (tick w')) (Prelude.fresh w')). split; [|done].
  unfold ok, create_bounty, transaction, self_clock, read_clock, lift, gets, id, mbind, M_bind.
  rewrite Ho Hv. cbn [tick db Prelude.fresh]. rewrite Hn Ha Hact. cbn [raise_if].
  cbn -[_bounty_from_row fetchone owned_by]. rewrite Hp Hg.
  cbn -[_bounty_from_row fetchone]. unfold bounty_key in Hk. rewrite Hk Hq.
  cbn -[_bounty_from_row]. by rewrite Hr.
Qed.

(** ** Failures leave no trace *)

Definition atomic {A} (m : W A) : Prop := ∀ w e w', m w = (Raise e, w') → db w' = db w.
Lemma atomic_transaction {A} (m : W A) : atomic (transaction m).
Proof.
  intros w e w'. unfold transaction. destruct (m w) as [[a|e'] w1]; [done|].
  by intros [= _ <-].
Qed.
Lemma atomic_after {A B} (m : W A) (k : A → W B) :
  silent m → (∀ a, atomic (k a)) → atomic (m ≫= k).
Proof.
  intros Hs Hk w e w' H. specialize (Hs w). unfold mbind, M_bind in H.
  destruct (m w) as [[a|e'] w1]; simpl in Hs.
  - rewrite -Hs. by eapply Hk.
  - by injection H as _ <-.
Qed.
Lemma atomic_done {A} (m : W A) : atomic m → atomic (m ;; mret tt).
Proof.
  intros Hm w e w' H. unfold mbind, M_bind in H. destruct (m w) as [[a|e'] w1] eqn:E; [done|].
  injection H as _ <-. by eapply Hm.
Qed.

Lemma atomic_rethrow {A} h (m : W A) : atomic m → atomic (rethrow h m).
Proof.
  intros Hm w e w' H. unfold rethrow in H. destruct (m w) as [[a|e'] w1] eqn:E; [done|].
  injection H as _ <-. by eapply Hm.
Qed.

(** The calls that are one transaction; those of the engine that talk to
    the signer, and crash recovery, commit several; the registry reads a
    new or revoked record back after its transaction. *)
Definition one_transaction (op : wallet_op) : bool :=
  match op with
  | ExecuteOrder _ _ _ _ _ _ | RetryUnknown _ _ _ _ | PollReceipt _ _ _
  | RecoverInflight _ _ _ | RegisterNetwork _ _ _ | RegisterAsset _ _ _
  | RegisterAddress _ _ _ | RevokeNetwork _ _ _ _ | RevokeAsset _ _ _ _
  | RevokeAddress _ _ _ _ => false
  | _ => true
  end.

(** Failures leave no trace.  A call that is one transaction and
    raises leaves every table as it was. *)
Theorem failure_leaves_no_trace op w e w' :
  one_transaction op = true → run_op op w = (Raise e, w') → db w' = db w.
Proof.
  intros Hop. assert (atomic (run_op op)) as Ha; [|apply Ha].
  destruct op; try done; cbn [run_op];
    unfold ensure_identity, create_bounty, publish_bounty, close_bounty, cancel_bounty,
      _transition_bounty, maintain_expired_bounties, submit_to_bounty, decide_submission,
      withdraw_submission, confirm_order, reject_order, cancel_order, refund_order,
      mark_reconcile_required, prepare_execution, prepare_retry, record_balance_snapshot,
      self_clock, utc_now, new_id;
    try apply atomic_done;
    repeat first [apply atomic_transaction | apply atomic_rethrow
                 |apply atomic_after; [by solve_silent|intros ?]
                 |apply atomic_done].
Qed.

(** ** Authority *)

(** The actor of an economic operation that only an operator may order. *)
Definition operator_of (op : wallet_op) : option string :=
  match op with
  | CreateBounty _ _ a | PublishBounty _ _ a | CloseBounty _ _ a | CancelBounty _ _ a
  | Decide _ _ _ _ a | UpdatePolicy _ _ _ a _ | ConfirmOrder _ _ a | RejectOrder _ _ a _
  | CancelOrder _ _ a _ | RefundOrder _ _ a _ | ExecuteOrder _ _ a _ _ _
  | RetryUnknown _ _ a _ | PollReceipt _ _ a | ReconcileRequired _ _ a _
  | RecoverInflight _ a _ | RegisterNetwork _ _ a | RegisterAsset _ _ a
  | RegisterAddress _ _ a | RevokeNetwork _ _ a _ | RevokeAsset _ _ a _
  | RevokeAddress _ _ a _ | RecordBalance _ _ a => Some a
  | _ => None
  end.

Lemma refused_operator {B} actor (k : string → W B) w :
  strip actor = EmptyString ∨ strip actor = "subject"%string →
  refused (lift (_operator actor) ≫= k) w.
Proof.
  intros H. apply refused_bind. unfold _operator, lift.
  destruct H as [-> | ->]; simpl; by eexists _, _.
Qed.

Lemma refused_require {B} actor action (k : unit → W B) w :
  strip actor = EmptyString ∨ strip actor = "subject"%string →
  refused (lift (_require_operator actor action) ≫= k) w.
Proof.
  intros H. apply refused_bind. unfold _require_operator, blank, lift.
  destruct H as [-> | ->]; simpl; by eexists _, _.
Qed.

(** The subject cannot pay itself.  Every economic operation ordered
    by the subject, or by a blank actor, raises and changes no table:
    bounties, decisions, the policy, payment orders and their execution
    need an operator. *)
Theorem operator_required op actor w :
  operator_of op = Some actor →
  strip actor = EmptyString ∨ strip actor = "subject"%string → refused (run_op op) w.
Proof.
  intros Hop Ha. destruct op; try done; injection Hop as ->; cbn [run_op];
    unfold create_bounty, publish_bounty, close_bounty, cancel_bounty, _transition_bounty,
      decide_submission, update_policy, confirm_order, reject_order, cancel_order,
      refund_order, execute_order, retry_unknown, poll_receipt, mark_reconcile_required,
      recover_database_inflight, register_network, register_asset, register_address,
      revoke_network, revoke_asset, revoke_address, record_balance_snapshot;
    repeat first [by apply refused_operator | by apply refused_require
                 |apply refused_bind; by apply refused_require
                 |apply refused_bind; by apply refused_operator
                 |apply refused_after; [by solve_silent|intros ? ? ?]
                 |apply refused_bind].
Qed.

(** ** Updating the policy *)

Definition current_version (sid : string) (d : wallet_db) : Z :=
  match _policy_row sid d with None => 1 | Some r => p_policy_version r end.

Lemma policy_row_replaced row d sid :
  p_subject_id row = sid →
  fetchone (λ r, p_subject_id r == sid)
    (append_row row (select (λ x, p_subject_id x =/= sid) (policies d))) = Some row.
Proof.
  intros E. apply fetchone_append; [|by rewrite bool_decide_true].
  destruct (fetchone _ _) as [r|] eqn:Ef; [|done]. apply fetchone_Some in Ef as [Hr Hp].
  apply elem_of_select in Hr as [_ Hn]. by rewrite Hp in Hn.
Qed.

Lemma policy_from_row_version row r :
  _policy_from_row row = Ok r → pr_policy_version r = p_policy_version row ∧
    pr_mode r = p_mode row ∧ pr_emergency_paused r = negb (p_emergency_paused row =? 0).
Proof. unfold _policy_from_row. intros H. do 6 step H as ? ?. by injection H as <-. Qed.

(** The checks before the transaction change nothing. *)
Local Ltac check_only Hl :=
  destruct (_ == MAutomatic) in Hl; [|by apply ok_ret in Hl as [_ <-]];
  run Hl as [_ <-]%ok_lift; destruct (_ <=? 0) in Hl; [by apply ok_raise in Hl|];
  run Hl as [_ <-]%ok_lift; by apply ok_raise_if in Hl as [_ <-].

Lemma stale_update_refused w sid p v actor :
  v ≠ current_version sid (db w) → refused (update_policy sid p v actor None) w.
Proof.
  intros Hv. unfold update_policy.
  apply refused_after; [by solve_silent|intros a w1 [_ <-]%ok_lift].
  apply refused_after; [by solve_silent|intros a1 w1 [_ <-]%ok_lift].
  apply refused_after; [by solve_silent|intros a2 w1 [_ <-]%ok_raise_if].
  apply refused_after; [by solve_silent|intros [] w1 Hl].
  assert (db w1 = db w) as E1.
  { check_only Hl. }
  assert (Hr : ∀ m, (∀ a w', ¬ ok m w1 a w') →
    refused (A:=PaymentPolicyRecord) (transaction m) w1) by (intros; by apply refused_transaction).
  apply Hr. intros r w' H. run H as [<- <-]%ok_gets. run H as [<- <-]%ok_ret.
  run H as [Hf _]%ok_raise_if. apply negb_false_iff, Z.eqb_eq in Hf.
  unfold current_version in Hv. by rewrite E1 in Hf.
Qed.
Lemma update_policy_ok w sid p v actor r w' :
  ok (update_policy sid p v actor None) w r w' →
  v = current_version sid (db w) ∧
  pr_policy_version r = v + 1 ∧ pr_mode r = pi_mode p ∧
  pr_emergency_paused r = pi_emergency_paused p ∧
  ∃ now h, select (λ x, p_subject_id x == sid) (policies (db w'))
           = [policy_row_of sid (with_automation p) (v + 1) now h].
Proof.
  intros H. unfold update_policy, self_clock in H.
  apply ok_bind in H as (actor' & ? & [_ <-]%ok_lift & H). run H as [_ <-]%ok_lift.
  run H as [_ <-]%ok_raise_if. apply ok_bind in H as ([] & w1 & Hl & H).
  assert (w1 = w) as ->.
  { check_only Hl. }
  apply ok_transaction in H. run H as [<- <-]%ok_gets. run H as [<- <-]%ok_ret.
  fold (current_version sid (db w)) in H.
  run H as [Hf%negb_false_iff%Z.eqb_eq <-]%ok_raise_if. rewrite -Hf in H.
  apply ok_bind in H as (u & w1 & Hev & H).
  assert (w1 = w) as ->.
  { destruct (_ && _) in Hev; [by apply ok_lift in Hev as [_ <-]|by apply ok_ret in Hev as [_ <-]]. }
  run H as [-> ->]%ok_read_clock. unfold _insert_policy, replace_policy in H.
  apply ok_bind in H as (u1 & w1 & Hins & H).
  apply ok_bind in Hins as (h & ? & [_ <-]%ok_lift & Hins).
  run Hins as [_ <-]%ok_constraint. apply ok_modify in Hins as ->.
  apply ok_bind in H as (aid & w2 & (ar & _ & _ & Ea)%audit_effect & H).
  run H as [_ <-]%ok_ret. run H as [<- <-]%ok_gets.
  apply ok_bind in H as (row & ? & [Hrow ->]%subscript_ok & H).
  apply ok_lift in H as [Hr <-]. simpl in Ea.
  unfold _policy_row in Hrow. rewrite Ea /= policy_row_replaced // in Hrow.
  injection Hrow as <-. apply policy_from_row_version in Hr as (-> & -> & ->). simpl.
  assert (Ep : pi_mode (with_automation p) = pi_mode p ∧
    pi_emergency_paused (with_automation p) = pi_emergency_paused p).
  { unfold with_automation. by destruct (pi_automation_enabled p). }
  destruct Ep as [-> ->]. split_and!; [done|done|done|by destruct (pi_emergency_paused p)|].
  eexists _, h. rewrite Ea /= select_append bool_decide_true // select_none //.
  intros q [_ Hq]%elem_of_select. by apply negb_true_iff in Hq.
Qed.

(** The policy is updated by compare-and-swap.  An update that carries
    a version other than the current one is refused and changes nothing;
    one that succeeds carried the current version, installed the proposed
    values as the subject's only policy with the next version, and
    returned that version. *)
Theorem policy_compare_and_swap w sid p v actor :
  (v ≠ current_version sid (db w) → refused (update_policy sid p v actor None) w) ∧
  (∀ r w', ok (update_policy sid p v actor None) w r w' →
     v = current_version sid (db w) ∧
     pr_policy_version r = v + 1 ∧ pr_mode r = pi_mode p ∧
     pr_emergency_paused r = pi_emergency_paused p ∧
     ∃ now h, select (λ x, p_subject_id x == sid) (policies (db w'))
              = [policy_row_of sid (with_automation p) (v + 1) now h]).
Proof. split; [apply stale_update_refused|]. intros r w'. apply update_policy_ok. Qed.

(** ** Expired bounties *)

(** The clock reading of tick [k] is at or after [t]. *)
Definition clock_after (k : nat) (t : Z) : Prop :=
  ∃ now, parse_time (clock_at k) = Ok now ∧ t <= now.

Lemma effective_expired row t w st w' :
  bounty_live (b_status row) = true → parse_time (b_expires_at row) = Ok t →
  clock_after (tick w) t → ok (_effective_bounty_status row) w st w' →
  st = BExpired ∧ w' = World (db w) (S (tick w)) (Prelude.fresh w).
Proof.
  intros Hl Ht (now & Hn & Hle) H. unfold _effective_bounty_status, self_clock in H.
  rewrite Hl in H. run H as [Ht' <-]%ok_lift. run H as [-> ->]%ok_read_clock.
  run H as [Hn' <-]%ok_lift. apply ok_ret in H as [<- <-].
  rewrite Ht in Ht'. injection Ht' as <-. rewrite Hn in Hn'. injection Hn' as <-.
  by rewrite (proj2 (Z.leb_le t now) Hle).
Qed.
Lemma set_status_stored row st reason actor w u w' r :
  ok (_set_bounty_status row st reason actor) w u w' →
  bounty_by_id (b_bounty_id row) (db w') = Some r → b_status r = st.
Proof.
  unfold _set_bounty_status, self_clock, update_bounty. intros H [Hr Er]%bounty_by_id_Some.
  run H as [-> ->]%ok_read_clock. run H as _. run H as [<- <-]%ok_gets.
  run H as [_ <-]%ok_constraint. apply ok_modify in H as ->. simpl in Hr.
  apply elem_of_update in Hr as (r0 & Hr0 & ->). case_bool_decide as E; [done|].
  by rewrite Er in E.
Qed.

(** An expired bounty accepts nothing.  Once the clock has passed the
    deadline of a bounty that is still stored as live, publishing, closing
    or cancelling it and any new submission raise and change no table. *)
Theorem expired_bounty_refuses w bid sid row t :
  bounty_of_subject bid sid (db w) = Some row → bounty_live (b_status row) = true →
  parse_time (b_expires_at row) = Ok t → clock_after (tick w) t → clock_after (S (tick w)) t →
  (∀ target actor, refused (_transition_bounty bid sid target actor) w) ∧
  (∀ p, fetchone (submission_key sid bid (si_idempotency_key p)) (submissions (db w)) = None →
     refused (submit_to_bounty bid sid p) w).
Proof.
  intros Hb Hl Ht C1 C2. assert (Hrow : b_bounty_id row = bid ∧ BExpired ≠ b_status row).
  { split; [by apply bounty_of_subject_Some in Hb as (_ & ? & _)|]. by intros E; rewrite -E in Hl. }
  destruct Hrow as [Eid Hne]. split.
  - intros target actor. unfold _transition_bounty.
    apply refused_after; [by solve_silent|intros a w1 [_ <-]%ok_lift].
    apply refused_after; [by solve_silent|intros a1 w1 [_ <-]%ok_lift].
    apply refused_transaction. intros r w' H. run H as [<- <-]%ok_gets.
    run H as [Hb'%ok_of_option <-]%ok_lift. rewrite Hb in Hb'. injection Hb' as <-.
    apply ok_bind in H as (st & ? & [-> ->]%(effective_expired _ t) & H); [|done..].
    rewrite bool_decide_false // in H. cbn [negb] in H.
    apply ok_bind in H as (r1 & w1 & Hset & H). run Hset as Hs.
    run Hset as [<- <-]%ok_gets. apply subscript_ok in Hset as [Hr ->].
    rewrite -Eid in Hr. eapply set_status_stored in Hr; [|exact Hs].
    run H as [Ht' _]%ok_raise_if. rewrite Hr in Ht'. by destruct target.
  - intros p Hk. unfold submit_to_bounty, self_clock.
    apply refused_after; [by solve_silent|intros a w1 [_ <-]%ok_lift].
    apply refused_after; [by solve_silent|intros now w1 [-> ->]%ok_read_clock].
    apply (refused_transaction _ (World (db w) (S (tick w)) (Prelude.fresh w))).
    intros r w' H. run H as [<- <-]%ok_gets.
    run H as [Hb'%ok_of_option <-]%ok_lift. simpl in Hb'. rewrite Hb in Hb'.
    injection Hb' as <-. run H as [<- <-]%ok_gets. unfold submission_key in Hk.
    cbn [db] in H. unfold id in H. rewrite Hk in H.
    apply ok_bind in H as (st & ? & [-> ->]%(effective_expired _ t) & H); [|done..].
    rewrite bool_decide_false // in H. cbn [negb] in H.
    apply ok_bind in H as (st & w1 & Hset & H). run Hset as _.
    apply ok_ret in Hset as [<- <-]. simpl in H. run H as [<- <-]%ok_ret.
    by run H as [Hf _]%ok_raise_if.
Qed.
End ops.
