(* ===== verification/WalletSettlement.v ===== *)
(** * Settlement

    A payment is confirmed only on a receipt that matches the execution and
    a transaction hash recorded for it, and is settled at most once. *)

From S2P Require Import Prelude Tables PyStr Json Digest Time WalletTypes WalletTransfer WalletDb.
From S2P Require Import WalletEconomy WalletOrders WalletSubmissions WalletExecution WalletEngine.
From S2P Require Import WalletIntegrity WalletEffects WalletSteps WalletSystem WalletLedger.
From S2P Require Import WalletRecords WalletVerify WalletExecInv WalletPolicy.
From stdpp Require Import relations.
Local Open Scope Z_scope.

Section settlement.
Context {Dg : Digest} {En : Env} {Sg : Signer}.

(** ** Looking a receipt up *)

(** A transaction hash the database holds for the execution. *)
Definition recorded_hash (d : wallet_db) (x : execution_row) (tx : string) : Prop :=
  x_tx_hash x = Some tx ∨
  ∃ t h, t ∈ attempts d ∧ t_execution_id t = x_execution_id x ∧ t_tx_hash t = Some h ∧
    _tx_hash h = Ok tx.

Lemma add_key_in k l h : h ∈ add_key k l → h = k ∨ h ∈ l.
Proof.
  unfold add_key. case_bool_decide; [by right|]. rewrite elem_of_app list_elem_of_singleton.
  naive_solver.
Qed.
Lemma attempt_hashes_in rows hs l h :
  attempt_hashes rows hs = Ok l → h ∈ l →
  h ∈ hs ∨ ∃ t h0, t ∈ rows ∧ t_tx_hash t = Some h0 ∧ _tx_hash h0 = Ok h.
Proof.
  revert hs. induction rows as [|t rows IH]; intros hs H Hh; simpl in H.
  { injection H as ->. by left. }
  destruct (_ =/= _) in H; [done|].
  destruct (t_tx_hash t) as [h0|] eqn:Et.
  - step H as k Hk. apply IH in H as [[->|?]%add_key_in|(t' & h' & ? & ?)]; [|by left| |done].
    + right. exists t, h0. split; [apply here|done].
    + right. exists t', h'. split; [by apply there|done].
  - apply IH in H as [?|(t' & h' & ? & ?)]; [by left| |done].
    right. exists t', h'. split; [by apply there|done].
Qed.

Lemma find_receipt_valid e hashes err w r err' w' :
  ok (find_receipt e hashes err) w (Some r, err') w' →
  ∃ tx k, tx ∈ hashes ∧ get_receipt k tx (xr_chain_id e) = Ok (Some r) ∧
    _valid_receipt r e tx = true.
Proof.
  revert err w. induction hashes as [|tx hashes IH]; intros err w H; simpl in H.
  { by apply ok_ret in H as [? _]. }
  apply ok_bind in H as (ans & w1 & Ha & H).
  assert (Hrest : ∀ err1, ok (find_receipt e hashes err1) w1 (Some r, err') w' →
    ∃ tx0 k, tx0 ∈ tx :: hashes ∧ get_receipt k tx0 (xr_chain_id e) = Ok (Some r) ∧
      _valid_receipt r e tx0 = true).
  { intros err1 H1. destruct (IH _ _ H1) as (t & k & ? & ? & ?). exists t, k.
    split_and!; [by apply there|done..]. }
  destruct ans as [[rc|]|code]; [|by eapply Hrest..].
  destruct (_valid_receipt rc e tx) eqn:Ev; [|by eapply Hrest].
  apply ok_ret in H as [[= -> <-] _]. exists tx, (tick w). split_and!; [apply here| |done].
  unfold ok, catch, call, read_clock, mbind, M_bind, lift in Ha.
  destruct (get_receipt (tick w) tx (xr_chain_id e)) as [a|ex]; simpl in Ha; [|done].
  unfold mret, M_ret in Ha. by injection Ha as -> _.
Qed.

Lemma lookup_receipt_valid x w r err w' :
  ok (_lookup_receipt (_execution_from_row x)) w (Some r, err) w' →
  db w' = db w ∧ ∃ tx k, recorded_hash (db w) x tx ∧
    get_receipt k tx (x_chain_id x) = Ok (Some r) ∧
    _valid_receipt r (_execution_from_row x) tx = true.
Proof.
  intros H. pose proof (silent_lookup_receipt (_execution_from_row x) w) as Hs.
  rewrite H in Hs. split; [done|]. clear Hs.
  unfold _lookup_receipt in H. apply ok_bind in H as (hs & w1 & Hr%ok_read_transaction & H).
  run Hr as [<- <-]%ok_gets. apply ok_lift in Hr as [Hh <-].
  apply find_receipt_valid in H as (tx & k & Hin & ? & ?). exists tx, k. split_and!; try done.
  eapply attempt_hashes_in in Hh as [Hin'|(t & h & Ht & ? & ?)]; [| |exact Hin].
  - left. simpl in Hin'. destruct (x_tx_hash x); [|by apply not_elem_of_nil in Hin'].
    apply list_elem_of_singleton in Hin' as ->. done.
  - right. exists t, h. split_and!; try done.
    + eapply elem_of_take in Ht as (i & Ht & _). apply list_elem_of_lookup_2 in Ht.
      by apply elem_of_sort_by, elem_of_select in Ht as [? _].
    + eapply elem_of_take in Ht as (i & Ht & _). apply list_elem_of_lookup_2 in Ht.
      apply elem_of_sort_by, elem_of_select in Ht as [_ [E%bool_decide_eq_true _]%andb_true_iff].
      done.
Qed.

(** ** What the marking transactions return *)

Lemma execution_by_id_status eid f w0 w u w1 r w' :
  (∀ x, x_status (f x) = x_status (f w0)) →
  ok (update_execution eid f) w u w1 → ∀ w2, executions (db w2) = executions (db w1) →
  ok (execution_by_id eid) w2 r w' → xr_status r = x_status (f w0).
Proof.
  intros Hf H w2 E Hr. unfold update_execution in H. run H as [<- <-]%ok_gets.
  run H as [_ <-]%ok_constraint. run H as [_ <-]%ok_constraint. run H as [_ <-]%ok_constraint.
  apply ok_modify in H as ->. unfold execution_by_id in Hr. run Hr as [<- <-]%ok_gets.
  apply ok_bind in Hr as (ex & ? & [Hx ->]%subscript_ok & Hr). apply ok_ret in Hr as [<- _].
  apply fetchone_Some in Hx as [Hx Eid%bool_decide_eq_true]. rewrite E in Hx. simpl in Hx.
  apply elem_of_update in Hx as (ex0 & Hx0 & ->). case_bool_decide as Ec; [apply Hf|].
  by destruct Ec.
Qed.
Lemma finish_attempt_executions x xs txh err now w u w' :
  ok (_finish_attempt x xs txh err now) w u w' → executions (db w') = executions (db w).
Proof.
  unfold _finish_attempt, update_attempt. intros H. run H as [<- <-]%ok_gets.
  run H as [_ <-]%ok_lift. run H as [<- <-]%ok_gets. run H as [_ <-]%ok_constraint.
  by apply ok_modify in H as ->.
Qed.

Lemma mark_unknown_status eid sid actor txh code w r w' :
  ok (_mark_unknown eid sid actor txh code) w r w' →
  xr_status r = XUnknown ∨
  ∃ x, execution_of_subject eid sid (db w) = Some x ∧ r = _execution_from_row x.
Proof.
  unfold _mark_unknown, utc_now, require_execution. intros H%ok_transaction.
  apply ok_bind in H as (x & ? & Hx & H). run Hx as [<- <-]%ok_gets.
  apply ok_lift in Hx as [Hx%ok_of_option <-]. run H as (-> & _)%order_row_ok.
  destruct (negb _) in H; [apply ok_ret in H as [<- _]; right; by exists x|]. left.
  destruct (match txh with None => _ | Some _ => _ end) as [tx c].
  run H as _. run H as _. run H as [-> ->]%ok_read_clock. run H to w1 as Hu.
  run H to w2 as Hf%finish_attempt_executions.
  by eapply (execution_by_id_status _ _ x) in Hu.
Qed.
Lemma mark_failed_status eid sid actor code txh rc w r w' :
  ok (_mark_failed eid sid actor code txh rc) w r w' →
  xr_status r = XFailed ∨
  ∃ x, execution_of_subject eid sid (db w) = Some x ∧ r = _execution_from_row x.
Proof.
  unfold _mark_failed, utc_now, require_execution. intros H%ok_transaction.
  apply ok_bind in H as (x & ? & Hx & H). run Hx as [<- <-]%ok_gets.
  apply ok_lift in Hx as [Hx%ok_of_option <-]. run H as (-> & _)%order_row_ok.
  destruct (negb _) in H; [apply ok_ret in H as [<- _]; right; by exists x|]. left.
  run H as _. run H as _. run H as _. run H as [-> ->]%ok_read_clock. run H to w1 as Hu.
  run H to w2 as Hf%finish_attempt_executions.
  by eapply (execution_by_id_status _ _ x) in Hu.
Qed.

(** C23: Confirmation needs a receipt.  When [poll_receipt] answers that an
    execution is confirmed which was not before, the signer returned, for
    a transaction hash recorded for this execution, a receipt with status
    1 that passes [_valid_receipt]: chain, block, confirmations and, for
    tokens, the hash of the transfer's effect. *)
Theorem confirmed_by_receipt w eid sid actor r w' :
  ok (poll_receipt eid sid actor) w r w' → xr_status r = XConfirmed →
  ∃ x, execution_of_subject eid sid (db w) = Some x ∧
    (x_status x = XConfirmed ∨
     ∃ tx k receipt, recorded_hash (db w) x tx ∧
       get_receipt k tx (x_chain_id x) = Ok (Some receipt) ∧
       _valid_receipt receipt (_execution_from_row x) tx = true ∧ wr_status receipt = 1).
Proof.
  intros H Hst. unfold poll_receipt in H. run H as [_ <-]%ok_lift.
  apply ok_bind in H as (e & w1 & Hg & H). unfold get_execution in Hg.
  run Hg as [_ <-]%ok_lift. run Hg as [<- <-]%ok_read_transaction%ok_gets.
  apply ok_bind in Hg as (ex & ? & [Hx%ok_of_option <-]%ok_lift & Hg).
  apply ok_ret in Hg as [<- <-]. exists ex. split; [done|].
  destruct (decide (x_status ex = XConfirmed)) as [|Hne]; [by left|right].
  destruct (negb _) in H; [by apply ok_ret in H as [<- _]|].
  apply ok_bind in H as ([rc err] & w1 & Hl & H).
  pose proof (silent_lookup_receipt (_execution_from_row ex) w) as Hs. rewrite Hl in Hs. simpl in Hs.
  assert (Hunk : (xr_status r = XUnknown ∨
    ∃ y, execution_of_subject eid sid (db w1) = Some y ∧ r = _execution_from_row y) → False).
  { intros [E|(y & Ey & ->)]; [congruence|]. rewrite Hs Hx in Ey. by injection Ey as <-. }
  destruct rc as [rc|].
  - apply lookup_receipt_valid in Hl as (_ & tx & k & ? & ? & ?).
    exists tx, k, rc. split_and!; try done. unfold settle_receipt in H.
    destruct (wr_status rc =? 1) eqn:E1; [by apply Z.eqb_eq in E1|].
    apply mark_failed_status in H as [E|(y & Ey & ->)]; [congruence|].
    rewrite Hs Hx in Ey. by injection Ey as <-.
  - exfalso. destruct err as [error|].
    + destruct (_ == _) in H; [by apply ok_ret in H as [<- _]|].
      apply mark_unknown_status in H. by apply Hunk.
    + destruct (_ == _) in H; [|by apply ok_ret in H as [<- _]].
      apply ok_bind in H as (late & w2 & Hlate & H). destruct late; [|by apply ok_ret in H as [<- _]].
      assert (db w2 = db w1) as E2.
      { unfold _confirmation_timed_out, self_clock in Hlate.
        destruct (_ =? 0) in Hlate; [by apply ok_ret in Hlate as [_ <-]|].
        run Hlate as [-> ->]%ok_read_clock. by apply ok_ret in Hlate as [_ <-]. }
      apply mark_unknown_status in H as [E|(y & Ey & ->)]; [congruence|].
      rewrite E2 Hs Hx in Ey. by injection Ey as <-.
Qed.

(** ** Settlement happens once *)

Lemma posted_before row t a b w u w' :
  (∃ j, j ∈ journals (db w) ∧ j_order_id j = o_order_id row ∧ j_journal_type j = t) →
  ¬ ok (_post_order_journal row t a b) w u w'.
Proof.
  intros (j & Hj & E1 & E2) H. unfold _post_order_journal in H. run H as [<- <-]%ok_gets.
  run H as [Hex _]%ok_raise_if. rewrite -> exists_where_false in Hex. specialize (Hex j Hj).
  by rewrite E1 E2 !bool_decide_true in Hex.
Qed.

(** A payment is settled at most once.  Where the settlement journal
    of an order exists and the order is not confirmed (its confirmation
    was revoked), [_mark_confirmed] raises and changes no table: no
    second settlement is ever posted, and such an order cannot be
    confirmed again. *)
Theorem settled_at_most_once w eid sid actor receipt x :
  execution_of_subject eid sid (db w) = Some x →
  (∀ o, o ∈ orders (db w) → o_order_id o = x_order_id x → o_status o ≠ OConfirmed) →
  (∃ j, j ∈ journals (db w) ∧ j_order_id j = x_order_id x ∧ j_journal_type j = JSettlement) →
  refused (_mark_confirmed eid sid actor receipt) w.
Proof.
  intros Hx Hn Hj. unfold _mark_confirmed, require_execution. apply refused_transaction.
  intros r w' H. run H as Hr. run Hr as [<- <-]%ok_gets.
  apply ok_lift in Hr as [Hx'%ok_of_option <-]. rewrite Hx in Hx'. injection Hx' as <-.
  apply ok_bind in H as (o & ? & (-> & Ho & Eo & _)%order_row_ok & H).
  rewrite bool_decide_false in H; [by apply Hn|]. run H as [_ <-]%ok_raise_if.
  run H as [_ <-]%ok_lift. run H to w1 as Ha%audit_effect. run H to w2 as Hm.
  run H as Hp. eapply posted_before; [|exact Hp]. destruct Hj as (j & Hj & E1 & E2).
  exists j. split_and!; [|congruence|done].
  unfold _transition_order, self_clock, update_order in Hm. run Hm as [_ <-]%ok_raise_if.
  run Hm as [-> ->]%ok_read_clock. run Hm to w3 as (ar & _ & _ & Ea)%audit_effect.
  run Hm as [<- <-]%ok_gets. run Hm as [_ <-]%ok_constraint. apply ok_modify in Hm as ->.
  simpl in *. rewrite Ea. simpl. by destruct Ha as (? & _ & _ & ->).
Qed.
End settlement.
