(* ===== verification/WalletData.v ===== *)
(** * The data the wallet puts on the wire and on disk

    The transfer handed to the signer says what the intent says, the two
    descriptions of the state machines (the tables of the code, the
    triggers of the schema) agree, and amounts are canonical. *)

From S2P Require Import Prelude Tables PyStr Json Digest Time WalletTypes WalletTransfer WalletDb.
From S2P Require Import WalletEconomy WalletOrders WalletSubmissions WalletExecution WalletEngine.
From S2P Require Import WalletIntegrity WalletEffects WalletSteps WalletSystem WalletLedger.
From S2P Require Import WalletRecords WalletVerify.
Local Open Scope Z_scope.

(** ** The state machines *)

(** The code and the schema agree.  For every pair of statuses the
    transition tables of the code allow a step exactly when the triggers of
    the database do, for orders, bounties and submissions. *)
Theorem transitions_agree :
  (∀ s t, order_trigger_step s t = bool_decide (t ∈ _ORDER_TRANSITIONS s)) ∧
  (∀ old new, b_status new ≠ b_status old →
     bounty_trigger_ok old new = bool_decide (b_status new ∈ _BOUNTY_TRANSITIONS (b_status old))) ∧
  (∀ old new, s_status new ≠ s_status old →
     submission_trigger_ok old new
     = bool_decide (s_status new ∈ _SUBMISSION_TRANSITIONS (s_status old))).
Proof.
  split_and!.
  - by intros [] [].
  - intros old new H. unfold bounty_trigger_ok. rewrite (bool_decide_false _ H). simpl.
    by destruct (b_status old), (b_status new).
  - intros old new H. unfold submission_trigger_ok. rewrite (bool_decide_false _ H). simpl.
    by destruct (s_status old), (s_status new).
Qed.

(** ** Reading calldata back *)

Fixpoint str_take (n : nat) (s : string) : string :=
  match n, s with S n', String c s' => String c (str_take n' s') | _, _ => EmptyString end.
Fixpoint str_drop (n : nat) (s : string) : string :=
  match n, s with S n', String _ s' => str_drop n' s' | _, _ => s end.

Definition hex_val (c : Ascii.ascii) : Z :=
  let n := Z.of_N (code c) in if n <? 58 then n - 48 else n - 87.
Fixpoint hex_number (acc : Z) (s : string) : Z :=
  match s with EmptyString => acc | String c s' => hex_number (16 * acc + hex_val c) s' end.

(** [transfer(address, uint256)]: the recipient and the amount. *)
Definition decode_transfer (data : string) : option (string * Z) :=
  match strip_prefix "0xa9059cbb" data with
  | Some body =>
      if (len body =? 128) && (hex_number 0 (str_take 24 body) =? 0) then
        Some ("0x" +:+ str_drop 24 (str_take 64 body), hex_number 0 (str_drop 64 body))
      else None
  | None => None
  end.

Lemma length_append a b : String.length (a +:+ b) = (String.length a + String.length b)%nat.
Proof. induction a as [|c a IH]; simpl; [done|]. by rewrite IH. Qed.
Lemma lower_append a b : lower (a +:+ b) = lower a +:+ lower b.
Proof. induction a as [|c a IH]; simpl; [done|]. by rewrite IH. Qed.
Lemma forallb_append p a b : str_forallb p (a +:+ b) = str_forallb p a && str_forallb p b.
Proof. induction a as [|c a IH]; simpl; [done|]. by rewrite IH andb_assoc. Qed.
Lemma hex_number_append acc a b : hex_number acc (a +:+ b) = hex_number (hex_number acc a) b.
Proof. revert acc. induction a as [|c a IH]; intros acc; simpl; [done|]. by rewrite IH. Qed.
Lemma str_take_append n a b : String.length a = n → str_take n (a +:+ b) = a.
Proof. intros <-. induction a as [|c a IH]; simpl; [by destruct b|]. by rewrite IH. Qed.
Lemma str_drop_append n a b : String.length a = n → str_drop n (a +:+ b) = b.
Proof. intros <-. by induction a as [|c a IH]. Qed.

(** ** Padding and hexadecimal digits *)

Lemma zeros_length n : String.length (replicate_char n (chr 48)) = n.
Proof. induction n as [|n IH]; simpl; [done|]. by rewrite IH. Qed.
Lemma zeros_number n acc s :
  acc = 0 → hex_number acc (replicate_char n (chr 48) +:+ s) = hex_number 0 s.
Proof. intros ->. induction n as [|n IH]; [done|]. exact IH. Qed.
Lemma zeros_lower n : lower (replicate_char n (chr 48)) = replicate_char n (chr 48).
Proof. induction n as [|n IH]; simpl; [done|]. by rewrite IH. Qed.
Lemma zeros_hex n : str_forallb is_hex (replicate_char n (chr 48)) = true.
Proof. by induction n. Qed.
Lemma rjust_length n s : (String.length s <= n)%nat → String.length (rjust n (chr 48) s) = n.
Proof. intros H. unfold rjust. rewrite length_append zeros_length. lia. Qed.

Lemma digit_cases v : 0 <= v < 16 →
  v ∈ [0; 1; 2; 3; 4; 5; 6; 7; 8; 9; 10; 11; 12; 13; 14; 15].
Proof.
  intros H. rewrite !elem_of_cons.
  assert (v = 0 ∨ v = 1 ∨ v = 2 ∨ v = 3 ∨ v = 4 ∨ v = 5 ∨ v = 6 ∨ v = 7 ∨ v = 8 ∨ v = 9 ∨
    v = 10 ∨ v = 11 ∨ v = 12 ∨ v = 13 ∨ v = 14 ∨ v = 15) as Hv by lia.
  naive_solver.
Qed.
(** A hexadecimal digit has its value, is lower case and hexadecimal. *)
Lemma hex_digit_spec v : 0 <= v < 16 →
  hex_val (hex_digit (Z.to_N v)) = v ∧ lower_char (hex_digit (Z.to_N v)) = hex_digit (Z.to_N v)
  ∧ is_hex (hex_digit (Z.to_N v)) = true.
Proof. intros H%digit_cases. case_in H; subst v; vm_compute; done. Qed.

Record hex_text (s : string) (v : Z) : Prop := {
  ht_value : hex_number 0 s = v; ht_lower : lower s = s; ht_hex : str_forallb is_hex s = true;
}.
Lemma hex_text_snoc s u v :
  hex_text s u → 0 <= v < 16 → hex_text (s +:+ str1 (hex_digit (Z.to_N v))) (16 * u + v).
Proof.
  intros [H1 H2 H3] (D1 & D2 & D3)%hex_digit_spec. split.
  - by rewrite hex_number_append H1 /= D1.
  - by rewrite lower_append H2 /= D2.
  - by rewrite forallb_append H3 /= D3.
Qed.
Lemma hex_digits_text fuel v : 0 <= v < 16 ^ (Z.of_nat fuel + 1) →
  hex_text (hex_digits fuel v) v ∧ (String.length (hex_digits fuel v) <= S fuel)%nat.
Proof.
  assert (H0 : hex_text EmptyString 0) by by split.
  revert v. induction fuel as [|fuel IH]; intros v Hv; cbn [hex_digits].
  - change (16 ^ (Z.of_nat 0 + 1)) with 16 in Hv. rewrite Z.mod_small //.
    split; [by apply (hex_text_snoc EmptyString 0)|done].
  - destruct (Z.ltb_spec v 16) as [Hs|Hs].
    + split; [apply (hex_text_snoc EmptyString 0); [done|lia]|simpl; lia].
    + replace (Z.of_nat (S fuel) + 1) with (Z.succ (Z.of_nat fuel + 1)) in Hv by lia.
      rewrite Z.pow_succ_r in Hv; [lia|].
      destruct (IH (v / 16)) as [IH1 IH2].
      { split; [apply Z.div_pos; lia|apply Z.div_lt_upper_bound; lia]. }
      split.
      * replace v with (16 * (v / 16) + v mod 16) at 3 by (symmetry; apply Z.div_mod; lia).
        apply hex_text_snoc; [done|]. apply Z.mod_pos_bound. lia.
      * rewrite length_append. simpl. lia.
Qed.
Lemma hex_text_pad n s v : hex_text s v → hex_text (rjust n (chr 48) s) v.
Proof.
  intros [H1 H2 H3]. unfold rjust. split.
  - by rewrite zeros_number.
  - by rewrite lower_append zeros_lower H2.
  - by rewrite forallb_append zeros_hex H3.
Qed.
Lemma hex_word_text v : 0 <= v < 16 ^ 64 →
  hex_text (hex_word v) v ∧ String.length (hex_word v) = 64%nat.
Proof.
  intros Hv. destruct (hex_digits_text 63 v Hv) as [H1 H2].
  split; [by apply hex_text_pad|]. by apply rjust_length.
Qed.

(** ** Validated intents *)

Record intent_good (i : WalletTransferIntent) : Prop := {
  ig_type : ti_asset_type i = "native"%string ∧ ti_contract_address i = None
    ∨ ti_asset_type i = "token"%string ∧
      ∃ c, ti_contract_address i = Some c ∧ length_between 42 42 c = Ok tt ∧
        canonical_evm_address c = Ok c;
  ig_source : length_between 42 42 (ti_source_address i) = Ok tt ∧
    canonical_evm_address (ti_source_address i) = Ok (ti_source_address i);
  ig_recipient : length_between 42 42 (ti_recipient_address i) = Ok tt ∧
    canonical_evm_address (ti_recipient_address i) = Ok (ti_recipient_address i);
  ig_amount : length_between 1 78 (ti_amount i) = Ok tt ∧
    ∃ v, py_int (ti_amount i) = Some v ∧ 0 < v <= SQLITE_INT64_MAX ∧
      ∀ label, _uint (ti_amount i) label false = Ok (ti_amount i);
  ig_chain : WalletTypes.between 1 SQLITE_INT64_MAX (ti_chain_id i) = Ok tt;
  ig_nonce : WalletTypes.between 0 SQLITE_INT64_MAX (ti_nonce i) = Ok tt;
  ig_gas : WalletTypes.between 21000 _MAX_GAS_LIMIT (ti_gas_limit i) = Ok tt;
  ig_fee : length_between 1 78 (ti_max_fee_per_gas i) = Ok tt ∧
    ∀ label, _uint (ti_max_fee_per_gas i) label false = Ok (ti_max_fee_per_gas i);
}.

Lemma uint_ok s label t :
  _uint s label true = Ok t →
  t = s ∧ (∀ label, _uint s label false = Ok s) ∧ ∃ v, py_int s = Some v ∧ v ≠ 0.
Proof.
  unfold _uint. destruct (uint_match s); [cbn [negb]|done].
  destruct (py_int s) as [v|]; [|done]. destruct (_MAX_UINT256 <? v); [done|].
  destruct (v =? 0) eqn:E; [done|]. intros [= <-]. apply Z.eqb_neq in E. eauto.
Qed.
Lemma evm_address_length s t : canonical_evm_address s = Ok t → length_between 42 42 t = Ok tt.
Proof.
  unfold canonical_evm_address. destruct (evm_address_match (strip s)) eqn:E; [|done].
  intros [= <-]. apply evm_address_lower in E. destruct (lower (strip s)) as [|z [|x h]]; try done.
  unfold evm_address_match in E. apply andb_true_iff in E as [_ E%Z.eqb_eq].
  unfold length_between. replace (len (String z (String x h))) with 42; [done|].
  unfold len in *. simpl. lia.
Qed.

Lemma intent_valid i i' : validate_WalletTransferIntent i = Ok i' → intent_good i'.
Proof.
  unfold validate_WalletTransferIntent. intros H.
  do 4 step H as ? ?. step H as [] Hty. step H as contract Hc. step H as [] Hs1.
  step H as source Hs2. step H as [] Hr1. step H as recipient Hr2. step H as [] Ha1.
  step H as amount Ha2. step H as amount' Ha3. step H as [] Hch. step H as [] Hno.
  step H as [] Hg. step H as [] Hf1. step H as fee Hf2. step H as [] Hnat.
  step H as [] Htok. step H as [] ?. step H as [] ?. injection H as <-.
  apply uint_ok in Ha3 as (-> & Ha3 & v & Hv & Hnz). apply uint_ok in Hf2 as (-> & Hf2 & _).
  apply canonical_amount_ok in Ha2 as (-> & _ & v' & Hv' & Hb). rewrite Hv in Hv'.
  injection Hv' as <-. split; simpl; try done.
  - unfold check, asset_type_ok in *.
    destruct (ti_asset_type i == "native") eqn:E1; simpl in *.
    + left. apply bool_decide_eq_true in E1. by destruct contract.
    + destruct (ti_asset_type i == "token") eqn:E2; [|done]. right.
      apply bool_decide_eq_true in E2. destruct contract as [c|]; [|done].
      unfold optional_address in Hc. destruct (ti_contract_address i) as [c0|]; [|done].
      step Hc as [] ?. step Hc as c1 Hc1. injection Hc as <-. split; [done|]. exists c1.
      split_and!; [done|by eapply evm_address_length|by eapply evm_address_idempotent].
  - split; [by eapply evm_address_length|by eapply evm_address_idempotent].
  - split; [by eapply evm_address_length|by eapply evm_address_idempotent].
  - split; [done|]. exists v. split_and!; [done|lia|lia|done].
Qed.

(** ** The transfer to be signed *)

Lemma native_build i :
  intent_good i → ti_asset_type i = "native"%string →
  build i = Ok {| tr_chain_id := ti_chain_id i; tr_nonce := ti_nonce i;
    tr_gas_limit := ti_gas_limit i; tr_max_fee_per_gas := ti_max_fee_per_gas i;
    tr_source_address := ti_source_address i; tr_to_address := ti_recipient_address i;
    tr_value := ti_amount i; tr_data := "0x"; tr_asset_type := "native";
    tr_contract_address := None |}.
Proof.
  intros [_ [Hs1 Hs2] [Hr1 Hr2] [Ha1 (v & Hv & Hb & Ha2)] Hch Hno Hg [Hf1 Hf2]] Ety.
  unfold build. rewrite Ety bool_decide_true //.
  assert (ti_amount i ≠ "0"%string) as Hz.
  { intros E. rewrite E in Hv. vm_compute in Hv. injection Hv as <-. lia. }
  unfold validate_WalletUnsignedTransfer, mbind, result_bind. cbn [tr_chain_id tr_nonce
    tr_gas_limit tr_max_fee_per_gas tr_source_address tr_to_address tr_value tr_data
    tr_asset_type tr_contract_address].
  rewrite Hch Hno Hg Hf1 Hf2 Hs1 Hs2 Hr1 Hr2 Ha1 Ha2. cbn.
  by rewrite (bool_decide_false _ Hz).
Qed.

(** A canonical address: [0x] and forty lower-case digits. *)
Lemma canonical_shape s :
  canonical_evm_address s = Ok s →
  ∃ h, s = "0x" +:+ h ∧ String.length h = 40%nat ∧ str_forallb is_hex h = true ∧ lower h = h.
Proof.
  unfold canonical_evm_address. destruct (evm_address_match (strip s)) eqn:E; [|done].
  intros [= El]. apply evm_address_lower in E. rewrite El in E.
  destruct s as [|z [|x h]]; try done. simpl in E.
  apply andb_true_iff in E as [[[Hz%N.eqb_eq Hx%N.eqb_eq]%andb_true_iff Hh]%andb_true_iff Hn%Z.eqb_eq].
  exists h. split_and!; [|unfold len in Hn; lia|done|].
  - assert (z = chr 48) as -> by by apply code_inj. by assert (x = chr 120) as -> by by apply code_inj.
  - assert (Hl : lower (String z (String x h)) = String z (String x h)).
    { rewrite -El. apply lower_idem. }
    simpl in Hl. by injection Hl.
Qed.

Lemma append_assoc (a b e : string) : (a +:+ b) +:+ e = a +:+ (b +:+ e).
Proof. induction a as [|x a IH]; [done|]. exact (f_equal (String x) IH). Qed.

(** The calldata of a transfer of [v] to the address with digits [h]. *)
Definition calldata (h : string) (v : Z) : string :=
  "0xa9059cbb" +:+ rjust 64 (chr 48) h +:+ hex_word v.
Lemma calldata_spec h v :
  String.length h = 40%nat → str_forallb is_hex h = true → lower h = h → 0 <= v < 16 ^ 64 →
  len (calldata h v) = 138 ∧ data_value (calldata h v) = Ok (calldata h v) ∧
  decode_transfer (calldata h v) = Some ("0x" +:+ h, v).
Proof.
  intros Hl Hh Hlow Hv. destruct (hex_word_text v Hv) as [[W1 W2 W3] W4].
  set (body := rjust 64 (chr 48) h +:+ hex_word v).
  assert (Hb : body = replicate_char 24 (chr 48) +:+ (h +:+ hex_word v)).
  { unfold body, rjust. by rewrite Hl append_assoc. }
  assert (Hlen : String.length body = 128%nat).
  { unfold body. rewrite length_append W4 rjust_length; lia. }
  assert (Hd : len (calldata h v) = 138).
  { unfold calldata. fold body. unfold len. rewrite length_append Hlen. done. }
  split_and!; [done| |].
  - unfold data_value. rewrite Hd. unfold calldata. fold body.
    change (strip_prefix "0x" ("0xa9059cbb" +:+ body)) with (Some ("a9059cbb" +:+ body)).
    assert (Hx : str_forallb is_hex ("a9059cbb" +:+ body) = true).
    { rewrite forallb_append Hb forallb_append zeros_hex forallb_append Hh W3. done. }
    assert (Hy : lower ("0xa9059cbb" +:+ body) = "0xa9059cbb" +:+ body).
    { rewrite lower_append Hb lower_append zeros_lower lower_append Hlow W2. done. }
    cbv iota beta. by rewrite Hx Hy.
  - unfold decode_transfer, calldata. fold body.
    change (strip_prefix "0xa9059cbb" ("0xa9059cbb" +:+ body)) with (Some body).
    cbv iota beta. unfold len. rewrite Hlen.
    assert (str_take 24 body = replicate_char 24 (chr 48)) as ->.
    { rewrite Hb. by apply str_take_append. }
    assert (str_take 64 body = replicate_char 24 (chr 48) +:+ h) as ->.
    { rewrite Hb -append_assoc. apply str_take_append. by rewrite length_append Hl. }
    assert (str_drop 64 body = hex_word v) as ->.
    { rewrite Hb -append_assoc. apply str_drop_append. by rewrite length_append Hl. }
    rewrite W1. done.
Qed.

Lemma token_build i c v :
  intent_good i → ti_asset_type i = "token"%string → ti_contract_address i = Some c →
  py_int (ti_amount i) = Some v →
  ∃ h, ti_recipient_address i = "0x" +:+ h ∧
    build i = Ok {| tr_chain_id := ti_chain_id i; tr_nonce := ti_nonce i;
      tr_gas_limit := ti_gas_limit i; tr_max_fee_per_gas := ti_max_fee_per_gas i;
      tr_source_address := ti_source_address i; tr_to_address := c; tr_value := "0";
      tr_data := calldata h v; tr_asset_type := "token"; tr_contract_address := Some c |} ∧
    decode_transfer (calldata h v) = Some (ti_recipient_address i, v).
Proof.
  intros [Hty [Hs1 Hs2] [Hr1 Hr2] [Ha1 (v' & Hv' & Hb & Ha2)] Hch Hno Hg [Hf1 Hf2]] Ety Ec Hv.
  rewrite Hv in Hv'. injection Hv' as <-. destruct Hty as [[E _]|[_ (c' & Ec' & Hc1 & Hc2)]];
    [congruence|]. rewrite Ec in Ec'. injection Ec' as <-.
  destruct (canonical_shape _ Hr2) as (h & Eh & Hl & Hh & Hlow). exists h. split; [done|].
  destruct (calldata_spec h v Hl Hh Hlow) as (D1 & D2 & D3).
  { split; [lia|]. assert (SQLITE_INT64_MAX < 16 ^ 64) by done. lia. }
  split; [|by rewrite Eh]. unfold build. rewrite Ety bool_decide_false // Ec Hv.
  cbn [of_option mbind result_bind]. rewrite Eh. change (remove_0x ("0x" +:+ h)) with h.
  fold (calldata h v). unfold validate_WalletUnsignedTransfer, mbind, result_bind.
  cbn [tr_chain_id tr_nonce tr_gas_limit tr_max_fee_per_gas tr_source_address tr_to_address
    tr_value tr_data tr_asset_type tr_contract_address optional_address].
  rewrite Hch Hno Hg Hf1 Hf2 Hs1 Hs2 Hc1 Hc2 D2.
  assert (length_between 2 2048 (calldata h v) = Ok tt) as -> by (unfold length_between; by rewrite D1).
  cbn -[calldata len strip_prefix]. rewrite D1.
  rewrite (bool_decide_false ("token"%string = "native"%string)) // !bool_decide_true //.
Qed.

(** The signer is handed what the intent says.  Every validated intent
    is encoded; the envelope keeps the chain, nonce, gas limit, fee and
    source, and moves the intent's amount to the intent's recipient: as the
    value of a native transfer, or as an ERC-20 call whose decoding gives
    back exactly that recipient and amount and whose target is the
    registered contract. *)
Theorem transfer_faithful i i' :
  validate_WalletTransferIntent i = Ok i' →
  ∃ t v, build i' = Ok t ∧ py_int (ti_amount i') = Some v ∧ 0 < v <= SQLITE_INT64_MAX ∧
    tr_chain_id t = ti_chain_id i' ∧ tr_nonce t = ti_nonce i' ∧
    tr_gas_limit t = ti_gas_limit i' ∧ tr_max_fee_per_gas t = ti_max_fee_per_gas i' ∧
    tr_source_address t = ti_source_address i' ∧
    (ti_asset_type i' = "native"%string ∧ tr_to_address t = ti_recipient_address i' ∧
       tr_value t = ti_amount i' ∧ tr_data t = "0x"%string
     ∨ ti_asset_type i' = "token"%string ∧ Some (tr_to_address t) = ti_contract_address i' ∧
       tr_value t = "0"%string ∧
       decode_transfer (tr_data t) = Some (ti_recipient_address i', v)).
Proof.
  intros G%intent_valid. destruct (ig_amount _ G) as [_ (v & Hv & Hb & _)].
  destruct (ig_type _ G) as [[Ety Ec]|[Ety (c & Ec & _)]].
  - eexists _, v. split; [by apply native_build|]. simpl. split_and!; try done; try lia. by left.
  - destruct (token_build _ c v G Ety Ec Hv) as (h & Eh & Hbuild & Hd).
    eexists _, v. split; [exact Hbuild|]. simpl. split_and!; try done; try lia. by right.
Qed.
