(* ===== verification/WalletBalances.v ===== *)
(** * What the ledger balances mean

    [ledger_balances] sums the entries of a subject by network, asset and
    account.  In every reachable state it succeeds, the books balance, and
    the reserved account holds exactly the orders that are being paid. *)

From stdpp Require Import relations.
From S2P Require Import Prelude Tables PyStr Json Digest Time WalletTypes RegistryTypes.
From S2P Require Import WalletTransfer WalletDb WalletEconomy WalletOrders WalletSubmissions.
From S2P Require Import WalletExecution WalletEngine WalletIntegrity WalletEffects WalletSteps.
From S2P Require Import WalletSystem WalletLedger WalletRecords WalletVerify WalletExecInv.
From S2P Require Import WalletPolicy.
Local Open Scope Z_scope.

(** ** Sums over tables *)

Lemma sum_by_flat_map {R S} (g : S → Z) (f : R → list S) l :
  sum_by g (flat_map f l) = sum_by (λ r, sum_by g (f r)) l.
Proof. induction l as [|r l IH]; simpl; [done|]. by rewrite sum_by_app IH. Qed.
Lemma sum_by_select {R} (g : R → Z) p l :
  sum_by g (select p l) = sum_by (λ r, if p r then g r else 0) l.
Proof.
  unfold select. induction l as [|r l IH]; simpl; [done|]. destruct (p r); simpl; by rewrite IH.
Qed.
Lemma sum_by_zero {R} (g : R → Z) l : (∀ r, r ∈ l → g r = 0) → sum_by g l = 0.
Proof.
  induction l as [|r l IH]; intros H; simpl; [done|]. rewrite (H r (here _ _)) IH //.
  intros x Hx. by apply H, there.
Qed.

Lemma sum_by_opp {R} (g : R → Z) l : - sum_by g l = sum_by (λ r, - g r) l.
Proof. induction l as [|r l IH]; simpl; [done|]. rewrite -IH. lia. Qed.

Section balances.
Context {Dg : Digest} {En : Env} {Sg : Signer} {Hosts : HostNames}.

(** ** The totals are sums of entries *)

Definition signed (dir : Direction) (v : Z) : Z := match dir with Debit => v | Credit => - v end.
(** Debits minus credits of the totals whose key satisfies [p]. *)
Definition net_of (p : ledger_key → bool) (t : list (ledger_key * (Z * Z))) : Z :=
  sum_by (λ kt, if p kt.1 then kt.2.1 - kt.2.2 else 0) t.
Definition row_key (r : entry_row * journal_row) : ledger_key :=
  (j_network_id r.2, j_asset_id r.2, e_account r.1).

Lemma net_add_total p k dir v t :
  net_of p (add_total k dir v t) = net_of p t + (if p k then signed dir v else 0).
Proof.
  induction t as [|[k' [a b]] t IH]; simpl; unfold net_of in *; simpl.
  - destruct dir, (p k); simpl; lia.
  - case_bool_decide as E; simpl.
    + subst k'. destruct dir, (p k); simpl; lia.
    + rewrite IH. lia.
Qed.
Lemma totals_net p rows t t' :
  ledger_totals rows t = Ok t' →
  net_of p t' = net_of p t + sum_by (λ r, if p (row_key r)
      then signed (e_direction r.1) (amt (e_amount r.1)) else 0) rows.
Proof.
  revert t. induction rows as [|[e j] rows IH]; intros t H; simpl in H.
  { injection H as <-. simpl. lia. }
  destruct (int_of (e_amount e)) as [v|] eqn:Ev; [simpl in H|done].
  apply int_of_amt in Ev as ->. apply IH in H as ->. rewrite net_add_total. simpl.
  unfold row_key. simpl. lia.
Qed.
Lemma totals_keys rows t t' :
  ledger_totals rows t = Ok t' → NoDup (map fst t) → NoDup (map fst t').
Proof.
  assert (Hadd : ∀ k dir v t, NoDup (map fst t) → NoDup (map fst (add_total k dir v t)) ∧
    ∀ k', k' ∈ map fst (add_total k dir v t) → k' = k ∨ k' ∈ map fst t).
  { intros k dir v u. induction u as [|[k' [a b]] u IH]; intros Hd; simpl.
    - split; [apply NoDup_singleton|]. intros k' ->%list_elem_of_singleton. by left.
    - cbn [map fst] in Hd. apply NoDup_cons in Hd as [Hn Hd]. destruct (IH Hd) as [I1 I2].
      case_bool_decide as E; simpl.
      + split; [by apply NoDup_cons|]. intros k2 Hk2. by right.
      + split; [apply NoDup_cons; split; [|done]; by intros [?|?]%I2|].
        intros k2 [->|[->|?]%I2]%elem_of_cons; [right; apply here|by left|right; by apply there]. }
  revert t. induction rows as [|[e j] rows IH]; intros t H Hd; simpl in H.
  { by injection H as <-. }
  destruct (int_of (e_amount e)) as [v|]; [simpl in H|done]. eapply IH; [exact H|]. by apply Hadd.
Qed.
Lemma totals_total rows t :
  (∀ r, r ∈ rows → ∃ v, int_of (e_amount r.1) = Ok v) → ∃ t', ledger_totals rows t = Ok t'.
Proof.
  revert t. induction rows as [|[e j] rows IH]; intros t H; simpl; [by eexists|].
  destruct (H (e, j) (here _ _)) as [v Hv]. simpl in Hv. rewrite Hv. simpl.
  apply IH. intros r Hr. by apply H, there.
Qed.

(** ** From entries to journals *)

Definition asked (nf af : option string) (j : journal_row) : bool :=
  match nf with Some n => (n == EmptyString) || (j_network_id j == n) | None => true end
  && match af with Some a => (a == EmptyString) || (j_asset_id j == a) | None => true end.

Lemma sum_pairs (g : entry_row → Z) js pairs :
  Forall2 pair_ok js pairs →
  sum_by g (flat_pairs pairs) = sum_by (λ jp, g jp.2.1 + g jp.2.2) (zip js pairs).
Proof.
  induction 1 as [|j p js pairs Hp HF IH]; [done|]. unfold flat_pairs in *. simpl. rewrite IH. lia.
Qed.
Lemma zip_in js pairs jp :
  Forall2 pair_ok js pairs → jp ∈ zip js pairs → jp.1 ∈ js ∧ pair_ok jp.1 jp.2.
Proof.
  induction 1 as [|j p js pairs Hp HF IH]; simpl; [by intros ?%not_elem_of_nil|].
  intros [->|Hin]%elem_of_cons; [split; [apply here|done]|].
  destruct (IH Hin). split; [by apply there|done].
Qed.
Lemma sum_zip (g : journal_row → Z) js pairs :
  Forall2 pair_ok js pairs → sum_by (λ jp, g jp.1) (zip js pairs) = sum_by g js.
Proof. induction 1 as [|j p js pairs _ _ IH]; simpl; [done|]. by rewrite IH. Qed.

(** The rows of the join, summed journal by journal. *)
Lemma ledger_rows_sum d sid nf af (G : Account → Direction → Z → journal_row → Z) :
  ledger_ok d →
  sum_by (λ r, G (e_account r.1) (e_direction r.1) (amt (e_amount r.1)) r.2)
    (ledger_rows d sid nf af)
  = sum_by (λ j, if (j_subject_id j == sid) && asked nf af j then
        sum_by (λ s, G s.1 s.2 (amt (j_amount j)) j) (expected_accounts (j_journal_type j))
      else 0) (journals d).
Proof.
  intros L. destruct (l_pairs _ L) as (pairs & E & HF). unfold ledger_rows.
  rewrite sum_by_flat_map sum_by_select E (sum_pairs _ _ _ HF).
  rewrite -(sum_zip _ _ _ HF). apply sum_by_ext. intros [j [e1 e2]] Hin.
  destruct (zip_in _ _ _ HF Hin) as [Hj [H1 H2]]. simpl in *.
  assert (Hsel : ∀ e sd, entry_for j sd e →
    select (λ j', (j_journal_id j' == e_journal_id e)
      && match nf with Some n => (n == EmptyString) || (j_network_id j' == n) | None => true end
      && match af with Some a => (a == EmptyString) || (j_asset_id j' == a) | None => true end)
      (journals d) = if asked nf af j then [j] else []).
  { intros e sd He. rewrite (ef_journal _ _ _ He).
    pose proof (select_key_singleton j_journal_id _ j (l_journal_key _ L) Hj) as Hs.
    trans (select (asked nf af) (select (λ x, j_journal_id x == j_journal_id j) (journals d))).
    - unfold select. clear. induction (journals d) as [|y l IH]; simpl; [done|].
      unfold asked at 1. rewrite -andb_assoc.
      destruct (j_journal_id y == j_journal_id j); simpl; [|done].
      unfold asked. destruct (_ && _); by rewrite IH.
    - rewrite Hs. unfold select. simpl. by destruct (asked nf af j). }
  rewrite (Hsel _ _ H1) (Hsel _ _ H2) (ef_subject _ _ _ H1) (ef_subject _ _ _ H2).
  pose proof (ef_side _ _ _ H1) as S1. pose proof (ef_side _ _ _ H2) as S2.
  rewrite -(sides_expected (j_journal_type j)) -S1 -S2.
  destruct (j_subject_id j == sid), (asked nf af j); simpl;
    rewrite ?(ef_amount _ _ _ H1) ?(ef_amount _ _ _ H2); lia.
Qed.

(** ** From journals to orders *)

Lemma journals_by_order d (f : journal_row → Z) :
  keys d → ledger_ok d →
  sum_by f (journals d)
  = sum_by (λ o, sum_by f (select (λ j, j_order_id j == o_order_id o) (journals d))) (orders d).
Proof.
  intros K L.
  rewrite (sum_by_ext _ (λ o, sum_by (λ j, if j_order_id j == o_order_id o then f j else 0)
    (journals d)) (orders d)); [by intros; rewrite sum_by_select|].
  rewrite sum_by_swap. apply sum_by_ext. intros j Hj.
  destruct (l_order _ L j Hj) as (o & Ho & Hf).
  rewrite (sum_by_ext _ (λ o', if o_order_id o' == o_order_id o then f j else 0)).
  { intros o' _. rewrite (jf_order _ _ _ Hf). by repeat case_bool_decide. }
  rewrite -sum_by_select (select_key_singleton o_order_id) //; [apply K|]. simpl. lia.
Qed.

(** The effect of a kind of journal on the reserved account. *)
Definition reserve_sign (t : JournalType) : Z :=
  match t with JReservation => 1 | JRelease | JSettlement | JRefund => -1 end.
Definition in_pool (sid n a : string) (o : order_row) : bool :=
  (o_subject_id o == sid) && (o_network_id o == n) && (o_asset_id o == a).
(** Orders whose funds are set aside: being paid, or failed and not yet
    refunded. *)
Definition sets_aside (s : PaymentOrderStatus) : bool :=
  match s with OReserved | OSigning | OBroadcast | OUnknown | OFailed => true | _ => false end.
Definition set_aside (d : wallet_db) (sid n a : string) : Z :=
  spent (select (λ o, in_pool sid n a o && sets_aside (o_status o)) (orders d)).

(** No confirmation is revoked: a settled order is confirmed. *)
Definition none_revoked (d : wallet_db) : Prop :=
  ∀ o, o ∈ orders d → JSettlement ∈ journal_types d (o_order_id o) → o_status o = OConfirmed.

Lemma reserve_signs s l :
  pay_journals s l = true → (JSettlement ∈ l → s = OConfirmed) →
  sum_by reserve_sign l = if sets_aside s then 1 else 0.
Proof.
  intros H Hs. destruct s; simpl in H; repeat case_bool_decide; subst; simpl in *; try done;
    exfalso; discriminate Hs; in_list.
Qed.

Lemma reserved_journals d sid n a :
  wallet_reach d → none_revoked d →
  sum_by (λ j, if (j_subject_id j == sid) && (j_network_id j == n) && (j_asset_id j == a)
               then amt (j_amount j) * reserve_sign (j_journal_type j) else 0) (journals d)
  = set_aside d sid n a.
Proof.
  intros H Hr. pose proof (ledger_reach _ H) as L. pose proof (wallet_reach_keys _ H) as K.
  rewrite journals_by_order //. unfold set_aside, spent. rewrite sum_by_select.
  apply sum_by_ext. intros o Ho.
  rewrite (sum_by_ext _ (λ j, if in_pool sid n a o
    then amt (o_amount o) * reserve_sign (j_journal_type j) else 0)).
  { intros j [Hj Ej%bool_decide_eq_true]%elem_of_select.
    destruct (l_order _ L j Hj) as (o' & Ho' & Hf).
    assert (o' = o) as ->.
    { eapply (key_unique o_order_id); [apply K|done|done|]. rewrite -Ej. symmetry. apply Hf. }
    unfold in_pool. by rewrite (jf_subject _ _ _ Hf) (jf_network _ _ _ Hf) (jf_asset _ _ _ Hf)
      (jf_amount _ _ _ Hf). }
  pose proof (reserve_signs _ _ (orders_reach _ H o Ho) (Hr o Ho)) as Hs.
  unfold journal_types in Hs. rewrite sum_by_map in Hs.
  destruct (in_pool sid n a o); simpl; [|by apply sum_by_zero].
  assert (Hm : ∀ c (g : journal_row → Z) l, sum_by (λ j, c * g j) l = c * sum_by g l).
  { intros c g l. induction l as [|x l IH]; simpl; [lia|]. rewrite IH. lia. }
  rewrite Hm Hs. destruct (sets_aside (o_status o)); lia.
Qed.

(** ** Running the query *)

Lemma ledger_rows_in d sid nf af r :
  r ∈ ledger_rows d sid nf af → r.1 ∈ entries d ∧ r.2 ∈ journals d ∧
    j_journal_id r.2 = e_journal_id r.1.
Proof.
  unfold ledger_rows. rewrite list_elem_of_In in_flat_map.
  intros (e & He%list_elem_of_In & (j & <- & Hj%list_elem_of_In)%in_map_iff). simpl.
  apply elem_of_select in He as [He _]. apply elem_of_select in Hj as [Hj Ej].
  apply andb_true_iff in Ej as [[Ej%bool_decide_eq_true _]%andb_true_iff _]. done.
Qed.
Lemma balances_run w sid sid' nf af :
  wallet_reach (db w) → validate_subject_id sid = Ok sid' →
  ∃ totals, ledger_totals (ledger_rows (db w) sid nf af) [] = Ok totals ∧
    ledger_balances sid nf af w
    = (Ok (map balance_of (sort_by (λ x y, key_le x.1 y.1) totals)), w).
Proof.
  intros H Hv. pose proof (ledger_reach _ H) as L. destruct (rows_reach _ H) as [_ _ RO].
  destruct (totals_total (ledger_rows (db w) sid nf af) []) as [totals Ht].
  { intros [e j] (He & Hj & Ej)%ledger_rows_in. simpl in *.
    destruct (entry_has_journal _ _ L He) as (j' & p & Hj' & [H1 H2] & Hin).
    assert (e_amount e = j_amount j') as -> by (case_in Hin; subst; [apply H1|apply H2]).
    destruct (l_order _ L j' Hj') as (o & Ho & Hf). rewrite (jf_amount _ _ _ Hf).
    rewrite -> Forall_forall in RO. destruct (RO o Ho) as [_ [_ (v & Ev & _)]].
    exists v. unfold int_of. by rewrite Ev. }
  exists totals. split; [done|].
  unfold ledger_balances, mbind, M_bind, lift, gets, id. by rewrite Hv Ht.
Qed.

Lemma key_decide (x y n a : string) (c c' : Account) :
  ((x, y, c) == (n, a, c')) = (x == n) && (y == a) && (c == c').
Proof. repeat case_bool_decide; simpl; try done; exfalso; naive_solver. Qed.

(** C27: The books balance.  In every reachable state [ledger_balances]
    returns for every subject and filter, one line per network, asset and
    account, and in each network and asset the debits of all accounts
    equal the credits. *)
Theorem books_balance w sid sid' nf af :
  reachable w → validate_subject_id sid = Ok sid' →
  ∃ totals, ledger_balances sid nf af w
      = (Ok (map balance_of (sort_by (λ x y, key_le x.1 y.1) totals)), w) ∧
    NoDup (map fst totals) ∧
    ∀ n a, net_of (λ k, (k.1.1 == n) && (k.1.2 == a)) totals = 0.
Proof.
  intros H%reachable_reach Hv. destruct (balances_run w sid sid' nf af H Hv) as (t & Ht & Hr).
  exists t. split_and!; [done|eapply totals_keys; [done|apply NoDup_nil_2]|]. intros n a.
  rewrite (totals_net _ _ _ _ Ht).
  pose proof (ledger_rows_sum (db w) sid nf af (λ acc dir v j,
    if (j_network_id j == n) && (j_asset_id j == a) then signed dir v else 0)
    (ledger_reach _ H)) as Hsum. cbn beta in Hsum. unfold row_key. cbn [fst snd]. rewrite Hsum.
  rewrite sum_by_zero //. intros j _. destruct (_ && asked nf af j); [|done].
  destruct (_ && _), (j_journal_type j); simpl; lia.
Qed.

(** The reserved account is what is set aside.  In every reachable
    state in which no confirmation was revoked, the line of the reserved
    account in a network and asset shows exactly (as a credit) the sum of
    the orders that are reserved, being signed, broadcast, of unknown
    outcome, or failed and not yet refunded. *)
Theorem reserved_is_set_aside w sid sid' bs b :
  reachable w → none_revoked (db w) → validate_subject_id sid = Ok sid' →
  ledger_balances sid None None w = (Ok bs, w) → b ∈ bs → lb_account b = AReserved →
  lb_net b = show_Z (- set_aside (db w) sid (lb_network_id b) (lb_asset_id b)).
Proof.
  intros H%reachable_reach Hr Hv Hb Hin Hacc.
  destruct (balances_run w sid sid' None None H Hv) as (t & Ht & Hrun). rewrite Hrun in Hb.
  injection Hb as <-. apply list_elem_of_fmap in Hin as ([[[n a] acc] [dr cr]] & -> & Hin).
  rewrite elem_of_sort_by in Hin. simpl in *. subst acc. f_equal.
  pose proof (totals_keys _ _ _ Ht NoDup_nil_2) as Hd.
  pose proof (totals_net (λ k, k == (n, a, AReserved)) _ _ _ Ht) as Hn.
  assert (net_of (λ k, k == (n, a, AReserved)) t = dr - cr) as En'.
  { unfold net_of. rewrite -(sum_by_select (λ kt, kt.2.1 - kt.2.2) (λ kt, kt.1 == (n, a, AReserved))).
    rewrite (select_key_singleton fst _ ((n, a, AReserved), (dr, cr))) //=. lia. }
  rewrite En' in Hn. rewrite Hn.
  pose proof (ledger_rows_sum (db w) sid None None (λ acc dir v j,
    if (j_network_id j, j_asset_id j, acc) == (n, a, AReserved) then signed dir v else 0)
    (ledger_reach _ H)) as Hsum. cbn beta in Hsum. unfold row_key. rewrite Hsum.
  rewrite -(reserved_journals (db w) sid n a) //. unfold net_of. simpl.
  rewrite sum_by_opp. apply sum_by_ext. intros j _. unfold asked.
  rewrite (sum_by_ext _ (λ s, if (j_network_id j == n) && (j_asset_id j == a)
    && (s.1 == AReserved) then signed s.2 (amt (j_amount j)) else 0));
    [by intros; rewrite key_decide|].
  rewrite andb_true_r. destruct (j_subject_id j == sid), (j_network_id j == n),
    (j_asset_id j == a), (j_journal_type j); simpl; lia.
Qed.
End balances.
