(* ===== verification/RegistryInv.v ===== *)
(** * The registry stays consistent

    A validated input is accepted again and unchanged: this is what makes a
    stored row readable.  The exception is the RPC URL, see
    [RegistryTypes.rpc_url_unstable].

    [registry_ok] is what the registry promises of its tables: every row is
    readable, belongs to the subject of the rows it refers to, has the audit
    records of its registration and revocation, and a revision history that
    says the same.  Every operation keeps it. *)

From S2P Require Import Prelude Tables PyStr Json Digest Time Sorting PyDict WalletTypes.
From S2P Require Import RegistryTypes WalletTransfer WalletDb WalletEconomy RegistryDb.
From S2P Require Import RegistryStore RegistryIntegrity WalletOrders WalletSubmissions.
From S2P Require Import WalletExecution WalletEngine WalletEffects RegistryFrame WalletSteps.
From S2P Require Import WalletRecords WalletVerify WalletData.
Local Open Scope Z_scope.

(** ** Text *)

Lemma lstrip_first s : lstrip s = EmptyString ∨ ∃ c t, lstrip s = String c t ∧ is_space c = false.
Proof.
  induction s as [|c s IH]; simpl; [by left|]. destruct (is_space c) eqn:E; [done|]. right. eauto.
Qed.
Lemma rstrip_cons c s : is_space c = false → rstrip (String c s) = String c (rstrip s).
Proof. intros H. simpl. destruct (rstrip s); by rewrite ?H. Qed.
Lemma rstrip_idem s : rstrip (rstrip s) = rstrip s.
Proof.
  induction s as [|c s IH]; [done|]. simpl. destruct (rstrip s) as [|c' s'] eqn:E.
  - destruct (is_space c) eqn:Ec; [done|]. simpl. by rewrite Ec.
  - simpl in *. rewrite IH. done.
Qed.
Lemma strip_idem s : strip (strip s) = strip s.
Proof.
  unfold strip. destruct (lstrip_first s) as [->|(c & t & -> & H)]; [done|].
  rewrite rstrip_cons //. change (lstrip (String c (rstrip t))) with
    (if is_space c then lstrip (rstrip t) else String c (rstrip t)). rewrite H.
  by rewrite rstrip_cons // rstrip_idem.
Qed.
Lemma strip_not_blank s : strip s ≠ EmptyString → blank (strip s) = false.
Proof. intros H. unfold blank. rewrite strip_idem. by apply bool_decide_eq_false. Qed.

Lemma nonblank_idem v f m c : _nonblank_text v f m = Ok c →
  (∀ f', _nonblank_text c f' m = Ok c) ∧ (m = 128 → length_between 1 128 c = Ok tt) ∧
  strip c = c ∧ c ≠ EmptyString ∧ 1 <= len c <= m.
Proof.
  unfold _nonblank_text. destruct ((strip v == _) || _) eqn:E; [done|]. intros [= <-].
  apply orb_false_iff in E as [E1%bool_decide_eq_false E2%Z.ltb_ge].
  assert (1 <= len (strip v)) by (destruct (strip v); [done|unfold len; simpl; lia]).
  split_and!; try done.
  - intros f'. rewrite strip_idem. by rewrite bool_decide_false // (proj2 (Z.ltb_ge _ _)).
  - intros ->. unfold length_between. by rewrite !(proj2 (Z.leb_le _ _)).
  - apply strip_idem.
Qed.

Lemma symbol_char_upper c : symbol_char c = true → is_lower c = false ∧ (code c =? 223)%N = false ∧ is_space c = false.
Proof. by destruct c as [[] [] [] [] [] [] [] []]. Qed.
Lemma upper_symbol s : str_forallb symbol_char s = true → upper s = s.
Proof.
  induction s as [|c s IH]; simpl; [done|]. intros [Hc Hs]%andb_true_iff.
  apply symbol_char_upper in Hc as (-> & -> & _). by rewrite IH.
Qed.
Lemma symbol_idem v f s : _symbol v f = Ok s →
  (∀ f', _symbol s f' = Ok s) ∧ length_between 1 32 s = Ok tt ∧ symbol_match s = true.
Proof.
  unfold _symbol. intros H. step H as t Ht. destruct (symbol_match (upper t)) eqn:E; [|done].
  injection H as <-. unfold symbol_match in E.
  apply andb_true_iff in E as [[Ec E1%Z.leb_le]%andb_true_iff E2%Z.leb_le].
  assert (Hstrip : strip (upper t) = upper t).
  { apply strip_no_space. eapply str_forallb_impl; [|exact Ec].
    intros c (_ & _ & ->)%symbol_char_upper. done. }
  split_and!.
  - intros f'. unfold _nonblank_text. rewrite Hstrip bool_decide_false.
    { intros E. by rewrite E in E1. }
    rewrite (proj2 (Z.ltb_ge _ _)) //. simpl. rewrite upper_symbol //.
    unfold symbol_match. by rewrite Ec !(proj2 (Z.leb_le _ _)).
  - unfold length_between. by rewrite !(proj2 (Z.leb_le _ _)).
  - unfold symbol_match. by rewrite Ec !(proj2 (Z.leb_le _ _)).
Qed.

Lemma check_ok b msg u : check b msg = Ok u → b = true.
Proof. unfold check. by destruct b. Qed.
Lemma contract_idem o c : validate_contract_address o = Ok c → validate_contract_address c = Ok c.
Proof.
  destruct o as [s|]; simpl; [|by intros [= <-]]. intros H. step H as [] _. step H as a Ha.
  injection H as <-. simpl. pose proof (evm_address_length _ _ Ha) as Hl.
  unfold length_between in *. destruct (_ && _) eqn:E in Hl; [|done].
  apply andb_true_iff in E as [?%Z.leb_le E%Z.leb_le].
  rewrite !(proj2 (Z.leb_le _ _)); [lia..|]. simpl.
  by rewrite (evm_address_idempotent _ _ Ha).
Qed.

(** ** Inputs *)

Lemma validate_asset_idem p q :
  validate_WalletAssetInput p = Ok q → validate_WalletAssetInput q = Ok q.
Proof.
  intros H. step H as [] _. step H as nid (Hn & Hn1 & _)%nonblank_idem. step H as [] Hty.
  step H as c Hc%contract_idem. step H as [] _. step H as nm (Hm & Hm1 & _)%nonblank_idem.
  step H as [] _. step H as sy (Hs & Hs1 & _)%symbol_idem. step H as [] Hd. step H as [] H1.
  step H as [] H2. injection H as <-. unfold validate_WalletAssetInput. simpl.
  rewrite Hn1 // Hm1 // Hs1. simpl. rewrite Hn. simpl. rewrite Hty Hc. simpl.
  rewrite Hm Hs. simpl. by rewrite Hd H1 H2.
Qed.
Lemma validate_address_idem p q :
  validate_WalletAddressInput p = Ok q → validate_WalletAddressInput q = Ok q.
Proof.
  intros H. step H as [] _. step H as nid (Hn & Hn1 & _)%nonblank_idem. step H as [] _.
  step H as nm (Hm & Hm1 & _)%nonblank_idem. step H as [] _. step H as a Ha. step H as [] Hp.
  injection H as <-. unfold validate_WalletAddressInput. simpl.
  rewrite Hn1 // Hm1 //. simpl. rewrite Hn Hm. simpl. rewrite (evm_address_length _ _ Ha). simpl.
  rewrite (evm_address_idempotent _ _ Ha). simpl. by rewrite Hp.
Qed.
(** Up to the URL. *)
Lemma validate_network_idem `{HostNames} p q :
  validate_WalletNetworkInput p = Ok q → validate_rpc_url (ni_rpc_url q) = Ok (ni_rpc_url q) →
  validate_WalletNetworkInput q = Ok q.
Proof.
  intros Hv. step Hv as [] _. step Hv as nm (Hm & Hm1 & _)%nonblank_idem. step Hv as [] Hf.
  step Hv as [] Hc. step Hv as [] _. step Hv as sy (Hs & Hs1 & _)%symbol_idem.
  step Hv as u Hu. injection Hv as <-. simpl. intros Hst.
  unfold validate_WalletNetworkInput. simpl. rewrite Hm1 //. simpl. rewrite Hm. simpl.
  rewrite Hf Hc Hs1. simpl. rewrite Hs. simpl. by rewrite Hst.
Qed.

(** ** The invariant *)

(** ** Audit payloads *)

Definition scalar (v : json) : bool :=
  match v with JStr _ | JInt _ | JNull => true | _ => false end.
Lemma scalar_norm v : scalar v = true → norm v = v ∧ wf_json v ∧ scalar_eq v v = true.
Proof.
  destruct v; try done; intros _; split_and!; try done; simpl; [apply Z.eqb_refl|].
  by apply bool_decide_eq_true.
Qed.

Lemma payload_text m :
  NoDup (map fst m) → forallb (λ kv, scalar kv.2) m = true →
  ∃ m', strict_json_loads (canonical_json (JObj m)) = Ok (JObj m') ∧ dict_eq m' m = true ∧
    canonical_json (JObj m') = canonical_json (JObj m).
Proof.
  intros Hk Hs. rewrite -> forallb_forall in Hs. exists (sort_by key_leb m). split_and!.
  - rewrite loads_canonical; simpl.
    + split; [done|]. clear Hk. induction m as [|[k v] m IH]; simpl; [done|].
      split; [by apply (scalar_norm v (Hs (k, v) (or_introl eq_refl)))|].
      apply IH. intros. apply Hs. by right.
    + do 3 f_equal. transitivity (map id m); [|by apply map_id]. apply map_ext_in.
      intros [k v] Hkv. simpl. by destruct (scalar_norm v (Hs _ Hkv)) as [-> _].
  - unfold dict_eq. rewrite (Permutation_length (sort_by_perm key_leb m)) Nat.eqb_refl. simpl.
    apply forallb_forall. intros [k v] Hkv.
    rewrite (fetchone_key fst (sort_by key_leb m) (k, v)).
    + by apply NoDup_sorted_keys.
    + by apply elem_of_sort_by, list_elem_of_In.
    + by apply (scalar_norm v (Hs _ Hkv)).
  - rewrite !canonical_json_obj. by rewrite (sort_by_id key_leb (sort_by key_leb m) (sort_by_sorted _ _)).
Qed.

(** ** Consistency *)

Section good.
Context {Dg : Digest} {Hosts : HostNames}.

(** An audit record of the subject for the action, by an operator, with
    the expected payload. *)
Definition audit_proves (d : wallet_db) (aid subject action : string)
    (payload : list (string * json)) : Prop :=
  aid ≠ EmptyString ∧ ∃ a m, a ∈ audits d ∧ a_audit_id a = aid ∧ a_subject_id a = subject ∧
    a_action a = action ∧ blank (a_actor a) = false ∧ strip (a_actor a) ≠ "subject"%string ∧
    validate_timestamp (a_occurred_at a) = true ∧
    strict_json_loads (a_payload_json a) = Ok (JObj m) ∧ dict_eq m payload = true ∧
    canonical_json (JObj m) = a_payload_json a.
Definition audited_resource (k : resource_type) (d : wallet_db) (h : head)
    (registration : list (string * json)) : Prop :=
  audit_proves d (l_created_audit_id (h_life h)) (h_subject h) (registered_action k)
    registration ∧
  (l_status (h_life h) = "revoked"%string → ∃ a r,
     l_revoked_audit_id (h_life h) = Some a ∧ l_revoke_reason (h_life h) = Some r ∧
     audit_proves d a (h_subject h) (revoked_action k)
       [(id_column k, JStr (h_id h)); ("reason"%string, JStr r)]).

(** The URL is accepted as it is stored. *)
Definition network_stable (r : network_row) : Prop :=
  validate_rpc_url (n_rpc_url r) = Ok (n_rpc_url r).
Definition network_good (d : wallet_db) (r : network_row) : Prop :=
  (network_stable r → _network_from_row r = Ok r) ∧
  audited_resource RNetwork d (network_head r) (network_audit_payload r).
Definition asset_good (d : wallet_db) (r : asset_row) : Prop :=
  _asset_from_row r = Ok r ∧ audited_resource RAsset d (asset_head r) (asset_audit_payload r) ∧
  ∃ n, n ∈ networks d ∧ n_network_id n = as_network_id r ∧ n_subject_id n = as_subject_id r ∧
    (as_asset_type r = "native"%string → as_symbol r = n_native_symbol n) ∧
    (as_status r = "active"%string → n_status n = "active"%string).
Definition address_good (d : wallet_db) (r : address_row) : Prop :=
  _address_from_row r = Ok r ∧
  audited_resource RAddress d (address_head r) (address_audit_payload r) ∧
  ∃ n, n ∈ networks d ∧ n_network_id n = ad_network_id r ∧ n_subject_id n = ad_subject_id r ∧
    (ad_status r = "active"%string → n_status n = "active"%string).
Definition snapshot_good (d : wallet_db) (s : snapshot_row) : Prop :=
  _balance_from_row s = Ok s ∧
  (∃ n, n ∈ networks d ∧ n_network_id n = sn_network_id s ∧ n_subject_id n = sn_subject_id s) ∧
  (∃ a, a ∈ assets d ∧ as_asset_id a = sn_asset_id s ∧ as_subject_id a = sn_subject_id s ∧
    as_network_id a = sn_network_id s) ∧
  (∃ a, a ∈ addresses d ∧ ad_address_id a = sn_address_id s ∧ ad_subject_id a = sn_subject_id s ∧
    ad_network_id a = sn_network_id s).

(** The [position]-th revision of a resource says what the resource says. *)
Definition revision_fits (k : resource_type) (h : head) (position : Z) (r : revision_row) : Prop :=
  v_resource_id r = h_id h ∧ v_subject_id r = h_subject h ∧ v_revision_number r = position ∧
  expected_statuses h !! Z.to_nat (position - 1) = Some (v_status r) ∧
  blank (v_reason r) = false ∧ validate_timestamp (v_created_at r) = true ∧
  v_audit_id r ≠ EmptyString ∧ v_revision_id r ≠ EmptyString ∧
  v_state_hash r = _revision_hash k (v_resource_id r) (v_subject_id r) (v_revision_number r)
    (v_status r) (v_reason r) (v_audit_id r) (v_created_at r) ∧
  revision_matches k h position r = true.
Definition history_good (k : resource_type) (h : head) (l : list revision_row) : Prop :=
  length l = length (expected_statuses h) ∧
  ∀ i r, l !! i = Some r → revision_fits k h (Z.of_nat i + 1) r.
Definition revisions_of (id : string) (l : list revision_row) : list revision_row :=
  select (λ r, v_resource_id r == id) l.
Definition histories_good (k : resource_type) (hs : list head) (l : list revision_row) : Prop :=
  (∀ h, h ∈ hs → history_good k h (revisions_of (h_id h) l)) ∧
  (∀ r, r ∈ l → ∃ h, h ∈ hs ∧ h_id h = v_resource_id r).

Record registry_ok (d : wallet_db) : Prop := {
  g_networks : NoDup (map n_network_id (networks d));
  g_assets : NoDup (map as_asset_id (assets d));
  g_addresses : NoDup (map ad_address_id (addresses d));
  g_snapshots : NoDup (map sn_snapshot_id (snapshots d));
  g_audits : NoDup (map a_audit_id (audits d));
  g_network r : r ∈ networks d → network_good d r;
  g_asset r : r ∈ assets d → asset_good d r;
  g_address r : r ∈ addresses d → address_good d r;
  g_histories k : histories_good k (heads k d) (revisions k d);
  g_snapshot s : s ∈ snapshots d → snapshot_good d s;
}.

(** ** How the tables evolve *)

(** Rows keep what others refer to; a network changes its status only when
    nothing active refers to it. *)
Record evolves (d d' : wallet_db) : Prop := {
  ev_audits : audits d ⊆ audits d';
  ev_networks n : n ∈ networks d → ∃ n', n' ∈ networks d' ∧
    n_network_id n' = n_network_id n ∧ n_subject_id n' = n_subject_id n ∧
    n_native_symbol n' = n_native_symbol n ∧
    (n_status n' = n_status n ∨
     (exists_where (active_asset_on (n_subject_id n) (n_network_id n)) (assets d) = false ∧
      exists_where (active_address_on (n_subject_id n) (n_network_id n)) (addresses d) = false));
  ev_assets a : a ∈ assets d → ∃ a', a' ∈ assets d' ∧ as_asset_id a' = as_asset_id a ∧
    as_subject_id a' = as_subject_id a ∧ as_network_id a' = as_network_id a;
  ev_addresses a : a ∈ addresses d → ∃ a', a' ∈ addresses d' ∧
    ad_address_id a' = ad_address_id a ∧ ad_subject_id a' = ad_subject_id a ∧
    ad_network_id a' = ad_network_id a;
}.

Lemma audit_proves_mono d d' aid s act p :
  audits d ⊆ audits d' → audit_proves d aid s act p → audit_proves d' aid s act p.
Proof. intros Hs [Hne (a & m & Ha & H)]. split; [done|]. exists a, m. split; [by apply Hs|done]. Qed.
Lemma audited_mono k d d' h p :
  audits d ⊆ audits d' → audited_resource k d h p → audited_resource k d' h p.
Proof.
  intros Hs [H1 H2]. split; [by eapply audit_proves_mono|]. intros (a & r & ? & ? & H)%H2.
  exists a, r. split_and!; try done. by eapply audit_proves_mono.
Qed.
Lemma network_good_mono d d' r : evolves d d' → network_good d r → network_good d' r.
Proof. intros E [? ?]. split; [done|]. eapply audited_mono; [apply E|done]. Qed.
Lemma asset_good_mono d d' r :
  evolves d d' → r ∈ assets d → asset_good d r → asset_good d' r.
Proof.
  intros E Hr (H1 & H2 & n & Hn & Hid & Hs & Hsym & Hact). split_and!; [done|..].
  { eapply audited_mono; [apply E|done]. }
  destruct (ev_networks _ _ E n Hn) as (n' & Hn' & Hid' & Hs' & Hsym' & Hst).
  exists n'. split_and!; [done|congruence|congruence|by rewrite Hsym'|].
  intros Ha. destruct Hst as [->|[Hst _]]; [by apply Hact|].
  rewrite -> exists_where_false in Hst. specialize (Hst r Hr). unfold active_asset_on in Hst.
  by rewrite Hid Hs Ha !bool_decide_true in Hst.
Qed.
Lemma address_good_mono d d' r :
  evolves d d' → r ∈ addresses d → address_good d r → address_good d' r.
Proof.
  intros E Hr (H1 & H2 & n & Hn & Hid & Hs & Hact). split_and!; [done|..].
  { eapply audited_mono; [apply E|done]. }
  destruct (ev_networks _ _ E n Hn) as (n' & Hn' & Hid' & Hs' & Hsym' & Hst).
  exists n'. split_and!; [done|congruence|congruence|].
  intros Ha. destruct Hst as [->|[_ Hst]]; [by apply Hact|].
  rewrite -> exists_where_false in Hst. specialize (Hst r Hr). unfold active_address_on in Hst.
  by rewrite Hid Hs Ha !bool_decide_true in Hst.
Qed.
Lemma snapshot_good_mono d d' s : evolves d d' → snapshot_good d s → snapshot_good d' s.
Proof.
  intros E (H1 & (n & Hn & ? & ?) & (a & Ha & ? & ? & ?) & (b & Hb & ? & ? & ?)).
  destruct (ev_networks _ _ E n Hn) as (n' & ? & ? & ? & _).
  destruct (ev_assets _ _ E a Ha) as (a' & ? & ? & ? & ?).
  destruct (ev_addresses _ _ E b Hb) as (b' & ? & ? & ? & ?).
  split_and!; [done|exists n'|exists a'|exists b']; split_and!; congruence.
Qed.

(** ** Histories *)

Lemma histories_new k hs l h v :
  histories_good k hs l → h_id h ∉ map h_id hs → expected_statuses h = ["active"%string] →
  revision_fits k h 1 v → histories_good k (hs ++ [h]) (l ++ [v]).
Proof.
  intros [Hh Hr] Hf He Hv. pose proof Hv as (Hid & _).
  assert (Hnew : revisions_of (h_id h) l = []).
  { apply select_none. intros r (h' & Hh' & E)%Hr. apply bool_decide_eq_false. intros E'.
    apply Hf. rewrite -E' -E. by apply list_elem_of_fmap_2. }
  split.
  - intros x Hx. unfold revisions_of. rewrite select_app. apply elem_of_app in Hx as [Hx|Hx].
    + rewrite (select_none _ [v]) ?app_nil_r; [|by apply Hh].
      intros r ->%list_elem_of_singleton. apply bool_decide_eq_false. intros E. apply Hf.
      rewrite -Hid E. by apply list_elem_of_fmap_2.
    + apply list_elem_of_singleton in Hx as ->. fold (revisions_of (h_id h) l). rewrite Hnew.
      unfold select. simpl. rewrite bool_decide_true //. split; [by rewrite He|].
      intros [|i] r; simpl; [|done]. by intros [= <-].
  - intros r [Hr'|Hr']%elem_of_app.
    + destruct (Hr r Hr') as (x & Hx & ?). exists x. split; [|done]. apply elem_of_app; by left.
    + apply list_elem_of_singleton in Hr' as ->. exists h. split; [|done].
      apply elem_of_app; right. by apply list_elem_of_singleton.
Qed.
Lemma histories_revoke k hs hs' l h h' v :
  histories_good k hs l → h ∈ hs → h_id h' = h_id h → h_subject h' = h_subject h →
  expected_statuses h = ["active"%string] →
  expected_statuses h' = ["active"; "revoked"]%string →
  (∀ r, revision_matches k h' 1 r = revision_matches k h 1 r) →
  (∀ x, x ∈ hs' → x = h' ∨ (x ∈ hs ∧ h_id x ≠ h_id h)) →
  (∀ x, x ∈ hs → ∃ x', x' ∈ hs' ∧ h_id x' = h_id x) →
  revision_fits k h' 2 v → histories_good k hs' (l ++ [v]).
Proof.
  intros [Hh Hr] Hin Hid Hsub He He' Hm1 Hnew Hold Hv. pose proof Hv as (Hvid & _). split.
  - intros x Hx. unfold revisions_of. rewrite select_app.
    destruct (Hnew x Hx) as [->|[Hx' Hne]].
    + rewrite Hid. fold (revisions_of (h_id h) l). destruct (Hh h Hin) as [Hlen Hfit].
      rewrite He in Hlen. destruct (revisions_of (h_id h) l) as [|r1 [|]] eqn:E1; try done.
      unfold select. simpl. rewrite bool_decide_true; [congruence|]. split; [by rewrite He'|].
      intros [|[|i]] r; simpl; [| |done]; intros [= <-]; [|done].
      destruct (Hfit 0%nat r1 eq_refl) as (?&?&?&Hs&?&?&?&?&?&?). simpl in *.
      split_and!; try done; try congruence; simpl; [by rewrite He in Hs; rewrite He'|].
      by rewrite Hm1.
    + rewrite (select_none _ [v]) ?app_nil_r; [|by apply Hh].
      intros r ->%list_elem_of_singleton. apply bool_decide_eq_false. congruence.
  - intros r [Hr'|Hr']%elem_of_app.
    + destruct (Hr r Hr') as (x & Hx & E). destruct (Hold x Hx) as (x' & ? & ?).
      exists x'. split; [done|congruence].
    + apply list_elem_of_singleton in Hr' as ->. destruct (Hold h Hin) as (x' & ? & ?).
      exists x'. split; [done|congruence].
Qed.
End good.
