(* ===== verification/RegistrySteps.v ===== *)
(** * Every registry operation keeps the registry consistent

    And so do the commands of the wallet and writes elsewhere: every
    reachable state has [registry_ok]. *)

From stdpp Require Import relations.
From S2P Require Import Prelude Tables PyStr Json Digest Time Sorting WalletTypes RegistryTypes.
From S2P Require Import WalletTransfer WalletDb WalletEconomy RegistryDb RegistryStore.
From S2P Require Import RegistryIntegrity WalletOrders WalletSubmissions WalletExecution.
From S2P Require Import WalletEngine WalletEffects RegistryFrame WalletSteps WalletSystem.
From S2P Require Import WalletRecords RegistryInv.
Local Open Scope Z_scope.

(** What the program knows of its clock and of [uuid4]: times are aware ISO
    timestamps, [uuid4().hex] has 32 characters. *)
Class SoundEnv `{Env} : Prop := {
  utc_now_valid n : validate_timestamp (utc_now_at n) = true;
  uuid4_length n : len (uuid4_hex n) = 32;
}.

Lemma fail_if_ok b e u : fail_if b e = Ok u → b = false.
Proof. unfold fail_if. by destruct b. Qed.
Lemma except_invalid_ok {A} e (r : result A) a : except_invalid e r = Ok a ↔ r = Ok a.
Proof. unfold except_invalid. destruct r as [|[]]; naive_solver. Qed.

(** [neq_false] turns a reader's comparison into equations. *)
Ltac neq_false H :=
  repeat match type of H with
         | (_ || _) = false => let H' := fresh in apply orb_false_iff in H as [H H']; neq_false H'
         end;
  try (apply negb_false_iff, bool_decide_eq_true in H).

Section readers.
Context {Dg : Digest} {Hosts : HostNames}.

(** What it takes to read a row. *)
Lemma network_from_row_iff r r' :
  _network_from_row r = Ok r' ↔ r' = r ∧
    validate_WalletNetworkInput (network_input r) = Ok (network_input r) ∧
    identity_ok (n_network_id r) (n_subject_id r) "network identifier" = true ∧
    lifecycle_valid (n_life r) = true ∧
    n_state_hash r = _network_hash (n_network_id r) (n_subject_id r) (network_input r) (n_life r).
Proof.
  unfold _network_from_row, _lifecycle_values. split.
  - intros H. step H as p Hp%except_invalid_ok. step H as [] Hi%fail_if_ok%negb_false_iff.
    step H as [] Hl%fail_if_ok%negb_false_iff. step H as [] Hc%fail_if_ok.
    step H as [] Hh%fail_if_ok. injection H as <-.
    assert (p = network_input r) as ->.
    { neq_false Hc. destruct p. simpl in *. unfold network_input. congruence. }
    split_and!; try done. by apply negb_false_iff, bool_decide_eq_true in Hh.
  - intros (-> & -> & -> & -> & ->). simpl. by rewrite !bool_decide_true.
Qed.
Lemma asset_from_row_iff r r' :
  _asset_from_row r = Ok r' ↔ r' = r ∧
    validate_WalletAssetInput (asset_input r) = Ok (asset_input r) ∧
    identity_ok (as_asset_id r) (as_subject_id r) "asset identifier" = true ∧
    lifecycle_valid (as_life r) = true ∧
    as_state_hash r = _asset_hash (as_asset_id r) (as_subject_id r) (asset_input r) (as_life r).
Proof.
  unfold _asset_from_row, _lifecycle_values. split.
  - intros H. step H as p Hp%except_invalid_ok. step H as [] Hi%fail_if_ok%negb_false_iff.
    step H as [] Hl%fail_if_ok%negb_false_iff. step H as [] Hc%fail_if_ok.
    step H as [] Hh%fail_if_ok. injection H as <-.
    assert (p = asset_input r) as ->.
    { neq_false Hc. destruct p. simpl in *. unfold asset_input. congruence. }
    split_and!; try done. by apply negb_false_iff, bool_decide_eq_true in Hh.
  - intros (-> & -> & -> & -> & ->). simpl. by rewrite !bool_decide_true.
Qed.
Lemma address_from_row_iff r r' :
  _address_from_row r = Ok r' ↔ r' = r ∧
    validate_WalletAddressInput (address_input r) = Ok (address_input r) ∧
    identity_ok (ad_address_id r) (ad_subject_id r) "address identifier" = true ∧
    lifecycle_valid (ad_life r) = true ∧
    ad_state_hash r
    = _address_hash (ad_address_id r) (ad_subject_id r) (address_input r) (ad_life r).
Proof.
  unfold _address_from_row, _lifecycle_values. split.
  - intros H. step H as p Hp%except_invalid_ok. step H as [] Hi%fail_if_ok%negb_false_iff.
    step H as [] Hl%fail_if_ok%negb_false_iff. step H as [] Hc%fail_if_ok.
    step H as [] Hh%fail_if_ok. injection H as <-.
    assert (p = address_input r) as ->.
    { neq_false Hc. destruct p. simpl in *. unfold address_input. congruence. }
    split_and!; try done. by apply negb_false_iff, bool_decide_eq_true in Hh.
  - intros (-> & -> & -> & -> & ->). simpl. by rewrite !bool_decide_true.
Qed.
Lemma balance_from_row_same r r' : _balance_from_row r = Ok r' → r' = r.
Proof.
  unfold _balance_from_row. intros H. step H as p _. do 4 step H as [] _. by injection H as <-.
Qed.
End readers.

(** ** Identifiers and lifecycles *)

Lemma blank_first c s : is_space c = false → blank (String c s) = false.
Proof.
  intros H. unfold blank, strip. simpl. rewrite H. apply bool_decide_eq_false.
  by rewrite rstrip_cons.
Qed.
Lemma id_ok `{SoundEnv} c prefix n field :
  is_space c = false → len prefix <= 90 →
  is_ok (store_identifier (String c prefix +:+ "_" +:+ uuid4_hex n) field) = true.
Proof.
  intros Hc Hl. unfold store_identifier. rewrite str_app_cons blank_first //.
  rewrite (proj2 (Z.ltb_ge _ _)) //. rewrite -str_app_cons !len_app uuid4_length.
  unfold len in *. simpl in *. lia.
Qed.

Lemma active_life_valid `{SoundEnv} now n m :
  now = utc_now_at m →
  lifecycle_valid (active_life now ("audit" +:+ "_" +:+ uuid4_hex n)) = true.
Proof.
  intros ->. unfold lifecycle_valid. simpl l_created_audit_id. simpl l_status.
  rewrite (id_ok (chr 97)); [done|by vm_compute|]. simpl. by rewrite utc_now_valid.
Qed.
Lemma revoked_life_valid `{SoundEnv} l now reason n :
  lifecycle_valid l = true → validate_timestamp now = true → blank reason = false →
  len reason <= 2000 →
  lifecycle_valid (life_revoke now reason ("audit" +:+ "_" +:+ uuid4_hex n) l) = true.
Proof.
  unfold lifecycle_valid. intros Hl Hnow Hb Hlen. simpl.
  apply andb_true_iff in Hl as [[[-> _]%andb_true_iff ->]%andb_true_iff _].
  rewrite Hnow Hb. simpl. by rewrite (proj2 (Z.leb_le _ _)).
Qed.
Lemma reason_ok value reason :
  _reason value = Ok reason → blank reason = false ∧ len reason <= 2000.
Proof.
  unfold _reason. destruct ((strip value == _) || _) eqn:E; [done|]. intros [= <-].
  apply orb_false_iff in E as [E1%bool_decide_eq_false E2%Z.ltb_ge].
  split; [by apply strip_not_blank|done].
Qed.
Lemma require_operator_ok actor action u :
  _require_operator actor action = Ok u → blank actor = false ∧ strip actor ≠ "subject"%string.
Proof.
  unfold _require_operator. destruct (blank actor) eqn:E1, (strip actor == _) eqn:E2; try done.
  intros _. split; [done|]. by apply bool_decide_eq_false in E2.
Qed.

(** ** Statements *)

Section statements.
Context {Dg : Digest} {En : Env} {Hosts : HostNames} {Sound : SoundEnv}.

Lemma new_id_ok prefix w id w' :
  ok (new_id prefix) w id w' → db w' = db w ∧ ∃ n, id = prefix +:+ "_" +:+ uuid4_hex n.
Proof. unfold new_id. intros H. invert_ok. eauto. Qed.
Lemma utc_now_ok w now w' :
  ok utc_now w now w' → db w' = db w ∧ ∃ n, now = utc_now_at n.
Proof. unfold utc_now. intros H. invert_ok. eauto. Qed.

Lemma append_audit_ok sid action actor m w aid w' :
  NoDup (map fst m) → forallb (λ kv, scalar kv.2) m = true →
  blank actor = false → strip actor ≠ "subject"%string →
  ok (_append_audit sid action actor (JObj m)) w aid w' →
  ∃ a, db w' = set_audits (append_row a) (db w) ∧ (a_audit_id a ∉ map a_audit_id (audits (db w))) ∧
    (∃ n, aid = "audit" +:+ "_" +:+ uuid4_hex n) ∧ audit_proves (db w') aid sid action m.
Proof.
  intros Hk Hs Hb Hn. unfold _append_audit, insert_audit. intros H.
  run H as [Ed (n & ->)]%new_id_ok. run H as [Ed' (t & ->)]%utc_now_ok.
  run H as Hi. apply ok_ret in H as [<- <-].
  run Hi as [<- <-]%ok_gets. run Hi as [_ <-]%ok_constraint. run Hi as [Hu <-]%ok_constraint.
  apply ok_modify in Hi as ->. simpl. rewrite Ed' Ed in Hu |- *.
  eexists. split; [done|]. split; [|split; [eauto|]].
  - intros (y & E & Hy)%list_elem_of_fmap. eapply exists_none in Hy; [|exact Hu].
    simpl in *. by apply bool_decide_eq_false in Hy.
  - split; [done|]. destruct (payload_text m Hk Hs) as (m' & Hm1 & Hm2 & Hm3).
    eexists _, m'. split; [simpl; apply elem_of_append; by right|]. simpl.
    split_and!; try done. apply utc_now_valid.
Qed.

(** The fresh row fits its table: from the unique key. *)
Lemma exists_key {R} (k : R → string) r t :
  negb (exists_where (λ x, k x == k r) t) = true → k r ∉ map k t.
Proof.
  intros Hu (x & E & Hx)%list_elem_of_fmap. eapply exists_none in Hx; [|exact Hu].
  by apply bool_decide_eq_false in Hx.
Qed.
Lemma insert_revision_ok k id sid n status reason aid now w u w' :
  ok (_insert_revision k id sid n status reason aid now) w u w' →
  ∃ v, db w' = set_revisions k (append_row v) (db w) ∧ v_resource_id v = id ∧
    v_subject_id v = sid ∧ v_revision_number v = n ∧ v_status v = status ∧ v_reason v = reason ∧
    v_audit_id v = aid ∧ v_created_at v = now ∧ v_revision_id v ≠ EmptyString ∧
    v_state_hash v = _revision_hash k (v_resource_id v) (v_subject_id v) (v_revision_number v)
      (v_status v) (v_reason v) (v_audit_id v) (v_created_at v).
Proof.
  unfold _insert_revision, insert_revision_row. intros H.
  run H as [Ed (m & ->)]%new_id_ok. run H as [<- <-]%ok_gets. do 3 run H as [_ <-]%ok_constraint.
  apply ok_modify in H as ->. rewrite -Ed. simpl. by eexists.
Qed.
End statements.

(** ** Changes of the tables *)

Section changes.
Context {Dg : Digest} {Hosts : HostNames}.

Record unique_ids (d : wallet_db) : Prop := {
  u_networks : NoDup (map n_network_id (networks d));
  u_assets : NoDup (map as_asset_id (assets d));
  u_addresses : NoDup (map ad_address_id (addresses d));
  u_snapshots : NoDup (map sn_snapshot_id (snapshots d));
  u_audits : NoDup (map a_audit_id (audits d));
}.
Lemma registry_ids d : registry_ok d → unique_ids d.
Proof. by intros []. Qed.

(** The tables evolve, and what is new is good. *)
Lemma registry_change d d' :
  registry_ok d → evolves d d' → unique_ids d' →
  (∀ r, r ∈ networks d' → r ∈ networks d ∨ network_good d' r) →
  (∀ r, r ∈ assets d' → r ∈ assets d ∨ asset_good d' r) →
  (∀ r, r ∈ addresses d' → r ∈ addresses d ∨ address_good d' r) →
  (∀ s, s ∈ snapshots d' → s ∈ snapshots d ∨ snapshot_good d' s) →
  (∀ k, histories_good k (heads k d') (revisions k d')) → registry_ok d'.
Proof.
  intros G E U Hn Ha Hd Hs Hh. destruct U as [U1 U2 U3 U4 U5]. split; try done.
  - intros r [Hr|Hr]%Hn; [|done]. eapply network_good_mono; [done|by apply G].
  - intros r [Hr|Hr]%Ha; [|done]. eapply asset_good_mono; [done..|by apply G].
  - intros r [Hr|Hr]%Hd; [|done]. eapply address_good_mono; [done..|by apply G].
  - intros r [Hr|Hr]%Hs; [|done]. eapply snapshot_good_mono; [done|by apply G].
Qed.

(** Appending rows is an evolution. *)
Lemma evolves_sub d d' :
  audits d ⊆ audits d' → networks d ⊆ networks d' → assets d ⊆ assets d' →
  addresses d ⊆ addresses d' → evolves d d'.
Proof.
  intros H1 H2 H3 H4. split; [done|..].
  - intros n Hn. exists n. split_and!; auto.
  - intros a Ha. exists a. auto.
  - intros a Ha. exists a. auto.
Qed.
Lemma append_sub {R} (r : R) t : t ⊆ append_row r t.
Proof. intros x Hx. apply elem_of_append; by left. Qed.
Lemma append_row_cases {R} (r x : R) t (P : Prop) :
  (x = r → P) → x ∈ append_row r t → x ∈ t ∨ P.
Proof. intros H [?| ->]%elem_of_append; auto. Qed.

Create HintDb registry.
#[local] Hint Resolve append_sub : registry.
Ltac evolve := apply evolves_sub; simpl; auto with registry; done.

Lemma registry_quiet d d' : registry_ok d → same_registry d d' → registry_ok d'.
Proof.
  intros G (E1&E2&E3&E4&E5&E6&E7&[l Ea]&_&Hu). specialize (Hu (g_audits d G)). pose proof (registry_ids d G) as [].
  eapply registry_change; [done|..]; rewrite ?E1 ?E2 ?E3 ?E7; try (intros; by left).
  - apply evolves_sub; rewrite ?E1 ?E2 ?E3 ?Ea //. intros x Hx. apply elem_of_app; by left.
  - split; rewrite ?E1 ?E2 ?E3 ?E7; done.
  - intros k. pose proof (g_histories d G k) as H.
    destruct k; simpl in *; by rewrite ?E1 ?E2 ?E3 ?E4 ?E5 ?E6.
Qed.
Lemma add_audit d a :
  registry_ok d → a_audit_id a ∉ map a_audit_id (audits d) →
  registry_ok (set_audits (append_row a) d).
Proof.
  intros G Hf. eapply registry_quiet; [done|]. split_and!; try done; [by exists [a]|].
  intros Hd. simpl. by apply NoDup_map_snoc.
Qed.
Lemma add_network d row v :
  registry_ok d → n_network_id row ∉ map n_network_id (networks d) → network_good d row →
  n_status row = "active"%string → revision_fits RNetwork (network_head row) 1 v →
  registry_ok (set_network_revisions (append_row v) (set_networks (append_row row) d)).
Proof.
  intros G Hf Hg Ha Hv. pose proof (registry_ids d G) as [].
  set (d' := set_network_revisions _ _).
  assert (E : evolves d d') by evolve.
  eapply registry_change; [done|exact E|..]; try (intros; by left).
  - split; try done. simpl. by apply NoDup_map_snoc.
  - intros r. apply append_row_cases. intros ->. by eapply network_good_mono.
  - intros k. pose proof (g_histories d G k) as H. destruct k; try done. simpl.
    rewrite map_append. unfold append_row. apply histories_new; try done.
    + by rewrite map_map.
    + unfold expected_statuses. simpl. unfold n_status in Ha. by rewrite Ha.
Qed.
Lemma add_asset d row v :
  registry_ok d → as_asset_id row ∉ map as_asset_id (assets d) → asset_good d row →
  as_status row = "active"%string → revision_fits RAsset (asset_head row) 1 v →
  registry_ok (set_asset_revisions (append_row v) (set_assets (append_row row) d)).
Proof.
  intros G Hf Hg Ha Hv. pose proof (registry_ids d G) as [].
  eapply registry_change; [done|evolve|..]; try (intros; by left).
  - split; try done. simpl. by apply NoDup_map_snoc.
  - intros r. apply append_row_cases. by intros ->.
  - intros k. pose proof (g_histories d G k) as H. destruct k; try done. simpl.
    rewrite map_append. unfold append_row. apply histories_new; try done.
    + by rewrite map_map.
    + unfold expected_statuses. simpl. unfold as_status in Ha. by rewrite Ha.
Qed.
Lemma add_address d row v :
  registry_ok d → ad_address_id row ∉ map ad_address_id (addresses d) → address_good d row →
  ad_status row = "active"%string → revision_fits RAddress (address_head row) 1 v →
  registry_ok (set_address_revisions (append_row v) (set_addresses (append_row row) d)).
Proof.
  intros G Hf Hg Ha Hv. pose proof (registry_ids d G) as [].
  eapply registry_change; [done|evolve|..]; try (intros; by left).
  - split; try done. simpl. by apply NoDup_map_snoc.
  - intros r. apply append_row_cases. by intros ->.
  - intros k. pose proof (g_histories d G k) as H. destruct k; try done. simpl.
    rewrite map_append. unfold append_row. apply histories_new; try done.
    + by rewrite map_map.
    + unfold expected_statuses. simpl. unfold ad_status in Ha. by rewrite Ha.
Qed.
(** Rewriting one row. *)
Lemma update_pair {R} (k s : R → string) f t row :
  NoDup (map k t) → row ∈ t →
  update_where (λ r, (k r == k row) && (s r == s row)) f t = replace_row k row (f row) t.
Proof.
  intros Hd Hr. apply map_ext_in. intros x Hx%list_elem_of_In.
  destruct (decide (k x = k row)) as [E|E].
  - rewrite (key_unique k t x row Hd Hx Hr E). by rewrite !bool_decide_true.
  - by rewrite !(bool_decide_false _ E).
Qed.
Lemma select_pair {R} (k s : R → string) t row :
  NoDup (map k t) → row ∈ t → select (λ r, (k r == k row) && (s r == s row)) t = [row].
Proof.
  intros Hd Hr. rewrite -(select_key_singleton k t row Hd Hr). apply select_ext. intros x Hx.
  destruct (decide (k x = k row)) as [E|E].
  - rewrite (key_unique k t x row Hd Hx Hr E). by rewrite !bool_decide_true.
  - by rewrite !(bool_decide_false _ E).
Qed.
Lemma replace_cases {R} (k : R → string) row row' t x (P : Prop) :
  NoDup (map k t) → row ∈ t → (x = row' → P) → x ∈ replace_row k row row' t → x ∈ t ∨ P.
Proof. intros Hd Hr HP [?|[? _]]%elem_of_replace; auto. Qed.
Lemma replace_kept {R} (k : R → string) row row' t x :
  NoDup (map k t) → row ∈ t → x ∈ t → k row' = k row →
  ∃ x', x' ∈ replace_row k row row' t ∧ k x' = k x ∧ (x' = x ∨ (x = row ∧ x' = row')).
Proof.
  intros Hd Hr Hx E. destruct (decide (k x = k row)) as [Ek|Ek].
  - assert (x = row) as -> by by eapply key_unique. exists row'. split; [|auto].
    apply elem_of_replace; auto.
  - exists x. split; [|auto]. apply elem_of_replace; [done|done|]. right. split; [done|congruence].
Qed.
(** The second revision of a replaced resource. *)
Lemma histories_replace {R} (k : resource_type) (hd : R → head) (key : R → string) row row' t l v :
  (∀ r, h_id (hd r) = key r) → NoDup (map key t) → row ∈ t →
  key row' = key row → h_subject (hd row') = h_subject (hd row) →
  l_status (h_life (hd row)) = "active"%string →
  (∃ now reason aid, h_life (hd row') = life_revoke now reason aid (h_life (hd row))) →
  revision_fits k (hd row') 2 v →
  histories_good k (map hd t) l →
  histories_good k (map hd (replace_row key row row' t)) (l ++ [v]).
Proof.
  intros Hk Hd Hr Ekey Es Ha (now & reason & aid & El) Hv G.
  eapply (histories_revoke k (map hd t) _ _ (hd row) (hd row')); try done.
  - by apply list_elem_of_fmap_2.
  - by rewrite !Hk.
  - unfold expected_statuses. by rewrite Ha.
  - unfold expected_statuses. by rewrite El.
  - intros r. unfold revision_matches. simpl. by rewrite El.
  - intros x (r & -> & Hx)%list_elem_of_fmap.
    destruct (proj1 (elem_of_replace key row row' t r Hd Hr) Hx) as [->|[Hx' Hne]]; [by left|].
    right.
    split; [by apply list_elem_of_fmap_2|]. rewrite !Hk. intros E. apply Hne. by eapply key_unique.
  - intros x (r & -> & Hx)%list_elem_of_fmap.
    destruct (replace_kept key row row' t r Hd Hr Hx Ekey) as (r' & Hr' & E & _).
    exists (hd r'). split; [by apply list_elem_of_fmap_2|]. by rewrite !Hk.
Qed.
Lemma NoDup_replaced {R} (k : R → string) row row' t :
  NoDup (map k t) → k row' = k row → NoDup (map k (replace_row k row row' t)).
Proof. intros Hd E. rewrite (map_replace k k) //. intros. congruence. Qed.

Lemma revoke_network_ok d row row' v :
  registry_ok d → row ∈ networks d → n_network_id row' = n_network_id row →
  n_subject_id row' = n_subject_id row → n_native_symbol row' = n_native_symbol row →
  n_status row = "active"%string →
  (∃ now reason aid, n_life row' = life_revoke now reason aid (n_life row)) →
  exists_where (active_asset_on (n_subject_id row) (n_network_id row)) (assets d) = false →
  exists_where (active_address_on (n_subject_id row) (n_network_id row)) (addresses d) = false →
  network_good d row' → revision_fits RNetwork (network_head row') 2 v →
  registry_ok (set_network_revisions (append_row v)
                 (set_networks (replace_row n_network_id row row') d)).
Proof.
  intros G Hr Eid Es Esym Ha Hl Hna Hnd Hg Hv. pose proof (registry_ids d G) as [].
  set (d' := set_network_revisions _ _).
  assert (E : evolves d d').
  { split; simpl; eauto. intros n Hn.
    destruct (replace_kept n_network_id row row' (networks d) n) as (n' & Hn' & Ek & Hc); try done.
    exists n'. destruct Hc as [->|[-> ->]]; split_and!; auto. }
  eapply registry_change; [done|exact E|..]; try (intros; by left).
  - split; try done. simpl. by apply NoDup_replaced.
  - intros r. apply replace_cases; [done|done|]. intros ->. by eapply network_good_mono.
  - intros k. pose proof (g_histories d G k) as H. destruct k; try done. simpl.
    by eapply (histories_replace RNetwork network_head n_network_id).
Qed.
Lemma revoke_asset_ok d row row' v :
  registry_ok d → row ∈ assets d → as_asset_id row' = as_asset_id row →
  as_subject_id row' = as_subject_id row → as_network_id row' = as_network_id row →
  as_status row = "active"%string →
  (∃ now reason aid, as_life row' = life_revoke now reason aid (as_life row)) →
  asset_good d row' → revision_fits RAsset (asset_head row') 2 v →
  registry_ok (set_asset_revisions (append_row v)
                 (set_assets (replace_row as_asset_id row row') d)).
Proof.
  intros G Hr Eid Es En Ha Hl Hg Hv. pose proof (registry_ids d G) as [].
  set (d' := set_asset_revisions _ _).
  assert (E : evolves d d').
  { split; simpl; eauto 10. intros n Hn.
    destruct (replace_kept as_asset_id row row' (assets d) n) as (n' & Hn' & Ek & Hc); try done.
    exists n'. destruct Hc as [->|[-> ->]]; split_and!; auto. }
  eapply registry_change; [done|exact E|..]; try (intros; by left).
  - split; try done. simpl. by apply NoDup_replaced.
  - intros r. apply replace_cases; [done|done|]. by intros ->.
  - intros k. pose proof (g_histories d G k) as H. destruct k; try done. simpl.
    by eapply (histories_replace RAsset asset_head as_asset_id).
Qed.
Lemma revoke_address_ok d row row' v :
  registry_ok d → row ∈ addresses d → ad_address_id row' = ad_address_id row →
  ad_subject_id row' = ad_subject_id row → ad_network_id row' = ad_network_id row →
  ad_status row = "active"%string →
  (∃ now reason aid, ad_life row' = life_revoke now reason aid (ad_life row)) →
  address_good d row' → revision_fits RAddress (address_head row') 2 v →
  registry_ok (set_address_revisions (append_row v)
                 (set_addresses (replace_row ad_address_id row row') d)).
Proof.
  intros G Hr Eid Es En Ha Hl Hg Hv. pose proof (registry_ids d G) as [].
  set (d' := set_address_revisions _ _).
  assert (E : evolves d d').
  { split; simpl; eauto 10. intros n Hn.
    destruct (replace_kept ad_address_id row row' (addresses d) n) as (n' & Hn' & Ek & Hc); try done.
    exists n'. destruct Hc as [->|[-> ->]]; split_and!; auto. }
  eapply registry_change; [done|exact E|..]; try (intros; by left).
  - split; try done. simpl. by apply NoDup_replaced.
  - intros r. apply replace_cases; [done|done|]. by intros ->.
  - intros k. pose proof (g_histories d G k) as H. destruct k; try done. simpl.
    by eapply (histories_replace RAddress address_head ad_address_id).
Qed.
Lemma add_snapshot d s :
  registry_ok d → sn_snapshot_id s ∉ map sn_snapshot_id (snapshots d) → snapshot_good d s →
  registry_ok (set_snapshots (append_row s) d).
Proof.
  intros G Hf Hg. pose proof (registry_ids d G) as [].
  eapply registry_change; [done|evolve|..]; try (intros; by left).
  - split; try done. simpl. by apply NoDup_map_snoc.
  - intros r. apply append_row_cases. by intros ->.
  - intros k. by apply G.
Qed.
End changes.

(** ** The operations *)

(** [first_reads] passes the statements before the transaction. *)
Tactic Notation "first_reads" "as" simple_intropattern(p) :=
  apply preserves_bind_ok; [by apply preserves_silent; solve_silent|intros ? ? ? p].

Section operations.
Context {Dg : Digest} {En : Env} {Hosts : HostNames} {Sound : SoundEnv}.

Lemma silent_new_id prefix : silent (new_id prefix).
Proof. unfold new_id. solve_silent. Qed.
Lemma silent_utc_now : silent utc_now.
Proof. unfold utc_now. solve_silent. Qed.
#[local] Hint Resolve silent_new_id silent_utc_now : noyra.

Lemma pure_network_row id sid w r w' :
  ok (_network_row id sid) w r w' →
  w' = w ∧ r ∈ networks (db w) ∧ n_network_id r = id ∧ n_subject_id r = sid.
Proof.
  unfold _network_row. intros H. run H as [_ <-]%ok_lift. run H as [<- <-]%ok_gets.
  apply ok_lift in H as [H <-]. destruct (fetchone _ _) eqn:E; [|done]. injection H as ->.
  by apply fetchone_Some in E as [? [?%bool_decide_eq_true ?%bool_decide_eq_true]%andb_true_iff].
Qed.
Lemma pure_asset_row id sid w r w' :
  ok (_asset_row id sid) w r w' →
  w' = w ∧ r ∈ assets (db w) ∧ as_asset_id r = id ∧ as_subject_id r = sid.
Proof.
  unfold _asset_row. intros H. run H as [_ <-]%ok_lift. run H as [<- <-]%ok_gets.
  apply ok_lift in H as [H <-]. destruct (fetchone _ _) eqn:E; [|done]. injection H as ->.
  by apply fetchone_Some in E as [? [?%bool_decide_eq_true ?%bool_decide_eq_true]%andb_true_iff].
Qed.
Lemma pure_address_row id sid w r w' :
  ok (_address_row id sid) w r w' →
  w' = w ∧ r ∈ addresses (db w) ∧ ad_address_id r = id ∧ ad_subject_id r = sid.
Proof.
  unfold _address_row. intros H. run H as [_ <-]%ok_lift. run H as [<- <-]%ok_gets.
  apply ok_lift in H as [H <-]. destruct (fetchone _ _) eqn:E; [|done]. injection H as ->.
  by apply fetchone_Some in E as [? [?%bool_decide_eq_true ?%bool_decide_eq_true]%andb_true_iff].
Qed.
Lemma silent_get_network id sid : silent (get_network id sid).
Proof. unfold get_network, _network_row. solve_silent. Qed.
Lemma silent_get_asset id sid : silent (get_asset id sid).
Proof. unfold get_asset, _asset_row. solve_silent. Qed.
Lemma silent_get_address id sid : silent (get_address id sid).
Proof. unfold get_address, _address_row. solve_silent. Qed.

Lemma new_network_input id sid p now aid : network_input (new_network_row id sid p now aid) = p.
Proof. by destruct p. Qed.
Lemma new_asset_input id sid p now aid : asset_input (new_asset_row id sid p now aid) = p.
Proof. by destruct p. Qed.
Lemma new_address_input id sid p now aid : address_input (new_address_row id sid p now aid) = p.
Proof. by destruct p. Qed.

Local Ltac literal_keys := apply (bool_decide_eq_true_1 _); vm_compute; reflexivity.

(** The first revision of a resource registered now. *)
Lemma first_revision_fits k h v aid m :
  h_life h = active_life (utc_now_at m) aid → aid ≠ EmptyString →
  v_resource_id v = h_id h → v_subject_id v = h_subject h → v_revision_number v = 1 →
  v_status v = "active"%string → v_reason v = "operator registered wallet " +:+ resource_text k →
  v_audit_id v = aid → v_created_at v = utc_now_at m → v_revision_id v ≠ EmptyString →
  v_state_hash v = _revision_hash k (v_resource_id v) (v_subject_id v) (v_revision_number v)
      (v_status v) (v_reason v) (v_audit_id v) (v_created_at v) →
  revision_fits k h 1 v.
Proof.
  intros El Ha E1 E2 E3 E4 E5 E6 E7 E8 E9. split_and!; try done.
  - unfold expected_statuses. by rewrite El E4.
  - rewrite E5. by apply (blank_first (chr 111)).
  - rewrite E7. apply utc_now_valid.
  - congruence.
  - unfold revision_matches. change (1 =? 1) with true. cbv iota. rewrite El E5 E6 E7.
    cbn [active_life l_created_at l_created_audit_id]. by rewrite !bool_decide_true.
Qed.
(** The second revision of a resource revoked now. *)
Lemma second_revision_fits k h v aid m reason l :
  h_life h = life_revoke (utc_now_at m) reason aid l → aid ≠ EmptyString →
  blank reason = false →
  v_resource_id v = h_id h → v_subject_id v = h_subject h → v_revision_number v = 2 →
  v_status v = "revoked"%string → v_reason v = reason →
  v_audit_id v = aid → v_created_at v = utc_now_at m → v_revision_id v ≠ EmptyString →
  v_state_hash v = _revision_hash k (v_resource_id v) (v_subject_id v) (v_revision_number v)
      (v_status v) (v_reason v) (v_audit_id v) (v_created_at v) →
  revision_fits k h 2 v.
Proof.
  intros El Ha Hb E1 E2 E3 E4 E5 E6 E7 E8 E9. split_and!; try done.
  - unfold expected_statuses. by rewrite El E4.
  - by rewrite E5.
  - rewrite E7. apply utc_now_valid.
  - congruence.
  - unfold revision_matches. change (2 =? 1) with false. cbv iota. rewrite El E5 E6 E7.
    cbn [life_revoke l_revoked_at l_revoke_reason l_revoked_audit_id].
    by rewrite !bool_decide_true.
Qed.

Lemma register_network_keeps sid p actor :
  (∃ raw, validate_WalletNetworkInput raw = Ok p) →
  preserves registry_ok (register_network sid p actor).
Proof.
  intros [raw Hp]. unfold register_network.
  first_reads as [[Hb Hact]%require_operator_ok _]%ok_lift.
  first_reads as [Hsid _]%ok_lift.
  first_reads as [_ (n & ->)]%new_id_ok. first_reads as [_ (m & ->)]%utc_now_ok.
  apply preserves_bind; [|intros _; apply preserves_silent, silent_get_network].
  apply preserves_rethrow, preserves_transaction. intros wa u wz H G.
  run H as [_ <-]%ok_gets. run H as [_ <-]%ok_raise_if.
  run H to wb as Ha. apply append_audit_ok in Ha as (aud & Ed & Hf & (na & ->) & Hpr);
    [|literal_keys|done..].
  run H to wc as Hi. unfold insert_network in Hi.
  run Hi as [<- <-]%ok_gets. do 2 run Hi as [_ <-]%ok_constraint.
  run Hi as [Hu <-]%ok_constraint. run Hi as [_ <-]%ok_constraint. apply ok_modify in Hi as ->.
  apply insert_revision_ok in H as (v & -> & E1 & E2 & E3 & E4 & E5 & E6 & E7 & E8 & E9).
  simpl. rewrite Ed. apply andb_true_iff in Hu as [[Hu _]%andb_true_iff _].
  apply exists_key in Hu. simpl in Hu. rewrite Ed in Hu Hpr.
  apply add_network; [by apply add_audit|done| |done|].
  - split; [|by split; [|done]]. intros Hst. apply network_from_row_iff.
    rewrite new_network_input. split_and!; try done.
    + by eapply validate_network_idem.
    + unfold identity_ok. simpl. rewrite (id_ok (chr 119)) // Hsid. done.
    + by eapply active_life_valid.
  - by eapply first_revision_fits.
Qed.

Lemma register_asset_keeps sid p actor :
  (∃ raw, validate_WalletAssetInput raw = Ok p) →
  preserves registry_ok (register_asset sid p actor).
Proof.
  intros [raw Hp]. unfold register_asset.
  first_reads as [[Hb Hact]%require_operator_ok _]%ok_lift.
  first_reads as [Hsid _]%ok_lift.
  first_reads as [_ (n & ->)]%new_id_ok. first_reads as [_ (m & ->)]%utc_now_ok.
  apply preserves_bind; [|intros _; apply preserves_silent, silent_get_asset].
  apply preserves_rethrow, preserves_transaction. intros wa u wz H G.
  run H as (-> & Hn & Hnid & Hnsid)%pure_network_row.
  run H as [(-> & _)%network_from_row_iff <-]%ok_lift.
  run H as [Hnact%negb_false_iff%bool_decide_eq_true <-]%ok_raise_if.
  run H as [Hsym <-]%ok_raise_if. run H as [_ <-]%ok_gets. run H as [_ <-]%ok_raise_if.
  run H to wb as Ha. apply append_audit_ok in Ha as (aud & Ed & Hf & (na & ->) & Hpr);
    [|literal_keys|by destruct (ai_contract_address p)|done..].
  run H to wc as Hi. unfold insert_asset in Hi.
  run Hi as [<- <-]%ok_gets. do 2 run Hi as [_ <-]%ok_constraint.
  run Hi as [Hu <-]%ok_constraint. run Hi as [_ <-]%ok_constraint. apply ok_modify in Hi as ->.
  apply insert_revision_ok in H as (v & -> & E1 & E2 & E3 & E4 & E5 & E6 & E7 & E8 & E9).
  simpl. rewrite Ed. apply andb_true_iff in Hu as [[Hu _]%andb_true_iff _].
  apply exists_key in Hu. simpl in Hu. rewrite Ed in Hu Hpr.
  apply add_asset; [by apply add_audit|done| |done|].
  - split; [|split; [by split; [|done]|]].
    + apply asset_from_row_iff. rewrite new_asset_input. split_and!; try done.
      * by eapply validate_asset_idem.
      * unfold identity_ok. simpl. rewrite (id_ok (chr 119)) // Hsid. done.
      * by eapply active_life_valid.
    + eexists; split_and!; [exact Hn|done|done| |done]. simpl. intros Ety.
      rewrite (bool_decide_true _ Ety) in Hsym. by apply negb_false_iff, bool_decide_eq_true in Hsym.
  - by eapply first_revision_fits.
Qed.
Lemma register_address_keeps sid p actor :
  (∃ raw, validate_WalletAddressInput raw = Ok p) →
  preserves registry_ok (register_address sid p actor).
Proof.
  intros [raw Hp]. unfold register_address.
  first_reads as [[Hb Hact]%require_operator_ok _]%ok_lift.
  first_reads as [Hsid _]%ok_lift.
  first_reads as [_ (n & ->)]%new_id_ok. first_reads as [_ (m & ->)]%utc_now_ok.
  apply preserves_bind; [|intros _; apply preserves_silent, silent_get_address].
  apply preserves_rethrow, preserves_transaction. intros wa u wz H G.
  run H as (-> & Hn & Hnid & Hnsid)%pure_network_row.
  run H as [(-> & _)%network_from_row_iff <-]%ok_lift.
  run H as [Hnact%negb_false_iff%bool_decide_eq_true <-]%ok_raise_if.
  run H as [_ <-]%ok_gets. run H as [_ <-]%ok_raise_if.
  run H to wb as Ha. apply append_audit_ok in Ha as (aud & Ed & Hf & (na & ->) & Hpr);
    [|literal_keys|done..].
  run H to wc as Hi. unfold insert_address in Hi.
  run Hi as [<- <-]%ok_gets. do 2 run Hi as [_ <-]%ok_constraint.
  run Hi as [Hu <-]%ok_constraint. run Hi as [_ <-]%ok_constraint. apply ok_modify in Hi as ->.
  apply insert_revision_ok in H as (v & -> & E1 & E2 & E3 & E4 & E5 & E6 & E7 & E8 & E9).
  simpl. rewrite Ed. apply andb_true_iff in Hu as [Hu _].
  apply exists_key in Hu. simpl in Hu. rewrite Ed in Hu Hpr.
  apply add_address; [by apply add_audit|done| |done|].
  - split; [|split; [by split; [|done]|]].
    + apply address_from_row_iff. rewrite new_address_input. split_and!; try done.
      * by eapply validate_address_idem.
      * unfold identity_ok. simpl. rewrite (id_ok (chr 119)) // Hsid. done.
      * by eapply active_life_valid.
    + by eexists; split_and!; [exact Hn|..].
  - by eapply first_revision_fits.
Qed.

(** A revocation writes the audit record before it rewrites the row. *)
Lemma audited_revoke k d d' h h' p reason aid now :
  audits d ⊆ audits d' → h_id h' = h_id h → h_subject h' = h_subject h →
  h_life h' = life_revoke now reason aid (h_life h) →
  audited_resource k d h p →
  audit_proves d' aid (h_subject h) (revoked_action k)
    [(id_column k, JStr (h_id h)); ("reason"%string, JStr reason)] →
  audited_resource k d' h' p.
Proof.
  intros Hs Eid Es El [H1 _] Hr. split; rewrite Es El; simpl.
  - by eapply audit_proves_mono.
  - intros _. exists aid, reason. by rewrite Eid.
Qed.

(** The [UPDATE] rewrites the one row. *)
Lemma update_network_ok f w u w' row :
  NoDup (map n_network_id (networks (db w))) → row ∈ networks (db w) →
  ok (update_network (n_network_id row) (n_subject_id row) f) w u w' →
  db w' = set_networks (replace_row n_network_id row (f row)) (db w).
Proof.
  intros Hd Hr. unfold update_network. intros H. run H as [<- <-]%ok_gets.
  do 2 run H as [_ <-]%ok_constraint. apply ok_modify in H as ->. cbn [db]. unfold set_networks.
  f_equal. by apply (update_pair n_network_id n_subject_id).
Qed.
Lemma update_asset_ok f w u w' row :
  NoDup (map as_asset_id (assets (db w))) → row ∈ assets (db w) →
  ok (update_asset (as_asset_id row) (as_subject_id row) f) w u w' →
  db w' = set_assets (replace_row as_asset_id row (f row)) (db w).
Proof.
  intros Hd Hr. unfold update_asset. intros H. run H as [<- <-]%ok_gets.
  do 2 run H as [_ <-]%ok_constraint. apply ok_modify in H as ->. cbn [db]. unfold set_assets.
  f_equal. by apply (update_pair as_asset_id as_subject_id).
Qed.
Lemma update_address_ok f w u w' row :
  NoDup (map ad_address_id (addresses (db w))) → row ∈ addresses (db w) →
  ok (update_address (ad_address_id row) (ad_subject_id row) f) w u w' →
  db w' = set_addresses (replace_row ad_address_id row (f row)) (db w).
Proof.
  intros Hd Hr. unfold update_address. intros H. run H as [<- <-]%ok_gets.
  do 2 run H as [_ <-]%ok_constraint. apply ok_modify in H as ->. cbn [db]. unfold set_addresses.
  f_equal. by apply (update_pair ad_address_id ad_subject_id).
Qed.
Lemma not_revoked l :
  lifecycle_valid l = true → (l_status l == "revoked") = false → l_status l = "active"%string.
Proof.
  unfold lifecycle_valid. intros [[[_ Hl]%andb_true_iff _]%andb_true_iff _]%andb_true_iff E.
  rewrite E orb_false_r in Hl. by apply bool_decide_eq_true in Hl.
Qed.

Lemma revoke_network_keeps id r actor sid :
  preserves registry_ok (revoke_network id r actor sid).
Proof.
  unfold revoke_network.
  first_reads as [[Hb Hact]%require_operator_ok _]%ok_lift.
  apply preserves_bind_ok; [by apply preserves_silent; solve_silent|].
  intros ? reason ? [[Hrb Hrl]%reason_ok _]%ok_lift. first_reads as [Hsid _]%ok_lift.
  apply preserves_bind;
    [|intros [|]; apply preserves_silent; [apply silent_ret|apply silent_get_network]].
  apply preserves_transaction. intros wa u wz H G.
  run H as (-> & Hn & Hnid & Hnsid)%pure_network_row. subst id sid.
  run H as [Hrow <-]%ok_lift.
  pose proof Hrow as (-> & Hval & Hid & Hlife & _)%network_from_row_iff.
  destruct (n_status _ == "revoked") eqn:Est; [by apply ok_ret in H as [_ <-]|].
  run H as [<- <-]%ok_gets. run H as [[Hc1 Hc2]%orb_false_iff <-]%ok_raise_if.
  run H to wd as [Enow (m & ->)]%utc_now_ok.
  run H to wb as Ha. apply append_audit_ok in Ha as (aud & Ed & Hf & (na & ->) & Hpr);
    [|literal_keys|done..]. rewrite Enow in Ed Hf.
  run H to wc as Hi. match goal with H : ?x ∈ networks (db wa) |- _ => rename x into row end.
  apply update_network_ok in Hi; [|rewrite Ed; apply G|by rewrite Ed].
  run H as (v & E0 & E1 & E2 & E3 & E4 & E5 & E6 & E7 & E8 & E9)%insert_revision_ok.
  apply ok_ret in H as [_ <-]. rewrite E0 Hi Ed. rewrite Ed in Hpr.
  apply revoke_network_ok; try done;
    [by apply add_audit|by apply not_revoked|eauto| |by eapply second_revision_fits].
  split.
  - intros _. apply network_from_row_iff. split_and!; try done.
    apply revoked_life_valid; try done. apply utc_now_valid.
  - eapply (audited_revoke RNetwork (db wa) _ (network_head row)); try done; [apply append_sub|].
    by apply (g_network _ G row Hn).
Qed.
Lemma revoke_asset_keeps id r actor sid :
  preserves registry_ok (revoke_asset id r actor sid).
Proof.
  unfold revoke_asset.
  first_reads as [[Hb Hact]%require_operator_ok _]%ok_lift.
  apply preserves_bind_ok; [by apply preserves_silent; solve_silent|].
  intros ? reason ? [[Hrb Hrl]%reason_ok _]%ok_lift. first_reads as [Hsid _]%ok_lift.
  apply preserves_bind;
    [|intros [|]; apply preserves_silent; [apply silent_ret|apply silent_get_asset]].
  apply preserves_transaction. intros wa u wz H G.
  run H as (-> & Hn & Hnid & Hnsid)%pure_asset_row. subst id sid.
  run H as [Hrow <-]%ok_lift.
  pose proof Hrow as (-> & Hval & Hid & Hlife & _)%asset_from_row_iff.
  destruct (as_status _ == "revoked") eqn:Est; [by apply ok_ret in H as [_ <-]|].
  run H to wd as [Enow (m & ->)]%utc_now_ok.
  run H to wb as Ha. apply append_audit_ok in Ha as (aud & Ed & Hf & (na & ->) & Hpr);
    [|literal_keys|done..]. rewrite Enow in Ed Hf.
  run H to wc as Hi. match goal with H : ?x ∈ assets (db wa) |- _ => rename x into row end.
  apply update_asset_ok in Hi; [|rewrite Ed; apply G|by rewrite Ed].
  run H as (v & E0 & E1 & E2 & E3 & E4 & E5 & E6 & E7 & E8 & E9)%insert_revision_ok.
  apply ok_ret in H as [_ <-]. rewrite E0 Hi Ed. rewrite Ed in Hpr.
  destruct (g_asset _ G row Hn) as (_ & Haud & net & Hnet & Hnid & Hns & Hsym & _).
  apply revoke_asset_ok; try done;
    [by apply add_audit|by apply not_revoked|eauto| |by eapply second_revision_fits].
  split; [|split].
  - apply asset_from_row_iff. split_and!; try done.
    apply revoked_life_valid; try done. apply utc_now_valid.
  - eapply (audited_revoke RAsset (db wa) _ (asset_head row)); try done. apply append_sub.
  - exists net. by split_and!.
Qed.
Lemma revoke_address_keeps id r actor sid :
  preserves registry_ok (revoke_address id r actor sid).
Proof.
  unfold revoke_address.
  first_reads as [[Hb Hact]%require_operator_ok _]%ok_lift.
  apply preserves_bind_ok; [by apply preserves_silent; solve_silent|].
  intros ? reason ? [[Hrb Hrl]%reason_ok _]%ok_lift. first_reads as [Hsid _]%ok_lift.
  apply preserves_bind;
    [|intros [|]; apply preserves_silent; [apply silent_ret|apply silent_get_address]].
  apply preserves_transaction. intros wa u wz H G.
  run H as (-> & Hn & Hnid & Hnsid)%pure_address_row. subst id sid.
  run H as [Hrow <-]%ok_lift.
  pose proof Hrow as (-> & Hval & Hid & Hlife & _)%address_from_row_iff.
  destruct (ad_status _ == "revoked") eqn:Est; [by apply ok_ret in H as [_ <-]|].
  run H to wd as [Enow (m & ->)]%utc_now_ok.
  run H to wb as Ha. apply append_audit_ok in Ha as (aud & Ed & Hf & (na & ->) & Hpr);
    [|literal_keys|done..]. rewrite Enow in Ed Hf.
  run H to wc as Hi. match goal with H : ?x ∈ addresses (db wa) |- _ => rename x into row end.
  apply update_address_ok in Hi; [|rewrite Ed; apply G|by rewrite Ed].
  run H as (v & E0 & E1 & E2 & E3 & E4 & E5 & E6 & E7 & E8 & E9)%insert_revision_ok.
  apply ok_ret in H as [_ <-]. rewrite E0 Hi Ed. rewrite Ed in Hpr.
  destruct (g_address _ G row Hn) as (_ & Haud & net & Hnet & Hnid & Hns & _).
  apply revoke_address_ok; try done;
    [by apply add_audit|by apply not_revoked|eauto| |by eapply second_revision_fits].
  split; [|split].
  - apply address_from_row_iff. split_and!; try done.
    apply revoked_life_valid; try done. apply utc_now_valid.
  - eapply (audited_revoke RAddress (db wa) _ (address_head row)); try done. apply append_sub.
  - exists net. by split_and!.
Qed.

(** An observation is read back before the transaction commits. *)
Lemma record_balance_connection_keeps sid p actor x y w s w' :
  ok (_record_balance_snapshot_connection sid p actor x y) w s w' →
  registry_ok (db w) → registry_ok (db w').
Proof.
  unfold _record_balance_snapshot_connection. intros H G.
  run H as [_ <-]%ok_lift. run H as [Hsid <-]%ok_lift.
  assert (Hsil : ∀ o m, silent m → silent (or_new o m)).
  { intros [[|]|] m Hm; simpl; auto using silent_ret. }
  run H to wa as Ha. apply (silent_pure _ (Hsil _ _ (silent_new_id _))) in Ha. run H as [_ <-]%ok_lift.
  run H to wb as Hb. apply (silent_pure _ (Hsil _ _ silent_utc_now)) in Hb. run H as [_ <-]%ok_lift.
  rewrite -Ha -Hb in G. clear Ha Hb.
  run H as (-> & Has & Has1 & Has2)%pure_asset_row.
  run H as (-> & Had & Had1 & Had2)%pure_address_row.
  run H as [(-> & _)%asset_from_row_iff <-]%ok_lift.
  run H as [(-> & _)%address_from_row_iff <-]%ok_lift.
  run H as [[_ Hsame%negb_false_iff%bool_decide_eq_true]%orb_false_iff <-]%ok_raise_if.
  run H as (-> & Hn & Hn1 & Hn2)%pure_network_row.
  run H as [_ <-]%ok_lift. run H as [_ <-]%ok_raise_if.
  run H to wc as Hi. unfold insert_snapshot in Hi. run Hi as [<- <-]%ok_gets.
  do 2 run Hi as [_ <-]%ok_constraint. run Hi as [Hu <-]%ok_constraint.
  run Hi as [_ <-]%ok_constraint. apply ok_modify in Hi as ->.
  run H as [<- <-]%ok_gets. run H as [Ho <-]%ok_lift. apply ok_lift in H as [Hr <-].
  apply (exists_key sn_snapshot_id) in Hu. cbn [db] in *.
  apply add_snapshot; [done|done|]. split; [|split_and!]; [|by eexists..].
  destruct (fetchone _ _) as [row|] eqn:Ef; [|done]. injection Ho as ->.
  apply fetchone_Some in Ef as [Hin [Eid%bool_decide_eq_true _]%andb_true_iff].
  pose proof (balance_from_row_same _ _ Hr) as ->.
  apply elem_of_append in Hin as [Hin|<-]; [|done].
  destruct Hu. simpl. rewrite -Eid. by apply list_elem_of_fmap_2.
Qed.
Lemma record_balance_keeps sid p actor :
  preserves registry_ok (record_balance_snapshot sid p actor).
Proof.
  unfold record_balance_snapshot.
  first_reads as _. first_reads as _. first_reads as _. first_reads as _.
  apply preserves_rethrow, preserves_transaction. intros wa s wb.
  apply record_balance_connection_keeps.
Qed.
End operations.

(** ** The registry as a transition system *)

Section system.
Context {Dg : Digest} {En : Env} {Sg : Signer} {Hosts : HostNames} {Sound : SoundEnv}.

(** A step: a command of the wallet, or a write of another component, which
    leaves the registry alone. *)
Inductive registry_step (w : world wallet_db) : world wallet_db → Prop :=
| registry_op op : registry_step w (run_op op w).2
| registry_other d' t f : same_registry (db w) d' → registry_step w (World d' t f).
Definition registry_reachable (w : world wallet_db) : Prop :=
  ∃ w0, db w0 = empty_db ∧ rtc registry_step w0 w.

Lemma registry_empty : registry_ok empty_db.
Proof.
  split; simpl; try apply NoDup_nil_2; try (intros ? []%not_elem_of_nil).
  intros []; split; by intros ? ?%not_elem_of_nil.
Qed.
Lemma preserves_then_done {A} (m : W A) :
  preserves registry_ok m → preserves registry_ok (m ;; mret tt).
Proof. intros H. apply preserves_bind; [done|intros ?]. apply preserves_silent, silent_ret. Qed.
Lemma preserves_validated {A B} (r : result A) (k : A → W B) :
  (∀ a, r = Ok a → preserves registry_ok (k a)) → preserves registry_ok (lift r ≫= k).
Proof. intros H w K. destruct r as [a|e]; [by apply (H a)|done]. Qed.
Lemma preserves_quiet {A} (m : W A) :
  (∀ d, preserves (same_registry d) m) → preserves registry_ok m.
Proof. intros H w G. eapply registry_quiet; [exact G|]. apply H, same_registry_refl. Qed.

(** The commands of the other stores leave the registry alone. *)
Definition registry_command (op : wallet_op) : bool :=
  match op with
  | RegisterNetwork _ _ _ | RegisterAsset _ _ _ | RegisterAddress _ _ _
  | RevokeNetwork _ _ _ _ | RevokeAsset _ _ _ _ | RevokeAddress _ _ _ _
  | RecordBalance _ _ _ => true
  | _ => false
  end.
Lemma quiet_done {A} d (m : W A) :
  preserves (same_registry d) m → preserves (same_registry d) (m ;; mret tt).
Proof. intros H. apply preserves_bind; [done|intros ?]. apply preserves_silent, silent_ret. Qed.
Lemma quiet_validated {A B} d (r : result A) (k : A → W B) :
  (∀ a, preserves (same_registry d) (k a)) → preserves (same_registry d) (lift r ≫= k).
Proof. intros H. apply preserves_bind; [apply preserves_silent, silent_lift|done]. Qed.
Ltac quiet_input := apply quiet_validated; intros; apply quiet_done.
Lemma run_op_quiet op d : registry_command op = false → preserves (same_registry d) (run_op op).
Proof.
  destruct op; try done; intros _; cbn [run_op]; try apply quiet_done;
    [ apply ensure_identity_registry | quiet_input; apply create_bounty_registry
    | apply transition_bounty_registry | apply transition_bounty_registry
    | apply transition_bounty_registry | apply maintain_expired_bounties_registry
    | quiet_input; apply submit_to_bounty_registry | apply decide_submission_registry
    | apply withdraw_submission_registry | quiet_input; apply update_policy_registry
    | apply confirm_order_registry | apply reject_order_registry | apply cancel_order_registry
    | apply refund_order_registry | apply execute_order_registry | apply retry_unknown_registry
    | quiet_input; apply prepare_execution_registry | quiet_input; apply prepare_retry_registry
    | apply poll_receipt_registry | apply mark_reconcile_required_registry
    | apply recover_database_inflight_registry ].
Qed.

Ltac validated := apply preserves_validated; intros; apply preserves_then_done.
Lemma run_op_keeps op : preserves registry_ok (run_op op).
Proof.
  destruct (registry_command op) eqn:E;
    [|apply preserves_quiet; intros; by apply run_op_quiet].
  destruct op; try done; cbn [run_op]; try apply preserves_then_done;
    [ validated; apply register_network_keeps; eauto
    | validated; apply register_asset_keeps; eauto
    | validated; apply register_address_keeps; eauto
    | apply revoke_network_keeps | apply revoke_asset_keeps | apply revoke_address_keeps
    | validated; apply record_balance_keeps ].
Qed.

Lemma reachable_registry_ok w : registry_reachable w → registry_ok (db w).
Proof.
  intros (w0 & E & H). assert (G : registry_ok (db w0)) by (rewrite E; apply registry_empty).
  clear E. induction H as [w|w w1 w2 H1 _ IH]; [done|]. apply IH.
  destruct H1 as [op|d' t f He]; [by apply run_op_keeps|by eapply registry_quiet].
Qed.
End system.
