(* ===== verification/RegistryUnique.v ===== *)
(** * What the registry holds in every reachable state

    Rows are readable ([registry_rows_readable]), children belong to active
    networks of their own subject ([registry_hierarchy]), and nothing is
    registered twice ([registered_once]). *)

From stdpp Require Import relations.
From S2P Require Import Prelude Tables PyStr Json Digest Time Sorting WalletTypes RegistryTypes.
From S2P Require Import WalletTransfer WalletDb WalletEconomy RegistryDb RegistryStore.
From S2P Require Import RegistryIntegrity WalletOrders WalletSubmissions WalletExecution.
From S2P Require Import WalletEngine WalletEffects RegistryFrame WalletSteps WalletSystem.
From S2P Require Import WalletRecords RegistryInv RegistrySteps.
Local Open Scope Z_scope.

(** Two rows of a table that clash are the same row. *)
Definition no_clash {R} (clash : R → R → Prop) (t : list R) : Prop :=
  ∀ x y, x ∈ t → y ∈ t → clash x y → x = y.
Definition network_twins (x y : network_row) : Prop :=
  n_subject_id x = n_subject_id y ∧
  (n_label x = n_label y ∨ (n_chain_family x = n_chain_family y ∧ n_chain_id x = n_chain_id y)).
Definition asset_twins (x y : asset_row) : Prop :=
  as_subject_id x = as_subject_id y ∧ as_network_id x = as_network_id y ∧
  ((as_asset_type x = "native"%string ∧ as_asset_type y = "native"%string) ∨
   (as_contract_address x = as_contract_address y ∧ is_Some (as_contract_address x))).
Definition address_twins (x y : address_row) : Prop :=
  ad_status x = "active"%string ∧ ad_status y = "active"%string ∧
  ad_subject_id x = ad_subject_id y ∧ ad_network_id x = ad_network_id y ∧
  (ad_label x = ad_label y ∨ ad_address x = ad_address y).
Record distinct_rows (d : wallet_db) : Prop := {
  dr_networks : no_clash network_twins (networks d);
  dr_assets : no_clash asset_twins (assets d);
  dr_addresses : no_clash address_twins (addresses d);
}.

Lemma no_clash_append {R} (clash : R → R → Prop) t r :
  (∀ x y, clash x y → clash y x) → no_clash clash t → (∀ x, x ∈ t → ¬ clash x r) →
  no_clash clash (append_row r t).
Proof.
  intros Hs Hn Hr x y [Hx| ->]%elem_of_append [Hy| ->]%elem_of_append H; [by apply Hn| | |done].
  - by destruct (Hr x Hx).
  - destruct (Hr y Hy). by apply Hs.
Qed.
(** An update that keeps what a clash is about. *)
Lemma no_clash_update {R} (clash : R → R → Prop) p f t :
  (∀ x y, clash (if p x : bool then f x else x) (if p y then f y else y) → clash x y) →
  no_clash clash t → no_clash clash (update_where p f t).
Proof.
  intros Hf Hn x y (x0 & Hx & ->)%elem_of_update (y0 & Hy & ->)%elem_of_update H.
  by rewrite (Hn x0 y0 Hx Hy (Hf _ _ H)).
Qed.

Section unique.
Context {Dg : Digest} {En : Env} {Sg : Signer} {Hosts : HostNames} {Sound : SoundEnv}.

(** A constraint passes, or nothing is written. *)
Lemma gets_then {A B} (f : wallet_db → A) (k : A → W B) w : (gets f ≫= k) w = k (f (db w)) w.
Proof. done. Qed.
Lemma constraint_then {B} (I : wallet_db → Prop) c msg (k : W B) w :
  I (db w) → (c = true → I (db (k w).2)) → I (db ((constraint c msg ;; k) w).2).
Proof. intros HI H. destruct c; [by apply H|done]. Qed.
Ltac guarded :=
  intros w HI; rewrite gets_then; cbv beta zeta;
  repeat (apply constraint_then; [done|intros ?]).
Lemma unique_false {R} (p : R → bool) t x : negb (exists_where p t) = true → x ∈ t → p x = false.
Proof. rewrite negb_true_iff exists_where_false. auto. Qed.

Lemma insert_network_distinct r : preserves distinct_rows (insert_network r).
Proof.
  unfold insert_network. guarded. destruct HI as [Hn Ha Hd]. split; simpl; try done.
  apply no_clash_append; [unfold network_twins; naive_solver|done|].
  match goal with H : network_unique _ _ = true |- _ =>
    apply andb_true_iff in H as [[_ U1]%andb_true_iff U2] end.
  intros x Hx [Es [El|[Ef Ec]]].
  - apply (unique_false _ _ x U1) in Hx. by rewrite Es El !bool_decide_true in Hx.
  - apply (unique_false _ _ x U2) in Hx. by rewrite Es Ef Ec !bool_decide_true in Hx.
Qed.
Lemma insert_asset_distinct r : preserves distinct_rows (insert_asset r).
Proof.
  unfold insert_asset. guarded. destruct HI as [Hn Ha Hd]. split; simpl; try done.
  apply no_clash_append; [|done|].
  { intros x y (E1 & E2 & [[? ?]|[E ?]]); split_and!; try done; [by left|].
    right. split; [done|]. by rewrite -E. }
  match goal with H : asset_unique _ _ = true |- _ =>
    apply andb_true_iff in H as [[_ U1]%andb_true_iff U2] end.
  intros x Hx (Es & Enet & [[E1 E2]|[E Hsome]]).
  - apply (unique_false _ _ x U2) in Hx. by rewrite Es Enet E1 E2 !bool_decide_true in Hx.
  - apply (unique_false _ _ x U1) in Hx. rewrite E in Hsome.
    by rewrite Es Enet E !bool_decide_true in Hx.
Qed.
Lemma insert_address_distinct r : preserves distinct_rows (insert_address r).
Proof.
  unfold insert_address. guarded. destruct HI as [Hn Ha Hd]. split; simpl; try done.
  apply no_clash_append; [unfold address_twins; naive_solver|done|].
  match goal with H : address_unique _ _ = true |- _ => apply andb_true_iff in H as [_ U1] end.
  intros x Hx (E1 & E2 & E3 & E4 & E5). apply (unique_false _ _ x U1) in Hx.
  assert (Ht : active_twin r x = true); [|congruence]. unfold active_twin.
  rewrite !andb_true_iff orb_true_iff !bool_decide_eq_true. by split_and!.
Qed.
Lemma update_network_distinct id sid l h :
  preserves distinct_rows (update_network id sid (network_revoke l h)).
Proof.
  unfold update_network. guarded. destruct HI as [Hn Ha Hd]. split; simpl; try done.
  apply no_clash_update; [|done]. intros x y. by repeat case_match.
Qed.
Lemma update_asset_distinct id sid l h :
  preserves distinct_rows (update_asset id sid (asset_revoke l h)).
Proof.
  unfold update_asset. guarded. destruct HI as [Hn Ha Hd]. split; simpl; try done.
  apply no_clash_update; [|done]. intros x y. by repeat case_match.
Qed.
Lemma update_address_distinct id sid now r a l h :
  preserves distinct_rows (update_address id sid (address_revoke (life_revoke now r a l) h)).
Proof.
  unfold update_address. guarded. destruct HI as [Hn Ha Hd]. split; simpl; try done.
  apply no_clash_update; [|done]. intros x y (E1 & E2 & E3). revert E1 E2 E3.
  by repeat case_match.
Qed.
#[local] Hint Resolve insert_network_distinct insert_asset_distinct insert_address_distinct
  update_network_distinct update_asset_distinct update_address_distinct : frame.

Lemma distinct_quiet d d' : distinct_rows d → same_registry d d' → distinct_rows d'.
Proof. intros [] (E1&E2&E3&_). by split; rewrite ?E1 ?E2 ?E3. Qed.
Ltac distinct_base := intros ? []; split; simpl; done.
Lemma run_op_distinct op : preserves distinct_rows (run_op op).
Proof.
  destruct (registry_command op) eqn:E.
  - destruct op; try done; cbn [run_op]; frame distinct_base.
  - intros w H. eapply distinct_quiet; [exact H|]. apply run_op_quiet; [done|apply same_registry_refl].
Qed.
Lemma reachable_distinct w : registry_reachable w → distinct_rows (db w).
Proof.
  intros (w0 & E & H). assert (G : distinct_rows (db w0)).
  { rewrite E. split; by intros ? ? ?%not_elem_of_nil. }
  clear E. induction H as [w|w w1 w2 H1 _ IH]; [done|]. apply IH.
  destruct H1 as [op|d' t f He]; [by apply run_op_distinct|by eapply distinct_quiet].
Qed.

(** In every reachable state every stored row of the registry is well
    formed: its reader accepts it and returns it, with its identifiers, its
    lifecycle, its normalised fields and its hash.  For a network this takes
    an RPC URL that the validator accepts as stored. *)
Theorem registry_rows_readable w :
  registry_reachable w →
  (∀ r, r ∈ networks (db w) → network_stable r → _network_from_row r = Ok r) ∧
  (∀ r, r ∈ assets (db w) → _asset_from_row r = Ok r) ∧
  (∀ r, r ∈ addresses (db w) → _address_from_row r = Ok r) ∧
  (∀ r, r ∈ snapshots (db w) → _balance_from_row r = Ok r).
Proof.
  intros G%reachable_registry_ok. split_and!; intros r Hr.
  - apply (g_network _ G r Hr).
  - apply (g_asset _ G r Hr).
  - apply (g_address _ G r Hr).
  - apply (g_snapshot _ G r Hr).
Qed.

(** C16: In every reachable state an asset, an address and an observation refer
    to resources of their own subject on one network; an active asset or
    address has an active network, and a native asset bears the network's
    symbol.  Per subject no chain or label is registered twice, per network no
    contract and no native asset, and active addresses differ in label and
    address. *)
Theorem registry_hierarchy w :
  registry_reachable w →
  (∀ a, a ∈ assets (db w) → ∃ n, n ∈ networks (db w) ∧ n_network_id n = as_network_id a ∧
     n_subject_id n = as_subject_id a ∧
     (as_asset_type a = "native"%string → as_symbol a = n_native_symbol n) ∧
     (as_status a = "active"%string → n_status n = "active"%string)) ∧
  (∀ a, a ∈ addresses (db w) → ∃ n, n ∈ networks (db w) ∧ n_network_id n = ad_network_id a ∧
     n_subject_id n = ad_subject_id a ∧
     (ad_status a = "active"%string → n_status n = "active"%string)) ∧
  (∀ s, s ∈ snapshots (db w) → ∃ a b, a ∈ assets (db w) ∧ b ∈ addresses (db w) ∧
     as_asset_id a = sn_asset_id s ∧ ad_address_id b = sn_address_id s ∧
     as_network_id a = sn_network_id s ∧ ad_network_id b = sn_network_id s ∧
     as_subject_id a = sn_subject_id s ∧ ad_subject_id b = sn_subject_id s) ∧
  distinct_rows (db w).
Proof.
  intros H. pose proof (reachable_distinct w H) as D. apply reachable_registry_ok in H as G.
  split_and!; [..|done].
  - intros a (_ & _ & Ha)%(g_asset _ G). exact Ha.
  - intros a (_ & _ & Ha)%(g_address _ G). exact Ha.
  - intros s (_ & _ & (a & Ha & ? & ? & ?) & (b & Hb & ? & ? & ?))%(g_snapshot _ G).
    by exists a, b.
Qed.
End unique.
