(* ===== verification/RegistryVerify.v ===== *)
(** * The registry check accepts every reachable registry

    [verify_registry] walks the sorted revision rows of a subject once, with
    the identifier of the current resource and a running count.  Here the
    walk is shown to accept exactly what [histories_good] describes, and the
    whole check to pass in every reachable state, with the counts of the
    tables.  At the end: a network whose stored URL does not re-validate to
    itself can never be read, revoked or checked again. *)

From stdpp Require Import sorting relations.
From S2P Require Import Prelude Tables PyStr Json Digest Time Sorting WalletTypes RegistryTypes.
From S2P Require Import WalletTransfer WalletDb WalletEconomy RegistryDb RegistryStore.
From S2P Require Import RegistryIntegrity WalletOrders WalletSubmissions WalletExecution.
From S2P Require Import WalletEngine WalletEffects RegistryFrame WalletSteps WalletSystem.
From S2P Require Import WalletRecords RegistryInv RegistrySteps.
Local Open Scope Z_scope.

(** ** Reads that succeed *)

Definition yields {D A} (m : M D A) (w : world D) (a : A) : Prop := m w = (Ok a, w).
Section yields.
Context {D : Type}.
Implicit Types w : world D.
Lemma yields_bind {A B} (m : M D A) (k : A → M D B) w a b :
  yields m w a → yields (k a) w b → yields (m ≫= k) w b.
Proof. unfold yields, mbind, M_bind. by intros ->. Qed.
Lemma yields_gets {A B} (f : D → A) (k : A → M D B) w b :
  yields (k (f (db w))) w b → yields (gets f ≫= k) w b.
Proof. by apply yields_bind. Qed.
Lemma yields_lift {A B} (r : result A) a (k : A → M D B) w b :
  r = Ok a → yields (k a) w b → yields (lift r ≫= k) w b.
Proof. intros ->. by apply yields_bind. Qed.
Lemma yields_raise_if {B} c e (k : unit → M D B) w b :
  c = false → yields (k tt) w b → yields (raise_if c e ≫= k) w b.
Proof. intros ->. by apply yields_bind. Qed.
Lemma yields_for_each {A} (f : A → M D unit) l w :
  (∀ x, x ∈ l → yields (f x) w tt) → yields (for_each f l) w tt.
Proof.
  induction l as [|x l IH]; intros H; [done|]. simpl.
  eapply yields_bind; [apply H, here|]. apply IH. intros y Hy. by apply H, there.
Qed.
Lemma yields_read_transaction {A} (m : M D A) w a :
  yields m w a → yields (read_transaction m) w a.
Proof. unfold yields, read_transaction, transaction. by intros ->. Qed.
End yields.

(** ** One walk over the sorted revisions *)

#[global] Instance revision_preorder : PreorderB revision_leb.
Proof.
  assert (P : PreorderB (lexb v_resource_id str_leb (lexb v_revision_number Z.leb
                (λ x y, str_leb (v_revision_id x) (v_revision_id y))))).
  { apply lexb_preorder; [exact str_preorder|exact str_antisym|].
    apply lexb_preorder; [exact Zleb_preorder|exact Zleb_antisym|].
    exact (image_preorder v_revision_id str_leb str_preorder). }
  assert (E : ∀ x y, lexb v_resource_id str_leb (lexb v_revision_number Z.leb
    (λ x y, str_leb (v_revision_id x) (v_revision_id y))) x y = revision_leb x y).
  { intros x y. unfold lexb, revision_leb. case_bool_decide; [|done].
    case_bool_decide as E; [by rewrite (proj2 (Z.eqb_eq _ _) E)|].
    by rewrite (proj2 (Z.eqb_neq _ _) E). }
  split; intros *; rewrite -!E; [apply leb_total|apply leb_trans].
Qed.
Lemma revision_leb_id x y :
  revision_leb x y = true → str_leb (v_resource_id x) (v_resource_id y) = true.
Proof. unfold revision_leb. case_bool_decide as E; [|done]. intros _. rewrite E. exact (leb_refl str_leb _). Qed.

Section walk.
Context {Dg : Digest} {Hosts : HostNames}.
Context (k : resource_type) (sid : string) (resources : list head)
  (parent : string → option string) (rows : list revision_row).
Abbreviation id_of := v_resource_id.
Abbreviation rows_of x := (select (λ r, id_of r == x)).
Hypothesis sorted_rows : StronglySorted (λ x y, revision_leb x y = true) rows.
Hypothesis owned : ∀ r, r ∈ rows → id_of r ≠ EmptyString ∧ v_subject_id r = sid ∧
  parent (id_of r) = Some sid ∧ is_Some (find_head resources (id_of r)).
Hypothesis histories : ∀ id h, find_head resources id = Some h →
  history_good k h (rows_of id rows).

(** The state after the rows [p]: the resource of the last row, how many of
    its rows have been seen, and the resources before it. *)
Definition walked (p : list revision_row) (st : history) : Prop :=
  match last p with
  | None => st = {| hy_current := None; hy_count := 0; hy_done := [] |}
  | Some r => hy_current st = Some (id_of r) ∧
      hy_count st = Z.of_nat (length (rows_of (id_of r) p)) ∧
      ∀ x, x ∈ hy_done st ↔ x ∈ map id_of p ∧ x ≠ id_of r
  end.

Lemma of_snoc x p r : rows_of x (p ++ [r]) = rows_of x p ++ (if id_of r == x then [r] else []).
Proof. rewrite select_app. unfold select. simpl. by destruct (bool_decide _). Qed.
(** Rows of one resource are adjacent. *)
Lemma adjacent p r s y :
  rows = p ++ r :: s → last p = Some y → id_of y ≠ id_of r →
  rows_of (id_of r) p = [] ∧ rows_of (id_of y) (r :: s) = [].
Proof.
  intros E (p' & ->)%last_Some Hne.
  pose proof sorted_rows as Hall. rewrite E in Hall.
  apply sorted_app in Hall as (Hp & Hs & Hps).
  assert (Hyr : str_leb (id_of y) (id_of r) = true).
  { apply revision_leb_id, Hps; [|apply here]. apply elem_of_app. right. apply here. }
  apply sorted_app in Hp as (_ & _ & Hpy). split; apply select_none; intros x Hx.
  - apply bool_decide_eq_false. intros Ex. apply Hne, str_antisym; [done|].
    apply elem_of_app in Hx as [Hx| ->%list_elem_of_singleton]; [|by rewrite Ex].
    rewrite -Ex. apply revision_leb_id, Hpy; [done|apply here].
  - apply bool_decide_eq_false. intros Ex. apply Hne, str_antisym; [done|]. rewrite -Ex.
    apply elem_of_cons in Hx as [->|Hx]; [exact (leb_refl str_leb _)|].
    inversion Hs as [|? ? _ Hrs]; subst. rewrite -> Forall_forall in Hrs.
    by apply revision_leb_id, Hrs.
Qed.

Lemma finish_walked p s st :
  rows = p ++ s → (∀ y, last p = Some y → rows_of (id_of y) s = []) → walked p st →
  ∃ done, finish k resources st = Ok done ∧ ∀ x, x ∈ done ↔ x ∈ map id_of p.
Proof.
  unfold walked, finish. intros E Hlast. destruct (last p) as [y|] eqn:El.
  - intros (-> & Hc & Hd). assert (Hy : y ∈ rows).
    { rewrite E. apply last_Some in El as [p' ->]. rewrite !elem_of_app list_elem_of_singleton. auto. }
    destruct (owned y Hy) as (_ & _ & _ & [h Hh]). rewrite Hh.
    destruct (histories _ _ Hh) as [Hlen _]. rewrite E select_app (Hlast y eq_refl) app_nil_r in Hlen.
    rewrite Hc Hlen Z.eqb_refl. eexists. split; [done|]. intros x. rewrite elem_of_cons Hd.
    apply last_Some in El as [p' ->]. rewrite map_app elem_of_app. simpl.
    rewrite list_elem_of_singleton. destruct (decide (x = id_of y)); naive_solver.
  - intros ->. simpl. apply last_None in El as ->. eexists. split; [done|]. by intros x.
Qed.
(** Whether or not the resource changes, its rows in [p] were counted. *)
Lemma enter_walked p r s st :
  rows = p ++ r :: s → walked p st →
  ∃ st', enter k resources (id_of r) st = Ok st' ∧
    hy_count st' = Z.of_nat (length (rows_of (id_of r) p)) ∧
    ∀ x, x ∈ hy_done st' ↔ x ∈ map id_of p ∧ x ≠ id_of r.
Proof.
  intros E Hw. unfold enter. pose proof Hw as Hw'. unfold walked in Hw'.
  destruct (last p) as [y|] eqn:El.
  - destruct Hw' as (Hcur & Hc & Hd). destruct (decide (id_of y = id_of r)) as [Ey|Ey].
    { rewrite Hcur Ey bool_decide_true //. exists st. by rewrite -Ey. }
    rewrite Hcur bool_decide_false; [congruence|].
    destruct (adjacent p r s y E El Ey) as [Hnone Hno].
    destruct (finish_walked p (r :: s) st E) as (dn & -> & Hdn); [|done|].
    { intros y'. rewrite El. by intros [= <-]. }
    eexists. split; [done|]. rewrite Hnone. split; [done|]. intros x. cbn [hy_done]. rewrite Hdn.
    split; [|by intros []]. intros Hx. split; [done|]. intros ->.
    apply list_elem_of_fmap in Hx as (z & Ez & Hz).
    assert (Hz' : z ∈ rows_of (id_of r) p) by (apply elem_of_select; by rewrite bool_decide_true).
    rewrite Hnone in Hz'. by apply not_elem_of_nil in Hz'.
  - apply last_None in El as ->. subst st. eexists. split; [done|]. split; [done|].
    intros x. simpl. split; [by intros ?%not_elem_of_nil|by intros [?%not_elem_of_nil _]].
Qed.
Lemma verify_revision_walked p r s st :
  rows = p ++ r :: s → walked p st →
  ∃ st', verify_revision k sid resources parent st r = Ok st' ∧ walked (p ++ [r]) st'.
Proof.
  intros E Hw. assert (Hr : r ∈ rows) by (rewrite E elem_of_app elem_of_cons; auto).
  destruct (owned r Hr) as (Hne & Hs & Hp & [h Hh]).
  unfold verify_revision. rewrite Hh Hs Hp (bool_decide_false _ Hne).
  rewrite (bool_decide_true (sid = sid)) // (bool_decide_true (Some sid = Some sid)) //.
  cbn [negb orb fail_if mbind result_bind].
  destruct (enter_walked p r s st E Hw) as (st1 & -> & Hc & Hd). simpl.
  destruct (histories _ _ Hh) as [Hlen Hfit].
  set (n := length (rows_of (id_of r) p)) in *.
  assert (Hn : rows_of (id_of r) rows !! n = Some r).
  { rewrite E select_app. unfold select at 2. simpl. rewrite bool_decide_true //.
    rewrite lookup_app_r; [done|]. by rewrite Nat.sub_diag. }
  destruct (Hfit n r Hn) as (F1 & F2 & F3 & F4 & F5 & F6 & F7 & F8 & F9 & F10).
  apply lookup_lt_Some in Hn. rewrite Hlen in Hn.
  rewrite Hc F3 F4 F5 F6 F10 Z.eqb_refl (proj2 (Z.leb_le _ _)); [lia|].
  rewrite (bool_decide_false _ F7) (bool_decide_false _ F8) F9 Hs F3 !bool_decide_true //. simpl. eexists. split; [done|].
  unfold walked. rewrite last_snoc. simpl. split; [done|]. split.
  - rewrite of_snoc bool_decide_true // length_app. simpl. unfold n. lia.
  - intros x. rewrite Hd map_app elem_of_app. simpl. rewrite list_elem_of_singleton. naive_solver.
Qed.
Lemma verify_rows_walked s p st :
  rows = p ++ s → walked p st →
  ∃ st', verify_revision_rows k sid resources parent st s = Ok st' ∧ walked rows st'.
Proof.
  revert p st. induction s as [|r s IH]; intros p st E Hw; simpl.
  - rewrite app_nil_r in E. subst p. eauto.
  - destruct (verify_revision_walked p r s st E Hw) as (st1 & -> & Hw1). simpl.
    apply (IH (p ++ [r])); [by rewrite -app_assoc|done].
Qed.
(** The walk succeeds, having seen the resources of the rows. *)
Lemma walk_rows_ok :
  ∃ st done, verify_revision_rows k sid resources parent
      {| hy_current := None; hy_count := 0; hy_done := [] |} rows = Ok st ∧
    finish k resources st = Ok done ∧ ∀ x, x ∈ done ↔ x ∈ map id_of rows.
Proof.
  destruct (verify_rows_walked rows [] {| hy_current := None; hy_count := 0; hy_done := [] |})
    as (st & -> & Hw); [done|done|].
  destruct (finish_walked rows [] st) as (dn & Hf & Hdn); [by rewrite app_nil_r|done|done|]. eauto.
Qed.
End walk.

(** ** Histories of a subject *)

Lemma select_select {R} (p q : R → bool) l : select p (select q l) = select (λ r, p r && q r) l.
Proof.
  unfold select. induction l as [|x l IH]; [done|]. simpl.
  destruct (q x); simpl; destruct (p x); simpl; by rewrite IH.
Qed.

Section histories.
Context {Dg : Digest} {Hosts : HostNames}.

Lemma expected_count h :
  Z.of_nat (length (expected_statuses h)) = if l_status (h_life h) == "active" then 1 else 2.
Proof. unfold expected_statuses. by destruct (bool_decide _). Qed.
(** A history is stored in the order of its numbers. *)
Lemma history_sorted k h l :
  history_good k h l → StronglySorted (λ x y, revision_leb x y = true) l.
Proof.
  intros [Hl Hf]. assert (length l ≤ 2)%nat.
  { rewrite Hl. unfold expected_statuses. destruct (bool_decide _); simpl; lia. }
  destruct l as [|a [|b [|]]]; simpl in *; try lia; repeat constructor.
  destruct (Hf 0%nat a eq_refl) as (Ia & _ & Na & _), (Hf 1%nat b eq_refl) as (Ib & _ & Nb & _).
  unfold revision_leb. by rewrite Ia Ib bool_decide_true // Na Nb.
Qed.

Section table.
Context (k : resource_type) (sid : string) (hs : list head) (l : list revision_row).
Hypothesis unique : NoDup (map h_id hs).
Hypothesis good : histories_good k hs l.

Lemma find_head_of h : h ∈ hs → find_head hs (h_id h) = Some h.
Proof. intros. by apply (fetchone_key h_id). Qed.
(** Every revision belongs to the subject of its resource. *)
Lemma revision_resource r :
  r ∈ l → ∃ h, h ∈ hs ∧ h_id h = v_resource_id r ∧ v_subject_id r = h_subject h ∧
    h_subject <$> find_head hs (v_resource_id r) = Some (h_subject h).
Proof.
  destruct good as [Hh Hr]. intros Hin. destruct (Hr r Hin) as (h & Hh' & E). exists h.
  split_and!; try done.
  - destruct (Hh h Hh') as [_ Hf]. assert (Hs : r ∈ revisions_of (h_id h) l).
    { apply elem_of_select. by rewrite E bool_decide_true. }
    apply list_elem_of_lookup in Hs as [i Hi]. by apply Hf in Hi as (_ & ? & _).
  - by rewrite -E find_head_of.
Qed.
(** As many revisions as the statuses of the resources ask for. *)
Lemma revision_total :
  _revision_count (select (λ h, h_subject h == sid) hs)
  = count_where (λ r, v_subject_id r == sid) l.
Proof.
  set (own := select (λ h, h_subject h == sid) hs). unfold _revision_count.
  transitivity (sum_by (λ h, sum_by (λ r, if v_resource_id r == h_id h then 1 else 0) l) own).
  { apply sum_by_ext. intros h [Hh _]%elem_of_select. rewrite -expected_count -count_as_sum.
    destruct (proj1 good h Hh) as [<- _]. done. }
  rewrite sum_by_swap count_as_sum. apply sum_by_ext. intros r Hr.
  destruct (revision_resource r Hr) as (h & Hh & Eid & -> & _).
  transitivity (count_where (λ x, h_id x == v_resource_id r) own).
  { rewrite count_as_sum. apply sum_by_ext. intros x _. by repeat case_bool_decide. }
  rewrite (count_key h_id); [by apply NoDup_select|]. rewrite -Eid.
  case_bool_decide as E; case_bool_decide as E0; try done.
  - apply list_elem_of_fmap in E as (x & E & [Hx Es%bool_decide_eq_true]%elem_of_select).
    destruct E0. by rewrite (key_unique h_id hs h x unique Hh Hx).
  - destruct E. apply list_elem_of_fmap. exists h. split; [done|]. apply elem_of_select.
    by rewrite bool_decide_true.
Qed.
End table.
End histories.

Section check.
Context {Dg : Digest} {Hosts : HostNames}.
Context (w : world wallet_db) (sid : string).

Lemma verify_revisions_ok k resources :
  NoDup (map h_id (heads k (db w))) → histories_good k (heads k (db w)) (revisions k (db w)) →
  resources ≡ₚ select (λ h, h_subject h == sid) (heads k (db w)) →
  (∀ h, h ∈ resources → h_id h ≠ EmptyString) →
  yields (_verify_revisions k sid resources) w tt.
Proof.
  intros Hu Hg HP Hne. unfold _verify_revisions. apply yields_gets, yields_gets.
  set (q := λ r, _ || _). set (hs := heads k (db w)) in *. set (l := revisions k (db w)) in *.
  assert (Hin : ∀ h, h ∈ resources ↔ h ∈ hs ∧ h_subject h = sid).
  { intros h. by rewrite HP elem_of_select bool_decide_eq_true. }
  assert (Hur : NoDup (map h_id resources)).
  { rewrite HP. by apply NoDup_select. }
  assert (Hq : ∀ r h, r ∈ l → h ∈ hs → h_id h = v_resource_id r → q r = (h_subject h == sid)).
  { intros r h Hr Hh E. destruct (revision_resource k hs l Hu Hg r Hr) as (h' & Hh' & E' & Es & Ef).
    assert (h' = h) as -> by (apply (key_unique h_id hs); [done..|congruence]).
    unfold q, parent_subject. fold hs. rewrite Es Ef. by repeat case_bool_decide; simplify_eq. }
  assert (Hof : ∀ h, h ∈ resources → select (λ r, v_resource_id r == h_id h)
     (sort_by revision_leb (select q l)) = revisions_of (h_id h) l).
  { intros h [Hh Hs]%Hin. rewrite -sort_by_select.
    assert (select (λ r, v_resource_id r == h_id h) (select q l) = revisions_of (h_id h) l) as ->.
    { unfold revisions_of. rewrite select_select. apply select_ext. intros r Hr.
      case_bool_decide as E; [|done]. by rewrite (Hq r h Hr Hh) // bool_decide_true. }
    apply (sort_by_id revision_leb), (history_sorted k h), Hg, Hh. }
  destruct (walk_rows_ok k sid resources (parent_subject k (db w)) (sort_by revision_leb (select q l)))
    as (st & dn & Hv & Hf & Hd).
  - apply sort_by_sorted, _.
  - intros r [Hr Hqr]%elem_of_sort_by%elem_of_select.
    destruct (revision_resource k hs l Hu Hg r Hr) as (h & Hh & E & Es & Ef).
    rewrite (Hq r h Hr Hh E) bool_decide_eq_true in Hqr.
    assert (Hres : h ∈ resources) by by apply Hin. split_and!.
    + rewrite -E. by apply Hne.
    + congruence.
    + unfold parent_subject. fold hs. by rewrite Ef Hqr.
    + eapply fetchone_is_Some; [exact Hres|]. by apply bool_decide_eq_true.
  - intros id h [Hres <-%bool_decide_eq_true]%fetchone_Some. rewrite Hof //. apply Hg. by apply Hin.
  - eapply yields_lift; [exact Hv|]. eapply yields_lift; [exact Hf|].
    apply yields_for_each. intros h Hres. unfold yields, raise_if.
    rewrite bool_decide_true; [|done]. apply Hd, list_elem_of_fmap.
    assert (Hlen : length (revisions_of (h_id h) l) = length (expected_statuses h)).
    { apply Hg. by apply Hin. }
    rewrite -Hof // in Hlen. 
    destruct (select (λ r, v_resource_id r == h_id h) _) as [|r rs] eqn:Es.
    { unfold expected_statuses in Hlen. by destruct (bool_decide _). }
    exists r. assert (Hr : r ∈ r :: rs) by apply here. rewrite -Es in Hr.
    apply elem_of_select in Hr as [Hr E%bool_decide_eq_true]. done.
Qed.

(** ** Audits *)

Lemma verify_audit_ok aid subject action payload :
  NoDup (map a_audit_id (audits (db w))) → audit_proves (db w) aid subject action payload →
  yields (_verify_audit (Some aid) subject action payload) w tt.
Proof.
  intros Hu [Hne (a & m & Ha & <- & Es & Eact & Hb & Hs & Ht & Hl & Hd & Hc)].
  unfold _verify_audit. destruct (a_audit_id a) as [|c t] eqn:E; [done|]. apply yields_gets.
  assert (fetchone (λ x, a_audit_id x == String c t) (audits (db w)) = Some a) as ->.
  { rewrite -E. by apply (fetchone_key a_audit_id). }
  apply yields_raise_if.
  { rewrite Es Eact Hb Ht (bool_decide_false _ Hs) !bool_decide_true //. }
  eapply yields_lift; [by rewrite Hl|]. unfold yields, raise_if.
  by rewrite Hd Hc bool_decide_true.
Qed.
Lemma verify_resource_audits_ok k h payload :
  NoDup (map a_audit_id (audits (db w))) → audited_resource k (db w) h payload →
  yields (_verify_resource_audits k h payload) w tt.
Proof.
  intros Hu [Hc Hr]. unfold _verify_resource_audits.
  eapply yields_bind; [by apply verify_audit_ok|]. case_bool_decide as E; [|done].
  destruct (Hr E) as (a & r & -> & -> & Hp). by apply verify_audit_ok.
Qed.

(** ** Rows *)

Hypothesis consistent : registry_ok (db w).
Hypothesis stable : ∀ n, n ∈ networks (db w) → n_subject_id n = sid → network_stable n.

Definition owned_networks : list network_row := select (λ r, n_subject_id r == sid) (networks (db w)).
Definition owned_assets : list asset_row := select (λ r, as_subject_id r == sid) (assets (db w)).
Definition owned_addresses : list address_row :=
  select (λ r, ad_subject_id r == sid) (addresses (db w)).
Definition owned_snapshots : list snapshot_row :=
  select (λ r, sn_subject_id r == sid) (snapshots (db w)).

Lemma elem_of_owned {R} (s : R → string) t r : r ∈ select (λ r, s r == sid) t ↔ r ∈ t ∧ s r = sid.
Proof. by rewrite elem_of_select bool_decide_eq_true. Qed.
Lemma network_by_id_of n : n ∈ networks (db w) → network_by_id (db w) (n_network_id n) = Some n.
Proof. intros. apply (fetchone_key n_network_id); [apply consistent|done]. Qed.
Lemma asset_by_id_of n : n ∈ assets (db w) → asset_by_id (db w) (as_asset_id n) = Some n.
Proof. intros. apply (fetchone_key as_asset_id); [apply consistent|done]. Qed.
Lemma address_by_id_of n : n ∈ addresses (db w) → address_by_id (db w) (ad_address_id n) = Some n.
Proof. intros. apply (fetchone_key ad_address_id); [apply consistent|done]. Qed.

Lemma asset_joined r :
  r ∈ assets (db w) → joined_subject (db w) (as_network_id r) = Some (as_subject_id r).
Proof.
  intros (_ & _ & n & Hn & <- & <- & _)%(g_asset _ consistent).
  unfold joined_subject. by rewrite network_by_id_of.
Qed.
Lemma address_joined r :
  r ∈ addresses (db w) → joined_subject (db w) (ad_network_id r) = Some (ad_subject_id r).
Proof.
  intros (_ & _ & n & Hn & <- & <- & _)%(g_address _ consistent).
  unfold joined_subject. by rewrite network_by_id_of.
Qed.
Lemma snapshot_joined s :
  s ∈ snapshots (db w) → snapshot_owners (db w) s = replicate 4 (Some (sn_subject_id s)) ∧
    as_network_id <$> asset_by_id (db w) (sn_asset_id s) = Some (sn_network_id s) ∧
    ad_network_id <$> address_by_id (db w) (sn_address_id s) = Some (sn_network_id s).
Proof.
  intros (_ & (n & Hn & En' & En) & (a & Ha & Eia & Ea & Ea') & (b & Hb & Eib & Eb & Eb'))%(g_snapshot _ consistent).
  unfold snapshot_owners, joined_subject. rewrite -En' -Eia -Eib.
  rewrite network_by_id_of // asset_by_id_of // address_by_id_of //. simpl.
  by rewrite En Ea Eb Ea' Eb' En'.
Qed.

Lemma verify_network_ok r : r ∈ owned_networks → yields (verify_network r) w tt.
Proof.
  intros [Hr Hs]%elem_of_owned. destruct (g_network _ consistent r Hr) as [Hread Haud].
  unfold verify_network. eapply yields_lift; [by apply Hread, stable|].
  apply verify_resource_audits_ok; [apply consistent|done].
Qed.
Lemma owned_network nets n id :
  nets ≡ₚ owned_networks → n ∈ networks (db w) → n_subject_id n = sid → n_network_id n = id →
  fetchone (λ x, n_network_id x == id) nets = Some n.
Proof.
  intros HP Hn Hs <-. apply (fetchone_key n_network_id).
  - rewrite HP. apply NoDup_select, consistent.
  - rewrite HP. by apply elem_of_owned.
Qed.
Lemma verify_asset_ok nets r :
  nets ≡ₚ owned_networks → r ∈ owned_assets → yields (verify_asset sid nets r) w tt.
Proof.
  intros HP [Hr Hs]%elem_of_owned.
  destruct (g_asset _ consistent r Hr) as (Hread & Haud & n & Hn & Eid & En & Hsym & Hact).
  unfold verify_asset. eapply yields_lift; [done|]. apply yields_gets. rewrite asset_joined //.
  apply yields_raise_if; [by rewrite Hs !bool_decide_true|].
  eapply yields_lift; [by rewrite (owned_network nets n) //; congruence|].
  apply yields_raise_if; [case_bool_decide; [|done]; by rewrite bool_decide_true; auto|].
  apply yields_raise_if; [case_bool_decide; [|done]; by rewrite bool_decide_true; auto|].
  apply verify_resource_audits_ok; [apply consistent|done].
Qed.
Lemma verify_address_ok nets r :
  nets ≡ₚ owned_networks → r ∈ owned_addresses → yields (verify_address sid nets r) w tt.
Proof.
  intros HP [Hr Hs]%elem_of_owned.
  destruct (g_address _ consistent r Hr) as (Hread & Haud & n & Hn & Eid & En & Hact).
  unfold verify_address. eapply yields_lift; [done|]. apply yields_gets. rewrite address_joined //.
  apply yields_raise_if; [by rewrite Hs !bool_decide_true|].
  eapply yields_lift; [by rewrite (owned_network nets n) //; congruence|].
  apply yields_raise_if; [case_bool_decide; [|done]; by rewrite bool_decide_true; auto|].
  apply verify_resource_audits_ok; [apply consistent|done].
Qed.
Lemma verify_snapshot_ok nets as_ ad_ s :
  nets ≡ₚ owned_networks → as_ ≡ₚ owned_assets → ad_ ≡ₚ owned_addresses →
  s ∈ owned_snapshots → yields (verify_snapshot sid nets as_ ad_ s) w tt.
Proof.
  intros Hn Ha Hb [Hr Hs]%elem_of_owned.
  destruct (g_snapshot _ consistent s Hr) as (Hread & (n & Hn' & En & Esn)
    & (a & Ha' & Ea & Esa & _) & (b & Hb' & Eb & Esb & _)).
  destruct (snapshot_joined s Hr) as (Ho & Ejoin & Ejoin').
  unfold verify_snapshot. eapply yields_lift; [done|]. apply yields_gets. unfold id.
  apply yields_raise_if; [by rewrite Ho Hs; simpl; rewrite bool_decide_true|].
  unfold yields, raise_if. rewrite Ejoin Ejoin' !(bool_decide_true (Some _ = Some _)) //.
  rewrite (proj2 (exists_where_true _ nets)).
  { exists n. rewrite Hn elem_of_owned En bool_decide_true //. split; [|done]. split; congruence. }
  rewrite (proj2 (exists_where_true _ as_)).
  { exists a. rewrite Ha elem_of_owned Ea bool_decide_true //. split; [|done]. split; congruence. }
  rewrite (proj2 (exists_where_true _ ad_)) //.
  exists b. rewrite Hb elem_of_owned Eb bool_decide_true //. split; [|done]. split; congruence.
Qed.

(** ** The check *)

Definition registry_totals : list (string * Z) :=
  [("wallet_networks"%string, Z.of_nat (length owned_networks));
   ("wallet_network_revisions"%string,
     count_where (λ r, v_subject_id r == sid) (network_revisions (db w)));
   ("wallet_assets"%string, Z.of_nat (length owned_assets));
   ("wallet_asset_revisions"%string,
     count_where (λ r, v_subject_id r == sid) (asset_revisions (db w)));
   ("wallet_addresses"%string, Z.of_nat (length owned_addresses));
   ("wallet_address_revisions"%string,
     count_where (λ r, v_subject_id r == sid) (address_revisions (db w)));
   ("wallet_balance_snapshots"%string, Z.of_nat (length owned_snapshots))].

Lemma select_map {R S} (f : R → S) p t : select p (map f t) = map f (select (λ r, p (f r)) t).
Proof.
  unfold select. induction t as [|x t IH]; [done|]. simpl. destruct (p (f x)); simpl; by rewrite IH.
Qed.
Lemma heads_unique k : NoDup (map h_id (heads k (db w))).
Proof. destruct k; simpl; rewrite map_map; apply consistent. Qed.
Lemma id_nonempty id s field : identity_ok id s field = true → id ≠ EmptyString.
Proof. by destruct id. Qed.

(** The histories of the resources of the subject, in any order. *)
Lemma verify_owned_revisions k resources :
  resources ≡ₚ select (λ h, h_subject h == sid) (heads k (db w)) →
  yields (_verify_revisions k sid resources) w tt ∧
  _revision_count resources = count_where (λ r, v_subject_id r == sid) (revisions k (db w)).
Proof.
  intros HP. pose proof (g_histories _ consistent k) as Hg. split.
  - apply verify_revisions_ok; [apply heads_unique|done|done|]. intros h. rewrite HP.
    intros [Hh Hs]%elem_of_owned. destruct k; simpl in Hh;
      apply list_elem_of_fmap in Hh as (r & -> & Hr); simpl in *.
    + destruct (g_network _ consistent r Hr) as [Hread _].
      destruct (proj1 (network_from_row_iff r r) (Hread (stable r Hr Hs))) as (_ & _ & Hi & _).
      by eapply id_nonempty.
    + destruct (g_asset _ consistent r Hr) as [(_ & _ & Hi & _)%asset_from_row_iff _].
      by eapply id_nonempty.
    + destruct (g_address _ consistent r Hr) as [(_ & _ & Hi & _)%address_from_row_iff _].
      by eapply id_nonempty.
  - rewrite -(revision_total k sid _ _ (heads_unique k) Hg). by apply sum_by_perm.
Qed.

Lemma verify_registry_ok sid' :
  validate_subject_id sid = Ok sid' → yields (verify_registry sid) w registry_totals.
Proof.
  intros Hsid. unfold verify_registry. eapply yields_lift; [exact Hsid|].
  apply yields_read_transaction, yields_gets. fold owned_networks.
  set (nets := sort_by _ owned_networks).
  assert (Hnets : nets ≡ₚ owned_networks) by apply sort_by_perm.
  destruct (verify_owned_revisions RNetwork (map network_head nets)) as [Hrn Hcn].
  { simpl. by rewrite select_map Hnets. }
  eapply yields_bind; [apply yields_for_each; intros r Hr; apply verify_network_ok; by rewrite -Hnets|].
  eapply yields_bind; [exact Hrn|]. apply yields_gets.
  rewrite (select_ext _ (λ r, as_subject_id r == sid) (assets (db w))).
  { intros r Hr. rewrite asset_joined //. by repeat case_bool_decide; simplify_eq. }
  fold owned_assets. set (as_ := sort_by _ owned_assets).
  assert (Has : as_ ≡ₚ owned_assets) by apply sort_by_perm.
  destruct (verify_owned_revisions RAsset (map asset_head as_)) as [Hra Hca].
  { simpl. by rewrite select_map Has. }
  eapply yields_bind; [apply yields_for_each; intros r Hr; apply verify_asset_ok; by rewrite -?Has|].
  eapply yields_bind; [exact Hra|]. apply yields_gets.
  rewrite (select_ext _ (λ r, ad_subject_id r == sid) (addresses (db w))).
  { intros r Hr. rewrite address_joined //. by repeat case_bool_decide; simplify_eq. }
  fold owned_addresses. set (ad_ := sort_by _ owned_addresses).
  assert (Had : ad_ ≡ₚ owned_addresses) by apply sort_by_perm.
  destruct (verify_owned_revisions RAddress (map address_head ad_)) as [Hrd Hcd].
  { simpl. by rewrite select_map Had. }
  eapply yields_bind; [apply yields_for_each; intros r Hr; apply verify_address_ok; by rewrite -?Had|].
  eapply yields_bind; [exact Hrd|]. apply yields_gets.
  rewrite (select_ext _ (λ r, sn_subject_id r == sid) (snapshots (db w))).
  { intros r Hr. destruct (snapshot_joined r Hr) as (-> & _).
    cbn [existsb replicate]. destruct (decide (sn_subject_id r = sid)) as [->|E];
      [by rewrite !bool_decide_true|by rewrite !bool_decide_false; [congruence..|]]. }
  fold owned_snapshots. set (sn := sort_by _ owned_snapshots).
  assert (Hsn : sn ≡ₚ owned_snapshots) by apply sort_by_perm.
  eapply yields_bind.
  { apply yields_for_each. intros s Hs. apply verify_snapshot_ok; try done. by rewrite -Hsn. }
  unfold yields, registry_totals. rewrite Hcn Hca Hcd. by rewrite Hnets Has Had Hsn.
Qed.
End check.

Section reachable.
Context {Dg : Digest} {En : Env} {Sg : Signer} {Hosts : HostNames} {Sound : SoundEnv}.

(** C3: After any sequence of wallet commands and foreign writes, the
    registry check of a subject whose stored RPC URLs the validator still
    accepts unchanged returns the counts of its tables: registrations,
    revocations and observations never leave a registry that the program's
    own check rejects. *)
Theorem registry_passes_check w sid sid' :
  registry_reachable w → validate_subject_id sid = Ok sid' →
  (∀ n, n ∈ networks (db w) → n_subject_id n = sid → network_stable n) →
  verify_registry sid w = (Ok (registry_totals w sid), w).
Proof.
  intros G%reachable_registry_ok Hs Hst. by eapply verify_registry_ok.
Qed.
End reachable.

(** ** A stored URL the validator does not accept as it is *)

Section locked.
Context {Dg : Digest} {En : Env} {Sg : Signer} {Hosts : HostNames} {Sound : SoundEnv}.
Context (n : network_row) (unstable : ¬ network_stable n).

Lemma unstable_unreadable r : _network_from_row n ≠ Ok r.
Proof.
  intros (_ & H & _)%network_from_row_iff. apply unstable. unfold network_stable.
  unfold validate_WalletNetworkInput in H. do 6 step H as ? _. step H as u Hu.
  injection H as _ _ E. simpl in *. by rewrite -E in Hu |- *.
Qed.
Lemma audit_networks sid action actor p w aid w' :
  ok (_append_audit sid action actor p) w aid w' → networks (db w') = networks (db w).
Proof.
  unfold _append_audit, insert_audit. intros H. run H as [Ed _]%new_id_ok.
  run H as [Ed' _]%utc_now_ok. run H as Hi. apply ok_ret in H as [_ <-].
  run Hi as [<- <-]%ok_gets. do 2 run Hi as [_ <-]%ok_constraint. apply ok_modify in Hi as ->.
  simpl. by rewrite Ed' Ed.
Qed.

Definition holds_row (d : wallet_db) : Prop :=
  NoDup (map n_network_id (networks d)) ∧ n ∈ networks d.
Lemma revoke_holds_row id r actor sid : preserves holds_row (revoke_network id r actor sid).
Proof.
  unfold revoke_network.
  do 3 (apply preserves_bind; [by apply preserves_silent; solve_silent|intros ?]).
  apply preserves_bind;
    [|intros [|]; apply preserves_silent; [apply silent_ret|apply silent_get_network]].
  apply preserves_transaction. intros wa u wz H [Hd Hn].
  run H as (-> & Hrow & Hnid & Hnsid)%pure_network_row. subst id sid.
  run H as [Hread <-]%ok_lift. pose proof Hread as (-> & _)%network_from_row_iff.
  destruct (n_status _ == "revoked"); [by apply ok_ret in H as [_ <-]|].
  run H as [<- <-]%ok_gets. run H as [_ <-]%ok_raise_if.
  run H to wd as [Enow _]%utc_now_ok.
  run H to wb as Ha%audit_networks. rewrite Enow in Ha.
  run H to wc as Hi. apply update_network_ok in Hi; [|by rewrite Ha..].
  run H as (v & E0 & _)%insert_revision_ok. apply ok_ret in H as [_ <-]. rewrite E0 Hi.
  unfold holds_row. simpl. rewrite Ha. split.
  - by apply NoDup_replace.
  - apply (elem_of_replace n_network_id); [done|done|]. right. split; [done|].
    intros E. rewrite -E in Hread. by apply unstable_unreadable in Hread.
Qed.
Ltac row_base := intros ? ?; simpl; rewrite ?elem_of_append; tauto.
Lemma run_op_row op w :
  registry_ok (db w) → n ∈ networks (db w) → n ∈ networks (db (run_op op w).2).
Proof.
  intros G Hn. destruct (registry_command op) eqn:E.
  2: { destruct (run_op_quiet op (db w) E w (same_registry_refl _)) as [-> _]. done. }
  destruct op; try done; cbn [run_op];
    try solve [refine ((_ : preserves (λ d, n ∈ networks d) _) w Hn); frame row_base].
  refine (proj2 ((_ : preserves holds_row _) w (conj (g_networks _ G) Hn))).
  apply preserves_bind; [apply revoke_holds_row|intros ?; by apply preserves_silent].
Qed.
Lemma steps_row w w' :
  registry_reachable w → n ∈ networks (db w) → rtc registry_step w w' →
  registry_reachable w' ∧ n ∈ networks (db w').
Proof.
  intros Hw Hn H. induction H as [w|w w1 w2 H1 _ IH]; [done|]. apply IH.
  { destruct Hw as (w0 & E & H0). exists w0. split; [done|]. by eapply rtc_r. }
  destruct H1 as [op|d' t f [E _]]; [|by rewrite /= E].
  apply run_op_row; [by apply reachable_registry_ok|done].
Qed.
Lemma unstable_row_raises w r w' :
  NoDup (map n_network_id (networks (db w))) → n ∈ networks (db w) →
  ¬ ok (row ← _network_row (n_network_id n) (n_subject_id n); lift (_network_from_row row)) w r w'.
Proof.
  intros Hd Hn H. run H as (-> & Hrow & Hid & _)%pure_network_row. apply ok_lift in H as [H _].
  rewrite (key_unique n_network_id _ _ _ Hd Hrow Hn Hid) in H.
  by apply unstable_unreadable in H.
Qed.
Lemma raised {A} (m : W A) w : (∀ r w', ¬ ok m w r w') → ∃ e w', m w = (Raise e, w').
Proof. intros H. destruct (m w) as [[r|e] w'] eqn:E; [by apply H in E|eauto]. Qed.
Lemma get_raises w :
  registry_ok (db w) → n ∈ networks (db w) →
  ∃ e w', get_network (n_network_id n) (n_subject_id n) w = (Raise e, w').
Proof. intros G Hn. apply raised. intros r w'. apply unstable_row_raises; [apply G|done]. Qed.
Lemma revoke_raises reason actor w :
  registry_ok (db w) → n ∈ networks (db w) →
  ∃ e w', revoke_network (n_network_id n) reason actor (n_subject_id n) w = (Raise e, w') ∧
    db w' = db w.
Proof.
  intros G Hn. unfold revoke_network, lift, mbind at 1 2 3 4, M_bind.
  destruct (_require_operator _ _); simpl; [|eauto].
  destruct (_reason reason); simpl; [|eauto]. destruct (validate_subject_id _); simpl; [|eauto].
  destruct (transaction _ w) as [[u|e] w1] eqn:E; [|exists e, w1; split; [done|]].
  - exfalso. apply ok_transaction in E.
    apply ok_bind in E as (row & w2 & H1 & E). apply ok_bind in E as (rec & w3 & H2 & _).
    eapply (unstable_row_raises w); [apply G|done|]. apply ok_bind. by exists row, w2.
  - by eapply transaction_rollback.
Qed.
Lemma for_each_ok {A} (f : A → W unit) l u w w' x :
  ok (for_each f l) w u w' → x ∈ l → ∃ w1 u1 w2, ok (f x) w1 u1 w2.
Proof.
  revert w. induction l as [|y l IH]; intros w H Hx; [by apply not_elem_of_nil in Hx|].
  apply ok_for_each in H as (w1 & H1 & H). apply elem_of_cons in Hx as [->|Hx]; [eauto|].
  destruct u. by eapply IH.
Qed.
Lemma verify_raises w :
  n ∈ networks (db w) → ∃ e w', verify_registry (n_subject_id n) w = (Raise e, w').
Proof.
  intros Hn. apply raised. intros r w' H. unfold verify_registry in H. run H as [_ <-]%ok_lift.
  apply ok_read_transaction in H. run H as [<- <-]%ok_gets. run H as Hall.
  eapply (for_each_ok _ _ _ _ _ n) in Hall as (w1 & u & w2 & Hv).
  - unfold verify_network in Hv. run Hv as [Hread _]%ok_lift. by apply unstable_unreadable in Hread.
  - rewrite sort_by_perm. apply elem_of_select. by rewrite bool_decide_true.
Qed.
End locked.

Section lockout.
Context {Dg : Digest} {En : Env} {Sg : Signer} {Hosts : HostNames} {Sound : SoundEnv}.

(** C20: A network stored with a URL that the validator does not accept as
    it is locks its registry.  Whatever the wallet and the other components
    do afterwards, the row stays as it is, never revoked; reading it raises,
    revoking it raises and changes nothing, whatever the reason and the
    actor, and the check of the subject's registry raises. *)
Theorem unstable_url_locks_out w w' n :
  registry_reachable w → n ∈ networks (db w) → ¬ network_stable n → rtc registry_step w w' →
  n ∈ networks (db w') ∧
  (∃ e v, get_network (n_network_id n) (n_subject_id n) w' = (Raise e, v)) ∧
  (∀ reason actor, ∃ e v,
     revoke_network (n_network_id n) reason actor (n_subject_id n) w' = (Raise e, v) ∧
     db v = db w') ∧
  (∃ e v, verify_registry (n_subject_id n) w' = (Raise e, v)).
Proof.
  intros Hw Hn Hu Hs. destruct (steps_row n Hu w w' Hw Hn Hs) as [G%reachable_registry_ok Hn'].
  split_and!; [done|by apply get_raises|intros; by apply revoke_raises|by apply verify_raises].
Qed.
End lockout.
