(* ===== verification/RegistryPages.v ===== *)
(** * Cursors and pages are exact

    The cursor texts the program accepts are exactly the encodings of valid
    cursors, and every valid cursor has one within the length bound.  Walking
    the pages of a query returns the observations of the table as it was at
    the first page, newest first, each once, in a known number of pages,
    while the wallet goes on working. *)

From stdpp Require Import sorting relations.
From Stdlib Require Import DecimalString.
From S2P Require Import Prelude Tables PyStr Json Digest Time Sorting Base64 WalletTypes.
From S2P Require Import RegistryTypes WalletTransfer WalletDb WalletEconomy RegistryDb.
From S2P Require Import RegistryStore RegistryHistory RegistryIntegrity WalletOrders.
From S2P Require Import WalletSubmissions WalletExecution WalletEngine WalletEffects.
From S2P Require Import RegistryFrame WalletSteps WalletSystem WalletRecords RegistryInv.
From S2P Require Import RegistrySteps RegistryVerify.
Local Open Scope Z_scope.

(** ** Length of a cursor *)

Definition slen (s : string) : nat := String.length s.
Definition ulen (s : string) : nat := slen (utf8_encode s).
Lemma ulen_app a b : ulen (a +:+ b) = (ulen a + ulen b)%nat.
Proof. unfold ulen, slen. by rewrite utf8_app str_length_app. Qed.
Lemma ulen_escape s : (ulen (escape s) ≤ 6 * slen s)%nat.
Proof.
  induction s as [|c s IH]; simpl; [done|]. rewrite ulen_app.
  assert (ulen (escape_char c) ≤ 6)%nat.
  { destruct c as [[] [] [] [] [] [] [] []]; vm_compute; lia. }
  unfold slen in *. simpl. lia.
Qed.
Lemma ulen_quote s : (ulen (quote s) ≤ 6 * slen s + 2)%nat.
Proof.
  unfold quote. change (String QUOTE (escape s +:+ str1 QUOTE))
    with (str1 QUOTE +:+ (escape s +:+ str1 QUOTE)).
  rewrite !ulen_app. pose proof (ulen_escape s).
  change (ulen (str1 QUOTE)) with 1%nat. lia.
Qed.
Lemma digits_double d : (Decimal.nb_digits (Decimal.Little.double d) ≤ S (Decimal.nb_digits d)
  ∧ Decimal.nb_digits (Decimal.Little.succ_double d) ≤ S (Decimal.nb_digits d))%nat.
Proof. induction d; simpl; lia. Qed.
Lemma digits_little p : (Decimal.nb_digits (Pos.to_little_uint p) ≤ Pos.size_nat p)%nat.
Proof.
  induction p as [p IH|p IH|]; simpl; [..|done];
    pose proof (digits_double (Pos.to_little_uint p)); lia.
Qed.
Lemma digits_revapp d d' :
  Decimal.nb_digits (Decimal.revapp d d') = (Decimal.nb_digits d + Decimal.nb_digits d')%nat.
Proof. revert d'. induction d; intros d'; simpl; [done|rewrite IHd; simpl; lia..]. Qed.
Lemma uint_length d : slen (NilEmpty.string_of_uint d) = Decimal.nb_digits d.
Proof. unfold slen. induction d; simpl; [done|by rewrite IHd..]. Qed.
Lemma show_length z : 0 <= z < 2 ^ 63 → (ulen (show_Z z) ≤ 128)%nat.
Proof.
  intros Hz. unfold ulen, slen. etrans; [apply utf8_length|].
  enough (String.length (show_Z z) ≤ 64)%nat by lia. unfold show_Z.
  destruct z as [|p|p]; [simpl; lia| |lia]. simpl. unfold NilZero.string_of_uint.
  assert (Hp : (Pos.size_nat p ≤ 64)%nat).
  { change 64%nat with (Pos.size_nat (2 ^ 63)). apply Pos.size_nat_monotone. lia. }
  assert (Hd : (slen (NilEmpty.string_of_uint (Pos.to_uint p)) ≤ 64)%nat).
  { rewrite uint_length. unfold Pos.to_uint, Decimal.rev. rewrite digits_revapp. simpl.
    pose proof (digits_little p). lia. }
  destruct (Pos.to_uint p); [simpl; lia|exact Hd..].
Qed.

(** ** Cursors *)

Definition id_valid (s : string) : Prop := is_ok (store_identifier s EmptyString) = true.
Definition optional_valid (o : option string) : Prop :=
  match o with Some s => id_valid s | None => True end.
Record cursor_valid (c : _BalanceHistoryCursor) : Prop := {
  cv_subject : is_ok (validate_subject_id (f_subject (hc_filter c))) = true;
  cv_network : optional_valid (f_network (hc_filter c));
  cv_asset : optional_valid (f_asset (hc_filter c));
  cv_address : optional_valid (f_address (hc_filter c));
  cv_anchor : 0 <= hc_anchor c <= SQLITE_INT64_MAX;
  cv_length : len (hc_observed_at c) <= 64;
  cv_time : canonical_timestamp (hc_observed_at c) = Ok (hc_observed_at c);
  cv_snapshot : id_valid (hc_snapshot_id c);
}.

Lemma id_length s : id_valid s → (slen s ≤ 128)%nat.
Proof.
  unfold id_valid, store_identifier, len, slen. destruct (blank s); [done|]. simpl.
  destruct (Z.ltb_spec 128 (Z.of_nat (String.length s))); [done|]. lia.
Qed.
Lemma subject_length s : is_ok (validate_subject_id s) = true → (slen s ≤ 128)%nat.
Proof.
  unfold validate_subject_id. destruct (subject_id_match s) eqn:E; [|done]. intros _.
  destruct s as [|c s]; [simpl; lia|]. simpl in E. apply andb_true_iff in E as [_ E%Z.leb_le].
  unfold len, slen in *. simpl. lia.
Qed.

(** The members in the order of their keys. *)
Definition sorted_fields (c : _BalanceHistoryCursor) : list (string * json) :=
  [("address_id"%string, JOpt (f_address (hc_filter c))); ("anchor"%string, JInt (hc_anchor c));
   ("asset_id"%string, JOpt (f_asset (hc_filter c)));
   ("network_id"%string, JOpt (f_network (hc_filter c)));
   ("observed_at"%string, JStr (hc_observed_at c));
   ("snapshot_id"%string, JStr (hc_snapshot_id c));
   ("subject_id"%string, JStr (f_subject (hc_filter c)));
   ("version"%string, JStr WALLET_BALANCE_HISTORY_CURSOR_VERSION)].
Lemma cursor_fields_sorted c : sort_by key_leb (cursor_fields c) = sorted_fields c.
Proof. reflexivity. Qed.
Lemma ulen_opt o : optional_valid o → (ulen (canonical_json (JOpt o)) ≤ 770)%nat.
Proof.
  destruct o as [s|]; simpl; [|vm_compute; lia]. intros H%id_length. pose proof (ulen_quote s). lia.
Qed.
Lemma ulen_member k v : ulen (member_text (k, v)) = (ulen (quote k) + 1 + ulen (canonical_json v))%nat.
Proof. unfold member_text. rewrite !ulen_app. change (ulen ":") with 1%nat. simpl. lia. Qed.
Lemma ulen_join l : (ulen (join "," l) ≤ sum_list_with ulen l + length l)%nat.
Proof.
  induction l as [|x [|y l] IH]; [done|simpl; lia|].
  change (join "," (x :: y :: l)) with (x +:+ "," +:+ join "," (y :: l)).
  rewrite !ulen_app. change (ulen ",") with 1%nat. simpl in *. lia.
Qed.
Lemma encode_bounded c :
  cursor_valid c → len (b64_json (JObj (cursor_fields c))) <= WALLET_BALANCE_HISTORY_MAX_CURSOR_LENGTH.
Proof.
  intros [Hs Hn Ha Hd Hk Hl _ Hp].
  assert (Hb : Z.of_nat (ulen (canonical_json (JObj (cursor_fields c)))) <= 6000).
  { rewrite canonical_json_obj cursor_fields_sorted.
    pose proof (ulen_join (map member_text (sorted_fields c))) as Hj.
    revert Hj. generalize (join "," (map member_text (sorted_fields c))) as t. intros t Hj.
    rewrite !ulen_app.
    unfold sorted_fields in *. cbn [map sum_list_with length] in Hj. rewrite !ulen_member in Hj.
    apply ulen_opt in Hn, Ha, Hd. apply id_length in Hp. apply subject_length in Hs.
    pose proof (ulen_quote (hc_snapshot_id c)). pose proof (ulen_quote (f_subject (hc_filter c))).
    pose proof (ulen_quote (hc_observed_at c)).
    pose proof (show_length (hc_anchor c) ltac:(unfold SQLITE_INT64_MAX in *; lia)).
    unfold len in Hl. unfold slen in *.
    repeat match type of Hj with context [ulen (quote ?k)] =>
      let n := eval vm_compute in (ulen (quote k)) in change (ulen (quote k)) with n in Hj end.
    pose proof (ulen_quote WALLET_BALANCE_HISTORY_CURSOR_VERSION) as Hv.
    change (slen WALLET_BALANCE_HISTORY_CURSOR_VERSION) with 25%nat in Hv.
    repeat match type of Hj with context [canonical_json (JStr ?x)] =>
      change (canonical_json (JStr x)) with (quote x) in Hj end.
    change (canonical_json (JInt (hc_anchor c))) with (show_Z (hc_anchor c)) in Hj.
    change (ulen "{") with 1%nat. change (ulen "}") with 1%nat. lia. }
  unfold b64_json, len, WALLET_BALANCE_HISTORY_MAX_CURSOR_LENGTH.
  pose proof (b64_length (utf8_encode (canonical_json (JObj (cursor_fields c))))).
  unfold ulen, slen in Hb. lia.
Qed.

Lemma b64_json_perm m m' :
  NoDup (map fst m) → m ≡ₚ m' → b64_json (JObj m) = b64_json (JObj m').
Proof.
  intros Hd HP. unfold b64_json. do 2 f_equal. rewrite !canonical_json_obj.
  do 3 f_equal. f_equal. apply (sorted_unique key_leb).
  - intros x y Hx%elem_of_sort_by Hy%elem_of_sort_by Hxy Hyx. eapply (key_unique fst m); try done.
    by apply str_antisym.
  - apply sort_by_sorted, _.
  - apply sort_by_sorted, _.
  - by rewrite !sort_by_perm.
Qed.
Lemma cursor_fields_keys c : map fst (cursor_fields c) = required_keys.
Proof. done. Qed.
Lemma NoDup_required : NoDup required_keys.
Proof. apply (bool_decide_eq_true_1 _). vm_compute. reflexivity. Qed.

Lemma text_field_ok v s : text_field v = Ok s ↔ v = JStr s.
Proof. destruct v; naive_solver. Qed.
Lemma optional_field_ok v o : optional_field v = Ok o ↔ v = JOpt o ∧ optional_valid o.
Proof.
  destruct v as [| | |s| |]; cbn [optional_field].
  4:{ destruct (is_ok (store_identifier s EmptyString)) eqn:E; split.
    - intros [= <-]. done.
    - destruct o as [t|]; [|by intros [[=] _]]. by intros [[= <-] _].
    - done.
    - destruct o as [t|]; [|by intros [[=] _]]. intros [[= <-] Hv]. unfold optional_valid, id_valid in Hv.
      congruence. }
  all: destruct o as [t|]; naive_solver.
Qed.
Lemma anchor_field_ok v z : anchor_field v = Ok z ↔ v = JInt z ∧ 0 <= z <= SQLITE_INT64_MAX.
Proof.
  destruct v as [| |y| | |]; cbn [anchor_field]; try naive_solver.
  destruct ((0 <=? y) && (y <=? SQLITE_INT64_MAX)) eqn:E.
  - apply andb_true_iff in E as [?%Z.leb_le ?%Z.leb_le]. naive_solver.
  - split; [done|]. intros [[= ->] ?]. apply andb_false_iff in E as [?%Z.leb_gt|?%Z.leb_gt]; lia.
Qed.
Lemma guard_ok {A} (b : bool) (x y : A) e : (if b then Ok x else Raise e) = Ok y ↔ x = y ∧ b = true.
Proof. destruct b; split; [by intros [= ->]|by intros [-> _]|done|by intros [_ ?]]. Qed.
Lemma text_bind_ok {A} v (k : string → result A) y :
  (s ← text_field v; k s) = Ok y ↔ ∃ s, v = JStr s ∧ k s = Ok y.
Proof. destruct v; split; try (by intros H; exfalso; naive_solver); simpl; eauto; by intros (? & [= ->] & ?). Qed.
Lemma subject_field_ok v s :
  subject_field v = Ok s ↔ v = JStr s ∧ is_ok (validate_subject_id s) = true.
Proof.
  unfold subject_field. rewrite text_bind_ok. setoid_rewrite guard_ok.
  split; [by intros (? & -> & -> & ?)|by intros [-> ?]; eexists].
Qed.
Lemma snapshot_field_ok v s : snapshot_field v = Ok s ↔ v = JStr s ∧ id_valid s.
Proof.
  unfold snapshot_field. rewrite text_bind_ok. setoid_rewrite guard_ok.
  split; [by intros (? & -> & -> & ?)|by intros [-> ?]; eexists].
Qed.
Lemma time_field_ok v s :
  time_field v = Ok s ↔ v = JStr s ∧ len s <= 64 ∧ canonical_timestamp s = Ok s.
Proof.
  unfold time_field. rewrite text_bind_ok.
  assert (Hg : ∀ t, (if (64 <? len t) || negb (match canonical_timestamp t with
      Ok u => u == t | Raise _ => false end) then Raise invalid_cursor else Ok t) = Ok s ↔
    t = s ∧ len s <= 64 ∧ canonical_timestamp s = Ok s).
  { intros t. destruct (Z.ltb_spec 64 (len t)); simpl; [split; [done|intros (-> & ? & _); lia]|].
    destruct (canonical_timestamp t) as [u|e] eqn:E; simpl.
    - case_bool_decide as Eu; simpl; [subst u; split; [by intros [= ->]|by intros (-> & _)]|].
      split; [done|]. intros (-> & _ & Et). congruence.
    - split; [done|]. intros (-> & _ & Et). congruence. }
  setoid_rewrite Hg. split; [by intros (? & -> & -> & ?)|by intros [-> ?]; eexists].
Qed.

Lemma cursor_of_fields_ok m c :
  cursor_of_fields m = Ok c ↔ cursor_valid c ∧ Forall (λ kv, get m kv.1 = kv.2) (cursor_fields c).
Proof.
  unfold cursor_of_fields, cursor_fields. rewrite !Forall_cons Forall_nil. simpl. split.
  - intros H. step H as x0 Hv%text_field_ok.
    step H as [] Hver%fail_if_ok%negb_false_iff%bool_decide_eq_true. subst x0.
    step H as x1 [H1 H1']%subject_field_ok. step H as x2 [H2 H2']%optional_field_ok.
    step H as x3 [H3 H3']%optional_field_ok. step H as x4 [H4 H4']%optional_field_ok.
    step H as x5 [H5 H5']%anchor_field_ok. step H as x6 (H6 & H6' & H6'')%time_field_ok.
    step H as x7 [H7 H7']%snapshot_field_ok. injection H as <-. simpl. split; [by split|].
    by split_and!.
  - intros [[] (-> & -> & -> & -> & -> & -> & -> & -> & _)].
    destruct c as [[s n a d] k o p]; simpl in *.
    rewrite (proj2 (subject_field_ok _ _) (conj eq_refl cv_subject0)). simpl.
    rewrite (proj2 (optional_field_ok _ _) (conj eq_refl cv_network0)). simpl.
    rewrite (proj2 (optional_field_ok _ _) (conj eq_refl cv_asset0)). simpl.
    rewrite (proj2 (optional_field_ok _ _) (conj eq_refl cv_address0)). simpl.
    rewrite (proj2 (andb_true_iff _ _)).
    { split; apply Z.leb_le; lia. }
    simpl. rewrite (proj2 (time_field_ok (JStr o) o)) //. simpl.
    by rewrite (proj2 (snapshot_field_ok (JStr p) p)).
Qed.
Lemma fields_of_payload m c :
  has_keys m = true → Forall (λ kv, get m kv.1 = kv.2) (cursor_fields c) → cursor_fields c ≡ₚ m.
Proof.
  unfold has_keys. intros [Hl%Nat.eqb_eq Hk]%andb_true_iff HF. rewrite -> forallb_forall in Hk.
  apply submseteq_length_Permutation; [|rewrite Hl; done].
  apply NoDup_submseteq.
  { eapply (NoDup_fmap_1 fst). apply NoDup_required. }
  intros [k v] Hin. rewrite -> Forall_forall in HF. specialize (HF _ Hin). simpl in HF.
  assert (Hreq : k ∈ required_keys) by (rewrite -(cursor_fields_keys c); by apply (list_elem_of_fmap_2 fst _ (k, v))).
  apply list_elem_of_In in Hreq. apply Hk, bool_decide_eq_true, list_elem_of_fmap in Hreq as (x & -> & Hx).
  unfold get in HF. destruct (fetchone _ m) as [y|] eqn:E.
  - apply fetchone_Some in E as [Hy E%bool_decide_eq_true]. subst v. rewrite -E. by destruct y.
  - eapply fetchone_None in E; [|exact Hx]. by apply bool_decide_eq_false in E.
Qed.

Lemma loads_cursor c :
  strict_json_loads (canonical_json (JObj (cursor_fields c))) = Ok (JObj (sorted_fields c)).
Proof.
  rewrite loads_canonical.
  - split; [apply NoDup_required|]. by destruct c as [[? [] [] []] ???].
  - f_equal. by destruct c as [[? [] [] []] ???].
Qed.
Lemma encode_ok c t :
  cursor_valid c → _encode_balance_history_cursor c = Ok t ↔ t = b64_json (JObj (cursor_fields c)).
Proof.
  intros Hv. unfold _encode_balance_history_cursor, fail_if.
  rewrite (proj2 (Z.ltb_ge _ _)); [by apply encode_bounded|]. simpl. naive_solver.
Qed.

Lemma cursor_decoded c t :
  _decode_balance_history_cursor t = Ok c ↔ cursor_valid c ∧ _encode_balance_history_cursor c = Ok t.
Proof.
  split.
  - unfold _decode_balance_history_cursor. intros H.
    step H as [] [[_ Hl]%orb_false_iff _]%fail_if_ok%orb_false_iff.
    step H as raw Hr. step H as text Ht.
    destruct (strict_json_loads text) as [[| | | | |m]|] eqn:El; try done.
    step H as [] Hk%fail_if_ok%negb_false_iff. step H as c' [Hv HF]%cursor_of_fields_ok.
    step H as [] Hc%fail_if_ok%negb_false_iff%bool_decide_eq_true. injection H as <-.
    split; [done|]. apply encode_ok; [done|]. rewrite -Hc. symmetry. apply b64_json_perm.
    + rewrite cursor_fields_keys. apply NoDup_required.
    + by apply fields_of_payload.
  - intros [Hv He]. pose proof (encode_bounded c Hv) as Hlen. apply encode_ok in He; [|done].
    assert (Hd : b64_decode t = Some (utf8_encode (canonical_json (JObj (cursor_fields c)))))
      by (rewrite He; apply b64_roundtrip).
    unfold _decode_balance_history_cursor. rewrite Hd.
    rewrite bool_decide_false; [|].
    { intros ->. rewrite canonical_json_obj in Hd. by injection Hd. }
    rewrite He (proj2 (Z.ltb_ge _ _)) //. unfold b64_json at 1. rewrite b64_alphabet.
    cbn [orb negb fail_if of_option mbind result_bind]. rewrite utf8_roundtrip.
    cbn [of_option mbind result_bind]. rewrite loads_cursor. change (has_keys (sorted_fields c)) with true.
    cbn [negb fail_if mbind result_bind].
    rewrite (proj2 (cursor_of_fields_ok (sorted_fields c) c)).
    { split; [done|]. by repeat constructor. }
    by rewrite bool_decide_true.
Qed.
(** A text is accepted as a cursor exactly when it is the encoding of a
    valid cursor, and it then stands for that cursor alone; every valid
    cursor has such an encoding, within the length the decoder accepts. *)
Theorem cursor_roundtrip c t :
  (_decode_balance_history_cursor t = Ok c ↔
   cursor_valid c ∧ _encode_balance_history_cursor c = Ok t) ∧
  (cursor_valid c → ∃ u, _encode_balance_history_cursor c = Ok u ∧
     len u <= WALLET_BALANCE_HISTORY_MAX_CURSOR_LENGTH).
Proof.
  split; [apply cursor_decoded|].
  intros Hv. eexists. split; [by apply encode_ok|]. by apply encode_bounded.
Qed.

(** ** Pages *)

#[global] Instance desc2_preorder {R} (a b : R → string) : PreorderB (desc2 a b).
Proof.
  apply (lexb_preorder a (λ x y, str_leb y x) (λ x y, str_leb (b y) (b x))).
  - exact (flip_preorder str_leb str_preorder).
  - exact (flip_antisym str_leb str_antisym).
  - exact (flip_preorder _ (image_preorder b str_leb str_preorder)).
Qed.
Lemma newest_first_antisym x y :
  newest_first x y = true → newest_first y x = true → sn_snapshot_id x = sn_snapshot_id y.
Proof.
  unfold newest_first, desc2. intros H1 H2.
  destruct (decide (sn_observed_at x = sn_observed_at y)) as [E|E].
  - rewrite (bool_decide_true _ E) in H1. rewrite (bool_decide_true _ (eq_sym E)) in H2.
    by apply str_antisym.
  - rewrite (bool_decide_false _ E) in H1.
    rewrite (bool_decide_false _ (not_eq_sym E)) in H2. destruct E. by apply str_antisym.
Qed.
(** What the cursor clause keeps are the rows after the last one. *)
Definition cursor_of (f : balance_filter) (anchor : Z) (s : snapshot_row) : _BalanceHistoryCursor :=
  {| hc_filter := f; hc_anchor := anchor; hc_observed_at := sn_observed_at s;
     hc_snapshot_id := sn_snapshot_id s |}.
Lemma before_cursor_newest f anchor s0 s :
  before_cursor (cursor_of f anchor s0) s = negb (newest_first s s0).
Proof.
  unfold before_cursor, newest_first, desc2. simpl. case_bool_decide as E.
  - rewrite E str_ltb_irrefl. simpl. apply str_ltb_leb.
  - rewrite andb_false_l orb_false_r. apply str_ltb_leb.
Qed.
Lemma after_cursor f anchor l1 s0 l2 :
  StronglySorted (λ x y, newest_first x y = true) (l1 ++ s0 :: l2) →
  NoDup (map sn_snapshot_id (l1 ++ s0 :: l2)) →
  select (before_cursor (cursor_of f anchor s0)) (l1 ++ s0 :: l2) = l2.
Proof.
  intros Hs Hd. rewrite (select_ext _ (λ s, negb (newest_first s s0))).
  { intros. apply before_cursor_newest. }
  apply (sorted_app newest_first) in Hs as (_ & Hs & Hl). rewrite select_app select_none.
  { intros x Hx. rewrite Hl //. apply here. }
  unfold select. simpl. rewrite (leb_refl newest_first). simpl.
  inversion Hs as [|? ? _ Hs0]; subst. apply forallb_filter_id, forallb_forall.
  intros y Hy%list_elem_of_In. rewrite -> Forall_forall in Hs0. specialize (Hs0 y Hy).
  apply negb_true_iff. destruct (newest_first y s0) eqn:E; [|done].
  pose proof (newest_first_antisym _ _ Hs0 E) as Eid.
  rewrite map_app in Hd. apply NoDup_app in Hd as (_ & _ & Hd). simpl in Hd.
  apply NoDup_cons in Hd as [Hd _]. destruct Hd. rewrite Eid. by apply list_elem_of_fmap_2.
Qed.

(** What a readable row gives its cursor. *)
Lemma iso_length t : slen (isoformat_ms t) = 29%nat.
Proof.
  unfold isoformat_ms, iso_seconds, slen. destruct (date_of_days _) as [[y m] d].
  by rewrite !str_length_app.
Qed.
Lemma canonical_length s t : canonical_timestamp s = Ok t → len t <= 64.
Proof.
  unfold canonical_timestamp. destruct (fromisoformat s) as [[l [o|]]|]; try done.
  intros H. step H as u Hu. injection H as <-. pose proof (iso_length u). unfold len, slen in *. lia.
Qed.
Lemma id_valid_field s field : is_ok (store_identifier s field) = true → id_valid s.
Proof. unfold id_valid, store_identifier. by destruct (blank s || (128 <? len s)). Qed.
Lemma optional_id_valid o field : optional_id o field = Ok tt → optional_valid o.
Proof.
  destruct o as [s|]; [|done]. simpl. unfold id_valid, store_identifier.
  by destruct (blank s || (128 <? len s)).
Qed.
Lemma cursor_of_valid `{Digest} f anchor s :
  _balance_filters f = Ok tt → 0 <= anchor <= SQLITE_INT64_MAX → _balance_from_row s = Ok s →
  cursor_valid (cursor_of f anchor s).
Proof.
  intros Hf Ha Hs. unfold _balance_filters in Hf. step Hf as x Hx. step Hf as [] Hn%optional_id_valid.
  step Hf as [] Has%optional_id_valid. apply optional_id_valid in Hf.
  unfold _balance_from_row in Hs. step Hs as p Hp%except_invalid_ok.
  step Hs as [] [[Hid _]%andb_true_iff _]%fail_if_ok%negb_false_iff%andb_true_iff.
  step Hs as [] _. step Hs as [] Hc%fail_if_ok. apply orb_false_iff in Hc as [_ Hc].
  apply negb_false_iff, bool_decide_eq_true in Hc.
  assert (Hobs : canonical_timestamp (sn_observed_at s) = Ok (sn_observed_at s)).
  { unfold validate_WalletBalanceSnapshotInput in Hp. do 8 step Hp as ? _.
    step Hp as o Ho. injection Hp as <-. simpl in *. subst o. simpl in Ho.
    step Ho as [] _. step Ho as t Ht. by injection Ho as ->. }
  split; simpl; try done; [by rewrite Hx|by eapply canonical_length|by eapply id_valid_field].
Qed.

Definition history_of (f : balance_filter) (t : list snapshot_row) : list snapshot_row :=
  sort_by newest_first (select (balance_where f) t).

Section walk.
Context {Dg : Digest} (f : balance_filter) (limit : Z) (t0 : list snapshot_row).
Hypothesis valid_filter : _balance_filters f = Ok tt.
Hypothesis valid_limit : 1 <= limit <= WALLET_BALANCE_HISTORY_MAX_PAGE_SIZE.
Hypothesis readable : ∀ s, s ∈ t0 → _balance_from_row s = Ok s.
Hypothesis distinct : NoDup (map sn_snapshot_id t0).
Abbreviation anchor := (Z.of_nat (length t0)).
Hypothesis anchored : anchor <= SQLITE_INT64_MAX.
Abbreviation all := (history_of f t0).

(** A cursor before the rows [rest]. *)
Definition cursor_before (cursor : option string) (rest : list snapshot_row) : Prop :=
  (cursor = None ∧ rest = all) ∨
  ∃ l s, all = l ++ s :: rest ∧ cursor = Some (b64_json (JObj (cursor_fields (cursor_of f anchor s)))).
(** The page of the rows [rest]. *)
Definition page_of (rest : list snapshot_row) : WalletBalanceHistoryPage :=
  let more := limit <? Z.of_nat (length rest) in
  {| pg_items := limited limit rest;
     pg_next_cursor := match more, last (limited limit rest) with
       | true, Some s => Some (b64_json (JObj (cursor_fields (cursor_of f anchor s))))
       | _, _ => None end;
     pg_has_more := more |}.

Lemma all_sorted : StronglySorted (λ x y, newest_first x y = true) all.
Proof. apply sort_by_sorted, _. Qed.
Lemma all_distinct : NoDup (map sn_snapshot_id all).
Proof. unfold history_of. rewrite sort_by_perm. by apply NoDup_select. Qed.
Lemma all_readable s : s ∈ all → s ∈ t0 ∧ _balance_from_row s = Ok s.
Proof. intros [? _]%elem_of_sort_by%elem_of_select. auto. Qed.
Lemma cursor_valid_row s : s ∈ all → cursor_valid (cursor_of f anchor s).
Proof. intros [_ Hs]%all_readable. apply cursor_of_valid; [done| |done]. lia. Qed.
Lemma encode_row s :
  s ∈ all → _encode_balance_history_cursor (cursor_of f anchor s)
            = Ok (b64_json (JObj (cursor_fields (cursor_of f anchor s)))).
Proof. intros. apply encode_ok; [by apply cursor_valid_row|done]. Qed.
Lemma decode_row s :
  s ∈ all → _decode_balance_history_cursor (b64_json (JObj (cursor_fields (cursor_of f anchor s))))
            = Ok (cursor_of f anchor s).
Proof.
  intros Hs. apply cursor_decoded. split; [by apply cursor_valid_row|by apply encode_row].
Qed.
Lemma cursor_rest cursor rest : cursor_before cursor rest → ∃ l, all = l ++ rest.
Proof. intros [[_ ->]|(l & s & -> & _)]; [by exists []|]. exists (l ++ [s]). by rewrite -app_assoc. Qed.
Lemma elem_of_limited {R} n (l : list R) x : x ∈ limited n l → x ∈ l.
Proof. intros H. rewrite -(take_drop (Z.to_nat n) l). apply elem_of_app. by left. Qed.
Lemma mapM_read l : (∀ s, s ∈ l → _balance_from_row s = Ok s) → mapM_result _balance_from_row l = Ok l.
Proof.
  induction l as [|s l IH]; intros H; [done|]. simpl. rewrite H; [apply here|]. simpl.
  rewrite IH //. intros x Hx. by apply H, there.
Qed.

(** One call, on a table that has grown since the first. *)
Lemma page_run w new cursor rest :
  snapshots (db w) = t0 ++ new → Z.of_nat (length (snapshots (db w))) <= SQLITE_INT64_MAX →
  (cursor = None → new = []) → cursor_before cursor rest →
  balance_history_page f limit cursor w = (Ok (page_of rest), w).
Proof.
  intros Et Hmax Hnone Hc. destruct (cursor_rest _ _ Hc) as [pre Hpre].
  assert (Hin : ∀ s, s ∈ rest → s ∈ all) by (intros; rewrite Hpre elem_of_app; auto).
  (** The decoded cursor, its anchor and its rows. *)
  assert (∃ decoded, (match cursor with None => Ok None
      | Some c => c ← _decode_balance_history_cursor c; Ok (Some c) end) = Ok decoded ∧
    match decoded with Some c => hc_filter c =/= f | None => false end = false ∧
    match decoded with Some c => hc_anchor c
      | None => Z.of_nat (length (snapshots (db w))) end = anchor ∧
    sort_by newest_first (select (λ s, balance_where f s
      && match decoded with Some c => before_cursor c s | None => true end) t0) = rest)
    as (decoded & Hdec & Hq & Ha & Hrows).
  { destruct Hc as [[-> ->]|(l & s & El & ->)].
    - exists None. split_and!; [done|done|by rewrite Et Hnone // app_nil_r|].
      unfold history_of. f_equal. apply select_ext. intros. apply andb_true_r.
    - assert (Hs : s ∈ all) by (rewrite El elem_of_app elem_of_cons; auto).
      exists (Some (cursor_of f anchor s)). rewrite decode_row //. split_and!; try done.
      + simpl. by rewrite bool_decide_true.
      + rewrite (select_ext _ (λ x, before_cursor (cursor_of f anchor s) x && balance_where f x));
          [by intros; apply andb_comm|].
        rewrite -select_select sort_by_select. fold all. rewrite El.
        apply after_cursor; rewrite -El; [apply all_sorted|apply all_distinct]. }
  enough (yields (balance_history_page f limit cursor) w (page_of rest)) by done.
  unfold balance_history_page.
  eapply yields_lift.
  { unfold _history_limit. rewrite (proj2 (andb_true_iff _ _)) //. split; apply Z.leb_le; lia. }
  eapply yields_lift; [exact valid_filter|]. eapply yields_lift; [exact Hdec|].
  apply yields_raise_if; [exact Hq|]. eapply yields_bind.
  { apply yields_read_transaction, yields_gets. apply yields_raise_if; [by apply Z.ltb_ge|].
    cbv zeta. rewrite Ha.
    apply yields_raise_if; [apply Z.ltb_ge; rewrite Et length_app; lia|]. apply yields_gets.
    rewrite Et Nat2Z.id take_app_length Hrows. done. }
  cbv beta iota zeta. eapply yields_lift.
  { apply mapM_read. intros s Hs%elem_of_limited. by apply all_readable, Hin. }
  assert (Hmore : (limit <? Z.of_nat (length (limited (limit + 1) rest)))
                  = (limit <? Z.of_nat (length rest))).
  { unfold limited. rewrite length_take. apply Bool.eq_iff_eq_true. rewrite !Z.ltb_lt. lia. }
  assert (Hlim : limited limit (limited (limit + 1) rest) = limited limit rest).
  { unfold limited. rewrite take_take. f_equal. lia. }
  rewrite Hmore Hlim. apply (yields_lift _ (pg_next_cursor (page_of rest))); [|done].
  unfold page_of. cbn [pg_next_cursor]. destruct (limit <? Z.of_nat (length rest)); [|done].
  destruct (last (limited limit rest)) as [s|] eqn:El; [|done].
  fold (cursor_of f anchor s). rewrite encode_row //.
  apply Hin. apply (elem_of_limited limit). apply last_Some in El as [l ->].
  rewrite elem_of_app list_elem_of_singleton. auto.
Qed.

(** A caller that follows the cursors: the [k]-th call finds the state
    [ws k].  [None]: a call raised, or the fuel ran out. *)
Fixpoint walk_pages (ws : nat → world wallet_db) (fuel : nat) (cursor : option string)
    : option (list (list snapshot_row)) :=
  match fuel with
  | O => None
  | S fuel =>
      match (balance_history_page f limit cursor (ws 0%nat)).1 with
      | Raise _ => None
      | Ok page =>
          match pg_next_cursor page with
          | None => Some [pg_items page]
          | Some c => cons (pg_items page) <$> walk_pages (λ k, ws (S k)) fuel (Some c)
          end
      end
  end.
(** ⌈n / limit⌉, but at least one. *)
Definition page_count (n : nat) : nat := S ((n - 1) / Z.to_nat limit).

Lemma page_count_more n :
  (Z.to_nat limit < n)%nat → page_count n = S (page_count (n - Z.to_nat limit)).
Proof.
  intros H. unfold page_count. f_equal. set (l := Z.to_nat limit) in *.
  assert (0 < l)%nat by (unfold l; lia).
  replace (n - 1)%nat with ((n - l - 1) + 1 * l)%nat by lia. rewrite Nat.div_add; lia.
Qed.
Lemma page_count_last n : (n ≤ Z.to_nat limit)%nat → page_count n = 1%nat.
Proof. intros H. unfold page_count. rewrite Nat.div_small; lia. Qed.

Lemma walk_pages_ok fuel ws cursor rest :
  (∀ k, ∃ new, snapshots (db (ws k)) = t0 ++ new) →
  (∀ k, Z.of_nat (length (snapshots (db (ws k)))) <= SQLITE_INT64_MAX) →
  (cursor = None → snapshots (db (ws 0%nat)) = t0) → cursor_before cursor rest →
  (page_count (length rest) ≤ fuel)%nat →
  ∃ pages, walk_pages ws fuel cursor = Some pages ∧ concat pages = rest ∧
    length pages = page_count (length rest) ∧ Forall (λ p, Z.of_nat (length p) <= limit) pages.
Proof.
  revert ws cursor rest. induction fuel as [|fuel IH]; intros ws cursor rest Hg Hmax H0 Hc Hf.
  { unfold page_count in Hf. lia. }
  destruct (Hg 0%nat) as [new Hnew].
  assert (Hrun : balance_history_page f limit cursor (ws 0%nat) = (Ok (page_of rest), ws 0%nat)).
  { apply (page_run _ new); try done. intros E. specialize (H0 E). rewrite Hnew in H0.
    rewrite -{2}(app_nil_r t0) in H0. by apply app_inv_head in H0. }
  cbn [walk_pages]. rewrite Hrun. unfold page_of. simpl.
  assert (Hlen : Z.of_nat (length (limited limit rest)) <= limit)
    by (unfold limited; rewrite length_take; lia).
  destruct (Z.ltb_spec limit (Z.of_nat (length rest))) as [Hlt|Hle].
  - destruct (cursor_rest _ _ Hc) as [pre Hpre].
    destruct (last (limited limit rest)) as [s|] eqn:El.
    2:{ apply last_None in El. apply (f_equal length) in El. unfold limited in El.
        rewrite length_take in El. simpl in El. lia. }
    apply last_Some in El as [l El]. rewrite (page_count_more (length rest)) in Hf |- *; [lia|].
    destruct (IH (λ k, ws (S k)) (Some (b64_json (JObj (cursor_fields (cursor_of f anchor s)))))
      (drop (Z.to_nat limit) rest)) as (pages & -> & Hcat & Hn & Hfor).
    + intros k. apply Hg.
    + intros k. apply Hmax.
    + done.
    + right. exists (pre ++ l), s. split; [|done].
      rewrite Hpre -{1}(take_drop (Z.to_nat limit) rest). fold (limited limit rest). rewrite El.
      by rewrite -!app_assoc.
    + rewrite length_drop. lia.
    + exists (limited limit rest :: pages). split; [done|]. simpl. rewrite Hcat Hn length_drop.
      split; [apply take_drop|]. split; [done|]. by constructor.
  - assert (limited limit rest = rest) as -> by (unfold limited; rewrite take_ge; [lia|done]).
    exists [rest]. rewrite page_count_last; [lia|]. split; [done|]. split; [apply app_nil_r|].
    split; [done|]. by repeat constructor.
Qed.
End walk.

(** ** Observations are only added *)

Section grows.
Context {Dg : Digest} {En : Env} {Sg : Signer} {Hosts : HostNames} {Sound : SoundEnv}.

Definition more_snapshots (d d' : wallet_db) : Prop := ∃ l, snapshots d' = snapshots d ++ l.
Lemma more_snapshots_quiet d d' : same_registry d d' → more_snapshots d d'.
Proof. intros (_&_&_&_&_&_&E&_). exists []. by rewrite app_nil_r. Qed.
Lemma same_then_quiet {A} (m : W A) d :
  (∀ d, preserves (same_registry d) m) → preserves (more_snapshots d) m.
Proof.
  intros H w [l E]. destruct (more_snapshots_quiet (db w) (db (m w).2)) as [l' E'].
  { apply H, same_registry_refl. }
  exists (l ++ l'). by rewrite E' E app_assoc.
Qed.
Ltac snapshot_base := intros ? [? ?]; unfold more_snapshots; simpl; eauto using append_extends.
Lemma run_op_snapshots op d : preserves (more_snapshots d) (run_op op).
Proof.
  destruct (registry_command op) eqn:E.
  - destruct op; try done; cbn [run_op]; frame snapshot_base.
  - apply same_then_quiet. intros. by apply run_op_quiet.
Qed.
Lemma more_snapshots_trans d1 d2 d3 :
  more_snapshots d1 d2 → more_snapshots d2 d3 → more_snapshots d1 d3.
Proof. intros [l E] [l' E']. exists (l ++ l'). by rewrite E' E app_assoc. Qed.
Lemma more_snapshots_refl d : more_snapshots d d.
Proof. exists []. by rewrite app_nil_r. Qed.
Lemma steps_snapshots w w' : rtc registry_step w w' → more_snapshots (db w) (db w').
Proof.
  induction 1 as [w|w w1 w2 H _ IH]; [apply more_snapshots_refl|].
  eapply more_snapshots_trans; [|exact IH]. destruct H as [op|d' t g Hs].
  - apply run_op_snapshots, more_snapshots_refl.
  - by apply more_snapshots_quiet.
Qed.

(** C19: Following the cursors of [balance_history_page] from the first page
    returns every observation of the query that was in the table at the
    first call, newest first and each once, in ⌈n / limit⌉ calls (one when
    there is none), no matter what the wallet does between the calls. *)
Theorem history_pages_complete ws f limit :
  registry_reachable (ws 0%nat) → (∀ k, rtc registry_step (ws k) (ws (S k))) →
  (∀ k, Z.of_nat (length (snapshots (db (ws k)))) <= SQLITE_INT64_MAX) →
  _balance_filters f = Ok tt → 1 <= limit <= WALLET_BALANCE_HISTORY_MAX_PAGE_SIZE →
  let all := history_of f (snapshots (db (ws 0%nat))) in
  ∃ pages, walk_pages f limit ws (page_count limit (length all)) None = Some pages ∧
    concat pages = all ∧ length pages = page_count limit (length all) ∧
    Forall (λ p, Z.of_nat (length p) <= limit) pages.
Proof.
  intros G%reachable_registry_ok Hs Hmax Hf Hl all.
  apply (walk_pages_ok f limit (snapshots (db (ws 0%nat)))); try done.
  - intros s Hin. by apply (g_snapshot _ G s Hin).
  - apply G.
  - intros k. induction k as [|k IH]; [apply more_snapshots_refl|].
    eapply more_snapshots_trans; [exact IH|]. by apply steps_snapshots.
  - by left.
Qed.
End grows.
