(* ===== verification/RegistryObservations.v ===== *)
(** * Observation health is what the tables say

    The single pass over the sorted observations, and the pass of the
    breakdown, compute sums over the active pairs of what each pair's own
    history says.  The breakdown is a partition of the total. *)

From stdpp Require Import sorting gmap.
From S2P Require Import Prelude Tables PyStr Json Digest Time Sorting WalletTypes RegistryTypes.
From S2P Require Import WalletTransfer WalletDb WalletEconomy RegistryDb RegistryStore.
From S2P Require Import RegistryIntegrity RegistryHealth WalletOrders WalletSubmissions.
From S2P Require Import WalletExecution WalletEngine WalletEffects RegistryFrame WalletSteps.
From S2P Require Import WalletSystem WalletRecords RegistryInv RegistrySteps RegistryVerify.
From S2P Require Import RegistryPages.
Local Open Scope Z_scope.

(** ** Order of the history *)

#[global] Instance pair_preorder : PreorderB pair_leb.
Proof.
  apply (lexb_preorder (λ p : pair, p.1.1) str_leb
           (λ x y, if x.1.2 == y.1.2 then str_leb x.2 y.2 else str_leb x.1.2 y.1.2));
    [exact str_preorder|exact str_antisym|].
  apply (lexb_preorder (λ p : pair, p.1.2) str_leb (λ x y, str_leb x.2 y.2));
    [exact str_preorder|exact str_antisym|].
  exact (image_preorder (λ p : pair, p.2) str_leb str_preorder).
Qed.
#[global] Instance pair_antisym : AntisymB pair_leb.
Proof.
  intros [[a b] c] [[a' b'] c']. unfold pair_leb. simpl.
  destruct (decide (a = a')) as [->|Ea].
  - rewrite !(bool_decide_true (a' = a')) //. destruct (decide (b = b')) as [->|Eb].
    + rewrite !bool_decide_true //. intros. by rewrite (str_antisym c c').
    + rewrite (bool_decide_false _ Eb) (bool_decide_false _ (not_eq_sym Eb)). intros.
      destruct Eb. by apply str_antisym.
  - rewrite (bool_decide_false _ Ea) (bool_decide_false _ (not_eq_sym Ea)). intros.
    destruct Ea. by apply str_antisym.
Qed.
#[global] Instance history_preorder : PreorderB history_leb.
Proof. apply (lexb_preorder pair_of pair_leb newest_first); apply _. Qed.

(** Rows of one pair are adjacent. *)
Lemma split_pair l r :
  StronglySorted (λ x y, history_leb x y = true) (r :: l) →
  r :: l = select (λ s, pair_of s == pair_of r) (r :: l)
           ++ select (λ s, pair_of s =/= pair_of r) (r :: l).
Proof.
  assert (Hle : ∀ x y, history_leb x y = true → pair_leb (pair_of x) (pair_of y) = true).
  { intros x y. unfold history_leb. case_bool_decide as E; [|done]. intros _. rewrite E.
    exact (leb_refl pair_leb _). }
  intros Hs. set (k := pair_of r).
  assert (Hk : ∀ x, x ∈ r :: l → pair_leb k (pair_of x) = true).
  { inversion Hs as [|? ? _ Hr]; subst. rewrite -> Forall_forall in Hr.
    intros x [->|Hx]%elem_of_cons; [exact (leb_refl pair_leb _)|]. by apply Hle, Hr. }
  clearbody k. revert Hk Hs. generalize (r :: l). clear r l. intros l.
  induction l as [|x l IH]; intros Hk Hs; [done|]. inversion Hs as [|? ? Hs' Hx]; subst.
  rewrite -> Forall_forall in Hx. unfold select in *. simpl.
  destruct (decide (pair_of x = k)) as [E|E].
  - rewrite (bool_decide_true _ E). simpl. f_equal. apply IH; [|done].
    intros y Hy. by apply Hk, there.
  - rewrite (bool_decide_false _ E). simpl.
    assert (Hno : ∀ y, y ∈ l → pair_of y ≠ k).
    { intros y Hy Ey. apply E. apply pair_antisym; [|apply Hk, here]. rewrite -Ey. by apply Hle, Hx. }
    pose proof (select_none (λ s, pair_of s == k) l) as Hn. unfold select in Hn. rewrite Hn.
    { intros y Hy. by apply bool_decide_eq_false, Hno. }
    simpl. f_equal. symmetry. apply forallb_filter_id, forallb_forall.
    intros y Hy%list_elem_of_In. by apply negb_true_iff, bool_decide_eq_false, Hno.
Qed.

(** ** What a pair's history says *)

Definition instant_of (s : snapshot_row) : Z :=
  match _persisted_observation_datetime (sn_observed_at s) with Ok t => t | Raise _ => 0 end.
Definition balance_of (s : snapshot_row) : Z := default 0 (py_int (sn_balance s)).
(** Two observations in a row, the newer first, disagree. *)
Definition disagree (newer older : snapshot_row) : bool :=
  ((sn_observed_at older == sn_observed_at newer) && (sn_balance older =/= sn_balance newer))
  || jump (balance_of newer) (balance_of older).
Fixpoint unsteady (l : list snapshot_row) : bool :=
  match l with
  | x :: (y :: _) as l' => disagree x y || unsteady l'
  | _ => false
  end.

Definition max_ages (x y : option Z) : option Z :=
  match x, y with
  | None, y => y
  | x, None => x
  | Some x, Some y => Some (Z.max x y)
  end.
Definition health_add (x y : health) : health :=
  {| h_observed := h_observed x + h_observed y; h_fresh := h_fresh x + h_fresh y;
     h_near_expiry := h_near_expiry x + h_near_expiry y; h_stale := h_stale x + h_stale y;
     h_future := h_future x + h_future y; h_anomalous := h_anomalous x + h_anomalous y;
     h_max_age := max_ages (h_max_age x) (h_max_age y) |}.
(** The newest observation gives the age, the whole history the anomaly. *)
Definition pair_health (v : window) (l : list snapshot_row) : health :=
  match l with
  | [] => no_health
  | s :: _ => count_anomalous (unsteady l)
                (count_class v (wd_reference v - instant_of s) no_health)
  end.
Definition sum_health {K} (c : K → health) (l : list K) : health :=
  foldr (λ k acc, health_add (c k) acc) no_health l.

Lemma health_eq x y :
  h_observed x = h_observed y → h_fresh x = h_fresh y → h_near_expiry x = h_near_expiry y →
  h_stale x = h_stale y → h_future x = h_future y → h_anomalous x = h_anomalous y →
  h_max_age x = h_max_age y → x = y.
Proof. destruct x, y. simpl. congruence. Qed.
Ltac health_cases :=
  intros; apply health_eq; simpl; try lia;
  repeat match goal with |- context [h_max_age ?x] => destruct (h_max_age x) end; simpl;
  f_equal; lia.
Lemma health_add_comm x y : health_add x y = health_add y x.
Proof. health_cases. Qed.
Lemma health_add_assoc x y z : health_add x (health_add y z) = health_add (health_add x y) z.
Proof. health_cases. Qed.
Lemma health_add_0 x : health_add x no_health = x.
Proof. health_cases. Qed.
Lemma count_class_add v delta h : count_class v delta h = health_add h (count_class v delta no_health).
Proof.
  apply health_eq; simpl; try lia; try (case_bool_decide; lia).
  destruct (delta <? 0); simpl; destruct (h_max_age h); done.
Qed.
Lemma count_anomalous_add b h : count_anomalous b h = health_add h (count_anomalous b no_health).
Proof. apply health_eq; simpl; try lia; [destruct b; lia|]. by destruct (h_max_age h). Qed.

Section sums.
Context {K : Type} `{!EqDecision K}.
Lemma sum_health_ext (c c' : K → health) l :
  (∀ k, k ∈ l → c k = c' k) → sum_health c l = sum_health c' l.
Proof.
  induction l as [|k l IH]; intros H; [done|]. simpl. rewrite (H k (here _ _)).
  rewrite IH //. intros x Hx. by apply H, there.
Qed.
Lemma sum_health_extract (c : K → health) l k0 :
  NoDup l → k0 ∈ l → sum_health c l
    = health_add (c k0) (sum_health (λ k, if k == k0 then no_health else c k) l).
Proof.
  induction 1 as [|k l Hk Hl IH]; [by intros ?%not_elem_of_nil|].
  intros [->|Hin]%elem_of_cons; simpl.
  - rewrite bool_decide_true //. rewrite (health_add_comm no_health) health_add_0. f_equal.
    apply sum_health_ext. intros x Hx. rewrite bool_decide_false //. by intros ->.
  - rewrite (IH Hin) bool_decide_false; [by intros ->|].
    rewrite !health_add_assoc. f_equal. apply health_add_comm.
Qed.
Lemma sum_health_0 (c : K → health) l : (∀ k, k ∈ l → c k = no_health) → sum_health c l = no_health.
Proof.
  induction l as [|k l IH]; intros H; [done|]. simpl. rewrite (H k (here _ _)) IH //.
  intros x Hx. by apply H, there.
Qed.
(** A counter of the sum counts. *)
Lemma sum_health_count (proj : health → Z) (p : K → bool) (c : K → health) l :
  (∀ x y, proj (health_add x y) = proj x + proj y) → proj no_health = 0 →
  (∀ k, k ∈ l → proj (c k) = if p k then 1 else 0) → proj (sum_health c l) = count_where p l.
Proof.
  intros Ha H0 Hc. rewrite count_as_sum. induction l as [|k l IH]; [done|].
  simpl. rewrite Ha (Hc k (here _ _)). unfold sum_by in *. simpl. rewrite IH //.
  intros x Hx. by apply Hc, there.
Qed.
End sums.

(** ** What the registry guarantees *)

Lemma pass {A} b e (k : unit → result A) r : b = false → k tt = r → (fail_if b e ≫= k) = r.
Proof. by intros -> <-. Qed.

Section facts.
Context {Dg : Digest} {Hosts : HostNames}.
Context (w : world wallet_db) (sid : string).
Abbreviation d := (db w).
Hypothesis consistent : registry_ok d.
Hypothesis stable : ∀ n, n ∈ networks d → n_subject_id n = sid → network_stable n.

Definition pair_active (p : pair) : bool :=
  forallb (λ o, o == Some "active"%string)
    [n_status <$> network_by_id d p.1.1; as_status <$> asset_by_id d p.1.2;
     ad_status <$> address_by_id d p.2].

Lemma status_known l : lifecycle_valid l = true →
  l_status l = "active"%string ∨ l_status l = "revoked"%string.
Proof.
  unfold lifecycle_valid. intros [[[_ H]%andb_true_iff _]%andb_true_iff _]%andb_true_iff.
  by apply orb_true_iff in H as [?%bool_decide_eq_true|?%bool_decide_eq_true]; auto.
Qed.
Lemma known_status_check t : t = "active"%string ∨ t = "revoked"%string →
  (Some t =/= Some "active"%string) && (Some t =/= Some "revoked"%string) = false.
Proof. by intros [-> | ->]. Qed.

(** The resources of an observation of the subject. *)
Lemma snapshot_resources s :
  s ∈ snapshots d → sn_subject_id s = sid → ∃ n a b,
    n ∈ networks d ∧ a ∈ assets d ∧ b ∈ addresses d ∧
    network_by_id d (sn_network_id s) = Some n ∧ asset_by_id d (sn_asset_id s) = Some a ∧
    address_by_id d (sn_address_id s) = Some b ∧
    n_subject_id n = sid ∧ as_subject_id a = sid ∧ ad_subject_id b = sid ∧
    n_network_id n = sn_network_id s ∧ as_network_id a = sn_network_id s ∧
    ad_network_id b = sn_network_id s ∧ as_asset_id a = sn_asset_id s ∧
    ad_address_id b = sn_address_id s.
Proof.
  intros Hs E. destruct (g_snapshot _ consistent s Hs) as
    (_ & (n & Hn & En & Esn) & (a & Ha & Ea & Esa & Ean) & (b & Hb & Eb & Esb & Ebn)).
  exists n, a, b. rewrite -{1}En -{1}Ea -{1}Eb.
  rewrite (network_by_id_of w) // (asset_by_id_of w) // (address_by_id_of w) //.
  split_and!; congruence.
Qed.
Lemma asset_parent_active a n :
  a ∈ assets d → as_status a = "active"%string → network_by_id d (as_network_id a) = Some n →
  n_status n = "active"%string.
Proof.
  intros Ha Hact Hn. destruct (g_asset _ consistent a Ha) as (_ & _ & m & Hm & Em & _ & _ & H).
  rewrite -Em network_by_id_of // in Hn. injection Hn as <-. by apply H.
Qed.
Lemma address_parent_active a n :
  a ∈ addresses d → ad_status a = "active"%string → network_by_id d (ad_network_id a) = Some n →
  n_status n = "active"%string.
Proof.
  intros Ha Hact Hn. destruct (g_address _ consistent a Ha) as (_ & _ & m & Hm & Em & _ & H).
  rewrite -Em network_by_id_of // in Hn. injection Hn as <-. by apply H.
Qed.
Lemma snapshot_active s :
  s ∈ snapshots d → sn_subject_id s = sid →
  _observation_snapshot_is_active d s sid = Ok (pair_active (pair_of s)).
Proof.
  intros Hs E. destruct (snapshot_resources s Hs E)
    as (n & a & b & Hn & Ha & Hb & Rn & Ra & Rb & Sn & Sa & Sb & In & Ian & Ibn & _).
  unfold _observation_snapshot_is_active, pair_active. cbn [pair_of fst snd].
  rewrite Rn Ra Rb. cbn [fmap option_fmap option_map].
  assert (Kn : n_status n = "active"%string ∨ n_status n = "revoked"%string).
  { apply status_known.
    by apply (network_from_row_iff n n), (g_network _ consistent n Hn), stable. }
  assert (Ka : as_status a = "active"%string ∨ as_status a = "revoked"%string).
  { apply status_known. by apply (asset_from_row_iff a a), (g_asset _ consistent a Ha). }
  assert (Kb : ad_status b = "active"%string ∨ ad_status b = "revoked"%string).
  { apply status_known. by apply (address_from_row_iff b b), (g_address _ consistent b Hb). }
  apply pass; [cbn [existsb]; by rewrite E Sn Sa Sb !bool_decide_true|].
  apply pass; [by rewrite Ian Ibn !bool_decide_true|].
  apply pass; [cbn [existsb]; by rewrite !known_status_check|]. apply pass; [|done].
  case_bool_decide as E1; [done|]. cbn [negb andb]. apply orb_false_iff.
  split; apply bool_decide_eq_false; intros [= E2]; apply E1; f_equal.
  - eapply asset_parent_active; [done..|]. by rewrite Ian.
  - eapply address_parent_active; [done..|]. by rewrite Ibn.
Qed.

(** ** Targets *)

Lemma elem_of_targets net p :
  p ∈ active_targets d sid net ↔ ∃ a b n,
    a ∈ assets d ∧ b ∈ addresses d ∧ n ∈ networks d ∧
    as_subject_id a = sid ∧ as_status a = "active"%string ∧
    optional_match net (as_network_id a) = true ∧ ad_subject_id b = sid ∧
    ad_network_id b = as_network_id a ∧ ad_status b = "active"%string ∧ n_subject_id n = sid ∧
    n_network_id n = as_network_id a ∧ n_status n = "active"%string ∧
    p = (as_network_id a, as_asset_id a, ad_address_id b).
Proof.
  unfold active_targets. rewrite list_elem_of_bind. setoid_rewrite list_elem_of_bind.
  setoid_rewrite list_elem_of_bind. split.
  - intros (a & (b & (n & Hp & Hn) & Hb) & Ha). destruct (_ && _) eqn:E.
    2:{ by apply not_elem_of_nil in Hp. }
    apply list_elem_of_singleton in Hp. exists a, b, n.
    repeat match goal with H : _ && _ = true |- _ =>
      let H' := fresh in apply andb_true_iff in H as [H H'] end.
    repeat match goal with H : bool_decide _ = true |- _ => apply bool_decide_eq_true in H end.
    split_and!; congruence.
  - intros (a & b & n & Ha & Hb & Hn & E1 & E2 & E3 & E4 & E5 & E6 & E7 & E8 & E9 & ->).
    exists a. split; [|done]. exists b. split; [|done]. exists n. split; [|done].
    rewrite E1 E3 E4 E5 E7 E8 !bool_decide_true //. by apply list_elem_of_singleton.
Qed.
Lemma targets_NoDup net : NoDup (active_targets d sid net).
Proof.
  unfold active_targets. apply NoDup_bind.
  - intros a1 a2 p H1 H2 (b1 & (n1 & Hp1 & _)%list_elem_of_bind & _)%list_elem_of_bind
      (b2 & (n2 & Hp2 & _)%list_elem_of_bind & _)%list_elem_of_bind.
    destruct (_ && _) in Hp1; [|by apply not_elem_of_nil in Hp1].
    destruct (_ && _) in Hp2; [|by apply not_elem_of_nil in Hp2].
    apply list_elem_of_singleton in Hp1, Hp2. subst p. injection Hp2 as _ E _.
    by apply (key_unique as_asset_id (assets d)); [apply consistent|..].
  - intros a Ha. apply NoDup_bind.
    + intros b1 b2 p H1 H2 (n1 & Hp1 & _)%list_elem_of_bind (n2 & Hp2 & _)%list_elem_of_bind.
      destruct (_ && _) in Hp1; [|by apply not_elem_of_nil in Hp1].
      destruct (_ && _) in Hp2; [|by apply not_elem_of_nil in Hp2].
      apply list_elem_of_singleton in Hp1, Hp2. subst p. injection Hp2 as E.
      by apply (key_unique ad_address_id (addresses d)); [apply consistent|..].
    + intros b Hb. apply NoDup_bind.
      * intros n1 n2 p H1 H2 Hp1 Hp2.
        destruct (_ && _) eqn:C1 in Hp1; [|by apply not_elem_of_nil in Hp1].
        destruct (_ && _) eqn:C2 in Hp2; [|by apply not_elem_of_nil in Hp2].
        apply andb_true_iff in C1 as [[_ C1%bool_decide_eq_true]%andb_true_iff _].
        apply andb_true_iff in C2 as [[_ C2%bool_decide_eq_true]%andb_true_iff _].
        apply (key_unique n_network_id (networks d)); [apply consistent|done..|congruence].
      * intros n Hn. destruct (_ && _); [apply NoDup_singleton|apply NoDup_nil_2].
      * eapply (NoDup_fmap_1 n_network_id), consistent.
    + eapply (NoDup_fmap_1 ad_address_id), consistent.
  - eapply (NoDup_fmap_1 as_asset_id), consistent.
Qed.
Lemma active_is_target net s :
  s ∈ snapshots d → sn_subject_id s = sid → optional_match net (sn_network_id s) = true →
  pair_active (pair_of s) = true → pair_of s ∈ active_targets d sid net.
Proof.
  intros Hs E Hnet. destruct (snapshot_resources s Hs E)
    as (n & a & b & Hn & Ha & Hb & Rn & Ra & Rb & Sn & Sa & Sb & In & Ian & Ibn & Ia & Ib).
  unfold pair_active. cbn [pair_of fst snd]. rewrite Rn Ra Rb. cbn [fmap option_fmap option_map].
  cbn [forallb]. rewrite andb_true_r !andb_true_iff !bool_decide_eq_true.
  intros ([= E1] & [= E2] & [= E3]). apply elem_of_targets. exists a, b, n.
  unfold pair_of. rewrite Ian Ia Ib. by split_and!.
Qed.
Lemma target_active net p : p ∈ active_targets d sid net → pair_active p = true.
Proof.
  intros (a & b & n & Ha & Hb & Hn & _ & E2 & _ & _ & E5 & E6 & _ & E8 & E9 & ->)%elem_of_targets.
  unfold pair_active. cbn [fst snd]. rewrite -E8 network_by_id_of // asset_by_id_of // address_by_id_of //.
  cbn [fmap option_fmap option_map forallb]. by rewrite E2 E6 E9 !bool_decide_true.
Qed.

(** ** Rows that are read *)

Definition mine (s : snapshot_row) : Prop := s ∈ snapshots d ∧ sn_subject_id s = sid.
Lemma mine_readable s : mine s → _balance_from_row s = Ok s.
Proof. intros [Hs _]. by apply (g_snapshot _ consistent s Hs). Qed.
Lemma row_canonical s :
  _balance_from_row s = Ok s → canonical_timestamp (sn_observed_at s) = Ok (sn_observed_at s) ∧
    numeral (sn_balance s) = true.
Proof.
  unfold _balance_from_row. intros Hs. step Hs as p Hp%except_invalid_ok.
  step Hs as [] _. step Hs as [] _. step Hs as [] Hc%fail_if_ok.
  apply orb_false_iff in Hc as [Hc Ho%negb_false_iff%bool_decide_eq_true].
  apply orb_false_iff in Hc as [Hc _]. apply orb_false_iff in Hc as [_ Hb].
  apply negb_false_iff, bool_decide_eq_true in Hb.
  unfold validate_WalletBalanceSnapshotInput in Hp. do 5 step Hp as ? _. step Hp as bal Hbal.
  do 2 step Hp as ? _. step Hp as o Hobs. injection Hp as <-. simpl in *. subst o bal.
  simpl in Hobs. step Hobs as [] _. step Hobs as t Ht. injection Hobs as ->. split; [done|].
  unfold canonical_balance in Hbal. destruct (balance_match _) eqn:E; [|done].
  by apply andb_true_iff in E as [[E _]%andb_true_iff _].
Qed.
Lemma persisted_ok s : mine s → _persisted_observation_datetime (sn_observed_at s) = Ok (instant_of s).
Proof.
  intros [Hc _]%mine_readable%row_canonical. unfold instant_of, _persisted_observation_datetime.
  pose proof Hc as Hc'. unfold canonical_timestamp in Hc'.
  destruct (fromisoformat (sn_observed_at s)) as [[l [o|]]|]; try done. rewrite Hc.
  rewrite bool_decide_true //. step Hc' as t Ht. by rewrite Ht.
Qed.
Lemma balance_int_ok s : mine s → balance_int s = Ok (balance_of s).
Proof.
  intros [_ Hb]%mine_readable%row_canonical. destruct (py_int_numeral _ Hb) as (z & Hz & _).
  unfold balance_int, balance_of. by rewrite Hz.
Qed.

(** ** The pass over the history *)

Context (v : window) (count : Z).
Definition settled (st : health_state) : health := count_anomalous (hs_anomalous st) (hs_health st).
Abbreviation run := (health_rows d sid v count).

(** One row, for the rows that are read. *)
Lemma health_row_eq st s :
  mine s → health_row d sid v count st s =
  if negb (pair_active (pair_of s)) then Ok st
  else if hs_key st =/= Some (pair_of s) then
    _ ← fail_if (count <? h_observed (settled st) + 1)
          (IntegrityError "wallet observation pair count is inconsistent");
    Ok {| hs_key := Some (pair_of s); hs_previous := remember s (balance_of s);
          hs_anomalous := false;
          hs_health := count_class v (wd_reference v - instant_of s) (settled st) |}
  else
    Ok {| hs_key := hs_key st; hs_previous := remember s (balance_of s);
          hs_anomalous := hs_anomalous st
            || match hs_previous st with Some p => anomaly p (balance_of s) s | None => false end;
          hs_health := hs_health st |}.
Proof.
  intros Hs. unfold health_row. rewrite mine_readable //. cbn [mbind result_bind].
  destruct Hs as [Hin E]. rewrite snapshot_active //. cbn [mbind result_bind].
  destruct (negb _); [done|]. rewrite balance_int_ok //. cbn [mbind result_bind].
  destruct (hs_key st =/= _); [|done]. unfold settled. destruct (fail_if _ _) as [[]|]; [|done].
  cbn [mbind result_bind]. by rewrite persisted_ok.
Qed.
Lemma health_rows_app st l1 l2 : run st (l1 ++ l2) = st ← run st l1; run st l2.
Proof.
  revert st. induction l1 as [|s l1 IH]; intros st; [done|]. simpl.
  destruct (health_row _ _ _ _ _ _); [apply IH|done].
Qed.
(** Rows of revoked resources are passed over. *)
Lemma run_active st l :
  (∀ s, s ∈ l → mine s) → run st l = run st (select (λ s, pair_active (pair_of s)) l).
Proof.
  revert st. induction l as [|s l IH]; intros st Hm; [done|].
  assert (Hs : mine s) by apply Hm, here.
  assert (IH' : ∀ st, run st l = run st (select (λ s, pair_active (pair_of s)) l))
    by (intros; apply IH; intros; by apply Hm, there).
  unfold select in *. simpl. destruct (pair_active (pair_of s)) eqn:E; simpl.
  - destruct (health_row _ _ _ _ _ _) as [st'|]; [|done]. apply IH'.
  - rewrite health_row_eq // E. apply IH'.
Qed.

(** The older rows of a pair: only the anomaly can change. *)
Lemma run_older k st x l :
  (∀ s, s ∈ l → mine s ∧ pair_active (pair_of s) = true ∧ pair_of s = k) →
  hs_key st = Some k → hs_previous st = remember x (balance_of x) →
  ∃ st', run st l = Ok st' ∧ hs_key st' = Some k ∧
    settled st' = count_anomalous (hs_anomalous st || unsteady (x :: l)) (hs_health st).
Proof.
  revert st x. induction l as [|s l IH]; intros st x Hl Hk Hp.
  { exists st. split_and!; try done. unfold settled. simpl. by rewrite orb_false_r. }
  destruct (Hl s (here _ _)) as (Hs & Ha & Es). cbn [health_rows].
  rewrite health_row_eq // Ha Hk Es bool_decide_true // Hp. cbn [negb mbind result_bind].
  edestruct (IH {| hs_key := Some k; hs_previous := remember s (balance_of s);
      hs_anomalous := hs_anomalous st
        || match remember x (balance_of x) with Some p => anomaly p (balance_of s) s
           | None => false end; hs_health := hs_health st |} s)
    as (st' & -> & Hk' & Hs'); [intros; by apply Hl, there|done|done|].
  exists st'. split_and!; try done. rewrite Hs'. simpl. f_equal.
  rewrite -orb_assoc. done.
Qed.
(** All rows of a pair. *)
Lemma run_pair k st l :
  (∀ s, s ∈ l → mine s ∧ pair_active (pair_of s) = true ∧ pair_of s = k) →
  hs_key st ≠ Some k → l ≠ [] → h_observed (settled st) + 1 <= count →
  ∃ st', run st l = Ok st' ∧ hs_key st' = Some k ∧
    settled st' = health_add (settled st) (pair_health v l).
Proof.
  intros Hl Hk Hne Hc. destruct l as [|x l]; [done|].
  destruct (Hl x (here _ _)) as (Hx & Ha & Ex). cbn [health_rows].
  rewrite health_row_eq // Ha Ex (bool_decide_false _ Hk). cbn [negb].
  rewrite (proj2 (Z.ltb_ge _ _)) //. cbn [fail_if mbind result_bind].
  edestruct (run_older k {| hs_key := Some k; hs_previous := remember x (balance_of x);
      hs_anomalous := false; hs_health := count_class v (wd_reference v - instant_of x) (settled st) |} x l)
    as (st' & Hr & Hk' & Hs'); [intros; by apply Hl, there|done|done|].
  exists st'. split_and!; try done. rewrite Hs'. cbn [hs_anomalous hs_health orb pair_health].
  rewrite count_class_add (count_anomalous_add _ (health_add _ _)).
  by rewrite (count_anomalous_add _ (count_class _ _ _)) health_add_assoc.
Qed.

(** The pass adds up what each pair's own rows say. *)
Lemma run_all (keys : list pair) st l :
  StronglySorted (λ x y, history_leb x y = true) l → NoDup keys →
  (∀ s, s ∈ l → mine s ∧ pair_active (pair_of s) = true ∧ pair_of s ∈ keys ∧
     hs_key st ≠ Some (pair_of s)) →
  let total := health_add (settled st)
    (sum_health (λ k, pair_health v (select (λ s, pair_of s == k) l)) keys) in
  h_observed total <= count → ∃ st', run st l = Ok st' ∧ settled st' = total.
Proof.
  remember (length l) as n eqn:En. revert st l En.
  induction (lt_wf n) as [n _ IH]. intros st l -> Hs Hd Hl total Ht.
  destruct l as [|r l].
  { exists st. split; [done|]. unfold total. rewrite sum_health_0 //. by rewrite health_add_0. }
  set (k := pair_of r). set (G := select (λ s, pair_of s == k) (r :: l)).
  set (R := select (λ s, pair_of s =/= k) (r :: l)).
  assert (Hsplit : r :: l = G ++ R) by by apply split_pair.
  destruct (Hl r (here _ _)) as (_ & _ & Hk & Hcur).
  assert (HG : G = r :: tail G).
  { unfold G, select. simpl. by rewrite bool_decide_true. }
  assert (HinG : ∀ s, s ∈ G → s ∈ r :: l ∧ pair_of s = k).
  { intros s [? ?%bool_decide_eq_true]%elem_of_select. done. }
  assert (HinR : ∀ s, s ∈ R → s ∈ r :: l ∧ pair_of s ≠ k).
  { intros s [? ?%negb_true_iff%bool_decide_eq_false]%elem_of_select. done. }
  assert (Hsum : sum_health (λ k', pair_health v (select (λ s, pair_of s == k') (r :: l))) keys
    = health_add (pair_health v G)
        (sum_health (λ k', pair_health v (select (λ s, pair_of s == k') R)) keys)).
  { rewrite (sum_health_extract _ keys k) //. fold G. f_equal. apply sum_health_ext.
    intros k' _. case_bool_decide as E.
    - subst k'. rewrite (select_none _ R) //. intros s [_ ?]%HinR. by apply bool_decide_eq_false.
    - f_equal. unfold R. rewrite select_select. apply select_ext. intros s _.
      case_bool_decide as E'; [|done]. simpl. rewrite E'. by rewrite bool_decide_false. }
  assert (Hnn : ∀ L, 0 <= h_observed (sum_health (λ k', pair_health v (select (λ s, pair_of s == k') L)) keys)).
  { intros L. clear. induction keys as [|k' keys IH]; [done|]. simpl.
    assert (0 <= h_observed (pair_health v (select (λ s, pair_of s == k') L)))
      by (destruct (select _ _); simpl; lia). lia. }
  assert (HobsG : h_observed (pair_health v G) = 1) by by rewrite HG.
  destruct (run_pair k st G) as (st1 & Hr1 & Hk1 & Hs1).
  { intros s [Hin E]%HinG. by destruct (Hl s Hin) as (? & ? & _). }
  { done. }
  { by rewrite HG. }
  { unfold total in Ht. rewrite Hsum in Ht. cbn [health_add h_observed] in Ht.
    pose proof (Hnn R). lia. }
  assert (Htot : total = health_add (settled st1)
    (sum_health (λ k', pair_health v (select (λ s, pair_of s == k') R)) keys)).
  { unfold total. by rewrite Hsum Hs1 health_add_assoc. }
  destruct (IH (length R)) with (st := st1) (l := R) as (st2 & Hr2 & Hs2); try done.
  - apply (f_equal length) in Hsplit. rewrite length_app HG in Hsplit. simpl in *. lia.
  - by apply (sorted_select history_leb).
  - intros s [Hin Hne]%HinR. destruct (Hl s Hin) as (? & ? & ? & _). split_and!; try done.
    rewrite Hk1. congruence.
  - by rewrite -Htot.
  - exists st2. rewrite Htot. split; [|done]. rewrite Hsplit health_rows_app Hr1. done.
Qed.

(** ** The targets are counted *)

Lemma target_is_valid net p : p ∈ active_targets d sid net → target_valid p = true.
Proof.
  intros (a & b & n & Ha & Hb & Hn & _ & _ & _ & _ & _ & _ & E7 & E8 & _ & ->)%elem_of_targets.
  assert (Hi : identity_ok (n_network_id n) (n_subject_id n) "network identifier" = true)
    by by apply (network_from_row_iff n n), (g_network _ consistent n Hn), stable.
  assert (Ha' : identity_ok (as_asset_id a) (as_subject_id a) "asset identifier" = true)
    by by apply (asset_from_row_iff a a), (g_asset _ consistent a Ha).
  assert (Hb' : identity_ok (ad_address_id b) (ad_subject_id b) "address identifier" = true)
    by by apply (address_from_row_iff b b), (g_address _ consistent b Hb).
  apply andb_true_iff in Hi as [Hi _], Ha' as [Ha' _], Hb' as [Hb' _].
  unfold target_valid. cbn [fst snd]. by rewrite -E8 Hi Ha' Hb'.
Qed.
Lemma count_targets_ok prev c l :
  (∀ p, p ∈ l → target_valid p = true ∧ prev ≠ Some p) → NoDup l →
  c + Z.of_nat (length l) <= WALLET_BALANCE_OBSERVATION_MAX_ACTIVE_PAIRS →
  count_targets prev c l = Ok (c + Z.of_nat (length l)).
Proof.
  revert prev c. induction l as [|p l IH]; intros prev c Hl Hd Hc; [by rewrite Z.add_0_r|].
  destruct (Hl p (here _ _)) as [Hv Hp]. apply NoDup_cons in Hd as [Hn Hd]. simpl in *.
  rewrite Hv (bool_decide_false _ Hp) (proj2 (Z.ltb_ge _ _)); [lia|].
  cbn [negb fail_if mbind result_bind]. rewrite IH //.
  - intros q Hq. destruct (Hl q (there _ _ _ Hq)) as [? _]. split; [done|]. by intros [= ->].
  - lia.
  - f_equal. lia.
Qed.
Lemma targets_counted (t l : list pair) :
  t ≡ₚ l → (∀ p, p ∈ l → target_valid p = true) → NoDup l →
  Z.of_nat (length l) <= WALLET_BALANCE_OBSERVATION_MAX_ACTIVE_PAIRS →
  count_targets None 0 (limited (WALLET_BALANCE_OBSERVATION_MAX_ACTIVE_PAIRS + 1) t)
  = Ok (Z.of_nat (length l)).
Proof.
  intros HP Hv Hd Hl. unfold limited. rewrite take_ge; [rewrite HP; lia|].
  rewrite count_targets_ok; rewrite ?HP //. intros p. rewrite HP. auto.
Qed.

(** ** Histories *)

Definition pair_history (p : pair) : list snapshot_row :=
  sort_by newest_first (select (λ s, (sn_subject_id s == sid) && (pair_of s == p)) (snapshots d)).

Lemma insert_sorted_ext {R} (le1 le2 : R → R → bool) x l :
  (∀ y, y ∈ l → le1 x y = le2 x y) → insert_sorted le1 x l = insert_sorted le2 x l.
Proof.
  induction l as [|y l IH]; intros H; [done|]. simpl. rewrite (H y (here _ _)).
  destruct (le2 x y); [done|]. f_equal. apply IH. intros z Hz. by apply H, there.
Qed.
Lemma sort_by_ext {R} (le1 le2 : R → R → bool) l :
  (∀ x y, x ∈ l → y ∈ l → le1 x y = le2 x y) → sort_by le1 l = sort_by le2 l.
Proof.
  induction l as [|x l IH]; intros H; [done|]. simpl.
  rewrite IH; [intros; apply H; by apply there|]. apply insert_sorted_ext.
  intros y Hy%elem_of_sort_by. apply H; [apply here|by apply there].
Qed.
Lemma history_of_pair net k :
  optional_match net k.1.1 = true →
  select (λ s, pair_of s == k) (history_rows d sid net) = pair_history k.
Proof.
  intros Hn. unfold history_rows, pair_history. rewrite -sort_by_select select_select.
  rewrite (select_ext _ (λ s, (sn_subject_id s == sid) && (pair_of s == k))).
  { intros s _. case_bool_decide as E; [|by rewrite andb_false_r].
    simpl. rewrite andb_true_r. replace (sn_network_id s) with k.1.1 by by rewrite -E.
    by rewrite Hn andb_true_r. }
  apply sort_by_ext. intros x y [_ [_ Ex]%andb_true_iff]%elem_of_select
    [_ [_ Ey]%andb_true_iff]%elem_of_select. apply bool_decide_eq_true in Ex, Ey.
  unfold history_leb. by rewrite Ex Ey bool_decide_true.
Qed.
Lemma mine_history net s : s ∈ history_rows d sid net → mine s ∧ optional_match net (sn_network_id s) = true.
Proof.
  intros [Hs [E%bool_decide_eq_true Hn]%andb_true_iff]%elem_of_sort_by%elem_of_select. done.
Qed.

Definition targets : list pair := active_targets d sid None.
Lemma health_connection_run :
  Z.of_nat (length targets) <= WALLET_BALANCE_OBSERVATION_MAX_ACTIVE_PAIRS →
  count = Z.of_nat (length targets) →
  let h := sum_health (λ k, pair_health v (pair_history k)) targets in
  let never := count - h_observed h in
  _observation_health_connection sid v w = (Ok
    {| or_status := if needs_attention h never then "attention" else "ok";
       or_evaluated_at := isoformat_ms (wd_reference v);
       or_stale_after_seconds := wd_age_limit v; or_health := h; or_never := never |}, w).
Proof.
  intros Hmax Hcount h never.
  assert (Hobs : h_observed h <= count).
  { unfold h. rewrite (sum_health_count h_observed (λ k, match pair_history k with [] => false | _ => true end));
      [done|done|by intros k _; destruct (pair_history k)|].
    rewrite Hcount. unfold count_where, select. apply inj_le, filter_length_le. }
  set (l := select (λ s, pair_active (pair_of s)) (history_rows d sid None)).
  set (st0 := {| hs_key := None; hs_previous := None; hs_anomalous := false; hs_health := no_health |}).
  assert (Hsum : sum_health (λ k, pair_health v (select (λ s, pair_of s == k) l)) targets = h).
  { apply sum_health_ext. intros k Hk. f_equal. rewrite -(history_of_pair None k) //.
    unfold l. rewrite select_select. apply select_ext. intros s _. case_bool_decide as E; [|done].
    by rewrite E (target_active None). }
  assert (Hst0 : settled st0 = no_health) by done.
  destruct (run_all targets st0 l) as (st & Hrun & Hset).
  { apply (sorted_select history_leb). apply (sort_by_sorted history_leb). }
  { apply targets_NoDup. }
  { intros s [[Hm _]%mine_history Ha]%elem_of_select. split_and!; try done.
    apply active_is_target; try done; apply Hm. }
  { by rewrite Hst0 Hsum health_add_comm health_add_0. }
  rewrite Hst0 Hsum health_add_comm health_add_0 in Hset.
  enough (yields (_observation_health_connection sid v) w
    {| or_status := if needs_attention h never then "attention" else "ok";
       or_evaluated_at := isoformat_ms (wd_reference v);
       or_stale_after_seconds := wd_age_limit v; or_health := h; or_never := never |}) by done.
  unfold _observation_health_connection. apply yields_gets. eapply yields_lift.
  { apply (targets_counted _ targets); [apply sort_by_perm|apply target_is_valid|apply targets_NoDup|done]. }
  apply yields_gets. rewrite -Hcount. unfold id. fold st0. eapply yields_lift.
  { rewrite run_active; [by intros s [? _]%mine_history|]. exact Hrun. }
  cbv zeta. fold (settled st). rewrite Hset. apply yields_raise_if; [apply Z.ltb_ge; lia|]. done.
Qed.
End facts.


(** ** The theorem *)

Definition never (l : list snapshot_row) : bool := match l with [] => true | _ => false end.
Definition newest_class (v : window) (l : list snapshot_row) : option age_class :=
  match l with [] => None | s :: _ => Some (classify v (wd_reference v - instant_of s)) end.
(** Whole seconds since the newest observation, if it has passed. *)
Definition newest_age (v : window) (l : list snapshot_row) : option Z :=
  match l with
  | [] => None
  | s :: _ => let delta := wd_reference v - instant_of s in
              if delta <? 0 then None else Some (age_seconds delta)
  end.
Definition healthy (v : window) (l : list snapshot_row) : bool :=
  (newest_class v l == Some Fresh) && negb (unsteady l).

(** The counters of a sum of pairs. *)
Section counters.
Context {K : Type} (v : window) (hist : K → list snapshot_row) (l : list K).
Abbreviation total := (sum_health (λ k, pair_health v (hist k)) l).
Ltac counter proj p := apply (sum_health_count proj p); [done|done|];
  intros k _; destruct (hist k) as [|s t]; [done|]; simpl; repeat case_bool_decide; done || congruence.
Lemma total_observed : h_observed total = count_where (λ k, negb (never (hist k))) l.
Proof. counter h_observed (λ k, negb (never (hist k))). Qed.
Lemma total_class :
  h_fresh total = count_where (λ k, newest_class v (hist k) == Some Fresh) l ∧
  h_near_expiry total = count_where (λ k, newest_class v (hist k) == Some NearExpiry) l ∧
  h_stale total = count_where (λ k, newest_class v (hist k) == Some Stale) l ∧
  h_future total = count_where (λ k, newest_class v (hist k) == Some Future) l.
Proof.
  split_and!;
    [ counter h_fresh (λ k, newest_class v (hist k) == Some Fresh)
    | counter h_near_expiry (λ k, newest_class v (hist k) == Some NearExpiry)
    | counter h_stale (λ k, newest_class v (hist k) == Some Stale)
    | counter h_future (λ k, newest_class v (hist k) == Some Future) ].
Qed.
Lemma total_anomalous : h_anomalous total = count_where (λ k, unsteady (hist k)) l.
Proof.
  apply (sum_health_count h_anomalous (λ k, unsteady (hist k))); [done|done|].
  intros k _. by destruct (hist k) as [|s t].
Qed.
Lemma total_age : h_max_age total = foldr max_ages None (map (λ k, newest_age v (hist k)) l).
Proof.
  induction l as [|k l' IH]; [done|]. simpl. rewrite IH. f_equal.
  destruct (hist k) as [|s t]; [done|]. simpl. by destruct (_ <? 0).
Qed.
Lemma count_partition (p : K → bool) t :
  Z.of_nat (length t) - count_where (λ k, negb (p k)) t = count_where p t.
Proof.
  rewrite !count_as_sum. unfold sum_by. induction t as [|k t IH]; [done|]. simpl.
  destruct (p k); simpl; lia.
Qed.
Lemma count_zero (p : K → bool) t : count_where p t = 0 ↔ ∀ k, k ∈ t → p k = false.
Proof.
  unfold count_where. split.
  - intros H k Hk. destruct (p k) eqn:Ep; [|done].
    assert (Hin : k ∈ select p t) by by apply elem_of_select.
    destruct (select p t); [by apply not_elem_of_nil in Hin|]. simpl in H. lia.
  - intros H. by rewrite select_none.
Qed.
(** Attention is needed exactly when some pair is not healthy. *)
Lemma total_healthy :
  needs_attention total (count_where (λ k, never (hist k)) l) = false ↔
  ∀ k, k ∈ l → healthy v (hist k) = true.
Proof.
  unfold needs_attention. destruct total_class as (_ & E1 & E2 & E3).
  rewrite negb_false_iff !andb_true_iff !Z.eqb_eq E1 E2 E3 total_anomalous !count_zero. split.
  - intros ((((H1 & H2) & H3) & H4) & H5) k Hk. specialize (H1 k Hk). specialize (H2 k Hk).
    specialize (H3 k Hk). specialize (H4 k Hk). unfold healthy. rewrite (H5 k Hk) andb_true_r.
    destruct (hist k) as [|s t]; [done|]. simpl in *. by destruct (classify _ _).
  - intros H. split_and!; intros k Hk; specialize (H k Hk); unfold healthy in H;
      apply andb_true_iff in H as [H1%bool_decide_eq_true H2%negb_true_iff]; rewrite ?H1 ?H2 //;
      by destruct (hist k).
Qed.
End counters.

Section health_theorem.
Context {Dg : Digest} {En : Env} {Sg : Signer} {Hosts : HostNames} {Sound : SoundEnv}.

Lemma age_limit_ok age :
  0 <= age <= WALLET_BALANCE_OBSERVATION_MAX_WINDOW_SECONDS → _observation_age_limit age = Ok age.
Proof.
  intros H. unfold _observation_age_limit. rewrite (proj2 (andb_true_iff _ _)) //.
  split; apply Z.leb_le; lia.
Qed.
Lemma reference_run w now reference :
  parse_reference now = Ok reference → yields (_observation_reference (Some now)) w reference.
Proof. intros H. unfold _observation_reference. eapply yields_bind; [done|]. unfold yields, lift. by rewrite H. Qed.

(** C24: The health of a subject's observations, computed in one pass over the
    sorted history with running counters, is what the tables say, for a
    subject whose stored URLs re-validate to themselves and that has no more
    active pairs than the code admits: each
    counter is the number of active pairs whose own history has the property,
    the age is the greatest of the pairs, and the status is "ok" exactly when
    every active pair is freshly and steadily observed. *)
Theorem observation_health_exact w sid sid' age now reference :
  registry_reachable w → validate_subject_id sid = Ok sid' →
  (∀ n, n ∈ networks (db w) → n_subject_id n = sid → network_stable n) →
  0 <= age <= WALLET_BALANCE_OBSERVATION_MAX_WINDOW_SECONDS →
  parse_reference now = Ok reference →
  let pairs := active_targets (db w) sid None in
  let hist := pair_history w sid in
  let v := {| wd_reference := reference; wd_age_limit := age |} in
  Z.of_nat (length pairs) <= WALLET_BALANCE_OBSERVATION_MAX_ACTIVE_PAIRS →
  ∃ r, observation_health sid age (Some now) w = (Ok r, w) ∧
    h_observed (or_health r) = count_where (λ p, negb (never (hist p))) pairs ∧
    or_never r = count_where (λ p, never (hist p)) pairs ∧
    h_fresh (or_health r) = count_where (λ p, newest_class v (hist p) == Some Fresh) pairs ∧
    h_near_expiry (or_health r)
      = count_where (λ p, newest_class v (hist p) == Some NearExpiry) pairs ∧
    h_stale (or_health r) = count_where (λ p, newest_class v (hist p) == Some Stale) pairs ∧
    h_future (or_health r) = count_where (λ p, newest_class v (hist p) == Some Future) pairs ∧
    h_anomalous (or_health r) = count_where (λ p, unsteady (hist p)) pairs ∧
    h_max_age (or_health r) = foldr max_ages None (map (λ p, newest_age v (hist p)) pairs) ∧
    (or_status r = "ok"%string ↔ ∀ p, p ∈ pairs → healthy v (hist p) = true).
Proof.
  intros G%reachable_registry_ok Hsid Hst Hage Hnow pairs hist v Hlen.
  pose proof (health_connection_run w sid G Hst v (Z.of_nat (length pairs)) Hlen eq_refl) as Hrun.
  cbv zeta in Hrun. fold hist in Hrun.
  rewrite total_observed count_partition in Hrun.
  eexists. split.
  { enough (Hy : yields (observation_health sid age (Some now)) w _) by exact Hy.
    unfold observation_health. eapply yields_lift; [exact Hsid|]. eapply yields_lift.
    { by apply age_limit_ok. }
    eapply yields_bind; [by apply (reference_run w now reference)|].
    apply yields_read_transaction. exact Hrun. }
  cbn [or_health or_never or_status].
  destruct (total_class v hist pairs) as (E1 & E2 & E3 & E4).
  split_and!; try done; [apply total_observed|apply total_anomalous|apply total_age|].
  rewrite -total_healthy. destruct (needs_attention _ _); done.
Qed.
End health_theorem.
