(* ===== verification/RegistryBreakdown.v ===== *)
(** * The breakdown partitions the health

    The groups of [observation_health_breakdown] are sums of what the pairs
    of the group say, and over all groups they add up to
    [observation_health]. *)

From stdpp Require Import sorting gmap.
From S2P Require Import Prelude Tables PyStr Json Digest Time Sorting WalletTypes RegistryTypes.
From S2P Require Import WalletTransfer WalletDb WalletEconomy RegistryDb RegistryStore.
From S2P Require Import RegistryIntegrity RegistryHealth WalletOrders WalletSubmissions.
From S2P Require Import WalletExecution WalletEngine WalletEffects RegistryFrame WalletSteps.
From S2P Require Import WalletSystem WalletRecords RegistryInv RegistrySteps RegistryVerify.
From S2P Require Import RegistryPages RegistryObservations.
Local Open Scope Z_scope.

(** ** Groups add up *)

Definition latest_of (x y : option string) : option string :=
  match x, y with
  | x, None => x
  | None, y => y
  | Some x, Some y => if str_ltb x y then Some y else Some x
  end.
Definition group_add (x y : group) : group :=
  {| g_active := g_active x + g_active y; g_health := health_add (g_health x) (g_health y);
     g_never := g_never x + g_never y; g_snapshot_count := g_snapshot_count x + g_snapshot_count y;
     g_latest_observed_at := latest_of (g_latest_observed_at x) (g_latest_observed_at y) |}.
Lemma latest_comm x y : latest_of x y = latest_of y x.
Proof.
  destruct x as [x|], y as [y|]; try done. simpl. destruct (str_ltb x y) eqn:E, (str_ltb y x) eqn:E'; try done.
  - pose proof (str_ltb_trans _ _ _ E E') as F. by rewrite str_ltb_irrefl in F.
  - by rewrite (str_ltb_total x y).
Qed.
Lemma str_ltb_false_trans x y z : str_ltb x y = false → str_ltb y z = false → str_ltb x z = false.
Proof.
  intros H1 H2. apply negb_true_iff.
  exact (leb_trans (leb:=str_leb) z y x (proj2 (negb_true_iff _) H2) (proj2 (negb_true_iff _) H1)).
Qed.
Lemma latest_assoc x y z : latest_of x (latest_of y z) = latest_of (latest_of x y) z.
Proof.
  destruct x as [x|], y as [y|], z as [z|]; simpl; try done; try (by destruct (str_ltb _ _)).
  destruct (str_ltb y z) eqn:E1, (str_ltb x y) eqn:E2; simpl; rewrite ?E1 ?E2 //.
  - by rewrite (str_ltb_trans _ _ _ E2 E1).
  - by rewrite (str_ltb_false_trans _ _ _ E2 E1).
Qed.
Lemma group_eq x y :
  g_active x = g_active y → g_health x = g_health y → g_never x = g_never y →
  g_snapshot_count x = g_snapshot_count y → g_latest_observed_at x = g_latest_observed_at y → x = y.
Proof. destruct x, y. simpl. congruence. Qed.
Lemma group_add_comm x y : group_add x y = group_add y x.
Proof. apply group_eq; simpl; try lia; [apply health_add_comm|apply latest_comm]. Qed.
Lemma group_add_assoc x y z : group_add x (group_add y z) = group_add (group_add x y) z.
Proof. apply group_eq; simpl; try lia; [apply health_add_assoc|apply latest_assoc]. Qed.
Lemma group_add_new x : group_add x new_group = x.
Proof.
  apply group_eq; simpl; try lia; [apply health_add_0|]. by destruct (g_latest_observed_at x).
Qed.

(** Credit a contribution to its group. *)
Definition credit (c : option string * group) (gs : groups) : groups :=
  <[c.1 := group_add (default new_group (gs !! c.1)) c.2]> gs.
Abbreviation credits gs l := (foldr credit gs l).

Lemma credit_comm c1 c2 gs : credit c1 (credit c2 gs) = credit c2 (credit c1 gs).
Proof.
  destruct c1 as [x g], c2 as [y h]. unfold credit. simpl. destruct (decide (x = y)) as [->|E].
  - rewrite !lookup_insert_eq !insert_insert_eq. f_equal. simpl.
    rewrite -!group_add_assoc. f_equal. apply group_add_comm.
  - rewrite !lookup_insert_ne //. by apply insert_insert_ne.
Qed.
Lemma credits_perm gs l l' : l ≡ₚ l' → credits gs l = credits gs l'.
Proof.
  induction 1 as [|c l l' _ IH|c1 c2 l|l1 l2 l3 _ IH1 _ IH2]; simpl; [done|by f_equal|apply credit_comm|congruence].
Qed.
Lemma credits_app gs l l' : credits gs (l ++ l') = credits (credits gs l) l'.
Proof. rewrite (credits_perm _ _ (l' ++ l)); [apply Permutation_app_comm|]. by rewrite foldr_app. Qed.
Lemma dom_credits gs l : dom gs ⊆ dom (credits gs l).
Proof.
  induction l as [|c l IH]; simpl; [done|]. etrans; [exact IH|]. unfold credit.
  rewrite dom_insert. apply union_subseteq_r.
Qed.

(** A group is the sum of what was credited to it. *)
Definition group_sum (x : option string) (l : list (option string * group)) : group :=
  foldr group_add new_group (map snd (select (λ c, c.1 == x) l)).
Lemma credits_lookup x l : default new_group (credits (∅ : groups) l !! x) = group_sum x l.
Proof.
  induction l as [|[y g] l IH]; [done|]. cbn [foldr]. unfold credit at 1. cbn [fst snd].
  unfold group_sum, select in *. cbn [List.filter fst]. destruct (decide (y = x)) as [->|E].
  - rewrite lookup_insert_eq bool_decide_true //. cbn [map foldr snd]. rewrite -IH. simpl.
    apply group_add_comm.
  - rewrite lookup_insert_ne // (bool_decide_false _ E). exact IH.
Qed.

(** What the groups add up to. *)
Definition group_total (proj : group → Z) (gs : groups) : Z :=
  sum_by (λ vg, proj vg.2) (map_to_list gs).
Lemma group_total_credit proj c gs :
  (∀ x y, proj (group_add x y) = proj x + proj y) → proj new_group = 0 →
  group_total proj (credit c gs) = group_total proj gs + proj c.2.
Proof.
  intros Ha H0. destruct c as [x g]. unfold group_total, credit. simpl.
  destruct (gs !! x) as [h|] eqn:E; simpl.
  - rewrite (sum_by_perm _ (map_to_list gs) ((x, h) :: map_to_list (delete x gs))).
    { by rewrite map_to_list_delete. }
    rewrite (sum_by_perm _ _ ((x, group_add h g) :: map_to_list (delete x gs))).
    { rewrite -map_to_list_insert; [apply lookup_delete_eq|]. by rewrite insert_delete_eq. }
    unfold sum_by. simpl. rewrite Ha. lia.
  - rewrite (sum_by_perm _ _ ((x, group_add new_group g) :: map_to_list gs)).
    { by apply map_to_list_insert. }
    unfold sum_by. simpl. rewrite Ha H0. lia.
Qed.
Lemma group_total_credits proj gs l :
  (∀ x y, proj (group_add x y) = proj x + proj y) → proj new_group = 0 →
  group_total proj (credits gs l) = group_total proj gs + sum_by (λ c, proj c.2) l.
Proof.
  intros Ha H0. induction l as [|c l IH]; simpl; [unfold sum_by; simpl; lia|].
  rewrite group_total_credit // IH. unfold sum_by. simpl. lia.
Qed.

(** ** What a pair contributes *)

Section pass.
Context {Dg : Digest} {Hosts : HostNames}.
Context (w : world wallet_db) (q : query).
Abbreviation d := (db w).
Abbreviation sid := (q_subject q).
Abbreviation v := (q_window q).
Hypothesis consistent : registry_ok d.
Hypothesis stable : ∀ n, n ∈ networks d → n_subject_id n = sid → network_stable n.

Definition snapshots_group (n : nat) : group :=
  {| g_active := 0; g_health := no_health; g_never := 0; g_snapshot_count := Z.of_nat n;
     g_latest_observed_at := None |}.
Definition observed_group (l : list snapshot_row) : list (option string * group) :=
  match l with
  | [] => []
  | s :: _ => if selected q s then
                [(group_value q s, {| g_active := 1; g_health := pair_health v l; g_never := 0;
                    g_snapshot_count := Z.of_nat (length l);
                    g_latest_observed_at := Some (sn_observed_at s) |})]
              else []
  end.
Definition never_value (k : pair) : option string :=
  if q_grouping q == "network" then Some k.1.1 else None.
Definition never_group : group := group_never new_group.
Definition contribution (k : pair) (l : list snapshot_row) : list (option string * group) :=
  match l, q_source q with
  | [], None => [(never_value k, never_group)]
  | l, _ => observed_group l
  end.

(** [get_group], then an update of the group. *)
Lemma get_group_ok value (f : group → group) gs :
  (Z.of_nat (size (<[value := f (default new_group (gs !! value))]> gs))
   <= WALLET_BALANCE_OBSERVATION_MAX_GROUPS) →
  ∃ gs', get_group value gs = Ok gs' ∧
    ∀ f : group → group, alter f value gs' = <[value := f (default new_group (gs !! value))]> gs.
Proof.
  intros Hs. unfold get_group. destruct (gs !! value) as [g|] eqn:E.
  - exists gs. split; [done|]. intros f'. simpl. apply map_eq. intros i.
    destruct (decide (i = value)) as [->|Hi].
    + by rewrite lookup_alter_eq lookup_insert_eq E.
    + by rewrite lookup_alter_ne // lookup_insert_ne.
  - rewrite map_size_insert_None // in Hs. rewrite (proj2 (Z.leb_gt _ _)); [lia|].
    eexists. split; [done|]. intros f'. simpl. apply map_eq. intros i.
    destruct (decide (i = value)) as [->|Hi].
    + by rewrite lookup_alter_eq !lookup_insert_eq.
    + by rewrite lookup_alter_ne // !lookup_insert_ne.
Qed.

(** ** One row *)

Definition settled_groups (st : breakdown_state) : groups := bs_groups (finish_pair st).
Context (pairs : list pair).
Abbreviation run := (breakdown_rows d q pairs).
Definition entered (st : breakdown_state) (k : pair) : breakdown_state :=
  if bs_key st =/= Some k then with_key k (finish_pair st) else st.
Lemma breakdown_row_eq st s :
  mine w sid s → (pair_active w (pair_of s) = true → pair_of s ∈ pairs) →
  breakdown_row d q pairs st s =
  let st := entered st (pair_of s) in
  if negb (pair_active w (pair_of s)) then Ok st
  else if negb (bs_seen st) then
    gs ← (if selected q s then
            gs ← get_group (group_value q s) (bs_groups st);
            Ok (alter (group_first v (wd_reference v - instant_of s) (sn_observed_at s))
                  (group_value q s) gs)
          else Ok (bs_groups st));
    Ok {| bs_key := bs_key st;
          bs_group := if selected q s then Some (group_value q s) else bs_group st;
          bs_seen := true; bs_anomalous := bs_anomalous st;
          bs_previous := remember s (balance_of s);
          bs_seen_pairs := {[ pair_of s ]} ∪ bs_seen_pairs st; bs_groups := gs |}
  else
    Ok {| bs_key := bs_key st; bs_group := bs_group st; bs_seen := true;
          bs_anomalous := bs_anomalous st
            || match bs_previous st with Some p => anomaly p (balance_of s) s | None => false end;
          bs_previous := remember s (balance_of s); bs_seen_pairs := bs_seen_pairs st;
          bs_groups := match bs_group st with
                       | Some value => alter group_next value (bs_groups st)
                       | None => bs_groups st
                       end |}.
Proof.
  intros Hs Hp. unfold breakdown_row. rewrite (mine_readable w sid) //. cbn [mbind result_bind].
  fold (entered st (pair_of s)). cbv zeta. pose proof Hs as [Hin E].
  rewrite snapshot_active //. cbn [mbind result_bind].
  destruct (pair_active w (pair_of s)); cbn [negb]; [|done].
  rewrite bool_decide_true; [by apply Hp|]. cbn [negb fail_if mbind result_bind].
  rewrite (balance_int_ok w sid) //. cbn [mbind result_bind].
  destruct (negb (bs_seen _)); [|done]. destruct (selected q s); [|done].
  destruct (get_group _ _) as [gs|e]; [|done]. cbn [mbind result_bind].
  by rewrite (persisted_ok w sid).
Qed.

Lemma group_next_add g : group_next g = group_add g (snapshots_group 1).
Proof.
  apply group_eq; simpl; try lia; [by rewrite health_add_0|]. by destruct (g_latest_observed_at g).
Qed.
Lemma snapshots_group_add g n :
  group_add (group_add g (snapshots_group 1)) (snapshots_group n) = group_add g (snapshots_group (S n)).
Proof. rewrite -group_add_assoc. f_equal. apply group_eq; simpl; try done. lia. Qed.

(** The older rows of a pair. *)
Lemma run_older_rows k st x l :
  (∀ s, s ∈ l → mine w sid s ∧ pair_active w (pair_of s) = true ∧ pair_of s = k) → k ∈ pairs →
  bs_key st = Some k → bs_seen st = true → bs_previous st = remember x (balance_of x) →
  ∃ st', run st l = Ok st' ∧ bs_key st' = Some k ∧ bs_group st' = bs_group st ∧
    bs_seen_pairs st' = bs_seen_pairs st ∧
    bs_anomalous st' = bs_anomalous st || unsteady (x :: l) ∧
    bs_groups st' = match bs_group st with
      | Some value => alter (λ g, group_add g (snapshots_group (length l))) value (bs_groups st)
      | None => bs_groups st end.
Proof.
  intros Hl Hk. revert st x. induction l as [|s l IH]; intros st x Hkey Hseen Hp.
  { exists st. split_and!; try done; [by rewrite orb_false_r|].
    destruct (bs_group st) as [value|]; [|done]. simpl. symmetry.
    apply alter_id. intros g _. apply group_add_new. }
  destruct (Hl s (here _ _)) as (Hs & Ha & Es). cbn [breakdown_rows].
  rewrite breakdown_row_eq; [done|by rewrite Es|]. cbv zeta.
  assert (entered st (pair_of s) = st) as -> by (unfold entered; by rewrite Hkey Es bool_decide_true).
  rewrite Ha Hseen Hp. cbn [negb mbind result_bind].
  match goal with |- context [run ?st1 l] => edestruct (IH ltac:(intros; by apply Hl, there) st1 s)
    as (st' & -> & Hk' & Hg' & Hp' & Ha' & Hgs'); [done..|] end.
  exists st'. split_and!; try done.
  - rewrite Ha'. simpl. by rewrite -orb_assoc.
  - rewrite Hgs'. cbn [bs_group bs_groups]. destruct (bs_group st) as [value|]; [|done].
    rewrite alter_alter_eq. apply alter_ext. intros g _. unfold compose.
    by rewrite group_next_add snapshots_group_add.
Qed.

(** Rows of revoked resources only change the current pair. *)
Lemma run_inactive k st l :
  (∀ s, s ∈ l → mine w sid s ∧ pair_of s = k) → pair_active w k = false → bs_key st = Some k →
  run st l = Ok st.
Proof.
  intros Hl Ha Hk. induction l as [|s l IH]; [done|]. destruct (Hl s (here _ _)) as [Hs Es].
  cbn [breakdown_rows]. rewrite breakdown_row_eq; [done|by rewrite Es Ha|]. cbv zeta. rewrite Es Ha.
  cbn [negb mbind result_bind]. unfold entered. rewrite Hk bool_decide_true //. apply IH.
  intros y Hy. by apply Hl, there.
Qed.
(** The steps of a pair add up to its contribution. *)
Lemma group_of_pair b g x l :
  unsteady (x :: l) = b →
  (if b then group_anomalous else id)
    (group_add (group_first v (wd_reference v - instant_of x) (sn_observed_at x) g)
       (snapshots_group (length l)))
  = group_add g {| g_active := 1; g_health := pair_health v (x :: l); g_never := 0;
                   g_snapshot_count := Z.of_nat (length (x :: l));
                   g_latest_observed_at := Some (sn_observed_at x) |}.
Proof.
  intros Eu. assert (Hh : health_add (g_health g) (pair_health v (x :: l))
    = count_anomalous b (count_class v (wd_reference v - instant_of x) (g_health g))).
  { cbn [pair_health]. rewrite Eu (count_class_add _ _ (g_health g)) (count_anomalous_add b (health_add _ _)).
    by rewrite (count_anomalous_add b (count_class _ _ _)) health_add_assoc. }
  apply group_eq; destruct b; unfold id; cbn [group_add group_anomalous group_first snapshots_group
    g_active g_health g_never g_snapshot_count g_latest_observed_at length];
    rewrite ?health_add_0 ?Hh; try done; try lia; try (by apply health_eq);
    by destruct (g_latest_observed_at g) as [t|]; simpl; [destruct (str_ltb t _)|].
Qed.
(** The state between pairs: the groups, once settled, and the pairs seen. *)
Lemma run_pair_rows k st l :
  (∀ s, s ∈ l → mine w sid s ∧ pair_of s = k) → (pair_active w k = true → k ∈ pairs) →
  bs_key st ≠ Some k → l ≠ [] →
  let gs := credits (settled_groups st) (if pair_active w k then observed_group l else []) in
  Z.of_nat (size gs) <= WALLET_BALANCE_OBSERVATION_MAX_GROUPS →
  ∃ st', run st l = Ok st' ∧ bs_key st' = Some k ∧ settled_groups st' = gs ∧
    bs_seen_pairs st' = (if pair_active w k then {[ k ]} else ∅) ∪ bs_seen_pairs st.
Proof.
  intros Hl Hk Hkey Hne gs Hsize. destruct l as [|x l]; [done|].
  destruct (Hl x (here _ _)) as [Hx Ex]. cbn [breakdown_rows].
  rewrite breakdown_row_eq; [done|by rewrite Ex|]. cbv zeta.
  assert (entered st (pair_of x) = with_key k (finish_pair st)) as ->
    by (unfold entered; by rewrite Ex (bool_decide_false _ Hkey)).
  rewrite Ex. destruct (pair_active w k) eqn:Ha; cbn [negb mbind result_bind].
  2:{ rewrite (run_inactive k) //; [intros; by apply Hl, there|].
      eexists. split_and!; try done. by rewrite union_empty_l_L. }
  assert (Hl' : ∀ s, s ∈ l → mine w sid s ∧ pair_active w (pair_of s) = true ∧ pair_of s = k).
  { intros s Hs. destruct (Hl s (there _ _ _ Hs)) as [? E]. by rewrite E. }
  change (with_key k (finish_pair st)) with {| bs_key := Some k; bs_group := None; bs_seen := false;
    bs_anomalous := false; bs_previous := None; bs_seen_pairs := bs_seen_pairs st;
    bs_groups := settled_groups st |}.
  cbn [bs_key bs_group bs_seen bs_anomalous bs_previous bs_seen_pairs bs_groups negb].
  unfold gs in *. cbn [observed_group] in *.
  destruct (selected q x) eqn:Esel; cbn [foldr] in *.
  - set (value := group_value q x) in *.
    destruct (get_group_ok value (λ g, group_add g
      {| g_active := 1; g_health := pair_health v (x :: l); g_never := 0;
         g_snapshot_count := Z.of_nat (length (x :: l));
         g_latest_observed_at := Some (sn_observed_at x) |}) (settled_groups st))
      as (gs' & -> & Halter); [exact Hsize|].
    cbn [mbind result_bind]. rewrite Halter.
    match goal with |- context [run ?st1 l] => destruct (run_older_rows k st1 x l)
      as (st' & -> & Hk' & Hg' & Hp' & Ha' & Hgs'); [done|by apply Hk|done|done|done|] end.
    exists st'. split_and!; try done. cbn [bs_group bs_groups bs_anomalous orb] in *.
    unfold settled_groups at 1, finish_pair. cbn [bs_groups]. rewrite Hg' Ha' Hgs' alter_insert_eq.
    unfold credit. cbn [fst snd]. destruct (unsteady (x :: l)) eqn:Eu.
    + rewrite alter_insert_eq. f_equal. by apply (group_of_pair true).
    + f_equal. by apply (group_of_pair false).
  - cbn [mbind result_bind].
    match goal with |- context [run ?st1 l] => destruct (run_older_rows k st1 x l)
      as (st' & -> & Hk' & Hg' & Hp' & Ha' & Hgs'); [done|by apply Hk|done|done|done|] end.
    exists st'. split_and!; try done. cbn [bs_group bs_groups] in *.
    unfold settled_groups at 1, finish_pair. cbn [bs_groups]. by rewrite Hg' Hgs'.
Qed.

(** ** All rows *)

Hypothesis pairs_active : ∀ k, k ∈ pairs → pair_active w k = true.
Hypothesis pairs_distinct : NoDup pairs.
Definition rows_of (k : pair) (l : list snapshot_row) : list snapshot_row :=
  select (λ s, pair_of s == k) l.
Definition observed_groups (l : list snapshot_row) : list (option string * group) :=
  k ← pairs; observed_group (rows_of k l).

Lemma bind_ext_in {A B} (f g : A → list B) l : (∀ x, x ∈ l → f x = g x) → (l ≫= f) = (l ≫= g).
Proof.
  induction l as [|x l IH]; intros H; [done|]. simpl. rewrite (H x (here _ _)). f_equal.
  apply IH. intros y Hy. by apply H, there.
Qed.
(** The rows of one pair contribute once. *)
Lemma observed_groups_split r l :
  (pair_active w (pair_of r) = true → pair_of r ∈ pairs) →
  let k := pair_of r in
  observed_groups (r :: l)
  ≡ₚ (if pair_active w k then observed_group (rows_of k (r :: l)) else [])
     ++ observed_groups (select (λ s, pair_of s =/= k) (r :: l)).
Proof.
  intros Hin k. set (R := select _ _).
  assert (Hother : ∀ k', k' ≠ k → rows_of k' (r :: l) = rows_of k' R).
  { intros k' Hne. unfold rows_of, R. rewrite select_select. apply select_ext. intros s _.
    case_bool_decide as E; [|done]. simpl. by rewrite bool_decide_false; [congruence|]. }
  assert (Hself : rows_of k R = []).
  { unfold rows_of, R. rewrite select_select. apply select_none. intros s _.
    by case_bool_decide. }
  unfold observed_groups. destruct (pair_active w k) eqn:Ha.
  - destruct (proj1 (elem_of_Permutation pairs k) (Hin Ha)) as [pairs' HP].
    pose proof pairs_distinct as Hd. rewrite HP in Hd. apply NoDup_cons in Hd as [Hk _].
    rewrite !HP. cbn [mbind list_bind]. rewrite Hself. apply Permutation_app_head.
    rewrite (bind_ext_in _ (λ k', observed_group (rows_of k' R)) pairs') //.
    intros k' Hk'. rewrite Hother //. by intros ->.
  - cbn [app]. rewrite (bind_ext_in _ (λ k', observed_group (rows_of k' R)) pairs) //.
    intros k' Hk'. rewrite Hother //. intros ->. by rewrite pairs_active in Ha.
Qed.
Lemma breakdown_rows_app st l1 l2 : run st (l1 ++ l2) = st ← run st l1; run st l2.
Proof.
  revert st. induction l1 as [|s l1 IH]; intros st; [done|]. simpl.
  destruct (breakdown_row _ _ _ _ _); [apply IH|done].
Qed.

Lemma run_all_rows st l :
  StronglySorted (λ x y, history_leb x y = true) l →
  (∀ s, s ∈ l → mine w sid s ∧ (pair_active w (pair_of s) = true → pair_of s ∈ pairs) ∧
     bs_key st ≠ Some (pair_of s)) →
  let gs := credits (settled_groups st) (observed_groups l) in
  Z.of_nat (size gs) <= WALLET_BALANCE_OBSERVATION_MAX_GROUPS →
  ∃ st', run st l = Ok st' ∧ settled_groups st' = gs ∧
    ∀ k, k ∈ bs_seen_pairs st' ↔ k ∈ bs_seen_pairs st ∨
      (pair_active w k = true ∧ k ∈ map pair_of l).
Proof.
  remember (length l) as n eqn:En. revert st l En.
  induction (lt_wf n) as [n _ IH]. intros st l -> Hs Hl gs Hsize.
  destruct l as [|r l].
  { exists st. split; [done|]. split.
    - unfold gs, observed_groups. assert ((k ← pairs; observed_group (rows_of k [])) = []) as ->; [|done].
      clear. by induction pairs.
    - intros k. split; [auto|]. intros [?|[_ ?%not_elem_of_nil]]; done. }
  set (k := pair_of r). set (G := rows_of k (r :: l)).
  set (R := select (λ s, pair_of s =/= k) (r :: l)).
  assert (Hsplit : r :: l = G ++ R) by by apply split_pair.
  destruct (Hl r (here _ _)) as (_ & Hk & Hcur).
  assert (HG : G = r :: tail G) by (unfold G, rows_of, select; simpl; by rewrite bool_decide_true).
  assert (HinG : ∀ s, s ∈ G → s ∈ r :: l ∧ pair_of s = k).
  { intros s [? ?%bool_decide_eq_true]%elem_of_select. done. }
  assert (HinR : ∀ s, s ∈ R → s ∈ r :: l ∧ pair_of s ≠ k).
  { intros s [? ?%negb_true_iff%bool_decide_eq_false]%elem_of_select. done. }
  set (gs1 := credits (settled_groups st) (if pair_active w k then observed_group G else [])).
  assert (Hgs : gs = credits gs1 (observed_groups R)).
  { unfold gs, gs1. rewrite -credits_app. apply credits_perm. by apply observed_groups_split. }
  destruct (run_pair_rows k st G) as (st1 & Hr1 & Hk1 & Hg1 & Hp1).
  { intros s [Hin E]%HinG. by destruct (Hl s Hin) as (? & _). }
  { done. }
  { done. }
  { by rewrite HG. }
  { fold gs1. rewrite Hgs in Hsize. etrans; [|exact Hsize]. apply inj_le.
    rewrite -!size_dom. apply subseteq_size, dom_credits. }
  fold gs1 in Hg1.
  destruct (IH (length R)) with (st := st1) (l := R) as (st2 & Hr2 & Hg2 & Hp2); try done.
  - apply (f_equal length) in Hsplit. rewrite length_app HG in Hsplit. simpl in *. lia.
  - by apply (sorted_select history_leb).
  - intros s [Hin Hne]%HinR. destruct (Hl s Hin) as (? & ? & _). split_and!; try done.
    rewrite Hk1. congruence.
  - by rewrite Hg1 -Hgs.
  - exists st2. split; [by rewrite Hsplit breakdown_rows_app Hr1|]. split; [by rewrite Hg2 Hg1|].
    intros x. rewrite Hp2 Hp1 Hsplit map_app elem_of_app elem_of_union.
    assert (HxG : x ∈ map pair_of G ↔ x = k).
    { split; [by intros (s & -> & [_ ?]%HinG)%list_elem_of_fmap|]. intros ->. rewrite HG. apply here. }
    rewrite HxG. destruct (pair_active w k) eqn:Ha.
    + rewrite elem_of_singleton. split; [|naive_solver]. intros [[->|?]|[? ?]]; auto.
    + split; [|intros [?|[? [->|?]]]; [auto|congruence|auto]].
      intros [[?%elem_of_empty|?]|[? ?]]; [done|auto|auto].
Qed.

(** ** Pairs that were never observed *)

Definition never_of (hist : pair → list snapshot_row) (k : pair) : list (option string * group) :=
  match hist k, q_source q with [], None => [(never_value k, never_group)] | _, _ => [] end.
Lemma group_never_add g : group_never g = group_add g never_group.
Proof.
  apply group_eq; simpl; try lia; [by rewrite health_add_0|]. by destruct (g_latest_observed_at g).
Qed.
Lemma never_observed_ok seen hist l gs :
  (∀ k, k ∈ l → k ∈ seen ↔ hist k ≠ []) →
  Z.of_nat (size (credits gs (l ≫= never_of hist))) <= WALLET_BALANCE_OBSERVATION_MAX_GROUPS →
  never_observed q seen l gs = Ok (credits gs (l ≫= never_of hist)).
Proof.
  revert gs. induction l as [|k l IH]; intros gs Hseen Hsize; [done|].
  assert (Hl : ∀ k', k' ∈ l → k' ∈ seen ↔ hist k' ≠ []) by (intros; by apply Hseen, there).
  specialize (Hseen k (here _ _)). cbn [never_observed mbind list_bind] in *.
  rewrite credits_app in Hsize |- *.
  assert (En : never_of hist k = match hist k, q_source q with
    [], None => [(never_value k, never_group)] | _, _ => [] end) by done.
  rewrite En in Hsize |- *. clear En. destruct (hist k) as [|s t] eqn:Eh.
  - rewrite (bool_decide_false (k ∈ seen)); [rewrite Hseen; intros H; by apply H|].
    destruct (q_source q) as [src|] eqn:Es.
    + rewrite bool_decide_true; [by eexists|]. by apply IH.
    + rewrite bool_decide_false; [by intros []|]. cbn [orb]. fold (never_value k).
      destruct (get_group_ok (never_value k) group_never gs) as (gs' & -> & Halter).
      { rewrite group_never_add. etrans; [|exact Hsize]. apply inj_le.
        rewrite -!size_dom. apply subseteq_size. exact (dom_credits (credit (never_value k, never_group) gs) _). }
      cbn [mbind result_bind]. rewrite Halter group_never_add. by apply IH.
  - rewrite (bool_decide_true (k ∈ seen)); [by rewrite Hseen|]. by apply IH.
Qed.
Lemma bind_app_perm {A B} (f g : A → list B) l :
  (l ≫= f) ++ (l ≫= g) ≡ₚ (l ≫= λ x, f x ++ g x).
Proof.
  induction l as [|x l IH]; [done|]. cbn [mbind list_bind]. rewrite -IH -!app_assoc.
  apply Permutation_app_head. rewrite !app_assoc. apply Permutation_app_tail, Permutation_app_comm.
Qed.
Lemma contribution_split hist k :
  observed_group (hist k) ++ never_of hist k = contribution k (hist k).
Proof.
  unfold never_of, contribution. destruct (hist k); [|by rewrite app_nil_r].
  by destruct (q_source q).
Qed.
End pass.

(** ** The whole computation *)

Section breakdown.
Context {Dg : Digest} {Hosts : HostNames}.
Context (w : world wallet_db) (q : query).
Abbreviation d := (db w).
Abbreviation sid := (q_subject q).
Hypothesis consistent : registry_ok d.
Hypothesis stable : ∀ n, n ∈ networks d → n_subject_id n = sid → network_stable n.
Abbreviation pairs := (active_targets d sid (q_network q)).
Abbreviation hist := (pair_history w sid).

Definition contributions : list (option string * group) := k ← pairs; contribution q k (hist k).
Definition breakdown_groups : groups := credits ∅ contributions.

Lemma collect_targets_ok acc l :
  (∀ p, p ∈ l → target_valid p = true) → NoDup (acc ++ l) →
  Z.of_nat (length (acc ++ l)) <= WALLET_BALANCE_OBSERVATION_MAX_ACTIVE_PAIRS →
  collect_targets acc l = Ok (acc ++ l).
Proof.
  revert acc. induction l as [|p l IH]; intros acc Hv Hd Hl; [by rewrite app_nil_r|].
  assert (E : acc ++ p :: l = (acc ++ [p]) ++ l) by by rewrite -app_assoc.
  cbn [collect_targets]. rewrite Hv; [apply here|].
  rewrite bool_decide_false.
  { intros Hp. apply NoDup_app in Hd as (_ & Hd & _). apply (Hd p Hp), here. }
  rewrite (proj2 (Z.ltb_ge _ _)).
  { rewrite length_app in Hl. simpl in Hl. lia. }
  cbn [negb fail_if mbind result_bind]. rewrite E in Hd Hl |- *. apply IH; [|done|done].
  intros x Hx. by apply Hv, there.
Qed.

Lemma breakdown_run limit :
  Z.of_nat (length pairs) <= WALLET_BALANCE_OBSERVATION_MAX_ACTIVE_PAIRS →
  Z.of_nat (size breakdown_groups) <= WALLET_BALANCE_OBSERVATION_MAX_GROUPS →
  let rows := map (λ vg, (vg, group_status vg.2)) (rendered breakdown_groups) in
  yields (_observation_health_breakdown_connection q limit) w
    {| br_group_by := q_grouping q;
       br_evaluated_at := isoformat_ms (wd_reference (q_window q));
       br_stale_after_seconds := wd_age_limit (q_window q);
       br_status := if existsb (λ r, r.2 == "attention") rows then "attention" else "ok";
       br_groups := limited limit rows; br_total_groups := Z.of_nat (length rows);
       br_has_more := limit <? Z.of_nat (length rows) |}.
Proof.
  intros Hlen Hsize rows. unfold _observation_health_breakdown_connection. apply yields_gets.
  set (l := history_rows d sid (q_network q)).
  set (st0 := {| bs_key := None; bs_group := None; bs_seen := false; bs_anomalous := false;
                 bs_previous := None; bs_seen_pairs := ∅; bs_groups := ∅ |}).
  assert (Hact : ∀ k, k ∈ pairs → pair_active w k = true) by (intros; by eapply target_active).
  assert (Hrows : ∀ k, k ∈ pairs → rows_of k l = hist k).
  { intros k Hk. apply history_of_pair.
    by apply elem_of_targets in Hk as (a & b & n & _ & _ & _ & _ & _ & ? & _ & _ & _ & _ & _ & _ & ->). }
  assert (Hcs : contributions ≡ₚ observed_groups q pairs l ++ (pairs ≫= never_of q hist)).
  { unfold observed_groups, contributions.
    rewrite (bind_ext_in (λ k, observed_group q (rows_of k l)) (λ k, observed_group q (hist k)) pairs).
    { intros k Hk. by rewrite Hrows. }
    rewrite bind_app_perm. rewrite (bind_ext_in (λ k, contribution q k (hist k))
      (λ k, observed_group q (hist k) ++ never_of q hist k) pairs) //.
    intros k _. symmetry. apply contribution_split. }
  assert (Hgs : breakdown_groups
    = credits (credits ∅ (observed_groups q pairs l)) (pairs ≫= never_of q hist)).
  { unfold breakdown_groups. rewrite -credits_app. by apply credits_perm. }
  destruct (run_all_rows w q consistent stable pairs Hact (targets_NoDup w sid consistent _) st0 l)
    as (st & Hrun & Hset & Hseen).
  { apply (sort_by_sorted history_leb). }
  { intros s [Hm Hn]%mine_history. split_and!; try done. intros Ha.
    apply active_is_target; try done; apply Hm. }
  { change (settled_groups st0) with (∅ : groups). rewrite Hgs in Hsize.
    etrans; [|exact Hsize]. apply inj_le. rewrite -!size_dom. apply subseteq_size, dom_credits. }
  change (settled_groups st0) with (∅ : groups) in Hset.
  eapply yields_lift.
  { unfold limited. rewrite take_ge; [lia|]. apply (collect_targets_ok []); [|apply targets_NoDup|done].
    - by eapply target_is_valid.
    - done. }
  apply yields_gets. unfold id. fold st0. fold l. eapply yields_lift; [exact Hrun|].
  cbv zeta. fold (settled_groups st). eapply yields_lift.
  { rewrite Hset. apply (never_observed_ok q _ hist).
    - intros k Hk. cbn [finish_pair bs_seen_pairs]. rewrite Hseen. rewrite -(Hrows k Hk).
      split.
      + intros [?%elem_of_empty|[_ (s & -> & Hs)%list_elem_of_fmap]]; [done|]. intros E.
        assert (Hin : s ∈ rows_of (pair_of s) l) by (apply elem_of_select; by rewrite bool_decide_true).
        rewrite E in Hin. by apply not_elem_of_nil in Hin.
      + intros Hne. right. split; [by apply Hact|]. destruct (rows_of k l) as [|s t] eqn:E; [done|].
        assert (Hin : s ∈ rows_of k l) by (rewrite E; apply here).
        apply elem_of_select in Hin as [Hin <-%bool_decide_eq_true]. by apply list_elem_of_fmap_2.
    - by rewrite -Hgs. }
  rewrite -Hgs. done.
Qed.
End breakdown.

(** ** Totals *)

Lemma sum_by_bind {A B} (f : A → list B) (p : B → Z) l :
  sum_by p (l ≫= f) = sum_by (λ x, sum_by p (f x)) l.
Proof.
  induction l as [|x l IH]; [done|]. cbn [mbind list_bind]. rewrite sum_by_app IH. done.
Qed.
Lemma sum_health_proj {K} (proj : health → Z) (c : K → health) l :
  (∀ x y, proj (health_add x y) = proj x + proj y) → proj no_health = 0 →
  proj (sum_health c l) = sum_by (λ k, proj (c k)) l.
Proof.
  intros Ha H0. induction l as [|k l IH]; [done|]. simpl. rewrite Ha IH. done.
Qed.

(** How much of a group needs attention. *)
Definition alerts (g : group) : Z :=
  h_near_expiry (g_health g) + h_stale (g_health g) + g_never g + h_future (g_health g)
  + h_anomalous (g_health g).
Definition counting (g : group) : Prop :=
  0 <= h_near_expiry (g_health g) ∧ 0 <= h_stale (g_health g) ∧ 0 <= g_never g ∧
  0 <= h_future (g_health g) ∧ 0 <= h_anomalous (g_health g).
Lemma attention_alerts g :
  counting g → needs_attention (g_health g) (g_never g) = negb (alerts g =? 0).
Proof.
  intros (?&?&?&?&?). unfold needs_attention, alerts. f_equal. apply Bool.eq_iff_eq_true.
  rewrite !andb_true_iff !Z.eqb_eq. lia.
Qed.
Lemma counting_credits l :
  (∀ c, c ∈ l → counting c.2) → map_Forall (λ _, counting) (credits (∅ : groups) l).
Proof.
  induction l as [|[x g] l IH]; intros H; [apply map_Forall_empty|].
  cbn [foldr]. unfold credit at 1. cbn [fst snd].
  assert (Hl : map_Forall (λ _, counting) (credits (∅ : groups) l)) by (apply IH; intros; by apply H, there).
  apply map_Forall_insert_2; [|done].
  assert (Hg : counting g) by apply (H (x, g) (here _ _)).
  assert (Hd : counting (default new_group (credits (∅ : groups) l !! x))).
  { destruct (credits (∅ : groups) l !! x) eqn:E; [by apply (Hl x)|]. by vm_compute. }
  revert Hd. generalize (default new_group (credits (∅ : groups) l !! x)). intros g0 (?&?&?&?&?).
  destruct Hg as (?&?&?&?&?). unfold counting. simpl. lia.
Qed.
Lemma forallb_perm {R} (p : R → bool) l l' : l ≡ₚ l' → forallb p l = forallb p l'.
Proof.
  induction 1 as [|x l l' _ IH|x y l|l1 l2 l3 _ IH1 _ IH2]; simpl; [done|by rewrite IH| |congruence].
  by rewrite !andb_assoc (andb_comm (p x)).
Qed.
Lemma sum_zero {R} (p : R → Z) l :
  (∀ x, x ∈ l → 0 <= p x) → (sum_by p l =? 0) = forallb (λ x, p x =? 0) l.
Proof.
  induction l as [|x l IH]; intros H; [done|]. simpl. rewrite -IH; [intros; by apply H, there|].
  pose proof (H x (here _ _)). assert (0 <= sum_by p l) by (apply sum_by_nonneg; intros; by apply H, there).
  unfold sum_by in *. simpl. apply Bool.eq_iff_eq_true. rewrite andb_true_iff !Z.eqb_eq. lia.
Qed.

Section theorem.
Context {Dg : Digest} {En : Env} {Sg : Signer} {Hosts : HostNames} {Sound : SoundEnv}.

(** What one pair adds, without filters. *)
Lemma contribution_total q (proj : group → Z) k l (value : Z) :
  q_source q = None →
  (l = [] → proj never_group = value) →
  (∀ s t, l = s :: t → proj {| g_active := 1; g_health := pair_health (q_window q) l;
     g_never := 0; g_snapshot_count := Z.of_nat (length l);
     g_latest_observed_at := Some (sn_observed_at s) |} = value) →
  sum_by (λ c, proj c.2) (contribution q k l) = value.
Proof.
  intros Hs Hn Ho. unfold contribution, observed_group, selected. rewrite Hs.
  destruct l as [|s t]; cbn [optional_match]; unfold sum_by; cbn [foldr snd].
  - specialize (Hn eq_refl). lia.
  - specialize (Ho s t eq_refl). lia.
Qed.

Section totals.
Context (w : world wallet_db) (q : query).
Hypothesis no_source : q_source q = None.
Abbreviation hist := (pair_history w (q_subject q)).
Abbreviation pairs := (active_targets (db w) (q_subject q) (q_network q)).
Abbreviation total := (sum_health (λ k, pair_health (q_window q) (hist k)) pairs).

Lemma groups_health (proj : health → Z) :
  (∀ x y, proj (health_add x y) = proj x + proj y) → proj no_health = 0 →
  group_total (λ g, proj (g_health g)) (breakdown_groups w q) = proj total.
Proof.
  intros Ha H0. unfold breakdown_groups. rewrite group_total_credits; [by intros; apply Ha|done|].
  unfold group_total at 1. rewrite map_to_list_empty. unfold contributions.
  rewrite sum_by_bind (sum_health_proj proj) //. change (sum_by _ []) with 0. rewrite Z.add_0_l.
  apply sum_by_ext. intros k _.
  apply (contribution_total q (λ g, proj (g_health g))); [done|by intros ->|done].
Qed.
Lemma groups_never :
  group_total g_never (breakdown_groups w q) = count_where (λ k, never (hist k)) pairs.
Proof.
  unfold breakdown_groups. rewrite group_total_credits //. unfold group_total at 1.
  rewrite map_to_list_empty. unfold contributions. rewrite sum_by_bind count_as_sum.
  change (sum_by _ []) with 0. rewrite Z.add_0_l. apply sum_by_ext. intros k _.
  apply (contribution_total q g_never); [done|by intros ->|by intros s t ->].
Qed.
Lemma groups_active :
  group_total g_active (breakdown_groups w q) = Z.of_nat (length pairs).
Proof.
  unfold breakdown_groups. rewrite group_total_credits //. unfold group_total at 1.
  rewrite map_to_list_empty. unfold contributions. rewrite sum_by_bind.
  change (sum_by _ []) with 0. rewrite Z.add_0_l -(Z.mul_1_l (Z.of_nat _)) -sum_by_const.
  apply sum_by_ext. intros k _. by apply (contribution_total q g_active).
Qed.
Lemma groups_snapshots :
  group_total g_snapshot_count (breakdown_groups w q)
  = sum_by (λ k, Z.of_nat (length (hist k))) pairs.
Proof.
  unfold breakdown_groups. rewrite group_total_credits //. unfold group_total at 1.
  rewrite map_to_list_empty. unfold contributions. rewrite sum_by_bind.
  change (sum_by _ []) with 0. rewrite Z.add_0_l.
  apply sum_by_ext. intros k _.
  apply (contribution_total q g_snapshot_count); [done|by intros ->|done].
Qed.
Lemma groups_attention :
  existsb (λ r : option string * group * string, r.2 == "attention")
    (map (λ vg, (vg, group_status vg.2)) (rendered (breakdown_groups w q)))
  = needs_attention total (count_where (λ k, never (hist k)) pairs).
Proof.
  assert (Hc : map_Forall (λ _, counting) (breakdown_groups w q)).
  { apply counting_credits. intros c (k & Hin & _)%list_elem_of_bind.
    unfold contribution, observed_group, selected in Hin. rewrite no_source in Hin.
    destruct (hist k) as [|s t]; cbn [optional_match] in Hin;
      apply list_elem_of_singleton in Hin as ->; cbn [snd]; [by vm_compute|].
    unfold counting. cbn [g_health g_never pair_health count_anomalous h_near_expiry h_stale
      h_future h_anomalous count_class no_health].
    repeat case_bool_decide; destruct (unsteady _); lia. }
  assert (Ha : group_total alerts (breakdown_groups w q)
    = alerts {| g_active := 0; g_health := total; g_never := count_where (λ k, never (hist k)) pairs;
                g_snapshot_count := 0; g_latest_observed_at := None |}).
  { unfold alerts. cbn [g_health g_never]. rewrite -!groups_health //. rewrite -groups_never.
    unfold group_total. by rewrite -!sum_by_plus. }
  assert (Hin : ∀ vg, vg ∈ map_to_list (breakdown_groups w q) → counting vg.2).
  { intros [x g] Hx%elem_of_map_to_list. by apply (Hc x g). }
  transitivity (negb (group_total alerts (breakdown_groups w q) =? 0)).
  - unfold group_total. rewrite sum_zero.
    { intros vg (?&?&?&?&?)%Hin. unfold alerts. lia. }
    assert (HP : rendered (breakdown_groups w q) ≡ₚ map_to_list (breakdown_groups w q))
      by apply sort_by_perm.
    rewrite -(forallb_perm _ _ _ HP). assert (Hr : ∀ vg, vg ∈ rendered (breakdown_groups w q) → counting vg.2)
      by (intros vg; rewrite HP; apply Hin).
    revert Hr. generalize (rendered (breakdown_groups w q)). clear. intros l Hr.
    induction l as [|vg l IH]; [done|]. simpl. rewrite IH; [intros; by apply Hr, there|].
    rewrite negb_andb. f_equal. unfold group_status. rewrite attention_alerts; [apply Hr, here|].
    by destruct (alerts _ =? 0).
  - rewrite Ha. symmetry. apply (attention_alerts {| g_active := 0; g_health := total;
      g_never := count_where (λ k, never (hist k)) pairs; g_snapshot_count := 0;
      g_latest_observed_at := None |}).
    rewrite /counting /= !total_anomalous. destruct (total_class (q_window q) hist pairs) as (_ & -> & -> & ->).
    unfold count_where. lia.
Qed.
End totals.

(** The breakdown of the health by network or by source and the health in
    total, two separate passes over the history, agree: over all groups the
    counters of the breakdown add up to those of the health, every active
    pair and every observation of one is counted once, the two statuses are
    the same, and each group is the sum of what its own pairs contribute. *)
Theorem breakdown_partitions_health w sid sid' grouping limit age now reference :
  registry_reachable w → validate_subject_id sid = Ok sid' →
  (∀ n, n ∈ networks (db w) → n_subject_id n = sid → network_stable n) →
  grouping = "network"%string ∨ grouping = "source"%string →
  0 <= age <= WALLET_BALANCE_OBSERVATION_MAX_WINDOW_SECONDS →
  parse_reference now = Ok reference →
  let q := {| q_subject := sid; q_grouping := grouping; q_network := None; q_source := None;
              q_window := {| wd_reference := reference; wd_age_limit := age |} |} in
  let pairs := active_targets (db w) sid None in
  Z.of_nat (length pairs) <= WALLET_BALANCE_OBSERVATION_MAX_ACTIVE_PAIRS →
  Z.of_nat (size (breakdown_groups w q)) <= limit <= WALLET_BALANCE_OBSERVATION_MAX_GROUPS →
  1 <= limit →
  ∃ r b, observation_health sid age (Some now) w = (Ok r, w) ∧
    observation_health_breakdown sid grouping None None limit age (Some now) w = (Ok b, w) ∧
    let total (f : group → Z) := sum_by (λ e, f e.1.2) (br_groups b) in
    total (λ g, h_observed (g_health g)) = h_observed (or_health r) ∧
    total (λ g, h_fresh (g_health g)) = h_fresh (or_health r) ∧
    total (λ g, h_near_expiry (g_health g)) = h_near_expiry (or_health r) ∧
    total (λ g, h_stale (g_health g)) = h_stale (or_health r) ∧
    total (λ g, h_future (g_health g)) = h_future (or_health r) ∧
    total (λ g, h_anomalous (g_health g)) = h_anomalous (or_health r) ∧
    total g_never = or_never r ∧ total g_active = Z.of_nat (length pairs) ∧
    total g_snapshot_count = sum_by (λ p, Z.of_nat (length (pair_history w sid p))) pairs ∧
    br_status b = or_status r ∧ br_has_more b = false ∧
    ∀ x g st, (x, g, st) ∈ br_groups b → g = group_sum x (contributions w q).
Proof.
  intros G%reachable_registry_ok Hsid Hst Hgr Hage Hnow q pairs Hlen [Hsize Hlim] Hone.
  pose proof (health_connection_run w sid G Hst (q_window q) (Z.of_nat (length pairs)) Hlen eq_refl) as Hrun.
  cbv zeta in Hrun. rewrite total_observed count_partition in Hrun.
  pose proof (breakdown_run w q G Hst limit Hlen ltac:(lia)) as Hbr. cbv zeta in Hbr.
  eexists _, _. split.
  { enough (Hy : yields (observation_health sid age (Some now)) w _) by exact Hy.
    unfold observation_health. eapply yields_lift; [exact Hsid|]. eapply yields_lift.
    { by apply age_limit_ok. }
    eapply yields_bind; [by apply (reference_run w now reference)|].
    apply yields_read_transaction. exact Hrun. }
  split.
  { enough (Hy : yields (observation_health_breakdown sid grouping None None limit age (Some now)) w _)
      by exact Hy.
    unfold observation_health_breakdown. eapply yields_lift; [exact Hsid|]. eapply yields_lift.
    { unfold _observation_group_by. by destruct Hgr as [-> | ->]. }
    eapply yields_lift; [done|]. eapply yields_lift; [done|]. eapply yields_lift.
    { unfold _observation_group_limit. rewrite (proj2 (andb_true_iff _ _)) //.
      split; apply Z.leb_le; lia. }
    eapply yields_lift; [by apply age_limit_ok|].
    eapply yields_bind; [by apply (reference_run w now reference)|].
    apply yields_read_transaction. eapply yields_bind; [done|]. exact Hbr. }
  cbn [or_health or_never or_status br_groups br_status br_has_more].
  assert (Hrows : Z.of_nat (length (map (λ vg, (vg, group_status vg.2)) (rendered (breakdown_groups w q)))) <= limit).
  { rewrite length_map. unfold rendered. rewrite sort_by_perm length_map_to_list. lia. }
  assert (Htot : ∀ f : group → Z, sum_by (λ e : option string * group * string, f e.1.2)
    (limited limit (map (λ vg, (vg, group_status vg.2)) (rendered (breakdown_groups w q))))
    = group_total f (breakdown_groups w q)).
  { intros f. unfold limited. rewrite take_ge; [lia|]. rewrite sum_by_map. unfold group_total.
    by apply sum_by_perm, sort_by_perm. }
  pose proof (groups_health w q eq_refl) as Hh. pose proof (groups_attention w q eq_refl) as Hatt.
  cbv zeta. rewrite (Htot (λ g, h_observed (g_health g))) (Htot (λ g, h_fresh (g_health g)))
    (Htot (λ g, h_near_expiry (g_health g))) (Htot (λ g, h_stale (g_health g)))
    (Htot (λ g, h_future (g_health g))) (Htot (λ g, h_anomalous (g_health g))) !Htot.
  rewrite groups_never // groups_active // groups_snapshots // Hatt.
  split_and!; try done; try (by apply Hh); [by apply Z.ltb_ge|].
  intros x g st Hin%elem_of_limited. apply list_elem_of_fmap in Hin as ([y h] & [= -> -> ->] & Hin).
  unfold rendered in Hin. rewrite elem_of_sort_by elem_of_map_to_list in Hin.
  unfold breakdown_groups in Hin. by rewrite -credits_lookup Hin.
Qed.
End theorem.
