(* ===== verification/WalletScenario.v ===== *)
(** * A scenario

    One payment from the empty database to the settlement of its order, and
    beyond: revoked, failed, refunded.  It shows that the hypotheses of the
    theorems can hold, and what a revoked confirmation does to the ledger. *)

From S2P Require Import Prelude Tables PyStr Json Digest Time WalletTypes RegistryTypes WalletTransfer WalletDb.
From S2P Require Import WalletEconomy WalletOrders WalletSubmissions WalletExecution WalletEngine.
From S2P Require Import RegistryDb RegistryStore RegistryIntegrity.
From S2P Require Import WalletIntegrity WalletEffects WalletSteps WalletSystem WalletLedger.
From S2P Require Import WalletRecords WalletVerify WalletExecInv WalletPolicy WalletSafety.
From S2P Require Import WalletOps WalletSettlement WalletData WalletBalances.
From stdpp Require Import relations.
Local Open Scope Z_scope.

(** The digest is SHA-256; the clock stands still; [uuid4] counts. *)
#[export] Instance demo_digest : Digest := sha256_digest.
#[export] Instance demo_env : Env := {|
  clock_at k := "2026-01-02T12:00:00+00:00"; utc_now_at k := "2026-01-02T12:00:00.000+00:00";
  uuid4_hex n := pad 32 (Z.of_nat n); production := false; current_evidence_ok := false |}.

#[export] Instance demo_hosts : HostNames := ascii_hosts.
Definition uid (prefix : string) (n : Z) : string := prefix +:+ "_" +:+ pad 32 n.

Definition tx_hash_a : string := "0x" +:+ rjust 64 (chr 97) EmptyString.
Definition demo_receipt (status : Z) : WalletReceipt :=
  {| wr_tx_hash := tx_hash_a; wr_chain_id := 1; wr_status := status; wr_block_number := Some 5;
     wr_block_hash := Some tx_hash_a; wr_confirmations := 12; wr_effect_hash := None |}.
(** The chain reports success up to tick 49 and failure afterwards. *)
#[export] Instance demo_signer : Signer := {|
  signer_id := "signer"; default_max_fee_per_gas := "1"; min_confirmations := 2;
  confirmation_timeout_seconds := 600; lease_current _ := true;
  sign_and_broadcast _ t _ := Ok {| bc_tx_hash := tx_hash_a; bc_chain_id := tr_chain_id t;
    bc_nonce := tr_nonce t; bc_accepted_at := "now" |};
  get_receipt k _ _ := Ok (Some (demo_receipt (if Nat.leb k 49 then 1 else 0)));
  get_pending_nonce _ _ _ := Ok 7; get_fee_quote _ _ := Ok (21000, "1"%string) |}.

Definition alice : string := "alice-subject".
Definition demo_address (c : N) : string := "0x" +:+ rjust 40 (chr c) EmptyString.

(** The registry: one network, its native asset, a spending address and one
    observed balance.  The project is a row of another component. *)
Definition net_1 := Eval vm_compute in uid "walletnet" 0.
Definition asset_1 := Eval vm_compute in uid "walletasset" 3.
Definition address_1 := Eval vm_compute in uid "walletaddr" 6.
Definition demo_network : WalletNetworkInput :=
  {| ni_label := "Main net"; ni_chain_family := "evm"; ni_chain_id := 1; ni_native_symbol := "eth";
     ni_rpc_url := Some "https://rpc.example.org/"%string |}.
Definition demo_asset : WalletAssetInput :=
  {| ai_network_id := net_1; ai_asset_type := "native"; ai_contract_address := None;
     ai_name := "Ether"; ai_symbol := "ETH"; ai_decimals := 18 |}.
Definition demo_source : WalletAddressInput :=
  {| di_network_id := net_1; di_label := "hot"; di_address := demo_address 98;
     di_purpose := "spending" |}.
Definition demo_balance : WalletBalanceSnapshotInput :=
  {| bs_asset_id := asset_1; bs_address_id := address_1; bs_balance := "1000000";
     bs_source := "manual"; bs_observed_at := Some "2026-01-02T11:00:00Z"%string |}.
Definition with_project (d : wallet_db) : wallet_db :=
  {| subjects := subjects d; networks := networks d; assets := assets d;
     addresses := addresses d; network_revisions := network_revisions d;
     asset_revisions := asset_revisions d; address_revisions := address_revisions d;
     snapshots := snapshots d; projects := [("project-1"%string, alice)]; goals := goals d;
     bounties := bounties d; submissions := submissions d; policies := policies d;
     orders := orders d; journals := journals d; entries := entries d;
     executions := executions d; attempts := attempts d;
     reconciliations := reconciliations d; audits := audits d |}.

Definition demo_policy : PaymentPolicyInput :=
  {| pi_mode := MConditional; pi_allowed_network_ids := []; pi_allowed_asset_ids := [];
     pi_per_order_limit := "5000"; pi_daily_limit := "8000"; pi_monthly_limit := "0";
     pi_daily_order_limit := 10; pi_monthly_order_limit := 0; pi_min_balance := "100";
     pi_max_observation_age_seconds := 86400; pi_automatic_max_amount := "0";
     pi_anomaly_block := true; pi_emergency_paused := false; pi_automation_enabled := None;
     pi_recipient_allowlist_enabled := false; pi_allowed_recipient_addresses := [] |}.
Definition demo_bounty : BountyInput :=
  {| bi_title := "Fix a bug"; bi_description := "Repair the parser";
     bi_acceptance_criteria := ["tests pass"]; bi_network_id := net_1;
     bi_asset_id := asset_1; bi_reward_amount := "2500";
     bi_opens_at := "2026-01-01T00:00:00+00:00"; bi_expires_at := "2026-02-01T00:00:00+00:00";
     bi_max_submissions := 5; bi_reward_slots := 1; bi_project_id := Some "project-1"%string;
     bi_goal_id := None; bi_idempotency_key := "bounty-key" |}.
Definition demo_submission : SubmissionInput :=
  {| si_counterparty := "bob"; si_content := "patch"; si_evidence := ["link"];
     si_recipient_address := demo_address 99; si_idempotency_key := "sub-key";
     si_consent_version := 1 |}.

(** ** The states *)

Definition after (op : wallet_op) (w : world wallet_db) : world wallet_db := (run_op op w).2.

Definition op1 := EnsureIdentity alice.
Definition reg1 := RegisterNetwork alice demo_network "operator".
Definition reg2 := RegisterAsset alice demo_asset "operator".
Definition reg3 := RegisterAddress alice demo_source "operator".
Definition reg4 := RecordBalance alice demo_balance "operator".
Definition op3 := UpdatePolicy alice demo_policy 1 "operator" None.
Definition op4 := CreateBounty alice demo_bounty "operator".
Definition bounty_1 := Eval vm_compute in uid "bounty" 11.
Definition op5 := PublishBounty bounty_1 alice "operator".
Definition op6 := Submit bounty_1 alice demo_submission.
Definition submission_1 := Eval vm_compute in uid "submission" 14.
Definition op7 := Decide submission_1 alice true "good" "operator".
Definition order_1 := Eval vm_compute in uid "payorder" 17.
Definition op8 := ConfirmOrder order_1 alice "operator".
Definition op9 := ExecuteOrder order_1 alice "operator" None None None.
Definition execution_1 := Eval vm_compute in uid "wallet_exec" 24.
Definition op10 := PollReceipt execution_1 alice "operator".
Definition op11 := ReconcileRequired execution_1 alice "operator" "reorg".
Definition op13 := RefundOrder order_1 alice "operator" "chain failure".
(** The process dies after the first transaction of the execution. *)
Definition op9' := ExecuteInterrupted order_1 alice "operator" None None None.

Definition w0 : world wallet_db := World empty_db 0 0.
Definition w1 := Eval vm_compute in after op1 w0.
Definition w1a := Eval vm_compute in after reg1 w1.
Definition w1b := Eval vm_compute in after reg2 w1a.
Definition w1c := Eval vm_compute in after reg3 w1b.
Definition w1d := Eval vm_compute in after reg4 w1c.
Definition w2 :=
  Eval vm_compute in World (with_project (db w1d)) (tick w1d) (Prelude.fresh w1d).
Definition w3 := Eval vm_compute in after op3 w2.
Definition w4 := Eval vm_compute in after op4 w3.
Definition w5 := Eval vm_compute in after op5 w4.
Definition w6 := Eval vm_compute in after op6 w5.
Definition w7 := Eval vm_compute in after op7 w6.
Definition w8 := Eval vm_compute in after op8 w7.
Definition w9 := Eval vm_compute in after op9 w8.
Definition w10 := Eval vm_compute in after op10 w9.
Definition w11 := Eval vm_compute in after op11 w10.
Definition w12 := Eval vm_compute in after op10 w11.
Definition w13 := Eval vm_compute in after op13 w12.
Definition w9' := Eval vm_compute in after op9' w8.

Lemma reach_step op w w' : reachable w → after op w = w' → reachable w'.
Proof.
  intros (w0 & E & H) <-. exists w0. split; [done|]. eapply rtc_r; [exact H|]. apply step_op.
Qed.
Ltac reached op H := apply (reach_step op _ _ H); vm_compute; reflexivity.

Lemma reach_w0 : reachable w0.
Proof. exists w0. split; [done|apply rtc_refl]. Qed.
Lemma reach_w1 : reachable w1.
Proof. reached op1 reach_w0. Qed.
Lemma reach_w1a : reachable w1a.
Proof. reached reg1 reach_w1. Qed.
Lemma reach_w1b : reachable w1b.
Proof. reached reg2 reach_w1a. Qed.
Lemma reach_w1c : reachable w1c.
Proof. reached reg3 reach_w1b. Qed.
Lemma reach_w1d : reachable w1d.
Proof. reached reg4 reach_w1c. Qed.
Lemma reach_w2 : reachable w2.
Proof.
  destruct reach_w1d as (w' & E & H). exists w'. split; [done|]. eapply rtc_r; [exact H|].
  apply (step_other w1d (db w2) (tick w2) (Prelude.fresh w2)). repeat split. by exists [].
Qed.
Lemma reach_w3 : reachable w3.
Proof. reached op3 reach_w2. Qed.
Lemma reach_w4 : reachable w4.
Proof. reached op4 reach_w3. Qed.
Lemma reach_w5 : reachable w5.
Proof. reached op5 reach_w4. Qed.
Lemma reach_w6 : reachable w6.
Proof. reached op6 reach_w5. Qed.
Lemma reach_w7 : reachable w7.
Proof. reached op7 reach_w6. Qed.
Lemma reach_w8 : reachable w8.
Proof. reached op8 reach_w7. Qed.
Lemma step_w9 : wallet_step w8 w9.
Proof. assert (after op9 w8 = w9) as <- by (vm_compute; reflexivity). apply step_op. Qed.
Lemma reach_w9 : reachable w9.
Proof. reached op9 reach_w8. Qed.
Lemma reach_w10 : reachable w10.
Proof. reached op10 reach_w9. Qed.
Lemma reach_w11 : reachable w11.
Proof. reached op11 reach_w10. Qed.
Lemma reach_w12 : reachable w12.
Proof. reached op10 reach_w11. Qed.
Lemma reach_w13 : reachable w13.
Proof. reached op13 reach_w12. Qed.
Lemma reach_w9' : reachable w9'.
Proof. reached op9' reach_w8. Qed.
