(* ===== verification/RegistryScenario.v ===== *)
(** * The registry at work

    The registrations of the scenario, then the revocations in the order the
    program allows, a registration that locks itself out, and the theorems
    applied to them. *)

From stdpp Require Import relations.
From S2P Require Import Prelude Tables PyStr Json Digest Time WalletTypes RegistryTypes.
From S2P Require Import WalletTransfer WalletDb WalletEconomy RegistryDb RegistryStore.
From S2P Require Import RegistryHistory RegistryIntegrity RegistryHealth WalletOrders.
From S2P Require Import WalletSubmissions WalletExecution WalletEngine WalletEffects.
From S2P Require Import RegistryFrame WalletSteps WalletSystem RegistryInv RegistrySteps.
From S2P Require Import RegistryUnique RegistryVerify RegistryPages RegistryObservations.
From S2P Require Import RegistryBreakdown WalletScenario.
Local Open Scope Z_scope.

#[export] Instance demo_sound : SoundEnv.
Proof.
  split; intros n; [by vm_compute|].
  change (len (pad 32 (Z.of_nat n)) = 32). unfold len. by rewrite pad_length.
Qed.

(** ** Registration and revocation *)

Definition rev1 := RevokeAddress address_1 "rotated" "operator" alice.
Definition rev2 := RevokeAsset asset_1 "delisted" "operator" alice.
Definition rev3 := RevokeNetwork net_1 "retired" "operator" alice.
Definition v1 := Eval vm_compute in after rev1 w1d.
Definition v2 := Eval vm_compute in after rev2 v1.
Definition v3 := Eval vm_compute in after rev3 v2.

Lemma registry_reach_step op w w' : registry_reachable w → after op w = w' → registry_reachable w'.
Proof.
  intros (w0 & E & H) <-. exists w0. split; [done|]. eapply rtc_r; [exact H|]. apply registry_op.
Qed.
Ltac registered op H := apply (registry_reach_step op _ _ H); vm_compute; reflexivity.
Lemma registry_w0 : registry_reachable w0.
Proof. exists w0. split; [done|apply rtc_refl]. Qed.
Lemma registry_w1 : registry_reachable w1.
Proof. registered op1 registry_w0. Qed.
Lemma registry_w1a : registry_reachable w1a.
Proof. registered reg1 registry_w1. Qed.
Lemma registry_w1b : registry_reachable w1b.
Proof. registered reg2 registry_w1a. Qed.
Lemma registry_w1c : registry_reachable w1c.
Proof. registered reg3 registry_w1b. Qed.
Lemma registry_w1d : registry_reachable w1d.
Proof. registered reg4 registry_w1c. Qed.
Lemma registry_v1 : registry_reachable v1.
Proof. registered rev1 registry_w1d. Qed.
Lemma registry_v2 : registry_reachable v2.
Proof. registered rev2 registry_v1. Qed.
Lemma registry_v3 : registry_reachable v3.
Proof. registered rev3 registry_v2. Qed.

Lemma registry_passes_check_witness :
  ∃ counts, verify_registry alice v2 = (Ok counts, v2) ∧
    map snd counts = [1; 1; 1; 2; 1; 2; 1] ∧ map n_status (networks (db v3)) = ["revoked"%string].
Proof.
  eexists. split; [|split].
  - eapply (registry_passes_check v2 alice); [exact registry_v2|vm_compute; reflexivity|].
    intros n Hn _. apply list_elem_of_singleton in Hn as ->. vm_compute. reflexivity.
  - vm_compute. reflexivity.
  - vm_compute. reflexivity.
Defined.

Lemma registry_rows_readable_witness :
  ∃ a b s, a ∈ assets (db v2) ∧ _asset_from_row a = Ok a ∧ as_status a = "revoked"%string ∧
    b ∈ addresses (db v2) ∧ _address_from_row b = Ok b ∧
    s ∈ snapshots (db v2) ∧ _balance_from_row s = Ok s.
Proof.
  destruct (registry_rows_readable v2 registry_v2) as (_ & H2 & H3 & H4).
  eexists _, _, _. split_and!; [apply here|apply H2, here|reflexivity|apply here|apply H3, here
    |apply here|apply H4, here].
Defined.
Lemma registry_hierarchy_witness :
  ∃ a n, a ∈ assets (db w1d) ∧ as_status a = "active"%string ∧ n ∈ networks (db w1d) ∧
    n_network_id n = as_network_id a ∧ n_status n = "active"%string.
Proof.
  destruct (registry_hierarchy w1d registry_w1d) as (H & _). eexists.
  edestruct H as (n & H1 & H2 & _ & _ & H3); [apply here|]. exists n.
  split_and!; [apply here|reflexivity|exact H1|exact H2|apply H3; reflexivity].
Defined.

(** ** Observations *)

Definition observation (balance at_ : string) : WalletBalanceSnapshotInput :=
  {| bs_asset_id := asset_1; bs_address_id := address_1; bs_balance := balance;
     bs_source := "manual"; bs_observed_at := Some at_ |}.
Definition obs1 := RecordBalance alice (observation "400000" "2026-01-02T10:00:00Z") "operator".
Definition obs2 := RecordBalance alice (observation "1000000" "2026-01-02T11:30:00Z") "operator".
Definition o1 := Eval vm_compute in after obs1 w1d.
Definition o2 := Eval vm_compute in after obs2 o1.
Lemma registry_o1 : registry_reachable o1.
Proof. registered obs1 registry_w1d. Qed.
(** The third observation arrives between the two pages. *)
Definition reading (k : nat) : world wallet_db := match k with O => o1 | _ => o2 end.
Lemma reading_step k : rtc registry_step (reading k) (reading (S k)).
Proof.
  destruct k; [|apply rtc_refl]. apply rtc_once.
  assert (reading 1 = after obs2 o1) as -> by (vm_compute; reflexivity). apply registry_op.
Qed.
Definition alice_filter : balance_filter :=
  {| f_subject := alice; f_network := None; f_asset := Some asset_1; f_address := None |}.

Lemma history_pages_complete_witness :
  ∃ pages, walk_pages alice_filter 1 reading 2 None = Some pages ∧
    concat pages = history_of alice_filter (snapshots (db o1)) ∧
    map (map sn_balance) pages = [["1000000"]; ["400000"]]%string.
Proof.
  destruct (history_pages_complete reading alice_filter 1) as (pages & H1 & H2 & H3 & H4);
    [exact registry_o1|exact reading_step| |vm_compute; reflexivity
    |unfold WALLET_BALANCE_HISTORY_MAX_PAGE_SIZE; lia|].
  { intros [|k]; vm_compute; discriminate. }
  exists pages. split; [exact H1|]. split; [exact H2|].
  assert (E : Some pages = walk_pages alice_filter 1 reading 2 None) by (symmetry; exact H1).
  vm_compute in E. injection E as ->. vm_compute. reflexivity.
Defined.

Definition noon : reference_time := AtText "2026-01-02T12:00:00.000+00:00".
Lemma stable_o1 n : n ∈ networks (db o1) → n_subject_id n = alice → network_stable n.
Proof. intros Hn _. apply list_elem_of_singleton in Hn as ->. vm_compute. reflexivity. Qed.
Lemma observation_health_exact_witness :
  ∃ r, observation_health alice 86400 (Some noon) o1 = (Ok r, o1) ∧
    h_fresh (or_health r) = 1 ∧ h_anomalous (or_health r) = 1 ∧ or_status r = "attention"%string.
Proof.
  edestruct (observation_health_exact o1 alice alice 86400 noon)
    as (r & H & _ & _ & H1 & _ & _ & _ & H2 & _ & H3);
    [exact registry_o1|vm_compute; reflexivity|exact stable_o1
    |unfold WALLET_BALANCE_OBSERVATION_MAX_WINDOW_SECONDS; lia|vm_compute; reflexivity
    |vm_compute; discriminate|].
  exists r. split; [exact H|]. split; [rewrite H1; vm_compute; reflexivity|].
  split; [rewrite H2; vm_compute; reflexivity|].
  vm_compute in H. injection H as <-. reflexivity.
Defined.

Lemma breakdown_partitions_health_witness :
  ∃ b, observation_health_breakdown alice "source" None None 100 86400 (Some noon) o1 = (Ok b, o1) ∧
    map (λ e, e.1.1) (br_groups b) = [Some "manual"%string] ∧
    sum_by (λ e, g_snapshot_count e.1.2) (br_groups b) = 2.
Proof.
  edestruct (breakdown_partitions_health o1 alice alice "source" 100 86400 noon)
    as (r & b & _ & H & _ & _ & _ & _ & _ & _ & _ & _ & H2 & _);
    [exact registry_o1|vm_compute; reflexivity|exact stable_o1|by right
    |unfold WALLET_BALANCE_OBSERVATION_MAX_WINDOW_SECONDS; lia|vm_compute; reflexivity
    |vm_compute; discriminate|split; vm_compute; discriminate|lia|].
  exists b. split; [exact H|]. split; [|rewrite H2; vm_compute; reflexivity].
  vm_compute in H. injection H as <-. reflexivity.
Defined.

(** ** A registration that cannot be read back *)

Definition spaced_network : WalletNetworkInput :=
  {| ni_label := "Spaced"; ni_chain_family := "evm"; ni_chain_id := 10; ni_native_symbol := "ETH";
     ni_rpc_url := Some "https://rpc.example.org :443"%string |}.
Definition u1 := Eval vm_compute in after (RegisterNetwork alice spaced_network "operator") w1.
Lemma registry_u1 : registry_reachable u1.
Proof. registered (RegisterNetwork alice spaced_network "operator") registry_w1. Qed.

(** A URL with a space before its port is accepted, and stored with the
    space at its end, where the validator does not accept it again.  The
    registration itself raises, although its row is committed; the network
    can then be neither read, revoked nor checked. *)
Lemma unstable_url_locks_out_witness :
  ∃ n, n ∈ networks (db u1) ∧ n_rpc_url n = Some "https://rpc.example.org "%string ∧
    n_status n = "active"%string ∧
    (run_op (RegisterNetwork alice spaced_network "operator") w1).1
      = Raise (IntegrityError ("wallet network state is non-canonical: " +:+ n_network_id n)) ∧
    (∃ e v, get_network (n_network_id n) alice u1 = (Raise e, v)) ∧
    (∃ e v, revoke_network (n_network_id n) "wrong url" "operator" alice u1 = (Raise e, v) ∧
       db v = db u1) ∧
    (∃ e v, verify_registry alice u1 = (Raise e, v)).
Proof.
  eexists. edestruct (unstable_url_locks_out u1 u1) as (_ & Hg & Hr & Hv);
    [exact registry_u1|apply here| |apply rtc_refl|].
  { unfold network_stable. vm_compute. discriminate. }
  split; [apply here|]. split; [vm_compute; reflexivity|]. split; [vm_compute; reflexivity|].
  split; [vm_compute; reflexivity|]. split; [exact Hg|]. split; [apply Hr|exact Hv].
Defined.
