(* ===== verification/WalletWitness.v ===== *)
(** * The theorems at work

    Each theorem that has hypotheses is applied to states of the scenario. *)

From S2P Require Import Prelude Tables PyStr Json Digest Time WalletTypes RegistryTypes WalletTransfer WalletDb.
From S2P Require Import WalletEconomy WalletOrders WalletSubmissions WalletExecution WalletEngine.
From S2P Require Import WalletIntegrity WalletEffects WalletSteps WalletSystem WalletLedger.
From S2P Require Import WalletRecords WalletVerify WalletExecInv WalletPolicy WalletSafety.
From S2P Require Import WalletOps WalletSettlement WalletData WalletBalances WalletScenario.
From stdpp Require Import relations.
Local Open Scope Z_scope.

(** The first row of a table. *)
Ltac first_row := simpl; apply here.

Lemma ledger_double_entry_witness :
  ∃ j o e1 e2, j ∈ journals (db w10) ∧ o ∈ orders (db w10) ∧
    j_network_id j = o_network_id o ∧
    select (λ e, e_journal_id e == j_journal_id j) (entries (db w10)) = [e1; e2] ∧
    e_amount e1 = o_amount o ∧ booked_to j e1.
Proof.
  eexists. destruct (ledger_double_entry w10 reach_w10) as [H _].
  edestruct H as (o & e1 & e2 & H1 & _ & _ & H0 & _ & _ & H2 & _ & H3 & _ & H4 & _); [first_row|].
  exists o, e1, e2. split_and!; [first_row|exact H1|exact H0|exact H2|exact H3|exact H4].
Defined.

Lemma wallet_refines_payment_witness :
  ∃ o o', o ∈ orders (db w8) ∧ o_status o = OReserved ∧ o' ∈ orders (db w9) ∧ same_order o o' ∧
    rtc pay_step (view (db w8) o) (view (db w9) o').
Proof.
  eexists. edestruct (wallet_refines_payment w8 w9) as (o' & H1 & H2 & H3);
    [exact reach_w8|exact step_w9|first_row|].
  exists o'. split_and!; [first_row|reflexivity|exact H1|exact H2|exact H3].
Defined.

Lemma order_journals_agree_witness :
  ∃ o, o ∈ orders (db w10) ∧ o_status o = OConfirmed ∧
    pay_journals (o_status o) (journal_types (db w10) (o_order_id o)) = true.
Proof.
  eexists. split; [first_row|]. split; [reflexivity|].
  apply (order_journals_agree w10 _ reach_w10). first_row.
Defined.

Lemma reward_slots_respected_witness :
  ∃ b, b ∈ bounties (db w10) ∧ accepted_of b (db w10) = 1 ∧ accepted_of b (db w10) <= b_reward_slots b.
Proof.
  eexists. split; [first_row|]. split; [reflexivity|].
  apply (reward_slots_respected w10 _ reach_w10). first_row.
Defined.

Lemma orders_match_accepted_witness :
  ∃ o s b, o ∈ orders (db w10) ∧ s ∈ submissions (db w10) ∧ b ∈ bounties (db w10) ∧ order_for s b o.
Proof.
  destruct (orders_match_accepted w10 reach_w10) as [H _]. eexists.
  edestruct H as (s & b & H1 & _ & H2 & _ & H3); [first_row|].
  exists s, b. split_and!; [first_row|exact H1|exact H2|exact H3].
Defined.

Lemma verify_integrity_exact_witness :
  ∃ w', ok (verify_integrity alice) w10 (economy_totals (db w10) alice) w' ∧
    economy_consistent (db w10) alice ∧ w' = w10.
Proof.
  pose proof (reachable_reach _ reach_w10) as R. exists w10.
  assert (H := verify_integrity_exact w10 alice alice (economy_totals (db w10) alice) w10
    (wallet_reach_keys _ R) (l_journal_key _ (ledger_reach _ R)) eq_refl).
  assert (C : economy_consistent (db w10) alice) by (apply reach_consistent; [exact R|first_row]).
  split_and!; [apply H; by split_and!|exact C|reflexivity].
Defined.

Lemma reachable_passes_check_witness :
  ∃ counts, verify_integrity alice w10 = (Ok counts, w10) ∧ n_entries counts = 4.
Proof.
  eexists. split; [apply (reachable_passes_check w10 alice alice reach_w10); [first_row|reflexivity]|].
  reflexivity.
Defined.

Lemma executions_pay_accepted_witness :
  ∃ x o s b, x ∈ executions (db w10) ∧ o ∈ orders (db w10) ∧ s ∈ submissions (db w10) ∧
    b ∈ bounties (db w10) ∧ x_recipient_address x = s_recipient_address s ∧
    x_amount x = b_reward_amount b ∧ x_source_address x ≠ x_recipient_address x.
Proof.
  eexists. edestruct (executions_pay_accepted w10)
    as (o & s & b & H1 & H2 & H3 & _ & _ & _ & _ & _ & H4 & H5 & _ & _ & H6 & _);
    [exact reach_w10|first_row|].
  exists o, s, b. split_and!; [first_row|exact H1|exact H2|exact H3|exact H4|exact H5|exact H6].
Defined.

Lemma attempts_numbered_witness :
  ∃ x, x ∈ executions (db w10) ∧ 1 <= x_attempt_count x <= 32.
Proof.
  eexists. split; [first_row|]. apply (attempts_numbered w10 _ reach_w10). first_row.
Defined.

Lemma reachable_passes_execution_check_witness :
  verify_database_integrity alice w10 = (Ok (1, 1), w10).
Proof. apply (reachable_passes_execution_check w10 alice alice reach_w10 eq_refl). Defined.

Lemma recovery_complete_witness :
  ∃ rs w', ok (recover_database_inflight alice "operator" 10) w9' rs w' ∧
    length (still_signing alice (db w9')) = 1%nat ∧ still_signing alice (db w') = [].
Proof.
  assert (∃ rs w', ok (recover_database_inflight alice "operator" 10) w9' rs w') as (rs & w' & H).
  { eexists _, _. unfold ok. vm_compute. reflexivity. }
  exists rs, w'. split_and!; [exact H|reflexivity|].
  apply (recovery_complete w9' alice "operator" 10 rs w' reach_w9' H).
  apply Z.leb_le. vm_compute. reflexivity.
Defined.

(** Evaluates a run on the concrete state. *)
Ltac runs := unfold ok; vm_compute; reflexivity.

Lemma reservation_permitted_witness :
  ∃ row policy now, row ∈ orders (db w7) ∧ _policy_row (o_subject_id row) (db w7) = Some policy ∧
    policy_permits (db w7) now row policy None.
Proof.
  pose proof (wallet_reach_keys _ (reachable_reach _ reach_w7)) as K.
  assert (∃ row u w', row ∈ orders (db w7) ∧ ok (_reserve_order row "operator") w7 u w')
    as (row & u & w' & Hrow & Hrun) by (eexists _, _, _; split; [first_row|runs]).
  destruct (reservation_permitted w7 row "operator" u w' K Hrow Hrun)
    as (policy & now & H1 & _ & H2 & _).
  exists row, policy, now. split_and!; [exact Hrow|exact H1|exact H2].
Defined.

(** The transfer of the interrupted execution, built again. *)
Definition demo_transfer (x : execution_row) : result WalletUnsignedTransfer :=
  build_intent (intent_of_execution x).

Lemma dispatch_rechecked_witness :
  ∃ x t r w' now, x ∈ executions (db w9') ∧ demo_transfer x = Ok t ∧
    ok (_sign_and_broadcast t (order_1 +:+ ":attempt:1") (_execution_from_row x) 2) w9' r w' ∧
    dispatchable (db w9') now t (order_1 +:+ ":attempt:1") (_execution_from_row x) 2.
Proof.
  assert (∃ x t r w', x ∈ executions (db w9') ∧ demo_transfer x = Ok t ∧
    ok (_sign_and_broadcast t (order_1 +:+ ":attempt:1") (_execution_from_row x) 2) w9' r w')
    as (x & t & r & w' & Hx & Ht & Hrun).
  { eexists _, _, _, _. split; [first_row|]. split; [vm_compute; reflexivity|]. runs. }
  destruct (dispatch_rechecked w9' t (order_1 +:+ ":attempt:1") (_execution_from_row x) 2)
    as [(_ & _ & (now & _ & Hd) & _)|(err & w2 & _ & E & _)].
  - exists x, t, r, w', now. split_and!; [exact Hx|exact Ht|exact Hrun|exact Hd].
  - unfold ok in Hrun. rewrite E in Hrun. discriminate Hrun.
Defined.

Lemma stopped_policy_refuses_witness :
  stopped alice (db w1) ∧ refused (confirm_order order_1 alice "operator") w1.
Proof.
  assert (H : stopped alice (db w1)).
  { intros p E. vm_compute in E. injection E as <-. right. reflexivity. }
  split; [exact H|]. apply (stopped_policy_refuses w1 alice order_1 "operator" H).
Defined.

Lemma nonces_unique_witness :
  ∃ x, x ∈ executions (db w10) ∧ nonce_indexed x = true ∧ x = x.
Proof.
  eexists. split; [first_row|]. split; [reflexivity|].
  apply (nonces_unique w10 _ _ reach_w10); [first_row|first_row|reflexivity..].
Defined.

Lemma history_append_only_witness : ∃ l, audits (db w9) = audits (db w8) ++ l.
Proof. apply (history_append_only w8 w9 reach_w8 step_w9). Defined.

Lemma closed_orders_final_witness :
  ∃ o o', o ∈ orders (db w13) ∧ o_status o = ORefunded ∧ o' ∈ orders (db w13) ∧
    view (db w13) o' = view (db w13) o.
Proof.
  eexists. edestruct (closed_orders_final w13 w13) as (o' & H1 & _ & H2);
    [exact reach_w13|apply rtc_refl|first_row|reflexivity|].
  exists o'. split_and!; [first_row|reflexivity|exact H1|exact H2].
Defined.

Lemma submit_idempotent_witness :
  ∃ r w' w'', ok (submit_to_bounty bounty_1 alice demo_submission) w5 r w' ∧
    ok (submit_to_bounty bounty_1 alice demo_submission) w' r w'' ∧ db w'' = db w'.
Proof.
  assert (∃ r w', ok (submit_to_bounty bounty_1 alice demo_submission) w5 r w') as (r & w' & H)
    by (eexists _, _; runs).
  destruct (submit_idempotent _ _ _ _ _ _ H) as (w'' & H1 & H2). by exists r, w', w''.
Defined.

Lemma create_idempotent_witness :
  ∃ r w' w'', ok (create_bounty alice demo_bounty "operator") w3 r w' ∧
    ok (create_bounty alice demo_bounty "operator") w' r w'' ∧ db w'' = db w'.
Proof.
  assert (∃ r w', ok (create_bounty alice demo_bounty "operator") w3 r w') as (r & w' & H)
    by (eexists _, _; runs).
  destruct (create_idempotent _ _ _ _ _ _ H) as (w'' & H1 & H2). by exists r, w', w''.
Defined.

Lemma failure_leaves_no_trace_witness :
  ∃ e w', run_op op8 w8 = (Raise e, w') ∧ db w' = db w8.
Proof.
  assert (∃ e w', run_op op8 w8 = (Raise e, w')) as (e & w' & H)
    by (eexists _, _; vm_compute; reflexivity).
  exists e, w'. split; [exact H|]. exact (failure_leaves_no_trace op8 w8 e w' eq_refl H).
Defined.

Lemma operator_required_witness : refused (run_op (ConfirmOrder order_1 alice " subject ")) w7.
Proof. apply (operator_required (ConfirmOrder order_1 alice " subject ") " subject " w7 eq_refl). right. reflexivity. Defined.

Lemma policy_compare_and_swap_witness :
  refused (update_policy alice demo_policy 7 "operator" None) w3.
Proof. apply (policy_compare_and_swap w3 alice demo_policy 7 "operator"). vm_compute. discriminate. Defined.

(** A bounty whose end has passed when it is posted. *)
Definition late_bounty : BountyInput :=
  {| bi_title := "Too late"; bi_description := "Already over";
     bi_acceptance_criteria := ["none"]; bi_network_id := net_1; bi_asset_id := asset_1;
     bi_reward_amount := "10"; bi_opens_at := "2026-01-01T00:00:00+00:00";
     bi_expires_at := "2026-01-01T06:00:00+00:00"; bi_max_submissions := 1;
     bi_reward_slots := 1; bi_project_id := Some "project-1"%string; bi_goal_id := None;
     bi_idempotency_key := "late-key" |}.
Definition w4' := Eval vm_compute in after (CreateBounty alice late_bounty "operator") w3.

Lemma expired_bounty_refuses_witness :
  ∃ b, bounty_of_subject bounty_1 alice (db w4') = Some b ∧ b_status b = BDraft ∧
    refused (_transition_bounty bounty_1 alice BPublished "operator") w4'.
Proof.
  eexists. split; [vm_compute; reflexivity|]. split; [reflexivity|].
  eapply (expired_bounty_refuses w4' bounty_1 alice);
    [vm_compute; reflexivity|reflexivity|vm_compute; reflexivity|..];
    (eexists; split; [vm_compute; reflexivity|lia]).
Defined.

Lemma confirmed_by_receipt_witness :
  ∃ r w' x, ok (poll_receipt execution_1 alice "operator") w9 r w' ∧
    execution_of_subject execution_1 alice (db w9) = Some x ∧ x_status x = XBroadcast ∧
    (x_status x = XConfirmed ∨ ∃ k receipt,
      get_receipt k tx_hash_a (x_chain_id x) = Ok (Some receipt) ∧ wr_status receipt = 1).
Proof.
  assert (∃ r w', ok (poll_receipt execution_1 alice "operator") w9 r w' ∧
    xr_status r = XConfirmed) as (r & w' & Hrun & Hc)
    by (eexists _, _; split; [runs|reflexivity]).
  destruct (confirmed_by_receipt w9 execution_1 alice "operator" r w' Hrun Hc)
    as (x & Hx & Hk).
  exists r, w', x. split_and!; [exact Hrun|exact Hx|..].
  - vm_compute in Hx. injection Hx as <-. reflexivity.
  - destruct Hk as [Hk|(tx & k & receipt & _ & Hk & _ & Hs)]; [by left|right].
    exists k, receipt. split; [exact Hk|exact Hs].
Defined.

Lemma settled_at_most_once_witness :
  refused (_mark_confirmed execution_1 alice "operator" (demo_receipt 1)) w11.
Proof.
  eapply (settled_at_most_once w11 execution_1 alice).
  - vm_compute. reflexivity.
  - intros o Ho _. revert Ho. simpl. rewrite list_elem_of_singleton. by intros ->.
  - eexists. split; [simpl; apply there, here|]. split; reflexivity.
Defined.

(** A transfer of 2500 units of a token. *)
Definition demo_intent : WalletTransferIntent :=
  {| ti_order_id := order_1; ti_subject_id := alice; ti_network_id := net_1;
     ti_asset_id := "asset-2"; ti_asset_type := "token";
     ti_contract_address := Some (demo_address 100); ti_source_address := demo_address 98;
     ti_recipient_address := demo_address 99; ti_amount := "2500"; ti_chain_id := 1;
     ti_nonce := 7; ti_gas_limit := 60000; ti_max_fee_per_gas := "2" |}.

Lemma transfer_faithful_witness :
  ∃ i t v, validate_WalletTransferIntent demo_intent = Ok i ∧ build i = Ok t ∧
    0 < v <= SQLITE_INT64_MAX ∧ tr_nonce t = ti_nonce i.
Proof.
  assert (∃ i, validate_WalletTransferIntent demo_intent = Ok i) as (i & Hi)
    by (eexists; vm_compute; reflexivity).
  destruct (transfer_faithful demo_intent i Hi) as (t & v & H1 & _ & H2 & _ & H3 & _).
  exists i, t, v. split_and!; [exact Hi|exact H1|apply H2|apply H2|exact H3].
Defined.

Lemma books_balance_witness :
  ∃ totals, ledger_balances alice None None w10
      = (Ok (map balance_of (sort_by (λ x y, key_le x.1 y.1) totals)), w10) ∧
    net_of (λ k, (k.1.1 == net_1) && (k.1.2 == asset_1)) totals = 0.
Proof.
  destruct (books_balance w10 alice alice None None reach_w10 eq_refl) as (totals & H & _ & Hn).
  exists totals. split; [exact H|apply Hn].
Defined.

Lemma reserved_is_set_aside_witness :
  ∃ bs b, ledger_balances alice None None w8 = (Ok bs, w8) ∧ b ∈ bs ∧ lb_account b = AReserved ∧
    lb_net b = "-2500"%string ∧
    lb_net b = show_Z (- set_aside (db w8) alice (lb_network_id b) (lb_asset_id b)).
Proof.
  assert (Hr : none_revoked (db w8)).
  { intros o Ho. revert Ho. simpl. rewrite list_elem_of_singleton. intros ->.
    rewrite list_elem_of_singleton. discriminate. }
  assert (∃ bs b, ledger_balances alice None None w8 = (Ok bs, w8) ∧ b ∈ bs ∧
    lb_account b = AReserved ∧ lb_net b = "-2500"%string) as (bs & b & H1 & H2 & H3 & H4).
  { eexists _, _. split; [vm_compute; reflexivity|]. split; [apply there, here|]. by split. }
  exists bs, b. split_and!; [exact H1|exact H2|exact H3|exact H4|].
  exact (reserved_is_set_aside w8 alice alice bs b reach_w8 Hr eq_refl H1 H2 H3).
Defined.

Lemma canonical_json_faithful_witness :
  strict_json_loads (canonical_json (JObj [("b"%string, JInt 1); ("a"%string, JList [JNull])]))
    = Ok (norm (JObj [("b"%string, JInt 1); ("a"%string, JList [JNull])])).
Proof.
  apply (canonical_json_faithful _ JNull).
  - split; [|by repeat split]. apply (bool_decide_unpack _). vm_compute. exact I.
  - exact I.
Defined.

(** ** What a revoked confirmation does to the ledger *)

(** C31: There is a run, made only of the operations of the wallet, in which
    a confirmed payment is revoked by [mark_reconcile_required], then found
    failed and refunded.  Its order has been reserved, settled and refunded:
    the reserved account is debited twice for one credit, ends overdrawn by
    the amount of the order, and the economy check still passes. *)
Theorem revoked_payment_debited_twice :
  ∃ (w : world wallet_db) o bs b counts,
    reachable w ∧ o ∈ orders (db w) ∧ o_status o = ORefunded ∧ o_amount o = "2500"%string ∧
    journal_types (db w) (o_order_id o) = [JReservation; JSettlement; JRefund] ∧
    ledger_balances (o_subject_id o) None None w = (Ok bs, w) ∧ b ∈ bs ∧
    lb_account b = AReserved ∧ lb_net b = "2500"%string ∧
    verify_integrity (o_subject_id o) w = (Ok counts, w).
Proof.
  eexists w13, _, _, _, _. split; [exact reach_w13|]. split; [first_row|].
  do 2 (split; [reflexivity|]). split; [vm_compute; reflexivity|].
  split; [vm_compute; reflexivity|]. split; [apply there, there, there, here|].
  do 2 (split; [reflexivity|]). vm_compute. reflexivity.
Qed.
